(* ===== verification/_CoqProject ===== *)
-Q . S2P
Prelude.v
Words.v
Cstr.v
Conv.v
SoftInt.v
SoftFloat.v
SoftDouble.v
Ustack.v
SimBase.v
Isa.v
SimRV32.v
SimRV32Spec.v
Alloc.v
Mutex.v
Malloc.v
Queue.v
LinkedList.v
Strings.v
Kernel.v
Task.v
Scheduler.v
Main.v
Demo.v
System.v
Sync.v
Noc.v
Crc.v
Interrupt.v
Ramdisk.v
Uhfs.v
Volume.v
Format.v
Directory.v
UhfsScripts.v
Mips.v
SimMips.v
SimMipsSpec.v
NocSim.v
Mpsoc.v
NocRouter.v
NocInterface.v
NocLinks.v
NocNet.v
NocDelivery.v
Arp.v
Uudp.v
UudpPorts.v
UudpDelivery.v
UudpDemo.v
