(* ===== verification/Prelude.v ===== *)
(** * HellfireOS: a verification development (root and prelude)

    HellfireOS is a preemptive realtime kernel for small 32-bit processors with
    its C library, drivers and network stacks, and the simulators it is run on.
    This library translates that code into Rocq functions and proves what each
    part promises. Paths are relative to [src/].

    ** The program and the files that model it

    - Machine words: [Words] (the C types as integers with their wrap-around).
    - Heap: [Alloc] is the interface the rest of the system relies on, a class
      with laws; [Malloc] ([sys/lib/malloc.c], MEM_ALLOC 3) implements it over
      a memory of words.
    - [Mutex] ([sys/sync/mutex.c]), [Queue] ([sys/lib/queue.c]), [LinkedList]
      ([sys/lib/list.c]): the data structures of the kernel, the last two
      proved against [Alloc] only.
    - Kernel: [Kernel] (control blocks and globals of [sys/include/kernel.h],
      [processor.c], [panic.c]), [Task] ([task.c]), [Scheduler]
      ([scheduler.c]: delay queue, dispatcher, the policies), [Main]
      ([main.c]), [Sync] ([semaphore.c], [condvar.c]); [System] has the
      theorems about all of them together and [Demo] a small running kernel on
      which theorems are tried.
    - C library ([lib/libc/libc.c], [sys/lib/kprintf.c]): [Cstr] (strings and
      blocks on a byte memory), [Strings] (the same calls on lists, for the
      kernel), [Conv] (conversions and printing), [SoftInt], [SoftFloat],
      [SoftDouble] (the arithmetic the compiler calls), [Crc]
      ([lib/misc/crc.c]).
    - Communication: [Noc] ([drivers/noc]: messages between cores as packets,
      on the kernel's queues), [Ustack] ([net/ustack]: Ethernet, ARP, IP, ICMP,
      UDP), [Arp] (two hosts resolving an address), [Uudp] and [UudpPorts]
      ([net/uudp]: the ports of the applications; opening and closing them),
      [UudpDelivery] (datagrams from application to application), [UudpDemo].
    - Simulators: [SimBase] (what they share); [SimRV32]
      ([usr/sim/hf_riscv_sim/hf_riscv_sim.c]), specified by [Isa], the RV32I
      instruction set, in [SimRV32Spec]; [SimMips]
      ([usr/sim/hf_risc_sim/hf_risc_sim.c]), specified by [Mips], the MIPS I
      instruction set, in [SimMipsSpec].
    - Interrupts: [Interrupt] ([arch/mips/hf-risc/drivers/interrupt.c], the
      table of handlers and the dispatch of pending causes).
    - Storage: [Ramdisk] ([drivers/device/device.c], [drivers/block/ramdisk.c])
      with the classes [Host] (the state a device lives in) and [BlockDevice],
      whose laws say what a disk promises; [Uhfs] ([fs/uhfs.c], every operation
      that does something) runs on any of them; [Volume] (the map of free
      blocks), [Format] (formatting and mounting) and [Directory] (files of the
      root directory) prove it against those laws only; [UhfsScripts] evaluates
      whole programs on the RAM disk.
    - MPSoC simulator ([usr/sim/mpsoc_sim/source]): [NocSim] ([noc.c], [noc.h]:
      routers, interfaces and handshakes of a mesh), [Mpsoc] (the network
      registers and the network's part of the main loop of [mpsoc_sim.c]; what
      the processors do there is an input). A router ([NocRouter]) and an
      interface ([NocInterface]) keep an invariant over the flits their ports
      have taken ([got]) and offered ([sent]); [NocLinks] joins the ports,
      [NocNet] carries the invariants through runs of the main loop, and
      [NocDelivery] concludes about packets.

    C code that can fail is a computation [ST]: it maps a state to a result and
    a new state, to [Panic] (the kernel halts itself), to [Fault] (an access
    outside any object, or another undefined operation) or to [Timeout] (a loop
    that is cut). A pointer is an address where code computes with it, and
    otherwise an index or the object itself; NULL is 0 or [None]. Variables
    passed by address are results. Signed overflow wraps, as the compilers
    used do it. Interrupts are disabled and enabled by [_di] and [_ei] on the
    state's interrupt status; where a task waits for an interrupt, what the
    interrupt does is a parameter or a step.

    ** What the theorems show

    - The kernel never panics, faults or hangs: after the boot, any sequence of
      calls and timer ticks keeps the invariant [kinv] and every further call
      returns ([System.kernel_calls_safe]); what each primitive and each policy
      does on every path (rate monotonic choice, aging, fairness of round
      robin, delays, spawning, killing, waiting and signalling).
    - The heap stays well formed and first-fit; queues refine bounded FIFOs,
      lists refine sequences; the spinlock excludes in every interleaving.
    - Library routines compute what they stand for: division, multiplication,
      shifts, text conversions, moves and searches, correctly rounded
      quotients, checksums as polynomial remainders.
    - Messages and datagrams arrive: [hf_send] to [hf_recv] over the network on
      chip with no packet buffer lost; from one application to another over UDP
      ports, IP and ARP, the address being resolved on the way
      ([UudpDelivery.datagram_received]). UDP ports refine bounded queues of
      datagrams.
    - A simulator cycle has the effect the instruction set gives the
      instruction, on a state that keeps its C types; interrupts of the MIPS
      machine are precise and its multiplications exact.
    - A disk sector read back is the one last written. The free blocks of a
      volume are a list: taking one takes its head and counting them gives its
      length; a formatted volume mounts with the superblock written; a file
      created in the root directory is found with its size, and its
      neighbours are as before.
    - The simulated mesh, of any width and height from 2 on and with any
      buffers, loses, invents and reorders no flit whatever the processors do,
      overruns no buffer, and a packet read was written by a processor and is
      addressed to the reader ([NocDelivery.packets_delivered]); its headers
      lead along row and column up to 16 by 16 nodes.

    Where code deviates from what it means to do the theorems state what it
    does, and examples evaluate it.

    ** Bounds and fuel

    Loops whose number of turns C bounds by a counter are structural. Other
    loops take fuel and answer [Timeout] without it; every property about them
    gives an amount that is enough (the number of heap blocks, of list nodes,
    33 or 65 for the bits of a word, the length of a queue, the memory size for
    strings, two more than the words of a volume for the chains of a file
    system), or states that no amount is ([__floatsisf] of the least integer).
    The configuration is that of the platform makefiles: MAX_TASKS 30,
    MEM_ALLOC 3, MUTEX_TYPE 0; HEAP_SIZE 500000; for the network on chip 3 by
    3 cores, packets of 64 flits and 64 slots; the processor is the big-endian
    hf-risc, where [long] has 32 bits.

    ** Not modelled

    The other simulators with the processor, the statistics and the bus of
    [usr/sim/mpsoc_sim], [ustack_init] and the link watchdog of [net/ustack], [atof] and [ftoa],
    [math.c], the allocators and the mutex that no platform selects. Left out: the functions of [fs/uhfs.c] that
    only return 0 ([hf_touch], [hf_fopen] and the other operations on open
    files), debug output ([KERNEL_LOG], [dprintf]), code whose effect is that of
    devices (SPI, SD card, Ethernet controllers, the hardware layers beyond
    what the kernel calls), assembly, the applications, and third-party code
    ([usr/tools], a part of GCC). *)

From Stdlib Require Export ZArith Lia.
From stdpp Require Export prelude list gmap numbers.

#[global] Open Scope Z_scope.

(** ** Outcomes of C code *)

(** What running a piece of C code leads to: a value, a call of the kernel's
    [panic] (which halts the machine with a cause), an access outside any
    object or another undefined operation, or exhausted fuel. *)
Inductive outcome (A : Type) : Type :=
| Ok (a : A)
| Panic (cause : Z)
| Fault
| Timeout.
Arguments Ok {A} a.
Arguments Panic {A} cause.
Arguments Fault {A}.
Arguments Timeout {A}.

#[export] Instance outcome_ret : MRet outcome := fun A => Ok.
#[export] Instance outcome_bind : MBind outcome := fun A B f o =>
  match o with
  | Ok a => f a
  | Panic c => Panic c
  | Fault => Fault
  | Timeout => Timeout
  end.

(** State-passing computations: C code over a state [S]. *)
Definition ST (S A : Type) : Type := S -> outcome (A * S).

#[export] Instance ST_ret (S : Type) : MRet (ST S) := fun A a s => Ok (a, s).
#[export] Instance ST_bind (S : Type) : MBind (ST S) := fun A B f m s =>
  match m s with
  | Ok (a, s') => f a s'
  | Panic c => Panic c
  | Fault => Fault
  | Timeout => Timeout
  end.

Definition get_st {S : Type} : ST S S := fun s => Ok (s, s).
Definition gets {S A : Type} (f : S -> A) : ST S A := fun s => Ok (f s, s).
Definition modify {S : Type} (f : S -> S) : ST S unit := fun s => Ok (tt, f s).
Definition panic_st {S A : Type} (cause : Z) : ST S A := fun _ => Panic cause.
Definition fault_st {S A : Type} : ST S A := fun _ => Fault.
Definition timeout_st {S A : Type} : ST S A := fun _ => Timeout.
Definition lift {S A : Type} (o : outcome A) : ST S A := fun s =>
  match o with
  | Ok a => Ok (a, s)
  | Panic c => Panic c
  | Fault => Fault
  | Timeout => Timeout
  end.
(** [if (b) m;] *)
Definition when {S : Type} (b : bool) (m : ST S unit) : ST S unit :=
  if b then m else mret tt.

Lemma ST_bind_assoc {S A B C : Type} (m : ST S A) (f : A -> ST S B)
    (g : B -> ST S C) (s : S) :
  (mbind g (mbind f m)) s = (mbind (fun a => mbind g (f a)) m) s.
Proof. unfold mbind, ST_bind. destruct (m s) as [[a s']| | |]; reflexivity. Qed.

Lemma ST_bind_Ok {S A B : Type} (m : ST S A) (f : A -> ST S B) s a s' :
  m s = Ok (a, s') -> (mbind f m) s = f a s'.
Proof. intros H. unfold mbind, ST_bind. by rewrite H. Qed.

Lemma ST_bind_inv {S A B : Type} (m : ST S A) (f : A -> ST S B) s r :
  (mbind f m) s = Ok r -> exists a s', m s = Ok (a, s') /\ f a s' = Ok r.
Proof.
  unfold mbind, ST_bind. destruct (m s) as [[a s']| | |]; naive_solver.
Qed.

(** Run the first computation of a sequence. *)
Ltac st_step E := rewrite (ST_bind_Ok _ _ _ _ _ E).

Create HintDb hf.
Create Rewrite HintDb hfr.

(** Unfold the state monad's plumbing in the goal. *)
Ltac st_unfold :=
  unfold mbind, mret, ST_bind, ST_ret, outcome_bind, outcome_ret, gets, get_st,
    modify, when, lift, panic_st, fault_st, timeout_st.

(** Lists in right-nested form. *)
Ltac app_norm := repeat first [rewrite <- app_assoc | rewrite <- app_comm_cons]; rewrite ?app_nil_r; cbn [app].
Ltac app_norm_in Q :=
  repeat first [rewrite <- app_assoc in Q | rewrite <- app_comm_cons in Q];
  rewrite ?app_nil_r in Q; cbn [app] in Q.

(** ** Arrays indexed by C integers *)

(** [l[i]] of a C array: nothing outside [0, length l). *)
Definition zget {A : Type} (l : list A) (i : Z) : option A :=
  if i <? 0 then None else l !! Z.to_nat i.

Definition zset {A : Type} (l : list A) (i : Z) (x : A) : list A :=
  if i <? 0 then l else <[Z.to_nat i := x]> l.

Definition zlen {A : Type} (l : list A) : Z := Z.of_nat (length l).

#[global] Arguments zget : simpl never.
#[global] Arguments zset : simpl never.
#[global] Arguments zlen : simpl never.

(** Reads and writes that fault outside the array. *)
Definition aget {A : Type} (l : list A) (i : Z) : outcome A :=
  match zget l i with Some x => Ok x | None => Fault end.

Definition aset {A : Type} (l : list A) (i : Z) (x : A) : outcome (list A) :=
  match zget l i with Some _ => Ok (zset l i x) | None => Fault end.

Section arrays.
Context {A : Type}.
Implicit Types (l : list A) (i j : Z) (x : A).

Lemma zlen_nonneg l : 0 <= zlen l.
Proof. unfold zlen. lia. Qed.

Lemma zget_Some_range l i x : zget l i = Some x -> 0 <= i < zlen l.
Proof.
  unfold zget, zlen. destruct (Z.ltb_spec i 0); [done|].
  intros Hl%lookup_lt_Some. lia.
Qed.

Lemma zget_is_Some l i : 0 <= i < zlen l -> exists x, zget l i = Some x.
Proof.
  unfold zget, zlen. intros H. destruct (Z.ltb_spec i 0); [lia|].
  apply lookup_lt_is_Some. lia.
Qed.

Lemma zget_None l i : i < 0 \/ zlen l <= i -> zget l i = None.
Proof.
  unfold zget, zlen. intros H. destruct (Z.ltb_spec i 0); [done|].
  apply lookup_ge_None. lia.
Qed.

Lemma zset_length l i x : length (zset l i x) = length l.
Proof. unfold zset. destruct (i <? 0); [done|]. apply length_insert. Qed.

Lemma zset_zlen l i x : zlen (zset l i x) = zlen l.
Proof. unfold zlen. by rewrite zset_length. Qed.

Lemma zget_zset_eq l i x : 0 <= i < zlen l -> zget (zset l i x) i = Some x.
Proof.
  unfold zget, zset, zlen. intros H. destruct (Z.ltb_spec i 0); [lia|].
  apply list_lookup_insert_eq. lia.
Qed.

Lemma zget_zset_ne l i j x : i <> j -> zget (zset l i x) j = zget l j.
Proof.
  unfold zget, zset. intros H.
  destruct (Z.ltb_spec j 0); [done|]. destruct (Z.ltb_spec i 0); [done|].
  apply list_lookup_insert_ne. lia.
Qed.

Lemma zset_zset l i x y : zset (zset l i x) i y = zset l i y.
Proof. unfold zset. destruct (i <? 0); [done|]. apply list_insert_insert_eq. Qed.

Lemma zset_same l i x : zget l i = Some x -> zset l i x = l.
Proof.
  unfold zget, zset. destruct (i <? 0); [done|]. apply list_insert_id.
Qed.

Lemma zget_app_l l k i : 0 <= i < zlen l -> zget (l ++ k) i = zget l i.
Proof.
  unfold zget, zlen. intros H. destruct (i <? 0); [done|].
  apply lookup_app_l. lia.
Qed.

Lemma zget_app_r l k i : zlen l <= i -> zget (l ++ k) i = zget k (i - zlen l).
Proof.
  unfold zget, zlen. intros H.
  destruct (Z.ltb_spec i 0); [lia|].
  destruct (Z.ltb_spec (i - Z.of_nat (length l)) 0); [lia|].
  rewrite lookup_app_r by lia. f_equal. lia.
Qed.

Lemma zlen_app l k : zlen (l ++ k) = zlen l + zlen k.
Proof. unfold zlen. rewrite length_app. lia. Qed.

Lemma zlen_cons x l : zlen (x :: l) = 1 + zlen l.
Proof. unfold zlen. simpl. lia. Qed.

Lemma zlen_nil : zlen (@nil A) = 0.
Proof. done. Qed.

Lemma zget_cons_0 x l : zget (x :: l) 0 = Some x.
Proof. done. Qed.

Lemma zget_cons_S x l i : 0 < i -> zget (x :: l) i = zget l (i - 1).
Proof.
  intros H. change (x :: l) with ([x] ++ l).
  rewrite zget_app_r; [done|]. unfold zlen; simpl; lia.
Qed.

Lemma list_eq_zget l k :
  zlen l = zlen k -> (forall i, 0 <= i < zlen l -> zget l i = zget k i) -> l = k.
Proof.
  unfold zlen, zget. intros Hlen H. apply list_eq. intros i.
  destruct (decide (i < length l)%nat) as [Hi|Hi].
  - specialize (H (Z.of_nat i) ltac:(lia)).
    destruct (Z.ltb_spec (Z.of_nat i) 0); [lia|]. by rewrite Nat2Z.id in H.
  - rewrite !lookup_ge_None_2; [done|lia|lia].
Qed.

Lemma aget_Ok l i x : zget l i = Some x -> aget l i = Ok x.
Proof. unfold aget. by intros ->. Qed.

Lemma aset_Ok l i x : 0 <= i < zlen l -> aset l i x = Ok (zset l i x).
Proof. unfold aset. intros [y ->]%zget_is_Some. done. Qed.
End arrays.

(** The length does not depend on the order. *)
#[export] Instance zlen_proper {A : Type} : Proper (Permutation ==> eq) (@zlen A).
Proof. intros l k P. unfold zlen. by rewrite P. Qed.

#[export] Hint Rewrite @zset_zlen @zset_length @zlen_app @zlen_cons @zlen_nil : hfr.
#[export] Hint Resolve zlen_nonneg : hf.

(** Lists produced by a function of the index. *)
Definition tabulate {A : Type} (n : nat) (f : Z -> A) : list A :=
  (fun i => f (Z.of_nat i)) <$> seq 0 n.

Lemma tabulate_zlen {A : Type} (n : nat) (f : Z -> A) : zlen (tabulate n f) = Z.of_nat n.
Proof. unfold tabulate, zlen. by rewrite length_fmap, length_seq. Qed.

Lemma zlen_fmap {A B : Type} (f : A -> B) (l : list A) : zlen (f <$> l) = zlen l.
Proof. unfold zlen. by rewrite length_fmap. Qed.

Lemma zget_tabulate {A : Type} (n : nat) (f : Z -> A) i :
  0 <= i < Z.of_nat n -> zget (tabulate n f) i = Some (f i).
Proof.
  intros H. unfold zget, tabulate. destruct (Z.ltb_spec i 0); [lia|].
  rewrite list_lookup_fmap, lookup_seq_lt by lia. simpl. f_equal. f_equal. lia.
Qed.
