(* ===== verification/Words.v ===== *)
(** * Machine integers

    The fixed-width types of [arch/*/include/hal.h] ([uint8_t] .. [int64_t])
    as integers with their conversions written out, the bit-level facts the
    components share, and the tactics that discharge width arithmetic. *)

From S2P Require Import Prelude.

(** ** Conversions to the C types *)

Definition u8 (x : Z) : Z := x mod 256.
Definition u16 (x : Z) : Z := x mod 65536.
Definition u32 (x : Z) : Z := x mod 4294967296.
Definition u64 (x : Z) : Z := x mod 18446744073709551616.
Definition i8 (x : Z) : Z := (x + 128) mod 256 - 128.
Definition i16 (x : Z) : Z := (x + 32768) mod 65536 - 32768.
Definition i32 (x : Z) : Z := (x + 2147483648) mod 4294967296 - 2147483648.
Definition i64 (x : Z) : Z :=
  (x + 9223372036854775808) mod 18446744073709551616 - 9223372036854775808.

(** C truth values. *)
Definition cbool (b : bool) : Z := if b then 1 else 0.
Definition nz (x : Z) : bool := negb (x =? 0).

(** C division and remainder truncate towards zero. *)
Definition cdiv (a b : Z) : Z := Z.quot a b.
Definition cmod (a b : Z) : Z := Z.rem a b.

Lemma cmod_nonneg a b : 0 <= a -> 0 < b -> cmod a b = a mod b.
Proof. intros. apply Z.rem_mod_nonneg; lia. Qed.
Lemma cdiv_nonneg a b : 0 <= a -> 0 < b -> cdiv a b = a / b.
Proof. intros. apply Z.quot_div_nonneg; lia. Qed.

(** Indices of a ring of [n] cells. *)
Lemma ring_index (n x : Z) : 0 < n -> 0 <= x < 2 * n ->
  x mod n = if x <? n then x else x - n.
Proof.
  intros. destruct (Z.ltb_spec x n); [rewrite Z.mod_small; lia|].
  symmetry. apply (Z.mod_unique_pos x n 1); lia.
Qed.

Ltac ring_lia :=
  repeat match goal with
  | H : context [(?x mod ?n)] |- _ => rewrite (ring_index n x) in H by lia
  | |- context [(?x mod ?n)] => rewrite (ring_index n x) by lia
  end;
  repeat match goal with
  | H : context [?a <? ?b] |- _ => destruct (Z.ltb_spec a b)
  | |- context [?a <? ?b] => destruct (Z.ltb_spec a b)
  end; try lia.

(** Solve goals about the conversions by linear arithmetic. *)
Ltac unfold_words :=
  unfold u8, u16, u32, u64, i8, i16, i32, i64 in *.
Ltac word_lia := unfold_words; Z.div_mod_to_equations; lia.

(** Evaluate the powers of two with literal exponents. *)
Ltac pow_norm :=
  repeat match goal with
  | |- context [2 ^ Zpos ?n] =>
      let v := eval vm_compute in (2 ^ Zpos n) in change (2 ^ Zpos n) with v
  end.

(** ** Ranges and idempotence *)

Section ranges.
Implicit Types x y : Z.

Lemma u8_range x : 0 <= u8 x < 256. Proof. word_lia. Qed.
Lemma u16_range x : 0 <= u16 x < 65536. Proof. word_lia. Qed.
Lemma u32_range x : 0 <= u32 x < 4294967296. Proof. word_lia. Qed.
Lemma u64_range x : 0 <= u64 x < 18446744073709551616. Proof. word_lia. Qed.
Lemma i8_range x : -128 <= i8 x < 128. Proof. word_lia. Qed.
Lemma i16_range x : -32768 <= i16 x < 32768. Proof. word_lia. Qed.
Lemma i32_range x : -2147483648 <= i32 x < 2147483648. Proof. word_lia. Qed.
Lemma i64_range x : -9223372036854775808 <= i64 x < 9223372036854775808.
Proof. word_lia. Qed.

Lemma u8_small x : 0 <= x < 256 -> u8 x = x.
Proof. apply Z.mod_small. Qed.
Lemma u16_small x : 0 <= x < 65536 -> u16 x = x.
Proof. apply Z.mod_small. Qed.
Lemma u32_small x : 0 <= x < 4294967296 -> u32 x = x.
Proof. apply Z.mod_small. Qed.
Lemma u64_small x : 0 <= x < 18446744073709551616 -> u64 x = x.
Proof. apply Z.mod_small. Qed.
Lemma i32_small x : -2147483648 <= x < 2147483648 -> i32 x = x.
Proof. intros. unfold i32. rewrite Z.mod_small; lia. Qed.
Lemma i64_small x : -9223372036854775808 <= x < 9223372036854775808 -> i64 x = x.
Proof. intros. unfold i64. rewrite Z.mod_small; lia. Qed.

Lemma u32_u32 x : u32 (u32 x) = u32 x.
Proof. apply u32_small, u32_range. Qed.
Lemma u64_u64 x : u64 (u64 x) = u64 x.
Proof. apply u64_small, u64_range. Qed.
Lemma u32_i32 x : u32 (i32 x) = u32 x. Proof. word_lia. Qed.
Lemma i32_u32 x : i32 (u32 x) = i32 x. Proof. word_lia. Qed.
Lemma i32_i32 x : i32 (i32 x) = i32 x. Proof. word_lia. Qed.
Lemma u64_i64 x : u64 (i64 x) = u64 x. Proof. word_lia. Qed.
Lemma i64_u64 x : i64 (u64 x) = i64 x. Proof. word_lia. Qed.

Lemma u32_add_l x y : u32 (u32 x + y) = u32 (x + y).
Proof. unfold u32. by rewrite Zplus_mod_idemp_l. Qed.
Lemma u32_add_r x y : u32 (x + u32 y) = u32 (x + y).
Proof. unfold u32. by rewrite Zplus_mod_idemp_r. Qed.
Lemma u32_sub_l x y : u32 (u32 x - y) = u32 (x - y).
Proof. unfold u32. by rewrite Zminus_mod_idemp_l. Qed.
Lemma u32_sub_r x y : u32 (x - u32 y) = u32 (x - y).
Proof. unfold u32. by rewrite Zminus_mod_idemp_r. Qed.
Lemma u32_mul_l x y : u32 (u32 x * y) = u32 (x * y).
Proof. unfold u32. by rewrite Zmult_mod_idemp_l. Qed.
Lemma u32_mul_r x y : u32 (x * u32 y) = u32 (x * y).
Proof. unfold u32. by rewrite Zmult_mod_idemp_r. Qed.

(** Equality of words is congruence. *)
Lemma u32_eq_iff x y : u32 x = u32 y <-> exists k, x = y + k * 4294967296.
Proof.
  unfold u32. split.
  - intros H. exists (x / 4294967296 - y / 4294967296).
    pose proof (Z.div_mod x 4294967296). pose proof (Z.div_mod y 4294967296). lia.
  - intros [k ->]. by rewrite Z_mod_plus_full.
Qed.

Lemma nz_true x : nz x = true <-> x <> 0.
Proof. unfold nz. destruct (Z.eqb_spec x 0); naive_solver. Qed.
Lemma nz_false x : nz x = false <-> x = 0.
Proof. unfold nz. destruct (Z.eqb_spec x 0); naive_solver. Qed.
End ranges.

#[export] Hint Rewrite u32_u32 u64_u64 u32_i32 i32_u32 i32_i32 u64_i64 i64_u64
  u32_add_l u32_add_r u32_sub_l u32_sub_r u32_mul_l u32_mul_r : hfr.
#[export] Hint Resolve u8_range u16_range u32_range u64_range i8_range i16_range
  i32_range i64_range : hf.

(** ** Bits of words *)

Section bits.
Implicit Types x y : Z.

Lemma testbit_mod_pow2 x w i :
  0 <= w -> 0 <= i -> Z.testbit (x mod 2 ^ w) i = (i <? w) && Z.testbit x i.
Proof.
  intros Hw Hi. destruct (Z.ltb_spec i w).
  - by rewrite Z.mod_pow2_bits_low.
  - by rewrite Z.mod_pow2_bits_high by lia.
Qed.

Lemma u8_testbit x i : 0 <= i -> Z.testbit (u8 x) i = (i <? 8) && Z.testbit x i.
Proof. intros. unfold u8. change 256 with (2 ^ 8). by apply testbit_mod_pow2. Qed.
Lemma u16_testbit x i : 0 <= i -> Z.testbit (u16 x) i = (i <? 16) && Z.testbit x i.
Proof. intros. unfold u16. change 65536 with (2 ^ 16). by apply testbit_mod_pow2. Qed.
Lemma u32_testbit x i : 0 <= i -> Z.testbit (u32 x) i = (i <? 32) && Z.testbit x i.
Proof.
  intros. unfold u32. change 4294967296 with (2 ^ 32). by apply testbit_mod_pow2.
Qed.
Lemma u64_testbit x i : 0 <= i -> Z.testbit (u64 x) i = (i <? 64) && Z.testbit x i.
Proof.
  intros. unfold u64. change 18446744073709551616 with (2 ^ 64).
  by apply testbit_mod_pow2.
Qed.

Lemma testbit_high x w i : 0 <= x < 2 ^ w -> w <= i -> Z.testbit x i = false.
Proof.
  intros Hx Hi. destruct (decide (0 <= w)) as [Hw|Hw].
  - rewrite <- (Z.mod_small x (2 ^ w)) by done.
    rewrite testbit_mod_pow2 by lia. by destruct (Z.ltb_spec i w); [lia|].
  - rewrite Z.pow_neg_r in Hx by lia. lia.
Qed.

Lemma testbits_bound x w : 0 <= w -> 0 <= x ->
  (forall i, w <= i -> Z.testbit x i = false) -> x < 2 ^ w.
Proof.
  intros Hw Hx H. rewrite <- (Z.mod_small x (2 ^ w)); [apply Z.mod_pos_bound; lia|].
  split; [done|]. apply Z.nle_gt. intros Hle.
  assert (0 < x) by (pose proof (Z.pow_pos_nonneg 2 w); lia).
  assert (w <= Z.log2 x) by (apply Z.log2_le_pow2; lia).
  specialize (H (Z.log2 x) ltac:(done)). rewrite Z.bit_log2 in H; [done|lia].
Qed.

Lemma land_ones_mod x w : 0 <= w -> Z.land x (Z.ones w) = x mod 2 ^ w.
Proof. apply Z.land_ones. Qed.

(** Bit operations stay within the width. *)
Lemma land_range x y w : 0 <= w -> 0 <= x < 2 ^ w -> 0 <= Z.land x y < 2 ^ w.
Proof.
  intros Hw Hx. assert (0 <= Z.land x y) by (apply Z.land_nonneg; lia).
  split; [done|]. apply testbits_bound; [done..|]. intros i Hi.
  by rewrite Z.land_spec, (testbit_high x w).
Qed.
Lemma lor_range x y w :
  0 <= w -> 0 <= x < 2 ^ w -> 0 <= y < 2 ^ w -> 0 <= Z.lor x y < 2 ^ w.
Proof.
  intros Hw Hx Hy. assert (0 <= Z.lor x y) by (apply Z.lor_nonneg; lia).
  split; [done|]. apply testbits_bound; [done..|]. intros i Hi.
  by rewrite Z.lor_spec, (testbit_high x w), (testbit_high y w).
Qed.
Lemma lxor_range x y w :
  0 <= w -> 0 <= x < 2 ^ w -> 0 <= y < 2 ^ w -> 0 <= Z.lxor x y < 2 ^ w.
Proof.
  intros Hw Hx Hy. assert (0 <= Z.lxor x y) by (apply Z.lxor_nonneg; lia).
  split; [done|]. apply testbits_bound; [done..|]. intros i Hi.
  by rewrite Z.lxor_spec, (testbit_high x w), (testbit_high y w).
Qed.

(** Disjoint bits add. *)
Lemma lor_add x y : Z.land x y = 0 -> Z.lor x y = x + y.
Proof. intros H. rewrite <- Z.lxor_lor, Z.add_nocarry_lxor; done. Qed.

Lemma land_shiftl_low x y w : 0 <= w -> 0 <= y < 2 ^ w -> Z.land (Z.shiftl x w) y = 0.
Proof.
  intros Hw Hy. apply Z.bits_inj'. intros i Hi.
  rewrite Z.land_spec, Z.bits_0. destruct (Z.ltb_spec i w).
  - by rewrite Z.shiftl_spec_low.
  - rewrite (testbit_high y w); [by rewrite andb_false_r|done|lia].
Qed.

Lemma lor_shiftl_add x y w :
  0 <= w -> 0 <= y < 2 ^ w -> Z.lor (Z.shiftl x w) y = x * 2 ^ w + y.
Proof.
  intros Hw Hy. rewrite lor_add by by apply land_shiftl_low.
  by rewrite Z.shiftl_mul_pow2.
Qed.

(** Gluing the bits carried over a word boundary. *)
Lemma lor_carry x y (b : Z) : 0 <= b -> 0 <= y < 2 ^ b -> Z.lor (x * 2 ^ b) y = x * 2 ^ b + y.
Proof.
  intros Hb Hy. rewrite <- (Z.shiftl_mul_pow2 x b) at 1 by done. by apply lor_shiftl_add.
Qed.

(** [x & mask] for a mask of [n] ones from bit [i]. *)
Lemma land_field (x i n : Z) : 0 <= i -> 0 <= n ->
  Z.land x (Z.shiftl (Z.ones n) i) = (x / 2 ^ i) mod 2 ^ n * 2 ^ i.
Proof.
  intros Hi Hn. rewrite <- Z.land_ones, <- Z.shiftr_div_pow2, <- Z.shiftl_mul_pow2 by lia.
  apply Z.bits_inj'. intros k Hk.
  rewrite Z.land_spec. destruct (Z.ltb_spec k i).
  - by rewrite !Z.shiftl_spec_low, andb_false_r by lia.
  - rewrite !Z.shiftl_spec_high, Z.land_spec, Z.shiftr_spec by lia.
    do 2 f_equal. lia.
Qed.
Lemma land_ones_eq (w m n : Z) : 0 <= n -> m = Z.ones n -> Z.land w m = w mod 2 ^ n.
Proof. intros Hn ->. by apply Z.land_ones. Qed.

(** Shifts by one. *)
Lemma shiftl_mul_1 x : Z.shiftl x 1 = 2 * x.
Proof. rewrite Z.shiftl_mul_pow2 by lia. lia. Qed.
Lemma shiftr_div_1 x : Z.shiftr x 1 = x / 2.
Proof. by rewrite Z.shiftr_div_pow2. Qed.

Lemma land_pow2 x n :
  0 <= n -> Z.land x (2 ^ n) = if Z.testbit x n then 2 ^ n else 0.
Proof.
  intros Hn. apply Z.bits_inj'. intros i Hi. rewrite Z.land_spec, Z.pow2_bits_eqb by done.
  destruct (Z.eqb_spec n i) as [<-|Hne].
  - destruct (Z.testbit x n); simpl; [by rewrite Z.pow2_bits_eqb, Z.eqb_refl|by rewrite Z.bits_0].
  - rewrite andb_false_r. destruct (Z.testbit x n); [|by rewrite Z.bits_0].
    rewrite Z.pow2_bits_eqb by done. by destruct (Z.eqb_spec n i).
Qed.

(** Testing one bit. *)
Lemma top_bit x k : 0 <= k -> nz (Z.land x (2 ^ k)) = Z.testbit x k.
Proof.
  intros Hk. rewrite land_pow2 by done. assert (0 < 2 ^ k) by (apply Z.pow_pos_nonneg; lia).
  destruct (Z.testbit x k); [|done]. apply nz_true. lia.
Qed.


(** Testing the top bit of a word compares with the top power of two. *)
Lemma land_top x n :
  0 <= n -> 0 <= x < 2 ^ (n + 1) -> nz (Z.land x (2 ^ n)) = (2 ^ n <=? x).
Proof.
  intros Hn Hx. rewrite land_pow2 by done.
  assert (0 < 2 ^ n) by (apply Z.pow_pos_nonneg; lia).
  rewrite Z.pow_add_r in Hx by lia. change (2 ^ 1) with 2 in Hx.
  assert (Ht : Z.testbit x n = (2 ^ n <=? x)).
  { rewrite Z.testbit_eqb by done.
    destruct (Z.leb_spec (2 ^ n) x).
    - replace (x / 2 ^ n) with 1 by (apply (Z.div_unique x (2 ^ n) 1 (x - 2 ^ n)); lia). done.
    - by rewrite Z.div_small by lia. }
  rewrite Ht. destruct (2 ^ n <=? x); [|done]. apply nz_true. lia.
Qed.

Lemma land_1 x : Z.land x 1 = x mod 2.
Proof. change 1 with (Z.ones 1). rewrite Z.land_ones; [done|lia]. Qed.
End bits.

(** Compare two words bit by bit: every bit operation is pushed down to the
    bits of its operands, index comparisons are split. *)
Create Rewrite HintDb bits.
#[export] Hint Rewrite Z.land_spec Z.lor_spec Z.lxor_spec Z.bits_0 : bits.
#[export] Hint Rewrite Z.lnot_spec Z.shiftr_spec Z.shiftl_spec u8_testbit
  u16_testbit u32_testbit u64_testbit using lia : bits.

Ltac bits_split :=
  repeat match goal with
  | |- context [?a <? ?b] => destruct (Z.ltb_spec a b); try lia
  end.
