(* ===== verification/Cstr.v ===== *)
(** * C strings and memory blocks at pointer level

    The string and memory functions of [lib/libc/libc.c] on a byte memory:
    pointers are addresses, a dereference outside the mapped bytes faults, a
    loop that would run over every mapped byte and go on is cut ([Timeout]).
    Bytes are the signed [int8_t] the sources declare. [NULL] is 0. *)

From S2P Require Import Prelude Words.

(** ** The memory *)

(** The mapped bytes, and the [static int8_t *last] of [strtok]. *)
Record cmem : Type := mk_cmem { bytes : gmap Z Z; last : Z }.

Definition set_bytes (b : gmap Z Z) (m : cmem) : cmem := mk_cmem b (last m).
Definition set_last (p : Z) (m : cmem) : cmem := mk_cmem (bytes m) p.

Definition NULL : Z := 0.

(** [*p] and [*p = v]. *)
Definition ld (p : Z) : ST cmem Z := fun m =>
  match bytes m !! p with Some b => Ok (b, m) | None => Fault end.
Definition st (p v : Z) : ST cmem unit := fun m =>
  match bytes m !! p with
  | Some _ => Ok (tt, set_bytes (<[p := i8 v]> (bytes m)) m)
  | None => Fault
  end.

(** A pointer that walks up or down through mapped bytes makes at most this
    many steps. *)
Definition fuel : ST cmem nat := gets (fun m => S (size (bytes m))).

(** ** Strings *)

Fixpoint strcpy_loop (n : nat) (dst src : Z) : ST cmem unit :=
  match n with
  | O => timeout_st
  | S n =>
      c ← ld src; _ ← st dst c;
      if nz c then strcpy_loop n (dst + 1) (src + 1) else mret tt
  end.

Definition strcpy (dst src : Z) : ST cmem Z :=
  n ← fuel; _ ← strcpy_loop n dst src; mret dst.

(** [while (++i < n) *s1++ = '\0';] for [n] bytes. *)
Fixpoint fill_zero (n : nat) (s1 : Z) : ST cmem unit :=
  match n with
  | O => mret tt
  | S n => _ ← st s1 0; fill_zero n (s1 + 1)
  end.

Fixpoint strncpy_loop (n : nat) (s1 s2 : Z) : ST cmem unit :=
  match n with
  | O => mret tt
  | S n =>
      c ← ld s2; _ ← st s1 c;
      if c =? 0 then fill_zero n (s1 + 1) else strncpy_loop n (s1 + 1) (s2 + 1)
  end.

Definition strncpy (s1 s2 n : Z) : ST cmem Z :=
  _ ← strncpy_loop (Z.to_nat n) s1 s2; mret s1.

(** [while ( *s ) ++s;] *)
Fixpoint to_end (n : nat) (s : Z) : ST cmem Z :=
  match n with
  | O => timeout_st
  | S n => c ← ld s; if nz c then to_end n (s + 1) else mret s
  end.

Definition strcat (dst src : Z) : ST cmem Z :=
  n ← fuel; e ← to_end n dst; _ ← strcpy_loop n e src; mret dst.

Fixpoint strncat_loop (f : nat) (s1 s2 n : Z) : ST cmem unit :=
  match f with
  | O => timeout_st
  | S f =>
      c ← ld s2; _ ← st s1 c;
      if nz c then
        let n := i32 (n - 1) in
        if n <? 0 then st s1 0 else strncat_loop f (s1 + 1) (s2 + 1) n
      else mret tt
  end.

Definition strncat (s1 s2 n : Z) : ST cmem Z :=
  f ← fuel; e ← to_end f s1; _ ← strncat_loop f e s2 n; mret s1.

Fixpoint strcmp_loop (n : nat) (s1 s2 : Z) : ST cmem Z :=
  match n with
  | O => timeout_st
  | S n =>
      c ← ld s1; d ← ld s2;
      if c =? d then if c =? 0 then mret 0 else strcmp_loop n (s1 + 1) (s2 + 1)
      else mret (c - d)
  end.

Definition strcmp (s1 s2 : Z) : ST cmem Z := n ← fuel; strcmp_loop n s1 s2.

(** [k] is the number of characters still to be compared. *)
Fixpoint strncmp_loop (k : nat) (s1 s2 : Z) : ST cmem Z :=
  match k with
  | O => mret 0
  | S k =>
      c ← ld s1; d ← ld s2;
      if c =? d then if c =? 0 then mret 0 else strncmp_loop k (s1 + 1) (s2 + 1)
      else mret (c - d)
  end.

Definition strncmp (s1 s2 n : Z) : ST cmem Z := strncmp_loop (Z.to_nat n) s1 s2.

(** [for(i = 0; string[i] == find[i] && find[i]; ++i);] *)
Fixpoint strstr_match (n : nat) (string find i : Z) : ST cmem Z :=
  match n with
  | O => timeout_st
  | S n =>
      c ← ld (string + i); d ← ld (find + i);
      if (c =? d) && nz d then strstr_match n string find (i + 1) else mret i
  end.

Fixpoint strstr_loop (f n : nat) (string find : Z) : ST cmem Z :=
  match n with
  | O => timeout_st
  | S n =>
      i ← strstr_match f string find 0;
      d ← ld (find + i);
      if d =? 0 then mret string else
      c ← ld string;
      if c =? 0 then mret NULL else strstr_loop f n (string + 1) find
  end.

Definition strstr (string find : Z) : ST cmem Z := f ← fuel; strstr_loop f f string find.

Fixpoint strlen_loop (f : nat) (s n : Z) : ST cmem Z :=
  match f with
  | O => timeout_st
  | S f => c ← ld s; if nz c then strlen_loop f (s + 1) (i32 (n + 1)) else mret n
  end.

Definition strlen (s : Z) : ST cmem Z := f ← fuel; strlen_loop f s 0.

Fixpoint strchr_loop (n : nat) (s c : Z) : ST cmem Z :=
  match n with
  | O => timeout_st
  | S n =>
      b ← ld s;
      if b =? i8 c then mret s else if b =? 0 then mret NULL else strchr_loop n (s + 1) c
  end.

Definition strchr (s c : Z) : ST cmem Z := n ← fuel; strchr_loop n s c.

(** [for (p = set; *p != 0; p++) if (c == *p ) ...]: is [c] in the set? *)
Fixpoint in_set (n : nat) (p c : Z) : ST cmem bool :=
  match n with
  | O => timeout_st
  | S n =>
      d ← ld p;
      if d =? 0 then mret false else if c =? d then mret true else in_set n (p + 1) c
  end.

Fixpoint strpbrk_loop (f n : nat) (str set : Z) : ST cmem Z :=
  match n with
  | O => timeout_st
  | S n =>
      c ← ld str;
      if c =? 0 then mret NULL else
      b ← in_set f set c;
      if (b : bool) then mret str else strpbrk_loop f n (str + 1) set
  end.

Definition strpbrk (str set : Z) : ST cmem Z := f ← fuel; strpbrk_loop f f str set.

(** The string pointer [*pp] is passed and returned: the token and the new
    value of [*pp]. *)
Definition strsep (pp delim : Z) : ST cmem (Z * Z) :=
  if pp =? NULL then mret (NULL, pp) else
  q ← strpbrk pp delim;
  if q =? NULL then mret (pp, NULL) else
  _ ← st q 0; mret (pp, q + 1).

(** The label [cont]: skip leading delimiters; the first other character and
    the pointer after it. *)
Fixpoint strtok_skip (f n : nat) (s delim : Z) : ST cmem (Z * Z) :=
  match n with
  | O => timeout_st
  | S n =>
      c ← ld s;
      b ← in_set f delim c;
      if (b : bool) then strtok_skip f n (s + 1) delim else mret (c, s + 1)
  end.

(** [do { if ((sc = *spanp++) == c) ... } while (sc != 0)]: does [c] end the
    token, as a delimiter or as the end of the string? *)
Fixpoint ends_token (n : nat) (spanp c : Z) : ST cmem bool :=
  match n with
  | O => timeout_st
  | S n =>
      sc ← ld spanp;
      if sc =? c then mret true else if nz sc then ends_token n (spanp + 1) c else mret false
  end.

Fixpoint strtok_scan (f n : nat) (s delim : Z) : ST cmem unit :=
  match n with
  | O => timeout_st
  | S n =>
      c ← ld s;
      b ← ends_token f delim c;
      if (b : bool) then
        if c =? 0 then modify (set_last NULL)
        else _ ← st s 0; modify (set_last (s + 1))
      else strtok_scan f n (s + 1) delim
  end.

Definition strtok (s delim : Z) : ST cmem Z :=
  l ← gets last;
  let s := if s =? NULL then l else s in
  if s =? NULL then mret NULL else
  f ← fuel;
  '(c, s) ← strtok_skip f f s delim;
  if c =? 0 then _ ← modify (set_last NULL); mret NULL else
  let tok := s - 1 in
  _ ← strtok_scan f f s delim;
  mret tok.

(** ** Blocks *)

Fixpoint copy_up (n : nat) (dst src : Z) : ST cmem unit :=
  match n with
  | O => mret tt
  | S n => c ← ld src; _ ← st dst c; copy_up n (dst + 1) (src + 1)
  end.

(** [while (n--) *--s = *--p;] *)
Fixpoint copy_down (n : nat) (s p : Z) : ST cmem unit :=
  match n with
  | O => mret tt
  | S n => c ← ld (p - 1); _ ← st (s - 1) c; copy_down n (s - 1) (p - 1)
  end.

Definition memcpy (dst src n : Z) : ST cmem Z :=
  _ ← copy_up (Z.to_nat n) dst src; mret dst.

Definition memmove (dst src n : Z) : ST cmem Z :=
  _ ← (if dst <=? src then copy_up (Z.to_nat n) dst src
       else copy_down (Z.to_nat n) (dst + n) (src + n));
  mret dst.

Fixpoint memcmp_loop (n : nat) (r1 r2 : Z) : ST cmem Z :=
  match n with
  | O => mret 0
  | S n =>
      c ← ld r1; d ← ld r2;
      let a := u8 c in let b := u8 d in
      if a =? b then memcmp_loop n (r1 + 1) (r2 + 1)
      else mret (if a <? b then -1 else 1)
  end.

Definition memcmp (cs ct n : Z) : ST cmem Z := memcmp_loop (Z.to_nat n) cs ct.

Fixpoint memset_loop (n : nat) (p c : Z) : ST cmem unit :=
  match n with
  | O => mret tt
  | S n => _ ← st p (u8 c); memset_loop n (p + 1) c
  end.

Definition memset (s c n : Z) : ST cmem Z := _ ← memset_loop (Z.to_nat n) s c; mret s.

(** ** Strings and blocks in memory *)

Definition is_i8 (x : Z) : Prop := -128 <= x < 128.

(** A terminated string at [p]. *)
Fixpoint str_at (m : gmap Z Z) (p : Z) (s : list Z) : Prop :=
  match s with
  | [] => m !! p = Some 0
  | c :: s => c <> 0 /\ is_i8 c /\ m !! p = Some c /\ str_at m (p + 1) s
  end.

(** The bytes [l] at [p]. *)
Fixpoint block_at (m : gmap Z Z) (p : Z) (l : list Z) : Prop :=
  match l with
  | [] => True
  | c :: l => is_i8 c /\ m !! p = Some c /\ block_at m (p + 1) l
  end.

(** [n] mapped bytes at [p]. *)
Definition mapped (m : gmap Z Z) (p n : Z) : Prop := forall a, p <= a < p + n -> is_Some (m !! a).

(** The memory after writing [l] at [p]. *)
Fixpoint put (m : gmap Z Z) (p : Z) (l : list Z) : gmap Z Z :=
  match l with
  | [] => m
  | c :: l => put (<[p := c]> m) (p + 1) l
  end.

Section memory.
Implicit Types (m : gmap Z Z) (p : Z) (l s : list Z).

Lemma i8_small x : is_i8 x -> i8 x = x.
Proof. unfold is_i8. intros. word_lia. Qed.

Lemma str_block m p s : str_at m p s <-> block_at m p (s ++ [0]) /\ Forall (fun c => c <> 0) s.
Proof.
  revert p. induction s as [|c s IH]; intros p; cbn [str_at block_at app].
  - split; [|tauto]. intros H. split; [|done]. split; [unfold is_i8; lia|done].
  - rewrite IH, list.Forall_cons. tauto.
Qed.

Lemma block_mapped m p l : block_at m p l -> mapped m p (zlen l).
Proof.
  revert p. induction l as [|c l IH]; intros p H a Ha; [unfold zlen in Ha; simpl in Ha; lia|].
  rewrite zlen_cons in Ha. destruct H as (_ & Hc & H).
  destruct (decide (a = p)) as [->|]; [by exists c|]. apply (IH (p + 1) H). lia.
Qed.

Lemma mapped_app m p l k : block_at m p (l ++ k) <-> block_at m p l /\ block_at m (p + zlen l) k.
Proof.
  revert p. induction l as [|c l IH]; intros p; cbn [block_at app].
  - rewrite zlen_nil, Z.add_0_r. tauto.
  - rewrite IH, zlen_cons. replace (p + 1 + zlen l) with (p + (1 + zlen l)) by lia. tauto.
Qed.

Lemma block_i8 m p l : block_at m p l -> Forall is_i8 l.
Proof. revert p. induction l; intros p; cbn [block_at]; [done|]. intros (? & ? & ?). eauto. Qed.

(** Contiguous mapped bytes are at most as many as the memory has. *)
Lemma mapped_size m p (n : nat) : mapped m p (Z.of_nat n) -> (n <= size m)%nat.
Proof.
  intros H. assert (Hs : (list_to_set (seqZ p (Z.of_nat n)) : gset Z) ⊆ dom m).
  { intros a Ha. apply elem_of_list_to_set, elem_of_seqZ in Ha. apply elem_of_dom, H. lia. }
  apply subseteq_size in Hs. rewrite size_list_to_set, length_seqZ, size_dom in Hs
    by apply NoDup_seqZ. lia.
Qed.

Lemma str_fuel m p s : str_at m p s -> (length s < size m)%nat.
Proof.
  intros [H _]%str_block. apply block_mapped in H. rewrite zlen_app in H.
  apply (mapped_size m p (S (length s))). intros a Ha. apply H. unfold zlen. simpl. lia.
Qed.

(** Writing outside a block keeps it. *)
Lemma block_insert m p l a v :
  a < p \/ p + zlen l <= a -> block_at m p l -> block_at (<[a := v]> m) p l.
Proof.
  revert p. induction l as [|c l IH]; intros p Ha H; [done|].
  rewrite zlen_cons in Ha. pose proof (zlen_nonneg l). destruct H as (Hi & Hc & H).
  cbn [block_at]. split_and!; [done|by rewrite lookup_insert_ne by lia|]. apply IH; [lia|done].
Qed.

Lemma mapped_insert m p n a v : mapped m p n -> mapped (<[a := v]> m) p n.
Proof.
  intros H b Hb. destruct (decide (a = b)) as [->|Hne].
  - rewrite lookup_insert_eq. by exists v.
  - rewrite lookup_insert_ne by done. by apply H.
Qed.

Lemma put_outside m p l a : a < p \/ p + zlen l <= a -> put m p l !! a = m !! a.
Proof.
  revert m p. induction l as [|c l IH]; intros m p Ha; [done|].
  rewrite zlen_cons in Ha. pose proof (zlen_nonneg l). cbn [put]. rewrite IH by lia.
  by rewrite lookup_insert_ne by lia.
Qed.

Lemma put_block m p l : Forall is_i8 l -> block_at (put m p l) p l.
Proof.
  revert m p. induction l as [|c l IH]; intros m p H; [done|].
  apply list.Forall_cons in H as [Hc H]. cbn [put block_at]. split_and!; [done| |by apply IH].
  rewrite put_outside by lia. by rewrite lookup_insert_eq.
Qed.

Lemma put_insert_below m p l a v : a < p -> put (<[a := v]> m) p l = <[a := v]> (put m p l).
Proof.
  revert m p. induction l as [|c l IH]; intros m p Ha; [done|]. cbn [put].
  rewrite insert_insert_ne by lia. by rewrite IH by lia.
Qed.

Lemma put_insert_above m p l a v :
  p + zlen l <= a -> put (<[a := v]> m) p l = <[a := v]> (put m p l).
Proof.
  revert m p. induction l as [|c l IH]; intros m p Ha; [done|]. rewrite zlen_cons in Ha.
  pose proof (zlen_nonneg l). cbn [put]. rewrite insert_insert_ne by lia. by rewrite IH by lia.
Qed.

Lemma put_app m p l k : put m p (l ++ k) = put (put m p l) (p + zlen l) k.
Proof.
  revert m p. induction l as [|c l IH]; intros m p; cbn [put app].
  - by rewrite zlen_nil, Z.add_0_r.
  - rewrite IH, zlen_cons. f_equal. lia.
Qed.
End memory.

(** ** One step of the monad *)

Section steps.
Implicit Types (m : cmem) (p v : Z).

Lemma ld_Ok p v m : bytes m !! p = Some v -> ld p m = Ok (v, m).
Proof. intros H. unfold ld. by rewrite H. Qed.

Lemma st_Ok p v m : is_Some (bytes m !! p) -> is_i8 v ->
  st p v m = Ok (tt, set_bytes (<[p := v]> (bytes m)) m).
Proof. intros [w H] Hv. unfold st. by rewrite H, i8_small. Qed.
End steps.

Ltac ld_step H := rewrite (ST_bind_Ok _ _ _ _ _ (ld_Ok _ _ _ H)).
Ltac st_step H1 H2 := rewrite (ST_bind_Ok _ _ _ _ _ (st_Ok _ _ _ H1 H2)).


(** ** Functions that read *)

Section readers.
Context (m : cmem).
Implicit Types (p c : Z) (s t : list Z).

Lemma strlen_loop_run f p s n :
  str_at (bytes m) p s -> (length s < f)%nat -> 0 <= n -> n + zlen s < 2147483648 ->
  strlen_loop f p n m = Ok (n + zlen s, m).
Proof.
  revert p s n. induction f as [|f IH]; intros p s n Hs Hf Hn Hl; [lia|]. cbn [strlen_loop].
  destruct s as [|c s]; cbn [str_at] in Hs.
  - ld_step Hs. change (zlen (@nil Z)) with 0. rewrite Z.add_0_r. done.
  - destruct Hs as (Hc & _ & Hp & Hs). ld_step Hp. rewrite (proj2 (nz_true c) Hc).
    rewrite zlen_cons in Hl |- *. pose proof (zlen_nonneg s). rewrite i32_small by lia.
    rewrite (IH _ s) by (done || (simpl in Hf; lia)). do 2 f_equal. lia.
Qed.

Lemma strlen_run p s :
  str_at (bytes m) p s -> zlen s < 2147483648 -> strlen p m = Ok (zlen s, m).
Proof.
  intros Hs Hl. unfold strlen, fuel. st_unfold. rewrite (strlen_loop_run _ p s 0); [done|done| |lia|lia].
  pose proof (str_fuel _ _ _ Hs). lia.
Qed.

(** The difference at the first position where two strings differ; the
    terminator counts. *)
Fixpoint lexdiff s t : Z :=
  match s, t with
  | [], [] => 0
  | [], d :: _ => - d
  | c :: _, [] => c
  | c :: s, d :: t => if c =? d then lexdiff s t else c - d
  end.

Lemma lexdiff_0 s t :
  Forall (fun c => c <> 0) s -> Forall (fun c => c <> 0) t -> lexdiff s t = 0 <-> s = t.
Proof.
  revert t. induction s as [|c s IH]; intros [|d t] Hs Ht; simpl; try done.
  - apply list.Forall_cons in Ht as [Hd _]. split; [lia|done].
  - apply list.Forall_cons in Hs as [Hc _]. split; [lia|done].
  - apply list.Forall_cons in Hs as [_ Hs]. apply list.Forall_cons in Ht as [_ Ht].
    destruct (Z.eqb_spec c d) as [->|]; [rewrite IH by done|]; split; try congruence; lia.
Qed.

Lemma strcmp_loop_run f p q s t :
  str_at (bytes m) p s -> str_at (bytes m) q t -> (length s < f)%nat ->
  strcmp_loop f p q m = Ok (lexdiff s t, m).
Proof.
  revert p q s t. induction f as [|f IH]; intros p q s t Hs Ht Hf; [lia|]. cbn [strcmp_loop].
  destruct s as [|c s], t as [|d t]; cbn [str_at] in Hs, Ht.
  - ld_step Hs. ld_step Ht. done.
  - destruct Ht as (Hd & _ & Hq & _). ld_step Hs. ld_step Hq.
    destruct (Z.eqb_spec 0 d); [congruence|done].
  - destruct Hs as (Hc & _ & Hp & _). ld_step Hp. ld_step Ht.
    destruct (Z.eqb_spec c 0); [congruence|]. cbn [lexdiff]. by rewrite Z.sub_0_r.
  - destruct Hs as (Hc & _ & Hp & Hs). destruct Ht as (_ & _ & Hq & Ht).
    ld_step Hp. ld_step Hq. cbn [lexdiff]. destruct (Z.eqb_spec c d); [|done].
    destruct (Z.eqb_spec c 0); [congruence|]. apply IH; [done|done|simpl in Hf; lia].
Qed.

Lemma strcmp_run p q s t :
  str_at (bytes m) p s -> str_at (bytes m) q t -> strcmp p q m = Ok (lexdiff s t, m).
Proof.
  intros Hs Ht. unfold strcmp, fuel. st_unfold. apply strcmp_loop_run; [done|done|].
  pose proof (str_fuel _ _ _ Hs). lia.
Qed.

(** The position of the first character in [l] that satisfies [P]. *)
Fixpoint find_pos (P : Z -> bool) s : option Z :=
  match s with
  | [] => None
  | c :: s => if P c then Some 0 else Z.succ <$> find_pos P s
  end.

Lemma strchr_loop_run f p s c :
  str_at (bytes m) p s -> (length s < f)%nat -> is_i8 c -> c <> 0 ->
  strchr_loop f p c m
    = Ok (match find_pos (fun x => x =? c) s with Some k => p + k | None => NULL end, m).
Proof.
  intros Hs Hf Hc Hc0. revert p s Hs Hf.
  induction f as [|f IH]; intros p s Hs Hf; [lia|]. cbn [strchr_loop]. rewrite i8_small in * by done.
  destruct s as [|d s]; cbn [str_at find_pos] in *.
  - ld_step Hs. destruct (Z.eqb_spec 0 c); [congruence|done].
  - destruct Hs as (Hd & _ & Hp & Hs). ld_step Hp. destruct (Z.eqb_spec d c).
    + by rewrite Z.add_0_r.
    + destruct (Z.eqb_spec d 0); [congruence|]. rewrite (IH (p + 1) s Hs) by (simpl in Hf; lia).
      destruct (find_pos _ s); simpl; [|done]. do 2 f_equal. lia.
Qed.

Lemma in_set_run f p s c :
  str_at (bytes m) p s -> (length s < f)%nat ->
  in_set f p c m = Ok (bool_decide (c ∈ s), m).
Proof.
  intros Hs Hf. revert p s Hs Hf. induction f as [|f IH]; intros p s Hs Hf; [lia|].
  cbn [in_set]. destruct s as [|d s]; cbn [str_at] in *.
  - ld_step Hs. change (0 =? 0) with true. cbv iota.
    rewrite bool_decide_eq_false_2; [done|]. apply not_elem_of_nil.
  - destruct Hs as (Hd & _ & Hp & Hs). ld_step Hp.
    destruct (Z.eqb_spec d 0); [congruence|]. destruct (Z.eqb_spec c d) as [->|Hne].
    + rewrite bool_decide_eq_true_2; [done|]. by left.
    + rewrite (IH (p + 1) s Hs) by (simpl in Hf; lia). do 2 f_equal.
      apply bool_decide_ext. rewrite elem_of_cons. split; [by right|by intros [->|H]].
Qed.

Lemma ends_token_run f p s c :
  str_at (bytes m) p s -> (length s < f)%nat ->
  ends_token f p c m = Ok (bool_decide (c = 0 \/ c ∈ s), m).
Proof.
  intros Hs Hf. revert p s Hs Hf. induction f as [|f IH]; intros p s Hs Hf; [lia|].
  cbn [ends_token]. destruct s as [|d s]; cbn [str_at] in *.
  - ld_step Hs. destruct (Z.eqb_spec 0 c) as [<-|Hne].
    + by rewrite bool_decide_eq_true_2 by auto.
    + rewrite bool_decide_eq_false_2; [done|]. intros [?|?%elem_of_nil]; [congruence|done].
  - destruct Hs as (Hd & _ & Hp & Hs). ld_step Hp. rewrite (proj2 (nz_true d) Hd).
    destruct (Z.eqb_spec d c) as [->|Hne].
    + rewrite bool_decide_eq_true_2; [done|]. right. by left.
    + rewrite (IH (p + 1) s Hs) by (simpl in Hf; lia). do 2 f_equal.
      apply bool_decide_ext. rewrite elem_of_cons. split; [tauto|].
      intros [?|[?|?]]; [tauto|congruence|tauto].
Qed.

(** Characters of a string by position. *)
Lemma str_drop p s k :
  str_at (bytes m) p s -> (k <= length s)%nat -> str_at (bytes m) (p + Z.of_nat k) (drop k s).
Proof.
  revert p s. induction k as [|k IH]; intros p s Hs Hk.
  - by rewrite drop_0, Z.add_0_r.
  - destruct s as [|c s]; [simpl in Hk; lia|]. destruct Hs as (_ & _ & _ & Hs).
    replace (p + Z.of_nat (S k)) with (p + 1 + Z.of_nat k) by lia.
    apply IH; [done|simpl in Hk; lia].
Qed.

(** The length of the longest common prefix. *)
Fixpoint lcp s t : nat :=
  match s, t with
  | c :: s, d :: t => if c =? d then S (lcp s t) else O
  | _, _ => O
  end.

Lemma lcp_le s t : (lcp s t <= length t)%nat.
Proof.
  revert t. induction s as [|c s IH]; intros [|d t]; simpl; try lia.
  destruct (c =? d); [|lia]. specialize (IH t). lia.
Qed.

Lemma lcp_prefix s t : lcp s t = length t <-> t `prefix_of` s.
Proof.
  revert t. induction s as [|c s IH]; intros [|d t]; simpl.
  - split; [intros _; apply prefix_nil|done].
  - split; [done|]. by intros ?%prefix_nil_not.
  - split; [intros _; apply prefix_nil|done].
  - destruct (Z.eqb_spec c d) as [->|Hne].
    + split.
      * intros [= H%IH]. by apply prefix_cons.
      * intros H%prefix_cons_inv_2. f_equal. by apply IH.
    + split; [done|]. intros H%prefix_cons_inv_1. congruence.
Qed.

Lemma strstr_match_run f p q s t i :
  str_at (bytes m) (p + i) s -> str_at (bytes m) (q + i) t -> (length t < f)%nat ->
  strstr_match f p q i m = Ok (i + Z.of_nat (lcp s t), m).
Proof.
  revert s t i. induction f as [|f IH]; intros s t i Hs Ht Hf; [lia|]. cbn [strstr_match].
  destruct s as [|c s], t as [|d t]; cbn [str_at lcp] in *.
  - ld_step Hs. ld_step Ht. change (Z.of_nat 0) with 0. by rewrite Z.add_0_r.
  - destruct Ht as (Hd & _ & Hq & _). ld_step Hs. ld_step Hq.
    destruct (Z.eqb_spec 0 d); [congruence|]. change (Z.of_nat 0) with 0. by rewrite Z.add_0_r.
  - destruct Hs as (Hc & _ & Hp & _). ld_step Hp. ld_step Ht. change (nz 0) with false.
    rewrite andb_false_r. change (Z.of_nat 0) with 0. by rewrite Z.add_0_r.
  - destruct Hs as (Hc & _ & Hp & Hs). destruct Ht as (Hd & _ & Hq & Ht).
    ld_step Hp. ld_step Hq. rewrite (proj2 (nz_true d) Hd), andb_true_r.
    destruct (Z.eqb_spec c d).
    + rewrite (IH s t (i + 1)); [do 2 f_equal; lia| | |simpl in Hf; lia].
      * by rewrite Z.add_assoc.
      * by rewrite Z.add_assoc.
    + change (Z.of_nat 0) with 0. by rewrite Z.add_0_r.
Qed.

(** The position of the first occurrence of [t]. *)
Fixpoint find_sub t s : option Z :=
  if decide (t `prefix_of` s) then Some 0
  else match s with
       | [] => None
       | _ :: s => Z.succ <$> find_sub t s
       end.

Lemma strstr_loop_run f n p q s t :
  str_at (bytes m) p s -> str_at (bytes m) q t -> (length t < f)%nat -> (length s < n)%nat ->
  strstr_loop f n p q m
    = Ok (match find_sub t s with Some k => p + k | None => NULL end, m).
Proof.
  intros Hs Ht Hf. revert p s Hs. induction n as [|n IH]; intros p s Hs Hn; [lia|].
  cbn [strstr_loop].
  rewrite (ST_bind_Ok _ _ _ _ _ (strstr_match_run f p q s t 0
    ltac:(by rewrite Z.add_0_r) ltac:(by rewrite Z.add_0_r) Hf)).
  pose proof (str_drop q t (lcp s t) Ht (lcp_le s t)) as Hd. rewrite Z.add_0_l.
  destruct (decide (t `prefix_of` s)) as [Hpre|Hpre].
  - assert (E : find_sub t s = Some 0)
      by (destruct s; cbn [find_sub]; destruct (decide _) as [|[]]; done).
    rewrite E. rewrite (proj2 (lcp_prefix s t) Hpre) in *.
    rewrite drop_ge in Hd by lia. cbn [str_at] in Hd. ld_step Hd.
    by rewrite Z.add_0_r.
  - assert (Hl : lcp s t <> length t) by (rewrite lcp_prefix; done).
    pose proof (lcp_le s t).
    destruct (drop (lcp s t) t) as [|d t'] eqn:Ed.
    { apply (f_equal length) in Ed. rewrite length_drop in Ed. simpl in Ed. lia. }
    destruct Hd as (Hd0 & _ & Hd & _). ld_step Hd.
    destruct (Z.eqb_spec d 0); [congruence|].
    destruct s as [|c s]; cbn [str_at find_sub] in *.
    + ld_step Hs. destruct (decide _) as [|]; [done|]. done.
    + destruct Hs as (Hc & _ & Hp & Hs). ld_step Hp. destruct (Z.eqb_spec c 0); [congruence|].
      destruct (decide _) as [|]; [done|]. rewrite (IH (p + 1) s Hs) by (simpl in Hn; lia).
      destruct (find_sub t s); simpl; [|done]. do 2 f_equal. lia.
Qed.

Lemma strstr_run p q s t :
  str_at (bytes m) p s -> str_at (bytes m) q t ->
  strstr p q m = Ok (match find_sub t s with Some k => p + k | None => NULL end, m).
Proof.
  intros Hs Ht. unfold strstr, fuel. st_unfold. pose proof (str_fuel _ _ _ Hs).
  pose proof (str_fuel _ _ _ Ht). apply strstr_loop_run; [done|done|lia|lia].
Qed.
End readers.

(** ** Functions that write *)

Section writers.
Implicit Types (m : cmem) (p c dst src n : Z) (l s t : list Z).

Lemma set_bytes_twice b b' m : set_bytes b (set_bytes b' m) = set_bytes b m.
Proof. done. Qed.

Lemma set_bytes_same m : set_bytes (bytes m) m = m.
Proof. by destruct m. Qed.

(** Copying upwards is right unless the destination starts inside the source. *)
Definition clear_up dst src n : Prop := dst <= src \/ src + n <= dst.

Lemma copy_up_run m dst src l :
  block_at (bytes m) src l -> mapped (bytes m) dst (zlen l) -> clear_up dst src (zlen l) ->
  copy_up (length l) dst src m = Ok (tt, set_bytes (put (bytes m) dst l) m).
Proof.
  unfold clear_up. revert m dst src. induction l as [|c l IH]; intros m dst src Hl Hm Hc.
  - cbn [copy_up length put]. by rewrite set_bytes_same.
  - destruct Hl as (Hi & Hp & Hl). rewrite zlen_cons in *. pose proof (zlen_nonneg l).
    cbn [copy_up length put]. ld_step Hp. st_step (Hm dst ltac:(lia)) Hi.
    rewrite IH; [done| | |lia]; cbn [bytes set_bytes].
    + apply block_insert; [lia|done].
    + apply mapped_insert. intros a Ha. apply Hm. lia.
Qed.

Lemma copy_down_run m dst src l :
  block_at (bytes m) src l -> mapped (bytes m) dst (zlen l) -> src <= dst ->
  copy_down (length l) (dst + zlen l) (src + zlen l) m
    = Ok (tt, set_bytes (put (bytes m) dst l) m).
Proof.
  revert m. induction l as [|c l IH] using rev_ind; intros m Hl Hm Hc.
  - cbn. by rewrite set_bytes_same.
  - apply mapped_app in Hl as [Hl (Hi & Hp & _)].
    rewrite length_app, Nat.add_comm, zlen_app in *. change (zlen [c]) with 1 in *.
    pose proof (zlen_nonneg l). cbn [copy_down length Nat.add].
    replace (src + (zlen l + 1) - 1) with (src + zlen l) by lia.
    replace (dst + (zlen l + 1) - 1) with (dst + zlen l) by lia.
    ld_step Hp. st_step (Hm (dst + zlen l) ltac:(lia)) Hi.
    rewrite IH; [| | |lia]; cbn [bytes set_bytes].
    + rewrite set_bytes_twice, put_app. cbn [put]. rewrite put_insert_above by lia. done.
    + apply block_insert; [lia|done].
    + apply mapped_insert. intros a Ha. apply Hm. lia.
Qed.

Lemma memmove_run m dst src l :
  block_at (bytes m) src l -> mapped (bytes m) dst (zlen l) ->
  memmove dst src (zlen l) m = Ok (dst, set_bytes (put (bytes m) dst l) m).
Proof.
  intros Hl Hm. unfold memmove. replace (Z.to_nat (zlen l)) with (length l) by (unfold zlen; lia).
  destruct (Z.leb_spec dst src).
  - rewrite (ST_bind_Ok _ _ _ _ _ (copy_up_run m dst src l Hl Hm ltac:(by left))). done.
  - rewrite (ST_bind_Ok _ _ _ _ _ (copy_down_run m dst src l Hl Hm ltac:(lia))). done.
Qed.

Lemma strcpy_loop_run f m dst src s :
  str_at (bytes m) src s -> mapped (bytes m) dst (zlen s + 1) -> clear_up dst src (zlen s + 1) ->
  (length s < f)%nat ->
  strcpy_loop f dst src m = Ok (tt, set_bytes (put (bytes m) dst (s ++ [0])) m).
Proof.
  unfold clear_up. revert m dst src s.
  induction f as [|f IH]; intros m dst src s Hs Hm Hc Hf; [lia|]. cbn [strcpy_loop].
  destruct s as [|c s]; cbn [str_at app put] in *.
  - ld_step Hs. rewrite zlen_nil in *.
    assert (H0 : is_i8 0) by (unfold is_i8; lia). st_step (Hm dst ltac:(lia)) H0. done.
  - destruct Hs as (Hc0 & Hi & Hp & Hs). rewrite zlen_cons in *. pose proof (zlen_nonneg s).
    ld_step Hp. st_step (Hm dst ltac:(lia)) Hi. rewrite (proj2 (nz_true c) Hc0).
    rewrite (IH _ _ _ s); [done| | |lia|simpl in Hf; lia]; cbn [bytes set_bytes].
    + apply str_block in Hs as [Hb Hn]. apply str_block. split; [|done].
      apply block_insert; [rewrite zlen_app; change (zlen [0]) with 1; lia|done].
    + apply mapped_insert. intros a Ha. apply Hm. lia.
Qed.

Lemma put_str_at m p s :
  Forall is_i8 s -> Forall (fun c => c <> 0) s -> str_at (put (bytes m) p (s ++ [0])) p s.
Proof.
  intros Hi Hn. apply str_block. split; [|done]. apply put_block.
  apply list.Forall_app. split; [done|]. apply list.Forall_cons. split; [unfold is_i8; lia|done].
Qed.

Lemma to_end_run f m p s :
  str_at (bytes m) p s -> (length s < f)%nat -> to_end f p m = Ok (p + zlen s, m).
Proof.
  revert p s. induction f as [|f IH]; intros p s Hs Hf; [lia|]. cbn [to_end].
  destruct s as [|c s]; cbn [str_at] in Hs.
  - ld_step Hs. change (zlen (@nil Z)) with 0. by rewrite Z.add_0_r.
  - destruct Hs as (Hc & _ & Hp & Hs). ld_step Hp. rewrite (proj2 (nz_true c) Hc).
    rewrite (IH _ s) by (done || (simpl in Hf; lia)). rewrite zlen_cons. do 2 f_equal. lia.
Qed.

Lemma fuel_run m : fuel m = Ok (S (size (bytes m)), m).
Proof. done. Qed.

Lemma strcpy_run m dst src s :
  str_at (bytes m) src s -> mapped (bytes m) dst (zlen s + 1) -> clear_up dst src (zlen s + 1) ->
  strcpy dst src m = Ok (dst, set_bytes (put (bytes m) dst (s ++ [0])) m).
Proof.
  intros Hs Hm Hc. unfold strcpy. rewrite (ST_bind_Ok _ _ _ _ _ (fuel_run m)).
  pose proof (str_fuel _ _ _ Hs).
  by rewrite (ST_bind_Ok _ _ _ _ _ (strcpy_loop_run (S (size (bytes m))) m dst src s Hs Hm Hc ltac:(lia))).
Qed.

Lemma strcat_run m dst src s t :
  str_at (bytes m) dst s -> str_at (bytes m) src t ->
  mapped (bytes m) (dst + zlen s) (zlen t + 1) -> clear_up (dst + zlen s) src (zlen t + 1) ->
  strcat dst src m = Ok (dst, set_bytes (put (bytes m) (dst + zlen s) (t ++ [0])) m).
Proof.
  intros Hs Ht Hm Hc. unfold strcat. rewrite (ST_bind_Ok _ _ _ _ _ (fuel_run m)).
  pose proof (str_fuel _ _ _ Hs). pose proof (str_fuel _ _ _ Ht).
  rewrite (ST_bind_Ok _ _ _ _ _ (to_end_run (S (size (bytes m))) m dst s Hs ltac:(lia))).
  by rewrite (ST_bind_Ok _ _ _ _ _ (strcpy_loop_run (S (size (bytes m))) m _ src t Ht Hm Hc ltac:(lia))).
Qed.
End writers.

(** ** Tokens *)

Section tokens.
Implicit Types (m : cmem) (p q : Z) (s ds tok rest delim : list Z).

Lemma strtok_skip_run f n m p q ds c s delim :
  str_at (bytes m) q delim -> (length delim < f)%nat ->
  str_at (bytes m) p (ds ++ c :: s) -> (length ds < n)%nat ->
  Forall (fun x => x ∈ delim) ds -> c ∉ delim ->
  strtok_skip f n p q m = Ok ((c, p + zlen ds + 1), m).
Proof.
  intros Hq Hf. revert p ds. induction n as [|n IH]; intros p ds Hp Hn Hds Hc; [lia|].
  cbn [strtok_skip]. destruct ds as [|d ds]; cbn [app str_at] in Hp.
  - destruct Hp as (_ & _ & Hp & _). ld_step Hp.
    rewrite (ST_bind_Ok _ _ _ _ _ (in_set_run m f q delim c Hq Hf)).
    rewrite bool_decide_eq_false_2 by done. change (zlen (@nil Z)) with 0. by rewrite Z.add_0_r.
  - destruct Hp as (_ & _ & Hd & Hp). apply list.Forall_cons in Hds as [Hdd Hds]. ld_step Hd.
    rewrite (ST_bind_Ok _ _ _ _ _ (in_set_run m f q delim d Hq Hf)).
    rewrite bool_decide_eq_true_2 by done. rewrite (IH (p + 1) ds) by (done || (simpl in Hn; lia)).
    rewrite zlen_cons. do 3 f_equal. lia.
Qed.

(** A string of delimiters only ends the search. *)
Lemma strtok_skip_end f n m p q ds delim :
  str_at (bytes m) q delim -> (length delim < f)%nat ->
  str_at (bytes m) p ds -> (length ds < n)%nat -> Forall (fun x => x ∈ delim) ds ->
  Forall (fun c => c <> 0) delim ->
  strtok_skip f n p q m = Ok ((0, p + zlen ds + 1), m).
Proof.
  intros Hq Hf. revert p ds. induction n as [|n IH]; intros p ds Hp Hn Hds Hnz; [lia|].
  cbn [strtok_skip]. destruct ds as [|d ds]; cbn [app str_at] in Hp.
  - ld_step Hp. rewrite (ST_bind_Ok _ _ _ _ _ (in_set_run m f q delim 0 Hq Hf)).
    rewrite bool_decide_eq_false_2.
    + change (zlen (@nil Z)) with 0. by rewrite Z.add_0_r.
    + intros H. by apply (proj1 (list.Forall_forall _ _) Hnz 0 H).
  - destruct Hp as (_ & _ & Hd & Hp). apply list.Forall_cons in Hds as [Hdd Hds]. ld_step Hd.
    rewrite (ST_bind_Ok _ _ _ _ _ (in_set_run m f q delim d Hq Hf)).
    rewrite bool_decide_eq_true_2 by done. rewrite (IH (p + 1) ds) by (done || (simpl in Hn; lia)).
    rewrite zlen_cons. do 3 f_equal. lia.
Qed.

(** What the scan leaves: the byte after the token and [last]. *)
Definition scanned m p tok rest : cmem :=
  match rest with
  | [] => set_last NULL m
  | _ :: _ => set_last (p + zlen tok + 1) (set_bytes (<[p + zlen tok := 0]> (bytes m)) m)
  end.

Lemma strtok_scan_run f n m p q tok rest delim :
  str_at (bytes m) q delim -> (length delim < f)%nat ->
  str_at (bytes m) p (tok ++ rest) -> (length tok < n)%nat ->
  Forall (fun x => x ∉ delim) tok -> match rest with [] => True | d :: _ => d ∈ delim end ->
  strtok_scan f n p q m = Ok (tt, scanned m p tok rest).
Proof.
  intros Hq Hf. revert p tok. induction n as [|n IH]; intros p tok Hp Hn Htok Hr; [lia|].
  cbn [strtok_scan]. destruct tok as [|c tok]; cbn [app] in Hp.
  - unfold scanned. destruct rest as [|d rest]; cbn [str_at] in Hp.
    + ld_step Hp. rewrite (ST_bind_Ok _ _ _ _ _ (ends_token_run m f q delim 0 Hq Hf)).
      by rewrite bool_decide_eq_true_2 by auto.
    + destruct Hp as (Hd0 & _ & Hp & _). ld_step Hp.
      rewrite (ST_bind_Ok _ _ _ _ _ (ends_token_run m f q delim d Hq Hf)).
      rewrite bool_decide_eq_true_2 by auto. destruct (Z.eqb_spec d 0); [congruence|].
      assert (H0 : is_i8 0) by (unfold is_i8; lia).
      st_step (mk_is_Some _ _ Hp) H0. change (zlen (@nil Z)) with 0. by rewrite Z.add_0_r.
  - cbn [str_at] in Hp. destruct Hp as (Hc0 & _ & Hc & Hp).
    apply list.Forall_cons in Htok as [Hcd Htok]. ld_step Hc.
    rewrite (ST_bind_Ok _ _ _ _ _ (ends_token_run m f q delim c Hq Hf)).
    rewrite bool_decide_eq_false_2 by tauto.
    rewrite (IH (p + 1) tok) by (done || (simpl in Hn; lia)). unfold scanned.
    destruct rest; [done|]. rewrite zlen_cons.
    by replace (p + 1 + zlen tok) with (p + (1 + zlen tok)) by lia.
Qed.

(** The part of a string from [n] characters on. *)
Lemma str_tail b p s tok : str_at b p (s ++ tok) -> str_at b (p + zlen s) tok.
Proof.
  intros Hs. pose proof Hs as [Hb Hnz]%str_block. apply list.Forall_app in Hnz as [_ Hnz].
  rewrite <- app_assoc in Hb. apply mapped_app in Hb as [_ Hb]. by apply str_block.
Qed.

Lemma strtok_first m p q ds c tok rest delim :
  str_at (bytes m) p (ds ++ (c :: tok) ++ rest) -> str_at (bytes m) q delim -> p <> NULL ->
  Forall (fun x => x ∈ delim) ds -> Forall (fun x => x ∉ delim) (c :: tok) ->
  match rest with [] => True | d :: _ => d ∈ delim end ->
  strtok p q m = Ok (p + zlen ds, scanned m (p + zlen ds + 1) tok rest).
Proof.
  intros Hp Hq Hp0 Hds [Hcd Htok]%list.Forall_cons Hr.
  pose proof (str_fuel _ _ _ Hp) as Hf. pose proof (str_fuel _ _ _ Hq).
  rewrite !length_app in Hf. simpl in Hf.
  pose proof (str_tail _ _ _ _ Hp) as (Hc0 & _ & _ & Htail).
  unfold strtok. st_unfold. destruct (Z.eqb_spec p NULL); [done|]. cbv beta iota.
  destruct (Z.eqb_spec p NULL); [done|]. unfold fuel. st_unfold.
  rewrite (strtok_skip_run _ _ m p q ds c (tok ++ rest) delim) by (done || lia).
  destruct (Z.eqb_spec c 0); [done|]. cbv beta iota.
  rewrite (strtok_scan_run _ _ m (p + zlen ds + 1) q tok rest delim) by (done || lia).
  do 2 f_equal. lia.
Qed.

Lemma scanned_token m p ds c tok rest :
  str_at (bytes m) p (ds ++ (c :: tok) ++ rest) ->
  str_at (bytes (scanned m (p + zlen ds + 1) tok rest)) (p + zlen ds) (c :: tok).
Proof.
  intros Hp%str_tail. pose proof Hp as [Hb [Hnz _]%list.Forall_app]%str_block.
  rewrite <- app_assoc in Hb. apply mapped_app in Hb as [Hb Hr].
  apply str_block. split; [|done]. apply mapped_app. unfold scanned.
  destruct rest as [|d rest]; cbn [bytes set_last set_bytes]; [by split|].
  replace (p + zlen ds + 1 + zlen tok) with (p + zlen ds + zlen (c :: tok))
    by (rewrite zlen_cons; lia).
  split; [apply block_insert; [lia|done]|]. cbn [block_at].
  rewrite lookup_insert_eq. split_and!; [unfold is_i8; lia|done|done].
Qed.

Lemma scanned_rest m p ds c tok rest :
  str_at (bytes m) p (ds ++ (c :: tok) ++ rest) ->
  let m' := scanned m (p + zlen ds + 1) tok rest in
  match rest with
  | [] => last m' = NULL /\ bytes m' = bytes m
  | _ :: s => last m' = p + zlen ds + zlen (c :: tok) + 1 /\ str_at (bytes m') (last m') s
  end.
Proof.
  intros Hp%str_tail. unfold scanned.
  destruct rest as [|d rest]; cbn [bytes last set_last set_bytes]; [done|].
  rewrite zlen_cons. split; [lia|]. apply str_tail in Hp as (_ & _ & _ & Hp).
  rewrite zlen_cons in Hp.
  replace (p + zlen ds + 1 + zlen tok + 1) with (p + zlen ds + (1 + zlen tok) + 1) by lia.
  apply str_block in Hp as [Hb Hnz]. apply str_block. split; [|done].
  apply block_insert; [lia|done].
Qed.
End tokens.

(** ** The properties *)

(** C28: [memmove] copies any two readable and writable blocks, overlapping
    or not: the destination ends with the bytes the source had, every other
    byte is unchanged. [memcpy] does the same unless the destination starts
    inside the source. *)
Theorem memmove_moves (m : cmem) (dst src : Z) (l : list Z) :
  block_at (bytes m) src l -> mapped (bytes m) dst (zlen l) ->
  exists b, memmove dst src (zlen l) m = Ok (dst, set_bytes b m)
    /\ block_at b dst l
    /\ (forall a, a < dst \/ dst + zlen l <= a -> b !! a = bytes m !! a)
    /\ (clear_up dst src (zlen l) -> memcpy dst src (zlen l) m = Ok (dst, set_bytes b m)).
Proof.
  intros Hl Hm. exists (put (bytes m) dst l). split_and!.
  - by apply memmove_run.
  - apply put_block. by eapply block_i8.
  - intros a Ha. by apply put_outside.
  - intros Hc. unfold memcpy. replace (Z.to_nat (zlen l)) with (length l) by (unfold zlen; lia).
    by rewrite (ST_bind_Ok _ _ _ _ _ (copy_up_run m dst src l Hl Hm Hc)).
Qed.

(** A memory of bytes from an address on. *)
Fixpoint mem_of (p : Z) (l : list Z) : gmap Z Z :=
  match l with [] => ∅ | c :: l => <[p := c]> (mem_of (p + 1) l) end.

Definition demo_text : cmem := mk_cmem (mem_of 100 [97; 44; 98; 98; 44; 0; 44; 0]) NULL.

(** Move two bytes up by one, onto themselves. *)
Example memmove_moves_witness :
  exists b, memmove 101 100 2 demo_text = Ok (101, set_bytes b demo_text)
    /\ block_at b 101 [97; 44]
    /\ (forall a, a < 101 \/ 101 + 2 <= a -> b !! a = bytes demo_text !! a)
    /\ (clear_up 101 100 2 -> memcpy 101 100 2 demo_text = Ok (101, set_bytes b demo_text)).
Proof.
  apply (memmove_moves demo_text 101 100 [97; 44]).
  - vm_compute. repeat split; done.
  - intros a Ha. assert (a = 101 \/ a = 102) as [-> | ->] by (unfold zlen in Ha; simpl in Ha; lia);
      vm_compute; by eexists.
Defined.

(** The overlapping case [memcpy] gets wrong: the first byte is repeated. *)
Example memcpy_overlap :
  (memcpy 101 100 3 demo_text) = Ok (101, set_bytes (put (bytes demo_text) 101 [97; 97; 97]) demo_text).
Proof. vm_compute. reflexivity. Qed.

(** on terminated strings the searching and comparing functions return,
    without touching the memory: [strlen] the length, [strcmp] the difference
    at the first mismatch, which is 0 exactly for equal strings, [strchr] the
    first occurrence of a character and [strstr] of a string, or [NULL]. *)
Theorem strings_searched (m : cmem) (p q : Z) (s t : list Z) (c : Z) :
  str_at (bytes m) p s -> str_at (bytes m) q t -> zlen s < 2147483648 ->
  is_i8 c -> c <> 0 ->
  strlen p m = Ok (zlen s, m)
  /\ (exists d, strcmp p q m = Ok (d, m) /\ (d = 0 <-> s = t))
  /\ strchr p c m
     = Ok (match find_pos (fun x => x =? c) s with Some k => p + k | None => NULL end, m)
  /\ strstr p q m = Ok (match find_sub t s with Some k => p + k | None => NULL end, m).
Proof.
  intros Hs Ht Hl Hc Hc0. split_and!.
  - by apply strlen_run.
  - exists (lexdiff s t). split; [by apply strcmp_run|].
    apply lexdiff_0; by eapply str_block.
  - unfold strchr. rewrite (ST_bind_Ok _ _ _ _ _ (fuel_run m)).
    apply strchr_loop_run; try done. pose proof (str_fuel _ _ _ Hs). lia.
  - by apply strstr_run.
Qed.

Example strings_searched_witness :
  strlen 100 demo_text = Ok (zlen [97; 44; 98; 98; 44], demo_text)
  /\ (exists d, strcmp 100 106 demo_text = Ok (d, demo_text)
      /\ (d = 0 <-> [97; 44; 98; 98; 44] = [44]))
  /\ strchr 100 98 demo_text
     = Ok (match find_pos (fun x => x =? 98) [97; 44; 98; 98; 44] with
           | Some k => 100 + k | None => NULL end, demo_text)
  /\ strstr 100 106 demo_text
     = Ok (match find_sub [44] [97; 44; 98; 98; 44] with
           | Some k => 100 + k | None => NULL end, demo_text).
Proof.
  apply (strings_searched demo_text 100 106 [97; 44; 98; 98; 44] [44] 98);
    [vm_compute; repeat split; done..|done|unfold is_i8; lia|done].
Defined.

(** [strtok] on a string of leading delimiters, a token and a rest that
    is empty or starts with a delimiter returns the token, terminated in
    place, and remembers what follows it: nothing, or the text after one
    delimiter. Continuing with [NULL] is starting from the remembered
    pointer; a text of delimiters only gives [NULL]. *)
Theorem strtok_tokens (m : cmem) (p q : Z) (ds tok rest delim : list Z) :
  str_at (bytes m) p (ds ++ tok ++ rest) -> str_at (bytes m) q delim -> p <> NULL ->
  Forall (fun x => x ∈ delim) ds -> Forall (fun x => x ∉ delim) tok ->
  match rest with [] => True | d :: _ => d ∈ delim end ->
  strtok NULL q (set_last p m) = strtok p q (set_last p m)
  /\ (tok = [] -> rest = [] -> strtok p q m = Ok (NULL, set_last NULL m))
  /\ (tok <> [] -> exists m', strtok p q m = Ok (p + zlen ds, m')
      /\ str_at (bytes m') (p + zlen ds) tok
      /\ match rest with
         | [] => last m' = NULL /\ bytes m' = bytes m
         | _ :: s => last m' = p + zlen ds + zlen tok + 1 /\ str_at (bytes m') (last m') s
         end).
Proof.
  intros Hp Hq Hp0 Hds Htok Hr. split_and!.
  - unfold strtok. st_unfold. cbn [last set_last]. destruct (Z.eqb_spec p NULL); done.
  - intros -> ->. rewrite app_nil_r in Hp. unfold strtok. st_unfold.
    destruct (Z.eqb_spec p NULL); [done|]. cbv beta iota. destruct (Z.eqb_spec p NULL); [done|].
    pose proof (str_fuel _ _ _ Hp). pose proof (str_fuel _ _ _ Hq).
    unfold fuel. st_unfold. cbn [app] in *.
    rewrite (strtok_skip_end _ _ m p q ds delim) by first [done|lia|by eapply str_block].
    done.
  - intros Hne. destruct tok as [|c tok]; [done|].
    exists (scanned m (p + zlen ds + 1) tok rest). split_and!.
    + by apply (strtok_first m p q ds c tok rest delim).
    + by apply scanned_token.
    + by apply (scanned_rest m p ds c tok rest).
Qed.

Example strtok_tokens_witness :
  strtok NULL 106 (set_last 100 demo_text) = strtok 100 106 (set_last 100 demo_text)
  /\ ([97] = [] -> [44; 98; 98; 44] = [] ->
      strtok 100 106 demo_text = Ok (NULL, set_last NULL demo_text))
  /\ ([97] <> [] -> exists m', strtok 100 106 demo_text = Ok (100 + zlen (@nil Z), m')
      /\ str_at (bytes m') (100 + zlen (@nil Z)) [97]
      /\ last m' = 100 + zlen (@nil Z) + zlen [97] + 1 /\ str_at (bytes m') (last m') [98; 98; 44]).
Proof.
  apply (strtok_tokens demo_text 100 106 [] [97] [44; 98; 98; 44] [44]).
  - vm_compute. repeat split; done.
  - vm_compute. repeat split; done.
  - done.
  - done.
  - apply list.Forall_cons. split; [|done]. by intros H%list_elem_of_singleton.
  - by left.
Defined.
