(* ===== verification/Conv.v ===== *)
(** * Conversions and formatted output

    Numbers to text and back ([strtol], [atoi], [itoa]), the standard streams
    ([puts], [gets], [hexdump]) and [printf]/[sprintf] of [lib/libc/libc.c],
    and the kernel's own printing of [sys/lib/kprintf.c]. Text is ASCII codes;
    the streams are lists of characters, and [getchar] reads the next one. *)

From S2P Require Import Prelude Words Cstr.

(** ** State: memory and streams *)

(** [out] is what [putchar] sent, [dbg] what [dputchar] sent. *)
Record cio : Type := mk_cio { cm : cmem; inp : list Z; out : list Z; dbg : list Z }.

Definition set_cm (m : cmem) (s : cio) : cio := mk_cio m (inp s) (out s) (dbg s).

(** A memory access. *)
Definition on_mem {A : Type} (c : ST cmem A) : ST cio A := fun s =>
  match c (cm s) with
  | Ok (a, m) => Ok (a, set_cm m s)
  | Panic p => Panic p
  | Fault => Fault
  | Timeout => Timeout
  end.

Definition putchar (c : Z) : ST cio unit :=
  modify (fun s => mk_cio (cm s) (inp s) (out s ++ [u8 c]) (dbg s)).
Definition dputchar (c : Z) : ST cio unit :=
  modify (fun s => mk_cio (cm s) (inp s) (out s) (dbg s ++ [u8 c])).
(** The device answers -1 once the input is consumed. *)
Definition getchar : ST cio Z := fun s =>
  match inp s with
  | [] => Ok (-1, s)
  | c :: l => Ok (c, mk_cio (cm s) l (out s) (dbg s))
  end.

Definition isdigit (c : Z) : bool := (48 <=? c) && (c <=? 57).

(** ** Text to numbers *)

(** [for(i = 0; i <= 8; ++i)] with [k] characters left: the value and the
    pointer after the last character read. *)
Fixpoint strtol_loop (k : nat) (s base value : Z) : ST cmem (Z * Z) :=
  match k with
  | O => mret (value, s)
  | S k =>
      b ← ld s;
      let ch := u32 b in
      let s := s + 1 in
      if (48 <=? ch) && (ch <=? 57) then strtol_loop k s base (u32 (value * u32 base + (ch - 48)))
      else if (65 <=? ch) && (ch <=? 90) then
        strtol_loop k s base (u32 (value * u32 base + (ch - 65 + 10)))
      else if (97 <=? ch) && (ch <=? 122) then
        strtol_loop k s base (u32 (value * u32 base + (ch - 97 + 10)))
      else mret (value, s)
  end.

(** The value and what [*end] receives. *)
Definition strtol (s base : Z) : ST cmem (Z * Z) :=
  c ← ld s;
  let neg := c =? 45 in
  let s := if neg then s + 1 else s in
  c0 ← ld s;
  c1 ← (if c0 =? 48 then ld (s + 1) else mret 0);
  let hex := (c0 =? 48) && (c1 =? 120) in
  '(value, s) ← strtol_loop 9 (if hex then s + 2 else s) (if hex then 16 else base) 0;
  let value := if neg then u32 (- i32 value) else value in
  mret (i32 value, s - 1).

(** The first loop: blanks, then an optional sign; [f] counts the minus. *)
Fixpoint atoi_head (n : nat) (s : Z) : ST cmem (Z * Z) :=
  match n with
  | O => timeout_st
  | S n =>
      c ← ld s;
      if (c =? 32) || (c =? 9) then atoi_head n (s + 1)
      else if c =? 45 then mret (1, s + 1)
      else if c =? 43 then mret (0, s + 1)
      else mret (0, s)
  end.

Fixpoint atoi_digits (k : nat) (s n : Z) : ST cmem Z :=
  match k with
  | O => timeout_st
  | S k =>
      c ← ld s;
      if isdigit c then atoi_digits k (s + 1) (i32 (n * 10 + c - 48)) else mret n
  end.

Definition atoi (s : Z) : ST cmem Z :=
  k ← fuel;
  '(f, s) ← atoi_head k s;
  n ← atoi_digits k s 0;
  mret (if nz f then i32 (- n) else n).

(** ** Numbers to text *)

(** "zyx...9876543210123456789...xyz" *)
Definition itoa_table : list Z :=
  reverse (seqZ 97 26) ++ reverse (seqZ 49 9) ++ [48] ++ seqZ 49 9 ++ seqZ 97 26.

(** The do-while loop: the pointer after the digits, least significant
    first, and the last [tmp_value]. *)
Fixpoint itoa_digits (n : nat) (i ptr base : Z) : ST cmem (Z * Z) :=
  match n with
  | O => timeout_st
  | S n =>
      let tmp_value := i in
      let i := cdiv i base in
      c ← lift (aget itoa_table (35 + (tmp_value - i * base)));
      _ ← st ptr c;
      if nz i then itoa_digits n i (ptr + 1) base else mret (ptr + 1, tmp_value)
  end.

(** [while(ptr1 < ptr)]: reverse in place. *)
Fixpoint itoa_reverse (n : nat) (ptr1 ptr : Z) : ST cmem unit :=
  match n with
  | O => timeout_st
  | S n =>
      if ptr1 <? ptr then
        tmp_char ← ld ptr; c ← ld ptr1;
        _ ← st ptr c; _ ← st ptr1 tmp_char;
        itoa_reverse n (ptr1 + 1) (ptr - 1)
      else mret tt
  end.

Definition itoa (i s base : Z) : ST cmem Z :=
  if (base <? 2) || (36 <? base) then _ ← st s 0; mret s else
  '(ptr, tmp_value) ← itoa_digits 33 i s base;
  ptr ← (if tmp_value <? 0 then _ ← st ptr 45; mret (ptr + 1) else mret ptr);
  _ ← st ptr 0;
  _ ← itoa_reverse 33 s (ptr - 1);
  mret s.

Definition abs (n : Z) : Z := if 0 <=? n then n else i32 (- n).

(** ** Streams *)

Fixpoint puts_loop (n : nat) (str : Z) : ST cio unit :=
  match n with
  | O => timeout_st
  | S n =>
      c ← on_mem (ld str);
      if nz c then _ ← putchar c; puts_loop n (str + 1) else mret tt
  end.

Definition puts (str : Z) : ST cio Z :=
  n ← on_mem fuel; _ ← puts_loop n str; _ ← putchar 10; mret 0.

(** The characters up to a newline or the end of the input; the last
    character read and the pointer after the stored ones. *)
Fixpoint gets_loop (n : nat) (cs : Z) : ST cio (Z * Z) :=
  match n with
  | O => timeout_st
  | S n =>
      c ← getchar;
      if negb (c =? 10) && (0 <=? c) then _ ← on_mem (st cs c); gets_loop n (cs + 1)
      else mret (c, cs)
  end.

Definition gets_ (s : Z) : ST cio Z :=
  n ← on_mem fuel;
  '(c, cs) ← gets_loop n s;
  if (c <? 0) && (cs =? s) then mret NULL
  else _ ← on_mem (st cs 0); mret s.

(** ** printf and sprintf *)

(** The digit taken off [*n] and what is left. *)
Definition divide (n base : Z) : Z * Z := (cmod (u32 n) base, i32 (cdiv (u32 n) base)).

Fixpoint toint_loop (k : nat) (s i : Z) : ST cio (Z * Z) :=
  match k with
  | O => timeout_st
  | S k =>
      c ← on_mem (ld s);
      if isdigit c then toint_loop k (s + 1) (i32 (i * 10 + c - 48)) else mret (i, s)
  end.

Definition toint (s : Z) : ST cio (Z * Z) := k ← on_mem fuel; toint_loop k s 0.

(** The output: a position in memory, or the console. *)
Definition printchar (str : option Z) (c : Z) : ST cio (option Z) :=
  match str with
  | Some p => _ ← on_mem (st p c); mret (Some (p + 1))
  | None => _ ← when (nz c) (putchar c); mret None
  end.

(** [while (width-- > 0) printchar(p, pad);] *)
Fixpoint printpad (n : nat) (p : option Z) (pad : Z) : ST cio (option Z) :=
  match n with
  | O => mret p
  | S n => p ← printchar p pad; printpad n p pad
  end.

(** [for (; *str && width != 0; str++, width--)] over memory and over a
    literal. *)
Fixpoint print_str (n : nat) (p : option Z) (str width : Z) : ST cio (option Z * Z) :=
  match n with
  | O => timeout_st
  | S n =>
      c ← on_mem (ld str);
      if nz c && negb (width =? 0) then
        p ← printchar p c; print_str n p (str + 1) (i32 (width - 1))
      else mret (p, width)
  end.

Fixpoint print_lit (p : option Z) (l : list Z) (width : Z) : ST cio (option Z * Z) :=
  match l with
  | [] => mret (p, width)
  | c :: l =>
      if width =? 0 then mret (p, width)
      else p ← printchar p c; print_lit p l (i32 (width - 1))
  end.

Definition null_text : list Z := [60; 78; 85; 76; 76; 62].

Definition hex_digits : list Z := seqZ 48 10 ++ seqZ 97 6.

(** [while (num != 0) tmp[i++] = digits[divide(&num, base)];] with [tmp] as
    the list of its first [i] entries; it has room for 16. *)
Fixpoint num_loop (n : nat) (tmp : list Z) (num base : Z) : outcome (list Z) :=
  match n with
  | O => Timeout
  | S n =>
      if num =? 0 then Ok tmp else
      let '(d, num) := divide num base in
      c ← aget hex_digits d;
      if zlen tmp <? 16 then num_loop n (tmp ++ [c]) num base else Fault
  end.

(** [while (i-- > 0) printchar(p, tmp[i]);] *)
Fixpoint print_tmp (p : option Z) (tmp : list Z) : ST cio (option Z) :=
  match tmp with
  | [] => mret p
  | c :: tmp => p ← printchar p c; print_tmp p tmp
  end.

(** The part after [num = va_arg(args, long)]. *)
Definition print_num (p : option Z) (num base : Z) (sign : bool) (width pad : Z) :
    ST cio (option Z) :=
  '(p, num, width) ← (if sign && (num <? 0)
    then p ← printchar p 45; mret (p, i32 (- num), i32 (width - 1))
    else mret (p, num, width));
  tmp ← (if num =? 0 then mret [48] else lift (num_loop 33 [] num base));
  p ← printpad (Z.to_nat (width - zlen tmp)) p pad;
  print_tmp p (reverse tmp).

Definition va_arg (args : list Z) : ST cio (Z * list Z) :=
  match args with [] => fault_st | a :: args => mret (a, args) end.

(** The conversion at [fmt], which points after the flags, the width and the
    [l]. *)
Definition vsprintf_conv (p : option Z) (fmt : Z) (args : list Z) (width pad : Z) :
    ST cio (option Z * list Z) :=
  c ← on_mem (ld fmt);
  match c with
  | 99 => '(a, args) ← va_arg args; p ← printchar p (i8 a); mret (p, args)
  | 115 =>
      '(str, args) ← va_arg args;
      n ← on_mem fuel;
      '(p, width) ← (if str =? NULL then print_lit p null_text width else print_str n p str width);
      p ← printpad (Z.to_nat width) p pad;
      mret (p, args)
  | 88 | 120 => '(num, args) ← va_arg args; p ← print_num p (i32 num) 16 false width pad; mret (p, args)
  | 100 => '(num, args) ← va_arg args; p ← print_num p (i32 num) 10 true width pad; mret (p, args)
  | 117 => '(num, args) ← va_arg args; p ← print_num p (i32 num) 10 false width pad; mret (p, args)
  | _ => mret (p, args)
  end.

(** The flags and the width after a [%]: pad, width and the pointer to the
    conversion. *)
Definition vsprintf_flags (fmt : Z) : ST cio (Z * Z * Z) :=
  c ← on_mem (ld fmt);
  let '(pad, fmt) := if c =? 48 then (48, fmt + 1) else (32, fmt) in
  c ← on_mem (ld fmt);
  '(width, fmt) ← (if isdigit c then toint fmt else mret (-1, fmt));
  c ← on_mem (ld fmt);
  mret (pad, width, if c =? 108 then fmt + 1 else fmt).

Fixpoint vsprintf_loop (n : nat) (p : option Z) (fmt : Z) (args : list Z) : ST cio (option Z) :=
  match n with
  | O => timeout_st
  | S n =>
      c ← on_mem (ld fmt);
      if c =? 0 then mret p
      else if negb (c =? 37) then p ← printchar p c; vsprintf_loop n p (fmt + 1) args
      else
        '(pad, width, fmt) ← vsprintf_flags (fmt + 1);
        '(p, args) ← vsprintf_conv p fmt args width pad;
        vsprintf_loop n p (fmt + 1) args
  end.

Definition vsprintf (buf : option Z) (fmt : Z) (args : list Z) : ST cio Z :=
  n ← on_mem fuel;
  p ← vsprintf_loop n buf fmt args;
  _ ← printchar p 0;
  mret 0.

Definition printf (fmt : Z) (args : list Z) : ST cio Z := vsprintf None fmt args.

Definition sprintf (out fmt : Z) (args : list Z) : ST cio Z := vsprintf (Some out) fmt args.

(** ** hexdump *)

(** The text of [printf(...)] of a number in base 16, padded with zeros. *)
Definition print_hex (num width : Z) : ST cio unit :=
  _ ← print_num None (i32 num) 16 false width 48; mret tt.

Fixpoint hexdump_bytes (n : nat) (buf l : Z) : ST cio unit :=
  match n with
  | O => mret tt
  | S n =>
      b ← on_mem (ld (buf + l));
      _ ← print_hex b 2; _ ← putchar 32;
      _ ← when (l =? 7) (putchar 32);
      hexdump_bytes n buf (l + 1)
  end.

Fixpoint hexdump_text (n : nat) (buf l : Z) : ST cio unit :=
  match n with
  | O => mret tt
  | S n =>
      ch ← on_mem (ld (buf + l));
      _ ← putchar (if (32 <=? ch) && (ch <=? 126) then ch else 46);
      hexdump_text n buf (l + 1)
  end.

Fixpoint hexdump_lines (n : nat) (buf : Z) : ST cio unit :=
  match n with
  | O => mret tt
  | S n =>
      _ ← putchar 10; _ ← print_hex buf 8; _ ← putchar 32;
      _ ← hexdump_bytes 16 buf 0;
      _ ← putchar 32; _ ← putchar 124;
      _ ← hexdump_text 16 buf 0;
      _ ← putchar 124;
      hexdump_lines n (buf + 16)
  end.

(** One line per started 16 bytes. *)
Definition hexdump (buf size : Z) : ST cio Z :=
  _ ← hexdump_lines (Z.to_nat ((size + 15) / 16)) buf; mret 0.

(** ** Kernel printing *)

(** [for(; val2 && i ; --i, val2 /= base) buf[i] = ...]: [acc] holds
    [buf[i+1..30]]; an index outside the digits is an access beyond the
    literal. *)
Fixpoint kitoa_loop (n : nat) (acc : list Z) (val i base : Z) : outcome (list Z * Z) :=
  match n with
  | O => Timeout
  | S n =>
      if nz val && nz i then
        c ← aget hex_digits (cmod val base);
        kitoa_loop n (c :: acc) (cdiv val base) (i - 1) base
      else Ok (acc, i)
  end.

(** The string returned. *)
Definition kitoa (val base : Z) : outcome (list Z) :=
  if val =? 0 then Ok [48] else
  if base =? 16 then '(acc, _) ← kitoa_loop 32 [] (u32 val) 30 base; Ok acc
  else
    let n := val <? 0 in
    let val := if n then i32 (- val) else val in
    '(acc, _) ← kitoa_loop 32 [] val 30 base;
    Ok (if n : bool then 45 :: acc else acc).

(** [while (s[i]) putchar(s[i++]);] *)
Fixpoint put_all (put : Z -> ST cio unit) (l : list Z) : ST cio unit :=
  match l with [] => mret tt | c :: l => _ ← put c; put_all put l end.

Fixpoint put_str (put : Z -> ST cio unit) (n : nat) (s : Z) : ST cio unit :=
  match n with
  | O => timeout_st
  | S n =>
      c ← on_mem (ld s);
      if nz c then _ ← put c; put_str put n (s + 1) else mret tt
  end.

Definition knull_text : list Z := [40; 110; 117; 108; 108; 41].

(** One conversion of [kprint]; [put] is [putchar]. [dprint] is the same text
    with [dputchar], except that [%c] prints with [putchar] there too. *)
Definition kprint_conv (put : Z -> ST cio unit) (c : Z) (args : list Z) : ST cio (list Z) :=
  match c with
  | 100 => '(a, args) ← va_arg args; s ← lift (kitoa (i32 a) 10); _ ← put_all put s; mret args
  | 120 => '(a, args) ← va_arg args; s ← lift (kitoa (i32 a) 16); _ ← put_all put s; mret args
  | 99 => '(a, args) ← va_arg args; _ ← putchar (i8 a); mret args
  | 115 =>
      '(s, args) ← va_arg args;
      n ← on_mem fuel;
      _ ← (if s =? NULL then put_all put knull_text else put_str put n s);
      mret args
  | 37 => _ ← put 37; mret args
  | _ => _ ← put 63; mret args
  end.

Fixpoint kprint_loop (put : Z -> ST cio unit) (n : nat) (fmt : Z) (args : list Z) : ST cio unit :=
  match n with
  | O => timeout_st
  | S n =>
      c ← on_mem (ld fmt);
      if c =? 0 then mret tt
      else if negb (c =? 37) then _ ← put c; kprint_loop put n (fmt + 1) args
      else
        c ← on_mem (ld (fmt + 1));
        args ← kprint_conv put c args;
        kprint_loop put n (fmt + 2) args
  end.

Definition kprint (fmt : Z) (args : list Z) : ST cio Z :=
  n ← on_mem fuel; _ ← kprint_loop putchar n fmt args; mret 0.
Definition dprint (fmt : Z) (args : list Z) : ST cio Z :=
  n ← on_mem fuel; _ ← kprint_loop dputchar n fmt args; mret 0.

Definition kprintf (fmt : Z) (args : list Z) : ST cio Z := kprint fmt args.
(** Interrupts are masked around it, which the streams do not show. *)
Definition dprintf (fmt : Z) (args : list Z) : ST cio Z := dprint fmt args.

(** ** The text of a number *)

(** The character of a digit. *)
Definition dig (d : Z) : Z := if d <? 10 then 48 + d else 87 + d.

(** The digits of a non-negative number, most significant first, none for 0. *)
Fixpoint digits (f : nat) (base n : Z) : list Z :=
  match f with
  | O => []
  | S f => if n =? 0 then [] else digits f base (n / base) ++ [n mod base]
  end.

(** The usual text of a non-negative number, at most [f] digits long. *)
Definition text_of (f : nat) (base n : Z) : list Z :=
  if n =? 0 then [48] else dig <$> digits f base n.

(** The decimal text of a 32-bit number. *)
Definition decimal (n : Z) : list Z :=
  if n <? 0 then 45 :: text_of 10 10 (- n) else text_of 10 10 n.

Section digits.
Implicit Types (f : nat) (n base : Z).

Lemma digits_length f base n : (length (digits f base n) <= f)%nat.
Proof.
  revert n. induction f as [|f IH]; intros n; simpl; [lia|].
  destruct (n =? 0); simpl; [lia|]. rewrite length_app. simpl. specialize (IH (n / base)). lia.
Qed.

(** More fuel than digits changes nothing. *)
Lemma digits_more f k base n :
  1 < base -> 0 <= n < base ^ Z.of_nat f -> digits (f + k) base n = digits f base n.
Proof.
  intros Hb. revert n. induction f as [|f IH]; intros n Hn.
  - assert (n = 0) as -> by (simpl in Hn; lia). by destruct k.
  - cbn [Nat.add digits]. destruct (n =? 0); [done|]. rewrite IH; [done|].
    rewrite Nat2Z.inj_succ, Z.pow_succ_r in Hn by lia.
    split; [apply Z.div_pos; lia|]. apply Z.div_lt_upper_bound; lia.
Qed.

Lemma digits_0 f base : digits f base 0 = [].
Proof. by destruct f. Qed.

Lemma digits_nonempty f base n : n <> 0 -> digits (S f) base n <> [].
Proof.
  intros Hn. cbn [digits]. destruct (Z.eqb_spec n 0); [done|].
  intros [_ ?]%app_eq_nil. done.
Qed.

Lemma digits_range f base n : 1 < base -> Forall (fun d => 0 <= d < base) (digits f base n).
Proof.
  intros Hb. revert n. induction f as [|f IH]; intros n; cbn [digits]; [done|].
  destruct (n =? 0); [done|]. apply list.Forall_app. split; [apply IH|].
  apply list.Forall_cons. split; [apply Z.mod_pos_bound; lia|done].
Qed.

(** The number the digits stand for. *)
Definition value base (l : list Z) : Z := fold_left (fun n d => n * base + d) l 0.

Lemma value_snoc base l d : value base (l ++ [d]) = value base l * base + d.
Proof. unfold value. by rewrite fold_left_app. Qed.

Lemma value_digits f base n :
  1 < base -> 0 <= n < base ^ Z.of_nat f -> value base (digits f base n) = n.
Proof.
  intros Hb. revert n. induction f as [|f IH]; intros n Hn; cbn [digits].
  - simpl in Hn. unfold value. simpl. lia.
  - destruct (Z.eqb_spec n 0) as [->|]; [done|]. rewrite value_snoc, IH.
    + pose proof (Z.div_mod n base). lia.
    + rewrite Nat2Z.inj_succ, Z.pow_succ_r in Hn by lia.
      split; [apply Z.div_pos; lia|]. apply Z.div_lt_upper_bound; lia.
Qed.

Lemma itoa_table_dig r : -36 < r < 36 -> aget itoa_table (35 + r) = Ok (dig (Z.abs r)).
Proof.
  intros Hr.
  assert (H : forallb (fun x => match zget itoa_table (35 + x) with
    Some c => c =? dig (Z.abs x) | None => false end) (seqZ (-35) 71) = true) by (vm_compute; done).
  rewrite forallb_forall in H. specialize (H r ltac:(apply list_elem_of_In, elem_of_seqZ; lia)).
  unfold aget. destruct (zget itoa_table (35 + r)); [|done]. apply Z.eqb_eq in H. by subst.
Qed.

Lemma hex_digits_dig d : 0 <= d < 16 -> aget hex_digits d = Ok (dig d).
Proof.
  intros Hd.
  assert (H : forallb (fun x => match zget hex_digits x with
    Some c => c =? dig x | None => false end) (seqZ 0 16) = true) by (vm_compute; done).
  rewrite forallb_forall in H. specialize (H d ltac:(apply list_elem_of_In, elem_of_seqZ; lia)).
  unfold aget. destruct (zget hex_digits d); [|done]. apply Z.eqb_eq in H. by subst.
Qed.

Lemma dig_range d : 0 <= d < 36 -> 48 <= dig d < 123.
Proof. intros Hd. unfold dig. destruct (Z.ltb_spec d 10); lia. Qed.

Lemma dig_decimal d : 0 <= d < 10 -> dig d = 48 + d /\ isdigit (dig d) = true.
Proof.
  intros Hd. unfold dig, isdigit. destruct (Z.ltb_spec d 10); [|lia].
  destruct (Z.leb_spec 48 (48 + d)), (Z.leb_spec (48 + d) 57); first [done|lia].
Qed.
End digits.

(** ** The printing loops *)

Section loops.
Implicit Types (f : nat) (n base : Z).

Lemma quotient_bound f n base :
  1 < base -> 0 <= n < base ^ Z.of_nat (S f) -> 0 <= n / base < base ^ Z.of_nat f.
Proof.
  intros Hb Hn. rewrite Nat2Z.inj_succ, Z.pow_succ_r in Hn by lia.
  split; [apply Z.div_pos; lia|]. apply Z.div_lt_upper_bound; lia.
Qed.

Lemma kitoa_loop_run f k acc n i base :
  1 < base <= 16 -> 0 <= n < base ^ Z.of_nat f -> Z.of_nat f <= i ->
  kitoa_loop (S (f + k)) acc n i base
    = Ok ((dig <$> digits f base n) ++ acc, i - zlen (digits f base n)).
Proof.
  intros Hb. revert acc n i. induction f as [|f IH]; intros acc n i Hn Hi.
  - assert (n = 0) as -> by (simpl in Hn; lia). cbn. by rewrite Z.sub_0_r.
  - change (S f + k)%nat with (S (f + k)). remember (S (f + k)) as g eqn:Eg.
    cbn [kitoa_loop digits]. unfold nz at 1.
    destruct (Z.eqb_spec n 0) as [->|Hn0]; cbn [negb andb].
    { cbn. by rewrite Z.sub_0_r. }
    rewrite (proj2 (nz_true i)) by lia.
    pose proof (Z.mod_pos_bound n base ltac:(lia)).
    unfold cmod, cdiv. rewrite Z.rem_mod_nonneg, Z.quot_div_nonneg by lia.
    rewrite hex_digits_dig by lia. unfold mbind, outcome_bind.
    rewrite IH; [|apply quotient_bound; [lia|done]|lia].
    rewrite fmap_app, <- app_assoc, zlen_app. change (zlen [n mod base]) with 1.
    cbn [fmap list_fmap app]. do 2 f_equal. lia.
Qed.

Lemma num_loop_run f k tmp n base :
  1 < base <= 16 -> 0 <= n < base ^ Z.of_nat f -> n < 4294967296 -> zlen tmp + Z.of_nat f <= 16 ->
  num_loop (S (f + k)) tmp (i32 n) base = Ok (tmp ++ reverse (dig <$> digits f base n)).
Proof.
  intros Hb. revert tmp n. induction f as [|f IH]; intros tmp n Hn Hw Hl.
  - assert (n = 0) as -> by (simpl in Hn; lia). cbn. by rewrite app_nil_r.
  - change (S f + k)%nat with (S (f + k)). remember (S (f + k)) as g eqn:Eg.
    assert (Hz : (i32 n =? 0) = (n =? 0)).
    { destruct (Z.eqb_spec n 0) as [->|]; [done|]. apply Z.eqb_neq. word_lia. }
    cbn [num_loop digits]. rewrite Hz. destruct (Z.eqb_spec n 0) as [->|Hn0].
    { cbn. by rewrite app_nil_r. }
    unfold divide. rewrite u32_i32, u32_small by lia.
    pose proof (Z.mod_pos_bound n base ltac:(lia)).
    unfold cmod, cdiv. rewrite Z.rem_mod_nonneg, Z.quot_div_nonneg by lia.
    rewrite hex_digits_dig by lia. unfold mbind, outcome_bind.
    destruct (Z.ltb_spec (zlen tmp) 16); [|lia].
    rewrite IH.
    + rewrite fmap_app, reverse_app, <- app_assoc. done.
    + apply quotient_bound; [lia|done].
    + apply Z.le_lt_trans with n; [|lia]. apply Z.div_le_upper_bound; nia.
    + rewrite zlen_app. change (zlen [dig (n mod base)]) with 1. lia.
Qed.
End loops.

(** ** itoa *)

(** The text of a signed number. *)
Definition signed_text (base i : Z) : list Z :=
  (if i <? 0 then [45] else []) ++ text_of 32 base (Z.abs i).

Section itoa.
Implicit Types (m : cmem) (i s ptr base : Z) (l : list Z).

Lemma text_of_step f base n :
  0 <= n -> 1 < base -> n / base <> 0 ->
  text_of (S f) base n = text_of f base (n / base) ++ [dig (n mod base)].
Proof.
  intros Hn Hb Hq. unfold text_of. destruct (Z.eqb_spec n 0) as [->|]; [by rewrite Z.div_0_l in Hq by lia|].
  destruct (Z.eqb_spec (n / base) 0); [done|]. cbn [digits].
  destruct (Z.eqb_spec n 0); [done|]. by rewrite fmap_app.
Qed.

Lemma text_of_last f base n :
  0 <= n -> 1 < base -> n / base = 0 -> text_of (S f) base n = [dig n].
Proof.
  intros Hn Hb Hq. unfold text_of. destruct (Z.eqb_spec n 0) as [->|]; [done|]. cbn [digits].
  destruct (Z.eqb_spec n 0); [done|]. rewrite Hq, digits_0. cbn.
  rewrite Z.mod_small; [done|]. split; [lia|]. apply Z.div_small_iff in Hq; lia.
Qed.

Lemma text_of_i8 f base n : 1 < base <= 36 -> Forall is_i8 (text_of f base n).
Proof.
  intros Hb. unfold text_of. destruct (n =? 0).
  - apply list.Forall_cons. split; [unfold is_i8; lia|done].
  - apply Forall_fmap. eapply list.Forall_impl; [apply digits_range; lia|].
    intros d Hd. unfold compose. cbn beta in Hd. pose proof (dig_range d ltac:(lia)). unfold is_i8. lia.
Qed.

Lemma itoa_digits_S n i ptr base :
  itoa_digits (S n) i ptr base =
    (c ← lift (aget itoa_table (35 + (i - cdiv i base * base)));
     _ ← st ptr c;
     if nz (cdiv i base) then itoa_digits n (cdiv i base) (ptr + 1) base
     else mret (ptr + 1, i)).
Proof. done. Qed.

Lemma itoa_digits_run f k m i ptr base :
  1 < base <= 36 -> Z.abs i < base ^ Z.of_nat (S f) ->
  mapped (bytes m) ptr (zlen (text_of (S f) base (Z.abs i))) ->
  exists t, itoa_digits (S (f + k)) i ptr base m
    = Ok ((ptr + zlen (text_of (S f) base (Z.abs i)), t),
          set_bytes (put (bytes m) ptr (reverse (text_of (S f) base (Z.abs i)))) m)
    /\ (t <? 0) = (i <? 0).
Proof.
  intros Hb. revert m i ptr. induction f as [|f IH]; intros m i ptr Hi Hm;
    rewrite itoa_digits_S;
    assert (Hq : Z.abs (cdiv i base) = Z.abs i / base)
      by (unfold cdiv; rewrite <- Z.quot_abs, Z.quot_div_nonneg by lia; f_equal; lia);
    assert (Hr : Z.abs (i - cdiv i base * base) = Z.abs i mod base)
      by (unfold cdiv; rewrite Z.mul_comm, <- Z.rem_eq, <- Z.rem_abs, Z.rem_mod_nonneg by lia; f_equal; lia);
    pose proof (Z.mod_pos_bound (Z.abs i) base ltac:(lia)) as Hmod;
    assert (Ht : lift (aget itoa_table (35 + (i - cdiv i base * base))) m
      = Ok (dig (Z.abs i mod base), m))
      by (rewrite itoa_table_dig by lia; by rewrite Hr);
    assert (Hc8 : is_i8 (dig (Z.abs i mod base)))
      by (pose proof (dig_range (Z.abs i mod base) ltac:(lia)); unfold is_i8; lia);
    rewrite (ST_bind_Ok _ _ _ _ _ Ht);
    destruct (decide (Z.abs i / base = 0)) as [Hz|Hnz].
  1,3: rewrite text_of_last in Hm |- * by (done || lia);
    change (zlen [dig (Z.abs i)]) with 1 in *;
    st_step (Hm ptr ltac:(lia)) Hc8;
    assert (Z.abs i < base) by (apply Z.div_small_iff in Hz; lia);
    rewrite Z.mod_small by lia;
    rewrite (proj2 (nz_false (cdiv i base))) by lia; by exists i.
  - exfalso. apply Hnz, Z.div_small. change (base ^ Z.of_nat 1) with (base ^ 1) in Hi.
    rewrite Z.pow_1_r in Hi. lia.
  - rewrite text_of_step in Hm |- * by (done || lia).
    rewrite zlen_app in Hm |- *. change (zlen [dig (Z.abs i mod base)]) with 1 in *.
    pose proof (zlen_nonneg (text_of (S f) base (Z.abs i / base))).
    st_step (Hm ptr ltac:(lia)) Hc8.
    rewrite (proj2 (nz_true (cdiv i base))) by lia.
    destruct (IH (set_bytes (<[ptr := dig (Z.abs i mod base)]> (bytes m)) m) (cdiv i base) (ptr + 1))
      as (t & E & Hs).
    + rewrite Hq. apply quotient_bound; [lia|]. split; [lia|done].
    + rewrite Hq. cbn [bytes set_bytes]. apply mapped_insert. intros a Ha. apply Hm. lia.
    + exists t. change (S f + k)%nat with (S (f + k)). rewrite E, Hq. split.
      * rewrite reverse_snoc. cbn [bytes set_bytes put]. do 2 f_equal. f_equal. lia.
      * rewrite Hs. unfold cdiv in *.
        destruct (Z.ltb_spec i 0), (Z.ltb_spec (Z.quot i base) 0); try done; exfalso.
        -- assert (Z.quot i base <= 0); [|lia].
           rewrite <- (Z.opp_involutive i), Z.quot_opp_l by lia.
           pose proof (Z.quot_pos (- i) base ltac:(lia) ltac:(lia)). lia.
        -- pose proof (Z.quot_pos i base ltac:(lia) ltac:(lia)). lia.
Qed.

Lemma put_same b p l : block_at b p l -> put b p l = b.
Proof.
  revert p. induction l as [|c l IH]; intros p H; [done|]. destruct H as (_ & Hc & H).
  cbn [put]. rewrite insert_id by done. by apply IH.
Qed.

Lemma itoa_reverse_run n m s l :
  block_at (bytes m) s l -> (length l < 2 * n)%nat ->
  itoa_reverse n s (s + zlen l - 1) m = Ok (tt, set_bytes (put (bytes m) s (reverse l)) m).
Proof.
  revert m s l. induction n as [|n IH]; intros m s l Hl Hn; [lia|]. cbn [itoa_reverse].
  destruct l as [|c l].
  { change (zlen (@nil Z)) with 0. destruct (Z.ltb_spec s (s + 0 - 1)); [lia|]. cbn.
    by rewrite set_bytes_same. }
  destruct l as [|d l _] using rev_ind.
  { change (zlen [c]) with 1. destruct (Z.ltb_spec s (s + 1 - 1)); [lia|].
    change (reverse [c]) with [c]. by rewrite put_same, set_bytes_same. }
  rewrite zlen_cons, zlen_app. change (zlen [d]) with 1. pose proof (zlen_nonneg l).
  destruct (Z.ltb_spec s (s + (1 + (zlen l + 1)) - 1)); [|lia].
  destruct Hl as (Hc & Hs & Hl). apply mapped_app in Hl as [Hl (Hd & Hp & _)].
  replace (s + (1 + (zlen l + 1)) - 1) with (s + 1 + zlen l) by lia.
  ld_step Hp. ld_step Hs. st_step (mk_is_Some _ _ Hp) Hc.
  assert (Hs2 : is_Some (<[s + 1 + zlen l := c]> (bytes m) !! s))
    by (rewrite lookup_insert_ne by lia; by exists c).
  rewrite (ST_bind_Ok _ _ _ _ _ (st_Ok s d (set_bytes (<[s + 1 + zlen l := c]> (bytes m)) m) Hs2 Hd)).
  cbn [bytes set_bytes]. rewrite (IH _ (s + 1) l).
  - rewrite reverse_cons, reverse_snoc. cbn [app put]. rewrite put_app.
    assert (Hzr : zlen (reverse l) = zlen l) by (unfold zlen; by rewrite length_reverse).
    rewrite Hzr. cbn [put bytes set_bytes].
    rewrite (insert_insert_ne _ s (s + 1 + zlen l)) by lia.
    rewrite (put_insert_above _ _ _ (s + 1 + zlen l) c) by (rewrite Hzr; lia). done.
  - apply block_insert; [lia|]. apply block_insert; [lia|done].
  - simpl in Hn. rewrite length_app in Hn. simpl in Hn. lia.
Qed.

Lemma text_of_more f k base n :
  1 < base -> 0 <= n < base ^ Z.of_nat f -> text_of (f + k) base n = text_of f base n.
Proof. intros Hb Hn. unfold text_of. by rewrite digits_more. Qed.

Lemma signed_text_i8 base i : 1 < base <= 36 -> Forall is_i8 (signed_text base i).
Proof.
  intros Hb. unfold signed_text. apply list.Forall_app. split; [|by apply text_of_i8].
  destruct (i <? 0); [|done]. apply list.Forall_cons. split; [unfold is_i8; lia|done].
Qed.

Lemma signed_text_length base i : (length (signed_text base i) <= 33)%nat.
Proof.
  unfold signed_text, text_of. rewrite length_app.
  pose proof (digits_length 32 base (Z.abs i)).
  destruct (i <? 0), (Z.abs i =? 0); rewrite ?length_fmap; cbn [length Nat.add]; lia.
Qed.

Lemma pow_32 base : 1 < base -> 4294967296 <= base ^ 32.
Proof.
  intros Hb. assert (H : 2 ^ 32 <= base ^ 32) by (apply Z.pow_le_mono_l; lia).
  change (2 ^ 32) with 4294967296 in H. exact H.
Qed.

(** Appending one byte to what was written. *)
Lemma st_append b m p l c :
  mapped b p (zlen l + 1) -> is_i8 c ->
  st (p + zlen l) c (set_bytes (put b p l) m) = Ok (tt, set_bytes (put b p (l ++ [c])) m).
Proof.
  intros Hm Hc. pose proof (zlen_nonneg l). rewrite st_Ok; [|cbn [bytes set_bytes]|done].
  - cbn [bytes set_bytes]. rewrite put_app. done.
  - rewrite put_outside by lia. apply Hm. lia.
Qed.

Lemma put_put b p l k : zlen l = zlen k -> put (put b p k) p l = put b p l.
Proof.
  revert b p k. induction l as [|c l IH]; intros b p [|d k] Hl;
    rewrite ?zlen_cons in Hl; try (pose proof (zlen_nonneg l)); try (pose proof (zlen_nonneg k));
    try done; try (unfold zlen in Hl; simpl in Hl; lia).
  cbn [put]. rewrite <- put_insert_below by lia. rewrite insert_insert_eq.
  apply IH. lia.
Qed.

Lemma zlen_reverse (l : list Z) : zlen (reverse l) = zlen l.
Proof. unfold zlen. by rewrite length_reverse. Qed.

Lemma reverse_signed base i :
  reverse (signed_text base i)
    = reverse (text_of 32 base (Z.abs i)) ++ (if i <? 0 then [45] else []).
Proof. unfold signed_text. rewrite reverse_app. by destruct (i <? 0). Qed.

(** The sign follows the digits. *)
Lemma itoa_sign b m i t s base :
  mapped b s (zlen (signed_text base i) + 1) -> (t <? 0) = (i <? 0) ->
  let ds := reverse (text_of 32 base (Z.abs i)) in
  ((if t <? 0 then _ ← st (s + zlen ds) 45; mret (s + zlen ds + 1) else mret (s + zlen ds))
    : ST cmem Z) (set_bytes (put b s ds) m)
  = Ok (s + zlen (signed_text base i), set_bytes (put b s (reverse (signed_text base i))) m).
Proof.
  intros Hm Ht ds. rewrite Ht. rewrite reverse_signed. fold ds.
  rewrite <- (zlen_reverse (signed_text base i)), reverse_signed in Hm. fold ds in Hm.
  rewrite <- (zlen_reverse (signed_text base i)), reverse_signed. fold ds.
  rewrite zlen_app in *. destruct (i <? 0).
  - change (zlen [45]) with 1 in *. rewrite (ST_bind_Ok _ _ _ _ _ (st_append b m s ds 45
      ltac:(intros a Ha; apply Hm; lia) ltac:(unfold is_i8; lia))).
    by rewrite Z.add_assoc.
  - rewrite app_nil_r. change (zlen (@nil Z)) with 0. by rewrite Z.add_0_r.
Qed.

Lemma itoa_run m i s base :
  -2147483648 <= i < 2147483648 -> 1 < base <= 36 ->
  mapped (bytes m) s (zlen (signed_text base i) + 1) ->
  itoa i s base m = Ok (s, set_bytes (put (bytes m) s (signed_text base i ++ [0])) m).
Proof.
  intros Hi Hb Hm. pose proof (signed_text_i8 base i Hb) as H8.
  pose proof (signed_text_length base i) as Hlen. set (ds := reverse (text_of 32 base (Z.abs i))).
  assert (Hz : zlen (text_of 32 base (Z.abs i)) <= zlen (signed_text base i)).
  { unfold signed_text. rewrite zlen_app. pose proof (zlen_nonneg (if i <? 0 then [45] else [])). lia. }
  unfold itoa. destruct (Z.ltb_spec base 2); [lia|]. destruct (Z.ltb_spec 36 base); [lia|].
  cbn [orb]. destruct (itoa_digits_run 31 1 m i s base Hb) as (t & E & Ht).
  { pose proof (pow_32 base). change (Z.of_nat 32) with 32. lia. }
  { intros a Ha. apply Hm. lia. }
  change (S (31 + 1)) with 33%nat in E. rewrite (ST_bind_Ok _ _ _ _ _ E).
  pose proof (itoa_sign (bytes m) m i t s base Hm Ht) as Hs. cbv zeta in Hs.
  rewrite zlen_reverse in Hs. rewrite (ST_bind_Ok _ _ _ _ _ Hs).
  pose proof (st_append (bytes m) m s (reverse (signed_text base i)) 0) as Hend.
  rewrite zlen_reverse in Hend.
  rewrite (ST_bind_Ok _ _ _ _ _ (Hend Hm ltac:(unfold is_i8; lia))).
  set (b := put (bytes m) s (reverse (signed_text base i) ++ [0])).
  assert (Hblk : block_at b s (reverse (signed_text base i) ++ [0])).
  { apply put_block, list.Forall_app. split; [by apply Forall_reverse|].
    apply list.Forall_cons. split; [unfold is_i8; lia|done]. }
  apply mapped_app in Hblk as [Hblk _].
  pose proof (itoa_reverse_run 33 (set_bytes b m) s _ Hblk) as Hr.
  rewrite zlen_reverse, length_reverse, reverse_involutive in Hr.
  rewrite (ST_bind_Ok _ _ _ _ _ (Hr ltac:(lia))). cbn [bytes set_bytes].
  unfold mret, ST_ret. unfold b. rewrite set_bytes_twice, put_app, zlen_reverse. cbn [put].
  rewrite put_insert_above, put_put by (rewrite ?zlen_reverse; lia).
  by rewrite put_app.
Qed.
End itoa.

(** ** atoi *)

Section atoi.
Implicit Types (m : cmem) (i s n : Z) (l : list Z).

Lemma i32_step n d : i32 (i32 n * 10 + d) = i32 (n * 10 + d).
Proof. word_lia. Qed.

Lemma atoi_digits_run k m s n l :
  block_at (bytes m) s (dig <$> l) -> Forall (fun d => 0 <= d < 10) l ->
  (exists c, bytes m !! (s + zlen l) = Some c /\ isdigit c = false) -> (length l < k)%nat ->
  atoi_digits k s (i32 n) m = Ok (i32 (fold_left (fun n d => n * 10 + d) l n), m).
Proof.
  revert s n l. induction k as [|k IH]; intros s n l Hl Hd He Hk; [lia|]. cbn [atoi_digits].
  destruct l as [|d l].
  - destruct He as (c & Hc & Hn). change (zlen (@nil Z)) with 0 in Hc. rewrite Z.add_0_r in Hc.
    ld_step Hc. by rewrite Hn.
  - destruct Hl as (_ & Hc & Hl). apply list.Forall_cons in Hd as [Hd0 Hd]. ld_step Hc.
    destruct (dig_decimal d Hd0) as [Hv ->]. rewrite zlen_cons in He.
    replace (i32 n * 10 + dig d - 48) with (i32 n * 10 + d) by (rewrite Hv; lia).
    rewrite i32_step. rewrite (IH (s + 1) (n * 10 + d) l); [done|done|done| |simpl in Hk; lia].
    by replace (s + 1 + zlen l) with (s + (1 + zlen l)) by lia.
Qed.

Lemma text_of_digits f n : 0 <= n < 10 ^ Z.of_nat (S f) ->
  exists l, text_of (S f) 10 n = dig <$> l /\ Forall (fun d => 0 <= d < 10) l
    /\ value 10 l = n /\ l <> [].
Proof.
  intros Hn. unfold text_of. destruct (Z.eqb_spec n 0) as [->|Hn0].
  - exists [0]. split_and!; try done. apply list.Forall_cons. split; [lia|done].
  - exists (digits (S f) 10 n). split_and!; [done|by apply digits_range| |by apply digits_nonempty].
    apply value_digits; lia.
Qed.

(** The sign is recognised, a digit is left. *)
Lemma atoi_head_run k m s c :
  bytes m !! s = Some c -> (0 < k)%nat -> c = 45 \/ isdigit c = true ->
  atoi_head k s m = Ok (if c =? 45 then (1, s + 1) else (0, s), m).
Proof.
  intros Hc Hk Hd. destruct k as [|k]; [lia|]. cbn [atoi_head]. ld_step Hc.
  destruct Hd as [->|Hd]; [done|]. unfold isdigit in Hd.
  destruct (Z.leb_spec 48 c); [|done].
  destruct (Z.eqb_spec c 32), (Z.eqb_spec c 9), (Z.eqb_spec c 45), (Z.eqb_spec c 43); try lia. done.
Qed.

Lemma signed_text_10 i : -2147483648 <= i < 2147483648 -> signed_text 10 i = decimal i.
Proof.
  intros Hi. unfold signed_text, decimal.
  assert (H : forall n, 0 <= n <= 2147483648 -> text_of 32 10 n = text_of 10 10 n).
  { intros n Hn. apply (text_of_more 10 22); [lia|]. cbn; lia. }
  destruct (Z.ltb_spec i 0); cbn [app]; rewrite H by lia; [rewrite Z.abs_neq by lia|rewrite Z.abs_eq by lia]; done.
Qed.

Lemma atoi_run m s i :
  -2147483648 <= i < 2147483648 -> str_at (bytes m) s (decimal i) -> atoi s m = Ok (i, m).
Proof.
  intros Hi Hs. pose proof (str_fuel _ _ _ Hs) as Hf. apply str_block in Hs as [Hb _].
  unfold atoi. rewrite (ST_bind_Ok _ _ _ _ _ (fuel_run m)).
  destruct (text_of_digits 9 (Z.abs i)) as (l & Et & Hd & Hv & Hne); [cbn; lia|].
  assert (Ed : decimal i = (if i <? 0 then [45] else []) ++ (dig <$> l)).
  { rewrite <- Et. unfold decimal. destruct (Z.ltb_spec i 0); cbn [app];
      [rewrite Z.abs_neq by lia|rewrite Z.abs_eq by lia]; done. }
  rewrite Ed in Hb, Hf. rewrite length_app, length_fmap in Hf. rewrite <- app_assoc in Hb.
  apply mapped_app in Hb as [Hsg Hb]. apply mapped_app in Hb as [Hb (_ & Hend & _)].
  assert (Hzl : zlen (dig <$> l) = zlen l) by (unfold zlen; by rewrite length_fmap).
  rewrite Hzl in Hend.
  set (p := s + zlen (if i <? 0 then [45] else [])) in *.
  assert (Hhead : atoi_head (S (size (bytes m))) s m = Ok (if i <? 0 then (1, p) else (0, p), m)).
  { unfold p in *. destruct (i <? 0).
    - destruct Hsg as (_ & Hsg & _). rewrite (atoi_head_run _ m s 45) by (done || lia || auto).
      done.
    - change (zlen (@nil Z)) with 0 in *. rewrite Z.add_0_r in *. destruct l as [|d l]; [done|].
      destruct Hb as (_ & Hc & _). apply list.Forall_cons in Hd as [Hd0 _].
      destruct (dig_decimal d Hd0) as [Hdv Hdd].
      rewrite (atoi_head_run _ m s (dig d)) by (done || lia || auto).
      destruct (Z.eqb_spec (dig d) 45); [lia|done]. }
  rewrite (ST_bind_Ok _ _ _ _ _ Hhead).
  assert (Hdig : atoi_digits (S (size (bytes m))) p 0 m = Ok (i32 (Z.abs i), m)).
  { change 0 with (i32 0). rewrite (atoi_digits_run _ m p 0 l); [|done|done| |lia].
    - unfold value in Hv. by rewrite Hv.
    - exists 0. by split. }
  destruct (Z.ltb_spec i 0); rewrite (ST_bind_Ok _ _ _ _ _ Hdig); unfold mret, ST_ret;
    do 2 f_equal; cbn; word_lia.
Qed.
End atoi.

(** ** The properties *)

Lemma decimal_nonzero i : -2147483648 <= i < 2147483648 ->
  Forall is_i8 (decimal i) /\ Forall (fun c => c <> 0) (decimal i).
Proof.
  intros Hi. rewrite <- signed_text_10 by done. split; [by apply signed_text_i8|].
  unfold signed_text, text_of. apply list.Forall_app. split; [by destruct (i <? 0); repeat constructor|].
  destruct (_ =? 0); [by repeat constructor|]. apply Forall_fmap.
  eapply list.Forall_impl; [apply digits_range; lia|]. intros d Hd. cbn beta in Hd. unfold compose.
  pose proof (dig_range d ltac:(lia)). lia.
Qed.

(** C27: [itoa] in base 10 writes the decimal text of any 32-bit number,
    terminated, and [atoi] reads the number back, the least one included. *)
Theorem decimal_round_trip (m : cmem) (s i : Z) :
  -2147483648 <= i < 2147483648 -> mapped (bytes m) s (zlen (decimal i) + 1) ->
  exists m', itoa i s 10 m = Ok (s, m')
    /\ str_at (bytes m') s (decimal i)
    /\ atoi s m' = Ok (i, m').
Proof.
  intros Hi Hm. rewrite <- signed_text_10 in Hm by done.
  pose proof (itoa_run m i s 10 Hi ltac:(lia) Hm) as H. rewrite signed_text_10 in H by done.
  eexists. split; [exact H|].
  destruct (decimal_nonzero i Hi) as [H8 Hnz].
  assert (Hstr : str_at (put (bytes m) s (decimal i ++ [0])) s (decimal i)) by by apply put_str_at.
  split; [exact Hstr|]. by apply atoi_run.
Qed.

Definition demo_buffer : cmem := mk_cmem (mem_of 200 (replicate 12 7)) NULL.

Example decimal_round_trip_witness :
  exists m', itoa (-2147483648) 200 10 demo_buffer = Ok (200, m')
    /\ str_at (bytes m') 200 (decimal (-2147483648))
    /\ atoi 200 m' = Ok (-2147483648, m').
Proof.
  apply (decimal_round_trip demo_buffer 200 (-2147483648)); [lia|].
  apply (block_mapped _ 200 (replicate 12 7)). vm_compute. repeat split; done.
Defined.

(** What reaches the console. *)
Definition say (l : list Z) (s : cio) : cio := mk_cio (cm s) (inp s) (out s ++ l) (dbg s).

Lemma printchar_console c s : 0 < c < 256 -> printchar None c s = Ok (None, say [c] s).
Proof.
  intros Hc. unfold printchar, when. rewrite (proj2 (nz_true c)) by lia. st_unfold.
  unfold putchar, say. st_unfold. by rewrite u8_small by lia.
Qed.

Lemma say_say l k s : say l (say k s) = say (k ++ l) s.
Proof. unfold say. cbn. by rewrite app_assoc. Qed.

Lemma say_nil s : say [] s = s.
Proof. unfold say. rewrite app_nil_r. by destruct s. Qed.

Lemma print_tmp_console l s : Forall (fun c => 0 < c < 256) l -> print_tmp None l s = Ok (None, say l s).
Proof.
  revert s. induction l as [|c l IH]; intros s Hl; cbn [print_tmp]; [by rewrite say_nil|].
  apply list.Forall_cons in Hl as [Hc Hl].
  rewrite (ST_bind_Ok _ _ _ _ _ (printchar_console c s Hc)), IH by done. by rewrite say_say.
Qed.

Lemma printpad_console n pad s :
  0 < pad < 256 -> printpad n None pad s = Ok (None, say (replicate n pad) s).
Proof.
  intros Hp. revert s. induction n as [|n IH]; intros s; cbn [printpad replicate]; [by rewrite say_nil|].
  rewrite (ST_bind_Ok _ _ _ _ _ (printchar_console pad s Hp)), IH. by rewrite say_say.
Qed.

Lemma text_of_chars f base n : 1 < base <= 36 -> Forall (fun c => 0 < c < 256) (text_of f base n).
Proof.
  intros Hb. unfold text_of. destruct (n =? 0); [by repeat constructor|]. apply Forall_fmap.
  eapply list.Forall_impl; [apply digits_range; lia|]. intros d Hd. cbn beta in Hd. unfold compose.
  pose proof (dig_range d ltac:(lia)). lia.
Qed.

(** The digits of a magnitude, as [print_num] collects and prints them. *)
Lemma print_magnitude n width pad s :
  0 <= n <= 2147483648 -> 0 < pad < 256 ->
  (tmp ← (if i32 n =? 0 then mret [48] else lift (num_loop 33 [] (i32 n) 10));
   p ← printpad (Z.to_nat (width - zlen tmp)) None pad;
   print_tmp p (reverse tmp) : ST cio (option Z)) s
  = Ok (None, say (replicate (Z.to_nat (width - zlen (text_of 10 10 n))) pad ++ text_of 10 10 n) s).
Proof.
  intros Hn Hp.
  assert (Htmp : (if i32 n =? 0 then mret [48] else lift (num_loop 33 [] (i32 n) 10) : ST cio _) s
    = Ok (reverse (text_of 10 10 n), s)).
  { unfold text_of. destruct (Z.eqb_spec n 0) as [->|Hn0]; [done|].
    destruct (Z.eqb_spec (i32 n) 0); [word_lia|].
    pose proof (num_loop_run 10 22 [] n 10 ltac:(lia) ltac:(cbn; lia) ltac:(lia) ltac:(change (zlen (@nil Z)) with 0; lia)) as E.
    change (S (10 + 22)) with 33%nat in E. unfold lift. rewrite E. done. }
  rewrite (ST_bind_Ok _ _ _ _ _ Htmp), zlen_reverse.
  rewrite (ST_bind_Ok _ _ _ _ _ (printpad_console _ pad s Hp)), reverse_involutive.
  rewrite print_tmp_console by (apply text_of_chars; lia). by rewrite say_say.
Qed.

Lemma kitoa_10 val : -2147483648 < val < 2147483648 -> kitoa val 10 = Ok (decimal val).
Proof.
  intros Hv. unfold kitoa, decimal. destruct (Z.eqb_spec val 0) as [->|Hv0]; [done|].
  change (10 =? 16) with false. cbv iota.
  assert (Hloop : forall n, 0 < n < 2147483648 ->
    exists i, kitoa_loop 32 [] n 30 10 = Ok (text_of 10 10 n, i)).
  { intros n Hn. pose proof (kitoa_loop_run 10 21 [] n 30 10 ltac:(lia) ltac:(cbn; lia) ltac:(cbn; lia)) as E.
    change (S (10 + 21)) with 32%nat in E. eexists. rewrite E, app_nil_r. unfold text_of.
    by destruct (Z.eqb_spec n 0); [lia|]. }
  destruct (Z.ltb_spec val 0); cbv zeta.
  - rewrite i32_small by lia. destruct (Hloop (- val)) as [i ->]; [lia|]. done.
  - destruct (Hloop val) as [i ->]; [lia|]. done.
Qed.

Lemma kitoa_16 val : -2147483648 <= val < 2147483648 -> kitoa val 16 = Ok (text_of 8 16 (u32 val)).
Proof.
  intros Hv. unfold kitoa, text_of. destruct (Z.eqb_spec val 0) as [->|Hv0]; [done|].
  change (16 =? 16) with true. cbv iota. pose proof (u32_range val).
  pose proof (kitoa_loop_run 8 23 [] (u32 val) 30 16 ltac:(lia) ltac:(cbn; lia) ltac:(cbn; lia)) as E.
  change (S (8 + 23)) with 32%nat in E. rewrite E, app_nil_r.
  destruct (Z.eqb_spec (u32 val) 0); [word_lia|done].
Qed.

(** the kernel's [kitoa] returns the decimal text of every number but the
    least one, whose digits it looks up at negative positions, and the
    hexadecimal text of the unsigned value; [printf]'s [%d] prints sign,
    padding and digits in this order for every number. *)
Theorem numbers_printed (val width pad : Z) (s : cio) :
  -2147483648 <= val < 2147483648 -> -1 <= width < 2147483647 -> pad = 32 \/ pad = 48 ->
  kitoa val 10 = (if val =? -2147483648 then Fault else Ok (decimal val))
  /\ kitoa val 16 = Ok (text_of 8 16 (u32 val))
  /\ print_num None val 10 true width pad s
     = Ok (None, say ((if val <? 0 then [45] else [])
         ++ replicate (Z.to_nat (width - zlen (decimal val))) pad
         ++ text_of 10 10 (Z.abs val)) s).
Proof.
  intros Hv Hw Hpad. split_and!; [|by apply kitoa_16|].
  - destruct (Z.eqb_spec val (-2147483648)) as [->|]; [by vm_compute|]. apply kitoa_10. lia.
  - assert (Hp : 0 < pad < 256) by lia. unfold print_num. cbn [andb].
    unfold decimal. destruct (Z.ltb_spec val 0).
    + rewrite ST_bind_assoc, (ST_bind_Ok _ _ _ _ _ (printchar_console 45 s ltac:(lia))).
      rewrite (ST_bind_Ok _ _ _ (None, i32 (- val), i32 (width - 1)) (say [45] s)) by done.
      pose proof (print_magnitude (- val) (i32 (width - 1)) pad (say [45] s) ltac:(lia) Hp) as E.
      cbn beta iota in E |- *. rewrite E. rewrite say_say, zlen_cons, Z.abs_neq by lia.
      rewrite i32_small by lia.
      by replace (width - (1 + zlen (text_of 10 10 (- val))))
        with (width - 1 - zlen (text_of 10 10 (- val))) by lia.
    + rewrite (ST_bind_Ok _ _ _ (None, val, width) s) by done.
      pose proof (print_magnitude val width pad s ltac:(lia) Hp) as E.
      rewrite i32_small in E by lia. cbn beta iota in E |- *. rewrite E.
      by rewrite Z.abs_eq by lia.
Qed.

Example numbers_printed_witness :
  kitoa (-42) 10 = (if -42 =? -2147483648 then Fault else Ok (decimal (-42)))
  /\ kitoa (-42) 16 = Ok (text_of 8 16 (u32 (-42)))
  /\ print_num None (-42) 10 true 5 32 (mk_cio demo_buffer [] [] [])
     = Ok (None, say ((if -42 <? 0 then [45] else [])
         ++ replicate (Z.to_nat (5 - zlen (decimal (-42)))) 32
         ++ text_of 10 10 (Z.abs (-42))) (mk_cio demo_buffer [] [] [])).
Proof. apply (numbers_printed (-42) 5 32); [lia|lia|by left]. Defined.

(** "%5d" of -42: the sign comes before the blanks. *)
Example sign_before_blanks :
  print_num None (-42) 10 true 5 32 (mk_cio demo_buffer [] [] [])
  = Ok (None, mk_cio demo_buffer [] [45; 32; 32; 52; 50] []).
Proof. vm_compute. reflexivity. Qed.

(** Nine digits are read, the pointer is left on the last one. *)
Example strtol_truncates :
  let m := mk_cmem (mem_of 300 (seqZ 49 9 ++ [48; 0])) NULL in
  strtol 300 10 m = Ok ((123456789, 308), m).
Proof. vm_compute. reflexivity. Qed.

(** A format that ends in a percent sign is read past its end. *)
Example format_overrun :
  let m := mk_cmem (mem_of 300 [37; 0]) NULL in
  printf 300 [] (mk_cio m [] [] []) = Fault /\ kprintf 300 [] (mk_cio m [] [] []) = Fault.
Proof. vm_compute. split; reflexivity. Qed.
