(* ===== verification/SoftInt.v ===== *)
(** * Integer runtime of the C library

    The "software implementation of multiply/divide and 64-bit routines" of
    [lib/libc/libc.c]: the helpers the compiler calls for operations the
    processor has no instruction for. Each routine is translated with its
    loops, the wrap-around of its types and its undefined cases ([Fault]), and
    shown equal to the integer operation it stands for. *)

From S2P Require Import Prelude Words.

(** ** Shifts of 32-bit operands *)

(** A shift by 32 or more is undefined in C. *)
Definition shl32 (x n : Z) : outcome Z :=
  if n <? 32 then Ok (u32 (Z.shiftl x n)) else Fault.
Definition shr32 (x n : Z) : outcome Z :=
  if n <? 32 then Ok (Z.shiftr x n) else Fault.

(** ** The double-word union *)

Record dwords : Type := mk_dwords { high : Z; low : Z }.

(** Writing and reading the member [all]. *)
Definition dw_of (all : Z) : dwords := mk_dwords (i32 (Z.shiftr all 32)) (u32 all).
Definition dw_all (d : dwords) : Z := i64 (high d * 4294967296 + low d).

(** ** Multiplication *)

Fixpoint mulsi3_loop (fuel : nat) (answer a b : Z) : outcome Z :=
  match fuel with
  | O => Timeout
  | S fuel =>
      if nz b then
        mulsi3_loop fuel (if nz (Z.land b 1) then u32 (answer + a) else answer)
          (u32 (Z.shiftl a 1)) (Z.shiftr b 1)
      else Ok answer
  end.

Definition __mulsi3 (a b : Z) : outcome Z :=
  answer ← mulsi3_loop 33 0 a b; mret (i32 answer).

Definition __muldsi3 (a b : Z) : Z :=
  let bits_in_word_2 := 16 in
  let lower_mask := Z.shiftr (u32 (Z.lnot 0)) bits_in_word_2 in
  let rlow := u32 (Z.land a lower_mask * Z.land b lower_mask) in
  let t := Z.shiftr rlow bits_in_word_2 in
  let rlow := Z.land rlow lower_mask in
  let t := u32 (t + u32 (Z.shiftr a bits_in_word_2 * Z.land b lower_mask)) in
  let rlow := u32 (rlow + u32 (Z.shiftl (Z.land t lower_mask) bits_in_word_2)) in
  let rhigh := i32 (Z.shiftr t bits_in_word_2) in
  let t := Z.shiftr rlow bits_in_word_2 in
  let rlow := Z.land rlow lower_mask in
  let t := u32 (t + u32 (Z.shiftr b bits_in_word_2 * Z.land a lower_mask)) in
  let rlow := u32 (rlow + u32 (Z.shiftl (Z.land t lower_mask) bits_in_word_2)) in
  let rhigh := i32 (rhigh + Z.shiftr t bits_in_word_2) in
  let rhigh := i32 (rhigh + u32 (Z.shiftr a bits_in_word_2 * Z.shiftr b bits_in_word_2)) in
  dw_all (mk_dwords rhigh rlow).

Definition __muldi3 (a b : Z) : outcome Z :=
  let x := dw_of a in
  let y := dw_of b in
  let r := dw_of (__muldsi3 (low x) (low y)) in
  p ← __mulsi3 (u32 (high x)) (low y);
  q ← __mulsi3 (low x) (u32 (high y));
  mret (dw_all (mk_dwords (i32 (high r + i32 (p + q))) (low r))).

(** ** 32-bit division *)

(** The first loop aligns the divisor under the dividend. *)
Fixpoint udivmodsi4_align (fuel : nat) (num den bit : Z) : outcome (Z * Z) :=
  match fuel with
  | O => Timeout
  | S fuel =>
      if (den <? num) && nz bit && negb (nz (Z.land den (u32 (Z.shiftl 1 31)))) then
        udivmodsi4_align fuel num (u32 (Z.shiftl den 1)) (u32 (Z.shiftl bit 1))
      else Ok (den, bit)
  end.

(** The second loop subtracts the divisor down to bit 0. *)
Fixpoint udivmodsi4_sub (fuel : nat) (num den bit res : Z) : outcome (Z * Z) :=
  match fuel with
  | O => Timeout
  | S fuel =>
      if nz bit then
        if den <=? num then
          udivmodsi4_sub fuel (u32 (num - den)) (Z.shiftr den 1) (Z.shiftr bit 1)
            (Z.lor res bit)
        else udivmodsi4_sub fuel num (Z.shiftr den 1) (Z.shiftr bit 1) res
      else Ok (num, res)
  end.

Definition __udivmodsi4 (num den : Z) (modwanted : bool) : outcome Z :=
  '(den, bit) ← udivmodsi4_align 33 num den 1;
  '(num, res) ← udivmodsi4_sub 33 num den bit 0;
  mret (if modwanted then num else res).

Definition __divsi3 (a b : Z) : outcome Z :=
  let '(a, neg) := if a <? 0 then (i32 (- a), true) else (a, false) in
  let '(b, neg) := if b <? 0 then (i32 (- b), negb neg) else (b, neg) in
  r ← __udivmodsi4 (u32 a) (u32 b) false;
  let res := i32 r in
  mret (if neg : bool then i32 (- res) else res).

Definition __modsi3 (a b : Z) : outcome Z :=
  let '(a, neg) := if a <? 0 then (i32 (- a), true) else (a, false) in
  let b := if b <? 0 then i32 (- b) else b in
  r ← __udivmodsi4 (u32 a) (u32 b) true;
  let res := i32 r in
  mret (if neg : bool then i32 (- res) else res).

Definition __udivsi3 (a b : Z) : outcome Z := __udivmodsi4 a b false.

Definition __umodsi3 (a b : Z) : outcome Z := __udivmodsi4 a b true.

(** ** 64-bit shifts *)

Definition __ashldi3 (u b : Z) : outcome Z :=
  if b =? 0 then Ok u else
  let uu := dw_of u in
  let bm := u32 (32 - b) in
  if bm <=? 0 then
    h ← shl32 (low uu) (u32 (- bm));
    mret (dw_all (mk_dwords (i32 h) 0))
  else
    carries ← shr32 (low uu) bm;
    l ← shl32 (low uu) b;
    h ← shl32 (u32 (high uu)) b;
    mret (dw_all (mk_dwords (i32 (Z.lor h carries)) l)).

Definition __ashrdi3 (u b : Z) : outcome Z :=
  if b =? 0 then Ok u else
  let uu := dw_of u in
  let bm := u32 (32 - b) in
  if bm <=? 0 then
    h ← shr32 (high uu) 31;
    l ← shr32 (low uu) (u32 (- bm));
    mret (dw_all (mk_dwords h l))
  else
    carries ← shl32 (u32 (high uu)) bm;
    h ← shr32 (high uu) b;
    l ← shr32 (low uu) b;
    mret (dw_all (mk_dwords h (Z.lor l carries))).

Definition __lshrdi3 (u b : Z) : outcome Z :=
  if b =? 0 then Ok u else
  let uu := dw_of u in
  let bm := u32 (32 - b) in
  if bm <=? 0 then
    l ← shr32 (u32 (high uu)) (u32 (- bm));
    mret (dw_all (mk_dwords 0 l))
  else
    carries ← shl32 (u32 (high uu)) bm;
    h ← shr32 (u32 (high uu)) b;
    l ← shr32 (low uu) b;
    mret (dw_all (mk_dwords (i32 h) (Z.lor l carries))).

(** ** 64-bit division *)

Fixpoint udivmoddi4_align (fuel : nat) (den qbit : Z) : outcome (Z * Z) :=
  match fuel with
  | O => Timeout
  | S fuel =>
      if 0 <=? i64 den then
        udivmoddi4_align fuel (u64 (Z.shiftl den 1)) (u64 (Z.shiftl qbit 1))
      else Ok (den, qbit)
  end.

Fixpoint udivmoddi4_sub (fuel : nat) (num den qbit quot : Z) : outcome (Z * Z) :=
  match fuel with
  | O => Timeout
  | S fuel =>
      if nz qbit then
        if den <=? num then
          udivmoddi4_sub fuel (u64 (num - den)) (Z.shiftr den 1) (Z.shiftr qbit 1)
            (u64 (quot + qbit))
        else udivmoddi4_sub fuel num (Z.shiftr den 1) (Z.shiftr qbit 1) quot
      else Ok (quot, num)
  end.

(** The quotient, and the remainder that goes to [*rem_p]. A zero divisor is
    divided by. *)
Definition __udivmoddi4 (num den : Z) : outcome (Z * Z) :=
  if den =? 0 then Fault else
  '(den, qbit) ← udivmoddi4_align 64 den 1;
  udivmoddi4_sub 65 num den qbit 0.

Definition __umoddi3 (num den : Z) : outcome Z :=
  '(_, v) ← __udivmoddi4 num den; mret v.

Definition __udivdi3 (num den : Z) : outcome Z :=
  '(q, _) ← __udivmoddi4 num den; mret q.

Definition __moddi3 (num den : Z) : outcome Z :=
  let '(num, minus) := if num <? 0 then (i64 (- num), true) else (num, false) in
  let '(den, minus) := if den <? 0 then (i64 (- den), negb minus) else (den, minus) in
  '(_, v) ← __udivmoddi4 (u64 num) (u64 den);
  let v := i64 v in
  mret (if minus : bool then i64 (- v) else v).

Definition __divdi3 (num den : Z) : outcome Z :=
  let '(num, minus) := if num <? 0 then (i64 (- num), true) else (num, false) in
  let '(den, minus) := if den <? 0 then (i64 (- den), negb minus) else (den, minus) in
  '(q, _) ← __udivmoddi4 (u64 num) (u64 den);
  let v := i64 q in
  mret (if minus : bool then i64 (- v) else v).

(** ** Multiplication is exact modulo the width *)

Section multiplication.
Implicit Types a b : Z.

Lemma u32_add_mul_l x y z : u32 (x + u32 y * z) = u32 (x + y * z).
Proof. by rewrite <- u32_add_r, u32_mul_l, u32_add_r. Qed.

Lemma mulsi3_loop_run (fuel : nat) answer a b :
  0 <= b < 2 ^ Z.of_nat fuel ->
  mulsi3_loop (S fuel) answer a b = Ok (if nz b then u32 (answer + a * b) else answer).
Proof.
  revert answer a b. induction fuel as [|fuel IH]; intros answer a b Hb.
  - replace b with 0 by (simpl in Hb; lia). done.
  - assert (Hb2 : 0 <= b / 2 < 2 ^ Z.of_nat fuel).
    { rewrite Nat2Z.inj_succ, Z.pow_succ_r in Hb by lia. Z.div_mod_to_equations; lia. }
    cbn [mulsi3_loop]. destruct (nz b) eqn:Eb; [|done]. apply nz_true in Eb.
    change (mulsi3_loop (S fuel) (if nz (Z.land b 1) then u32 (answer + a) else answer)
      (u32 (Z.shiftl a 1)) (Z.shiftr b 1) = Ok (u32 (answer + a * b))).
    rewrite land_1, shiftr_div_1, shiftl_mul_1, IH by done.
    pose proof (Z.div_mod b 2 ltac:(lia)) as Hd.
    assert (b mod 2 = 0 \/ b mod 2 = 1) as Hm by (Z.div_mod_to_equations; lia).
    assert (Hab : a * b = a * 2 * (b / 2) + a * (b mod 2)) by (rewrite Hd at 1; ring).
    f_equal. rewrite Hab. destruct Hm as [Hm|Hm]; rewrite Hm;
      [change (nz 0) with false | change (nz 1) with true]; cbv iota.
    + destruct (nz (b / 2)) eqn:E2; [|apply nz_false in E2; lia].
      rewrite u32_add_mul_l. f_equal. ring.
    + destruct (nz (b / 2)) eqn:E2.
      * rewrite u32_add_mul_l, u32_add_l. f_equal. ring.
      * apply nz_false in E2. rewrite E2. f_equal. ring.
Qed.

Lemma mulsi3_run a b : 0 <= b < 4294967296 -> __mulsi3 a b = Ok (i32 (a * b)).
Proof.
  intros Hb. unfold __mulsi3.
  rewrite (mulsi3_loop_run 32 0 a b Hb). unfold mbind, outcome_bind, mret, outcome_ret.
  destruct (nz b) eqn:E.
  - by rewrite i32_u32.
  - apply nz_false in E. subst. by rewrite Z.mul_0_r.
Qed.

Lemma mask16 x : Z.land x (Z.shiftr (u32 (Z.lnot 0)) 16) = x mod 65536.
Proof. change (Z.shiftr (u32 (Z.lnot 0)) 16) with (Z.ones 16). by rewrite Z.land_ones. Qed.
Lemma shiftr_16 x : Z.shiftr x 16 = x / 65536.
Proof. by rewrite Z.shiftr_div_pow2. Qed.
Lemma shiftl_mul_16 x : Z.shiftl x 16 = x * 65536.
Proof. by rewrite Z.shiftl_mul_pow2. Qed.

Lemma u32_mul_small x y :
  0 <= x < 65536 -> 0 <= y < 65536 -> u32 (x * y) = x * y /\ 0 <= x * y <= 65535 * 65535.
Proof. intros Hx Hy. assert (0 <= x * y <= 65535 * 65535) by nia. rewrite u32_small; lia. Qed.

(** Schoolbook multiplication of the halves. *)
Lemma muldsi3_run a b :
  0 <= a < 4294967296 -> 0 <= b < 4294967296 -> __muldsi3 a b = i64 (a * b).
Proof.
  intros Ha Hb. unfold __muldsi3. rewrite !mask16, !shiftr_16, !shiftl_mul_16.
  destruct (u32_mul_small (a mod 65536) (b mod 65536)) as [-> H0];
    [Z.div_mod_to_equations; lia..|].
  destruct (u32_mul_small (a / 65536) (b mod 65536)) as [-> H1];
    [Z.div_mod_to_equations; lia..|].
  destruct (u32_mul_small (b / 65536) (a mod 65536)) as [-> H2];
    [Z.div_mod_to_equations; lia..|].
  destruct (u32_mul_small (a / 65536) (b / 65536)) as [-> H3];
    [Z.div_mod_to_equations; lia..|].
  assert (Hab : a * b = a / 65536 * (b / 65536) * 4294967296 + a / 65536 * (b mod 65536) * 65536
    + b / 65536 * (a mod 65536) * 65536 + a mod 65536 * (b mod 65536)).
  { rewrite (Z.div_mod a 65536) at 1 by lia. rewrite (Z.div_mod b 65536) at 1 by lia. ring. }
  rewrite Hab. clear Hab.
  generalize dependent (a mod 65536 * (b mod 65536)). intros p0 H0.
  generalize dependent (a / 65536 * (b mod 65536)). intros p1 H1.
  generalize dependent (b / 65536 * (a mod 65536)). intros p2 H2.
  generalize dependent (a / 65536 * (b / 65536)). intros p3 H3. clear Ha Hb a b.
  rewrite (u32_small (p0 / 65536 + p1)) by word_lia.
  set (t2 := p0 / 65536 + p1).
  rewrite (u32_small (t2 mod 65536 * 65536)) by word_lia.
  rewrite (u32_small (p0 mod 65536 + t2 mod 65536 * 65536)) by word_lia.
  replace ((p0 mod 65536 + t2 mod 65536 * 65536) / 65536) with (t2 mod 65536) by word_lia.
  replace ((p0 mod 65536 + t2 mod 65536 * 65536) mod 65536) with (p0 mod 65536) by word_lia.
  rewrite (u32_small (t2 mod 65536 + p2)) by word_lia.
  set (t4 := t2 mod 65536 + p2).
  rewrite (u32_small (t4 mod 65536 * 65536)) by word_lia.
  rewrite (u32_small (p0 mod 65536 + t4 mod 65536 * 65536)) by word_lia.
  unfold dw_all; cbn [high low]. subst t4 t2. unfold i64, i32. word_lia.
Qed.

Lemma dw_all_of x : dw_all (dw_of x) = i64 x.
Proof.
  unfold dw_all, dw_of; cbn [high low]. rewrite Z.shiftr_div_pow2 by lia.
  change (2 ^ 32) with 4294967296. word_lia.
Qed.

Lemma i64_eq_iff x y : i64 x = i64 y <-> exists k, x = y + k * 18446744073709551616.
Proof.
  unfold i64. split.
  - intros H. exists ((x + 9223372036854775808) / 18446744073709551616
      - (y + 9223372036854775808) / 18446744073709551616).
    Z.div_mod_to_equations; lia.
  - intros [k ->]. f_equal.
    replace (y + k * 18446744073709551616 + 9223372036854775808)
      with (y + 9223372036854775808 + k * 18446744073709551616) by ring.
    by rewrite Z_mod_plus_full.
Qed.

Lemma muldi3_run a b : __muldi3 a b = Ok (i64 (a * b)).
Proof.
  unfold __muldi3. rewrite muldsi3_run by (cbn; apply u32_range).
  rewrite !mulsi3_run by (cbn; apply u32_range).
  unfold mbind, outcome_bind, mret, outcome_ret. f_equal.
  unfold dw_of; cbn [high low]. rewrite !Z.shiftr_div_pow2 by lia.
  change (2 ^ 32) with 4294967296.
  set (xh := a / 4294967296). set (yh := b / 4294967296).
  assert (Ha : a = xh * 4294967296 + u32 a) by (subst xh; word_lia).
  assert (Hb : b = yh * 4294967296 + u32 b) by (subst yh; word_lia).
  generalize dependent (u32 a). generalize dependent (u32 b). intros yl Hb xl Ha.
  rewrite Ha, Hb. clearbody xh yh. clear Ha Hb a b.
  rewrite u32_i32.
  assert (Hp : forall p q h, exists k, i32 (h + i32 (i32 p + i32 q)) = h + p + q + k * 4294967296).
  { intros p q h.
    exists ((i32 (h + i32 (i32 p + i32 q)) - (h + p + q)) / 4294967296). word_lia. }
  set (z := i64 (xl * yl)).
  assert (Hz : exists k, z = xl * yl + k * 18446744073709551616).
  { apply i64_eq_iff. subst z. apply i64_small, i64_range. }
  destruct Hz as [k1 Hz].
  destruct (Hp (u32 xh * yl) (xl * u32 (i32 yh)) (i32 (z / 4294967296))) as [k2 ->].
  unfold dw_all; cbn [high low]. apply i64_eq_iff.
  assert (Hs : i32 (z / 4294967296) = z / 4294967296).
  { apply i32_small. pose proof (i64_range (xl * yl)). fold z in H. Z.div_mod_to_equations; lia. }
  rewrite Hs.
  assert (H1 : exists k, u32 xh = xh + k * 4294967296)
    by (apply u32_eq_iff; by rewrite u32_u32).
  assert (H2 : exists k, u32 (i32 yh) = yh + k * 4294967296)
    by (apply u32_eq_iff; by rewrite u32_u32, u32_i32).
  destruct H1 as [m1 ->]. destruct H2 as [m2 ->].
  pose proof (Z.div_mod z 4294967296 ltac:(lia)) as Hd. fold (u32 z) in Hd.
  exists (k2 + k1 + m1 * yl + m2 * xl - xh * yh).
  replace ((z / 4294967296 + (xh + m1 * 4294967296) * yl + xl * (yh + m2 * 4294967296)
    + k2 * 4294967296) * 4294967296 + u32 z)
    with (z + ((xh + m1 * 4294967296) * yl + xl * (yh + m2 * 4294967296)
    + k2 * 4294967296) * 4294967296) by (rewrite Hd at 1; ring).
  rewrite Hz. ring.
Qed.
End multiplication.

(** ** Division: quotient and remainder *)

Section division.
Implicit Types num den d : Z.

Lemma lor_above (r x : Z) (k : nat) :
  0 <= x < 2 ^ Z.of_nat k -> Z.lor (r * 2 ^ Z.of_nat k) x = r * 2 ^ Z.of_nat k + x.
Proof.
  intros Hx. rewrite <- (Z.shiftl_mul_pow2 r (Z.of_nat k)) at 1 by lia.
  by apply lor_shiftl_add; [lia|].
Qed.

Lemma udivmodsi4_align_run (fuel k : nat) num d :
  0 < d -> 0 <= num < 4294967296 -> d * 2 ^ Z.of_nat k < 4294967296 ->
  2147483648 <= d * 2 ^ Z.of_nat k * 2 ^ Z.of_nat fuel ->
  exists j : nat, udivmodsi4_align (S fuel) num (d * 2 ^ Z.of_nat k) (2 ^ Z.of_nat k)
    = Ok (d * 2 ^ Z.of_nat j, 2 ^ Z.of_nat j) /\ num < 2 * (d * 2 ^ Z.of_nat j)
    /\ d * 2 ^ Z.of_nat j < 4294967296.
Proof.
  revert k. induction fuel as [|fuel IH]; intros k Hd Hn Hk Hf;
    assert (Hp : 0 < 2 ^ Z.of_nat k) by (apply Z.pow_pos_nonneg; lia);
    assert (Hnz : nz (2 ^ Z.of_nat k) = true) by (apply nz_true; lia);
    assert (Hpos : 0 < d * 2 ^ Z.of_nat k) by nia;
    assert (Htop : nz (Z.land (d * 2 ^ Z.of_nat k) (u32 (Z.shiftl 1 31)))
      = (2147483648 <=? d * 2 ^ Z.of_nat k))
      by (apply (land_top _ 31); [lia|split; [lia|exact Hk]]);
    cbn [udivmodsi4_align]; rewrite Hnz, Htop, andb_true_r.
  - exists k. change (2 ^ Z.of_nat 0) with 1 in Hf. rewrite Z.mul_1_r in Hf.
    destruct (Z.leb_spec 2147483648 (d * 2 ^ Z.of_nat k)); [|lia].
    rewrite andb_false_r. split; [done|]. lia.
  - destruct (Z.leb_spec 2147483648 (d * 2 ^ Z.of_nat k)) as [Ht|Ht].
    { exists k. rewrite andb_false_r. split; [done|]. lia. }
    destruct (Z.ltb_spec (d * 2 ^ Z.of_nat k) num) as [Hlt|Hge]; cbn [negb andb];
      [|exists k; split; [done|]; lia].
    assert (Hs : 2 ^ Z.of_nat (S k) = 2 * 2 ^ Z.of_nat k)
      by (rewrite Nat2Z.inj_succ, Z.pow_succ_r; lia).
    assert (Hf2 : 2 ^ Z.of_nat (S fuel) = 2 * 2 ^ Z.of_nat fuel)
      by (rewrite Nat2Z.inj_succ, Z.pow_succ_r; lia).
    assert (H1 : u32 (Z.shiftl (d * 2 ^ Z.of_nat k) 1) = d * 2 ^ Z.of_nat (S k)).
    { rewrite shiftl_mul_1, u32_small by lia. rewrite Hs. ring. }
    assert (H2 : u32 (Z.shiftl (2 ^ Z.of_nat k) 1) = 2 ^ Z.of_nat (S k)).
    { rewrite shiftl_mul_1, u32_small by nia. lia. }
    rewrite H1, H2. apply IH; [done|done| |].
    + rewrite Hs. lia.
    + rewrite Hs. rewrite Hf2 in Hf. lia.
Qed.

Lemma udivmodsi4_sub_run (k fuel : nat) num d r :
  0 < d -> 0 <= num < 2 * (d * 2 ^ Z.of_nat k) -> num < 4294967296 ->
  udivmodsi4_sub (k + 2 + fuel) num (d * 2 ^ Z.of_nat k) (2 ^ Z.of_nat k)
    (r * 2 ^ Z.of_nat (S k)) = Ok (num mod d, r * 2 ^ Z.of_nat (S k) + num / d).
Proof.
  revert num r. induction k as [|k IH]; intros num r Hd Hn Hw.
  - change (2 ^ Z.of_nat 0) with 1 in *. change (2 ^ Z.of_nat 1) with 2.
    rewrite Z.mul_1_r in *. cbn [udivmodsi4_sub plus].
    change (nz 1) with true. change (Z.shiftr 1 1) with 0. change (nz 0) with false.
    destruct (Z.leb_spec d num); do 2 f_equal.
    + rewrite u32_small by lia. apply (Z.mod_unique num d 1); lia.
    + change 2 with (2 ^ Z.of_nat 1). rewrite lor_above by (cbn; lia).
      f_equal. apply (Z.div_unique num d 1 (num - d)); lia.
    + symmetry. apply Z.mod_small. lia.
    + rewrite Z.div_small by lia. lia.
  - assert (Hs : 2 ^ Z.of_nat (S k) = 2 * 2 ^ Z.of_nat k)
      by (rewrite Nat2Z.inj_succ, Z.pow_succ_r; lia).
    assert (Hs2 : 2 ^ Z.of_nat (S (S k)) = 2 * 2 ^ Z.of_nat (S k))
      by (rewrite (Nat2Z.inj_succ (S k)), Z.pow_succ_r; lia).
    assert (Hp : 0 < 2 ^ Z.of_nat k) by (apply Z.pow_pos_nonneg; lia).
    change (S k + 2 + fuel)%nat with (S (k + 2 + fuel)). cbn [udivmodsi4_sub].
    assert (Hnz : nz (2 ^ Z.of_nat (S k)) = true) by (apply nz_true; lia). rewrite Hnz.
    assert (H1 : Z.shiftr (d * 2 ^ Z.of_nat (S k)) 1 = d * 2 ^ Z.of_nat k).
    { rewrite shiftr_div_1, Hs, Z.mul_assoc, (Z.mul_comm d 2), <- Z.mul_assoc, Z.mul_comm.
      apply Z.div_mul. lia. }
    assert (H2 : Z.shiftr (2 ^ Z.of_nat (S k)) 1 = 2 ^ Z.of_nat k).
    { rewrite shiftr_div_1, Hs, Z.mul_comm. apply Z.div_mul. lia. }
    rewrite H1, H2. destruct (Z.leb_spec (d * 2 ^ Z.of_nat (S k)) num) as [Hle|Hgt].
    + rewrite u32_small by nia. rewrite lor_above by lia.
      replace (r * 2 ^ Z.of_nat (S (S k)) + 2 ^ Z.of_nat (S k))
        with ((2 * r + 1) * 2 ^ Z.of_nat (S k)) by (rewrite Hs2; ring).
      rewrite IH by (try nia). rewrite Hs2.
      replace (num - d * 2 ^ Z.of_nat (S k)) with (num + - 2 ^ Z.of_nat (S k) * d) by ring.
      rewrite Z_mod_plus_full, Z_div_plus_full by lia. do 2 f_equal. ring.
    + replace (r * 2 ^ Z.of_nat (S (S k))) with (2 * r * 2 ^ Z.of_nat (S k))
        by (rewrite Hs2; ring).
      rewrite IH by (try nia). done.
Qed.

Lemma udivmodsi4_run num den modwanted :
  0 <= num < 4294967296 -> 0 < den < 4294967296 ->
  __udivmodsi4 num den modwanted = Ok (if modwanted then num mod den else num / den).
Proof.
  intros Hn Hd. unfold __udivmodsi4.
  destruct (udivmodsi4_align_run 32 0 num den) as (j & E & Hj & Hjw);
    [lia|lia|cbn; lia|change (2 ^ Z.of_nat 0) with 1; change (2 ^ Z.of_nat 32) with 4294967296; lia|].
  change (2 ^ Z.of_nat 0) with 1 in E. rewrite Z.mul_1_r in E. rewrite E.
  unfold mbind, outcome_bind, mret, outcome_ret.
  assert (Hj31 : (j <= 31)%nat).
  { destruct (decide (j <= 31)%nat) as [|Hgt]; [done|].
    assert (2 ^ 32 <= 2 ^ Z.of_nat j) by (apply Z.pow_le_mono_r; lia).
    change (2 ^ 32) with 4294967296 in *. nia. }
  pose proof (udivmodsi4_sub_run j (31 - j) num den 0) as Hs.
  replace (j + 2 + (31 - j))%nat with 33%nat in Hs by lia. rewrite Z.mul_0_l in Hs.
  rewrite Hs by lia. by destruct modwanted.
Qed.

(** A zero divisor is not undefined here: the quotient is 0 and the remainder
    the dividend. *)
Lemma udivmodsi4_zero num modwanted :
  0 < num < 4294967296 ->
  __udivmodsi4 num 0 modwanted = Ok (if modwanted then num else 0).
Proof.
  intros Hn. unfold __udivmodsi4.
  assert (E : udivmodsi4_align 33 num 0 1 = Ok (0, 0)).
  { assert (E : forall fuel bit, udivmodsi4_align (S fuel) num 0 bit
      = if nz bit then udivmodsi4_align fuel num 0 (u32 (Z.shiftl bit 1)) else Ok (0, bit)).
    { intros fuel bit. cbn [udivmodsi4_align]. destruct (Z.ltb_spec 0 num); [|lia].
      by destruct (nz bit). }
    rewrite !E. reflexivity. }
  rewrite E. done.
Qed.
End division.

Section division64.
Implicit Types num den d : Z.

Lemma udivmoddi4_align_run (fuel k : nat) d :
  0 < d -> d * 2 ^ Z.of_nat k < 18446744073709551616 ->
  9223372036854775808 <= d * 2 ^ Z.of_nat k * 2 ^ Z.of_nat fuel ->
  exists j : nat, udivmoddi4_align (S fuel) (d * 2 ^ Z.of_nat k) (2 ^ Z.of_nat k)
    = Ok (d * 2 ^ Z.of_nat j, 2 ^ Z.of_nat j)
    /\ 9223372036854775808 <= d * 2 ^ Z.of_nat j < 18446744073709551616.
Proof.
  revert k. induction fuel as [|fuel IH]; intros k Hd Hk Hf;
    assert (Hp : 0 < 2 ^ Z.of_nat k) by (apply Z.pow_pos_nonneg; lia);
    assert (Hpos : 0 < d * 2 ^ Z.of_nat k) by nia;
    assert (Hneg : (0 <=? i64 (d * 2 ^ Z.of_nat k))
      = (d * 2 ^ Z.of_nat k <? 9223372036854775808))
      by (generalize dependent (d * 2 ^ Z.of_nat k); intros z; intros; word_lia);
    cbn [udivmoddi4_align]; rewrite Hneg;
    destruct (Z.ltb_spec (d * 2 ^ Z.of_nat k) 9223372036854775808) as [Hlt|Hge];
    try (exists k; split; [done|lia]).
  - change (2 ^ Z.of_nat 0) with 1 in Hf. lia.
  - assert (Hs : 2 ^ Z.of_nat (S k) = 2 * 2 ^ Z.of_nat k)
      by (rewrite Nat2Z.inj_succ, Z.pow_succ_r; lia).
    assert (Hf2 : 2 ^ Z.of_nat (S fuel) = 2 * 2 ^ Z.of_nat fuel)
      by (rewrite Nat2Z.inj_succ, Z.pow_succ_r; lia).
    assert (H1 : u64 (Z.shiftl (d * 2 ^ Z.of_nat k) 1) = d * 2 ^ Z.of_nat (S k)).
    { rewrite shiftl_mul_1, u64_small by lia. rewrite Hs. ring. }
    assert (H2 : u64 (Z.shiftl (2 ^ Z.of_nat k) 1) = 2 ^ Z.of_nat (S k)).
    { rewrite shiftl_mul_1, u64_small by nia. lia. }
    rewrite H1, H2. apply IH; [done| |].
    + rewrite Hs. lia.
    + rewrite Hs. rewrite Hf2 in Hf. lia.
Qed.

Lemma udivmoddi4_sub_run (k fuel : nat) num d q :
  0 < d -> 0 <= num < 2 * (d * 2 ^ Z.of_nat k) -> num < 18446744073709551616 ->
  0 <= q -> q + num / d < 18446744073709551616 ->
  udivmoddi4_sub (k + 2 + fuel) num (d * 2 ^ Z.of_nat k) (2 ^ Z.of_nat k) q
    = Ok (q + num / d, num mod d).
Proof.
  revert num q. induction k as [|k IH]; intros num q Hd Hn Hw Hq Hqw.
  - change (2 ^ Z.of_nat 0) with 1 in *. rewrite Z.mul_1_r in *.
    cbn [udivmoddi4_sub plus].
    change (nz 1) with true. change (Z.shiftr 1 1) with 0. change (nz 0) with false.
    destruct (Z.leb_spec d num) as [Hle|Hlt].
    + assert (H1 : num / d = 1) by (symmetry; apply (Z.div_unique num d 1 (num - d)); lia).
      assert (H2 : num mod d = num - d) by (symmetry; apply (Z.mod_unique num d 1); lia).
      rewrite H1 in *. rewrite H2, !u64_small by lia. done.
    + rewrite Z.div_small, Z.mod_small by lia. do 2 f_equal. lia.
  - assert (Hs : 2 ^ Z.of_nat (S k) = 2 * 2 ^ Z.of_nat k)
      by (rewrite Nat2Z.inj_succ, Z.pow_succ_r; lia).
    assert (Hp : 0 < 2 ^ Z.of_nat k) by (apply Z.pow_pos_nonneg; lia).
    change (S k + 2 + fuel)%nat with (S (k + 2 + fuel)). cbn [udivmoddi4_sub].
    assert (Hnz : nz (2 ^ Z.of_nat (S k)) = true) by (apply nz_true; lia). rewrite Hnz.
    assert (H1 : Z.shiftr (d * 2 ^ Z.of_nat (S k)) 1 = d * 2 ^ Z.of_nat k).
    { rewrite shiftr_div_1, Hs, Z.mul_assoc, (Z.mul_comm d 2), <- Z.mul_assoc, Z.mul_comm.
      apply Z.div_mul. lia. }
    assert (H2 : Z.shiftr (2 ^ Z.of_nat (S k)) 1 = 2 ^ Z.of_nat k).
    { rewrite shiftr_div_1, Hs, Z.mul_comm. apply Z.div_mul. lia. }
    rewrite H1, H2. destruct (Z.leb_spec (d * 2 ^ Z.of_nat (S k)) num) as [Hle|Hgt].
    + assert (Hdiv : num / d = 2 ^ Z.of_nat (S k) + (num - d * 2 ^ Z.of_nat (S k)) / d).
      { replace (num - d * 2 ^ Z.of_nat (S k)) with (num + - 2 ^ Z.of_nat (S k) * d) by ring.
        rewrite Z_div_plus_full by lia. ring. }
      assert (Hmod : num mod d = (num - d * 2 ^ Z.of_nat (S k)) mod d).
      { replace (num - d * 2 ^ Z.of_nat (S k)) with (num + - 2 ^ Z.of_nat (S k) * d) by ring.
        by rewrite Z_mod_plus_full. }
      assert (0 <= (num - d * 2 ^ Z.of_nat (S k)) / d) by (apply Z.div_pos; lia).
      rewrite !u64_small by lia. rewrite Hdiv, Hmod. rewrite Hdiv in Hqw.
      rewrite IH by lia. do 2 f_equal. ring.
    + by rewrite IH by lia.
Qed.

Lemma udivmoddi4_run num den :
  0 <= num < 18446744073709551616 -> 0 < den < 18446744073709551616 ->
  __udivmoddi4 num den = Ok (num / den, num mod den).
Proof.
  intros Hn Hd. unfold __udivmoddi4. destruct (Z.eqb_spec den 0); [lia|].
  destruct (udivmoddi4_align_run 63 0 den) as (j & E & Hj1 & Hj2);
    [lia|cbn; lia| |].
  { change (2 ^ Z.of_nat 0) with 1. change (2 ^ Z.of_nat 63) with 9223372036854775808. lia. }
  change (2 ^ Z.of_nat 0) with 1 in E. rewrite Z.mul_1_r in E. rewrite E.
  unfold mbind, outcome_bind.
  assert (Hj63 : (j <= 63)%nat).
  { destruct (decide (j <= 63)%nat) as [|Hgt]; [done|].
    assert (2 ^ 64 <= 2 ^ Z.of_nat j) by (apply Z.pow_le_mono_r; lia).
    change (2 ^ 64) with 18446744073709551616 in *. nia. }
  pose proof (udivmoddi4_sub_run j (63 - j) num den 0) as Hs.
  replace (j + 2 + (63 - j))%nat with 65%nat in Hs by lia.
  rewrite Hs; [done|lia|lia|lia|lia|].
  assert (num / den <= num) by (apply Z.div_le_upper_bound; nia). lia.
Qed.
End division64.

(** ** Signed division *)

Section signed_division.
Implicit Types a b : Z.

Lemma u32_abs a : -2147483648 <= a < 2147483648 ->
  u32 (if a <? 0 then i32 (- a) else a) = Z.abs a.
Proof. intros. destruct (Z.ltb_spec a 0); word_lia. Qed.

Lemma u64_abs a : -9223372036854775808 <= a < 9223372036854775808 ->
  u64 (if a <? 0 then i64 (- a) else a) = Z.abs a.
Proof. intros. destruct (Z.ltb_spec a 0); word_lia. Qed.

Lemma abs_div_mod a b : b <> 0 ->
  Z.abs a / Z.abs b = Z.abs (Z.quot a b) /\ Z.abs a mod Z.abs b = Z.abs (Z.rem a b).
Proof.
  intros Hb. split.
  - rewrite Z.quot_div by done. rewrite !Z.abs_mul.
    assert (0 <= Z.abs a / Z.abs b) by (apply Z.div_pos; lia).
    destruct (Z.lt_total a 0) as [?|[->|?]].
    + rewrite (Z.sgn_neg a) by done. destruct (Z.sgn_spec b) as [[_ ->]|[[]|[_ ->]]]; lia.
    + rewrite Z.abs_0, Z.div_0_l by lia. lia.
    + rewrite (Z.sgn_pos a) by done. destruct (Z.sgn_spec b) as [[_ ->]|[[]|[_ ->]]]; lia.
  - rewrite Z.rem_mod by done. rewrite Z.abs_mul.
    assert (0 <= Z.abs a mod Z.abs b) by (apply Z.mod_pos_bound; lia).
    destruct (Z.lt_total a 0) as [?|[->|?]].
    + rewrite (Z.sgn_neg a) by done. lia.
    + rewrite Z.abs_0, Z.mod_0_l by lia. lia.
    + rewrite (Z.sgn_pos a) by done. lia.
Qed.

(** The signs of C's quotient and remainder. *)
Lemma quot_sign a b : b <> 0 ->
  Z.quot a b = if xorb (a <? 0) (b <? 0) then - Z.abs (Z.quot a b) else Z.abs (Z.quot a b).
Proof.
  intros Hb. destruct (Z.ltb_spec a 0), (Z.ltb_spec b 0); cbn [xorb].
  - rewrite Z.abs_eq; [done|]. rewrite <- Z.quot_opp_opp by done. apply Z.quot_pos; lia.
  - rewrite Z.abs_neq; [lia|]. rewrite <- (Z.opp_involutive a), Z.quot_opp_l by done.
    pose proof (Z.quot_pos (- a) b). lia.
  - rewrite Z.abs_neq; [lia|]. rewrite <- (Z.opp_involutive b), Z.quot_opp_r by lia.
    pose proof (Z.quot_pos a (- b)). lia.
  - rewrite Z.abs_eq; [done|]. apply Z.quot_pos; lia.
Qed.

Lemma rem_sign a b : b <> 0 ->
  Z.rem a b = if a <? 0 then - Z.abs (Z.rem a b) else Z.abs (Z.rem a b).
Proof.
  intros Hb. destruct (Z.ltb_spec a 0).
  - rewrite Z.abs_neq; [lia|]. apply Z.rem_nonpos; lia.
  - rewrite Z.abs_eq; [done|]. apply Z.rem_nonneg; lia.
Qed.

Lemma divsi3_run a b :
  -2147483648 <= a < 2147483648 -> -2147483648 <= b < 2147483648 -> b <> 0 ->
  __divsi3 a b = Ok (i32 (Z.quot a b)).
Proof.
  intros Ha Hb Hb0. unfold __divsi3.
  pose proof (u32_abs a Ha) as HA. pose proof (u32_abs b Hb) as HB.
  destruct (abs_div_mod a b Hb0) as [Hq _]. pose proof (quot_sign a b Hb0) as Hs.
  destruct (Z.ltb_spec a 0), (Z.ltb_spec b 0); cbn [negb] in *;
    rewrite HA, HB, udivmodsi4_run by lia; unfold mbind, outcome_bind, mret, outcome_ret;
    rewrite Hq; cbn [xorb] in Hs; f_equal; rewrite Hs; rewrite ?Z.abs_opp, ?Z.abs_idemp;
    word_lia.
Qed.

Lemma modsi3_run a b :
  -2147483648 <= a < 2147483648 -> -2147483648 <= b < 2147483648 -> b <> 0 ->
  __modsi3 a b = Ok (Z.rem a b).
Proof.
  intros Ha Hb Hb0. unfold __modsi3.
  pose proof (u32_abs a Ha) as HA. pose proof (u32_abs b Hb) as HB.
  destruct (abs_div_mod a b Hb0) as [_ Hr]. pose proof (rem_sign a b Hb0) as Hs.
  pose proof (Z.rem_bound_abs a b Hb0).
  destruct (Z.ltb_spec a 0); cbn [negb] in *;
    rewrite HA, HB, udivmodsi4_run by lia; unfold mbind, outcome_bind, mret, outcome_ret;
    rewrite Hr; f_equal; word_lia.
Qed.

Lemma divdi3_run a b :
  -9223372036854775808 <= a < 9223372036854775808 ->
  -9223372036854775808 <= b < 9223372036854775808 -> b <> 0 ->
  __divdi3 a b = Ok (i64 (Z.quot a b)).
Proof.
  intros Ha Hb Hb0. unfold __divdi3.
  pose proof (u64_abs a Ha) as HA. pose proof (u64_abs b Hb) as HB.
  destruct (abs_div_mod a b Hb0) as [Hq _]. pose proof (quot_sign a b Hb0) as Hs.
  destruct (Z.ltb_spec a 0), (Z.ltb_spec b 0); cbn [negb] in *;
    rewrite HA, HB, udivmoddi4_run by lia; unfold mbind, outcome_bind, mret, outcome_ret;
    rewrite Hq; cbn [xorb] in Hs; f_equal; rewrite Hs; rewrite ?Z.abs_opp, ?Z.abs_idemp;
    word_lia.
Qed.

(** The sign of the divisor flips the remainder. *)
Lemma moddi3_run a b :
  -9223372036854775808 <= a < 9223372036854775808 ->
  -9223372036854775808 <= b < 9223372036854775808 -> b <> 0 ->
  __moddi3 a b = Ok (if b <? 0 then - Z.rem a b else Z.rem a b).
Proof.
  intros Ha Hb Hb0. unfold __moddi3.
  pose proof (u64_abs a Ha) as HA. pose proof (u64_abs b Hb) as HB.
  destruct (abs_div_mod a b Hb0) as [_ Hr]. pose proof (rem_sign a b Hb0) as Hs.
  pose proof (Z.rem_bound_abs a b Hb0).
  destruct (Z.ltb_spec a 0), (Z.ltb_spec b 0); cbn [negb] in *;
    rewrite HA, HB, udivmoddi4_run by lia; unfold mbind, outcome_bind, mret, outcome_ret;
    rewrite Hr; f_equal; word_lia.
Qed.
End signed_division.

(** ** 64-bit shifts *)

Section shifts.
Implicit Types u b : Z.

(** The two complementary powers of a shift by [b]. *)
Lemma split_pow b : 0 < b < 32 ->
  exists P Q, 2 ^ b = P /\ 2 ^ (32 - b) = Q /\ 0 < P /\ 0 < Q /\ P * Q = 4294967296.
Proof.
  intros Hb. exists (2 ^ b), (2 ^ (32 - b)). split_and!; try done.
  - apply Z.pow_pos_nonneg; lia.
  - apply Z.pow_pos_nonneg; lia.
  - rewrite <- Z.pow_add_r by lia. by replace (b + (32 - b)) with 32 by lia.
Qed.

Lemma u32_mul_pow x P Q : 0 < P -> 0 < Q -> P * Q = 4294967296 -> u32 (x * P) = x mod Q * P.
Proof.
  intros HP HQ HPQ. unfold u32. rewrite <- HPQ, (Z.mul_comm P Q).
  by rewrite Z.mul_mod_distr_r by lia.
Qed.

Lemma dw_high u : high (dw_of u) = i32 (u / 4294967296).
Proof. cbn. by rewrite Z.shiftr_div_pow2. Qed.

Lemma bm_of b : 0 < b < 32 -> u32 (32 - b) = 32 - b.
Proof. intros. apply u32_small. lia. Qed.

Lemma shl32_run x n : 0 <= n < 32 -> shl32 x n = Ok (u32 (x * 2 ^ n)).
Proof.
  intros. unfold shl32. destruct (Z.ltb_spec n 32); [|lia].
  by rewrite Z.shiftl_mul_pow2 by lia.
Qed.
Lemma shr32_run x n : 0 <= n < 32 -> shr32 x n = Ok (x / 2 ^ n).
Proof.
  intros. unfold shr32. destruct (Z.ltb_spec n 32); [|lia].
  by rewrite Z.shiftr_div_pow2 by lia.
Qed.

Lemma dw_mod_eq h l h' : u32 h = u32 h' -> dw_all (mk_dwords (i32 h) l) = i64 (h' * 4294967296 + l).
Proof.
  intros [k ->]%u32_eq_iff. unfold dw_all; cbn [high low].
  set (x := h' + k * 4294967296).
  assert (exists m, i32 x = x + m * 4294967296) as [m ->]
    by (apply u32_eq_iff, u32_i32).
  apply i64_eq_iff. exists (k + m). subst x. ring.
Qed.

Lemma ashldi3_run u b :
  -9223372036854775808 <= u < 9223372036854775808 -> 0 <= b <= 32 ->
  __ashldi3 u b = Ok (i64 (u * 2 ^ b)).
Proof.
  intros Hu Hb. unfold __ashldi3. destruct (Z.eqb_spec b 0) as [->|Hb0].
  { rewrite Z.mul_1_r, i64_small by lia. done. }
  destruct (decide (b = 32)) as [->|Hb32].
  - change (u32 (32 - 32)) with 0. change (u32 (- 0)) with 0. change (0 <=? 0) with true.
    cbv iota zeta. rewrite shl32_run by lia. unfold mbind, outcome_bind, mret, outcome_ret.
    f_equal. rewrite (dw_mod_eq _ _ u).
    + change (2 ^ 32) with 4294967296. f_equal. ring.
    + rewrite Z.mul_1_r. cbn. by rewrite !u32_u32.
  - rewrite bm_of by lia. destruct (Z.leb_spec (32 - b) 0); [lia|].
    rewrite shr32_run, !shl32_run by lia. unfold mbind, outcome_bind, mret, outcome_ret.
    f_equal. destruct (split_pow b) as (P & Q & HP & HQ & HP0 & HQ0 & HPQ); [lia|].
    change (low (dw_of u)) with (u32 u). rewrite dw_high, u32_i32, HQ.
    pose proof (u32_range u) as Hl.
    assert (Hcarry : 0 <= u32 u / Q < P).
    { split; [apply Z.div_pos; lia|]. apply Z.div_lt_upper_bound; lia. }
    rewrite (dw_mod_eq _ _ (u / 4294967296 * P + u32 u / Q)).
    + rewrite HP, (u32_mul_pow _ P Q) by done.
      apply i64_eq_iff. exists 0. rewrite Z.mul_0_l, Z.add_0_r.
      pose proof (Z.div_mod u 4294967296 ltac:(lia)) as Hd. fold (u32 u) in Hd.
      pose proof (Z.div_mod (u32 u) Q ltac:(lia)) as Hm.
      rewrite Hd at 4. rewrite Hm at 3. rewrite <- HPQ. ring.
    + rewrite HP, (u32_mul_pow _ P Q), <- HP, lor_carry, HP by lia.
      rewrite <- (u32_mul_pow _ P Q), u32_add_l, <- u32_add_l, u32_mul_l, u32_add_l by done.
      done.
Qed.

Lemma lshrdi3_run u b :
  -9223372036854775808 <= u < 9223372036854775808 -> 0 <= b <= 32 ->
  __lshrdi3 u b = Ok (i64 (u64 u / 2 ^ b)).
Proof.
  intros Hu Hb. unfold __lshrdi3. destruct (Z.eqb_spec b 0) as [->|Hb0].
  { f_equal. rewrite Z.div_1_r, i64_u64, i64_small by lia. done. }
  assert (Hh : u64 u / 4294967296 = u32 (u / 4294967296)) by word_lia.
  destruct (decide (b = 32)) as [->|Hb32].
  - change (u32 (32 - 32)) with 0. change (u32 (- 0)) with 0. change (0 <=? 0) with true.
    cbv iota zeta. rewrite shr32_run by lia. unfold mbind, outcome_bind, mret, outcome_ret.
    f_equal. rewrite dw_high, u32_i32, Z.div_1_r. unfold dw_all; cbn [high low].
    change (2 ^ 32) with 4294967296. by rewrite Hh.
  - rewrite bm_of by lia. destruct (Z.leb_spec (32 - b) 0); [lia|].
    rewrite shl32_run, !shr32_run by lia. unfold mbind, outcome_bind, mret, outcome_ret.
    f_equal. destruct (split_pow b) as (P & Q & HP & HQ & HP0 & HQ0 & HPQ); [lia|].
    change (low (dw_of u)) with (u32 u). rewrite dw_high, u32_i32, HQ, HP, <- Hh.
    assert (Hx : u64 u = u64 u / 4294967296 * 4294967296 + u32 u) by word_lia.
    pose proof (u32_range u) as Hl.
    assert (Hhr : 0 <= u64 u / 4294967296 < 4294967296) by word_lia.
    generalize dependent (u64 u / 4294967296). intros h Hh Hx Hhr.
    rewrite Hx. clear Hx Hh. revert Hl. generalize (u32 u). intros l Hl.
    rewrite (dw_mod_eq _ _ (h / P)) by done.
    assert (Hlor : Z.lor (l / P) (u32 (h * Q)) = h mod P * Q + l / P).
    { rewrite (u32_mul_pow _ Q P) by lia. rewrite Z.lor_comm, <- HQ, lor_carry, HQ; [done|lia|].
      rewrite HQ. split; [apply Z.div_pos; lia|apply Z.div_lt_upper_bound; lia]. }
    rewrite Hlor. f_equal.
    replace (h * 4294967296 + l) with (l + h * Q * P) by (rewrite <- HPQ; ring).
    rewrite Z.div_add by lia. pose proof (Z.div_mod h P ltac:(lia)) as Hm.
    rewrite Hm at 3. rewrite <- HPQ. ring.
Qed.

Lemma ashrdi3_run u b :
  -9223372036854775808 <= u < 9223372036854775808 -> 0 <= b < 32 ->
  __ashrdi3 u b = Ok (u / 2 ^ b).
Proof.
  intros Hu Hb. unfold __ashrdi3. destruct (Z.eqb_spec b 0) as [->|Hb0].
  { f_equal. by rewrite Z.div_1_r. }
  rewrite bm_of by lia. destruct (Z.leb_spec (32 - b) 0); [lia|].
  rewrite shl32_run, !shr32_run by lia. unfold mbind, outcome_bind, mret, outcome_ret.
  f_equal. destruct (split_pow b) as (P & Q & HP & HQ & HP0 & HQ0 & HPQ); [lia|].
  change (low (dw_of u)) with (u32 u).
  rewrite dw_high, HQ, HP, i32_small by (Z.div_mod_to_equations; lia).
  rewrite u32_mul_l.
  assert (Hx : u = u / 4294967296 * 4294967296 + u32 u) by word_lia.
  pose proof (u32_range u) as Hl.
  assert (Hhr : -2147483648 <= u / 4294967296 < 2147483648) by word_lia.
  generalize dependent (u / 4294967296). intros h Hx Hhr.
  assert (Hlor : Z.lor (u32 u / P) (u32 (h * Q)) = h mod P * Q + u32 u / P).
  { rewrite (u32_mul_pow _ Q P) by lia. rewrite Z.lor_comm, <- HQ, lor_carry, HQ; [done|lia|].
    rewrite HQ. split; [apply Z.div_pos; lia|apply Z.div_lt_upper_bound; lia]. }
  rewrite Hlor. unfold dw_all; cbn [high low].
  assert (Hr : u / P = h / P * 4294967296 + (h mod P * Q + u32 u / P)).
  { rewrite Hx at 1.
    replace (h * 4294967296 + u32 u) with (u32 u + h * Q * P) by (rewrite <- HPQ; ring).
    rewrite Z.div_add by lia. pose proof (Z.div_mod h P ltac:(lia)) as Hm.
    rewrite Hm at 1. rewrite <- HPQ. ring. }
  rewrite <- Hr. apply i64_small. split.
  - apply Z.div_le_lower_bound; nia.
  - apply Z.div_lt_upper_bound; nia.
Qed.

(** A shift by 32 keeps the low word, the high word goes nowhere. *)
Lemma ashrdi3_32 u : __ashrdi3 u 32 = Ok (dw_all (mk_dwords (i32 (u / 4294967296) / 2147483648) (u32 u))).
Proof.
  unfold __ashrdi3. change (32 =? 0) with false. change (u32 (32 - 32)) with 0.
  change (u32 (- 0)) with 0. change (0 <=? 0) with true. cbv iota zeta.
  rewrite !shr32_run by lia. by rewrite dw_high, Z.div_1_r.
Qed.

Lemma long_shift_fault u b : 32 < b < 4294967296 ->
  __ashldi3 u b = Fault /\ __ashrdi3 u b = Fault /\ __lshrdi3 u b = Fault.
Proof.
  intros Hb. unfold __ashldi3, __ashrdi3, __lshrdi3, shl32, shr32.
  destruct (Z.eqb_spec b 0); [lia|].
  assert (Hbm : 32 <= u32 (32 - b)) by word_lia.
  destruct (Z.leb_spec (u32 (32 - b)) 0); [lia|].
  destruct (Z.ltb_spec (u32 (32 - b)) 32); [lia|]. done.
Qed.
End shifts.

(** ** The runtime computes the integer operations *)

Definition is_i32 (x : Z) : Prop := -2147483648 <= x < 2147483648.
Definition is_u32 (x : Z) : Prop := 0 <= x < 4294967296.
Definition is_i64 (x : Z) : Prop := -9223372036854775808 <= x < 9223372036854775808.
Definition is_u64 (x : Z) : Prop := 0 <= x < 18446744073709551616.

(** the shift-and-add and the half-word multiplications return the product
    modulo the width of their result, for all operands. *)
Theorem multiplication_exact (a b : Z) (c d : Z) :
  is_u32 a -> is_u32 b ->
  __mulsi3 a b = Ok (i32 (a * b))
  /\ __muldsi3 a b = i64 (a * b)
  /\ __muldi3 c d = Ok (i64 (c * d)).
Proof.
  intros Ha Hb. split_and!; [by apply mulsi3_run|by apply muldsi3_run|apply muldi3_run].
Qed.

Example multiplication_exact_witness :
  __mulsi3 4000000000 3 = Ok (i32 (4000000000 * 3))
  /\ __muldsi3 4000000000 3 = i64 (4000000000 * 3)
  /\ __muldi3 (-7) 5000000000 = Ok (i64 (-7 * 5000000000)).
Proof. apply (multiplication_exact 4000000000 3 (-7) 5000000000); unfold is_u32; lia. Defined.

(** C26: the division loops terminate and, for a non-zero divisor, return C's
    truncated quotient and remainder on 32 and 64 bits (the quotient of the
    least integer by -1 wraps); only the signed 64-bit remainder differs, its
    sign is flipped when the divisor is negative. *)
Theorem division_exact (a b c d m n p q : Z) :
  is_u32 a -> is_u32 b -> is_i32 c -> is_i32 d ->
  is_u64 m -> is_u64 n -> is_i64 p -> is_i64 q ->
  b <> 0 -> d <> 0 -> n <> 0 -> q <> 0 ->
  (__udivsi3 a b = Ok (a / b) /\ __umodsi3 a b = Ok (a mod b))
  /\ (__divsi3 c d = Ok (i32 (cdiv c d)) /\ __modsi3 c d = Ok (cmod c d))
  /\ (__udivdi3 m n = Ok (m / n) /\ __umoddi3 m n = Ok (m mod n))
  /\ __divdi3 p q = Ok (i64 (cdiv p q))
  /\ __moddi3 p q = Ok (if q <? 0 then - cmod p q else cmod p q).
Proof.
  intros Ha Hb Hc Hd Hm Hn Hp Hq Hb0 Hd0 Hn0 Hq0. unfold is_u32, is_u64 in *.
  unfold __udivsi3, __umodsi3, __udivdi3, __umoddi3.
  rewrite !udivmodsi4_run, udivmoddi4_run by lia.
  split_and!; [done|done|by apply divsi3_run|by apply modsi3_run|done|done
    |by apply divdi3_run|by apply moddi3_run].
Qed.

Example division_exact_witness :
  (__udivsi3 4294967295 7 = Ok (4294967295 / 7) /\ __umodsi3 4294967295 7 = Ok (4294967295 mod 7))
  /\ (__divsi3 (-7) 2 = Ok (i32 (cdiv (-7) 2)) /\ __modsi3 (-7) 2 = Ok (cmod (-7) 2))
  /\ (__udivdi3 (2 ^ 64 - 1) 10 = Ok ((2 ^ 64 - 1) / 10)
      /\ __umoddi3 (2 ^ 64 - 1) 10 = Ok ((2 ^ 64 - 1) mod 10))
  /\ __divdi3 7 (-2) = Ok (i64 (cdiv 7 (-2)))
  /\ __moddi3 7 (-2) = Ok (if -2 <? 0 then - cmod 7 (-2) else cmod 7 (-2)).
Proof.
  apply (division_exact 4294967295 7 (-7) 2 (2 ^ 64 - 1) 10 7 (-2));
    unfold is_u32, is_i32, is_u64, is_i64; lia.
Defined.

(** the 64-bit shifts shift by up to 31 exactly, and by 32 to the left and
    logically to the right; beyond 32 they shift a word by an undefined
    amount. The arithmetic right shift by 32 is not a shift: the low word
    stays. *)
Theorem shifts_exact (u b k : Z) :
  is_i64 u -> 0 <= b < 32 -> 32 < k < 4294967296 ->
  (__ashldi3 u b = Ok (i64 (u * 2 ^ b)) /\ __ashldi3 u 32 = Ok (i64 (u * 2 ^ 32)))
  /\ (__lshrdi3 u b = Ok (i64 (u64 u / 2 ^ b)) /\ __lshrdi3 u 32 = Ok (i64 (u64 u / 2 ^ 32)))
  /\ __ashrdi3 u b = Ok (u / 2 ^ b)
  /\ (exists w, __ashrdi3 u 32 = Ok w /\ u32 w = u32 u)
  /\ (__ashldi3 u k = Fault /\ __ashrdi3 u k = Fault /\ __lshrdi3 u k = Fault).
Proof.
  intros Hu Hb Hk. unfold is_i64 in Hu. split_and!.
  - apply ashldi3_run; lia.
  - apply ashldi3_run; lia.
  - apply lshrdi3_run; lia.
  - apply lshrdi3_run; lia.
  - by apply ashrdi3_run.
  - rewrite ashrdi3_32. eexists. split; [done|]. unfold dw_all; cbn [high low]. word_lia.
  - by apply long_shift_fault.
  - by apply long_shift_fault.
  - by apply long_shift_fault.
Qed.

Example shifts_exact_witness :
  (__ashldi3 (-3) 5 = Ok (i64 (-3 * 2 ^ 5)) /\ __ashldi3 (-3) 32 = Ok (i64 (-3 * 2 ^ 32)))
  /\ (__lshrdi3 (-3) 5 = Ok (i64 (u64 (-3) / 2 ^ 5))
      /\ __lshrdi3 (-3) 32 = Ok (i64 (u64 (-3) / 2 ^ 32)))
  /\ __ashrdi3 (-3) 5 = Ok (-3 / 2 ^ 5)
  /\ (exists w, __ashrdi3 (-3) 32 = Ok w /\ u32 w = u32 (-3))
  /\ (__ashldi3 (-3) 40 = Fault /\ __ashrdi3 (-3) 40 = Fault /\ __lshrdi3 (-3) 40 = Fault).
Proof. apply (shifts_exact (-3) 5 40); unfold is_i64; lia. Defined.

(** The 64-bit value 2^32 shifted right arithmetically by 32. *)
Example ashrdi3_by_32 : __ashrdi3 (2 ^ 32) 32 = Ok 0.
Proof. reflexivity. Qed.
(** 7 modulo -2, whose C remainder is 1. *)
Example moddi3_negative_divisor : __moddi3 7 (-2) = Ok (-1).
Proof. reflexivity. Qed.
