(* ===== verification/SoftFloat.v ===== *)
(** * Single-precision arithmetic of the C library

    The "software implementation of IEEE single-precision floating point" of
    [lib/libc/libc.c]. A float is its bit pattern as the member [l] of [union
    float_long], a signed 32-bit integer; the member [u] is the same word
    unsigned. *)

From S2P Require Import Prelude Words.

Definition EXCESS : Z := 126.
Definition SIGNBIT : Z := 0x80000000.
Definition HIDDEN : Z := Z.shiftl 1 23.
Definition SIGN (fp : Z) : Z := Z.land (u32 fp) SIGNBIT.
Definition EXP (fp : Z) : Z := Z.land (Z.shiftr fp 23) 0xFF.
Definition MANT (fp : Z) : Z := Z.lor (Z.land fp 0x7FFFFF) HIDDEN.
(** An unsigned word, stored in [l]. *)
Definition PACK (s e m : Z) : Z := i32 (Z.lor (Z.lor (u32 s) (u32 (Z.shiftl e 23))) (u32 m)).

(** [~HIDDEN] *)
Definition NOT_HIDDEN : Z := Z.lnot HIDDEN.

(** ** Addition *)

(** [while (!(mant1 & 0xE0000000))] *)
Fixpoint norm_up (n : nat) (mant1 exp1 : Z) : outcome (Z * Z) :=
  match n with
  | O => Timeout
  | S n =>
      if nz (Z.land (u32 mant1) 0xE0000000) then Ok (mant1, exp1)
      else norm_up n (i32 (Z.shiftl mant1 1)) (exp1 - 1)
  end.

(** [if (mant1 & (1 << 30))] *)
Definition norm_down (mant1 exp1 : Z) : Z * Z :=
  if nz (Z.land mant1 (Z.shiftl 1 30)) then (Z.shiftr mant1 1, exp1 + 1) else (mant1, exp1).

(** Normalise, round and pack a sum of mantissas in excess precision. *)
Definition pack_sum (sign mant1 exp1 : Z) : outcome Z :=
  '(mant1, exp1) ← norm_up 33 mant1 exp1;
  let '(mant1, exp1) := norm_down mant1 exp1 in
  let mant1 := i32 (mant1 + if nz (Z.land mant1 0x40) then 0x20 else 0x1F) in
  let '(mant1, exp1) := norm_down mant1 exp1 in
  let mant1 := Z.shiftr mant1 6 in
  mret (PACK sign exp1 (Z.land mant1 NOT_HIDDEN)).

(** The mantissa in excess precision, with the sign of the operand. *)
Definition signed_mant (fl : Z) : Z :=
  let mant := i32 (Z.shiftl (MANT fl) 6) in
  if nz (SIGN fl) then i32 (- mant) else mant.

Definition __addsf3 (fl1 fl2 : Z) : outcome Z :=
  if fl1 =? 0 then Ok fl2 else
  if fl2 =? 0 then Ok fl1 else
  let exp1 := EXP fl1 in
  let exp2 := EXP fl2 in
  if exp2 + 25 <? exp1 then Ok fl1 else
  if exp1 + 25 <? exp2 then Ok fl2 else
  let mant1 := signed_mant fl1 in
  let mant2 := signed_mant fl2 in
  let '(mant1, mant2, exp1) :=
    if exp2 <? exp1 then (mant1, Z.shiftr mant2 (exp1 - exp2), exp1)
    else (Z.shiftr mant1 (exp2 - exp1), mant2, exp2) in
  let mant1 := i32 (mant1 + mant2) in
  if mant1 <? 0 then pack_sum SIGNBIT (i32 (- mant1)) exp1
  else if mant1 =? 0 then Ok 0
  else pack_sum 0 mant1 exp1.

Definition __negsf2 (fl1 : Z) : Z :=
  if fl1 =? 0 then 0 else i32 (Z.lxor (u32 fl1) SIGNBIT).

Definition __subsf3 (fl1 fl2 : Z) : outcome Z :=
  if fl2 =? 0 then Ok fl1 else
  if fl1 =? 0 then Ok (__negsf2 fl2) else
  __addsf3 fl1 (i32 (Z.lxor (u32 fl2) SIGNBIT)).

(** ** Comparison *)

Definition __cmpsf2 (fl1 fl2 : Z) : Z :=
  if nz (SIGN fl1) && nz (SIGN fl2) then
    let fl1 := i32 (Z.lxor (u32 fl1) SIGNBIT) in
    let fl2 := i32 (Z.lxor (u32 fl2) SIGNBIT) in
    if fl2 <? fl1 then -1 else if fl1 <? fl2 then 1 else 0
  else
    if fl1 <? fl2 then -1 else if fl2 <? fl1 then 1 else 0.

Definition __ltsf2 (a b : Z) : Z := - cbool (__cmpsf2 a b <? 0).
Definition __lesf2 (a b : Z) : Z := cbool (0 <? __cmpsf2 a b).
Definition __gtsf2 (a b : Z) : Z := cbool (0 <? __cmpsf2 a b).
Definition __gesf2 (a b : Z) : Z := cbool (0 <=? __cmpsf2 a b) - 1.
Definition __eqsf2 (a b : Z) : Z := cbool (negb (a =? b)).
Definition __nesf2 (a b : Z) : Z := cbool (negb (a =? b)).

(** ** Multiplication and division *)

Definition __mulsf3 (fl1 fl2 : Z) : Z :=
  if (fl1 =? 0) || (fl2 =? 0) then 0 else
  let sign := Z.lxor (SIGN fl1) (SIGN fl2) in
  let exp := EXP fl1 - EXCESS + EXP fl2 in
  let m1 := MANT fl1 in
  let m2 := MANT fl2 in
  let result := u32 (i32 (Z.shiftr m1 8 * Z.shiftr m2 8)) in
  let result := u32 (result + Z.shiftr (i32 (Z.land m1 0xFF * Z.shiftr m2 8)) 8) in
  let result := u32 (result + Z.shiftr (i32 (Z.land m2 0xFF * Z.shiftr m1 8)) 8) in
  let result := Z.shiftr result 2 in
  let '(result, exp) :=
    if nz (Z.land result 0x20000000)
    then (Z.shiftr (u32 (result + 0x20)) 6, exp)
    else (Z.shiftr (u32 (result + 0x10)) 5, exp - 1) in
  let '(result, exp) :=
    if nz (Z.land result (Z.shiftl HIDDEN 1)) then (Z.shiftr result 1, exp + 1)
    else (result, exp) in
  PACK sign exp (Z.land result NOT_HIDDEN).

(** [while (mask)]: restoring division, one bit per round, on words of the
    width [w] converts to. *)
Fixpoint div_loop (w : Z -> Z) (n : nat) (l1 l2 mask result : Z) : outcome Z :=
  match n with
  | O => Timeout
  | S n =>
      if nz mask then
        let '(l1, result) :=
          if l2 <=? l1 then (w (l1 - l2), Z.lor result mask) else (l1, result) in
        div_loop w n (w (Z.shiftl l1 1)) l2 (Z.shiftr mask 1) result
      else Ok result
  end.

(** The division by zero returns an integer constant converted to [float]. *)
Definition __divsf3 (fl1 fl2 : Z) : outcome Z :=
  let exp := EXP fl1 - EXP fl2 + EXCESS in
  let sign := Z.lxor (SIGN fl1) (SIGN fl2) in
  if fl2 =? 0 then Ok (if nz sign then 0x4f800000 else 0x4f000000) else
  if fl1 =? 0 then Ok 0 else
  let l1 := MANT fl1 in
  let l2 := MANT fl2 in
  let '(l1, exp) := if l1 <? l2 then (Z.shiftl l1 1, exp - 1) else (l1, exp) in
  result ← div_loop i32 26 l1 l2 0x1000000 0;
  let result := i32 (result + 1) in
  let exp := exp + 1 in
  let result := Z.shiftr result 1 in
  mret (PACK sign exp (Z.land result NOT_HIDDEN)).

(** ** Conversions *)

(** The common body of [__fixsfsi] and [__fixunssfsi]: the signed result. *)
Definition fix_body (u : Z) : Z :=
  let a := u in
  let s := Z.shiftr a 31 in
  let ae := Z.land (Z.shiftr a 23) 0xff in
  let af := Z.lor 0x00800000 (Z.land a 0x007fffff) in
  let af := i32 (Z.shiftl af 7) in
  let shift := - (ae - 0x80 - 29) in
  let af := if 0 <? shift then if shift <? 31 then Z.shiftr af shift else 0 else af in
  if nz s then i32 (- af) else af.

Definition __fixsfsi (fl : Z) : Z := fix_body (u32 fl).
Definition __fixunssfsi (fl : Z) : Z := u32 (fix_body (u32 fl)).

(** [while(af & 0xff000000)] on a signed and on an unsigned [af]; the shift is
    arithmetic on the former. *)
Fixpoint float_down (n : nat) (ae af : Z) : outcome (Z * Z) :=
  match n with
  | O => Timeout
  | S n =>
      if nz (Z.land (u32 af) 0xff000000) then float_down n (ae + 1) (Z.shiftr af 1)
      else Ok (ae, af)
  end.

(** [while((af & 0xff800000) == 0)] *)
Fixpoint float_up (n : nat) (ae af : Z) : outcome (Z * Z) :=
  match n with
  | O => Timeout
  | S n =>
      if Z.land (u32 af) 0xff800000 =? 0 then float_up n (ae - 1) (i32 (Z.shiftl af 1))
      else Ok (ae, af)
  end.

(** Normalise and assemble; [n] bounds the rounds of each loop. *)
Definition float_body (n : nat) (s af : Z) : outcome Z :=
  if af =? 0 then Ok 0 else
  '(ae, af) ← float_down n (0x80 + 22) af;
  '(ae, af) ← float_up n ae af;
  mret (i32 (Z.lor (Z.lor (u32 (Z.shiftl s 31)) (u32 (Z.shiftl ae 23)))
    (Z.land (u32 af) 0x007fffff))).

Definition __floatsisf (n : nat) (af : Z) : outcome Z :=
  float_body n (if 0 <=? af then 0 else 1) (if 0 <=? af then af else i32 (- af)).

(** The tests of the sign are on an unsigned number, always positive. *)
Definition __floatunsisf (n : nat) (af : Z) : outcome Z := float_body n 0 af.

(** ** Integers to floats and back *)

Section conversions.
Implicit Types (n : nat) (s ae af : Z).

Lemma land_top8 x : 0 <= x < 4294967296 ->
  nz (Z.land (u32 x) 0xff000000) = (16777216 <=? x).
Proof.
  intros Hx. rewrite u32_small by done. change 0xff000000 with (Z.shiftl (Z.ones 8) 24).
  rewrite land_field by lia. pow_norm.
  destruct (Z.leb_spec 16777216 x); [apply nz_true|apply nz_false]; Z.div_mod_to_equations; lia.
Qed.

Lemma land_top9 x : 0 <= x < 4294967296 ->
  (Z.land (u32 x) 0xff800000 =? 0) = (x <? 8388608).
Proof.
  intros Hx. rewrite u32_small by done. change 0xff800000 with (Z.shiftl (Z.ones 9) 23).
  rewrite land_field by lia. pow_norm.
  destruct (Z.ltb_spec x 8388608); [apply Z.eqb_eq|apply Z.eqb_neq]; Z.div_mod_to_equations; lia.
Qed.

Lemma float_down_S n ae af :
  float_down (S n) ae af =
    if nz (Z.land (u32 af) 0xff000000) then float_down n (ae + 1) (Z.shiftr af 1) else Ok (ae, af).
Proof. done. Qed.

Lemma float_up_S n ae af :
  float_up (S n) ae af =
    if Z.land (u32 af) 0xff800000 =? 0 then float_up n (ae - 1) (i32 (Z.shiftl af 1)) else Ok (ae, af).
Proof. done. Qed.

Lemma float_down_run n ae af :
  0 <= af < 16777216 * 2 ^ Z.of_nat n -> af < 4294967296 ->
  exists j : nat, float_down (S n) ae af = Ok (ae + Z.of_nat j, af / 2 ^ Z.of_nat j)
    /\ 0 <= af / 2 ^ Z.of_nat j < 16777216 /\ (j <= n)%nat
    /\ (j <> 0%nat -> 8388608 <= af / 2 ^ Z.of_nat j).
Proof.
  revert ae af. induction n as [|n IH]; intros ae af Ha Hw;
    rewrite float_down_S, land_top8 by lia; destruct (Z.leb_spec 16777216 af) as [Hge|Hlt].
  - change (2 ^ Z.of_nat 0) with 1 in Ha. lia.
  - exists 0%nat. change (2 ^ Z.of_nat 0) with 1. rewrite Z.div_1_r, Z.add_0_r. split_and!; first [done|lia].
  - destruct (IH (ae + 1) (Z.shiftr af 1)) as (j & E & Hj & Hjn & Hj0).
    { rewrite shiftr_div_1. rewrite Nat2Z.inj_succ, Z.pow_succ_r in Ha by lia.
      Z.div_mod_to_equations; lia. }
    { rewrite shiftr_div_1. Z.div_mod_to_equations; lia. }
    exists (S j). rewrite E. rewrite shiftr_div_1, Z.div_div in * by lia.
    assert (Hp : 2 * 2 ^ Z.of_nat j = 2 ^ Z.of_nat (S j))
      by (rewrite Nat2Z.inj_succ, Z.pow_succ_r by lia; done).
    rewrite Hp in *. split_and!; try lia; [do 2 f_equal; lia|]. intros _.
    destruct (decide (j = 0%nat)) as [->|]; [|by apply Hj0].
    change (2 ^ Z.of_nat 1) with 2. Z.div_mod_to_equations; lia.
  - exists 0%nat. change (2 ^ Z.of_nat 0) with 1. rewrite Z.div_1_r, Z.add_0_r. split_and!; first [done|lia].
Qed.

Lemma float_up_run n ae af :
  0 < af < 16777216 -> 8388608 <= af * 2 ^ Z.of_nat n ->
  exists k : nat, float_up (S n) ae af = Ok (ae - Z.of_nat k, af * 2 ^ Z.of_nat k)
    /\ 8388608 <= af * 2 ^ Z.of_nat k < 16777216 /\ (k <= n)%nat.
Proof.
  revert ae af. induction n as [|n IH]; intros ae af Ha Hn;
    rewrite float_up_S, land_top9 by lia; destruct (Z.ltb_spec af 8388608) as [Hlt|Hge].
  - change (2 ^ Z.of_nat 0) with 1 in Hn. lia.
  - exists 0%nat. change (2 ^ Z.of_nat 0) with 1. rewrite Z.mul_1_r, Z.sub_0_r. split_and!; first [done|lia].
  - rewrite shiftl_mul_1, i32_small by lia.
    destruct (IH (ae - 1) (2 * af)) as (k & E & Hk & Hkn); [lia| |].
    { rewrite Nat2Z.inj_succ, Z.pow_succ_r in Hn by lia. lia. }
    exists (S k). rewrite E. rewrite Nat2Z.inj_succ, Z.pow_succ_r by lia.
    replace (2 * af * 2 ^ Z.of_nat k) with (af * (2 * 2 ^ Z.of_nat k)) in * by ring.
    split_and!; try lia. do 2 f_equal. lia.
  - exists 0%nat. change (2 ^ Z.of_nat 0) with 1. rewrite Z.mul_1_r, Z.sub_0_r. split_and!; first [done|lia].
Qed.

(** The assembled word and its fields. *)
Lemma float_word s ae m :
  0 <= s < 2 -> 0 <= ae < 256 -> 0 <= m < 8388608 ->
  let w := s * 2147483648 + ae * 8388608 + m in
  Z.lor (Z.lor (u32 (Z.shiftl s 31)) (u32 (Z.shiftl ae 23))) m = w
  /\ fix_body w =
     let af := i32 ((8388608 + m) * 128) in
     let shift := 157 - ae in
     let af := if 0 <? shift then if shift <? 31 then Z.shiftr af shift else 0 else af in
     if nz s then i32 (- af) else af.
Proof.
  intros Hs Hae Hm w. split.
  - rewrite !Z.shiftl_mul_pow2 by lia. pow_norm. rewrite !u32_small by lia.
    pose proof (lor_carry s (ae * 8388608) 31 ltac:(lia)) as H1. revert H1. pow_norm. intros ->; [|lia].
    replace (s * 2147483648 + ae * 8388608) with ((s * 256 + ae) * 8388608) by ring.
    pose proof (lor_carry (s * 256 + ae) m 23 ltac:(lia)) as H2. revert H2. pow_norm.
    intros ->; [|lia]. unfold w. ring.
  - unfold fix_body. rewrite !Z.shiftr_div_pow2, Z.shiftl_mul_pow2 by lia.
    rewrite (land_ones_eq (w / 2 ^ 23) 0xff 8), (land_ones_eq w 0x007fffff 23) by done.
    pow_norm.
    assert (E1 : w / 2147483648 = s) by (unfold w; Z.div_mod_to_equations; lia).
    assert (E2 : (w / 8388608) mod 256 = ae) by (unfold w; Z.div_mod_to_equations; lia).
    assert (E3 : w mod 8388608 = m) by (unfold w; Z.div_mod_to_equations; lia).
    rewrite E1, E2, E3. replace (- (ae - 0x80 - 29)) with (157 - ae) by lia.
    assert (E4 : Z.lor 0x00800000 m = 8388608 + m).
    { pose proof (lor_carry 1 m 23 ltac:(lia)) as H. revert H. pow_norm. rewrite Z.mul_1_l.
      intros ->; [done|lia]. }
    by rewrite E4.
Qed.
End conversions.

Section round_trip.
Implicit Types (i a : Z).

(** The magnitude, normalised to 24 bits. *)
Lemma normalise a :
  0 < a < 2147483648 ->
  exists j k : nat, (
    float_down 33 150 a = Ok (150 + Z.of_nat j, a / 2 ^ Z.of_nat j)
    /\ float_up 33 (150 + Z.of_nat j) (a / 2 ^ Z.of_nat j)
       = Ok (150 + Z.of_nat j - Z.of_nat k, a / 2 ^ Z.of_nat j * 2 ^ Z.of_nat k)
    /\ 8388608 <= a / 2 ^ Z.of_nat j * 2 ^ Z.of_nat k < 16777216
    /\ (j <= 7)%nat /\ (k <= 23)%nat /\ (j <> 0%nat -> 8388608 <= a / 2 ^ Z.of_nat j)
    /\ (a < 16777216 -> j = 0%nat)).
Proof.
  intros Ha. change 33%nat with (S 32).
  destruct (float_down_run 32 150 a) as (j & E1 & Hj & _ & Hj0); [cbn; lia|lia|].
  assert (Hpos : 0 < a / 2 ^ Z.of_nat j).
  { destruct (decide (j = 0%nat)) as [->|Hne]; [change (2 ^ Z.of_nat 0) with 1; rewrite Z.div_1_r; lia|].
    specialize (Hj0 Hne). lia. }
  destruct (float_up_run 32 (150 + Z.of_nat j) (a / 2 ^ Z.of_nat j)) as (k & E2 & Hk & _);
    [lia|change (2 ^ Z.of_nat 32) with 4294967296; lia|].
  assert (Hpj : 0 < 2 ^ Z.of_nat j) by (apply Z.pow_pos_nonneg; lia).
  pose proof (Z.mul_div_le a (2 ^ Z.of_nat j) Hpj).
  destruct Hk as [Hk1 Hk2]. exists j, k. split_and!; try done.
  - destruct (decide (j <= 7)%nat) as [|Hgt]; [done|]. specialize (Hj0 ltac:(lia)).
    assert (2 ^ 8 <= 2 ^ Z.of_nat j) by (apply Z.pow_le_mono_r; lia).
    change (2 ^ 8) with 256 in *. nia.
  - destruct (decide (k <= 23)%nat) as [|Hgt]; [done|].
    assert (2 ^ 24 <= 2 ^ Z.of_nat k) by (apply Z.pow_le_mono_r; lia).
    change (2 ^ 24) with 16777216 in *. nia.
  - intros Hs. destruct (decide (j = 0%nat)) as [|Hne]; [done|]. specialize (Hj0 Hne).
    assert (2 ^ 1 <= 2 ^ Z.of_nat j) by (apply Z.pow_le_mono_r; lia).
    change (2 ^ 1) with 2 in *. nia.
Qed.

Lemma fix_shift q (j k : nat) :
  (j <= 7)%nat -> 0 <= 7 - Z.of_nat j + Z.of_nat k < 31 ->
  let shift := 157 - (150 + Z.of_nat j - Z.of_nat k) in
  let af := q * 2 ^ Z.of_nat k * 128 in
  (if 0 <? shift then if shift <? 31 then Z.shiftr af shift else 0 else af) = q * 2 ^ Z.of_nat j.
Proof.
  intros Hj Hs shift af. set (e := 7 - Z.of_nat j + Z.of_nat k) in *.
  replace shift with e by (unfold shift, e; lia).
  assert (Haf : af = q * 2 ^ Z.of_nat j * 2 ^ e).
  { unfold af. change 128 with (2 ^ 7). rewrite <- !Z.mul_assoc, <- !Z.pow_add_r by lia.
    do 2 f_equal. unfold e. lia. }
  rewrite Haf. destruct (Z.ltb_spec 0 e).
  - destruct (Z.ltb_spec e 31); [|lia]. rewrite Z.shiftr_div_pow2, Z.div_mul; [done| |lia].
    apply Z.pow_nonzero; lia.
  - replace e with 0 by lia. by rewrite Z.mul_1_r.
Qed.

(** The conversions of a magnitude with its sign. *)
Lemma round_trip_body (s : Z) a :
  (s = 0 \/ s = 1) -> 0 < a < 2147483648 ->
  exists (w : Z) (j : nat), float_body 33 s a = Ok w
    /\ fix_body (u32 w) = (if nz s then - (a / 2 ^ Z.of_nat j * 2 ^ Z.of_nat j)
                           else a / 2 ^ Z.of_nat j * 2 ^ Z.of_nat j)
    /\ (j <> 0%nat -> 8388608 <= a / 2 ^ Z.of_nat j) /\ (a < 16777216 -> j = 0%nat).
Proof.
  intros Hs Ha. destruct (normalise a Ha) as (j & k & E1 & E2 & Hr & Hj & Hk & Hj0 & Hsmall).
  set (q := a / 2 ^ Z.of_nat j) in *. set (m := q * 2 ^ Z.of_nat k - 8388608).
  assert (Hpj : 0 < 2 ^ Z.of_nat j) by (apply Z.pow_pos_nonneg; lia).
  destruct (float_word s (150 + Z.of_nat j - Z.of_nat k) m) as [Hw Hf]; [lia|lia|unfold m; lia|].
  assert (Hm : Z.land (u32 (q * 2 ^ Z.of_nat k)) 0x007fffff = m).
  { rewrite u32_small by lia. rewrite (land_ones_eq _ 0x007fffff 23) by done. pow_norm.
    unfold m. symmetry. apply (Z.mod_unique _ _ 1); lia. }
  eexists _, j. split_and!; [|..|done|done].
  - unfold float_body. destruct (Z.eqb_spec a 0); [lia|]. change (128 + 22) with 150. rewrite E1. unfold mbind, outcome_bind.
    rewrite E2. rewrite Hm, Hw. reflexivity.
  - rewrite u32_i32, u32_small by (unfold m; lia). rewrite Hf.
    replace (8388608 + m) with (q * 2 ^ Z.of_nat k) by (unfold m; lia).
    rewrite i32_small by lia. pose proof (fix_shift q j k Hj ltac:(lia)) as Hfs. cbv zeta in Hfs |- *. rewrite Hfs.
    assert (0 <= q * 2 ^ Z.of_nat j <= a).
    { unfold q. rewrite Z.mul_comm. pose proof (Z.mul_div_le a (2 ^ Z.of_nat j) Hpj).
      assert (0 <= a / 2 ^ Z.of_nat j) by (apply Z.div_pos; lia). nia. }
    cbv zeta. destruct (nz s); [rewrite i32_small by lia|]; done.
Qed.

(** The least number has no magnitude: the loop shifts ones in for ever. *)
Lemma float_down_negative n ae af :
  -2147483648 <= af < 0 -> float_down n ae af = Timeout.
Proof.
  revert ae af. induction n as [|n IH]; intros ae af Ha; [done|]. rewrite float_down_S.
  assert (H : nz (Z.land (u32 af) 0xff000000) = true).
  { rewrite <- u32_u32, land_top8 by apply u32_range. apply Z.leb_le. word_lia. }
  rewrite H. apply IH. rewrite shiftr_div_1. Z.div_mod_to_equations; lia.
Qed.
End round_trip.

(** converting an integer to a float and back keeps its magnitude up to
    the 24 most significant bits, so it is exact below 2^24; converting the
    least integer never returns, however long it runs. *)
Theorem int_float_round_trip (i : Z) :
  -2147483648 < i < 2147483648 ->
  (exists (f : Z) (j : nat), __floatsisf 33 i = Ok f
    /\ __fixsfsi f = Z.sgn i * (Z.abs i / 2 ^ Z.of_nat j * 2 ^ Z.of_nat j)
    /\ (j <> 0%nat -> 8388608 <= Z.abs i / 2 ^ Z.of_nat j)
    /\ (Z.abs i < 16777216 -> __fixsfsi f = i))
  /\ (forall n, __floatsisf n (-2147483648) = Timeout).
Proof.
  intros Hi. split.
  - destruct (decide (i = 0)) as [->|Hi0].
    { exists 0, 0%nat. split_and!; done. }
    destruct (round_trip_body (if 0 <=? i then 0 else 1) (Z.abs i))
      as (w & j & E & Hf & Hj0 & Hs); [destruct (0 <=? i); auto|lia|].
    exists w, j. unfold __floatsisf, __fixsfsi. rewrite Hf.
    assert (Hv : (if 0 <=? i then i else i32 (- i)) = Z.abs i).
    { destruct (Z.leb_spec 0 i); [lia|]. rewrite i32_small; lia. }
    assert (Hsg : (if nz (if 0 <=? i then 0 else 1)
        then - (Z.abs i / 2 ^ Z.of_nat j * 2 ^ Z.of_nat j)
        else Z.abs i / 2 ^ Z.of_nat j * 2 ^ Z.of_nat j)
      = Z.sgn i * (Z.abs i / 2 ^ Z.of_nat j * 2 ^ Z.of_nat j)).
    { destruct (Z.leb_spec 0 i); [rewrite (Z.sgn_pos i)|rewrite (Z.sgn_neg i)];
        change (nz 0) with false; change (nz 1) with true; cbv iota;
        set (Z.abs i / 2 ^ Z.of_nat j * 2 ^ Z.of_nat j); lia. }
    rewrite Hv, Hsg. split_and!; [done|done|done|].
    intros Hsm. rewrite (Hs Hsm). change (2 ^ Z.of_nat 0) with 1.
    rewrite Z.div_1_r, Z.mul_1_r, Z.mul_comm. apply Z.abs_sgn.
  - intros n. unfold __floatsisf, float_body. cbn [Z.leb Z.compare].
    change (i32 (- -2147483648)) with (-2147483648). cbn [Z.eqb].
    by rewrite float_down_negative by lia.
Qed.

Example int_float_round_trip_witness :
  (exists (f : Z) (j : nat), __floatsisf 33 (-12345) = Ok f
    /\ __fixsfsi f = Z.sgn (-12345) * (Z.abs (-12345) / 2 ^ Z.of_nat j * 2 ^ Z.of_nat j)
    /\ (j <> 0%nat -> 8388608 <= Z.abs (-12345) / 2 ^ Z.of_nat j)
    /\ (Z.abs (-12345) < 16777216 -> __fixsfsi f = -12345))
  /\ (forall n, __floatsisf n (-2147483648) = Timeout).
Proof. apply (int_float_round_trip (-12345)). lia. Defined.

(** Above 2^31 the unsigned conversion back loses a factor of two. *)
Example fixunssfsi_large :
  match __floatunsisf 33 3000000000 with Ok f => __fixunssfsi f | _ => 0 end = 1500000000.
Proof. vm_compute. done. Qed.

(** ** Laws of the arithmetic *)

Section laws.
Implicit Types (a b : Z).

Lemma addsf3_comm a b : __addsf3 a b = __addsf3 b a.
Proof.
  unfold __addsf3. destruct (Z.eqb_spec a 0) as [->|Ha], (Z.eqb_spec b 0) as [->|Hb]; try done.
  destruct (Z.ltb_spec (EXP b + 25) (EXP a)), (Z.ltb_spec (EXP a + 25) (EXP b)); try done; try lia.
  destruct (Z.ltb_spec (EXP b) (EXP a)), (Z.ltb_spec (EXP a) (EXP b)); try lia;
    cbv beta iota zeta.
  - by rewrite (Z.add_comm (signed_mant a) (Z.shiftr _ _)).
  - by rewrite (Z.add_comm (Z.shiftr _ _) (signed_mant b)).
  - replace (EXP a) with (EXP b) by lia. rewrite Z.sub_diag, !Z.shiftr_0_r.
    by rewrite (Z.add_comm (signed_mant a)).
Qed.

Lemma mulsf3_comm a b : __mulsf3 a b = __mulsf3 b a.
Proof.
  unfold __mulsf3. rewrite (orb_comm (a =? 0)). destruct ((b =? 0) || (a =? 0)); [done|].
  rewrite (Z.lxor_comm (SIGN a)). rewrite (Z.mul_comm (Z.shiftr (MANT a) 8)).
  replace (EXP a - EXCESS + EXP b) with (EXP b - EXCESS + EXP a) by lia.
  set (p := u32 (i32 (Z.shiftr (MANT b) 8 * Z.shiftr (MANT a) 8))).
  set (x := Z.shiftr (i32 (Z.land (MANT a) 0xFF * Z.shiftr (MANT b) 8)) 8).
  set (y := Z.shiftr (i32 (Z.land (MANT b) 0xFF * Z.shiftr (MANT a) 8)) 8).
  rewrite !u32_add_l. replace (p + x + y) with (p + y + x) by lia. done.
Qed.

(** The order of the represented numbers: magnitudes with a sign. *)
Definition rank (l : Z) : Z := if l <? 0 then - (l + 2147483648) else l.

Lemma sign_bit l : -2147483648 <= l < 2147483648 -> nz (SIGN l) = (l <? 0).
Proof.
  intros Hl. unfold SIGN, SIGNBIT. pose proof (land_top (u32 l) 31 ltac:(lia)) as H.
  revert H. pow_norm. intros H. rewrite H by apply u32_range.
  destruct (Z.ltb_spec l 0); [apply Z.leb_le|apply Z.leb_gt]; word_lia.
Qed.

Lemma flip_sign l : -2147483648 <= l < 0 -> i32 (Z.lxor (u32 l) SIGNBIT) = l + 2147483648.
Proof.
  intros Hl. assert (Hu : u32 l = l + 4294967296) by word_lia. rewrite Hu.
  assert (H : Z.lxor (l + 4294967296) SIGNBIT = l + 2147483648).
  { pose proof (lor_carry 1 (l + 2147483648) 31 ltac:(lia)) as Ho. revert Ho. pow_norm.
    intros Ho. specialize (Ho ltac:(lia)). rewrite Z.mul_1_l in Ho.
    replace (l + 4294967296) with (2147483648 + (l + 2147483648)) by lia. rewrite <- Ho.
    unfold SIGNBIT. apply Z.bits_inj'. intros n Hn. rewrite Z.lxor_spec, Z.lor_spec.
    change 2147483648 with (2 ^ 31) at 1 3. rewrite !Z.pow2_bits_eqb by lia.
    destruct (Z.eqb_spec 31 n) as [<-|]; [|by rewrite xorb_false_r].
    rewrite (testbit_high (l + 2147483648) 31 31); [done| |lia]. pow_norm. lia. }
  rewrite H. apply i32_small. lia.
Qed.

Lemma cmpsf2_rank a b :
  -2147483648 <= a < 2147483648 -> -2147483648 <= b < 2147483648 ->
  __cmpsf2 a b = if (a =? -2147483648) && (b =? 0) then -1
                 else if (a =? 0) && (b =? -2147483648) then 1
                 else Z.sgn (rank a - rank b).
Proof.
  intros Ha Hb. unfold __cmpsf2, rank. rewrite !sign_bit by done.
  destruct (Z.ltb_spec a 0), (Z.ltb_spec b 0); cbn [andb]; rewrite ?flip_sign by lia;
    repeat match goal with
    | |- context [?x =? ?y] => destruct (Z.eqb_spec x y); subst; cbn [andb]
    | |- context [?x <? ?y] => destruct (Z.ltb_spec x y)
    end; try lia.
Qed.
End laws.



(** The zeros compare as different numbers. *)
Example zeros_differ : __cmpsf2 (i32 SIGNBIT) 0 = -1 /\ __eqsf2 (i32 SIGNBIT) 0 = 1.
Proof. vm_compute. done. Qed.
