(* ===== verification/SoftDouble.v ===== *)
(** * Double-precision arithmetic of the C library

    The "software implementation of IEEE double-precision floating point" of
    [lib/libc/libc.c]. A double is its bit pattern as the member [ll] of
    [union double_long], a signed 64-bit integer; [l.upper] and [l.lower] are
    its halves, the first one signed. [long] has 32 bits. *)

From S2P Require Import Prelude Words SoftInt SoftFloat.

Definition upper (d : Z) : Z := high (dw_of d).
Definition lower (d : Z) : Z := low (dw_of d).
Definition of_words (u l : Z) : Z := dw_all (mk_dwords (i32 u) (u32 l)).

Definition EXCESSD : Z := 1022.
Definition HIDDEND : Z := Z.shiftl 1 20.
Definition EXPD (d : Z) : Z := Z.land (Z.shiftr (upper d) 20) 0x7FF.
Definition SIGND (d : Z) : Z := Z.land (u32 (upper d)) SIGNBIT.
Definition MANTD (d : Z) : Z :=
  Z.lor (u32 (Z.shiftl (Z.lor (Z.land (upper d) 0xFFFFF) HIDDEND) 10)) (Z.shiftr (lower d) 22).
Definition HIDDEND_LL : Z := Z.shiftl 1 52.
Definition MANTD_LL (d : Z) : Z := Z.lor (Z.land d (HIDDEND_LL - 1)) HIDDEND_LL.
Definition PACKD_LL (s e m : Z) : Z := i64 (Z.lor (i64 (Z.shiftl (s + Z.shiftl e 20) 32)) m).

(** ** From integers *)

(** [while (a1 < bound) { a1 <<= k; exp -= k; }] on a [w]-converted [a1]. *)
Fixpoint scale_up (w : Z -> Z) (n : nat) (bound k a1 exp : Z) : outcome (Z * Z) :=
  match n with
  | O => Timeout
  | S n => if a1 <? bound then scale_up w n bound k (w (Z.shiftl a1 k)) (exp - k) else Ok (a1, exp)
  end.

Definition __floatsidf (a1 : Z) : outcome Z :=
  if a1 =? 0 then Ok (of_words 0 0) else
  let sign := if a1 <? 0 then SIGNBIT else 0 in
  let a1 := if a1 <? 0 then i32 (- a1) else a1 in
  if a1 <? 0 then Ok (of_words (Z.lor SIGNBIT (Z.shiftl (32 + EXCESSD) 20)) 0) else
  '(a1, exp) ← scale_up i32 33 0x1000000 4 a1 (31 + EXCESSD);
  '(a1, exp) ← scale_up i32 33 0x40000000 1 a1 exp;
  let up := Z.lor (Z.lor sign (Z.shiftl exp 20)) (Z.land (Z.shiftr a1 10) (Z.lnot HIDDEND)) in
  mret (of_words up (Z.shiftl a1 22)).

(** [n] bounds the rounds of each loop. *)
Definition __floatdidf (n : nat) (a1 : Z) : outcome Z :=
  if a1 =? 0 then Ok (of_words 0 0) else
  let up := if a1 <? 0 then SIGNBIT else 0 in
  let a1 := if a1 <? 0 then i64 (- a1) else a1 in
  '(a1, exp) ← scale_up i64 n (Z.shiftl 1 54) 8 a1 (63 + EXCESSD);
  '(a1, exp) ← scale_up i64 n (Z.shiftl 1 62) 1 a1 exp;
  let d := Z.lor (of_words up 0) (Z.land (Z.shiftr a1 10) (Z.lnot HIDDEND_LL)) in
  mret (of_words (Z.lor (upper d) (Z.shiftl exp 20)) (lower d)).

(** ** Sign and width *)

Definition __negdf2 (dl1 : Z) : Z :=
  if (upper dl1 =? 0) && (lower dl1 =? 0) then dl1
  else of_words (Z.lxor (u32 (upper dl1)) SIGNBIT) (lower dl1).

Definition __extendsfdf2 (fl1 : Z) : Z :=
  if fl1 =? 0 then of_words 0 0 else
  let exp := EXP fl1 - EXCESS + EXCESSD in
  let up := Z.lor (Z.lor (SIGN fl1) (Z.shiftl exp 20))
    (Z.shiftr (Z.land (MANT fl1) NOT_HIDDEN) 3) in
  of_words up (Z.shiftl (MANT fl1) 29).

Definition __truncdfsf2 (dl1 : Z) : Z :=
  if (upper dl1 =? 0) && (lower dl1 =? 0) then 0 else
  let exp := EXPD dl1 - EXCESSD + EXCESS in
  let mant := Z.shiftr (MANTD dl1) 6 in
  let mant := Z.shiftr (mant + 1) 1 in
  let '(mant, exp) :=
    if nz (Z.land mant 0xFF000000) then (Z.shiftr mant 1, exp + 1) else (mant, exp) in
  PACK (SIGND dl1) exp (Z.land mant NOT_HIDDEN).

(** ** Comparison *)

Definition __cmpdf2 (dl1 dl2 : Z) : Z :=
  let both := nz (SIGND dl1) && nz (SIGND dl2) in
  let u1 := if both then i32 (Z.lxor (u32 (upper dl1)) SIGNBIT) else upper dl1 in
  let u2 := if both then i32 (Z.lxor (u32 (upper dl2)) SIGNBIT) else upper dl2 in
  if u1 <? u2 then -1
  else if u2 <? u1 then 1
  else if lower dl1 <? lower dl2 then -1
  else if lower dl2 <? lower dl1 then 1
  else 0.

(** [(float) a], converted back for the call. *)
Definition as_float (a : Z) : Z := __extendsfdf2 (__truncdfsf2 a).

Definition __gtdf2 (a1 a2 : Z) : Z := cbool (0 <? __cmpdf2 (as_float a1) (as_float a2)).
Definition __gedf2 (a1 a2 : Z) : Z := cbool (0 <=? __cmpdf2 (as_float a1) (as_float a2)) - 1.
Definition __ltdf2 (a1 a2 : Z) : Z := - cbool (__cmpdf2 (as_float a1) (as_float a2) <? 0).
Definition __ledf2 (a1 a2 : Z) : Z := cbool (0 <? __cmpdf2 (as_float a1) (as_float a2)).
Definition __eqdf2 (a1 a2 : Z) : Z := cbool (negb (a1 =? a2)).
Definition __nedf2 (a1 a2 : Z) : Z := cbool (negb (a1 =? a2)).

(** ** To integers *)

Definition __fixdfsi (dl1 : Z) : Z :=
  if (upper dl1 =? 0) && (lower dl1 =? 0) then 0 else
  let exp := EXPD dl1 - EXCESSD - 31 in
  let l := i32 (MANTD dl1) in
  if 0 <? exp then if nz (SIGND dl1) then -2147483648 else 2147483647
  else if (exp <? 0) && (-32 <? exp) && nz l then
    let l := Z.shiftr l (- exp) in if nz (SIGND dl1) then i32 (- l) else l
  else 0.

Definition __fixdfdi (dl1 : Z) : Z :=
  if (upper dl1 =? 0) && (lower dl1 =? 0) then 0 else
  let exp := EXPD dl1 - EXCESSD - 64 in
  let l := MANTD_LL dl1 in
  if 0 <? exp then if nz (SIGND dl1) then -9223372036854775808 else 9223372036854775807
  else if (exp <? 0) && (-64 <? exp) && nz l then
    let l := Z.shiftr l (- exp) in if nz (SIGND dl1) then i64 (- l) else l
  else 0.

Definition __fixunsdfsi (dl1 : Z) : Z :=
  if (upper dl1 =? 0) && (lower dl1 =? 0) then 0 else
  let exp := EXPD dl1 - EXCESSD - 32 in
  let l := Z.lor (u32 (Z.shiftl (Z.lor (Z.land (upper dl1) 0xFFFFF) HIDDEND) 11))
    (Z.shiftr (lower dl1) 21) in
  if 0 <? exp then 0xFFFFFFFF
  else if (exp <? 0) && (-32 <? exp) && nz l then Z.shiftr l (- exp)
  else 0.

Definition __fixunsdfdi (dl1 : Z) : Z :=
  if dl1 =? 0 then 0 else
  let exp := EXPD dl1 - EXCESSD - 64 in
  let l := u64 dl1 in
  if 0 <? exp then 18446744073709551615
  else if (exp <? 0) && (-64 <? exp) && nz l then Z.shiftr l (- exp)
  else 0.

(** ** Addition *)

(** [while (!(mant1 & ((long long)7<<61)))] *)
Fixpoint norm_upd (n : nat) (mant1 exp1 : Z) : outcome (Z * Z) :=
  match n with
  | O => Timeout
  | S n =>
      if nz (Z.land mant1 (i64 (Z.shiftl 7 61))) then Ok (mant1, exp1)
      else norm_upd n (i64 (Z.shiftl mant1 1)) (exp1 - 1)
  end.

Definition norm_downd (mant1 exp1 : Z) : Z * Z :=
  if nz (Z.land mant1 (i64 (Z.shiftl 3 62))) then (Z.shiftr mant1 1, exp1 + 1) else (mant1, exp1).

Definition pack_sumd (sign mant1 exp1 : Z) : outcome Z :=
  '(mant1, exp1) ← norm_upd 65 mant1 exp1;
  let '(mant1, exp1) := norm_downd mant1 exp1 in
  let mant1 := i64 (mant1 + if nz (Z.land mant1 (Z.shiftl 1 9)) then Z.shiftl 1 8
    else Z.shiftl 1 8 - 1) in
  let '(mant1, exp1) := norm_downd mant1 exp1 in
  let mant1 := Z.shiftr mant1 9 in
  mret (PACKD_LL sign exp1 (Z.land mant1 (Z.lnot HIDDEND_LL))).

Definition signed_mantd (d : Z) : Z :=
  let mant := i64 (Z.shiftl (MANTD_LL d) 9) in
  if nz (SIGND d) then i64 (- mant) else mant.

Definition __adddf3 (fl1 fl2 : Z) : outcome Z :=
  if fl2 =? 0 then Ok fl1 else
  if fl1 =? 0 then Ok fl2 else
  let exp1 := EXPD fl1 in
  let exp2 := EXPD fl2 in
  if exp2 + 54 <? exp1 then Ok fl1 else
  if exp1 + 54 <? exp2 then Ok fl2 else
  let mant1 := signed_mantd fl1 in
  let mant2 := signed_mantd fl2 in
  let '(mant1, mant2, exp1) :=
    if exp2 <? exp1 then (mant1, Z.shiftr mant2 (exp1 - exp2), exp1)
    else (Z.shiftr mant1 (exp2 - exp1), mant2, exp2) in
  let mant1 := i64 (mant1 + mant2) in
  if mant1 <? 0 then pack_sumd (i32 SIGNBIT) (i64 (- mant1)) exp1
  else if mant1 =? 0 then Ok 0
  else pack_sumd 0 mant1 exp1.

Definition __subdf3 (fl1 fl2 : Z) : outcome Z :=
  if fl2 =? 0 then Ok fl1 else
  let fl2 := of_words (Z.lxor (u32 (upper fl2)) SIGNBIT) (lower fl2) in
  if fl1 =? 0 then Ok fl2 else __adddf3 fl1 fl2.

(** ** Multiplication and division *)

Definition __muldf3 (fl1 fl2 : Z) : Z :=
  if (fl1 =? 0) || (fl2 =? 0) then 0 else
  let sign := i32 (Z.lxor (SIGND fl1) (SIGND fl2)) in
  let exp := EXPD fl1 - EXCESSD + EXPD fl2 in
  let m1 := MANTD_LL fl1 in
  let m2 := MANTD_LL fl2 in
  let result := u64 (i64 (Z.shiftr m1 21 * Z.shiftr m2 21)) in
  let result := u64 (result + Z.shiftr (i64 (Z.land m1 0x1FFFFF * Z.shiftr m2 21)) 21) in
  let result := u64 (result + Z.shiftr (i64 (Z.land m2 0x1FFFFF * Z.shiftr m1 21)) 21) in
  let result := Z.shiftr result 2 in
  let '(result, exp) :=
    if nz (Z.land result (Z.shiftl 1 61))
    then (Z.shiftr (u64 (result + Z.shiftl 1 8)) 9, exp)
    else (Z.shiftr (u64 (result + Z.shiftl 1 7)) 8, exp - 1) in
  let '(result, exp) :=
    if nz (Z.land result (Z.shiftl HIDDEND_LL 1)) then (Z.shiftr result 1, exp + 1)
    else (result, exp) in
  PACKD_LL sign exp (Z.land result (Z.lnot HIDDEND_LL)).

Definition __divdf3 (fl1 fl2 : Z) : outcome Z :=
  let exp := EXPD fl1 - EXPD fl2 + EXCESSD in
  let sign := i32 (Z.lxor (SIGND fl1) (SIGND fl2)) in
  if fl1 =? 0 then Ok (if fl2 =? 0 then 9223372036854775807 else 0) else
  if fl2 =? 0 then Ok (PACKD_LL (SIGND fl1) 2047 0) else
  let l1 := MANTD_LL fl1 in
  let l2 := MANTD_LL fl2 in
  let '(l1, exp) := if l1 <? l2 then (Z.shiftl l1 1, exp - 1) else (l1, exp) in
  result ← div_loop i64 55 l1 l2 (Z.shiftl 1 53) 0;
  let result := i64 (result + 1) in
  let exp := exp + 1 in
  let result := Z.shiftr result 1 in
  mret (PACKD_LL sign exp (Z.land result (Z.lnot HIDDEND_LL))).

(** ** Quotients *)

Section quotients.
Implicit Types (a b m q R : Z).

(** [R] is the quotient [n / d] rounded to the nearest integer, ties up. *)
Definition nearest (R n d : Z) : Prop := (2 * R - 1) * d <= 2 * n < (2 * R + 1) * d.

(** The numerator, scaled so that the quotient lies between one and two. *)
Definition scaled (m1 m2 : Z) : Z := if m1 <? m2 then Z.shiftl m1 1 else m1.

Lemma land_lnot_pow2 x n :
  0 <= n -> 2 ^ n <= x < 2 ^ (n + 1) -> Z.land x (Z.lnot (2 ^ n)) = x - 2 ^ n.
Proof.
  intros Hn Hx. rewrite <- Z.ldiff_land. symmetry. apply Z.sub_nocarry_ldiff.
  apply Z.bits_inj'. intros i Hi. rewrite Z.ldiff_spec, Z.bits_0, Z.pow2_bits_eqb by done.
  destruct (Z.eqb_spec n i) as [<-|]; [|done]. cbn [andb]. rewrite Z.testbit_eqb by done.
  assert (0 < 2 ^ n) by (apply Z.pow_pos_nonneg; lia).
  rewrite Z.pow_add_r in Hx by lia. change (2 ^ 1) with 2 in Hx.
  by replace (x / 2 ^ n) with 1 by (apply (Z.div_unique x (2 ^ n) 1 (x - 2 ^ n)); lia).
Qed.

Lemma low_or_hidden x n : 0 <= n -> Z.lor (Z.land x (2 ^ n - 1)) (2 ^ n) = x mod 2 ^ n + 2 ^ n.
Proof.
  intros Hn. assert (0 < 2 ^ n) by (apply Z.pow_pos_nonneg; lia).
  rewrite (land_ones_eq x (2 ^ n - 1) n) by (try done; rewrite Z.ones_equiv; lia).
  rewrite Z.lor_comm. pose proof (lor_carry 1 (x mod 2 ^ n) n Hn) as H1.
  rewrite Z.mul_1_l in H1. rewrite H1; [lia|]. apply Z.mod_pos_bound. lia.
Qed.

Lemma MANT_range a : 8388608 <= MANT a < 16777216.
Proof.
  unfold MANT, HIDDEN. pose proof (low_or_hidden a 23 ltac:(lia)) as H. revert H.
  change (Z.shiftl 1 23) with 8388608. pow_norm. change (8388608 - 1) with 8388607. intros ->.
  pose proof (Z.mod_pos_bound a 8388608). lia.
Qed.

Lemma MANTD_LL_range a : 4503599627370496 <= MANTD_LL a < 9007199254740992.
Proof.
  unfold MANTD_LL, HIDDEND_LL. pose proof (low_or_hidden a 52 ltac:(lia)) as H. revert H.
  change (Z.shiftl 1 52) with 4503599627370496. change (2 ^ 52) with 4503599627370496. intros ->.
  pose proof (Z.mod_pos_bound a 4503599627370496). lia.
Qed.

Lemma div_loop_S w n l1 l2 mask r :
  div_loop w (S n) l1 l2 mask r =
    if nz mask then
      let '(l1, result) := if l2 <=? l1 then (w (l1 - l2), Z.lor r mask) else (l1, r) in
      div_loop w n (w (Z.shiftl l1 1)) l2 (Z.shiftr mask 1) result
    else Ok r.
Proof. done. Qed.

Section loop.
Context (w : Z -> Z) (bound : Z) (Hw : forall x, 0 <= x < bound -> w x = x).

Lemma div_loop_run (k : nat) l1 l2 r :
  0 < l2 -> 2 * l2 <= bound -> 0 <= l1 < 2 * l2 ->
  div_loop w (S (S k)) l1 l2 (2 ^ Z.of_nat k) (r * 2 ^ Z.of_nat (S k)) =
    Ok (r * 2 ^ Z.of_nat (S k) + l1 * 2 ^ Z.of_nat k / l2).
Proof.
  intros Hl2 Hb. revert l1 r. induction k as [|k IH]; intros l1 r Hl1;
    rewrite div_loop_S; rewrite (proj2 (nz_true _)) by (apply Z.pow_nonzero; lia).
  - change (2 ^ Z.of_nat 0) with 1. change (2 ^ Z.of_nat 1) with 2. rewrite Z.mul_1_r.
    destruct (Z.leb_spec l2 l1); rewrite div_loop_S; change (nz (Z.shiftr 1 1)) with false;
      cbv iota.
    + pose proof (lor_above r 1 1 ltac:(cbn; lia)) as Ho. change (2 ^ Z.of_nat 1) with 2 in Ho.
      rewrite Ho. do 2 f_equal. apply (Z.div_unique l1 l2 1 (l1 - l2)); lia.
    + by rewrite Z.div_small, Z.add_0_r by lia.
  - assert (Hp : 0 < 2 ^ Z.of_nat k) by (apply Z.pow_pos_nonneg; lia).
    assert (Hm : Z.shiftr (2 ^ Z.of_nat (S k)) 1 = 2 ^ Z.of_nat k).
    { rewrite shiftr_div_1, Nat2Z.inj_succ, Z.pow_succ_r, Z.mul_comm by lia. by apply Z.div_mul. }
    assert (Hs : forall j : nat, 2 ^ Z.of_nat (S j) = 2 * 2 ^ Z.of_nat j)
      by (intros j; rewrite Nat2Z.inj_succ, Z.pow_succ_r by lia; done).
    rewrite Hm. destruct (Z.leb_spec l2 l1) as [Hle|Hlt].
    + rewrite (Hw (l1 - l2)), shiftl_mul_1, Hw by lia. rewrite lor_above by (rewrite !Hs; lia).
      replace (r * 2 ^ Z.of_nat (S (S k)) + 2 ^ Z.of_nat (S k))
        with ((2 * r + 1) * 2 ^ Z.of_nat (S k)) by (rewrite (Hs (S k)); ring).
      rewrite IH by lia. rewrite (Hs (S k)), (Hs k).
      replace (l1 * (2 * 2 ^ Z.of_nat k))
        with (2 * (l1 - l2) * 2 ^ Z.of_nat k + 2 * 2 ^ Z.of_nat k * l2) by ring.
      rewrite Z.div_add by lia. f_equal. ring.
    + rewrite shiftl_mul_1, Hw by lia. rewrite (Hs (S k)), (Hs k).
      replace (r * (2 * (2 * 2 ^ Z.of_nat k))) with (2 * r * 2 ^ Z.of_nat (S k))
        by (rewrite (Hs k); ring).
      rewrite IH by lia. rewrite (Hs k).
      replace (2 * l1 * 2 ^ Z.of_nat k) with (l1 * (2 * 2 ^ Z.of_nat k)) by ring.
      done.
Qed.

(** The loop on mantissas of [k] bits, and the rounding after it. *)
Lemma mantissa_quotient (k : nat) m1 m2 :
  2 ^ Z.of_nat k <= m1 < 2 * 2 ^ Z.of_nat k -> 2 ^ Z.of_nat k <= m2 < 2 * 2 ^ Z.of_nat k ->
  4 * 2 ^ Z.of_nat k <= bound ->
  exists q R, div_loop w (S (S (S k))) (scaled m1 m2) m2 (2 ^ Z.of_nat (S k)) 0 = Ok q
    /\ 0 <= q < bound - 1 /\ Z.shiftr (q + 1) 1 = R
    /\ nearest R (scaled m1 m2 * 2 ^ Z.of_nat k) m2
    /\ 2 ^ Z.of_nat k <= R < 2 * 2 ^ Z.of_nat k.
Proof.
  intros H1 H2 Hb. set (P := 2 ^ Z.of_nat k) in *.
  assert (Hs : m2 <= scaled m1 m2 < 2 * m2).
  { unfold scaled. rewrite shiftl_mul_1. destruct (Z.ltb_spec m1 m2); lia. }
  pose proof (div_loop_run (S k) (scaled m1 m2) m2 0 ltac:(lia) ltac:(lia) ltac:(lia)) as E.
  rewrite Z.mul_0_l, Z.add_0_l in E. set (s := scaled m1 m2) in *.
  assert (HP : 2 ^ Z.of_nat (S k) = 2 * P) by (rewrite Nat2Z.inj_succ, Z.pow_succ_r by lia; done).
  rewrite HP in *. set (q := s * (2 * P) / m2) in *.
  assert (Hq1 : m2 * q <= s * (2 * P)) by (apply Z.mul_div_le; lia).
  assert (Hq2 : s * (2 * P) < m2 * (q + 1)).
  { rewrite Z.add_1_r. apply Z.mul_succ_div_gt. lia. }
  assert (Hq : 2 * P <= q <= 4 * P - 2) by (clearbody q; nia).
  exists q, ((q + 1) / 2). rewrite shiftr_div_1. split_and!; try done; try lia.
  - unfold nearest. assert (2 * ((q + 1) / 2) <= q + 1 <= 2 * ((q + 1) / 2) + 1)
      by (Z.div_mod_to_equations; lia). clearbody q. nia.
  - Z.div_mod_to_equations; lia.
  - Z.div_mod_to_equations; lia.
Qed.
End loop.
End quotients.



(** Seven thirds. *)
Example seven_thirds : __divsf3 0x40e00000 0x40400000 = Ok 0x40155555.
Proof. vm_compute. done. Qed.

(** ** Sums *)

Section sums.
Implicit Types (m e : Z).

Lemma land_high_pow2 x n : 0 <= n -> 0 <= x -> nz (Z.land x (- 2 ^ n)) = (2 ^ n <=? x).
Proof.
  intros Hn Hx. assert (Hp : 0 < 2 ^ n) by (apply Z.pow_pos_nonneg; lia).
  replace (- 2 ^ n) with (Z.lnot (Z.ones n)) by (rewrite Z.ones_equiv; unfold Z.lnot; lia).
  rewrite <- Z.ldiff_land, Z.ldiff_ones_r, Z.shiftl_mul_pow2, Z.shiftr_div_pow2 by lia.
  destruct (Z.leb_spec (2 ^ n) x).
  - apply nz_true. assert (1 <= x / 2 ^ n) by (apply Z.div_le_lower_bound; lia). nia.
  - apply nz_false. by rewrite Z.div_small.
Qed.

Lemma norm_up_S n m e :
  norm_up (S n) m e = if nz (Z.land (u32 m) 0xE0000000) then Ok (m, e)
                      else norm_up n (i32 (Z.shiftl m 1)) (e - 1).
Proof. done. Qed.

Lemma norm_upd_S n m e :
  norm_upd (S n) m e = if nz (Z.land m (i64 (Z.shiftl 7 61))) then Ok (m, e)
                       else norm_upd n (i64 (Z.shiftl m 1)) (e - 1).
Proof. done. Qed.

Lemma norm_up_returns (n : nat) m e :
  0 < m < 2147483648 -> 536870912 <= m * 2 ^ Z.of_nat n ->
  exists m' e', norm_up (S n) m e = Ok (m', e').
Proof.
  revert m e. induction n as [|n IH]; intros m e Hm Hn; rewrite norm_up_S;
    (assert (Ht : nz (Z.land (u32 m) 0xE0000000) = (536870912 <=? m));
      [rewrite u32_small by lia; change 0xE0000000 with (Z.shiftl (Z.ones 3) 29);
       rewrite land_field by lia; pow_norm;
       destruct (Z.leb_spec 536870912 m); [apply nz_true|apply nz_false];
       Z.div_mod_to_equations; lia|]); rewrite Ht;
    destruct (Z.leb_spec 536870912 m); eauto.
  - change (2 ^ Z.of_nat 0) with 1 in Hn. lia.
  - rewrite shiftl_mul_1, i32_small by lia. apply IH; [lia|].
    rewrite Nat2Z.inj_succ, Z.pow_succ_r in Hn by lia. lia.
Qed.

Lemma norm_upd_returns (n : nat) m e :
  0 < m < 9223372036854775808 -> 2305843009213693952 <= m * 2 ^ Z.of_nat n ->
  exists m' e', norm_upd (S n) m e = Ok (m', e').
Proof.
  revert m e. induction n as [|n IH]; intros m e Hm Hn; rewrite norm_upd_S;
    change (i64 (Z.shiftl 7 61)) with (- 2 ^ 61); rewrite land_high_pow2 by lia;
    change (2 ^ 61) with 2305843009213693952;
    destruct (Z.leb_spec 2305843009213693952 m); eauto.
  - change (2 ^ Z.of_nat 0) with 1 in Hn. lia.
  - rewrite shiftl_mul_1, i64_small by lia. apply IH; [lia|].
    rewrite Nat2Z.inj_succ, Z.pow_succ_r in Hn by lia. lia.
Qed.

Lemma pack_sum_returns s m e : 0 < m < 2147483648 -> exists r, pack_sum s m e = Ok r.
Proof.
  intros Hm. unfold pack_sum. change 33%nat with (S 32).
  destruct (norm_up_returns 32 m e Hm) as (m' & e' & ->); [cbn; lia|].
  cbv beta iota zeta delta [mbind outcome_bind]. destruct (norm_down m' e') as [m1 e1].
  destruct (norm_down _ e1). eexists. reflexivity.
Qed.

Lemma pack_sumd_returns s m e : 0 < m < 9223372036854775808 -> exists r, pack_sumd s m e = Ok r.
Proof.
  intros Hm. unfold pack_sumd. change 65%nat with (S 64).
  destruct (norm_upd_returns 64 m e Hm) as (m' & e' & ->); [cbn; lia|].
  cbv beta iota zeta delta [mbind outcome_bind]. destruct (norm_downd m' e') as [m1 e1].
  destruct (norm_downd _ e1). eexists. reflexivity.
Qed.

Lemma shiftr_shrinks x n B : - B < x < B -> 0 <= n -> - B < Z.shiftr x n < B.
Proof.
  intros Hx Hn. rewrite Z.shiftr_div_pow2 by done.
  assert (0 < 2 ^ n) by (apply Z.pow_pos_nonneg; lia).
  split; [apply Z.lt_le_trans with (-B + 1); [lia|]; apply Z.div_le_lower_bound; nia|].
  apply Z.div_lt_upper_bound; nia.
Qed.

(** The operands, aligned to the greater exponent. *)
Lemma aligned_range e1 e2 x y B m1 m2 e :
  - B < x < B -> - B < y < B ->
  (if e2 <? e1 then (x, Z.shiftr y (e1 - e2), e1) else (Z.shiftr x (e2 - e1), y, e2)) = (m1, m2, e) ->
  - (2 * B - 1) < m1 + m2 < 2 * B - 1.
Proof.
  intros Hx Hy. destruct (Z.ltb_spec e2 e1); intros [= <- <- <-].
  - pose proof (shiftr_shrinks y (e1 - e2) B Hy ltac:(lia)). lia.
  - pose proof (shiftr_shrinks x (e2 - e1) B Hx ltac:(lia)). lia.
Qed.

Lemma signed_mant_range a : -1073741824 < signed_mant a < 1073741824.
Proof.
  unfold signed_mant. pose proof (MANT_range a). rewrite Z.shiftl_mul_pow2 by lia. pow_norm.
  rewrite (i32_small (MANT a * 64)) by lia. destruct (nz (SIGN a)); [rewrite i32_small|]; lia.
Qed.

Lemma signed_mantd_range a : -4611686018427387904 < signed_mantd a < 4611686018427387904.
Proof.
  unfold signed_mantd. pose proof (MANTD_LL_range a). rewrite Z.shiftl_mul_pow2 by lia.
  change (2 ^ 9) with 512.
  rewrite (i64_small (MANTD_LL a * 512)) by lia. destruct (nz (SIGND a)); [rewrite i64_small|]; lia.
Qed.
End sums.

(** C31: the additions and subtractions of floats and doubles always return:
    a sum that is not zero has a bit to normalise on, found within the width
    of the mantissa, whatever the two patterns are. *)
Theorem sums_return (a b : Z) :
  (exists r, __addsf3 a b = Ok r) /\ (exists r, __subsf3 a b = Ok r)
  /\ (exists r, __adddf3 a b = Ok r) /\ (exists r, __subdf3 a b = Ok r).
Proof.
  assert (Hf : forall x y, exists r, __addsf3 x y = Ok r).
  { intros x y. unfold __addsf3. do 4 (case_match; [by eauto|]).
    destruct (if EXP y <? EXP x then _ else _) as [[m1 m2] e] eqn:E.
    pose proof (aligned_range (EXP x) (EXP y) _ _ 1073741824 m1 m2 e
      (signed_mant_range x) (signed_mant_range y) E) as Hs.
    rewrite (i32_small (m1 + m2)) by lia.
    destruct (Z.ltb_spec (m1 + m2) 0); [rewrite i32_small by lia; apply pack_sum_returns; lia|].
    destruct (Z.eqb_spec (m1 + m2) 0); [by eauto|]. apply pack_sum_returns. lia. }
  assert (Hd : forall x y, exists r, __adddf3 x y = Ok r).
  { intros x y. unfold __adddf3. do 4 (case_match; [by eauto|]).
    destruct (if EXPD y <? EXPD x then _ else _) as [[m1 m2] e] eqn:E.
    pose proof (aligned_range (EXPD x) (EXPD y) _ _ 4611686018427387904 m1 m2 e
      (signed_mantd_range x) (signed_mantd_range y) E) as Hs.
    rewrite (i64_small (m1 + m2)) by lia.
    destruct (Z.ltb_spec (m1 + m2) 0); [rewrite i64_small by lia; apply pack_sumd_returns; lia|].
    destruct (Z.eqb_spec (m1 + m2) 0); [by eauto|]. apply pack_sumd_returns. lia. }
  split_and!; [apply Hf| |apply Hd|].
  - unfold __subsf3. repeat (case_match; eauto).
  - unfold __subdf3. repeat (case_match; eauto).
Qed.

(** ** Integers to doubles and back *)

Section conversions.
Implicit Types (a u l e s : Z).

Lemma of_words_value u l : of_words u l = i32 u * 4294967296 + u32 l.
Proof.
  unfold of_words, dw_all. cbn [high low]. apply i64_small.
  pose proof (i32_range u). pose proof (u32_range l). lia.
Qed.

Lemma upper_of_words u l : upper (of_words u l) = i32 u.
Proof.
  unfold upper. rewrite dw_high, of_words_value. pose proof (u32_range l).
  rewrite Z.add_comm, Z.div_add, Z.div_small, Z.add_0_l by lia. apply i32_i32.
Qed.

Lemma lower_of_words u l : lower (of_words u l) = u32 l.
Proof.
  unfold lower, dw_of. cbn [low]. rewrite of_words_value. pose proof (u32_range l). word_lia.
Qed.

Lemma scale_up_S w n bound k a e :
  scale_up w (S n) bound k a e =
    if a <? bound then scale_up w n bound k (w (Z.shiftl a k)) (e - k) else Ok (a, e).
Proof. done. Qed.

(** The magnitude is scaled by a power of two into place, or was there. *)
Lemma scale_up_run (n : nat) P k a e :
  0 < k -> 0 < a < 2147483648 -> P * 2 ^ k <= 2147483648 -> P <= a * 2 ^ (k * Z.of_nat n) ->
  exists j, 0 <= j /\ scale_up i32 (S n) P k a e = Ok (a * 2 ^ j, e - j)
    /\ P <= a * 2 ^ j < 2147483648.
Proof.
  intros Hk Ha HP. revert a e Ha. induction n as [|n IH]; intros a e Ha Hn;
    rewrite scale_up_S; destruct (Z.ltb_spec a P) as [Hlt|Hge].
  - rewrite Z.mul_0_r in Hn. change (2 ^ 0) with 1 in Hn. lia.
  - exists 0. change (2 ^ 0) with 1. rewrite Z.mul_1_r, Z.sub_0_r. split_and!; first [done|lia].
  - assert (Hp : 0 < 2 ^ k) by (apply Z.pow_pos_nonneg; lia).
    rewrite Z.shiftl_mul_pow2, i32_small by nia.
    destruct (IH (a * 2 ^ k) (e - k)) as (j & Hj & E & Hr); [nia| |].
    { rewrite <- Z.mul_assoc, <- Z.pow_add_r by lia.
      replace (k + k * Z.of_nat n) with (k * Z.of_nat (S n)) by lia. done. }
    exists (k + j). rewrite E, Z.pow_add_r, Z.mul_assoc by lia. split_and!; try lia.
    do 2 f_equal. lia.
  - exists 0. change (2 ^ 0) with 1. rewrite Z.mul_1_r, Z.sub_0_r. split_and!; first [done|lia].
Qed.

(** The packed double of a magnitude of 31 bits, read back field by field. *)
Lemma packed_fields (neg : bool) e m :
  0 < e < 2048 -> 1073741824 <= m < 2147483648 ->
  let sign := if neg then SIGNBIT else 0 in
  let d := of_words (Z.lor (Z.lor sign (Z.shiftl e 20)) (Z.land (Z.shiftr m 10) (Z.lnot HIDDEND)))
    (Z.shiftl m 22) in
  EXPD d = e /\ MANTD d = m /\ nz (SIGND d) = neg /\ (upper d =? 0) = false.
Proof.
  intros He Hm sign d.
  set (f := m / 1024 - 1048576).
  set (w := (if neg then 2147483648 else 0) + e * 1048576 + f).
  assert (Hf : 0 <= f < 1048576) by (unfold f; Z.div_mod_to_equations; lia).
  assert (Hup : upper d = i32 w).
  { unfold d. rewrite upper_of_words. f_equal. rewrite Z.shiftr_div_pow2, Z.shiftl_mul_pow2 by lia.
    change HIDDEND with (2 ^ 20). rewrite land_lnot_pow2; [|lia|pow_norm; Z.div_mod_to_equations; lia].
    pow_norm. fold f.
    assert (Hs : Z.lor sign (e * 1048576) = (if neg then 2147483648 else 0) + e * 1048576).
    { unfold sign, SIGNBIT. destruct neg; [|by rewrite Z.lor_0_l].
      pose proof (lor_carry 1 (e * 1048576) 31 ltac:(lia)) as H. revert H. pow_norm.
      intros H. rewrite Z.mul_1_l in H. apply H. lia. }
    rewrite Hs. unfold w.
    replace ((if neg then 2147483648 else 0) + e * 1048576)
      with (((if neg then 2048 else 0) + e) * 1048576) by (destruct neg; lia).
    pose proof (lor_carry ((if neg then 2048 else 0) + e) f 20 ltac:(lia)) as H. revert H.
    pow_norm. intros H. apply H. done. }
  assert (Hlo : lower d = m mod 1024 * 4194304).
  { unfold d. rewrite lower_of_words, Z.shiftl_mul_pow2 by lia. pow_norm. word_lia. }
  split_and!.
  - unfold EXPD. rewrite Hup, Z.shiftr_div_pow2, (land_ones_eq _ 0x7FF 11) by (try lia; done).
    pow_norm. unfold w. destruct neg; word_lia.
  - unfold MANTD. rewrite Hup, Hlo, (land_ones_eq _ 0xFFFFF 20) by (try lia; done).
    rewrite Z.shiftl_mul_pow2, Z.shiftr_div_pow2 by lia. pow_norm.
    assert (E1 : (i32 w) mod 1048576 = f) by (unfold w; destruct neg; word_lia).
    assert (E2 : Z.lor f HIDDEND = f + 1048576).
    { pose proof (lor_carry 1 f 20 ltac:(lia)) as H. revert H. pow_norm. intros H.
      rewrite Z.lor_comm. change HIDDEND with (1 * 1048576). rewrite H; lia. }
    rewrite E1, E2, Z.div_mul by lia.
    assert (E3 : u32 ((f + 1048576) * 1024) = (m / 1024) * 1024).
    { replace (f + 1048576) with (m / 1024) by (unfold f; lia).
      apply u32_small. Z.div_mod_to_equations; lia. }
    rewrite E3. pose proof (lor_carry (m / 1024) (m mod 1024) 10 ltac:(lia)) as H. revert H.
    pow_norm. intros ->; Z.div_mod_to_equations; lia.
  - unfold SIGND. rewrite Hup. pose proof (land_top (u32 (i32 w)) 31 ltac:(lia)) as H. revert H.
    pow_norm. intros H. change SIGNBIT with 2147483648. rewrite H by apply u32_range.
    rewrite u32_i32. unfold w. destruct neg; [apply Z.leb_le|apply Z.leb_gt]; word_lia.
  - rewrite Hup. apply Z.eqb_neq. unfold w. clearbody f. destruct neg; word_lia.
Qed.

(** What the conversion back makes of a packed magnitude. *)
Lemma fix_packed (neg : bool) d e m j :
  EXPD d = e -> MANTD d = m -> nz (SIGND d) = neg -> (upper d =? 0) = false ->
  e = 1053 - j -> 0 <= j < 31 -> 0 <= m < 2147483648 -> nz m = true ->
  __fixdfsi d = if j =? 0 then 0 else if neg then - (m / 2 ^ j) else m / 2 ^ j.
Proof.
  intros He Hm Hs Hu -> Hj Hmr Hnz. unfold __fixdfsi. rewrite Hu, He, Hm, Hs.
  rewrite (i32_small m), Hnz by lia. unfold EXCESSD. cbn [andb].
  destruct (Z.ltb_spec 0 (1053 - j - 1022 - 31)); [lia|].
  destruct (Z.eqb_spec j 0) as [->|]; [done|].
  destruct (Z.ltb_spec (1053 - j - 1022 - 31) 0); [|lia].
  destruct (Z.ltb_spec (-32) (1053 - j - 1022 - 31)); [|lia]. cbn [andb].
  replace (- (1053 - j - 1022 - 31)) with j by lia. rewrite Z.shiftr_div_pow2 by lia.
  assert (0 < 2 ^ j) by (apply Z.pow_pos_nonneg; lia).
  assert (0 <= m / 2 ^ j < 2147483648).
  { split; [apply Z.div_pos; lia|]. apply Z.div_lt_upper_bound; nia. }
  destruct neg; [|done]. apply i32_small. lia.
Qed.

Lemma floatsidf_run a :
  0 < Z.abs a < 2147483648 ->
  exists d j, __floatsidf a = Ok d /\ 0 <= j < 31 /\ (j = 0 <-> 1073741824 <= Z.abs a)
    /\ EXPD d = 1053 - j /\ MANTD d = Z.abs a * 2 ^ j /\ MANTD d < 2147483648 /\ nz (SIGND d) = (a <? 0)
    /\ (upper d =? 0) = false.
Proof.
  intros Ha. set (m := Z.abs a) in *.
  destruct (scale_up_run 32 16777216 4 m (31 + EXCESSD)) as (j1 & Hj1 & E1 & Hr1);
    [lia|lia|change (2 ^ 4) with 16; lia
    |change (2 ^ (4 * Z.of_nat 32)) with 340282366920938463463374607431768211456; lia|].
  destruct (scale_up_run 32 1073741824 1 (m * 2 ^ j1) (31 + EXCESSD - j1)) as (j2 & Hj2 & E2 & Hr2);
    [lia|lia|change (2 ^ 1) with 2; lia|change (2 ^ (1 * Z.of_nat 32)) with 4294967296; lia|].
  rewrite <- Z.mul_assoc, <- Z.pow_add_r in E2, Hr2 by lia. set (j := j1 + j2) in *.
  assert (Hj : j < 31).
  { destruct (Z.lt_ge_cases j 31) as [|Hge]; [done|].
    assert (2 ^ 31 <= 2 ^ j) by (apply Z.pow_le_mono_r; lia). pow_norm. nia. }
  destruct (packed_fields (a <? 0) (1053 - j) (m * 2 ^ j)) as (F1 & F2 & F3 & F4); [lia|lia|].
  eexists _, j. split_and!; [|lia|lia| |exact F1|exact F2|rewrite F2; lia|exact F3|exact F4].
  - unfold __floatsidf. assert ((a =? 0) = false) as -> by lia.
    assert (Hm : (if a <? 0 then i32 (- a) else a) = m).
    { unfold m. destruct (Z.ltb_spec a 0); [rewrite i32_small|]; lia. }
    rewrite Hm. destruct (Z.ltb_spec m 0); [lia|].
    change 33%nat with (S 32). rewrite E1. cbv beta iota zeta delta [mbind outcome_bind].
    rewrite E2. cbv beta iota zeta delta [mret outcome_ret].
    replace (31 + EXCESSD - j1 - j2) with (1053 - j) by (unfold j, EXCESSD; lia).
    destruct (a <? 0); reflexivity.
  - split; intros Hc; [rewrite Hc in Hr2; change (2 ^ 0) with 1 in Hr2; lia|]. destruct (decide (j = 0)) as [|Hne]; [done|].
    assert (2 ^ 1 <= 2 ^ j) by (apply Z.pow_le_mono_r; lia). change (2 ^ 1) with 2 in *. nia.
Qed.

Lemma scale_up_stuck n k a e :
  0 < k -> a = -9223372036854775808 \/ a = 0 ->
  scale_up i64 n 18014398509481984 k a e = Timeout.
Proof.
  intros Hk. revert a e. induction n as [|n IH]; intros a e Ha; [done|]. rewrite scale_up_S.
  destruct (Z.ltb_spec a 18014398509481984); [|lia]. apply IH. right.
  destruct Ha as [->| ->]; [|by rewrite Z.shiftl_0_l].
  rewrite Z.shiftl_mul_pow2 by lia. replace k with (1 + (k - 1)) by lia.
  rewrite Z.pow_add_r by lia. change (2 ^ 1) with 2.
  replace (-9223372036854775808 * (2 * 2 ^ (k - 1)))
    with (0 + - 2 ^ (k - 1) * 18446744073709551616) by ring.
  unfold i64. rewrite <- Z.add_assoc, (Z.add_comm _ 9223372036854775808), Z.add_assoc.
  rewrite Z_mod_plus_full. done.
Qed.
End conversions.

(** an [int] converted to [double] and back is the same [int] below 2^30
    in magnitude; from there to 2^31 the conversion back returns zero, though
    the double holds the number exactly. The conversion of the least [long
    long] never returns. *)
Theorem int_double_round_trip (i : Z) :
  -2147483648 < i < 2147483648 ->
  (exists d, __floatsidf i = Ok d
    /\ __fixdfsi d = if Z.abs i <? 1073741824 then i else 0)
  /\ (exists d, __floatsidf (-2147483648) = Ok d /\ __fixdfsi d = -2147483648)
  /\ (forall n, __floatdidf n (-9223372036854775808) = Timeout).
Proof.
  intros Hi. split_and!.
  - destruct (decide (i = 0)) as [->|Hi0]; [by exists 0|].
    destruct (floatsidf_run i) as (d & j & E & Hj & Hj0 & He & Hm & Hr & Hs & Hu); [lia|].
    exists d. split; [done|].
    assert (Hp : 0 < 2 ^ j) by (apply Z.pow_pos_nonneg; lia).
    rewrite (fix_packed (i <? 0) d (1053 - j) (MANTD d) j) by first [done|nia|apply nz_true; nia].
    rewrite Hm, Z.div_mul by lia.
    destruct (Z.eqb_spec j 0), (Z.ltb_spec (Z.abs i) 1073741824), (Z.ltb_spec i 0); lia.
  - eexists. split; [reflexivity|]. vm_compute. done.
  - intros n. unfold __floatdidf. cbn [Z.eqb Z.ltb Z.compare].
    change (i64 (- -9223372036854775808)) with (-9223372036854775808).
    change (Z.shiftl 1 54) with 18014398509481984.
    by rewrite scale_up_stuck by (try lia; by left).
Qed.

Example int_double_round_trip_witness :
  (exists d, __floatsidf (-1234567890) = Ok d
    /\ __fixdfsi d = if Z.abs (-1234567890) <? 1073741824 then -1234567890 else 0)
  /\ (exists d, __floatsidf (-2147483648) = Ok d /\ __fixdfsi d = -2147483648)
  /\ (forall n, __floatdidf n (-9223372036854775808) = Timeout).
Proof. apply (int_double_round_trip (-1234567890)). lia. Defined.

(** Two negative doubles compare the wrong way round: minus two is reported
    greater than minus one. Single precision gets it right. *)
Example cmpdf2_negatives :
  __cmpdf2 (of_words 0xc0000000 0) (of_words 0xbff00000 0) = 1
  /\ __cmpsf2 (i32 0xc0000000) (i32 0xbf800000) = -1.
Proof. vm_compute. done. Qed.

(** The conversions to 64 bits are off by 2^11 and ignore the layout of the
    double; 2^31 does not convert to an unsigned word. *)
Example fix_quirks :
  __fixdfdi (of_words 0x3ff00000 0) = 0
  /\ __fixdfdi (of_words 0x40a00000 0) = 1
  /\ __fixunsdfsi (of_words 0x41e00000 0) = 0
  /\ __fixunsdfdi (of_words 0x43e00000 0) = 0
  /\ __fixunsdfdi (of_words 0x43d00000 0) = 2443202797848494080.
Proof. vm_compute. done. Qed.
