(* ===== verification/Ustack.v ===== *)
(** * The network stack: Ethernet, ARP, IPv4, ICMP and UDP

    [net/ustack/eth_netif.c], [arp.c], [ip.c], [icmp.c] and [udp.c]. A packet
    is handled in place, in one of the two frame buffers of the interface; the
    state holds the buffer in use as [frame], and [packet[i]] is byte
    [ETH_HEADER_SIZE + i] of it. The link layer below is the class
    [LinkLayer]; the callback above is a function on the state of the layer
    that registered it. *)

From S2P Require Import Prelude Words.

(** ** Interfaces *)

(** [en_ll_output] and [en_ll_input] of the interface driver: the former takes
    the frame and its size, the latter a buffer, and returns the length
    received and the buffer. *)
Class LinkLayer (L : Type) := {
  en_ll_output : list Z -> Z -> L -> L;
  en_ll_input : list Z -> L -> Z * list Z * L;
}.

Record arp_entry := ArpEntry { a_ip : list Z; a_mac : list Z }.

Record net {L U : Type} := Net {
  myip : list Z;
  mynm : list Z;
  mygw : list Z;
  mymac : list Z;
  arp_cache : list arp_entry;
  arp_index : Z;
  callback : option (list Z -> U -> outcome U);
  user : U;
  frame : list Z;
  link : L;
}.
Arguments net : clear implicits.
Arguments Net {L U}.

Definition PACKET_SIZE : Z := 1518.
Definition ARP_CACHE_SIZE : nat := 16.
Definition IP_CFG_PING : Z := 113.
Definition ETH_DA_OFS : Z := 0.
Definition ETH_SA_OFS : Z := 6.
Definition ETH_TYPE_OFS : Z := 12.
Definition ETH_DATA_OFS : Z := 14.
Definition ETH_HEADER_SIZE : Z := 14.
Definition FRAME_ARP : Z := 0x0806.
Definition FRAME_IP : Z := 0x0800.
Definition ARP_HARDW_OFS : Z := 14.
Definition ARP_PROT_OFS : Z := 16.
Definition ARP_HLEN_PLEN_OFS : Z := 18.
Definition ARP_OPCODE_OFS : Z := 20.
Definition ARP_SENDER_HA_OFS : Z := 22.
Definition ARP_SENDER_IP_OFS : Z := 28.
Definition ARP_TARGET_HA_OFS : Z := 32.
Definition ARP_TARGET_IP_OFS : Z := 38.
Definition ARP_FRAME_SIZE : Z := 28.
Definition HARDW_ETH10 : Z := 1.
Definition IP_HLEN_PLEN : Z := 0x0604.
Definition OP_ARP_REQUEST : Z := 1.
Definition OP_ARP_ANSWER : Z := 2.
Definition IP_HDR_VHL : Z := 0.
Definition IP_HDR_TOS : Z := 1.
Definition IP_HDR_LEN1 : Z := 2.
Definition IP_HDR_LEN2 : Z := 3.
Definition IP_HDR_IPID1 : Z := 4.
Definition IP_HDR_IPID2 : Z := 5.
Definition IP_HDR_FLAGS1 : Z := 6.
Definition IP_HDR_FLAGS2 : Z := 7.
Definition IP_HDR_TTL : Z := 8.
Definition IP_HDR_PROTO : Z := 9.
Definition IP_HDR_CHKSUM1 : Z := 10.
Definition IP_HDR_CHKSUM2 : Z := 11.
Definition IP_HDR_SRCADDR1 : Z := 12.
Definition IP_HDR_DESTADDR1 : Z := 16.
Definition IP_HEADER_SIZE : Z := 20.
Definition IP_VER_IHL : Z := 0x4500.
Definition IP_FLAG_MOREFRAG : Z := 0x2000.
Definition IP_FRAGOFS_MASK : Z := 0x1fff.
Definition IP_DEFAULT_TTL : Z := 64.
Definition IP_PROTO_ICMP : Z := 1.
Definition IP_PROTO_UDP : Z := 17.
Definition ICMP_HDR_TYPE : Z := 20.
Definition ICMP_HDR_CHKSUM1 : Z := 22.
Definition ICMP_HDR_CHKSUM2 : Z := 23.
Definition ICMP_ECHO_REPLY : Z := 0.
Definition ICMP_ECHO : Z := 8.
Definition ICMP_HDR_SIZE : Z := 8.
Definition UDP_HDR_SRCPORT1 : Z := 20.
Definition UDP_HDR_SRCPORT2 : Z := 21.
Definition UDP_HDR_DESTPORT1 : Z := 22.
Definition UDP_HDR_DESTPORT2 : Z := 23.
Definition UDP_HDR_LEN1 : Z := 24.
Definition UDP_HDR_LEN2 : Z := 25.
Definition UDP_HDR_CHKSUM1 : Z := 26.
Definition UDP_HDR_CHKSUM2 : Z := 27.
Definition UDP_DATA_OFS : Z := 28.
Definition UDP_HEADER_SIZE : Z := 8.
Definition PORT_ECHO : Z := 7.
Definition PORT_DISCARD : Z := 9.

(** ** Byte arrays *)

(** [n] bytes from index [o], for [memcpy] and [memcmp]. *)
Definition slice (F : list Z) (o n : Z) : outcome (list Z) :=
  if (0 <=? o) && (0 <=? n) && (o + n <=? zlen F)
  then Ok (take (Z.to_nat n) (drop (Z.to_nat o) F)) else Fault.

(** The bytes [bs] stored from index [o] on. *)
Definition splice (F : list Z) (o : Z) (bs : list Z) : outcome (list Z) :=
  if (0 <=? o) && (o + zlen bs <=? zlen F)
  then Ok (take (Z.to_nat o) F ++ bs ++ drop (Z.to_nat (o + zlen bs)) F) else Fault.

(** Several stores, one after the other. *)
Fixpoint splices (F : list Z) (l : list (Z * list Z)) : outcome (list Z) :=
  match l with
  | [] => Ok F
  | (o, bs) :: l => F ← splice F o bs; splices F l
  end.

(** [(b1 << 8) | b2] of two bytes at index [o]. *)
Definition be16 (F : list Z) (o : Z) : outcome Z :=
  b1 ← aget F o; b2 ← aget F (o + 1); mret (Z.lor (Z.shiftl b1 8) b2).

(** The two bytes of a 16-bit number. *)
Definition hi8 (x : Z) : Z := u8 (Z.shiftr x 8).
Definition lo8 (x : Z) : Z := u8 (Z.land x 0xff).

Definition memeq (l1 l2 : list Z) : bool := bool_decide (l1 = l2).

(** ** Addresses *)

Definition zland2 (l1 l2 : list Z) : list Z := zip_with Z.land l1 l2.
Definition byte_not (b : Z) : Z := u8 (Z.lnot b).

Definition ip_addr_maskcmp (addr1 addr2 mask : list Z) : bool :=
  memeq (zland2 addr1 mask) (zland2 addr2 mask).
Definition ip_addr_cmp (addr1 addr2 : list Z) : bool := memeq addr1 addr2.
Definition ip_addr_isany (addr : list Z) : bool := memeq addr [0; 0; 0; 0].
Definition ip_addr_isbroadcast (addr mask : list Z) : bool :=
  let ad := zland2 addr (byte_not <$> mask) in
  memeq ad (byte_not <$> mask)
  || (memeq ad [0; 0; 0; 0] || memeq ad [0xff; 0xff; 0xff; 0xff]).
Definition ip_addr_ismulticast (addr : list Z) : bool :=
  memeq (zland2 addr [0xf0; 0; 0; 0]) [0xe0; 0; 0; 0].

(** ** Checksums *)

(** [while (sum & 0xffff0000) sum = (sum & 0xffff) + (sum >> 16);] *)
Fixpoint fold_sum (n : nat) (sum : Z) : outcome Z :=
  match n with
  | O => Timeout
  | S n =>
      if nz (Z.land sum 0xffff0000)
      then fold_sum n (u32 (Z.land sum 0xffff + Z.shiftr sum 16)) else Ok sum
  end.

(** [for(i = ...; i < limit; i += 2) sum += (packet[i] << 8) | packet[i + 1];]
    with [i] of 16 bits. *)
Fixpoint sum_words (n : nat) (F : list Z) (i limit sum : Z) : outcome Z :=
  match n with
  | O => Timeout
  | S n =>
      if i <? limit then
        w ← be16 F (ETH_HEADER_SIZE + i);
        sum_words n F (u16 (i + 2)) limit (u32 (sum + w))
      else Ok sum
  end.

Definition ipchksum (F : list Z) : outcome Z :=
  sum ← sum_words 11 F 0 20 0; fold_sum 4 sum.

Definition udpchksum (F : list Z) (len : Z) : outcome Z :=
  w1 ← be16 F (ETH_HEADER_SIZE + IP_HDR_SRCADDR1);
  w2 ← be16 F (ETH_HEADER_SIZE + IP_HDR_SRCADDR1 + 2);
  w3 ← be16 F (ETH_HEADER_SIZE + IP_HDR_DESTADDR1);
  w4 ← be16 F (ETH_HEADER_SIZE + IP_HDR_DESTADDR1 + 2);
  let sum := u32 (w1 + w2 + w3 + w4 + IP_PROTO_UDP + len) in
  sum ← sum_words (S (Z.to_nat len)) F IP_HEADER_SIZE (len + IP_HEADER_SIZE - 1) sum;
  sum ← (if nz (Z.land len 1) then
    b ← aget F (ETH_HEADER_SIZE + (len + IP_HEADER_SIZE - 1));
    mret (u32 (sum + Z.shiftl b 8)) else mret sum);
  sum ← fold_sum 4 sum;
  mret (Z.land (Z.lnot sum) 0xffff).

(** ** The operations *)

Section ustack.
Context {L U : Type} {LL : LinkLayer L}.
Implicit Types s : net L U.

Definition with_frame (F : list Z) s : net L U :=
  Net (myip s) (mynm s) (mygw s) (mymac s) (arp_cache s) (arp_index s) (callback s) (user s) F (link s).
Definition with_link (l : L) s : net L U :=
  Net (myip s) (mynm s) (mygw s) (mymac s) (arp_cache s) (arp_index s) (callback s) (user s) (frame s) l.
Definition with_myip (ip : list Z) s : net L U :=
  Net ip (mynm s) (mygw s) (mymac s) (arp_cache s) (arp_index s) (callback s) (user s) (frame s) (link s).
Definition with_arp (c : list arp_entry) (i : Z) s : net L U :=
  Net (myip s) (mynm s) (mygw s) (mymac s) c i (callback s) (user s) (frame s) (link s).
Definition with_callback (f : option (list Z -> U -> outcome U)) s : net L U :=
  Net (myip s) (mynm s) (mygw s) (mymac s) (arp_cache s) (arp_index s) f (user s) (frame s) (link s).
Definition with_user (u : U) s : net L U :=
  Net (myip s) (mynm s) (mygw s) (mymac s) (arp_cache s) (arp_index s) (callback s) u (frame s) (link s).

(** Read the frame, and overwrite parts of it. *)
Definition reading {A : Type} (f : list Z -> outcome A) : ST (net L U) A :=
  F ← gets frame; lift (f F).
Definition write (l : list (Z * list Z)) : ST (net L U) unit :=
  F ← gets frame; F ← lift (splices F l); modify (with_frame F).

(** The same at offsets into the packet. *)
Definition packet_at (i : Z) : ST (net L U) Z := reading (fun F => aget F (ETH_HEADER_SIZE + i)).
Definition packet16 (i : Z) : ST (net L U) Z := reading (fun F => be16 F (ETH_HEADER_SIZE + i)).
Definition packet_slice (i n : Z) : ST (net L U) (list Z) :=
  reading (fun F => slice F (ETH_HEADER_SIZE + i) n).
Definition packet_write (l : list (Z * list Z)) : ST (net L U) unit :=
  write ((fun '(o, bs) => (ETH_HEADER_SIZE + o, bs)) <$> l).

Definition output (size : Z) : ST (net L U) unit :=
  modify (fun s => with_link (en_ll_output (frame s) size (link s)) s).

(** *** ARP *)

Definition arp_reply : ST (net L U) Z :=
  mac ← reading (fun F => slice F ETH_SA_OFS 6);
  mymac ← gets mymac;
  myip ← gets myip;
  _ ← write [(ETH_SA_OFS, mymac); (ETH_DA_OFS, mac);
    (ETH_TYPE_OFS, [hi8 FRAME_ARP]); (ETH_TYPE_OFS + 1, [lo8 FRAME_ARP])];
  ip ← reading (fun F => slice F ARP_SENDER_IP_OFS 4);
  _ ← write [(ARP_HARDW_OFS, [hi8 HARDW_ETH10]); (ARP_HARDW_OFS + 1, [lo8 HARDW_ETH10]);
    (ARP_PROT_OFS, [hi8 FRAME_IP]); (ARP_PROT_OFS + 1, [lo8 FRAME_IP]);
    (ARP_HLEN_PLEN_OFS, [hi8 IP_HLEN_PLEN]); (ARP_HLEN_PLEN_OFS + 1, [lo8 IP_HLEN_PLEN]);
    (ARP_OPCODE_OFS, [hi8 OP_ARP_ANSWER]); (ARP_OPCODE_OFS + 1, [lo8 OP_ARP_ANSWER]);
    (ARP_SENDER_HA_OFS, mymac); (ARP_SENDER_IP_OFS, myip);
    (ARP_TARGET_HA_OFS, mac); (ARP_TARGET_IP_OFS, ip)];
  mret (ETH_HEADER_SIZE + ARP_FRAME_SIZE).

Definition arp_request : ST (net L U) Z :=
  mymac ← gets mymac;
  myip ← gets myip;
  _ ← write [(ETH_SA_OFS, mymac); (ETH_DA_OFS, replicate 6 0xff);
    (ETH_TYPE_OFS, [hi8 FRAME_ARP]); (ETH_TYPE_OFS + 1, [lo8 FRAME_ARP]);
    (ARP_HARDW_OFS, [hi8 HARDW_ETH10]); (ARP_HARDW_OFS + 1, [lo8 HARDW_ETH10]);
    (ARP_PROT_OFS, [hi8 FRAME_IP]); (ARP_PROT_OFS + 1, [lo8 FRAME_IP]);
    (ARP_HLEN_PLEN_OFS, [hi8 IP_HLEN_PLEN]); (ARP_HLEN_PLEN_OFS + 1, [lo8 IP_HLEN_PLEN]);
    (ARP_OPCODE_OFS, [hi8 OP_ARP_REQUEST]); (ARP_OPCODE_OFS + 1, [lo8 OP_ARP_REQUEST]);
    (ARP_SENDER_HA_OFS, mymac); (ARP_SENDER_IP_OFS, myip);
    (ARP_TARGET_HA_OFS, replicate 6 0x00); (ARP_TARGET_IP_OFS, myip)];
  mret (ETH_HEADER_SIZE + ARP_FRAME_SIZE).

(** [for (i = 0; i < ARP_CACHE_SIZE; i++) if (!memcmp(ip, arp_cache[i].ip, 4)) break;] *)
Fixpoint arp_find (c : list arp_entry) (ip : list Z) (i : Z) : Z :=
  match c with
  | [] => i
  | e :: c => if memeq ip (a_ip e) then i else arp_find c ip (i + 1)
  end.

Definition arp_update (ip mac : list Z) : ST (net L U) Z :=
  c ← gets arp_cache;
  let i := arp_find c ip 0 in
  if i <? Z.of_nat ARP_CACHE_SIZE then
    e ← lift (aget c i);
    _ ← modify (fun s => with_arp (zset c i (ArpEntry (a_ip e) mac)) (arp_index s) s);
    mret 1
  else
    n ← gets arp_index;
    _ ← lift (aget c n);
    _ ← modify (with_arp (zset c n (ArpEntry ip mac)) (u32 (n + 1) mod Z.of_nat ARP_CACHE_SIZE));
    mret 0.

(** The hardware address found, or nothing. *)
Definition arp_check (ip : list Z) : ST (net L U) (option (list Z)) :=
  c ← gets arp_cache;
  let i := arp_find c ip 0 in
  if i <? Z.of_nat ARP_CACHE_SIZE then
    e ← lift (aget c i); mret (Some (a_mac e))
  else mret None.

(** *** The interface *)

Definition netif_send (len : Z) : ST (net L U) Z :=
  ip ← packet_slice IP_HDR_DESTADDR1 4;
  nm ← gets mynm;
  '(ip, mac) ← (if ip_addr_isany ip || ip_addr_isbroadcast ip nm
    then mret (ip, Some (replicate 6 0xff))
    else if ip_addr_ismulticast ip then
      b1 ← lift (aget ip 1); b2 ← lift (aget ip 2); b3 ← lift (aget ip 3);
      mret (ip, Some [0x01; 0x0; 0x5e; Z.land b1 0x7f; b2; b3])
    else
      my ← gets myip;
      gw ← gets mygw;
      let ip := if ip_addr_maskcmp ip my nm then ip else gw in
      m ← arp_check ip; mret (ip, m));
  match mac with
  | Some mac =>
      mymac ← gets mymac;
      _ ← write [(ETH_SA_OFS, mymac); (ETH_DA_OFS, mac);
        (ETH_TYPE_OFS, [hi8 FRAME_IP]); (ETH_TYPE_OFS + 1, [lo8 FRAME_IP])];
      _ ← output (u16 (len + ETH_HEADER_SIZE));
      mret (u16 (len + ETH_HEADER_SIZE))
  | None =>
      l ← arp_request;
      _ ← write [(ARP_TARGET_IP_OFS, ip)];
      _ ← output (u16 (l + ETH_HEADER_SIZE));
      mret 0
  end.

(** *** IPv4 *)

Definition ip_out (dst_addr : list Z) (len : Z) : ST (net L U) Z :=
  my ← gets myip;
  _ ← packet_write [(IP_HDR_VHL, [hi8 IP_VER_IHL]); (IP_HDR_TOS, [0x00]);
    (IP_HDR_LEN1, [hi8 len]); (IP_HDR_LEN2, [lo8 len]);
    (IP_HDR_IPID1, [0x00]); (IP_HDR_IPID2, [0x00]);
    (IP_HDR_FLAGS1, [0x00]); (IP_HDR_FLAGS2, [0x00]); (IP_HDR_TTL, [IP_DEFAULT_TTL]);
    (IP_HDR_SRCADDR1, my); (IP_HDR_DESTADDR1, dst_addr);
    (IP_HDR_CHKSUM2, [0]); (IP_HDR_CHKSUM1, [0])];
  c ← reading ipchksum;
  let sum := Z.land (Z.lnot c) 0xffff in
  _ ← packet_write [(IP_HDR_CHKSUM1, [hi8 sum]); (IP_HDR_CHKSUM2, [lo8 sum])];
  netif_send len.

(** *** ICMP *)

Definition icmp_echo_reply (len : Z) : ST (net L U) Z :=
  ty ← packet_at ICMP_HDR_TYPE;
  if ty =? ICMP_ECHO then
    _ ← packet_write [(ICMP_HDR_TYPE, [ICMP_ECHO_REPLY])];
    b1 ← packet_at ICMP_HDR_CHKSUM1;
    b2 ← packet_at ICMP_HDR_CHKSUM2;
    let chksum := u16 (Z.shiftl b1 8 + b2) in
    let chksum :=
      if 0xffff - Z.shiftl ICMP_ECHO 8 <? chksum
      then u16 (chksum + (Z.shiftl ICMP_ECHO 8 + 1)) else u16 (chksum + Z.shiftl ICMP_ECHO 8) in
    _ ← packet_write [(ICMP_HDR_CHKSUM1, [hi8 chksum]); (ICMP_HDR_CHKSUM2, [lo8 chksum])];
    dst_addr ← packet_slice IP_HDR_SRCADDR1 4;
    _ ← ip_out dst_addr len;
    mret 0
  else mret (-1).

(** *** UDP *)

Definition udp_out (dst_addr : list Z) (src_port dst_port len : Z) : ST (net L U) Z :=
  my ← gets myip;
  _ ← packet_write [(IP_HDR_SRCADDR1, my); (IP_HDR_DESTADDR1, dst_addr);
    (UDP_HDR_SRCPORT1, [hi8 src_port]); (UDP_HDR_SRCPORT2, [lo8 src_port]);
    (UDP_HDR_DESTPORT1, [hi8 dst_port]); (UDP_HDR_DESTPORT2, [lo8 dst_port]);
    (UDP_HDR_LEN1, [hi8 len]); (UDP_HDR_LEN2, [lo8 len]);
    (UDP_HDR_CHKSUM1, [0]); (UDP_HDR_CHKSUM2, [0]); (IP_HDR_PROTO, [IP_PROTO_UDP])];
  chksum ← reading (fun F => udpchksum F len);
  _ ← packet_write [(UDP_HDR_CHKSUM1, [hi8 chksum]); (UDP_HDR_CHKSUM2, [lo8 chksum])];
  ip_out dst_addr (u16 (len + IP_HEADER_SIZE)).

(** [udp_callback(packet)] *)
Definition call_back : ST (net L U) unit :=
  f ← gets callback;
  match f with
  | None => mret tt
  | Some f => F ← gets frame; u ← gets user;
      u ← lift (f (drop (Z.to_nat ETH_HEADER_SIZE) F) u); modify (with_user u)
  end.

Definition udp_in : ST (net L U) Z :=
  chksum ← packet16 UDP_HDR_CHKSUM1;
  datalen ← packet16 UDP_HDR_LEN1;
  ok ← (if nz chksum then
    _ ← packet_write [(UDP_HDR_CHKSUM1, [0]); (UDP_HDR_CHKSUM2, [0])];
    c ← reading (fun F => udpchksum F datalen);
    mret (chksum =? c) else mret true);
  if negb ok then mret (-1) else
  src_port ← packet16 UDP_HDR_SRCPORT1;
  dst_port ← packet16 UDP_HDR_DESTPORT1;
  if dst_port =? PORT_ECHO then
    dst_addr ← packet_slice IP_HDR_SRCADDR1 4;
    _ ← udp_out dst_addr dst_port src_port datalen;
    mret 0
  else if dst_port =? PORT_DISCARD then mret 0
  else _ ← call_back; mret datalen.

Definition udp_set_callback (f : option (list Z -> U -> outcome U)) : ST (net L U) unit :=
  modify (with_callback f).
Definition udp_get_callback : ST (net L U) (option (list Z -> U -> outcome U)) := gets callback.

(** *** Reception *)

Definition ip_in (dst_addr : list Z) (len : Z) : ST (net L U) Z :=
  my ← gets myip;
  let configured := foldr Z.lor 0 my in
  vhl ← packet_at IP_HDR_VHL;
  if negb (vhl =? hi8 IP_VER_IHL) then mret (-1) else
  flags ← packet16 IP_HDR_FLAGS1;
  if nz (Z.land flags (Z.lor IP_FLAG_MOREFRAG IP_FRAGOFS_MASK)) then mret (-1) else
  ttl ← packet_at IP_HDR_TTL;
  if ttl =? 0 then mret (-1) else
  if nz configured then
    dst ← packet_slice IP_HDR_DESTADDR1 4;
    if negb (ip_addr_cmp dst dst_addr) then mret (-1) else
    c ← reading ipchksum;
    if negb (c =? 0xffff) then mret (-1) else
    proto ← packet_at IP_HDR_PROTO;
    if proto =? IP_PROTO_ICMP then icmp_echo_reply len
    else if proto =? IP_PROTO_UDP then udp_in
    else mret (-1)
  else
    proto ← packet_at IP_HDR_PROTO;
    if (proto =? IP_PROTO_ICMP) && nz (Z.lnot configured)
       && (len =? IP_CFG_PING + IP_HEADER_SIZE + ICMP_HDR_SIZE) then
      dst ← packet_slice IP_HDR_DESTADDR1 4;
      _ ← modify (with_myip dst);
      mret 0
    else mret 0.

Definition dest_mac_is (mac : list Z) : ST (net L U) bool :=
  da ← reading (fun F => slice F ETH_DA_OFS 6); mret (memeq da mac).
Definition is_broadcast_mac : ST (net L U) bool := dest_mac_is (replicate 6 0xff).
Definition is_any_mac : ST (net L U) bool := dest_mac_is (replicate 6 0x00).
Definition is_local_mac : ST (net L U) bool := m ← gets mymac; dest_mac_is m.

(** The ARP frame of [netif_recv]; [true] when it was answered. *)
Definition arp_frame : ST (net L U) bool :=
  hardw ← reading (fun F => be16 F ARP_HARDW_OFS);
  if negb (hardw =? HARDW_ETH10) then mret false else
  prot ← reading (fun F => be16 F ARP_PROT_OFS);
  if negb (prot =? FRAME_IP) then mret false else
  hlen ← reading (fun F => be16 F ARP_HLEN_PLEN_OFS);
  if negb (hlen =? IP_HLEN_PLEN) then mret false else
  op ← reading (fun F => be16 F ARP_OPCODE_OFS);
  answered ← (if op =? OP_ARP_REQUEST then
    target ← reading (fun F => slice F ARP_TARGET_IP_OFS 4);
    my ← gets myip;
    if memeq target my then len ← arp_reply; _ ← output (u16 len); mret true else mret false
    else mret false);
  if answered : bool then mret true else
  op ← reading (fun F => be16 F ARP_OPCODE_OFS);
  _ ← (if op =? OP_ARP_ANSWER then
    ip ← reading (fun F => slice F ARP_SENDER_IP_OFS 4);
    mac ← reading (fun F => slice F ARP_SENDER_HA_OFS 6);
    _ ← arp_update ip mac; mret tt else mret tt);
  mret false.

Definition netif_recv : ST (net L U) Z :=
  s ← get_st;
  let '(ll_len, F, l) := en_ll_input (frame s) (link s) in
  _ ← modify (fun s => with_link l (with_frame F s));
  if 0 <? ll_len then
    b1 ← is_local_mac;
    b2 ← (if b1 : bool then mret true else is_broadcast_mac);
    b3 ← (if b2 : bool then mret true else is_any_mac);
    if b3 : bool then
      type ← reading (fun F => be16 F ETH_TYPE_OFS);
      if type =? FRAME_ARP then _ ← arp_frame; mret 0
      else if type =? FRAME_IP then reading (fun F => be16 F (ETH_DATA_OFS + IP_HDR_LEN1))
      else mret 0
    else mret 0
  else mret 0.

(** One turn of the loop of [ustack_service], without the link check. *)
Definition service_turn : ST (net L U) unit :=
  len ← netif_recv;
  if 0 <? len then my ← gets myip; _ ← ip_in my len; mret tt else mret tt.
End ustack.

(** ** Reading back what was written *)

Definition bytes (F : list Z) : Prop := Forall (fun b => 0 <= b < 256) F.

#[global] Arguments hi8 : simpl never.
#[global] Arguments lo8 : simpl never.

Section frames.
Implicit Types (F bs : list Z) (o i n x : Z).

(** The stores of [splices], byte by byte, and the last one to an index. *)
Fixpoint stores o bs : list (Z * Z) :=
  match bs with [] => [] | b :: bs => (o, b) :: stores (o + 1) bs end.
Definition flat (l : list (Z * list Z)) : list (Z * Z) :=
  concat ((fun '(o, bs) => stores o bs) <$> l).
Fixpoint last_store (l : list (Z * Z)) i : option Z :=
  match l with
  | [] => None
  | (o, b) :: l => match last_store l i with Some c => Some c | None => if o =? i then Some b else None end
  end.

Lemma last_store_app l1 l2 i :
  last_store (l1 ++ l2) i = match last_store l2 i with Some b => Some b | None => last_store l1 i end.
Proof.
  induction l1 as [|[o b] l1 IH]; cbn [last_store app]; [by destruct (last_store l2 i)|].
  rewrite IH. by destruct (last_store l2 i).
Qed.

Lemma last_store_None l i : Forall (fun p => p.1 <> i) l -> last_store l i = None.
Proof.
  induction 1 as [|[o b] l Ho _ IH]; [done|]. cbn [last_store]. rewrite IH.
  cbn in Ho. by destruct (Z.eqb_spec o i).
Qed.

Lemma last_store_stores bs o i :
  last_store (stores o bs) i = if i <? o then None else zget bs (i - o).
Proof.
  revert o. induction bs as [|b bs IH]; intros o; cbn [stores last_store].
  - rewrite zget_None; [by destruct (i <? o)|]. change (zlen (@nil Z)) with 0. lia.
  - rewrite IH. destruct (Z.ltb_spec i o).
    + destruct (Z.ltb_spec i (o + 1)); [|lia]. by destruct (Z.eqb_spec o i); [lia|].
    + destruct (Z.eqb_spec o i) as [->|Hne].
      * destruct (Z.ltb_spec i (i + 1)); [|lia]. by rewrite Z.sub_diag, zget_cons_0.
      * destruct (Z.ltb_spec i (o + 1)); [lia|]. rewrite (zget_cons_S b bs) by lia.
        replace (i - o - 1) with (i - (o + 1)) by lia. by destruct (zget bs (i - (o + 1))).
Qed.

Lemma splice_run F o bs : 0 <= o -> o + zlen bs <= zlen F ->
  exists F', splice F o bs = Ok F' /\ zlen F' = zlen F /\
    (forall i, zget F' i = match last_store (stores o bs) i with Some b => Some b | None => zget F i end)
    /\ (bytes F -> bytes bs -> bytes F').
Proof.
  intros Ho Hb. unfold splice. pose proof (zlen_nonneg bs).
  destruct (Z.leb_spec 0 o); [|lia]. destruct (Z.leb_spec (o + zlen bs) (zlen F)); [|lia].
  cbn [andb]. eexists. split; [done|].
  assert (Ht : zlen (take (Z.to_nat o) F) = o) by (unfold zlen in *; rewrite length_take; lia).
  assert (Hd : zlen (drop (Z.to_nat (o + zlen bs)) F) = zlen F - (o + zlen bs))
    by (unfold zlen in *; rewrite length_drop; lia).
  split_and!.
  - rewrite !zlen_app. lia.
  - intros i. rewrite last_store_stores. destruct (Z.ltb_spec i o).
    + destruct (Z.ltb_spec i 0); [by rewrite !zget_None by lia|].
      rewrite zget_app_l by lia. unfold zget. destruct (Z.ltb_spec i 0); [lia|].
      apply lookup_take_lt. lia.
    + rewrite zget_app_r, Ht by lia. destruct (Z.ltb_spec (i - o) (zlen bs)).
      * rewrite zget_app_l by lia. by destruct (zget_is_Some bs (i - o)) as [b ->]; [lia|].
      * rewrite zget_app_r by lia. rewrite (zget_None bs) by lia.
        unfold zget. destruct (Z.ltb_spec (i - o - zlen bs) 0); [lia|]. destruct (Z.ltb_spec i 0); [lia|].
        rewrite lookup_drop. f_equal. lia.
  - intros HF Hbs. unfold bytes. apply list.Forall_app. split; [by apply list.Forall_take|].
    apply list.Forall_app. split; [done|]. by apply list.Forall_drop.
Qed.

Definition fits F (l : list (Z * list Z)) : Prop :=
  Forall (fun p => 0 <= p.1 /\ p.1 + zlen p.2 <= zlen F) l.

Lemma splices_run l : forall F, fits F l ->
  exists F', splices F l = Ok F' /\ zlen F' = zlen F /\
    (forall i, zget F' i = match last_store (flat l) i with Some b => Some b | None => zget F i end)
    /\ (bytes F -> Forall (fun p => bytes p.2) l -> bytes F').
Proof.
  unfold fits. induction l as [|[o bs] l IH]; intros F Hl; [by exists F|].
  apply Forall_cons_iff in Hl as [[Ho Hb] Hl]. cbn in Ho, Hb.
  destruct (splice_run F o bs Ho Hb) as (F1 & E1 & L1 & G1 & B1).
  destruct (IH F1) as (F2 & E2 & L2 & G2 & B2).
  { eapply list.Forall_impl; [exact Hl|]. intros p. by rewrite L1. }
  exists F2. cbn [splices]. rewrite E1. split_and!; [done|lia| |].
  - intros i. rewrite G2, G1. change (flat ((o, bs) :: l)) with (stores o bs ++ flat l).
    rewrite last_store_app. by destruct (last_store (flat l) i).
  - intros HF Hbs. apply Forall_cons_iff in Hbs as [Hb1 Hbs]. by apply B2; [apply B1|].
Qed.

Lemma slice_Ok F o n l : 0 <= o -> zlen l = n -> o + n <= zlen F ->
  (forall i, 0 <= i < n -> zget F (o + i) = zget l i) -> slice F o n = Ok l.
Proof.
  intros Ho Hl Hn H. unfold slice. pose proof (zlen_nonneg l).
  destruct (Z.leb_spec 0 o); [|lia]. destruct (Z.leb_spec 0 n); [|lia].
  destruct (Z.leb_spec (o + n) (zlen F)); [|lia]. cbn [andb]. f_equal.
  assert (E : zlen (take (Z.to_nat n) (drop (Z.to_nat o) F)) = n)
    by (unfold zlen in *; rewrite length_take, length_drop; lia).
  apply list_eq_zget; [lia|]. intros i Hi. rewrite <- H by lia.
  unfold zget. destruct (Z.ltb_spec i 0); [lia|]. destruct (Z.ltb_spec (o + i) 0); [lia|].
  rewrite lookup_take_lt, lookup_drop by lia. f_equal. lia.
Qed.

Lemma slice_get F o n l i : slice F o n = Ok l -> 0 <= i < n -> zget F (o + i) = zget l i.
Proof.
  unfold slice. intros H Hi. destruct (Z.leb_spec 0 o); [|done].
  destruct (Z.leb_spec 0 n); [|done]. destruct (Z.leb_spec (o + n) (zlen F)); [|done].
  cbn [andb] in H. injection H as <-.
  unfold zget. destruct (Z.ltb_spec i 0); [lia|]. destruct (Z.ltb_spec (o + i) 0); [lia|].
  rewrite lookup_take_lt, lookup_drop by lia. f_equal. lia.
Qed.

Lemma slice_len F o n l : slice F o n = Ok l -> 0 <= o /\ zlen l = n /\ o + n <= zlen F.
Proof.
  unfold slice. intros H. destruct (Z.leb_spec 0 o); [|done].
  destruct (Z.leb_spec 0 n); [|done]. destruct (Z.leb_spec (o + n) (zlen F)); [|done].
  cbn [andb] in H. injection H as <-. split; [done|]. split; [|done].
  unfold zlen in *. rewrite length_take, length_drop. lia.
Qed.

Lemma hi_lo x : 0 <= x < 65536 -> 256 * hi8 x + lo8 x = x /\ 0 <= hi8 x < 256 /\ 0 <= lo8 x < 256.
Proof.
  intros Hx. unfold hi8, lo8. rewrite Z.shiftr_div_pow2 by lia. pow_norm.
  rewrite (land_ones_eq x 0xff 8) by (try lia; done). pow_norm. word_lia.
Qed.

Lemma join_bytes a b : 0 <= b < 256 -> Z.lor (Z.shiftl a 8) b = 256 * a + b.
Proof.
  intros Hb. rewrite Z.shiftl_mul_pow2 by lia. rewrite lor_carry; [pow_norm; lia|lia|]. by pow_norm.
Qed.

Lemma be16_run F o a b : zget F o = Some a -> zget F (o + 1) = Some b -> 0 <= b < 256 ->
  be16 F o = Ok (256 * a + b).
Proof.
  intros Ha Hb Hr. unfold be16, aget. rewrite Ha, Hb. cbv beta iota zeta delta [mbind outcome_bind mret outcome_ret].
  by rewrite join_bytes.
Qed.

Lemma bytes_get F i : bytes F -> 0 <= i < zlen F -> exists b, zget F i = Some b /\ 0 <= b < 256.
Proof.
  intros HF Hi. destruct (zget_is_Some F i Hi) as [b Hb]. exists b. split; [done|].
  unfold zget in Hb. destruct (i <? 0); [done|]. unfold bytes in HF.
  exact (list.Forall_lookup_1 _ _ _ _ HF Hb).
Qed.
End frames.

(** ** One's complement sums *)

Section sums.
Implicit Types (F : list Z) (i s x : Z).

(** What the folding loop computes: the sum modulo 65535, keeping a sum that
    is not zero away from zero. *)
Definition ones s : Z := if s =? 0 then 0 else (s - 1) mod 65535 + 1.

Lemma ones_range s : 0 <= s -> 0 <= ones s <= 65535 /\ (ones s = 0 <-> s = 0).
Proof. intros Hs. unfold ones. destruct (Z.eqb_spec s 0); [lia|]. Z.div_mod_to_equations; lia. Qed.

Lemma ones_small s : 0 <= s <= 65535 -> ones s = s.
Proof. intros Hs. unfold ones. destruct (Z.eqb_spec s 0); [lia|]. rewrite Z.mod_small; lia. Qed.

Lemma ones_eq s t k : 0 < s -> 0 < t -> s = t + k * 65535 -> ones s = ones t.
Proof.
  intros Hs Ht ->. unfold ones. destruct (Z.eqb_spec (t + k * 65535) 0); [lia|].
  destruct (Z.eqb_spec t 0); [lia|].
  replace (t + k * 65535 - 1) with (t - 1 + k * 65535) by lia. by rewrite Z_mod_plus_full.
Qed.

(** A sum whose complement is stored in it comes out as all ones. *)
Lemma ones_complement s : 0 < s -> ones (s + (65535 - ones s)) = 65535.
Proof.
  intros Hs. pose proof (ones_range s ltac:(lia)) as [Hr H0].
  unfold ones in *. destruct (Z.eqb_spec s 0); [lia|].
  set (r := (s - 1) mod 65535 + 1) in *.
  destruct (Z.eqb_spec (s + (65535 - r)) 0); [lia|].
  assert (E : s + (65535 - r) - 1 = 65534 + ((s - 1) / 65535) * 65535).
  { unfold r. pose proof (Z.div_mod (s - 1) 65535). lia. }
  rewrite E, Z_mod_plus_full. done.
Qed.

Lemma fold_sum_S n s : fold_sum (S n) s =
  if nz (Z.land s 0xffff0000) then fold_sum n (u32 (Z.land s 0xffff + Z.shiftr s 16)) else Ok s.
Proof. done. Qed.

Lemma fold_step s : 0 <= s < 4294967296 ->
  nz (Z.land s 0xffff0000) = (65536 <=? s) /\
  u32 (Z.land s 0xffff + Z.shiftr s 16) = s mod 65536 + s / 65536 /\
  ones (s mod 65536 + s / 65536) = ones s.
Proof.
  intros Hs. rewrite Z.shiftr_div_pow2 by lia. rewrite (land_ones_eq s 0xffff 16) by (try lia; done).
  change 0xffff0000 with (Z.shiftl (Z.ones 16) 16). rewrite land_field by lia. pow_norm.
  split_and!.
  - destruct (Z.leb_spec 65536 s); [apply nz_true|apply nz_false]; Z.div_mod_to_equations; lia.
  - apply u32_small. Z.div_mod_to_equations; lia.
  - destruct (Z.eq_dec s 0) as [->|Hne]; [done|].
    apply (ones_eq _ _ (- (s / 65536))); Z.div_mod_to_equations; lia.
Qed.

Lemma fold_sum_run s : 0 <= s < 4294967296 -> fold_sum 4 s = Ok (ones s).
Proof.
  intros Hs. change 4%nat with (S (S (S 1))).
  rewrite fold_sum_S. destruct (fold_step s Hs) as (T & E & O). rewrite T.
  destruct (Z.leb_spec 65536 s); [|by rewrite ones_small by lia].
  rewrite E, <- O. set (s1 := s mod 65536 + s / 65536).
  assert (H1 : 0 <= s1 <= 131070) by (unfold s1; Z.div_mod_to_equations; lia).
  rewrite fold_sum_S. destruct (fold_step s1 ltac:(lia)) as (T1 & E1 & O1). rewrite T1.
  destruct (Z.leb_spec 65536 s1); [|by rewrite ones_small by lia].
  rewrite E1, <- O1. set (s2 := s1 mod 65536 + s1 / 65536).
  assert (H2 : 0 <= s2 <= 65535) by (unfold s2; Z.div_mod_to_equations; lia).
  rewrite fold_sum_S. destruct (fold_step s2 ltac:(lia)) as (T2 & _ & _). rewrite T2.
  destruct (Z.leb_spec 65536 s2); [lia|]. by rewrite ones_small by lia.
Qed.

Lemma complement16 x : 0 <= x <= 65535 -> Z.land (Z.lnot x) 0xffff = 65535 - x.
Proof.
  intros Hx. rewrite (land_ones_eq _ 0xffff 16) by (try lia; done). pow_norm.
  unfold Z.lnot. symmetry. apply (Z.mod_unique _ _ (-1)); lia.
Qed.

(** The sums of two frames that agree where they are taken. *)
Lemma sum_words_ext n F F' i limit s :
  (forall j, i <= j <= limit -> zget F (14 + j) = zget F' (14 + j)) ->
  0 <= i -> limit < 65534 ->
  sum_words n F i limit s = sum_words n F' i limit s.
Proof.
  revert i s. induction n as [|n IH]; intros i s H Hi Hl; [done|]. cbn [sum_words].
  destruct (Z.ltb_spec i limit) as [Hlt|]; [|done].
  assert (E : be16 F (ETH_HEADER_SIZE + i) = be16 F' (ETH_HEADER_SIZE + i)).
  { unfold be16, aget. change ETH_HEADER_SIZE with 14. rewrite (H i) by lia.
    replace (14 + i + 1) with (14 + (i + 1)) by lia. by rewrite (H (i + 1)) by lia. }
  rewrite E. destruct (be16 F' _) as [w| | |]; cbv beta iota zeta delta [mbind outcome_bind]; try done.
  rewrite (u16_small (i + 2)) by lia. apply IH; [intros j Hj; apply H; lia|lia|done].
Qed.

Definition bt F i : Z := default 0 (zget F i).

(** The sum of [n] words from index [i] of the packet. *)
Fixpoint wsum F (n : nat) i : Z :=
  match n with
  | O => 0
  | S n => 256 * bt F (14 + i) + bt F (14 + (i + 1)) + wsum F n (i + 2)
  end.

Lemma bt_range F j : bytes F -> 0 <= bt F j < 256.
Proof.
  intros HF. unfold bt. destruct (zget F j) as [b|] eqn:E; cbn; [|lia].
  pose proof (zget_Some_range _ _ _ E).
  destruct (bytes_get F j HF ltac:(done)) as (b' & E' & Hb). rewrite E in E'. injection E' as ->. lia.
Qed.

Lemma bt_at F j b : zget F j = Some b -> bt F j = b.
Proof. unfold bt. by intros ->. Qed.

Lemma wsum_range F n i : bytes F -> 0 <= wsum F n i <= 65535 * Z.of_nat n.
Proof.
  intros HF. revert i. induction n as [|n IH]; intros i; [cbn; lia|].
  specialize (IH (i + 2)). cbn [wsum].
  pose proof (bt_range F (14 + i) HF). pose proof (bt_range F (14 + (i + 1)) HF). lia.
Qed.

Lemma sum_words_run (n k : nat) F i limit s :
  bytes F -> 0 <= i -> limit <= i + 2 * Z.of_nat n -> i + 2 * Z.of_nat n < 65536 ->
  i + 2 * Z.of_nat n <= limit + 1 ->
  14 + i + 2 * Z.of_nat n <= zlen F -> 0 <= s -> s + 65535 * Z.of_nat n < 4294967296 ->
  sum_words (S n + k) F i limit s = Ok (s + wsum F n i).
Proof.
  intros HF. revert i s. induction n as [|n IH]; intros i s Hi Hl Hw Hl2 HL Hs Hs2.
  - cbn [sum_words wsum plus]. destruct (Z.ltb_spec i limit); [lia|]. by rewrite Z.add_0_r.
  - change (S (S n) + k)%nat with (S (S n + k)). remember (S n + k)%nat as m eqn:Em. cbn [sum_words]. destruct (Z.ltb_spec i limit); [|lia].
    destruct (bytes_get F (14 + i) HF) as (a & Ea & Ha); [lia|].
    destruct (bytes_get F (14 + (i + 1)) HF) as (b & Eb & Hb); [lia|].
    assert (Eb' : zget F (ETH_HEADER_SIZE + i + 1) = Some b)
      by (change ETH_HEADER_SIZE with 14; by replace (14 + i + 1) with (14 + (i + 1)) by lia).
    rewrite (be16_run F (ETH_HEADER_SIZE + i) a b Ea Eb' Hb). cbv beta iota zeta delta [mbind outcome_bind].
    rewrite u32_small, u16_small by lia. subst m. rewrite IH by lia.
    f_equal. cbn [wsum]. rewrite (bt_at F _ a Ea), (bt_at F _ b Eb). ring.
Qed.

Lemma ipchksum_run F : bytes F -> 34 <= zlen F -> ipchksum F = Ok (ones (wsum F 10 0)).
Proof.
  intros HF HL. unfold ipchksum. change 11%nat with (S 10 + 0)%nat.
  rewrite (sum_words_run 10 0 F 0 20 0) by (try done; lia).
  cbv beta iota zeta delta [mbind outcome_bind]. rewrite Z.add_0_l.
  apply fold_sum_run. pose proof (wsum_range F 10 0 HF). lia.
Qed.
End sums.

(** Literal offsets and codes. *)
Ltac ofs :=
  cbv [PACKET_SIZE IP_CFG_PING ETH_DA_OFS ETH_SA_OFS ETH_TYPE_OFS ETH_DATA_OFS
    ETH_HEADER_SIZE FRAME_ARP FRAME_IP ARP_HARDW_OFS ARP_PROT_OFS ARP_HLEN_PLEN_OFS
    ARP_OPCODE_OFS ARP_SENDER_HA_OFS ARP_SENDER_IP_OFS ARP_TARGET_HA_OFS
    ARP_TARGET_IP_OFS ARP_FRAME_SIZE HARDW_ETH10 IP_HLEN_PLEN OP_ARP_REQUEST
    OP_ARP_ANSWER IP_HDR_VHL IP_HDR_TOS IP_HDR_LEN1 IP_HDR_LEN2 IP_HDR_IPID1
    IP_HDR_IPID2 IP_HDR_FLAGS1 IP_HDR_FLAGS2 IP_HDR_TTL IP_HDR_PROTO IP_HDR_CHKSUM1
    IP_HDR_CHKSUM2 IP_HDR_SRCADDR1 IP_HDR_DESTADDR1 IP_HEADER_SIZE IP_VER_IHL
    IP_FLAG_MOREFRAG IP_FRAGOFS_MASK IP_DEFAULT_TTL IP_PROTO_ICMP IP_PROTO_UDP
    ICMP_HDR_TYPE ICMP_HDR_CHKSUM1 ICMP_HDR_CHKSUM2 ICMP_ECHO_REPLY ICMP_ECHO
    ICMP_HDR_SIZE UDP_HDR_SRCPORT1 UDP_HDR_SRCPORT2 UDP_HDR_DESTPORT1
    UDP_HDR_DESTPORT2 UDP_HDR_LEN1 UDP_HDR_LEN2 UDP_HDR_CHKSUM1 UDP_HDR_CHKSUM2
    UDP_DATA_OFS UDP_HEADER_SIZE PORT_ECHO PORT_DISCARD] in *.

(** The stores with literal offsets, their ranges and their bytes. *)
Ltac stores_simpl :=
  lazy beta iota zeta delta [flat fmap list_fmap concat app stores last_store
    Z.add Z.eqb Pos.eqb Pos.add Pos.add_carry Pos.succ from_option id].
Ltac stores_at G := rewrite G; stores_simpl.
Ltac fits_tac :=
  unfold fits; cbn [fmap list_fmap];
  repeat (apply Forall_cons; [cbn [fst snd]; rewrite ?zlen_cons; change (zlen (@nil Z)) with 0; lia|]);
  apply Forall_nil.
Ltac bytes_tac :=
  repeat (apply Forall_cons;
    [cbn [snd]; first [assumption
      |repeat (apply Forall_cons; [first [lia|by vm_compute]|]); apply Forall_nil]|]);
  apply Forall_nil.

(** No store to an index. *)
Ltac stores_far :=
  cbn [flat fmap list_fmap concat app stores];
  repeat (apply Forall_cons; [cbn [fst]; lia|]); apply Forall_nil.

(** The four indices of an address. *)
Ltac four_bytes :=
  let i := fresh "i" in
  intros i ?; assert (i = 0 \/ i = 1 \/ i = 2 \/ i = 3) as [->|[->|[->| ->]]] by lia.

Ltac bts_nonneg F HF :=
  repeat match goal with
  | |- context [bt F ?j] =>
      lazymatch goal with
      | _ : 0 <= bt F j < 256 |- _ => fail
      | _ => pose proof (bt_range F j HF)
      end
  end.

(** ** The IPv4 header *)

Section ip.
Context {L U : Type} {LL : LinkLayer L}.
Implicit Types (s : net L U) (F : list Z) (len : Z).

Lemma reading_run {A : Type} (f : list Z -> outcome A) s a :
  f (frame s) = Ok a -> reading f s = Ok (a, s).
Proof. intros H. unfold reading, gets, lift, mbind, ST_bind. by rewrite H. Qed.

Lemma write_run s l : fits (frame s) l ->
  exists F', write l s = Ok (tt, with_frame F' s) /\ zlen F' = zlen (frame s) /\
    (forall i, zget F' i = match last_store (flat l) i with Some b => Some b | None => zget (frame s) i end)
    /\ (bytes (frame s) -> Forall (fun p => bytes p.2) l -> bytes F').
Proof.
  intros Hl. destruct (splices_run l (frame s) Hl) as (F' & E & H).
  exists F'. split; [|exact H]. unfold write, gets, lift, modify, mbind, ST_bind. by rewrite E.
Qed.

Lemma packet_write_run s l :
  fits (frame s) ((fun '(o, bs) => (14 + o, bs)) <$> l) ->
  exists F', packet_write l s = Ok (tt, with_frame F' s) /\ zlen F' = zlen (frame s) /\
    (forall i, zget F' i = match last_store (flat ((fun '(o, bs) => (14 + o, bs)) <$> l)) i with
       Some b => Some b | None => zget (frame s) i end)
    /\ (bytes (frame s) -> Forall (fun p => bytes p.2) l -> bytes F').
Proof.
  intros Hl. destruct (write_run s _ Hl) as (F' & E & Hz & G & B).
  exists F'. split_and!; try done. intros HF Hb. apply B; [done|].
  apply list.Forall_fmap. eapply list.Forall_impl; [exact Hb|]. by intros [o bs].
Qed.

Lemma len4 (l : list Z) : zlen l = 4 -> exists a b c d, l = [a; b; c; d].
Proof.
  intros H. destruct l as [|a [|b [|c [|d [|e l]]]]]; try discriminate H; [eauto|].
  rewrite !zlen_cons in H. pose proof (zlen_nonneg l). lia.
Qed.

Lemma wsum10 F : wsum F 10 0 =
  let d i := bt F i in
  256 * (d 14 + d 16 + d 18 + d 20 + d 22 + d 24 + d 26 + d 28 + d 30 + d 32)
  + (d 15 + d 17 + d 19 + d 21 + d 23 + d 25 + d 27 + d 29 + d 31 + d 33).
Proof.
  cbn [wsum]. repeat match goal with
  | |- context [bt F (14 + ?j)] => let k := eval vm_compute in (14 + j) in change (14 + j) with k
  end. ring.
Qed.

(** The frame that [ip_out] hands to the interface. *)
Record ip_header (F : list Z) (src dst : list Z) (len : Z) : Prop := {
  ih_vhl : zget F 14 = Some 0x45;
  ih_size : be16 F 16 = Ok len;
  ih_flags : be16 F 20 = Ok 0;
  ih_ttl : zget F 22 = Some 64;
  ih_src : slice F 26 4 = Ok src;
  ih_dst : slice F 30 4 = Ok dst;
  ih_sum : ipchksum F = Ok 65535;
}.

Lemma ip_out_run dst len s :
  zlen (myip s) = 4 -> zlen dst = 4 -> bytes (myip s) -> bytes dst -> bytes (frame s) ->
  34 <= zlen (frame s) -> 0 <= len < 65536 ->
  exists F, ip_out dst len s = netif_send len (with_frame F s)
    /\ ip_header F (myip s) dst len /\ zlen F = zlen (frame s) /\ bytes F
    /\ forall i, i < 14 \/ i = 23 \/ 34 <= i -> zget F i = zget (frame s) i.
Proof.
  intros Hm4 Hd4 Hmb Hdb HF HL Hlen.
  destruct (len4 _ Hm4) as (m0 & m1 & m2 & m3 & Em). destruct (len4 _ Hd4) as (d0 & d1 & d2 & d3 & Ed).
  subst dst. unfold ip_out. ofs.
  assert (Eg : gets myip s = Ok ([m0; m1; m2; m3], s)) by (unfold gets; by rewrite Em).
  rewrite Em in *. st_step Eg. destruct (hi_lo len Hlen) as (Hhl & Hh & Hl).
  edestruct (packet_write_run s) as (F1 & E1 & L1 & G1 & B1); [|st_step E1; clear E1].
  { fits_tac. }
  assert (HB1 : bytes F1).
  { apply B1; [done|]. bytes_tac. }
  st_step (reading_run ipchksum (with_frame F1 s) _ (ipchksum_run F1 HB1 ltac:(lia))).
  assert (Hpos : 0 < wsum F1 10 0).
  { assert (E14 : bt F1 14 = 69) by (apply bt_at; stores_at (G1 14); done).
    rewrite wsum10. cbv beta zeta. rewrite E14. bts_nonneg F1 HB1. lia. }
  destruct (ones_range (wsum F1 10 0) ltac:(lia)) as [Hr _]. rewrite complement16 by lia.
  set (c := 65535 - ones (wsum F1 10 0)). assert (Hc : 0 <= c < 65536) by (unfold c; lia).
  destruct (hi_lo c Hc) as (Hcc & Hch & Hcl).
  edestruct (packet_write_run (with_frame F1 s)) as (F2 & E2 & L2 & G2 & B2); [|st_step E2; clear E2].
  { cbn [frame with_frame]. fits_tac. }
  cbn [frame with_frame] in L2, G2, B2. assert (HB2 : bytes F2) by (apply B2; [done|]; bytes_tac).
  exists F2. split; [done|].
  assert (Hs : wsum F2 10 0 = wsum F1 10 0 + c).
  { assert (E : forall i, i <> 24 -> i <> 25 -> bt F2 i = bt F1 i).
    { intros i H1 H2. unfold bt. rewrite G2, last_store_None; [done|]. stores_far. }
    rewrite !wsum10. cbv beta zeta.
    rewrite (bt_at F2 24 (hi8 c)), (bt_at F2 25 (lo8 c)), (bt_at F1 24 0), (bt_at F1 25 0);
      [|by stores_at (G1 25)|by stores_at (G1 24)|by stores_at (G2 25)|by stores_at (G2 24)].
    rewrite !E by done. lia. }
  assert (G : forall i, i <> 24 -> i <> 25 -> zget F2 i = zget F1 i).
  { intros i H1 H2. rewrite G2, last_store_None; [done|]. stores_far. }
  split_and!; [constructor|cbn [frame with_frame] in *; lia|done|].
  - rewrite G by done. by stores_at (G1 14).
  - rewrite (be16_run F2 16 (hi8 len) (lo8 len)); [by rewrite Hhl| | |done];
      rewrite G by done; [by stores_at (G1 16)|by stores_at (G1 (16 + 1))].
  - rewrite (be16_run F2 20 0 0); [done| | |done];
      rewrite G by done; [by stores_at (G1 20)|by stores_at (G1 (20 + 1))].
  - rewrite G by done. by stores_at (G1 22).
  - apply slice_Ok; [lia|done|lia|]. four_bytes;
      (rewrite G by done); [by stores_at (G1 (26 + 0))|by stores_at (G1 (26 + 1))
      |by stores_at (G1 (26 + 2))|by stores_at (G1 (26 + 3))].
  - apply slice_Ok; [lia|done|lia|]. four_bytes;
      (rewrite G by done); [by stores_at (G1 (30 + 0))|by stores_at (G1 (30 + 1))
      |by stores_at (G1 (30 + 2))|by stores_at (G1 (30 + 3))].
  - rewrite ipchksum_run by (try done; lia). unfold c in Hs. by rewrite Hs, (ones_complement _ Hpos).
  - intros i Hi. rewrite G by lia. rewrite G1, last_store_None; [done|]. stores_far.
Qed.

Lemma be16_ext F R o : zget R o = zget F o -> zget R (o + 1) = zget F (o + 1) -> be16 R o = be16 F o.
Proof. intros H1 H2. unfold be16, aget. by rewrite H1, H2. Qed.

Lemma slice_ext F R o n l : slice F o n = Ok l -> o + n <= zlen R ->
  (forall i, o <= i < o + n -> zget R i = zget F i) -> slice R o n = Ok l.
Proof.
  intros H Hn Hi. destruct (slice_len _ _ _ _ H) as (Ho & Hl & _).
  apply slice_Ok; [done|done|done|]. intros i Hr. rewrite Hi by lia. by apply (slice_get _ _ n).
Qed.

(** The header of a frame is the header of any frame that begins with it. *)
Lemma ip_header_ext F R src dst len : ip_header F src dst len -> 34 <= zlen R ->
  (forall i, 14 <= i <= 34 -> zget R i = zget F i) -> ip_header R src dst len.
Proof.
  intros [] HL H. constructor.
  - by rewrite H by lia.
  - rewrite (be16_ext F) by (apply H; lia). done.
  - rewrite (be16_ext F) by (apply H; lia). done.
  - by rewrite H by lia.
  - eapply slice_ext; [done|lia|]. intros i Hi. apply H. lia.
  - eapply slice_ext; [done|lia|]. intros i Hi. apply H. lia.
  - rewrite <- ih_sum0. unfold ipchksum. rewrite (sum_words_ext 11 R F); [done| |lia|lia].
    intros j Hj. apply H. lia.
Qed.

Definition configured (ip : list Z) : bool := nz (foldr Z.lor 0 ip).

(** A packet with such a header, at the host it is addressed to. *)
Lemma ip_in_accepts src dst len n s p :
  ip_header (frame s) src dst len -> myip s = dst -> configured dst = true ->
  zget (frame s) 23 = Some p ->
  ip_in dst n s =
    if p =? IP_PROTO_ICMP then icmp_echo_reply n s
    else if p =? IP_PROTO_UDP then udp_in s else Ok (-1, s).
Proof.
  intros [] Hmy Hc Hp. unfold ip_in, configured in *.
  assert (Eg : gets myip s = Ok (dst, s)) by (unfold gets; by rewrite Hmy). st_step Eg. clear Eg.
  assert (E : forall i b, zget (frame s) (14 + i) = Some b -> packet_at i s = Ok (b, s)).
  { intros i b Hb. apply reading_run. by apply aget_Ok. }
  st_step (E 0 0x45 ih_vhl0). change (hi8 IP_VER_IHL) with 0x45. cbn [Z.eqb negb Pos.eqb].
  st_step (reading_run (fun F => be16 F 20) s 0 ih_flags0).
  change (nz (Z.land 0 (Z.lor IP_FLAG_MOREFRAG IP_FRAGOFS_MASK))) with false. cbv iota.
  st_step (E 8 64 ih_ttl0). change (64 =? 0) with false. cbv iota.
  rewrite Hc. st_step (reading_run (fun F => slice F 30 4) s dst ih_dst0).
  unfold ip_addr_cmp, memeq. rewrite bool_decide_true by done. cbn [negb].
  st_step (reading_run ipchksum s 65535 ih_sum0). change (negb (65535 =? 0xffff)) with false. cbv iota.
  st_step (E 9 p Hp).
  destruct (p =? IP_PROTO_ICMP); [done|]. by destruct (p =? IP_PROTO_UDP).
Qed.

(** *** Datagrams *)

Lemma gets_run {A : Type} (f : net L U -> A) s a : f s = a -> gets f s = Ok (a, s).
Proof. by intros <-. Qed.

Lemma be16_returns F o : bytes F -> 0 <= o -> o + 2 <= zlen F ->
  exists w, be16 F o = Ok w /\ 0 <= w < 65536.
Proof.
  intros HF Ho Hl. destruct (bytes_get F o HF) as (a & Ea & Ha); [lia|].
  destruct (bytes_get F (o + 1) HF) as (b & Eb & Hb); [lia|].
  exists (256 * a + b). split; [by apply be16_run|lia].
Qed.

Lemma udpchksum_returns F len : bytes F -> 0 <= len <= 60000 -> 34 + len <= zlen F ->
  exists c, udpchksum F len = Ok c /\ 0 <= c < 65536.
Proof.
  intros HF Hl HL. unfold udpchksum. ofs.
  destruct (be16_returns F (14 + 12) HF) as (w1 & -> & H1); [lia|lia|].
  destruct (be16_returns F (14 + 12 + 2) HF) as (w2 & -> & H2); [lia|lia|].
  destruct (be16_returns F (14 + 16) HF) as (w3 & -> & H3); [lia|lia|].
  destruct (be16_returns F (14 + 16 + 2) HF) as (w4 & -> & H4); [lia|lia|].
  cbv beta iota zeta delta [mbind outcome_bind]. rewrite u32_small by lia.
  set (n := Z.to_nat (len / 2)). assert (Hn : Z.of_nat n = len / 2)
    by (unfold n; rewrite Z2Nat.id; [done|apply Z.div_pos; lia]).
  assert (Hf : S (Z.to_nat len) = (S n + (Z.to_nat len - n))%nat).
  { unfold n. assert (len / 2 <= len) by (apply Z.div_le_upper_bound; lia). lia. }
  clearbody n. rewrite Hf, sum_words_run by first [done|lia|rewrite ?Hn; Z.div_mod_to_equations; lia].
  pose proof (wsum_range F n 20 HF) as Hw.
  assert (Hw' : 65535 * Z.of_nat n <= 65535 * 30000) by (rewrite Hn; Z.div_mod_to_equations; lia).
  set (t := w1 + w2 + w3 + w4 + 17 + len + wsum F n 20) in *.
  assert (Ht : 0 <= t < 3000000000) by lia.
  assert (Hend : forall x, 0 <= x < 4294967296 ->
    exists c, match fold_sum 4 x with Ok a => Ok (Z.land (Z.lnot a) 65535) | Panic c => Panic c
      | Fault => Fault | Timeout => Timeout end = Ok c /\ 0 <= c < 65536).
  { intros x Hx. rewrite fold_sum_run by done. pose proof (ones_range x ltac:(lia)) as [Ho _].
    rewrite complement16 by done. eexists. split; [done|]. lia. }
  destruct (nz (Z.land len 1)) eqn:Hodd; [|by apply Hend; lia].
  destruct (bytes_get F (14 + (len + 20 - 1)) HF) as (b & Eb & Hb); [lia|].
  rewrite (aget_Ok _ _ _ Eb). rewrite Z.shiftl_mul_pow2 by lia. pow_norm.
  apply Hend. apply u32_range.
Qed.

Lemma udpchksum_ext F R len :
  (forall i, 26 <= i < 34 + len -> zget R i = zget F i) -> 0 <= len <= 60000 ->
  udpchksum R len = udpchksum F len.
Proof.
  intros H Hl. unfold udpchksum. ofs.
  rewrite !(be16_ext F R) by (apply H; lia).
  repeat (match goal with |- context [be16 F ?o] =>
    destruct (be16 F o) as [?w| | |]; cbv beta iota zeta delta [mbind outcome_bind]; [|done..] end).
  destruct (Z.eq_dec len 0) as [->|Hne]; [done|].
  rewrite (sum_words_ext _ R F) by (try lia; intros j Hj; apply H; lia).
  unfold aget. by rewrite (H (14 + (len + 20 - 1))) by lia.
Qed.

(** The header and checksum of a datagram: [len] bytes from the UDP header on.
    The checksum field holds zero or the checksum of the rest. *)
Record udp_header F (src dst : list Z) (sp dp len : Z) : Prop := {
  uh_ip : ip_header F src dst (len + 20);
  uh_proto : zget F 23 = Some 17;
  uh_sport : be16 F 34 = Ok sp;
  uh_dport : be16 F 36 = Ok dp;
  uh_size : be16 F 38 = Ok len;
  uh_sum : exists c, be16 F 40 = Ok c /\
    forall R, zget R 40 = Some 0 -> zget R 41 = Some 0 ->
      (forall i, 26 <= i < 34 + len -> i <> 40 -> i <> 41 -> zget R i = zget F i) ->
      udpchksum R len = Ok c;
}.

Lemma udp_out_run dst sp dp len s :
  zlen (myip s) = 4 -> zlen dst = 4 -> bytes (myip s) -> bytes dst -> bytes (frame s) ->
  8 <= len <= 60000 -> 34 + len <= zlen (frame s) -> 0 <= sp < 65536 -> 0 <= dp < 65536 ->
  exists F, udp_out dst sp dp len s = netif_send (len + 20) (with_frame F s)
    /\ udp_header F (myip s) dst sp dp len /\ zlen F = zlen (frame s) /\ bytes F
    /\ forall i, i < 14 \/ 42 <= i -> zget F i = zget (frame s) i.
Proof.
  intros Hm4 Hd4 Hmb Hdb HF Hlen HL Hsp Hdp.
  destruct (len4 _ Hm4) as (m0 & m1 & m2 & m3 & Em). destruct (len4 _ Hd4) as (d0 & d1 & d2 & d3 & Ed).
  subst dst. unfold udp_out. ofs. rewrite Em in *. st_step (gets_run myip s _ Em).
  destruct (hi_lo sp Hsp) as (Hs & Hsh & Hsl). destruct (hi_lo dp Hdp) as (Hd & Hdh & Hdl).
  destruct (hi_lo len ltac:(lia)) as (Hl & Hlh & Hll).
  edestruct (packet_write_run s) as (F1 & E1 & L1 & G1 & B1); [|st_step E1; clear E1].
  { fits_tac. }
  assert (HB1 : bytes F1) by (apply B1; [done|]; bytes_tac).
  destruct (udpchksum_returns F1 len HB1) as (c & Ec & Hc); [lia|lia|].
  st_step (reading_run (fun F => udpchksum F len) (with_frame F1 s) c Ec).
  destruct (hi_lo c Hc) as (Hcc & Hch & Hcl).
  edestruct (packet_write_run (with_frame F1 s)) as (F2 & E2 & L2 & G2 & B2); [|st_step E2; clear E2].
  { cbn [frame with_frame]. fits_tac. }
  cbn [frame with_frame] in L2, G2, B2. assert (HB2 : bytes F2) by (apply B2; [done|]; bytes_tac).
  destruct (ip_out_run [d0; d1; d2; d3] (u16 (len + 20)) (with_frame F2 (with_frame F1 s)))
    as (F3 & E3 & I3 & L3 & B3 & G3); cbn [myip frame with_frame] in *; rewrite ?Em; try done;
    [lia|rewrite u16_small; lia|].
  rewrite u16_small in E3, I3 by lia. rewrite Em in I3. exists F3. rewrite u16_small by lia.
  assert (G12 : forall i, i <> 40 -> i <> 41 -> zget F2 i = zget F1 i).
  { intros i H1 H2. rewrite G2, last_store_None; [done|]. stores_far. }
  split_and!; [exact E3|constructor|lia|done|].
  - done.
  - rewrite G3, G12 by lia. by stores_at (G1 23).
  - rewrite (be16_run F3 34 (hi8 sp) (lo8 sp)); [by rewrite Hs| | |done];
      rewrite G3, G12 by lia; [by stores_at (G1 34)|by stores_at (G1 (34 + 1))].
  - rewrite (be16_run F3 36 (hi8 dp) (lo8 dp)); [by rewrite Hd| | |done];
      rewrite G3, G12 by lia; [by stores_at (G1 36)|by stores_at (G1 (36 + 1))].
  - rewrite (be16_run F3 38 (hi8 len) (lo8 len)); [by rewrite Hl| | |done];
      rewrite G3, G12 by lia; [by stores_at (G1 38)|by stores_at (G1 (38 + 1))].
  - exists c. split.
    + rewrite (be16_run F3 40 (hi8 c) (lo8 c)); [by rewrite Hcc| | |done];
        rewrite G3 by lia; [by stores_at (G2 40)|by stores_at (G2 (40 + 1))].
    + intros R H40 H41 HR. rewrite (udpchksum_ext F1 R len); [done| |lia].
      intros i Hi. destruct (decide (i = 40)) as [->|N40]; [rewrite H40; by stores_at (G1 40)|].
      destruct (decide (i = 41)) as [->|N41]; [rewrite H41; by stores_at (G1 41)|].
      rewrite HR by lia. destruct (Z.lt_ge_cases i 34); [|by rewrite G3, G12 by lia].
      pose proof (slice_get _ _ _ _ (i - 26) (ih_src _ _ _ _ I3)) as Hsrc.
      pose proof (slice_get _ _ _ _ (i - 30) (ih_dst _ _ _ _ I3)) as Hdst.
      destruct (Z.lt_ge_cases i 30).
      * specialize (Hsrc ltac:(lia)). replace (26 + (i - 26)) with i in Hsrc by lia. rewrite Hsrc.
        assert (i = 26 \/ i = 27 \/ i = 28 \/ i = 29) as [->|[->|[->| ->]]] by lia;
          [by stores_at (G1 26)|by stores_at (G1 27)|by stores_at (G1 28)|by stores_at (G1 29)].
      * specialize (Hdst ltac:(lia)). replace (30 + (i - 30)) with i in Hdst by lia. rewrite Hdst.
        assert (i = 30 \/ i = 31 \/ i = 32 \/ i = 33) as [->|[->|[->| ->]]] by lia;
          [by stores_at (G1 30)|by stores_at (G1 31)|by stores_at (G1 32)|by stores_at (G1 33)].
  - intros i Hi. rewrite G3, G12 by lia. rewrite G1, last_store_None; [done|]. stores_far.
Qed.

Lemma packet16_run s i w : be16 (frame s) (14 + i) = Ok w -> packet16 i s = Ok (w, s).
Proof. intros H. by apply reading_run. Qed.

(** A datagram with such a header reaches the callback; only the checksum
    field may have been cleared meanwhile. *)
Lemma udp_in_run src dst sp dp len s :
  udp_header (frame s) src dst sp dp len -> bytes (frame s) -> 8 <= len <= 60000 ->
  34 + len <= zlen (frame s) -> dp <> PORT_ECHO -> dp <> PORT_DISCARD ->
  exists R, udp_in s = (_ ← call_back; mret len) (with_frame R s) /\ zlen R = zlen (frame s)
    /\ bytes R /\ forall i, i <> 40 -> i <> 41 -> zget R i = zget (frame s) i.
Proof.
  intros [] HF Hlen HL H7 H9. destruct uh_sum0 as (c & Ec & Hsum). unfold udp_in.
  st_step (packet16_run s 26 c Ec). st_step (packet16_run s 24 len uh_size0).
  assert (Hend : forall R, zlen R = zlen (frame s) ->
    (forall i, i <> 40 -> i <> 41 -> zget R i = zget (frame s) i) ->
    (src_port ← packet16 UDP_HDR_SRCPORT1;
     dst_port ← packet16 UDP_HDR_DESTPORT1;
     if dst_port =? PORT_ECHO then
       dst_addr ← packet_slice IP_HDR_SRCADDR1 4;
       _ ← udp_out dst_addr dst_port src_port len;
       mret 0
     else if dst_port =? PORT_DISCARD then mret 0
     else _ ← call_back; mret len) (with_frame R s) = (_ ← call_back; mret len) (with_frame R s)).
  { intros R HR G.
    st_step (packet16_run (with_frame R s) 20 sp ltac:(rewrite <- uh_sport0; apply be16_ext; apply G; lia)).
    st_step (packet16_run (with_frame R s) 22 dp ltac:(rewrite <- uh_dport0; apply be16_ext; apply G; lia)).
    destruct (Z.eqb_spec dp PORT_ECHO); [done|]. by destruct (Z.eqb_spec dp PORT_DISCARD). }
  destruct (nz c) eqn:Hnz.
  - edestruct (packet_write_run s [(UDP_HDR_CHKSUM1, [0]); (UDP_HDR_CHKSUM2, [0])])
      as (R & E & LR & G & B); [ofs; fits_tac|].
    assert (GR : forall i, i <> 40 -> i <> 41 -> zget R i = zget (frame s) i).
    { intros i H1 H2. rewrite G, last_store_None; [done|]. ofs. stores_far. }
    exists R. split_and!; [|done|apply B; [done|]; bytes_tac|done].
    rewrite ST_bind_assoc. st_step E. rewrite ST_bind_assoc.
    st_step (reading_run (fun F => udpchksum F len) (with_frame R s) c
      ltac:(apply Hsum; [by rewrite G|by rewrite G|intros i _ ? ?; by apply GR])).
    assert (Ez : (mret (c =? c) : ST (net L U) bool) (with_frame R s) = Ok (true, with_frame R s)) by by rewrite Z.eqb_refl.
    st_step Ez. cbn [negb]. by apply Hend.
  - exists (frame s). assert (Es : with_frame (frame s) s = s) by (by destruct s).
    rewrite Es. split_and!; [|done|done|done].
    assert (Ez : (mret true : ST (net L U) bool) s = Ok (true, s)) by done. st_step Ez. cbn [negb].
    pose proof (Hend (frame s) ltac:(done) ltac:(done)) as Hf. by rewrite Es in Hf.
Qed.

(** *** The interface *)

(** The hardware address a packet is sent to. *)
Definition resolves s (dst mac : list Z) : Prop :=
  ip_addr_isany dst = false /\ ip_addr_isbroadcast dst (mynm s) = false
  /\ ip_addr_ismulticast dst = false
  /\ arp_check (if ip_addr_maskcmp dst (myip s) (mynm s) then dst else mygw s) s = Ok (Some mac, s).

Lemma len6 (l : list Z) : zlen l = 6 -> exists a b c d e f, l = [a; b; c; d; e; f].
Proof.
  intros H. destruct l as [|a [|b [|c [|d [|e [|f [|g l]]]]]]]; try discriminate H; [by repeat eexists|].
  rewrite !zlen_cons in H. pose proof (zlen_nonneg l). lia.
Qed.

Lemma arp_check_frame ip F s m : arp_check ip s = Ok (m, s) ->
  arp_check ip (with_frame F s) = Ok (m, with_frame F s).
Proof.
  unfold arp_check. rewrite !(ST_bind_Ok _ _ _ _ _ (gets_run arp_cache _ _ eq_refl)).
  cbn [arp_cache with_frame]. destruct (_ <? _); [|intros H; unfold mret, ST_ret in *; by simplify_eq].
  unfold lift, mbind, ST_bind, mret, ST_ret. destruct (aget _ _); [|done..]. intros H. by simplify_eq.
Qed.

Lemma netif_send_run s dst mac len :
  slice (frame s) 30 4 = Ok dst -> resolves s dst mac ->
  zlen mac = 6 -> zlen (mymac s) = 6 -> bytes mac -> bytes (mymac s) -> bytes (frame s) ->
  exists F, netif_send len s =
      Ok (u16 (len + 14), with_link (en_ll_output F (u16 (len + 14)) (link s)) (with_frame F s))
    /\ zlen F = zlen (frame s) /\ bytes F /\ slice F 0 6 = Ok mac /\ slice F 6 6 = Ok (mymac s)
    /\ be16 F 12 = Ok FRAME_IP /\ forall i, 14 <= i -> zget F i = zget (frame s) i.
Proof.
  intros Hdst (R1 & R2 & R3 & R4) Hm6 Hy6 Hmb Hyb HF.
  destruct (slice_len _ _ _ _ Hdst) as (_ & _ & HL).
  destruct (len6 _ Hm6) as (a0 & a1 & a2 & a3 & a4 & a5 & ->).
  destruct (len6 _ Hy6) as (b0 & b1 & b2 & b3 & b4 & b5 & Ey). rewrite Ey in *.
  edestruct (write_run s [(0, [b0; b1; b2; b3; b4; b5]); (0, [a0; a1; a2; a3; a4; a5])]) as (F0 & _).
  { fits_tac. }
  edestruct (write_run s [(6, [b0; b1; b2; b3; b4; b5]); (0, [a0; a1; a2; a3; a4; a5]);
    (12, [hi8 FRAME_IP]); (12 + 1, [lo8 FRAME_IP])]) as (F & E & LF & G & B); [fits_tac|].
  exists F. split_and!; [|done|apply B; [done|]; ofs; bytes_tac| | | |].
  - unfold netif_send. st_step (reading_run (fun F => slice F 30 4) s dst Hdst).
    st_step (gets_run mynm s _ eq_refl). rewrite R1, R2, R3. cbn [orb].
    rewrite ST_bind_assoc. st_step (gets_run myip s _ eq_refl).
    rewrite ST_bind_assoc. st_step (gets_run mygw s _ eq_refl).
    rewrite ST_bind_assoc. st_step R4.
    match goal with |- context [mret (?a, ?b)] =>
      assert (Em : (mret (a, b) : ST (net L U) _) s = Ok ((a, b), s)) by done end.
    st_step Em. clear Em. st_step (gets_run mymac s _ Ey). st_step E. reflexivity.
  - apply slice_Ok; [lia|done|lia|]. intros i Hi.
    assert (i = 0 \/ i = 1 \/ i = 2 \/ i = 3 \/ i = 4 \/ i = 5) as Hc by lia.
    destruct Hc as [->|[->|[->|[->|[->| ->]]]]];
      match goal with |- zget F ?j = _ => by stores_at (G j) end.
  - apply slice_Ok; [lia|done|lia|]. intros i Hi.
    assert (i = 0 \/ i = 1 \/ i = 2 \/ i = 3 \/ i = 4 \/ i = 5) as Hc by lia.
    destruct Hc as [->|[->|[->|[->|[->| ->]]]]];
      match goal with |- zget F ?j = _ => by stores_at (G j) end.
  - rewrite (be16_run F 12 8 0); [done| | |lia]; [by stores_at (G 12)|by stores_at (G (12 + 1))].
  - intros i Hi. rewrite G, last_store_None; [done|]. stores_far.
Qed.

Lemma netif_recv_run (r : net L U) n R l len :
  en_ll_input (frame r) (link r) = (n, R, l) -> 0 < n -> slice R 0 6 = Ok (mymac r) ->
  be16 R 12 = Ok FRAME_IP -> be16 R 16 = Ok len ->
  netif_recv r = Ok (len, with_link l (with_frame R r)).
Proof.
  intros E Hn Hmac Hty Hlen. unfold netif_recv.
  assert (Eg : get_st r = Ok (r, r)) by done. st_step Eg. rewrite E.
  set (r' := with_link l (with_frame R r)).
  assert (Em : modify (fun s => with_link l (with_frame R s)) r = Ok (tt, r')) by done. st_step Em.
  destruct (Z.ltb_spec 0 n); [|lia].
  assert (Ed : is_local_mac r' = Ok (true, r')).
  { unfold is_local_mac. st_step (gets_run mymac r' _ eq_refl). unfold dest_mac_is.
    st_step (reading_run (fun F => slice F 0 6) r' (mymac r) Hmac).
    unfold memeq. by rewrite bool_decide_true. }
  st_step Ed.
  assert (Et : (mret true : ST (net L U) bool) r' = Ok (true, r')) by done.
  rewrite !(ST_bind_Ok _ _ _ _ _ Et).
  st_step (reading_run (fun F => be16 F 12) r' FRAME_IP Hty).
  change (FRAME_IP =? FRAME_ARP) with false. rewrite Z.eqb_refl.
  apply (reading_run (fun F => be16 F 16) r' len Hlen).
Qed.
End ip.

(** ** Two hosts on a wire *)

(** Frames in flight, oldest first; a frame is received over the beginning of
    the buffer. *)
#[export] Instance wire : LinkLayer (list (list Z)) := {
  en_ll_output F size w := w ++ [take (Z.to_nat size) F];
  en_ll_input F w :=
    match w with
    | [] => (0, F, [])
    | f :: w => (zlen f, f ++ drop (length f) F, w)
    end;
}.

Section delivery.
Context {U : Type}.
Implicit Types (s r : net (list (list Z)) U) (data F R : list Z).

(** An interface with its addresses and a buffer. *)
Record host_ok s : Prop := {
  ho_ip : zlen (myip s) = 4;
  ho_mac : zlen (mymac s) = 6;
  ho_ip_bytes : bytes (myip s);
  ho_mac_bytes : bytes (mymac s);
  ho_frame : bytes (frame s);
}.

Lemma resolves_frame F s dst mac : resolves s dst mac -> resolves (with_frame F s) dst mac.
Proof. intros (R1 & R2 & R3 & R4). split_and!; try done. by apply arp_check_frame. Qed.

Lemma udp_header_ext F R src dst sp dp len :
  udp_header F src dst sp dp len -> 8 <= len -> 34 + len <= zlen R ->
  (forall i, 14 <= i < 34 + len -> zget R i = zget F i) -> udp_header R src dst sp dp len.
Proof.
  intros [Hip Hp Hsp Hdp Hsz (c & Ec & Hc)] Hl HL H.
  assert (Hb : forall o, 14 <= o -> o + 1 < 34 + len -> be16 R o = be16 F o).
  { intros o H1 H2. apply be16_ext; apply H; lia. }
  constructor; rewrite ?Hb by lia; rewrite ?H by lia; try done.
  - apply (ip_header_ext F); [done|lia|]. intros i Hi. apply H. lia.
  - exists c. split; [done|]. intros R' H40 H41 HR. apply Hc; try done.
    intros i Hi N1 N2. rewrite HR by done. apply H. lia.
Qed.

(** Packet offsets are frame offsets less the Ethernet header. *)
Lemma drop_get (F : list Z) i : 0 <= i -> zget (drop 14 F) i = zget F (14 + i).
Proof.
  intros Hi. unfold zget. destruct (Z.ltb_spec i 0); [lia|]. destruct (Z.ltb_spec (14 + i) 0); [lia|].
  rewrite lookup_drop. f_equal. lia.
Qed.

Lemma drop_be16 F o : 0 <= o -> be16 (drop 14 F) o = be16 F (14 + o).
Proof.
  intros Ho. unfold be16, aget. rewrite !drop_get by lia.
  by replace (14 + (o + 1)) with (14 + o + 1) by lia.
Qed.

Lemma drop_slice F o n l : 0 <= o -> slice F (14 + o) n = Ok l -> slice (drop 14 F) o n = Ok l.
Proof.
  intros Ho H. destruct (slice_len _ _ _ _ H) as (_ & Hl & HL). pose proof (zlen_nonneg l).
  apply slice_Ok; [done|done| |].
  - unfold zlen in *. rewrite length_drop. lia.
  - intros i Hi. rewrite drop_get by lia. replace (14 + (o + i)) with (14 + o + i) by lia.
    by apply (slice_get _ _ n).
Qed.

(** A frame taken off the wire, over the buffer of the receiver. *)
Lemma overlay_run F B n : 0 <= n <= zlen F -> n <= zlen B -> bytes F -> bytes B ->
  let f := take (Z.to_nat n) F in let R := f ++ drop (length f) B in
  zlen f = n /\ zlen R = zlen B /\ bytes R /\ forall i, i < n -> zget R i = zget F i.
Proof.
  intros Hn HB HbF HbB f R.
  assert (Hf : zlen f = n) by (unfold f, zlen in *; rewrite length_take; lia).
  split_and!; [done| | |].
  - unfold R. rewrite zlen_app, Hf. unfold zlen in *. rewrite length_drop. lia.
  - unfold R, bytes. apply list.Forall_app. split; [by apply list.Forall_take|by apply list.Forall_drop].
  - intros i Hi. destruct (Z.lt_ge_cases i 0); [by rewrite !zget_None by lia|].
    unfold R. rewrite zget_app_l by lia. unfold f, zget. destruct (Z.ltb_spec i 0); [lia|].
    apply lookup_take_lt. lia.
Qed.

End delivery.

Section receiver.
Context {U V : Type}.
Implicit Types (s : net (list (list Z)) V) (r : net (list (list Z)) U) (data F R : list Z).

(** What the receiver does with a frame that carries a datagram. *)
Lemma service_datagram r fr R src sp dp len (f : list Z -> U -> outcome U) :
  en_ll_input (frame r) [fr] = (zlen fr, R, []) -> 0 < zlen fr ->
  slice R 0 6 = Ok (mymac r) -> be16 R 12 = Ok FRAME_IP ->
  udp_header R src (myip r) sp dp len -> configured (myip r) = true -> bytes R ->
  8 <= len <= 60000 -> 34 + len <= zlen R -> dp <> PORT_ECHO -> dp <> PORT_DISCARD ->
  callback r = Some f ->
  exists G r', (forall i, i <> 40 -> i <> 41 -> zget G i = zget R i) /\ zlen G = zlen R /\
    service_turn (with_link [fr] r) =
      match f (drop 14 G) (user r) with
      | Ok u => Ok (tt, with_user u r')
      | Panic c => Panic c | Fault => Fault | Timeout => Timeout
      end.
Proof.
  intros E Hfr Hmac Hty Hu Hcf HbR Hlen HL H7 H9 Hcb.
  set (r1 := with_link [] (with_frame R (with_link [fr] r))).
  destruct (udp_in_run src (myip r) sp dp len r1) as (G & EG & LG & _ & HG); try done.
  exists G, (with_frame G r1). split; [exact HG|]. split; [exact LG|].
  unfold service_turn. destruct Hu as [Hip Hp _ _ _ _].
  pose proof (netif_recv_run (with_link [fr] r) (zlen fr) R [] (len + 20) E Hfr Hmac Hty
    (ih_size _ _ _ _ Hip)) as En. st_step En. fold r1.
  destruct (Z.ltb_spec 0 (len + 20)); [|lia].
  st_step (gets_run myip r1 (myip r) eq_refl).
  pose proof (ip_in_accepts src (myip r) (len + 20) (len + 20) r1 17 Hip eq_refl Hcf Hp) as Ei.
  change (17 =? IP_PROTO_ICMP) with false in Ei. change (17 =? IP_PROTO_UDP) with true in Ei.
  cbv iota in Ei. unfold mbind at 1, ST_bind at 1. rewrite Ei, EG.
  unfold call_back, mbind, ST_bind, gets. cbn [callback with_frame with_link r1 frame user].
  rewrite Hcb. unfold lift. change (Z.to_nat ETH_HEADER_SIZE) with 14%nat.
  change (frame (with_frame G r1)) with G. change (user (with_frame G r1)) with (user r).
  by destruct (f (drop 14 G) (user r)).
Qed.

(** A UDP datagram sent to a host whose address is resolved arrives: one
    frame goes out, and the network service of the receiver hands its callback
    the packet with the sender's address, the ports, the length and the data
    that were sent. The checksums written on the way down are those verified
    on the way up. *)
Lemma datagram_delivered s r data sp dp (f : list Z -> U -> outcome U) :
  host_ok s -> host_ok r -> link s = [] -> link r = [] ->
  resolves s (myip r) (mymac r) -> configured (myip r) = true ->
  let len := zlen data + 8 in
  slice (frame s) 42 (zlen data) = Ok data -> zlen data <= 50000 ->
  34 + len <= zlen (frame s) -> 34 + len <= zlen (frame r) ->
  0 <= sp < 65536 -> 0 <= dp < 65536 -> dp <> PORT_ECHO -> dp <> PORT_DISCARD ->
  callback r = Some f ->
  exists s' fr pkt r', udp_out (myip r) sp dp len s = Ok (len + 34, s') /\ link s' = [fr]
    /\ slice pkt IP_HDR_SRCADDR1 4 = Ok (myip s) /\ slice pkt IP_HDR_DESTADDR1 4 = Ok (myip r)
    /\ be16 pkt UDP_HDR_SRCPORT1 = Ok sp /\ be16 pkt UDP_HDR_DESTPORT1 = Ok dp
    /\ be16 pkt UDP_HDR_LEN1 = Ok len /\ slice pkt UDP_DATA_OFS (zlen data) = Ok data
    /\ be16 pkt IP_HDR_LEN1 = Ok (len + 20) /\ len + 20 <= zlen pkt
    /\ service_turn (with_link [fr] r) =
         match f pkt (user r) with
         | Ok u => Ok (tt, with_user u r')
         | Panic c => Panic c
         | Fault => Fault
         | Timeout => Timeout
         end.
Proof.
  intros Hs Hr Ls Lr Hres Hcf len Hdata Hmax HLs HLr Hsp Hdp H7 H9 Hcb.
  pose proof (zlen_nonneg data) as Hd0.
  destruct (udp_out_run (myip r) sp dp len s) as (F & EF & HuF & LF & BF & GF);
    try apply Hs; try apply Hr; try done; [lia|].
  destruct (netif_send_run (with_frame F s) (myip r) (mymac r) (len + 20))
    as (F2 & EF2 & LF2 & BF2 & HmF2 & _ & HtF2 & GF2); try apply Hs; try apply Hr; try done.
  { apply HuF. } { by apply resolves_frame. }
  cbn [frame with_frame link] in *. rewrite Ls in EF2. rewrite u16_small in EF2 by lia.
  destruct (overlay_run F2 (frame r) (len + 20 + 14)) as (Hfr & LR & BR & GR);
    [lia|lia|done|apply Hr|]. cbv zeta in *.
  set (fr := take (Z.to_nat (len + 20 + 14)) F2) in *.
  set (R := fr ++ drop (length fr) (frame r)) in *.
  assert (GRF : forall i, 14 <= i < 34 + len -> zget R i = zget F i)
    by (intros i Hi; rewrite GR, GF2 by lia; done).
  destruct (service_datagram r fr R (myip s) sp dp len f) as (G & r' & HG & LG & Eserv); try done; try lia.
  { eapply slice_ext; [exact HmF2|lia|]. intros i Hi. apply GR. lia. }
  { rewrite <- HtF2. apply be16_ext; apply GR; lia. }
  { apply (udp_header_ext F); try done; lia. }
  assert (GGF : forall i, 14 <= i < 34 + len -> i <> 40 -> i <> 41 -> zget G i = zget F i)
    by (intros i Hi ? ?; rewrite HG, GRF by done; done).
  exists (with_link [fr] (with_frame F2 (with_frame F s))), fr, (drop 14 G), r'.
  destruct HuF as [Hip _ Hs1 Hs2 Hs3 _]. unfold IP_HDR_SRCADDR1, IP_HDR_DESTADDR1,
    UDP_HDR_SRCPORT1, UDP_HDR_DESTPORT1, UDP_HDR_LEN1, UDP_DATA_OFS.
  split_and!; [|done| | | | | | | | |exact Eserv].
  - rewrite EF, EF2. assert (El : len + 34 = len + 20 + 14) by lia. by rewrite El.
  - apply drop_slice; [done|]. eapply slice_ext; [apply Hip|lia|]. intros i Hi. apply GGF; lia.
  - apply drop_slice; [done|]. eapply slice_ext; [apply Hip|lia|]. intros i Hi. apply GGF; lia.
  - rewrite drop_be16 by done. rewrite <- Hs1. apply be16_ext; apply GGF; lia.
  - rewrite drop_be16 by done. rewrite <- Hs2. apply be16_ext; apply GGF; lia.
  - rewrite drop_be16 by done. rewrite <- Hs3. apply be16_ext; apply GGF; lia.
  - apply drop_slice; [done|]. eapply slice_ext; [exact Hdata|lia|].
    intros i Hi. rewrite GGF, GF by lia. done.
  - unfold IP_HDR_LEN1. rewrite drop_be16, <- (ih_size _ _ _ _ Hip) by done. apply be16_ext; apply GGF; lia.
  - unfold zlen in *. rewrite length_drop. lia.
Qed.
End receiver.

(** Checking a concrete list. *)
Lemma bytesb_spec l : forallb (fun b => (0 <=? b) && (b <? 256)) l = true -> bytes l.
Proof.
  unfold bytes. induction l as [|b l IH]; cbn [forallb]; [constructor|].
  intros [Hb Hl]%andb_prop. constructor; [lia|by apply IH].
Qed.

(** Two hosts on one network, that know each other. The callback keeps the
    packets. *)
Definition mac_a : list Z := [2; 0; 0; 0; 0; 1].
Definition mac_b : list Z := [2; 0; 0; 0; 0; 2].
Definition ip_a : list Z := [192; 168; 5; 1].
Definition ip_b : list Z := [192; 168; 5; 2].
Definition demo_data : list Z := [104; 101; 108; 108; 111].
Definition host_a : net (list (list Z)) (list (list Z)) :=
  Net ip_a [255; 255; 255; 0] [192; 168; 5; 254] mac_a
    (ArpEntry ip_b mac_b :: replicate 15 (ArpEntry [0; 0; 0; 0] (replicate 6 0))) 1 None []
    (replicate 42 170 ++ demo_data ++ replicate 20 0) [].
Definition host_b : net (list (list Z)) (list (list Z)) :=
  Net ip_b [255; 255; 255; 0] [192; 168; 5; 254] mac_b
    (replicate 16 (ArpEntry [0; 0; 0; 0] (replicate 6 0))) 0
    (Some (fun p u => Ok (p :: u))) [] (replicate 100 85) [].

Example datagram_delivered_witness :
  exists s' fr pkt r', udp_out (myip host_b) 4000 5000 (zlen demo_data + 8) host_a
      = Ok (zlen demo_data + 8 + 34, s') /\ link s' = [fr]
    /\ slice pkt IP_HDR_SRCADDR1 4 = Ok (myip host_a)
    /\ be16 pkt UDP_HDR_DESTPORT1 = Ok 5000 /\ slice pkt UDP_DATA_OFS (zlen demo_data) = Ok demo_data
    /\ service_turn (with_link [fr] host_b) = Ok (tt, with_user [pkt] r').
Proof.
  destruct (datagram_delivered host_a host_b demo_data 4000 5000 (fun p u => Ok (p :: u)))
    as (s' & fr & pkt & r' & E1 & E2 & E3 & _ & _ & E4 & _ & E5 & _ & _ & E6).
  - constructor; first [reflexivity|by apply bytesb_spec].
  - constructor; first [reflexivity|by apply bytesb_spec].
  - reflexivity.
  - reflexivity.
  - unfold resolves. split_and!; vm_compute; reflexivity.
  - reflexivity.
  - vm_compute. reflexivity.
  - vm_compute. discriminate.
  - vm_compute. discriminate.
  - vm_compute. discriminate.
  - lia.
  - lia.
  - discriminate.
  - discriminate.
  - reflexivity.
  - exists s', fr, pkt, r'. split_and!; assumption.
Defined.

(** ** The ARP cache *)

Lemma zset_middle {A : Type} (pre : list A) x y post :
  zset (pre ++ x :: post) (zlen pre) y = pre ++ y :: post.
Proof.
  unfold zset, zlen. destruct (Z.ltb_spec (Z.of_nat (length pre)) 0); [lia|]. rewrite Nat2Z.id.
  rewrite <- (Nat.add_0_r (length pre)). by rewrite list.insert_app_r.
Qed.

Lemma zget_split {A : Type} (l : list A) i x : zget l i = Some x ->
  exists pre post, l = pre ++ x :: post /\ zlen pre = i.
Proof.
  unfold zget. destruct (Z.ltb_spec i 0) as [|Hi0]; [done|]. intros H.
  apply list.list_elem_of_split_length in H as (pre & post & -> & Hi).
  exists pre, post. split; [done|]. unfold zlen. lia.
Qed.

Section arp.
Context {L U : Type}.
Implicit Types (s : net L U) (c : list arp_entry) (ip mac : list Z).

Lemma arp_find_spec c ip i :
  (arp_find c ip i = i + zlen c /\ Forall (fun e => a_ip e <> ip) c)
  \/ (exists pre e post, c = pre ++ e :: post /\ a_ip e = ip /\ Forall (fun e => a_ip e <> ip) pre
      /\ arp_find c ip i = i + zlen pre).
Proof.
  revert i. induction c as [|e c IH]; intros i; cbn [arp_find].
  { left. change (zlen (@nil arp_entry)) with 0. split; [lia|constructor]. }
  unfold memeq. case_bool_decide as Heq.
  - right. exists [], e, c. change (zlen (@nil arp_entry)) with 0. split_and!; [done|done|constructor|lia].
  - rewrite zlen_cons. destruct (IH (i + 1)) as [[E H]|(pre & e' & post & -> & He & H & E)].
    + left. split; [lia|]. by constructor.
    + right. exists (e :: pre), e', post. rewrite zlen_cons. split_and!; [done|done|by constructor|lia].
Qed.

(** The address stored for [ip], the first entry counting. *)
Fixpoint arp_lookup c ip : option (list Z) :=
  match c with
  | [] => None
  | e :: c => if memeq ip (a_ip e) then Some (a_mac e) else arp_lookup c ip
  end.

Lemma arp_lookup_skip pre c ip : Forall (fun e => a_ip e <> ip) pre ->
  arp_lookup (pre ++ c) ip = arp_lookup c ip.
Proof.
  induction 1 as [|e pre He _ IH]; [done|]. cbn [arp_lookup app]. unfold memeq.
  rewrite bool_decide_false by congruence. done.
Qed.

Lemma arp_lookup_found e c ip : a_ip e = ip -> arp_lookup (e :: c) ip = Some (a_mac e).
Proof. intros <-. cbn. unfold memeq. by rewrite bool_decide_true. Qed.

Lemma arp_check_run ip s : zlen (arp_cache s) = 16 ->
  arp_check ip s = Ok (arp_lookup (arp_cache s) ip, s).
Proof.
  intros Hl. unfold arp_check, mbind, ST_bind, gets. change (Z.of_nat ARP_CACHE_SIZE) with 16.
  destruct (arp_find_spec (arp_cache s) ip 0) as [[E H]|(pre & e & post & Ec & He & H & E)]; rewrite E.
  - destruct (Z.ltb_spec (0 + zlen (arp_cache s)) 16); [lia|].
    pose proof (arp_lookup_skip (arp_cache s) [] ip H) as Hs. rewrite app_nil_r in Hs. by rewrite Hs.
  - rewrite Ec in *. rewrite arp_lookup_skip, (arp_lookup_found e) by done.
    rewrite zlen_app, zlen_cons in Hl. pose proof (zlen_nonneg post).
    destruct (Z.ltb_spec (0 + zlen pre) 16); [|lia].
    unfold aget. rewrite zget_app_r, Z.add_0_l, Z.sub_diag, zget_cons_0 by lia. done.
Qed.
End arp.

(** the ARP cache answers with the last hardware address learned. Learning
    about a cached address changes nothing about the others; learning a new
    one takes the entry whose turn it is and leaves all the other entries, and
    the turns go round the sixteen entries. *)
Theorem arp_cache_learns {L U : Type} (s : net L U) (ip mac : list Z) :
  zlen (arp_cache s) = 16 -> 0 <= arp_index s < 16 ->
  exists v c n, arp_update ip mac s = Ok (v, with_arp c n s) /\ zlen c = 16 /\ 0 <= n < 16
    /\ arp_check ip (with_arp c n s) = Ok (Some mac, with_arp c n s)
    /\ (v = 1 -> n = arp_index s /\ forall ip', ip' <> ip -> arp_lookup c ip' = arp_lookup (arp_cache s) ip')
    /\ (v = 0 -> arp_lookup (arp_cache s) ip = None /\ n = (arp_index s + 1) mod 16
        /\ forall i, i <> arp_index s -> zget c i = zget (arp_cache s) i).
Proof.
  intros Hl Hn. unfold arp_update.
  assert (Eg : gets arp_cache s = Ok (arp_cache s, s)) by done. st_step Eg. clear Eg.
  change (Z.of_nat ARP_CACHE_SIZE) with 16.
  destruct (arp_find_spec (arp_cache s) ip 0) as [[E H]|(pre & e & post & Ec & He & H & E)]; rewrite E.
  - destruct (Z.ltb_spec (0 + zlen (arp_cache s)) 16); [lia|].
    destruct (zget_is_Some (arp_cache s) (arp_index s) ltac:(lia)) as [e He].
    unfold mbind, ST_bind, gets, lift, modify. rewrite (aget_Ok _ _ _ He).
    set (c := zset (arp_cache s) (arp_index s) (ArpEntry ip mac)).
    assert (Hlc : zlen c = 16) by (unfold c; rewrite zset_zlen; done).
    assert (Hlook : arp_lookup c ip = Some mac).
    { destruct (zget_split (arp_cache s) (arp_index s) e He) as (pre & post & Ec & Hp).
      unfold c. rewrite Ec in H |- *. rewrite <- Hp, zset_middle.
      apply list.Forall_app in H as [Hpre _]. by rewrite arp_lookup_skip, arp_lookup_found. }
    exists 0, c, (u32 (arp_index s + 1) mod 16). split_and!; [done|done|word_lia|word_lia| |done|].
    + rewrite arp_check_run by done. cbn [arp_cache with_arp]. by rewrite Hlook.
    + intros _. split_and!.
      * pose proof (arp_lookup_skip (arp_cache s) [] ip H) as Hs. by rewrite app_nil_r in Hs.
      * by rewrite u32_small by lia.
      * intros i Hi. unfold c. by rewrite zget_zset_ne.
  - rewrite Ec in Hl. rewrite zlen_app, zlen_cons in Hl. pose proof (zlen_nonneg post).
    destruct (Z.ltb_spec (0 + zlen pre) 16); [|lia].
    assert (Hg : zget (arp_cache s) (0 + zlen pre) = Some e)
      by (rewrite Ec, zget_app_r, Z.add_0_l, Z.sub_diag by lia; done).
    unfold mbind, ST_bind, lift, modify. rewrite (aget_Ok _ _ _ Hg).
    assert (Ez : zset (arp_cache s) (0 + zlen pre) (ArpEntry (a_ip e) mac) = pre ++ ArpEntry ip mac :: post).
    { rewrite Ec, Z.add_0_l, He. apply zset_middle. }
    rewrite Ez. exists 1, (pre ++ ArpEntry ip mac :: post), (arp_index s). split_and!; try done; try lia.
    + rewrite zlen_app, zlen_cons. lia.
    + rewrite arp_check_run by (cbn [arp_cache with_arp]; rewrite zlen_app, zlen_cons; lia).
      cbn [arp_cache with_arp]. by rewrite arp_lookup_skip, arp_lookup_found.
    + intros _. split; [done|]. intros ip' Hip. rewrite Ec. clear - Hip He.
      induction pre as [|x pre IH]; cbn [app arp_lookup a_ip a_mac].
      * unfold memeq. rewrite !bool_decide_false by congruence. done.
      * by rewrite IH.
Qed.

Example arp_cache_learns_witness :
  exists v c n, arp_update ip_a mac_a host_b = Ok (v, with_arp c n host_b) /\ zlen c = 16 /\ 0 <= n < 16
    /\ arp_check ip_a (with_arp c n host_b) = Ok (Some mac_a, with_arp c n host_b).
Proof.
  destruct (arp_cache_learns host_b ip_a mac_a) as (v & c & n & E1 & E2 & E3 & E4 & _);
    [reflexivity|split; [discriminate|reflexivity]|].
  exists v, c, n. split; [exact E1|]. split; [exact E2|]. split; [exact E3|exact E4].
Defined.

(** ** Echo *)

Section icmp.
Context {L U : Type} {LL : LinkLayer L}.
Implicit Types (s : net L U) (F : list Z).

Lemma wsum_ext F R n i : (forall j, i <= j < i + 2 * Z.of_nat n -> zget R (14 + j) = zget F (14 + j)) ->
  wsum R n i = wsum F n i.
Proof.
  revert i. induction n as [|n IH]; intros i H; [done|]. cbn [wsum]. unfold bt.
  rewrite (H i), (H (i + 1)) by lia. rewrite IH; [done|]. intros j Hj. apply H. lia.
Qed.

(** The new checksum: eight is taken from the type, the high byte of its word,
    and added to the complement. *)
Definition echo_chksum (c : Z) : Z :=
  if 0xffff - 2048 <? c then u16 (c + 2049) else u16 (c + 2048).

Lemma echo_sum c w : 0 <= c < 65536 -> 0 <= w -> ones (2048 + c + w) = 65535 ->
  0 <= echo_chksum c < 65536 /\ ones (echo_chksum c + w) = 65535.
Proof.
  intros Hc Hw Ho. unfold echo_chksum. destruct (Z.ltb_spec (0xffff - 2048) c).
  - assert (E : u16 (c + 2049) = c + 2049 - 65536) by (unfold u16; symmetry; apply (Z.mod_unique _ _ 1); lia).
    rewrite E. split; [lia|]. rewrite <- Ho. apply (ones_eq _ _ (-1)); lia.
  - rewrite u16_small by lia. split; [lia|]. rewrite <- Ho. f_equal. lia.
Qed.

Lemma icmp_words F n : wsum F (S (S n)) 20 =
  256 * bt F 34 + bt F 35 + (256 * bt F 36 + bt F 37) + wsum F n 24.
Proof. cbn [wsum]. change (14 + 20) with 34. change (14 + (20 + 1)) with 35.
  change (14 + (20 + 2)) with 36. change (14 + (20 + 2 + 1)) with 37. change (20 + 2 + 2) with 24. ring. Qed.

End icmp.

(** an echo request with a correct ICMP checksum is answered: the packet
    goes back to its sender as an echo reply whose checksum, updated
    incrementally, is correct again, with identifier, sequence number and
    payload untouched. Anything else is refused. *)
Theorem echo_answered {L U : Type} {LL : LinkLayer L} (s : net L U) (n : nat) (src : list Z) :
  zlen (myip s) = 4 -> bytes (myip s) -> bytes (frame s) -> 38 + 2 * Z.of_nat n <= zlen (frame s) ->
  28 + 2 * Z.of_nat n - 4 < 65536 -> slice (frame s) 26 4 = Ok src ->
  zget (frame s) 34 = Some ICMP_ECHO -> ones (wsum (frame s) (S (S n)) 20) = 65535 ->
  let len := 24 + 2 * Z.of_nat n in
  exists F, icmp_echo_reply len s = (_ ← netif_send len; mret 0) (with_frame F s)
    /\ ip_header F (myip s) src len /\ zget F 34 = Some ICMP_ECHO_REPLY
    /\ ones (wsum F (S (S n)) 20) = 65535
    /\ forall i, 38 <= i -> zget F i = zget (frame s) i.
Proof.
  intros Hm4 Hmb HF HL Hn Hsrc Hty Hsum len. set (F0 := frame s) in *.
  unfold icmp_echo_reply.
  destruct (bytes_get F0 36 HF) as (b1 & Eb1 & Hb1); [lia|].
  destruct (bytes_get F0 37 HF) as (b2 & Eb2 & Hb2); [lia|].
  st_step (reading_run (fun F => aget F (14 + 20)) s 8 ltac:(by apply aget_Ok)).
  change (8 =? ICMP_ECHO) with true. cbv iota.
  edestruct (packet_write_run s [(ICMP_HDR_TYPE, [ICMP_ECHO_REPLY])]) as (F1 & E1 & L1 & G1 & B1);
    [ofs; fold F0; fits_tac|st_step E1]. fold F0 in L1, G1, B1.
  assert (HB1 : bytes F1) by (apply B1; [done|]; ofs; bytes_tac).
  assert (G1' : forall i, i <> 34 -> zget F1 i = zget F0 i).
  { intros i Hi. rewrite G1, last_store_None; [done|]. ofs. stores_far. }
  st_step (reading_run (fun F => aget F (14 + 22)) (with_frame F1 s) b1
    ltac:(apply aget_Ok; cbn [frame with_frame]; by rewrite G1')).
  st_step (reading_run (fun F => aget F (14 + 23)) (with_frame F1 s) b2
    ltac:(apply aget_Ok; cbn [frame with_frame]; by rewrite G1')).
  assert (Ec : u16 (Z.shiftl b1 8 + b2) = 256 * b1 + b2).
  { rewrite Z.shiftl_mul_pow2 by lia. pow_norm. rewrite u16_small; lia. }
  rewrite Ec. set (c := 256 * b1 + b2).
  change (if 0xffff - Z.shiftl ICMP_ECHO 8 <? c then u16 (c + (Z.shiftl ICMP_ECHO 8 + 1))
    else u16 (c + Z.shiftl ICMP_ECHO 8)) with (echo_chksum c).
  rewrite icmp_words, (bt_at F0 34 8), (bt_at F0 36 b1), (bt_at F0 37 b2) in Hsum by done.
  pose proof (bt_range F0 35 HF). pose proof (wsum_range F0 n 24 HF).
  destruct (echo_sum c (bt F0 35 + wsum F0 n 24)) as [Hcr Hco]; [unfold c; lia|lia| |].
  { rewrite <- Hsum. f_equal. unfold c. lia. }
  destruct (hi_lo (echo_chksum c) Hcr) as (Hcc & Hch & Hcl).
  edestruct (packet_write_run (with_frame F1 s) [(ICMP_HDR_CHKSUM1, [hi8 (echo_chksum c)]);
    (ICMP_HDR_CHKSUM2, [lo8 (echo_chksum c)])]) as (F2 & E2 & L2 & G2 & B2);
    [cbn [frame with_frame]; ofs; fits_tac|st_step E2]. cbn [frame with_frame] in L2, G2, B2.
  assert (HB2 : bytes F2) by (apply B2; [done|]; ofs; bytes_tac).
  assert (G2' : forall i, i <> 36 -> i <> 37 -> zget F2 i = zget F1 i).
  { intros i H1 H2. rewrite G2, last_store_None; [done|]. ofs. stores_far. }
  st_step (reading_run (fun F => slice F 26 4) (with_frame F2 (with_frame F1 s)) src
    ltac:(eapply slice_ext; [exact Hsrc|cbn [frame with_frame]; fold F0 in L1; lia|
      intros i Hi; cbn [frame with_frame]; rewrite G2', G1' by lia; done])).
  destruct (slice_len _ _ _ _ Hsrc) as (_ & Hs4 & _).
  destruct (ip_out_run src len (with_frame F2 (with_frame F1 s))) as (F3 & E3 & I3 & _ & _ & G3);
    cbn [myip frame with_frame]; try done; [|lia|lia|].
  { unfold slice in Hsrc. case_match; [|done]. injection Hsrc as <-.
    by apply list.Forall_take, list.Forall_drop. }
  cbn [frame with_frame] in G3. exists F3. split_and!; [|exact I3| | |].
  - unfold mbind at 1, ST_bind at 1. rewrite E3. done.
  - rewrite G3, G2' by lia. ofs. by stores_at (G1 34).
  - rewrite <- Hco. f_equal. rewrite icmp_words.
    rewrite (bt_at F3 34 0), (bt_at F3 36 (hi8 (echo_chksum c))), (bt_at F3 37 (lo8 (echo_chksum c)));
      [|rewrite G3 by lia; ofs; by stores_at (G2 37)|rewrite G3 by lia; ofs; by stores_at (G2 36)
       |rewrite G3, G2' by lia; ofs; by stores_at (G1 34)].
    assert (E35 : bt F3 35 = bt F0 35) by (unfold bt; by rewrite G3, G2', G1' by lia).
    rewrite E35, (wsum_ext F0 F3); [lia|]. intros j Hj. by rewrite G3, G2', G1' by lia.
  - intros i Hi. by rewrite G3, G2', G1' by lia.
Qed.

(** An echo request from the first host: type, code, checksum, identifier 1,
    sequence number 2 and two bytes of payload. *)
Definition ping_frame : list Z :=
  replicate 26 0 ++ ip_a ++ ip_b ++ [8; 0; 150; 154; 0; 1; 0; 2; 97; 98] ++ replicate 10 0.
Definition pinged : net (list (list Z)) (list (list Z)) := with_frame ping_frame host_b.

Example echo_answered_witness :
  exists F, icmp_echo_reply (24 + 2 * Z.of_nat 3) pinged
      = (_ ← netif_send (24 + 2 * Z.of_nat 3); mret 0) (with_frame F pinged)
    /\ ip_header F (myip pinged) ip_a (24 + 2 * Z.of_nat 3) /\ zget F 34 = Some ICMP_ECHO_REPLY
    /\ ones (wsum F 5 20) = 65535.
Proof.
  destruct (echo_answered pinged 3 ip_a) as (F & E1 & E2 & E3 & E4 & _).
  - reflexivity.
  - by apply bytesb_spec.
  - by apply bytesb_spec.
  - vm_compute. discriminate.
  - reflexivity.
  - reflexivity.
  - reflexivity.
  - vm_compute. reflexivity.
  - exists F. split; [exact E1|]. split; [exact E2|]. split; [exact E3|exact E4].
Defined.

(** The frame of an ARP request is sent with the Ethernet header counted
    twice: 56 bytes, the last 14 left over from the packet. *)
Example arp_request_length :
  match netif_send 33 (with_frame (replicate 30 0 ++ [192; 168; 5; 9] ++ replicate 40 7) host_a) with
  | Ok (r, s) => (r, length <$> link s, drop 42 <$> link s)
  | _ => (0, [], [])
  end = (0, [56%nat], [replicate 14 7]).
Proof. vm_compute. reflexivity. Qed.

(** The length a datagram claims is not compared with the length received: a
    checksum over a claimed length beyond the buffer reads outside it. *)
Example udp_in_overrun :
  udp_in (with_frame (replicate 38 0 ++ [3; 232; 1; 1] ++ replicate 58 0) host_b) = Fault.
Proof. vm_compute. reflexivity. Qed.
