(* ===== verification/SimBase.v ===== *)
(** * Simulators: a process that may exit, and its byte memory

    What the instruction set simulators of [usr/sim] share: a state-passing
    computation that can end the process with an exit code (the C library's
    [exit]), the simulated memory as bytes addressed from 0 on a little-endian
    host, and the bit fields of an instruction word. *)

From S2P Require Import Prelude Words.

(** ** Computations that may end the process *)

(** [Undef] is behaviour C leaves undefined (a shift by the width or more, an
    access beyond an array, a division by zero). *)
Inductive result (S A : Type) : Type :=
| Val (a : A) (s : S)
| Exit (code : Z) (s : S)
| Undef.
Arguments Val {S A} a s.
Arguments Exit {S A} code s.
Arguments Undef {S A}.

Definition SM (S A : Type) : Type := S -> result S A.

#[export] Instance SM_ret (S : Type) : MRet (SM S) := fun A a s => Val a s.
#[export] Instance SM_bind (S : Type) : MBind (SM S) := fun A B f m s =>
  match m s with
  | Val a s' => f a s'
  | Exit c s' => Exit c s'
  | Undef => Undef
  end.

Definition sget {S A : Type} (f : S -> A) : SM S A := fun s => Val (f s) s.
Definition smod {S : Type} (f : S -> S) : SM S unit := fun s => Val tt (f s).
Definition sexit {S A : Type} (code : Z) : SM S A := fun s => Exit code s.
Definition sundef {S A : Type} : SM S A := fun _ => Undef.
Definition swhen {S : Type} (b : bool) (m : SM S unit) : SM S unit :=
  if b then m else mret tt.

(** An operation that is undefined outside [b]. *)
Definition sguard {S A : Type} (b : bool) (a : A) : SM S A :=
  if b then mret a else sundef.

Ltac sm_unfold :=
  unfold mbind, mret, SM_bind, SM_ret, sget, smod, sexit, sundef, swhen, sguard.

Lemma SM_bind_Val {S A B : Type} (m : SM S A) (f : A -> SM S B) s a s' :
  m s = Val a s' -> (mbind f m) s = f a s'.
Proof. intros H. unfold mbind, SM_bind. by rewrite H. Qed.

(** ** What every run of a computation respects *)

(** [respects I Q m]: from a state in [I], if [m] neither exits nor hits
    undefined behaviour, it returns a value in [Q] and stays in [I]; if it
    exits, the state it leaves is in [I]. *)
Definition respects {S A : Type} (I : S -> Prop) (Q : A -> Prop) (m : SM S A) : Prop :=
  forall s, I s ->
  match m s with
  | Val a s' => Q a /\ I s'
  | Exit _ s' => I s'
  | Undef => True
  end.

Section respects.
Context {S : Type} (I : S -> Prop).

Lemma respects_bind {A B : Type} (P : A -> Prop) (Q : B -> Prop) m f :
  respects I P m -> (forall a, P a -> respects I Q (f a)) -> respects I Q (mbind f m).
Proof.
  intros Hm Hf s Hs. unfold mbind, SM_bind. specialize (Hm s Hs).
  destruct (m s) as [a s'|c s'|]; [|done..]. destruct Hm as [Ha Hs']. by apply Hf.
Qed.

Lemma respects_ret {A : Type} (Q : A -> Prop) a : Q a -> respects I Q (mret a).
Proof. intros Ha s Hs. by split. Qed.

Lemma respects_get {A : Type} (Q : A -> Prop) f :
  (forall s, I s -> Q (f s)) -> respects I Q (sget f).
Proof. intros H s Hs. split; [by apply H|done]. Qed.

Lemma respects_mod f : (forall s, I s -> I (f s)) -> respects I (fun _ => True) (smod f).
Proof. intros H s Hs. split; [done|by apply H]. Qed.

Lemma respects_exit {A : Type} (Q : A -> Prop) c : respects I Q (sexit c).
Proof. by intros s Hs. Qed.

Lemma respects_undef {A : Type} (Q : A -> Prop) : respects I Q sundef.
Proof. by intros s Hs. Qed.

Lemma respects_guard {A : Type} (Q : A -> Prop) b a : Q a -> respects I Q (sguard b a).
Proof. intros Ha. destruct b; [by apply respects_ret|apply respects_undef]. Qed.

Lemma respects_when b m :
  respects I (fun _ => True) m -> respects I (fun _ => True) (swhen b m).
Proof. intros Hm. destruct b; [done|by apply respects_ret]. Qed.

Lemma respects_if {A : Type} (Q : A -> Prop) (b : bool) m1 m2 :
  respects I Q m1 -> respects I Q m2 -> respects I Q (if b then m1 else m2).
Proof. by destruct b. Qed.

Lemma respects_weaken {A : Type} (P Q : A -> Prop) m :
  (forall a, P a -> Q a) -> respects I P m -> respects I Q m.
Proof.
  intros H Hm s Hs. specialize (Hm s Hs). destruct (m s); [|done..].
  destruct Hm as [Ha Hs']. split; [by apply H|done].
Qed.
End respects.

(** Structural steps on [respects I (fun _ => True) m]; leaves remain. *)
Ltac respects_step :=
  match goal with
  | |- respects _ _ (mbind _ _) =>
      apply (respects_bind _ (fun _ => True)); [|intros ? _]
  | |- respects _ _ (mret _) => apply respects_ret; exact I
  | |- respects _ _ (sget _) => apply respects_get; intros; exact I
  | |- respects _ _ (sexit _) => apply respects_exit
  | |- respects _ _ sundef => apply respects_undef
  | |- respects _ _ (sguard _ _) => apply respects_guard; exact I
  | |- respects _ _ (swhen _ _) => apply respects_when
  | |- respects _ _ (if _ then _ else _) => apply respects_if
  | |- respects _ _ (match ?x with _ => _ end) => destruct x
  end.

(** ** Byte memory *)

(** Memory the program has not written holds 0, as static storage does. *)
Definition byte_at (m : gmap Z Z) (a : Z) : Z := default 0 (m !! a).

Fixpoint load_le (n : nat) (m : gmap Z Z) (a : Z) : Z :=
  match n with
  | O => 0
  | S n => byte_at m a + 256 * load_le n m (a + 1)
  end.

Fixpoint store_le (n : nat) (m : gmap Z Z) (a v : Z) : gmap Z Z :=
  match n with
  | O => m
  | S n => store_le n (<[a := u8 v]> m) (a + 1) (v / 256)
  end.

(** Every stored byte is a byte. *)
Definition bytes_ok (m : gmap Z Z) : Prop := forall a b, m !! a = Some b -> 0 <= b < 256.

Section memory.
Implicit Types (m : gmap Z Z) (a v : Z).

Lemma byte_at_range m a : bytes_ok m -> 0 <= byte_at m a < 256.
Proof.
  intros H. unfold byte_at. destruct (m !! a) as [b|] eqn:E; simpl; [by eapply H|lia].
Qed.

Lemma bytes_ok_insert m a b : bytes_ok m -> 0 <= b < 256 -> bytes_ok (<[a := b]> m).
Proof.
  intros H Hb c d [[_ <-]|[_ Hd]]%lookup_insert_Some; [done|by eapply H].
Qed.

Lemma store_le_ok n m a v : bytes_ok m -> bytes_ok (store_le n m a v).
Proof.
  revert m a v. induction n as [|n IH]; intros m a v H; simpl; [done|].
  apply IH, bytes_ok_insert; [done|apply u8_range].
Qed.

Lemma load_le_range n m a : bytes_ok m -> 0 <= load_le n m a < 256 ^ Z.of_nat n.
Proof.
  intros H. revert a. induction n as [|n IH]; intros a; [simpl; lia|].
  cbn [load_le]. rewrite Nat2Z.inj_succ, Z.pow_succ_r by lia.
  pose proof (byte_at_range m a H). specialize (IH (a + 1)). lia.
Qed.

Lemma store_le_outside n m a v b :
  b < a \/ a + Z.of_nat n <= b -> byte_at (store_le n m a v) b = byte_at m b.
Proof.
  revert m a v. induction n as [|n IH]; intros m a v Hb; simpl; [done|].
  rewrite IH by lia. unfold byte_at. by rewrite lookup_insert_ne by lia.
Qed.

Lemma load_le_ext n m m' a :
  (forall b, a <= b < a + Z.of_nat n -> byte_at m b = byte_at m' b) ->
  load_le n m a = load_le n m' a.
Proof.
  revert a. induction n as [|n IH]; intros a H; [done|]. cbn [load_le].
  rewrite H by lia. rewrite (IH (a + 1)); [done|]. intros b Hb. apply H. lia.
Qed.

(** What was stored is loaded, reduced to the width. *)
Lemma load_store_same n m a v : load_le n (store_le n m a v) a = v mod 256 ^ Z.of_nat n.
Proof.
  revert m a v. induction n as [|n IH]; intros m a v.
  - change (256 ^ Z.of_nat 0) with 1. by rewrite Z.mod_1_r.
  - cbn [load_le store_le]. rewrite IH, store_le_outside by lia.
    unfold byte_at. rewrite lookup_insert_eq. simpl. unfold u8.
    rewrite Nat2Z.inj_succ, Z.pow_succ_r by lia.
    assert (0 < 256 ^ Z.of_nat n) by (apply Z.pow_pos_nonneg; lia).
    rewrite Z.rem_mul_r by lia. done.
Qed.

Lemma load_store_disjoint n k m a b v :
  a + Z.of_nat n <= b \/ b + Z.of_nat k <= a ->
  load_le n (store_le k m b v) a = load_le n m a.
Proof. intros H. apply load_le_ext. intros c Hc. apply store_le_outside. lia. Qed.
End memory.

(** ** Words in registers *)

Definition is_i32 (x : Z) : Prop := -2147483648 <= x < 2147483648.
Definition is_u32 (x : Z) : Prop := 0 <= x < 4294967296.

(** A shift by [n], undefined outside [0, 32). *)
Definition shift_ok {S : Type} (n v : Z) : SM S Z := sguard ((0 <=? n) && (n <? 32)) v.

Section words.
Implicit Types a b x y n v : Z.

Lemma zset_Forall {A : Type} (P : A -> Prop) l i (x : A) :
  Forall P l -> P x -> Forall P (zset l i x).
Proof. intros Hl Hx. unfold zset. destruct (i <? 0); [done|]. by apply Forall_insert. Qed.

Lemma zget_Forall {A : Type} (P : A -> Prop) l i (x : A) : Forall P l -> zget l i = Some x -> P x.
Proof.
  unfold zget. intros Hl. destruct (i <? 0); [done|]. intros Hx.
  by eapply Forall_lookup_1.
Qed.

Lemma is_u32_land x y : is_u32 x -> is_u32 (Z.land x y).
Proof. intros H. exact (land_range x y 32 ltac:(lia) H). Qed.
Lemma is_u32_lor x y : is_u32 x -> is_u32 y -> is_u32 (Z.lor x y).
Proof. intros H1 H2. exact (lor_range x y 32 ltac:(lia) H1 H2). Qed.
Lemma is_u32_u32 x : is_u32 (u32 x).
Proof. apply u32_range. Qed.

Lemma is_i32_shiftr a : is_i32 a <-> Z.shiftr a 31 = 0 \/ Z.shiftr a 31 = -1.
Proof.
  unfold is_i32. rewrite Z.shiftr_div_pow2 by lia. change (2 ^ 31) with 2147483648.
  split; intros; Z.div_mod_to_equations; lia.
Qed.

Lemma is_i32_lxor a b : is_i32 a -> is_i32 b -> is_i32 (Z.lxor a b).
Proof.
  rewrite !is_i32_shiftr, Z.shiftr_lxor. intros [-> | ->] [-> | ->]; vm_compute; auto.
Qed.
Lemma is_i32_lor a b : is_i32 a -> is_i32 b -> is_i32 (Z.lor a b).
Proof.
  rewrite !is_i32_shiftr, Z.shiftr_lor. intros [-> | ->] [-> | ->]; vm_compute; auto.
Qed.
Lemma is_i32_land a b : is_i32 a -> is_i32 b -> is_i32 (Z.land a b).
Proof.
  rewrite !is_i32_shiftr, Z.shiftr_land. intros [-> | ->] [-> | ->]; vm_compute; auto.
Qed.

Lemma is_i32_small a : is_i32 a -> i32 a = a.
Proof. apply i32_small. Qed.

Lemma is_i32_sra a n : is_i32 a -> 0 <= n -> is_i32 (a / 2 ^ n).
Proof.
  unfold is_i32. intros Ha Hn. assert (0 < 2 ^ n) by (apply Z.pow_pos_nonneg; lia). split.
  - apply Z.div_le_lower_bound; nia.
  - apply Z.div_lt_upper_bound; nia.
Qed.

Lemma i32_mul_u32 a b : i32 (u32 a * b) = i32 (a * b).
Proof. by rewrite <- i32_u32, u32_mul_l, i32_u32. Qed.

Lemma cbool_i32 (b : bool) : i32 (cbool b) = cbool b.
Proof. by destruct b. Qed.

Lemma shift_ok_run {S : Type} n v (s : S) : 0 <= n < 32 -> shift_ok n v s = Val v s.
Proof.
  intros Hn. unfold shift_ok, sguard.
  destruct (Z.leb_spec 0 n), (Z.ltb_spec n 32); try lia. done.
Qed.

Lemma aligned_land a n k :
  a mod 2 ^ k = 0 -> 0 <= k -> n = Z.ones k -> nz (Z.land a n) = false.
Proof. intros Ha Hk ->. rewrite Z.land_ones, Ha by done. done. Qed.

(** *** Fields of an instruction word *)
Lemma land_field_shr (w m i n k : Z) :
  0 <= k <= i -> 0 <= n -> m = Z.shiftl (Z.ones n) i ->
  Z.shiftr (Z.land w m) k = (w / 2 ^ i) mod 2 ^ n * 2 ^ (i - k).
Proof.
  intros Hk Hn ->. rewrite land_field, Z.shiftr_div_pow2 by lia.
  replace (2 ^ i) with (2 ^ (i - k) * 2 ^ k) at 2
    by (rewrite <- Z.pow_add_r by lia; f_equal; lia).
  rewrite Z.mul_assoc, Z.div_mul; [done|]. apply Z.pow_nonzero; lia.
Qed.

(** Adding a field above the bits below it. *)
Lemma lor_above_r x y n : 0 <= n -> 0 <= x < 2 ^ n -> Z.lor x (y * 2 ^ n) = x + y * 2 ^ n.
Proof. intros Hn Hx. rewrite Z.lor_comm, lor_carry by done. ring. Qed.

End words.

(** ** The image a simulator is started with *)

(** The memory after [memset(sram, 0xff, sizeof(MEM_SIZE))] and the read of
    the image; [sizeof(MEM_SIZE)] is the size of an [int]. *)
Fixpoint load_image (image : list Z) (a : Z) (m : gmap Z Z) : gmap Z Z :=
  match image with
  | [] => m
  | b :: image => load_image image (a + 1) (<[a := u8 b]> m)
  end.

Lemma load_image_ok image a m : bytes_ok m -> bytes_ok (load_image image a m).
Proof.
  revert a m. induction image as [|b image IH]; intros a m Hm; cbn [load_image]; [done|].
  apply IH, bytes_ok_insert; [done|apply u8_range].
Qed.

Lemma store_le_mod n m a v w : 
  v mod 256 ^ Z.of_nat n = w mod 256 ^ Z.of_nat n -> store_le n m a v = store_le n m a w.
Proof.
  revert m a v w. induction n as [|n IH]; intros m a v w H; [done|]. cbn [store_le].
  rewrite Nat2Z.inj_succ, Z.pow_succ_r in H by lia.
  assert (0 < 256 ^ Z.of_nat n) by (apply Z.pow_pos_nonneg; lia).
  rewrite !Z.rem_mul_r in H by lia. unfold u8.
  pose proof (Z.mod_pos_bound v 256). pose proof (Z.mod_pos_bound w 256).
  assert (v mod 256 = w mod 256 /\ (v / 256) mod 256 ^ Z.of_nat n = (w / 256) mod 256 ^ Z.of_nat n)
    as [-> Hq] by lia.
  apply IH. exact Hq.
Qed.
