(* ===== verification/Isa.v ===== *)
(** * The RV32I instruction set

    An abstract specification for the RISC-V simulators of [usr/sim]: the
    instructions of the base integer set, their encoding and what each does to
    the registers, the program counter and the memory. It follows the
    instruction set manual, not the simulators: register 0 reads 0, shifts use
    the low five bits of their amount, a jump reads its base register before
    the link register is written. *)

From S2P Require Import Prelude Words.

(** ** Instructions *)

Inductive alu : Type := Add | Sub | Sll | Slt | Sltu | Xor | Srl | Sra | Or | And.
Inductive cond : Type := Eq | Ne | Lt | Ge | Ltu | Geu.
Inductive width : Type := B | H | W.

Inductive instr : Type :=
| Lui (rd imm : Z)
| Auipc (rd imm : Z)
| Jal (rd off : Z)
| Jalr (rd rs1 imm : Z)
| Branch (c : cond) (rs1 rs2 off : Z)
| Load (w : width) (signed : bool) (rd rs1 imm : Z)
| Store (w : width) (rs1 rs2 imm : Z)
| OpImm (op : alu) (rd rs1 imm : Z)
| Op (op : alu) (rd rs1 rs2 : Z).

#[export] Instance alu_eq_dec : EqDecision alu.
Proof. solve_decision. Defined.

Definition is_shift (op : alu) : bool :=
  match op with Sll | Srl | Sra => true | _ => false end.

(** ** Encoding *)

Definition is_reg (x : Z) : Prop := 0 <= x < 32.
Definition is_imm12 (x : Z) : Prop := -2048 <= x < 2048.

(** The operands that have an encoding. *)
Definition valid (i : instr) : Prop :=
  match i with
  | Lui rd imm | Auipc rd imm => is_reg rd /\ 0 <= imm < 1048576
  | Jal rd off => is_reg rd /\ -1048576 <= off < 1048576 /\ off mod 2 = 0
  | Jalr rd rs1 imm => is_reg rd /\ is_reg rs1 /\ is_imm12 imm
  | Branch _ rs1 rs2 off => is_reg rs1 /\ is_reg rs2 /\ -4096 <= off < 4096 /\ off mod 2 = 0
  | Load w signed rd rs1 imm =>
      is_reg rd /\ is_reg rs1 /\ is_imm12 imm /\ (w = W -> signed = true)
  | Store _ rs1 rs2 imm => is_reg rs1 /\ is_reg rs2 /\ is_imm12 imm
  | OpImm op rd rs1 imm =>
      is_reg rd /\ is_reg rs1 /\ op <> Sub
      /\ if is_shift op then 0 <= imm < 32 else is_imm12 imm
  | Op _ rd rs1 rs2 => is_reg rd /\ is_reg rs1 /\ is_reg rs2
  end.

Definition alu_funct3 (op : alu) : Z :=
  match op with
  | Add | Sub => 0 | Sll => 1 | Slt => 2 | Sltu => 3 | Xor => 4 | Srl | Sra => 5
  | Or => 6 | And => 7
  end.
Definition alu_funct7 (op : alu) : Z := match op with Sub | Sra => 32 | _ => 0 end.
Definition cond_funct3 (c : cond) : Z :=
  match c with Eq => 0 | Ne => 1 | Lt => 4 | Ge => 5 | Ltu => 6 | Geu => 7 end.
Definition width_funct3 (w : width) : Z := match w with B => 0 | H => 1 | W => 2 end.

(** The six fields of the R format; the other formats spread an immediate
    over some of them. *)
Definition r_type (funct7 rs2 rs1 funct3 rd opcode : Z) : Z :=
  funct7 * 33554432 + rs2 * 1048576 + rs1 * 32768 + funct3 * 4096 + rd * 128 + opcode.

Definition i_type (imm rs1 funct3 rd opcode : Z) : Z :=
  let imm := imm mod 4096 in r_type (imm / 32) (imm mod 32) rs1 funct3 rd opcode.

Definition s_type (imm rs2 rs1 funct3 opcode : Z) : Z :=
  let imm := imm mod 4096 in r_type (imm / 32) rs2 rs1 funct3 (imm mod 32) opcode.

Definition b_type (off rs2 rs1 funct3 opcode : Z) : Z :=
  let off := off mod 8192 in
  r_type (off / 4096 * 64 + (off / 32) mod 64) rs2 rs1 funct3
    ((off / 2) mod 16 * 2 + (off / 2048) mod 2) opcode.

Definition u_type (imm rd opcode : Z) : Z := imm * 4096 + rd * 128 + opcode.

Definition j_type (off rd opcode : Z) : Z :=
  let off := off mod 2097152 in
  u_type (off / 1048576 * 524288 + (off / 2) mod 1024 * 512 + (off / 2048) mod 2 * 256
    + (off / 4096) mod 256) rd opcode.

Definition encode (i : instr) : Z :=
  match i with
  | Lui rd imm => u_type imm rd 0x37
  | Auipc rd imm => u_type imm rd 0x17
  | Jal rd off => j_type off rd 0x6f
  | Jalr rd rs1 imm => i_type imm rs1 0 rd 0x67
  | Branch c rs1 rs2 off => b_type off rs2 rs1 (cond_funct3 c) 0x63
  | Load w signed rd rs1 imm =>
      i_type imm rs1 (width_funct3 w + if signed then 0 else 4) rd 0x03
  | Store w rs1 rs2 imm => s_type imm rs2 rs1 (width_funct3 w) 0x23
  | OpImm op rd rs1 imm =>
      if is_shift op
      then r_type (alu_funct7 op) imm rs1 (alu_funct3 op) rd 0x13
      else i_type imm rs1 (alu_funct3 op) rd 0x13
  | Op op rd rs1 rs2 => r_type (alu_funct7 op) rs2 rs1 (alu_funct3 op) rd 0x33
  end.

(** ** Semantics *)

(** Operands and results are signed 32-bit values. *)
Definition alu_result (op : alu) (a b : Z) : Z :=
  match op with
  | Add => i32 (a + b)
  | Sub => i32 (a - b)
  | Sll => i32 (a * 2 ^ (b mod 32))
  | Slt => cbool (a <? b)
  | Sltu => cbool (u32 a <? u32 b)
  | Xor => Z.lxor a b
  | Srl => i32 (u32 a / 2 ^ (b mod 32))
  | Sra => a / 2 ^ (b mod 32)
  | Or => Z.lor a b
  | And => Z.land a b
  end.

Definition holds (c : cond) (a b : Z) : bool :=
  match c with
  | Eq => a =? b
  | Ne => negb (a =? b)
  | Lt => a <? b
  | Ge => b <=? a
  | Ltu => u32 a <? u32 b
  | Geu => u32 b <=? u32 a
  end.

Definition width_bytes (w : width) : nat := match w with B => 1 | H => 2 | W => 4 end.

(** The value a load gives a register. *)
Definition extend (w : width) (signed : bool) (v : Z) : Z :=
  match w, signed with
  | B, true => i8 v
  | H, true => i16 v
  | W, _ => i32 v
  | _, false => v
  end.

(** What an instruction changes: a register, the program counter, bytes of
    the memory. *)
Record effect : Type := mk_effect {
  e_reg : option (Z * Z);
  e_next : Z;
  e_mem : option (nat * Z * Z)
}.

(** The effect of [i] at [pc], for registers [x] and a memory that [load]
    reads. *)
Definition isa (x : Z -> Z) (load : nat -> Z -> Z) (pc : Z) (i : instr) : effect :=
  let next := u32 (pc + 4) in
  match i with
  | Lui rd imm => mk_effect (Some (rd, i32 (imm * 4096))) next None
  | Auipc rd imm => mk_effect (Some (rd, i32 (pc + imm * 4096))) next None
  | Jal rd off => mk_effect (Some (rd, i32 next)) (u32 (pc + off)) None
  | Jalr rd rs1 imm =>
      mk_effect (Some (rd, i32 next)) (u32 (x rs1 + imm) / 2 * 2) None
  | Branch c rs1 rs2 off =>
      mk_effect None (if holds c (x rs1) (x rs2) then u32 (pc + off) else next) None
  | Load w signed rd rs1 imm =>
      mk_effect (Some (rd, extend w signed (load (width_bytes w) (u32 (x rs1 + imm))))) next None
  | Store w rs1 rs2 imm =>
      mk_effect None next (Some (width_bytes w, u32 (x rs1 + imm), u32 (x rs2)))
  | OpImm op rd rs1 imm => mk_effect (Some (rd, alu_result op (x rs1) imm)) next None
  | Op op rd rs1 rs2 => mk_effect (Some (rd, alu_result op (x rs1) (x rs2))) next None
  end.
