(* ===== verification/SimRV32.v ===== *)
(** * The HF-RISCV instruction set simulator

    [usr/sim/hf_riscv_sim/hf_riscv_sim.c]: the machine state, the memory with
    its memory-mapped registers, the decoder, the execution of each RV32I
    instruction, interrupt entry and the timers. The host is little-endian, as
    the simulator assumes. *)

From S2P Require Import Prelude Words SimBase.

Definition MEM_SIZE : Z := 0x00100000.
Definition SRAM_BASE : Z := 0x40000000.
Definition EXIT_TRAP : Z := 0xe0000000.
Definition IRQ_VECTOR : Z := 0xf0000000.
Definition IRQ_CAUSE : Z := 0xf0000010.
Definition IRQ_MASK : Z := 0xf0000020.
Definition IRQ_STATUS : Z := 0xf0000030.
Definition IRQ_EPC : Z := 0xf0000040.
Definition COUNTER : Z := 0xf0000050.
Definition COMPARE : Z := 0xf0000060.
Definition COMPARE2 : Z := 0xf0000070.
Definition DEBUG_ADDR : Z := 0xf00000d0.
Definition UART_WRITE : Z := 0xf00000e0.
Definition UART_READ : Z := 0xf00000e0.
Definition UART_DIVISOR : Z := 0xf00000f0.

(** ** State *)

(** The simulated machine with the process' standard streams and log file.
    [r] holds 32 signed registers, [mem] the bytes of [sram]. *)
Record state : Type := mk_state {
  r : list Z;
  pc : Z;
  pc_next : Z;
  mem : gmap Z Z;
  vector : Z;
  cause : Z;
  mask : Z;
  status : Z;
  status_dly : list Z;
  epc : Z;
  counter : Z;
  compare : Z;
  compare2 : Z;
  cycles : Z;
  log_enabled : bool;
  stdin : list Z;
  stdout : list Z;
  logfile : list Z
}.

Definition set_r (v : list Z) (s : state) : state :=
  mk_state v (pc s) (pc_next s) (mem s) (vector s) (cause s) (mask s) (status s)
    (status_dly s) (epc s) (counter s) (compare s) (compare2 s) (cycles s)
    (log_enabled s) (stdin s) (stdout s) (logfile s).
Definition set_pcs (v w : Z) (s : state) : state :=
  mk_state (r s) v w (mem s) (vector s) (cause s) (mask s) (status s)
    (status_dly s) (epc s) (counter s) (compare s) (compare2 s) (cycles s)
    (log_enabled s) (stdin s) (stdout s) (logfile s).
Definition set_mem (v : gmap Z Z) (s : state) : state :=
  mk_state (r s) (pc s) (pc_next s) v (vector s) (cause s) (mask s) (status s)
    (status_dly s) (epc s) (counter s) (compare s) (compare2 s) (cycles s)
    (log_enabled s) (stdin s) (stdout s) (logfile s).
Definition set_vector (v : Z) (s : state) : state :=
  mk_state (r s) (pc s) (pc_next s) (mem s) v (cause s) (mask s) (status s)
    (status_dly s) (epc s) (counter s) (compare s) (compare2 s) (cycles s)
    (log_enabled s) (stdin s) (stdout s) (logfile s).
Definition set_cause (v : Z) (s : state) : state :=
  mk_state (r s) (pc s) (pc_next s) (mem s) (vector s) v (mask s) (status s)
    (status_dly s) (epc s) (counter s) (compare s) (compare2 s) (cycles s)
    (log_enabled s) (stdin s) (stdout s) (logfile s).
Definition set_mask (v : Z) (s : state) : state :=
  mk_state (r s) (pc s) (pc_next s) (mem s) (vector s) (cause s) v (status s)
    (status_dly s) (epc s) (counter s) (compare s) (compare2 s) (cycles s)
    (log_enabled s) (stdin s) (stdout s) (logfile s).
Definition set_status (v : Z) (d : list Z) (s : state) : state :=
  mk_state (r s) (pc s) (pc_next s) (mem s) (vector s) (cause s) (mask s) v
    d (epc s) (counter s) (compare s) (compare2 s) (cycles s)
    (log_enabled s) (stdin s) (stdout s) (logfile s).
Definition set_epc (v : Z) (s : state) : state :=
  mk_state (r s) (pc s) (pc_next s) (mem s) (vector s) (cause s) (mask s) (status s)
    (status_dly s) v (counter s) (compare s) (compare2 s) (cycles s)
    (log_enabled s) (stdin s) (stdout s) (logfile s).
Definition set_counter (v : Z) (s : state) : state :=
  mk_state (r s) (pc s) (pc_next s) (mem s) (vector s) (cause s) (mask s) (status s)
    (status_dly s) (epc s) v (compare s) (compare2 s) (cycles s)
    (log_enabled s) (stdin s) (stdout s) (logfile s).
Definition set_compare (v w : Z) (s : state) : state :=
  mk_state (r s) (pc s) (pc_next s) (mem s) (vector s) (cause s) (mask s) (status s)
    (status_dly s) (epc s) (counter s) v w (cycles s)
    (log_enabled s) (stdin s) (stdout s) (logfile s).
Definition set_cycles (v : Z) (s : state) : state :=
  mk_state (r s) (pc s) (pc_next s) (mem s) (vector s) (cause s) (mask s) (status s)
    (status_dly s) (epc s) (counter s) (compare s) (compare2 s) v
    (log_enabled s) (stdin s) (stdout s) (logfile s).
Definition set_streams (i o l : list Z) (s : state) : state :=
  mk_state (r s) (pc s) (pc_next s) (mem s) (vector s) (cause s) (mask s) (status s)
    (status_dly s) (epc s) (counter s) (compare s) (compare2 s) (cycles s)
    (log_enabled s) i o l.

(** ** Memory *)

(** [*ptr] for [n] bytes at [s->mem + (address % MEM_SIZE)]; nothing beyond
    the array. *)
Definition sram_load (n : nat) (address : Z) : SM state Z :=
  m ← sget mem;
  sguard (address mod MEM_SIZE + Z.of_nat n <=? MEM_SIZE)
    (load_le n m (address mod MEM_SIZE)).

Definition sram_store (n : nat) (address value : Z) : SM state unit :=
  _ ← sguard (address mod MEM_SIZE + Z.of_nat n <=? MEM_SIZE) tt;
  smod (fun s => set_mem (store_le n (mem s) (address mod MEM_SIZE) value) s).

Definition mem_fetch (address : Z) : SM state Z :=
  value ← sram_load 4 address; mret (i32 value).

(** The next character of the standard input, [EOF] at its end. *)
Definition getchar : SM state Z := fun s =>
  match stdin s with
  | [] => Val (-1) s
  | c :: cs => Val c (set_streams cs (stdout s) (logfile s) s)
  end.

Definition mem_read (size address : Z) : SM state Z :=
  if address =? IRQ_VECTOR then v ← sget vector; mret (i32 v) else
  if address =? IRQ_CAUSE then v ← sget cause; mret (i32 (Z.lor (Z.lor v 0x0080) 0x0040)) else
  if address =? IRQ_MASK then v ← sget mask; mret (i32 v) else
  if address =? IRQ_STATUS then v ← sget status; mret (i32 v) else
  if address =? IRQ_EPC then v ← sget epc; mret (i32 v) else
  if address =? COUNTER then v ← sget counter; mret (i32 v) else
  if address =? COMPARE then v ← sget compare; mret (i32 v) else
  if address =? COMPARE2 then v ← sget compare2; mret (i32 v) else
  if address =? UART_READ then getchar else
  if address =? UART_DIVISOR then mret 0 else
  if size =? 4 then
    if nz (Z.land address 3) then sexit 1
    else v ← sram_load 4 address; mret (i32 v)
  else if size =? 2 then
    if nz (Z.land address 1) then sexit 1
    else v ← sram_load 2 address; mret (i16 v)
  else if size =? 1 then
    v ← sram_load 1 address; mret (i8 v)
  else mret 0.

Definition mem_write (size address value : Z) : SM state unit :=
  if address =? IRQ_VECTOR then smod (set_vector value) else
  if address =? IRQ_CAUSE then smod (set_cause value) else
  if address =? IRQ_MASK then smod (set_mask value) else
  if address =? IRQ_STATUS then
    if value =? 0 then smod (set_status 0 [0; 0; 0; 0])
    else smod (fun s => set_status (status s) (zset (status_dly s) 3 value) s)
  else
  if address =? IRQ_EPC then smod (set_epc value) else
  if address =? COUNTER then smod (set_counter value) else
  if address =? COMPARE then
    smod (fun s => set_cause (Z.land (cause s) 0xffef) (set_compare value (compare2 s) s)) else
  if address =? COMPARE2 then
    smod (fun s => set_cause (Z.land (cause s) 0xffdf) (set_compare (compare s) value s)) else
  if address =? EXIT_TRAP then sexit 0 else
  if address =? DEBUG_ADDR then
    smod (fun s => if log_enabled s
      then set_streams (stdin s) (stdout s) (logfile s ++ [Z.land value 0xff]) s else s) else
  if address =? UART_WRITE then
    smod (fun s => set_streams (stdin s) (stdout s ++ [Z.land value 0xff]) (logfile s) s) else
  if address =? UART_DIVISOR then mret tt else
  if size =? 4 then
    if nz (Z.land address 3) then sexit 1 else sram_store 4 address value
  else if size =? 2 then
    if nz (Z.land address 1) then sexit 1 else sram_store 2 address (u16 value)
  else if size =? 1 then sram_store 1 address (u8 value)
  else mret tt.

(** ** Decoding *)

Record fields : Type := mk_fields {
  opcode : Z; rd : Z; rs1 : Z; rs2 : Z; funct3 : Z; funct7 : Z;
  imm_i : Z; imm_s : Z; imm_sb : Z; imm_u : Z; imm_uj : Z
}.

Definition decode (inst : Z) : fields :=
  let imm_i := Z.shiftr (Z.land inst 0xfff00000) 20 in
  let imm_s := Z.lor (Z.shiftr (Z.land inst 0xf80) 7) (Z.shiftr (Z.land inst 0xfe000000) 20) in
  let imm_sb := Z.lor (Z.lor (Z.lor (Z.shiftr (Z.land inst 0xf00) 7)
    (Z.shiftr (Z.land inst 0x7e000000) 20)) (u32 (Z.shiftl (Z.land inst 0x80) 4)))
    (Z.shiftr (Z.land inst 0x80000000) 19) in
  let imm_u := Z.land inst 0xfffff000 in
  let imm_uj := Z.lor (Z.lor (Z.lor (Z.shiftr (Z.land inst 0x7fe00000) 20)
    (Z.shiftr (Z.land inst 0x100000) 9)) (Z.land inst 0xff000))
    (Z.shiftr (Z.land inst 0x80000000) 11) in
  let negative := nz (Z.land inst 0x80000000) in
  mk_fields (Z.land inst 0x7f) (Z.land (Z.shiftr inst 7) 0x1f)
    (Z.land (Z.shiftr inst 15) 0x1f) (Z.land (Z.shiftr inst 20) 0x1f)
    (Z.land (Z.shiftr inst 12) 0x7) (Z.land (Z.shiftr inst 25) 0x7f)
    (if negative then Z.lor imm_i 0xfffff000 else imm_i)
    (if negative then Z.lor imm_s 0xfffff000 else imm_s)
    (if negative then Z.lor imm_sb 0xffffe000 else imm_sb)
    imm_u
    (if negative then Z.lor imm_uj 0xffe00000 else imm_uj).

(** ** Execution *)

(** [r[i]], [u[i]] and [r[i] = v]. *)
Definition rget (i : Z) : SM state Z :=
  l ← sget r; match zget l i with Some x => mret x | None => sundef end.
Definition uget (i : Z) : SM state Z := x ← rget i; mret (u32 x).
Definition rset (i v : Z) : SM state unit :=
  l ← sget r;
  match zget l i with Some _ => smod (set_r (zset l i (i32 v))) | None => sundef end.

Definition set_pc_next (v : Z) (s : state) : state := set_pcs (pc s) (u32 v) s.

(** [goto fail]. *)
Definition fail {A : Type} : SM state A := sexit 0.

Definition branch (taken : bool) (f : fields) : SM state unit :=
  swhen taken (smod (fun s => set_pc_next (pc s + imm_sb f) s)).

Definition exec_branch (f : fields) : SM state unit :=
  a ← rget (rs1 f); b ← rget (rs2 f);
  match funct3 f with
  | 0x0 => branch (a =? b) f
  | 0x1 => branch (negb (a =? b)) f
  | 0x4 => branch (a <? b) f
  | 0x5 => branch (b <=? a) f
  | 0x6 => branch (u32 a <? u32 b) f
  | 0x7 => branch (u32 b <=? u32 a) f
  | _ => fail
  end.

Definition exec_load (f : fields) (ptr_l : Z) : SM state unit :=
  match funct3 f with
  | 0x0 => v ← mem_read 1 ptr_l; rset (rd f) (i8 v)
  | 0x1 => v ← mem_read 2 ptr_l; rset (rd f) (i16 v)
  | 0x2 => v ← mem_read 4 ptr_l; rset (rd f) v
  | 0x4 => v ← mem_read 1 ptr_l; rset (rd f) (u8 v)
  | 0x5 => v ← mem_read 2 ptr_l; rset (rd f) (u16 v)
  | _ => fail
  end.

Definition exec_store (f : fields) (ptr_s : Z) : SM state unit :=
  match funct3 f with
  | 0x0 => v ← uget (rs2 f); mem_write 1 ptr_s v
  | 0x1 => v ← uget (rs2 f); mem_write 2 ptr_s v
  | 0x2 => v ← uget (rs2 f); mem_write 4 ptr_s v
  | _ => fail
  end.

Definition exec_op_imm (f : fields) : SM state unit :=
  a ← rget (rs1 f);
  let imm := i32 (imm_i f) in
  match funct3 f with
  | 0x0 => rset (rd f) (a + imm)
  | 0x2 => rset (rd f) (cbool (a <? imm))
  | 0x3 => rset (rd f) (cbool (u32 a <? imm_i f))
  | 0x4 => rset (rd f) (Z.lxor a imm)
  | 0x6 => rset (rd f) (Z.lor a imm)
  | 0x7 => rset (rd f) (Z.land a imm)
  | 0x1 =>
      let n := Z.land (rs2 f) 0x3f in
      v ← shift_ok n (u32 (Z.shiftl (u32 a) n)); rset (rd f) v
  | 0x5 =>
      let n := Z.land (rs2 f) 0x3f in
      match funct7 f with
      | 0x0 => v ← shift_ok n (Z.shiftr (u32 a) n); rset (rd f) v
      | 0x20 => v ← shift_ok n (Z.shiftr a n); rset (rd f) v
      | _ => fail
      end
  | _ => fail
  end.

Definition exec_op (f : fields) : SM state unit :=
  a ← rget (rs1 f); b ← rget (rs2 f);
  match funct3 f with
  | 0x0 =>
      match funct7 f with
      | 0x0 => rset (rd f) (a + b)
      | 0x20 => rset (rd f) (a - b)
      | _ => fail
      end
  | 0x1 => v ← shift_ok b (Z.shiftl a b); rset (rd f) v
  | 0x2 => rset (rd f) (cbool (a <? b))
  | 0x3 => rset (rd f) (cbool (u32 a <? u32 b))
  | 0x4 => rset (rd f) (Z.lxor a b)
  | 0x5 =>
      match funct7 f with
      | 0x0 => v ← shift_ok (u32 b) (Z.shiftr (u32 a) (u32 b)); rset (rd f) v
      | 0x20 => v ← shift_ok b (Z.shiftr a b); rset (rd f) v
      | _ => fail
      end
  | 0x6 => rset (rd f) (Z.lor a b)
  | 0x7 => rset (rd f) (Z.land a b)
  | _ => fail
  end.

(** The outer switch, on the major opcode. *)
Definition exec (f : fields) (ptr_l ptr_s : Z) : SM state unit :=
  match opcode f with
  | 0x37 => rset (rd f) (imm_u f)
  | 0x17 => p ← sget pc; rset (rd f) (p + imm_u f)
  | 0x6f =>
      n ← sget pc_next; _ ← rset (rd f) n;
      smod (fun s => set_pc_next (pc s + imm_uj f) s)
  | 0x67 =>
      n ← sget pc_next; _ ← rset (rd f) n;
      a ← rget (rs1 f);
      smod (set_pc_next (Z.land (u32 (a + imm_i f)) 0xfffffffe))
  | 0x63 => exec_branch f
  | 0x3 => exec_load f ptr_l
  | 0x23 => exec_store f ptr_s
  | 0x13 => exec_op_imm f
  | 0x33 => exec_op f
  | _ => fail
  end.

(** ** One cycle *)

(** Interrupt entry. *)
Definition interrupt (s : state) : state :=
  if nz (status s) && nz (Z.land (cause s) (mask s)) then
    set_status 0 [0; 0; 0; 0] (set_pcs (vector s) (u32 (vector s + 4)) (set_epc (pc_next s) s))
  else s.

(** The program counters and the delayed interrupt enable. *)
Definition advance (s : state) : state :=
  match status_dly s with
  | [d0; d1; d2; d3] =>
      set_status d0 [d1; d2; d3; d3] (set_pcs (pc_next s) (u32 (pc_next s + 4)) s)
  | _ => s
  end.

(** The counter and the interrupt causes it drives. *)
Definition timers (s : state) : state :=
  let s := set_counter (u32 (counter s + 1)) (set_cycles (u64 (cycles s + 1)) s) in
  let c := counter s in
  let k := cause s in
  let k := if Z.land (compare2 s) 0xffffff =? Z.land c 0xffffff then Z.lor k 0x20 else k in
  let k := if compare s =? c then Z.lor k 0x10 else k in
  let k := if nz (Z.land c 0x10000) then Z.land k 0xfff7 else Z.lor k 0x8 in
  let k := if nz (Z.land c 0x10000) then Z.lor k 0x4 else Z.land k 0xfffb in
  let k := if nz (Z.land c 0x40000) then Z.land k 0xfffd else Z.lor k 0x2 in
  let k := if nz (Z.land c 0x40000) then Z.lor k 0x1 else Z.land k 0xfffe in
  set_cause k s.

Definition cycle : SM state unit :=
  _ ← smod interrupt;
  p ← sget pc;
  inst ← mem_fetch p;
  let f := decode (u32 inst) in
  a ← rget (rs1 f);
  let ptr_l := u32 (a + i32 (imm_i f)) in
  let ptr_s := u32 (a + i32 (imm_s f)) in
  _ ← rset 0 0;
  _ ← exec f ptr_l ptr_s;
  _ ← smod advance;
  smod timers.

(** ** Start and run *)

(** The state [main] enters its loop in: an empty image ends the program with
    status 1. *)
Definition boot (image input : list Z) (logging : bool) : option state :=
  let image := take (Z.to_nat MEM_SIZE) image in
  match image with
  | [] => None
  | _ =>
      let sram := load_image image 0 (store_le 4 ∅ 0 0xffffffff) in
      Some (mk_state (replicate 32 0) SRAM_BASE (SRAM_BASE + 4) sram 0 0 0 0 [0; 0; 0; 0]
        0 0 0 0 0 logging input [] [])
  end.

(** [for(;;) cycle(s)], for [n] cycles. *)
Fixpoint run (n : nat) : SM state unit :=
  match n with
  | O => mret tt
  | S n => _ ← cycle; run n
  end.

(** ** The types of the state are kept *)

(** Every member holds a value of its C type, the register file has 32
    entries, [status_dly] has 4, and [pc_next] follows [pc]. *)
Record wf (s : state) : Prop := mk_wf {
  wf_r_len : length (r s) = 32%nat;
  wf_r : Forall is_i32 (r s);
  wf_pc : is_u32 (pc s);
  wf_pc_next : is_u32 (pc_next s);
  wf_mem : bytes_ok (mem s);
  wf_vector : is_u32 (vector s);
  wf_cause : is_u32 (cause s);
  wf_mask : is_u32 (mask s);
  wf_status : is_u32 (status s);
  wf_dly_len : length (status_dly s) = 4%nat;
  wf_dly : Forall is_u32 (status_dly s);
  wf_epc : is_u32 (epc s);
  wf_counter : is_u32 (counter s);
  wf_compare : is_u32 (compare s);
  wf_compare2 : is_u32 (compare2 s);
  wf_cycles : 0 <= cycles s < 18446744073709551616
}.

Section types.

(** A register write and an update of [pc_next] keep the types. *)
Lemma wf_set_r s i v : wf s -> wf (set_r (zset (r s) i (i32 v)) s).
Proof.
  intros []. split; try done; cbn [r set_r].
  - by rewrite zset_length.
  - apply zset_Forall; [done|apply i32_range].
Qed.

Lemma wf_set_pcs s v w : wf s -> is_u32 v -> is_u32 w -> wf (set_pcs v w s).
Proof. by intros [] ??. Qed.

Lemma rset_wf i v : respects wf (fun _ => True) (rset i v).
Proof.
  intros s Hs. unfold rset; sm_unfold. destruct (zget (r s) i); [|done].
  split; [done|]. by apply wf_set_r.
Qed.

Lemma rget_wf i : respects wf is_i32 (rget i).
Proof.
  intros s Hs. unfold rget; sm_unfold. destruct (zget (r s) i) as [x|] eqn:E; [|done].
  split; [|done]. eapply zget_Forall; [|exact E]. apply Hs.
Qed.

Lemma rget_wf_True i : respects wf (fun _ => True) (rget i).
Proof. eapply respects_weaken, rget_wf. done. Qed.

Lemma pc_next_wf f : respects wf (fun _ => True) (smod (fun s => set_pc_next (f s) s)).
Proof.
  apply respects_mod. intros s Hs. apply wf_set_pcs; [done|apply Hs|apply u32_range].
Qed.

Lemma getchar_wf : respects wf (fun _ => True) getchar.
Proof. intros s []. unfold getchar. by destruct (stdin s). Qed.

Lemma sram_load_wf n a : respects wf (fun _ => True) (sram_load n a).
Proof. unfold sram_load. repeat respects_step. Qed.

Lemma sram_store_wf n a v : respects wf (fun _ => True) (sram_store n a v).
Proof.
  unfold sram_store. repeat respects_step. apply respects_mod.
  intros s []. split; try done; cbn [mem set_mem]. by apply store_le_ok.
Qed.

Lemma mem_read_wf size a : respects wf (fun _ => True) (mem_read size a).
Proof.
  unfold mem_read. repeat first [apply getchar_wf | apply sram_load_wf | respects_step].
Qed.

Lemma mem_write_wf size a v :
  is_u32 v -> respects wf (fun _ => True) (mem_write size a v).
Proof.
  intros Hv. unfold mem_write.
  repeat first [apply sram_store_wf | respects_step];
    apply respects_mod; intros s Hs; try (by destruct Hs);
    destruct Hs; split; try done; cbn;
    first [by apply is_u32_land | by rewrite zset_length | by apply zset_Forall
      | (by destruct (log_enabled s)) | idtac].
  all: try (unfold is_u32; repeat constructor; lia).
Qed.

Lemma shift_wf n v : respects wf (fun _ => True) (shift_ok n v).
Proof. unfold shift_ok. by repeat respects_step. Qed.

Lemma uget_wf i : respects wf is_u32 (uget i).
Proof.
  unfold uget. eapply respects_bind; [apply rget_wf|]. intros a _.
  apply respects_ret, u32_range.
Qed.

Lemma exec_store_wf f p : respects wf (fun _ => True) (exec_store f p).
Proof.
  unfold exec_store, fail.
  repeat first [ eapply respects_bind; [apply uget_wf|]; intros ? ?; by apply mem_write_wf
    | respects_step ].
Qed.

Lemma exec_wf f p q : respects wf (fun _ => True) (exec f p q).
Proof.
  unfold exec, exec_branch, exec_load, exec_op_imm, exec_op, branch, fail, uget.
  repeat first [ apply exec_store_wf | apply rset_wf | apply rget_wf_True | apply pc_next_wf
    | apply mem_read_wf | apply shift_wf | respects_step].
Qed.

Lemma interrupt_wf s : wf s -> wf (interrupt s).
Proof.
  intros Hs. unfold interrupt. destruct (_ && _); [|done].
  destruct Hs; split; try done; cbn.
  - apply u32_range.
  - repeat constructor; lia.
Qed.

Lemma advance_wf s : wf s -> wf (advance s).
Proof.
  intros Hs. unfold advance.
  destruct (status_dly s) as [|d0 [|d1 [|d2 [|d3 [|]]]]] eqn:E; try done.
  destruct Hs as [???????????Hd]. rewrite E in Hd.
  apply list.Forall_cons in Hd as [H0 Hd]. apply list.Forall_cons in Hd as [H1 Hd].
  apply list.Forall_cons in Hd as [H2 Hd]. apply list.Forall_cons in Hd as [H3 _].
  split; try done; cbn; [apply u32_range|].
  by repeat (apply list.Forall_cons; split; [done|]).
Qed.

Lemma timers_wf s : wf s -> wf (timers s).
Proof.
  intros []. unfold timers. split; try done; cbn -[Z.land Z.lor].
  - repeat match goal with |- context [if ?b then _ else _] => destruct b end;
      repeat first [apply is_u32_land | apply is_u32_lor; [|done] | done].
  - apply u32_range.
  - apply u64_range.
Qed.

Lemma cycle_wf : respects wf (fun _ => True) cycle.
Proof.
  unfold cycle. respects_step; [apply respects_mod, interrupt_wf|].
  respects_step; [respects_step; done|].
  unfold mem_fetch.
  repeat first [ apply sram_load_wf | apply rget_wf_True | apply rset_wf | apply exec_wf
    | apply respects_mod, advance_wf | apply respects_mod, timers_wf | respects_step].
Qed.

Lemma run_wf n : respects wf (fun _ => True) (run n).
Proof. induction n as [|n IH]; cbn [run]; repeat first [apply cycle_wf | apply IH | respects_step]. Qed.

Lemma boot_wf image input logging s : boot image input logging = Some s -> wf s.
Proof.
  unfold boot. destruct (take _ image) as [|b l]; [done|].
  assert (Hm : bytes_ok (load_image (b :: l) 0 (store_le 4 ∅ 0 0xffffffff))).
  { apply load_image_ok, store_le_ok. intros a x. by rewrite lookup_empty. }
  intros [= <-].
  split; cbn [r pc pc_next mem vector cause mask status status_dly epc counter compare
    compare2 cycles]; try (unfold is_u32, SRAM_BASE; lia); try done.
  - apply (Forall_replicate is_i32 32). unfold is_i32. lia.
  - repeat constructor; lia.
Qed.
End types.

