(* ===== verification/SimRV32Spec.v ===== *)
(** * The HF-RISCV simulator executes RV32I

    The decoder of [hf_riscv_sim.c] recovers the operands of every encoded
    instruction, and a simulator cycle without a pending interrupt has exactly
    the effect the instruction set specifies, outside the cases the theorems
    single out: a jump whose link register is its base register, a register
    shift amount of 32 or more, a load or store through a stale register 0. *)

From S2P Require Import Prelude Words SimBase Isa SimRV32.

(** ** The decoder *)

(** The fields of a word by division. [sg] is the sign extension of the
    immediates. *)
Definition decode_arith (w : Z) : fields :=
  let sg (m : Z) := if 2147483648 <=? w then m else 0 in
  mk_fields (w mod 128) ((w / 128) mod 32) ((w / 32768) mod 32) ((w / 1048576) mod 32)
    ((w / 4096) mod 8) ((w / 33554432) mod 128)
    (w / 1048576 + sg 0xfffff000)
    (w / 33554432 * 32 + (w / 128) mod 32 + sg 0xfffff000)
    (w / 2147483648 * 4096 + (w / 128) mod 2 * 2048 + (w / 33554432) mod 64 * 32
      + (w / 256) mod 16 * 2 + sg 0xffffe000)
    (w / 4096 * 4096)
    (w / 2147483648 * 1048576 + (w / 4096) mod 256 * 4096 + (w / 1048576) mod 2 * 2048
      + (w / 2097152) mod 1024 * 2 + sg 0xffe00000).

Section decoder.
Implicit Types w : Z.

Lemma decode_arith_eq w : 0 <= w < 4294967296 -> decode w = decode_arith w.
Proof.
  intros Hw. unfold decode, decode_arith. cbv zeta beta.
  assert (Hsg : nz (Z.land w 0x80000000) = (2147483648 <=? w))
    by (apply (land_top w 31); [lia|split; [lia|exact (proj2 Hw)]]).
  rewrite Hsg.
  rewrite (land_ones_eq w 0x7f 7), (land_ones_eq (Z.shiftr w 7) 0x1f 5),
    (land_ones_eq (Z.shiftr w 15) 0x1f 5), (land_ones_eq (Z.shiftr w 20) 0x1f 5),
    (land_ones_eq (Z.shiftr w 12) 0x7 3), (land_ones_eq (Z.shiftr w 25) 0x7f 7) by done.
  rewrite (land_field_shr w 0xfff00000 20 12 20), (land_field_shr w 0xf80 7 5 7),
    (land_field_shr w 0xfe000000 25 7 20), (land_field_shr w 0xf00 8 4 7),
    (land_field_shr w 0x7e000000 25 6 20), (land_field_shr w 0x80000000 31 1 19),
    (land_field_shr w 0x7fe00000 21 10 20), (land_field_shr w 0x100000 20 1 9),
    (land_field_shr w 0x80000000 31 1 11) by (done || lia).
  assert (Hb : u32 (Z.shiftl (Z.land w 0x80) 4) = (w / 128) mod 2 * 2 ^ 11).
  { change (Z.land w 0x80) with (Z.land w (Z.shiftl (Z.ones 1) 7)).
    rewrite land_field, Z.shiftl_mul_pow2 by lia. change (2 ^ 4) with 16. change (2 ^ 7) with 128.
    change (2 ^ 1) with 2. change (2 ^ 11) with 2048.
    pose proof (Z.mod_pos_bound (w / 128) 2 ltac:(lia)). rewrite u32_small; lia. }
  assert (Hu : Z.land w 0xfffff000 = w / 4096 mod 2 ^ 20 * 2 ^ 12)
    by exact (land_field w 12 20 ltac:(lia) ltac:(lia)).
  assert (Hj : Z.land w 0xff000 = w / 4096 mod 2 ^ 8 * 2 ^ 12)
    by exact (land_field w 12 8 ltac:(lia) ltac:(lia)).
  rewrite Hb, Hu, Hj, !Z.shiftr_div_pow2 by lia.
  change 0xfffff000 with (1048575 * 2 ^ 12).
  change 0xffffe000 with (524287 * 2 ^ 13). change 0xffe00000 with (2047 * 2 ^ 21).
  set (sg := 2147483648 <=? w). clearbody sg. clear Hsg Hb Hu Hj.
  change (20 - 20) with 0. change (7 - 7) with 0. change (25 - 20) with 5.
  change (8 - 7) with 1. change (31 - 19) with 12.
  change (21 - 20) with 1. change (20 - 9) with 11. change (31 - 11) with 20.
  destruct sg;
    repeat rewrite ?(lor_above_r _ _ 5), ?(lor_above_r _ _ 11), ?(lor_above_r _ _ 12),
      ?(lor_above_r _ _ 20), ?(lor_above_r _ _ 13), ?(lor_above_r _ _ 21)
      by (try lia; pow_norm; change (2 ^ 0) with 1; Z.div_mod_to_equations; lia);
    f_equal; pow_norm; change (2 ^ 0) with 1; Z.div_mod_to_equations; lia.
Qed.
End decoder.

(** The fields of the R format. *)
Lemma decode_r f7 s2 s1 f3 d op :
  0 <= f7 < 128 -> 0 <= s2 < 32 -> 0 <= s1 < 32 -> 0 <= f3 < 8 -> 0 <= d < 32 ->
  0 <= op < 128 ->
  let w := r_type f7 s2 s1 f3 d op in
  let sg (m : Z) := if 64 <=? f7 then m else 0 in
  0 <= w < 4294967296 /\
  exists u uj, decode w =
    mk_fields op d s1 s2 f3 f7 (f7 * 32 + s2 + sg 0xfffff000) (f7 * 32 + d + sg 0xfffff000)
      (f7 / 64 * 4096 + d mod 2 * 2048 + f7 mod 64 * 32 + d / 2 * 2 + sg 0xffffe000) u uj.
Proof.
  intros Hf7 Hs2 Hs1 Hf3 Hd Hop w sg. assert (Hw : 0 <= w < 4294967296) by (unfold w, r_type; lia).
  split; [done|]. eexists _, _. rewrite decode_arith_eq by done. unfold decode_arith.
  assert (Hsg : (2147483648 <=? w) = (64 <=? f7)).
  { unfold w, r_type. destruct (Z.leb_spec 64 f7); [apply Z.leb_le|apply Z.leb_gt]; lia. }
  rewrite Hsg. unfold sg.
  assert (H25 : w / 33554432 = f7) by (unfold w, r_type; Z.div_mod_to_equations; lia).
  assert (H20 : w / 1048576 = f7 * 32 + s2) by (unfold w, r_type; Z.div_mod_to_equations; lia).
  assert (H15 : w / 32768 = (f7 * 32 + s2) * 32 + s1)
    by (unfold w, r_type; Z.div_mod_to_equations; lia).
  assert (H12 : w / 4096 = ((f7 * 32 + s2) * 32 + s1) * 8 + f3)
    by (unfold w, r_type; Z.div_mod_to_equations; lia).
  assert (H7 : w / 128 = (((f7 * 32 + s2) * 32 + s1) * 8 + f3) * 32 + d)
    by (unfold w, r_type; Z.div_mod_to_equations; lia).
  assert (H8 : w / 256 = (((f7 * 32 + s2) * 32 + s1) * 8 + f3) * 16 + d / 2)
    by (change 256 with (128 * 2); rewrite <- Z.div_div, H7 by lia; Z.div_mod_to_equations; lia).
  assert (H31 : w / 2147483648 = f7 / 64)
    by (change 2147483648 with (33554432 * 64); by rewrite <- Z.div_div, H25 by lia).
  assert (H0 : w mod 128 = op) by (unfold w, r_type; Z.div_mod_to_equations; lia).
  rewrite H0, H31, H8, H7, H12, H15, H20, H25.
  f_equal; try reflexivity; clear -Hf7 Hs2 Hs1 Hf3 Hd Hop; destruct (64 <=? f7);
    Z.div_mod_to_equations; lia.
Qed.

(** The fields of the U and J formats. *)
Lemma decode_u imm d op :
  0 <= imm < 1048576 -> 0 <= d < 32 -> 0 <= op < 128 ->
  let w := u_type imm d op in
  let sg (m : Z) := if 524288 <=? imm then m else 0 in
  0 <= w < 4294967296 /\
  exists s1 s2 f3 f7 i s sb, decode w =
    mk_fields op d s1 s2 f3 f7 i s sb (imm * 4096)
      (imm / 524288 * 1048576 + imm mod 256 * 4096 + (imm / 256) mod 2 * 2048
       + (imm / 512) mod 1024 * 2 + sg 0xffe00000)
    /\ 0 <= s1 < 32.
Proof.
  intros Himm Hd Hop w sg. assert (Hw : 0 <= w < 4294967296) by (unfold w, u_type; lia).
  split; [done|]. do 7 eexists. rewrite decode_arith_eq by done. unfold decode_arith.
  assert (Hsg : (2147483648 <=? w) = (524288 <=? imm)).
  { unfold w, u_type. destruct (Z.leb_spec 524288 imm); [apply Z.leb_le|apply Z.leb_gt]; lia. }
  rewrite Hsg. unfold sg. split; [|apply Z.mod_pos_bound; lia].
  assert (H12 : w / 4096 = imm) by (unfold w, u_type; Z.div_mod_to_equations; lia).
  assert (H7 : w / 128 = imm * 32 + d) by (unfold w, u_type; Z.div_mod_to_equations; lia).
  assert (H20 : w / 1048576 = imm / 256)
    by (change 1048576 with (4096 * 256); by rewrite <- Z.div_div, H12 by lia).
  assert (H21 : w / 2097152 = imm / 512)
    by (change 2097152 with (4096 * 512); by rewrite <- Z.div_div, H12 by lia).
  assert (H31 : w / 2147483648 = imm / 524288)
    by (change 2147483648 with (4096 * 524288); by rewrite <- Z.div_div, H12 by lia).
  assert (H0 : w mod 128 = op) by (unfold w, u_type; Z.div_mod_to_equations; lia).
  rewrite H0, H31, H12, H7, H20, H21.
  f_equal; try reflexivity; clear -Himm Hd Hop; destruct (524288 <=? imm);
    Z.div_mod_to_equations; lia.
Qed.

(** ** One cycle *)

(** The register file as the instruction set sees it. *)
Definition xview (s : state) (i : Z) : Z := if i =? 0 then 0 else default 0 (zget (r s) i).

(** The register file after a cycle that writes [w]. *)
Definition regs_after (w : option (Z * Z)) (l : list Z) : list Z :=
  match w with
  | Some (d, v) => zset (zset l 0 0) d v
  | None => zset l 0 0
  end.

(** The state after a cycle with effect [e]: registers, memory and program
    counter as the effect says, then the interrupt enable delay and the
    timers. *)
Definition pre_effect (e : effect) (s : state) : state :=
  let m := match e_mem e with
           | Some (n, a, v) => store_le n (mem s) (a mod MEM_SIZE) v
           | None => mem s
           end in
  set_pcs (pc s) (e_next e) (set_mem m (set_r (regs_after (e_reg e) (r s)) s)).

Definition apply_effect (e : effect) (s : state) : state := timers (advance (pre_effect e s)).

(** No interrupt is taken, the program counter is aligned and followed by
    [pc_next], and the word there is [i]. *)
Record ready (s : state) (i : instr) : Prop := mk_ready {
  ready_wf : wf s;
  ready_irq : interrupt s = s;
  ready_next : pc_next s = u32 (pc s + 4);
  ready_aligned : pc s mod 4 = 0;
  ready_valid : valid i;
  ready_fetch : load_le 4 (mem s) (pc s mod MEM_SIZE) = encode i
}.

Section cycles.
Implicit Types (s : state) (i : instr) (f : fields).

Lemma fetch_run s : pc s mod 4 = 0 ->
  mem_fetch (pc s) s = Val (i32 (load_le 4 (mem s) (pc s mod MEM_SIZE))) s.
Proof.
  intros H. unfold mem_fetch, sram_load. sm_unfold. unfold MEM_SIZE in *.
  destruct (Z.leb_spec (pc s mod 1048576 + Z.of_nat 4) 1048576); [done|].
  exfalso. Z.div_mod_to_equations; lia.
Qed.

Lemma zget_in_range s (k : Z) : wf s -> is_reg k -> exists v, zget (r s) k = Some v /\ is_i32 v.
Proof.
  intros Hs Hk. destruct (zget_is_Some (r s) k) as [v Hv].
  { unfold zlen. rewrite (wf_r_len s Hs). exact Hk. }
  exists v. split; [done|]. eapply zget_Forall; [apply Hs|exact Hv].
Qed.

(** The cycle is the execution of the decoded word on the state with register
    0 cleared. *)
Lemma cycle_run s i :
  ready s i -> 0 <= encode i < 4294967296 -> is_reg (rs1 (decode (encode i))) ->
  exists a, zget (r s) (rs1 (decode (encode i))) = Some a /\ is_i32 a /\
  cycle s =
    match exec (decode (encode i)) (u32 (a + i32 (imm_i (decode (encode i)))))
            (u32 (a + i32 (imm_s (decode (encode i))))) (set_r (zset (r s) 0 0) s) with
    | Val _ s' => Val tt (timers (advance s'))
    | Exit c s' => Exit c s'
    | Undef => Undef
    end.
Proof.
  intros [Hwf Hirq Hnext Hal Hv Hf] He Hr.
  destruct (zget_in_range s _ Hwf Hr) as (a & Ha & Hai).
  exists a. split_and!; [done|apply Hai..|].
  unfold cycle. rewrite (SM_bind_Val _ _ s tt s) by (unfold smod; by rewrite Hirq).
  rewrite (SM_bind_Val _ _ s (pc s) s) by done.
  rewrite (SM_bind_Val _ _ _ _ _ (fetch_run s Hal)).
  rewrite Hf, u32_i32, u32_small by done.
  set (f := decode (encode i)) in *. cbv zeta.
  rewrite (SM_bind_Val _ _ s a s) by (unfold rget; sm_unfold; by rewrite Ha).
  destruct (zget_in_range s 0 Hwf ltac:(done)) as (z & Hz & _).
  rewrite (SM_bind_Val _ _ s tt (set_r (zset (r s) 0 0) s))
    by (unfold rset; sm_unfold; by rewrite Hz).
  sm_unfold. by destruct (exec f _ _ _).
Qed.

(** ** Execution on the cleared register file *)

Definition cleared s : state := set_r (zset (r s) 0 0) s.

Lemma xview_range s k : wf s -> is_reg k -> is_i32 (xview s k).
Proof.
  intros Hs Hk. unfold xview. destruct (Z.eqb_spec k 0); [unfold is_i32; lia|].
  destruct (zget_in_range s k Hs Hk) as (v & -> & Hv). done.
Qed.

Lemma rget_cleared s k : wf s -> is_reg k -> rget k (cleared s) = Val (xview s k) (cleared s).
Proof.
  intros Hs Hk. unfold rget; sm_unfold. cbn [r cleared set_r]. unfold xview.
  destruct (Z.eqb_spec k 0) as [->|Hne].
  - rewrite zget_zset_eq; [done|]. unfold zlen. rewrite (wf_r_len s Hs). lia.
  - rewrite zget_zset_ne by lia. destruct (zget_in_range s k Hs Hk) as (v & -> & _). done.
Qed.

Lemma uget_cleared s k :
  wf s -> is_reg k -> uget k (cleared s) = Val (u32 (xview s k)) (cleared s).
Proof. intros Hs Hk. unfold uget. by rewrite (SM_bind_Val _ _ _ _ _ (rget_cleared s k Hs Hk)). Qed.

Lemma rset_cleared s k v :
  wf s -> is_reg k -> rset k v (cleared s) = Val tt (set_r (zset (zset (r s) 0 0) k (i32 v)) s).
Proof.
  intros Hs Hk. unfold rset; sm_unfold. cbn [r cleared set_r].
  destruct (zget_is_Some (zset (r s) 0 0) k) as [x ->]; [|done].
  unfold zlen. rewrite zset_length, (wf_r_len s Hs). exact Hk.
Qed.

(** The state of an instruction that falls through. *)
Lemma fall_through s w :
  pc_next s = u32 (pc s + 4) ->
  set_r (regs_after w (r s)) s = pre_effect (mk_effect w (u32 (pc s + 4)) None) s.
Proof. intros H. unfold pre_effect; cbn [e_mem e_next e_reg]. rewrite <- H. by destruct s. Qed.

Lemma write_falls s d v :
  wf s -> pc_next s = u32 (pc s + 4) -> is_reg d ->
  rset d v (cleared s)
    = Val tt (pre_effect (mk_effect (Some (d, i32 v)) (u32 (pc s + 4)) None) s).
Proof. intros Hs Hn Hd. by rewrite rset_cleared, <- fall_through. Qed.

Lemma branch_run s (b : bool) f off :
  wf s -> pc_next s = u32 (pc s + 4) -> u32 (pc s + imm_sb f) = u32 (pc s + off) ->
  branch b f (cleared s)
    = Val tt (pre_effect (mk_effect None (if b then u32 (pc s + off) else u32 (pc s + 4)) None) s).
Proof.
  intros Hs Hn Ho. unfold branch. destruct b; sm_unfold.
  - unfold set_pc_next. cbn [pc cleared set_r]. by rewrite Ho.
  - by rewrite <- fall_through.
Qed.
End cycles.

(** ** The immediates of each format *)

Section immediates.

Lemma reg_u32 x : is_reg x -> 0 <= x < 32.
Proof. done. Qed.

Lemma decode_i imm s1 f3 d op :
  is_imm12 imm -> is_reg s1 -> 0 <= f3 < 8 -> is_reg d -> 0 <= op < 128 ->
  0 <= i_type imm s1 f3 d op < 4294967296 /\
  exists s2 f7 s sb u uj, decode (i_type imm s1 f3 d op) =
    mk_fields op d s1 s2 f3 f7 (u32 imm) s sb u uj.
Proof.
  unfold is_imm12. intros Hi Hs1 Hf3 Hd Hop. unfold i_type. cbv zeta.
  destruct (decode_r (imm mod 4096 / 32) (imm mod 4096 mod 32) s1 f3 d op)
    as (Hw & u & uj & ->); try done; [Z.div_mod_to_equations; lia..|].
  split; [done|]. do 6 eexists. f_equal.
  destruct (Z.leb_spec 64 (imm mod 4096 / 32)); word_lia.
Qed.

Lemma decode_s imm s2 s1 f3 op :
  is_imm12 imm -> is_reg s2 -> is_reg s1 -> 0 <= f3 < 8 -> 0 <= op < 128 ->
  0 <= s_type imm s2 s1 f3 op < 4294967296 /\
  exists d f7 i sb u uj, decode (s_type imm s2 s1 f3 op) =
    mk_fields op d s1 s2 f3 f7 i (u32 imm) sb u uj.
Proof.
  unfold is_imm12. intros Hi Hs2 Hs1 Hf3 Hop. unfold s_type. cbv zeta.
  destruct (decode_r (imm mod 4096 / 32) s2 s1 f3 (imm mod 4096 mod 32) op)
    as (Hw & u & uj & ->); try done; [Z.div_mod_to_equations; lia..|].
  split; [done|]. do 6 eexists. f_equal.
  destruct (Z.leb_spec 64 (imm mod 4096 / 32)); word_lia.
Qed.

Lemma decode_b off s2 s1 f3 op :
  -4096 <= off < 4096 -> off mod 2 = 0 -> is_reg s2 -> is_reg s1 -> 0 <= f3 < 8 ->
  0 <= op < 128 ->
  0 <= b_type off s2 s1 f3 op < 4294967296 /\
  exists d f7 i s u uj, decode (b_type off s2 s1 f3 op) =
    mk_fields op d s1 s2 f3 f7 i s (u32 off) u uj.
Proof.
  intros Ho He Hs2 Hs1 Hf3 Hop. unfold b_type. cbv zeta.
  set (o := off mod 8192). assert (Hor : 0 <= o < 8192) by (apply Z.mod_pos_bound; lia).
  assert (Hoff : u32 off = o + if 4096 <=? o then 4294959104 else 0).
  { unfold o. destruct (Z.leb_spec 4096 (off mod 8192)); word_lia. }
  assert (Hev : o mod 2 = 0) by (unfold o; Z.div_mod_to_equations; lia).
  clearbody o.
  destruct (decode_r (o / 4096 * 64 + (o / 32) mod 64) s2 s1 f3
    ((o / 2) mod 16 * 2 + (o / 2048) mod 2) op)
    as (Hw & u & uj & ->); try done; [Z.div_mod_to_equations; lia..|].
  split; [done|]. do 6 eexists. f_equal. rewrite Hoff.
  replace (64 <=? o / 4096 * 64 + (o / 32) mod 64) with (4096 <=? o).
  - assert (H1 : (o / 4096 * 64 + (o / 32) mod 64) / 64 = o / 4096)
      by (Z.div_mod_to_equations; lia).
    assert (H2 : (o / 4096 * 64 + (o / 32) mod 64) mod 64 = (o / 32) mod 64)
      by (Z.div_mod_to_equations; lia).
    assert (H3 : ((o / 2) mod 16 * 2 + (o / 2048) mod 2) / 2 = (o / 2) mod 16)
      by (Z.div_mod_to_equations; lia).
    assert (H4 : ((o / 2) mod 16 * 2 + (o / 2048) mod 2) mod 2 = (o / 2048) mod 2)
      by (Z.div_mod_to_equations; lia).
    rewrite H1, H2, H3, H4. f_equal. clear -Hor Hev. Z.div_mod_to_equations; lia.
  - destruct (Z.leb_spec 4096 o), (Z.leb_spec 64 (o / 4096 * 64 + (o / 32) mod 64));
      try done; exfalso; Z.div_mod_to_equations; lia.
Qed.

Lemma decode_j off d op :
  -1048576 <= off < 1048576 -> off mod 2 = 0 -> is_reg d -> 0 <= op < 128 ->
  0 <= j_type off d op < 4294967296 /\
  exists s1 s2 f3 f7 i s sb u, decode (j_type off d op) =
    mk_fields op d s1 s2 f3 f7 i s sb u (u32 off) /\ is_reg s1.
Proof.
  intros Ho He Hd Hop. unfold j_type. cbv zeta.
  set (o := off mod 2097152). assert (Hor : 0 <= o < 2097152) by (apply Z.mod_pos_bound; lia).
  assert (Hoff : u32 off = o + if 1048576 <=? o then 4292870144 else 0).
  { unfold o. destruct (Z.leb_spec 1048576 (off mod 2097152)); word_lia. }
  assert (Hev : o mod 2 = 0) by (unfold o; Z.div_mod_to_equations; lia).
  clearbody o.
  set (imm := o / 1048576 * 524288 + (o / 2) mod 1024 * 512 + (o / 2048) mod 2 * 256
    + (o / 4096) mod 256).
  assert (Hsplit : 0 <= o / 1048576 < 2 /\ 0 <= (o / 2) mod 1024 < 1024 /\ 0 <= (o / 2048) mod 2 < 2
    /\ 0 <= (o / 4096) mod 256 < 256) by (clear -Hor; Z.div_mod_to_equations; lia).
  assert (Hosum : o = o / 1048576 * 1048576 + (o / 4096) mod 256 * 4096 + (o / 2048) mod 2 * 2048
    + (o / 2) mod 1024 * 2) by (clear -Hor Hev; Z.div_mod_to_equations; lia).
  destruct (decode_u imm d op)
    as (Hw & s1 & s2 & f3 & f7 & i & s & sb & -> & Hs1); try done; [unfold imm; lia|].
  split; [done|]. do 8 eexists. split; [|exact Hs1]. f_equal. rewrite Hoff.
  assert (Hs : (524288 <=? imm) = (1048576 <=? o)).
  { unfold imm. destruct (Z.leb_spec 1048576 o); [apply Z.leb_le|apply Z.leb_gt]; lia. }
  rewrite Hs. f_equal. etransitivity; [|symmetry; exact Hosum]. unfold imm. clear -Hsplit.
  generalize dependent (o / 1048576). generalize dependent ((o / 4096) mod 256).
  generalize dependent ((o / 2048) mod 2). generalize dependent ((o / 2) mod 1024).
  intros. Z.div_mod_to_equations; lia.
Qed.
End immediates.

(** ** Arithmetic of signed words *)

Section signed.
Implicit Types a b : Z.

Lemma imm12_i32 imm : is_imm12 imm -> i32 (u32 imm) = imm /\ is_i32 imm.
Proof. unfold is_imm12, is_i32. intros. split; [word_lia|lia]. Qed.

Lemma land_63 n : 0 <= n < 32 -> Z.land n 0x3f = n.
Proof. intros. change 0x3f with (Z.ones 6). rewrite Z.land_ones, Z.mod_small; lia. Qed.
End signed.

(** ** Each class of instructions *)

(** The cases in which the simulator follows the instruction set. *)
Definition in_ram (n : nat) (a : Z) : Prop := a mod Z.of_nat n = 0 /\ a < EXIT_TRAP.

Definition sim_ok (s : state) (i : instr) : Prop :=
  match i with
  | Jalr rd rs1 _ => rd <> rs1
  | Op (Sll | Srl | Sra) _ _ rs2 => 0 <= xview s rs2 < 32
  | Load w _ _ rs1 imm | Store w rs1 _ imm =>
      (rs1 = 0 -> zget (r s) 0 = Some 0)
      /\ in_ram (width_bytes w) (u32 (xview s rs1 + imm))
  | _ => True
  end.

(** Loads of the simulator's memory. *)
Definition ram (s : state) (n : nat) (a : Z) : Z := load_le n (mem s) (a mod MEM_SIZE).

Section classes.
Context (s : state) (Hwf : wf s) (Hnext : pc_next s = u32 (pc s + 4)).

Lemma exec_op_run op d s1 s2 f :
  rd f = d -> rs1 f = s1 -> rs2 f = s2 -> funct3 f = alu_funct3 op -> funct7 f = alu_funct7 op ->
  is_reg d -> is_reg s1 -> is_reg s2 -> (is_shift op = true -> 0 <= xview s s2 < 32) ->
  exec_op f (cleared s)
    = Val tt (pre_effect (mk_effect (Some (d, alu_result op (xview s s1) (xview s s2)))
        (u32 (pc s + 4)) None) s).
Proof.
  intros Ed E1 E2 E3 E7 Hd H1 H2 Hsh. unfold exec_op. rewrite Ed, E1, E2, E3, E7.
  rewrite (SM_bind_Val _ _ _ _ _ (rget_cleared s s1 Hwf H1)),
    (SM_bind_Val _ _ _ _ _ (rget_cleared s s2 Hwf H2)).
  pose proof (xview_range s s1 Hwf H1) as Ha. pose proof (xview_range s s2 Hwf H2) as Hb.
  revert Hsh Ha Hb. generalize (xview s s1) (xview s s2). intros a b Hsh Ha Hb.
  destruct op; cbn [alu_funct3 alu_funct7 alu_result is_shift] in *;
    try (specialize (Hsh eq_refl); rewrite ?(u32_small b) by lia;
      rewrite (SM_bind_Val _ _ _ _ _ (shift_ok_run _ _ _ Hsh)), (Z.mod_small b 32) by lia);
    rewrite write_falls by done; do 5 f_equal;
    rewrite ?cbool_i32, ?Z.shiftl_mul_pow2, ?Z.shiftr_div_pow2 by lia; try done;
    by apply is_i32_small; auto using is_i32_lxor, is_i32_lor, is_i32_land, is_i32_sra with lia.
Qed.

Lemma exec_op_imm_run op d s1 imm f :
  rd f = d -> rs1 f = s1 -> funct3 f = alu_funct3 op -> is_reg d -> is_reg s1 -> op <> Sub ->
  (if is_shift op then rs2 f = imm /\ 0 <= imm < 32 /\ funct7 f = alu_funct7 op
   else imm_i f = u32 imm /\ is_imm12 imm) ->
  exec_op_imm f (cleared s)
    = Val tt (pre_effect (mk_effect (Some (d, alu_result op (xview s s1) imm))
        (u32 (pc s + 4)) None) s).
Proof.
  intros Ed E1 E3 Hd H1 Hns Himm. unfold exec_op_imm. rewrite Ed, E1, E3.
  rewrite (SM_bind_Val _ _ _ _ _ (rget_cleared s s1 Hwf H1)).
  pose proof (xview_range s s1 Hwf H1) as Ha. revert Ha. generalize (xview s s1). intros a Ha.
  cbv zeta.
  destruct op; cbn [alu_funct3 alu_funct7 alu_result is_shift] in *; try done;
    first [ destruct Himm as (-> & Hi & E7); rewrite ?E7, land_63 by done;
            rewrite (SM_bind_Val _ _ _ _ _ (shift_ok_run _ _ _ Hi)), (Z.mod_small imm 32) by lia
          | destruct Himm as [-> [Hi Hi2]%imm12_i32]; rewrite ?Hi ];
    rewrite write_falls by done; do 5 f_equal;
    rewrite ?cbool_i32, ?Z.shiftl_mul_pow2, ?Z.shiftr_div_pow2, ?i32_u32, ?i32_mul_u32 by lia;
    try done;
    by apply is_i32_small; auto using is_i32_lxor, is_i32_lor, is_i32_land, is_i32_sra with lia.
Qed.

Lemma exec_branch_run c s1 s2 off f :
  rs1 f = s1 -> rs2 f = s2 -> funct3 f = cond_funct3 c -> imm_sb f = u32 off ->
  is_reg s1 -> is_reg s2 ->
  exec_branch f (cleared s)
    = Val tt (pre_effect (mk_effect None (if holds c (xview s s1) (xview s s2)
        then u32 (pc s + off) else u32 (pc s + 4)) None) s).
Proof.
  intros E1 E2 E3 Ei H1 H2. unfold exec_branch. rewrite E1, E2, E3.
  rewrite (SM_bind_Val _ _ _ _ _ (rget_cleared s s1 Hwf H1)),
    (SM_bind_Val _ _ _ _ _ (rget_cleared s s2 Hwf H2)).
  destruct c; cbn [cond_funct3 holds]; apply branch_run; try done; by rewrite Ei, u32_add_r.
Qed.

Ltac of_nat_norm :=
  change (Z.of_nat 1) with 1 in *; change (Z.of_nat 2) with 2 in *;
  change (Z.of_nat 4) with 4 in *.

(** An ordinary address is none of the memory-mapped registers. *)
Lemma not_mapped a (l : Z) : a < EXIT_TRAP -> EXIT_TRAP <= l -> (a =? l) = false.
Proof. intros. apply Z.eqb_neq. lia. Qed.

Lemma sram_load_run n a t :
  in_ram n a -> (n = 1 \/ n = 2 \/ n = 4)%nat -> mem t = mem s -> sram_load n a t = Val (ram s n a) t.
Proof.
  intros [Ha _] Hn Hm. unfold sram_load, ram. sm_unfold. rewrite Hm. unfold MEM_SIZE in *.
  destruct (Z.leb_spec (a mod 1048576 + Z.of_nat n) 1048576); [done|].
  exfalso. destruct Hn as [-> | [-> | ->]]; Z.div_mod_to_equations; lia.
Qed.

Lemma sram_store_run n a v t :
  in_ram n a -> (n = 1 \/ n = 2 \/ n = 4)%nat ->
  sram_store n a v t = Val tt (set_mem (store_le n (mem t) (a mod MEM_SIZE) v) t).
Proof.
  intros [Ha _] Hn. unfold sram_store. sm_unfold. unfold MEM_SIZE in *.
  destruct (Z.leb_spec (a mod 1048576 + Z.of_nat n) 1048576); [done|].
  exfalso. destruct Hn as [-> | [-> | ->]]; Z.div_mod_to_equations; lia.
Qed.

Lemma mem_read_run w a t :
  in_ram (width_bytes w) a -> mem t = mem s ->
  mem_read (Z.of_nat (width_bytes w)) a t
    = Val (extend w true (ram s (width_bytes w) a)) t.
Proof.
  intros Ha Hm. pose proof Ha as [Hal Hlt]. unfold mem_read.
  rewrite !(not_mapped a) by (done || by vm_compute).
  destruct w; cbn [width_bytes extend] in *; of_nat_norm; cbn [Z.eqb Pos.eqb].
  - by rewrite (SM_bind_Val _ _ _ _ _ (sram_load_run 1 a t Ha ltac:(auto) Hm)).
  - rewrite (aligned_land a 1 1) by done.
    by rewrite (SM_bind_Val _ _ _ _ _ (sram_load_run 2 a t Ha ltac:(auto) Hm)).
  - rewrite (aligned_land a 3 2) by done.
    by rewrite (SM_bind_Val _ _ _ _ _ (sram_load_run 4 a t Ha ltac:(auto) Hm)).
Qed.

Lemma mem_write_run w a v t :
  in_ram (width_bytes w) a ->
  mem_write (Z.of_nat (width_bytes w)) a v t
    = Val tt (set_mem (store_le (width_bytes w) (mem t) (a mod MEM_SIZE) v) t).
Proof.
  intros Ha. pose proof Ha as [Hal Hlt]. unfold mem_write.
  rewrite !(not_mapped a) by (done || by vm_compute).
  destruct w; cbn [width_bytes] in *; of_nat_norm; cbn [Z.eqb Pos.eqb].
  - rewrite (sram_store_run 1) by auto. do 2 f_equal. apply store_le_mod. unfold u8.
    by rewrite Z.mod_mod.
  - rewrite (aligned_land a 1 1) by done. rewrite (sram_store_run 2) by auto.
    do 2 f_equal. apply store_le_mod. unfold u16. by rewrite Z.mod_mod.
  - rewrite (aligned_land a 3 2) by done. by rewrite (sram_store_run 4) by auto.
Qed.

Lemma ram_range n a : 0 <= ram s n a < 256 ^ Z.of_nat n.
Proof. apply load_le_range, Hwf. Qed.

Lemma exec_load_run w (sg : bool) d a f :
  rd f = d -> funct3 f = width_funct3 w + (if sg then 0 else 4) -> (w = W -> sg = true) ->
  is_reg d -> in_ram (width_bytes w) a ->
  exec_load f a (cleared s)
    = Val tt (pre_effect (mk_effect (Some (d, extend w sg (ram s (width_bytes w) a)))
        (u32 (pc s + 4)) None) s).
Proof.
  intros Ed E3 Hw Hd Ha. unfold exec_load. rewrite Ed.
  pose proof (ram_range (width_bytes w) a) as Hr. pose proof (mem_read_run w a (cleared s) Ha eq_refl) as Hm.
  destruct w, sg; try (discriminate (Hw eq_refl));
    cbn [width_bytes extend] in *; of_nat_norm;
    match type of E3 with _ = ?v => let x := eval vm_compute in v in change (funct3 f = x) in E3 end;
    rewrite E3;
     rewrite (SM_bind_Val _ _ _ _ _ Hm);
    rewrite write_falls by done; do 5 f_equal; revert Hr; generalize (ram s); intros g Hr;
    cbn in Hr; word_lia.
Qed.

Lemma exec_store_run w s2 a f :
  rs2 f = s2 -> funct3 f = width_funct3 w -> is_reg s2 -> in_ram (width_bytes w) a ->
  exec_store f a (cleared s)
    = Val tt (pre_effect (mk_effect None (u32 (pc s + 4))
        (Some (width_bytes w, a, u32 (xview s s2)))) s).
Proof.
  intros E2 E3 H2 Ha. unfold exec_store. rewrite E2, E3.
  pose proof (mem_write_run w a (u32 (xview s s2)) (cleared s) Ha) as Hm.
  assert (Hp : forall m, set_mem m (cleared s)
    = set_pcs (pc s) (u32 (pc s + 4)) (set_mem m (set_r (regs_after None (r s)) s))).
  { intros m. rewrite <- Hnext. by destruct s. }
  destruct w; cbn [width_funct3 width_bytes] in *; of_nat_norm;
    rewrite (SM_bind_Val _ _ _ _ _ (uget_cleared s s2 Hwf H2)); rewrite Hm;
    by rewrite Hp.
Qed.

(** The link register is written before the base register is read. *)
Lemma exec_jalr_run d s1 imm f a b :
  opcode f = 0x67 -> rd f = d -> rs1 f = s1 -> imm_i f = u32 imm -> is_reg d -> is_reg s1 ->
  exec f a b (cleared s)
    = Val tt (pre_effect (mk_effect (Some (d, i32 (u32 (pc s + 4))))
        (u32 ((if d =? s1 then i32 (u32 (pc s + 4)) else xview s s1) + imm) / 2 * 2) None) s).
Proof.
  intros Eo Ed E1 Ei Hd H1. unfold exec. rewrite Eo, Ed, E1, Ei.
  rewrite (SM_bind_Val _ _ _ (pc_next s) (cleared s)) by done.
  rewrite (SM_bind_Val _ _ _ _ _ (rset_cleared s d _ Hwf Hd)).
  set (l := zset (zset (r s) 0 0) d (i32 (pc_next s))).
  set (x := if d =? s1 then i32 (u32 (pc s + 4)) else xview s s1).
  assert (Hl : zlen (zset (r s) 0 0) = 32).
  { unfold zlen. rewrite zset_length, (wf_r_len s Hwf). done. }
  rewrite (SM_bind_Val _ _ (set_r l s) x (set_r l s)).
  - sm_unfold. unfold set_pc_next, pre_effect. cbn [e_mem e_next e_reg]. rewrite u32_add_r.
    assert (Hm : u32 (Z.land (u32 (x + imm)) 0xfffffffe) = u32 (x + imm) / 2 * 2).
    { change 0xfffffffe with (Z.shiftl (Z.ones 31) 1).
      rewrite land_field by lia. pow_norm. word_lia. }
    rewrite Hm. f_equal. unfold l. rewrite <- Hnext. by destruct s.
  - unfold rget; sm_unfold. cbn [r set_r]. unfold l, x. destruct (Z.eqb_spec d s1) as [->|Hne].
    + rewrite zget_zset_eq by (rewrite Hl; exact H1). by rewrite Hnext.
    + rewrite zget_zset_ne by done.
      pose proof (rget_cleared s s1 Hwf H1) as Hg. unfold rget in Hg. revert Hg. sm_unfold.
      cbn [r cleared set_r]. destruct (zget (zset (r s) 0 0) s1); [|done]. by intros [= ->].
Qed.

Lemma exec_jal_run d off f a b :
  opcode f = 0x6f -> rd f = d -> imm_uj f = u32 off -> is_reg d ->
  exec f a b (cleared s)
    = Val tt (pre_effect (mk_effect (Some (d, i32 (u32 (pc s + 4)))) (u32 (pc s + off)) None) s).
Proof.
  intros Eo Ed Ei Hd. unfold exec. rewrite Eo, Ed.
  rewrite (SM_bind_Val _ _ _ (pc_next s) (cleared s)) by done.
  rewrite (SM_bind_Val _ _ _ _ _ (rset_cleared s d _ Hwf Hd)).
  sm_unfold. unfold set_pc_next, pre_effect. cbn [e_mem e_next e_reg pc set_r].
  rewrite Ei, u32_add_r, Hnext. by destruct s.
Qed.
End classes.

(** ** The simulator against the instruction set *)

Lemma width_funct3_range w (sg : bool) :
  0 <= width_funct3 w + (if sg then 0 else 4) < 8.
Proof. destruct w, sg; cbn; lia. Qed.

Lemma cond_funct3_range c : 0 <= cond_funct3 c < 8.
Proof. destruct c; cbn; lia. Qed.

Lemma alu_funct3_range op : 0 <= alu_funct3 op < 8.
Proof. destruct op; cbn; lia. Qed.

Lemma alu_funct7_range op : 0 <= alu_funct7 op < 128.
Proof. destruct op; cbn; lia. Qed.

Lemma op_shift op d s1 s2 s :
  sim_ok s (Op op d s1 s2) -> is_shift op = true -> 0 <= xview s s2 < 32.
Proof. by destruct op. Qed.

(** A cycle whose execution step has effect [e]. *)
Lemma cycle_effect s i f e :
  ready s i -> 0 <= encode i < 4294967296 -> decode (encode i) = f -> is_reg (rs1 f) ->
  (forall a, is_i32 a -> zget (r s) (rs1 f) = Some a ->
    exec f (u32 (a + i32 (imm_i f))) (u32 (a + i32 (imm_s f))) (cleared s)
      = Val tt (pre_effect e s)) ->
  cycle s = Val tt (apply_effect e s).
Proof.
  intros Hr He <- H1 Hx. destruct (cycle_run s i Hr He H1) as (a & Ha & Hai & ->).
  unfold cleared in Hx. by rewrite (Hx a Hai Ha).
Qed.

(** The address of a load or store, when register 0 is not stale. *)
Lemma base_address s s1 a imm :
  (s1 = 0 -> zget (r s) 0 = Some 0) -> zget (r s) s1 = Some a -> is_imm12 imm ->
  u32 (a + i32 (u32 imm)) = u32 (xview s s1 + imm).
Proof.
  intros H0 Ha Hi. rewrite (proj1 (imm12_i32 imm Hi)). do 2 f_equal. unfold xview.
  destruct (Z.eqb_spec s1 0) as [->|]; [rewrite (H0 eq_refl) in Ha; congruence|].
  by rewrite Ha.
Qed.

Lemma upper_refines s i :
  ready s i -> match i with Lui _ _ | Auipc _ _ | Jal _ _ => True | _ => False end ->
  cycle s = Val tt (apply_effect (isa (xview s) (ram s) (pc s) i) s).
Proof.
  intros Hr Hi. pose proof Hr as [Hwf _ Hnext _ Hv _].
  destruct i as [d imm|d imm|d off| | | | | |]; try done; cbn [isa valid] in *.
  1,2: destruct Hv as [Hd Himm].
  - destruct (decode_u imm d 0x37) as (He & s1 & s2 & f3 & f7 & ii & iS & isb & Hdec & Hs1);
      try (done || lia).
    eapply cycle_effect; [exact Hr|exact He|exact Hdec|exact Hs1|]. intros a _ _.
    cbn [exec opcode rd imm_u]. by apply write_falls.
  - destruct (decode_u imm d 0x17) as (He & s1 & s2 & f3 & f7 & ii & iS & isb & Hdec & Hs1);
      try (done || lia).
    eapply cycle_effect; [exact Hr|exact He|exact Hdec|exact Hs1|]. intros a _ _.
    cbn [exec opcode rd imm_u]. rewrite (SM_bind_Val _ _ _ (pc s) (cleared s)) by done.
    by apply write_falls.
  - destruct Hv as (Hd & Ho & Hev).
    destruct (decode_j off d 0x6f) as (He & s1 & s2 & f3 & f7 & ii & iS & isb & u & Hdec & Hs1);
      try (done || lia).
    eapply cycle_effect; [exact Hr|exact He|exact Hdec|exact Hs1|]. intros a _ _.
    by apply exec_jal_run.
Qed.

Lemma jalr_run s d s1 imm :
  ready s (Jalr d s1 imm) ->
  cycle s = Val tt (apply_effect (mk_effect (Some (d, i32 (u32 (pc s + 4))))
    (u32 ((if d =? s1 then i32 (u32 (pc s + 4)) else xview s s1) + imm) / 2 * 2) None) s).
Proof.
  intros Hr. pose proof Hr as [Hwf _ Hnext _ (Hd & H1 & Hi) _].
  destruct (decode_i imm s1 0 d 0x67) as (He & s2 & f7 & iS & isb & u & uj & Hdec);
    try (done || lia).
  eapply cycle_effect; [exact Hr|exact He|exact Hdec|exact H1|]. intros a _ _.
  by apply exec_jalr_run.
Qed.

Lemma alu_refines s i :
  ready s i -> sim_ok s i -> match i with OpImm _ _ _ _ | Op _ _ _ _ => True | _ => False end ->
  cycle s = Val tt (apply_effect (isa (xview s) (ram s) (pc s) i) s).
Proof.
  intros Hr Hok Hi. pose proof Hr as [Hwf _ Hnext _ Hv _].
  destruct i as [| | | | | | |op d s1 imm|op d s1 s2]; try done; cbn [isa valid] in *.
  - destruct Hv as (Hd & H1 & Hns & Himm). destruct (is_shift op) eqn:Esh.
    + destruct (decode_r (alu_funct7 op) imm s1 (alu_funct3 op) d 0x13) as (He & u & uj & Hdec);
        try (done || lia); [apply alu_funct7_range|apply alu_funct3_range|].
      eapply cycle_effect; [exact Hr|cbn [encode]; rewrite Esh; exact He
        |cbn [encode]; rewrite Esh; exact Hdec|exact H1|]. intros a _ _.
      eapply exec_op_imm_run; try done. by rewrite Esh.
    + destruct (decode_i imm s1 (alu_funct3 op) d 0x13) as (He & s2 & f7 & iS & isb & u & uj & Hdec);
        try (done || lia); [apply alu_funct3_range|].
      eapply cycle_effect; [exact Hr|cbn [encode]; rewrite Esh; exact He
        |cbn [encode]; rewrite Esh; exact Hdec|exact H1|]. intros a _ _.
      eapply exec_op_imm_run; try done. by rewrite Esh.
  - destruct Hv as (Hd & H1 & H2).
    destruct (decode_r (alu_funct7 op) s2 s1 (alu_funct3 op) d 0x33) as (He & u & uj & Hdec);
      try (done || lia); [apply alu_funct7_range|apply alu_funct3_range|].
    eapply cycle_effect; [exact Hr|exact He|exact Hdec|exact H1|]. intros a _ _.
    eapply exec_op_run; try done. by eapply op_shift.
Qed.

Lemma memory_refines s i :
  ready s i -> sim_ok s i ->
  match i with Branch _ _ _ _ | Load _ _ _ _ _ | Store _ _ _ _ => True | _ => False end ->
  cycle s = Val tt (apply_effect (isa (xview s) (ram s) (pc s) i) s).
Proof.
  intros Hr Hok Hi. pose proof Hr as [Hwf _ Hnext _ Hv _].
  destruct i as [| | | |c s1 s2 off|w sg d s1 imm|w s1 s2 imm| |]; try done;
    cbn [isa valid sim_ok] in *.
  - destruct Hv as (H1 & H2 & Ho & Hev).
    destruct (decode_b off s2 s1 (cond_funct3 c) 0x63) as (He & d & f7 & ii & iS & u & uj & Hdec);
      try (done || lia); [apply cond_funct3_range|].
    eapply cycle_effect; [exact Hr|exact He|exact Hdec|exact H1|]. intros a _ _.
    by apply exec_branch_run.
  - destruct Hv as (Hd & H1 & Himm & Hw). destruct Hok as [H0 Ha].
    destruct (decode_i imm s1 (width_funct3 w + if sg then 0 else 4) d 0x03)
      as (He & s2 & f7 & iS & isb & u & uj & Hdec); try (done || lia);
      [apply width_funct3_range|].
    eapply cycle_effect; [exact Hr|exact He|exact Hdec|exact H1|].
    intros a _ Hz. cbn [exec opcode imm_i rs1] in *. rewrite (base_address s s1 a imm) by done.
    by apply exec_load_run.
  - destruct Hv as (H1 & H2 & Himm). destruct Hok as [H0 Ha].
    destruct (decode_s imm s2 s1 (width_funct3 w) 0x23)
      as (He & d & f7 & ii & isb & u & uj & Hdec); try (done || lia);
      [pose proof (width_funct3_range w true); lia|].
    eapply cycle_effect; [exact Hr|exact He|exact Hdec|exact H1|].
    intros a _ Hz. cbn [exec opcode imm_s rs1] in *. rewrite (base_address s s1 a imm) by done.
    by apply exec_store_run.
Qed.


(** ** A concrete machine *)

Definition bytes_of (w : Z) : list Z := [u8 w; u8 (w / 256); u8 (w / 65536); u8 (w / 16777216)].
Definition assemble (p : list instr) : list Z := p ≫= (fun i => bytes_of (encode i)).

(** The machine [main] boots on the image of a program. *)
Definition start (p : list instr) : state :=
  mk_state (replicate 32 0) SRAM_BASE (SRAM_BASE + 4)
    (load_image (assemble p) 0 (store_le 4 ∅ 0 0xffffffff)) 0 0 0 0 [0; 0; 0; 0]
    0 0 0 0 0 false [] [] [].

Lemma start_boot p :
  assemble p <> [] -> zlen (assemble p) <= MEM_SIZE ->
  boot (assemble p) [] false = Some (start p).
Proof.
  intros Hne Hl. unfold boot. rewrite take_ge by (unfold zlen in Hl; lia).
  unfold start. by destruct (assemble p).
Qed.

(** Read one register of the state a run ends in. *)
Definition reg_of (x : result state unit) (k : Z) : option Z :=
  match x with Val _ s => zget (r s) k | _ => None end.
Definition pc_of (x : result state unit) : option Z :=
  match x with Val _ s => Some (pc s) | _ => None end.

Lemma start_ready p i :
  assemble p <> [] -> zlen (assemble p) <= MEM_SIZE -> valid i ->
  load_le 4 (mem (start p)) 0 = encode i -> ready (start p) i.
Proof.
  intros Hne Hl Hv Hf. split; try done. by eapply boot_wf, start_boot.
Qed.

Definition demo_prog : list instr := [OpImm Add 5 0 42; OpImm Sll 6 5 3; Jal 1 (-8)].


Example demo_run : reg_of (run 2 (start demo_prog)) 6 = Some 336
  /\ pc_of (run 3 (start demo_prog)) = Some SRAM_BASE.
Proof. split; vm_compute; reflexivity. Qed.

(** a jump and link whose link register is also its base jumps relative to
    the return address, not to the register: the link register is written
    before the base is read. *)
Theorem jalr_same_register (s : state) (d imm : Z) :
  ready s (Jalr d d imm) ->
  exists s', cycle s = Val tt s' /\ pc s' = u32 (i32 (u32 (pc s + 4)) + imm) / 2 * 2.
Proof.
  intros Hr. pose proof Hr as [Hwf _ _ _ _ _]. rewrite (jalr_run _ _ _ _ Hr), Z.eqb_refl.
  eexists. split; [done|]. unfold apply_effect, pre_effect, advance. cbn [e_mem e_next e_reg].
  cbn [set_pcs set_mem set_r status_dly pc_next].
  pose proof (wf_dly_len s Hwf) as Hl.
  destruct (status_dly s) as [|? [|? [|? [|? [|]]]]]; try done.
Qed.

Example jalr_same_register_witness :
  ready (start [Jalr 1 1 16]) (Jalr 1 1 16) /\
  exists s', cycle (start [Jalr 1 1 16]) = Val tt s'
    /\ pc s' = u32 (i32 (u32 (pc (start [Jalr 1 1 16]) + 4)) + 16) / 2 * 2.
Proof.
  assert (Hr : ready (start [Jalr 1 1 16]) (Jalr 1 1 16)).
  { apply start_ready; [by vm_compute..|repeat split; try done; lia|by vm_compute]. }
  split; [exact Hr|]. exact (jalr_same_register _ _ _ Hr).
Defined.

(** A load right after a write to register 0 uses the value written: register
    0 is cleared after the addresses are computed. Memory holds the program
    itself, so the word at 8 is the third instruction. *)
Example stale_zero_register :
  let p := [OpImm Add 0 0 8; Load W true 5 0 0; Lui 7 0x12345] in
  reg_of (run 2 (start p)) 5 = Some (encode (Lui 7 0x12345)).
Proof. vm_compute. reflexivity. Qed.

(** A register shift by 32 is undefined in the simulator; the instruction set
    shifts by 0. *)
Example shift_by_32 :
  run 3 (start [OpImm Add 5 0 1; OpImm Add 6 0 32; Op Sll 7 5 6]) = Undef.
Proof. vm_compute. reflexivity. Qed.

(** ** Interrupts *)

(** [n] cycles of the interrupt enable delay. *)
Fixpoint delay (n : nat) (s : state) : state :=
  match n with O => s | S n => delay n (timers (advance s)) end.

Lemma timers_status s :
  status (timers s) = status s /\ status_dly (timers s) = status_dly s.
Proof. done. Qed.

(** the interrupt unit. A pending enabled interrupt diverts the program
    counter to the vector, saves the following address, and masks further
    interrupts, so that entry is idempotent; software that writes a non-zero
    [IRQ_STATUS] while interrupts are off turns them on exactly four cycles
    later, not before. *)
Theorem interrupt_protocol (s : state) (v : Z) :
  wf s -> status s <> 0 -> Z.land (cause s) (mask s) <> 0 -> v <> 0 ->
  let t := interrupt s in
  (pc t = vector s /\ pc_next t = u32 (vector s + 4) /\ epc t = pc_next s
    /\ r t = r s /\ mem t = mem s)
  /\ interrupt t = t
  /\ exists t', mem_write 4 IRQ_STATUS v t = Val tt t'
     /\ (forall n, (n < 4)%nat -> status (delay n t') = 0)
     /\ status (delay 4 t') = v.
Proof.
  intros Hwf Hs Hc Hv t.
  assert (Ht : t = set_status 0 [0; 0; 0; 0] (set_pcs (vector s) (u32 (vector s + 4))
    (set_epc (pc_next s) s))).
  { unfold t, interrupt. rewrite (proj2 (nz_true _) Hs), (proj2 (nz_true _) Hc). done. }
  rewrite Ht. split_and!; try done.
  exists (set_status 0 [0; 0; 0; v] t). split_and!.
  - unfold mem_write. destruct (Z.eqb_spec v 0); [done|]. by rewrite Ht.
  - intros n Hn. do 4 (destruct n as [|n]; [done|]). lia.
  - done.
Qed.

Example interrupt_protocol_witness :
  let s := set_cause 0x8 (set_mask 0x8 (set_status 1 [1; 1; 1; 1]
    (set_vector 0x40000010 (start demo_prog)))) in
  wf s /\ exists t', mem_write 4 IRQ_STATUS 1 (interrupt s) = Val tt t'
    /\ status (delay 4 t') = 1.
Proof.
  intros s. assert (Hwf : wf s).
  { assert (H : wf (start demo_prog)) by (eapply boot_wf, start_boot; by vm_compute).
    destruct H. split; try done; try (unfold is_u32; cbn; lia). repeat constructor; lia. }
  split; [exact Hwf|].
  destruct (interrupt_protocol s 1 Hwf) as (_ & _ & t' & H1 & _ & H3); try done.
  by exists t'.
Defined.

