(* ===== verification/Alloc.v ===== *)
(** * The heap allocator's interface

    What the kernel and the libraries rely on from [sys/lib/malloc.c]: blocks
    handed out by [hf_malloc] are fresh, disjoint and stay allocated until
    [hf_free].  [Malloc] proves that the allocator selected by the platform
    makefiles ([MEM_ALLOC = 3]) implements it; [Queue], [LinkedList] and the
    kernel are verified against this interface only.

    Every computation runs on a pair: the processor's interrupt status (read
    and written by [_di] and [_ei]) and the allocator's own state. *)

From S2P Require Import Prelude Words.

(** [_interrupt_set(s)] of [arch/mips/hf-risc/boot/crt0.s]: store the interrupt
    status, return the previous one; [_di()] and [_ei(S)] of [hal.h]. *)
Definition interrupt_set {S : Type} (s : Z) : ST (Z * S) Z := fun st =>
  Ok (fst st, (s, snd st)).
Definition di {S : Type} : ST (Z * S) Z := interrupt_set 0.
Definition ei {S : Type} (s : Z) : ST (Z * S) unit :=
  _ ← interrupt_set s; mret tt.

(** Two byte ranges that share no byte. *)
Definition disjoint_range (p n q m : Z) : Prop := p + n <= q \/ q + m <= p.

(** Largest request the allocator's 32-bit size arithmetic can carry. *)
Definition max_request : Z := 2147483632.

Class Allocator (H : Type) : Type := {
  hf_malloc : Z -> ST (Z * H) Z;
  hf_free : Z -> ST (Z * H) unit;
  (** the word at a heap address, read and written by the owner of a block *)
  heap_load : Z -> ST (Z * H) Z;
  heap_store : Z -> Z -> ST (Z * H) unit;
  (** [krnl_free] *)
  heap_avail : H -> Z;
  (** the allocator's invariant and the allocated blocks: address to size *)
  heap_ok : H -> Prop;
  heap_live : H -> gmap Z Z;
  (** the word at an address, where there is one *)
  heap_word : H -> Z -> option Z;
}.

Class AllocatorLaws (H : Type) `{Allocator H} : Prop := {
  (** Allocated blocks do not overlap and do not start at NULL. *)
  live_disjoint : forall h p n q m, heap_ok h ->
    heap_live h !! p = Some n -> heap_live h !! q = Some m -> p <> q ->
    disjoint_range p n q m;
  live_range : forall h p n, heap_ok h ->
    heap_live h !! p = Some n -> 0 < p /\ 0 <= n /\ p + n < 4294967296;
  (** [hf_malloc] terminates, keeps the invariant, and returns NULL or a fresh
      block of at least the requested size. *)
  malloc_spec : forall irq h size, heap_ok h -> 0 <= size <= max_request ->
    exists p h', hf_malloc size (irq, h) = Ok (p, (irq, h')) /\ heap_ok h' /\
      ((p = 0 /\ heap_live h' = heap_live h) \/
       (p <> 0 /\ heap_live h !! p = None /\
        exists n, size <= n /\ heap_live h' = <[p := n]> (heap_live h)));
  (** [hf_free] of an allocated block releases that block and no other. *)
  free_spec : forall irq h p n, heap_ok h -> heap_live h !! p = Some n ->
    exists h', hf_free p (irq, h) = Ok (tt, (irq, h')) /\ heap_ok h' /\
      heap_live h' = delete p (heap_live h);
  (** The owner of a block can read and write its words, and allocation and
      release leave the words of the allocated blocks alone. *)
  live_words : forall h p n a, heap_ok h -> heap_live h !! p = Some n ->
    p <= a -> a + 4 <= p + n -> (a - p) mod 4 = 0 -> is_Some (heap_word h a);
  load_spec : forall irq h a v, heap_word h a = Some v ->
    heap_load a (irq, h) = Ok (v, (irq, h));
  store_spec : forall irq h p n a v, heap_ok h -> heap_live h !! p = Some n ->
    p <= a -> a + 4 <= p + n -> (a - p) mod 4 = 0 ->
    exists h', heap_store a v (irq, h) = Ok (tt, (irq, h')) /\ heap_ok h' /\
      heap_live h' = heap_live h /\
      forall b, heap_word h' b = if b =? a then Some v else heap_word h b;
  malloc_frame : forall irq h size p h' q n a, heap_ok h -> 0 <= size <= max_request ->
    hf_malloc size (irq, h) = Ok (p, (irq, h')) -> heap_live h !! q = Some n ->
    q <= a < q + n -> heap_word h' a = heap_word h a;
  free_frame : forall irq h p m h' q n a, heap_ok h -> heap_live h !! p = Some m ->
    hf_free p (irq, h) = Ok (tt, (irq, h')) -> heap_live h !! q = Some n ->
    q <= a < q + n -> heap_word h' a = heap_word h a;
}.
