(* ===== verification/Mutex.v ===== *)
(** * Mutexes ([sys/sync/mutex.c], [MUTEX_TYPE = 0])

    The spinlock: a test-and-set made atomic by disabling interrupts.  The
    operations run on the interrupt status and the lock word; the interleaved
    execution of many tasks is a step relation built from the same operations. *)

From S2P Require Import Prelude Words Alloc.

(** [struct mtx]: the lock word. *)
Definition mtx : Type := Z.

Definition tsl : ST (Z * mtx) Z :=
  status ← di;
  init ← gets snd;
  _ ← modify (fun st => (st.1, 1));
  _ ← ei status;
  mret init.

Definition hf_mtxinit : ST (Z * mtx) unit := modify (fun st => (st.1, 0)).

(** [while (tsl(m) == 1);] with at most [fuel] test-and-sets. *)
Fixpoint hf_mtxlock (fuel : nat) : ST (Z * mtx) unit :=
  match fuel with
  | O => timeout_st
  | S fuel => r ← tsl; if r =? 1 then hf_mtxlock fuel else mret tt
  end.

Definition hf_mtxunlock : ST (Z * mtx) unit := modify (fun st => (st.1, 0)).

(** ** Facts about single calls *)

Lemma tsl_run irq (l : mtx) : tsl (irq, l) = Ok (l, (irq, 1)).
Proof. done. Qed.

(** A free lock is taken by the first test-and-set. *)
Lemma hf_mtxlock_free irq fuel : hf_mtxlock (S fuel) (irq, 0) = Ok (tt, (irq, 1)).
Proof. done. Qed.

(** A held lock spins for as long as nobody releases it. *)
Lemma hf_mtxlock_held irq fuel : hf_mtxlock fuel (irq, 1) = Timeout.
Proof. induction fuel as [|fuel IH]; [done|]. cbn. exact IH. Qed.

(** ** Interleaved tasks *)

(** Where a task is: outside, spinning in [hf_mtxlock], or in its critical
    section. *)
Inductive place : Type := Outside | Spinning | Critical.

#[export] Instance place_eq_dec : EqDecision place.
Proof. solve_decision. Defined.

(** The interrupt status, the lock and the tasks. *)
Record mtx_world : Type := World {
  w_irq : Z;
  w_lock : mtx;
  w_place : nat -> place;
}.

Definition move (w : mtx_world) (st : Z * mtx) (i : nat) (p : place) : mtx_world :=
  World st.1 st.2 (fun j => if decide (j = i) then p else w_place w j).

(** One atomic step of task [i].  A test-and-set runs with interrupts disabled,
    so it is one step; the loop of [hf_mtxlock] is a sequence of them. *)
Inductive mtx_step (i : nat) : mtx_world -> mtx_world -> Prop :=
| step_enter w : w_place w i = Outside ->
    mtx_step i w (move w (w_irq w, w_lock w) i Spinning)
| step_tsl w r st : w_place w i = Spinning ->
    tsl (w_irq w, w_lock w) = Ok (r, st) ->
    mtx_step i w (move w st i (if r =? 1 then Spinning else Critical))
| step_unlock w st : w_place w i = Critical ->
    hf_mtxunlock (w_irq w, w_lock w) = Ok (tt, st) ->
    mtx_step i w (move w st i Outside).

Inductive mtx_reachable : mtx_world -> Prop :=
| reach_init irq : mtx_reachable (World irq 0 (fun _ => Outside))
| reach_step i w w' : mtx_reachable w -> mtx_step i w w' -> mtx_reachable w'.

(** The lock word is 1 exactly while some task is in its critical section, and
    there is at most one. *)
Definition mtx_inv (w : mtx_world) : Prop :=
  (w_lock w = 0 /\ forall i, w_place w i <> Critical) \/
  (w_lock w = 1 /\ exists i, w_place w i = Critical /\
     forall j, w_place w j = Critical -> j = i).

Lemma mtx_inv_step i w w' : mtx_inv w -> mtx_step i w w' -> mtx_inv w'.
Proof.
  intros I S. destruct S as [w Hp|w r st Hp Ht|w st Hp Hu]; unfold mtx_inv, move in *; cbn.
  - destruct I as [[Hl Hn]|(Hl & k & Hk & Hn)].
    + left. split; [done|]. intros j. by destruct (decide (j = i)).
    + right. split; [done|]. exists k. destruct (decide (k = i)) as [->|]; [congruence|].
      split; [done|]. intros j. destruct (decide (j = i)); [done|auto].
  - rewrite tsl_run in Ht. injection Ht as <- <-. cbn.
    destruct I as [[Hl Hn]|(Hl & k & Hk & Hn)]; rewrite Hl; cbn; right; split; try done.
    + exists i. split; [by destruct (decide (i = i))|].
      intros j. destruct (decide (j = i)); [done|]. intros Hj. by destruct (Hn j).
    + exists k. destruct (decide (k = i)) as [->|]; [congruence|]. split; [done|].
      intros j. destruct (decide (j = i)); [done|auto].
  - injection Hu as <-. cbn. left. split; [done|]. intros j.
    destruct (decide (j = i)); [done|]. intros Hj.
    destruct I as [[Hl Hn]|(Hl & k & Hk & Hn)]; [by apply (Hn j)|].
    rewrite (Hn j Hj), (Hn i Hp) in *. done.
Qed.

Lemma mtx_reachable_inv w : mtx_reachable w -> mtx_inv w.
Proof.
  induction 1 as [irq|i w w' _ IH S].
  - left. done.
  - eapply mtx_inv_step; eauto.
Qed.


