(* ===== verification/Malloc.v ===== *)
(** * The heap allocator ([sys/lib/malloc.c], [MEM_ALLOC = 3])

    First-fit over a linked list of blocks whose headers live in the heap
    itself: the word at a block's address is [next], the following word is
    [size] with the used flag in bit 0.  Free neighbours are merged while
    searching.  The C code is translated over a store of 32-bit words; the
    blocks it implements are a list of (length, used) pairs. *)

From S2P Require Import Prelude Words Alloc Mutex.

(** The globals of the allocator: the heap's words, [first_free], [last_free],
    [krnl_free] and the mutex [krnl_malloc]. *)
Record heap : Type := Heap {
  mem : gmap Z Z;
  first_free : Z;
  last_free : Z;
  krnl_free : Z;
  krnl_malloc : mtx;
}.

Definition set_mem (h : heap) (m : gmap Z Z) : heap :=
  Heap m (first_free h) (last_free h) (krnl_free h) (krnl_malloc h).
Definition set_last_free (h : heap) (p : Z) : heap :=
  Heap (mem h) (first_free h) p (krnl_free h) (krnl_malloc h).
Definition set_krnl_free (h : heap) (n : Z) : heap :=
  Heap (mem h) (first_free h) (last_free h) n (krnl_malloc h).
Definition set_krnl_malloc (h : heap) (l : mtx) : heap :=
  Heap (mem h) (first_free h) (last_free h) (krnl_free h) l.

Definition M : Type -> Type := ST (Z * heap).

(** Word accesses; an address outside the heap faults. *)
Definition load (a : Z) : M Z := fun st =>
  match mem st.2 !! a with Some v => Ok (v, st) | None => Fault end.
Definition store (a v : Z) : M unit := fun st =>
  match mem st.2 !! a with
  | Some _ => Ok (tt, (st.1, set_mem st.2 (<[a := v]> (mem st.2))))
  | None => Fault
  end.
#[global] Arguments load : simpl never.
#[global] Arguments store : simpl never.
Definition modify_heap (f : heap -> heap) : M unit := modify (fun st => (st.1, f st.2)).

(** A mutex operation on [krnl_malloc]. *)
Definition on_lock {A : Type} (m : ST (Z * mtx) A) : M A := fun st =>
  match m (st.1, krnl_malloc st.2) with
  | Ok (a, (irq, l)) => Ok (a, (irq, set_krnl_malloc st.2 l))
  | Panic c => Panic c
  | Fault => Fault
  | Timeout => Timeout
  end.

(** [struct mem_block]: [next] at offset 0, [size] at offset 4. *)
Definition sizeof_mem_block : Z := 8.
Definition next_of (p : Z) : M Z := load p.
Definition size_of (p : Z) : M Z := load (p + 4).
Definition set_next (p v : Z) : M unit := store p v.
Definition set_size (p v : Z) : M unit := store (p + 4) v.

Definition align4 (x : Z) : Z := Z.shiftl (Z.shiftr (u32 (x + 3)) 2) 2.
(** [x & 1] and [x & ~1L] of a size word. *)
Definition used_bit (sz : Z) : Z := Z.land sz 1.
Definition clear_used (sz : Z) : Z := Z.land sz 4294967294.

Definition hf_free (ptr : Z) : M unit :=
  _ ← on_lock (hf_mtxlock 1);
  let p := ptr - sizeof_mem_block in
  sz ← size_of p;
  _ ← set_size p (clear_used sz);
  _ ← modify_heap (fun h => set_last_free h (first_free h));
  sz' ← size_of p;
  _ ← modify_heap (fun h => set_krnl_free h (u32 (krnl_free h + (sz' + sizeof_mem_block))));
  on_lock hf_mtxunlock.

(** [while (p->size & 1){ p = p->next; q = p; }] *)
Fixpoint skip_used (fuel : nat) (p q : Z) : M (Z * Z) :=
  match fuel with
  | O => timeout_st
  | S fuel =>
      sz ← size_of p;
      if nz (used_bit sz) then
        p' ← next_of p;
        skip_used fuel p' p'
      else mret (p, q)
  end.

(** [while (!(p->size & 1) && p->next) p = p->next;] *)
Fixpoint skip_free (fuel : nat) (p : Z) : M Z :=
  match fuel with
  | O => timeout_st
  | S fuel =>
      sz ← size_of p;
      if nz (used_bit sz) then mret p
      else
        nx ← next_of p;
        if nz nx then skip_free fuel nx else mret p
  end.

(** The outer [while (p->next)] loop; the result is [p] when it ends. *)
Fixpoint sweep (fuel inner : nat) (size p q : Z) : M Z :=
  match fuel with
  | O => timeout_st
  | S fuel =>
      nx ← next_of p;
      if negb (nz nx) then mret p
      else
        '(p1, q1) ← skip_used inner p q;
        p2 ← skip_free inner p1;
        _ ← when (nz p2) (
          _ ← set_size q1 (u32 (p2 - q1 - sizeof_mem_block));
          set_next q1 p2);
        qs ← size_of q1;
        if u32 (size + sizeof_mem_block) <=? qs then mret q1
        else sweep fuel inner size p2 q1
  end.

(** The part of [hf_malloc] after the loop: give up at the last header, or
    carve the block out of the free run at [p]. *)
Definition hf_malloc_take (size p : Z) : M Z :=
  nx ← next_of p;
  if negb (nz nx) then
    _ ← on_lock hf_mtxunlock;
    mret 0
  else
    _ ← modify_heap (fun h => set_last_free h p);
    r ← next_of p;
    let n := u32 (p + size + sizeof_mem_block) in
    _ ← set_next p n;
    _ ← set_size p (Z.lor size 1);
    sz ← size_of p;
    let n_size := u32 (clear_used sz - size - sizeof_mem_block) in
    _ ← set_next n r;
    _ ← set_size n n_size;
    _ ← modify_heap (fun h => set_krnl_free h (u32 (krnl_free h - (size + sizeof_mem_block))));
    _ ← on_lock hf_mtxunlock;
    mret (p + sizeof_mem_block).

(** The body of [hf_malloc] once the lock is held. *)
Definition hf_malloc_locked (fuel : nat) (size : Z) : M Z :=
  p0 ← gets (fun st => last_free st.2);
  p ← sweep fuel fuel size p0 p0;
  hf_malloc_take size p.

(** [hf_malloc]; the loops run at most once per word of the heap. *)
Definition hf_malloc (size : Z) : M Z :=
  let size := align4 size in
  _ ← on_lock (hf_mtxlock 1);
  fuel ← gets (fun st => S (stdpp.base.size (mem st.2)));
  hf_malloc_locked fuel size.

Definition heapinit (heap_addr len : Z) : M unit :=
  let p := heap_addr in
  let q := u32 (heap_addr + len - sizeof_mem_block) in
  let len := align4 len in
  _ ← set_next p q;
  _ ← set_size p (u32 (len - sizeof_mem_block - sizeof_mem_block));
  _ ← set_next q 0;
  _ ← set_size q 0;
  sz ← size_of p;
  _ ← modify_heap (fun h => Heap (mem h) heap_addr heap_addr sz (krnl_malloc h));
  on_lock hf_mtxinit.

(** Byte accesses: byte [a] of a big-endian word. *)
Definition byte_pos (a : Z) : Z := 8 * (3 - a mod 4).
Definition word_byte (w a : Z) : Z := Z.land (Z.shiftr w (byte_pos a)) 255.
Definition put_byte (w a v : Z) : Z :=
  Z.lor (Z.land w (Z.lxor 4294967295 (Z.shiftl 255 (byte_pos a)))) (Z.shiftl v (byte_pos a)).
Definition load_byte (a : Z) : M Z := w ← load (a - a mod 4); mret (word_byte w a).
Definition store_byte (a v : Z) : M unit :=
  w ← load (a - a mod 4); store (a - a mod 4) (put_byte w a v).

(** [memset] and [memcpy] of [lib/libc/libc.c] on the heap. *)
Fixpoint memset (s c : Z) (n : nat) : M unit :=
  match n with
  | O => mret tt
  | S n => _ ← store_byte s (u8 c); memset (s + 1) c n
  end.
Fixpoint memcpy (dst src : Z) (n : nat) : M unit :=
  match n with
  | O => mret tt
  | S n => b ← load_byte src; _ ← store_byte dst b; memcpy (dst + 1) (src + 1) n
  end.

Definition hf_calloc (qty type_size : Z) : M Z :=
  buf ← hf_malloc (u32 (qty * type_size));
  _ ← when (nz buf) (memset buf 0 (Z.to_nat (u32 (qty * type_size))));
  mret buf.

Definition hf_realloc (ptr size : Z) : M Z :=
  if i32 size <? 0 then mret 0
  else if negb (nz ptr) then hf_malloc size
  else
    buf ← hf_malloc size;
    _ ← when (nz buf) (_ ← memcpy buf ptr (Z.to_nat size); hf_free ptr);
    mret buf.

(** ** Block lists *)

(** A block of the heap: its length in bytes, header included, and whether it
    is allocated.  A heap is the list of its blocks in address order. *)
Abbreviation block := (Z * bool)%type.

Fixpoint total (bs : list block) : Z :=
  match bs with [] => 0 | (n, _) :: bs => n + total bs end.

Fixpoint free_bytes (bs : list block) : Z :=
  match bs with
  | [] => 0
  | (n, true) :: bs => free_bytes bs
  | (n, false) :: bs => n + free_bytes bs
  end.

Definition is_used (b : block) : Prop := b.2 = true.
Definition is_free (b : block) : Prop := b.2 = false.

(** Allocated payloads: address to size. *)
Fixpoint live_of (p : Z) (bs : list block) : gmap Z Z :=
  match bs with
  | [] => ∅
  | (n, true) :: bs => <[p + 8 := n - 8]> (live_of (p + n) bs)
  | (n, false) :: bs => live_of (p + n) bs
  end.

(** Every block holds a header and whole words. *)
Definition block_ok (b : block) : Prop := 8 <= b.1 /\ b.1 mod 4 = 0.

(** The header words of the blocks [bs] laid out from address [p]. *)
Fixpoint seg (m : gmap Z Z) (p : Z) (bs : list block) : Prop :=
  match bs with
  | [] => True
  | (n, u) :: bs =>
      m !! p = Some (p + n) /\
      (exists sz, m !! (p + 4) = Some sz /\ 0 <= sz /\
         if u : bool then sz = n - 8 + 1 else sz mod 2 = 0) /\
      seg m (p + n) bs
  end.

(** The last header of the heap: [next] is NULL and [size] is 0. *)
Definition sentinel (m : gmap Z Z) (e : Z) : Prop := m !! e = Some 0 /\ m !! (e + 4) = Some 0.

Definition mapped (m : gmap Z Z) (a b : Z) : Prop :=
  forall x, a <= x < b -> x mod 4 = 0 -> is_Some (m !! x).

(** Allocation always splits a free block, so the last block is free. *)
Definition ends_free (bs : list block) : Prop := exists bs' n, bs = bs' ++ [(n, false)].

Lemma total_app bs cs : total (bs ++ cs) = total bs + total cs.
Proof. induction bs as [|[n u] bs IH]; cbn; lia. Qed.

Lemma free_bytes_app bs cs : free_bytes (bs ++ cs) = free_bytes bs + free_bytes cs.
Proof. induction bs as [|[n []] bs IH]; cbn; lia. Qed.

Lemma total_nonneg bs : Forall block_ok bs -> 0 <= total bs.
Proof. induction 1 as [|[n u] bs []]; cbn in *; lia. Qed.

Lemma total_ge bs : Forall block_ok bs -> 8 * zlen bs <= total bs.
Proof.
  unfold zlen. induction 1 as [|[n u] bs []]; cbn in *; lia.
Qed.

Lemma total_mod4 bs : Forall block_ok bs -> total bs mod 4 = 0.
Proof.
  induction 1 as [|[n u] bs [? Hn] _ IH]; cbn in *; [done|].
  rewrite Z.add_mod, Hn, IH by done. done.
Qed.

Lemma free_bytes_range bs : Forall block_ok bs -> 0 <= free_bytes bs <= total bs.
Proof. induction 1 as [|[n []] bs []]; cbn in *; lia. Qed.

Lemma free_bytes_free fs : Forall is_free fs -> free_bytes fs = total fs.
Proof. induction 1 as [|[n u] fs Hu]; cbn in *; [done|]. by rewrite Hu, IHForall. Qed.

Lemma free_bytes_used us : Forall is_used us -> free_bytes us = 0.
Proof. induction 1 as [|[n u] us Hu]; cbn in *; [done|]. by rewrite Hu. Qed.

Lemma seg_app m p bs cs : seg m p (bs ++ cs) <-> seg m p bs /\ seg m (p + total bs) cs.
Proof.
  revert p. induction bs as [|[n u] bs IH]; intros p; cbn.
  - rewrite Z.add_0_r. tauto.
  - rewrite IH. replace (p + n + total bs) with (p + (n + total bs)) by lia. tauto.
Qed.

Lemma live_app p bs cs :
  live_of p (bs ++ cs) = live_of p bs ∪ live_of (p + total bs) cs.
Proof.
  revert p. induction bs as [|[n u] bs IH]; intros p; cbn.
  - rewrite Z.add_0_r. by rewrite (left_id_L ∅ (∪)).
  - rewrite IH. replace (p + n + total bs) with (p + (n + total bs)) by lia.
    destruct u; [|done]. by rewrite insert_union_l.
Qed.

Lemma live_free p fs : Forall is_free fs -> live_of p fs = ∅.
Proof.
  intros H. revert p. induction H as [|[n u] fs Hu _ IH]; intros p; cbn in *; [done|].
  by rewrite Hu.
Qed.

(** Payloads lie inside the blocks. *)
Lemma live_range_of p bs a s : Forall block_ok bs -> live_of p bs !! a = Some s ->
  p + 8 <= a /\ 0 <= s /\ a + s <= p + total bs /\ (a - p) mod 4 = 0 /\ s mod 4 = 0.
Proof.
  intros H. revert p. induction H as [|[n u] bs [Hn Hm] Hbs IH]; intros p; cbn in *.
  - by rewrite lookup_empty.
  - pose proof (total_nonneg bs Hbs). destruct u.
    + rewrite lookup_insert. case_decide as E.
      * intros [= <-]. subst a. split_and!; try lia; Z.div_mod_to_equations; lia.
      * intros ?%IH. Z.div_mod_to_equations. lia.
    + intros ?%IH. Z.div_mod_to_equations. lia.
Qed.

Lemma live_None_below p bs a : Forall block_ok bs -> a < p + 8 -> live_of p bs !! a = None.
Proof.
  intros H Ha. destruct (live_of p bs !! a) as [s|] eqn:E; [|done].
  apply live_range_of in E; [lia|done].
Qed.

(** An allocated payload is one of the used blocks. *)
Lemma live_split p bs a s : Forall block_ok bs -> live_of p bs !! a = Some s ->
  exists b1 b2, bs = b1 ++ (s + 8, true) :: b2 /\ a = p + total b1 + 8.
Proof.
  intros H. revert p. induction H as [|[n u] bs [Hn Hm] Hbs IH]; intros p; cbn in *.
  - by rewrite lookup_empty.
  - destruct u.
    + rewrite lookup_insert. case_decide as E.
      * intros [= <-]. exists [], bs. cbn. split; [f_equal; f_equal; lia|lia].
      * intros (b1 & b2 & -> & ->)%IH. exists ((n, true) :: b1), b2. cbn. split; [done|lia].
    + intros (b1 & b2 & -> & ->)%IH. exists ((n, false) :: b1), b2. cbn. split; [done|lia].
Qed.

(** Used blocks do not overlap. *)
Lemma live_disjoint_of p bs a n b k : Forall block_ok bs ->
  live_of p bs !! a = Some n -> live_of p bs !! b = Some k -> a <> b ->
  disjoint_range a n b k.
Proof.
  intros H. revert p. induction H as [|[l u] bs [Hl Hm] Hbs IH]; intros p; cbn in *.
  - by rewrite lookup_empty.
  - destruct u; [|apply IH]. rewrite !lookup_insert. unfold disjoint_range.
    case_decide; case_decide; subst; intros Ha Hb Hab; try done.
    + injection Ha as <-. apply live_range_of in Hb; [lia|done].
    + injection Hb as <-. apply live_range_of in Ha; [lia|done].
    + by eapply IH.
Qed.

(** Stores outside a segment's headers keep the segment. *)
Lemma seg_frame m p bs a v : Forall block_ok bs -> a < p \/ p + total bs <= a ->
  seg m p bs -> seg (<[a := v]> m) p bs.
Proof.
  intros H. revert p. induction H as [|[n u] bs [Hn Hm] Hbs IH]; intros p Ha; cbn in *; [done|].
  pose proof (total_nonneg bs Hbs).
  intros (? & (sz & ? & ?) & ?). rewrite !lookup_insert_ne by lia.
  split; [done|]. split; [eauto|]. apply IH; [lia|done].
Qed.

(** A segment only depends on the words it spans. *)
Lemma seg_agree m m' p bs : Forall block_ok bs ->
  (forall a, p <= a < p + total bs -> m' !! a = m !! a) -> seg m p bs -> seg m' p bs.
Proof.
  intros H. revert p. induction H as [|[n u] bs [Hn Hm] Hbs IH]; intros p Ha; cbn in *; [done|].
  pose proof (total_nonneg bs Hbs).
  intros (? & (sz & ? & ?) & ?). rewrite !Ha by lia.
  split; [done|]. split; [eauto|]. apply IH; [|done]. intros a ?. apply Ha. lia.
Qed.

(** ** Running the loops *)

Lemma load_run irq h a v : mem h !! a = Some v -> load a (irq, h) = Ok (v, (irq, h)).
Proof. unfold load. cbn. by intros ->. Qed.

Lemma store_run irq h a v : is_Some (mem h !! a) ->
  store a v (irq, h) = Ok (tt, (irq, set_mem h (<[a := v]> (mem h)))).
Proof. unfold store. cbn. by intros [? ->]. Qed.

Lemma used_bit_mod sz : used_bit sz = sz mod 2.
Proof. apply land_1. Qed.

Lemma skip_used_run irq h us : forall p q fuel sz,
  Forall block_ok us -> Forall is_used us -> seg (mem h) p us -> (length us < fuel)%nat ->
  mem h !! (p + total us + 4) = Some sz -> sz mod 2 = 0 ->
  skip_used fuel p q (irq, h) =
    Ok ((p + total us, match us with [] => q | _ => p + total us end), (irq, h)).
Proof.
  induction us as [|[n u] us IH]; intros p q fuel sz Hok Hu S Hf Hsz Hev;
    (destruct fuel as [|fuel]; [cbn in Hf; lia|]); cbn [skip_used];
    unfold mbind, ST_bind, size_of, next_of.
  - cbn in *. rewrite Z.add_0_r in *. rewrite (load_run _ _ _ sz) by done.
    by rewrite used_bit_mod, Hev.
  - apply Forall_cons_iff in Hu as [Hu Hus], Hok as [[Hn Hm] Hok].
    unfold is_used in Hu. cbn in *. subst u.
    destruct S as (Hp & (sz0 & Hs & _ & ->) & S).
    rewrite (load_run _ _ _ _ Hs), used_bit_mod.
    replace ((n - 8 + 1) mod 2) with 1 by (Z.div_mod_to_equations; lia). cbn.
    rewrite (load_run _ _ _ _ Hp).
    rewrite (IH (p + n) (p + n) fuel sz) by (try done; try lia; rewrite <- Hsz; f_equal; lia).
    replace (p + n + total us) with (p + (n + total us)) by lia.
    destruct us; cbn; [|done]. by replace (p + (n + 0)) with (p + n) by lia.
Qed.

(** Where [skip_free] stops: at an allocated block or at the last header. *)
Definition stops (m : gmap Z Z) (p : Z) : Prop :=
  (exists sz, m !! (p + 4) = Some sz /\ sz mod 2 = 1) \/ sentinel m p.

Lemma skip_free_run irq h fs : forall p fuel,
  0 < p -> Forall block_ok fs -> Forall is_free fs -> seg (mem h) p fs ->
  (length fs < fuel)%nat -> stops (mem h) (p + total fs) ->
  skip_free fuel p (irq, h) = Ok (p + total fs, (irq, h)).
Proof.
  induction fs as [|[n u] fs IH]; intros p fuel Hp0 Hok Hu S Hf Hst;
    (destruct fuel as [|fuel]; [cbn in Hf; lia|]); cbn [skip_free];
    unfold mbind, ST_bind, size_of, next_of.
  - cbn in *. rewrite Z.add_0_r in *. destruct Hst as [(sz & Hsz & Hodd)|[Hn Hs]].
    + by rewrite (load_run _ _ _ sz), used_bit_mod, Hodd.
    + rewrite (load_run _ _ _ _ Hs), used_bit_mod. change (nz (0 mod 2)) with false.
      cbn. by rewrite (load_run _ _ _ _ Hn).
  - apply Forall_cons_iff in Hu as [Hu Hus], Hok as [[Hn Hm] Hok].
    unfold is_free in Hu. cbn in *. subst u.
    destruct S as (Hp & (sz0 & Hs & _ & Hev) & S).
    rewrite (load_run _ _ _ _ Hs), used_bit_mod, Hev. cbn.
    rewrite (load_run _ _ _ _ Hp).
    replace (nz (p + n)) with true by (symmetry; apply nz_true; lia).
    rewrite IH; try done; try lia.
    + by replace (p + n + total fs) with (p + (n + total fs)) by lia.
    + by replace (p + n + total fs) with (p + (n + total fs)) by lia.
Qed.

(** ** What the search does to the blocks *)

(** [swept need bs pre res]: searching [bs] for [need] bytes leaves the blocks
    [pre], in which every free run is one block, and stops either at the end
    ([res = None]: every free run is too short) or at a free run of [n] bytes
    followed by the untouched blocks [rest]. *)
Inductive swept (need : Z) : list block -> list block -> option (Z * list block) -> Prop :=
| swept_end : swept need [] [] None
| swept_found us fs rest :
    Forall is_used us -> Forall is_free fs -> fs <> [] ->
    (rest = [] \/ exists n rest', rest = (n, true) :: rest') ->
    need <= total fs - 8 ->
    swept need (us ++ fs ++ rest) us (Some (total fs, rest))
| swept_skip us fs rest pre res :
    Forall is_used us -> Forall is_free fs -> fs <> [] ->
    (rest = [] \/ exists n rest', rest = (n, true) :: rest') ->
    total fs - 8 < need ->
    swept need rest pre res ->
    swept need (us ++ fs ++ rest) (us ++ (total fs, false) :: pre) res.

(** The blocks after the search. *)
Definition swept_blocks (pre : list block) (res : option (Z * list block)) : list block :=
  pre ++ match res with Some (n, rest) => (n, false) :: rest | None => [] end.

Lemma free_run_ok fs : Forall block_ok fs -> fs <> [] -> block_ok (total fs, false).
Proof.
  intros H Hne. split; [|by apply total_mod4]. cbn.
  destruct H as [|[n u] fs [Hn _] Hfs]; [done|]. cbn in *.
  pose proof (total_nonneg fs Hfs). lia.
Qed.

Lemma swept_facts need bs pre res : swept need bs pre res -> Forall block_ok bs ->
  Forall block_ok (swept_blocks pre res) /\ total (swept_blocks pre res) = total bs /\
  free_bytes (swept_blocks pre res) = free_bytes bs /\
  forall p, live_of p (swept_blocks pre res) = live_of p bs.
Proof.
  induction 1 as [|us fs rest Hu Hf Hne Hr Hneed|us fs rest pre res Hu Hf Hne Hr Hneed _ IH];
    unfold swept_blocks in *; intros Hok; [done|..].
  - apply Forall_app in Hok as [Hok1 [Hok2 Hok3]%Forall_app].
    pose proof (free_run_ok fs Hok2 Hne). split_and!.
    + apply Forall_app. split; [done|]. by apply Forall_cons_iff.
    + rewrite !total_app. cbn. lia.
    + rewrite !free_bytes_app, (free_bytes_free fs) by done. cbn. lia.
    + intros p. rewrite !live_app. cbn. rewrite (live_free _ fs) by done.
      by rewrite (left_id_L ∅ (∪)).
  - apply Forall_app in Hok as [Hok1 [Hok2 Hok3]%Forall_app].
    destruct (IH Hok3) as (I1 & I2 & I3 & I4).
    pose proof (free_run_ok fs Hok2 Hne). rewrite <- app_assoc, <- app_comm_cons.
    set (bl := pre ++ _) in *. clearbody bl. split_and!.
    + apply Forall_app. split; [done|]. by apply Forall_cons_iff.
    + rewrite !total_app. cbn. rewrite I2. lia.
    + rewrite !free_bytes_app, (free_bytes_free fs) by done. cbn. rewrite I3. lia.
    + intros p. rewrite !live_app. cbn. rewrite I4, (live_free _ fs) by done.
      by rewrite (left_id_L ∅ (∪)).
Qed.

(** A block list that ends in a free block splits into its first run of used
    blocks, its first (non-empty) run of free blocks and the rest. *)
Lemma first_runs bs : ends_free bs -> exists us fs rest,
  bs = us ++ fs ++ rest /\ Forall is_used us /\ Forall is_free fs /\ fs <> [] /\
  (rest = [] \/ (ends_free rest /\ exists n rest', rest = (n, true) :: rest')).
Proof.
  intros (bs' & n & ->). induction bs' as [|[k u] bs' IH].
  - exists [], [(n, false)], []. cbn. split_and!; try done; [by repeat constructor|by left].
  - destruct IH as (us & fs & rest & E & Hu & Hf & Hne & Hr).
    destruct u.
    + exists ((k, true) :: us), fs, rest. cbn. rewrite E. split_and!; try done.
      by apply Forall_cons_iff.
    + destruct us as [|[j v] us].
      * exists [], ((k, false) :: fs), rest. cbn in *. rewrite E. split_and!; try done.
        by apply Forall_cons_iff.
      * exists [], [(k, false)], ((j, v) :: us ++ fs ++ rest). cbn in *. rewrite E.
        split_and!; try done; [by repeat constructor|]. right.
        apply Forall_cons_iff in Hu as [Hv _]. unfold is_used in Hv. cbn in Hv. subst v.
        split; [|eauto]. exists bs', n. by rewrite E.
Qed.

(** Words [a, b) are the only ones that may differ, and none is unmapped. *)
Definition changed_only (m m' : gmap Z Z) (a b : Z) : Prop :=
  (forall x, x < a \/ b <= x -> m' !! x = m !! x) /\
  (forall x, is_Some (m !! x) -> is_Some (m' !! x)).

Lemma changed_only_refl m a b : changed_only m m a b.
Proof. by split. Qed.

Lemma changed_only_trans m1 m2 m3 a b c : a <= c ->
  changed_only m1 m2 a b -> changed_only m2 m3 c b -> changed_only m1 m3 a b.
Proof.
  intros Hc [H1 H2] [H3 H4]. split; [|auto].
  intros x Hx. rewrite H3, H1; [done|lia|lia].
Qed.

Lemma changed_only_insert m m' a b x v : a <= x < b ->
  changed_only m m' a b -> changed_only m (<[x := v]> m') a b.
Proof.
  intros Hx [H1 H2]. split; intros y Hy.
  - rewrite lookup_insert_ne by lia. auto.
  - rewrite lookup_insert. case_decide; eauto.
Qed.

(** The words of the payloads of [bs] are the same in both stores. *)
Definition keeps (m m' : gmap Z Z) (p : Z) (bs : list block) : Prop :=
  forall a s x, live_of p bs !! a = Some s -> a <= x < a + s -> m' !! x = m !! x.

Lemma keeps_trans m1 m2 m3 p bs : keeps m1 m2 p bs -> keeps m2 m3 p bs -> keeps m1 m3 p bs.
Proof. intros H1 H2 a s x L Hx. rewrite (H2 a s x L Hx). by eapply H1. Qed.

(** Payloads lie in the used blocks: a store inside the blocks [bs2], all free,
    keeps the others. *)
Lemma keeps_free m m' p bs1 bs2 bs3 : Forall block_ok (bs1 ++ bs2 ++ bs3) -> Forall is_free bs2 ->
  changed_only m m' (p + total bs1) (p + total bs1 + total bs2) -> keeps m m' p (bs1 ++ bs2 ++ bs3).
Proof.
  intros [H1 [H2 H3]%Forall_app]%Forall_app Hf [Hc _] a s x.
  rewrite !live_app, (live_free _ bs2), (left_id_L ∅ (∪)) by done.
  pose proof (total_nonneg bs2 H2).
  intros [L|[_ L]]%lookup_union_Some_raw Hx; apply live_range_of in L; try done; apply Hc; lia.
Qed.

(** A change below the first payload of [bs2] and inside free space. *)
Lemma keeps_app m m' p bs1 bs2 : Forall block_ok bs1 ->
  changed_only m m' (p + total bs1) (p + total (bs1 ++ bs2)) ->
  keeps m m' (p + total bs1) bs2 -> keeps m m' p (bs1 ++ bs2).
Proof.
  intros H1 [Hc _] K a s x. rewrite live_app.
  intros [L|[_ L]]%lookup_union_Some_raw Hx; [|by eapply K].
  apply live_range_of in L; [|done]. apply Hc. lia.
Qed.

(** One round of the search: the free run [fs] becomes one block. *)
Lemma merge_run irq h p us fs :
  Forall block_ok us -> Forall block_ok fs -> fs <> [] ->
  0 < p -> p + total us + total fs < 4294967296 ->
  seg (mem h) p (us ++ fs) ->
  exists m', (when (nz (p + total us + total fs)) (
        _ ← set_size (p + total us)
              (u32 (p + total us + total fs - (p + total us) - sizeof_mem_block));
        set_next (p + total us) (p + total us + total fs)) : M unit) (irq, h)
      = Ok (tt, (irq, set_mem h m')) /\
    seg m' p (us ++ [(total fs, false)]) /\
    m' !! (p + total us + 4) = Some (total fs - 8) /\
    changed_only (mem h) m' (p + total us) (p + total us + total fs).
Proof.
  intros Hus Hfs Hne Hp0 Hb S.
  pose proof (total_nonneg us Hus). destruct (free_run_ok fs Hfs Hne) as [Hn Hm]. cbn in Hn, Hm.
  apply seg_app in S as [S1 S2].
  destruct fs as [|[n u] fs]; [done|]. set (k := total ((n, u) :: fs)) in *. clearbody k.
  cbn in S2. destruct S2 as (Hp & (sz & Hs & _) & _).
  replace (nz (p + total us + k)) with true by (symmetry; apply nz_true; lia).
  cbn [when]. unfold mbind, ST_bind, set_size, set_next.
  rewrite store_run by eauto. cbn.
  rewrite store_run by (cbn; rewrite lookup_insert_ne by lia; eauto). cbn.
  unfold sizeof_mem_block. rewrite u32_small by lia.
  eexists. split; [done|]. split_and!.
  - apply seg_app. split.
    + apply seg_frame; [done|lia|]. apply seg_frame; [done|lia|done].
    + cbn. rewrite lookup_insert_eq, lookup_insert_ne, lookup_insert_eq by lia.
      split; [done|]. split; [|done]. eexists. split; [done|]. Z.div_mod_to_equations. lia.
  - rewrite lookup_insert_ne, lookup_insert_eq by lia. f_equal. lia.
  - apply changed_only_insert; [lia|]. apply changed_only_insert; [lia|].
    apply changed_only_refl.
Qed.

Lemma sweep_run irq size : 0 <= size -> size + 8 < 4294967296 ->
  forall fuel inner bs p q h,
  Forall block_ok bs -> bs = [] \/ ends_free bs ->
  (forall n bs', bs = (n, false) :: bs' -> q = p) ->
  0 < p -> p + total bs + 8 < 4294967296 ->
  seg (mem h) p bs -> sentinel (mem h) (p + total bs) ->
  (length bs < fuel)%nat -> (length bs < inner)%nat ->
  exists m' pre res r, sweep fuel inner size p q (irq, h) = Ok (r, (irq, set_mem h m')) /\
    swept (size + 8) bs pre res /\ seg m' p (swept_blocks pre res) /\
    changed_only (mem h) m' p (p + total bs) /\ keeps (mem h) m' p bs /\ r = p + total pre /\
    match res with Some (n, _) => m' !! (r + 4) = Some (n - 8) | None => True end.
Proof.
  intros Hs0 Hs1. induction fuel as [|fuel IH]; intros inner bs p q h Hok He Hq Hp0 Hb S Hsen Hf Hi.
  { cbn in Hf. lia. }
  cbn [sweep]. unfold mbind at 1, ST_bind at 1, next_of at 1.
  destruct He as [->|He].
  { cbn in *. rewrite Z.add_0_r in *. rewrite (load_run _ _ _ 0) by apply Hsen. cbn.
    exists (mem h), [], None, p. split_and!; try done; [by destruct h|apply swept_end|cbn; lia]. }
  pose proof Hok as Hoks.
  destruct (first_runs bs He) as (us & fs & rest & -> & Hu & Hfr & Hne & Hr).
  apply Forall_app in Hok as [Hok1 [Hok2 Hok3]%Forall_app].
  pose proof (total_nonneg us Hok1). pose proof (total_nonneg rest Hok3).
  destruct (free_run_ok fs Hok2 Hne) as [Hn Hm]. cbn in Hn, Hm.
  rewrite !total_app in *. rewrite !length_app in *.
  assert (length fs <> 0)%nat by (destruct fs; done).
  pose proof S as S0. rewrite app_assoc in S. apply seg_app in S as [S12 S3].
  pose proof S12 as [S1 S2]%seg_app. rewrite total_app, Z.add_assoc in S3.
  (* the first header is not the last one *)
  assert (exists k, mem h !! p = Some k /\ nz k = true) as (k & Hk & Hnz).
  { destruct us as [|[j v] us].
    - destruct fs as [|[j v] fs]; [done|]. cbn in S2. rewrite Z.add_0_r in S2.
      apply Forall_cons_iff in Hok2 as [[? _] _]. cbn in *.
      exists (p + j). split; [apply S2|]. apply nz_true. lia.
    - cbn in S1. apply Forall_cons_iff in Hok1 as [[? _] _]. cbn in *.
      exists (p + j). split; [apply S1|]. apply nz_true. lia. }
  rewrite (load_run _ _ _ _ Hk), Hnz. cbn [negb].
  (* skip the used blocks, then the free ones *)
  assert (exists sz, mem h !! (p + total us + 4) = Some sz /\ sz mod 2 = 0) as (sz & Hsz & Hev).
  { destruct fs as [|[j v] fs]; [done|]. apply Forall_cons_iff in Hfr as [Hv _].
    unfold is_free in Hv. cbn in Hv, S2. subst v.
    destruct S2 as (_ & (sz & ? & _ & ?) & _). eauto. }
  unfold mbind at 1, ST_bind at 1.
  rewrite (skip_used_run irq h us p q inner sz) by (done || lia).
  replace (match us with [] => q | _ => p + total us end) with (p + total us).
  2:{ destruct us; [|done]. cbn. destruct fs as [|[j v] fs]; [done|].
      apply Forall_cons_iff in Hfr as [Hv _]. unfold is_free in Hv. cbn in Hv. subst v.
      rewrite (Hq j (fs ++ rest)); [lia|done]. }
  unfold mbind at 1, ST_bind at 1.
  assert (stops (mem h) (p + total us + total fs)) as Hst.
  { destruct Hr as [->|(_ & j & rest' & ->)].
    - right. cbn in Hsen. replace (p + total us + total fs) with (p + (total us + (total fs + 0))) by lia. done.
    - left. apply Forall_cons_iff in Hok3 as [[? ?] _]. cbn in *.
      destruct S3 as (_ & (sz' & ? & _ & ->) & _). eexists. split; [done|].
      Z.div_mod_to_equations. lia. }
  rewrite (skip_free_run irq h fs) by (done || lia).
  destruct (merge_run irq h p us fs) as (m1 & E1 & Sm & Hsz1 & Hch1); try done; [lia|].
  unfold mbind at 1, ST_bind at 1. rewrite E1.
  unfold mbind at 1, ST_bind at 1, size_of at 1.
  rewrite (load_run _ (set_mem h m1) _ (total fs - 8)) by done.
  unfold sizeof_mem_block. rewrite u32_small by lia.
  assert (seg m1 (p + total us + total fs) rest) as Srest.
  { eapply seg_agree; [done| |exact S3]. intros a Ha. apply Hch1. lia. }
  destruct (Z.leb_spec (size + 8) (total fs - 8)) as [Hle|Hlt].
  - exists m1, us, (Some (total fs, rest)), (p + total us). split_and!; try done.
    + apply swept_found; try done. destruct Hr as [->|(_ & ?)]; auto.
    + unfold swept_blocks. replace (us ++ (total fs, false) :: rest)
        with ((us ++ [(total fs, false)]) ++ rest) by by rewrite <- app_assoc.
      apply seg_app. split; [done|]. rewrite total_app. cbn.
      by replace (p + (total us + (total fs + 0))) with (p + total us + total fs) by lia.
    + destruct Hch1 as [Hc1 Hc2]. split; [|done]. intros x Hx. apply Hc1. lia.
    + by apply keeps_free.
  - destruct (IH inner rest (p + total us + total fs) (p + total us) (set_mem h m1))
      as (m2 & pre & res & r & E2 & Hsw & Hseg & Hch2 & Hkp & -> & Hres); try done; try lia.
    + destruct Hr as [->|(? & _)]; auto.
    + intros n bs' ->. destruct Hr as [?|(_ & ? & ? & ?)]; congruence.
    + replace (p + total us + total fs + total rest) with (p + (total us + (total fs + total rest)))
        by lia. destruct Hsen as [He1 He2].
      split; cbn; [rewrite <- He1|rewrite <- He2]; apply Hch1; lia.
    + exists m2, (us ++ (total fs, false) :: pre), res, (p + total us + total fs + total pre).
      split_and!; try done.
      * apply swept_skip; try done. destruct Hr as [->|(_ & ?)]; auto.
      * unfold swept_blocks in *. rewrite <- app_assoc, <- app_comm_cons.
        replace (us ++ (total fs, false) :: pre ++ _)
          with ((us ++ [(total fs, false)]) ++ (pre ++ match res with
             Some (n, rest) => (n, false) :: rest | None => [] end)) by by rewrite <- app_assoc.
        apply seg_app. rewrite total_app. cbn [total].
        replace (p + (total us + (total fs + 0))) with (p + total us + total fs) by lia.
        split; [|done]. eapply seg_agree; [|intros a Ha; apply Hch2|exact Sm].
        -- apply Forall_app. split; [done|]. by repeat constructor.
        -- rewrite total_app in Ha. cbn in Ha. lia.
      * apply (changed_only_trans _ m1 _ p _ (p + total us + total fs)); [lia| |].
        -- destruct Hch1 as [Hc1 Hc2]. split; [|done]. intros x Hx. apply Hc1. lia.
        -- by replace (p + (total us + (total fs + total rest)))
             with (p + total us + total fs + total rest) by lia.
      * apply (keeps_trans _ m1); [by apply keeps_free|]. rewrite app_assoc.
        cbn [mem set_mem] in Hch2, Hkp.
        apply keeps_app; rewrite ?total_app, ?Z.add_assoc; [by apply Forall_app|done..].
      * rewrite total_app. cbn. lia.
Qed.

(** ** The heap's invariant *)

(** The heap [base .. base + total + 8) is laid out as the blocks [pre ++ post];
    the search starts at [post].  [krnl_free] counts every free byte but the
    header of the last block. *)
Record heap_wf (h : heap) (base : Z) (pre post : list block) : Prop := {
  wf_base : 0 < base /\ base mod 4 = 0;
  wf_first : first_free h = base;
  wf_last : last_free h = base + total pre;
  wf_blocks : Forall block_ok (pre ++ post);
  wf_ends : ends_free post;
  wf_bound : base + total (pre ++ post) + 8 < 4294967296;
  wf_seg : seg (mem h) base (pre ++ post);
  wf_sentinel : sentinel (mem h) (base + total (pre ++ post));
  wf_mapped : mapped (mem h) base (base + total (pre ++ post));
  wf_lock : krnl_malloc h = 0;
  wf_free : krnl_free h = free_bytes (pre ++ post) - 8;
}.

(** The headers' addresses. *)
Fixpoint headers (p : Z) (bs : list block) : list Z :=
  match bs with [] => [] | (n, _) :: bs => p :: headers (p + n) bs end.

Lemma headers_ge p bs x : Forall block_ok bs -> x ∈ headers p bs -> p <= x.
Proof.
  intros H. revert p. induction H as [|[n u] bs [Hn _] _ IH]; intros p; cbn in *.
  - by intros ?%elem_of_nil.
  - intros [->|Hx%IH]%elem_of_cons; lia.
Qed.

Lemma headers_NoDup p bs : Forall block_ok bs -> NoDup (headers p bs).
Proof.
  intros H. revert p. induction H as [|[n u] bs [Hn _] Hbs IH]; intros p; cbn in *; constructor.
  - intros Hx%headers_ge; [lia|done].
  - apply IH.
Qed.

Lemma headers_mapped m p bs x : seg m p bs -> x ∈ headers p bs -> x ∈ dom m.
Proof.
  revert p. induction bs as [|[n u] bs IH]; intros p; cbn.
  - by intros _ ?%elem_of_nil.
  - intros (Hp & _ & S) [->|Hx]%elem_of_cons; [by apply elem_of_dom|eauto].
Qed.

(** There are at most as many blocks as words, so the loops' fuel is enough. *)
Lemma blocks_fuel m p bs : Forall block_ok bs -> seg m p bs ->
  (length bs < S (size m))%nat.
Proof.
  intros Hok S. assert (length bs = length (headers p bs)) as ->.
  { clear. revert p. induction bs as [|[n u] bs IH]; intros p; cbn; [done|]. by rewrite <- IH. }
  apply Nat.lt_succ_r. rewrite <- size_dom.
  rewrite <- (size_list_to_set (C := gset Z)) by by apply headers_NoDup.
  apply subseteq_size. intros x Hx%elem_of_list_to_set. by eapply headers_mapped.
Qed.

(** Reading the blocks back from the words. *)
Fixpoint read_blocks (fuel : nat) (m : gmap Z Z) (p : Z) : list block :=
  match fuel with
  | O => []
  | S fuel =>
      match m !! p, m !! (p + 4) with
      | Some nx, Some sz =>
          if nx =? 0 then [] else (nx - p, nz (used_bit sz)) :: read_blocks fuel m nx
      | _, _ => []
      end
  end.

Lemma read_blocks_seg m bs : forall p fuel, 0 < p -> Forall block_ok bs -> seg m p bs ->
  sentinel m (p + total bs) -> (length bs < fuel)%nat -> read_blocks fuel m p = bs.
Proof.
  induction bs as [|[n u] bs IH]; intros p fuel Hp Hok S Hs Hf;
    (destruct fuel as [|fuel]; [cbn in Hf; lia|]); cbn in *.
  - rewrite Z.add_0_r in Hs. by destruct Hs as [-> ->].
  - apply Forall_cons_iff in Hok as [[Hn Hm] Hok]. cbn in *.
    destruct S as (-> & (sz & -> & Hsz & Hu) & S).
    destruct (Z.eqb_spec (p + n) 0); [lia|].
    rewrite (IH (p + n) fuel) by (done || lia || by rewrite <- Z.add_assoc).
    f_equal. f_equal; [lia|]. rewrite used_bit_mod. destruct u.
    + subst sz. apply nz_true. Z.div_mod_to_equations. lia.
    + apply nz_false. done.
Qed.

Definition heap_ok_wf (h : heap) : Prop := exists base pre post, heap_wf h base pre post.

(** The allocated blocks, read from the heap's words. *)
Definition heap_live_words (h : heap) : gmap Z Z :=
  live_of (first_free h) (read_blocks (S (size (mem h))) (mem h) (first_free h)).

#[global] Arguments heap_live_words : simpl never.

Lemma wf_live h base pre post : heap_wf h base pre post ->
  heap_live_words h = live_of base (pre ++ post).
Proof.
  intros []. unfold heap_live_words. rewrite wf_first0.
  rewrite (read_blocks_seg _ (pre ++ post)); try done; [lia|].
  by eapply blocks_fuel.
Qed.

(** ** Arithmetic of sizes *)

Lemma align4_spec x : 0 <= x <= max_request ->
  x <= align4 x < x + 4 /\ align4 x mod 4 = 0.
Proof.
  unfold max_request, align4. intros H. rewrite u32_small by lia.
  rewrite Z.shiftr_div_pow2, Z.shiftl_mul_pow2 by lia. change (2 ^ 2) with 4.
  Z.div_mod_to_equations. lia.
Qed.

Lemma clear_used_spec x : 0 <= x < 4294967296 -> clear_used x = x - x mod 2.
Proof.
  intros H. unfold clear_used. transitivity (Z.shiftl (Z.shiftr x 1) 1).
  - change 4294967294 with (Z.shiftl (Z.ones 31) 1). apply Z.bits_inj'. intros i Hi.
    rewrite Z.land_spec. destruct (decide (i = 0)) as [->|].
    + rewrite !Z.shiftl_spec_low by lia. by rewrite andb_false_r.
    + rewrite !Z.shiftl_spec, Z.shiftr_spec by lia. replace (i - 1 + 1) with i by lia.
      destruct (decide (i - 1 < 31)).
      * by rewrite Z.ones_spec_low, andb_true_r by lia.
      * rewrite Z.ones_spec_high, andb_false_r by lia. symmetry.
        apply (testbit_high x 32); [done|lia].
  - rewrite Z.shiftr_div_pow2, Z.shiftl_mul_pow2 by lia. change (2 ^ 1) with 2.
    Z.div_mod_to_equations. lia.
Qed.

Lemma lor_1_even x : x mod 2 = 0 -> Z.lor x 1 = x + 1.
Proof.
  intros H. rewrite lor_add; [done|]. by rewrite land_1.
Qed.

Lemma ends_free_app bs cs : ends_free cs -> ends_free (bs ++ cs).
Proof. intros (cs' & n & ->). exists (bs ++ cs'), n. by rewrite <- app_assoc. Qed.

Lemma ends_free_suffix bs cs : ends_free (bs ++ cs) -> cs <> [] -> ends_free cs.
Proof.
  intros (l & n & E) Hne. destruct (exists_last Hne) as (cs' & [k u] & ->).
  rewrite app_assoc in E. apply app_inj_tail in E as [_ [= -> ->]]. by exists cs', n.
Qed.

Lemma ends_free_cons n bs : bs = [] \/ ends_free bs -> ends_free ((n, false) :: bs).
Proof.
  intros [->|H]; [by exists [], n|]. by apply (ends_free_app [(n, false)]).
Qed.

Lemma swept_nil need pre res : swept need [] pre res -> pre = [] /\ res = None.
Proof.
  intros H. remember [] as bs eqn:E. destruct H; [done|..];
    by apply app_eq_nil in E as [_ [-> _]%app_eq_nil].
Qed.

Lemma swept_ends need bs pre res : swept need bs pre res -> ends_free bs ->
  ends_free (swept_blocks pre res) /\
  match res with Some (_, rest) => rest = [] \/ ends_free rest | None => True end.
Proof.
  induction 1 as [|us fs rest Hu Hf Hne Hr Hneed|us fs rest pre res Hu Hf Hne Hr Hneed Hs IH];
    unfold swept_blocks in *; intros He.
  - split; [|done]. by destruct He as ([] & ? & ?).
  - assert (rest = [] \/ ends_free rest) as Hr'.
    { destruct rest; [by left|right]. rewrite app_assoc in He.
      by eapply ends_free_suffix. }
    split; [|done]. by apply ends_free_app, ends_free_cons.
  - destruct rest as [|b rest].
    + apply swept_nil in Hs as [-> ->]. split; [|done]. rewrite app_nil_r.
      apply ends_free_app. by exists [], (total fs).
    + rewrite app_assoc in He. apply ends_free_suffix in He; [|done].
      destruct (IH He) as [I1 I2]. split; [|done].
      rewrite <- app_assoc, <- app_comm_cons. apply ends_free_app, ends_free_cons. by right.
Qed.

(** ** [hf_malloc] and [hf_free] on a well-formed heap *)

(** Splitting the free run found at [p] into an allocated block and the rest. *)
Lemma split_run irq h p n size : 0 < p -> p + n < 4294967296 ->
  0 <= size -> size mod 4 = 0 -> n mod 4 = 0 -> size + 8 <= n - 8 ->
  is_Some (mem h !! (p + 4)) -> is_Some (mem h !! (p + size + 8)) ->
  is_Some (mem h !! (p + size + 12)) -> mem h !! p = Some (p + n) ->
  krnl_malloc h = 1 -> size + 8 <= krnl_free h < 4294967296 ->
  exists h', (_ ← modify_heap (fun h => set_last_free h p);
    r ← next_of p;
    _ ← set_next p (u32 (p + size + sizeof_mem_block));
    _ ← set_size p (Z.lor size 1);
    sz ← size_of p;
    _ ← set_next (u32 (p + size + sizeof_mem_block)) r;
    _ ← set_size (u32 (p + size + sizeof_mem_block))
          (u32 (clear_used sz - size - sizeof_mem_block));
    _ ← modify_heap (fun h => set_krnl_free h (u32 (krnl_free h - (size + sizeof_mem_block))));
    _ ← on_lock hf_mtxunlock;
    mret (p + sizeof_mem_block) : M Z) (irq, h) = Ok (p + 8, (irq, h')) /\
  seg (mem h') p [(size + 8, true); (n - size - 8, false)] /\
  changed_only (mem h) (mem h') p (p + n) /\
  first_free h' = first_free h /\ last_free h' = p /\
  krnl_free h' = krnl_free h - (size + 8) /\ krnl_malloc h' = 0.
Proof.
  intros Hp Hb Hs Hs4 Hn4 Hfit H4 H8 H12 Hnx Hl Hkf.
  assert (Hodd : size mod 2 = 0) by (Z.div_mod_to_equations; lia).
  unfold sizeof_mem_block. rewrite u32_small, lor_1_even by (done || lia).
  unfold mbind, ST_bind, modify_heap, modify. cbn [fst snd].
  unfold next_of, size_of, set_next, set_size.
  rewrite (load_run _ _ _ (p + n)) by done.
  rewrite store_run by (cbn; by rewrite Hnx). cbn.
  rewrite store_run by (cbn; rewrite lookup_insert_ne by lia; done). cbn.
  rewrite (load_run _ _ _ (size + 1)) by (cbn; by rewrite lookup_insert_eq).
  rewrite store_run by (cbn; rewrite !lookup_insert_ne by lia; done). cbn.
  rewrite store_run by (cbn; replace (p + size + 8 + 4) with (p + size + 12) by lia;
    rewrite !lookup_insert_ne by lia; done). cbn.
  rewrite clear_used_spec by lia.
  replace ((size + 1) mod 2) with 1 by (Z.div_mod_to_equations; lia).
  replace (size + 1 - 1 - size - 8) with (-8) by lia.
  eexists. split; [done|]. cbn. split_and!.
  - rewrite !lookup_insert_ne, lookup_insert_eq by lia. f_equal. lia.
  - exists (size + 1). rewrite !lookup_insert_ne, lookup_insert_eq by lia.
    split_and!; [done|lia|lia].
  - rewrite lookup_insert_ne by lia.
    replace (p + (size + 8)) with (p + size + 8) by lia. rewrite lookup_insert_eq. f_equal. lia.
  - exists 4294967288. replace (p + (size + 8) + 4) with (p + size + 8 + 4) by lia.
    rewrite lookup_insert_eq. split_and!; [done|lia|done].
  - done.
  - repeat (apply changed_only_insert; [lia|]). apply changed_only_refl.
  - done.
  - done.
  - rewrite u32_small by lia. lia.
  - done.
Qed.

Lemma mapped_changed m m' a b c d : changed_only m m' a b -> mapped m c d -> mapped m' c d.
Proof. intros [_ H] Hm x Hx H4. apply H, Hm; done. Qed.

Lemma sentinel_changed m m' a b e : b <= e -> changed_only m m' a b ->
  sentinel m e -> sentinel m' e.
Proof. intros He [H _] [H1 H2]. split; rewrite H by lia; done. Qed.

Lemma on_lock_lock irq h : krnl_malloc h = 0 ->
  on_lock (hf_mtxlock 1) (irq, h) = Ok (tt, (irq, set_krnl_malloc h 1)).
Proof. unfold on_lock. cbn. by intros ->. Qed.

(** The loop of [hf_malloc] stops at the free run that [swept] describes. *)
Lemma hf_malloc_search irq h base pre post sz :
  heap_wf h base pre post -> 0 <= sz <= max_request ->
  exists m' sp res,
  hf_malloc sz (irq, h) = hf_malloc_take (align4 sz) (base + total pre + total sp)
    (irq, set_mem (set_krnl_malloc h 1) m') /\
  swept (align4 sz + 8) post sp res /\
  Forall block_ok (pre ++ swept_blocks sp res) /\
  seg m' base (pre ++ swept_blocks sp res) /\
  sentinel m' (base + total (pre ++ swept_blocks sp res)) /\
  mapped m' base (base + total (pre ++ swept_blocks sp res)) /\
  total (swept_blocks sp res) = total post /\
  krnl_free h = free_bytes (pre ++ swept_blocks sp res) - 8 /\
  keeps (mem h) m' base (pre ++ post) /\
  match res with
  | Some (n, _) => m' !! (base + total pre + total sp + 4) = Some (n - 8)
  | None => True
  end.
Proof.
  intros W Hsz. destruct (align4_spec sz Hsz) as [Hal Hal4].
  set (k := align4 sz) in *. unfold max_request in Hsz.
  destruct W. apply Forall_app in wf_blocks0 as [Hok1 Hok2].
  pose proof (blocks_fuel _ _ _ (proj2 (Forall_app _ _ _) (conj Hok1 Hok2)) wf_seg0) as Hfuel.
  rewrite length_app in Hfuel. rewrite total_app in *.
  apply seg_app in wf_seg0 as [Sg1 Sg2].
  unfold hf_malloc. fold k. unfold mbind at 1, ST_bind at 1. rewrite on_lock_lock by done.
  unfold mbind at 1, ST_bind at 1, gets at 1. cbn [snd mem set_krnl_malloc].
  set (fuel := S (size (mem h))) in *. clearbody fuel.
  unfold hf_malloc_locked. unfold mbind at 1, ST_bind at 1, gets at 1.
  cbn [snd last_free set_krnl_malloc]. rewrite wf_last0.
  pose proof (total_nonneg pre Hok1).
  destruct (sweep_run irq k ltac:(lia) ltac:(lia) fuel fuel post (base + total pre)
    (base + total pre) (set_krnl_malloc h 1)) as (m' & sp & res & r & E & Hsw & Sg & Hch & Hkp & -> & Hres);
    try done; try lia; [by right|by rewrite <- Z.add_assoc|].
  unfold mbind at 1, ST_bind at 1. rewrite E.
  destruct (swept_facts _ _ _ _ Hsw Hok2) as (F1 & F2 & F3 & F4).
  cbn [mem set_mem set_krnl_malloc] in *.
  exists m', sp, res. rewrite total_app, F2, free_bytes_app, F3, <- free_bytes_app.
  split_and!; try done.
  - by apply Forall_app.
  - apply seg_app. split; [|done]. eapply seg_agree; [done| |exact Sg1].
    intros a Ha. apply Hch. lia.
  - eapply sentinel_changed; [|exact Hch|done]. lia.
  - by eapply mapped_changed.
  - apply keeps_app; [done| |done]. by rewrite total_app, Z.add_assoc.
Qed.

Lemma swept_fits need bs pre n rest : swept need bs pre (Some (n, rest)) -> need <= n - 8.
Proof.
  intros H. remember (Some (n, rest)) as res eqn:E. induction H; naive_solver.
Qed.

(** [hf_malloc]: the search over the blocks from [last_free] on decides the
    outcome; on success the block is carved out of the first free run that
    fits. *)
Lemma hf_malloc_wf irq h base pre post sz :
  heap_wf h base pre post -> 0 <= sz <= max_request ->
  exists h' swept_pre res, swept (align4 sz + 8) post swept_pre res /\
  keeps (mem h) (mem h') base (pre ++ post) /\
  match res with
  | None => hf_malloc sz (irq, h) = Ok (0, (irq, h')) /\
      heap_wf h' base pre swept_pre
  | Some (n, rest) =>
      hf_malloc sz (irq, h) = Ok (base + total (pre ++ swept_pre) + 8, (irq, h')) /\
      heap_wf h' base (pre ++ swept_pre)
        ((align4 sz + 8, true) :: (n - align4 sz - 8, false) :: rest)
  end.
Proof.
  intros W Hsz.
  destruct (hf_malloc_search irq h base pre post sz W Hsz) as
    (m' & sp & res & E & Hsw & Hok & Sg & Hsen & Hmap & Htot & Hfree & Hkp & Hres).
  destruct (align4_spec sz Hsz) as [Hal Hal4]. unfold max_request in Hsz. destruct W.
  destruct (swept_ends _ _ _ _ Hsw wf_ends0) as [F5 F6].
  rewrite !total_app, Htot in *.
  set (k := align4 sz) in *. set (p := base + total pre + total sp) in *.
  destruct res as [[n rest]|]; unfold swept_blocks in *; cycle 1.
  { rewrite app_nil_r in *.
    exists (Heap m' (first_free h) (last_free h) (krnl_free h) 0), sp, None.
    split; [done|]. split; [done|]. split.
    { rewrite E. unfold hf_malloc_take, mbind, ST_bind, next_of.
      rewrite (load_run _ _ _ 0); [done|]. subst p. rewrite Htot, <- Z.add_assoc. apply Hsen. }
    split; cbn; rewrite ?total_app, ?Htot; done. }
  pose proof (swept_fits _ _ _ _ _ Hsw) as Hfit.
  pose proof Hok as [Hok1 [F1 [[Hn8 Hn4] F7]%Forall_cons_iff]%Forall_app]%Forall_app.
  rewrite total_app in Htot. cbn in Hn8, Hn4, Htot.
  pose proof (total_nonneg sp F1). pose proof (total_nonneg rest F7).
  pose proof (total_nonneg pre Hok1). pose proof (free_bytes_range sp F1).
  pose proof (free_bytes_range rest F7). pose proof (free_bytes_range pre Hok1).
  pose proof (total_mod4 pre Hok1). pose proof (total_mod4 sp F1).
  apply seg_app in Sg as [Sg1 [Sgp Sgr]%seg_app]. cbn in Sgr.
  destruct Sgr as (Hnx & _ & Sgr). fold p in Hnx, Sgr.
  rewrite !free_bytes_app in Hfree. cbn in Hfree.
  assert (p mod 4 = 0) as Hp4 by (unfold p; Z.div_mod_to_equations; lia).
  destruct (split_run irq (set_mem (set_krnl_malloc h 1) m') p n k) as
    (h' & Er & Sp & Hch2 & Hf1 & Hf2 & Hf3 & Hf4); try done; try lia; cbn; try lia;
    try (apply Hmap; [lia|Z.div_mod_to_equations; lia]).
  exists h', sp, (Some (n, rest)). split; [done|]. split.
  { apply (keeps_trans _ m'); [done|]. unfold keeps.
    assert (live_of base (pre ++ post) = live_of base ((pre ++ sp) ++ [(n, false)] ++ rest)) as ->.
    { pose proof (proj1 (Forall_app _ _ _) wf_blocks0) as [_ Hok2].
      destruct (swept_facts _ _ _ _ Hsw Hok2) as (_ & _ & _ & F4).
      by rewrite <- app_assoc, !(live_app _ pre), <- F4. }
    apply keeps_free; [by rewrite <- app_assoc|by repeat constructor|].
    rewrite total_app. replace (base + (total pre + total sp)) with p by (unfold p; lia).
    cbn. by rewrite Z.add_0_r. }
  replace (base + total (pre ++ sp)) with p by (rewrite total_app; lia). split.
  { rewrite E. unfold hf_malloc_take. unfold mbind at 1, ST_bind at 1, next_of at 1.
    rewrite (load_run _ _ _ (p + n)) by done.
    replace (nz (p + n)) with true by (symmetry; apply nz_true; lia). exact Er. }
  cbn [mem set_mem krnl_free first_free set_krnl_malloc] in *.
  assert (total ((pre ++ sp) ++ (k + 8, true) :: (n - k - 8, false) :: rest)
    = total pre + total post) as Ht by (rewrite !total_app; cbn; lia).
  split; rewrite ?Ht; try done.
  - by rewrite Hf1.
  - rewrite Hf2, total_app. lia.
  - rewrite <- app_assoc. apply Forall_app. split; [done|]. apply Forall_app. split; [done|].
    repeat (apply Forall_cons_iff; split); try done; (split; cbn; [lia|]);
      Z.div_mod_to_equations; lia.
  - apply (ends_free_app [(k + 8, true)]). by apply ends_free_cons.
  - rewrite <- app_assoc. apply seg_app. split.
    { eapply seg_agree; [done| |exact Sg1]. intros a Ha. apply Hch2. lia. }
    apply seg_app. split.
    { eapply seg_agree; [done| |exact Sgp]. intros a Ha. apply Hch2. lia. }
    apply (seg_app _ _ [(k + 8, true); (n - k - 8, false)] rest). split; [done|]. cbn [total].
    fold p. replace (p + (k + 8 + (n - k - 8 + 0))) with (p + n) by lia.
    eapply seg_agree; [done| |exact Sgr]. intros a Ha. apply Hch2. lia.
  - eapply sentinel_changed; [|exact Hch2|done]. lia.
  - by eapply mapped_changed.
  - rewrite Hf3, Hfree, !free_bytes_app. cbn. lia.
Qed.

(** Used blocks in front of a free one are where the search looks first. *)
Lemma used_split us : forall us' x y l l', Forall is_used us -> Forall is_used us' ->
  is_free x -> is_free y -> us ++ x :: l = us' ++ y :: l' -> us = us' /\ x = y /\ l = l'.
Proof.
  induction us as [|u us IH]; intros [|u' us'] x y l l' Hu Hu' Hx Hy E; cbn in E.
  - by injection E as -> ->.
  - injection E as -> _. apply Forall_cons_iff in Hu' as [Hu' _].
    unfold is_used, is_free in *. congruence.
  - injection E as <- _. apply Forall_cons_iff in Hu as [Hu _].
    unfold is_used, is_free in *. congruence.
  - injection E as -> E. apply Forall_cons_iff in Hu as [_ Hu]. apply Forall_cons_iff in Hu' as [_ Hu'].
    by destruct (IH us' x y l l' Hu Hu' Hx Hy E) as (-> & -> & ->).
Qed.

Lemma swept_last need us n pre res : swept need (us ++ [(n, false)]) pre res ->
  Forall is_used us -> need <= n - 8 -> pre = us /\ res = Some (n, []).
Proof.
  intros S Hu Hn. remember (us ++ [(n, false)]) as l eqn:E.
  destruct S as [|us' fs rest Hu' Hf Hne Hr Hneed|us' fs rest pre res Hu' Hf Hne Hr Hneed S].
  - by destruct us.
  - destruct fs as [|f fs]; [done|]. apply Forall_cons_iff in Hf as [Hf Hfs].
    apply used_split in E as (-> & -> & Hnil); try done. apply app_eq_nil in Hnil as [-> ->].
    cbn. by rewrite Z.add_0_r.
  - destruct fs as [|f fs]; [done|]. apply Forall_cons_iff in Hf as [Hf Hfs].
    apply used_split in E as (-> & -> & Hnil); try done. apply app_eq_nil in Hnil as [-> ->].
    cbn in Hneed. lia.
Qed.

(** A request served from the free block that ends the heap. *)
Lemma hf_malloc_last irq h base pre us n sz :
  heap_wf h base pre (us ++ [(n, false)]) -> Forall is_used us ->
  0 <= sz <= max_request -> align4 sz + 16 <= n ->
  exists h', hf_malloc sz (irq, h) = Ok (base + total (pre ++ us) + 8, (irq, h')) /\
    heap_wf h' base (pre ++ us) ([(align4 sz + 8, true)] ++ [(n - align4 sz - 8, false)]).
Proof.
  intros W Hu Hsz Hn.
  destruct (hf_malloc_wf irq h base pre _ sz W Hsz) as (h' & sp & res & Hsw & _ & Hr).
  destruct (swept_last _ _ _ _ _ Hsw Hu ltac:(lia)) as [-> ->]. by exists h'.
Qed.

Lemma live_free_block p b1 b2 s : Forall block_ok (b1 ++ (s + 8, true) :: b2) ->
  live_of p (b1 ++ (s + 8, false) :: b2)
    = delete (p + total b1 + 8) (live_of p (b1 ++ (s + 8, true) :: b2)).
Proof.
  intros [H1 [H2 H3]%Forall_cons_iff]%Forall_app. rewrite !live_app. cbn.
  rewrite delete_union, delete_insert_eq.
  rewrite (delete_id (live_of p b1)), (delete_id (live_of (p + total b1 + (s + 8)) b2)); [done|..].
  - apply live_None_below; [done|]. destruct H2 as [H2 _]. cbn in H2. lia.
  - destruct (live_of p b1 !! _) as [k|] eqn:E; [|done].
    apply live_range_of in E; [lia|done].
Qed.

(** [hf_free] of an allocated block makes it free and restarts the search at
    the first block. *)
Lemma hf_free_wf irq h base pre post a s :
  heap_wf h base pre post -> live_of base (pre ++ post) !! a = Some s ->
  exists h' b1 b2, hf_free a (irq, h) = Ok (tt, (irq, h')) /\
    pre ++ post = b1 ++ (s + 8, true) :: b2 /\ a = base + total b1 + 8 /\
    keeps (mem h) (mem h') base (pre ++ post) /\
    heap_wf h' base [] (b1 ++ (s + 8, false) :: b2).
Proof.
  intros [] L. pose proof L as (b1 & b2 & E & ->)%live_split; [|done].
  apply (ends_free_app pre) in wf_ends0. rewrite E in *. clear E.
  pose proof wf_blocks0 as [H1 [[H2 H3] H4]%Forall_cons_iff]%Forall_app.
  pose proof (total_nonneg b1 H1). pose proof (total_nonneg b2 H4).
  pose proof (free_bytes_range b1 H1). pose proof (free_bytes_range b2 H4).
  rewrite total_app, free_bytes_app in *. cbn in *.
  assert (b2 <> []) as Hb2.
  { intros ->. destruct wf_ends0 as (l & n & [_ [=]]%app_inj_tail). }
  assert (ends_free b2) as Hend.
  { apply (ends_free_suffix (b1 ++ [(s + 8, true)])); [|done]. by rewrite <- app_assoc. }
  apply seg_app in wf_seg0 as [S1 (S2 & (sz & S3 & _ & ->) & S4)].
  set (p := base + total b1) in *.
  unfold hf_free, sizeof_mem_block. replace (p + 8 - 8) with p by lia.
  unfold mbind, ST_bind. rewrite on_lock_lock by done. unfold size_of, set_size.
  rewrite (load_run _ _ _ (s + 8 - 8 + 1)) by done.
  rewrite store_run by (cbn; eauto). cbn.
  rewrite (load_run _ _ _ s).
  2:{ cbn. rewrite lookup_insert_eq. f_equal. rewrite clear_used_spec by lia.
      Z.div_mod_to_equations. lia. }
  cbn. rewrite clear_used_spec by lia.
  replace (s + 8 - 8 + 1 - (s + 8 - 8 + 1) mod 2) with s by (Z.div_mod_to_equations; lia).
  eexists _, b1, b2. split_and!; try done.
  { intros a k x. cbn. rewrite live_app. cbn. fold p. intros [L'|[_ L']]%lookup_union_Some_raw Hx.
    - apply live_range_of in L'; [|done]. by rewrite lookup_insert_ne by lia.
    - rewrite lookup_insert in L'. case_decide as D; [by rewrite lookup_insert_ne by lia|].
      apply live_range_of in L'; [|done]. by rewrite lookup_insert_ne by lia. }
  split; cbn; rewrite ?total_app, ?free_bytes_app; cbn; try done.
  - by rewrite Z.add_0_r.
  - apply Forall_app. split; [done|]. by apply Forall_cons_iff.
  - by apply ends_free_app, (ends_free_app [_]).
  - apply seg_app. split; [apply seg_frame; [done|lia|done]|]. cbn. fold p.
    rewrite lookup_insert_ne, lookup_insert_eq by lia. split; [done|]. split.
    + eexists. split; [done|]. split; [lia|Z.div_mod_to_equations; lia].
    + apply seg_frame; [done|lia|done].
  - eapply (sentinel_changed (mem h) _ p (p + 8)); [lia| |done].
    apply changed_only_insert; [lia|]. apply changed_only_refl.
  - eapply (mapped_changed (mem h) _ p (p + 8)); [|done].
    apply changed_only_insert; [lia|]. apply changed_only_refl.
  - rewrite u32_small; lia.
Qed.

(** ** What the callers rely on *)

(** No word of an allocated block changes. *)
Definition frame (h h' : heap) : Prop := forall q n x,
  heap_live_words h !! q = Some n -> q <= x < q + n -> mem h' !! x = mem h !! x.

Lemma heap_live_free irq h a s : heap_ok_wf h -> heap_live_words h !! a = Some s ->
  exists h', hf_free a (irq, h) = Ok (tt, (irq, h')) /\ heap_ok_wf h' /\
    heap_live_words h' = delete a (heap_live_words h) /\
    krnl_free h' = krnl_free h + (s + 8) /\ frame h h'.
Proof.
  intros (base & pre & post & W). unfold frame. rewrite (wf_live _ _ _ _ W). intros L.
  destruct (hf_free_wf irq h base pre post a s W L) as (h' & b1 & b2 & E & Eb & -> & Hkp & W').
  exists h'. split; [done|]. split; [by exists base, [], (b1 ++ (s + 8, false) :: b2)|].
  rewrite (wf_live _ _ _ _ W'). split; [rewrite Eb|split; [|done]].
  - apply live_free_block. rewrite <- Eb. apply W.
  - rewrite (wf_free _ _ _ _ W'), (wf_free _ _ _ _ W), Eb. cbn.
    rewrite !free_bytes_app. cbn. lia.
Qed.

Lemma heap_live_malloc irq h sz : heap_ok_wf h -> 0 <= sz <= max_request ->
  exists p h', hf_malloc sz (irq, h) = Ok (p, (irq, h')) /\ heap_ok_wf h' /\ frame h h' /\
    ((p = 0 /\ heap_live_words h' = heap_live_words h /\ krnl_free h' = krnl_free h) \/
     (p <> 0 /\ heap_live_words h !! p = None /\
      heap_live_words h' = <[p := align4 sz]> (heap_live_words h) /\
      krnl_free h' = krnl_free h - (align4 sz + 8))).
Proof.
  intros (base & pre & post & W) Hsz.
  destruct (hf_malloc_wf irq h base pre post sz W Hsz) as (h' & sp & res & Hsw & Hkp & Hr).
  pose proof (wf_blocks _ _ _ _ W) as [Hok1 Hok2]%Forall_app.
  destruct (swept_facts _ _ _ _ Hsw Hok2) as (F1 & F2 & F3 & F4).
  unfold frame. rewrite (wf_live _ _ _ _ W).
  destruct res as [[n rest]|]; unfold swept_blocks in *; destruct Hr as [E W'].
  - exists (base + total (pre ++ sp) + 8), h'. split; [done|].
    split; [by eexists _, _, _|]. split; [done|]. right.
    apply Forall_app in F1 as [G1 [G2 G3]%Forall_cons_iff].
    destruct (wf_base _ _ _ _ W) as [Hb0 _].
    assert (Forall block_ok (pre ++ sp)) as Hps by (apply Forall_app; done).
    pose proof (total_nonneg _ Hps). split; [lia|].
    rewrite (wf_live _ _ _ _ W'), (wf_free _ _ _ _ W'), (wf_free _ _ _ _ W).
    assert (live_of base (pre ++ post) = live_of base (pre ++ sp) ∪
      live_of (base + total (pre ++ sp) + n) rest) as ->.
    { rewrite !live_app, <- F4, live_app, total_app. cbn.
      by rewrite <- !Z.add_assoc, (assoc_L (∪)). }
    rewrite (live_app base (pre ++ sp)). cbn.
    replace (base + total (pre ++ sp) + (align4 sz + 8) + (n - align4 sz - 8))
      with (base + total (pre ++ sp) + n) by lia.
    replace (align4 sz + 8 - 8) with (align4 sz) by lia.
    assert (live_of base (pre ++ sp) !! (base + total (pre ++ sp) + 8) = None) as HN.
    { destruct (_ !! _) as [k|] eqn:L; [|done]. apply live_range_of in L; [lia|done]. }
    split_and!.
    + rewrite lookup_union_None. split; [done|].
      apply live_None_below; [done|]. destruct G2. cbn in *. lia.
    + by rewrite <- insert_union_r.
    + rewrite !free_bytes_app in *. cbn in *. lia.
  - exists 0, h'. split; [done|]. split; [by eexists _, _, _|]. split; [done|]. left. split; [done|].
    rewrite (wf_live _ _ _ _ W'), (wf_free _ _ _ _ W'), (wf_free _ _ _ _ W).
    rewrite app_nil_r in *. rewrite !live_app, F4, !free_bytes_app, F3. done.
Qed.

(** ** Bytes of allocated blocks *)

Definition get_byte (m : gmap Z Z) (a : Z) : option Z :=
  w ← m !! (a - a mod 4); Some (word_byte w a).

Lemma byte_pos_range a : 0 <= byte_pos a <= 24.
Proof. unfold byte_pos. Z.div_mod_to_equations. lia. Qed.

Lemma word_byte_bit w a i : 0 <= i ->
  Z.testbit (word_byte w a) i = (i <? 8) && Z.testbit w (i + byte_pos a).
Proof.
  intros Hi. unfold word_byte. pose proof (byte_pos_range a).
  rewrite Z.land_spec, Z.shiftr_spec by lia. change 255 with (Z.ones 8).
  rewrite Z.testbit_ones by lia. destruct (Z.ltb_spec i 8), (Z.leb_spec 0 i); cbn;
    rewrite ?andb_true_r, ?andb_false_r; try done; lia.
Qed.

Lemma put_byte_bit w a v i : 0 <= i < 32 -> 0 <= v < 256 ->
  Z.testbit (put_byte w a v) i =
    if (byte_pos a <=? i) && (i <? byte_pos a + 8) then Z.testbit v (i - byte_pos a)
    else Z.testbit w i.
Proof.
  intros Hi Hv. unfold put_byte. pose proof (byte_pos_range a).
  rewrite Z.lor_spec, Z.land_spec, Z.lxor_spec, !Z.shiftl_spec by lia.
  change 4294967295 with (Z.ones 32). change 255 with (Z.ones 8).
  rewrite Z.testbit_ones by lia.
  replace ((0 <=? i) && (i <? 32)) with true by lia.
  destruct (Z.leb_spec (byte_pos a) i); cbn [andb].
  - rewrite Z.testbit_ones by lia. replace (0 <=? i - byte_pos a) with true by lia.
    replace (i - byte_pos a <? 8) with (i <? byte_pos a + 8) by lia.
    destruct (Z.ltb_spec i (byte_pos a + 8)); cbn; [by rewrite andb_false_r|].
    rewrite (testbit_high v 8) by (done || lia). by rewrite andb_true_r, orb_false_r.
  - rewrite !(Z.testbit_neg_r _ (i - byte_pos a)) by lia. cbn.
    by rewrite andb_true_r, orb_false_r.
Qed.

Lemma word_byte_put w a v b : 0 <= v < 256 -> a - a mod 4 = b - b mod 4 ->
  word_byte (put_byte w a v) b = if a =? b then v else word_byte w b.
Proof.
  intros Hv Hab. pose proof (byte_pos_range b). apply Z.bits_inj'. intros i Hi.
  rewrite word_byte_bit by done. destruct (Z.ltb_spec i 8); cbn.
  - rewrite put_byte_bit by lia. destruct (Z.eqb_spec a b) as [->|Hne].
    + replace (byte_pos b <=? i + byte_pos b) with true by lia.
      replace (i + byte_pos b <? byte_pos b + 8) with true by lia. cbn. f_equal. lia.
    + rewrite word_byte_bit by done. replace (i <? 8) with true by lia. cbn.
      destruct (Z.leb_spec (byte_pos a) (i + byte_pos b)),
        (Z.ltb_spec (i + byte_pos b) (byte_pos a + 8)); cbn; try done.
      unfold byte_pos in *. Z.div_mod_to_equations. lia.
  - destruct (Z.eqb_spec a b) as [->|Hne].
    + symmetry. by apply (testbit_high v 8).
    + rewrite word_byte_bit by done. by replace (i <? 8) with false by lia.
Qed.

Lemma word_byte_range w a : 0 <= word_byte w a < 256.
Proof.
  unfold word_byte. rewrite Z.land_comm. by apply (land_range _ _ 8).
Qed.

Lemma store_byte_run irq h a v b : 0 <= v < 256 -> get_byte (mem h) a = Some b ->
  exists m', store_byte a v (irq, h) = Ok (tt, (irq, set_mem h m')) /\
    (forall x, get_byte m' x = if x =? a then Some v else get_byte (mem h) x) /\
    changed_only (mem h) m' (a - a mod 4) (a + 1).
Proof.
  unfold get_byte at 1. intros Hv Hb. unfold store_byte, mbind, ST_bind.
  destruct (mem h !! (a - a mod 4)) as [w|] eqn:E; [|done].
  rewrite (load_run _ _ _ w), store_run by eauto. eexists. split; [done|]. split.
  - intros x. unfold get_byte. rewrite lookup_insert. case_decide as D.
    + cbn. rewrite word_byte_put, Z.eqb_sym by done. destruct (x =? a); [done|].
      by rewrite <- D, E.
    + destruct (Z.eqb_spec x a); [by subst|done].
  - apply changed_only_insert; [Z.div_mod_to_equations; lia|]. apply changed_only_refl.
Qed.

Lemma load_byte_run irq h a b : get_byte (mem h) a = Some b ->
  load_byte a (irq, h) = Ok (b, (irq, h)).
Proof.
  unfold get_byte, load_byte, mbind, ST_bind, option_bind. intros H.
  destruct (mem h !! (a - a mod 4)) as [w|] eqn:E; [|done].
  rewrite (load_run _ _ _ w) by done. by injection H as <-.
Qed.

(** [memset(s, c, n)] writes [n] copies of [c], and nothing else. *)
Lemma memset_run irq n : forall s c h,
  (forall x, s <= x < s + Z.of_nat n -> is_Some (get_byte (mem h) x)) ->
  exists m', memset s c n (irq, h) = Ok (tt, (irq, set_mem h m')) /\
    (forall x, get_byte m' x =
       if (s <=? x) && (x <? s + Z.of_nat n) then Some (u8 c) else get_byte (mem h) x) /\
    changed_only (mem h) m' (s - s mod 4) (s + Z.of_nat n).
Proof.
  induction n as [|n IH]; intros s c h Hs; cbn [memset].
  - exists (mem h). split; [by destruct h|]. split; [|apply changed_only_refl].
    intros x. by destruct (Z.leb_spec s x), (Z.ltb_spec x (s + Z.of_nat 0)); [lia|..].
  - destruct (Hs s) as [b Hb]; [lia|].
    destruct (store_byte_run irq h s (u8 c) b (u8_range c) Hb) as (m1 & E1 & G1 & C1).
    unfold mbind, ST_bind. rewrite E1.
    destruct (IH (s + 1) c (set_mem h m1)) as (m2 & E2 & G2 & C2).
    { intros x Hx. cbn. rewrite G1. destruct (x =? s); [done|]. apply Hs. lia. }
    rewrite E2. exists m2. split; [done|]. split.
    + intros x. rewrite G2. cbn [mem set_mem]. rewrite G1.
      destruct (Z.leb_spec (s + 1) x), (Z.ltb_spec x (s + 1 + Z.of_nat n)),
        (Z.leb_spec s x), (Z.ltb_spec x (s + Z.of_nat (S n))), (Z.eqb_spec x s);
        cbn; try done; lia.
    + destruct C1 as [C1 D1], C2 as [C2 D2]. cbn in C2, D2. split; [|auto].
      intros x Hx. rewrite C2, C1; [done|lia|Z.div_mod_to_equations; lia].
Qed.

(** [memcpy(dst, src, n)] copies [n] bytes between areas that do not overlap. *)
Lemma memcpy_run irq n : forall dst src h,
  disjoint_range dst (Z.of_nat n) src (Z.of_nat n) ->
  (forall x, dst <= x < dst + Z.of_nat n -> is_Some (get_byte (mem h) x)) ->
  (forall x, src <= x < src + Z.of_nat n -> is_Some (get_byte (mem h) x)) ->
  exists m', memcpy dst src n (irq, h) = Ok (tt, (irq, set_mem h m')) /\
    (forall x, get_byte m' x =
       if (dst <=? x) && (x <? dst + Z.of_nat n) then get_byte (mem h) (x - dst + src)
       else get_byte (mem h) x) /\
    changed_only (mem h) m' (dst - dst mod 4) (dst + Z.of_nat n).
Proof.
  unfold disjoint_range. induction n as [|n IH]; intros dst src h Hd H1 H2; cbn [memcpy].
  - exists (mem h). split; [by destruct h|]. split; [|apply changed_only_refl].
    intros x. by destruct (Z.leb_spec dst x), (Z.ltb_spec x (dst + Z.of_nat 0)); [lia|..].
  - destruct (H1 dst) as [b Hb]; [lia|]. destruct (H2 src) as [v Hv]; [lia|].
    assert (0 <= v < 256) as Hvr.
    { unfold get_byte, mbind, option_bind in Hv.
      destruct (_ !! _); [|done]. injection Hv as <-. apply word_byte_range. }
    unfold mbind, ST_bind. rewrite (load_byte_run _ _ _ v) by done.
    destruct (store_byte_run irq h dst v b Hvr Hb) as (m1 & E1 & G1 & C1). rewrite E1.
    destruct (IH (dst + 1) (src + 1) (set_mem h m1)) as (m2 & E2 & G2 & C2); [lia|..].
    { intros x Hx. cbn. rewrite G1. destruct (x =? dst); [done|]. apply H1. lia. }
    { intros x Hx. cbn. rewrite G1. destruct (x =? dst); [done|]. apply H2. lia. }
    rewrite E2. exists m2. split; [done|]. split.
    + intros x. rewrite G2. cbn [mem set_mem]. rewrite !G1.
      destruct (Z.leb_spec (dst + 1) x), (Z.ltb_spec x (dst + 1 + Z.of_nat n)),
        (Z.leb_spec dst x), (Z.ltb_spec x (dst + Z.of_nat (S n))); cbn; try lia.
      * destruct (Z.eqb_spec (x - (dst + 1) + (src + 1)) dst); [lia|]. f_equal. lia.
      * by destruct (Z.eqb_spec x dst); [lia|].
      * destruct (Z.eqb_spec x dst); [|lia]. rewrite <- Hv. f_equal. lia.
      * by destruct (Z.eqb_spec x dst); [lia|].
    + destruct C1 as [C1 D1], C2 as [C2 D2]. cbn in C2, D2. split; [|auto].
      intros x Hx. rewrite C2, C1; [done|lia|Z.div_mod_to_equations; lia].
Qed.

(** Changes inside one allocated payload keep the heap well formed. *)
Lemma wf_payload h base pre post a s m' : heap_wf h base pre post ->
  live_of base (pre ++ post) !! a = Some s -> changed_only (mem h) m' a (a + s) ->
  heap_wf (set_mem h m') base pre post.
Proof.
  intros [] L Hc. pose proof L as (b1 & b2 & E & ->)%live_split; [|done].
  split; try done; cbn; [|by eapply sentinel_changed; [|exact Hc|done];
    apply live_range_of in L; [lia|done]|by eapply mapped_changed].
  clear wf_free0 wf_mapped0 wf_sentinel0 wf_bound0. rewrite E in *.
  apply Forall_app in wf_blocks0 as [H1 [[Hn Hm] H2]%Forall_cons_iff]. cbn in Hn, Hm.
  pose proof (total_nonneg b1 H1). destruct Hc as [Hc _].
  apply seg_app in wf_seg0 as [S1 (S2 & S3 & S4)]. apply seg_app. split; [|split_and!].
  - eapply seg_agree; [done| |exact S1]. intros x Hx. apply Hc. lia.
  - rewrite Hc by lia. done.
  - by rewrite Hc by lia.
  - eapply seg_agree; [done| |exact S4]. intros x Hx. apply Hc. lia.
Qed.

Lemma ok_payload h a s m' : heap_ok_wf h -> heap_live_words h !! a = Some s ->
  changed_only (mem h) m' a (a + s) ->
  heap_ok_wf (set_mem h m') /\ heap_live_words (set_mem h m') = heap_live_words h.
Proof.
  intros (base & pre & post & W) L Hc. rewrite (wf_live _ _ _ _ W) in *.
  pose proof (wf_payload h base pre post a s m' W L Hc) as W'.
  split; [by exists base, pre, post|]. apply (wf_live _ _ _ _ W').
Qed.

(** Where an allocated payload is, and that its words exist. *)
Lemma ok_live h a s : heap_ok_wf h -> heap_live_words h !! a = Some s ->
  8 < a /\ a mod 4 = 0 /\ 0 <= s /\ s mod 4 = 0 /\ a + s + 8 < 4294967296 /\
  mapped (mem h) a (a + s).
Proof.
  intros (base & pre & post & W) L. rewrite (wf_live _ _ _ _ W) in L.
  apply live_range_of in L; [|apply W]. destruct W.
  split_and!; try (Z.div_mod_to_equations; lia).
  intros x Hx Hx4. apply wf_mapped0; [lia|done].
Qed.

Lemma ok_live_byte h a s x : heap_ok_wf h -> heap_live_words h !! a = Some s ->
  a <= x < a + s -> is_Some (get_byte (mem h) x).
Proof.
  intros Hok L Hx. destruct (ok_live h a s Hok L) as (_ & H4 & _ & _ & _ & Hm).
  destruct (Hm (x - x mod 4)) as [w Hw]; [Z.div_mod_to_equations; lia..|].
  unfold get_byte. rewrite Hw. by exists (word_byte w x).
Qed.

Lemma frame_byte h h' q n x : heap_ok_wf h -> frame h h' -> heap_live_words h !! q = Some n ->
  q <= x < q + n -> get_byte (mem h') x = get_byte (mem h) x.
Proof.
  intros Hok F L Hx. destruct (ok_live h q n Hok L) as (_ & H4 & _).
  unfold get_byte. rewrite (F q n); [done..|Z.div_mod_to_equations; lia].
Qed.

Lemma ok_disjoint h p n q k : heap_ok_wf h -> heap_live_words h !! p = Some n ->
  heap_live_words h !! q = Some k -> p <> q -> disjoint_range p n q k.
Proof.
  intros (base & pre & post & W). rewrite (wf_live _ _ _ _ W).
  apply live_disjoint_of, W.
Qed.

(** ** The allocator implements the interface of [Alloc] *)

#[export] Instance malloc_allocator : Allocator heap := {|
  Alloc.hf_malloc := hf_malloc;
  Alloc.hf_free := hf_free;
  Alloc.heap_load := load;
  Alloc.heap_store := store;
  Alloc.heap_avail := krnl_free;
  Alloc.heap_ok := heap_ok_wf;
  Alloc.heap_live := heap_live_words;
  Alloc.heap_word := fun h a => mem h !! a;
|}.

#[export] Instance malloc_laws : AllocatorLaws heap.
Proof.
  split; cbn.
  - intros h p n q m. apply ok_disjoint.
  - intros h p n Hok L. pose proof (ok_live h p n Hok L). lia.
  - intros irq h sz Hok Hsz.
    destruct (heap_live_malloc irq h sz Hok Hsz) as (p & h' & E & Hok' & _ & Hp).
    exists p, h'. split; [done|]. split; [done|]. destruct (align4_spec sz Hsz).
    destruct Hp as [(-> & Hl & _)|(? & ? & Hl & _)]; [by left|right]. split_and!; try done.
    exists (align4 sz). split; [lia|done].
  - intros irq h p n Hok L. destruct (heap_live_free irq h p n Hok L) as (h' & ? & ? & ? & _).
    by exists h'.
  - intros h p n a Hok L H1 H2 H3. destruct (ok_live h p n Hok L) as (? & ? & ? & ? & ? & Hm).
    apply Hm; [lia|Z.div_mod_to_equations; lia].
  - intros irq h a v. apply load_run.
  - intros irq h p n a v Hok L H1 H2 H3.
    destruct (ok_live h p n Hok L) as (? & ? & ? & ? & ? & Hm).
    exists (set_mem h (<[a := v]> (mem h))). rewrite store_run.
    2:{ apply Hm; [lia|Z.div_mod_to_equations; lia]. }
    destruct (ok_payload h p n (<[a := v]> (mem h)) Hok L) as [Hok' Hl'].
    { apply changed_only_insert; [lia|apply changed_only_refl]. }
    split_and!; try done. intros b. cbn. rewrite lookup_insert, Z.eqb_sym.
    destruct (Z.eqb_spec a b); case_decide; done.
  - intros irq h sz p h' q n a Hok Hsz E L Ha.
    destruct (heap_live_malloc irq h sz Hok Hsz) as (p' & h2 & E' & _ & F & _).
    rewrite E in E'. injection E' as <- <-. by apply (F q n).
  - intros irq h p m h' q n a Hok L1 E L Ha.
    destruct (heap_live_free irq h p m Hok L1) as (h2 & E' & _ & _ & _ & F).
    rewrite E in E'. injection E' as <-. by apply (F q n).
Qed.

(** ** First fit *)

(** The reference search: the address of the first run of free blocks, among
    [bs] laid out from [p], that leaves [need] bytes besides its own header;
    [run] bytes of free blocks end at [p]. *)
Fixpoint first_fit (need p run : Z) (bs : list block) : option Z :=
  match bs with
  | [] => if need <=? run - 8 then Some (p - run) else None
  | (n, true) :: bs =>
      if need <=? run - 8 then Some (p - run) else first_fit need (p + n) 0 bs
  | (n, false) :: bs => first_fit need (p + n) (run + n) bs
  end.

Lemma first_fit_used need p us bs : 0 <= need -> Forall is_used us ->
  first_fit need p 0 (us ++ bs) = first_fit need (p + total us) 0 bs.
Proof.
  intros Hn H. revert p. induction H as [|[n u] us Hu _ IH]; intros p; cbn.
  - by rewrite Z.add_0_r.
  - unfold is_used in Hu. cbn in Hu. subst u. destruct (Z.leb_spec need (0 - 8)); [lia|].
    rewrite IH. f_equal. lia.
Qed.

Lemma first_fit_free need p run fs bs : Forall is_free fs ->
  first_fit need p run (fs ++ bs) = first_fit need (p + total fs) (run + total fs) bs.
Proof.
  intros H. revert p run. induction H as [|[n u] fs Hf _ IH]; intros p run; cbn.
  - by rewrite !Z.add_0_r.
  - unfold is_free in Hf. cbn in Hf. subst u. rewrite IH. f_equal; lia.
Qed.

Lemma swept_first_fit need bs pre res : swept need bs pre res -> 0 <= need -> forall p,
  first_fit need p 0 bs =
    match res with Some _ => Some (p + total pre) | None => None end.
Proof.
  intros H Hn. induction H as [|us fs rest Hu Hf Hne Hr Hneed|us fs rest pre res Hu Hf Hne Hr Hneed _ IH];
    intros p.
  - cbn. destruct (Z.leb_spec need (0 - 8)); [lia|done].
  - rewrite first_fit_used, first_fit_free, Z.add_0_l by done.
    destruct Hr as [->|(n & rest' & ->)]; cbn;
      (destruct (Z.leb_spec need (total fs - 8)); [f_equal; lia|lia]).
  - rewrite first_fit_used, first_fit_free, Z.add_0_l by done.
    replace (match res with Some _ => Some (p + total (us ++ (total fs, false) :: pre)) | None => None end)
      with (match res with Some _ => Some (p + total us + total fs + total pre) | None => None end)
      by (destruct res; [rewrite total_app; cbn; f_equal; lia|done]).
    rewrite <- IH. destruct Hr as [->|(n & rest' & ->)]; cbn;
      (destruct (Z.leb_spec need (total fs - 8)); [lia|]).
    + destruct (Z.leb_spec need (0 - 8)); [lia|done].
    + destruct (Z.leb_spec need (0 - 8)); [lia|done].
Qed.

(** C9: [hf_malloc] is first fit: on a well-formed heap it terminates and returns
    the payload of the first run of free blocks, from where the last search
    ended, that fits the rounded size and its headers, and NULL when there is
    none. *)
Theorem hf_malloc_first_fit irq h base pre post size :
  heap_wf h base pre post -> 0 <= size <= max_request ->
  exists h', hf_malloc size (irq, h) =
    Ok (match first_fit (align4 size + 8) (last_free h) 0 post with
        | Some p => p + 8
        | None => 0
        end, (irq, h')) /\ heap_ok_wf h'.
Proof.
  intros W Hsz. destruct (align4_spec size Hsz).
  destruct (hf_malloc_wf irq h base pre post size W Hsz) as (h' & sp & res & Hsw & _ & Hr).
  rewrite (wf_last _ _ _ _ W), (swept_first_fit _ _ _ _ Hsw) by lia.
  exists h'. destruct res as [[n rest]|]; destruct Hr as [-> W'].
  - split; [rewrite total_app; do 3 f_equal; lia|by eexists _, _, _].
  - split; [done|by eexists _, _, _].
Qed.

(** ** Initialisation and every sequence of requests *)

(** Bytes the allocated blocks take, headers included. *)
Definition allocated (m : gmap Z Z) : Z := map_fold (fun _ n acc => n + 8 + acc) 0 m.

Lemma allocated_insert m p n : m !! p = None -> allocated (<[p := n]> m) = n + 8 + allocated m.
Proof. intros H. unfold allocated. rewrite map_fold_insert_L; [done|intros; lia|done]. Qed.

Lemma allocated_delete m p n : m !! p = Some n -> allocated m = n + 8 + allocated (delete p m).
Proof. intros H. unfold allocated. rewrite (map_fold_delete_L _ _ p n m); [done|intros; lia|done]. Qed.

Lemma heapinit_wf irq h base len : 0 < base -> base mod 4 = 0 -> 16 <= len -> len mod 4 = 0 ->
  base + len < 4294967296 -> mapped (mem h) base (base + len) ->
  exists h', heapinit base len (irq, h) = Ok (tt, (irq, h')) /\
    heap_wf h' base [] [(len - 8, false)].
Proof.
  intros Hb Hb4 Hl Hl4 Hbl Hm.
  assert (Hmx : forall x, base <= x < base + len -> x mod 4 = 0 -> is_Some (mem h !! x)) by done.
  assert (4 <= base) by (Z.div_mod_to_equations; lia).
  assert (align4 len = len) as Ha.
  { destruct (decide (len <= max_request)) as [Hx|Hx].
    - destruct (align4_spec len ltac:(lia)). Z.div_mod_to_equations. lia.
    - unfold align4, max_request in *. rewrite u32_small, Z.shiftr_div_pow2, Z.shiftl_mul_pow2 by lia.
      change (2 ^ 2) with 4. Z.div_mod_to_equations. lia. }
  unfold heapinit, sizeof_mem_block. rewrite Ha, (u32_small (base + len - 8)) by lia.
  unfold mbind, ST_bind, set_next, set_size.
  rewrite store_run by (apply Hmx; [lia|done]). cbn.
  rewrite store_run by (cbn; rewrite lookup_insert_ne by lia; apply Hmx;
    [lia|Z.div_mod_to_equations; lia]). cbn.
  rewrite store_run by (cbn; rewrite lookup_insert; case_decide; [done|];
    rewrite lookup_insert; case_decide; [done|];
    apply Hmx; [lia|Z.div_mod_to_equations; lia]). cbn.
  rewrite store_run by (cbn; repeat (rewrite lookup_insert; case_decide; [done|]);
    apply Hmx; [lia|Z.div_mod_to_equations; lia]). cbn.
  unfold size_of. rewrite u32_small by lia. rewrite (load_run _ _ _ (len - 16)).
  2:{ cbn. rewrite !lookup_insert_ne, lookup_insert_eq by lia. f_equal. lia. }
  eexists. split; [done|]. split; cbn; try done; try lia.
  - apply Forall_cons_iff. split; [|done]. split; cbn; [lia|Z.div_mod_to_equations; lia].
  - by exists [], (len - 8).
  - rewrite !lookup_insert_ne, lookup_insert_eq by lia. split; [f_equal; lia|]. split; [|done].
    exists (len - 8 - 8). rewrite !lookup_insert_ne, lookup_insert_eq by lia.
    split; [done|]. split; [lia|Z.div_mod_to_equations; lia].
  - split; replace (base + (len - 8 + 0)) with (base + len - 8) by lia.
    + by rewrite lookup_insert_ne, lookup_insert_eq by lia.
    + by rewrite lookup_insert_eq.
  - intros x Hx Hx4. repeat (rewrite lookup_insert; case_decide; [done|]). apply Hm; [lia|done].
Qed.

(** One request of a client: an allocation, or the release of a block the
    client holds. *)
Inductive request (h h' : heap) : Prop :=
| req_malloc irq size p : 0 <= size <= max_request ->
    hf_malloc size (irq, h) = Ok (p, (irq, h')) -> request h h'
| req_free irq p n : heap_live_words h !! p = Some n ->
    hf_free p (irq, h) = Ok (tt, (irq, h')) -> request h h'.

Lemma request_ok h h' : heap_ok_wf h -> request h h' ->
  heap_ok_wf h' /\ krnl_free h' + allocated (heap_live_words h') =
    krnl_free h + allocated (heap_live_words h).
Proof.
  intros Hok [irq size p Hsz E|irq p n L E].
  - destruct (heap_live_malloc irq h size Hok Hsz) as (p' & h2 & E' & Hok' & _ & Hp).
    rewrite E in E'. injection E' as <- <-. split; [done|].
    destruct Hp as [(_ & -> & ->)|(_ & HN & -> & ->)]; [done|].
    rewrite allocated_insert by done. lia.
  - destruct (heap_live_free irq h p n Hok L) as (h2 & E' & Hok' & Hl & Hk & _).
    rewrite E in E'. injection E' as <-. split; [done|].
    rewrite Hl, Hk, (allocated_delete (heap_live_words h) p n) by done. lia.
Qed.

(** C4: From [heapinit] on, whatever the sequence of allocations and of releases
    of held blocks: the heap stays well formed, allocated blocks never overlap,
    and the free-memory counter plus the bytes allocated, headers included, is
    the constant usable size of the heap. *)
Theorem heap_requests_safe irq h0 h1 h base len :
  0 < base -> base mod 4 = 0 -> 16 <= len -> len mod 4 = 0 -> base + len < 4294967296 ->
  mapped (mem h0) base (base + len) ->
  heapinit base len (irq, h0) = Ok (tt, (irq, h1)) -> rtc request h1 h ->
  heap_ok_wf h /\
  (forall p n q m, heap_live_words h !! p = Some n -> heap_live_words h !! q = Some m ->
     p <> q -> disjoint_range p n q m) /\
  krnl_free h + allocated (heap_live_words h) = len - 16.
Proof.
  intros Hb Hb4 Hl Hl4 Hbl Hm E Hr.
  destruct (heapinit_wf irq h0 base len) as (h' & E' & W); try done.
  rewrite E in E'. injection E' as <-.
  assert (heap_ok_wf h1 /\ krnl_free h1 + allocated (heap_live_words h1) = len - 16) as H1.
  { split; [by eexists _, _, _|]. rewrite (wf_free _ _ _ _ W), (wf_live _ _ _ _ W). cbn.
    unfold allocated. rewrite map_fold_empty. lia. }
  assert (heap_ok_wf h /\ krnl_free h + allocated (heap_live_words h) = len - 16) as [H2 H3].
  { clear -H1 Hr. induction Hr as [|h1 h2 h3 Hs _ IH]; [done|]. apply IH.
    destruct H1 as [Hok <-]. by apply request_ok. }
  split_and!; [done| |done]. intros p n q m. by apply ok_disjoint.
Qed.

(** ** [hf_calloc] and [hf_realloc] *)

(** [hf_calloc] either returns NULL and allocates nothing, or returns a fresh
    block whose first [qty * type_size] bytes are zero; the bytes of the other
    allocated blocks are left alone. *)
Theorem hf_calloc_zeroed irq h qty type_size :
  heap_ok_wf h -> 0 <= qty * type_size <= max_request ->
  exists p h', hf_calloc qty type_size (irq, h) = Ok (p, (irq, h')) /\ heap_ok_wf h' /\
    (p = 0 /\ heap_live_words h' = heap_live_words h \/
     p <> 0 /\ heap_live_words h !! p = None /\
       heap_live_words h' = <[p := align4 (qty * type_size)]> (heap_live_words h) /\
       forall x, p <= x < p + qty * type_size -> get_byte (mem h') x = Some 0) /\
    (forall q n x, heap_live_words h !! q = Some n -> q <= x < q + n ->
       get_byte (mem h') x = get_byte (mem h) x).
Proof.
  intros Hok Hsz. destruct (align4_spec _ Hsz) as [Ha _].
  unfold hf_calloc. rewrite u32_small by (unfold max_request in Hsz; lia).
  set (sz := qty * type_size) in *.
  destruct (heap_live_malloc irq h sz Hok Hsz) as (p & h1 & E & Hok1 & F & Hp).
  unfold mbind, ST_bind. rewrite E.
  destruct Hp as [(-> & Hl & _)|(Hp & HN & Hl & _)].
  - exists 0, h1. cbn. split; [done|]. split; [done|]. split; [by left|].
    intros q n x L Hx. by apply (frame_byte h h1 q n).
  - replace (nz p) with true by (symmetry; by apply nz_true). cbn [when].
    assert (heap_live_words h1 !! p = Some (align4 sz)) as Lp by (rewrite Hl; apply lookup_insert_eq).
    destruct (ok_live h1 p _ Hok1 Lp) as (_ & Hp4 & _).
    destruct (memset_run irq (Z.to_nat sz) p 0 h1) as (m' & -> & G & Hc).
    { intros x Hx. apply (ok_live_byte h1 p (align4 sz)); [done|done|lia]. }
    rewrite Hp4, Z.sub_0_r, Z2Nat.id in Hc by lia. rewrite Z2Nat.id in G by lia.
    destruct (ok_payload h1 p (align4 sz) m' Hok1 Lp) as [Hok' Hl'].
    { split; [|apply Hc]. intros x Hx. apply Hc. lia. }
    exists p, (set_mem h1 m'). split; [done|]. split; [done|]. rewrite Hl', Hl. cbn. split.
    + right. split_and!; try done. intros x Hx. rewrite G.
      by destruct (Z.leb_spec p x), (Z.ltb_spec x (p + sz)); [|lia..].
    + intros q n x L Hx. assert (q <> p) as Hqp by (intros ->; by rewrite L in HN). rewrite G.
      assert (heap_live_words h1 !! q = Some n) as Lq by (by rewrite Hl, lookup_insert_ne).
      pose proof (ok_disjoint h1 q n p _ Hok1 Lq Lp Hqp) as [?|?];
        (destruct (Z.leb_spec p x), (Z.ltb_spec x (p + sz)); cbn; try lia;
         by apply (frame_byte h h1 q n)).
Qed.

(** [hf_realloc] of an allocated block to a size it can hold either returns
    NULL and keeps the block, or moves the first [size] bytes to a fresh block
    and releases the old one. *)
Theorem hf_realloc_moves irq h ptr n size :
  heap_ok_wf h -> heap_live_words h !! ptr = Some n -> 0 <= size <= n -> size <= max_request ->
  exists p h', hf_realloc ptr size (irq, h) = Ok (p, (irq, h')) /\ heap_ok_wf h' /\
    (p = 0 /\ heap_live_words h' = heap_live_words h /\
       (forall x, ptr <= x < ptr + n -> get_byte (mem h') x = get_byte (mem h) x) \/
     p <> 0 /\ heap_live_words h !! p = None /\
       heap_live_words h' = delete ptr (<[p := align4 size]> (heap_live_words h)) /\
       forall i, 0 <= i < size -> get_byte (mem h') (p + i) = get_byte (mem h) (ptr + i)).
Proof.
  intros Hok L Hs Hm. destruct (align4_spec size ltac:(lia)) as [Ha _].
  destruct (ok_live h ptr n Hok L) as (Hp0 & Hp4 & _ & _ & Hb & _).
  unfold hf_realloc. unfold max_request in *. rewrite i32_small by lia.
  destruct (Z.ltb_spec size 0); [lia|].
  replace (nz ptr) with true by (symmetry; apply nz_true; lia). cbn [negb].
  destruct (heap_live_malloc irq h size Hok) as (p & h1 & E & Hok1 & F & Hp); [unfold max_request; lia|].
  unfold mbind, ST_bind. rewrite E.
  destruct Hp as [(-> & Hl & _)|(Hp & HN & Hl & _)].
  { exists 0, h1. cbn. split; [done|]. split; [done|]. left. split_and!; try done.
    intros x Hx. by apply (frame_byte h h1 ptr n). }
  replace (nz p) with true by (symmetry; by apply nz_true). cbn [when].
  assert (p <> ptr) as Hne by (intros ->; by rewrite L in HN).
  assert (heap_live_words h1 !! p = Some (align4 size)) as Lp by (rewrite Hl; apply lookup_insert_eq).
  assert (heap_live_words h1 !! ptr = Some n) as Lq by (by rewrite Hl, lookup_insert_ne).
  destruct (ok_live h1 p _ Hok1 Lp) as (_ & Hpp4 & _).
  pose proof (ok_disjoint h1 p _ ptr n Hok1 Lp Lq Hne) as Hd. unfold disjoint_range in Hd.
  destruct (memcpy_run irq (Z.to_nat size) p ptr h1) as (m' & -> & G & Hc).
  { unfold disjoint_range. lia. }
  { intros x Hx. apply (ok_live_byte h1 p (align4 size)); [done|done|lia]. }
  { intros x Hx. apply (ok_live_byte h1 ptr n); [done|done|lia]. }
  rewrite Hpp4, Z.sub_0_r, Z2Nat.id in Hc by lia. rewrite Z2Nat.id in G by lia.
  destruct (ok_payload h1 p (align4 size) m' Hok1 Lp) as [Hok2 Hl2].
  { split; [|apply Hc]. intros x Hx. apply Hc. lia. }
  destruct (heap_live_free irq (set_mem h1 m') ptr n Hok2) as (h3 & -> & Hok3 & Hl3 & _ & F3).
  { by rewrite Hl2. }
  exists p, h3. split; [done|]. split; [done|]. right. rewrite Hl3, Hl2, Hl.
  split_and!; try done. intros i Hi.
  rewrite (frame_byte (set_mem h1 m') h3 p (align4 size)); [|done|done|by rewrite Hl2|lia].
  cbn. rewrite G. destruct (Z.leb_spec p (p + i)), (Z.ltb_spec (p + i) (p + size)); try lia.
  cbn. replace (p + i - p + ptr) with (ptr + i) by lia.
  apply (frame_byte h h1 ptr n); [done|done|done|lia].
Qed.

(** ** What the code does not do *)

(** A request within 3 bytes of 2^32 wraps to zero in [align4]: it is served
    as a request for no bytes at all. *)
Theorem hf_malloc_wraps irq h size : 4294967293 <= size < 4294967296 ->
  hf_malloc size (irq, h) = hf_malloc 0 (irq, h).
Proof.
  intros H. unfold hf_malloc. replace (align4 size) with (align4 0); [done|].
  unfold align4. rewrite !Z.shiftr_div_pow2, !Z.shiftl_mul_pow2 by lia.
  unfold u32. change (2 ^ 2) with 4. Z.div_mod_to_equations. lia.
Qed.

(** ** A concrete heap *)

(** [n] zero words from address [base]. *)
Fixpoint words (base : Z) (n : nat) : gmap Z Z :=
  match n with O => ∅ | S n => <[base := 0]> (words (base + 4) n) end.

Lemma words_mapped base n : base mod 4 = 0 -> mapped (words base n) base (base + 4 * Z.of_nat n).
Proof.
  intros Hb x Hx Hx4. revert base Hb Hx.
  induction n as [|n IH]; intros base Hb Hx; cbn [words]; [lia|].
  rewrite lookup_insert. case_decide; [done|].
  apply IH; Z.div_mod_to_equations; lia.
Qed.

(** 64 bytes of memory at 4096, before and after [heapinit]. *)
Definition blank_heap : heap := Heap (words 4096 16) 0 0 0 0.
Definition small_heap : heap :=
  match heapinit 4096 64 (1, blank_heap) with Ok (_, (_, h)) => h | _ => blank_heap end.

Lemma small_heap_wf : heap_wf small_heap 4096 [] [(56, false)].
Proof.
  destruct (heapinit_wf 1 blank_heap 4096 64) as (h' & E & W); try done.
  - apply (words_mapped 4096 16). done.
  - unfold small_heap. by rewrite E.
Qed.

Lemma hf_malloc_first_fit_witness :
  exists h', hf_malloc 10 (1, small_heap) = Ok (4104, (1, h')) /\ heap_ok_wf h'.
Proof.
  apply (hf_malloc_first_fit 1 small_heap 4096 [] [(56, false)] 10); [exact small_heap_wf|].
  split; intros ?; discriminate.
Defined.

(** Two allocations and a release, as requests. *)
Definition run_requests (h : heap) : heap :=
  match (p ← hf_malloc 8; _ ← hf_malloc 4; hf_free p) (1, h) with
  | Ok (_, (_, h)) => h
  | _ => h
  end.

Lemma heap_requests_safe_witness :
  krnl_free (run_requests small_heap) + allocated (heap_live_words (run_requests small_heap)) = 48
  /\ heap_live_words (run_requests small_heap) = {[4120 := 4]}.
Proof.
  split; [|vm_compute; reflexivity].
  apply (heap_requests_safe 1 blank_heap small_heap (run_requests small_heap) 4096 64);
    try reflexivity; try (intros ?; discriminate).
  - apply (words_mapped 4096 16). reflexivity.
  - eapply rtc_l; [|eapply rtc_l; [|eapply rtc_l; [|apply rtc_refl]]].
    + apply (req_malloc _ _ 1 8 4104); [|vm_compute; reflexivity].
      split; intros ?; discriminate.
    + apply (req_malloc _ _ 1 4 4120); [|vm_compute; reflexivity].
      split; intros ?; discriminate.
    + apply (req_free _ _ 1 4104 8); vm_compute; reflexivity.
Defined.

Lemma hf_calloc_zeroed_witness :
  exists p h', hf_calloc 3 3 (1, small_heap) = Ok (p, (1, h')) /\ heap_ok_wf h' /\ p = 4104.
Proof.
  destruct (hf_calloc_zeroed 1 small_heap 3 3) as (p & h' & E & Hok & _).
  - exists 4096, [], [(56, false)]. apply small_heap_wf.
  - split; intros ?; discriminate.
  - exists p, h'. split; [exact E|]. split; [exact Hok|].
    vm_compute in E. injection E as <- _. reflexivity.
Defined.

(** The heap after an allocation of 8 bytes. *)
Definition used_heap : heap :=
  match hf_malloc 8 (1, small_heap) with Ok (_, (_, h)) => h | _ => small_heap end.

Lemma used_heap_ok : heap_ok_wf used_heap /\ heap_live_words used_heap = {[4104 := 8]}.
Proof.
  split; [|vm_compute; reflexivity].
  assert (heap_ok_wf small_heap) as Hok by (eexists _, _, _; apply small_heap_wf).
  destruct (heap_live_malloc 1 small_heap 8 Hok) as (p & h' & E & Hok' & _); [done|].
  unfold used_heap. by rewrite E.
Qed.

Lemma hf_realloc_moves_witness :
  exists p h', hf_realloc 4104 5 (1, used_heap) = Ok (p, (1, h')) /\ heap_ok_wf h' /\ p = 4120.
Proof.
  destruct (hf_realloc_moves 1 used_heap 4104 8 5) as (p & h' & E & Hok & _).
  - apply used_heap_ok.
  - rewrite (proj2 used_heap_ok). reflexivity.
  - split; intros ?; discriminate.
  - intros ?; discriminate.
  - exists p, h'. split; [exact E|]. split; [exact Hok|].
    vm_compute in E. injection E as <- _. reflexivity.
Defined.

(** After an allocation went past a free run too short for it, a later request
    that this run would satisfy fails: the search starts at [last_free], not at
    the first block, until the next [hf_free]. *)
Theorem hf_malloc_misses_free_run : exists h,
  (p ← hf_malloc 8; _ ← hf_malloc 0; _ ← hf_free p; _ ← hf_malloc 8; _ ← hf_malloc 0;
   hf_malloc 0) (1, small_heap) = Ok (0, (1, h)) /\
  first_fit (align4 0 + 8) (first_free h) 0 (read_blocks 16 (mem h) (first_free h)) = Some 4096.
Proof. eexists. split; vm_compute; reflexivity. Qed.
