(* ===== verification/Queue.v ===== *)
(** * Queues ([sys/lib/queue.c], [sys/include/queue.h])

    A circular array of pointers.  The operations are translated over the
    structure's fields with C's 32-bit arithmetic and truncating remainder;
    [queue_rep] relates the array to the list of queued pointers and every
    operation is shown to implement the corresponding list operation. *)

From S2P Require Import Prelude Words Mutex Malloc Alloc.

(** [struct queue].  [q_buf] is the pointer [data]; [q_data] is the array it
    points to.  A [void *] is [None] when it is NULL. *)
Record queue (A : Type) : Type := Queue {
  q_size : Z;
  q_elem : Z;
  q_head : Z;
  q_tail : Z;
  q_buf : Z;
  q_data : list (option A);
}.
Arguments Queue {A}.
Arguments q_size {A}.
Arguments q_elem {A}.
Arguments q_head {A}.
Arguments q_tail {A}.
Arguments q_buf {A}.
Arguments q_data {A}.

(** [sizeof(struct queue)] and [sizeof(void star)] of the 32-bit targets. *)
Definition sizeof_queue : Z := 20.
Definition sizeof_ptr : Z := 4.

Section operations.
Context {A : Type}.

(** [hf_queue_create]: the fresh array's contents are [garbage]. *)
Definition hf_queue_create {H : Type} `{Allocator H} (garbage : Z -> option A)
    (size : Z) : ST (Z * H) (option (Z * queue A)) :=
  q ← hf_malloc sizeof_queue;
  if q =? 0 then mret None
  else
    let sz := i32 (size + 1) in
    data ← hf_malloc (u32 (sz * sizeof_ptr));
    if data =? 0 then
      _ ← hf_free q;
      mret None
    else
      mret (Some (q, Queue sz 0 0 0 data (tabulate (Z.to_nat sz) garbage))).

(** [hf_queue_destroy(q)], [q] at address [qp]. *)
Definition hf_queue_destroy {H : Type} `{Allocator H} (qp : Z) (q : queue A) :
    ST (Z * H) Z :=
  if q_head q =? q_tail q then
    _ ← hf_free (q_buf q);
    _ ← hf_free qp;
    mret 0
  else mret (-1).

Definition hf_queue_count : ST (queue A) Z := gets q_elem.

Definition hf_queue_addtail (ptr : option A) : ST (queue A) Z := fun q =>
  if q_size q =? 0 then Ok (-1, q)
  else
    let next := cmod (i32 (q_tail q + 1)) (q_size q) in
    if next =? q_head q then Ok (-1, q)
    else
      data ← aset (q_data q) (q_tail q) ptr;
      Ok (0, Queue (q_size q) (i32 (q_elem q + 1)) (q_head q) next (q_buf q) data).

Definition hf_queue_remhead : ST (queue A) (option A) := fun q =>
  if q_size q =? 0 then Ok (None, q)
  else if q_head q =? q_tail q then Ok (None, q)
  else
    ret ← aget (q_data q) (q_head q);
    Ok (ret, Queue (q_size q) (i32 (q_elem q - 1))
               (cmod (i32 (q_head q + 1)) (q_size q)) (q_tail q) (q_buf q) (q_data q)).

Definition hf_queue_remtail : ST (queue A) (option A) := fun q =>
  if q_size q =? 0 then Ok (None, q)
  else if q_head q =? q_tail q then Ok (None, q)
  else
    ret ← aget (q_data q) (q_tail q);
    Ok (ret, Queue (q_size q) (i32 (q_elem q - 1)) (q_head q)
               (cmod (i32 (q_tail q - 1)) (q_size q)) (q_buf q) (q_data q)).

(** [(q->head + elem) % q->size] *)
Definition q_slot (q : queue A) (elem : Z) : Z :=
  cmod (i32 (q_head q + elem)) (q_size q).

Definition hf_queue_get (elem : Z) : ST (queue A) (option A) := fun q =>
  if (q_size q =? 0) || (q_elem q <=? elem) || (q_head q =? q_tail q) then Ok (None, q)
  else
    ret ← aget (q_data q) (q_slot q elem);
    Ok (ret, q).

Definition with_data (q : queue A) (data : list (option A)) : queue A :=
  Queue (q_size q) (q_elem q) (q_head q) (q_tail q) (q_buf q) data.

Definition hf_queue_set (elem : Z) (ptr : option A) : ST (queue A) Z := fun q =>
  if (q_size q =? 0) || (q_elem q <=? elem) || (q_head q =? q_tail q) then Ok (-1, q)
  else
    data ← aset (q_data q) (q_slot q elem) ptr;
    Ok (0, with_data q data).

Definition hf_queue_swap (elem1 elem2 : Z) : ST (queue A) Z := fun q =>
  if (q_size q =? 0) || (q_elem q <=? elem1) || (q_elem q <=? elem2) ||
     (q_head q =? q_tail q)
  then Ok (-1, q)
  else
    t ← aget (q_data q) (q_slot q elem1);
    t2 ← aget (q_data q) (q_slot q elem2);
    data ← aset (q_data q) (q_slot q elem1) t2;
    data' ← aset data (q_slot q elem2) t;
    Ok (0, with_data q data').
End operations.

(** ** The abstraction: a queue of pointers is a list *)

(** Room for the largest index sum the operations form in an [int32_t]. *)
Definition max_queue_size : Z := 1073741824.

Record queue_rep {A : Type} (q : queue A) (l : list (option A)) : Prop := {
  qr_size : 1 <= q_size q <= max_queue_size;
  qr_len : zlen (q_data q) = q_size q;
  qr_head : 0 <= q_head q < q_size q;
  qr_elem : q_elem q = zlen l;
  qr_cap : zlen l < q_size q;
  qr_tail : q_tail q = (q_head q + zlen l) mod q_size q;
  qr_cells : forall i, 0 <= i < zlen l ->
    zget (q_data q) ((q_head q + i) mod q_size q) = zget l i;
}.

(** The number of elements a queue can hold. *)
Definition q_capacity {A : Type} (q : queue A) : Z := q_size q - 1.

Section abstraction.
Context {A : Type}.
Implicit Types (q : queue A) (l : list (option A)) (p : option A).

Lemma rep_tail_range q l : queue_rep q l -> 0 <= q_tail q < q_size q.
Proof. intros []. rewrite qr_tail0. apply Z.mod_pos_bound. lia. Qed.

(** The queue is empty exactly when its indices meet. *)
Lemma rep_empty q l : queue_rep q l -> (q_head q =? q_tail q) = (zlen l =? 0).
Proof.
  intros []. pose proof (zlen_nonneg l). rewrite qr_tail0.
  destruct (Z.eqb_spec (zlen l) 0) as [->|].
  - apply Z.eqb_eq. ring_lia.
  - apply Z.eqb_neq. ring_lia.
Qed.

Lemma rep_next q l : queue_rep q l ->
  cmod (i32 (q_tail q + 1)) (q_size q) = (q_head q + (zlen l + 1)) mod q_size q.
Proof.
  intros R. pose proof (rep_tail_range _ _ R). destruct R.
  unfold max_queue_size in *. pose proof (zlen_nonneg l).
  rewrite i32_small, cmod_nonneg by lia. rewrite qr_tail0 in *. ring_lia.
Qed.

Lemma rep_full q l : queue_rep q l ->
  (cmod (i32 (q_tail q + 1)) (q_size q) =? q_head q) = (zlen l =? q_capacity q).
Proof.
  intros R. rewrite (rep_next _ _ R). destruct R.
  pose proof (zlen_nonneg l). unfold q_capacity.
  destruct (Z.eqb_spec (zlen l) (q_size q - 1)).
  - apply Z.eqb_eq. ring_lia.
  - apply Z.eqb_neq. ring_lia.
Qed.

Lemma rep_slot q l i : queue_rep q l -> 0 <= i < zlen l ->
  q_slot q i = (q_head q + i) mod q_size q.
Proof.
  intros [] Hi. unfold q_slot, max_queue_size in *.
  rewrite i32_small, cmod_nonneg by lia. done.
Qed.

Lemma rep_slot_range q l i : queue_rep q l -> 0 <= i < zlen l ->
  0 <= q_slot q i < zlen (q_data q).
Proof.
  intros R Hi. rewrite (rep_slot q l) by done. destruct R. rewrite qr_len0.
  apply Z.mod_pos_bound. lia.
Qed.

Lemma rep_aget q l i p : queue_rep q l -> zget l i = Some p ->
  aget (q_data q) (q_slot q i) = Ok p.
Proof.
  intros R Hp. pose proof (zget_Some_range _ _ _ Hp).
  rewrite (rep_slot q l) by done. destruct R. apply aget_Ok. by rewrite qr_cells0.
Qed.

(** [hf_queue_addtail] appends, or reports a full queue. *)
Lemma addtail_spec q l p : queue_rep q l ->
  if zlen l =? q_capacity q then hf_queue_addtail p q = Ok (-1, q)
  else exists q', hf_queue_addtail p q = Ok (0, q') /\ queue_rep q' (l ++ [p]) /\
    q_size q' = q_size q.
Proof.
  intros R. unfold hf_queue_addtail.
  destruct (Z.eqb_spec (q_size q) 0) as [E|_]; [destruct R; lia|].
  rewrite (rep_full _ _ R). destruct (Z.eqb_spec (zlen l) (q_capacity q)); [done|].
  pose proof (rep_tail_range _ _ R) as Ht. pose proof (rep_next _ _ R) as Hn.
  destruct R. unfold max_queue_size, q_capacity in *. pose proof (zlen_nonneg l).
  rewrite aset_Ok by lia. cbn [mbind outcome_bind].
  eexists. split; [done|]. split; [|done].
  split; cbn; unfold max_queue_size; autorewrite with hfr; rewrite ?zlen_app, ?zlen_cons, ?zlen_nil in *;
    rewrite ?i32_small by lia; try lia.
  - rewrite i32_small in Hn by lia. rewrite Hn. done.
  - intros i Hi. destruct (Z.eqb_spec i (zlen l)) as [->|].
    + rewrite <- qr_tail0, zget_zset_eq, zget_app_r, Z.sub_diag by lia. done.
    + rewrite zget_app_l by lia. rewrite <- qr_cells0 by lia.
      apply zget_zset_ne. rewrite qr_tail0. ring_lia.
Qed.

(** [hf_queue_remhead] removes the first pointer. *)
Lemma remhead_nil q : queue_rep q [] -> hf_queue_remhead q = Ok (None, q).
Proof.
  intros R. unfold hf_queue_remhead. rewrite (rep_empty _ _ R).
  by destruct (q_size q =? 0).
Qed.

Lemma remhead_cons q p l : queue_rep q (p :: l) ->
  exists q', hf_queue_remhead q = Ok (p, q') /\ queue_rep q' l /\
    q_size q' = q_size q.
Proof.
  intros R. unfold hf_queue_remhead. rewrite (rep_empty _ _ R).
  pose proof (zlen_nonneg l). rewrite zlen_cons.
  destruct (Z.eqb_spec (q_size q) 0) as [E|_]; [destruct R; lia|].
  destruct (Z.eqb_spec (1 + zlen l) 0); [lia|].
  destruct R. unfold max_queue_size in *. rewrite zlen_cons in *.
  rewrite (aget_Ok _ _ p).
  2:{ rewrite <- (Z.mod_small (q_head q) (q_size q)) by lia.
      rewrite <- (Z.add_0_r (q_head q)). by rewrite qr_cells0 by lia. }
  cbn [mbind outcome_bind]. eexists. split; [done|]. split; [|done].
  split; cbn; unfold max_queue_size; rewrite ?i32_small, ?cmod_nonneg by lia; try lia.
  - apply Z.mod_pos_bound. lia.
  - rewrite qr_tail0, Zplus_mod_idemp_l. f_equal. lia.
  - intros i Hi. rewrite Zplus_mod_idemp_l.
    replace (q_head q + 1 + i) with (q_head q + (i + 1)) by lia.
    rewrite qr_cells0 by lia. rewrite zget_cons_S by lia. f_equal. lia.
Qed.

(** [hf_queue_get] reads the n-th pointer, or NULL past the end. *)
Lemma get_spec q l i : queue_rep q l -> 0 <= i ->
  hf_queue_get i q = Ok (default None (zget l i), q).
Proof.
  intros R Hi. unfold hf_queue_get. rewrite (rep_empty _ _ R).
  destruct (Z.eqb_spec (q_size q) 0); [destruct R; lia|]. cbn.
  rewrite (qr_elem _ _ R). destruct (Z.leb_spec (zlen l) i) as [Hl|Hl].
  - by rewrite zget_None by lia.
  - destruct (Z.eqb_spec (zlen l) 0); [lia|]. cbn.
    destruct (zget_is_Some l i) as [p Hp]; [lia|]. rewrite Hp.
    by rewrite (rep_aget q l i p).
Qed.

(** Overwriting a cell is overwriting the list. *)
Lemma rep_update q l i p : queue_rep q l -> 0 <= i < zlen l ->
  queue_rep (with_data q (zset (q_data q) (q_slot q i) p)) (zset l i p).
Proof.
  intros R Hi. pose proof (rep_slot_range _ _ _ R Hi) as Hr.
  pose proof (rep_slot _ _ _ R Hi) as Hs. destruct R.
  split; cbn; rewrite ?zset_zlen; try lia. intros j Hj.
  destruct (Z.eqb_spec i j) as [<-|].
  - rewrite <- Hs, !zget_zset_eq by lia. done.
  - rewrite (zget_zset_ne l) by done. rewrite <- qr_cells0 by lia.
    apply zget_zset_ne. rewrite Hs. ring_lia.
Qed.

Lemma set_spec q l i p : queue_rep q l -> 0 <= i ->
  if i <? zlen l then
    exists q', hf_queue_set i p q = Ok (0, q') /\ queue_rep q' (zset l i p) /\
      q_size q' = q_size q
  else hf_queue_set i p q = Ok (-1, q).
Proof.
  intros R Hi. unfold hf_queue_set. rewrite (rep_empty _ _ R).
  destruct (Z.eqb_spec (q_size q) 0); [destruct R; lia|]. cbn.
  rewrite (qr_elem _ _ R). rewrite Z.leb_antisym.
  destruct (Z.ltb_spec i (zlen l)); [|done]. cbn.
  destruct (Z.eqb_spec (zlen l) 0); [lia|].
  rewrite aset_Ok by (eapply rep_slot_range; eauto; lia). cbn.
  eexists. split; [done|]. split; [|done]. apply rep_update; [done|lia].
Qed.

(** The list after exchanging two of its positions. *)
Definition list_swap (l : list (option A)) (i j : Z) : list (option A) :=
  zset (zset l i (default None (zget l j))) j (default None (zget l i)).

Lemma swap_spec q l i j : queue_rep q l -> 0 <= i -> 0 <= j ->
  if (i <? zlen l) && (j <? zlen l) then
    exists q', hf_queue_swap i j q = Ok (0, q') /\ queue_rep q' (list_swap l i j) /\
      q_size q' = q_size q
  else hf_queue_swap i j q = Ok (-1, q).
Proof.
  intros R Hi Hj. unfold hf_queue_swap. rewrite (rep_empty _ _ R).
  destruct (Z.eqb_spec (q_size q) 0); [destruct R; lia|]. cbn.
  rewrite (qr_elem _ _ R), !(Z.leb_antisym _ (zlen l)).
  destruct (Z.ltb_spec i (zlen l)); [|done].
  destruct (Z.ltb_spec j (zlen l)); [|done]. cbn.
  destruct (Z.eqb_spec (zlen l) 0); [lia|].
  destruct (zget_is_Some l i) as [p Hp]; [lia|].
  destruct (zget_is_Some l j) as [p' Hp']; [lia|].
  rewrite (rep_aget q l i p), (rep_aget q l j p') by done. cbn.
  rewrite aset_Ok by (eapply rep_slot_range; eauto; lia). cbn.
  rewrite aset_Ok by (rewrite zset_zlen; eapply rep_slot_range; eauto; lia). cbn.
  eexists. split; [done|]. split; [|done].
  unfold list_swap. rewrite Hp, Hp'. cbn.
  pose proof (rep_update _ _ i p' R ltac:(lia)) as R1.
  pose proof (rep_update _ _ j p R1 ltac:(rewrite zset_zlen; lia)) as R2. done.
Qed.

Lemma count_spec q l : queue_rep q l -> hf_queue_count q = Ok (zlen l, q).
Proof. intros R. unfold hf_queue_count, gets. by rewrite (qr_elem _ _ R). Qed.

(** A queue just created is empty. *)
Lemma rep_new sz buf garbage : 1 <= sz <= max_queue_size ->
  queue_rep (Queue sz 0 0 0 buf (tabulate (Z.to_nat sz) garbage) : queue A) [].
Proof.
  intros. split; cbn; rewrite ?tabulate_zlen; change (zlen []) with 0; try ring_lia.
Qed.
End abstraction.

(** ** The queue as an abstract machine *)

Inductive qop (A : Type) : Type :=
| QAdd (p : option A)
| QRem
| QGet (i : Z)
| QSet (i : Z) (p : option A)
| QSwap (i j : Z)
| QCount.
Arguments QAdd {A}.
Arguments QRem {A}.
Arguments QGet {A}.
Arguments QSet {A}.
Arguments QSwap {A}.
Arguments QCount {A}.

(** What a caller sees: a status or number, or a pointer. *)
Inductive qres (A : Type) : Type :=
| RInt (z : Z)
| RPtr (p : option A).
Arguments RInt {A}.
Arguments RPtr {A}.

Section machine.
Context {A : Type}.

(** One call of the C interface. *)
Definition q_call (op : qop A) : ST (queue A) (qres A) :=
  match op with
  | QAdd p => z ← hf_queue_addtail p; mret (RInt z)
  | QRem => p ← hf_queue_remhead; mret (RPtr p)
  | QGet i => p ← hf_queue_get i; mret (RPtr p)
  | QSet i p => z ← hf_queue_set i p; mret (RInt z)
  | QSwap i j => z ← hf_queue_swap i j; mret (RInt z)
  | QCount => z ← hf_queue_count; mret (RInt z)
  end.

Fixpoint q_calls (ops : list (qop A)) : ST (queue A) (list (qres A)) :=
  match ops with
  | [] => mret []
  | op :: ops => r ← q_call op; rs ← q_calls ops; mret (r :: rs)
  end.

(** The same call on a bounded list of capacity [cap]. *)
Definition fifo_call (cap : Z) (op : qop A) (l : list (option A)) :
    qres A * list (option A) :=
  match op with
  | QAdd p => if zlen l =? cap then (RInt (-1), l) else (RInt 0, l ++ [p])
  | QRem => (RPtr (default None (head l)), tail l)
  | QGet i => (RPtr (default None (zget l i)), l)
  | QSet i p => if i <? zlen l then (RInt 0, zset l i p) else (RInt (-1), l)
  | QSwap i j =>
      if (i <? zlen l) && (j <? zlen l) then (RInt 0, list_swap l i j)
      else (RInt (-1), l)
  | QCount => (RInt (zlen l), l)
  end.

Fixpoint fifo_calls (cap : Z) (ops : list (qop A)) (l : list (option A)) :
    list (qres A) * list (option A) :=
  match ops with
  | [] => ([], l)
  | op :: ops =>
      let '(r, l1) := fifo_call cap op l in
      let '(rs, l2) := fifo_calls cap ops l1 in
      (r :: rs, l2)
  end.

(** Positions passed to the interface are not negative. *)
Definition qop_valid (op : qop A) : bool :=
  match op with
  | QGet i | QSet i _ => 0 <=? i
  | QSwap i j => (0 <=? i) && (0 <=? j)
  | _ => true
  end.

Lemma q_call_refines op q l : queue_rep q l -> qop_valid op = true ->
  exists q', q_call op q = Ok ((fifo_call (q_capacity q) op l).1, q') /\
    queue_rep q' (fifo_call (q_capacity q) op l).2 /\ q_size q' = q_size q.
Proof.
  intros R V. destruct op as [p| |i|i p|i j|]; cbn in *; unfold mbind, ST_bind.
  - pose proof (addtail_spec q l p R) as S. destruct (zlen l =? q_capacity q).
    + rewrite S. eauto.
    + destruct S as (q' & -> & ? & ?). eauto.
  - destruct l as [|p l].
    + rewrite remhead_nil by done. eauto.
    + destruct (remhead_cons q p l R) as (q' & -> & ? & ?). eauto.
  - rewrite (get_spec q l) by (done || lia). eauto.
  - pose proof (set_spec q l i p R ltac:(lia)) as S. destruct (i <? zlen l).
    + destruct S as (q' & -> & ? & ?). eauto.
    + rewrite S. eauto.
  - pose proof (swap_spec q l i j R ltac:(lia) ltac:(lia)) as S.
    destruct ((i <? zlen l) && (j <? zlen l)).
    + destruct S as (q' & -> & ? & ?). eauto.
    + rewrite S. eauto.
  - rewrite (count_spec q l) by done. eauto.
Qed.
End machine.

(** C5: every sequence of calls of the queue interface with non-negative
    positions terminates without touching memory outside the array and returns
    exactly what a bounded first-in first-out list of capacity [size - 1]
    returns: the circular array refines the list machine. *)
Theorem queue_refines_fifo {A : Type} (ops : list (qop A)) (q : queue A)
    (l : list (option A)) :
  queue_rep q l -> forallb qop_valid ops = true ->
  exists q', q_calls ops q = Ok ((fifo_calls (q_capacity q) ops l).1, q') /\
    queue_rep q' (fifo_calls (q_capacity q) ops l).2.
Proof.
  revert q l. induction ops as [|op ops IH]; intros q l R V; [cbn; eauto|].
  cbn in V. apply andb_prop in V as [V1 V2].
  destruct (q_call_refines op q l R V1) as (q1 & E1 & R1 & Hs).
  assert (q_capacity q1 = q_capacity q) as Hc by (unfold q_capacity; lia).
  destruct (IH q1 _ R1 V2) as (q2 & E2 & R2). rewrite Hc in *.
  exists q2. cbn. destruct (fifo_call (q_capacity q) op l) as [r l1] eqn:?. cbn in *.
  destruct (fifo_calls (q_capacity q) ops l1) as [rs l2] eqn:?. cbn in *.
  unfold mbind, ST_bind. rewrite E1, E2. done.
Qed.

Lemma queue_refines_fifo_witness :
  exists q', q_calls [QAdd (Some 7); QAdd (Some 8); QAdd (Some 9); QRem; QAdd (Some 9);
                      QSwap 0 1; QGet 0; QCount]
               (Queue 3 0 0 0 64 [None; None; None]) =
      Ok ([RInt 0; RInt 0; RInt (-1); RPtr (Some 7); RInt 0; RInt 0; RPtr (Some 9); RInt 2], q')
    /\ queue_rep q' [Some 9; Some 8].
Proof.
  apply (queue_refines_fifo
           [QAdd (Some 7); QAdd (Some 8); QAdd (Some 9); QRem; QAdd (Some 9);
            QSwap 0 1; QGet 0; QCount] (Queue 3 0 0 0 64 [None; None; None]) []).
  - apply (rep_new 3 64 (fun _ => None)). unfold max_queue_size. lia.
  - reflexivity.
Defined.

(** ** Allocation of queues *)

Section allocation.
Context {H : Type} `{AllocatorLaws H} {A : Type}.
Implicit Types (h : H) (irq : Z) (garbage : Z -> option A) (q : queue A).

(** Largest queue whose array [hf_malloc] can be asked for. *)
Definition max_create_size : Z := 536870000.

(** [hf_queue_create] either allocates two fresh blocks holding an empty queue
    of the requested capacity, or returns NULL with nothing left allocated. *)
Lemma hf_queue_create_spec irq h garbage size :
  heap_ok h -> 0 <= size <= max_create_size ->
  exists r h', hf_queue_create garbage size (irq, h) = Ok (r, (irq, h')) /\
    heap_ok h' /\
    match r with
    | None => heap_live h' = heap_live h
    | Some (qp, q) => queue_rep q [] /\ q_capacity q = size /\
        qp <> q_buf q /\ heap_live h !! qp = None /\ heap_live h !! q_buf q = None /\
        exists n m, sizeof_queue <= n /\ (size + 1) * sizeof_ptr <= m /\
          heap_live h' = <[q_buf q := m]> (<[qp := n]> (heap_live h))
    end.
Proof.
  intros Hok Hsz. unfold max_create_size, hf_queue_create in *. unfold mbind, ST_bind.
  destruct (malloc_spec irq h sizeof_queue Hok) as (p & h1 & -> & Hok1 & Hp).
  { unfold sizeof_queue, max_request. lia. }
  destruct Hp as [[-> Hl1]|(Hp0 & Hp & n & Hn & Hl1)]; [by exists None, h1|].
  destruct (Z.eqb_spec p 0); [done|]. rewrite i32_small by lia.
  unfold sizeof_ptr. rewrite u32_small by lia.
  destruct (malloc_spec irq h1 ((size + 1) * 4) Hok1) as (d & h2 & -> & Hok2 & Hd).
  { unfold max_request. lia. }
  destruct Hd as [[-> Hl2]|(Hd0 & Hd & m & Hm & Hl2)].
  - assert (heap_live h2 !! p = Some n) as Hpn.
    { rewrite Hl2, Hl1. apply lookup_insert_eq. }
    destruct (free_spec irq h2 p n Hok2 Hpn) as (h3 & Hf & Hok3 & Hl3).
    exists None, h3. cbn. rewrite Hf. split_and!; try done.
    rewrite Hl3, Hl2, Hl1. by rewrite delete_insert_id.
  - destruct (Z.eqb_spec d 0); [done|]. rewrite Hl1 in Hd.
    assert (p <> d) by (intros ->; by rewrite lookup_insert_eq in Hd).
    rewrite lookup_insert_ne in Hd by done.
    eexists (Some (p, _)), h2. cbn. split; [done|]. split; [done|].
    split; [apply rep_new; unfold max_queue_size; lia|].
    split_and!; try done; [unfold q_capacity; cbn; lia|].
    exists n, m. split_and!; [done..|]. by rewrite Hl2, Hl1.
Qed.

(** [hf_queue_destroy] releases both blocks of an empty queue and refuses a
    queue that still holds pointers. *)
Lemma hf_queue_destroy_spec irq h qp q l n m :
  heap_ok h -> queue_rep q l -> qp <> q_buf q ->
  heap_live h !! qp = Some n -> heap_live h !! q_buf q = Some m ->
  exists h', hf_queue_destroy qp q (irq, h) =
      Ok (if zlen l =? 0 then 0 else -1, (irq, h')) /\ heap_ok h' /\
    heap_live h' = (if zlen l =? 0 then delete qp (delete (q_buf q) (heap_live h))
                    else heap_live h).
Proof.
  intros Hok R Hne Hq Hb. unfold hf_queue_destroy. rewrite (rep_empty q l R).
  destruct (zlen l =? 0); [|by exists h]. unfold mbind, ST_bind.
  destruct (free_spec irq h _ m Hok Hb) as (h1 & -> & Hok1 & Hl1).
  destruct (free_spec irq h1 qp n Hok1) as (h2 & Hf & Hok2 & Hl2).
  { by rewrite Hl1, lookup_delete_ne. }
  exists h2. rewrite Hf. by rewrite Hl2, Hl1.
Qed.

(** Blocks that were allocated before stay allocated, with their first word. *)
Lemma hf_queue_create_frame irq h garbage size r h' :
  hf_queue_create garbage size (irq, h) = Ok (r, (irq, h')) ->
  forall b n, heap_ok h -> 0 <= size <= max_create_size -> heap_live h !! b = Some n -> 4 <= n ->
    heap_live h' !! b = Some n /\ heap_word h' b = heap_word h b.
Proof.
  intros E b n Hok Hsz L Hn. unfold max_create_size, hf_queue_create in *. unfold mbind, ST_bind in E.
  destruct (malloc_spec irq h sizeof_queue Hok) as (p & h1 & E1 & Hok1 & Hp).
  { unfold sizeof_queue, max_request. lia. }
  rewrite E1 in E.
  assert (heap_word h1 b = heap_word h b) as W1.
  { eapply malloc_frame; [exact Hok| |exact E1|exact L|lia]. unfold sizeof_queue, max_request. lia. }
  destruct Hp as [[-> Hl1]|(Hp0 & Hp & m & Hm & Hl1)].
  { injection E as <- <-. by rewrite Hl1. }
  assert (heap_live h1 !! b = Some n) as L1 by (rewrite Hl1, lookup_insert_ne; [done|congruence]).
  destruct (Z.eqb_spec p 0); [done|]. rewrite i32_small in E by lia.
  unfold sizeof_ptr in E. rewrite u32_small in E by lia.
  destruct (malloc_spec irq h1 ((size + 1) * 4) Hok1) as (d & h2 & E2 & Hok2 & Hd).
  { unfold max_request. lia. }
  rewrite E2 in E. assert (heap_word h2 b = heap_word h1 b) as W2.
  { eapply malloc_frame; [exact Hok1| |exact E2|exact L1|lia]. unfold max_request. lia. }
  destruct Hd as [[-> Hl2]|(Hd0 & Hd & m2 & Hm2 & Hl2)].
  - assert (heap_live h2 !! p = Some m) as Lp by (rewrite Hl2, Hl1; apply lookup_insert_eq).
    destruct (free_spec irq h2 p m Hok2 Lp) as (h3 & Hf & Hok3 & Hl3).
    cbn in E. rewrite Hf in E. injection E as <- <-.
    assert (b <> p) as Hbp by congruence. rewrite Hl3, lookup_delete_ne, Hl2 by done.
    split; [done|]. rewrite <- W1, <- W2. eapply free_frame; [exact Hok2|exact Lp|exact Hf| |].
    + by rewrite Hl2.
    + lia.
  - destruct (Z.eqb_spec d 0); [done|]. injection E as <- <-.
    rewrite Hl2, lookup_insert_ne by congruence. by rewrite W2, W1.
Qed.
End allocation.

(** creating a queue and destroying it leaves the heap as it was, and when
    memory runs out during creation nothing stays allocated. *)
Theorem hf_queue_create_destroy {H : Type} `{AllocatorLaws H} {A : Type} (irq : Z) (h : H)
    (garbage : Z -> option A) (size : Z) :
  heap_ok h -> 0 <= size <= max_create_size ->
  exists r h1, hf_queue_create garbage size (irq, h) = Ok (r, (irq, h1)) /\
    match r with
    | None => heap_live h1 = heap_live h
    | Some (qp, q) => queue_rep q [] /\ q_capacity q = size /\
        exists h2, hf_queue_destroy qp q (irq, h1) = Ok (0, (irq, h2)) /\
          heap_ok h2 /\ heap_live h2 = heap_live h
    end.
Proof.
  intros Hok Hsz.
  destruct (hf_queue_create_spec irq h garbage size Hok Hsz) as (r & h1 & E & Hok1 & S).
  exists r, h1. split; [done|]. destruct r as [[qp q]|]; [|done].
  destruct S as (R & Hc & Hne & Hq & Hb & n & m & _ & _ & Hl).
  split; [done|]. split; [done|].
  destruct (hf_queue_destroy_spec irq h1 qp q [] n m Hok1 R Hne) as (h2 & E2 & Hok2 & Hl2).
  - rewrite Hl, lookup_insert_ne, lookup_insert_eq; done.
  - by rewrite Hl, lookup_insert_eq.
  - exists h2. rewrite E2, Hl2, Hl. cbn. split_and!; try done.
    rewrite delete_insert_id by (rewrite lookup_insert_ne; done).
    by rewrite delete_insert_id.
Qed.

Lemma hf_queue_create_destroy_witness :
  exists r h', hf_queue_create (fun _ => Some 7) 2 (1, small_heap) = Ok (r, (1, h')) /\
    (exists q, r = Some (4104, q)).
Proof.
  destruct (hf_queue_create_destroy 1 small_heap (fun _ => Some 7) 2) as (r & h' & E & _).
  - exists 4096, [], [(56, false)]. apply small_heap_wf.
  - split; intros ?; discriminate.
  - exists r, h'. split; [exact E|]. vm_compute in E. injection E as <- _. eexists. reflexivity.
Defined.

(** [hf_queue_remtail] reads the array at [tail], the slot the {e next} pointer
    goes to: on a queue that just received its first pointer it returns whatever
    the fresh memory held, not the pointer. *)
Theorem hf_queue_remtail_reads_free_slot {A : Type} (garbage : Z -> option A)
    (size buf : Z) (p : option A) :
  1 <= size < max_queue_size ->
  exists q', (_ ← hf_queue_addtail p; hf_queue_remtail)
      (Queue (size + 1) 0 0 0 buf (tabulate (Z.to_nat (size + 1)) garbage))
    = Ok (garbage 1, q').
Proof.
  unfold max_queue_size. intros Hs. unfold mbind, ST_bind, hf_queue_addtail. cbn.
  destruct (Z.eqb_spec (size + 1) 0); [lia|].
  unfold cmod. rewrite (i32_small (0 + 1)), (Z.rem_small 1) by lia. cbn.
  rewrite aset_Ok by (rewrite tabulate_zlen; lia). cbn.
  unfold hf_queue_remtail. cbn. destruct (Z.eqb_spec (size + 1) 0); [lia|].
  unfold aget. rewrite zget_zset_ne, zget_tabulate by lia. cbn. eauto.
Qed.

Lemma hf_queue_remtail_reads_free_slot_witness :
  exists q', (_ ← hf_queue_addtail (Some 5); hf_queue_remtail)
      (Queue (4 + 1) 0 0 0 64 (tabulate 5 (fun i => Some (100 + i)))) = Ok (Some 101, q').
Proof.
  apply (hf_queue_remtail_reads_free_slot (fun i => Some (100 + i)) 4 64 (Some 5)).
  unfold max_queue_size. lia.
Defined.
