(* ===== verification/LinkedList.v ===== *)
(** * Linked lists

    [sys/lib/list.c]. A list is a head node, whose [elem] is never read,
    followed by the nodes of the elements; every node is a heap block of two
    words, [elem] at offset 0 and [next] at offset 4. The functions are run on
    the words of the heap behind the allocator's interface, and shown to be
    the operations of the sequence of elements. *)

From S2P Require Import Prelude Words Alloc.

Definition sizeof_list : Z := 8.

Section list.
Context {H : Type} {HA : Allocator H}.

(** [t->elem], [t->next] and the assignments to them. *)
Definition elem_of_node (t : Z) : ST (Z * H) Z := heap_load t.
Definition next (t : Z) : ST (Z * H) Z := heap_load (u32 (t + 4)).
Definition set_elem (t item : Z) : ST (Z * H) unit := heap_store t item.
Definition set_next (t n : Z) : ST (Z * H) unit := heap_store (u32 (t + 4)) n.

Definition hf_list_init : ST (Z * H) Z :=
  lst ← hf_malloc sizeof_list;
  _ ← when (nz lst) (_ ← set_next lst 0; set_elem lst 0);
  mret lst.

(** [while (t2->next) t2 = t2->next;] *)
Fixpoint to_last (fuel : nat) (t2 : Z) : ST (Z * H) Z :=
  match fuel with
  | O => timeout_st
  | S fuel => n ← next t2; if nz n then to_last fuel n else mret t2
  end.

Definition hf_list_append (fuel : nat) (lst item : Z) : ST (Z * H) Z :=
  t1 ← hf_malloc sizeof_list;
  if nz t1 then
    _ ← set_elem t1 item;
    _ ← set_next t1 0;
    t2 ← to_last fuel lst;
    _ ← set_next t2 t1;
    mret 0
  else mret (-1).

(** [while (t2->next) { t2 = t2->next; if (++i == pos) break; }] *)
Fixpoint to_pos (fuel : nat) (t2 i pos : Z) : ST (Z * H) Z :=
  match fuel with
  | O => timeout_st
  | S fuel =>
      n ← next t2;
      if nz n then
        let i := i32 (i + 1) in
        if i =? pos then mret n else to_pos fuel n i pos
      else mret t2
  end.

Definition hf_list_insert (fuel : nat) (lst item pos : Z) : ST (Z * H) Z :=
  t1 ← hf_malloc sizeof_list;
  if nz t1 then
    _ ← set_elem t1 item;
    _ ← set_next t1 0;
    t2 ← to_pos fuel lst 0 pos;
    n ← next t2;
    _ ← set_next t1 n;
    _ ← set_next t2 t1;
    mret 0
  else mret (-1).

Fixpoint remove_loop (fuel : nat) (t2 i pos : Z) : ST (Z * H) Z :=
  match fuel with
  | O => timeout_st
  | S fuel =>
      t1 ← next t2;
      if nz t1 then
        if i =? pos then
          n ← next t1;
          _ ← set_next t2 n;
          _ ← hf_free t1;
          mret 0
        else remove_loop fuel t1 (i32 (i + 1)) pos
      else mret (-1)
  end.

Definition hf_list_remove (fuel : nat) (lst pos : Z) : ST (Z * H) Z := remove_loop fuel lst 0 pos.

(** [t1 = lst; while ((t1 = t1->next)) { if (i++ == pos) ... }]: the node, or
    NULL. *)
Fixpoint find_loop (fuel : nat) (t1 i pos : Z) : ST (Z * H) Z :=
  match fuel with
  | O => timeout_st
  | S fuel =>
      t1 ← next t1;
      if nz t1 then
        if i =? pos then mret t1 else find_loop fuel t1 (i32 (i + 1)) pos
      else mret 0
  end.

Definition hf_list_get (fuel : nat) (lst pos : Z) : ST (Z * H) Z :=
  t1 ← find_loop fuel lst 0 pos;
  if nz t1 then elem_of_node t1 else mret 0.

Definition hf_list_set (fuel : nat) (lst item pos : Z) : ST (Z * H) Z :=
  t1 ← find_loop fuel lst 0 pos;
  if nz t1 then _ ← set_elem t1 item; mret 0 else mret (-1).

Fixpoint count_loop (fuel : nat) (t1 i : Z) : ST (Z * H) Z :=
  match fuel with
  | O => timeout_st
  | S fuel => t1 ← next t1; if nz t1 then count_loop fuel t1 (i32 (i + 1)) else mret i
  end.

Definition hf_list_count (fuel : nat) (lst : Z) : ST (Z * H) Z := count_loop fuel lst 0.
End list.

(** ** Representation *)

Section rep.
Context {H : Type} {HA : Allocator H} {HL : AllocatorLaws H}.
Implicit Types (h : H) (t p q x : Z) (ns xs : list Z) (fuel : nat).

(** An allocated node with its two words. *)
Definition node h t x q : Prop :=
  (exists n, heap_live h !! t = Some n /\ 8 <= n) /\ heap_word h t = Some x /\ heap_word h (t + 4) = Some q.

(** The chain of nodes [ns] with elements [xs] from [p] to [e]. *)
Fixpoint chain h p ns xs (e : Z) : Prop :=
  match ns, xs with
  | [], [] => p = e
  | n :: ns, x :: xs => p = n /\ exists q, node h n x q /\ chain h q ns xs e
  | _, _ => False
  end.

(** The list at [lst]. *)
Record list_rep h lst ns xs : Prop := {
  lr_ok : heap_ok h;
  lr_head : exists x0, chain h lst (lst :: ns) (x0 :: xs) 0;
  lr_nodup : NoDup (lst :: ns);
  lr_small : zlen xs < 2147483647;
}.

(** Blocks and words other than those of the nodes [ts]. *)
Definition untouched h h' (ts : list Z) : Prop :=
  forall b n, heap_live h !! b = Some n -> b ∉ ts ->
    heap_live h' !! b = Some n /\ forall a, b <= a < b + n -> heap_word h' a = heap_word h a.

Lemma node_range h t x q : heap_ok h -> node h t x q -> 0 < t /\ t + 8 < 4294967296.
Proof. intros Hok [(n & Hn & H8) _]. pose proof (live_range h t n Hok Hn). lia. Qed.

Lemma node_nz h t x q : heap_ok h -> node h t x q -> nz t = true.
Proof. intros Hok Ht. apply nz_true. pose proof (node_range h t x q Hok Ht). lia. Qed.

Lemma next_run irq h t x q : heap_ok h -> node h t x q -> next t (irq, h) = Ok (q, (irq, h)).
Proof.
  intros Hok Ht. pose proof (node_range h t x q Hok Ht). unfold next. rewrite u32_small by lia.
  apply load_spec. apply Ht.
Qed.

Lemma elem_run irq h t x q : node h t x q -> elem_of_node t (irq, h) = Ok (x, (irq, h)).
Proof. intros Ht. apply load_spec. apply Ht. Qed.

(** Storing into a node changes that word of that node only. *)
Lemma set_next_run irq h t x q q' : heap_ok h -> node h t x q ->
  exists h', set_next t q' (irq, h) = Ok (tt, (irq, h')) /\ heap_ok h' /\ heap_live h' = heap_live h
    /\ node h' t x q' /\ forall a, a <> t + 4 -> heap_word h' a = heap_word h a.
Proof.
  intros Hok Ht. pose proof (node_range h t x q Hok Ht). destruct Ht as [(n & Hn & H8) [Hx Hq]].
  unfold set_next. rewrite u32_small by lia.
  destruct (store_spec irq h t n (t + 4) q' Hok Hn) as (h' & E & Hok' & Hl & Hw); [lia|lia| |].
  { replace (t + 4 - t) with 4 by lia. done. }
  exists h'. split_and!; try done.
  - split; [exists n; by rewrite Hl|]. rewrite !Hw, Z.eqb_refl. destruct (Z.eqb_spec t (t + 4)); [lia|done].
  - intros a Ha. rewrite Hw. by destruct (Z.eqb_spec a (t + 4)).
Qed.

Lemma set_elem_run irq h t x q x' : heap_ok h -> node h t x q ->
  exists h', set_elem t x' (irq, h) = Ok (tt, (irq, h')) /\ heap_ok h' /\ heap_live h' = heap_live h
    /\ node h' t x' q /\ forall a, a <> t -> heap_word h' a = heap_word h a.
Proof.
  intros Hok Ht. pose proof (node_range h t x q Hok Ht). destruct Ht as [(n & Hn & H8) [Hx Hq]].
  unfold set_elem.
  destruct (store_spec irq h t n t x' Hok Hn) as (h' & E & Hok' & Hl & Hw); [lia|lia| |].
  { by rewrite Z.sub_diag. }
  exists h'. split_and!; try done.
  - split; [exists n; by rewrite Hl|]. rewrite !Hw, Z.eqb_refl. destruct (Z.eqb_spec (t + 4) t); [lia|done].
  - intros a Ha. rewrite Hw. by destruct (Z.eqb_spec a t).
Qed.

(** Two nodes share no word. *)
Lemma nodes_apart h t x q t' x' q' : heap_ok h -> node h t x q -> node h t' x' q' -> t <> t' ->
  t + 8 <= t' \/ t' + 8 <= t.
Proof.
  intros Hok [(n & Hn & H8) _] [(n' & Hn' & H8') _] Hne.
  destruct (live_disjoint h t n t' n' Hok Hn Hn' Hne); lia.
Qed.

(** A chain in a heap with the same blocks and the same words at its nodes. *)
Lemma chain_ext h h' p ns xs e :
  (forall t x q, t ∈ ns -> node h t x q -> node h' t x q) -> chain h p ns xs e -> chain h' p ns xs e.
Proof.
  revert p xs. induction ns as [|n ns IH]; intros p [|x xs] Hn; cbn; try done.
  intros [-> (q & Hq & Hc)]. split; [done|]. exists q. split; [apply Hn; [apply list_elem_of_here|done]|].
  apply IH; [|done]. intros t y z Ht. apply Hn. by apply list_elem_of_further.
Qed.

Lemma chain_app h p ns1 ns2 xs1 xs2 e : length ns1 = length xs1 ->
  chain h p (ns1 ++ ns2) (xs1 ++ xs2) e <-> exists m, chain h p ns1 xs1 m /\ chain h m ns2 xs2 e.
Proof.
  revert p xs1. induction ns1 as [|n ns1 IH]; intros p [|x xs1] Hl; try done; cbn [app chain].
  - split; [intros Hc; by exists p|]. by intros (m & -> & Hc).
  - injection Hl as Hl. split.
    + intros [-> (q & Hq & Hc)]. apply IH in Hc as (m & H1 & H2); [|done]. exists m. split; [|done].
      split; [done|]. by exists q.
    + intros (m & [-> (q & Hq & H1)] & H2). split; [done|]. exists q. split; [done|].
      apply IH; [done|]. by exists m.
Qed.

Lemma chain_length h p ns xs e : chain h p ns xs e -> length ns = length xs.
Proof.
  revert p xs. induction ns as [|n ns IH]; intros p [|x xs]; cbn; try done.
  intros [_ (q & _ & Hc)]. f_equal. by apply (IH q).
Qed.

Lemma chain_node h p ns xs e t : chain h p ns xs e -> t ∈ ns -> exists x q, node h t x q.
Proof.
  revert p xs. induction ns as [|n ns IH]; intros p [|x xs] Hc Ht; try done; [by apply elem_of_nil in Ht|].
  cbn in Hc. destruct Hc as [-> (q & Hq & Hc)]. apply elem_of_cons in Ht as [->|Ht]; [by exists x, q|].
  by apply (IH q xs).
Qed.
End rep.

(** ** Walking and relinking *)

Section walks.
Context {H : Type} {HA : Allocator H} {HL : AllocatorLaws H}.
Implicit Types (h : H) (t p q x : Z) (ns xs : list Z) (fuel : nat).

Lemma chain_split h p pre l post xs e : chain h p (pre ++ l :: post) xs e ->
  exists xs1 y xs2 q, xs = xs1 ++ y :: xs2 /\ length pre = length xs1 /\ chain h p pre xs1 l
    /\ node h l y q /\ chain h q post xs2 e.
Proof.
  revert p xs. induction pre as [|n pre IH]; intros p [|x xs] Hc; try done; cbn [app chain] in Hc.
  - destruct Hc as [-> (q & Hq & Hc)]. exists [], x, xs, q. by split_and!.
  - destruct Hc as [-> (q & Hq & Hc)]. destruct (IH q xs Hc) as (xs1 & y & xs2 & q' & -> & Hl & H1 & H2 & H3).
    exists (x :: xs1), y, xs2, q'. split_and!; try done; [cbn; by rewrite Hl|]. split; [done|by exists q].
Qed.

Lemma chain_join h p pre l post xs1 y xs2 q e : length pre = length xs1 ->
  chain h p pre xs1 l -> node h l y q -> chain h q post xs2 e ->
  chain h p (pre ++ l :: post) (xs1 ++ y :: xs2) e.
Proof. intros Hl H1 H2 H3. apply chain_app; [done|]. exists l. split; [done|]. split; [done|]. by exists q. Qed.

Lemma to_last_run irq h fuel ns : forall t x xs, heap_ok h -> chain h t (t :: ns) (x :: xs) 0 ->
  (length ns < fuel)%nat ->
  exists pre l, t :: ns = pre ++ [l] /\ to_last fuel t (irq, h) = Ok (l, (irq, h)).
Proof.
  revert ns. induction fuel as [|fuel IH]; intros ns t x xs Hok [_ (q & Hq & Hc)] Hf; [lia|].
  cbn [to_last]. st_step (next_run irq h t x q Hok Hq). destruct ns as [|n ns], xs as [|z xs]; try done.
  - cbn in Hc. subst q. exists [], t. done.
  - destruct Hc as [-> Hc]. pose proof Hc as (q2 & Hq2 & _). rewrite (node_nz h n z q2 Hok Hq2).
    destruct (IH ns n z xs Hok) as (pre & l & E & Er); [by split|cbn in Hf; lia|].
    exists (t :: pre), l. split; [cbn; by rewrite E|done].
Qed.

(** The node [to_pos] stops at: the one at [pos], counting the head as number
    zero, when there is one after the head, or the last. *)
Lemma to_pos_run irq h fuel ns : forall t x xs i pos, heap_ok h -> chain h t (t :: ns) (x :: xs) 0 ->
  (length ns < fuel)%nat -> 0 <= i -> i + zlen ns < 2147483647 ->
  exists pre l post, t :: ns = pre ++ l :: post /\ to_pos fuel t i pos (irq, h) = Ok (l, (irq, h))
    /\ zlen pre = if (i <? pos) && (pos <=? i + zlen ns) then pos - i else zlen ns.
Proof.
  revert ns. induction fuel as [|fuel IH]; intros ns t x xs i pos Hok [_ (q & Hq & Hc)] Hf Hi Hs; [lia|].
  cbn [to_pos]. st_step (next_run irq h t x q Hok Hq). destruct ns as [|n ns], xs as [|z xs]; try done.
  - cbn in Hc. subst q. exists [], t, []. split_and!; [done|done|].
    change (zlen (@nil Z)) with 0. destruct (Z.ltb_spec i pos), (Z.leb_spec pos (i + 0)); cbn [andb]; lia.
  - destruct Hc as [-> Hc]. pose proof Hc as (q2 & Hq2 & _). rewrite (node_nz h n z q2 Hok Hq2).
    rewrite zlen_cons in *. pose proof (zlen_nonneg ns). rewrite i32_small by lia.
    destruct (Z.eqb_spec (i + 1) pos) as [<-|Hne].
    + exists [t], n, ns. split_and!; [done|done|]. change (zlen [t]) with 1.
      destruct (Z.ltb_spec i (i + 1)), (Z.leb_spec (i + 1) (i + (1 + zlen ns))); cbn [andb]; lia.
    + destruct (IH ns n z xs (i + 1) pos Hok) as (pre & l & post & E & Er & Ep);
        [by split|cbn in Hf; lia|lia|lia|].
      exists (t :: pre), l, post. split_and!; [cbn; by rewrite E|done|]. rewrite zlen_cons, Ep.
      destruct (Z.ltb_spec i pos), (Z.ltb_spec (i + 1) pos),
        (Z.leb_spec pos (i + 1 + zlen ns)), (Z.leb_spec pos (i + (1 + zlen ns))); cbn [andb]; lia.
Qed.

Lemma find_loop_run irq h fuel ns : forall t x xs i pos, heap_ok h -> chain h t (t :: ns) (x :: xs) 0 ->
  (length ns < fuel)%nat -> 0 <= i -> i + zlen ns < 2147483647 ->
  find_loop fuel t i pos (irq, h) = Ok (default 0 (zget ns (pos - i)), (irq, h)).
Proof.
  revert ns. induction fuel as [|fuel IH]; intros ns t x xs i pos Hok [_ (q & Hq & Hc)] Hf Hi Hs; [lia|].
  cbn [find_loop]. st_step (next_run irq h t x q Hok Hq). destruct ns as [|n ns], xs as [|z xs]; try done.
  - cbn in Hc. subst q. change (nz 0) with false. cbv iota. rewrite zget_None; [done|].
    change (zlen (@nil Z)) with 0. lia.
  - destruct Hc as [-> Hc]. pose proof Hc as (q2 & Hq2 & _). rewrite (node_nz h n z q2 Hok Hq2).
    rewrite zlen_cons in *. pose proof (zlen_nonneg ns). rewrite i32_small by lia.
    destruct (Z.eqb_spec i pos) as [<-|Hne]; [by rewrite Z.sub_diag, zget_cons_0|].
    rewrite (IH ns n z xs (i + 1) pos Hok) by (first [by split|cbn in Hf; lia|lia]).
    destruct (Z.lt_ge_cases pos i).
    + by rewrite !zget_None by lia.
    + rewrite (zget_cons_S n ns) by lia. by replace (pos - i - 1) with (pos - (i + 1)) by lia.
Qed.

Lemma count_loop_run irq h fuel ns : forall t x xs i, heap_ok h -> chain h t (t :: ns) (x :: xs) 0 ->
  (length ns < fuel)%nat -> 0 <= i -> i + zlen ns < 2147483647 ->
  count_loop fuel t i (irq, h) = Ok (i + zlen ns, (irq, h)).
Proof.
  revert ns. induction fuel as [|fuel IH]; intros ns t x xs i Hok [_ (q & Hq & Hc)] Hf Hi Hs; [lia|].
  cbn [count_loop]. st_step (next_run irq h t x q Hok Hq). destruct ns as [|n ns], xs as [|z xs]; try done.
  - cbn in Hc. subst q. change (zlen (@nil Z)) with 0. by rewrite Z.add_0_r.
  - destruct Hc as [-> Hc]. pose proof Hc as (q2 & Hq2 & _). rewrite (node_nz h n z q2 Hok Hq2).
    rewrite zlen_cons in *. pose proof (zlen_nonneg ns). rewrite i32_small by lia.
    rewrite (IH ns n z xs (i + 1) Hok) by (first [by split|cbn in Hf; lia|lia]). do 2 f_equal. lia.
Qed.

(** A step on the heap that leaves the nodes of [ts] as they are. *)
Definition keeps h h' (ts : list Z) : Prop := forall t x q, t ∈ ts -> node h t x q -> node h' t x q.

Lemma keeps_blocks_trans h1 h2 h3 ts : keeps h1 h2 ts -> keeps h2 h3 ts -> keeps h1 h3 ts.
Proof. intros K1 K2 t x q Ht Hn. apply K2; [done|]. by apply K1. Qed.

Lemma keeps_sub h h' ts ts' : (forall t, t ∈ ts -> t ∈ ts') -> keeps h h' ts' -> keeps h h' ts.
Proof. intros Hs K t x q Ht. apply K. by apply Hs. Qed.

(** Words that change inside one node leave the other nodes. *)
Lemma keeps_store h h' t0 x0 q0 ts : heap_ok h -> node h t0 x0 q0 -> heap_live h' = heap_live h ->
  (forall a, a <> t0 -> a <> t0 + 4 -> heap_word h' a = heap_word h a) -> t0 ∉ ts -> keeps h h' ts.
Proof.
  intros Hok H0 Hl Hw Ht0 t x q Ht Hn.
  assert (Hne : t <> t0) by (intros ->; done).
  pose proof (nodes_apart h t x q t0 x0 q0 Hok Hn H0 Hne) as Hap.
  destruct Hn as [Hb [Hx Hq]]. split; [by rewrite Hl|]. rewrite !Hw by lia. done.
Qed.

Lemma untouched_store h h' t0 x0 q0 : heap_ok h -> node h t0 x0 q0 -> heap_live h' = heap_live h ->
  (forall a, a <> t0 -> a <> t0 + 4 -> heap_word h' a = heap_word h a) -> untouched h h' [t0].
Proof.
  intros Hok [(n0 & Hn0 & H8) _] Hl Hw b n Hb Hne. split; [by rewrite Hl|]. intros a Ha.
  assert (b <> t0) as Hbt by (intros ->; apply Hne, list_elem_of_here).
  destruct (live_disjoint h b n t0 n0 Hok Hb Hn0 Hbt); apply Hw; lia.
Qed.

Lemma untouched_trans h1 h2 h3 ts : untouched h1 h2 ts -> untouched h2 h3 ts -> untouched h1 h3 ts.
Proof.
  intros U1 U2 b n Hb Hne. destruct (U1 b n Hb Hne) as [Hb2 W1]. destruct (U2 b n Hb2 Hne) as [Hb3 W2].
  split; [done|]. intros a Ha. by rewrite W2, W1.
Qed.

Lemma untouched_sub h h' ts ts' : (forall t, t ∈ ts -> t ∈ ts') -> untouched h h' ts -> untouched h h' ts'.
Proof. intros Hs U b n Hb Hne. apply U; [done|]. intros Hin. by apply Hne, Hs. Qed.

(** A fresh node, or none. *)
Lemma malloc_node irq h : heap_ok h ->
  exists t h', hf_malloc sizeof_list (irq, h) = Ok (t, (irq, h')) /\ heap_ok h' /\ untouched h h' [] /\
    ((t = 0 /\ heap_live h' = heap_live h) \/
     (nz t = true /\ heap_live h !! t = None /\ (exists n, 8 <= n /\ heap_live h' = <[t := n]> (heap_live h))
      /\ exists x q, node h' t x q)).
Proof.
  intros Hok. destruct (malloc_spec irq h sizeof_list Hok) as (t & h' & E & Hok' & Hc);
    [unfold sizeof_list, max_request; lia|].
  exists t, h'. split; [done|]. split; [done|].
  assert (HU : untouched h h' []).
  { intros b n Hb _. split.
    - destruct Hc as [[_ ->]|(_ & Hf & m & _ & ->)]; [done|]. rewrite lookup_insert_ne; [done|]. congruence.
    - intros a Ha. apply (malloc_frame irq h sizeof_list t h' b n a Hok); done. }
  split; [done|]. destruct Hc as [[-> Hl]|(Hne & Hf & n & Hn & Hl)]; [by left|]. right.
  split; [by apply nz_true|]. split; [done|]. split; [by exists n|].
  assert (Hb : heap_live h' !! t = Some n) by (rewrite Hl; apply lookup_insert_eq).
  unfold sizeof_list in Hn.
  destruct (live_words h' t n t Hok' Hb) as [x Hx]; [lia|lia|by rewrite Z.sub_diag|].
  destruct (live_words h' t n (t + 4) Hok' Hb) as [q Hq]; [lia|lia|by replace (t + 4 - t) with 4 by lia|].
  exists x, q. split; [exists n; split; [done|lia]|done].
Qed.

(** Blocks that are untouched keep their nodes. *)
Lemma untouched_keeps h h' us ts : untouched h h' us -> (forall t, t ∈ ts -> t ∉ us) -> keeps h h' ts.
Proof.
  intros HU Hd t x q Ht [(n & Hn & H8) [Hx Hq]]. destruct (HU t n Hn (Hd t Ht)) as [Hn' Hw].
  split; [by exists n|]. rewrite !Hw by lia. done.
Qed.
End walks.

(** ** The operations *)

Section operations.
Context {H : Type} {HA : Allocator H} {HL : AllocatorLaws H}.
Implicit Types (h : H) (t p q x : Z) (ns xs : list Z) (fuel : nat).

(** [t2->next = t1], where [t1] already points to what followed [t2]. *)
Lemma link_run irq h p pre l post xs1 y xs2 q t item :
  heap_ok h -> length pre = length xs1 -> chain h p pre xs1 l -> node h l y q -> chain h q post xs2 0 ->
  node h t item q -> NoDup (pre ++ l :: post) -> t ∉ pre ++ l :: post ->
  exists h', set_next l t (irq, h) = Ok (tt, (irq, h')) /\ heap_ok h' /\ heap_live h' = heap_live h
    /\ untouched h h' [l] /\ chain h' p (pre ++ l :: t :: post) (xs1 ++ y :: item :: xs2) 0.
Proof.
  intros Hok Hlen H1 H2 H3 Ht Hnd Hnt.
  destruct (set_next_run irq h l y q t Hok H2) as (h' & E & Hok' & Hl & Hn & Hw).
  assert (Hw' : forall a, a <> l -> a <> l + 4 -> heap_word h' a = heap_word h a) by (intros a _; apply Hw).
  exists h'. split_and!; try done; [by apply (untouched_store h h' l y q)|].
  apply list.NoDup_app in Hnd as (_ & Hpre & [Hpost _]%list.NoDup_cons).
  assert (Hlp : l ∉ pre) by (intros Hin; apply (Hpre l Hin), list_elem_of_here).
  apply (chain_join h' p pre l (t :: post) xs1 y (item :: xs2) t 0); try done.
  - eapply chain_ext; [|exact H1]. intros t' x' q' Ht'. apply (keeps_store h h' l y q pre); done.
  - split; [done|]. exists q. split.
    + apply (keeps_store h h' l y q [t]); try done; [|apply list_elem_of_here].
      intros Hin%list_elem_of_singleton. subst t. apply Hnt, elem_of_app. right. apply list_elem_of_here.
    + eapply chain_ext; [|exact H3]. intros t' x' q' Ht'. apply (keeps_store h h' l y q post); done.
Qed.

(** A new node with [item], pointing nowhere, beside a list. *)
Lemma new_node_run irq h lst ns xs item :
  list_rep h lst ns xs ->
  exists t h', hf_malloc sizeof_list (irq, h) = Ok (t, (irq, h')) /\
    ((t = 0 /\ list_rep h' lst ns xs /\ untouched h h' []) \/
     (nz t = true /\ (t ∉ lst :: ns) /\ exists h1 h2, set_elem t item (irq, h') = Ok (tt, (irq, h1))
       /\ set_next t 0 (irq, h1) = Ok (tt, (irq, h2)) /\ list_rep h2 lst ns xs /\ node h2 t item 0
       /\ untouched h h2 [] /\ heap_live h !! t = None)).
Proof.
  intros [Hok [x0 Hc] Hnd Hsm].
  destruct (malloc_node irq h Hok) as (t & h' & E & Hok' & HU & Hcase).
  assert (Hkeep : keeps h h' (lst :: ns)).
  { apply (untouched_keeps h h' []); [done|]. intros b _ Hb. by apply elem_of_nil in Hb. }
  exists t, h'. split; [done|]. destruct Hcase as [[-> _]|(Hz & Hf & _ & x & q & Hn)].
  { left. split; [done|]. split; [|done]. constructor; try done. exists x0.
    eapply chain_ext; [|exact Hc]. intros b y z. apply Hkeep. }
  right. split; [done|].
  assert (Hnt : t ∉ lst :: ns).
  { intros Hin. destruct (chain_node _ _ _ _ _ _ Hc Hin) as (y & z & (n & Hb & _) & _). congruence. }
  split; [done|].
  destruct (set_elem_run irq h' t x q item Hok' Hn) as (h1 & E1 & Hok1 & Hl1 & Hn1 & Hw1).
  destruct (set_next_run irq h1 t item q 0 Hok1 Hn1) as (h2 & E2 & Hok2 & Hl2 & Hn2 & Hw2).
  exists h1, h2. split_and!; try done.
  - constructor; try done. exists x0. eapply chain_ext; [|exact Hc]. intros b y z Hb Hbn.
    apply (keeps_store h1 h2 t item q (lst :: ns) Hok1 Hn1 Hl2); try done; [intros a _; apply Hw2|].
    apply (keeps_store h' h1 t x q (lst :: ns) Hok' Hn Hl1); try done; [intros a Ha _; by apply Hw1|].
    by apply Hkeep.
  - intros b n Hb _. destruct (HU b n Hb ltac:(apply not_elem_of_nil)) as [Hb' Hwb].
    assert (Hbt : b <> t) by congruence. split; [by rewrite Hl2, Hl1|]. intros a Ha.
    destruct Hn as [(m & Hm & H8) _].
    destruct (live_disjoint h' b n t m Hok' Hb' Hm Hbt); rewrite Hw2, Hw1 by lia; by apply Hwb.
Qed.

Lemma NoDup_insert (pre post : list Z) t : NoDup (pre ++ post) -> t ∉ pre ++ post -> NoDup (pre ++ t :: post).
Proof.
  intros Hnd Hnt. rewrite <- Permutation_middle. by apply list.NoDup_cons.
Qed.

(** Linking the new node in after node [l]. *)
Lemma insert_run irq h lst ns xs t item pre l post : list_rep h lst ns xs -> node h t item 0 ->
  t ∉ lst :: ns -> lst :: ns = pre ++ l :: post -> zlen xs + 1 < 2147483647 ->
  exists h' ns', (n ← next l; _ ← set_next t n; _ ← set_next l t; mret 0) (irq, h) = Ok (0, (irq, h'))
    /\ list_rep h' lst ns' (take (length pre) xs ++ item :: drop (length pre) xs)
    /\ (forall b, b ∈ ns' -> b ∈ ns \/ b = t) /\ untouched h h' (t :: lst :: ns).
Proof.
  intros [Hok [x0 Hc] Hnd Hsm] Ht Hnt E Hs.
  pose proof Hc as Hc'. rewrite E in Hc'.
  destruct (chain_split _ _ _ _ _ _ _ Hc') as (xs1 & y & xs2 & q & Ex & Hlen & H1 & H2 & H3).
  st_step (next_run irq h l y q Hok H2).
  destruct (set_next_run irq h t item 0 q Hok Ht) as (h1 & E1 & Hok1 & Hl1 & Hn1 & Hw1). st_step E1.
  assert (Hk : keeps h h1 (lst :: ns)).
  { apply (keeps_store h h1 t item 0 (lst :: ns) Hok Ht Hl1); [|done]. intros a _. apply Hw1. }
  assert (HU1 : untouched h h1 [t]).
  { apply (untouched_store h h1 t item 0 Hok Ht Hl1). intros a _. apply Hw1. }
  rewrite E in Hk, Hnd, Hnt.
  assert (Hl : l ∈ pre ++ l :: post) by (apply elem_of_app; right; apply list_elem_of_here).
  destruct (link_run irq h1 lst pre l post xs1 y xs2 q t item) as (h2 & E2 & Hok2 & Hl2 & HU2 & Hc2); try done.
  { eapply chain_ext; [|exact H1]. intros b u v Hb. apply Hk, elem_of_app. by left. }
  { by apply Hk. }
  { eapply chain_ext; [|exact H3]. intros b u v Hb. apply Hk, elem_of_app. right. by apply list_elem_of_further. }
  st_step E2.
  assert (Ens : exists ns', lst :: ns' = pre ++ l :: t :: post).
  { destruct pre as [|p0 pre]; cbn in E |- *; injection E as <- _; by eexists. }
  destruct Ens as [ns' Ens]. exists h2, ns'. split; [done|]. split;
    [|split; [|apply (untouched_trans h h1 h2); [apply (untouched_sub h h1 [t])|apply (untouched_sub h1 h2 [l])]; try done;
      intros b -> %list_elem_of_singleton; [apply list_elem_of_here|apply list_elem_of_further; by rewrite E]]].
  2: { intros b Hb. destruct (decide (b = t)) as [->|Hbt]; [by right|left].
    assert (Hnd' : NoDup (lst :: ns')).
    { rewrite Ens, cons_middle, app_assoc. apply NoDup_insert; rewrite <- app_assoc; done. }
    assert (Hb' : b ∈ lst :: ns) by (rewrite E; apply (list_elem_of_further _ lst) in Hb;
      rewrite Ens, elem_of_app, !elem_of_cons in Hb; rewrite elem_of_app, elem_of_cons; tauto).
    apply list.NoDup_cons in Hnd' as [Hn' _]. apply elem_of_cons in Hb' as [->|?]; done. }
  constructor; [done|exists x0| |].
  - rewrite Ens. assert (Exs : x0 :: take (length pre) xs ++ item :: drop (length pre) xs = xs1 ++ y :: item :: xs2).
    { change (x0 :: take (length pre) xs ++ item :: drop (length pre) xs)
        with (take (S (length pre)) (x0 :: xs) ++ item :: drop (S (length pre)) (x0 :: xs)).
      assert (Ex' : x0 :: xs = (xs1 ++ [y]) ++ xs2) by (rewrite Ex, <- app_assoc; done).
      rewrite Ex', Hlen.
      replace (S (length xs1)) with (length (xs1 ++ [y])) by (rewrite length_app; cbn; lia).
      rewrite take_app_length, drop_app_length. by rewrite <- app_assoc. }
    by rewrite Exs.
  - rewrite Ens, cons_middle, app_assoc. apply NoDup_insert; rewrite <- app_assoc; done.
  - unfold zlen in *. rewrite length_app. cbn [length]. rewrite length_take, length_drop. lia.
Qed.

Lemma unlink_run irq h p pre l t post xs1 y z xs2 q :
  heap_ok h -> length pre = length xs1 -> chain h p pre xs1 l -> node h l y t -> node h t z q ->
  chain h q post xs2 0 -> NoDup (pre ++ l :: t :: post) ->
  exists h', (n ← next t; _ ← set_next l n; _ ← hf_free t; mret 0) (irq, h) = Ok (0, (irq, h'))
    /\ heap_ok h' /\ untouched h h' [l; t] /\ chain h' p (pre ++ l :: post) (xs1 ++ y :: xs2) 0.
Proof.
  intros Hok Hlen H1 H2 Ht H3 Hnd. st_step (next_run irq h t z q Hok Ht).
  destruct (set_next_run irq h l y t q Hok H2) as (h1 & E1 & Hok1 & Hl1 & Hn1 & Hw1). st_step E1.
  assert (Hw1' : forall a, a <> l -> a <> l + 4 -> heap_word h1 a = heap_word h a) by (intros a _; apply Hw1).
  pose proof Ht as [(nt & Hnt & H8) _].
  assert (Hnt1 : heap_live h1 !! t = Some nt) by by rewrite Hl1.
  destruct (free_spec irq h1 t nt Hok1 Hnt1) as (h2 & E2 & Hok2 & Hl2). st_step E2.
  assert (HU2 : untouched h1 h2 [t]).
  { intros b n Hb Hne. assert (b <> t) as Hbt by (intros ->; apply Hne, list_elem_of_here).
    assert (Hb2 : heap_live h2 !! b = Some n) by (rewrite Hl2; by rewrite lookup_delete_ne).
    split; [done|]. intros a Ha. apply (free_frame irq h1 t nt h2 b n a Hok1 Hnt1 E2 Hb). done. }
  apply list.NoDup_app in Hnd as (_ & Hpre & Hnd2). apply list.NoDup_cons in Hnd2 as [Hl Hnd2].
  apply list.NoDup_cons in Hnd2 as [Htp _].
  assert (Hlt : l <> t) by (intros ->; apply Hl, list_elem_of_here).
  assert (K2 : forall ts, t ∉ ts -> keeps h1 h2 ts).
  { intros ts Hts. apply (untouched_keeps h1 h2 [t] ts HU2). intros b Hb ->%list_elem_of_singleton. done. }
  assert (K : forall ts, l ∉ ts -> t ∉ ts -> keeps h h2 ts).
  { intros ts Hlts Hts. apply (keeps_blocks_trans h h1 h2); [|by apply K2].
    by apply (keeps_store h h1 l y t ts Hok H2 Hl1). }
  exists h2. split_and!; [done|done| |].
  - apply (untouched_trans h h1 h2).
    + apply (untouched_sub h h1 [l]); [intros b -> %list_elem_of_singleton; apply list_elem_of_here|].
      by apply (untouched_store h h1 l y t).
    + apply (untouched_sub h1 h2 [t]); [|done].
      intros b -> %list_elem_of_singleton. apply list_elem_of_further, list_elem_of_here.
  - apply (chain_join h2 p pre l post xs1 y xs2 q 0); [done| | |].
    + eapply chain_ext; [|exact H1]. apply K.
      * intros Hin. apply (Hpre l Hin), list_elem_of_here.
      * intros Hin. apply (Hpre t Hin), list_elem_of_further, list_elem_of_here.
    + apply (K2 [l]); [|apply list_elem_of_here|done]. by intros ->%list_elem_of_singleton.
    + eapply chain_ext; [|exact H3]. apply K; [|done].
      intros Hin. by apply Hl, list_elem_of_further.
Qed.

(** Where [hf_list_remove] finds its node. *)
Lemma remove_walk irq h fuel ns : forall t x xs i pos, heap_ok h -> chain h t (t :: ns) (x :: xs) 0 ->
  (length ns < fuel)%nat -> 0 <= i -> i + zlen ns < 2147483647 ->
  if (i <=? pos) && (pos <? i + zlen ns) then
    exists pre l t1 post, t :: ns = pre ++ l :: t1 :: post /\ zlen pre = pos - i
      /\ remove_loop fuel t i pos (irq, h)
         = (n ← next t1; _ ← set_next l n; _ ← hf_free t1; mret 0) (irq, h)
  else remove_loop fuel t i pos (irq, h) = Ok (-1, (irq, h)).
Proof.
  revert ns. induction fuel as [|fuel IH]; intros ns t x xs i pos Hok [_ (q & Hq & Hc)] Hf Hi Hs; [lia|].
  cbn [remove_loop]. destruct ns as [|n ns], xs as [|z xs]; try done.
  - cbn in Hc. subst q. change (zlen (@nil Z)) with 0.
    destruct (Z.leb_spec i pos), (Z.ltb_spec pos (i + 0)); cbn [andb]; try lia;
      by st_step (next_run irq h t x 0 Hok Hq).
  - destruct Hc as [-> Hc]. pose proof Hc as (q2 & Hq2 & _). rewrite zlen_cons in *.
    pose proof (zlen_nonneg ns).
    destruct (Z.eqb_spec i pos) as [<-|Hne].
    + destruct (Z.leb_spec i i), (Z.ltb_spec i (i + (1 + zlen ns))); cbn [andb]; try lia.
      exists [], t, n, ns. split_and!; [done|change (zlen (@nil Z)) with 0; lia|].
      st_step (next_run irq h t x n Hok Hq). by rewrite (node_nz h n z q2 Hok Hq2).
    + specialize (IH ns n z xs (i + 1) pos Hok ltac:(by split) ltac:(cbn in Hf; lia) ltac:(lia) ltac:(lia)).
      destruct (Z.leb_spec i pos), (Z.ltb_spec pos (i + (1 + zlen ns))),
        (Z.leb_spec (i + 1) pos), (Z.ltb_spec pos (i + 1 + zlen ns)); cbn [andb] in *; try lia.
      1: destruct IH as (pre & l & t1 & post & E & Ep & Er); exists (t :: pre), l, t1, post;
         split_and!; [cbn; by rewrite E|rewrite zlen_cons; lia|rewrite <- Er].
      all: st_step (next_run irq h t x n Hok Hq); rewrite (node_nz h n z q2 Hok Hq2), i32_small by lia; done.
Qed.
End operations.

(** ** Refinement *)

(** A call on a list, and what it does to the sequence of elements. *)
Inductive list_op :=
  | Append (x : Z)
  | Insert (x pos : Z)
  | Remove (pos : Z)
  | Get (pos : Z)
  | SetAt (x pos : Z)
  | Count.

Definition list_call {H : Type} `{Allocator H} (fuel : nat) (lst : Z) (o : list_op) : ST (Z * H) Z :=
  match o with
  | Append x => hf_list_append fuel lst x
  | Insert x pos => hf_list_insert fuel lst x pos
  | Remove pos => hf_list_remove fuel lst pos
  | Get pos => hf_list_get fuel lst pos
  | SetAt x pos => hf_list_set fuel lst x pos
  | Count => hf_list_count fuel lst
  end.

(** An element is inserted after the first [pos] ones, at the end when there
    are fewer - and when [pos] is zero. *)
Definition insert_index (xs : list Z) (pos : Z) : nat :=
  Z.to_nat (if (0 <? pos) && (pos <=? zlen xs) then pos else zlen xs).

Definition list_spec (xs : list Z) (o : list_op) : Z * list Z :=
  match o with
  | Append x => (0, xs ++ [x])
  | Insert x pos => let k := insert_index xs pos in (0, take k xs ++ x :: drop k xs)
  | Remove pos =>
      if (0 <=? pos) && (pos <? zlen xs)
      then (0, take (Z.to_nat pos) xs ++ drop (S (Z.to_nat pos)) xs) else (-1, xs)
  | Get pos => (default 0 (zget xs pos), xs)
  | SetAt x pos => if (0 <=? pos) && (pos <? zlen xs) then (0, zset xs pos x) else (-1, xs)
  | Count => (zlen xs, xs)
  end.

Definition allocates (o : list_op) : bool :=
  match o with Append _ | Insert _ _ => true | _ => false end.

Section refinement.
Context {H : Type} {HA : Allocator H} {HL : AllocatorLaws H}.
Implicit Types (h : H) (t p q x : Z) (ns xs : list Z) (fuel : nat).

Lemma rep_zlen h lst ns xs : list_rep h lst ns xs -> zlen ns = zlen xs.
Proof. intros [_ [x0 Hc] _ _]. apply chain_length in Hc. injection Hc as Hc. unfold zlen. by rewrite Hc. Qed.

(** Nodes are old ones, or blocks that were free. *)
Definition new_nodes h ns ns' : Prop := forall t, t ∈ ns' -> t ∈ ns \/ heap_live h !! t = None.

Lemma new_nodes_same h ns : new_nodes h ns ns.
Proof. intros t Ht. by left. Qed.

(** What holds after a call, of the sequence it should have produced. *)
Definition call_result irq h lst ns xs (m : ST (Z * H) Z) (r : Z) xs' : Prop :=
  exists h' ns', m (irq, h) = Ok (r, (irq, h')) /\ new_nodes h ns ns' /\ list_rep h' lst ns' xs'
    /\ untouched h h' (lst :: ns).

Lemma append_run irq h lst ns xs x fuel : list_rep h lst ns xs -> (length ns < fuel)%nat ->
  zlen xs + 1 < 2147483647 ->
  call_result irq h lst ns xs (hf_list_append fuel lst x) 0 (xs ++ [x])
  \/ call_result irq h lst ns xs (hf_list_append fuel lst x) (-1) xs.
Proof.
  intros Hr Hf Hs. unfold call_result, hf_list_append.
  destruct (new_node_run irq h lst ns xs x Hr) as (t & h1 & E & [(-> & Hr1 & HU)|(Hz & Hnt & h2 & h3 & E2 & E3 & Hr3 & Hn & HU & Hfresh)]).
  { right. exists h1, ns. st_step E. split_and!; [done|apply new_nodes_same|done|].
    eapply untouched_sub; [|exact HU]. intros b Hb. by apply elem_of_nil in Hb. }
  left. st_step E. rewrite Hz. st_step E2. st_step E3.
  destruct Hr3 as [Hok3 [x0 Hc] Hnd Hsm].
  destruct (to_last_run irq h3 fuel ns lst x0 xs Hok3 Hc Hf) as (pre & l & El & Ew). st_step Ew.
  pose proof Hc as Hc'. rewrite El in Hc', Hnd, Hnt.
  destruct (chain_split _ _ _ _ _ _ _ Hc') as (xs1 & y & xs2 & q & Ex & Hlen & H1 & H2 & H3).
  destruct xs2; [|done]. cbn in H3. subst q.
  destruct (link_run irq h3 lst pre l [] xs1 y [] 0 t x Hok3 Hlen H1 H2 eq_refl Hn Hnd Hnt)
    as (h4 & E4 & Hok4 & _ & HU4 & Hc4). st_step E4.
  exists h4, (ns ++ [t]). split; [done|].
  assert (Ens : lst :: ns ++ [t] = pre ++ [l; t]) by (change (lst :: ns ++ [t]) with ((lst :: ns) ++ [t]); rewrite El, <- app_assoc; done).
  split; [intros b [Hb| -> %list_elem_of_singleton]%elem_of_app; [by left|by right]|].
  split; [constructor; [done|exists x0| |]|].
  - rewrite Ens. change (x0 :: xs ++ [x]) with ((x0 :: xs) ++ [x]). rewrite Ex, <- app_assoc. done.
  - rewrite Ens. change (pre ++ [l; t]) with (pre ++ [l] ++ [t]). rewrite app_assoc.
    rewrite <- (app_nil_r ((pre ++ [l]) ++ [t])), <- app_assoc. apply NoDup_insert; by rewrite app_nil_r.
  - unfold zlen in *. rewrite length_app. cbn [length]. lia.
  - apply (untouched_trans h h3 h4).
    + eapply untouched_sub; [|exact HU]. intros b Hb. by apply elem_of_nil in Hb.
    + eapply untouched_sub; [|exact HU4]. intros b -> %list_elem_of_singleton. rewrite El.
      apply elem_of_app. right. apply list_elem_of_here.
Qed.

Lemma insert_call_run irq h lst ns xs x pos fuel : list_rep h lst ns xs -> (length ns < fuel)%nat ->
  zlen xs + 1 < 2147483647 ->
  let k := insert_index xs pos in
  call_result irq h lst ns xs (hf_list_insert fuel lst x pos) 0 (take k xs ++ x :: drop k xs)
  \/ call_result irq h lst ns xs (hf_list_insert fuel lst x pos) (-1) xs.
Proof.
  intros Hr Hf Hs k. unfold call_result, hf_list_insert. pose proof (rep_zlen _ _ _ _ Hr) as Hz0.
  destruct (new_node_run irq h lst ns xs x Hr) as (t & h1 & E & [(-> & Hr1 & HU)|(Hz & Hnt & h2 & h3 & E2 & E3 & Hr3 & Hn & HU & Hfresh)]).
  { right. exists h1, ns. st_step E. split_and!; [done|apply new_nodes_same|done|].
    eapply untouched_sub; [|exact HU]. intros b Hb. by apply elem_of_nil in Hb. }
  left. st_step E. rewrite Hz. st_step E2. st_step E3.
  pose proof Hr3 as [Hok3 [x0 Hc] Hnd Hsm].
  destruct (to_pos_run irq h3 fuel ns lst x0 xs 0 pos Hok3 Hc Hf) as (pre & l & post & El & Ew & Ep); [lia|lia|].
  st_step Ew.
  destruct (insert_run irq h3 lst ns xs t x pre l post Hr3 Hn Hnt El Hs) as (h4 & ns' & E4 & Hr4 & Hnew & HU4).
  exists h4, ns'. split; [exact E4|]. split; [intros b Hb; destruct (Hnew b Hb) as [?| ->]; auto|]. split.
  - assert (Hk : k = length pre).
    { unfold k, insert_index. rewrite Z.add_0_l, Z.sub_0_r, Hz0 in Ep. rewrite <- Ep. unfold zlen. lia. }
    by rewrite Hk.
  - intros b n Hb Hne. destruct (HU b n Hb ltac:(apply not_elem_of_nil)) as [Hb3 W3].
    destruct (HU4 b n Hb3) as [Hb4 W4].
    { intros [->|Hin]%elem_of_cons; [congruence|done]. }
    split; [done|]. intros a Ha. by rewrite W4, W3.
Qed.

Lemma remove_run irq h lst ns xs pos fuel : list_rep h lst ns xs -> (length ns < fuel)%nat ->
  call_result irq h lst ns xs (hf_list_remove fuel lst pos)
    (list_spec xs (Remove pos)).1 (list_spec xs (Remove pos)).2.
Proof.
  intros Hr Hf. unfold call_result, hf_list_remove. pose proof (rep_zlen _ _ _ _ Hr) as Hz.
  pose proof Hr as [Hok [x0 Hc] Hnd Hsm].
  pose proof (remove_walk irq h fuel ns lst x0 xs 0 pos Hok Hc Hf ltac:(lia) ltac:(lia)) as W.
  cbn [list_spec]. rewrite <- Hz. rewrite Z.add_0_l in W.
  destruct ((0 <=? pos) && (pos <? zlen ns)) eqn:Hp; cbn [fst snd].
  2: { exists h, ns. split_and!; [done|apply new_nodes_same|done|]. by intros b n Hb _. }
  apply andb_prop in Hp as [Hp1 Hp2]. rewrite Z.sub_0_r in W.
  destruct W as (pre & l & t1 & post & El & Ep & ->). pose proof Hc as Hc'. rewrite El in Hc', Hnd.
  destruct (chain_split _ _ _ _ _ _ _ Hc') as (xs1 & y & xs2 & q & Ex & Hlen & H1 & H2 & H3).
  destruct xs2 as [|z xs2]; [done|]. destruct H3 as [-> (q2 & Hq2 & H3)].
  destruct (unlink_run irq h lst pre l t1 post xs1 y z xs2 q2 Hok Hlen H1 H2 Hq2 H3 Hnd)
    as (h' & E & Hok' & HU & Hc2).
  assert (Ens : exists ns', lst :: ns' = pre ++ l :: post).
  { destruct pre as [|p0 pre]; cbn in El |- *; injection El as <- _; by eexists. }
  destruct Ens as [ns' Ens]. exists h', ns'. split; [exact E|].
  assert (Hnd' : NoDup (lst :: ns')).
  { rewrite Ens. change (l :: t1 :: post) with ([l] ++ t1 :: post) in Hnd. rewrite app_assoc in Hnd.
    rewrite <- Permutation_middle, <- app_assoc in Hnd. by apply list.NoDup_cons in Hnd as [_ ?]. }
  split; [|split; [constructor; [done|exists x0|done|]|]].
  { intros b Hb. left. apply list.NoDup_cons in Hnd' as [Hn' _].
    assert (Hb' : b ∈ lst :: ns) by (rewrite El; apply (list_elem_of_further _ lst) in Hb;
      rewrite Ens, elem_of_app, elem_of_cons in Hb; rewrite elem_of_app, !elem_of_cons; tauto).
    apply elem_of_cons in Hb' as [->|?]; done. }
  - rewrite Ens.
    assert (Exs : x0 :: take (Z.to_nat pos) xs ++ drop (S (Z.to_nat pos)) xs = xs1 ++ y :: xs2).
    { change (x0 :: take (Z.to_nat pos) xs ++ drop (S (Z.to_nat pos)) xs)
        with (take (S (Z.to_nat pos)) (x0 :: xs) ++ drop (S (S (Z.to_nat pos))) (x0 :: xs)).
      assert (Hk : S (Z.to_nat pos) = length (xs1 ++ [y])) by (rewrite length_app; cbn; unfold zlen in Ep; lia).
      assert (Ex' : x0 :: xs = (xs1 ++ [y]) ++ z :: xs2) by (rewrite Ex, <- app_assoc; done).
      rewrite Ex', Hk. rewrite take_app_length.
      replace (S (length (xs1 ++ [y]))) with (length (xs1 ++ [y]) + 1)%nat by lia.
      rewrite <- drop_drop, drop_app_length. by rewrite <- app_assoc. }
    by rewrite Exs.
  - unfold zlen in *. rewrite length_app, length_take, length_drop. lia.
  - eapply untouched_sub; [|exact HU]. intros b [->|[->|Hb]%elem_of_cons]%elem_of_cons; [| |by apply elem_of_nil in Hb];
      rewrite El, elem_of_app; right; [apply list_elem_of_here|apply list_elem_of_further, list_elem_of_here].
Qed.

Lemma init_run irq h : heap_ok h ->
  exists r h', hf_list_init (irq, h) = Ok (r, (irq, h')) /\ heap_ok h' /\ untouched h h' []
    /\ (r = 0 \/ list_rep h' r [] []).
Proof.
  intros Hok. unfold hf_list_init. destruct (malloc_node irq h Hok) as (t & h1 & E & Hok1 & HU & Hcase).
  st_step E. destruct Hcase as [[-> _]|(Hz & Hf & _ & x & q & Hn)].
  { exists 0, h1. split_and!; [done|done|done|by left]. }
  rewrite Hz. unfold when. rewrite ST_bind_assoc.
  destruct (set_next_run irq h1 t x q 0 Hok1 Hn) as (h2 & E2 & Hok2 & Hl2 & Hn2 & Hw2). st_step E2.
  destruct (set_elem_run irq h2 t x 0 0 Hok2 Hn2) as (h3 & E3 & Hok3 & Hl3 & Hn3 & Hw3). st_step E3.
  exists t, h3. split; [done|]. split; [done|]. split; [|right; constructor; [done|exists 0| |]].
  - intros b n Hb _. destruct (HU b n Hb ltac:(apply not_elem_of_nil)) as [Hb' Hwb].
    assert (Hbt : b <> t) by congruence. split; [by rewrite Hl3, Hl2|]. intros a Ha.
    destruct Hn as [(m & Hm & H8) _].
    destruct (live_disjoint h1 b n t m Hok1 Hb' Hm Hbt); rewrite Hw3, Hw2 by lia; by apply Hwb.
  - split; [done|]. by exists 0.
  - apply NoDup_singleton.
  - done.
Qed.

Lemma set_run irq h lst ns xs x pos fuel : list_rep h lst ns xs -> (length ns < fuel)%nat ->
  call_result irq h lst ns xs (hf_list_set fuel lst x pos)
    (list_spec xs (SetAt x pos)).1 (list_spec xs (SetAt x pos)).2.
Proof.
  intros Hr Hf. unfold call_result, hf_list_set. pose proof (rep_zlen _ _ _ _ Hr) as Hz.
  pose proof Hr as [Hok [x0 Hc] Hnd Hsm].
  st_step (find_loop_run irq h fuel ns lst x0 xs 0 pos Hok Hc Hf ltac:(lia) ltac:(lia)).
  cbn [list_spec]. rewrite Z.sub_0_r.
  destruct ((0 <=? pos) && (pos <? zlen xs)) eqn:Hp; cbn [fst snd].
  2: { rewrite zget_None by (rewrite Hz; apply andb_false_iff in Hp as [Hp|Hp]; lia).
    exists h, ns. split_and!; [done|apply new_nodes_same|done|]. by intros b n Hb _. }
  apply andb_prop in Hp as [Hp1 Hp2].
  destruct (zget_is_Some ns pos) as [t Ht]; [lia|]. rewrite Ht. change (default 0 (Some t)) with t.
  assert (Hsplit : exists pre post, ns = pre ++ t :: post /\ zlen pre = pos).
  { unfold zget in Ht. destruct (Z.ltb_spec pos 0); [lia|].
    apply list_elem_of_split_length in Ht as (pre & post & -> & Hi). exists pre, post. split; [done|].
    unfold zlen. lia. }
  destruct Hsplit as (pre & post & -> & Hpre).
  destruct (chain_split h lst (lst :: pre) t post (x0 :: xs) 0 Hc) as (xs1 & y & xs2 & q & Ex & Hlen & H1 & H2 & H3).
  rewrite (node_nz h t y q Hok H2).
  destruct (set_elem_run irq h t y q x Hok H2) as (h' & E & Hok' & Hl & Hn & Hw). st_step E.
  assert (Hw' : forall a, a <> t -> a <> t + 4 -> heap_word h' a = heap_word h a) by (intros a Ha _; by apply Hw).
  exists h', (pre ++ t :: post). split; [done|]. split; [apply new_nodes_same|].
  change (lst :: pre ++ t :: post) with ((lst :: pre) ++ t :: post) in *.
  pose proof Hnd as Hnd'. apply list.NoDup_app in Hnd' as (_ & Hd & [Htp _]%list.NoDup_cons).
  assert (Htpre : t ∉ lst :: pre) by (intros Hin; apply (Hd t Hin), list_elem_of_here).
  destruct xs1 as [|z xs1]; [done|]. injection Ex as <- Ex.
  assert (Ez : zset xs pos x = xs1 ++ x :: xs2).
  { rewrite Ex. assert (Hpos : pos = zlen xs1) by (injection Hlen as Hlen; unfold zlen in *; lia).
    rewrite Hpos. unfold zset, zlen. destruct (Z.ltb_spec (Z.of_nat (length xs1)) 0); [lia|].
    rewrite Nat2Z.id, <- (Nat.add_0_r (length xs1)). by rewrite list.insert_app_r. }
  split; [constructor; [done|exists x0|done|by rewrite zset_zlen]|].
  - rewrite Ez. apply (chain_join h' lst (lst :: pre) t post (x0 :: xs1) x xs2 q 0 Hlen); [|done|].
    + eapply chain_ext; [|exact H1]. intros b u v Hb. by apply (keeps_store h h' t y q (lst :: pre)).
    + eapply chain_ext; [|exact H3]. intros b u v Hb. by apply (keeps_store h h' t y q post).
  - eapply untouched_sub; [|by apply (untouched_store h h' t y q)].
    intros b -> %list_elem_of_singleton. apply elem_of_app. right. apply list_elem_of_here.
Qed.

Lemma list_get_run irq h lst ns xs pos fuel : list_rep h lst ns xs -> (length ns < fuel)%nat ->
  hf_list_get fuel lst pos (irq, h) = Ok (default 0 (zget xs pos), (irq, h)).
Proof.
  intros Hr Hf. unfold hf_list_get. pose proof (rep_zlen _ _ _ _ Hr) as Hz.
  pose proof Hr as [Hok [x0 Hc] Hnd Hsm].
  st_step (find_loop_run irq h fuel ns lst x0 xs 0 pos Hok Hc Hf ltac:(lia) ltac:(lia)). rewrite Z.sub_0_r.
  destruct (zget ns pos) as [t|] eqn:Ht.
  2: { change (default 0 None) with 0. change (nz 0) with false. cbv iota. rewrite zget_None; [done|].
    destruct (Z.lt_ge_cases pos 0); [by left|]. right. rewrite <- Hz. unfold zget in Ht.
    destruct (Z.ltb_spec pos 0); [lia|]. apply lookup_ge_None in Ht. unfold zlen. lia. }
  change (default 0 (Some t)) with t. pose proof (zget_Some_range _ _ _ Ht).
  assert (Hsplit : exists pre post, ns = pre ++ t :: post /\ zlen pre = pos).
  { unfold zget in Ht. destruct (Z.ltb_spec pos 0); [lia|].
    apply list_elem_of_split_length in Ht as (pre & post & -> & Hi). exists pre, post. split; [done|].
    unfold zlen. lia. }
  destruct Hsplit as (pre & post & -> & Hpre).
  destruct (chain_split h lst (lst :: pre) t post (x0 :: xs) 0 Hc) as (xs1 & y & xs2 & q & Ex & Hlen & H1 & H2 & H3).
  rewrite (node_nz h t y q Hok H2). rewrite (elem_run irq h t y q H2).
  destruct xs1 as [|z xs1]; [done|]. injection Ex as <- ->. injection Hlen as Hlen.
  assert (Hpos : pos = zlen xs1) by (unfold zlen in *; lia).
  by rewrite Hpos, zget_app_r, Z.sub_diag, zget_cons_0 by lia.
Qed.
End refinement.

