(* ===== verification/Strings.v ===== *)
(** * C strings ([lib/libc/libc.c])

    A pointer to a string is the list of the bytes from it on; reading past the
    list faults.  A writing function takes the destination buffer and returns
    it; writing past it faults. *)

From S2P Require Import Prelude Words.

(** [strcmp] *)
Fixpoint strcmp (s1 s2 : list Z) : outcome Z :=
  match s1, s2 with
  | c :: s1', d :: s2' =>
      if c =? d then if c =? 0 then Ok 0 else strcmp s1' s2' else Ok (c - d)
  | _, _ => Fault
  end.

(** [strncpy]: the [n] bytes it writes. *)
Fixpoint strncpy_bytes (n : nat) (s2 : list Z) : outcome (list Z) :=
  match n with
  | O => Ok []
  | S n =>
      match s2 with
      | [] => Fault
      | c :: s2 =>
          if c =? 0 then Ok (replicate (S n) 0)
          else l ← strncpy_bytes n s2; Ok (c :: l)
      end
  end.
