(* ===== verification/Kernel.v ===== *)
(** * Kernel data ([sys/include/kernel.h], [sys/kernel/processor.c], [panic.c])

    The task and processor control blocks, the kernel's globals and the
    primitives every component uses: task control block accesses through an
    index, the three task queues, the interrupt status, the console log and
    the hardware layer's context words ([arch/mips/hf-risc/drivers/hal.c]).
    A [struct tcb_entry *] is an index into [krnl_tcb]. *)

From Stdlib Require Import String.
From S2P Require Import Prelude Words Mutex Malloc Alloc Queue.

#[global] Open Scope Z_scope.

(** Task states and error codes ([kernel.h], [ecodes.h], [panic.h]). *)
Definition TASK_IDLE : Z := 0.
Definition TASK_READY : Z := 1.
Definition TASK_RUNNING : Z := 2.
Definition TASK_BLOCKED : Z := 3.
Definition TASK_DELAYED : Z := 4.
Definition TASK_WAITING : Z := 5.

Definition ERR_OK : Z := 0.
Definition ERR_ERROR : Z := -1.
Definition ERR_INVALID_ID : Z := -100.
Definition ERR_INVALID_PARAMETER : Z := -101.
Definition ERR_EXCEED_MAX_NUM : Z := -103.
Definition ERR_OUT_OF_MEMORY : Z := -104.
Definition ERR_INVALID_NAME : Z := -105.

Definition PANIC_ABORTED : Z := 0.
Definition PANIC_GPF : Z := 1.
Definition PANIC_STACK_OVERFLOW : Z := 2.
Definition PANIC_NO_TASKS_LEFT : Z := 3.
Definition PANIC_OOM : Z := 4.
Definition PANIC_NO_TASKS_RUN : Z := 5.
Definition PANIC_NO_TASKS_RT : Z := 6.
Definition PANIC_NO_TASKS_DELAY : Z := 7.
Definition PANIC_UNKNOWN_TASK_STATE : Z := 8.
Definition PANIC_CANT_PLACE_RUN : Z := 9.
Definition PANIC_CANT_PLACE_DELAY : Z := 10.
Definition PANIC_CANT_PLACE_RT : Z := 11.
Definition PANIC_CANT_SWAP : Z := 12.
Definition PANIC_NUTS_SEM : Z := 13.

(** [MAX_TASKS] and [STACK_MAGIC] of the platform. *)
Definition MAX_TASKS : Z := 30.
Definition STACK_MAGIC : Z := 2953556995.

(** [struct tcb_entry]. *)
Record tcb_entry : Type := Tcb {
  t_id : Z;
  t_name : list Z;
  t_state : Z;
  t_priority : Z;
  t_priority_rem : Z;
  t_critical : Z;
  t_delay : Z;
  t_rtjobs : Z;
  t_bgjobs : Z;
  t_deadline_misses : Z;
  t_period : Z;
  t_capacity : Z;
  t_deadline : Z;
  t_capacity_rem : Z;
  t_deadline_rem : Z;
  t_context : list Z;
  t_ptask : Z;
  t_pstack : Z;
  t_stack_size : Z;
  t_other_data : Z;
}.

Definition set_id (v : Z) (t : tcb_entry) : tcb_entry :=
  Tcb v (t_name t) (t_state t) (t_priority t) (t_priority_rem t) (t_critical t) (t_delay t) (t_rtjobs t) (t_bgjobs t) (t_deadline_misses t) (t_period t) (t_capacity t) (t_deadline t) (t_capacity_rem t) (t_deadline_rem t) (t_context t) (t_ptask t) (t_pstack t) (t_stack_size t) (t_other_data t).
Definition set_name (v : list Z) (t : tcb_entry) : tcb_entry :=
  Tcb (t_id t) v (t_state t) (t_priority t) (t_priority_rem t) (t_critical t) (t_delay t) (t_rtjobs t) (t_bgjobs t) (t_deadline_misses t) (t_period t) (t_capacity t) (t_deadline t) (t_capacity_rem t) (t_deadline_rem t) (t_context t) (t_ptask t) (t_pstack t) (t_stack_size t) (t_other_data t).
Definition set_state (v : Z) (t : tcb_entry) : tcb_entry :=
  Tcb (t_id t) (t_name t) v (t_priority t) (t_priority_rem t) (t_critical t) (t_delay t) (t_rtjobs t) (t_bgjobs t) (t_deadline_misses t) (t_period t) (t_capacity t) (t_deadline t) (t_capacity_rem t) (t_deadline_rem t) (t_context t) (t_ptask t) (t_pstack t) (t_stack_size t) (t_other_data t).
Definition set_priority (v : Z) (t : tcb_entry) : tcb_entry :=
  Tcb (t_id t) (t_name t) (t_state t) v (t_priority_rem t) (t_critical t) (t_delay t) (t_rtjobs t) (t_bgjobs t) (t_deadline_misses t) (t_period t) (t_capacity t) (t_deadline t) (t_capacity_rem t) (t_deadline_rem t) (t_context t) (t_ptask t) (t_pstack t) (t_stack_size t) (t_other_data t).
Definition set_priority_rem (v : Z) (t : tcb_entry) : tcb_entry :=
  Tcb (t_id t) (t_name t) (t_state t) (t_priority t) v (t_critical t) (t_delay t) (t_rtjobs t) (t_bgjobs t) (t_deadline_misses t) (t_period t) (t_capacity t) (t_deadline t) (t_capacity_rem t) (t_deadline_rem t) (t_context t) (t_ptask t) (t_pstack t) (t_stack_size t) (t_other_data t).
Definition set_critical (v : Z) (t : tcb_entry) : tcb_entry :=
  Tcb (t_id t) (t_name t) (t_state t) (t_priority t) (t_priority_rem t) v (t_delay t) (t_rtjobs t) (t_bgjobs t) (t_deadline_misses t) (t_period t) (t_capacity t) (t_deadline t) (t_capacity_rem t) (t_deadline_rem t) (t_context t) (t_ptask t) (t_pstack t) (t_stack_size t) (t_other_data t).
Definition set_delay (v : Z) (t : tcb_entry) : tcb_entry :=
  Tcb (t_id t) (t_name t) (t_state t) (t_priority t) (t_priority_rem t) (t_critical t) v (t_rtjobs t) (t_bgjobs t) (t_deadline_misses t) (t_period t) (t_capacity t) (t_deadline t) (t_capacity_rem t) (t_deadline_rem t) (t_context t) (t_ptask t) (t_pstack t) (t_stack_size t) (t_other_data t).
Definition set_rtjobs (v : Z) (t : tcb_entry) : tcb_entry :=
  Tcb (t_id t) (t_name t) (t_state t) (t_priority t) (t_priority_rem t) (t_critical t) (t_delay t) v (t_bgjobs t) (t_deadline_misses t) (t_period t) (t_capacity t) (t_deadline t) (t_capacity_rem t) (t_deadline_rem t) (t_context t) (t_ptask t) (t_pstack t) (t_stack_size t) (t_other_data t).
Definition set_bgjobs (v : Z) (t : tcb_entry) : tcb_entry :=
  Tcb (t_id t) (t_name t) (t_state t) (t_priority t) (t_priority_rem t) (t_critical t) (t_delay t) (t_rtjobs t) v (t_deadline_misses t) (t_period t) (t_capacity t) (t_deadline t) (t_capacity_rem t) (t_deadline_rem t) (t_context t) (t_ptask t) (t_pstack t) (t_stack_size t) (t_other_data t).
Definition set_deadline_misses (v : Z) (t : tcb_entry) : tcb_entry :=
  Tcb (t_id t) (t_name t) (t_state t) (t_priority t) (t_priority_rem t) (t_critical t) (t_delay t) (t_rtjobs t) (t_bgjobs t) v (t_period t) (t_capacity t) (t_deadline t) (t_capacity_rem t) (t_deadline_rem t) (t_context t) (t_ptask t) (t_pstack t) (t_stack_size t) (t_other_data t).
Definition set_period (v : Z) (t : tcb_entry) : tcb_entry :=
  Tcb (t_id t) (t_name t) (t_state t) (t_priority t) (t_priority_rem t) (t_critical t) (t_delay t) (t_rtjobs t) (t_bgjobs t) (t_deadline_misses t) v (t_capacity t) (t_deadline t) (t_capacity_rem t) (t_deadline_rem t) (t_context t) (t_ptask t) (t_pstack t) (t_stack_size t) (t_other_data t).
Definition set_capacity (v : Z) (t : tcb_entry) : tcb_entry :=
  Tcb (t_id t) (t_name t) (t_state t) (t_priority t) (t_priority_rem t) (t_critical t) (t_delay t) (t_rtjobs t) (t_bgjobs t) (t_deadline_misses t) (t_period t) v (t_deadline t) (t_capacity_rem t) (t_deadline_rem t) (t_context t) (t_ptask t) (t_pstack t) (t_stack_size t) (t_other_data t).
Definition set_deadline (v : Z) (t : tcb_entry) : tcb_entry :=
  Tcb (t_id t) (t_name t) (t_state t) (t_priority t) (t_priority_rem t) (t_critical t) (t_delay t) (t_rtjobs t) (t_bgjobs t) (t_deadline_misses t) (t_period t) (t_capacity t) v (t_capacity_rem t) (t_deadline_rem t) (t_context t) (t_ptask t) (t_pstack t) (t_stack_size t) (t_other_data t).
Definition set_capacity_rem (v : Z) (t : tcb_entry) : tcb_entry :=
  Tcb (t_id t) (t_name t) (t_state t) (t_priority t) (t_priority_rem t) (t_critical t) (t_delay t) (t_rtjobs t) (t_bgjobs t) (t_deadline_misses t) (t_period t) (t_capacity t) (t_deadline t) v (t_deadline_rem t) (t_context t) (t_ptask t) (t_pstack t) (t_stack_size t) (t_other_data t).
Definition set_deadline_rem (v : Z) (t : tcb_entry) : tcb_entry :=
  Tcb (t_id t) (t_name t) (t_state t) (t_priority t) (t_priority_rem t) (t_critical t) (t_delay t) (t_rtjobs t) (t_bgjobs t) (t_deadline_misses t) (t_period t) (t_capacity t) (t_deadline t) (t_capacity_rem t) v (t_context t) (t_ptask t) (t_pstack t) (t_stack_size t) (t_other_data t).
Definition set_context (v : list Z) (t : tcb_entry) : tcb_entry :=
  Tcb (t_id t) (t_name t) (t_state t) (t_priority t) (t_priority_rem t) (t_critical t) (t_delay t) (t_rtjobs t) (t_bgjobs t) (t_deadline_misses t) (t_period t) (t_capacity t) (t_deadline t) (t_capacity_rem t) (t_deadline_rem t) v (t_ptask t) (t_pstack t) (t_stack_size t) (t_other_data t).
Definition set_ptask (v : Z) (t : tcb_entry) : tcb_entry :=
  Tcb (t_id t) (t_name t) (t_state t) (t_priority t) (t_priority_rem t) (t_critical t) (t_delay t) (t_rtjobs t) (t_bgjobs t) (t_deadline_misses t) (t_period t) (t_capacity t) (t_deadline t) (t_capacity_rem t) (t_deadline_rem t) (t_context t) v (t_pstack t) (t_stack_size t) (t_other_data t).
Definition set_pstack (v : Z) (t : tcb_entry) : tcb_entry :=
  Tcb (t_id t) (t_name t) (t_state t) (t_priority t) (t_priority_rem t) (t_critical t) (t_delay t) (t_rtjobs t) (t_bgjobs t) (t_deadline_misses t) (t_period t) (t_capacity t) (t_deadline t) (t_capacity_rem t) (t_deadline_rem t) (t_context t) (t_ptask t) v (t_stack_size t) (t_other_data t).
Definition set_stack_size (v : Z) (t : tcb_entry) : tcb_entry :=
  Tcb (t_id t) (t_name t) (t_state t) (t_priority t) (t_priority_rem t) (t_critical t) (t_delay t) (t_rtjobs t) (t_bgjobs t) (t_deadline_misses t) (t_period t) (t_capacity t) (t_deadline t) (t_capacity_rem t) (t_deadline_rem t) (t_context t) (t_ptask t) (t_pstack t) v (t_other_data t).
Definition set_other_data (v : Z) (t : tcb_entry) : tcb_entry :=
  Tcb (t_id t) (t_name t) (t_state t) (t_priority t) (t_priority_rem t) (t_critical t) (t_delay t) (t_rtjobs t) (t_bgjobs t) (t_deadline_misses t) (t_period t) (t_capacity t) (t_deadline t) (t_capacity_rem t) (t_deadline_rem t) (t_context t) (t_ptask t) (t_pstack t) (t_stack_size t) v.

(** The schedulers a [pcb_entry] may point to. *)
Inductive sched : Type := sched_rma_p | sched_rr_p | sched_lottery_p | sched_priorityrr_p.

(** [struct pcb_entry]. *)
Record pcb_entry : Type := Pcb {
  sched_rt : sched;
  sched_be : sched;
  coop_cswitch : Z;
  preempt_cswitch : Z;
  interrupts : Z;
  tick_time : Z;
}.

Definition set_sched_rt (v : sched) (p : pcb_entry) : pcb_entry :=
  Pcb v (sched_be p) (coop_cswitch p) (preempt_cswitch p) (interrupts p) (tick_time p).
Definition set_sched_be (v : sched) (p : pcb_entry) : pcb_entry :=
  Pcb (sched_rt p) v (coop_cswitch p) (preempt_cswitch p) (interrupts p) (tick_time p).
Definition set_coop_cswitch (v : Z) (p : pcb_entry) : pcb_entry :=
  Pcb (sched_rt p) (sched_be p) v (preempt_cswitch p) (interrupts p) (tick_time p).
Definition set_preempt_cswitch (v : Z) (p : pcb_entry) : pcb_entry :=
  Pcb (sched_rt p) (sched_be p) (coop_cswitch p) v (interrupts p) (tick_time p).
Definition set_interrupts (v : Z) (p : pcb_entry) : pcb_entry :=
  Pcb (sched_rt p) (sched_be p) (coop_cswitch p) (preempt_cswitch p) v (tick_time p).
Definition set_tick_time (v : Z) (p : pcb_entry) : pcb_entry :=
  Pcb (sched_rt p) (sched_be p) (coop_cswitch p) (preempt_cswitch p) (interrupts p) v.

(** An argument of [kprintf]: a number or the bytes of a string. *)
Inductive karg : Type := KInt (z : Z) | KStr (s : list Z).

(** The kernel's state: its globals, the heap, the processor's interrupt status,
    the messages printed, the stores made outside [krnl_tcb] (index, context
    word, value), the timer's [lastcount] and the seed of [random]. *)
Record kernel (H : Type) : Type := Kernel {
  krnl_tcb : list tcb_entry;
  krnl_pcb : pcb_entry;
  krnl_task : Z;
  krnl_tasks : Z;
  krnl_current_task : Z;
  krnl_schedule : Z;
  krnl_run_queue : queue Z;
  krnl_delay_queue : queue Z;
  krnl_rt_queue : queue Z;
  krnl_heap : H;
  irq_status : Z;
  klog : list (string * list karg);
  wild : list (Z * Z * Z);
  lastcount : Z;
  rand1 : Z;
}.
Arguments Kernel {H}.
Arguments krnl_tcb {H}.
Arguments krnl_pcb {H}.
Arguments krnl_task {H}.
Arguments krnl_tasks {H}.
Arguments krnl_current_task {H}.
Arguments krnl_schedule {H}.
Arguments krnl_run_queue {H}.
Arguments krnl_delay_queue {H}.
Arguments krnl_rt_queue {H}.
Arguments krnl_heap {H}.
Arguments irq_status {H}.
Arguments klog {H}.
Arguments wild {H}.
Arguments lastcount {H}.
Arguments rand1 {H}.

Definition with_krnl_tcb {H : Type} (v : list tcb_entry) (k : kernel H) : kernel H :=
  Kernel v (krnl_pcb k) (krnl_task k) (krnl_tasks k) (krnl_current_task k) (krnl_schedule k) (krnl_run_queue k) (krnl_delay_queue k) (krnl_rt_queue k) (krnl_heap k) (irq_status k) (klog k) (wild k) (lastcount k) (rand1 k).
Definition with_krnl_pcb {H : Type} (v : pcb_entry) (k : kernel H) : kernel H :=
  Kernel (krnl_tcb k) v (krnl_task k) (krnl_tasks k) (krnl_current_task k) (krnl_schedule k) (krnl_run_queue k) (krnl_delay_queue k) (krnl_rt_queue k) (krnl_heap k) (irq_status k) (klog k) (wild k) (lastcount k) (rand1 k).
Definition with_krnl_task {H : Type} (v : Z) (k : kernel H) : kernel H :=
  Kernel (krnl_tcb k) (krnl_pcb k) v (krnl_tasks k) (krnl_current_task k) (krnl_schedule k) (krnl_run_queue k) (krnl_delay_queue k) (krnl_rt_queue k) (krnl_heap k) (irq_status k) (klog k) (wild k) (lastcount k) (rand1 k).
Definition with_krnl_tasks {H : Type} (v : Z) (k : kernel H) : kernel H :=
  Kernel (krnl_tcb k) (krnl_pcb k) (krnl_task k) v (krnl_current_task k) (krnl_schedule k) (krnl_run_queue k) (krnl_delay_queue k) (krnl_rt_queue k) (krnl_heap k) (irq_status k) (klog k) (wild k) (lastcount k) (rand1 k).
Definition with_krnl_current_task {H : Type} (v : Z) (k : kernel H) : kernel H :=
  Kernel (krnl_tcb k) (krnl_pcb k) (krnl_task k) (krnl_tasks k) v (krnl_schedule k) (krnl_run_queue k) (krnl_delay_queue k) (krnl_rt_queue k) (krnl_heap k) (irq_status k) (klog k) (wild k) (lastcount k) (rand1 k).
Definition with_krnl_schedule {H : Type} (v : Z) (k : kernel H) : kernel H :=
  Kernel (krnl_tcb k) (krnl_pcb k) (krnl_task k) (krnl_tasks k) (krnl_current_task k) v (krnl_run_queue k) (krnl_delay_queue k) (krnl_rt_queue k) (krnl_heap k) (irq_status k) (klog k) (wild k) (lastcount k) (rand1 k).
Definition with_krnl_run_queue {H : Type} (v : queue Z) (k : kernel H) : kernel H :=
  Kernel (krnl_tcb k) (krnl_pcb k) (krnl_task k) (krnl_tasks k) (krnl_current_task k) (krnl_schedule k) v (krnl_delay_queue k) (krnl_rt_queue k) (krnl_heap k) (irq_status k) (klog k) (wild k) (lastcount k) (rand1 k).
Definition with_krnl_delay_queue {H : Type} (v : queue Z) (k : kernel H) : kernel H :=
  Kernel (krnl_tcb k) (krnl_pcb k) (krnl_task k) (krnl_tasks k) (krnl_current_task k) (krnl_schedule k) (krnl_run_queue k) v (krnl_rt_queue k) (krnl_heap k) (irq_status k) (klog k) (wild k) (lastcount k) (rand1 k).
Definition with_krnl_rt_queue {H : Type} (v : queue Z) (k : kernel H) : kernel H :=
  Kernel (krnl_tcb k) (krnl_pcb k) (krnl_task k) (krnl_tasks k) (krnl_current_task k) (krnl_schedule k) (krnl_run_queue k) (krnl_delay_queue k) v (krnl_heap k) (irq_status k) (klog k) (wild k) (lastcount k) (rand1 k).
Definition with_krnl_heap {H : Type} (v : H) (k : kernel H) : kernel H :=
  Kernel (krnl_tcb k) (krnl_pcb k) (krnl_task k) (krnl_tasks k) (krnl_current_task k) (krnl_schedule k) (krnl_run_queue k) (krnl_delay_queue k) (krnl_rt_queue k) v (irq_status k) (klog k) (wild k) (lastcount k) (rand1 k).
Definition with_irq_status {H : Type} (v : Z) (k : kernel H) : kernel H :=
  Kernel (krnl_tcb k) (krnl_pcb k) (krnl_task k) (krnl_tasks k) (krnl_current_task k) (krnl_schedule k) (krnl_run_queue k) (krnl_delay_queue k) (krnl_rt_queue k) (krnl_heap k) v (klog k) (wild k) (lastcount k) (rand1 k).
Definition with_klog {H : Type} (v : list (string * list karg)) (k : kernel H) : kernel H :=
  Kernel (krnl_tcb k) (krnl_pcb k) (krnl_task k) (krnl_tasks k) (krnl_current_task k) (krnl_schedule k) (krnl_run_queue k) (krnl_delay_queue k) (krnl_rt_queue k) (krnl_heap k) (irq_status k) v (wild k) (lastcount k) (rand1 k).
Definition with_wild {H : Type} (v : list (Z * Z * Z)) (k : kernel H) : kernel H :=
  Kernel (krnl_tcb k) (krnl_pcb k) (krnl_task k) (krnl_tasks k) (krnl_current_task k) (krnl_schedule k) (krnl_run_queue k) (krnl_delay_queue k) (krnl_rt_queue k) (krnl_heap k) (irq_status k) (klog k) v (lastcount k) (rand1 k).
Definition with_lastcount {H : Type} (v : Z) (k : kernel H) : kernel H :=
  Kernel (krnl_tcb k) (krnl_pcb k) (krnl_task k) (krnl_tasks k) (krnl_current_task k) (krnl_schedule k) (krnl_run_queue k) (krnl_delay_queue k) (krnl_rt_queue k) (krnl_heap k) (irq_status k) (klog k) (wild k) v (rand1 k).
Definition with_rand1 {H : Type} (v : Z) (k : kernel H) : kernel H :=
  Kernel (krnl_tcb k) (krnl_pcb k) (krnl_task k) (krnl_tasks k) (krnl_current_task k) (krnl_schedule k) (krnl_run_queue k) (krnl_delay_queue k) (krnl_rt_queue k) (krnl_heap k) (irq_status k) (klog k) (wild k) (lastcount k) v.

Section kernel.
Context {H : Type} {HA : Allocator H}.

Definition K : Type -> Type := ST (kernel H).

(** [krnl_tcb[i]], read and updated. *)
Definition tcb_get (i : Z) : K tcb_entry := fun k =>
  match zget (krnl_tcb k) i with Some t => Ok (t, k) | None => Fault end.
Definition tcb_mod (i : Z) (f : tcb_entry -> tcb_entry) : K unit := fun k =>
  match zget (krnl_tcb k) i with
  | Some t => Ok (tt, with_krnl_tcb (zset (krnl_tcb k) i (f t)) k)
  | None => Fault
  end.

(** [krnl_task->...]. *)
Definition cur_get : K tcb_entry := fun k => tcb_get (krnl_task k) k.
Definition cur_mod (f : tcb_entry -> tcb_entry) : K unit := fun k => tcb_mod (krnl_task k) f k.
Definition set_task (i : Z) : K unit := modify (with_krnl_task i).

(** A computation on one of the queues. *)
Inductive qname : Type := RUN | DELAY | RT.
Definition kqueue (n : qname) (k : kernel H) : queue Z :=
  match n with
  | RUN => krnl_run_queue k
  | DELAY => krnl_delay_queue k
  | RT => krnl_rt_queue k
  end.
Definition with_kqueue (n : qname) (q : queue Z) (k : kernel H) : kernel H :=
  match n with
  | RUN => with_krnl_run_queue q k
  | DELAY => with_krnl_delay_queue q k
  | RT => with_krnl_rt_queue q k
  end.
Definition on_queue {A : Type} (n : qname) (m : ST (queue Z) A) : K A := fun k =>
  match m (kqueue n k) with
  | Ok (a, q) => Ok (a, with_kqueue n q k)
  | Panic c => Panic c
  | Fault => Fault
  | Timeout => Timeout
  end.

(** A computation on the heap and the interrupt status. *)
Definition on_heap {A : Type} (m : ST (Z * H) A) : K A := fun k =>
  match m (irq_status k, krnl_heap k) with
  | Ok (a, (s, h)) => Ok (a, with_irq_status s (with_krnl_heap h k))
  | Panic c => Panic c
  | Fault => Fault
  | Timeout => Timeout
  end.
Definition _di : K Z := on_heap di.
Definition _ei (s : Z) : K unit := on_heap (ei s).

(** [kprintf]: the format and its arguments. *)
Definition kprintf (fmt : string) (args : list karg) : K unit :=
  modify (fun k => with_klog (klog k ++ [(fmt, args)]) k).

(** [panic]: interrupts off, the cause on the console, and the machine halts. *)
Definition panic_message (cause : Z) : string :=
  if cause =? PANIC_ABORTED then "execution aborted"
  else if cause =? PANIC_GPF then "general protection fault"
  else if cause =? PANIC_STACK_OVERFLOW then "stack overflow"
  else if cause =? 14 then "stack is corrupted"
  else if cause =? PANIC_NO_TASKS_LEFT then "no more tasks left to dispatch"
  else if cause =? PANIC_OOM then "out of memory"
  else if cause =? PANIC_NO_TASKS_RUN then "no tasks on run queue"
  else if cause =? PANIC_NO_TASKS_DELAY then "no tasks on delay queue"
  else if cause =? PANIC_NO_TASKS_RT then "no tasks on realtime queue"
  else if cause =? PANIC_UNKNOWN_TASK_STATE then "task in unknown state"
  else if cause =? PANIC_CANT_PLACE_RUN then "can't place task on run queue"
  else if cause =? PANIC_CANT_PLACE_DELAY then "can't place task on delay queue"
  else if cause =? PANIC_CANT_PLACE_RT then "can't place task on real time queue"
  else if cause =? PANIC_CANT_SWAP then "can't swap tasks on queue"
  else if cause =? PANIC_NUTS_SEM then "insane semaphore"
  else "unknown error".

Definition panic {A : Type} (cause : Z) : K A :=
  _ ← _di;
  c ← gets krnl_current_task;
  _ ← kprintf "\nKERNEL: panic [task %d] - " [KInt c];
  _ ← kprintf (panic_message cause) [];
  _ ← kprintf " -> system halted.\n" [];
  panic_st cause.

(** [_set_task_sp], [_get_task_sp], [_set_task_tp] of the hardware layer: words
    10 and 11 of a task's saved context.  A task id outside the array makes the
    store fall outside it. *)
Definition ctx_set (task w v : Z) : K unit := fun k =>
  match zget (krnl_tcb k) task with
  | Some t => tcb_mod task (set_context (zset (t_context t) w v)) k
  | None => Ok (tt, with_wild (wild k ++ [(task, w, v)]) k)
  end.
Definition _set_task_sp (task stack : Z) : K unit := ctx_set task 10 stack.
Definition _set_task_tp (task entry : Z) : K unit := ctx_set task 11 entry.
Definition _get_task_sp (task : Z) : K Z :=
  t ← tcb_get task; lift (aget (t_context t) 10).

(** [_timer_reset] when [_read_us()] returns [now]. *)
Definition _timer_reset (now : Z) : K unit :=
  modify (fun k => with_lastcount (u32 now)
    (with_krnl_pcb (set_tick_time (u32 (u32 now - lastcount k)) (krnl_pcb k)) k)).

(** ** Processor management ([processor.c]) *)

Definition hf_schedlock (lock : Z) : K unit :=
  if nz lock then modify (with_krnl_schedule 0) else modify (with_krnl_schedule 1).

Definition hf_freecpu : K Z :=
  gets (fun k => i32 (100 - foldl (fun s t =>
    if nz (t_ptask t) && negb (t_state t =? TASK_BLOCKED) && nz (t_period t)
    then i32 (s + cdiv (t_capacity t * 100) (t_period t)) else s) 0 (krnl_tcb k))).

(** The jobs counted for a task: realtime or background. *)
Definition jobs_of (t : tcb_entry) : Z :=
  if nz (t_period t) then t_rtjobs t else t_bgjobs t.

Definition cpuload_sum (l : list tcb_entry) : Z :=
  foldl (fun s t => if nz (t_ptask t) && negb (t_state t =? TASK_BLOCKED)
                    then i32 (s + jobs_of t) else s) 0 l.

Definition hf_cpuload (id : Z) : K Z :=
  s ← gets (fun k => cpuload_sum (krnl_tcb k));
  if id <? MAX_TASKS then
    t ← tcb_get id;
    if nz (t_ptask t) then
      if s =? 0 then fault_st
      else mret (i32 (u32 (jobs_of t * 100) / u32 s))
    else mret ERR_INVALID_ID
  else mret ERR_INVALID_ID.

Definition hf_freemem : K Z := gets (fun k => heap_avail (krnl_heap k)).
Definition hf_ticktime : K Z := gets (fun k => tick_time (krnl_pcb k)).
End kernel.

(** ** Stepping through computations *)

(** Run the computations at the head that always succeed. *)
Ltac st_run := unfold mbind, ST_bind, mret, ST_ret, gets, modify, when; cbn.

(** ** The queues as lists of task ids *)

Definition q_is (q : queue Z) (l : list Z) : Prop :=
  queue_rep q (Some <$> l) /\ q_capacity q = MAX_TASKS.


Lemma zget_fmap {A B : Type} (f : A -> B) l i : zget (f <$> l) i = f <$> zget l i.
Proof. unfold zget. destruct (i <? 0); [done|]. by rewrite list_lookup_fmap. Qed.

Lemma zset_fmap {A B : Type} (f : A -> B) l i x : zset (f <$> l) i (f x) = f <$> zset l i x.
Proof. unfold zset. destruct (i <? 0); [done|]. by rewrite list_fmap_insert. Qed.

Lemma zget_elem {A : Type} (l : list A) i x : zget l i = Some x -> x ∈ l.
Proof. unfold zget. destruct (i <? 0); [done|]. apply list_elem_of_lookup_2. Qed.

Lemma elem_zget {A : Type} (l : list A) x : x ∈ l -> exists i, zget l i = Some x.
Proof.
  intros [n Hn]%list_elem_of_lookup_1. exists (Z.of_nat n). unfold zget.
  destruct (Z.ltb_spec (Z.of_nat n) 0); [lia|]. by rewrite Nat2Z.id.
Qed.

Lemma q_is_addtail q l i : q_is q l -> zlen l < MAX_TASKS ->
  exists q', hf_queue_addtail (Some i) q = Ok (0, q') /\ q_is q' (l ++ [i]).
Proof.
  intros [R Hc] Hl. pose proof (addtail_spec q _ (Some i) R) as S.
  rewrite zlen_fmap, Hc in S. destruct (Z.eqb_spec (zlen l) MAX_TASKS); [lia|].
  destruct S as (q' & E & R' & Hs). exists q'. split; [done|]. split.
  - by rewrite fmap_app.
  - unfold q_capacity in *. lia.
Qed.

Lemma q_is_remhead q i l : q_is q (i :: l) ->
  exists q', hf_queue_remhead q = Ok (Some i, q') /\ q_is q' l.
Proof.
  intros [R Hc]. destruct (remhead_cons q _ _ R) as (q' & E & R' & Hs).
  exists q'. split; [done|]. split; [done|]. unfold q_capacity in *. lia.
Qed.

Lemma q_is_count q l : q_is q l -> hf_queue_count q = Ok (zlen l, q).
Proof. intros [R _]. rewrite (count_spec q _ R). by rewrite zlen_fmap. Qed.

Lemma q_is_get q l i : q_is q l -> 0 <= i -> hf_queue_get i q = Ok (zget l i, q).
Proof.
  intros [R _] Hi. rewrite (get_spec q _ i R Hi), zget_fmap. by destruct (zget l i).
Qed.

(** The list with two of its positions exchanged. *)
Definition zswap (l : list Z) (i j : Z) : list Z :=
  match zget l i, zget l j with
  | Some x, Some y => zset (zset l i y) j x
  | _, _ => l
  end.

Lemma q_is_swap q l i j : q_is q l -> 0 <= i < zlen l -> 0 <= j < zlen l ->
  exists q', hf_queue_swap i j q = Ok (0, q') /\ q_is q' (zswap l i j).
Proof.
  intros [R Hc] Hi Hj. pose proof (swap_spec q _ i j R ltac:(lia) ltac:(lia)) as S.
  rewrite zlen_fmap in S. destruct (Z.ltb_spec i (zlen l)), (Z.ltb_spec j (zlen l)); try lia.
  destruct S as (q' & E & R' & Hs). exists q'. split; [done|]. split.
  - destruct (zget_is_Some l i Hi) as [x Hx], (zget_is_Some l j Hj) as [y Hy].
    unfold zswap, list_swap in *. rewrite !zget_fmap, Hx, Hy in R'. cbn in R'.
    rewrite Hx, Hy, <- !zset_fmap. done.
  - unfold q_capacity in *. lia.
Qed.

Section facts.
Context {H : Type} {HA : Allocator H} {HL : AllocatorLaws H}.
Implicit Types k : kernel H.

Lemma kqueue_with n q k : kqueue n (with_kqueue n q k) = q.
Proof. by destruct n. Qed.

Lemma on_queue_Ok {A : Type} n (m : ST (queue Z) A) k a q :
  m (kqueue n k) = Ok (a, q) -> on_queue n m k = Ok (a, with_kqueue n q k).
Proof. unfold on_queue. by intros ->. Qed.

Lemma with_kqueue_id n k : with_kqueue n (kqueue n k) k = k.
Proof. by destruct n, k. Qed.

Lemma on_queue_read {A : Type} n (m : ST (queue Z) A) k a :
  m (kqueue n k) = Ok (a, kqueue n k) -> on_queue n m k = Ok (a, k).
Proof. intros E. rewrite (on_queue_Ok _ _ _ _ _ E). by rewrite with_kqueue_id. Qed.

Lemma on_heap_Ok {A : Type} (m : ST (Z * H) A) k a h :
  m (irq_status k, krnl_heap k) = Ok (a, (irq_status k, h)) ->
  on_heap m k = Ok (a, with_krnl_heap h k).
Proof. unfold on_heap. intros ->. by destruct k. Qed.

Lemma tcb_get_Ok i t k : zget (krnl_tcb k) i = Some t -> tcb_get i k = Ok (t, k).
Proof. unfold tcb_get. by intros ->. Qed.

Lemma tcb_mod_Ok i t f k : zget (krnl_tcb k) i = Some t ->
  tcb_mod i f k = Ok (tt, with_krnl_tcb (zset (krnl_tcb k) i (f t)) k).
Proof. unfold tcb_mod. by intros ->. Qed.

Lemma cur_get_Ok t k : zget (krnl_tcb k) (krnl_task k) = Some t -> cur_get k = Ok (t, k).
Proof. apply tcb_get_Ok. Qed.

Lemma cur_mod_Ok t f k : zget (krnl_tcb k) (krnl_task k) = Some t ->
  cur_mod f k = Ok (tt, with_krnl_tcb (zset (krnl_tcb k) (krnl_task k) (f t)) k).
Proof. apply tcb_mod_Ok. Qed.

Lemma panic_halts {A : Type} cause k : panic (A := A) cause k = Panic cause.
Proof. reflexivity. Qed.

(** ** The kernel's invariant *)

(** Tasks are the entries with an entry point; they are exactly the ids on the
    three queues, each on one queue only, background tasks on the run queue and
    realtime tasks on the realtime queue (a delayed task may be either).  The
    idle task is on the run queue, can run, and the priority scheduler can
    select it. *)
Definition prio_ok (t : tcb_entry) : Prop :=
  0 <= t_priority t < 256 /\ 0 <= t_priority_rem t < 256.

Record tcbs_ok (T : list tcb_entry) (rq dq tq : list Z) : Prop := {
  ok_len : zlen T = MAX_TASKS;
  ok_nodup : NoDup (rq ++ dq ++ tq);
  ok_range : forall i, i ∈ rq ++ dq ++ tq -> 0 <= i < MAX_TASKS;
  ok_live : forall i t, zget T i = Some t -> (t_ptask t <> 0 <-> i ∈ rq ++ dq ++ tq);
  ok_id : forall i t, zget T i = Some t -> i ∈ rq ++ dq ++ tq -> t_id t = i;
  ok_bg : forall i t, zget T i = Some t -> i ∈ rq -> t_period t = 0;
  ok_rt : forall i t, zget T i = Some t -> i ∈ tq -> t_period t <> 0;
  ok_ctx : forall i t, zget T i = Some t -> zlen (t_context t) = 20;
  ok_prio : forall i t, zget T i = Some t -> prio_ok t;
  ok_idle : 0 ∈ rq;
  ok_idle_runs : forall t, zget T 0 = Some t ->
    t_state t <> TASK_BLOCKED /\ t_priority t < 255 /\ t_priority_rem t < 255;
}.

(** Every task owns its stack, with the magic word at its bottom. *)
Record stacks_ok (T : list tcb_entry) (h : H) (all : list Z) : Prop := {
  st_heap : heap_ok h;
  st_live : forall i t, zget T i = Some t -> i ∈ all -> exists n,
    heap_live h !! t_pstack t = Some n /\ 4 <= n /\
    heap_word h (t_pstack t) = Some STACK_MAGIC;
  st_inj : forall i j t u, zget T i = Some t -> zget T j = Some u -> i ∈ all -> j ∈ all ->
    t_pstack t = t_pstack u -> i = j;
}.

Record kinv (k : kernel H) (rq dq tq : list Z) : Prop := {
  ki_tcbs : tcbs_ok (krnl_tcb k) rq dq tq;
  ki_run : q_is (krnl_run_queue k) rq;
  ki_delay : q_is (krnl_delay_queue k) dq;
  ki_rt : q_is (krnl_rt_queue k) tq;
  ki_count : krnl_tasks k = zlen (rq ++ dq ++ tq);
  ki_cur : krnl_current_task k ∈ rq ++ dq ++ tq;
  ki_sched : sched_rt (krnl_pcb k) = sched_rma_p /\ sched_be (krnl_pcb k) <> sched_rma_p;
  ki_stacks : stacks_ok (krnl_tcb k) (krnl_heap k) (rq ++ dq ++ tq);
}.

Lemma zlen_NoDup (l : list Z) n : NoDup l -> (forall i, i ∈ l -> 0 <= i < n) -> 0 <= n -> zlen l <= n.
Proof.
  intros Hd Hr Hn. unfold zlen.
  assert (length l <= length (seqZ 0 n))%nat as Hl.
  { apply submseteq_length, NoDup_submseteq; [done|].
    intros i Hi%Hr. apply elem_of_seqZ. lia. }
  rewrite length_seqZ in Hl. lia.
Qed.

Lemma ok_get T rq dq tq i : tcbs_ok T rq dq tq -> i ∈ rq ++ dq ++ tq ->
  exists t, zget T i = Some t.
Proof. intros [] Hi. apply zget_is_Some. rewrite ok_len0. by apply ok_range0. Qed.

Lemma ok_total T rq dq tq : tcbs_ok T rq dq tq -> zlen (rq ++ dq ++ tq) <= MAX_TASKS.
Proof. intros []. by apply zlen_NoDup. Qed.

(** Only the set of ids on each queue matters. *)
Lemma tcbs_ok_perm T rq dq tq rq' dq' tq' :
  rq ≡ₚ rq' -> dq ≡ₚ dq' -> tq ≡ₚ tq' -> tcbs_ok T rq dq tq -> tcbs_ok T rq' dq' tq'.
Proof.
  intros P1 P2 P3 []. assert (rq ++ dq ++ tq ≡ₚ rq' ++ dq' ++ tq') as P by by rewrite P1, P2, P3.
  split; try done.
  - by rewrite <- P.
  - intros i. by rewrite <- P; auto.
  - intros i t. rewrite <- P. auto.
  - intros i t. rewrite <- P. auto.
  - intros i t. rewrite <- P1. eauto.
  - intros i t. rewrite <- P3. eauto.
  - by rewrite <- P1.
Qed.

(** Tasks may move between the queues. *)
Lemma tcbs_ok_moved T rq dq tq rq' dq' tq' : tcbs_ok T rq dq tq ->
  rq' ++ dq' ++ tq' ≡ₚ rq ++ dq ++ tq ->
  (forall i t, zget T i = Some t -> i ∈ rq' -> t_period t = 0) ->
  (forall i t, zget T i = Some t -> i ∈ tq' -> t_period t <> 0) ->
  0 ∈ rq' -> tcbs_ok T rq' dq' tq'.
Proof.
  intros [] P Hb Hr Hi. split; try done.
  - by rewrite P.
  - intros i. rewrite P. auto.
  - intros i t. rewrite P. auto.
  - intros i t. rewrite P. auto.
Qed.

Lemma stacks_ok_perm T h all all' : all ≡ₚ all' -> stacks_ok T h all -> stacks_ok T h all'.
Proof.
  intros P []. split; [done| |].
  - intros i t. rewrite <- P. eauto.
  - intros i j t u. rewrite <- P. eauto.
Qed.

(** A change that keeps a task's identity. *)
Definition keeps_task (t u : tcb_entry) : Prop :=
  t_id u = t_id t /\ t_ptask u = t_ptask t /\ t_period u = t_period t /\
  t_pstack u = t_pstack t /\ zlen (t_context u) = zlen (t_context t) /\ (prio_ok t -> prio_ok u).

(** ... and the idle task runnable. *)
Definition keeps_idle (i : Z) (u : tcb_entry) : Prop :=
  i = 0 -> t_state u <> TASK_BLOCKED /\ t_priority u < 255 /\ t_priority_rem u < 255.

Lemma zget_zset_Some {A : Type} (l : list A) i j x y : zget (zset l i x) j = Some y ->
  (i = j /\ x = y /\ 0 <= i < zlen l) \/ (i <> j /\ zget l j = Some y).
Proof.
  destruct (decide (i = j)) as [<-|]; intros E.
  - left. assert (0 <= i < zlen l) as Hi.
    { rewrite <- (zset_zlen l i x). by eapply zget_Some_range. }
    rewrite zget_zset_eq in E by done. by injection E.
  - right. by rewrite zget_zset_ne in E.
Qed.

Lemma tcbs_ok_mod T rq dq tq i t u : tcbs_ok T rq dq tq -> zget T i = Some t ->
  keeps_task t u -> keeps_idle i u -> tcbs_ok (zset T i u) rq dq tq.
Proof.
  intros [] Ht (K1 & K2 & K3 & K4 & K5 & K6) KI. split; try done.
  - by rewrite zset_zlen.
  - intros j v [(<- & <- & _)|[_ Hv]]%zget_zset_Some; [|by apply ok_live0]. rewrite K2. by apply ok_live0.
  - intros j v [(<- & <- & _)|[_ Hv]]%zget_zset_Some; [|by apply ok_id0]. rewrite K1. by apply ok_id0.
  - intros j v [(<- & <- & _)|[_ Hv]]%zget_zset_Some; [|by eapply ok_bg0]. rewrite K3. by eapply ok_bg0.
  - intros j v [(<- & <- & _)|[_ Hv]]%zget_zset_Some; [|by eapply ok_rt0]. rewrite K3. by eapply ok_rt0.
  - intros j v [(<- & <- & _)|[_ Hv]]%zget_zset_Some; [rewrite K5|]; by eapply ok_ctx0.
  - intros j v [(<- & <- & _)|[_ Hv]]%zget_zset_Some; [apply K6|]; by eapply ok_prio0.
  - intros v [(-> & <- & _)|[_ Hv]]%zget_zset_Some; [by apply KI|by apply ok_idle_runs0].
Qed.

Lemma stacks_ok_mod T h all i t u : stacks_ok T h all -> zget T i = Some t ->
  keeps_task t u -> stacks_ok (zset T i u) h all.
Proof.
  intros [] Ht (_ & _ & _ & K4 & _). split; [done| |].
  - intros j v [(<- & <- & _)|[_ Hv]]%zget_zset_Some; [rewrite K4|]; by apply st_live0.
  - intros j l v w [(<- & <- & _)|[_ Hv]]%zget_zset_Some [(<- & <- & _)|[_ Hw]]%zget_zset_Some;
      rewrite ?K4; eauto.
Qed.

(** A heap in which the stacks are still allocated and hold their magic word. *)
Lemma stacks_ok_heap T h h' all : stacks_ok T h all -> heap_ok h' ->
  (forall i t n, zget T i = Some t -> i ∈ all -> heap_live h !! t_pstack t = Some n -> 4 <= n ->
     heap_live h' !! t_pstack t = Some n /\ heap_word h' (t_pstack t) = heap_word h (t_pstack t)) ->
  stacks_ok T h' all.
Proof.
  intros [] Hok Hf. split; [done| |done]. intros i t Ht Hi.
  destruct (st_live0 i t Ht Hi) as (n & L & Hn & W).
  destruct (Hf i t n Ht Hi L Hn) as [L' W']. exists n. by rewrite W'.
Qed.

Lemma kinv_mod k rq dq tq i t u : kinv k rq dq tq -> zget (krnl_tcb k) i = Some t ->
  keeps_task t u -> keeps_idle i u -> kinv (with_krnl_tcb (zset (krnl_tcb k) i u) k) rq dq tq.
Proof.
  intros [] Ht Hk Hi. split; cbn; try done.
  - by eapply tcbs_ok_mod.
  - by eapply stacks_ok_mod.
Qed.
End facts.
