(* ===== verification/Task.v ===== *)
(** * Task management ([sys/kernel/task.c])

    Every task primitive as a computation on the kernel's state.  The task
    pointer arguments are ids; a function pointer is its address. *)

From Stdlib Require Import String.
From S2P Require Import Prelude Words Mutex Malloc Alloc Queue Kernel Strings.

#[global] Open Scope Z_scope.

(** How a primitive that may switch tasks ends: it returns to its caller, or the
    context of task [i] is restored. *)
Inductive exit : Type := Returned | Switched (i : Z).

Section task.
Context {H : Type} {HA : Allocator H}.
(** What [krnl_tcb[i].ptask] reads for an [i] outside the array. *)
Variable beyond : Z -> Z.

Definition ptask_at (i : Z) : @K H Z := fun k =>
  match zget (krnl_tcb k) i with
  | Some t => Ok (t_ptask t, k)
  | None => Ok (beyond i, k)
  end.

Fixpoint hf_id_from (l : list tcb_entry) (name : list Z) : outcome Z :=
  match l with
  | [] => Ok ERR_INVALID_NAME
  | t :: l =>
      if nz (t_ptask t) then
        c ← strcmp (t_name t) name;
        if c =? 0 then Ok (t_id t) else hf_id_from l name
      else hf_id_from l name
  end.
Definition hf_id (name : list Z) : @K H Z := fun k =>
  lift (hf_id_from (krnl_tcb k) name) k.

(** Reads of [krnl_tcb[id]] guarded by [id < MAX_TASKS] and [ptask]. *)
Definition with_task {A : Type} (id : Z) (f : tcb_entry -> A) (none : A) : @K H A :=
  if id <? MAX_TASKS then
    t ← tcb_get id;
    if nz (t_ptask t) then mret (f t) else mret none
  else mret none.

Definition hf_name (id : Z) : @K H (option (list Z)) :=
  with_task id (fun t => Some (t_name t)) None.
Definition hf_selfid : @K H Z := t ← cur_get; mret (t_id t).
Definition hf_selfname : @K H (list Z) := t ← cur_get; mret (t_name t).
Definition hf_state (id : Z) : @K H Z := with_task id t_state ERR_INVALID_ID.
Definition hf_jobs (id : Z) : @K H Z :=
  with_task id (fun t => i32 (if nz (t_period t) then t_rtjobs t else t_bgjobs t)) ERR_INVALID_ID.
Definition hf_dlm (id : Z) : @K H Z :=
  with_task id (fun t => i32 (t_deadline_misses t)) ERR_INVALID_ID.

Definition hf_priorityset (id priority : Z) : @K H Z :=
  if id <? MAX_TASKS then
    t ← tcb_get id;
    if nz (t_ptask t) then
      if t_period t =? 0 then
        _ ← tcb_mod id (set_priority priority);
        _ ← tcb_mod id (set_priority_rem priority);
        mret ERR_OK
      else mret ERR_INVALID_ID
    else mret ERR_INVALID_ID
  else mret ERR_INVALID_ID.

Definition hf_priorityget (id : Z) : @K H Z :=
  if id <? MAX_TASKS then
    t ← tcb_get id;
    if nz (t_ptask t) then
      if t_period t =? 0 then mret (t_priority t) else mret ERR_INVALID_ID
    else mret ERR_INVALID_ID
  else mret ERR_INVALID_ID.

(** [while ((krnl_tcb[i].ptask != 0) && (i < MAX_TASKS)) i++;] *)
Fixpoint find_slot (fuel : nat) (i : Z) : @K H Z :=
  match fuel with
  | O => timeout_st
  | S fuel =>
      p ← ptask_at i;
      if nz p && (i <? MAX_TASKS) then find_slot fuel (i + 1) else mret i
  end.

(** The fields [hf_spawn] sets before the stack is allocated. *)
Definition spawn_init (i task period capacity deadline : Z) (name : list Z)
    (t : tcb_entry) : tcb_entry :=
  set_ptask task (set_deadline_misses 0 (set_bgjobs 0 (set_rtjobs 0
  (set_deadline_rem deadline (set_capacity_rem capacity (set_deadline deadline
  (set_capacity capacity (set_period period (set_delay 0 (set_priority_rem 100
  (set_priority 100 (set_state TASK_IDLE (set_name name (set_id i t)))))))))))))).

(** [krnl_task = &krnl_tcb[krnl_current_task]; _ei(status); return r;] *)
Definition back_to_current {A : Type} (status : Z) (r : A) : @K H A :=
  c ← gets krnl_current_task;
  _ ← set_task c;
  _ ← _ei status;
  mret r.

(** The new task's entry [i]: its fields, its stack and its saved context; the
    stack's address is returned. *)
Definition spawn_setup (i task period capacity deadline : Z) (name : list Z) (stack_size : Z) : @K H Z :=
  _ ← cur_mod (spawn_init i task period capacity deadline name);
  _ ← cur_mod (set_stack_size stack_size);
  p ← on_heap (hf_malloc stack_size);
  _ ← cur_mod (set_pstack p);
  _ ← _set_task_sp i (u32 (p + (stack_size - 4)));
  _ ← _set_task_tp i task;
  mret p.

(** The stack's magic word, the message and the queue of the new task. *)
Definition spawn_place (i task period capacity deadline : Z) (name : list Z) (stack_size p : Z) : @K H Z :=
  _ ← on_heap (heap_store p STACK_MAGIC);
  sp ← _get_task_sp i;
  _ ← kprintf "\nKERNEL: [%s], id: %d, p:%d, c:%d, d:%d, addr: %x, sp: %x, ss: %d bytes"
        [KStr name; KInt i; KInt period; KInt capacity; KInt deadline; KInt task;
         KInt sp; KInt stack_size];
  _ ← (if nz period then
         e ← on_queue RT (hf_queue_addtail (Some i));
         when (nz e) (panic PANIC_CANT_PLACE_RT)
       else
         e ← on_queue RUN (hf_queue_addtail (Some i));
         when (nz e) (panic PANIC_CANT_PLACE_RUN));
  mret i.

(** No memory for the stack: the entry is given up. *)
Definition spawn_undo : @K H Z :=
  _ ← cur_mod (set_ptask 0);
  _ ← modify (fun k => with_krnl_tasks (u16 (krnl_tasks k - 1)) k);
  _ ← kprintf "\nKERNEL: task not added (out of memory)" [];
  mret ERR_OUT_OF_MEMORY.

Definition hf_spawn (task period capacity deadline : Z) (name : list Z) (stack_size : Z) : @K H Z :=
  if (period <? capacity) || (deadline <? capacity) then mret ERR_INVALID_PARAMETER
  else
    status ← _di;
    i ← find_slot 32 0;
    if i =? MAX_TASKS then
      _ ← kprintf "\nKERNEL: task not added - MAX_TASKS: %d" [KInt MAX_TASKS];
      _ ← _ei status;
      mret ERR_EXCEED_MAX_NUM
    else
      _ ← modify (fun k => with_krnl_tasks (u16 (krnl_tasks k + 1)) k);
      _ ← set_task i;
      nm ← lift (strncpy_bytes 20 name);
      let stack_size := Z.shiftl (Z.shiftr (u32 (stack_size + 3)) 2) 2 in
      p ← spawn_setup i task period capacity deadline nm stack_size;
      r ← (if nz p then spawn_place i task period capacity deadline nm stack_size p
           else spawn_undo);
      back_to_current status r.

(** [_context_restore(krnl_task->task_context, 1)] resumes the task with
    interrupts on. *)
Definition _context_restore : @K H exit :=
  i ← gets krnl_task;
  _ ← on_heap (interrupt_set 1);
  mret (Switched i).

(** [krnl_task->pstack[0] != STACK_MAGIC] *)
Definition check_stack : @K H unit :=
  t ← cur_get;
  w ← on_heap (heap_load (t_pstack t));
  when (negb (w =? STACK_MAGIC)) (panic PANIC_STACK_OVERFLOW).

(** [if (krnl_task->state == TASK_RUNNING) krnl_task->state = TASK_READY;] *)
Definition running_to_ready : @K H unit :=
  t ← cur_get;
  when (t_state t =? TASK_RUNNING) (cur_mod (set_state TASK_READY)).

(** [hf_yield] from [_context_save] on, which returns [rc]: 0 when the context
    has just been saved, 1 when the task is resumed.  [sched_be] is the best
    effort scheduler of the processor control block. *)
Definition hf_yield_from (sched_be : @K H Z) (status rc : Z) : @K H exit :=
  if nz rc then _ ← _ei status; mret Returned
  else
    _ ← running_to_ready;
    _ ← check_stack;
    n ← gets krnl_tasks;
    if 0 <? n then
      id ← sched_be;
      _ ← modify (with_krnl_current_task (u16 id));
      _ ← cur_mod (set_state TASK_RUNNING);
      _ ← modify (fun k => with_krnl_pcb
            (set_coop_cswitch (u32 (coop_cswitch (krnl_pcb k) + 1)) (krnl_pcb k)) k);
      _context_restore
    else panic PANIC_NO_TASKS_LEFT.

Definition hf_yield (sched_be : @K H Z) : @K H exit :=
  status ← _di;
  c ← gets krnl_current_task;
  _ ← set_task c;
  hf_yield_from sched_be status 0.

(** The common beginning of [hf_block], [hf_resume], [hf_kill] and [hf_delay]:
    refuse the idle task and unknown ids, or go on with [krnl_task] at [id]. *)
Definition on_task {A : Type} (idle_msg : string) (err : A) (status id : Z) (m : @K H A) : @K H A :=
  if id =? 0 then
    _ ← kprintf idle_msg [];
    _ ← _ei status;
    mret err
  else
    _ ← set_task id;
    p ← ptask_at id;
    if (p =? 0) || (MAX_TASKS <=? id) then
      _ ← kprintf "\nKERNEL: task doesn't exist" [];
      back_to_current status err
    else m.

Definition hf_block (id : Z) : @K H Z :=
  status ← _di;
  on_task "\nKERNEL: can't block the idle task" ERR_INVALID_ID status id (
    t ← cur_get;
    if t_state t =? TASK_BLOCKED then
      _ ← kprintf "\nKERNEL: can't block an already blocked task" [];
      back_to_current status ERR_ERROR
    else
      _ ← cur_mod (set_state TASK_BLOCKED);
      back_to_current status ERR_OK).

Definition hf_resume (id : Z) : @K H Z :=
  status ← _di;
  on_task "\nKERNEL: can't resume the idle task" ERR_INVALID_ID status id (
    t ← cur_get;
    if negb (t_state t =? TASK_BLOCKED) then
      _ ← kprintf "\nKERNEL: can't resume a non blocked task" [];
      back_to_current status ERR_ERROR
    else
      _ ← cur_mod (set_state TASK_READY);
      back_to_current status ERR_OK).

(** [for (i = 0; i < k; i++) if (hf_queue_get(q, i) == krnl_task) break;] *)
Fixpoint find_queued (n : qname) (fuel : nat) (i k : Z) : @K H Z :=
  match fuel with
  | O => timeout_st
  | S fuel =>
      if i <? k then
        e ← on_queue n (hf_queue_get i);
        c ← gets krnl_task;
        if bool_decide (e = Some c) then mret i else find_queued n fuel (i + 1) k
      else mret i
  end.

(** [for (j = i; j > 0; j--) if (hf_queue_swap(q, j, j-1)) panic(PANIC_CANT_SWAP);] *)
Fixpoint swap_down (n : qname) (fuel : nat) (j : Z) : @K H unit :=
  match fuel with
  | O => timeout_st
  | S fuel =>
      if 0 <? j then
        e ← on_queue n (hf_queue_swap j (j - 1));
        _ ← when (nz e) (panic PANIC_CANT_SWAP);
        swap_down n fuel (j - 1)
      else mret tt
  end.

(** Bring [krnl_task] to the head of its queue and remove it. *)
Definition unqueue (n : qname) (no_tasks : Z) : @K H (option Z) :=
  k ← on_queue n hf_queue_count;
  i ← find_queued n (S (Z.to_nat k)) 0 k;
  _ ← when ((k =? 0) || (i =? k)) (panic no_tasks);
  _ ← swap_down n (S (Z.to_nat i)) i;
  on_queue n hf_queue_remhead.

Definition unqueue_current : @K H (option Z) :=
  t ← cur_get;
  if nz (t_period t) then unqueue RT PANIC_NO_TASKS_RT else unqueue RUN PANIC_NO_TASKS_RUN.

Definition hf_kill (sched_be : @K H Z) (id : Z) : @K H (Z * exit) :=
  status ← _di;
  on_task "\nKERNEL: can't kill the idle task" (ERR_INVALID_ID, Returned) status id (
    _ ← cur_mod (set_id 65535);
    _ ← cur_mod (set_ptask 0);
    t ← cur_get;
    _ ← on_heap (hf_free (t_pstack t));
    _ ← _set_task_sp (t_id t) 0;
    _ ← _set_task_tp (t_id t) 0;
    _ ← cur_mod (set_state TASK_IDLE);
    _ ← modify (fun k => with_krnl_tasks (u16 (krnl_tasks k - 1)) k);
    t2 ← unqueue_current;
    kt ← gets krnl_task;
    _ ← when (negb (bool_decide (t2 = Some kt))) (panic PANIC_UNKNOWN_TASK_STATE);
    c ← gets krnl_current_task;
    _ ← set_task c;
    n ← gets krnl_tasks;
    _ ← kprintf "\nKERNEL: task died, id: %d, tasks left: %d" [KInt id; KInt n];
    self ← hf_selfid;
    if self =? id then
      _ ← _ei status;
      e ← hf_yield sched_be;
      mret (ERR_OK, e)
    else
      _ ← _ei status;
      mret (ERR_OK, Returned)).

Definition hf_delay (id delay : Z) : @K H Z :=
  if delay =? 0 then mret ERR_ERROR
  else
    status ← _di;
    on_task "\nKERNEL: can't delay the idle task" ERR_INVALID_ID status id (
      t2 ← unqueue_current;
      _ ← cur_mod (set_state TASK_DELAYED);
      _ ← cur_mod (set_delay delay);
      e ← on_queue DELAY (hf_queue_addtail t2);
      _ ← when (nz e) (panic PANIC_CANT_PLACE_DELAY);
      back_to_current status ERR_OK).
End task.

(** ** Running the primitives *)

Section facts.
Context {H : Type} {HA : Allocator H} {HL : AllocatorLaws H}.
Variable beyond : Z -> Z.
Implicit Types k : kernel H.

Lemma di_run k : _di k = Ok (irq_status k, with_irq_status 0 k).
Proof. by destruct k. Qed.

Lemma ei_run s k : _ei s k = Ok (tt, with_irq_status s k).
Proof. by destruct k. Qed.

Lemma back_to_current_run {A : Type} s (r : A) k :
  back_to_current s r k = Ok (r, with_irq_status s (with_krnl_task (krnl_current_task k) k)).
Proof. by destruct k. Qed.

(** The task an id other than the idle task's refers to. *)
Definition task_lookup (T : list tcb_entry) (id : Z) : option tcb_entry :=
  if id =? 0 then None
  else match zget T id with
       | Some t => if nz (t_ptask t) then Some t else None
       | None => None
       end.

Lemma task_lookup_Some T id t : task_lookup T id = Some t ->
  id <> 0 /\ zget T id = Some t /\ t_ptask t <> 0.
Proof.
  unfold task_lookup. destruct (Z.eqb_spec id 0); [done|].
  destruct (zget T id) as [u|]; [|done]. destruct (nz (t_ptask u)) eqn:E; [|done].
  intros [= ->]. by apply nz_true in E.
Qed.

(** The state after a primitive that only touches task control blocks: the
    interrupt status is what it was. *)
Definition quiet (T : list tcb_entry) (k k' : kernel H) : Prop :=
  exists l c, k' = with_krnl_tcb T (with_krnl_task c (with_klog l k)).

Lemma quiet_intro T k k' : krnl_tcb k' = T ->
  krnl_pcb k' = krnl_pcb k ->
  krnl_tasks k' = krnl_tasks k ->
  krnl_current_task k' = krnl_current_task k ->
  krnl_schedule k' = krnl_schedule k ->
  krnl_run_queue k' = krnl_run_queue k ->
  krnl_delay_queue k' = krnl_delay_queue k ->
  krnl_rt_queue k' = krnl_rt_queue k ->
  krnl_heap k' = krnl_heap k ->
  irq_status k' = irq_status k ->
  wild k' = wild k ->
  lastcount k' = lastcount k ->
  rand1 k' = rand1 k -> quiet T k k'.
Proof.
  intros. exists (klog k'), (krnl_task k'). destruct k, k'; cbn in *. by subst.
Qed.

Lemma quiet_kinv T k k' rq dq tq : quiet T k k' ->
  kinv (with_krnl_tcb T k) rq dq tq -> kinv k' rq dq tq.
Proof. intros (l & c & ->) []. split; done. Qed.

(** [on_task] runs its continuation on the ids [task_lookup] finds, and otherwise
    reports an error and leaves the tasks alone. *)
Lemma on_task_run {A : Type} msg (err : A) status id m k :
  zlen (krnl_tcb k) = MAX_TASKS -> 0 <= id ->
  on_task beyond msg err status id m k =
    match task_lookup (krnl_tcb k) id with
    | Some _ => m (with_krnl_task id k)
    | None => Ok (err, with_irq_status status
        (if id =? 0 then with_klog (klog k ++ [(msg, [])]) k
         else with_krnl_task (krnl_current_task k)
           (with_klog (klog k ++ [("\nKERNEL: task doesn't exist"%string, [])]) k)))
    end.
Proof.
  intros Hl Hid. unfold on_task, task_lookup. destruct (Z.eqb_spec id 0) as [|Hne]; [by destruct k|].
  unfold set_task, modify, mbind, ST_bind, ptask_at. cbn.
  destruct (zget (krnl_tcb k) id) as [t|] eqn:E.
  - apply zget_Some_range in E. destruct (Z.leb_spec MAX_TASKS id); [lia|].
    rewrite orb_false_r. unfold nz. destruct (t_ptask t =? 0); [by destruct k|done].
  - destruct (Z.leb_spec MAX_TASKS id) as [|Hlt]; [rewrite orb_true_r; by destruct k|].
    destruct (zget_is_Some (krnl_tcb k) id) as [t Ht]; [lia|]. by rewrite E in Ht.
Qed.

(** What [hf_block] and [hf_resume] answer and do to the task control blocks. *)
Definition block_spec (T : list tcb_entry) (id : Z) : Z * list tcb_entry :=
  match task_lookup T id with
  | None => (ERR_INVALID_ID, T)
  | Some t => if t_state t =? TASK_BLOCKED then (ERR_ERROR, T)
              else (ERR_OK, zset T id (set_state TASK_BLOCKED t))
  end.
Definition resume_spec (T : list tcb_entry) (id : Z) : Z * list tcb_entry :=
  match task_lookup T id with
  | None => (ERR_INVALID_ID, T)
  | Some t => if t_state t =? TASK_BLOCKED then (ERR_OK, zset T id (set_state TASK_READY t))
              else (ERR_ERROR, T)
  end.

Lemma hf_block_run k id : zlen (krnl_tcb k) = MAX_TASKS -> 0 <= id ->
  exists k', hf_block beyond id k = Ok ((block_spec (krnl_tcb k) id).1, k') /\
    quiet (block_spec (krnl_tcb k) id).2 k k'.
Proof.
  intros Hl Hid. unfold hf_block, block_spec. st_step (di_run k).
  rewrite on_task_run by done. cbn [krnl_tcb with_irq_status].
  destruct (task_lookup (krnl_tcb k) id) as [t|] eqn:E.
  - apply task_lookup_Some in E as (_ & E & _). unfold cur_get.
    unfold mbind, ST_bind. cbn [krnl_task with_krnl_task].
    rewrite (tcb_get_Ok _ t) by done. destruct (t_state t =? TASK_BLOCKED).
    + eexists. split; [done|]. by apply quiet_intro.
    + unfold cur_mod. cbn [krnl_task with_krnl_task]. rewrite (tcb_mod_Ok _ t) by done.
      rewrite back_to_current_run. eexists. split; [done|]. by apply quiet_intro.
  - destruct (id =? 0); (eexists; split; [done|]; by apply quiet_intro).
Qed.

Lemma hf_resume_run k id : zlen (krnl_tcb k) = MAX_TASKS -> 0 <= id ->
  exists k', hf_resume beyond id k = Ok ((resume_spec (krnl_tcb k) id).1, k') /\
    quiet (resume_spec (krnl_tcb k) id).2 k k'.
Proof.
  intros Hl Hid. unfold hf_resume, resume_spec. st_step (di_run k).
  rewrite on_task_run by done. cbn [krnl_tcb with_irq_status].
  destruct (task_lookup (krnl_tcb k) id) as [t|] eqn:E.
  - apply task_lookup_Some in E as (_ & E & _). unfold cur_get.
    unfold mbind, ST_bind. cbn [krnl_task with_krnl_task].
    rewrite (tcb_get_Ok _ t) by done. destruct (t_state t =? TASK_BLOCKED); cbn [negb].
    + unfold cur_mod. cbn [krnl_task with_krnl_task]. rewrite (tcb_mod_Ok _ t) by done.
      rewrite back_to_current_run. eexists. split; [done|]. by apply quiet_intro.
    + eexists. split; [done|]. by apply quiet_intro.
  - destruct (id =? 0); (eexists; split; [done|]; by apply quiet_intro).
Qed.

Lemma hf_block_kinv k rq dq tq id : kinv k rq dq tq -> 0 <= id ->
  exists r k', hf_block beyond id k = Ok (r, k') /\ kinv k' rq dq tq.
Proof.
  intros I Hid. destruct (hf_block_run k id) as (k' & E & Q); [apply I|done|].
  eexists _, k'. split; [done|]. eapply quiet_kinv; [done|]. clear E Q.
  unfold block_spec. destruct (task_lookup (krnl_tcb k) id) as [t|] eqn:E; [|by destruct I].
  apply task_lookup_Some in E as (Hne & E & _).
  destruct (t_state t =? TASK_BLOCKED); cbn; [by destruct I|].
  by eapply kinv_mod.
Qed.

Lemma hf_resume_kinv k rq dq tq id : kinv k rq dq tq -> 0 <= id ->
  exists r k', hf_resume beyond id k = Ok (r, k') /\ kinv k' rq dq tq.
Proof.
  intros I Hid. destruct (hf_resume_run k id) as (k' & E & Q); [apply I|done|].
  eexists _, k'. split; [done|]. eapply quiet_kinv; [done|]. clear E Q.
  unfold resume_spec. destruct (task_lookup (krnl_tcb k) id) as [t|] eqn:E; [|by destruct I].
  apply task_lookup_Some in E as (Hne & E & _).
  destruct (t_state t =? TASK_BLOCKED); cbn; [|by destruct I].
  by eapply kinv_mod.
Qed.

(** *** Removing a task from its queue *)

Lemma zget_mid {A : Type} (pre : list A) x post : zget (pre ++ x :: post) (zlen pre) = Some x.
Proof. rewrite zget_app_r by lia. by rewrite Z.sub_diag. Qed.

Lemma zset_mid {A : Type} (pre : list A) x y post :
  zset (pre ++ x :: post) (zlen pre) y = pre ++ y :: post.
Proof.
  unfold zset, zlen. destruct (Z.ltb_spec (Z.of_nat (length pre)) 0); [lia|].
  rewrite Nat2Z.id, insert_app_r_alt by lia. by rewrite Nat.sub_diag.
Qed.

Lemma zswap_adjacent pre x i post :
  zswap (pre ++ x :: i :: post) (zlen pre + 1) (zlen pre) = pre ++ i :: x :: post.
Proof.
  assert (zlen pre + 1 = zlen (pre ++ [x])) as -> by (by rewrite zlen_app).
  unfold zswap. rewrite zget_mid.
  assert (pre ++ x :: i :: post = (pre ++ [x]) ++ i :: post) as E by by rewrite <- app_assoc.
  rewrite E, zget_mid, zset_mid, <- app_assoc. cbn. by rewrite zset_mid.
Qed.

Lemma find_queued_run n k pre i post : forall fuel a,
  q_is (kqueue n k) (pre ++ i :: post) -> krnl_task k = i -> i ∉ pre ->
  0 <= a <= zlen pre -> (Z.to_nat (zlen pre - a) < fuel)%nat ->
  find_queued n fuel a (zlen (pre ++ i :: post)) k = Ok (zlen pre, k).
Proof.
  intros fuel a Q Hk Hi. revert a. induction fuel as [|fuel IH]; intros a Ha Hf; [lia|].
  cbn [find_queued]. pose proof (zlen_nonneg post).
  destruct (Z.ltb_spec a (zlen (pre ++ i :: post))) as [_|Hge].
  2:{ rewrite zlen_app, zlen_cons in Hge. lia. }
  unfold mbind, ST_bind. rewrite (on_queue_read _ _ _ _ (q_is_get _ _ a Q ltac:(lia))).
  unfold gets. rewrite Hk. destruct (decide (a = zlen pre)) as [->|].
  - rewrite zget_mid. by rewrite bool_decide_true.
  - rewrite zget_app_l by lia. rewrite bool_decide_false.
    + apply IH; lia.
    + intros E. by apply Hi, (zget_elem _ a).
Qed.

Lemma swap_down_run n i post pre : forall k fuel,
  q_is (kqueue n k) (pre ++ i :: post) -> (length pre < fuel)%nat ->
  exists q', swap_down n fuel (zlen pre) k = Ok (tt, with_kqueue n q' k) /\
    q_is q' (i :: pre ++ post).
Proof.
  revert post. induction pre as [|x pre IH] using rev_ind; intros post k fuel Q Hf;
    (destruct fuel as [|fuel]; [lia|]); cbn [swap_down].
  - exists (kqueue n k). by rewrite with_kqueue_id.
  - rewrite length_app in Hf. cbn in Hf. rewrite <- app_assoc in Q. cbn in Q.
    pose proof (zlen_nonneg pre). pose proof (zlen_nonneg post).
    rewrite zlen_app. change (zlen [x]) with 1.
    destruct (Z.ltb_spec 0 (zlen pre + 1)); [|lia].
    replace (zlen pre + 1 - 1) with (zlen pre) by lia.
    destruct (q_is_swap _ _ (zlen pre + 1) (zlen pre) Q) as (q1 & E1 & Q1);
      [rewrite zlen_app, !zlen_cons; lia..|].
    rewrite zswap_adjacent in Q1.
    unfold mbind, ST_bind. rewrite (on_queue_Ok _ _ _ _ _ E1). cbn.
    destruct (IH (x :: post) (with_kqueue n q1 k) fuel) as (q2 & E2 & Q2);
      [by rewrite kqueue_with|lia|].
    rewrite E2. exists q2. split; [by destruct n|]. by rewrite <- app_assoc.
Qed.

(** [unqueue] takes the task out, and the others keep their order. *)
Lemma unqueue_run n c k pre i post :
  q_is (kqueue n k) (pre ++ i :: post) -> krnl_task k = i -> i ∉ pre ->
  exists q', unqueue n c k = Ok (Some i, with_kqueue n q' k) /\ q_is q' (pre ++ post).
Proof.
  intros Q Hk Hi. unfold unqueue, mbind, ST_bind.
  rewrite (on_queue_read _ _ _ _ (q_is_count _ _ Q)).
  pose proof (zlen_nonneg pre). pose proof (zlen_nonneg post).
  rewrite (find_queued_run n k pre i post) by
    (done || lia || (rewrite zlen_app, zlen_cons; lia)).
  destruct (Z.eqb_spec (zlen (pre ++ i :: post)) 0) as [E|_];
    [rewrite zlen_app, zlen_cons in E; lia|].
  destruct (Z.eqb_spec (zlen pre) (zlen (pre ++ i :: post))) as [E|_];
    [rewrite zlen_app, zlen_cons in E; lia|].
  cbn [orb when]. unfold mret, ST_ret.
  destruct (swap_down_run n i post pre k (S (Z.to_nat (zlen pre)))) as (q1 & E1 & Q1).
  { done. } { unfold zlen. lia. }
  rewrite E1. destruct (q_is_remhead _ _ _ Q1) as (q2 & E2 & Q2).
  erewrite on_queue_Ok by (rewrite kqueue_with; exact E2).
  exists q2. split; [by destruct n|done].
Qed.

(** A queue without a task. *)
Definition without (i : Z) (l : list Z) : list Z := filter (fun j => j <> i) l.

Lemma without_notin i l : i ∉ l -> without i l = l.
Proof.
  intros Hi. induction l as [|j l IH]; [done|]. unfold without in *.
  apply not_elem_of_cons in Hi as [Hne Hi]. rewrite list.filter_cons_True by done. by rewrite IH.
Qed.

Lemma without_mid i pre post : NoDup (pre ++ i :: post) ->
  (i ∉ pre) /\ without i (pre ++ i :: post) = pre ++ post.
Proof.
  intros (H1 & H2 & H3)%list.NoDup_app. apply list.NoDup_cons in H3 as [H3 _].
  assert (i ∉ pre) by (intros Hi; by apply (H2 i Hi), list_elem_of_here).
  split; [done|]. unfold without. rewrite list.filter_app, filter_cons_False by auto.
  fold (without i pre) (without i post). by rewrite !without_notin.
Qed.

Lemma elem_of_without i j l : j ∈ without i l <-> j ∈ l /\ j <> i.
Proof. unfold without. rewrite list_elem_of_filter. tauto. Qed.

Lemma without_perm i l : NoDup l -> i ∈ l -> l ≡ₚ i :: without i l.
Proof.
  intros Hd Hi. destruct (list_elem_of_split l i Hi) as (pre & post & ->).
  destruct (without_mid i pre post Hd) as [_ ->]. by rewrite Permutation_middle.
Qed.

Lemma unqueue_current_run k i t rq tq :
  krnl_task k = i -> zget (krnl_tcb k) i = Some t ->
  q_is (krnl_run_queue k) rq -> q_is (krnl_rt_queue k) tq -> NoDup rq -> NoDup tq ->
  (if nz (t_period t) then (i ∈ tq) /\ (i ∉ rq) else (i ∈ rq) /\ (i ∉ tq)) ->
  exists q1 q2, unqueue_current k = Ok (Some i, with_krnl_run_queue q1 (with_krnl_rt_queue q2 k)) /\
    q_is q1 (without i rq) /\ q_is q2 (without i tq).
Proof.
  intros Hk Ht Q1 Q2 D1 D2 Hin. unfold unqueue_current, cur_get, mbind, ST_bind.
  rewrite Hk, (tcb_get_Ok _ t) by done. destruct (nz (t_period t)); destruct Hin as [Hi Hn].
  - destruct (list_elem_of_split _ _ Hi) as (pre & post & ->).
    destruct (without_mid i pre post D2) as [Hp ->]. rewrite (without_notin i rq) by done.
    destruct (unqueue_run RT PANIC_NO_TASKS_RT k pre i post Q2 Hk Hp) as (q' & E & Q').
    exists (krnl_run_queue k), q'. rewrite E. by destruct k.
  - destruct (list_elem_of_split _ _ Hi) as (pre & post & ->).
    destruct (without_mid i pre post D1) as [Hp ->]. rewrite (without_notin i tq) by done.
    destruct (unqueue_run RUN PANIC_NO_TASKS_RUN k pre i post Q1 Hk Hp) as (q' & E & Q').
    exists q', (krnl_rt_queue k). rewrite E. by destruct k.
Qed.

(** Where a task that is not delayed is queued. *)
Lemma queued_where T rq dq tq i t : tcbs_ok T rq dq tq -> zget T i = Some t ->
  t_ptask t <> 0 -> i ∉ dq ->
  if nz (t_period t) then (i ∈ tq) /\ (i ∉ rq) else (i ∈ rq) /\ (i ∉ tq).
Proof.
  intros [] Ht Hp Hd. apply (ok_live i t Ht) in Hp.
  apply elem_of_app in Hp as [Hp|Hp]; [|apply elem_of_app in Hp as [Hp|Hp]; [done|]].
  - rewrite (ok_bg i t Ht Hp). cbn. split; [done|]. intros Hi. by apply (ok_rt i t Ht Hi), (ok_bg i).
  - pose proof (ok_rt i t Ht Hp) as Hne. apply nz_true in Hne as ->. split; [done|].
    intros Hi. by apply (ok_rt i t Ht Hp), (ok_bg i).
Qed.

Lemma NoDup3 (rq dq tq : list Z) : NoDup (rq ++ dq ++ tq) -> NoDup rq /\ NoDup dq /\ NoDup tq.
Proof. intros (? & _ & (? & _ & ?)%list.NoDup_app)%list.NoDup_app. done. Qed.

(** Removing one task from the three queues. *)
Lemma without_all_perm i rq dq tq : NoDup (rq ++ dq ++ tq) -> i ∉ dq -> i ∈ rq ++ tq ->
  rq ++ dq ++ tq ≡ₚ i :: without i rq ++ dq ++ without i tq.
Proof.
  intros Hd Hn Hi. pose proof (NoDup3 _ _ _ Hd) as (D1 & D2 & D3).
  apply elem_of_app in Hi as [Hi|Hi].
  - rewrite (without_notin i tq).
    + rewrite (without_perm i rq) at 1 by done. done.
    + intros Ht. apply list.NoDup_app in Hd as (_ & Hd & _). apply (Hd i Hi), elem_of_app. by right.
  - rewrite (without_notin i rq).
    + rewrite (without_perm i tq) at 1 by done. by rewrite !app_assoc, <- Permutation_middle.
    + intros Ht. apply list.NoDup_app in Hd as (_ & Hd & _). apply (Hd i Ht), elem_of_app. by right.
Qed.

Lemma where_elem (i : Z) (p : bool) (rq tq : list Z) :
  (if p then (i ∈ tq) /\ (i ∉ rq) else (i ∈ rq) /\ (i ∉ tq)) -> i ∈ rq ++ tq.
Proof. intros Hw. apply elem_of_app. destruct p; [right|left]; apply Hw. Qed.

Lemma hf_delay_run k rq dq tq id t delay : kinv k rq dq tq ->
  task_lookup (krnl_tcb k) id = Some t -> id ∉ dq -> delay <> 0 ->
  exists k', hf_delay beyond id delay k = Ok (ERR_OK, k') /\
    kinv k' (without id rq) (dq ++ [id]) (without id tq) /\
    krnl_tcb k' = zset (krnl_tcb k) id (set_delay delay (set_state TASK_DELAYED t)) /\
    irq_status k' = irq_status k.
Proof.
  intros [] L Hd Hz. pose proof L as (Hne & Ht & Hp)%task_lookup_Some.
  pose proof (queued_where _ _ _ _ _ _ ki_tcbs Ht Hp Hd) as Hw.
  pose proof (NoDup3 _ _ _ (ok_nodup _ _ _ _ ki_tcbs)) as (D1 & D2 & D3).
  pose proof (ok_total _ _ _ _ ki_tcbs) as Htot.
  pose proof (zget_Some_range _ _ _ Ht) as Hr.
  pose proof (without_all_perm id rq dq tq (ok_nodup _ _ _ _ ki_tcbs) Hd (where_elem _ _ _ _ Hw)) as P.
  unfold hf_delay. destruct (Z.eqb_spec delay 0); [done|]. st_step (di_run k).
  rewrite on_task_run; [|exact (ok_len _ _ _ _ ki_tcbs)|lia]. cbn [krnl_tcb with_irq_status]. rewrite L.
  destruct (unqueue_current_run (with_krnl_task id (with_irq_status 0 k)) id t rq tq)
    as (q1 & q2 & E & Q1 & Q2); try done.
  st_step E. set (k1 := with_krnl_run_queue _ _).
  st_step (cur_mod_Ok t (set_state TASK_DELAYED) k1 Ht). set (k2 := with_krnl_tcb _ _).
  assert (zget (krnl_tcb k2) id = Some (set_state TASK_DELAYED t)) as Ht2.
  { cbn. by rewrite zget_zset_eq. }
  st_step (cur_mod_Ok _ (set_delay delay) k2 Ht2). unfold mbind, ST_bind.
  destruct (q_is_addtail (krnl_delay_queue k) dq id ki_delay) as (q3 & E3 & Q3).
  { rewrite P, zlen_cons, !zlen_app in Htot.
    pose proof (zlen_nonneg (without id rq)). pose proof (zlen_nonneg (without id tq)). lia. }
  rewrite (on_queue_Ok DELAY _ _ 0 q3) by exact E3. change (nz 0) with false.
  unfold when, mret, ST_ret. rewrite back_to_current_run.
  eexists. split; [done|]. cbn. rewrite zset_zset.
  assert (without id rq ++ (dq ++ [id]) ++ without id tq ≡ₚ rq ++ dq ++ tq) as P'.
  { rewrite P, <- !app_assoc. cbn. by rewrite <- !Permutation_middle. }
  split; [|done]. split; cbn; try done.
  - apply (tcbs_ok_moved _ rq dq tq); [by eapply tcbs_ok_mod|done|..].
    + intros i u Hu Hi. apply elem_of_without in Hi as [Hi Hn].
      rewrite zget_zset_ne in Hu by done. by eapply (ok_bg _ _ _ _ ki_tcbs).
    + intros i u Hu Hi. apply elem_of_without in Hi as [Hi Hn].
      rewrite zget_zset_ne in Hu by done. by eapply (ok_rt _ _ _ _ ki_tcbs).
    + apply elem_of_without. split; [apply ki_tcbs|done].
  - by rewrite ki_count, P'.
  - by rewrite P'.
  - apply (stacks_ok_perm _ _ (rq ++ dq ++ tq)); [by rewrite P'|]. by eapply stacks_ok_mod.
Qed.

Lemma all_without i rq dq tq j : i ∉ dq ->
  j ∈ without i rq ++ dq ++ without i tq <-> j ∈ rq ++ dq ++ tq /\ j <> i.
Proof.
  intros Hd. rewrite !elem_of_app, !elem_of_without.
  split; [|tauto]. intros [?|[Hj|?]]; [tauto| |tauto]. split; [tauto|]. by intros ->.
Qed.

(** A task leaves the system. *)
Lemma tcbs_ok_remove T rq dq tq i t u : tcbs_ok T rq dq tq -> zget T i = Some t -> i <> 0 ->
  i ∉ dq -> i ∈ rq ++ tq -> t_ptask u = 0 -> zlen (t_context u) = 20 -> prio_ok u ->
  tcbs_ok (zset T i u) (without i rq) dq (without i tq).
Proof.
  intros I Ht Hi Hd Hin Hu Hc Hpr.
  pose proof (without_all_perm i rq dq tq (ok_nodup _ _ _ _ I) Hd Hin) as P. destruct I.
  split.
  - by rewrite zset_zlen.
  - rewrite P in ok_nodup. by apply list.NoDup_cons in ok_nodup as [_ ?].
  - intros j [Hj _]%(all_without i); auto.
  - intros j v [(<- & <- & _)|[Hne Hv]]%zget_zset_Some; rewrite (all_without i) by done.
    + split; [|tauto]. intros Hp. by destruct Hp.
    + rewrite (ok_live j v Hv). intuition congruence.
  - intros j v Hv [Hj Hne]%(all_without i); [|done].
    rewrite zget_zset_ne in Hv by done. by apply ok_id.
  - intros j v Hv [Hj Hne]%elem_of_without.
    rewrite zget_zset_ne in Hv by done. by eapply ok_bg.
  - intros j v Hv [Hj Hne]%elem_of_without.
    rewrite zget_zset_ne in Hv by done. by eapply ok_rt.
  - intros j v [(<- & <- & _)|[Hne Hv]]%zget_zset_Some; [done|by eapply ok_ctx].
  - intros j v [(<- & <- & _)|[Hne Hv]]%zget_zset_Some; [done|by eapply ok_prio].
  - by apply elem_of_without.
  - intros v Hv. rewrite zget_zset_ne in Hv by done. by apply ok_idle_runs.
Qed.

Lemma stacks_ok_sub T h all all' : stacks_ok T h all -> (forall i, i ∈ all' -> i ∈ all) ->
  stacks_ok T h all'.
Proof. intros [] Hs. split; [done|eauto|eauto]. Qed.

Lemma stacks_ok_other T h all i u : stacks_ok T h all -> i ∉ all -> stacks_ok (zset T i u) h all.
Proof.
  intros [] Hi. split; [done| |].
  - intros j v Hv Hj. assert (i <> j) by (by intros ->). rewrite zget_zset_ne in Hv by done. eauto.
  - intros j l v w Hv Hw Hj Hl. assert (i <> j) by (by intros ->). assert (i <> l) by (by intros ->).
    rewrite zget_zset_ne in Hv, Hw by done. eauto.
Qed.

(** The stack of a task that is not among [all] may be released. *)
Lemma stacks_ok_free irq T h h' all i t : stacks_ok T h all -> zget T i = Some t ->
  (forall j u, zget T j = Some u -> j ∈ all -> t_pstack u <> t_pstack t) ->
  is_Some (heap_live h !! t_pstack t) ->
  hf_free (t_pstack t) (irq, h) = Ok (tt, (irq, h')) -> heap_ok h' ->
  heap_live h' = delete (t_pstack t) (heap_live h) -> stacks_ok T h' all.
Proof.
  intros S Ht Hdiff [n L] E Hok Hl. apply (stacks_ok_heap T h); try done.
  intros j u m Hu Hj Lj Hm. split.
  - rewrite Hl, lookup_delete_ne; [done|]. intros Eq. by apply (Hdiff j u Hu Hj).
  - eapply free_frame; [apply S|exact L|exact E|exact Lj|lia].
Qed.

Lemma ctx_set_out task w v k : zget (krnl_tcb k) task = None ->
  ctx_set task w v k = Ok (tt, with_wild (wild k ++ [(task, w, v)]) k).
Proof. unfold ctx_set. by intros ->. Qed.

(** [hf_kill] of a task that is neither delayed nor running. *)
Lemma hf_kill_run be k rq dq tq id t : kinv k rq dq tq ->
  task_lookup (krnl_tcb k) id = Some t -> id ∉ dq -> id <> krnl_current_task k ->
  exists k', hf_kill beyond be id k = Ok ((ERR_OK, Returned), k') /\
    kinv k' (without id rq) dq (without id tq) /\
    krnl_tcb k' = zset (krnl_tcb k) id (set_state TASK_IDLE (set_ptask 0 (set_id 65535 t))) /\
    heap_live (krnl_heap k') = delete (t_pstack t) (heap_live (krnl_heap k)) /\
    irq_status k' = irq_status k /\
    wild k' = wild k ++ [(65535, 10, 0); (65535, 11, 0)].
Proof.
  intros [] L Hd Hcur. pose proof L as (Hne & Ht & Hp)%task_lookup_Some.
  pose proof (queued_where _ _ _ _ _ _ ki_tcbs Ht Hp Hd) as Hw.
  pose proof (ok_nodup _ _ _ _ ki_tcbs) as Hnd. pose proof (NoDup3 _ _ _ Hnd) as (D1 & D2 & D3).
  pose proof (zget_Some_range _ _ _ Ht) as Hr. pose proof (ok_len _ _ _ _ ki_tcbs) as Hlen.
  pose proof (where_elem _ _ _ _ Hw) as Hin.
  pose proof (without_all_perm id rq dq tq Hnd Hd Hin) as P.
  pose proof (ok_total _ _ _ _ ki_tcbs) as Htot.
  unfold hf_kill. st_step (di_run k).
  rewrite on_task_run; [|exact Hlen|lia]. cbn [krnl_tcb with_irq_status]. rewrite L.
  set (k1 := with_krnl_task id (with_irq_status 0 k)).
  st_step (cur_mod_Ok t (set_id 65535) k1 Ht). set (k2 := with_krnl_tcb _ _).
  assert (zget (krnl_tcb k2) id = Some (set_id 65535 t)) as Ht2 by (cbn; by rewrite zget_zset_eq).
  st_step (cur_mod_Ok _ (set_ptask 0) k2 Ht2). set (k3 := with_krnl_tcb _ _).
  assert (zget (krnl_tcb k3) id = Some (set_ptask 0 (set_id 65535 t))) as Ht3.
  { cbn. by rewrite zset_zset, zget_zset_eq. }
  st_step (cur_get_Ok _ k3 Ht3). cbn [t_pstack t_id set_ptask set_id].
  assert (id ∈ rq ++ dq ++ tq) as Hall by (apply (ok_live _ _ _ _ ki_tcbs id t); done).
  destruct (st_live _ _ _ ki_stacks id t Ht Hall) as (n & Ln & _ & _).
  destruct (free_spec 0 (krnl_heap k) _ n (st_heap _ _ _ ki_stacks) Ln) as (h' & Ef & Hok' & Hl').
  assert (on_heap (hf_free (t_pstack t)) k3 = Ok (tt, with_krnl_heap h' k3)) as E3.
  { apply on_heap_Ok. exact Ef. }
  st_step E3. unfold _set_task_sp, _set_task_tp. set (k4 := with_krnl_heap h' k3).
  assert (forall l, zlen l = 30 -> zget (A := tcb_entry) l 65535 = None) as Hout.
  { intros l Hl. apply zget_None. lia. }
  unfold MAX_TASKS in Hlen.
  st_step (ctx_set_out 65535 10 0 k4 ltac:(apply Hout; cbn; by rewrite !zset_zlen)).
  set (k5 := with_wild _ k4).
  st_step (ctx_set_out 65535 11 0 k5 ltac:(apply Hout; cbn; by rewrite !zset_zlen)).
  set (k6 := with_wild _ k5).
  st_step (cur_mod_Ok _ (set_state TASK_IDLE) k6 Ht3).
  unfold mbind at 1, ST_bind at 1, modify at 1.
  set (k7 := with_krnl_tasks _ _).
  assert (krnl_tcb k7 = zset (krnl_tcb k) id (set_state TASK_IDLE (set_ptask 0 (set_id 65535 t)))) as E7.
  { cbn. by rewrite !zset_zset. }
  destruct (unqueue_current_run k7 id (set_state TASK_IDLE (set_ptask 0 (set_id 65535 t))) rq tq)
    as (q1 & q2 & E & Q1 & Q2); try done.
  { rewrite E7. by apply zget_zset_eq. }
  st_step E. set (k8 := with_krnl_run_queue _ _). unfold mbind at 1, ST_bind at 1, gets at 1.
  change (krnl_task k8) with id. rewrite bool_decide_true by done. cbn [negb when].
  unfold mbind at 1, ST_bind at 1, mret at 1, ST_ret at 1.
  unfold mbind at 1, ST_bind at 1, gets at 1. change (krnl_current_task k8) with (krnl_current_task k).
  unfold mbind at 1, ST_bind at 1, set_task, modify at 1.
  unfold mbind at 1, ST_bind at 1, gets at 1.
  unfold mbind at 1, ST_bind at 1, kprintf, modify at 1. set (k9 := with_klog _ _).
  assert (krnl_tcb k9 = zset (krnl_tcb k) id (set_state TASK_IDLE (set_ptask 0 (set_id 65535 t)))) as E9 by done.
  destruct (ok_get _ _ _ _ _ ki_tcbs ki_cur) as [c Hc].
  assert (t_id c = krnl_current_task k) as Hid by by eapply (ok_id _ _ _ _ ki_tcbs).
  assert (hf_selfid k9 = Ok (t_id c, k9)) as Es.
  { unfold hf_selfid. st_step (cur_get_Ok c k9 ltac:(rewrite E9; cbn; by rewrite zget_zset_ne)). done. }
  st_step Es.
  destruct (Z.eqb_spec (t_id c) id); [congruence|].
  st_step (ei_run (irq_status k) k9). eexists. split; [done|].
  assert (forall j, j ∈ without id rq ++ dq ++ without id tq -> j ∈ rq ++ dq ++ tq /\ j <> id) as Hsub.
  { intros j. by apply all_without. }
  split; [|split; [exact E9|split_and!; [exact Hl'|done|cbn; by rewrite <- app_assoc]]].
  split; cbn [krnl_tcb krnl_run_queue krnl_delay_queue krnl_rt_queue krnl_tasks krnl_current_task
    krnl_pcb krnl_heap with_irq_status]; rewrite ?E9; try done.
  - eapply tcbs_ok_remove; try done; [exact (ok_ctx _ _ _ _ ki_tcbs id t Ht)|exact (ok_prio _ _ _ _ ki_tcbs id t Ht)].
  - change (u16 (krnl_tasks k - 1) = zlen (without id rq ++ dq ++ without id tq)).
    rewrite ki_count, P, zlen_cons in *. pose proof (zlen_nonneg (without id rq ++ dq ++ without id tq)).
    unfold MAX_TASKS in Htot. rewrite u16_small; lia.
  - apply all_without; done.
  - apply stacks_ok_other; [|by intros [_ ?]%Hsub].
    apply (stacks_ok_free 0 _ (krnl_heap k) _ _ id t); try done.
    + eapply stacks_ok_sub; [exact ki_stacks|]. apply Hsub.
    + intros j u Hu [Hj Hji]%Hsub Eq. apply Hji.
      by eapply (st_inj _ _ _ ki_stacks j id u t).
Qed.

(** *** Spawning *)

(** The first entry without an entry point. *)
Fixpoint first_free_slot (T : list tcb_entry) : Z :=
  match T with
  | [] => 0
  | t :: T => if t_ptask t =? 0 then 0 else 1 + first_free_slot T
  end.

Lemma first_free_slot_range T : 0 <= first_free_slot T <= zlen T.
Proof.
  induction T as [|t T IH]; cbn; [done|]. rewrite zlen_cons.
  destruct (t_ptask t =? 0); lia.
Qed.

Lemma first_free_slot_free T t : zget T (first_free_slot T) = Some t -> t_ptask t = 0.
Proof.
  induction T as [|u T IH]; cbn; [done|]. pose proof (first_free_slot_range T).
  destruct (Z.eqb_spec (t_ptask u) 0).
  - rewrite zget_cons_0. congruence.
  - rewrite zget_cons_S by lia. replace (1 + first_free_slot T - 1) with (first_free_slot T) by lia. done.
Qed.

Lemma find_slot_run k post : forall pre fuel, krnl_tcb k = pre ++ post -> zlen (krnl_tcb k) = MAX_TASKS ->
  (length post < fuel)%nat ->
  find_slot beyond fuel (zlen pre) k = Ok (zlen pre + first_free_slot post, k).
Proof.
  induction post as [|t post IH]; intros pre fuel E Hl Hf; (destruct fuel as [|fuel]; [lia|]);
    cbn [find_slot first_free_slot]; unfold mbind, ST_bind, ptask_at.
  - rewrite app_nil_r in E. rewrite E, zget_None by lia. rewrite E in Hl.
    destruct (Z.ltb_spec (zlen pre) MAX_TASKS); [lia|]. rewrite andb_false_r. by rewrite Z.add_0_r.
  - rewrite E, zget_mid. unfold nz. rewrite E, zlen_app, zlen_cons in Hl.
    pose proof (zlen_nonneg post).
    destruct (t_ptask t =? 0); cbn; [by rewrite Z.add_0_r|].
    destruct (Z.ltb_spec (zlen pre) MAX_TASKS); [|lia].
    replace (zlen pre + 1) with (zlen (pre ++ [t])) by by rewrite zlen_app.
    rewrite IH; [|by rewrite <- app_assoc|rewrite E, zlen_app, zlen_cons; lia|cbn in Hf; lia].
    rewrite zlen_app. change (zlen [t]) with 1. do 2 f_equal. lia.
Qed.

(** The queues after task [i] joined. *)
Definition joined_run (period i : Z) (rq : list Z) : list Z := if nz period then rq else rq ++ [i].
Definition joined_rt (period i : Z) (tq : list Z) : list Z := if nz period then tq ++ [i] else tq.

Lemma joined_perm period i rq dq tq :
  joined_run period i rq ++ dq ++ joined_rt period i tq ≡ₚ i :: rq ++ dq ++ tq.
Proof.
  unfold joined_run, joined_rt. destruct (nz period).
  - by rewrite !app_assoc, <- Permutation_cons_append.
  - rewrite <- app_assoc. simpl. by rewrite <- Permutation_middle.
Qed.

Lemma tcbs_ok_add T rq dq tq i u : tcbs_ok T rq dq tq -> i ∉ rq ++ dq ++ tq ->
  0 <= i < MAX_TASKS -> t_id u = i -> t_ptask u <> 0 -> zlen (t_context u) = 20 -> prio_ok u ->
  tcbs_ok (zset T i u) (joined_run (t_period u) i rq) dq (joined_rt (t_period u) i tq).
Proof.
  intros [] Hi Hr Hid Hp Hc Hpr. set (P := joined_perm (t_period u) i rq dq tq).
  assert (forall j, j ∈ joined_run (t_period u) i rq ++ dq ++ joined_rt (t_period u) i tq
    <-> j = i \/ j ∈ rq ++ dq ++ tq) as Hall by (intros j; by rewrite P, elem_of_cons).
  assert (0 <> i) by (intros <-; by apply Hi, elem_of_app; left).
  split.
  - by rewrite zset_zlen.
  - rewrite P. by constructor.
  - intros j [->|Hj]%Hall; auto.
  - intros j v [(<- & <- & _)|[Hne Hv]]%zget_zset_Some; rewrite Hall; [tauto|].
    rewrite (ok_live j v Hv). intuition congruence.
  - intros j v [(<- & <- & _)|[Hne Hv]]%zget_zset_Some [Hj|Hj]%Hall; try done.
    by apply ok_id.
  - unfold joined_run. destruct (nz (t_period u)) eqn:E;
      intros j v [(<- & <- & _)|[Hne Hv]]%zget_zset_Some Hj.
    + destruct Hi. apply elem_of_app. by left.
    + by eapply ok_bg.
    + by apply nz_false in E.
    + apply elem_of_app in Hj as [Hj|Hj%list_elem_of_singleton]; [by eapply ok_bg|congruence].
  - unfold joined_rt. destruct (nz (t_period u)) eqn:E;
      intros j v [(<- & <- & _)|[Hne Hv]]%zget_zset_Some Hj.
    + by apply nz_true in E.
    + apply elem_of_app in Hj as [Hj|Hj%list_elem_of_singleton]; [by eapply ok_rt|congruence].
    + destruct Hi. rewrite !elem_of_app. tauto.
    + by eapply ok_rt.
  - intros j v [(<- & <- & _)|[Hne Hv]]%zget_zset_Some; [done|by eapply ok_ctx].
  - intros j v [(<- & <- & _)|[Hne Hv]]%zget_zset_Some; [done|by eapply ok_prio].
  - unfold joined_run. destruct (nz _); [done|]. apply elem_of_app. by left.
  - intros v Hv. rewrite zget_zset_ne in Hv by done. by apply ok_idle_runs.
Qed.

(** An entry that is not a task may change. *)
Lemma tcbs_ok_dead T rq dq tq i u : tcbs_ok T rq dq tq -> i ∉ rq ++ dq ++ tq ->
  t_ptask u = 0 -> zlen (t_context u) = 20 -> prio_ok u -> tcbs_ok (zset T i u) rq dq tq.
Proof.
  intros [] Hi Hp Hc Hpr.
  assert (0 <> i) by (intros <-; by apply Hi, elem_of_app; left).
  assert (forall j v (Q : Prop), zget (zset T i u) j = Some v -> j ∈ rq ++ dq ++ tq ->
    (zget T j = Some v -> Q) -> Q) as Hz.
  { intros j v Q [(<- & <- & _)|[Hne Hv]]%zget_zset_Some; [done|auto]. }
  split; try done.
  - by rewrite zset_zlen.
  - intros j v [(<- & <- & _)|[Hne Hv]]%zget_zset_Some; [|auto]. split; [|done]. by intros Hn.
  - intros j v Hv Hj. apply (Hz j v _ Hv Hj). auto.
  - intros j v Hv Hj. apply (Hz j v _ Hv); [by apply elem_of_app; left|]. intros Hv'. by eapply ok_bg.
  - intros j v Hv Hj. apply (Hz j v _ Hv); [rewrite !elem_of_app; tauto|]. intros Hv'. by eapply ok_rt.
  - intros j v [(<- & <- & _)|[Hne Hv]]%zget_zset_Some; [done|by eapply ok_ctx].
  - intros j v [(<- & <- & _)|[Hne Hv]]%zget_zset_Some; [done|by eapply ok_prio].
  - intros v Hv. rewrite zget_zset_ne in Hv by done. by apply ok_idle_runs.
Qed.

(** A new task whose stack is a fresh block. *)
Lemma stacks_ok_add T h all i u n : stacks_ok T h all -> 0 <= i < zlen T -> i ∉ all ->
  heap_live h !! t_pstack u = Some n -> 4 <= n -> heap_word h (t_pstack u) = Some STACK_MAGIC ->
  (forall j t, zget T j = Some t -> j ∈ all -> t_pstack t <> t_pstack u) ->
  stacks_ok (zset T i u) h (i :: all).
Proof.
  intros [] Hi Hn L H4 W Hf. split; [done| |].
  - intros j v [(<- & <- & _)|[Hne Hv]]%zget_zset_Some; [eauto|].
    intros [->|Hj]%elem_of_cons; [done|eauto].
  - intros j l v w [(<- & <- & _)|[Hne Hv]]%zget_zset_Some [(<- & <- & _)|[Hne2 Hw]]%zget_zset_Some;
      rewrite ?elem_of_cons; intros Hj Hl Eq.
    + done.
    + destruct Hl as [->|Hl]; [done|]. by destruct (Hf l w Hw Hl).
    + destruct Hj as [->|Hj]; [done|]. by destruct (Hf j v Hv Hj).
    + destruct Hj as [->|Hj], Hl as [->|Hl]; try done. eauto.
Qed.

Lemma strncpy_bytes_len n l nm : strncpy_bytes n l = Ok nm -> length nm = n.
Proof.
  revert l nm. induction n as [|n IH]; intros l nm; cbn; [by intros [= <-]|].
  destruct l as [|c l]; [done|]. destruct (c =? 0).
  - intros [= <-]. cbn. by rewrite length_replicate.
  - unfold mbind, outcome_bind. destruct (strncpy_bytes n l) as [l'| | |] eqn:E; [|done..].
    intros [= <-]. cbn. f_equal. by eapply IH.
Qed.

(** Updates of one entry add up. *)
Lemma cur_mod_at T i u f k : krnl_task k = i -> 0 <= i < zlen T ->
  cur_mod f (with_krnl_tcb (zset T i u) k) = Ok (tt, with_krnl_tcb (zset T i (f u)) k).
Proof.
  intros <- Hr. rewrite (cur_mod_Ok u) by (cbn; by apply zget_zset_eq).
  cbn. by rewrite zset_zset.
Qed.

Lemma ctx_set_at T i u w v k : 0 <= i < zlen T ->
  ctx_set i w v (with_krnl_tcb (zset T i u) k) =
    Ok (tt, with_krnl_tcb (zset T i (set_context (zset (t_context u) w v) u)) k).
Proof.
  intros Hr. unfold ctx_set. cbn. rewrite zget_zset_eq by done.
  rewrite (tcb_mod_Ok i u) by (cbn; by apply zget_zset_eq). cbn. by rewrite zset_zset.
Qed.

Lemma on_heap_at {A : Type} (m : ST (Z * H) A) T k a h :
  m (irq_status k, krnl_heap k) = Ok (a, (irq_status k, h)) ->
  on_heap m (with_krnl_tcb T k) = Ok (a, with_krnl_tcb T (with_krnl_heap h k)).
Proof. intros E. by rewrite (on_heap_Ok m (with_krnl_tcb T k) a h). Qed.

(** The control block of a new task with its stack at [p]. *)
Definition spawn_tcb (i task period capacity deadline : Z) (nm : list Z) (sz p : Z)
    (t : tcb_entry) : tcb_entry :=
  let t := set_pstack p (set_stack_size sz (spawn_init i task period capacity deadline nm t)) in
  let t := set_context (zset (t_context t) 10 (u32 (p + (sz - 4)))) t in
  set_context (zset (t_context t) 11 task) t.

(** How [hf_spawn] can end. *)
Inductive spawn_result (k : kernel H) (rq dq tq : list Z) (task period capacity deadline : Z)
    (nm : list Z) (sz : Z) : Z -> kernel H -> Prop :=
| spawn_bad : period < capacity \/ deadline < capacity ->
    spawn_result k rq dq tq task period capacity deadline nm sz ERR_INVALID_PARAMETER k
| spawn_full k' : capacity <= period -> capacity <= deadline ->
    first_free_slot (krnl_tcb k) = MAX_TASKS -> quiet (krnl_tcb k) k k' ->
    spawn_result k rq dq tq task period capacity deadline nm sz ERR_EXCEED_MAX_NUM k'
| spawn_oom k' h' : capacity <= period -> capacity <= deadline -> kinv k' rq dq tq ->
    hf_malloc sz (0, krnl_heap k) = Ok (0, (0, h')) ->
    heap_live (krnl_heap k') = heap_live (krnl_heap k) ->
    spawn_result k rq dq tq task period capacity deadline nm sz ERR_OUT_OF_MEMORY k'
| spawn_ok i t p n k' : capacity <= period -> capacity <= deadline ->
    first_free_slot (krnl_tcb k) = i -> zget (krnl_tcb k) i = Some t ->
    krnl_tcb k' = zset (krnl_tcb k) i (spawn_tcb i task period capacity deadline nm sz p t) ->
    heap_live (krnl_heap k) !! p = None -> sz <= n ->
    heap_live (krnl_heap k') = <[p := n]> (heap_live (krnl_heap k)) ->
    kinv k' (joined_run period i rq) dq (joined_rt period i tq) ->
    spawn_result k rq dq tq task period capacity deadline nm sz i k'.

(** [krnl_tcb[i]] is free: what the rest of [hf_spawn] does. *)
Lemma spawn_slot k rq dq tq i t : kinv k rq dq tq -> first_free_slot (krnl_tcb k) = i ->
  i < MAX_TASKS -> zget (krnl_tcb k) i = Some t ->
  (i ∉ rq ++ dq ++ tq) /\ 0 <= i /\ zlen (rq ++ dq ++ tq) < MAX_TASKS.
Proof.
  intros [] Hs Hlt Ht. pose proof (first_free_slot_range (krnl_tcb k)) as Hr. rewrite Hs in Hr.
  assert (i ∉ rq ++ dq ++ tq) as Hn.
  { intros Hi. apply (ok_live _ _ _ _ ki_tcbs i t Ht) in Hi. apply Hi.
    apply (first_free_slot_free (krnl_tcb k)). by rewrite Hs. }
  split; [done|]. split; [lia|].
  assert (zlen (i :: rq ++ dq ++ tq) <= MAX_TASKS) as Hl.
  { apply zlen_NoDup; [|intros j [->|Hj]%elem_of_cons|done].
    - constructor; [done|apply ki_tcbs].
    - lia.
    - by apply (ok_range _ _ _ _ ki_tcbs). }
  rewrite zlen_cons in Hl. lia.
Qed.

Lemma stacks_ok_malloc irq T h h' all size p : stacks_ok T h all -> 0 <= size <= max_request ->
  hf_malloc size (irq, h) = Ok (p, (irq, h')) -> heap_ok h' ->
  (forall q n, heap_live h !! q = Some n -> heap_live h' !! q = Some n) -> stacks_ok T h' all.
Proof.
  intros S Hs E Hok Hl. apply (stacks_ok_heap T h); try done.
  intros i t n Ht Hi L H4. split; [by apply Hl|].
  eapply malloc_frame; [apply S|exact Hs|exact E|exact L|lia].
Qed.

(** The new task is appended to the queue its period selects. *)
Lemma join_queue k rq tq period i : q_is (krnl_run_queue k) rq -> q_is (krnl_rt_queue k) tq ->
  zlen rq + zlen tq < MAX_TASKS ->
  exists q1 q2, (if nz period then
      e ← on_queue RT (hf_queue_addtail (Some i)); when (nz e) (panic PANIC_CANT_PLACE_RT)
    else e ← on_queue RUN (hf_queue_addtail (Some i)); when (nz e) (panic PANIC_CANT_PLACE_RUN)) k
    = Ok (tt, with_krnl_run_queue q1 (with_krnl_rt_queue q2 k)) /\
    q_is q1 (joined_run period i rq) /\ q_is q2 (joined_rt period i tq).
Proof.
  intros Q1 Q2 Hl. pose proof (zlen_nonneg rq). pose proof (zlen_nonneg tq).
  unfold joined_run, joined_rt. destruct (nz period).
  - destruct (q_is_addtail _ _ i Q2) as (q' & E & Q); [lia|].
    exists (krnl_run_queue k), q'. unfold mbind, ST_bind.
    rewrite (on_queue_Ok RT _ k 0 q') by exact E. by destruct k.
  - destruct (q_is_addtail _ _ i Q1) as (q' & E & Q); [lia|].
    exists q', (krnl_rt_queue k). unfold mbind, ST_bind.
    rewrite (on_queue_Ok RUN _ k 0 q') by exact E. by destruct k.
Qed.

Lemma spawn_setup_run k i t task period capacity deadline nm sz p h' :
  krnl_task k = i -> zget (krnl_tcb k) i = Some t ->
  hf_malloc sz (irq_status k, krnl_heap k) = Ok (p, (irq_status k, h')) ->
  spawn_setup i task period capacity deadline nm sz k =
    Ok (p, with_krnl_tcb (zset (krnl_tcb k) i (spawn_tcb i task period capacity deadline nm sz p t))
             (with_krnl_heap h' k)).
Proof.
  intros Hk Ht Em. pose proof (zget_Some_range _ _ _ Ht) as Hr. unfold spawn_setup.
  st_step (cur_mod_Ok t (spawn_init i task period capacity deadline nm) k ltac:(by rewrite Hk)).
  rewrite Hk. st_step (cur_mod_at (krnl_tcb k) i (spawn_init i task period capacity deadline nm t)
    (set_stack_size sz) k Hk Hr).
  st_step (on_heap_at (hf_malloc sz) (zset (krnl_tcb k) i (set_stack_size sz
    (spawn_init i task period capacity deadline nm t))) k p h' Em).
  st_step (cur_mod_at (krnl_tcb k) i (set_stack_size sz
    (spawn_init i task period capacity deadline nm t)) (set_pstack p) (with_krnl_heap h' k) Hk Hr).
  unfold spawn_tcb, _set_task_sp, _set_task_tp.
  generalize (set_pstack p (set_stack_size sz (spawn_init i task period capacity deadline nm t))).
  intros u. st_step (ctx_set_at (krnl_tcb k) i u 10 (u32 (p + (sz - 4))) (with_krnl_heap h' k) Hr).
  cbv zeta. generalize (set_context (zset (t_context u) 10 (u32 (p + (sz - 4)))) u). intros v.
  st_step (ctx_set_at (krnl_tcb k) i v 11 task (with_krnl_heap h' k) Hr). done.
Qed.

Lemma spawn_place_run k rq tq i u task period capacity deadline nm sz p n :
  zget (krnl_tcb k) i = Some u -> zlen (t_context u) = 20 ->
  q_is (krnl_run_queue k) rq -> q_is (krnl_rt_queue k) tq -> zlen rq + zlen tq < MAX_TASKS ->
  heap_ok (krnl_heap k) -> heap_live (krnl_heap k) !! p = Some n -> 4 <= n ->
  exists h2 l q1 q2, spawn_place i task period capacity deadline nm sz p k = Ok (i,
      with_krnl_run_queue q1 (with_krnl_rt_queue q2 (with_klog l (with_krnl_heap h2 k)))) /\
    q_is q1 (joined_run period i rq) /\ q_is q2 (joined_rt period i tq) /\
    heap_ok h2 /\ heap_live h2 = heap_live (krnl_heap k) /\
    (forall b, heap_word h2 b = if b =? p then Some STACK_MAGIC else heap_word (krnl_heap k) b).
Proof.
  intros Ht Hc Q1 Q2 Hroom Hok L Hn.
  destruct (store_spec (irq_status k) (krnl_heap k) p n p STACK_MAGIC Hok L)
    as (h2 & Es & Hok2 & Hl2 & Hw2); [lia|lia|by rewrite Z.sub_diag|].
  unfold spawn_place. st_step (on_heap_Ok _ k tt h2 Es). set (k1 := with_krnl_heap h2 k).
  destruct (zget_is_Some (t_context u) 10) as [sp Hsp]; [lia|].
  assert (_get_task_sp i k1 = Ok (sp, k1)) as E1.
  { unfold _get_task_sp. st_step (tcb_get_Ok i u k1 Ht). unfold lift. by rewrite (aget_Ok _ _ _ Hsp). }
  st_step E1. unfold mbind at 1, ST_bind at 1, kprintf at 1, modify at 1. set (k2 := with_klog _ k1).
  destruct (join_queue k2 rq tq period i Q1 Q2 Hroom) as (q1 & q2 & E2 & Q1' & Q2').
  st_step E2. exists h2, (klog k2), q1, q2. done.
Qed.

(** The invariant after a failed spawn, and after a successful one, in terms of
    the kernel's fields. *)
Lemma spawn_oom_kinv k k' rq dq tq i u h' :
  kinv k rq dq tq -> i ∉ rq ++ dq ++ tq -> t_ptask u = 0 -> zlen (t_context u) = 20 -> prio_ok u ->
  krnl_tcb k' = zset (krnl_tcb k) i u -> krnl_run_queue k' = krnl_run_queue k ->
  krnl_delay_queue k' = krnl_delay_queue k -> krnl_rt_queue k' = krnl_rt_queue k ->
  krnl_tasks k' = krnl_tasks k -> krnl_current_task k' = krnl_current_task k ->
  krnl_pcb k' = krnl_pcb k -> krnl_heap k' = h' -> stacks_ok (krnl_tcb k) h' (rq ++ dq ++ tq) ->
  kinv k' rq dq tq.
Proof.
  intros [] Hi Hp Hc Hpr E1 E2 E3 E4 E5 E6 E7 E8 S.
  split; rewrite ?E1, ?E2, ?E3, ?E4, ?E5, ?E6, ?E7, ?E8; try done.
  - by apply tcbs_ok_dead.
  - by apply stacks_ok_other.
Qed.

Lemma spawn_ok_kinv k k' rq dq tq i u period q1 q2 h' n :
  kinv k rq dq tq -> i ∉ rq ++ dq ++ tq -> 0 <= i < MAX_TASKS -> t_id u = i -> t_ptask u <> 0 ->
  t_period u = period -> zlen (t_context u) = 20 -> prio_ok u -> q_is q1 (joined_run period i rq) ->
  q_is q2 (joined_rt period i tq) ->
  krnl_tcb k' = zset (krnl_tcb k) i u -> krnl_run_queue k' = q1 ->
  krnl_delay_queue k' = krnl_delay_queue k -> krnl_rt_queue k' = q2 ->
  krnl_tasks k' = zlen (rq ++ dq ++ tq) + 1 -> krnl_current_task k' = krnl_current_task k ->
  krnl_pcb k' = krnl_pcb k -> krnl_heap k' = h' -> stacks_ok (krnl_tcb k) h' (rq ++ dq ++ tq) ->
  heap_live (krnl_heap k) !! t_pstack u = None -> heap_live h' !! t_pstack u = Some n -> 4 <= n ->
  heap_word h' (t_pstack u) = Some STACK_MAGIC ->
  kinv k' (joined_run period i rq) dq (joined_rt period i tq).
Proof.
  intros [] Hi Hr Hid Hp Hper Hc Hpr Q1 Q2 E1 E2 E3 E4 E5 E6 E7 E8 S L0 L1 Hn W.
  split; rewrite ?E1, ?E2, ?E3, ?E4, ?E5, ?E6, ?E7, ?E8; try done.
  - rewrite <- Hper. by apply tcbs_ok_add.
  - rewrite joined_perm, zlen_cons. lia.
  - rewrite joined_perm, elem_of_cons. by right.
  - eapply stacks_ok_perm; [symmetry; apply joined_perm|].
    eapply stacks_ok_add; try done; [by rewrite (ok_len _ _ _ _ ki_tcbs)|].
    intros j v Hv Hj Eq. destruct (st_live _ _ _ ki_stacks j v Hv Hj) as (m & Lm & _).
    by rewrite Eq, L0 in Lm.
Qed.

Lemma set_ptask_context v t : t_context (set_ptask v t) = t_context t.
Proof. reflexivity. Qed.

Lemma spawn_undo_run T i u k : krnl_task k = i -> 0 <= i < zlen T ->
  exists l, spawn_undo (with_krnl_tcb (zset T i u) k) = Ok (ERR_OUT_OF_MEMORY,
    with_klog l (with_krnl_tasks (u16 (krnl_tasks k - 1))
      (with_krnl_tcb (zset T i (set_ptask 0 u)) k))).
Proof.
  intros Hk Hr. unfold spawn_undo. st_step (cur_mod_at T i u (set_ptask 0) k Hk Hr).
  eexists. reflexivity.
Qed.

(** The stacks of the other tasks after the new stack's magic word is written. *)
Lemma spawn_stacks T h h' h2 all sz p n : stacks_ok T h all -> 0 <= sz <= max_request ->
  hf_malloc sz (0, h) = Ok (p, (0, h')) -> heap_ok h' -> heap_ok h2 ->
  heap_live h !! p = None -> heap_live h' = <[p := n]> (heap_live h) -> heap_live h2 = heap_live h' ->
  (forall b, heap_word h2 b = if b =? p then Some STACK_MAGIC else heap_word h' b) ->
  stacks_ok T h2 all.
Proof.
  intros S Hsz Em Hok' Hok2 Hpn Hl Hl2 Hw2. apply (stacks_ok_heap _ h'); [|done|].
  { eapply stacks_ok_malloc; [done|exact Hsz|exact Em|done|].
    intros q m Lq. rewrite Hl, lookup_insert_ne; [done|congruence]. }
  intros j v m Hv Hj Lj H4. rewrite Hl2, Hw2. split; [done|].
  destruct (Z.eqb_spec (t_pstack v) p) as [Eq|]; [|done].
  destruct (st_live _ _ _ S j v Hv Hj) as (m' & Lm & _). by rewrite Eq, Hpn in Lm.
Qed.

(** Every slot is taken. *)
Lemma hf_spawn_full k task period capacity deadline name stack_size :
  zlen (krnl_tcb k) = MAX_TASKS -> capacity <= period -> capacity <= deadline ->
  first_free_slot (krnl_tcb k) = MAX_TASKS ->
  exists k', hf_spawn beyond task period capacity deadline name stack_size k = Ok (ERR_EXCEED_MAX_NUM, k') /\
    quiet (krnl_tcb k) k k'.
Proof.
  intros Hlen Hc1 Hc2 Hfull. unfold hf_spawn.
  destruct (Z.ltb_spec period capacity), (Z.ltb_spec deadline capacity); cbn [orb]; try lia.
  st_step (di_run k). set (k0 := with_irq_status 0 k).
  assert (find_slot beyond 32 0 k0 = Ok (MAX_TASKS, k0)) as Ef.
  { rewrite <- Hfull. apply (find_slot_run k0 (krnl_tcb k) [] 32); [done|done|].
    unfold zlen, MAX_TASKS in Hlen. lia. }
  st_step Ef. rewrite Z.eqb_refl. eexists. split; [done|]. by apply quiet_intro.
Qed.

(** What a new task needs: room in the arrays, a slot, a name, a stack size. *)
Record spawn_ready (k : kernel H) (rq tq : list Z) (task i : Z) (t : tcb_entry) (name nm : list Z)
    (stack_size : Z) : Prop := {
  sr_len : zlen (krnl_tcb k) = MAX_TASKS;
  sr_slot : first_free_slot (krnl_tcb k) = i;
  sr_lt : i < MAX_TASKS;
  sr_tcb : zget (krnl_tcb k) i = Some t;
  sr_ctx : zlen (t_context t) = 20;
  sr_run : q_is (krnl_run_queue k) rq;
  sr_rt : q_is (krnl_rt_queue k) tq;
  sr_room : zlen rq + zlen tq < MAX_TASKS;
  sr_count : 0 <= krnl_tasks k < 65535;
  sr_heap : heap_ok (krnl_heap k);
  sr_task : task <> 0;
  sr_name : strncpy_bytes 20 name = Ok nm;
  sr_size : 1 <= stack_size <= max_request - 4;
}.

Lemma spawn_size stack_size : 1 <= stack_size <= max_request - 4 ->
  4 <= align4 stack_size <= max_request.
Proof.
  intros Hsz. destruct (align4_spec stack_size) as [Hal Hal4]; [lia|].
  unfold max_request in *. Z.div_mod_to_equations; lia.
Qed.

(** [hf_spawn] up to the allocation of the stack. *)
Lemma hf_spawn_head k rq tq i t task period capacity deadline name nm stack_size :
  spawn_ready k rq tq task i t name nm stack_size -> capacity <= period -> capacity <= deadline ->
  hf_spawn beyond task period capacity deadline name stack_size k =
    (p ← spawn_setup i task period capacity deadline nm (align4 stack_size);
     r ← (if nz p then spawn_place i task period capacity deadline nm (align4 stack_size) p
          else spawn_undo);
     back_to_current (irq_status k) r)
    (with_krnl_task i (with_krnl_tasks (krnl_tasks k + 1) (with_irq_status 0 k))).
Proof.
  intros [] Hc1 Hc2. unfold hf_spawn.
  destruct (Z.ltb_spec period capacity), (Z.ltb_spec deadline capacity); cbn [orb]; try lia.
  st_step (di_run k). set (k0 := with_irq_status 0 k).
  assert (find_slot beyond 32 0 k0 = Ok (i, k0)) as Ef.
  { rewrite <- sr_slot0. apply (find_slot_run k0 (krnl_tcb k) [] 32); [done|done|].
    unfold zlen, MAX_TASKS in sr_len0. lia. }
  st_step Ef. destruct (Z.eqb_spec i MAX_TASKS) as [->|_]; [lia|].
  unfold mbind at 1, ST_bind at 1, modify at 1, mbind at 1, ST_bind at 1, set_task, modify at 1.
  rewrite sr_name0. unfold mbind at 1, ST_bind at 1, lift at 1.
  change (krnl_tasks k0) with (krnl_tasks k). by rewrite u16_small by lia.
Qed.

(** No memory for the stack. *)
Lemma hf_spawn_oom k rq tq i t task period capacity deadline name nm stack_size h' :
  spawn_ready k rq tq task i t name nm stack_size -> capacity <= period -> capacity <= deadline ->
  hf_malloc (align4 stack_size) (0, krnl_heap k) = Ok (0, (0, h')) ->
  exists l, hf_spawn beyond task period capacity deadline name stack_size k = Ok (ERR_OUT_OF_MEMORY,
    with_irq_status (irq_status k) (with_krnl_task (krnl_current_task k) (with_klog l
      (with_krnl_heap h' (with_krnl_tcb (zset (krnl_tcb k) i (set_ptask 0
        (spawn_tcb i task period capacity deadline nm (align4 stack_size) 0 t))) k))))).
Proof.
  intros R Hc1 Hc2 Em. rewrite (hf_spawn_head _ _ _ _ _ _ _ _ _ _ _ _ R Hc1 Hc2). destruct R.
  set (k1 := with_krnl_task i _). pose proof (zget_Some_range _ _ _ sr_tcb0) as Hr.
  st_step (spawn_setup_run k1 i t task period capacity deadline nm _ 0 h' eq_refl sr_tcb0 Em).
  change (nz 0) with false. cbv iota. generalize (spawn_tcb i task period capacity deadline nm (align4 stack_size) 0 t).
  intros u. destruct (spawn_undo_run (krnl_tcb k) i u (with_krnl_heap h' k1) eq_refl Hr) as [l E2].
  st_step E2. rewrite back_to_current_run. exists l.
  change (krnl_tasks (with_krnl_heap h' k1)) with (krnl_tasks k + 1).
  replace (krnl_tasks k + 1 - 1) with (krnl_tasks k) by lia. rewrite u16_small by lia. by destruct k.
Qed.

(** The stack is at [p]: the new task is queued. *)
Lemma hf_spawn_placed k rq tq i t task period capacity deadline name nm stack_size p h' n :
  spawn_ready k rq tq task i t name nm stack_size -> capacity <= period -> capacity <= deadline ->
  hf_malloc (align4 stack_size) (0, krnl_heap k) = Ok (p, (0, h')) -> p <> 0 -> heap_ok h' ->
  heap_live h' !! p = Some n -> 4 <= n ->
  exists h2 l q1 q2, hf_spawn beyond task period capacity deadline name stack_size k = Ok (i,
    with_irq_status (irq_status k) (with_krnl_task (krnl_current_task k) (with_krnl_run_queue q1
      (with_krnl_rt_queue q2 (with_klog l (with_krnl_heap h2 (with_krnl_tasks (krnl_tasks k + 1)
        (with_krnl_tcb (zset (krnl_tcb k) i (spawn_tcb i task period capacity deadline nm
          (align4 stack_size) p t)) k)))))))) /\
    q_is q1 (joined_run period i rq) /\ q_is q2 (joined_rt period i tq) /\
    heap_ok h2 /\ heap_live h2 = heap_live h' /\
    (forall b, heap_word h2 b = if b =? p then Some STACK_MAGIC else heap_word h' b).
Proof.
  intros R Hc1 Hc2 Em Hp Hok L Hn. rewrite (hf_spawn_head _ _ _ _ _ _ _ _ _ _ _ _ R Hc1 Hc2).
  destruct R. set (k1 := with_krnl_task i _). pose proof (zget_Some_range _ _ _ sr_tcb0) as Hr.
  st_step (spawn_setup_run k1 i t task period capacity deadline nm _ p h' eq_refl sr_tcb0 Em).
  apply nz_true in Hp as ->.
  assert (zlen (t_context (spawn_tcb i task period capacity deadline nm (align4 stack_size) p t)) = 20)
    as Hctx by (cbn; by rewrite !zset_zlen).
  revert Hctx. generalize (spawn_tcb i task period capacity deadline nm (align4 stack_size) p t).
  intros u Hctx. change (krnl_tcb k1) with (krnl_tcb k). set (k2 := with_krnl_tcb _ _).
  destruct (spawn_place_run k2 rq tq i u task period capacity deadline nm (align4 stack_size) p n)
    as (h2 & l & q1 & q2 & E2 & Q1 & Q2 & Hok2 & Hl2 & Hw2); try done.
  { by apply zget_zset_eq. }
  st_step E2. rewrite back_to_current_run. exists h2, l, q1, q2. split; [by destruct k|done].
Qed.

Lemma kinv_spawn_ready k rq dq tq i t task name nm stack_size : kinv k rq dq tq ->
  first_free_slot (krnl_tcb k) = i -> i < MAX_TASKS -> zget (krnl_tcb k) i = Some t ->
  task <> 0 -> strncpy_bytes 20 name = Ok nm -> 1 <= stack_size <= max_request - 4 ->
  spawn_ready k rq tq task i t name nm stack_size.
Proof.
  intros I Hs Hi Ht Htask Hnm Hsz. destruct (spawn_slot k rq dq tq i t I Hs Hi Ht) as (_ & _ & Hroom).
  destruct I. pose proof (zlen_nonneg (rq ++ dq ++ tq)). pose proof (zlen_nonneg dq).
  unfold MAX_TASKS in Hroom. split; try done.
  - apply ki_tcbs.
  - by eapply (ok_ctx _ _ _ _ ki_tcbs).
  - rewrite !zlen_app in Hroom. unfold MAX_TASKS. lia.
  - rewrite ki_count. lia.
  - apply ki_stacks.
Qed.

Lemma hf_spawn_run k rq dq tq task period capacity deadline name nm stack_size :
  kinv k rq dq tq -> task <> 0 -> strncpy_bytes 20 name = Ok nm ->
  1 <= stack_size <= max_request - 4 ->
  exists r k', hf_spawn beyond task period capacity deadline name stack_size k = Ok (r, k') /\
    spawn_result k rq dq tq task period capacity deadline nm (align4 stack_size) r k' /\
    irq_status k' = irq_status k /\ krnl_schedule k' = krnl_schedule k.
Proof.
  intros I Htask Hnm Hsz. pose proof I as []. pose proof (spawn_size stack_size Hsz) as Hal.
  pose proof (ok_len _ _ _ _ ki_tcbs) as Hlen.
  destruct (decide (period < capacity \/ deadline < capacity)) as [Hbad|Hgood].
  { unfold hf_spawn. exists ERR_INVALID_PARAMETER, k. split; [|split; [by apply spawn_bad|done]].
    destruct (Z.ltb_spec period capacity), (Z.ltb_spec deadline capacity); cbn [orb]; done || lia. }
  assert (capacity <= period) as Hc1 by lia. assert (capacity <= deadline) as Hc2 by lia.
  pose proof (first_free_slot_range (krnl_tcb k)) as Hir.
  destruct (decide (first_free_slot (krnl_tcb k) = MAX_TASKS)) as [Hfull|Hne].
  { destruct (hf_spawn_full k task period capacity deadline name stack_size) as (k' & E & Q); try done.
    exists ERR_EXCEED_MAX_NUM, k'. split; [done|]. split; [by apply spawn_full|].
    by destruct Q as (l & c & ->). }
  remember (first_free_slot (krnl_tcb k)) as i eqn:Hi. symmetry in Hi.
  assert (i < MAX_TASKS) as Hlt by lia.
  destruct (zget_is_Some (krnl_tcb k) i) as [t Ht]; [lia|].
  destruct (spawn_slot k rq dq tq i t I) as (Hnew & Hi0 & _); try done.
  pose proof (kinv_spawn_ready k rq dq tq i t task name nm stack_size I Hi Hlt Ht Htask Hnm Hsz) as R.
  destruct (malloc_spec 0 (krnl_heap k) (align4 stack_size) (st_heap _ _ _ ki_stacks)) as (p & h' & Em & Hok' & Hp);
    [lia|]. pose proof (ok_ctx _ _ _ _ ki_tcbs i t Ht) as Hctx.
  destruct Hp as [[-> Hl]|(Hp0 & Hpn & n & Hn & Hl)].
  - destruct (hf_spawn_oom k rq tq i t task period capacity deadline name nm stack_size h' R Hc1 Hc2 Em) as (l & E).
    eexists _, _. split; [exact E|]. split; [|done].
    apply (spawn_oom _ _ _ _ _ _ _ _ _ _ _ h'); [done..| |exact Em|exact Hl].
    apply (spawn_oom_kinv k _ rq dq tq i (set_ptask 0
      (spawn_tcb i task period capacity deadline nm (align4 stack_size) 0 t)) h');
      [exact I|exact Hnew|reflexivity|cbn; by rewrite !zset_zlen|done|reflexivity..|].
    eapply stacks_ok_malloc; [done| |exact Em|done|intros q m; by rewrite Hl]. lia.
  - assert (heap_live h' !! p = Some n) as Lp by (by rewrite Hl, lookup_insert_eq).
    destruct (hf_spawn_placed k rq tq i t task period capacity deadline name nm stack_size p h' n R Hc1 Hc2 Em)
      as (h2 & l & q1 & q2 & E & Q1 & Q2 & Hok2 & Hl2 & Hw2); [done..|lia|].
    eexists _, _. split; [exact E|]. split; [|done].
    apply (spawn_ok _ _ _ _ _ _ _ _ _ _ i t p n); [done..|lia| |].
    { etransitivity; [exact Hl2|exact Hl]. }
    apply (spawn_ok_kinv k _ rq dq tq i
      (spawn_tcb i task period capacity deadline nm (align4 stack_size) p t) period q1 q2 h2 n);
      [exact I|exact Hnew|lia|reflexivity|exact Htask|reflexivity|cbn; by rewrite !zset_zlen|done
      |exact Q1|exact Q2|reflexivity..| |reflexivity|reflexivity|reflexivity| |exact Hpn|by rewrite Hl2|lia|].
    + cbn. by rewrite ki_count.
    + eapply spawn_stacks; try done. lia.
    + by rewrite Hw2, Z.eqb_refl.
Qed.
End facts.
