(* ===== verification/Scheduler.v ===== *)
(** * The two-level scheduler ([sys/kernel/scheduler.c])

    The delay queue, the dispatcher and the four scheduling policies, as
    computations on the kernel's state. *)

From Stdlib Require Import Sorted.
From S2P Require Import Prelude Words Mutex Malloc Alloc Queue Kernel Strings Task.

Section scheduler.
Context {H : Type} {HA : Allocator H}.

(** [if (hf_queue_addtail(q, p)) panic(cause);] *)
Definition addtail_or (n : qname) (p : option Z) (cause : Z) : @K H unit :=
  e ← on_queue n (hf_queue_addtail p);
  when (nz e) (panic cause).

(** One turn of the loop of [process_delay_queue]. *)
Definition delay_turn : @K H unit :=
  p ← on_queue DELAY hf_queue_remhead;
  match p with
  | None => panic PANIC_NO_TASKS_DELAY
  | Some i =>
      _ ← tcb_mod i (fun t => set_delay (u32 (t_delay t - 1)) t);
      t ← tcb_get i;
      if t_delay t =? 0 then
        if nz (t_period t) then addtail_or RT p PANIC_CANT_PLACE_RT
        else addtail_or RUN p PANIC_CANT_PLACE_RUN
      else addtail_or DELAY p PANIC_CANT_PLACE_DELAY
  end.

(** [for (i = 0; i < k; i++) body;] for a body that does not use [i]. *)
Fixpoint repeat_k (k : nat) (body : @K H unit) : @K H unit :=
  match k with O => mret tt | S k => _ ← body; repeat_k k body end.

Definition process_delay_queue : @K H unit :=
  k ← on_queue DELAY hf_queue_count;
  repeat_k (Z.to_nat k) delay_turn.

(** [run_queue_next] and [rt_queue_next]. *)
Definition queue_next (n : qname) (none full : Z) : @K H unit :=
  p ← on_queue n hf_queue_remhead;
  match p with
  | None => panic none
  | Some i => _ ← set_task i; addtail_or n (Some i) full
  end.
Definition run_queue_next : @K H unit :=
  queue_next RUN PANIC_NO_TASKS_RUN PANIC_CANT_PLACE_RUN.
Definition rt_queue_next : @K H unit :=
  queue_next RT PANIC_NO_TASKS_RT PANIC_CANT_PLACE_RT.

Definition add_bgjob : @K H unit :=
  cur_mod (fun t => set_bgjobs (u32 (t_bgjobs t + 1)) t).

(** *** Round robin *)
Fixpoint rr_loop (fuel : nat) : @K H unit :=
  match fuel with
  | O => timeout_st
  | S fuel =>
      _ ← run_queue_next;
      t ← cur_get;
      if t_state t =? TASK_BLOCKED then rr_loop fuel else mret tt
  end.

Definition sched_rr : @K H Z :=
  k ← on_queue RUN hf_queue_count;
  _ ← when (k =? 0) (panic PANIC_NO_TASKS_RUN);
  _ ← rr_loop (S (Z.to_nat k));
  _ ← add_bgjob;
  t ← cur_get;
  mret (t_id t).

(** *** Lottery *)

(** [random] of [lib/libc/libc.c]. *)
Definition random : @K H Z := fun k =>
  let s := u32 (rand1 k * 1103515245 + 12345) in
  Ok (Z.land (Z.shiftr s 16) 32767, with_rand1 s k).

Fixpoint lottery_loop (fuel : nat) (r i : Z) : @K H unit :=
  match fuel with
  | O => timeout_st
  | S fuel =>
      _ ← run_queue_next;
      t ← cur_get;
      n ← gets krnl_tasks;
      if t_state t =? TASK_BLOCKED then lottery_loop fuel r i
      else if n =? 0 then fault_st
      else if negb (cmod i n =? r) then lottery_loop fuel r (i32 (i + 1))
      else mret tt
  end.

Definition sched_lottery : @K H Z :=
  x ← random;
  n ← gets krnl_tasks;
  if n =? 0 then fault_st
  else
    let r := cmod x n in
    k ← on_queue RUN hf_queue_count;
    _ ← when (k =? 0) (panic PANIC_NO_TASKS_RUN);
    _ ← lottery_loop (Z.to_nat ((n + 1) * (k + 1))) r 0;
    _ ← add_bgjob;
    t ← cur_get;
    mret (t_id t).

(** *** Priority round robin *)

(** The first loop: [Some] when a critical task was found ([goto done]), or the
    lowest remaining priority and its task (NULL is [None]). *)
Fixpoint prr_search (k : nat) (highestp : Z) (best : option Z) : @K H (option (option Z)) :=
  match k with
  | O => mret (Some best)
  | S k =>
      _ ← run_queue_next;
      t ← cur_get;
      if nz (t_critical t) && negb (t_state t =? TASK_BLOCKED) then
        _ ← cur_mod (set_critical 0);
        mret None
      else if (t_priority_rem t <? highestp) && negb (t_state t =? TASK_BLOCKED) then
        i ← gets krnl_task;
        prr_search k (t_priority_rem t) (Some i)
      else prr_search k highestp best
  end.

(** One turn of the second loop. *)
Definition prr_age (best : option Z) : @K H unit :=
  _ ← run_queue_next;
  i ← gets krnl_task;
  if bool_decide (best = Some i) then mret tt
  else match best with
       | None => fault_st
       | Some b =>
           t2 ← tcb_get b;
           cur_mod (fun t => set_priority_rem (u8 (t_priority_rem t - t_priority_rem t2)) t)
       end.

Definition sched_priorityrr : @K H Z :=
  k ← on_queue RUN hf_queue_count;
  _ ← when (k =? 0) (panic PANIC_NO_TASKS_RUN);
  _ ← run_queue_next;
  found ← prr_search (Z.to_nat k) 255 None;
  _ ← match found with
      | None => mret tt
      | Some best =>
          _ ← repeat_k (Z.to_nat k) (prr_age best);
          match best with
          | None => fault_st
          | Some b =>
              _ ← set_task b;
              cur_mod (fun t => set_priority_rem (t_priority t) t)
          end
      end;
  _ ← add_bgjob;
  t ← cur_get;
  mret (t_id t).

(** *** Rate monotonic *)

(** [krnl_tcb[p].period] of a queue entry; NULL faults. *)
Definition period_of (p : option Z) : @K H Z :=
  match p with None => fault_st | Some i => t ← tcb_get i; mret (t_period t) end.

(** [for (j = ...; j < k; j++)] of the sort. *)
Fixpoint rma_inner (fuel : nat) (i j k : Z) : @K H unit :=
  match fuel with
  | O => timeout_st
  | S fuel =>
      if j <? k then
        e1 ← on_queue RT (hf_queue_get i);
        e2 ← on_queue RT (hf_queue_get j);
        p1 ← period_of e1;
        p2 ← period_of e2;
        _ ← when (p2 <? p1) (
              e ← on_queue RT (hf_queue_swap i j);
              when (nz e) (panic PANIC_CANT_SWAP));
        rma_inner fuel i (j + 1) k
      else mret tt
  end.

(** [for (i = ...; i < k-1; i++)] of the sort. *)
Fixpoint rma_sort (fuel : nat) (i k : Z) : @K H unit :=
  match fuel with
  | O => timeout_st
  | S fuel =>
      if i <? k - 1 then
        _ ← rma_inner (S (Z.to_nat k)) i (i + 1) k;
        rma_sort fuel (i + 1) k
      else mret tt
  end.

(** One turn of the update loop: the id selected so far. *)
Definition rma_turn (id : Z) : @K H Z :=
  _ ← rt_queue_next;
  t ← cur_get;
  id' ← (if negb (t_state t =? TASK_BLOCKED) && (0 <? t_capacity_rem t) && (id =? 0) then
           _ ← cur_mod (fun t => set_capacity_rem (u16 (t_capacity_rem t - 1)) t);
           mret (t_id t)
         else mret id);
  _ ← cur_mod (fun t => set_deadline_rem (u16 (t_deadline_rem t - 1)) t);
  t ← cur_get;
  _ ← when (t_deadline_rem t =? 0) (
        _ ← cur_mod (fun t => set_deadline_rem (t_period t) t);
        _ ← when (0 <? t_capacity_rem t)
              (cur_mod (fun t => set_deadline_misses (u32 (t_deadline_misses t + 1)) t));
        cur_mod (fun t => set_capacity_rem (t_capacity t) t));
  mret id'.

Fixpoint rma_update (k : nat) (id : Z) : @K H Z :=
  match k with O => mret id | S k => id ← rma_turn id; rma_update k id end.

Definition sched_rma : @K H Z :=
  k ← on_queue RT hf_queue_count;
  if k =? 0 then mret 0
  else
    _ ← rma_sort (S (Z.to_nat k)) 0 k;
    id ← rma_update (Z.to_nat k) 0;
    if nz id then
      _ ← set_task id;
      _ ← cur_mod (fun t => set_rtjobs (u32 (t_rtjobs t + 1)) t);
      mret id
    else
      _ ← set_task 0;
      mret 0.

(** *** The dispatcher *)

(** A call through the pointers of the processor control block. *)
Definition run_sched (s : sched) : @K H Z :=
  match s with
  | sched_rma_p => sched_rma
  | sched_rr_p => sched_rr
  | sched_lottery_p => sched_lottery
  | sched_priorityrr_p => sched_priorityrr
  end.
Definition call_sched_rt : @K H Z := fun k => run_sched (sched_rt (krnl_pcb k)) k.
Definition call_sched_be : @K H Z := fun k => run_sched (sched_be (krnl_pcb k)) k.

(** [dispatch_isr] from [_context_save] on, which returns [rc]. *)
Definition dispatch_from (rc : Z) : @K H exit :=
  if nz rc then mret Returned
  else
    _ ← running_to_ready;
    _ ← check_stack;
    n ← gets krnl_tasks;
    if 0 <? n then
      _ ← process_delay_queue;
      id ← call_sched_rt;
      _ ← modify (with_krnl_current_task (u16 id));
      c ← gets krnl_current_task;
      _ ← when (c =? 0) (
            id ← call_sched_be;
            modify (with_krnl_current_task (u16 id)));
      _ ← cur_mod (set_state TASK_RUNNING);
      _ ← modify (fun k => with_krnl_pcb
            (set_preempt_cswitch (u32 (preempt_cswitch (krnl_pcb k) + 1)) (krnl_pcb k)) k);
      _context_restore
    else panic PANIC_NO_TASKS_LEFT.

(** [dispatch_isr] at time [now]. *)
Definition dispatch_isr (now : Z) : @K H exit :=
  _ ← _timer_reset now;
  s ← gets krnl_schedule;
  if s =? 0 then mret Returned
  else
    c ← gets krnl_current_task;
    _ ← set_task c;
    dispatch_from 0.
End scheduler.

(** ** Rotating the queues *)

(** Split a list at the first element that satisfies a test. *)
Lemma first_split {A : Type} (f : A -> bool) (l : list A) :
  (exists x, x ∈ l /\ f x = true) ->
  exists pre x post, l = pre ++ x :: post /\ f x = true /\ Forall (fun y => f y = false) pre.
Proof.
  induction l as [|y l IH]; intros (x & Hx & Hf); [by apply elem_of_nil in Hx|].
  destruct (f y) eqn:Hy; [by exists [], y, l|].
  destruct IH as (pre & z & post & -> & Hz & Hp).
  - apply elem_of_cons in Hx as [->|Hx]; [congruence|eauto].
  - exists (y :: pre), z, post. split; [done|]. split; [done|]. by constructor.
Qed.

Section facts.
Context {H : Type} {HA : Allocator H} {HL : AllocatorLaws H}.
Implicit Types k : kernel H.

Lemma q_is_len q l : q_is q l -> zlen l <= MAX_TASKS.
Proof.
  intros [R Hc]. pose proof (qr_cap _ _ R) as Hl. rewrite zlen_fmap in Hl.
  unfold q_capacity in Hc. lia.
Qed.

Lemma addtail_or_run n i c k l : q_is (kqueue n k) l -> zlen l < MAX_TASKS ->
  exists q, addtail_or n (Some i) c k = Ok (tt, with_kqueue n q k) /\ q_is q (l ++ [i]).
Proof.
  intros Q Hl. destruct (q_is_addtail _ _ i Q Hl) as (q & E & Q'). exists q.
  unfold addtail_or. st_step (on_queue_Ok n _ k _ _ E). done.
Qed.

(** The head of a queue goes to its tail and becomes [krnl_task]. *)
Lemma queue_next_run n c1 c2 k i l : q_is (kqueue n k) (i :: l) ->
  exists q, queue_next n c1 c2 k = Ok (tt, with_krnl_task i (with_kqueue n q k)) /\
    q_is q (l ++ [i]).
Proof.
  intros Q. pose proof (q_is_len _ _ Q) as Hl. rewrite zlen_cons in Hl.
  destruct (q_is_remhead _ _ _ Q) as (q1 & E1 & Q1). unfold queue_next.
  st_step (on_queue_Ok n _ k _ _ E1). unfold mbind, ST_bind, set_task, modify.
  destruct (addtail_or_run n i c2 (with_krnl_task i (with_kqueue n q1 k)) l) as (q2 & E2 & Q2).
  - by destruct n.
  - lia.
  - rewrite E2. exists q2. split; [by destruct n|done].
Qed.

Definition is_blocked (T : list tcb_entry) (i : Z) : bool :=
  match zget T i with Some t => t_state t =? TASK_BLOCKED | None => false end.

(** Every id of a list is an entry of the array. *)
Definition in_tcb (T : list tcb_entry) (l : list Z) : Prop := forall i, i ∈ l -> 0 <= i < zlen T.

Lemma in_tcb_get T l i : in_tcb T l -> i ∈ l -> exists t, zget T i = Some t.
Proof. intros Hl Hi. by apply zget_is_Some, Hl. Qed.

Lemma cur_get_at i t k : zget (krnl_tcb k) i = Some t ->
  cur_get (with_krnl_task i k) = Ok (t, with_krnl_task i k).
Proof. intros E. by apply cur_get_Ok. Qed.

(** ** Round robin *)

Lemma rr_loop_run k i post pre : forall fuel (q : kernel H) dn,
  q_is (krnl_run_queue q) (pre ++ i :: post ++ dn) -> krnl_tcb q = krnl_tcb k ->
  in_tcb (krnl_tcb k) (pre ++ [i]) -> Forall (fun j => is_blocked (krnl_tcb k) j = true) pre ->
  is_blocked (krnl_tcb k) i = false -> (length pre < fuel)%nat ->
  exists q', rr_loop fuel q = Ok (tt, with_krnl_task i (with_krnl_run_queue q' q)) /\
    q_is q' (post ++ dn ++ pre ++ [i]).
Proof.
  induction pre as [|j pre IH]; intros fuel q dn Q ET Hr Hb Hi Hf;
    (destruct fuel as [|fuel]; [cbn in Hf; lia|]); cbn [rr_loop].
  - destruct (queue_next_run RUN PANIC_NO_TASKS_RUN PANIC_CANT_PLACE_RUN q i _ Q) as (q1 & E1 & Q1).
    st_step E1. destruct (in_tcb_get _ _ i Hr) as [t Ht]; [by apply list_elem_of_here|].
    unfold is_blocked in Hi. rewrite Ht in Hi.
    st_step (cur_get_at i t (with_krnl_run_queue q1 q) ltac:(cbn; by rewrite ET)).
    rewrite Hi. exists q1. split; [done|]. by app_norm_in Q1.
  - apply Forall_cons_iff in Hb as [Hj Hb].
    destruct (queue_next_run RUN PANIC_NO_TASKS_RUN PANIC_CANT_PLACE_RUN q j _ Q) as (q1 & E1 & Q1).
    st_step E1. destruct (in_tcb_get _ _ j Hr) as [t Ht]; [by apply list_elem_of_here|].
    unfold is_blocked in Hj. rewrite Ht in Hj.
    st_step (cur_get_at j t (with_krnl_run_queue q1 q) ltac:(cbn; by rewrite ET)).
    rewrite Hj. destruct (IH fuel (with_krnl_task j (with_krnl_run_queue q1 q)) (dn ++ [j]))
      as (q2 & E2 & Q2).
    + cbn. by app_norm_in Q1.
    + done.
    + intros x Hx. apply Hr. by apply list_elem_of_further.
    + done.
    + done.
    + cbn in Hf. lia.
    + rewrite E2. exists q2. split; [done|]. by app_norm_in Q2.
Qed.

Lemma add_bgjob_run k i t : zget (krnl_tcb k) i = Some t -> krnl_task k = i ->
  add_bgjob k = Ok (tt, with_krnl_tcb
    (zset (krnl_tcb k) i (set_bgjobs (u32 (t_bgjobs t + 1)) t)) k).
Proof. intros Ht <-. by rewrite <- (cur_mod_Ok t (fun t => set_bgjobs (u32 (t_bgjobs t + 1)) t)). Qed.

(** [add_bgjob] and the id, the end of every best effort scheduler. *)
Lemma finish_bg_run k i t : zget (krnl_tcb k) i = Some t -> krnl_task k = i -> t_id t = i ->
  (_ ← add_bgjob; t ← cur_get; mret (t_id t)) k = Ok (i, with_krnl_tcb
    (zset (krnl_tcb k) i (set_bgjobs (u32 (t_bgjobs t + 1)) t)) k).
Proof.
  intros Ht Hk Hid. st_step (add_bgjob_run k i t Ht Hk).
  st_step (cur_get_Ok (set_bgjobs (u32 (t_bgjobs t + 1)) t) (with_krnl_tcb (zset (krnl_tcb k) i
    (set_bgjobs (u32 (t_bgjobs t + 1)) t)) k)
    ltac:(cbn; rewrite Hk; apply zget_zset_eq; by eapply zget_Some_range)).
  cbn. by rewrite Hid.
Qed.

Lemma sched_rr_run k pre i post t :
  q_is (krnl_run_queue k) (pre ++ i :: post) -> in_tcb (krnl_tcb k) (pre ++ [i]) ->
  Forall (fun j => is_blocked (krnl_tcb k) j = true) pre -> is_blocked (krnl_tcb k) i = false ->
  zget (krnl_tcb k) i = Some t -> t_id t = i ->
  exists q, sched_rr k = Ok (i, with_krnl_tcb (zset (krnl_tcb k) i (set_bgjobs (u32 (t_bgjobs t + 1)) t))
      (with_krnl_task i (with_krnl_run_queue q k))) /\
    q_is q (post ++ pre ++ [i]).
Proof.
  intros Q Hr Hb Hi Ht Hid. unfold sched_rr.
  st_step (on_queue_read RUN _ k _ (q_is_count _ _ Q)).
  destruct (Z.eqb_spec (zlen (pre ++ i :: post)) 0) as [E0|_].
  { rewrite zlen_app, zlen_cons in E0. pose proof (zlen_nonneg pre). pose proof (zlen_nonneg post). lia. }
  unfold mbind at 1, ST_bind at 1, when, mret at 1, ST_ret at 1.
  destruct (rr_loop_run k i post pre (S (Z.to_nat (zlen (pre ++ i :: post)))) k [])
    as (q & E & Q'); try done.
  - by rewrite app_nil_r.
  - unfold zlen. rewrite Nat2Z.id, length_app. lia.
  - st_step E. rewrite (finish_bg_run _ i t) by done. by exists q.
Qed.

(** ** The delay queue *)

(** One tick for the tasks of a list, and what it decides. *)
Definition tick_one (T : list tcb_entry) (i : Z) : list tcb_entry :=
  match zget T i with
  | Some t => zset T i (set_delay (u32 (t_delay t - 1)) t)
  | None => T
  end.
Definition tick (T : list tcb_entry) (l : list Z) : list tcb_entry := foldl tick_one T l.

Definition expires (T : list tcb_entry) (i : Z) : bool :=
  match zget T i with Some t => u32 (t_delay t - 1) =? 0 | None => false end.
Definition is_rt (T : list tcb_entry) (i : Z) : bool :=
  match zget T i with Some t => nz (t_period t) | None => false end.

Definition select (f : Z -> bool) (l : list Z) : list Z := filter (fun i => f i = true) l.

Lemma select_cons f i l : select f (i :: l) = if f i then i :: select f l else select f l.
Proof.
  unfold select. destruct (f i) eqn:E.
  - by rewrite list.filter_cons_True.
  - by rewrite list.filter_cons_False by (rewrite E; done).
Qed.

(** ** Successive turns of round robin *)

Fixpoint rr_turns (n : nat) : @K H (list Z) :=
  match n with
  | O => mret []
  | S n => i ← sched_rr; l ← rr_turns n; mret (i :: l)
  end.

Definition unblocked (T : list tcb_entry) (l : list Z) : list Z :=
  select (fun i => negb (is_blocked T i)) l.

Lemma select_app f l1 l2 : select f (l1 ++ l2) = select f l1 ++ select f l2.
Proof. apply list.filter_app. Qed.

Lemma unblocked_ext T T' l : (forall j, is_blocked T' j = is_blocked T j) -> unblocked T' l = unblocked T l.
Proof.
  intros He. unfold unblocked. induction l as [|j l IH]; [done|].
  by rewrite !select_cons, He, IH.
Qed.

Lemma unblocked_none T l : Forall (fun j => is_blocked T j = true) l -> unblocked T l = [].
Proof.
  unfold unblocked. induction 1 as [|j l Hj _ IH]; [done|]. by rewrite select_cons, Hj.
Qed.

Lemma rr_turns_run (n : nat) : forall l dn (k : kernel H), (length l <= n)%nat ->
  q_is (krnl_run_queue k) (l ++ dn) -> in_tcb (krnl_tcb k) l ->
  (forall j t, j ∈ l -> zget (krnl_tcb k) j = Some t -> t_id t = j) ->
  exists k' rq', rr_turns (length (unblocked (krnl_tcb k) l)) k = Ok (unblocked (krnl_tcb k) l, k')
    /\ q_is (krnl_run_queue k') rq' /\ rq' ≡ₚ l ++ dn
    /\ forall j, is_blocked (krnl_tcb k') j = is_blocked (krnl_tcb k) j.
Proof.
  induction n as [|n IH]; intros l dn k Hn Q Hin Hid.
  { destruct l; [|cbn in Hn; lia]. exists k, dn. by split_and!. }
  destruct (decide (Forall (fun j => is_blocked (krnl_tcb k) j = true) l)) as [Hall|Hex].
  { rewrite unblocked_none by done. exists k, (l ++ dn). by split_and!. }
  destruct (first_split (fun j => negb (is_blocked (krnl_tcb k) j)) l) as (pre & i & post & -> & Hi & Hp).
  { apply list.not_Forall_Exists in Hex; [|intros ?; apply _].
    apply list.Exists_exists in Hex as (j & Hj & Hb). exists j. split; [done|].
    cbn beta in Hb. apply negb_true_iff. by apply not_true_is_false. }
  apply negb_true_iff in Hi.
  assert (Forall (fun j => is_blocked (krnl_tcb k) j = true) pre) as Hp'.
  { eapply list.Forall_impl; [exact Hp|]. intros j Hj. by apply negb_false_iff in Hj. }
  assert (Hi' : i ∈ pre ++ i :: post) by (apply elem_of_app; right; apply list_elem_of_here).
  destruct (in_tcb_get _ _ i Hin Hi') as [t Ht].
  destruct (sched_rr_run k pre i (post ++ dn) t) as (q & E & Q'); try done.
  { by app_norm_in Q. }
  { intros j [Hj| ->%list_elem_of_singleton]%elem_of_app; apply Hin; [apply elem_of_app; by left|done]. }
  { by apply (Hid i t). }
  set (k1 := with_krnl_tcb _ _) in E.
  assert (Hb : forall j, is_blocked (krnl_tcb k1) j = is_blocked (krnl_tcb k) j).
  { intros j. unfold is_blocked, k1. cbn. destruct (decide (j = i)) as [->|Hne].
    - rewrite zget_zset_eq by (by eapply zget_Some_range). by rewrite Ht.
    - by rewrite zget_zset_ne. }
  assert (Hu : unblocked (krnl_tcb k) (pre ++ i :: post) = i :: unblocked (krnl_tcb k) post).
  { unfold unblocked at 1. rewrite select_app, select_cons, Hi.
    pose proof (unblocked_none _ _ Hp') as Hnone. unfold unblocked in Hnone. by rewrite Hnone. }
  destruct (IH post (dn ++ pre ++ [i]) k1) as (k2 & rq' & E2 & Q2 & P2 & B2).
  - rewrite length_app in Hn. cbn in Hn. lia.
  - cbn. by app_norm_in Q'.
  - unfold k1. cbn. intros j Hj. rewrite zset_zlen. apply Hin, elem_of_app. right. by apply list_elem_of_further.
  - intros j u Hj Hu'. unfold k1 in Hu'. cbn in Hu'. destruct (decide (j = i)) as [->|Hne].
    + rewrite zget_zset_eq in Hu' by (by eapply zget_Some_range). injection Hu' as <-. cbn. by apply (Hid i t).
    + rewrite zget_zset_ne in Hu' by done. apply (Hid j u); [|done].
      apply elem_of_app. right. by apply list_elem_of_further.
  - rewrite (unblocked_ext _ _ post Hb) in E2. rewrite Hu. cbn [length rr_turns].
    st_step E. st_step E2. exists k2, rq'. split_and!; [done|done| |].
    + rewrite P2, (app_assoc post dn), (Permutation_app_comm (post ++ dn)). by app_norm.
    + intros j. by rewrite B2.
Qed.


Lemma tick_one_other T i j : i <> j -> zget (tick_one T i) j = zget T j.
Proof. intros Hne. unfold tick_one. destruct (zget T i); [by apply zget_zset_ne|done]. Qed.

(** Where the ticked tasks go. *)
Definition to_run (T : list tcb_entry) : list Z -> list Z :=
  select (fun i => expires T i && negb (is_rt T i)).
Definition to_rt (T : list tcb_entry) : list Z -> list Z :=
  select (fun i => expires T i && is_rt T i).
Definition to_delay (T : list tcb_entry) : list Z -> list Z :=
  select (fun i => negb (expires T i)).

Lemma delay_turn_run k T i rq dn l tq : q_is (krnl_run_queue k) rq ->
  q_is (krnl_delay_queue k) (i :: l ++ dn) -> q_is (krnl_rt_queue k) tq ->
  zlen rq < MAX_TASKS -> zlen tq < MAX_TASKS ->
  0 <= i < zlen (krnl_tcb k) -> zget (krnl_tcb k) i = zget T i ->
  exists q1 q2 q3, delay_turn k = Ok (tt, with_krnl_tcb (tick_one (krnl_tcb k) i)
      (with_krnl_run_queue q1 (with_krnl_delay_queue q2 (with_krnl_rt_queue q3 k)))) /\
    q_is q1 (rq ++ to_run T [i]) /\ q_is q2 (l ++ dn ++ to_delay T [i]) /\
    q_is q3 (tq ++ to_rt T [i]).
Proof.
  intros Q1 Q2 Q3 L1 L3 Hi ET. pose proof (q_is_len _ _ Q2) as L2. rewrite zlen_cons in L2.
  destruct (zget_is_Some _ _ Hi) as [t Ht]. pose proof Ht as Ht'. rewrite ET in Ht'.
  destruct (q_is_remhead _ _ _ Q2) as (qd & Ed & Qd). unfold delay_turn.
  st_step (on_queue_Ok DELAY _ k _ _ Ed). set (k1 := with_kqueue DELAY qd k).
  st_step (tcb_mod_Ok i t (fun t => set_delay (u32 (t_delay t - 1)) t) k1 Ht).
  set (u := set_delay (u32 (t_delay t - 1)) t).
  assert (tick_one (krnl_tcb k) i = zset (krnl_tcb k) i u) as ETk by (unfold tick_one; by rewrite Ht).
  set (k2 := with_krnl_tcb _ k1).
  st_step (tcb_get_Ok i u k2 ltac:(by apply zget_zset_eq)).
  change (t_delay u) with (u32 (t_delay t - 1)). change (t_period u) with (t_period t).
  unfold to_run, to_rt, to_delay, expires, is_rt. rewrite !select_cons, Ht'.
  change (select _ []) with (@nil Z). rewrite ETk.
  destruct (u32 (t_delay t - 1) =? 0); cbn [andb negb]; [destruct (nz (t_period t)); cbn [negb]|].
  - destruct (addtail_or_run RT i PANIC_CANT_PLACE_RT k2 tq Q3 L3) as (q & E & Q).
    rewrite E. exists (krnl_run_queue k), qd, q. rewrite !app_nil_r. split; [by destruct k|done].
  - destruct (addtail_or_run RUN i PANIC_CANT_PLACE_RUN k2 rq Q1 L1) as (q & E & Q).
    rewrite E. exists q, qd, (krnl_rt_queue k). rewrite !app_nil_r. split; [by destruct k|done].
  - destruct (addtail_or_run DELAY i PANIC_CANT_PLACE_DELAY k2 (l ++ dn) Qd ltac:(lia)) as (q & E & Q).
    rewrite E. exists (krnl_run_queue k), q, (krnl_rt_queue k). rewrite !app_nil_r.
    split; [by destruct k|]. by rewrite app_assoc.
Qed.

Lemma delay_loop_run T l : forall (k : kernel H) rq dn tq, q_is (krnl_run_queue k) rq ->
  q_is (krnl_delay_queue k) (l ++ dn) -> q_is (krnl_rt_queue k) tq ->
  zlen rq + zlen l + zlen tq <= MAX_TASKS -> NoDup l -> in_tcb (krnl_tcb k) l ->
  (forall j, j ∈ l -> zget (krnl_tcb k) j = zget T j) ->
  exists q1 q2 q3, repeat_k (length l) delay_turn k = Ok (tt, with_krnl_tcb (tick (krnl_tcb k) l)
      (with_krnl_run_queue q1 (with_krnl_delay_queue q2 (with_krnl_rt_queue q3 k)))) /\
    q_is q1 (rq ++ to_run T l) /\ q_is q2 (dn ++ to_delay T l) /\ q_is q3 (tq ++ to_rt T l).
Proof.
  induction l as [|i l IH]; intros k rq dn tq Q1 Q2 Q3 L Hd Hr ET; cbn [repeat_k length].
  - exists (krnl_run_queue k), (krnl_delay_queue k), (krnl_rt_queue k).
    rewrite !app_nil_r. split; [by destruct k|done].
  - apply list.NoDup_cons in Hd as [Hi Hd]. rewrite zlen_cons in L.
    pose proof (zlen_nonneg rq). pose proof (zlen_nonneg l). pose proof (zlen_nonneg tq).
    destruct (delay_turn_run k T i rq dn l tq) as (q1 & q2 & q3 & E & R1 & R2 & R3); try done; try lia.
    { apply Hr, list_elem_of_here. } { apply ET, list_elem_of_here. }
    st_step E. set (k1 := with_krnl_tcb _ _).
    assert (Hone : zlen (to_run T [i]) + zlen (to_rt T [i]) <= 1).
    { unfold to_run, to_rt. rewrite !select_cons. by destruct (expires T i), (is_rt T i). }
    destruct (IH k1 (rq ++ to_run T [i]) (dn ++ to_delay T [i]) (tq ++ to_rt T [i]))
      as (p1 & p2 & p3 & E2 & S1 & S2 & S3); try done.
    + rewrite !zlen_app. lia.
    + intros j Hj. cbn. unfold tick_one. destruct (zget _ i); rewrite ?zset_zlen;
        by apply Hr, list_elem_of_further.
    + intros j Hj. cbn. rewrite tick_one_other by (intros ->; done).
      by apply ET, list_elem_of_further.
    + rewrite E2. exists p1, p2, p3. split; [by destruct k|].
      unfold to_run, to_rt, to_delay in *. rewrite !select_cons in *.
      destruct (expires T i), (is_rt T i); cbn in *; rewrite ?app_nil_r in *; app_norm_in S1;
        app_norm_in S2; app_norm_in S3; done.
Qed.

Lemma process_delay_queue_run k rq dq tq : q_is (krnl_run_queue k) rq ->
  q_is (krnl_delay_queue k) dq -> q_is (krnl_rt_queue k) tq ->
  zlen rq + zlen dq + zlen tq <= MAX_TASKS -> NoDup dq -> in_tcb (krnl_tcb k) dq ->
  exists q1 q2 q3, process_delay_queue k = Ok (tt, with_krnl_tcb (tick (krnl_tcb k) dq)
      (with_krnl_run_queue q1 (with_krnl_delay_queue q2 (with_krnl_rt_queue q3 k)))) /\
    q_is q1 (rq ++ to_run (krnl_tcb k) dq) /\ q_is q2 (to_delay (krnl_tcb k) dq) /\
    q_is q3 (tq ++ to_rt (krnl_tcb k) dq).
Proof.
  intros Q1 Q2 Q3 L Hd Hr. unfold process_delay_queue.
  st_step (on_queue_read DELAY _ k _ (q_is_count _ _ Q2)).
  unfold zlen at 1. rewrite Nat2Z.id.
  destruct (delay_loop_run (krnl_tcb k) dq k rq [] tq) as (q1 & q2 & q3 & E & R); try done.
  - by rewrite app_nil_r.
  - by exists q1, q2, q3.
Qed.

(** What a tick does to each entry. *)
Lemma tick_get T l i : NoDup l -> zget (tick T l) i =
  match zget T i with
  | Some t => if decide (i ∈ l) then Some (set_delay (u32 (t_delay t - 1)) t) else Some t
  | None => None
  end.
Proof.
  unfold tick. revert T. induction l as [|j l IH]; intros T Hd; cbn.
  - by destruct (zget T i).
  - apply list.NoDup_cons in Hd as [Hj Hd]. rewrite IH by done.
    destruct (decide (j = i)) as [->|Hne].
    + unfold tick_one. destruct (zget T i) as [t|] eqn:E; [|by rewrite E].
      rewrite zget_zset_eq by (by eapply zget_Some_range).
      rewrite decide_False by done. rewrite decide_True by apply list_elem_of_here. done.
    + rewrite tick_one_other by done. destruct (zget T i); [|done].
      destruct (decide (i ∈ l)) as [Hi|Hi].
      * by rewrite decide_True by (by apply list_elem_of_further).
      * rewrite decide_False; [done|]. by intros [->|?]%elem_of_cons.
Qed.

Lemma tcbs_ok_tick T rq dq tq l : tcbs_ok T rq dq tq -> tcbs_ok (tick T l) rq dq tq.
Proof.
  unfold tick. revert T. induction l as [|i l IH]; intros T I; cbn; [done|]. apply IH.
  unfold tick_one. destruct (zget T i) as [t|] eqn:E; [|done]. eapply tcbs_ok_mod; [done|done|done|].
  intros ->. by apply (ok_idle_runs _ _ _ _ I t).
Qed.

Lemma stacks_ok_tick T h all l : stacks_ok T h all -> stacks_ok (tick T l) h all.
Proof.
  unfold tick. revert T. induction l as [|i l IH]; intros T I; cbn; [done|]. apply IH.
  unfold tick_one. destruct (zget T i) as [t|] eqn:E; [|done]. by eapply stacks_ok_mod.
Qed.

Lemma delay_partition T dq : NoDup dq ->
  to_run T dq ++ to_delay T dq ++ to_rt T dq ≡ₚ dq.
Proof.
  intros Hd. unfold to_run, to_delay, to_rt. induction dq as [|i dq IH]; [done|].
  apply list.NoDup_cons in Hd as [_ Hd]. specialize (IH Hd). rewrite !select_cons.
  etransitivity; [|exact (perm_skip i IH)].
  destruct (expires T i), (is_rt T i); cbn [andb negb app];
    first [done | by rewrite <- Permutation_middle | by rewrite !app_assoc, <- Permutation_middle].
Qed.

Lemma elem_of_select f i l : i ∈ select f l <-> f i = true /\ i ∈ l.
Proof. unfold select. by rewrite list_elem_of_filter. Qed.

Lemma process_delay_queue_kinv k rq dq tq : kinv k rq dq tq ->
  exists k', process_delay_queue k = Ok (tt, k') /\
    kinv k' (rq ++ to_run (krnl_tcb k) dq) (to_delay (krnl_tcb k) dq) (tq ++ to_rt (krnl_tcb k) dq) /\
    krnl_tcb k' = tick (krnl_tcb k) dq.
Proof.
  intros []. pose proof (ok_total _ _ _ _ ki_tcbs) as Ht. rewrite !zlen_app in Ht.
  pose proof (NoDup3 _ _ _ (ok_nodup _ _ _ _ ki_tcbs)) as (D1 & D2 & D3).
  destruct (process_delay_queue_run k rq dq tq) as (q1 & q2 & q3 & E & Q1 & Q2 & Q3); try done; [lia| |].
  { intros i Hi. rewrite (ok_len _ _ _ _ ki_tcbs). apply (ok_range _ _ _ _ ki_tcbs).
    rewrite !elem_of_app. tauto. }
  eexists. split; [exact E|].
  set (R := to_run _ _) in *. set (D := to_delay _ _) in *. set (B := to_rt _ _) in *.
  assert ((rq ++ R) ++ D ++ tq ++ B ≡ₚ rq ++ dq ++ tq) as P.
  { rewrite <- (delay_partition (krnl_tcb k) dq D2). fold R D B. rewrite <- !app_assoc.
    apply Permutation_app_head, Permutation_app_head, Permutation_app_head, Permutation_app_comm. }
  assert (forall i t, zget (tick (krnl_tcb k) dq) i = Some t -> exists u, zget (krnl_tcb k) i = Some u /\
    t_period t = t_period u) as Hper.
  { intros i t Hi. rewrite tick_get in Hi by done. destruct (zget (krnl_tcb k) i) as [u|]; [|done].
    exists u. split; [done|]. by destruct (decide _); injection Hi as <-. }
  split; [|done]. split; cbn; try done.
  - apply (tcbs_ok_moved _ rq dq tq); [by apply tcbs_ok_tick|done|..].
    + intros i t Hi Hin. destruct (Hper i t Hi) as (u & Hu & ->).
      apply elem_of_app in Hin as [Hin|Hin]; [by eapply (ok_bg _ _ _ _ ki_tcbs)|].
      apply elem_of_select in Hin as [Hf _]. unfold is_rt in Hf. rewrite Hu in Hf.
      destruct (nz (t_period u)) eqn:E0; [by rewrite andb_false_r in Hf|]. by apply nz_false.
    + intros i t Hi Hin. destruct (Hper i t Hi) as (u & Hu & ->).
      apply elem_of_app in Hin as [Hin|Hin]; [by eapply (ok_rt _ _ _ _ ki_tcbs)|].
      apply elem_of_select in Hin as [Hf _]. unfold is_rt in Hf. rewrite Hu in Hf.
      apply andb_prop in Hf as [_ Hf]. by apply nz_true.
    + apply elem_of_app. left. apply ki_tcbs.
  - by rewrite P.
  - by rewrite P.
  - apply (stacks_ok_perm _ _ (rq ++ dq ++ tq)); [done|]. by apply stacks_ok_tick.
Qed.

(** ** Priority round robin *)

Definition rem_of (T : list tcb_entry) (i : Z) : Z :=
  match zget T i with Some t => t_priority_rem t | None => 0 end.
Definition is_critical (T : list tcb_entry) (i : Z) : bool :=
  match zget T i with Some t => nz (t_critical t) && negb (t_state t =? TASK_BLOCKED) | None => false end.

(** The search of the lowest remaining priority among the tasks that can run. *)
Fixpoint prr_min (T : list tcb_entry) (l : list Z) (highestp : Z) (best : option Z) : option Z :=
  match l with
  | [] => best
  | i :: l =>
      if (rem_of T i <? highestp) && negb (is_blocked T i)
      then prr_min T l (rem_of T i) (Some i) else prr_min T l highestp best
  end.

Lemma prr_search_none_run T l : forall (k : kernel H) dn hi best,
  q_is (krnl_run_queue k) (l ++ dn) -> krnl_tcb k = T -> in_tcb T l ->
  Forall (fun i => is_critical T i = false) l ->
  exists q j, prr_search (length l) hi best k = Ok (Some (prr_min T l hi best),
      with_krnl_task j (with_krnl_run_queue q k)) /\ q_is q (dn ++ l).
Proof.
  induction l as [|i l IH]; intros k dn hi best Q ET Hr Hc; cbn [prr_search length prr_min].
  - exists (krnl_run_queue k), (krnl_task k). rewrite app_nil_r. split; [by destruct k|done].
  - apply Forall_cons_iff in Hc as [Hi Hc].
    destruct (queue_next_run RUN PANIC_NO_TASKS_RUN PANIC_CANT_PLACE_RUN k i _ Q) as (q1 & E1 & Q1).
    st_step E1. destruct (in_tcb_get _ _ i Hr) as [t Ht]; [by apply list_elem_of_here|].
    unfold is_critical, rem_of, is_blocked in *. rewrite Ht in Hi |- *.
    st_step (cur_get_at i t (with_krnl_run_queue q1 k) ltac:(cbn; by rewrite ET)). rewrite Hi.
    unfold mbind, ST_bind, gets. cbn [krnl_task with_krnl_task].
    destruct ((t_priority_rem t <? hi) && negb (t_state t =? TASK_BLOCKED));
      match goal with |- context [prr_search (length l) ?h ?b ?K] =>
        destruct (IH K (dn ++ [i]) h b)
          as (q2 & j & E2 & Q2);
          [cbn; by app_norm_in Q1|done| |done|
           rewrite E2; exists q2, j; split; [done|]; by app_norm_in Q2] end;
      intros x Hx; apply Hr; by apply list_elem_of_further.
Qed.

Lemma prr_search_crit_run T i t post pre : forall (k : kernel H) dn n hi best,
  q_is (krnl_run_queue k) (pre ++ i :: post ++ dn) -> krnl_tcb k = T -> in_tcb T (pre ++ [i]) ->
  Forall (fun i => is_critical T i = false) pre -> is_critical T i = true -> zget T i = Some t ->
  (length pre < n)%nat ->
  exists q, prr_search n hi best k = Ok (None,
      with_krnl_tcb (zset T i (set_critical 0 t)) (with_krnl_task i (with_krnl_run_queue q k))) /\
    q_is q (post ++ dn ++ pre ++ [i]).
Proof.
  induction pre as [|x pre IH]; intros k dn n hi best Q ET Hr Hc Hi Ht Hn;
    (destruct n as [|n]; [lia|]); cbn [prr_search].
  - destruct (queue_next_run RUN PANIC_NO_TASKS_RUN PANIC_CANT_PLACE_RUN k i _ Q) as (q1 & E1 & Q1).
    st_step E1. unfold is_critical in Hi. rewrite Ht in Hi.
    st_step (cur_get_at i t (with_krnl_run_queue q1 k) ltac:(cbn; by rewrite ET)). rewrite Hi.
    st_step (cur_mod_Ok t (set_critical 0) (with_krnl_task i (with_kqueue RUN q1 k))
      ltac:(cbn; by rewrite ET)).
    exists q1. split; [by rewrite <- ET|]. by app_norm_in Q1.
  - apply Forall_cons_iff in Hc as [Hx Hc].
    destruct (queue_next_run RUN PANIC_NO_TASKS_RUN PANIC_CANT_PLACE_RUN k x _ Q) as (q1 & E1 & Q1).
    st_step E1. destruct (in_tcb_get _ _ x Hr) as [v Hv]; [by apply list_elem_of_here|].
    unfold is_critical in Hx. rewrite Hv in Hx.
    st_step (cur_get_at x v (with_krnl_run_queue q1 k) ltac:(cbn; by rewrite ET)). rewrite Hx.
    unfold mbind, ST_bind, gets. cbn [krnl_task with_krnl_task].
    destruct ((t_priority_rem v <? hi) && negb (t_state v =? TASK_BLOCKED));
      match goal with |- context [prr_search n ?h ?b ?K] =>
        destruct (IH K (dn ++ [x]) n h b)
          as (q2 & E2 & Q2);
          [cbn; by app_norm_in Q1|done| |done|done|done|cbn in Hn; lia|
           rewrite E2; exists q2; split; [done|]; by app_norm_in Q2] end;
      intros y Hy; apply Hr; by apply list_elem_of_further.
Qed.

(** The aging of the tasks of [l] by the remaining priority of [b]. *)
Definition age_one (b : Z) (T : list tcb_entry) (i : Z) : list tcb_entry :=
  if i =? b then T
  else match zget T i with
       | Some t => zset T i (set_priority_rem (u8 (t_priority_rem t - rem_of T b)) t)
       | None => T
       end.
Definition age (b : Z) (T : list tcb_entry) (l : list Z) : list tcb_entry := foldl (age_one b) T l.

Lemma age_one_len b T i : zlen (age_one b T i) = zlen T.
Proof. unfold age_one. destruct (i =? b); [done|]. destruct (zget T i); [apply zset_zlen|done]. Qed.

Lemma age_loop_run b l : forall (k : kernel H) dn,
  q_is (krnl_run_queue k) (l ++ dn) -> in_tcb (krnl_tcb k) (b :: l) ->
  exists q j, repeat_k (length l) (prr_age (Some b)) k = Ok (tt, with_krnl_tcb (age b (krnl_tcb k) l)
      (with_krnl_task j (with_krnl_run_queue q k))) /\ q_is q (dn ++ l).
Proof.
  induction l as [|i l IH]; intros k dn Q Hr; cbn [repeat_k length].
  - exists (krnl_run_queue k), (krnl_task k). rewrite app_nil_r. split; [by destruct k|done].
  - destruct (queue_next_run RUN PANIC_NO_TASKS_RUN PANIC_CANT_PLACE_RUN k i _ Q) as (q1 & E1 & Q1).
    set (k1 := with_krnl_task i (with_krnl_run_queue q1 k)).
    assert (prr_age (Some b) k = Ok (tt, with_krnl_tcb (age_one b (krnl_tcb k) i) k1)) as E2.
    { unfold prr_age. st_step E1. unfold mbind at 1, ST_bind at 1, gets at 1.
      change (krnl_task (with_krnl_task i _)) with i. unfold age_one.
      destruct (Z.eqb_spec i b) as [->|Hne].
      { rewrite bool_decide_true by done. by destruct k. }
      rewrite bool_decide_false by congruence.
      destruct (in_tcb_get _ _ b Hr) as [tb Hb]; [by apply list_elem_of_here|].
      destruct (in_tcb_get _ _ i Hr) as [t Ht]; [by apply list_elem_of_further, list_elem_of_here|].
      st_step (tcb_get_Ok b tb k1 Hb).
      rewrite (cur_mod_Ok t _ k1 Ht). unfold rem_of. by rewrite Ht, Hb. }
    st_step E2. destruct (IH (with_krnl_tcb (age_one b (krnl_tcb k) i) k1) (dn ++ [i]))
      as (q2 & j & E3 & Q3).
    + cbn. by app_norm_in Q1.
    + cbn. intros x Hx. rewrite age_one_len. apply Hr.
      apply elem_of_cons in Hx as [->|Hx]; [apply list_elem_of_here|].
      by apply list_elem_of_further, list_elem_of_further.
    + rewrite E3. exists q2, j. split; [done|]. by app_norm_in Q3.
Qed.

(** The task the search returns: the first of those with the lowest remaining
    priority among the tasks that can run, if that is below [highestp]. *)
Lemma prr_min_spec T l : forall hi best,
  (exists i, prr_min T l hi best = Some i /\ i ∈ l /\ is_blocked T i = false /\ rem_of T i < hi /\
     forall j, j ∈ l -> is_blocked T j = false -> rem_of T i <= rem_of T j) \/
  (prr_min T l hi best = best /\
     forall j, j ∈ l -> is_blocked T j = false -> hi <= rem_of T j).
Proof.
  induction l as [|x l IH]; intros hi best; cbn.
  - right. split; [done|]. by intros j ?%elem_of_nil.
  - destruct (Z.ltb_spec (rem_of T x) hi) as [Hlt|Hge], (is_blocked T x) eqn:Hb; cbn.
    + destruct (IH hi best) as [(i & E & Hi & Hu & Hr & Hm)|[E Hm]].
      * left. exists i. split_and!; try done; [by apply list_elem_of_further|].
        intros j [->|Hj]%elem_of_cons Hjb; [congruence|auto].
      * right. split; [done|]. intros j [->|Hj]%elem_of_cons Hjb; [congruence|auto].
    + left. destruct (IH (rem_of T x) (Some x)) as [(i & E & Hi & Hu & Hr & Hm)|[E Hm]].
      * exists i. split_and!; try done; [by apply list_elem_of_further|lia|].
        intros j [->|Hj]%elem_of_cons Hjb; [lia|auto].
      * exists x. split_and!; try done; [by apply list_elem_of_here|].
        intros j [->|Hj]%elem_of_cons Hjb; [lia|auto].
    + destruct (IH hi best) as [(i & E & Hi & Hu & Hr & Hm)|[E Hm]].
      * left. exists i. split_and!; try done; [by apply list_elem_of_further|].
        intros j [->|Hj]%elem_of_cons Hjb; [congruence|auto].
      * right. split; [done|]. intros j [->|Hj]%elem_of_cons Hjb; [congruence|auto].
    + destruct (IH hi best) as [(i & E & Hi & Hu & Hr & Hm)|[E Hm]].
      * left. exists i. split_and!; try done; [by apply list_elem_of_further|].
        intros j [->|Hj]%elem_of_cons Hjb; [lia|auto].
      * right. split; [done|]. intros j [->|Hj]%elem_of_cons Hjb; [lia|auto].
Qed.

Lemma age_one_get b T i j : zget (age_one b T i) j =
  match zget T j with
  | Some t => if decide (i = j /\ j <> b)
              then Some (set_priority_rem (u8 (t_priority_rem t - rem_of T b)) t) else Some t
  | None => None
  end.
Proof.
  unfold age_one. destruct (Z.eqb_spec i b) as [->|Hib].
  - destruct (zget T j); [|done]. rewrite decide_False; [done|]. intros [-> ?]. done.
  - destruct (decide (i = j)) as [->|Hij].
    + destruct (zget T j) as [t|] eqn:E; [|by rewrite E].
      rewrite decide_True by done. apply zget_zset_eq. by eapply zget_Some_range.
    + destruct (zget T i); rewrite ?zget_zset_ne by done;
        (destruct (zget T j); [|done]); by rewrite decide_False by tauto.
Qed.

Lemma age_get b T l j : NoDup l -> zget (age b T l) j =
  match zget T j with
  | Some t => if decide (j ∈ l /\ j <> b)
              then Some (set_priority_rem (u8 (t_priority_rem t - rem_of T b)) t) else Some t
  | None => None
  end.
Proof.
  unfold age. revert T. induction l as [|i l IH]; intros T Hd; cbn.
  - destruct (zget T j); [|done]. rewrite decide_False; [done|]. by intros [?%elem_of_nil _].
  - apply list.NoDup_cons in Hd as [Hi Hd]. rewrite IH by done.
    assert (rem_of (age_one b T i) b = rem_of T b) as ->.
    { unfold rem_of. rewrite age_one_get. destruct (zget T b) as [t|]; [|done].
      rewrite decide_False; [done|tauto]. }
    rewrite age_one_get. destruct (zget T j) as [t|]; [|done].
    destruct (decide (i = j /\ j <> b)) as [[-> Hb]|Hn].
    + rewrite decide_False by tauto. rewrite decide_True; [done|].
      split; [apply list_elem_of_here|done].
    + destruct (decide (j ∈ l /\ j <> b)) as [[Hj Hb]|Hn2].
      * rewrite decide_True; [done|]. split; [by apply list_elem_of_further|done].
      * rewrite decide_False; [done|]. intros [[->|Hj]%elem_of_cons Hb]; tauto.
Qed.

(** The run queue as [sched_priorityrr] searches it. *)
Definition rotate (l : list Z) : list Z := match l with [] => [] | i :: l => l ++ [i] end.

Lemma rotate_perm l : rotate l ≡ₚ l.
Proof. destruct l as [|i l]; [done|]. cbn. by rewrite <- Permutation_cons_append. Qed.

Definition one_more_bgjob (t : tcb_entry) : tcb_entry := set_bgjobs (u32 (t_bgjobs t + 1)) t.

(** The task selected and the control blocks after [sched_priorityrr]: a critical
    task bypasses the queue; otherwise the task with the lowest remaining priority
    runs, the others age by that amount and it gets its priority back. *)
Inductive prr_outcome (T : list tcb_entry) (rq : list Z) : Z -> list tcb_entry -> Prop :=
| prr_critical pre i post t : rotate rq = pre ++ i :: post ->
    Forall (fun j => is_critical T j = false) pre -> is_critical T i = true -> zget T i = Some t ->
    prr_outcome T rq i (zset T i (one_more_bgjob (set_critical 0 t)))
| prr_lowest i t : Forall (fun j => is_critical T j = false) rq ->
    prr_min T (rotate rq) 255 None = Some i -> zget T i = Some t ->
    prr_outcome T rq i (zset (age i T (rotate rq)) i
      (one_more_bgjob (set_priority_rem (t_priority t) t))).

Lemma add_bgjob_at T i u k : 0 <= i < zlen T -> t_id u = i ->
  (_ ← add_bgjob; t ← cur_get; mret (t_id t)) (with_krnl_tcb (zset T i u) (with_krnl_task i k)) =
    Ok (i, with_krnl_tcb (zset T i (one_more_bgjob u)) (with_krnl_task i k)).
Proof.
  intros Hr Hid. rewrite (finish_bg_run _ i u); [|cbn; by apply zget_zset_eq|done|done].
  cbn. by rewrite zset_zset.
Qed.

Lemma sched_priorityrr_run k rq : q_is (krnl_run_queue k) rq -> in_tcb (krnl_tcb k) rq -> NoDup rq ->
  (forall i t, i ∈ rq -> zget (krnl_tcb k) i = Some t -> t_id t = i) ->
  (exists i, i ∈ rq /\ is_blocked (krnl_tcb k) i = false /\ rem_of (krnl_tcb k) i < 255) ->
  exists i q rq' T', sched_priorityrr k = Ok (i, with_krnl_tcb T' (with_krnl_task i (with_krnl_run_queue q k))) /\
    q_is q rq' /\ rq' ≡ₚ rq /\ prr_outcome (krnl_tcb k) rq i T'.
Proof.
  intros Q Hr Hd Hid (x & Hx & Hxb & Hxr). set (T := krnl_tcb k) in *.
  destruct rq as [|a l]; [by apply elem_of_nil in Hx|].
  unfold sched_priorityrr. st_step (on_queue_read RUN _ k _ (q_is_count _ _ Q)).
  replace (Z.to_nat (zlen (a :: l))) with (length (l ++ [a])).
  2:{ unfold zlen. rewrite Nat2Z.id, length_app. cbn. lia. }
  rewrite zlen_cons. pose proof (zlen_nonneg l). destruct (Z.eqb_spec (1 + zlen l) 0); [lia|].
  unfold mbind at 1, ST_bind at 1, when, mret at 1, ST_ret at 1.
  destruct (queue_next_run RUN PANIC_NO_TASKS_RUN PANIC_CANT_PLACE_RUN k a l Q) as (q1 & E1 & Q1).
  st_step E1. set (k1 := with_krnl_task a (with_kqueue RUN q1 k)).
  assert (rotate (a :: l) ≡ₚ a :: l) as P by apply rotate_perm. cbn [rotate] in P.
  assert (in_tcb T (l ++ [a])) as Hr' by (intros y Hy; apply Hr; by rewrite <- P).
  assert (NoDup (l ++ [a])) as Hd' by (by rewrite P).
  destruct (decide (Exists (fun j => is_critical T j = true) (l ++ [a]))) as [Hc|Hc].
  - (* a critical task *)
    apply list.Exists_exists in Hc as (c & Hc & Hcc).
    destruct (first_split (is_critical T) (l ++ [a])) as (pre & i & post & E & Hi & Hpre); [by exists c|].
    destruct (in_tcb_get T _ i Hr') as [t Ht].
    { rewrite E. apply elem_of_app. right. apply list_elem_of_here. }
    destruct (prr_search_crit_run T i t post pre k1 [] (length (l ++ [a])) 255 None) as (q2 & E2 & Q2);
      try done.
    { rewrite app_nil_r. cbn. by rewrite <- E. }
    { intros y Hy. apply Hr'. rewrite E. rewrite elem_of_app in *. rewrite elem_of_cons.
      destruct Hy as [Hy|Hy%list_elem_of_singleton]; tauto. }
    { rewrite E, length_app. cbn. lia. }
    st_step E2. unfold mbind at 1, ST_bind at 1, mret at 1, ST_ret at 1.
    exists i, q2, (post ++ pre ++ [i]), (zset T i (one_more_bgjob (set_critical 0 t))).
    split; [|split; [done|split]].
    + change (with_krnl_task i (with_krnl_run_queue q2 k1))
        with (with_krnl_task i (with_krnl_run_queue q2 k)).
      apply (add_bgjob_at T i (set_critical 0 t)); [by eapply zget_Some_range|].
      cbn. apply Hid; [|done]. rewrite <- P, E. apply elem_of_app. right. apply list_elem_of_here.
    + rewrite <- P, E, (Permutation_app_comm post), <- app_assoc. done.
    + by apply (prr_critical T (a :: l) pre i post t).
  - (* by priority *)
    assert (Forall (fun j => is_critical T j = false) (l ++ [a])) as Hnc.
    { apply list.Forall_forall. intros j Hj. destruct (is_critical T j) eqn:Ej; [|done].
      destruct Hc. apply list.Exists_exists. eauto. }
    destruct (prr_search_none_run T (l ++ [a]) k1 [] 255 None) as (q2 & j & E2 & Q2); try done.
    { by rewrite app_nil_r. }
    cbn [app] in Q2. st_step E2. set (k2 := with_krnl_task j (with_krnl_run_queue q2 k1)).
    destruct (prr_min_spec T (l ++ [a]) 255 None) as [(b & Eb & Hb & Hbu & Hbr & Hbm)|[_ Hm]].
    2:{ specialize (Hm x). rewrite P in Hm. specialize (Hm Hx Hxb). lia. }
    rewrite Eb. destruct (age_loop_run b (l ++ [a]) k2 []) as (q3 & j3 & E3 & Q3).
    { by rewrite app_nil_r. }
    { intros y [->|Hy]%elem_of_cons; by apply Hr'. }
    destruct (in_tcb_get T _ b Hr' Hb) as [t Ht].
    change (krnl_tcb k2) with T in E3. cbn [app] in Q3.
    assert (zget (age b T (l ++ [a])) b = Some t) as Ht'.
    { rewrite age_get, Ht by done. rewrite decide_False by tauto. done. }
    set (k3 := with_krnl_task b (with_krnl_tcb (age b T (l ++ [a])) (with_krnl_task j3 (with_krnl_run_queue q3 k2)))).
    assert ((_ ← repeat_k (length (l ++ [a])) (prr_age (Some b));
      _ ← set_task b; cur_mod (fun t => set_priority_rem (t_priority t) t) : @K H unit) k2 =
      Ok (tt, with_krnl_tcb (zset (age b T (l ++ [a])) b (set_priority_rem (t_priority t) t)) k3)) as E4.
    { st_step E3. exact (cur_mod_Ok t (fun t => set_priority_rem (t_priority t) t) k3 Ht'). }
    st_step E4. exists b, q3, (l ++ [a]), (zset (age b T (l ++ [a])) b
      (one_more_bgjob (set_priority_rem (t_priority t) t))).
    split; [|split; [done|split; [done|]]].
    + change (with_krnl_tcb (zset (age b T (l ++ [a])) b (set_priority_rem (t_priority t) t)) k3)
        with (with_krnl_tcb (zset (age b T (l ++ [a])) b (set_priority_rem (t_priority t) t))
          (with_krnl_task b (with_krnl_run_queue q3 k))).
      apply (add_bgjob_at (age b T (l ++ [a])) b (set_priority_rem (t_priority t) t));
        [by eapply zget_Some_range|]. cbn. apply Hid; [|done]. by rewrite <- P.
    + apply prr_lowest; try done. by rewrite <- P.
Qed.

(** ** Lottery *)

(** Blocked tasks are passed over, up to the next one that can run. *)
Lemma lottery_skip T x post pre : forall (k : kernel H) dn fuel r i,
  q_is (krnl_run_queue k) (pre ++ x :: post ++ dn) -> krnl_tcb k = T -> in_tcb T (pre ++ [x]) ->
  Forall (fun j => is_blocked T j = true) pre -> is_blocked T x = false -> krnl_tasks k <> 0 ->
  exists q, lottery_loop (length pre + S fuel) r i k =
      (if negb (cmod i (krnl_tasks k) =? r) then lottery_loop fuel r (i32 (i + 1)) else mret tt)
        (with_krnl_task x (with_krnl_run_queue q k)) /\
    q_is q (post ++ dn ++ pre ++ [x]).
Proof.
  induction pre as [|y pre IH]; intros k dn fuel r i Q ET Hr Hb Hx Hn; cbn [length Nat.add lottery_loop].
  - destruct (queue_next_run RUN PANIC_NO_TASKS_RUN PANIC_CANT_PLACE_RUN k x _ Q) as (q1 & E1 & Q1).
    st_step E1. destruct (in_tcb_get _ _ x Hr) as [t Ht]; [by apply list_elem_of_here|].
    unfold is_blocked in Hx. rewrite Ht in Hx.
    st_step (cur_get_at x t (with_krnl_run_queue q1 k) ltac:(cbn; by rewrite ET)).
    unfold mbind, ST_bind, gets. cbn [krnl_tasks with_krnl_task with_krnl_run_queue].
    rewrite Hx. destruct (Z.eqb_spec (krnl_tasks k) 0); [done|].
    exists q1. split; [done|]. by app_norm_in Q1.
  - apply Forall_cons_iff in Hb as [Hy Hb].
    destruct (queue_next_run RUN PANIC_NO_TASKS_RUN PANIC_CANT_PLACE_RUN k y _ Q) as (q1 & E1 & Q1).
    st_step E1. destruct (in_tcb_get _ _ y Hr) as [t Ht]; [by apply list_elem_of_here|].
    unfold is_blocked in Hy. rewrite Ht in Hy.
    st_step (cur_get_at y t (with_krnl_run_queue q1 k) ltac:(cbn; by rewrite ET)).
    unfold mbind, ST_bind, gets. rewrite Hy.
    destruct (IH (with_krnl_task y (with_krnl_run_queue q1 k)) (dn ++ [y]) fuel r i) as (q2 & E2 & Q2); try done.
    + cbn. by app_norm_in Q1.
    + intros z Hz. apply Hr. by apply list_elem_of_further.
    + exists q2. split; [exact E2|]. by app_norm_in Q2.
Qed.

Lemma lottery_run T d : forall (k : kernel H) l fuel r i, d = Z.to_nat (r - i) ->
  q_is (krnl_run_queue k) l -> krnl_tcb k = T -> in_tcb T l ->
  (exists x, x ∈ l /\ is_blocked T x = false) -> 0 <= i <= r -> r < krnl_tasks k < 65536 ->
  (S d * length l <= fuel)%nat ->
  exists x q l', lottery_loop fuel r i k = Ok (tt, with_krnl_task x (with_krnl_run_queue q k)) /\
    q_is q l' /\ l' ≡ₚ l /\ x ∈ l /\ is_blocked T x = false.
Proof.
  induction d as [|d IH]; intros k l fuel r i Hd Q ET Hr (x0 & Hx0 & Hb0) Hi Hn Hf;
    (destruct (first_split (fun j => negb (is_blocked T j)) l) as (pre & x & post & E & Hx & Hpre);
      [exists x0; by rewrite Hb0|]); apply negb_true_iff in Hx;
    assert (Forall (fun j => is_blocked T j = true) pre) as Hpre'
      by (eapply list.Forall_impl; [exact Hpre|]; intros j; cbn; by destruct (is_blocked T j));
    assert (x ∈ l) as Hin by (rewrite E; apply elem_of_app; right; apply list_elem_of_here);
    assert (in_tcb T (pre ++ [x])) as Hr'
      by (intros y Hy; apply Hr; rewrite E; rewrite elem_of_app in *; rewrite elem_of_cons;
          destruct Hy as [Hy|Hy%list_elem_of_singleton]; tauto);
    assert (exists f, fuel = (length pre + S f)%nat) as [f ->]
      by (exists (fuel - S (length pre))%nat; rewrite E, length_app in Hf; cbn in Hf; nia);
    (destruct (lottery_skip T x post pre k [] f r i) as (q & E2 & Q2);
      [rewrite app_nil_r; by rewrite <- E|done..|lia|]); cbn [app] in Q2;
    assert (post ++ pre ++ [x] ≡ₚ l) as P
      by (rewrite E, (Permutation_app_comm post), <- app_assoc; done);
    unfold cmod in E2; rewrite Z.rem_small in E2 by lia; rewrite E2.
  - destruct (Z.eqb_spec i r); [|lia]. by exists x, q, (post ++ pre ++ [x]).
  - destruct (Z.eqb_spec i r); [lia|]. cbn [negb]. rewrite i32_small by lia.
    destruct (IH (with_krnl_task x (with_krnl_run_queue q k)) (post ++ pre ++ [x]) f r (i + 1))
      as (x' & q' & l' & E3 & Q3 & P3 & Hx3 & Hb3); try done; try lia.
    + intros y Hy. apply Hr. by rewrite <- P.
    + exists x0. by rewrite P.
    + rewrite P. rewrite E, length_app in *. cbn in *. nia.
    + exists x', q', l'. rewrite E3. split; [done|]. split; [done|]. by rewrite P3, P in *.
Qed.

(** Every draw ends: [sched_lottery] returns a task that can run. *)
Lemma sched_lottery_run k l : q_is (krnl_run_queue k) l -> in_tcb (krnl_tcb k) l ->
  (forall i t, i ∈ l -> zget (krnl_tcb k) i = Some t -> t_id t = i) ->
  (exists x, x ∈ l /\ is_blocked (krnl_tcb k) x = false) -> 0 < krnl_tasks k < 65536 ->
  exists i t q l' s, sched_lottery k = Ok (i, with_krnl_tcb (zset (krnl_tcb k) i (one_more_bgjob t))
      (with_krnl_task i (with_krnl_run_queue q (with_rand1 s k)))) /\
    q_is q l' /\ l' ≡ₚ l /\ i ∈ l /\ is_blocked (krnl_tcb k) i = false /\
    zget (krnl_tcb k) i = Some t.
Proof.
  intros Q Hr Hid Hex Hn. unfold sched_lottery.
  set (s := u32 (rand1 k * 1103515245 + 12345)). set (k1 := with_rand1 s k).
  set (x := Z.land (Z.shiftr s 16) 32767).
  assert (random k = Ok (x, k1)) as Ex by reflexivity. st_step Ex.
  assert (0 <= x) as Hx by (apply Z.land_nonneg; lia).
  pose proof (Z.rem_bound_pos _ (krnl_tasks k) Hx ltac:(lia)) as Hrem. clearbody x.
  fold (cmod x (krnl_tasks k)) in Hrem.
  unfold mbind at 1, ST_bind at 1, gets at 1. change (krnl_tasks k1) with (krnl_tasks k).
  destruct (Z.eqb_spec (krnl_tasks k) 0); [lia|]. cbv zeta.
  set (r := cmod x (krnl_tasks k)) in *.
  st_step (on_queue_read RUN _ k1 _ (q_is_count _ _ Q)).
  destruct (Z.eqb_spec (zlen l) 0) as [E0|_].
  { destruct Hex as (y & Hx' & _). destruct l; [by apply elem_of_nil in Hx'|].
    rewrite zlen_cons in E0. pose proof (zlen_nonneg l). lia. }
  unfold mbind at 1, ST_bind at 1, when, mret at 1, ST_ret at 1.
  destruct (lottery_run (krnl_tcb k) (Z.to_nat (r - 0)) k1 l
    (Z.to_nat ((krnl_tasks k + 1) * (zlen l + 1))) r 0) as (i & q & l' & E & Q' & P & Hi & Hb); try done; try lia.
  { change (krnl_tasks k1) with (krnl_tasks k). lia. }
  { unfold zlen. nia. }
  destruct (in_tcb_get _ _ i Hr Hi) as [t Ht].
  st_step E. exists i, t, q, l', s. split; [|done].
  by rewrite (finish_bg_run _ i t) by (try done; by apply Hid).
Qed.

(** ** Rate monotonic *)

Definition period_at (T : list tcb_entry) (i : Z) : Z :=
  match zget T i with Some t => t_period t | None => 0 end.

(** The exchange sort of [sched_rma] on lists: [x] is compared with each task of
    [rest], those already compared are [dn]. *)
Fixpoint rm_inner (p : Z -> Z) (x : Z) (dn rest : list Z) : list Z :=
  match rest with
  | [] => x :: dn
  | y :: rest =>
      if p y <? p x then rm_inner p y (dn ++ [x]) rest else rm_inner p x (dn ++ [y]) rest
  end.
Fixpoint rm_sort (p : Z -> Z) (n : nat) (l : list Z) : list Z :=
  match n, l with
  | S n, x :: rest =>
      match rm_inner p x [] rest with y :: l => y :: rm_sort p n l | [] => [] end
  | _, _ => l
  end.

Lemma zswap_mid pre x dn y post :
  zswap (pre ++ x :: dn ++ y :: post) (zlen pre) (zlen pre + 1 + zlen dn) = pre ++ y :: dn ++ x :: post.
Proof.
  assert (zlen pre + 1 + zlen dn = zlen (pre ++ x :: dn)) as ->.
  { rewrite zlen_app, zlen_cons. lia. }
  unfold zswap. rewrite zget_mid.
  assert (forall z, pre ++ z :: dn ++ y :: post = (pre ++ z :: dn) ++ y :: post) as E.
  { intros z. by rewrite <- app_assoc. }
  rewrite E, zget_mid, <- E, zset_mid.
  replace (zlen (pre ++ x :: dn)) with (zlen (pre ++ y :: dn)) by (by rewrite !zlen_app, !zlen_cons).
  by rewrite E, zset_mid, <- app_assoc.
Qed.

Lemma period_of_run k i : 0 <= i < zlen (krnl_tcb k) ->
  period_of (Some i) k = Ok (period_at (krnl_tcb k) i, k).
Proof.
  intros Hi. destruct (zget_is_Some _ _ Hi) as [t Ht]. unfold period_of, period_at.
  st_step (tcb_get_Ok i t k Ht). by rewrite Ht.
Qed.

Lemma rma_inner_run T pre rest : forall (k : kernel H) x dn fuel n,
  q_is (krnl_rt_queue k) (pre ++ x :: dn ++ rest) -> krnl_tcb k = T ->
  in_tcb T (x :: rest) -> n = zlen (pre ++ x :: dn ++ rest) -> (length rest < fuel)%nat ->
  exists q, rma_inner fuel (zlen pre) (zlen pre + 1 + zlen dn) n k = Ok (tt, with_krnl_rt_queue q k) /\
    q_is q (pre ++ rm_inner (period_at T) x dn rest).
Proof.
  induction rest as [|y rest IH]; intros k x dn fuel n Q ET Hr Hn Hf;
    (destruct fuel as [|fuel]; [cbn in Hf; lia|]); cbn [rma_inner rm_inner].
  - rewrite app_nil_r in *. rewrite zlen_app, zlen_cons in Hn.
    destruct (Z.ltb_spec (zlen pre + 1 + zlen dn) n); [lia|].
    exists (krnl_rt_queue k). split; [by destruct k|done].
  - pose proof (zlen_nonneg pre). pose proof (zlen_nonneg dn). pose proof (zlen_nonneg rest).
    rewrite zlen_app, zlen_cons, zlen_app, zlen_cons in Hn.
    destruct (Z.ltb_spec (zlen pre + 1 + zlen dn) n); [|lia].
    unfold mbind, ST_bind.
    rewrite (on_queue_read RT _ k _ (q_is_get _ _ (zlen pre) Q ltac:(lia))), zget_mid.
    rewrite (on_queue_read RT _ k _ (q_is_get _ _ (zlen pre + 1 + zlen dn) Q ltac:(lia))).
    assert (zget (pre ++ x :: dn ++ y :: rest) (zlen pre + 1 + zlen dn) = Some y) as ->.
    { replace (zlen pre + 1 + zlen dn) with (zlen (pre ++ x :: dn)) by (rewrite zlen_app, zlen_cons; lia).
      replace (pre ++ x :: dn ++ y :: rest) with ((pre ++ x :: dn) ++ y :: rest) by by rewrite <- app_assoc.
      apply zget_mid. }
    rewrite (period_of_run k x) by (rewrite ET; apply Hr, list_elem_of_here).
    rewrite (period_of_run k y) by (rewrite ET; apply Hr, list_elem_of_further, list_elem_of_here).
    rewrite ET. destruct (period_at T y <? period_at T x).
    + cbn [when]. destruct (q_is_swap _ _ (zlen pre) (zlen pre + 1 + zlen dn) Q) as (q1 & E1 & Q1);
        [rewrite !zlen_app, !zlen_cons, zlen_app, zlen_cons; lia..|].
      rewrite zswap_mid in Q1. unfold mbind, ST_bind.
      rewrite (on_queue_Ok RT _ k _ _ E1). unfold nz. cbn [negb Z.eqb when]. unfold mret, ST_ret.
      destruct (IH (with_krnl_rt_queue q1 k) y (dn ++ [x]) fuel n) as (q2 & E2 & Q2).
      * cbn. by rewrite <- app_assoc.
      * done.
      * intros z Hz. apply Hr. by apply list_elem_of_further.
      * rewrite zlen_app, zlen_cons, !zlen_app. change (zlen [x]) with 1. lia.
      * cbn in Hf. lia.
      * rewrite zlen_app in E2. change (zlen [x]) with 1 in E2. rewrite Z.add_assoc in E2.
        exists q2. split; [exact E2|done].
    + unfold when, mret, ST_ret.
      destruct (IH k x (dn ++ [y]) fuel n) as (q2 & E2 & Q2).
      * by rewrite <- app_assoc.
      * done.
      * intros z Hz. apply Hr. apply elem_of_cons in Hz as [->|Hz]; [apply list_elem_of_here|].
        by apply list_elem_of_further, list_elem_of_further.
      * rewrite zlen_app, zlen_cons, !zlen_app. change (zlen [y]) with 1. lia.
      * cbn in Hf. lia.
      * rewrite zlen_app in E2. change (zlen [y]) with 1 in E2. rewrite Z.add_assoc in E2.
        exists q2. split; [exact E2|done].
Qed.

Lemma rm_inner_perm p rest : forall x dn, rm_inner p x dn rest ≡ₚ x :: dn ++ rest.
Proof.
  induction rest as [|y rest IH]; intros x dn; cbn; [by rewrite app_nil_r|].
  destruct (p y <? p x); rewrite IH; rewrite <- app_assoc; cbn; rewrite <- !Permutation_middle.
  - apply perm_swap.
  - done.
Qed.

(** The pass leaves a task with the least period in front. *)
Lemma rm_inner_min p rest : forall x dn, Forall (fun y => p x <= p y) dn ->
  exists y l, rm_inner p x dn rest = y :: l /\ Forall (fun z => p y <= p z) l.
Proof.
  induction rest as [|y rest IH]; intros x dn Hd; cbn; [by exists x, dn|].
  destruct (Z.ltb_spec (p y) (p x)); apply IH; apply Forall_app; split.
  - eapply list.Forall_impl; [exact Hd|]. cbn. lia.
  - apply Forall_cons_iff. split; [lia|done].
  - done.
  - apply Forall_cons_iff. split; [lia|done].
Qed.

Lemma rm_sort_perm p n : forall l, rm_sort p n l ≡ₚ l.
Proof.
  induction n as [|n IH]; intros [|x l]; cbn; try done.
  pose proof (rm_inner_perm p l x []) as P. cbn [app] in P.
  destruct (rm_inner p x [] l) as [|y l']; [by apply Permutation_nil_l in P|].
  by rewrite IH.
Qed.

Definition by_period (p : Z -> Z) (i j : Z) : Prop := p i <= p j.

Lemma rm_sort_sorted p n : forall l, (length l <= n)%nat -> StronglySorted (by_period p) (rm_sort p n l).
Proof.
  induction n as [|n IH]; intros [|x l] Hl; [apply SSorted_nil|cbn in Hl; lia|apply SSorted_nil|].
  cbn in *.
  destruct (rm_inner_min p l x []) as (y & l' & E & Hm); [done|].
  pose proof (rm_inner_perm p l x []) as P. rewrite E in P |- *. cbn [app] in P.
  apply Permutation_length in P. cbn in P. apply SSorted_cons; [apply IH; lia|].
  by rewrite rm_sort_perm.
Qed.

Lemma rma_sort_run T l : forall pre (k : kernel H) fuel n, q_is (krnl_rt_queue k) (pre ++ l) ->
  krnl_tcb k = T -> in_tcb T l -> n = zlen (pre ++ l) -> (length l < fuel)%nat ->
  exists q, rma_sort fuel (zlen pre) n k = Ok (tt, with_krnl_rt_queue q k) /\
    q_is q (pre ++ rm_sort (period_at T) (length l) l).
Proof.
  remember (length l) as m eqn:Em. revert l Em.
  induction m as [|m IH]; intros [|x l] Em pre k fuel n Q ET Hr Hn Hf; try (cbn in Em; lia);
    (destruct fuel as [|fuel]; [lia|]); cbn [rma_sort rm_sort]; rewrite zlen_app in Hn.
  - change (zlen []) with 0 in Hn. destruct (Z.ltb_spec (zlen pre) (n - 1)); [lia|].
    exists (krnl_rt_queue k). split; [by destruct k|done].
  - rewrite zlen_cons in Hn. cbn in Em. injection Em as ->.
    destruct (Z.ltb_spec (zlen pre) (n - 1)) as [Hlt|Hge].
    + destruct (rma_inner_run T pre l k x [] (S (Z.to_nat n)) n) as (q1 & E1 & Q1); try done.
      { cbn. rewrite zlen_app, zlen_cons. lia. }
      { pose proof (zlen_nonneg pre). unfold zlen in *. lia. }
      change (zlen []) with 0 in E1. rewrite Z.add_0_r in E1. st_step E1.
      pose proof (rm_inner_perm (period_at T) l x []) as P. cbn [app] in P.
      destruct (rm_inner (period_at T) x [] l) as [|y l'] eqn:Ei; [by apply Permutation_nil_l in P|].
      pose proof (Permutation_length P) as PL. cbn in PL. injection PL as PL.
      destruct (IH l' ltac:(lia) (pre ++ [y]) (with_krnl_rt_queue q1 k) fuel n) as (q2 & E2 & Q2).
      * cbn. by rewrite <- app_assoc.
      * done.
      * intros z Hz. apply Hr. rewrite <- P. by apply list_elem_of_further.
      * rewrite !zlen_app. change (zlen [y]) with 1. unfold zlen in *. lia.
      * lia.
      * rewrite zlen_app in E2. change (zlen [y]) with 1 in E2. rewrite E2.
        exists q2. split; [done|]. by rewrite <- app_assoc in Q2.
    + assert (l = []) as ->. { destruct l; [done|]. rewrite zlen_cons in Hn. pose proof (zlen_nonneg l). lia. }
      exists (krnl_rt_queue k). split; [by destruct k|done].
Qed.

(** A task that [sched_rma] may select. *)
Definition ready (T : list tcb_entry) (i : Z) : bool :=
  match zget T i with
  | Some t => negb (t_state t =? TASK_BLOCKED) && (0 <? t_capacity_rem t)
  | None => false
  end.

(** The first task of a list that is ready; 0 is no task. *)
Fixpoint first_ready (T : list tcb_entry) (l : list Z) : Z :=
  match l with [] => 0 | i :: l => if ready T i then i else first_ready T l end.

(** The accounting of one tick: a selected task spends one unit of capacity; at
    the end of its deadline a task that has capacity left missed it, and a new
    period starts. *)
Definition rma_tick (sel : bool) (t : tcb_entry) : tcb_entry :=
  let t := if sel then set_capacity_rem (u16 (t_capacity_rem t - 1)) t else t in
  let t := set_deadline_rem (u16 (t_deadline_rem t - 1)) t in
  if t_deadline_rem t =? 0 then
    let u := set_deadline_rem (t_period t) t in
    let u := if 0 <? t_capacity_rem t then set_deadline_misses (u32 (t_deadline_misses u + 1)) u else u in
    set_capacity_rem (t_capacity u) u
  else t.

Definition rma_one (T : list tcb_entry) (sel : bool) (i : Z) : list tcb_entry :=
  match zget T i with Some t => zset T i (rma_tick sel t) | None => T end.

Lemma rma_turn_run k i t id l : q_is (krnl_rt_queue k) (i :: l) ->
  zget (krnl_tcb k) i = Some t -> t_id t = i ->
  exists q, rma_turn id k =
      Ok (if ready (krnl_tcb k) i && (id =? 0) then i else id,
          with_krnl_tcb (rma_one (krnl_tcb k) (ready (krnl_tcb k) i && (id =? 0)) i)
            (with_krnl_task i (with_krnl_rt_queue q k))) /\
    q_is q (l ++ [i]).
Proof.
  intros Q Ht Hid. pose proof (zget_Some_range _ _ _ Ht) as Hr.
  destruct (queue_next_run RT PANIC_NO_TASKS_RT PANIC_CANT_PLACE_RT k i l Q) as (q & E & Q').
  exists q. split; [|done]. unfold rma_turn. st_step E.
  set (k1 := with_krnl_task i (with_kqueue RT q k)).
  st_step (cur_get_Ok t k1 Ht). unfold ready, rma_one. rewrite Ht.
  set (sel := negb (t_state t =? TASK_BLOCKED) && (0 <? t_capacity_rem t) && (id =? 0)).
  set (t1 := if sel then set_capacity_rem (u16 (t_capacity_rem t - 1)) t else t).
  assert ((if sel then
     _ ← cur_mod (fun t => set_capacity_rem (u16 (t_capacity_rem t - 1)) t); mret (t_id t)
     else mret id : @K H Z) k1 = Ok (if sel then i else id, with_krnl_tcb (zset (krnl_tcb k) i t1) k1)) as E1.
  { unfold t1. destruct sel.
    - st_step (cur_mod_Ok t (fun t => set_capacity_rem (u16 (t_capacity_rem t - 1)) t) k1 Ht).
      by rewrite Hid.
    - assert (zset (krnl_tcb k) i t = krnl_tcb k) as ->; [|by destruct k].
      apply list_eq_zget; [by rewrite zset_zlen|]. intros j Hj.
      destruct (decide (i = j)) as [->|]; [by rewrite zget_zset_eq|by rewrite zget_zset_ne]. }
  st_step E1. set (t2 := set_deadline_rem (u16 (t_deadline_rem t1 - 1)) t1).
  st_step (cur_mod_at (krnl_tcb k) i t1 (fun t => set_deadline_rem (u16 (t_deadline_rem t - 1)) t)
    k1 eq_refl Hr). fold t2.
  st_step (cur_get_Ok t2 (with_krnl_tcb (zset (krnl_tcb k) i t2) k1) ltac:(by apply zget_zset_eq)).
  assert ((when (t_deadline_rem t2 =? 0) (
        _ ← cur_mod (fun t => set_deadline_rem (t_period t) t);
        _ ← when (0 <? t_capacity_rem t2)
              (cur_mod (fun t => set_deadline_misses (u32 (t_deadline_misses t + 1)) t));
        cur_mod (fun t => set_capacity_rem (t_capacity t) t))) (with_krnl_tcb (zset (krnl_tcb k) i t2) k1)
    = Ok (tt, with_krnl_tcb (zset (krnl_tcb k) i (rma_tick sel t)) k1)) as E2.
  { unfold rma_tick. fold t1. cbv zeta. fold t2. destruct (t_deadline_rem t2 =? 0); [|done]. cbn [when].
    st_step (cur_mod_at (krnl_tcb k) i t2 (fun t => set_deadline_rem (t_period t) t) k1 eq_refl Hr).
    set (t3 := set_deadline_rem (t_period t2) t2).
    destruct (0 <? t_capacity_rem t2); cbn [when].
    - st_step (cur_mod_at (krnl_tcb k) i t3 (fun t => set_deadline_misses (u32 (t_deadline_misses t + 1)) t)
        k1 eq_refl Hr).
      exact (cur_mod_at (krnl_tcb k) i _ (fun t => set_capacity_rem (t_capacity t) t) k1 eq_refl Hr).
    - exact (cur_mod_at (krnl_tcb k) i t3 (fun t => set_capacity_rem (t_capacity t) t) k1 eq_refl Hr). }
  st_step E2. done.
Qed.

(** The loop over the sorted queue: the task selected and the entries after. *)
Fixpoint rma_fold (T : list tcb_entry) (id : Z) (l : list Z) : Z * list tcb_entry :=
  match l with
  | [] => (id, T)
  | i :: l =>
      let sel := ready T i && (id =? 0) in
      rma_fold (rma_one T sel i) (if sel then i else id) l
  end.

Lemma rma_one_get T sel i j : zget (rma_one T sel i) j =
  match zget T j with
  | Some t => if decide (i = j) then Some (rma_tick sel t) else Some t
  | None => None
  end.
Proof.
  unfold rma_one. destruct (decide (i = j)) as [->|Hne].
  - destruct (zget T j) as [t|] eqn:E; [|by rewrite E]. apply zget_zset_eq. by eapply zget_Some_range.
  - destruct (zget T i); rewrite ?zget_zset_ne by done; by destruct (zget T j).
Qed.

Lemma rma_update_run l : forall (k : kernel H) dn id, q_is (krnl_rt_queue k) (l ++ dn) ->
  NoDup l -> (forall i, i ∈ l -> exists t, zget (krnl_tcb k) i = Some t /\ t_id t = i) ->
  exists q j, rma_update (length l) id k = Ok ((rma_fold (krnl_tcb k) id l).1,
      with_krnl_tcb (rma_fold (krnl_tcb k) id l).2 (with_krnl_task j (with_krnl_rt_queue q k))) /\
    q_is q (dn ++ l).
Proof.
  induction l as [|i l IH]; intros k dn id Q Hd Hg; cbn [rma_update length rma_fold].
  - exists (krnl_rt_queue k), (krnl_task k). rewrite app_nil_r. split; [by destruct k|done].
  - apply list.NoDup_cons in Hd as [Hi Hd].
    destruct (Hg i) as (t & Ht & Hid); [apply list_elem_of_here|].
    destruct (rma_turn_run k i t id _ Q Ht Hid) as (q1 & E1 & Q1). st_step E1.
    destruct (IH (with_krnl_tcb (rma_one (krnl_tcb k) (ready (krnl_tcb k) i && (id =? 0)) i)
      (with_krnl_task i (with_krnl_rt_queue q1 k))) (dn ++ [i])
      (if ready (krnl_tcb k) i && (id =? 0) then i else id)) as (q2 & j & E2 & Q2).
    + cbn. by app_norm_in Q1.
    + done.
    + cbn. intros x Hx. rewrite rma_one_get.
      destruct (Hg x) as (u & Hu & Hxid); [by apply list_elem_of_further|]. rewrite Hu.
      rewrite decide_False by (intros ->; done). eauto.
    + rewrite E2. exists q2, j. split; [done|]. by app_norm_in Q2.
Qed.

(** The selected task is the first ready one, and every task is accounted. *)
Lemma rma_fold_spec l : forall T id, NoDup l -> 0 ∉ l ->
  (rma_fold T id l).1 = (if id =? 0 then first_ready T l else id) /\
  forall j, zget (rma_fold T id l).2 j =
    match zget T j with
    | Some t => if decide (j ∈ l)
                then Some (rma_tick ((id =? 0) && (first_ready T l =? j)) t) else Some t
    | None => None
    end.
Proof.
  induction l as [|i l IH]; intros T id Hd H0; cbn.
  - split; [by destruct (Z.eqb_spec id 0)|]. intros j. by destruct (zget T j).
  - apply list.NoDup_cons in Hd as [Hi Hd].
    apply not_elem_of_cons in H0 as [Hi0 H0]. set (sel := ready T i && (id =? 0)).
    destruct (IH (rma_one T sel i) (if sel then i else id) Hd H0) as [IH1 IH2].
    assert (forall b, first_ready (rma_one T b i) l = first_ready T l) as Hfr.
    { intros b. clear -Hi. induction l as [|x l IHl]; cbn; [done|].
      apply not_elem_of_cons in Hi as [Hx Hi]. rewrite IHl by done.
      unfold ready. rewrite rma_one_get. destruct (zget T x); [|done].
      by rewrite decide_False by congruence. }
    assert (first_ready T l <> i) as Hfi.
    { clear -Hi Hi0. induction l as [|x l IHl]; cbn; [done|].
      apply not_elem_of_cons in Hi as [Hx Hi]. destruct (ready T x); [done|auto]. }
    split.
    + rewrite IH1, Hfr. subst sel. destruct (Z.eqb_spec id 0) as [->|Hid].
      * destruct (ready T i); cbn; [|done]. destruct (Z.eqb_spec i 0); [done|done].
      * rewrite andb_false_r. destruct (Z.eqb_spec id 0); [done|done].
    + intros j. rewrite IH2, rma_one_get, Hfr. destruct (zget T j) as [t|] eqn:Ej; [|done].
      destruct (decide (i = j)) as [<-|Hne].
      * rewrite (decide_False (P := i ∈ l)) by done.
        rewrite (decide_True (P := i ∈ i :: l)) by apply list_elem_of_here.
        do 2 f_equal. subst sel. destruct (Z.eqb_spec id 0), (ready T i); cbn; try done.
        -- by rewrite Z.eqb_refl.
        -- by destruct (Z.eqb_spec (first_ready T l) i).
      * destruct (decide (j ∈ l)) as [Hj|Hj].
        -- rewrite decide_True by (by apply list_elem_of_further).
           do 2 f_equal. subst sel. destruct (Z.eqb_spec id 0) as [->|Hid], (ready T i); cbn; try done.
           ++ destruct (Z.eqb_spec i 0), (Z.eqb_spec i j); done.
           ++ by destruct (Z.eqb_spec id 0).
           ++ by destruct (Z.eqb_spec id 0).
        -- rewrite decide_False; [done|]. by intros [->|?]%elem_of_cons.
Qed.

(** The realtime queue once sorted, the task [sched_rma] selects, and the control
    blocks it leaves. *)
Definition rma_order (T : list tcb_entry) (tq : list Z) : list Z :=
  rm_sort (period_at T) (length tq) tq.
Definition rma_select (T : list tcb_entry) (tq : list Z) : Z := first_ready T (rma_order T tq).
Definition one_more_rtjob (t : tcb_entry) : tcb_entry := set_rtjobs (u32 (t_rtjobs t + 1)) t.
Definition rma_tcbs (T : list tcb_entry) (tq : list Z) : list tcb_entry :=
  let T' := (rma_fold T 0 (rma_order T tq)).2 in
  let i := rma_select T tq in
  if i =? 0 then T'
  else match zget T' i with Some t => zset T' i (one_more_rtjob t) | None => T' end.

Lemma first_ready_in T l : first_ready T l <> 0 -> first_ready T l ∈ l.
Proof.
  induction l as [|i l IH]; cbn; [done|]. destruct (ready T i).
  - intros _. apply list_elem_of_here.
  - intros Hn. by apply list_elem_of_further, IH.
Qed.

Lemma sched_rma_run k tq : q_is (krnl_rt_queue k) tq -> in_tcb (krnl_tcb k) tq -> NoDup tq -> 0 ∉ tq ->
  (forall i, i ∈ tq -> exists t, zget (krnl_tcb k) i = Some t /\ t_id t = i) ->
  exists q j, sched_rma k = Ok (rma_select (krnl_tcb k) tq,
      with_krnl_tcb (rma_tcbs (krnl_tcb k) tq) (with_krnl_task j (with_krnl_rt_queue q k))) /\
    q_is q (rma_order (krnl_tcb k) tq) /\
    (rma_select (krnl_tcb k) tq <> 0 -> j = rma_select (krnl_tcb k) tq).
Proof.
  intros Q Hr Hd H0 Hg. set (T := krnl_tcb k) in *. unfold sched_rma.
  st_step (on_queue_read RT _ k _ (q_is_count _ _ Q)).
  destruct (Z.eqb_spec (zlen tq) 0) as [E0|_].
  { assert (tq = []) as ->. { destruct tq; [done|]. rewrite zlen_cons in E0. pose proof (zlen_nonneg tq). lia. }
    exists (krnl_rt_queue k), (krnl_task k). split; [by destruct k|done]. }
  destruct (rma_sort_run T tq [] k (S (Z.to_nat (zlen tq))) (zlen tq)) as (q1 & E1 & Q1); try done.
  { unfold zlen. lia. }
  change (zlen []) with 0 in E1. st_step E1. cbn [app] in Q1. fold (rma_order T tq) in Q1.
  pose proof (rm_sort_perm (period_at T) (length tq) tq) as P. fold (rma_order T tq) in P.
  assert (NoDup (rma_order T tq)) as Hd' by (by rewrite P).
  assert (0 ∉ rma_order T tq) as H0' by (by rewrite P).
  destruct (rma_update_run (rma_order T tq) (with_krnl_rt_queue q1 k) [] 0) as (q2 & j & E2 & Q2).
  { by rewrite app_nil_r. } { done. } { intros i. rewrite P. apply Hg. }
  cbn [app] in Q2. change (krnl_tcb (with_krnl_rt_queue q1 k)) with T in E2.
  replace (Z.to_nat (zlen tq)) with (length (rma_order T tq)).
  2:{ unfold zlen. by rewrite Nat2Z.id, (Permutation_length P). }
  destruct (rma_fold_spec (rma_order T tq) T 0 Hd' H0') as [F1 F2]. cbn in F1.
  st_step E2. rewrite F1. fold (rma_select T tq). unfold rma_tcbs, nz.
  destruct (Z.eqb_spec (rma_select T tq) 0) as [Es|Hs]; cbn [negb].
  - rewrite Es. by exists q2, 0.
  - assert (forall x, x ∈ rma_order T tq -> x ∈ tq) as Hsub by (intros x; by rewrite P).
    assert (rma_select T tq ∈ tq) as Hin by (by apply Hsub, first_ready_in).
    destruct (Hg _ Hin) as (t & Ht & _).
    assert (exists u, zget (rma_fold T 0 (rma_order T tq)).2 (rma_select T tq) = Some u) as (u & Hu).
    { rewrite F2, Ht. destruct (decide _); eauto. }
    rewrite Hu. exists q2, (rma_select T tq). split; [|done].
    unfold mbind at 1, ST_bind at 1, set_task, modify.
    set (k3 := with_krnl_task (rma_select T tq) _).
    st_step (cur_mod_Ok u (fun t => set_rtjobs (u32 (t_rtjobs t + 1)) t) k3 Hu). done.
Qed.

(** ** The schedulers keep the invariant *)

(** Every entry is the same task as before, and the idle task still runs. *)
Definition same_tasks (T T' : list tcb_entry) : Prop :=
  zlen T' = zlen T /\
  forall j u, zget T' j = Some u -> exists t, zget T j = Some t /\ keeps_task t u /\
    t_state u = t_state t /\ (j = 0 -> t_priority t < 255 -> t_priority_rem t < 255 ->
      t_priority u < 255 /\ t_priority_rem u < 255).

Lemma same_tasks_refl T : same_tasks T T.
Proof. split; [done|]. intros j u Hu. exists u. by split_and!. Qed.

Lemma same_tasks_trans T1 T2 T3 : same_tasks T1 T2 -> same_tasks T2 T3 -> same_tasks T1 T3.
Proof.
  intros [L1 H1] [L2 H2]. split; [congruence|]. intros j u Hu.
  destruct (H2 j u Hu) as (t2 & Ht2 & (A1 & A2 & A3 & A4 & A5 & A6) & S2 & I2).
  destruct (H1 j t2 Ht2) as (t1 & Ht1 & (B1 & B2 & B3 & B4 & B5 & B6) & S1 & I1).
  exists t1. split; [done|]. split; [split_and!; try congruence; auto|]. split; [congruence|].
  intros Hj P1 P2. destruct (I1 Hj P1 P2). auto.
Qed.

Lemma same_tasks_mod T i t u : zget T i = Some t -> keeps_task t u -> t_state u = t_state t ->
  (i = 0 -> t_priority t < 255 -> t_priority_rem t < 255 -> t_priority u < 255 /\ t_priority_rem u < 255) ->
  same_tasks T (zset T i u).
Proof.
  intros Ht K S I. split; [apply zset_zlen|].
  intros j v [(<- & <- & _)|[Hne Hv]]%zget_zset_Some; [by exists t|].
  exists v. by split_and!.
Qed.

Lemma same_tasks_ok T T' rq dq tq : same_tasks T T' -> tcbs_ok T rq dq tq -> tcbs_ok T' rq dq tq.
Proof.
  intros [L Hs] []. split; try done.
  - by rewrite L.
  - intros j u Hu. destruct (Hs j u Hu) as (t & Ht & (K1 & K2 & _) & _). rewrite K2. auto.
  - intros j u Hu. destruct (Hs j u Hu) as (t & Ht & (K1 & _) & _). rewrite K1. auto.
  - intros j u Hu. destruct (Hs j u Hu) as (t & Ht & (_ & _ & K3 & _) & _). rewrite K3. eauto.
  - intros j u Hu. destruct (Hs j u Hu) as (t & Ht & (_ & _ & K3 & _) & _). rewrite K3. eauto.
  - intros j u Hu. destruct (Hs j u Hu) as (t & Ht & (_ & _ & _ & _ & K5 & _) & _). rewrite K5. eauto.
  - intros j u Hu. destruct (Hs j u Hu) as (t & Ht & (_ & _ & _ & _ & _ & K6) & _). apply K6. eauto.
  - intros u Hu. destruct (Hs 0 u Hu) as (t & Ht & _ & S & I).
    destruct (ok_idle_runs t Ht) as (R1 & R2 & R3). rewrite S. split; [done|]. auto.
Qed.

Lemma same_tasks_stacks T T' h all : same_tasks T T' -> stacks_ok T h all -> stacks_ok T' h all.
Proof.
  intros [L Hs] []. split; [done| |].
  - intros j u Hu Hj. destruct (Hs j u Hu) as (t & Ht & (_ & _ & _ & K4 & _) & _). rewrite K4. eauto.
  - intros i j u v Hu Hv Hi Hj. destruct (Hs i u Hu) as (t & Ht & (_ & _ & _ & K4 & _) & _).
    destruct (Hs j v Hv) as (w & Hw & (_ & _ & _ & L4 & _) & _). rewrite K4, L4. eauto.
Qed.

Lemma same_tasks_blocked T T' j : same_tasks T T' -> is_blocked T' j = true -> is_blocked T j = true.
Proof.
  intros [L Hs]. unfold is_blocked. destruct (zget T' j) as [u|] eqn:E; [|done].
  destruct (Hs j u E) as (t & -> & _ & -> & _). done.
Qed.

Lemma same_tasks_blocked_eq T T' j : same_tasks T T' -> is_blocked T' j = is_blocked T j.
Proof.
  intros [Hl S]. unfold is_blocked. destruct (zget T' j) as [u|] eqn:E.
  - destruct (S j u E) as (t & -> & _ & -> & _). done.
  - destruct (zget T j) as [t|] eqn:E'; [|done]. apply zget_Some_range in E'. rewrite <- Hl in E'.
    destruct (zget_is_Some T' j E') as [u Hu]. by rewrite E in Hu.
Qed.

Lemma prr_same_tasks T rq dq tq i T' : tcbs_ok T rq dq tq -> prr_outcome T rq i T' ->
  same_tasks T T' /\ i ∈ rq /\ is_blocked T i = false.
Proof.
  intros I [pre j post t E Hpre Hc Ht|j t Hc Em Ht].
  - split; [by eapply same_tasks_mod|]. split.
    + rewrite <- rotate_perm, E. apply elem_of_app. right. apply list_elem_of_here.
    + unfold is_critical, is_blocked in *. rewrite Ht in *.
      apply andb_prop in Hc as [_ Hc]. by apply negb_true_iff in Hc.
  - pose proof (NoDup3 _ _ _ (ok_nodup _ _ _ _ I)) as (D1 & _ & _).
    assert (NoDup (rotate rq)) as Hd by by rewrite rotate_perm.
    destruct (prr_min_spec T (rotate rq) 255 None) as [(b & Eb & Hb & Hbu & Hbr & Hbm)|[E _]];
      [|congruence]. rewrite Em in Eb. injection Eb as <-.
    assert (Hin : forall x, x ∈ rotate rq <-> x ∈ rq) by (intros x; by rewrite rotate_perm).
    assert (same_tasks T (age j T (rotate rq))) as Sa.
    { split.
      - unfold age. clear. revert T. induction (rotate rq) as [|x l IH]; intros T; cbn; [done|].
        by rewrite IH, age_one_len.
      - intros x u Hu. rewrite age_get in Hu by done. destruct (zget T x) as [v|] eqn:Hv; [|done].
        exists v. split; [done|]. destruct (decide _) as [[Hx Hxj]|_]; injection Hu as <-.
        + split; [|split; [done|]].
          * split_and!; try done. intros [P1 P2]. split; [done|]. cbn. apply u8_range.
          * intros -> P1 P2. split; [done|]. cbn.
            destruct (ok_idle_runs _ _ _ _ I v Hv) as (Hnb & _ & _).
            assert (is_blocked T 0 = false) as Hb0.
            { unfold is_blocked. rewrite Hv. by apply Z.eqb_neq. }
            specialize (Hbm 0 Hx Hb0). unfold rem_of in *. rewrite Hv, Ht in *.
            pose proof (ok_prio _ _ _ _ I 0 v Hv) as [_ Q1]. pose proof (ok_prio _ _ _ _ I j t Ht) as [_ Q2].
            rewrite u8_small by lia. lia.
        + by split_and!. }
    split; [|split; [by apply Hin|done]].
    apply (same_tasks_trans _ (age j T (rotate rq))); [done|].
    apply (same_tasks_mod _ j t); [|split_and!; try done; by intros [P1 _]|done|].
    + rewrite age_get, Ht by done. rewrite decide_False; [done|]. by intros [_ ?].
    + intros _ P1 P2. done.
Qed.

(** Any best effort scheduler of the processor control block returns a task of
    the run queue that is not blocked, and only rotates the queue. *)
Lemma sched_be_run be k rq dq tq : kinv k rq dq tq -> be <> sched_rma_p ->
  exists i q s rq' T', run_sched be k = Ok (i, with_krnl_tcb T'
      (with_krnl_task i (with_krnl_run_queue q (with_rand1 s k)))) /\
    q_is q rq' /\ rq' ≡ₚ rq /\ i ∈ rq /\ is_blocked (krnl_tcb k) i = false /\
    same_tasks (krnl_tcb k) T'.
Proof.
  intros [] Hbe. pose proof (ok_total _ _ _ _ ki_tcbs) as Htot.
  assert (in_tcb (krnl_tcb k) rq) as Hr.
  { intros i Hi. rewrite (ok_len _ _ _ _ ki_tcbs). apply (ok_range _ _ _ _ ki_tcbs), elem_of_app. by left. }
  assert (forall i t, i ∈ rq -> zget (krnl_tcb k) i = Some t -> t_id t = i) as Hid.
  { intros i t Hi Ht. eapply (ok_id _ _ _ _ ki_tcbs); [done|]. apply elem_of_app. by left. }
  pose proof (ok_idle _ _ _ _ ki_tcbs) as H0.
  destruct (in_tcb_get _ _ 0 Hr H0) as [t0 Ht0].
  destruct (ok_idle_runs _ _ _ _ ki_tcbs t0 Ht0) as (R1 & R2 & R3).
  assert (is_blocked (krnl_tcb k) 0 = false) as Hb0.
  { unfold is_blocked. rewrite Ht0. by apply Z.eqb_neq. }
  assert (0 < krnl_tasks k < 65536) as Hn.
  { rewrite ki_count. unfold MAX_TASKS in Htot. split; [|lia].
    destruct rq as [|a rq]; [by apply elem_of_nil in H0|]. cbn [app]. rewrite zlen_cons.
    pose proof (zlen_nonneg (rq ++ dq ++ tq)). lia. }
  assert (with_rand1 (rand1 k) k = k) as Ek by by destruct k.
  destruct be; cbn [run_sched]; [done| | |].
  - destruct (first_split (fun j => negb (is_blocked (krnl_tcb k) j)) rq)
      as (pre & i & post & E & Hi & Hpre); [exists 0; by rewrite Hb0|]. apply negb_true_iff in Hi.
    assert (i ∈ rq) as Hin by (rewrite E; apply elem_of_app; right; apply list_elem_of_here).
    destruct (in_tcb_get _ _ i Hr Hin) as [t Ht].
    destruct (sched_rr_run k pre i post t) as (q & E1 & Q1); try done.
    + by rewrite <- E.
    + intros x Hx. apply Hr. rewrite E. rewrite elem_of_app in *. rewrite elem_of_cons.
      destruct Hx as [Hx|Hx%list_elem_of_singleton]; tauto.
    + eapply list.Forall_impl; [exact Hpre|]. intros j Hj. cbn in Hj. by apply negb_false_iff in Hj.
    + by apply Hid.
    + exists i, q, (rand1 k), (post ++ pre ++ [i]), (zset (krnl_tcb k) i (one_more_bgjob t)).
      rewrite Ek. split; [exact E1|]. split_and!; try done.
      * rewrite E, (Permutation_app_comm post), <- app_assoc. done.
      * by eapply same_tasks_mod.
  - destruct (sched_lottery_run k rq) as (i & t & q & l' & s & E & Q & P & Hi & Hb & Ht); try done.
    { by exists 0. }
    exists i, q, s, l', (zset (krnl_tcb k) i (one_more_bgjob t)). split_and!; try done.
    by eapply same_tasks_mod.
  - pose proof (NoDup3 _ _ _ (ok_nodup _ _ _ _ ki_tcbs)) as (D1 & _ & _).
    destruct (sched_priorityrr_run k rq) as (i & q & l' & T' & E & Q & P & O); try done.
    { exists 0. unfold rem_of. by rewrite Ht0. }
    destruct (prr_same_tasks _ _ _ _ _ _ ki_tcbs O) as (S & Hi & Hb).
    exists i, q, (rand1 k), l', T'. by rewrite Ek.
Qed.

Lemma rma_tick_keeps sel t : keeps_task t (rma_tick sel t) /\ t_state (rma_tick sel t) = t_state t /\
  t_priority (rma_tick sel t) = t_priority t /\ t_priority_rem (rma_tick sel t) = t_priority_rem t.
Proof.
  unfold rma_tick. cbv zeta.
  destruct sel; destruct (_ =? 0); try destruct (0 <? _); by split_and!.
Qed.

Lemma rma_same_tasks T tq : NoDup tq -> 0 ∉ tq -> same_tasks T (rma_tcbs T tq).
Proof.
  intros Hd H0. unfold rma_tcbs.
  pose proof (rm_sort_perm (period_at T) (length tq) tq) as P. fold (rma_order T tq) in P.
  destruct (rma_fold_spec (rma_order T tq) T 0) as [_ F]; [by rewrite P|by rewrite P|].
  assert (same_tasks T (rma_fold T 0 (rma_order T tq)).2) as S.
  { split.
    - generalize (rma_order T tq), 0. clear. intros l. revert T.
      induction l as [|x l IH]; intros T i; cbn; [done|].
      rewrite IH. unfold rma_one. destruct (zget T x); [apply zset_zlen|done].
    - intros j u Hu. rewrite F in Hu. destruct (zget T j) as [t|]; [|done]. exists t. split; [done|].
      destruct (decide _); injection Hu as <-; [|by split_and!].
      match goal with |- keeps_task _ (rma_tick ?b _) /\ _ =>
        destruct (rma_tick_keeps b t) as (K & S & P1 & P2) end.
      split; [done|]. split; [done|]. intros _. by rewrite P1, P2. }
  cbv zeta. destruct (rma_select T tq =? 0); [exact S|].
  destruct (zget _ (rma_select T tq)) as [u|] eqn:Hu; [|done].
  apply (same_tasks_trans _ (rma_fold T 0 (rma_order T tq)).2); [done|]. by eapply same_tasks_mod.
Qed.

(** ** What the dispatcher looks at *)

(** The fields of a task that decide where it goes and whether it is selected. *)
Definition view (t : tcb_entry) : Z * Z * Z * bool :=
  (t_delay t, t_period t, t_capacity_rem t, t_state t =? TASK_BLOCKED).
Definition same_view (T T' : list tcb_entry) : Prop :=
  forall i, view <$> zget T i = view <$> zget T' i.

Ltac same_view i Hv :=
  let E := fresh in
  pose proof (Hv i) as E;
  repeat match type of E with context [zget ?T i] => destruct (zget T i) end;
  cbn in E; unfold view in E; simplify_eq; try done; try congruence.

Lemma same_view_blocked T T' i : same_view T T' -> is_blocked T i = is_blocked T' i.
Proof. intros Hv. unfold is_blocked. same_view i Hv. Qed.

Lemma same_view_expires T T' i : same_view T T' -> expires T i = expires T' i.
Proof. intros Hv. unfold expires. same_view i Hv. Qed.

Lemma same_view_is_rt T T' i : same_view T T' -> is_rt T i = is_rt T' i.
Proof. intros Hv. unfold is_rt. same_view i Hv. Qed.

Lemma same_view_period T T' i : same_view T T' -> period_at T i = period_at T' i.
Proof. intros Hv. unfold period_at. same_view i Hv. Qed.

Lemma same_view_ready T T' i : same_view T T' -> ready T i = ready T' i.
Proof. intros Hv. unfold ready. same_view i Hv. Qed.

Lemma select_ext f g l : (forall i, f i = g i) -> select f l = select g l.
Proof.
  intros E. induction l as [|i l IH]; [done|]. by rewrite !select_cons, E, IH.
Qed.

Lemma same_view_split T T' l : same_view T T' ->
  to_run T l = to_run T' l /\ to_rt T l = to_rt T' l /\ to_delay T l = to_delay T' l.
Proof.
  intros Hv. unfold to_run, to_rt, to_delay. split_and!; apply select_ext; intros i;
    by rewrite ?(same_view_is_rt _ _ i Hv), (same_view_expires _ _ i Hv).
Qed.

Lemma same_view_tick T T' l : NoDup l -> same_view T T' -> same_view (tick T l) (tick T' l).
Proof.
  intros Hd Hv i. rewrite !tick_get by done. pose proof (Hv i) as E.
  destruct (zget T i), (zget T' i); cbn in *; try done. unfold view in *.
  destruct (decide _); cbn; congruence.
Qed.

Lemma tick_blocked T l i : NoDup l -> is_blocked (tick T l) i = is_blocked T i.
Proof.
  intros Hd. unfold is_blocked. rewrite tick_get by done.
  destruct (zget T i); [|done]. by destruct (decide _).
Qed.

Lemma rm_inner_ext p q rest : (forall i, p i = q i) -> forall x dn, rm_inner p x dn rest = rm_inner q x dn rest.
Proof. intros E. induction rest as [|y rest IH]; intros x dn; cbn; [done|]. by rewrite !E, !IH. Qed.

Lemma rm_sort_ext p q n : (forall i, p i = q i) -> forall l, rm_sort p n l = rm_sort q n l.
Proof.
  intros E. induction n as [|n IH]; intros [|x l]; cbn; try done. rewrite (rm_inner_ext p q) by done.
  destruct (rm_inner q x [] l); by rewrite ?IH.
Qed.

Lemma same_view_order T T' l : same_view T T' -> rma_order T l = rma_order T' l.
Proof. intros Hv. apply rm_sort_ext. intros i. by apply same_view_period. Qed.

Lemma same_view_select T T' l : same_view T T' -> rma_select T l = rma_select T' l.
Proof.
  intros Hv. unfold rma_select. rewrite (same_view_order _ _ l Hv).
  induction (rma_order T' l) as [|i m IH]; cbn; [done|]. by rewrite (same_view_ready _ _ i Hv), IH.
Qed.

(** ** Switching tasks *)

(** A restored task: it is current, running, and interrupts are on. *)
Definition running (i : Z) (k : kernel H) : Prop :=
  krnl_current_task k = i /\ krnl_task k = i /\ irq_status k = 1 /\
  exists t, zget (krnl_tcb k) i = Some t /\ t_state t = TASK_RUNNING.

Lemma running_to_ready_run k c : krnl_task k = c -> (exists t, zget (krnl_tcb k) c = Some t) ->
  exists T, running_to_ready k = Ok (tt, with_krnl_tcb T k) /\
    (T = krnl_tcb k \/ exists t, zget (krnl_tcb k) c = Some t /\ t_state t = TASK_RUNNING /\
       T = zset (krnl_tcb k) c (set_state TASK_READY t)).
Proof.
  intros Hc (t & Ht). unfold running_to_ready. rewrite <- Hc in Ht. st_step (cur_get_Ok t k Ht).
  destruct (Z.eqb_spec (t_state t) TASK_RUNNING); cbn [when].
  - rewrite (cur_mod_Ok t _ k Ht), Hc. eexists. split; [done|]. right. exists t.
    split; [by rewrite <- Hc|done].
  - exists (krnl_tcb k). split; [by destruct k|by left].
Qed.

Lemma check_stack_run k t : zget (krnl_tcb k) (krnl_task k) = Some t ->
  heap_word (krnl_heap k) (t_pstack t) = Some STACK_MAGIC -> check_stack k = Ok (tt, k).
Proof.
  intros Ht W. unfold check_stack. st_step (cur_get_Ok t k Ht).
  assert (on_heap (heap_load (t_pstack t)) k = Ok (STACK_MAGIC, k)) as E.
  { rewrite (on_heap_Ok _ k STACK_MAGIC (krnl_heap k)); [by destruct k|]. by apply load_spec. }
  st_step E. by rewrite Z.eqb_refl.
Qed.

(** The current task's context is saved: its state and its stack. *)
Lemma save_current_run k rq dq tq : kinv k rq dq tq -> krnl_task k = krnl_current_task k ->
  exists k', running_to_ready k = Ok (tt, k') /\ check_stack k' = Ok (tt, k') /\ kinv k' rq dq tq /\
    krnl_pcb k' = krnl_pcb k /\ irq_status k' = irq_status k /\ krnl_tasks k' = krnl_tasks k /\
    same_view (krnl_tcb k) (krnl_tcb k').
Proof.
  intros I Hk. pose proof I as []. destruct (ok_get _ _ _ _ _ ki_tcbs ki_cur) as [t Ht].
  destruct (st_live _ _ _ ki_stacks _ t Ht ki_cur) as (n & _ & _ & W).
  destruct (running_to_ready_run k _ Hk ltac:(eauto)) as (T & E & HT).
  exists (with_krnl_tcb T k). split; [done|].
  destruct HT as [->|(u & Hu & Hs & ->)].
  - replace (with_krnl_tcb (krnl_tcb k) k) with k by by destruct k.
    split; [|by split_and!]. apply (check_stack_run k t); [by rewrite Hk|done].
  - rewrite Ht in Hu. injection Hu as <-. split; [|split; [|split_and!; try done]].
    + apply (check_stack_run _ (set_state TASK_READY t)); [|done]. cbn. rewrite Hk.
      apply zget_zset_eq. by eapply zget_Some_range.
    + eapply kinv_mod; try done. intros Hc. split; [done|].
      destruct (ok_idle_runs _ _ _ _ ki_tcbs t) as (_ & R); [by rewrite <- Hc|done].
    + intros i. cbn. destruct (decide (krnl_current_task k = i)) as [<-|Hne].
      * rewrite zget_zset_eq by (by eapply zget_Some_range). rewrite Ht. cbn. unfold view. cbn. by rewrite Hs.
      * by rewrite zget_zset_ne.
Qed.

Lemma kinv_range k rq dq tq i : kinv k rq dq tq -> i ∈ rq ++ dq ++ tq -> 0 <= i < 30.
Proof. intros I Hi. by apply (ok_range _ _ _ _ (ki_tcbs _ _ _ _ I)). Qed.

(** The selected task [i], in [krnl_task], becomes the current one and is restored. *)
Lemma restore_run k rq dq tq i p : kinv k rq dq tq -> krnl_task k = i -> krnl_current_task k = i ->
  sched_rt p = sched_rt (krnl_pcb k) -> sched_be p = sched_be (krnl_pcb k) ->
  exists k', (_ ← cur_mod (set_state TASK_RUNNING);
      _ ← modify (with_krnl_pcb p); _context_restore) k = Ok (Switched i, k') /\
    kinv k' rq dq tq /\ running i k' /\
    (forall j, j <> i -> zget (krnl_tcb k') j = zget (krnl_tcb k) j).
Proof.
  intros I <- Hc P1 P2. pose proof I as [].
  destruct (ok_get _ _ _ _ _ ki_tcbs ki_cur) as [t Ht]. rewrite Hc in Ht.
  st_step (cur_mod_Ok t (set_state TASK_RUNNING) k Ht). set (k1 := with_krnl_tcb _ k).
  exists (with_irq_status 1 (with_krnl_pcb p k1)). split; [unfold _context_restore; by destruct k|].
  assert (kinv k1 rq dq tq) as I1.
  { eapply kinv_mod; try done. intros E0. split; [done|].
    destruct (ok_idle_runs _ _ _ _ ki_tcbs t) as (_ & R); [by rewrite <- E0|exact R]. }
  split; [|split].
  - destruct I1. split; cbn in *; try done. by rewrite P1, P2.
  - split_and!; try done. exists (set_state TASK_RUNNING t). split; [|done].
    apply zget_zset_eq. by eapply zget_Some_range.
  - intros j Hj. by apply zget_zset_ne.
Qed.

Lemma kinv_be k rq dq tq i q s rq' T' : kinv k rq dq tq -> q_is q rq' -> rq' ≡ₚ rq -> i ∈ rq ->
  same_tasks (krnl_tcb k) T' ->
  kinv (with_krnl_current_task i (with_krnl_tcb T' (with_krnl_task i (with_krnl_run_queue q (with_rand1 s k)))))
    rq' dq tq.
Proof.
  intros [] Q P Hi S. split; cbn; try done.
  - apply (tcbs_ok_perm _ rq dq tq); try done. by eapply same_tasks_ok.
  - by rewrite P.
  - rewrite P. apply elem_of_app. by left.
  - apply (stacks_ok_perm _ _ (rq ++ dq ++ tq)); [by rewrite P|]. by eapply same_tasks_stacks.
Qed.

Lemma hf_yield_run k rq dq tq : kinv k rq dq tq ->
  exists i k' rq', hf_yield call_sched_be k = Ok (Switched i, k') /\ kinv k' rq' dq tq /\
    rq' ≡ₚ rq /\ running i k' /\ i ∈ rq /\ is_blocked (krnl_tcb k) i = false /\
    forall j, j <> i -> is_blocked (krnl_tcb k') j = is_blocked (krnl_tcb k) j.
Proof.
  intros I. unfold hf_yield. st_step (di_run k).
  unfold mbind at 1, ST_bind at 1, gets at 1, mbind at 1, ST_bind at 1, set_task, modify at 1.
  set (k1 := with_krnl_task _ _). assert (kinv k1 rq dq tq) as I1 by (by destruct I).
  unfold hf_yield_from. change (nz 0) with false. cbv iota.
  destruct (save_current_run k1 rq dq tq I1 eq_refl) as (k2 & E2 & E3 & I2 & Ep & _ & En & Hb2).
  st_step E2. st_step E3. unfold mbind at 1, ST_bind at 1, gets at 1.
  pose proof I2 as []. destruct (Z.ltb_spec 0 (krnl_tasks k2)) as [_|Hle].
  2:{ pose proof (ok_idle _ _ _ _ ki_tcbs) as H0. rewrite ki_count in Hle.
      destruct rq; [by apply elem_of_nil in H0|]. cbn [app] in Hle. rewrite zlen_cons in Hle.
      pose proof (zlen_nonneg (rq ++ dq ++ tq)). lia. }
  destruct (sched_be_run (sched_be (krnl_pcb k2)) k2 rq dq tq I2) as
    (i & q & s & rq' & T' & E & Q & P & Hi & Hb & S); [by apply ki_sched|].
  assert (call_sched_be k2 = Ok (i, with_krnl_tcb T' (with_krnl_task i (with_krnl_run_queue q (with_rand1 s k2)))))
    as E4 by exact E.
  st_step E4. unfold mbind at 1, ST_bind at 1, modify at 1.
  assert (0 <= i < 30) by (eapply kinv_range; [exact I2|]; apply elem_of_app; by left).
  rewrite u16_small by lia.
  pose proof (kinv_be k2 rq dq tq i q s rq' T' I2 Q P Hi S) as I3.
  set (k3 := with_krnl_current_task i _) in *.
  destruct (restore_run k3 rq' dq tq i
    (set_coop_cswitch (u32 (coop_cswitch (krnl_pcb k3) + 1)) (krnl_pcb k3)) I3) as (k4 & E5 & I4 & R4 & Ho);
    try done.
  exists i, k4, rq'. split; [|split_and!; try done].
  - rewrite <- E5. destruct (ok_get _ _ _ _ _ (Kernel.ki_tcbs _ _ _ _ I3) (Kernel.ki_cur _ _ _ _ I3)) as [t Ht].
    st_step (cur_mod_Ok t (set_state TASK_RUNNING) k3 Ht).
    st_step (cur_mod_Ok t (set_state TASK_RUNNING) k3 Ht). done.
  - exact (eq_trans (same_view_blocked _ _ i Hb2) Hb).
  - intros j Hj. unfold is_blocked at 1. rewrite (Ho j Hj). change (krnl_tcb k3) with T'.
    change (is_blocked T' j = is_blocked (krnl_tcb k1) j).
    rewrite (same_view_blocked _ _ j Hb2). by apply same_tasks_blocked_eq.
Qed.

Lemma kinv_rt k rq dq tq j q tq' T' c : kinv k rq dq tq -> q_is q tq' -> tq' ≡ₚ tq ->
  same_tasks (krnl_tcb k) T' -> c ∈ rq ++ dq ++ tq ->
  kinv (with_krnl_current_task c (with_krnl_tcb T' (with_krnl_task j (with_krnl_rt_queue q k)))) rq dq tq'.
Proof.
  intros [] Q P S Hc. split; cbn; try done.
  - apply (tcbs_ok_perm _ rq dq tq); try done. by eapply same_tasks_ok.
  - by rewrite P.
  - by rewrite P.
  - apply (stacks_ok_perm _ _ (rq ++ dq ++ tq)); [by rewrite P|]. by eapply same_tasks_stacks.
Qed.

Lemma kinv_rt_facts k rq dq tq : kinv k rq dq tq ->
  in_tcb (krnl_tcb k) tq /\ NoDup tq /\ (0 ∉ tq) /\
  (forall i, i ∈ tq -> exists t, zget (krnl_tcb k) i = Some t /\ t_id t = i).
Proof.
  intros []. pose proof (ok_nodup _ _ _ _ ki_tcbs) as Hd. pose proof (NoDup3 _ _ _ Hd) as (_ & _ & D3).
  assert (forall i, i ∈ tq -> i ∈ rq ++ dq ++ tq) as Hs by (intros i; rewrite !elem_of_app; tauto).
  split_and!; try done.
  - intros i Hi. rewrite (ok_len _ _ _ _ ki_tcbs). by apply (ok_range _ _ _ _ ki_tcbs), Hs.
  - intros H0. apply list.NoDup_app in Hd as (_ & Hd & _).
    apply (Hd 0 (ok_idle _ _ _ _ ki_tcbs)), elem_of_app. by right.
  - intros i Hi. destruct (ok_get _ _ _ _ _ ki_tcbs (Hs i Hi)) as [t Ht]. exists t. split; [done|].
    by apply (ok_id _ _ _ _ ki_tcbs i t), Hs.
Qed.

Lemma kinv_nonempty k rq dq tq : kinv k rq dq tq -> 0 < krnl_tasks k.
Proof.
  intros []. pose proof (ok_idle _ _ _ _ ki_tcbs) as H0. rewrite ki_count.
  destruct rq; [by apply elem_of_nil in H0|]. cbn [app]. rewrite zlen_cons.
  pose proof (zlen_nonneg (rq ++ dq ++ tq)). lia.
Qed.

(** What the realtime scheduler sees after the delay queue was processed. *)
Definition rt_choice (T : list tcb_entry) (dq tq : list Z) : Z :=
  rma_select (tick T dq) (tq ++ to_rt T dq).

(** The two levels: the realtime choice, or the best effort one. *)
Lemma pick_run k rq dq tq : kinv k rq dq tq ->
  exists i k' rq', (id ← call_sched_rt;
      _ ← modify (with_krnl_current_task (u16 id));
      c ← gets krnl_current_task;
      when (c =? 0) (id ← call_sched_be; modify (with_krnl_current_task (u16 id)))) k = Ok (tt, k') /\
    kinv k' rq' dq (rma_order (krnl_tcb k) tq) /\ rq' ≡ₚ rq /\
    krnl_task k' = i /\ krnl_current_task k' = i /\ is_blocked (krnl_tcb k) i = false /\
    (if rma_select (krnl_tcb k) tq =? 0 then i ∈ rq else i = rma_select (krnl_tcb k) tq).
Proof.
  intros I. destruct (kinv_rt_facts _ _ _ _ I) as (Hr & Hd & H0 & Hg). pose proof I as [].
  destruct (sched_rma_run k tq ki_rt Hr Hd H0 Hg) as (q & j & E & Q & Hj).
  pose proof (rm_sort_perm (period_at (krnl_tcb k)) (length tq) tq) as P. fold (rma_order (krnl_tcb k) tq) in P.
  pose proof (rma_same_tasks (krnl_tcb k) tq Hd H0) as S.
  assert (call_sched_rt k = Ok (rma_select (krnl_tcb k) tq,
      with_krnl_tcb (rma_tcbs (krnl_tcb k) tq) (with_krnl_task j (with_krnl_rt_queue q k)))) as E1.
  { unfold call_sched_rt. destruct ki_sched as [-> _]. exact E. }
  st_step E1. unfold mbind at 1, ST_bind at 1, modify at 1, mbind at 1, ST_bind at 1, gets at 1.
  set (s := rma_select (krnl_tcb k) tq) in *.
  assert (s = 0 \/ s ∈ tq) as Hs.
  { destruct (decide (s = 0)) as [|Hs0]; [by left|right].
    assert (forall x, x ∈ rma_order (krnl_tcb k) tq -> x ∈ tq) as Hsub by (intros x; by rewrite P).
    by apply Hsub, first_ready_in. }
  assert (0 <= s < 30) as Hsr.
  { destruct Hs as [->|Hs]; [lia|]. eapply kinv_range; [exact I|]. rewrite !elem_of_app. tauto. }
  rewrite u16_small by lia. change (krnl_current_task (with_krnl_current_task s _)) with s.
  destruct (Z.eqb_spec s 0) as [Es|Hne]; cbn [when].
  - assert (0 ∈ rq ++ dq ++ tq) as Hc by (apply elem_of_app; left; apply ki_tcbs).
    pose proof (kinv_rt k rq dq tq j q _ _ 0 I Q P S Hc) as I1. rewrite Es. set (k1 := with_krnl_current_task 0 _) in *.
    destruct (sched_be_run (sched_be (krnl_pcb k)) k1 rq dq (rma_order (krnl_tcb k) tq) I1) as
      (i & q' & s' & rq' & T' & E2 & Q2 & P2 & Hi & Hb & S2); [by apply ki_sched|].
    assert (call_sched_be k1 = Ok (i, with_krnl_tcb T' (with_krnl_task i (with_krnl_run_queue q' (with_rand1 s' k1)))))
      as E3 by exact E2.
    st_step E3. assert (0 <= i < 30) by (eapply kinv_range; [exact I1|]; apply elem_of_app; by left).
    unfold modify. rewrite u16_small by lia.
    eexists i, _, rq'. split; [reflexivity|].
    split; [exact (kinv_be k1 rq dq _ i q' s' rq' T' I1 Q2 P2 Hi S2)|]. split_and!; try done.
    destruct (is_blocked (krnl_tcb k) i) eqn:Eb; [|done].
    assert (is_blocked (krnl_tcb k1) i = true) as Eb'; [|congruence].
    destruct S as [Hlen Hst]. unfold is_blocked in *. cbn.
    destruct (zget (krnl_tcb k) i) as [t|] eqn:Et; [|done]. apply zget_Some_range in Et as Hir.
    destruct (zget_is_Some (rma_tcbs (krnl_tcb k) tq) i) as [u Hu]; [by rewrite Hlen|].
    destruct (Hst i u Hu) as (t' & Ht' & _ & Hs' & _). rewrite Et in Ht'. injection Ht' as <-.
    by rewrite Hu, Hs'.
  - destruct Hs as [|Hs]; [done|]. rewrite Hj by done.
    eexists s, _, rq. split; [reflexivity|]. split; [|split_and!; try done].
    + apply (kinv_rt k rq dq tq s q); try done. rewrite !elem_of_app. tauto.
    + assert (ready (krnl_tcb k) s = true) as Hrd.
      { clear -Hne. subst s. unfold rma_select in *. induction (rma_order (krnl_tcb k) tq) as [|x l IH]; cbn in *; [done|].
        destruct (ready (krnl_tcb k) x) eqn:Ex; [done|auto]. }
      unfold ready, is_blocked in *. destruct (zget (krnl_tcb k) s) as [t|]; [|done].
      apply andb_prop in Hrd as [Hrd _]. by apply negb_true_iff in Hrd.
Qed.

(** The selection, followed by the rest of the dispatcher. *)
Lemma pick_then {A : Type} (m : @K H A) k k' : (id ← call_sched_rt;
      _ ← modify (with_krnl_current_task (u16 id));
      c ← gets krnl_current_task;
      when (c =? 0) (id ← call_sched_be; modify (with_krnl_current_task (u16 id)))) k = Ok (tt, k') ->
  (id ← call_sched_rt;
      _ ← modify (with_krnl_current_task (u16 id));
      c ← gets krnl_current_task;
      _ ← when (c =? 0) (id ← call_sched_be; modify (with_krnl_current_task (u16 id)));
      m) k = m k'.
Proof.
  unfold mbind, ST_bind, modify, gets. destruct (call_sched_rt k) as [[id k1]| | |]; try done.
  destruct (_ =? 0); cbn [when].
  - destruct (call_sched_be _) as [[b k2]| | |]; [|done..]. by intros [= <-].
  - unfold mret, ST_ret. by intros [= <-].
Qed.

(** [dispatch_isr]: the delay queue advances, a task that is not blocked is
    selected, realtime tasks first, and it runs with interrupts on. *)
Lemma dispatch_run k rq dq tq now : kinv k rq dq tq -> krnl_schedule k <> 0 ->
  exists i k' rq', dispatch_isr now k = Ok (Switched i, k') /\
    kinv k' rq' (to_delay (krnl_tcb k) dq) (rma_order (tick (krnl_tcb k) dq) (tq ++ to_rt (krnl_tcb k) dq)) /\
    rq' ≡ₚ rq ++ to_run (krnl_tcb k) dq /\ running i k' /\ is_blocked (krnl_tcb k) i = false /\
    (if rt_choice (krnl_tcb k) dq tq =? 0 then i ∈ rq ++ to_run (krnl_tcb k) dq
     else i = rt_choice (krnl_tcb k) dq tq).
Proof.
  intros I Hs. unfold dispatch_isr.
  assert (_timer_reset now k = Ok (tt, with_lastcount (u32 now)
    (with_krnl_pcb (set_tick_time (u32 (u32 now - lastcount k)) (krnl_pcb k)) k))) as E1 by done.
  st_step E1. set (k1 := with_lastcount _ _).
  unfold mbind at 1, ST_bind at 1, gets at 1. change (krnl_schedule k1) with (krnl_schedule k).
  destruct (Z.eqb_spec (krnl_schedule k) 0); [done|].
  unfold mbind at 1, ST_bind at 1, gets at 1, mbind at 1, ST_bind at 1, set_task, modify at 1.
  set (k2 := with_krnl_task _ k1). assert (kinv k2 rq dq tq) as I2 by (by destruct I).
  unfold dispatch_from. change (nz 0) with false. cbv iota.
  destruct (save_current_run k2 rq dq tq I2 eq_refl) as (k3 & E2 & E3 & I3 & _ & _ & _ & Hv).
  change (krnl_tcb k2) with (krnl_tcb k) in Hv.
  st_step E2. st_step E3. unfold mbind at 1, ST_bind at 1, gets at 1.
  pose proof (kinv_nonempty _ _ _ _ I3) as Hn. apply Z.ltb_lt in Hn as ->.
  destruct (process_delay_queue_kinv k3 rq dq tq I3) as (k4 & E4 & I4 & ET).
  destruct (same_view_split _ _ dq Hv) as (R1 & R2 & R3).
  rewrite <- R1, <- R2, <- R3 in I4. st_step E4.
  pose proof (NoDup3 _ _ _ (ok_nodup _ _ _ _ (Kernel.ki_tcbs _ _ _ _ I))) as (_ & Dd & _).
  pose proof (same_view_tick _ _ dq Dd Hv) as Hv4. rewrite <- ET in Hv4.
  destruct (pick_run k4 _ _ _ I4) as (i & k5 & rq' & E5 & I5 & P5 & Hk & Hc & Hb & Hi).
  destruct (restore_run k5 rq' _ _ i
    (set_preempt_cswitch (u32 (preempt_cswitch (krnl_pcb k5) + 1)) (krnl_pcb k5)) I5) as (k6 & E6 & I6 & R6 & _);
    try done.
  exists i, k6, rq'. rewrite <- (same_view_order _ _ _ Hv4) in I6. rewrite <- (same_view_select _ _ _ Hv4) in Hi.
  split; [|split_and!; try done].
  - rewrite (pick_then _ _ _ E5), <- E6.
    destruct (ok_get _ _ _ _ _ (Kernel.ki_tcbs _ _ _ _ I5) (Kernel.ki_cur _ _ _ _ I5)) as [t Ht].
    rewrite Hc, <- Hk in Ht.
    st_step (cur_mod_Ok t (set_state TASK_RUNNING) k5 Ht).
    st_step (cur_mod_Ok t (set_state TASK_RUNNING) k5 Ht). done.
  - rewrite <- (tick_blocked (krnl_tcb k) dq i Dd). exact (eq_trans (same_view_blocked _ _ i Hv4) Hb).
Qed.
End facts.
