(* ===== verification/Main.v ===== *)
(** * System initialisation ([sys/kernel/main.c])

    [main] runs on the allocator of [Malloc]: it clears the control blocks,
    creates the three task queues, spawns the idle task, lets the application
    create its tasks and restores the context of [krnl_task].  The strings of
    the banner, the address the linker gives to [krnl_heap], the address of
    [idletask] and the application's [app_main] are parameters. *)

From Stdlib Require Import String.
From S2P Require Import Prelude Words Mutex Malloc Alloc Queue Strings Kernel Task Scheduler.

#[global] Open Scope Z_scope.

(** [HEAP_SIZE] of the platform. *)
Definition HEAP_SIZE : Z := 500000.

(** What the compiler and the makefiles fill in. *)
Record build_info : Type := Build {
  KERN_VER : list Z;
  VERSION : list Z;
  DATE : list Z;
  TIME : list Z;
  CPU_ARCH : list Z;
  CPU_SPEED : Z;
  TIME_SLICE : Z;
}.

Definition print_config (b : build_info) : @K heap unit :=
  _ ← kprintf "\n===========================================================" [];
  _ ← kprintf "\nHellfireOS %s (%s) [%s, %s]"
        [KStr (KERN_VER b); KStr (VERSION b); KStr (DATE b); KStr (TIME b)];
  _ ← kprintf "\nEmbedded Systems Group - GSE, PUCRS - [2007 - 2018]" [];
  _ ← kprintf "\n===========================================================\n" [];
  _ ← kprintf "\narch:          %s" [KStr (CPU_ARCH b)];
  _ ← kprintf "\nsys clk:       %d kHz" [KInt (cdiv (CPU_SPEED b) 1000)];
  _ ← when (nz (TIME_SLICE b)) (kprintf "\ntime slice:    %d us" [KInt (TIME_SLICE b)]);
  _ ← kprintf "\nheap size:     %d bytes" [KInt HEAP_SIZE];
  kprintf "\nmax tasks:     %d\n" [KInt MAX_TASKS].

(** The fields [clear_tcb] assigns; [critical] and [task_context] are not. *)
Definition cleared (t : tcb_entry) : tcb_entry :=
  set_other_data 0 (set_stack_size 0 (set_pstack 0 (set_ptask 0 (set_deadline_rem 0
  (set_capacity_rem 0 (set_deadline 0 (set_capacity 0 (set_period 0 (set_deadline_misses 0
  (set_bgjobs 0 (set_rtjobs 0 (set_delay 0 (set_priority_rem 0 (set_priority 0
  (set_state TASK_IDLE (set_name (replicate 20 0) (set_id 65535 t))))))))))))))))).

(** [for (i = ...; i < MAX_TASKS; i++)] with [n] turns left. *)
Fixpoint clear_from (n : nat) (i : Z) : @K heap unit :=
  match n with
  | O => mret tt
  | S n => _ ← set_task i; _ ← cur_mod cleared; clear_from n (i + 1)
  end.
Definition clear_tcb : @K heap unit :=
  _ ← clear_from (Z.to_nat MAX_TASKS) 0;
  modify (fun k => with_krnl_schedule 0 (with_krnl_current_task 0 (with_krnl_tasks 0 k))).

Definition clear_pcb : @K heap unit :=
  modify (with_krnl_pcb (Pcb sched_rma_p sched_priorityrr_p 0 0 0 0)).

(** [q = hf_queue_create(MAX_TASKS); if (q == NULL) panic(PANIC_OOM);] *)
Definition init_queue (garbage : Z -> option Z) (n : qname) : @K heap unit :=
  r ← on_heap (hf_queue_create garbage MAX_TASKS);
  match r with
  | None => panic PANIC_OOM
  | Some (_, q) => modify (with_kqueue n q)
  end.
Definition init_queues (garbage : Z -> option Z) : @K heap unit :=
  _ ← init_queue garbage RUN;
  _ ← init_queue garbage DELAY;
  init_queue garbage RT.

(** [idletask]: what it does before it idles for ever. *)
Definition idletask : @K heap unit :=
  f ← gets (fun k => krnl_free (krnl_heap k));
  _ ← kprintf "\nKERNEL: free heap: %d bytes" [KInt f];
  _ ← kprintf "\nKERNEL: HellfireOS is up\n" [];
  hf_schedlock 0.

(** The hardware layer's messages and the heap ([hal.c]); interrupt masks and
    timer registers are the machine's. *)
Definition _vm_init (heap_addr : Z) : @K heap unit :=
  _ ← kprintf "\nHAL: _vm_init()" [];
  on_heap (heapinit heap_addr HEAP_SIZE).

(** "idle task", the string. *)
Definition idle_name : list Z := [105; 100; 108; 101; 32; 116; 97; 115; 107; 0].

Section main.
Variable beyond : Z -> Z.
Variable b : build_info.
Variable heap_addr : Z.
Variable garbage : Z -> option Z.
Variable idletask_addr : Z.

(** [main] from the test of [oops] to the call of [app_main], at time [now]. *)
Definition system_init (now : Z) : @K heap unit :=
  _ ← print_config b;
  _ ← _vm_init heap_addr;
  _ ← clear_tcb;
  _ ← clear_pcb;
  _ ← init_queues garbage;
  _ ← kprintf "\nHAL: _sched_init()" [];
  _ ← kprintf "\nHAL: _timer_init()" [];
  _ ← _timer_reset now;
  _ ← kprintf "\nHAL: _irq_init()" [];
  _ ← hf_spawn beyond idletask_addr 0 0 0 idle_name 1024;
  _ ← kprintf "\nHAL: _device_init()" [];
  kprintf "\nHAL: _task_init()" [].

(** [main], the static variable [oops] holding [oops]. *)
Definition main (oops now : Z) (app_main : @K heap unit) : @K heap exit :=
  _ ← hf_schedlock 1;
  _ ← _di;
  _ ← kprintf "\nKERNEL: booting..." [];
  if oops =? 3131953165 then
    _ ← system_init now;
    _ ← app_main;
    _context_restore
  else panic PANIC_GPF.
End main.

(** ** Running the initialisation *)

Lemma create_last irq h base pre us n garbage :
  heap_wf h base pre (us ++ [(n, false)]) -> Forall is_used us -> 176 <= n ->
  exists qp q h', hf_queue_create garbage MAX_TASKS (irq, h) = Ok (Some (qp, q), (irq, h')) /\
    heap_wf h' base ((pre ++ us) ++ [(28, true)]) ([(132, true)] ++ [(n - 160, false)]) /\
    q_is q [].
Proof.
  intros W Hu Hn.
  destruct (hf_malloc_last irq h base pre us n 20 W Hu) as (h1 & E1 & W1);
    [unfold max_request; lia|change (align4 20) with 20; lia|].
  change (align4 20 + 8) with 28 in W1. change (align4 20) with 20 in W1.
  destruct (hf_malloc_last irq h1 base (pre ++ us) [(28, true)] _ 124 W1) as (h2 & E2 & W2);
    [by repeat constructor|unfold max_request; lia|change (align4 124) with 124; lia|].
  change (align4 124 + 8) with 132 in W2. change (align4 124) with 124 in W2.
  destruct (hf_queue_create_spec irq h garbage MAX_TASKS) as (r & h' & E & _ & Hr).
  { by exists base, pre, (us ++ [(n, false)]). } { unfold MAX_TASKS, max_create_size. lia. }
  pose proof (wf_base _ _ _ _ W) as [Hb _]. pose proof (wf_blocks _ _ _ _ W2) as Hok.
  apply Forall_app in Hok as [Hok _]. pose proof (total_nonneg _ Hok) as Ht2.
  pose proof Hok as [Hok1 _]%Forall_app. pose proof (total_nonneg _ Hok1) as Ht1.
  assert (exists qp q, hf_queue_create garbage MAX_TASKS (irq, h) = Ok (Some (qp, q), (irq, h2))) as (qp & q & E').
  { unfold hf_queue_create. unfold mbind, ST_bind.
    change (Alloc.hf_malloc sizeof_queue (irq, h)) with (Malloc.hf_malloc 20 (irq, h)). rewrite E1.
    destruct (Z.eqb_spec (base + total (pre ++ us) + 8) 0); [lia|].
    change (u32 (i32 (MAX_TASKS + 1) * sizeof_ptr)) with 124.
    change (Alloc.hf_malloc 124 (irq, h1)) with (Malloc.hf_malloc 124 (irq, h1)). rewrite E2.
    destruct (Z.eqb_spec (base + total ((pre ++ us) ++ [(28, true)]) + 8) 0); [lia|]. by eexists _, _. }
  rewrite E' in E. injection E as <- <-. exists qp, q, h2. split; [done|].
  split; [|by split; apply Hr]. replace (n - 160) with (n - 20 - 8 - 124 - 8) by lia. done.
Qed.

Lemma init_queue_run k base pre us n garbage name :
  heap_wf (krnl_heap k) base pre (us ++ [(n, false)]) -> Forall is_used us -> 176 <= n ->
  exists q h', init_queue garbage name k = Ok (tt, with_kqueue name q (with_krnl_heap h' k)) /\
    heap_wf h' base ((pre ++ us) ++ [(28, true)]) ([(132, true)] ++ [(n - 160, false)]) /\
    q_is q [].
Proof.
  intros W Hu Hn.
  destruct (create_last (irq_status k) _ base pre us n garbage W Hu Hn) as (qp & q & h' & E & W' & Q).
  exists q, h'. unfold init_queue. st_step (on_heap_Ok _ k _ h' E). done.
Qed.

Lemma init_queues_run k base n garbage :
  heap_wf (krnl_heap k) base [] [(n, false)] -> 496 <= n ->
  exists q1 q2 q3 h' pre, init_queues garbage k = Ok (tt, with_krnl_rt_queue q3
      (with_krnl_delay_queue q2 (with_krnl_run_queue q1 (with_krnl_heap h' k)))) /\
    heap_wf h' base pre ([(132, true)] ++ [(n - 480, false)]) /\
    q_is q1 [] /\ q_is q2 [] /\ q_is q3 [].
Proof.
  intros W Hn. unfold init_queues.
  assert (Forall is_used [(132, true)]) as Hu by by repeat constructor.
  destruct (init_queue_run k base [] [] n garbage RUN W) as (q1 & h1 & E1 & W1 & Q1); [done|lia|].
  st_step E1.
  destruct (init_queue_run (with_kqueue RUN q1 (with_krnl_heap h1 k)) base _ _ _ garbage DELAY W1 Hu)
    as (q2 & h2 & E2 & W2 & Q2); [lia|]. st_step E2.
  destruct (init_queue_run (with_kqueue DELAY q2 (with_krnl_heap h2 (with_kqueue RUN q1
    (with_krnl_heap h1 k)))) base _ _ _ garbage RT W2 Hu) as (q3 & h3 & E3 & W3 & Q3); [lia|].
  rewrite E3. eexists q1, q2, q3, h3, _. split; [reflexivity|].
  replace (n - 480) with (n - 160 - 160 - 160) by lia. by split_and!.
Qed.

Lemma clear_from_run post : forall pre (k : kernel heap), krnl_tcb k = pre ++ post ->
  exists j, clear_from (length post) (zlen pre) k =
    Ok (tt, with_krnl_tcb (pre ++ (cleared <$> post)) (with_krnl_task j k)).
Proof.
  induction post as [|t post IH]; intros pre k E; cbn [clear_from length].
  - exists (krnl_task k). cbn. rewrite <- E. by destruct k.
  - unfold mbind at 1, ST_bind at 1, set_task, modify.
    st_step (cur_mod_Ok t cleared (with_krnl_task (zlen pre) k) ltac:(cbn; rewrite E; apply zget_mid)).
    cbn [krnl_tcb krnl_task with_krnl_task]. rewrite E, zset_mid.
    replace (zlen pre + 1) with (zlen (pre ++ [cleared t])) by by rewrite zlen_app.
    destruct (IH (pre ++ [cleared t]) (with_krnl_tcb (pre ++ cleared t :: post)
      (with_krnl_task (zlen pre) k))) as (j & E2); [by rewrite <- app_assoc|].
    exists j. rewrite E2. by rewrite <- app_assoc.
Qed.

Lemma clear_tcb_run (k : kernel heap) : zlen (krnl_tcb k) = MAX_TASKS ->
  exists j, clear_tcb k = Ok (tt, with_krnl_schedule 0 (with_krnl_current_task 0 (with_krnl_tasks 0
    (with_krnl_tcb (cleared <$> krnl_tcb k) (with_krnl_task j k))))).
Proof.
  intros Hl. unfold clear_tcb. replace (Z.to_nat MAX_TASKS) with (length (krnl_tcb k)).
  2:{ unfold zlen in Hl. rewrite <- Hl. by rewrite Nat2Z.id. }
  destruct (clear_from_run (krnl_tcb k) [] k eq_refl) as (j & E). exists j.
  change (zlen []) with 0 in E. by st_step E.
Qed.

(** A kernel whose only task is the idle task. *)
Lemma kinv_first (k : kernel heap) T u n :
  zlen T = MAX_TASKS ->
  (forall i t, zget T i = Some t -> t_ptask t = 0 /\ zlen (t_context t) = 20 /\ prio_ok t) ->
  krnl_tcb k = zset T 0 u -> t_id u = 0 -> t_ptask u <> 0 -> t_period u = 0 ->
  zlen (t_context u) = 20 -> prio_ok u -> t_state u <> TASK_BLOCKED -> t_priority u < 255 ->
  t_priority_rem u < 255 ->
  q_is (krnl_run_queue k) [0] -> q_is (krnl_delay_queue k) [] -> q_is (krnl_rt_queue k) [] ->
  krnl_tasks k = 1 -> krnl_current_task k = 0 ->
  sched_rt (krnl_pcb k) = sched_rma_p -> sched_be (krnl_pcb k) <> sched_rma_p ->
  heap_ok (krnl_heap k) -> heap_live (krnl_heap k) !! t_pstack u = Some n -> 4 <= n ->
  heap_word (krnl_heap k) (t_pstack u) = Some STACK_MAGIC -> kinv k [0] [] [].
Proof.
  intros Hl HT ET U1 U2 U3 U4 U5 U6 U7 U8 Q1 Q2 Q3 Hn Hc S1 S2 Hok L Hn4 W.
  assert (zget (zset T 0 u) 0 = Some u) as H0 by (apply zget_zset_eq; rewrite Hl; unfold MAX_TASKS; lia).
  split; rewrite ?ET, ?Hc; cbn; try done; [|by apply list_elem_of_here|].
  - split; cbn.
    + by rewrite zset_zlen.
    + repeat constructor. by intros ?%elem_of_nil.
    + intros i ->%list_elem_of_singleton. unfold MAX_TASKS. lia.
    + intros i t [(<- & <- & _)|[Hne Ht]]%zget_zset_Some; rewrite list_elem_of_singleton; [done|].
      destruct (HT i t Ht) as (-> & _). split; [done|]. by intros ->.
    + intros i t Ht ->%list_elem_of_singleton. rewrite H0 in Ht. by injection Ht as <-.
    + intros i t Ht ->%list_elem_of_singleton. rewrite H0 in Ht. by injection Ht as <-.
    + by intros i t _ ?%elem_of_nil.
    + intros i t [(<- & <- & _)|[Hne Ht]]%zget_zset_Some; [done|]. by destruct (HT i t Ht) as (_ & ? & _).
    + intros i t [(<- & <- & _)|[Hne Ht]]%zget_zset_Some; [done|]. by destruct (HT i t Ht) as (_ & _ & ?).
    + by apply list_elem_of_here.
    + intros t Ht. rewrite H0 in Ht. by injection Ht as <-.
  - split; [done| |].
    + intros i t Ht ->%list_elem_of_singleton. rewrite H0 in Ht. injection Ht as <-. by exists n.
    + by intros i j t v _ _ ->%list_elem_of_singleton ->%list_elem_of_singleton.
Qed.

(** What the loader leaves: the arrays, and the words of [krnl_heap] at [base]. *)
Record loaded (k : kernel heap) (base : Z) : Prop := {
  ld_len : zlen (krnl_tcb k) = MAX_TASKS;
  ld_ctx : forall i t, zget (krnl_tcb k) i = Some t -> zlen (t_context t) = 20;
  ld_base : 0 < base /\ base mod 4 = 0 /\ base + HEAP_SIZE < 4294967296;
  ld_heap : mapped (mem (krnl_heap k)) base (base + HEAP_SIZE);
}.

Lemma first_free_cleared T : 0 < zlen T -> first_free_slot (cleared <$> T) = 0.
Proof. by destruct T. Qed.

Lemma idle_stack_run irq h base pre us n :
  heap_wf h base pre (us ++ [(n, false)]) -> Forall is_used us -> 1040 <= n ->
  exists p h', Malloc.hf_malloc 1024 (irq, h) = Ok (p, (irq, h')) /\ p <> 0 /\ heap_ok_wf h' /\
    heap_live_words h' !! p = Some 1024.
Proof.
  intros W Hu Hn.
  destruct (hf_malloc_last irq h base pre us n 1024 W Hu) as (h' & E & W');
    [unfold max_request; lia|change (align4 1024) with 1024; lia|].
  change (align4 1024 + 8) with 1032 in W'. change (align4 1024) with 1024 in W'.
  pose proof (wf_base _ _ _ _ W') as [Hb _]. pose proof (wf_blocks _ _ _ _ W') as Hok.
  pose proof Hok as [Hok1 _]%Forall_app. pose proof (total_nonneg _ Hok1).
  exists (base + total (pre ++ us) + 8), h'. split; [done|]. split; [lia|]. split; [by eexists _, _, _|].
  rewrite (wf_live _ _ _ _ W'), live_app, lookup_union_r.
  - cbn. by rewrite lookup_insert_eq.
  - destruct (live_of base (pre ++ us) !! _) as [m|] eqn:E'; [|done].
    apply live_range_of in E'; [lia|done].
Qed.

(** A computation that only writes on the console. *)
Definition only_logs (m : @K heap unit) : Prop := forall k, exists l, m k = Ok (tt, with_klog l k).

Lemma only_logs_kprintf f args : only_logs (kprintf f args).
Proof. intros k. by eexists. Qed.

Lemma only_logs_bind m1 m2 : only_logs m1 -> only_logs m2 -> only_logs (_ ← m1; m2).
Proof.
  intros H1 H2 k. destruct (H1 k) as (l1 & E1). destruct (H2 (with_klog l1 k)) as (l2 & E2).
  exists l2. unfold mbind, ST_bind. by rewrite E1, E2.
Qed.

Lemma only_logs_when c m : only_logs m -> only_logs (when c m).
Proof. intros Hm k. destruct c; [apply Hm|]. exists (klog k). by destruct k. Qed.

Lemma print_config_run b : only_logs (print_config b).
Proof.
  unfold print_config.
  repeat (apply only_logs_bind; [first [apply only_logs_kprintf|apply only_logs_when, only_logs_kprintf]|]).
  apply only_logs_kprintf.
Qed.

Lemma vm_init_run base (k : kernel heap) h :
  heapinit base HEAP_SIZE (irq_status k, krnl_heap k) = Ok (tt, (irq_status k, h)) ->
  _vm_init base k = Ok (tt, with_krnl_heap h (with_klog (klog k ++ [("\nHAL: _vm_init()"%string, [])]) k)).
Proof.
  intros E. unfold _vm_init. generalize dependent (heapinit base HEAP_SIZE). intros m E.
  unfold kprintf. unfold mbind, ST_bind, modify. by apply on_heap_Ok.
Qed.

Lemma clear_pcb_run (k : kernel heap) :
  clear_pcb k = Ok (tt, with_krnl_pcb (Pcb sched_rma_p sched_priorityrr_p 0 0 0 0) k).
Proof. reflexivity. Qed.

(** The messages and the timer between the queues and the idle task. *)
Lemma hal_init_run (k : kernel heap) now : exists l, forall m : @K heap unit,
  (_ ← kprintf "\nHAL: _sched_init()" [];
    _ ← kprintf "\nHAL: _timer_init()" [];
    _ ← _timer_reset now;
    _ ← kprintf "\nHAL: _irq_init()" [];
    m) k = m (with_klog l (with_lastcount (u32 now)
      (with_krnl_pcb (set_tick_time (u32 (u32 now - lastcount k)) (krnl_pcb k)) k))).
Proof. eexists. intros m. unfold kprintf, _timer_reset, modify, mbind, ST_bind. reflexivity. Qed.

Section boot.
Variable beyond : Z -> Z.
Variable b : build_info.
Variable base : Z.
Variable garbage : Z -> option Z.
Variable idle : Z.

(** The steps before the idle task is spawned. *)
Lemma init_memory k now : loaded k base ->
  exists q1 q2 q3 h l j pre, heap_wf h base pre ([(132, true)] ++ [(499512, false)]) /\
  q_is q1 [] /\ q_is q2 [] /\ q_is q3 [] /\
  forall m : @K heap unit, (_ ← print_config b;
    _ ← _vm_init base;
    _ ← clear_tcb;
    _ ← clear_pcb;
    _ ← init_queues garbage;
    _ ← kprintf "\nHAL: _sched_init()" [];
    _ ← kprintf "\nHAL: _timer_init()" [];
    _ ← _timer_reset now;
    _ ← kprintf "\nHAL: _irq_init()" [];
    m) k = m (Kernel (cleared <$> krnl_tcb k)
      (Pcb sched_rma_p sched_priorityrr_p 0 0 0 (u32 (u32 now - lastcount k))) j 0 0 0
      q1 q2 q3 h (irq_status k) l (wild k) (u32 now) (rand1 k)).
Proof.
  intros []. destruct ld_base0 as (Hb & Hb4 & Hb32).
  destruct (print_config_run b k) as (l1 & E1).
  destruct (heapinit_wf (irq_status k) (krnl_heap k) base HEAP_SIZE) as (h1 & E2 & W1); try done.
  pose proof (vm_init_run base (with_klog l1 k) h1 E2) as E2'. set (k2 := with_krnl_heap h1 _) in E2'.
  destruct (clear_tcb_run k2 ld_len0) as (j & E3). set (k3 := with_krnl_schedule 0 _) in E3.
  pose proof (clear_pcb_run k3) as E4. set (k4 := with_krnl_pcb _ k3) in E4.
  destruct (init_queues_run k4 base _ garbage W1) as (q1 & q2 & q3 & h5 & pre & E5 & W5 & Q1 & Q2 & Q3);
    [unfold HEAP_SIZE; lia|]. set (k5 := with_krnl_rt_queue q3 _) in E5.
  destruct (hal_init_run k5 now) as (l & E6).
  exists q1, q2, q3, h5, l, j, pre. split; [exact W5|]. split_and!; try done. intros m.
  st_step E1. st_step E2'. st_step E3. st_step E4. st_step E5. rewrite E6. reflexivity.
Qed.

(** [system_init] ends in a kernel whose only task is the idle task. *)
Lemma system_init_run k now : loaded k base -> idle <> 0 ->
  exists k', system_init beyond b base garbage idle now k = Ok (tt, k') /\
    kinv k' [0] [] [] /\ krnl_schedule k' = 0 /\ irq_status k' = irq_status k /\
    krnl_task k' = 0 /\ wild k' = wild k.
Proof.
  intros L Hidle. pose proof L as [].
  destruct (init_memory k now L) as (q1 & q2 & q3 & h & l & j & pre & W & Q1 & Q2 & Q3 & E).
  unfold system_init. rewrite E. clear E. set (k1 := Kernel _ _ _ _ _ _ _ _ _ _ _ _ _ _ _).
  set (T := cleared <$> krnl_tcb k).
  assert (zlen T = MAX_TASKS) as HlT by (unfold T; by rewrite zlen_fmap).
  assert (forall i t, zget T i = Some t -> t_ptask t = 0 /\ zlen (t_context t) = 20 /\ prio_ok t) as HT.
  { intros i t Ht. unfold T in Ht. rewrite zget_fmap in Ht. destruct (zget (krnl_tcb k) i) as [u|] eqn:Hu; [|done].
    injection Ht as <-. split; [done|]. split; [exact (ld_ctx0 i u Hu)|]. unfold prio_ok. cbn. lia. }
  destruct (zget_is_Some T 0) as [t Ht]; [rewrite HlT; unfold MAX_TASKS; lia|].
  destruct (HT 0 t Ht) as (_ & Hctx & _).
  destruct (idle_stack_run 0 h base pre _ _ W) as (p & h' & Em & Hp & Hok & Lp); [by apply Forall_singleton|lia|].
  assert (spawn_ready k1 [] [] idle 0 t idle_name (idle_name ++ replicate 10 0) 1024) as R.
  { split; try done.
    - unfold k1. cbn. apply first_free_cleared. rewrite ld_len0. unfold MAX_TASKS. lia.
    - by exists base, pre, ([(132, true)] ++ [(499512, false)]). }
  destruct (hf_spawn_placed beyond k1 [] [] 0 t idle 0 0 0 idle_name _ 1024 p h' 1024 R) as
    (h2 & l2 & q1' & q2' & E2 & Q1' & Q2' & Hok2 & Hl2 & Hw2); try done; try lia.
  st_step E2. unfold kprintf, mbind, ST_bind, modify. eexists. split; [reflexivity|].
  split; [|by split_and!].
  apply (kinv_first _ T (spawn_tcb 0 idle 0 0 0 (idle_name ++ replicate 10 0) (align4 1024) p t) 1024); try done.
  - cbn. by rewrite !zset_zlen.
  - change (heap_live h2 !! p = Some 1024). by rewrite Hl2.
  - change (heap_word h2 p = Some STACK_MAGIC). by rewrite Hw2, Z.eqb_refl.
Qed.
End boot.
