(* ===== verification/Demo.v ===== *)
(** * A small running system

    A kernel with four tasks on a heap of 1 kB, on which the theorems about the
    kernel are tried: the idle task 0, a best effort task 1, and the realtime
    tasks 2 (period 5) and 3 (period 3). *)

From Stdlib Require Import String.
From S2P Require Import Prelude Words Mutex Malloc Alloc Queue LinkedList Strings Kernel Task Scheduler Main.

#[global] Open Scope Z_scope.

Definition blank_tcb : tcb_entry :=
  Tcb 65535 (replicate 20 0) 0 0 0 0 0 0 0 0 0 0 0 0 0 (replicate 20 0) 0 0 0 0.
Definition beyond0 (i : Z) : Z := 0.

(** The heap with one stack, at 4104, for the idle task. *)
Definition demo_heap : heap :=
  match heapinit 4096 1024 (0, Heap (words 4096 256) 0 0 0 0) with
  | Ok (_, (_, h)) =>
      match (_ ← Malloc.hf_malloc 16; store 4104 STACK_MAGIC) (0, h) with
      | Ok (_, (_, h)) => h
      | _ => h
      end
  | _ => blank_heap
  end.

Definition idle_tcb : tcb_entry :=
  Tcb 0 (replicate 20 0) TASK_RUNNING 100 100 0 0 0 0 0 0 0 0 0 0 (replicate 20 0) 256 4104 16 0.

Definition empty_queue : queue Z := Queue 31 0 0 0 0 (tabulate 31 (fun _ => None)).
Definition demo0 : kernel heap :=
  Kernel (idle_tcb :: replicate 29 blank_tcb) (Pcb sched_rma_p sched_priorityrr_p 0 0 0 0) 0 1 0 1
    (match hf_queue_addtail (Some 0) empty_queue with Ok (_, q) => q | _ => empty_queue end)
    empty_queue empty_queue demo_heap 1 [] [] 0 0.

(** What a computation returns and the state it ends in. *)
Definition answer {A : Type} (m : @K heap A) (k : kernel heap) : option A :=
  match m k with Ok (a, _) => Some a | _ => None end.
Definition after {A : Type} (m : @K heap A) (k : kernel heap) : kernel heap :=
  match m k with Ok (_, k) => k | _ => k end.

Definition demo_name : list Z := [116; 0].
Definition demo_nm : list Z := 116 :: replicate 19 0.
Definition spawn_demo (period capacity : Z) : @K heap Z :=
  hf_spawn beyond0 512 period capacity period demo_name 16.
Definition demo1 : kernel heap := after (spawn_demo 0 0) demo0.
Definition demo2 : kernel heap := after (spawn_demo 5 2) demo1.
Definition demo : kernel heap := after (spawn_demo 3 1) demo2.

Lemma empty_queue_is : q_is empty_queue [].
Proof.
  split; [|done]. apply (rep_new 31 0 (fun _ => None)). unfold max_queue_size. lia.
Qed.

(** A fresh heap serves a first request at its beginning. *)
Lemma first_block irq base len m sz : 0 < base -> base mod 4 = 0 -> 16 <= len -> len mod 4 = 0 ->
  base + len < 4294967296 -> mapped m base (base + len) -> 0 <= sz <= max_request ->
  align4 sz + 24 <= len -> exists h1 h2, heapinit base len (irq, Heap m 0 0 0 0) = Ok (tt, (irq, h1)) /\
    Malloc.hf_malloc sz (irq, h1) = Ok (base + 8, (irq, h2)) /\
    heap_wf h2 base [] ([(align4 sz + 8, true)] ++ [(len - 8 - align4 sz - 8, false)]).
Proof.
  intros H1 H2 H3 H4 H5 Hm Hsz Hl.
  destruct (heapinit_wf irq (Heap m 0 0 0 0) base len H1 H2 H3 H4 H5 Hm) as (h1 & E1 & W1).
  destruct (hf_malloc_last irq h1 base [] [] _ sz W1) as (h2 & E2 & W2); [done|done|lia|].
  exists h1, h2. split; [done|]. split; [|done]. rewrite E2. cbn. by rewrite Z.add_0_r.
Qed.

Lemma demo_heap_ok : heap_ok_wf demo_heap.
Proof.
  destruct (first_block 0 4096 1024 (words 4096 256) 16) as (h1 & h2 & E1 & E2 & W2);
    [lia|reflexivity|lia|reflexivity|lia|by apply (words_mapped 4096 256)|unfold max_request; lia| |].
  { change (align4 16) with 16. lia. }
  change (4096 + 8) with 4104 in E2. change (align4 16) with 16 in W2.
  assert (heap_ok_wf h2) as Hok2 by by eexists _, _, _.
  assert (heap_live_words h2 !! 4104 = Some 16) as L by (rewrite (wf_live _ _ _ _ W2); reflexivity).
  destruct (@store_spec heap malloc_allocator malloc_laws 0 h2 4104 16 4104 STACK_MAGIC Hok2 L) as (h3 & E3 & Hok3 & _); [lia|lia|reflexivity|].
  change (Malloc.store 4104 STACK_MAGIC (0, h2) = Ok (tt, (0, h3))) in E3.
  unfold demo_heap. rewrite E1. unfold mbind, ST_bind. rewrite E2. rewrite E3. exact Hok3.
Qed.

(** A list on that heap, and two elements appended. *)
Definition demo_list : ST (Z * heap) (Z * Z * Z) :=
  lst ← hf_list_init; a ← hf_list_append 9 lst 70; b ← hf_list_append 9 lst 80; mret (lst, a, b).

Lemma demo_list_init : exists lst h, hf_list_init (1, demo_heap) = Ok (lst, (1, h)) /\ list_rep h lst [] [].
Proof.
  destruct (@init_run heap malloc_allocator malloc_laws 1 demo_heap demo_heap_ok) as (r & h & E & _ & _ & Hc).
  exists r, h. split; [exact E|]. destruct Hc as [-> |Hc]; [|exact Hc].
  assert (A : match hf_list_init (1, demo_heap) with Ok (r, _) => nz r | _ => false end = true)
    by (vm_compute; reflexivity).
  rewrite E in A. discriminate A.
Qed.

Example demo_list_appends :
  match demo_list (1, demo_heap) with Ok (lst, a, b, _) => (nz lst, a, b) | _ => (false, 0, 0) end = (true, 0, 0).
Proof. vm_compute. reflexivity. Qed.


Lemma demo0_kinv : kinv demo0 [0] [] [].
Proof.
  apply (kinv_first _ (replicate 30 blank_tcb) idle_tcb 16); try done.
  - intros i t Ht%zget_elem. apply elem_of_replicate_inv in Ht as ->. by split_and!.
  - destruct (q_is_addtail empty_queue [] 0 empty_queue_is) as (q & E & Q); [done|].
    unfold demo0. cbn [krnl_run_queue]. by rewrite E.
  - apply empty_queue_is.
  - apply empty_queue_is.
  - apply demo_heap_ok.
Qed.

(** Spawning the demo's tasks. *)
Lemma spawn_demo_kinv k rq dq tq period capacity i : kinv k rq dq tq -> capacity <= period -> 0 <= i ->
  answer (spawn_demo period capacity) k = Some i ->
  kinv (after (spawn_demo period capacity) k) (joined_run period i rq) dq (joined_rt period i tq).
Proof.
  intros I Hc Hi E. unfold answer, after, spawn_demo in *.
  destruct (hf_spawn_run beyond0 k rq dq tq 512 period capacity period demo_name demo_nm 16 I)
    as (r & k2 & E2 & R & _); try done.
  rewrite E2 in *. injection E as ->. inversion R; subst; try done; unfold MAX_TASKS in *; try lia.
Qed.

Lemma demo_kinv : kinv demo [0; 1] [] [2; 3].
Proof.
  pose proof (spawn_demo_kinv demo0 _ _ _ 0 0 1 demo0_kinv ltac:(lia) ltac:(lia)) as I1.
  pose proof (spawn_demo_kinv demo1 _ _ _ 5 2 2 (I1 ltac:(by vm_compute)) ltac:(lia) ltac:(lia)) as I2.
  pose proof (spawn_demo_kinv demo2 _ _ _ 3 1 3 (I2 ltac:(by vm_compute)) ltac:(lia) ltac:(lia)) as I3.
  exact (I3 ltac:(by vm_compute)).
Qed.

(** Facts of the small system, evaluated once. *)
Lemma demo_schedule : krnl_schedule demo = 1.
Proof. vm_compute. reflexivity. Qed.

Lemma demo_current : krnl_current_task demo = 0.
Proof. vm_compute. reflexivity. Qed.

Lemma demo_irq : irq_status demo = 1 /\ wild demo = [].
Proof. vm_compute. split; reflexivity. Qed.

Lemma demo_len : zlen (krnl_tcb demo) = MAX_TASKS.
Proof. vm_compute. reflexivity. Qed.

Lemma demo_rt_choice : rt_choice (krnl_tcb demo) [] [2; 3] = 3.
Proof. vm_compute. reflexivity. Qed.

Lemma demo_task : exists t, task_lookup (krnl_tcb demo) 2 = Some t /\ t_period t = 5.
Proof. vm_compute. eexists. split; reflexivity. Qed.

Lemma demo_rma : answer sched_rma demo = Some 3.
Proof. vm_compute. reflexivity. Qed.

Lemma demo_block : (block_spec (krnl_tcb demo) 2).1 = ERR_OK.
Proof. vm_compute. reflexivity. Qed.

Lemma demo_spawn : answer (hf_spawn beyond0 512 6 2 6 demo_name 15) demo = Some 4.
Proof. vm_compute. reflexivity. Qed.

#[global] Opaque demo.
