(* ===== verification/System.v ===== *)
(** * The kernel as a whole

    Every sequence of kernel calls and timer ticks, from the boot of [main] on,
    and the contracts of the task primitives and of the dispatcher.  The
    definitions are those of [Task], [Scheduler] and [Main]; this file states
    and proves what they promise together. *)

From Stdlib Require Import String Sorted.
From stdpp Require Import sorting.
From S2P Require Import Prelude Words Mutex Malloc Alloc Queue Strings Kernel Task Scheduler Main Demo.

#[global] Open Scope Z_scope.

(** ** Calls *)

(** What a task or the timer may ask of the kernel. *)
Inductive call : Type :=
| CSpawn (task period capacity deadline : Z) (name : list Z) (stack_size : Z)
| CBlock (id : Z)
| CResume (id : Z)
| CDelay (id delay : Z)
| CKill (id : Z)
| CPriority (id priority : Z)
| CLock (lock : Z)
| CYield
| CTick (now : Z).

Section system.
Context {H : Type} {HA : Allocator H}.
Variable beyond : Z -> Z.

Definition discard {A : Type} (m : @K H A) : @K H unit := _ ← m; mret tt.

Definition run_call (c : call) : @K H unit :=
  match c with
  | CSpawn task period capacity deadline name stack_size =>
      discard (hf_spawn beyond task period capacity deadline name stack_size)
  | CBlock id => discard (hf_block beyond id)
  | CResume id => discard (hf_resume beyond id)
  | CDelay id delay => discard (hf_delay beyond id delay)
  | CKill id => discard (hf_kill beyond call_sched_be id)
  | CPriority id priority => discard (hf_priorityset id priority)
  | CLock lock => hf_schedlock lock
  | CYield => discard (hf_yield call_sched_be)
  | CTick now => discard (dispatch_isr now)
  end.

(** The task is on the delay queue. *)
Definition delayed (k : kernel H) (id : Z) : Prop :=
  exists dq, q_is (krnl_delay_queue k) dq /\ id ∈ dq.

(** What the kernel relies on: a spawned task has an entry point, a terminated
    name and a stack; a task that is delayed is neither delayed again nor
    killed; a task does not kill itself; the idle task's priority is not the
    lowest one. *)
Definition call_ok (k : kernel H) (c : call) : Prop :=
  match c with
  | CSpawn task _ _ _ name stack_size =>
      task <> 0 /\ (exists nm, strncpy_bytes 20 name = Ok nm) /\ 1 <= stack_size <= max_request - 4
  | CBlock id | CResume id => 0 <= id
  | CDelay id delay => 0 <= id /\ ~ delayed k id
  | CKill id => 0 <= id /\ id <> krnl_current_task k /\ ~ delayed k id
  | CPriority id priority => 0 <= id /\ 0 <= priority < 256 /\ (id = 0 -> priority < 255)
  | CLock _ | CYield | CTick _ => True
  end.

(** One call, and any number of them. *)
Definition step (k k' : kernel H) : Prop :=
  exists c, call_ok k c /\ run_call c k = Ok (tt, k').
Definition steps : kernel H -> kernel H -> Prop := rtc step.

(** The invariant, whatever the queues hold. *)
Definition sound (k : kernel H) : Prop := exists rq dq tq, kinv k rq dq tq.
End system.

Section facts.
Context {H : Type} {HA : Allocator H} {HL : AllocatorLaws H}.
Variable beyond : Z -> Z.
Implicit Types k : kernel H.

Lemma q_is_unique q l l' : q_is q l -> q_is q l' -> l = l'.
Proof.
  intros [R _] [R' _]. pose proof (qr_elem _ _ R) as E. rewrite (qr_elem _ _ R'), !zlen_fmap in E.
  apply (list_eq_same_length l l' _ eq_refl). { unfold zlen in E. lia. }
  intros i x y Hi Hx Hy.
  assert (zget l (Z.of_nat i) = Some x /\ zget l' (Z.of_nat i) = Some y) as [Gx Gy].
  { unfold zget. destruct (Z.ltb_spec (Z.of_nat i) 0); [lia|]. by rewrite Nat2Z.id. }
  pose proof (qr_cells _ _ R (Z.of_nat i)) as C. pose proof (qr_cells _ _ R' (Z.of_nat i)) as C'.
  rewrite zget_fmap, Gx, zlen_fmap in C. rewrite zget_fmap, Gy, zlen_fmap in C'.
  rewrite C in C' by (apply zget_Some_range in Gx; lia).
  specialize (C' ltac:(apply zget_Some_range in Gy; lia)). by injection C'.
Qed.

Lemma not_delayed k rq dq tq id : kinv k rq dq tq -> ~ delayed k id -> id ∉ dq.
Proof. intros I Hn Hi. apply Hn. exists dq. split; [apply I|done]. Qed.

Lemma discard_run {A : Type} (m : @K H A) a k k' : m k = Ok (a, k') -> discard m k = Ok (tt, k').
Proof. intros E. unfold discard. by st_step E. Qed.

Lemma quiet_kinv_same k k' rq dq tq : kinv k rq dq tq -> quiet (krnl_tcb k) k k' -> kinv k' rq dq tq.
Proof. intros I Q. eapply quiet_kinv; [exact Q|]. by destruct k, I. Qed.

(** The error path of [hf_delay] and [hf_kill]. *)
Lemma on_task_none {A : Type} msg (err : A) id (m : @K H A) k :
  zlen (krnl_tcb k) = MAX_TASKS -> 0 <= id -> task_lookup (krnl_tcb k) id = None ->
  exists k', (status ← _di; on_task beyond msg err status id m) k = Ok (err, k') /\
    quiet (krnl_tcb k) k k'.
Proof.
  intros Hl Hid E. st_step (di_run k). rewrite on_task_run by done.
  cbn [krnl_tcb with_irq_status]. rewrite E. eexists. split; [reflexivity|].
  destruct (id =? 0); by apply quiet_intro.
Qed.

Lemma hf_delay_none k id delay : zlen (krnl_tcb k) = MAX_TASKS -> 0 <= id ->
  task_lookup (krnl_tcb k) id = None \/ delay = 0 ->
  exists r k', hf_delay beyond id delay k = Ok (r, k') /\ quiet (krnl_tcb k) k k' /\
    r = (if delay =? 0 then ERR_ERROR else ERR_INVALID_ID).
Proof.
  intros Hl Hid He. unfold hf_delay. destruct (Z.eqb_spec delay 0).
  - exists ERR_ERROR, k. split; [done|]. split; [|done]. by apply quiet_intro.
  - destruct He as [He|]; [|done].
    edestruct (on_task_none "\nKERNEL: can't delay the idle task" ERR_INVALID_ID id) as (k' & E & Q);
      [exact Hl|exact Hid|exact He|]. eexists _, k'. split; [exact E|]. done.
Qed.

Lemma hf_kill_none be k id : zlen (krnl_tcb k) = MAX_TASKS -> 0 <= id ->
  task_lookup (krnl_tcb k) id = None ->
  exists k', hf_kill beyond be id k = Ok ((ERR_INVALID_ID, Returned), k') /\ quiet (krnl_tcb k) k k'.
Proof. intros Hl Hid E. unfold hf_kill. by apply on_task_none. Qed.

(** [hf_priorityset] changes the priority of a best effort task and nothing else. *)
Definition priority_spec (T : list tcb_entry) (id p : Z) : Z * list tcb_entry :=
  match zget T id with
  | Some t => if nz (t_ptask t) && (t_period t =? 0)
              then (ERR_OK, zset T id (set_priority_rem p (set_priority p t)))
              else (ERR_INVALID_ID, T)
  | None => (ERR_INVALID_ID, T)
  end.

Lemma hf_priorityset_run k id p : zlen (krnl_tcb k) = MAX_TASKS -> 0 <= id ->
  hf_priorityset id p k = Ok ((priority_spec (krnl_tcb k) id p).1,
    with_krnl_tcb (priority_spec (krnl_tcb k) id p).2 k).
Proof.
  intros Hl Hid. unfold hf_priorityset, priority_spec. destruct (Z.ltb_spec id MAX_TASKS) as [Hlt|Hge].
  - destruct (zget_is_Some (krnl_tcb k) id) as [t Ht]; [lia|]. rewrite Ht.
    st_step (tcb_get_Ok id t k Ht). destruct (nz (t_ptask t)); cbn [andb]; [|by destruct k].
    destruct (t_period t =? 0); [|by destruct k].
    st_step (tcb_mod_Ok id t (set_priority p) k Ht).
    set (k1 := with_krnl_tcb _ k). assert (zget (krnl_tcb k1) id = Some (set_priority p t)) as Ht1.
    { apply zget_zset_eq. lia. }
    st_step (tcb_mod_Ok id _ (set_priority_rem p) k1 Ht1). cbn. by rewrite zset_zset.
  - rewrite zget_None by lia. by destruct k.
Qed.

Lemma hf_priorityset_kinv k rq dq tq id p : kinv k rq dq tq -> 0 <= id -> 0 <= p < 256 ->
  (id = 0 -> p < 255) ->
  exists r k', hf_priorityset id p k = Ok (r, k') /\ kinv k' rq dq tq.
Proof.
  intros I Hid Hp H0. rewrite hf_priorityset_run; [|apply I|done]. eexists _, _. split; [done|].
  unfold priority_spec. destruct (zget (krnl_tcb k) id) as [t|] eqn:Ht; [|by destruct k].
  destruct (nz (t_ptask t) && (t_period t =? 0)); [|by destruct k]. cbn [snd].
  eapply kinv_mod; try done. intros E. split; [|cbn; split; by apply H0].
  rewrite E in Ht. by apply (ok_idle_runs _ _ _ _ (ki_tcbs _ _ _ _ I) t).
Qed.

Lemma kinv_lock k rq dq tq l : kinv k rq dq tq ->
  exists k', hf_schedlock l k = Ok (tt, k') /\ kinv k' rq dq tq.
Proof. intros []. unfold hf_schedlock. destruct (nz l); (eexists; split; [reflexivity|done]). Qed.

(** A tick when scheduling is locked only reads the timer. *)
Lemma dispatch_locked k now : krnl_schedule k = 0 ->
  dispatch_isr now k = Ok (Returned, with_lastcount (u32 now)
    (with_krnl_pcb (set_tick_time (u32 (u32 now - lastcount k)) (krnl_pcb k)) k)).
Proof.
  intros E. unfold dispatch_isr, _timer_reset, modify, gets, mbind, ST_bind. cbn [krnl_schedule with_lastcount with_krnl_pcb].
  by rewrite E.
Qed.

(** Every call returns, and the invariant holds again. *)
Lemma run_call_ok k c : sound k -> call_ok k c ->
  exists k', run_call beyond c k = Ok (tt, k') /\ sound k'.
Proof.
  intros (rq & dq & tq & I) Hc. pose proof (ok_len _ _ _ _ (ki_tcbs _ _ _ _ I)) as Hl.
  destruct c; cbn [run_call call_ok] in *.
  - destruct Hc as (Ht & (nm & Hnm) & Hs).
    destruct (hf_spawn_run beyond k rq dq tq task period capacity deadline name nm stack_size I Ht Hnm Hs)
      as (r & k' & E & R & _). exists k'. split; [by eapply discard_run|].
    destruct R; [by exists rq, dq, tq|exists rq, dq, tq; by eapply quiet_kinv_same|by exists rq, dq, tq|by eexists _, _, _].
  - destruct (hf_block_kinv beyond k rq dq tq id I Hc) as (r & k' & E & I').
    exists k'. split; [by eapply discard_run|by exists rq, dq, tq].
  - destruct (hf_resume_kinv beyond k rq dq tq id I Hc) as (r & k' & E & I').
    exists k'. split; [by eapply discard_run|by exists rq, dq, tq].
  - destruct Hc as [Hid Hd]. pose proof (not_delayed _ _ _ _ _ I Hd) as Hd'.
    destruct (decide (delay = 0)) as [E0|Hne].
    { destruct (hf_delay_none k id delay Hl Hid (or_intror E0)) as (r & k' & E & Q & _).
      exists k'. split; [by eapply discard_run|]. exists rq, dq, tq. by eapply quiet_kinv_same. }
    destruct (task_lookup (krnl_tcb k) id) as [t|] eqn:L.
    + destruct (hf_delay_run beyond k rq dq tq id t delay I L Hd' Hne) as (k' & E & I' & _).
      exists k'. split; [by eapply discard_run|by eexists _, _, _].
    + destruct (hf_delay_none k id delay Hl Hid (or_introl L)) as (r & k' & E & Q & _).
      exists k'. split; [by eapply discard_run|]. exists rq, dq, tq. by eapply quiet_kinv_same.
  - destruct Hc as (Hid & Hcur & Hd). pose proof (not_delayed _ _ _ _ _ I Hd) as Hd'.
    destruct (task_lookup (krnl_tcb k) id) as [t|] eqn:L.
    + destruct (hf_kill_run beyond call_sched_be k rq dq tq id t I L Hd' Hcur) as (k' & E & I' & _).
      exists k'. split; [by eapply discard_run|by eexists _, _, _].
    + destruct (hf_kill_none call_sched_be k id Hl Hid L) as (k' & E & Q).
      exists k'. split; [by eapply discard_run|]. exists rq, dq, tq. by eapply quiet_kinv_same.
  - destruct Hc as (Hid & Hp & H0). destruct (hf_priorityset_kinv k rq dq tq id priority I Hid Hp H0) as (r & k' & E & I').
    exists k'. split; [by eapply discard_run|by exists rq, dq, tq].
  - destruct (kinv_lock k rq dq tq lock I) as (k' & E & I'). exists k'. split; [done|by exists rq, dq, tq].
  - destruct (hf_yield_run k rq dq tq I) as (i & k' & rq' & E & I' & _).
    exists k'. split; [by eapply discard_run|by exists rq', dq, tq].
  - destruct (decide (krnl_schedule k = 0)) as [E0|Hne].
    + eexists. split; [eapply discard_run, (dispatch_locked k now E0)|]. exists rq, dq, tq. by destruct I.
    + destruct (dispatch_run k rq dq tq now I Hne) as (i & k' & rq' & E & I' & _).
      exists k'. split; [by eapply discard_run|by eexists _, _, _].
Qed.

Lemma steps_sound k k' : steps beyond k k' -> sound k -> sound k'.
Proof.
  intros R. induction R as [|k k1 k2 (c & Hc & E) _ IH]; [done|]. intros S.
  apply IH. destruct (run_call_ok k c S Hc) as (k' & E' & S'). rewrite E in E'. by injection E' as ->.
Qed.
End facts.

(** ** From boot on *)


(** The kernel as the loader leaves it, with [krnl_heap] at 4096. *)
Definition boot_kernel : kernel heap :=
  Kernel (replicate 30 blank_tcb) (Pcb sched_rma_p sched_rma_p 0 0 0 0) 0 0 0 0
    empty_queue empty_queue empty_queue (Heap (words 4096 (Z.to_nat 125000)) 0 0 0 0) 1 [] [] 0 0.
Definition demo_build : build_info := Build [0] [0] [0] [0] [0] 25000000 10000.

Lemma boot_kernel_loaded : loaded boot_kernel 4096.
Proof.
  split.
  - reflexivity.
  - intros i t Ht%zget_elem. apply elem_of_replicate_inv in Ht as ->. reflexivity.
  - unfold HEAP_SIZE. split; [lia|]. split; [reflexivity|lia].
  - replace (4096 + HEAP_SIZE) with (4096 + 4 * Z.of_nat (Z.to_nat 125000)) by (unfold HEAP_SIZE; lia).
    by apply words_mapped.
Qed.


(** [main] up to the application's start: the banner, the heap, the control
    blocks, the three queues and the idle task; it neither panics nor runs out of
    the 500000-byte heap, and leaves a kernel whose only task is the idle task,
    scheduling still locked and interrupts as they were. *)
Theorem boot_starts_idle beyond b base garbage idle now k0 : loaded k0 base -> idle <> 0 ->
  exists k, system_init beyond b base garbage idle now k0 = Ok (tt, k) /\
    kinv k [0] [] [] /\ krnl_schedule k = 0 /\ irq_status k = irq_status k0 /\ krnl_task k = 0 /\
    wild k = wild k0.
Proof. apply system_init_run. Qed.

Lemma boot_starts_idle_witness : exists k,
  system_init beyond0 demo_build 4096 (fun _ => None) 512 7 boot_kernel = Ok (tt, k) /\
  kinv k [0] [] [] /\ krnl_schedule k = 0.
Proof.
  destruct (boot_starts_idle beyond0 demo_build 4096 (fun _ => None) 512 7 boot_kernel boot_kernel_loaded)
    as (k & E & I & S & _); [intros ?; discriminate|].
  exists k. split; [exact E|]. split; [exact I|exact S].
Defined.

(** ** The dispatcher and the schedulers *)

Section dispatch.
Context {H : Type} {HA : Allocator H} {HL : AllocatorLaws H}.
Implicit Types k : kernel H.

(** C2: a timer tick with scheduling unlocked never panics: expired tasks leave the
    delay queue for the queue their period selects, the realtime task that rate
    monotonic selects runs if there is one, and otherwise the best effort
    scheduler picks a task of the run queue; the task that runs is not blocked,
    and interrupts are on. *)
Theorem dispatch_isr_selects k rq dq tq now : kinv k rq dq tq -> krnl_schedule k <> 0 ->
  exists i k' rq', dispatch_isr now k = Ok (Switched i, k') /\
    kinv k' rq' (to_delay (krnl_tcb k) dq) (rma_order (tick (krnl_tcb k) dq) (tq ++ to_rt (krnl_tcb k) dq)) /\
    rq' ≡ₚ rq ++ to_run (krnl_tcb k) dq /\ running i k' /\ is_blocked (krnl_tcb k) i = false /\
    (if rt_choice (krnl_tcb k) dq tq =? 0 then i ∈ rq ++ to_run (krnl_tcb k) dq
     else i = rt_choice (krnl_tcb k) dq tq).
Proof. apply dispatch_run. Qed.

Lemma first_ready_spec T l : (first_ready T l = 0 /\ (0 ∉ l -> forall j, j ∈ l -> ready T j = false)) \/
  (exists pre post, l = pre ++ first_ready T l :: post /\ ready T (first_ready T l) = true /\
     Forall (fun j => ready T j = false) pre).
Proof.
  induction l as [|i l IH]; cbn.
  - left. split; [done|]. by intros _ j ?%elem_of_nil.
  - destruct (ready T i) eqn:Ei; [right; by exists [], l|].
    destruct IH as [[E Hn]|(pre & post & E & Hr & Hp)].
    + left. split; [done|]. intros H0 j [->|Hj]%elem_of_cons; [done|].
      apply Hn; [|done]. intros ?. by apply H0, list_elem_of_further.
    + right. exists (i :: pre), post. split; [cbn; by f_equal|]. split; [done|]. by constructor.
Qed.

(** The selected task has the shortest period among the ready ones. *)
Lemma rma_select_optimal T tq : 0 ∉ tq ->
  if rma_select T tq =? 0 then forall j, j ∈ tq -> ready T j = false
  else rma_select T tq ∈ tq /\ ready T (rma_select T tq) = true /\
    forall j, j ∈ tq -> ready T j = true -> period_at T (rma_select T tq) <= period_at T j.
Proof.
  intros H0. unfold rma_select. set (l := rma_order T tq).
  pose proof (rm_sort_perm (period_at T) (length tq) tq) as P. fold (rma_order T tq) l in P.
  pose proof (rm_sort_sorted (period_at T) (length tq) tq ltac:(lia)) as S. fold (rma_order T tq) l in S.
  assert (forall x, x ∈ l <-> x ∈ tq) as Hm by (intros x; by rewrite P).
  destruct (first_ready_spec T l) as [[E Hn]|(pre & post & E & Hr & Hp)].
  - rewrite E. cbn. intros j Hj. apply Hn; [by rewrite Hm|by apply Hm].
  - set (i := first_ready T l) in *.
    assert (i ∈ tq) as Hi. { apply Hm. rewrite E. apply elem_of_app. right. apply list_elem_of_here. }
    destruct (Z.eqb_spec i 0) as [Hz|_]; [by rewrite Hz in Hi|].
    split; [done|]. split; [done|]. intros j Hj Hjr. apply Hm in Hj. rewrite E in Hj, S.
    apply elem_of_app in Hj as [Hj|Hj].
    + rewrite list.Forall_forall in Hp. specialize (Hp j Hj). congruence.
    + apply StronglySorted_app_1_r in S. apply StronglySorted_inv in S as [_ S].
      apply elem_of_cons in Hj as [->|Hj]; [lia|]. rewrite list.Forall_forall in S. by apply S.
Qed.

(** C3: [sched_rma] is rate monotonic: it leaves the realtime queue sorted by
    period, selects a ready task with the shortest period (0 when none is ready),
    charges it one unit of capacity, and accounts one tick of deadline to every
    task of the queue: at the end of a deadline, unused capacity counts as a miss
    and a new period starts. *)
Theorem sched_rma_rate_monotonic k rq dq tq : kinv k rq dq tq ->
  exists i k' tq', sched_rma k = Ok (i, k') /\ q_is (krnl_rt_queue k') tq' /\ tq' ≡ₚ tq /\
    StronglySorted (by_period (period_at (krnl_tcb k))) tq' /\
    (if i =? 0 then forall j, j ∈ tq -> ready (krnl_tcb k) j = false
     else i ∈ tq /\ ready (krnl_tcb k) i = true /\
       forall j, j ∈ tq -> ready (krnl_tcb k) j = true ->
         period_at (krnl_tcb k) i <= period_at (krnl_tcb k) j) /\
    forall j t, j ∈ tq -> zget (krnl_tcb k) j = Some t -> zget (krnl_tcb k') j =
      Some (if i =? j then one_more_rtjob (rma_tick true t) else rma_tick false t).
Proof.
  intros I. destruct (kinv_rt_facts _ _ _ _ I) as (Hr & Hd & H0 & Hg).
  destruct (sched_rma_run k tq (ki_rt _ _ _ _ I) Hr Hd H0 Hg) as (q & j & E & Q & _).
  set (T := krnl_tcb k) in *.
  pose proof (rm_sort_perm (period_at T) (length tq) tq) as P. fold (rma_order T tq) in P.
  pose proof (rm_sort_sorted (period_at T) (length tq) tq ltac:(lia)) as S. fold (rma_order T tq) in S.
  eexists _, _, (rma_order T tq). split; [exact E|]. split; [exact Q|]. split; [done|]. split; [done|].
  split; [by apply rma_select_optimal|].
  intros x t Hx Ht. cbn [krnl_tcb with_krnl_tcb].
  destruct (rma_fold_spec (rma_order T tq) T 0) as [_ F]; [by rewrite P|by rewrite P|].
  assert (x ∈ rma_order T tq) as Hx' by by rewrite P.
  assert (x <> 0) as Hx0 by (by intros ->).
  pose proof (F x) as Fx. rewrite Ht, decide_True in Fx by done.
  change (first_ready T (rma_order T tq)) with (rma_select T tq) in *. unfold rma_tcbs. cbn [Z.eqb andb] in Fx.
  destruct (Z.eqb_spec (rma_select T tq) x) as [Es|Hne].
  - rewrite Es. destruct (Z.eqb_spec x 0); [done|]. rewrite Fx.
    apply zget_zset_eq. by eapply zget_Some_range.
  - destruct (rma_select T tq =? 0); [done|].
    destruct (zget _ (rma_select T tq)); [|done]. by rewrite zget_zset_ne.
Qed.

(** C6: the priority scheduler: unless a task flagged critical bypasses the queue,
    the task that runs has the lowest remaining priority of those that can run,
    gets its own priority back, and every other task that can run ages by exactly
    that amount. *)
Theorem sched_priorityrr_ages k rq dq tq : kinv k rq dq tq ->
  exists i k' rq', sched_priorityrr k = Ok (i, k') /\ q_is (krnl_run_queue k') rq' /\ rq' ≡ₚ rq /\
    i ∈ rq /\ is_blocked (krnl_tcb k) i = false /\
    (is_critical (krnl_tcb k) i = true \/
     ((forall j, j ∈ rq -> is_critical (krnl_tcb k) j = false) /\
      (forall j, j ∈ rq -> is_blocked (krnl_tcb k) j = false ->
         rem_of (krnl_tcb k) i <= rem_of (krnl_tcb k) j) /\
      (forall t, zget (krnl_tcb k) i = Some t -> rem_of (krnl_tcb k') i = t_priority t) /\
      forall j, j ∈ rq -> j <> i -> is_blocked (krnl_tcb k) j = false ->
        rem_of (krnl_tcb k') j = rem_of (krnl_tcb k) j - rem_of (krnl_tcb k) i)).
Proof.
  intros I. pose proof I as []. set (T := krnl_tcb k) in *.
  pose proof (NoDup3 _ _ _ (ok_nodup _ _ _ _ ki_tcbs)) as (D1 & _ & _).
  assert (in_tcb T rq) as Hr.
  { intros i Hi. rewrite (ok_len _ _ _ _ ki_tcbs). apply (ok_range _ _ _ _ ki_tcbs), elem_of_app. by left. }
  pose proof (ok_idle _ _ _ _ ki_tcbs) as H0. destruct (in_tcb_get _ _ 0 Hr H0) as [t0 Ht0].
  destruct (ok_idle_runs _ _ _ _ ki_tcbs t0 Ht0) as (R1 & R2 & R3).
  destruct (sched_priorityrr_run k rq ki_run Hr D1) as (i & q & rq' & T' & E & Q & P & O).
  { intros i t Hi Ht. eapply (ok_id _ _ _ _ ki_tcbs); [done|]. apply elem_of_app. by left. }
  { exists 0. split; [done|]. unfold is_blocked, rem_of. fold T. rewrite Ht0. split; [by apply Z.eqb_neq|done]. }
  destruct (prr_same_tasks _ _ _ _ _ _ ki_tcbs O) as (_ & Hi & Hb).
  eexists i, _, rq'. split; [exact E|]. split; [exact Q|]. split; [done|]. split; [done|]. split; [done|].
  destruct O as [pre i post t _ _ Hc _|i t Hn Hm Ht]; [by left|right].
  fold T in Hn, Hm, Ht. change (krnl_tcb (with_krnl_tcb ?X _)) with X. rewrite list.Forall_forall in Hn.
  split; [exact Hn|]. destruct (prr_min_spec T (rotate rq) 255 None) as [(b & Eb & _ & _ & _ & Hmin)|[Eb _]];
    rewrite Hm in Eb; [injection Eb as <-|done].
  assert (forall j, j ∈ rq <-> j ∈ rotate rq) as Hrot by (intros j; by rewrite rotate_perm).
  pose proof (zget_Some_range _ _ _ Ht) as Hir.
  split; [intros j Hj; apply Hmin; by apply Hrot|]. split.
  - intros u Hu. rewrite Ht in Hu. injection Hu as <-. unfold rem_of. rewrite zget_zset_eq; [done|].
    assert (forall l, zlen (age i T l) = zlen T) as ->; [|done].
    clear. intros l. unfold age. generalize T. induction l as [|x l IH]; intros U; cbn; [done|].
    by rewrite IH, age_one_len.
  - intros j Hj Hne Hjb. apply Hrot in Hj. unfold rem_of at 1. rewrite zget_zset_ne by done.
    rewrite age_get by (by rewrite rotate_perm). pose proof (Hmin j Hj Hjb) as Hle.
    assert (in_tcb T (rotate rq)) as Hr' by (intros x Hx; apply Hr; by apply Hrot).
    destruct (in_tcb_get _ _ j Hr' Hj) as [u Hu]. fold T. rewrite Hu, decide_True by done. cbn.
    destruct (ok_prio _ _ _ _ ki_tcbs j u Hu) as (_ & Hp). destruct (ok_prio _ _ _ _ ki_tcbs i t Ht) as (_ & Hp2).
    unfold rem_of in *. fold T. rewrite Hu, Ht in *. apply u8_small. lia.
Qed.

(** round robin: the task that runs is the first of the run queue that is not
    blocked, and the tasks up to it go to the tail in their order. *)
Theorem sched_rr_rotates k rq dq tq : kinv k rq dq tq ->
  exists pre i post k', rq = pre ++ i :: post /\ Forall (fun j => is_blocked (krnl_tcb k) j = true) pre /\
    is_blocked (krnl_tcb k) i = false /\ sched_rr k = Ok (i, k') /\
    q_is (krnl_run_queue k') (post ++ pre ++ [i]) /\ krnl_task k' = i.
Proof.
  intros []. pose proof (ok_idle _ _ _ _ ki_tcbs) as H0.
  assert (in_tcb (krnl_tcb k) rq) as Hr.
  { intros i Hi. rewrite (ok_len _ _ _ _ ki_tcbs). apply (ok_range _ _ _ _ ki_tcbs), elem_of_app. by left. }
  destruct (in_tcb_get _ _ 0 Hr H0) as [t0 Ht0]. destruct (ok_idle_runs _ _ _ _ ki_tcbs t0 Ht0) as (R1 & _).
  destruct (first_split (fun j => negb (is_blocked (krnl_tcb k) j)) rq) as (pre & i & post & E & Hi & Hp).
  { exists 0. split; [done|]. unfold is_blocked. rewrite Ht0. apply negb_true_iff. by apply Z.eqb_neq. }
  apply negb_true_iff in Hi.
  assert (Forall (fun j => is_blocked (krnl_tcb k) j = true) pre) as Hp'.
  { eapply list.Forall_impl; [exact Hp|]. intros j Hj. by apply negb_false_iff in Hj. }
  assert (forall j, j ∈ pre ++ [i] -> j ∈ rq) as Hsub.
  { intros j. rewrite E, !elem_of_app, !elem_of_cons, elem_of_nil. tauto. }
  assert (i ∈ rq) as Hin by (apply Hsub, elem_of_app; right; apply list_elem_of_here).
  destruct (in_tcb_get _ _ i Hr Hin) as [t Ht].
  destruct (sched_rr_run k pre i post t) as (q & E1 & Q1); try done.
  { by rewrite <- E. } { intros j Hj. by apply Hr, Hsub. }
  { eapply (ok_id _ _ _ _ ki_tcbs); [done|]. apply elem_of_app. by left. }
  exists pre, i, post. eexists. split; [done|]. split; [done|]. split; [done|]. split; [exact E1|]. done.
Qed.

(** C16: nobody starves under round robin: as many turns as there are unblocked
    tasks on the run queue give the processor to each of them exactly once, in
    the order of the queue, wherever the blocked tasks stand in between. *)
Theorem sched_rr_fair k rq dq tq : kinv k rq dq tq ->
  exists k' rq', rr_turns (length (unblocked (krnl_tcb k) rq)) k = Ok (unblocked (krnl_tcb k) rq, k') /\
    q_is (krnl_run_queue k') rq' /\ rq' ≡ₚ rq /\ 0 ∈ unblocked (krnl_tcb k) rq.
Proof.
  intros []. pose proof (ok_idle _ _ _ _ ki_tcbs) as H0.
  assert (in_tcb (krnl_tcb k) rq) as Hr.
  { intros i Hi. rewrite (ok_len _ _ _ _ ki_tcbs). apply (ok_range _ _ _ _ ki_tcbs), elem_of_app. by left. }
  destruct (in_tcb_get _ _ 0 Hr H0) as [t0 Ht0]. destruct (ok_idle_runs _ _ _ _ ki_tcbs t0 Ht0) as (R1 & _).
  destruct (rr_turns_run (length rq) rq [] k) as (k' & rq' & E & Q & P & _); try done.
  { by rewrite app_nil_r. }
  { intros j t Hj Ht. eapply (ok_id _ _ _ _ ki_tcbs); [done|]. apply elem_of_app. by left. }
  exists k', rq'. split_and!; [done|done|by rewrite P, app_nil_r|].
  apply elem_of_select. split; [|done]. unfold is_blocked. rewrite Ht0.
  apply negb_true_iff. by apply Z.eqb_neq.
Qed.

(** the lottery terminates for every ticket drawn, and the task it selects is on
    the run queue and not blocked. *)
Theorem sched_lottery_returns k rq dq tq : kinv k rq dq tq ->
  exists i k' rq', sched_lottery k = Ok (i, k') /\ q_is (krnl_run_queue k') rq' /\ rq' ≡ₚ rq /\
    i ∈ rq /\ is_blocked (krnl_tcb k) i = false.
Proof.
  intros I. destruct (sched_be_run sched_lottery_p k rq dq tq I) as (i & q & s & rq' & T' & E & Q & P & Hi & Hb & _);
    [done|]. eexists i, _, rq'. split; [exact E|]. done.
Qed.

(** C11: [hf_yield]: the caller's stack is checked, the best effort scheduler selects
    a task of the run queue that is not blocked, and that task runs with
    interrupts on; the other tasks stay blocked or not as they were. *)
Theorem hf_yield_switches k rq dq tq : kinv k rq dq tq ->
  exists i k' rq', hf_yield call_sched_be k = Ok (Switched i, k') /\ kinv k' rq' dq tq /\
    rq' ≡ₚ rq /\ running i k' /\ i ∈ rq /\ is_blocked (krnl_tcb k) i = false /\
    forall j, j <> i -> is_blocked (krnl_tcb k') j = is_blocked (krnl_tcb k) j.
Proof. apply hf_yield_run. Qed.
End dispatch.

(** ** The task primitives *)

Section tasks.
Context {H : Type} {HA : Allocator H} {HL : AllocatorLaws H}.
Variable beyond : Z -> Z.
Implicit Types k : kernel H.

(** C8: [hf_spawn] refuses a capacity above the period or the deadline, reports a
    full task table and an exhausted heap without leaving anything behind, and
    otherwise returns the first free slot's id, on the queue its period selects,
    with a fresh stack of at least the requested size. *)
Theorem hf_spawn_outcomes k rq dq tq task period capacity deadline name nm stack_size :
  kinv k rq dq tq -> task <> 0 -> strncpy_bytes 20 name = Ok nm ->
  1 <= stack_size <= max_request - 4 ->
  exists r k', hf_spawn beyond task period capacity deadline name stack_size k = Ok (r, k') /\
    spawn_result k rq dq tq task period capacity deadline nm (align4 stack_size) r k' /\
    irq_status k' = irq_status k /\ krnl_schedule k' = krnl_schedule k.
Proof. apply hf_spawn_run. Qed.

(** [hf_block] and [hf_resume] on every id: the idle task and dead ids are
    refused, a task that is already (not) blocked is reported, and otherwise the
    state of that task changes and nothing else; resuming a task just blocked
    makes it ready. *)
Theorem hf_block_resume k id : zlen (krnl_tcb k) = MAX_TASKS -> 0 <= id ->
  exists k1 k2, hf_block beyond id k = Ok ((block_spec (krnl_tcb k) id).1, k1) /\
    quiet (block_spec (krnl_tcb k) id).2 k k1 /\
    hf_resume beyond id k1 = Ok ((resume_spec (krnl_tcb k1) id).1, k2) /\
    quiet (resume_spec (krnl_tcb k1) id).2 k1 k2 /\
    forall t, task_lookup (krnl_tcb k) id = Some t ->
      (resume_spec (krnl_tcb k1) id).1 = ERR_OK /\
      zget (krnl_tcb k2) id = Some (set_state TASK_READY t) /\
      forall j, j <> id -> zget (krnl_tcb k2) j = zget (krnl_tcb k) j.
Proof.
  intros Hl Hid. destruct (hf_block_run beyond k id Hl Hid) as (k1 & E1 & Q1).
  assert (krnl_tcb k1 = (block_spec (krnl_tcb k) id).2) as ET by (by destruct Q1 as (l & c & ->)).
  assert (zlen (krnl_tcb k1) = MAX_TASKS) as Hl1.
  { rewrite ET. unfold block_spec. destruct (task_lookup _ id) as [t|]; [|done].
    destruct (_ =? _); cbn; by rewrite ?zset_zlen. }
  destruct (hf_resume_run beyond k1 id Hl1 Hid) as (k2 & E2 & Q2).
  assert (krnl_tcb k2 = (resume_spec (krnl_tcb k1) id).2) as ET2 by (by destruct Q2 as (l & c & ->)).
  exists k1, k2. split; [done|]. split; [done|]. split; [done|]. split; [done|].
  intros t L. rewrite ET2. unfold resume_spec. rewrite ET. unfold block_spec. rewrite L.
  pose proof L as (Hne & Ht & Hp)%task_lookup_Some. pose proof (zget_Some_range _ _ _ Ht) as Hr.
  destruct (Z.eqb_spec (t_state t) TASK_BLOCKED) as [Eb|Eb]; cbn [snd fst].
  - rewrite L, Eb, Z.eqb_refl. cbn [snd fst]. split; [done|]. rewrite zget_zset_eq by done.
    split; [done|]. intros j Hj. by apply zget_zset_ne.
  - assert (task_lookup (zset (krnl_tcb k) id (set_state TASK_BLOCKED t)) id = Some (set_state TASK_BLOCKED t)) as L'.
    { unfold task_lookup. apply Z.eqb_neq in Hne as ->. rewrite zget_zset_eq by done.
      cbn. apply nz_true in Hp. by rewrite Hp. }
    rewrite L'. cbn. split; [done|]. rewrite zset_zset, zget_zset_eq by done. split; [done|].
    intros j Hj. by apply zget_zset_ne.
Qed.

(** What [n] ticks do to a task that waits on the delay queue. *)
Lemma delay_countdown id p n : forall k rq dq tq t, kinv k rq dq tq -> id ∈ dq ->
  zget (krnl_tcb k) id = Some t -> t_period t = p -> Z.of_nat n <= t_delay t < 4294967296 -> 0 < t_delay t ->
  exists k' rq' dq' tq', repeat_k n process_delay_queue k = Ok (tt, k') /\ kinv k' rq' dq' tq' /\
    if Z.of_nat n =? t_delay t then id ∈ (if nz p then tq' else rq')
    else id ∈ dq'.
Proof.
  induction n as [|n IH]; intros k rq dq tq t I Hi Ht Hp Hn Hpos; cbn [repeat_k].
  - exists k, rq, dq, tq. split; [done|]. split; [done|]. by destruct (Z.eqb_spec (Z.of_nat 0) (t_delay t)); [lia|].
  - destruct (process_delay_queue_kinv k rq dq tq I) as (k1 & E1 & I1 & ET). st_step E1.
    pose proof (NoDup3 _ _ _ (ok_nodup _ _ _ _ (ki_tcbs _ _ _ _ I))) as (_ & D2 & _).
    assert (u32 (t_delay t - 1) = t_delay t - 1) as Eu by (apply u32_small; lia).
    destruct (Z.eqb_spec (t_delay t) 1) as [E0|Hne].
    + assert (n = 0%nat) as -> by lia. cbn [repeat_k]. eexists k1, _, _, _. split; [done|]. split; [exact I1|].
      destruct (Z.eqb_spec (Z.of_nat 1) (t_delay t)); [|lia].
      assert (expires (krnl_tcb k) id = true) as Ex by (unfold expires; rewrite Ht; apply Z.eqb_eq; lia).
      assert (is_rt (krnl_tcb k) id = nz p) as Er by (unfold is_rt; by rewrite Ht, Hp).
      destruct (nz p) eqn:En; apply elem_of_app; right; apply elem_of_select; by rewrite Ex, Er.
    + assert (expires (krnl_tcb k) id = false) as Ex by (unfold expires; rewrite Ht; apply Z.eqb_neq; lia).
      destruct (IH k1 _ _ _ (set_delay (t_delay t - 1) t) I1) as (k' & rq' & dq' & tq' & E2 & I2 & R); try done.
      * apply elem_of_select. by rewrite Ex.
      * rewrite ET, tick_get, Ht, decide_True, Eu by done. done.
      * cbn. lia.
      * cbn. lia.
      * exists k', rq', dq', tq'. split; [done|]. split; [done|]. cbn [t_delay set_delay] in R.
        destruct (Z.eqb_spec (Z.of_nat n) (t_delay t - 1)), (Z.eqb_spec (Z.of_nat (S n)) (t_delay t)); (done || lia).
Qed.

(** C7: a task delayed for [delay] ticks stays on the delay queue for the first
    [delay - 1] of them, and the tick number [delay] returns it to the queue its
    period selects. *)
Theorem hf_delay_sleeps k rq dq tq id t delay n : kinv k rq dq tq ->
  task_lookup (krnl_tcb k) id = Some t -> id ∉ dq -> 0 < delay < 4294967296 -> Z.of_nat n <= delay ->
  exists k1 k2 rq' dq' tq', hf_delay beyond id delay k = Ok (ERR_OK, k1) /\
    repeat_k n process_delay_queue k1 = Ok (tt, k2) /\ kinv k2 rq' dq' tq' /\
    if Z.of_nat n =? delay then id ∈ (if nz (t_period t) then tq' else rq') else id ∈ dq'.
Proof.
  intros I L Hd Hdel Hn. destruct (hf_delay_run beyond k rq dq tq id t delay I L Hd) as (k1 & E1 & I1 & ET & _); [lia|].
  pose proof L as (_ & Ht & _)%task_lookup_Some.
  destruct (delay_countdown id (t_period t) n k1 _ _ _ (set_delay delay (set_state TASK_DELAYED t)) I1)
    as (k2 & rq' & dq' & tq' & E2 & I2 & R).
  - apply elem_of_app. right. apply list_elem_of_here.
  - rewrite ET. apply zget_zset_eq. by eapply zget_Some_range.
  - done.
  - cbn. lia.
  - cbn. lia.
  - exists k1, k2, rq', dq', tq'. done.
Qed.

(** C10: killing a task that is neither the caller nor delayed removes it from its
    queue and releases its stack, nothing else in the heap; the saved context
    words are cleared outside the task table, because the task's id is
    overwritten before it is used. *)
Theorem hf_kill_removes be k rq dq tq id t : kinv k rq dq tq ->
  task_lookup (krnl_tcb k) id = Some t -> id ∉ dq -> id <> krnl_current_task k ->
  exists k', hf_kill beyond be id k = Ok ((ERR_OK, Returned), k') /\
    kinv k' (without id rq) dq (without id tq) /\
    krnl_tcb k' = zset (krnl_tcb k) id (set_state TASK_IDLE (set_ptask 0 (set_id 65535 t))) /\
    heap_live (krnl_heap k') = delete (t_pstack t) (heap_live (krnl_heap k)) /\
    irq_status k' = irq_status k /\
    wild k' = wild k ++ [(65535, 10, 0); (65535, 11, 0)].
Proof. apply hf_kill_run. Qed.
End tasks.

(** ** On the small system *)

Lemma dispatch_isr_selects_witness : exists k', dispatch_isr 11 demo = Ok (Switched 3, k') /\ running 3 k'.
Proof.
  destruct (dispatch_isr_selects demo _ _ _ 11 demo_kinv) as (i & k' & rq' & E & _ & _ & R & _ & C);
    [rewrite demo_schedule; discriminate|].
  rewrite demo_rt_choice in C. change (i = 3) in C. subst i. exists k'. split; [exact E|exact R].
Defined.

Lemma sched_rma_rate_monotonic_witness : exists k' tq', sched_rma demo = Ok (3, k') /\
  q_is (krnl_rt_queue k') tq' /\ tq' ≡ₚ [2; 3].
Proof.
  destruct (sched_rma_rate_monotonic demo _ _ _ demo_kinv) as (i & k' & tq' & E & Q & P & _).
  exists k', tq'. pose proof demo_rma as A. unfold answer in A. rewrite E in A. injection A as ->. split; [exact E|]. split; [exact Q|exact P].
Defined.

Lemma sched_priorityrr_ages_witness : exists i k', sched_priorityrr demo = Ok (i, k') /\ i ∈ [0; 1].
Proof.
  destruct (sched_priorityrr_ages demo _ _ _ demo_kinv) as (i & k' & rq' & E & _ & _ & Hi & _).
  exists i, k'. split; [exact E|exact Hi].
Defined.

Lemma sched_rr_rotates_witness : exists i k', sched_rr demo = Ok (i, k') /\ krnl_task k' = i.
Proof.
  destruct (sched_rr_rotates demo _ _ _ demo_kinv) as (pre & i & post & k' & _ & _ & _ & E & _ & T).
  exists i, k'. split; [exact E|exact T].
Defined.

Lemma sched_rr_fair_witness : exists k', rr_turns (length (unblocked (krnl_tcb demo) [0; 1])) demo
    = Ok (unblocked (krnl_tcb demo) [0; 1], k') /\ 0 ∈ unblocked (krnl_tcb demo) [0; 1].
Proof.
  destruct (sched_rr_fair demo _ _ _ demo_kinv) as (k' & rq' & E & _ & _ & H0).
  exists k'. split; [exact E|exact H0].
Defined.

Lemma sched_lottery_returns_witness : exists i k', sched_lottery demo = Ok (i, k') /\ i ∈ [0; 1].
Proof.
  destruct (sched_lottery_returns demo _ _ _ demo_kinv) as (i & k' & rq' & E & _ & _ & Hi & _).
  exists i, k'. split; [exact E|exact Hi].
Defined.

Lemma hf_yield_switches_witness : exists i k', hf_yield call_sched_be demo = Ok (Switched i, k') /\ running i k'.
Proof.
  destruct (hf_yield_switches demo _ _ _ demo_kinv) as (i & k' & rq' & E & _ & _ & R & _).
  exists i, k'. split; [exact E|exact R].
Defined.

Lemma hf_spawn_outcomes_witness : exists k',
  hf_spawn beyond0 512 6 2 6 demo_name 15 demo = Ok (4, k') /\ irq_status k' = 1.
Proof.
  destruct (hf_spawn_outcomes beyond0 demo _ _ _ 512 6 2 6 demo_name demo_nm 15 demo_kinv)
    as (r & k' & E & _ & Q & _); [intros ?; discriminate|reflexivity|split; intros ?; discriminate|].
  pose proof demo_spawn as A. unfold answer in A. rewrite E in A. injection A as ->. exists k'. split; [exact E|].
  rewrite Q. apply demo_irq.
Defined.

Lemma hf_block_resume_witness : exists k1 k2, hf_block beyond0 2 demo = Ok (ERR_OK, k1) /\
  hf_resume beyond0 2 k1 = Ok (ERR_OK, k2).
Proof.
  destruct (hf_block_resume beyond0 demo 2) as (k1 & k2 & E1 & _ & E2 & _ & F);
    [exact demo_len|intros ?; discriminate|].
  destruct demo_task as (t & L & _).
  destruct (F t L) as (A & _). rewrite A in E2.
  rewrite demo_block in E1.
  exists k1, k2. split; [exact E1|exact E2].
Defined.

Lemma hf_delay_sleeps_witness : exists k1 k2 rq' dq' tq', hf_delay beyond0 2 3 demo = Ok (ERR_OK, k1) /\
  repeat_k 3 process_delay_queue k1 = Ok (tt, k2) /\ kinv k2 rq' dq' tq' /\ 2 ∈ tq'.
Proof.
  destruct demo_task as (t & L & P).
  destruct (hf_delay_sleeps beyond0 demo _ _ _ 2 t 3 3 demo_kinv L) as (k1 & k2 & rq' & dq' & tq' & E1 & E2 & I & R).
  - intros Hi. by apply elem_of_nil in Hi.
  - split; reflexivity.
  - intros ?; discriminate.
  - rewrite P in R. exists k1, k2, rq', dq', tq'. split; [exact E1|]. split; [exact E2|]. split; [exact I|exact R].
Defined.

Lemma hf_kill_removes_witness : exists k', hf_kill beyond0 call_sched_be 2 demo = Ok ((ERR_OK, Returned), k') /\
  wild k' = [(65535, 10, 0); (65535, 11, 0)].
Proof.
  destruct demo_task as (t & L & _).
  destruct (hf_kill_removes beyond0 call_sched_be demo _ _ _ 2 t demo_kinv L) as (k' & E & _ & _ & _ & _ & W).
  - intros Hi. by apply elem_of_nil in Hi.
  - rewrite demo_current. discriminate.
  - exists k'. split; [exact E|]. rewrite W, (proj2 demo_irq). reflexivity.
Defined.
