(* ===== verification/Sync.v ===== *)
(** * Semaphores and condition variables ([sys/sync/semaphore.c], [condvar.c])

    Both keep a queue of waiting tasks created with [hf_queue_create]; waiting
    blocks the current task and yields, signalling makes the head of the queue
    ready.  An operation takes the object and returns it updated; a NULL queue
    faults when it is used. *)

From S2P Require Import Prelude Words Mutex Malloc Alloc Queue Kernel Strings Task Scheduler Main Demo.

#[global] Open Scope Z_scope.

(** [struct sem]: the queue, with its address, or NULL, and the counter. *)
Record sem : Type := Sem { sem_queue : option (Z * queue Z); count : Z }.

(** [struct condvar]; its mutex is not used by the operations. *)
Record condvar : Type := Cond { cond_queue : option (Z * queue Z) }.

Section sync.
Context {H : Type} {HA : Allocator H}.

(** A queue operation through a pointer that may be NULL. *)
Definition at_queue {A : Type} (q : option (Z * queue Z)) (m : ST (queue Z) A) :
    @K H (A * option (Z * queue Z)) := fun k =>
  match q with
  | None => Fault
  | Some (p, q) =>
      match m q with
      | Ok (a, q) => Ok ((a, Some (p, q)), k)
      | Panic c => Panic c
      | Fault => Fault
      | Timeout => Timeout
      end
  end.

(** [if (hf_queue_destroy(q)) ...] *)
Definition destroy_queue (q : option (Z * queue Z)) : @K H Z :=
  status ← _di;
  match q with
  | None => fault_st
  | Some (p, q) =>
      r ← on_heap (hf_queue_destroy p q);
      _ ← _ei status;
      mret (if nz r then ERR_ERROR else ERR_OK)
  end.

Definition hf_seminit (garbage : Z -> option Z) (s : sem) (value : Z) : @K H (Z * sem) :=
  status ← _di;
  q ← on_heap (hf_queue_create garbage MAX_TASKS);
  if bool_decide (q = None) || (value <? 0) then
    _ ← _ei status;
    mret (ERR_ERROR, Sem q (count s))
  else
    _ ← _ei status;
    mret (ERR_OK, Sem q value).

Definition hf_semdestroy (s : sem) : @K H Z := destroy_queue (sem_queue s).

(** [q] receives the current task, which is blocked. *)
Definition wait_on (q : option (Z * queue Z)) : @K H (option (Z * queue Z)) :=
  c ← gets krnl_current_task;
  r ← at_queue q (hf_queue_addtail (Some c));
  _ ← (if nz r.1 then panic PANIC_NUTS_SEM else tcb_mod c (set_state TASK_BLOCKED));
  mret r.2.

Definition hf_semwait (s : sem) : @K H (sem * exit) :=
  status ← _di;
  let s := Sem (sem_queue s) (i32 (count s - 1)) in
  if count s <? 0 then
    q ← wait_on (sem_queue s);
    _ ← _ei status;
    e ← hf_yield call_sched_be;
    mret (Sem q (count s), e)
  else
    _ ← _ei status;
    mret (s, Returned).

Definition hf_sempost (s : sem) : @K H sem :=
  status ← _di;
  let s := Sem (sem_queue s) (i32 (count s + 1)) in
  s ← (if count s <=? 0 then
         r ← at_queue (sem_queue s) hf_queue_remhead;
         match r.1 with
         | None => panic PANIC_NUTS_SEM
         | Some i => _ ← tcb_mod i (set_state TASK_READY); mret (Sem r.2 (count s))
         end
       else mret s);
  _ ← _ei status;
  mret s.

Definition hf_condinit (garbage : Z -> option Z) : @K H (Z * condvar) :=
  status ← _di;
  q ← on_heap (hf_queue_create garbage MAX_TASKS);
  _ ← _ei status;
  mret (if bool_decide (q = None) then ERR_ERROR else ERR_OK, Cond q).

Definition hf_conddestroy (c : condvar) : @K H Z := destroy_queue (cond_queue c).

(** [hf_condwait] up to the switch of [hf_yield]; the mutex is returned unlocked. *)
Definition hf_condwait (c : condvar) (m : mtx) : @K H (condvar * mtx * exit) :=
  status ← _di;
  q ← wait_on (cond_queue c);
  irq ← gets irq_status;
  r ← lift (hf_mtxunlock (irq, m));
  _ ← _ei status;
  e ← hf_yield call_sched_be;
  mret (Cond q, r.2.2, e).

(** ... and from its return on, when the task runs again: [hf_mtxlock(m)]. *)
Definition hf_condwait_resumed (fuel : nat) (m : mtx) : @K H mtx :=
  irq ← gets irq_status;
  r ← lift (hf_mtxlock fuel (irq, m));
  mret r.2.2.

(** [if (krnl_task2) krnl_task2->state = TASK_READY;] *)
Definition wake (p : option Z) : @K H unit :=
  match p with Some i => tcb_mod i (set_state TASK_READY) | None => mret tt end.

Definition hf_condsignal (c : condvar) : @K H condvar :=
  status ← _di;
  r ← at_queue (cond_queue c) hf_queue_remhead;
  _ ← wake r.1;
  _ ← _ei status;
  mret (Cond r.2).

(** [while (hf_queue_count(q)) ...] *)
Fixpoint broadcast (fuel : nat) (q : option (Z * queue Z)) : @K H (option (Z * queue Z)) :=
  match fuel with
  | O => timeout_st
  | S fuel =>
      n ← at_queue q hf_queue_count;
      if nz n.1 then
        r ← at_queue q hf_queue_remhead;
        _ ← wake r.1;
        broadcast fuel r.2
      else mret q
  end.

Definition hf_condbroadcast (c : condvar) : @K H condvar :=
  status ← _di;
  n ← at_queue (cond_queue c) hf_queue_count;
  q ← broadcast (S (Z.to_nat n.1)) (cond_queue c);
  _ ← _ei status;
  mret (Cond q).
End sync.

Section facts.
Context {H : Type} {HA : Allocator H} {HL : AllocatorLaws H}.
Implicit Types k : kernel H.

(** A queue object holding the tasks [l]. *)
Definition waiters (q : option (Z * queue Z)) (l : list Z) : Prop :=
  exists p r, q = Some (p, r) /\ q_is r l.

(** A semaphore with counter [c] and waiting tasks [l]: nobody waits unless the
    counter is negative, and then it counts them. *)
Definition sem_rep (s : sem) (c : Z) (l : list Z) : Prop :=
  count s = c /\ waiters (sem_queue s) l /\ zlen l = Z.max 0 (- c).

Lemma at_queue_Ok {A : Type} p q (m : ST (queue Z) A) k a q' : m q = Ok (a, q') ->
  at_queue (Some (p, q)) m k = Ok ((a, Some (p, q')), k).
Proof. unfold at_queue. by intros ->. Qed.

Lemma wait_on_run k q l t : waiters q l -> zlen l < MAX_TASKS ->
  zget (krnl_tcb k) (krnl_current_task k) = Some t ->
  exists q', wait_on q k = Ok (q', with_krnl_tcb
      (zset (krnl_tcb k) (krnl_current_task k) (set_state TASK_BLOCKED t)) k) /\
    waiters q' (l ++ [krnl_current_task k]).
Proof.
  intros (p & r & -> & Q) Hl Ht. destruct (q_is_addtail _ _ (krnl_current_task k) Q Hl) as (r' & E & Q').
  exists (Some (p, r')). split; [|by exists p, r']. unfold wait_on.
  unfold mbind at 1, ST_bind at 1, gets at 1. st_step (at_queue_Ok p r _ k _ _ E).
  cbn [fst snd]. change (nz 0) with false. cbv iota.
  by st_step (tcb_mod_Ok _ _ (set_state TASK_BLOCKED) k Ht).
Qed.

(** Blocking the current task, which is not the idle task, keeps the invariant. *)
Lemma block_current_kinv k rq dq tq t : kinv k rq dq tq -> krnl_current_task k <> 0 ->
  zget (krnl_tcb k) (krnl_current_task k) = Some t ->
  kinv (with_krnl_tcb (zset (krnl_tcb k) (krnl_current_task k) (set_state TASK_BLOCKED t)) k) rq dq tq.
Proof. intros I Hne Ht. by eapply kinv_mod. Qed.

Lemma kinv_current k rq dq tq i : kinv k rq dq tq -> i ∈ rq ++ dq ++ tq ->
  kinv (with_krnl_current_task i k) rq dq tq.
Proof. by intros []. Qed.

Lemma kinv_irq k rq dq tq s : kinv k rq dq tq -> kinv (with_irq_status s k) rq dq tq.
Proof. by intros []. Qed.

(** The task that waits is blocked and another one runs. *)
Lemma block_and_yield k rq dq tq t : kinv k rq dq tq -> krnl_current_task k <> 0 ->
  zget (krnl_tcb k) (krnl_current_task k) = Some t -> forall s,
  exists i k' rq', hf_yield call_sched_be (with_irq_status s (with_krnl_tcb
      (zset (krnl_tcb k) (krnl_current_task k) (set_state TASK_BLOCKED t)) k)) = Ok (Switched i, k') /\
    kinv k' rq' dq tq /\ rq' ≡ₚ rq /\ running i k' /\ i <> krnl_current_task k /\
    is_blocked (krnl_tcb k') (krnl_current_task k) = true.
Proof.
  intros I Hne Ht s. pose proof (kinv_irq _ _ _ _ s (block_current_kinv _ _ _ _ _ I Hne Ht)) as I1.
  destruct (hf_yield_run _ _ _ _ I1) as (i & k' & rq' & E & I' & P & R & _ & Hb & Ho).
  assert (is_blocked (zset (krnl_tcb k) (krnl_current_task k) (set_state TASK_BLOCKED t))
    (krnl_current_task k) = true) as Hbl.
  { unfold is_blocked. rewrite zget_zset_eq by (by eapply zget_Some_range). done. }
  cbn [krnl_tcb with_irq_status with_krnl_tcb] in *.
  assert (i <> krnl_current_task k) as Hi by (intros ->; congruence).
  exists i, k', rq'. split_and!; try done. rewrite Ho; done.
Qed.

Lemma hf_semwait_run k rq dq tq s c l : kinv k rq dq tq -> sem_rep s c l ->
  zlen l < MAX_TASKS -> -2147483648 < c < 2147483648 -> krnl_current_task k <> 0 ->
  exists s' e k' rq', hf_semwait s k = Ok ((s', e), k') /\ kinv k' rq' dq tq /\ rq' ≡ₚ rq /\
    if 0 <? c then e = Returned /\ sem_rep s' (c - 1) l /\ quiet (krnl_tcb k) k k'
    else exists i, e = Switched i /\ i <> krnl_current_task k /\ running i k' /\
      sem_rep s' (c - 1) (l ++ [krnl_current_task k]) /\
      is_blocked (krnl_tcb k') (krnl_current_task k) = true.
Proof.
  intros I (Hc & W & Hl) Hroom Hr Hne. unfold hf_semwait. st_step (di_run k).
  cbn [count sem_queue]. rewrite Hc, i32_small by lia. destruct (Z.ltb_spec 0 c).
  - destruct (Z.ltb_spec (c - 1) 0); [lia|]. st_step (ei_run (irq_status k) (with_irq_status 0 k)).
    assert (quiet (krnl_tcb k) k (with_irq_status (irq_status k) (with_irq_status 0 k))) as Qk by by apply quiet_intro.
    eexists _, Returned, _, rq. split; [reflexivity|]. split; [|split; [done|split; [done|split; [|done]]]].
    + eapply quiet_kinv; [exact Qk|]. by destruct I.
    + split; [done|]. split; [done|]. lia.
  - destruct (Z.ltb_spec (c - 1) 0); [|lia].
    pose proof (kinv_irq _ _ _ _ 0 I) as I0. pose proof I0 as [].
    destruct (ok_get _ _ _ _ _ ki_tcbs ki_cur) as [t Ht].
    destruct (wait_on_run (with_irq_status 0 k) _ l t W Hroom Ht) as (q' & E & W').
    st_step E. unfold mbind at 1, ST_bind at 1. rewrite ei_run.
    destruct (block_and_yield _ _ _ _ t I0 Hne Ht (irq_status k)) as (i & k' & rq' & E2 & I' & P & R & Hi & Hb).
    st_step E2. eexists _, _, k', rq'. split; [reflexivity|]. split; [done|]. split; [done|].
    exists i. unfold sem_rep. cbn [count sem_queue]. split_and!; try done.
    rewrite zlen_app, zlen_cons. change (zlen []) with 0. lia.
Qed.

(** A task is made ready: nothing else changes. *)
Lemma ready_kinv k rq dq tq i t : kinv k rq dq tq -> zget (krnl_tcb k) i = Some t ->
  kinv (with_krnl_tcb (zset (krnl_tcb k) i (set_state TASK_READY t)) k) rq dq tq.
Proof.
  intros I Ht. eapply kinv_mod; try done. intros ->. split; [done|].
  by destruct (ok_idle_runs _ _ _ _ (ki_tcbs _ _ _ _ I) t Ht) as (_ & ?).
Qed.

Lemma hf_sempost_run k rq dq tq s c l : kinv k rq dq tq -> sem_rep s c l ->
  in_tcb (krnl_tcb k) l -> -2147483648 <= c < 2147483647 ->
  exists s' k', hf_sempost s k = Ok (s', k') /\ kinv k' rq dq tq /\
    match l with
    | [] => sem_rep s' (c + 1) [] /\ quiet (krnl_tcb k) k k'
    | i :: l' => sem_rep s' (c + 1) l' /\ exists t, zget (krnl_tcb k) i = Some t /\
        quiet (zset (krnl_tcb k) i (set_state TASK_READY t)) k k'
    end.
Proof.
  intros I (Hc & W & Hl) Hin Hr. unfold hf_sempost. st_step (di_run k). cbn [count sem_queue].
  rewrite Hc, i32_small by lia. destruct l as [|i l].
  - change (zlen []) with 0 in Hl. destruct (Z.leb_spec (c + 1) 0); [lia|].
    unfold mbind at 1, ST_bind at 1, mret at 1, ST_ret at 1. st_step (ei_run (irq_status k) (with_irq_status 0 k)).
    assert (quiet (krnl_tcb k) k (with_irq_status (irq_status k) (with_irq_status 0 k))) as Qk by by apply quiet_intro.
    eexists _, _. split; [reflexivity|]. split; [|split; [|done]].
    + eapply quiet_kinv; [exact Qk|]. by destruct I.
    + unfold sem_rep. cbn. split_and!; try done. change (zlen []) with 0. lia.
  - rewrite zlen_cons in Hl. pose proof (zlen_nonneg l). destruct (Z.leb_spec (c + 1) 0); [|lia].
    destruct W as (p & r & -> & Q). destruct (q_is_remhead _ _ _ Q) as (r' & E & Q').
    destruct (in_tcb_get _ _ i Hin (list_elem_of_here _ _)) as [t Ht].
    rewrite (ST_bind_assoc (S := kernel H)). st_step (at_queue_Ok p r _ (with_irq_status 0 k) _ _ E).
    cbn [fst snd]. rewrite (ST_bind_assoc (S := kernel H)).
    st_step (tcb_mod_Ok i t (set_state TASK_READY) (with_irq_status 0 k) Ht).
    unfold mbind at 1, ST_bind at 1, mret at 1, ST_ret at 1. unfold mbind at 1, ST_bind at 1. rewrite ei_run.
    set (k' := with_irq_status _ _).
    assert (quiet (zset (krnl_tcb k) i (set_state TASK_READY t)) k k') as Qk by by apply quiet_intro.
    eexists _, k'. split; [reflexivity|]. split; [|split; [|by exists t]].
    + eapply quiet_kinv; [exact Qk|]. by apply ready_kinv.
    + unfold sem_rep. cbn [count sem_queue]. split_and!; try done; [by exists p, r'|lia].
Qed.

(** The control blocks after every task of [l] was made ready. *)
Definition wake_all (T : list tcb_entry) (l : list Z) : list tcb_entry :=
  foldl (fun T i => match zget T i with Some t => zset T i (set_state TASK_READY t) | None => T end) T l.

Lemma broadcast_run l : forall k rq dq tq q fuel, kinv k rq dq tq -> waiters q l ->
  in_tcb (krnl_tcb k) l -> (length l < fuel)%nat ->
  exists q', broadcast fuel q k = Ok (q', with_krnl_tcb (wake_all (krnl_tcb k) l) k) /\
    kinv (with_krnl_tcb (wake_all (krnl_tcb k) l) k) rq dq tq /\ waiters q' [].
Proof.
  induction l as [|i l IH]; intros k rq dq tq q fuel I (p & r & -> & Q) Hin Hf;
    (destruct fuel as [|fuel]; [cbn in Hf; lia|]); cbn [broadcast].
  - st_step (at_queue_Ok p r _ k _ _ (q_is_count _ _ Q)). cbn. exists (Some (p, r)).
    split; [by destruct k|]. split; [by destruct k|]. by exists p, r.
  - st_step (at_queue_Ok p r _ k _ _ (q_is_count _ _ Q)). cbn [fst]. rewrite zlen_cons.
    pose proof (zlen_nonneg l). replace (nz (1 + zlen l)) with true by (symmetry; apply nz_true; lia).
    destruct (q_is_remhead _ _ _ Q) as (r' & E & Q'). st_step (at_queue_Ok p r _ k _ _ E).
    cbn [fst snd wake]. destruct (in_tcb_get _ _ i Hin (list_elem_of_here _ _)) as [t Ht].
    st_step (tcb_mod_Ok i t (set_state TASK_READY) k Ht).
    destruct (IH (with_krnl_tcb (zset (krnl_tcb k) i (set_state TASK_READY t)) k) rq dq tq (Some (p, r')) fuel)
      as (q' & E2 & I2 & W2).
    + by apply ready_kinv.
    + by exists p, r'.
    + intros x Hx. cbn. rewrite zset_zlen. by apply Hin, list_elem_of_further.
    + cbn in Hf. lia.
    + exists q'. cbn [wake_all foldl]. rewrite Ht. by rewrite E2.
Qed.

Lemma wake_all_get T l j : zget (wake_all T l) j =
  match zget T j with
  | Some t => if decide (j ∈ l) then Some (set_state TASK_READY t) else Some t
  | None => None
  end.
Proof.
  revert T. induction l as [|i l IH]; intros T; cbn [wake_all foldl].
  - by destruct (zget T j).
  - rewrite IH. destruct (decide (i = j)) as [->|Hne].
    + destruct (zget T j) as [t|] eqn:E; [|by rewrite E].
      rewrite (decide_True (P := j ∈ j :: l)) by apply list_elem_of_here.
      rewrite zget_zset_eq by (by eapply zget_Some_range). by destruct (decide _).
    + replace (zget (match zget T i with Some t => zset T i (set_state TASK_READY t) | None => T end) j)
        with (zget T j) by (destruct (zget T i); by rewrite ?zget_zset_ne).
      destruct (zget T j); [|done]. destruct (decide (j ∈ l)) as [Hj|Hj].
      * by rewrite decide_True by (by apply list_elem_of_further).
      * rewrite decide_False; [done|]. by intros [->|?]%elem_of_cons.
Qed.

Lemma hf_condbroadcast_run k rq dq tq c l : kinv k rq dq tq -> waiters (cond_queue c) l ->
  in_tcb (krnl_tcb k) l ->
  exists c' k', hf_condbroadcast c k = Ok (c', k') /\ kinv k' rq dq tq /\ waiters (cond_queue c') [] /\
    quiet (wake_all (krnl_tcb k) l) k k'.
Proof.
  intros I W Hin. unfold hf_condbroadcast. st_step (di_run k). pose proof W as (p & r & Eq & Q).
  rewrite Eq in *. st_step (at_queue_Ok p r _ (with_irq_status 0 k) _ _ (q_is_count _ _ Q)). cbn [fst].
  destruct (broadcast_run l (with_irq_status 0 k) rq dq tq (Some (p, r)) (S (Z.to_nat (zlen l))))
    as (q' & E & I2 & W2); try done.
  { by apply kinv_irq. } { unfold zlen. lia. }
  st_step E. unfold mbind, ST_bind. rewrite ei_run. eexists _, _. split; [reflexivity|].
  split; [by apply kinv_irq|]. split; [done|]. by apply quiet_intro.
Qed.

Lemma hf_condsignal_run k rq dq tq c l : kinv k rq dq tq -> waiters (cond_queue c) l ->
  in_tcb (krnl_tcb k) l ->
  exists c' k', hf_condsignal c k = Ok (c', k') /\ kinv k' rq dq tq /\
    waiters (cond_queue c') (tail l) /\ quiet (wake_all (krnl_tcb k) (take 1 l)) k k'.
Proof.
  intros I (p & r & Eq & Q) Hin. unfold hf_condsignal. st_step (di_run k). rewrite Eq.
  destruct l as [|i l].
  - st_step (at_queue_Ok p r _ (with_irq_status 0 k) _ _ (remhead_nil r (proj1 Q))). cbn [fst snd wake].
    unfold mbind, ST_bind, mret, ST_ret. rewrite ei_run. eexists _, _. split; [reflexivity|].
    split; [by apply kinv_irq, kinv_irq|]. split; [by exists p, r|]. by apply quiet_intro.
  - destruct (q_is_remhead _ _ _ Q) as (r' & E & Q').
    st_step (at_queue_Ok p r _ (with_irq_status 0 k) _ _ E). cbn [fst snd wake].
    destruct (in_tcb_get _ _ i Hin (list_elem_of_here _ _)) as [t Ht].
    st_step (tcb_mod_Ok i t (set_state TASK_READY) (with_irq_status 0 k) Ht).
    unfold mbind, ST_bind. rewrite ei_run. eexists _, _. split; [reflexivity|].
    split; [|split; [by exists p, r'|]].
    + apply kinv_irq. apply ready_kinv; [by apply kinv_irq|done].
    + cbn [take wake_all foldl]. rewrite Ht. by apply quiet_intro.
Qed.

(** Creating a queue leaves the stacks of the tasks alone. *)
Lemma create_kinv k rq dq tq (garbage : Z -> option Z) size : kinv k rq dq tq -> 0 <= size <= max_create_size ->
  exists r h', hf_queue_create garbage size (irq_status k, krnl_heap k) = Ok (r, (irq_status k, h')) /\
    kinv (with_krnl_heap h' k) rq dq tq /\
    (forall p q, r = Some (p, q) -> queue_rep q [] /\ q_capacity q = size) /\
    (r = None -> heap_live h' = heap_live (krnl_heap k)).
Proof.
  intros I Hsz. pose proof I as []. pose proof (st_heap _ _ _ ki_stacks) as Hok.
  destruct (hf_queue_create_spec (irq_status k) (krnl_heap k) garbage size Hok Hsz) as (r & h' & E & Hok' & Hr).
  exists r, h'. split; [done|]. split; [|split].
  - split; cbn; try done. apply (stacks_ok_heap _ (krnl_heap k)); try done. intros i t n Ht Hi L H4.
    exact (hf_queue_create_frame _ _ _ _ _ _ E _ _ Hok Hsz L H4).
  - intros p q ->. by destruct Hr as (? & ? & _).
  - by intros ->.
Qed.

(** C12: the P operation: with a positive counter the caller goes on; otherwise it
    joins the tail of the waiting tasks, is blocked, and another task runs.  The
    counter always counts the waiting tasks when it is negative. *)
Theorem hf_semwait_blocks k rq dq tq s c l : kinv k rq dq tq -> sem_rep s c l ->
  zlen l < MAX_TASKS -> -2147483648 < c < 2147483648 -> krnl_current_task k <> 0 ->
  exists s' e k' rq', hf_semwait s k = Ok ((s', e), k') /\ kinv k' rq' dq tq /\ rq' ≡ₚ rq /\
    if 0 <? c then e = Returned /\ sem_rep s' (c - 1) l /\ quiet (krnl_tcb k) k k'
    else exists i, e = Switched i /\ i <> krnl_current_task k /\ running i k' /\
      sem_rep s' (c - 1) (l ++ [krnl_current_task k]) /\
      is_blocked (krnl_tcb k') (krnl_current_task k) = true.
Proof. apply hf_semwait_run. Qed.

(** C13: the V operation wakes the task that has waited longest and no other, and
    otherwise only counts. *)
Theorem hf_sempost_wakes k rq dq tq s c l : kinv k rq dq tq -> sem_rep s c l ->
  in_tcb (krnl_tcb k) l -> -2147483648 <= c < 2147483647 ->
  exists s' k', hf_sempost s k = Ok (s', k') /\ kinv k' rq dq tq /\
    match l with
    | [] => sem_rep s' (c + 1) [] /\ quiet (krnl_tcb k) k k'
    | i :: l' => sem_rep s' (c + 1) l' /\ exists t, zget (krnl_tcb k) i = Some t /\
        quiet (zset (krnl_tcb k) i (set_state TASK_READY t)) k k'
    end.
Proof. apply hf_sempost_run. Qed.

(** C14: [hf_condsignal] wakes the first waiting task, if any; [hf_condbroadcast]
    terminates, empties the queue and wakes every waiting task; neither touches
    the other tasks. *)
Theorem condvar_wakes k rq dq tq c l : kinv k rq dq tq -> waiters (cond_queue c) l ->
  in_tcb (krnl_tcb k) l ->
  (exists c' k', hf_condsignal c k = Ok (c', k') /\ kinv k' rq dq tq /\
    waiters (cond_queue c') (tail l) /\
    forall j, zget (krnl_tcb k') j = (if decide (j ∈ take 1 l) then set_state TASK_READY else id) <$> zget (krnl_tcb k) j) /\
  (exists c' k', hf_condbroadcast c k = Ok (c', k') /\ kinv k' rq dq tq /\
    waiters (cond_queue c') [] /\
    forall j, zget (krnl_tcb k') j = (if decide (j ∈ l) then set_state TASK_READY else id) <$> zget (krnl_tcb k) j).
Proof.
  intros I W Hin. split.
  - destruct (hf_condsignal_run k rq dq tq c l I W Hin) as (c' & k' & E & I' & W' & (lg & ct & ->)).
    exists c'. eexists. split; [exact E|]. split; [done|]. split; [done|]. intros j. cbn [krnl_tcb with_krnl_tcb].
    rewrite wake_all_get. destruct (zget (krnl_tcb k) j); [|done]. by destruct (decide _).
  - destruct (hf_condbroadcast_run k rq dq tq c l I W Hin) as (c' & k' & E & I' & W' & (lg & ct & ->)).
    exists c'. eexists. split; [exact E|]. split; [done|]. split; [done|]. intros j. cbn [krnl_tcb with_krnl_tcb].
    rewrite wake_all_get. destruct (zget (krnl_tcb k) j); [|done]. by destruct (decide _).
Qed.

Lemma hf_seminit_run k rq dq tq garbage s value : kinv k rq dq tq ->
  exists r s' k', hf_seminit garbage s value k = Ok ((r, s'), k') /\ kinv k' rq dq tq /\
    if bool_decide (r = ERR_OK) then 0 <= value /\ sem_rep s' value []
    else r = ERR_ERROR /\
      (0 <= value -> sem_queue s' = None /\ heap_live (krnl_heap k') = heap_live (krnl_heap k)).
Proof.
  intros I. unfold hf_seminit. st_step (di_run k).
  destruct (create_kinv (with_irq_status 0 k) rq dq tq garbage MAX_TASKS (kinv_irq _ _ _ _ 0 I))
    as (r & h' & E & I' & Hs & Hn); [unfold MAX_TASKS, max_create_size; lia|].
  st_step (on_heap_Ok _ (with_irq_status 0 k) r h' E).
  destruct r as [[p q]|].
  - rewrite bool_decide_false by done. destruct (Hs p q eq_refl) as [R Hc]. cbn [orb].
    destruct (Z.ltb_spec value 0); unfold mbind at 1, ST_bind at 1; rewrite ei_run;
      (eexists _, _, _; split; [reflexivity|]; split; [by apply kinv_irq|]).
    + rewrite bool_decide_false by done. split; [done|]. lia.
    + rewrite bool_decide_true by done. split; [lia|]. unfold sem_rep. cbn. split; [done|].
      split; [by exists p, q|]. change (zlen []) with 0. lia.
  - rewrite bool_decide_true by done. cbn [orb]. unfold mbind at 1, ST_bind at 1. rewrite ei_run.
    eexists _, _, _. split; [reflexivity|]. split; [by apply kinv_irq|].
    rewrite bool_decide_false by done. split; [done|]. intros _. split; [done|]. by apply Hn.
Qed.

(** [hf_seminit] reports success exactly with an empty queue and the requested
    value, which is then not negative; when memory runs out nothing stays
    allocated. *)
Theorem hf_seminit_empty k rq dq tq garbage s value : kinv k rq dq tq ->
  exists r s' k', hf_seminit garbage s value k = Ok ((r, s'), k') /\ kinv k' rq dq tq /\
    if bool_decide (r = ERR_OK) then 0 <= value /\ sem_rep s' value []
    else r = ERR_ERROR /\
      (0 <= value -> sem_queue s' = None /\ heap_live (krnl_heap k') = heap_live (krnl_heap k)).
Proof. apply hf_seminit_run. Qed.
End facts.

(** ** On the small system, task 1 running *)

Definition demo_task1 : kernel heap := with_krnl_current_task 1 demo.

Lemma current_fields i (k : kernel heap) : krnl_tcb (with_krnl_current_task i k) = krnl_tcb k /\
  krnl_current_task (with_krnl_current_task i k) = i.
Proof. split; reflexivity. Qed.

Lemma demo_task1_kinv : kinv demo_task1 [0; 1] [] [2; 3].
Proof.
  apply kinv_current; [exact demo_kinv|]. apply list_elem_of_further, list_elem_of_here.
Qed.

Lemma demo_in_tcb l : Forall (fun i => 0 <= i < 30) l -> in_tcb (krnl_tcb demo_task1) l.
Proof.
  rewrite list.Forall_forall. intros Hl i Hi. unfold demo_task1. rewrite (proj1 (current_fields 1 demo)).
  rewrite demo_len. by apply Hl.
Qed.

(** Two queues: nobody waits, and task 2 waits. *)
Definition idle_sem : sem := Sem (Some (4096, empty_queue)) 0.
Definition one_waiting : queue Z :=
  match hf_queue_addtail (Some 2) empty_queue with Ok (_, q) => q | _ => empty_queue end.

Lemma one_waiting_is : q_is one_waiting [2].
Proof.
  destruct (q_is_addtail empty_queue [] 2 empty_queue_is) as (q & E & Q); [reflexivity|].
  unfold one_waiting. by rewrite E.
Qed.

Lemma hf_semwait_blocks_witness : exists s' i k', hf_semwait idle_sem demo_task1 = Ok ((s', Switched i), k') /\
  count s' = -1 /\ i <> 1.
Proof.
  destruct (hf_semwait_blocks demo_task1 _ _ _ idle_sem 0 [] demo_task1_kinv)
    as (s' & e & k' & rq' & E & _ & _ & i & -> & Hi & _ & (C & _) & _).
  - split; [reflexivity|]. split; [|reflexivity]. exists 4096, empty_queue. split; [reflexivity|apply empty_queue_is].
  - reflexivity.
  - split; reflexivity.
  - unfold demo_task1. rewrite (proj2 (current_fields 1 demo)). discriminate.
  - exists s', i, k'. split; [exact E|]. split; [exact C|].
    unfold demo_task1 in Hi. rewrite (proj2 (current_fields 1 demo)) in Hi. exact Hi.
Defined.

Lemma hf_sempost_wakes_witness : exists s' k',
  hf_sempost (Sem (Some (4096, one_waiting)) (-1)) demo_task1 = Ok (s', k') /\ count s' = 0.
Proof.
  destruct (hf_sempost_wakes demo_task1 _ _ _ (Sem (Some (4096, one_waiting)) (-1)) (-1) [2] demo_task1_kinv)
    as (s' & k' & E & _ & (C & _) & _).
  - split; [reflexivity|]. split; [|reflexivity]. exists 4096, one_waiting. split; [reflexivity|apply one_waiting_is].
  - apply demo_in_tcb. constructor; [lia|constructor].
  - lia.
  - exists s', k'. split; [exact E|exact C].
Defined.

Lemma condvar_wakes_witness : exists c' k', hf_condbroadcast (Cond (Some (4096, one_waiting))) demo_task1 = Ok (c', k') /\
  waiters (cond_queue c') [].
Proof.
  destruct (condvar_wakes demo_task1 _ _ _ (Cond (Some (4096, one_waiting))) [2] demo_task1_kinv)
    as (_ & c' & k' & E & _ & W & _).
  - exists 4096, one_waiting. split; [reflexivity|apply one_waiting_is].
  - apply demo_in_tcb. constructor; [lia|constructor].
  - exists c', k'. split; [exact E|exact W].
Defined.

Lemma hf_seminit_empty_witness : exists r s' k',
  hf_seminit (fun _ => None) (Sem None 0) 3 demo_task1 = Ok ((r, s'), k') /\ kinv k' [0; 1] [] [2; 3].
Proof.
  destruct (hf_seminit_empty demo_task1 _ _ _ (fun _ => None) (Sem None 0) 3 demo_task1_kinv)
    as (r & s' & k' & E & I & _).
  exists r, s', k'. split; [exact E|exact I].
Defined.

(** A negative initial value is reported as an error after the queue was
    allocated: its two blocks stay allocated. *)
Lemma demo_seminit :
  match hf_seminit (fun _ => None) (Sem None 0) (-1) demo0 with
  | Ok ((r, s), k) => (r, bool_decide (sem_queue s = None), size (heap_live (krnl_heap k)))
  | _ => (0, true, 0%nat)
  end = (ERR_ERROR, false, 3%nat) /\ size (heap_live (krnl_heap demo0)) = 1%nat.
Proof. split; vm_compute; reflexivity. Qed.
