(* ===== verification/Noc.v ===== *)
(** * The network-on-chip driver

    [drivers/noc/noc.c] over [drivers/noc/ni_hermes.c]: messages between tasks
    on different cores, cut into packets of 16-bit flits. Packet buffers are
    allocated once; their addresses circulate between the pool
    [pktdrv_queue], the queues [pktdrv_tqueue] of the tasks and the code that
    fills or empties them, their contents are in [packets]. The registers of
    the network interface are the class [NetworkInterface]. The configuration
    is that of [platform/noc_3x3]. *)

From Stdlib Require Import String.
From S2P Require Import Prelude Words Malloc Alloc Queue Strings Kernel Task Demo.

#[local] Open Scope Z_scope.

Definition NOC_WIDTH : Z := 3.
Definition NOC_HEIGHT : Z := 3.
Definition NOC_PACKET_SIZE : Z := 64.
Definition NOC_PACKET_SLOTS : Z := 64.
Definition ERR_COMM_TIMEOUT : Z := -203.
Definition ERR_SEQ_ERROR : Z := -204.
Definition ERR_COMM_UNFEASIBLE : Z := -206.
Definition ERR_COMM_ERROR : Z := -207.
Definition ERR_COMM_EMPTY : Z := -208.
Definition PKT_HEADER_SIZE : Z := 8.
Definition PKT_TARGET_CPU : Z := 0.
Definition PKT_PAYLOAD : Z := 1.
Definition PKT_SOURCE_CPU : Z := 2.
Definition PKT_SOURCE_PORT : Z := 3.
Definition PKT_TARGET_PORT : Z := 4.
Definition PKT_MSG_SIZE : Z := 5.
Definition PKT_SEQ : Z := 6.
Definition PKT_CHANNEL : Z := 7.
Definition NOC_COLUMN (n : Z) : Z := cmod n NOC_WIDTH.
Definition NOC_LINE (n : Z) : Z := cdiv n NOC_WIDTH.

(** [_ni_status], [_ni_read] and [_ni_write] of the architecture; reading a
    register may change the interface. *)
Class NetworkInterface (N : Type) := {
  ni_status : N -> Z * N;
  ni_read : N -> Z * N;
  ni_write : Z -> N -> N;
}.

Record noc {H N : Type} := Noc {
  pktdrv_ports : list Z;
  pktdrv_tqueue : list (option (Z * queue Z));
  pktdrv_queue : queue Z;
  packets : gmap Z (list Z);
  ni : N;
  irq_noc : bool;
  kern : kernel H;
}.
Arguments noc : clear implicits.
Arguments Noc {H N}.

Section driver.
Context {H N : Type} {HA : Allocator H} {NI : NetworkInterface N}.
(** [CPU_ID], set for each core, and the contents of fresh memory. *)
Variable CPU_ID : Z.
Variable garbage : Z -> Z.
(** What the interrupts do between two turns of a waiting loop. *)
Variable interrupts : ST (noc H N) unit.
Implicit Types s : noc H N.

Definition with_ports (v : list Z) s : noc H N :=
  Noc v (pktdrv_tqueue s) (pktdrv_queue s) (packets s) (ni s) (irq_noc s) (kern s).
Definition with_tqueue (v : list (option (Z * queue Z))) s : noc H N :=
  Noc (pktdrv_ports s) v (pktdrv_queue s) (packets s) (ni s) (irq_noc s) (kern s).
Definition with_pool (v : queue Z) s : noc H N :=
  Noc (pktdrv_ports s) (pktdrv_tqueue s) v (packets s) (ni s) (irq_noc s) (kern s).
Definition with_packets (v : gmap Z (list Z)) s : noc H N :=
  Noc (pktdrv_ports s) (pktdrv_tqueue s) (pktdrv_queue s) v (ni s) (irq_noc s) (kern s).
Definition with_ni (v : N) s : noc H N :=
  Noc (pktdrv_ports s) (pktdrv_tqueue s) (pktdrv_queue s) (packets s) v (irq_noc s) (kern s).
Definition with_irq_noc (v : bool) s : noc H N :=
  Noc (pktdrv_ports s) (pktdrv_tqueue s) (pktdrv_queue s) (packets s) (ni s) v (kern s).
Definition with_kern (v : kernel H) s : noc H N :=
  Noc (pktdrv_ports s) (pktdrv_tqueue s) (pktdrv_queue s) (packets s) (ni s) (irq_noc s) v.

(** Computations on a part of the state. *)
Definition zoom {S A : Type} (get : noc H N -> S) (put : S -> noc H N -> noc H N) (m : ST S A) :
    ST (noc H N) A := fun s =>
  match m (get s) with
  | Ok (a, x) => Ok (a, put x s)
  | Panic c => Panic c
  | Fault => Fault
  | Timeout => Timeout
  end.
Definition onk {A : Type} (m : @K H A) : ST (noc H N) A := zoom kern with_kern m.
Definition on_pool {A : Type} (m : ST (queue Z) A) : ST (noc H N) A := zoom pktdrv_queue with_pool m.
(** On [pktdrv_tqueue[id]]; there is nothing at NULL or outside the array. *)
Definition on_tqueue {A : Type} (id : Z) (m : ST (queue Z) A) : ST (noc H N) A := fun s =>
  match zget (pktdrv_tqueue s) id with
  | Some (Some (qp, q)) =>
      match m q with
      | Ok (a, q) => Ok (a, with_tqueue (zset (pktdrv_tqueue s) id (Some (qp, q))) s)
      | Panic c => Panic c
      | Fault => Fault
      | Timeout => Timeout
      end
  | _ => Fault
  end.
Definition tqueue_at (id : Z) : ST (noc H N) (option (Z * queue Z)) :=
  l ← gets pktdrv_tqueue; lift (aget l id).

(** [buf_ptr[i]]; NULL is no buffer. *)
Definition flit (p : option Z) (i : Z) : ST (noc H N) Z := fun s =>
  match p with
  | Some p => match packets s !! p with Some l => lift (aget l i) s | None => Fault end
  | None => Fault
  end.

(** ** The network interface ([ni_hermes.c]) *)

Definition _ni_read : ST (noc H N) Z := zoom ni with_ni (fun n => let '(v, n) := ni_read n in Ok (u16 v, n)).
Definition _ni_write (v : Z) : ST (noc H N) unit := modify (fun s => with_ni (ni_write v (ni s)) s).

Definition ni_ready : ST (noc H N) Z :=
  zoom ni with_ni (fun n => let '(v, n) := ni_status n in Ok (Z.land (u16 v) 0x1, n)).

(** [n] flits from the interface. *)
Fixpoint read_flits (n : nat) : ST (noc H N) (list Z) :=
  match n with O => mret [] | S n => v ← _ni_read; l ← read_flits n; mret (v :: l) end.
Fixpoint write_flits (l : list Z) : ST (noc H N) unit :=
  match l with [] => mret tt | v :: l => _ ← _ni_write v; write_flits l end.

Definition ni_flush (pkt_size : Z) : ST (noc H N) Z :=
  status ← onk _di;
  _ ← _ni_read;
  _ ← read_flits (Z.to_nat pkt_size);
  _ ← onk (_ei status);
  ni_ready.

Definition ni_read_packet (buf pkt_size : Z) : ST (noc H N) Z :=
  status ← onk _di;
  _ ← _ni_read;
  l ← read_flits (Z.to_nat pkt_size);
  m ← gets packets;
  old ← lift (match m !! buf with Some old => Ok old | None => Fault end);
  if zlen old <? pkt_size then fault_st else
  _ ← modify (with_packets (<[buf := l ++ drop (Z.to_nat pkt_size) old]> m));
  _ ← onk (_ei status);
  mret 0.

Fixpoint ni_write_packet (fuel : nat) (buf : list Z) : ST (noc H N) Z :=
  match fuel with
  | O => timeout_st
  | S fuel =>
      r ← ni_ready;
      if negb (nz r) then ni_write_packet fuel buf else
      status ← onk _di;
      r ← ni_ready;
      if negb (nz r) then _ ← onk (_ei status); ni_write_packet fuel buf else
      _ ← write_flits buf;
      _ ← onk (_ei status);
      mret 0
  end.

(** ** Initialisation and reception ([noc.c]) *)

Fixpoint ni_buffers (n : nat) : ST (noc H N) unit :=
  match n with
  | O => mret tt
  | S n =>
      ptr ← onk (on_heap (hf_malloc (2 * NOC_PACKET_SIZE)));
      if ptr =? 0 then onk (panic PANIC_OOM) else
      _ ← modify (fun s => with_packets (<[ptr := tabulate (Z.to_nat NOC_PACKET_SIZE) garbage]> (packets s)) s);
      _ ← on_pool (hf_queue_addtail (Some ptr));
      ni_buffers n
  end.

Definition ni_init : ST (noc H N) unit :=
  _ ← onk (kprintf "\nKERNEL: this is core #%d" [KInt CPU_ID]);
  _ ← onk (kprintf "\nKERNEL: NoC queue init, %d packets" [KInt NOC_PACKET_SLOTS]);
  q ← onk (on_heap (hf_queue_create (fun _ => None) NOC_PACKET_SLOTS));
  match q with
  | None => onk (panic PANIC_OOM)
  | Some (_, q) =>
      _ ← modify (with_pool q);
      _ ← modify (with_ports (replicate (Z.to_nat MAX_TASKS) 0));
      _ ← ni_buffers (Z.to_nat NOC_PACKET_SLOTS);
      i ← ni_flush NOC_PACKET_SIZE;
      if nz i then
        _ ← modify (with_irq_noc true);
        onk (kprintf "\nKERNEL: NoC driver registered" [])
      else onk (kprintf "\nKERNEL: NoC NI init failed" [])
  end.

(** [for (k = 0; k < MAX_TASKS; k++) if (pktdrv_ports[k] == port) break;] *)
Fixpoint find_port (l : list Z) (port k : Z) : Z :=
  match l with
  | [] => k
  | p :: l => if p =? port then k else find_port l port (k + 1)
  end.

Definition ni_isr : ST (noc H N) unit :=
  buf_ptr ← on_pool hf_queue_remhead;
  match buf_ptr with
  | Some p =>
      _ ← ni_read_packet p NOC_PACKET_SIZE;
      payload ← flit buf_ptr PKT_PAYLOAD;
      if negb (payload =? NOC_PACKET_SIZE - 2) then
        _ ← on_pool (hf_queue_addtail buf_ptr); mret tt
      else
      port ← flit buf_ptr PKT_TARGET_PORT;
      ports ← gets pktdrv_ports;
      let k := find_port ports port 0 in
      live ← (if k <? MAX_TASKS then t ← onk (tcb_get k); mret (nz (t_ptask t)) else mret false);
      if live : bool then
        r ← on_tqueue k (hf_queue_addtail buf_ptr);
        if nz r then
          _ ← onk (kprintf "\nKERNEL: task (on port %d) queue full! dropping packet..." [KInt port]);
          _ ← on_pool (hf_queue_addtail buf_ptr); mret tt
        else mret tt
      else
        cpu ← flit buf_ptr PKT_SOURCE_CPU;
        src ← flit buf_ptr PKT_SOURCE_PORT;
        _ ← onk (kprintf "\nKERNEL: no task on port %d (offender: cpu %d port %d) - dropping packet..."
          [KInt port; KInt cpu; KInt src]);
        _ ← on_pool (hf_queue_addtail buf_ptr); mret tt
  | None =>
      _ ← onk (kprintf "\nKERNEL: NoC queue full! dropping packet..." []);
      _ ← ni_flush NOC_PACKET_SIZE; mret tt
  end.

Definition hf_cpuid : Z := u16 CPU_ID.
Definition hf_ncores : Z := u16 (NOC_WIDTH * NOC_HEIGHT).

(** ** Ports *)

Definition hf_comm_create (id port npackets : Z) : ST (noc H N) Z :=
  if id <? MAX_TASKS then
    t ← onk (tcb_get id);
    if t_ptask t =? 0 then mret ERR_INVALID_ID else
    tq ← tqueue_at id;
    match tq with
    | Some _ => mret ERR_COMM_UNFEASIBLE
    | None =>
        ports ← gets pktdrv_ports;
        let k := find_port ports port 0 in
        if (k =? 0) || (k <? MAX_TASKS) then mret ERR_COMM_ERROR else
        let npackets :=
          if (NOC_PACKET_SLOTS <? npackets) || (npackets =? 0) then NOC_PACKET_SLOTS else npackets in
        q ← onk (on_heap (hf_queue_create (fun _ => None) npackets));
        tqs ← gets pktdrv_tqueue;
        _ ← modify (with_tqueue (zset tqs id q));
        match q with
        | None => mret ERR_OUT_OF_MEMORY
        | Some _ => _ ← modify (fun s => with_ports (zset (pktdrv_ports s) id port) s); mret ERR_OK
        end
    end
  else mret ERR_INVALID_ID.

(** [while (hf_queue_count(q)) hf_queue_addtail(pktdrv_queue, hf_queue_remhead(q));] *)
Fixpoint drain (fuel : nat) (id : Z) : ST (noc H N) unit :=
  match fuel with
  | O => timeout_st
  | S fuel =>
      k ← on_tqueue id hf_queue_count;
      if nz k then
        p ← on_tqueue id hf_queue_remhead;
        _ ← on_pool (hf_queue_addtail p);
        drain fuel id
      else mret tt
  end.

(** The task's queue keeps its entry after its blocks are released. *)
Definition hf_comm_destroy (fuel : nat) (id : Z) : ST (noc H N) Z :=
  if id <? MAX_TASKS then
    t ← onk (tcb_get id);
    if t_ptask t =? 0 then mret ERR_INVALID_ID else
    status ← onk _di;
    _ ← drain fuel id;
    _ ← onk (_ei status);
    tq ← tqueue_at id;
    match tq with
    | None => fault_st
    | Some (qp, q) =>
        r ← onk (on_heap (hf_queue_destroy qp q));
        if nz r then mret ERR_COMM_ERROR
        else _ ← modify (fun s => with_ports (zset (pktdrv_ports s) id 0) s); mret ERR_OK
    end
  else mret ERR_INVALID_ID.

Definition hf_recvprobe : ST (noc H N) Z :=
  id ← onk hf_selfid;
  tq ← tqueue_at id;
  match tq with
  | None => mret ERR_COMM_UNFEASIBLE
  | Some _ =>
      k ← on_tqueue id hf_queue_count;
      if nz k then
        buf_ptr ← on_tqueue id (hf_queue_get 0);
        match buf_ptr with
        | Some _ =>
            c ← flit buf_ptr PKT_CHANNEL;
            if negb (c =? 0xffff) then mret c else mret ERR_COMM_EMPTY
        | None => mret ERR_COMM_EMPTY
        end
      else mret ERR_COMM_EMPTY
  end.

(** ** Receiving *)

(** Wait until the first packet of the queue is the one with this channel and
    sequence number, turning the queue round; with [bounded], give up after so
    many turns with packets. *)
Fixpoint recv_wait (fuel : nat) (bounded : bool) (id channel seq i : Z) : ST (noc H N) unit :=
  match fuel with
  | O => timeout_st
  | S fuel =>
      k ← on_tqueue id hf_queue_count;
      if nz k then
        buf_ptr ← on_tqueue id (hf_queue_get 0);
        found ← (match buf_ptr with
          | Some _ =>
              c ← flit buf_ptr PKT_CHANNEL;
              if c =? channel then s ← flit buf_ptr PKT_SEQ; mret (s =? seq) else mret false
          | None => mret false
          end);
        if found : bool then mret tt else
        status ← onk _di;
        buf_ptr ← on_tqueue id hf_queue_remhead;
        _ ← on_tqueue id (hf_queue_addtail buf_ptr);
        _ ← onk (_ei status);
        if bounded && (Z.shiftl NOC_PACKET_SLOTS 3 <? i) then mret tt
        else _ ← interrupts; recv_wait fuel bounded id channel seq (i + 1)
      else _ ← interrupts; recv_wait fuel bounded id channel seq i
  end.

Definition take_head (id : Z) : ST (noc H N) (option Z) :=
  status ← onk _di;
  buf_ptr ← on_tqueue id hf_queue_remhead;
  _ ← onk (_ei status);
  mret buf_ptr.

Definition give_back (buf_ptr : option Z) : ST (noc H N) unit :=
  status ← onk _di;
  _ ← on_pool (hf_queue_addtail buf_ptr);
  onk (_ei status).

(** [for (i ...; i < NOC_PACKET_SIZE && p < limit; i++) { buf[p++] = ...; buf[p++] = ...; }]
    for [n] flits from [i]. *)
Fixpoint unpack (n : nat) (buf_ptr : option Z) (i p limit : Z) (buf : list Z) :
    ST (noc H N) (Z * list Z) :=
  match n with
  | O => mret (p, buf)
  | S n =>
      if p <? limit then
        f ← flit buf_ptr i;
        buf ← lift (aset buf p (u8 (Z.shiftr f 8)));
        buf ← lift (aset buf (p + 1) (u8 (Z.land f 0xff)));
        unpack n buf_ptr (i + 1) (p + 2) limit buf
      else mret (p, buf)
  end.
Definition PAYLOAD_FLITS : nat := Z.to_nat (NOC_PACKET_SIZE - PKT_HEADER_SIZE).
Definition payload_bytes : Z := (NOC_PACKET_SIZE - PKT_HEADER_SIZE) * 2.
Definition packet_count (size : Z) : Z :=
  if cmod size payload_bytes =? 0 then cdiv size payload_bytes else u16 (cdiv size payload_bytes + 1).

(** The body of [while (++packet < packets)], and what follows it. *)
Fixpoint recv_packets (fuel wait : nat) (id channel : Z) (size : Z) (packet packets seq p error : Z)
    (buf_ptr : option Z) (buf : list Z) : ST (noc H N) (Z * list Z) :=
  match fuel with
  | O => timeout_st
  | S fuel =>
      let packet := u16 (packet + 1) in
      sq ← flit buf_ptr PKT_SEQ;
      let error := if sq =? seq then error else ERR_SEQ_ERROR in
      let seq := u16 (seq + 1) in
      if packet <? packets then
        '(p, buf) ← unpack PAYLOAD_FLITS buf_ptr PKT_HEADER_SIZE p (p + payload_bytes) buf;
        _ ← give_back buf_ptr;
        _ ← recv_wait wait true id channel seq 0;
        buf_ptr ← take_head id;
        recv_packets fuel wait id channel size packet packets seq p error buf_ptr buf
      else
        '(_, buf) ← unpack PAYLOAD_FLITS buf_ptr PKT_HEADER_SIZE p size buf;
        _ ← give_back buf_ptr;
        mret (error, buf)
  end.

(** Returns the error, [*source_cpu], [*source_port] and [*size], and [buf]. *)
Definition hf_recv (fuel : nat) (out : Z * Z * Z) (buf : list Z) (channel : Z) :
    ST (noc H N) (Z * (Z * Z * Z) * list Z) :=
  id ← onk hf_selfid;
  tq ← tqueue_at id;
  match tq with
  | None => mret (ERR_COMM_UNFEASIBLE, out, buf)
  | Some _ =>
      _ ← recv_wait fuel false id channel (0 + 1) 0;
      buf_ptr ← take_head id;
      source_cpu ← flit buf_ptr PKT_SOURCE_CPU;
      source_port ← flit buf_ptr PKT_SOURCE_PORT;
      size ← flit buf_ptr PKT_MSG_SIZE;
      seq ← flit buf_ptr PKT_SEQ;
      '(error, buf) ← recv_packets (S (Z.to_nat (packet_count size))) fuel id channel size 0 (packet_count size) seq 0 ERR_OK buf_ptr buf;
      mret (error, (source_cpu, source_port, size), buf)
  end.

(** ** Sending *)

Definition header (id target_cpu target_port size packet channel : Z) : ST (noc H N) (list Z) :=
  ports ← gets pktdrv_ports;
  port ← lift (aget ports id);
  mret [u16 (Z.lor (Z.shiftl (NOC_COLUMN target_cpu) 4) (NOC_LINE target_cpu)); NOC_PACKET_SIZE - 2;
    hf_cpuid; port; target_port; size; packet; channel].

(** [n] flits of the buffer from [p] on: while [p < limit], then padding. *)
Fixpoint pack (n : nat) (buf : list Z) (p limit : Z) : outcome (list Z) :=
  match n with
  | O => Ok []
  | S n =>
      if p <? limit then
        b1 ← aget buf p;
        b2 ← aget buf (p + 1);
        l ← pack n buf (p + 2) limit;
        mret (u16 (Z.lor (Z.shiftl (u8 b1) 8) (u8 b2)) :: l)
      else l ← pack n buf p limit; mret (0xdead :: l)
  end.

Fixpoint send_packets (fuel wait : nat) (id target_cpu target_port : Z) (buf : list Z)
    (size channel packet packets p : Z) : ST (noc H N) unit :=
  match fuel with
  | O => timeout_st
  | S fuel =>
      let packet := u16 (packet + 1) in
      h ← header id target_cpu target_port size packet channel;
      if packet <? packets then
        d ← lift (pack PAYLOAD_FLITS buf p (p + payload_bytes));
        _ ← ni_write_packet wait (h ++ d);
        send_packets fuel wait id target_cpu target_port buf size channel packet packets (p + payload_bytes)
      else
        d ← lift (pack PAYLOAD_FLITS buf p size);
        _ ← ni_write_packet wait (h ++ d);
        mret tt
  end.

(** The final [delay_ms(1)] lets the interrupts run. *)
Definition hf_send (fuel : nat) (target_cpu target_port : Z) (buf : list Z) (size channel : Z) :
    ST (noc H N) Z :=
  id ← onk hf_selfid;
  tq ← tqueue_at id;
  match tq with
  | None => mret ERR_COMM_UNFEASIBLE
  | Some _ =>
      _ ← send_packets (S (Z.to_nat (packet_count size))) fuel id target_cpu target_port buf size channel 0 (packet_count size) 0;
      _ ← interrupts;
      mret ERR_OK
  end.

(** ** Acknowledged messages *)

(** The text "ok" of the acknowledgement, with its terminator and the byte
    after it. *)
Definition ok_text (after : Z) : list Z := [111; 107; 0; after].

Definition hf_recvack (fuel : nat) (out : Z * Z * Z) (buf : list Z) (channel : Z) :
    ST (noc H N) (Z * (Z * Z * Z) * list Z) :=
  '(error, out, buf) ← hf_recv fuel out buf channel;
  _ ← (if error =? ERR_OK then
    let '(source_cpu, source_port, _) := out in
    _ ← hf_send fuel source_cpu source_port (ok_text (garbage 0)) 3 0xffff; mret tt
    else mret tt);
  mret (error, out, buf).

(** Wait for the acknowledgement; [clock] is what [_read_us() / 1000] returns
    at each turn. *)
Fixpoint ack_wait (fuel : nat) (id time timeout : Z) (clock : list Z) : ST (noc H N) bool :=
  match fuel with
  | O => timeout_st
  | S fuel =>
      k ← on_tqueue id hf_queue_count;
      found ← (if nz k then
        buf_ptr ← on_tqueue id (hf_queue_get 0);
        match buf_ptr with
        | Some _ =>
            c ← flit buf_ptr PKT_CHANNEL;
            if c =? 0xffff then m ← flit buf_ptr PKT_MSG_SIZE; mret (m =? 3) else mret false
        | None => mret false
        end
        else mret false);
      if found : bool then mret true else
      match clock with
      | [] => timeout_st
      | now :: clock =>
          if timeout <? u64 (now - time) then mret false
          else _ ← interrupts; ack_wait fuel id time timeout clock
      end
  end.

(** [clock] also holds the time at which waiting begins, truncated to the
    variable [time]. *)
Definition hf_sendack (fuel : nat) (target_cpu target_port : Z) (buf : list Z) (size channel timeout : Z)
    (clock : list Z) : ST (noc H N) Z :=
  error ← hf_send fuel target_cpu target_port buf size channel;
  if error =? ERR_OK then
    id ← onk hf_selfid;
    match clock with
    | [] => timeout_st
    | t0 :: clock =>
        got ← ack_wait fuel id (u32 t0) timeout clock;
        if got : bool then
          _ ← hf_recv fuel (0, 0, size) (replicate 4 (garbage 0)) 0xffff; mret error
        else mret ERR_COMM_TIMEOUT
    end
  else mret error.
End driver.

(** ** Facts about the parts *)

(** An interface that keeps what arrives and what is sent in order, and is
    always ready. *)
Record fifo := Fifo { rx : list Z; tx : list Z }.
#[export] Instance fifo_ni : NetworkInterface fifo := {
  ni_status n := (1, n);
  ni_read n := match rx n with [] => (0, n) | v :: l => (v, Fifo l (tx n)) end;
  ni_write v n := Fifo (rx n) (tx n ++ [v]);
}.

Section facts.
Context {H : Type} {HA : Allocator H}.
Implicit Types (s : noc H fifo) (l : list Z).

Lemma di_ei_run (k : kernel H) : exists k1, _di k = Ok (irq_status k, k1) /\ _ei (irq_status k) k1 = Ok (tt, k).
Proof. eexists. split; [reflexivity|]. by destruct k. Qed.

(** A section with interrupts off that leaves the kernel alone. *)
Lemma mask_run s : exists k1, onk _di s = Ok (irq_status (kern s), with_kern k1 s) /\
  forall s', kern s' = k1 -> onk (_ei (irq_status (kern s))) s' = Ok (tt, with_kern (kern s) s').
Proof.
  destruct (di_ei_run (kern s)) as (k1 & E1 & E2). exists k1. unfold onk, zoom. rewrite E1.
  split; [done|]. intros s' ->. by rewrite E2.
Qed.

Lemma read_flits_run l : forall s rest, rx (ni s) = l ++ rest -> Forall (fun v => 0 <= v < 65536) l ->
  read_flits (length l) s = Ok (l, with_ni (Fifo rest (tx (ni s))) s).
Proof.
  induction l as [|v l IH]; intros s rest Hrx Hl; cbn [length read_flits].
  - cbn in Hrx. rewrite <- Hrx. by destruct s as [? ? ? ? [] ? ?].
  - apply Forall_cons_iff in Hl as [Hv Hl].
    assert (E : _ni_read s = Ok (v, with_ni (Fifo (l ++ rest) (tx (ni s))) s)).
    { unfold _ni_read, zoom, ni_read, fifo_ni. rewrite Hrx. cbn. by rewrite u16_small. }
    st_step E. rewrite (ST_bind_Ok _ _ _ _ _ (IH (with_ni (Fifo (l ++ rest) (tx (ni s))) s) rest eq_refl Hl)).
    done.
Qed.

Definition emit (l : list Z) s : noc H fifo := with_ni (Fifo (rx (ni s)) (tx (ni s) ++ l)) s.

Lemma write_flits_run l : forall s,
  write_flits l s = Ok (tt, with_ni (Fifo (rx (ni s)) (tx (ni s) ++ l)) s).
Proof.
  induction l as [|v l IH]; intros s; cbn [write_flits].
  - rewrite app_nil_r. by destruct s as [? ? ? ? [] ? ?].
  - unfold _ni_write, mbind, ST_bind, modify. rewrite IH. cbn. by rewrite <- app_assoc.
Qed.

Lemma ni_write_packet_run fuel l s :
  ni_write_packet (S fuel) l s = Ok (0, emit l s).
Proof.
  cbn [ni_write_packet].
  assert (E : forall s, ni_ready s = Ok (1, s)).
  { intros [? ? ? ? [] ? ?]. reflexivity. }
  st_step (E s). change (negb (nz 1)) with false. cbv iota.
  destruct (mask_run s) as (k1 & E1 & E2). st_step E1. st_step (E (with_kern k1 s)).
  change (negb (nz 1)) with false. cbv iota. st_step (write_flits_run l (with_kern k1 s)).
  unfold mbind, ST_bind, emit. rewrite E2; done.
Qed.

Lemma ni_read_packet_run p s pkt rest v old :
  rx (ni s) = v :: pkt ++ rest -> Forall (fun v => 0 <= v < 65536) pkt -> zlen pkt = 64 ->
  packets s !! p = Some old -> zlen old = 64 ->
  ni_read_packet p 64 s = Ok (0, with_packets (<[p := pkt]> (packets s)) (with_ni (Fifo rest (tx (ni s))) s)).
Proof.
  intros Hrx Hf H64 Hp Hold. unfold ni_read_packet.
  destruct (mask_run s) as (k1 & E1 & E2). st_step E1.
  assert (Er : _ni_read (with_kern k1 s) = Ok (u16 v, with_ni (Fifo (pkt ++ rest) (tx (ni s))) (with_kern k1 s))).
  { unfold _ni_read, zoom, ni_read, fifo_ni. cbn [ni with_kern]. by rewrite Hrx. }
  st_step Er. assert (Hn : Z.to_nat 64 = length pkt) by (unfold zlen in H64; lia). rewrite Hn.
  pose proof (read_flits_run pkt (with_ni (Fifo (pkt ++ rest) (tx (ni s))) (with_kern k1 s)) rest eq_refl Hf) as Ef.
  st_step Ef. cbn [tx ni with_ni].
  unfold gets, lift, modify, mbind, ST_bind. cbn [packets with_ni with_kern]. rewrite Hp.
  destruct (Z.ltb_spec (zlen old) 64); [lia|].
  assert (Hd : drop (length pkt) old = []) by (apply drop_ge; unfold zlen in *; lia).
  rewrite Hd, app_nil_r. by rewrite E2.
Qed.

Lemma flit_run s p l i v : packets s !! p = Some l -> zget l i = Some v -> flit (Some p) i s = Ok (v, s).
Proof. intros Hp Hi. unfold flit. rewrite Hp. unfold lift, aget. by rewrite Hi. Qed.

Lemma on_pool_run {A : Type} s (m : ST (queue Z) A) a q :
  m (pktdrv_queue s) = Ok (a, q) -> on_pool m s = Ok (a, with_pool q s).
Proof. intros E. unfold on_pool, zoom. by rewrite E. Qed.

Lemma on_tqueue_run {A : Type} s id qp q (m : ST (queue Z) A) a q' :
  zget (pktdrv_tqueue s) id = Some (Some (qp, q)) -> m q = Ok (a, q') ->
  on_tqueue id m s = Ok (a, with_tqueue (zset (pktdrv_tqueue s) id (Some (qp, q'))) s).
Proof. intros Hq E. unfold on_tqueue. by rewrite Hq, E. Qed.

Lemma on_tqueue_read {A : Type} s id qp q (m : ST (queue Z) A) a :
  zget (pktdrv_tqueue s) id = Some (Some (qp, q)) -> m q = Ok (a, q) -> on_tqueue id m s = Ok (a, s).
Proof.
  intros Hq E. rewrite (on_tqueue_run s id qp q m a q Hq E), (zset_same _ _ _ Hq). by destruct s.
Qed.

Lemma find_port_found (ports : list Z) (port i : Z) : forall (n : Z),
  zget ports i = Some port -> (forall j, 0 <= j < i -> zget ports j <> Some port) ->
  find_port ports port n = n + i.
Proof.
  revert i. induction ports as [|p ports IH]; intros i n Hi Hj.
  { pose proof (zget_Some_range _ _ _ Hi) as Hr. change (zlen (@nil Z)) with 0 in Hr. lia. }
  cbn [find_port]. pose proof (zget_Some_range _ _ _ Hi) as Hr.
  destruct (Z.eqb_spec p port) as [->|Hne].
  - destruct (Z.eq_dec i 0) as [->|]; [lia|]. exfalso. apply (Hj 0 ltac:(lia)). by rewrite zget_cons_0.
  - destruct (Z.eq_dec i 0) as [->|Hi0]; [rewrite zget_cons_0 in Hi; congruence|].
    rewrite zget_cons_S in Hi by lia. rewrite (IH (i - 1) (n + 1) Hi); [lia|].
    intros j Hjr. rewrite <- (Z.add_simpl_r j 1), <- (zget_cons_S p ports) by lia. apply Hj. lia.
Qed.

(** ** The packets of a message *)

Definition byte_at (data : list Z) (i : Z) : Z := default 0 (zget data i).
Definition word (b1 b2 : Z) : Z := u16 (Z.lor (Z.shiftl (u8 b1) 8) (u8 b2)).

(** The flits that carry packet [j] of the message, from 1. *)
Definition payload (data : list Z) (size j : Z) : list Z :=
  tabulate PAYLOAD_FLITS (fun i =>
    let p := payload_bytes * (j - 1) + 2 * i in
    if p <? size then word (byte_at data p) (byte_at data (p + 1)) else 0xdead).
Definition packet (cpu src_cpu src_port port : Z) (data : list Z) (size channel j : Z) : list Z :=
  [u16 (Z.lor (Z.shiftl (NOC_COLUMN cpu) 4) (NOC_LINE cpu)); NOC_PACKET_SIZE - 2;
   u16 src_cpu; src_port; port; size; j; channel] ++ payload data size j.

(** A message without bytes still takes a packet. *)
Definition packets_sent (size : Z) : Z := Z.max 1 ((size + 111) / 112).
Definition message (cpu src_cpu src_port port : Z) (data : list Z) (size channel : Z) : list (list Z) :=
  tabulate (Z.to_nat (packets_sent size)) (fun i => packet cpu src_cpu src_port port data size channel (i + 1)).

Lemma packet_count_ceil (size : Z) : 0 <= size < 65536 -> packet_count size = (size + 111) / 112.
Proof.
  intros Hs. unfold packet_count, cmod, cdiv. change payload_bytes with 112.
  rewrite Z.rem_mod_nonneg, Z.quot_div_nonneg by lia.
  destruct (Z.eqb_spec (size mod 112) 0); [|rewrite u16_small]; Z.div_mod_to_equations; lia.
Qed.

Lemma tabulate_S {A : Type} (n : nat) (f : Z -> A) : tabulate (S n) f = f 0 :: tabulate n (fun i => f (i + 1)).
Proof.
  apply list_eq_zget; autorewrite with hfr; rewrite !tabulate_zlen; [lia|]. intros i Hi.
  rewrite zget_tabulate by lia. destruct (Z.eq_dec i 0) as [->|]; [done|].
  rewrite zget_cons_S, zget_tabulate by lia. by rewrite Z.sub_add.
Qed.
Lemma tabulate_ext {A : Type} (n : nat) (f g : Z -> A) :
  (forall i, 0 <= i < Z.of_nat n -> f i = g i) -> tabulate n f = tabulate n g.
Proof.
  intros E. apply list_eq_zget; rewrite !tabulate_zlen; [done|]. intros i Hi.
  by rewrite !zget_tabulate, E by done.
Qed.

Lemma byte_at_get (data : list Z) (i : Z) : 0 <= i < zlen data -> aget data i = Ok (byte_at data i).
Proof. intros [x Hx]%zget_is_Some. unfold aget, byte_at. by rewrite Hx. Qed.

(** Packing produces the words of the bytes below the limit, then padding. *)
Lemma pack_run (data : list Z) (limit : Z) (n : nat) : forall p, 0 <= p ->
  (forall i, 0 <= i < Z.of_nat n -> p + 2 * i < limit -> p + 2 * i + 1 < zlen data) ->
  pack n data p limit = Ok (tabulate n (fun i => let p := p + 2 * i in
    if p <? limit then word (byte_at data p) (byte_at data (p + 1)) else 0xdead)).
Proof.
  induction n as [|n IH]; intros p Hp Hd; [done|].
  cbn [pack]. rewrite tabulate_S, Z.mul_0_r, Z.add_0_r. cbv zeta.
  destruct (Z.ltb_spec p limit) as [Hl|Hl].
  - pose proof (Hd 0 ltac:(lia) ltac:(lia)). rewrite !byte_at_get by lia. cbn [mbind outcome_bind].
    rewrite IH; [|lia|intros i Hi Hp2; specialize (Hd (i + 1)); lia].
    cbn. do 2 f_equal. apply tabulate_ext. intros i Hi. cbv zeta.
    by replace (p + 2 + 2 * i) with (p + 2 * (i + 1)) by lia.
  - rewrite IH; [|lia|intros i Hi Hp2; lia].
    cbn. do 2 f_equal. apply tabulate_ext. intros i Hi. cbv zeta.
    destruct (Z.ltb_spec (p + 2 * i) limit); [lia|].
    by destruct (Z.ltb_spec (p + 2 * (i + 1)) limit); [lia|].
Qed.

(** The payload of packet [j] is the same for both loops of [hf_send]. *)
Lemma pack_payload (data : list Z) (size j limit : Z) :
  1 <= j -> (limit = size \/ limit = payload_bytes * j /\ limit <= size) ->
  size + size mod 2 <= zlen data ->
  pack PAYLOAD_FLITS data (payload_bytes * (j - 1)) limit = Ok (payload data size j).
Proof.
  intros Hj Hl Hd. change payload_bytes with 112 in *. rewrite pack_run; [|lia|].
  - f_equal. apply tabulate_ext. change (Z.of_nat PAYLOAD_FLITS) with 56. intros i Hi.
    change payload_bytes with 112. cbv zeta.
    destruct Hl as [->|[-> Hl]]; [done|].
    destruct (Z.ltb_spec (112 * (j - 1) + 2 * i) (112 * j)); [|lia].
    by destruct (Z.ltb_spec (112 * (j - 1) + 2 * i) size); [|lia].
  - change (Z.of_nat PAYLOAD_FLITS) with 56. intros i Hi Hp.
    destruct Hl as [->|[-> Hl]]; Z.div_mod_to_equations; lia.
Qed.

Lemma emit_emit l1 l2 s : emit l2 (emit l1 s) = emit (l1 ++ l2) s.
Proof. unfold emit. cbn. by rewrite app_assoc. Qed.
Lemma header_run (cpu id tcpu port size j ch src : Z) s : zget (pktdrv_ports s) id = Some src ->
  header cpu id tcpu port size j ch s = Ok ([u16 (Z.lor (Z.shiftl (NOC_COLUMN tcpu) 4) (NOC_LINE tcpu)); NOC_PACKET_SIZE - 2;
   u16 cpu; src; port; size; j; ch], s).
Proof. intros Hp. unfold header, gets, lift, mbind, ST_bind. by rewrite (aget_Ok _ _ _ Hp). Qed.

(** The loop sends the packets from [j + 1] to the last. *)
Lemma send_packets_run (wait : nat) (cpu id tcpu port size ch src : Z) (data : list Z) :
  0 <= size < 65536 -> size + size mod 2 <= zlen data ->
  forall (n fuel : nat) (j : Z) s, (n <= fuel)%nat -> 0 <= j -> packets_sent size = j + 1 + Z.of_nat n ->
  zget (pktdrv_ports s) id = Some src ->
  send_packets cpu (S fuel) (S wait) id tcpu port data size ch j (packet_count size) (payload_bytes * j) s =
    Ok (tt, emit (concat (tabulate (S n) (fun i => packet tcpu cpu src port data size ch (j + 1 + i)))) s).
Proof.
  intros Hs Hd n. rewrite (packet_count_ceil size Hs). unfold packets_sent.
  induction n as [|n IH]; intros fuel j s Hf Hj Hn Hp; [|destruct fuel as [|fuel]; [lia|]; set (m := S fuel)];
    cbn [send_packets]; rewrite u16_small by (Z.div_mod_to_equations; lia);
    st_step (header_run cpu id tcpu port size (j + 1) ch src s Hp); rewrite tabulate_S; cbn [concat];
    replace (j + 1 + 0) with (j + 1) by lia.
  - destruct (Z.ltb_spec (j + 1) ((size + 111) / 112)); [lia|].
    replace (payload_bytes * j) with (payload_bytes * (j + 1 - 1)) by (f_equal; lia).
    unfold lift, mbind at 1, ST_bind at 1. rewrite (pack_payload data size (j + 1) size) by (auto; lia).
    st_step (ni_write_packet_run wait (packet tcpu cpu src port data size ch (j + 1)) s).
    cbn [tabulate seq fmap list_fmap map concat]. by rewrite app_nil_r.
  - destruct (Z.ltb_spec (j + 1) ((size + 111) / 112)); [|lia].
    replace (payload_bytes * j) with (payload_bytes * (j + 1 - 1)) by (f_equal; lia).
    replace (payload_bytes * (j + 1 - 1) + payload_bytes) with (payload_bytes * (j + 1)) by (unfold payload_bytes; lia).
    unfold lift, mbind at 1, ST_bind at 1.
    rewrite (pack_payload data size (j + 1) (payload_bytes * (j + 1)));
      [|lia|right; split; [done|change payload_bytes with 112; Z.div_mod_to_equations; lia]|done].
    st_step (ni_write_packet_run wait (packet tcpu cpu src port data size ch (j + 1)) s).
        unfold m. rewrite (IH fuel (j + 1) (emit (packet tcpu cpu src port data size ch (j + 1)) s)); [|lia..|done].
    rewrite emit_emit. do 5 f_equal. apply tabulate_ext. intros i _. f_equal. lia.
Qed.

(** ** Receiving the packets of a message *)

(** The buffer when the first [p] bytes of the message have been written. *)
Definition overlay (data orig : list Z) (p : Z) : list Z :=
  take (Z.to_nat p) data ++ drop (Z.to_nat p) orig.

Lemma overlay_put (data orig : list Z) (p : Z) : 0 <= p < zlen data -> p < zlen orig ->
  aset (overlay data orig p) p (byte_at data p) = Ok (overlay data orig (p + 1)).
Proof.
  intros Hp Ho. pose proof (zget_is_Some data p Hp) as [x Hx].
  unfold byte_at. rewrite Hx. change (default 0 (Some x)) with x. unfold overlay, zlen in *.
  destruct (nth_lookup_or_length orig (Z.to_nat p) 0) as [Hy|]; [|lia].
  rewrite (drop_S orig _ _ Hy), aset_Ok.
  2:{ unfold zlen. rewrite length_app, length_take. cbn [length]. lia. }
  unfold zget in Hx. unfold zset. destruct (Z.ltb_spec p 0); [lia|].
  rewrite insert_app_r_alt by (rewrite length_take; lia).
  rewrite length_take, Nat.min_l, Nat.sub_diag by lia. cbn [insert list_insert].
  replace (Z.to_nat (p + 1)) with (S (Z.to_nat p)) by lia.
  rewrite (take_S_r data _ _ Hx). by app_norm.
Qed.

Lemma word_high (b1 b2 : Z) : u8 (Z.shiftr (word b1 b2) 8) = u8 b1.
Proof.
  unfold word. rewrite (lor_shiftl_add _ _ 8 ltac:(lia) (u8_range b2)), Z.shiftr_div_pow2 by lia.
  change (2 ^ 8) with 256. word_lia.
Qed.
Lemma word_low (b1 b2 : Z) : u8 (Z.land (word b1 b2) 0xff) = u8 b2.
Proof.
  unfold word. rewrite (lor_shiftl_add _ _ 8 ltac:(lia) (u8_range b2)).
  rewrite (land_ones_eq _ 255 8) by done. change (2 ^ 8) with 256. word_lia.
Qed.

Definition bytes (data : list Z) : Prop := Forall (fun b => 0 <= b < 256) data.
Lemma byte_at_u8 (data : list Z) (i : Z) : bytes data -> u8 (byte_at data i) = byte_at data i.
Proof.
  intros Hb. apply u8_small. unfold byte_at. destruct (zget data i) as [x|] eqn:E; [|cbn; lia].
  unfold zget in E. destruct (i <? 0); [done|]. exact (proj1 (Forall_lookup _ _) Hb _ _ E).
Qed.

(** The flits of a packet become the bytes they were made of. *)
Lemma unpack_run (data orig l : list Z) (a limit : Z) : bytes data ->
  forall (n : nat) i p s, packets s !! a = Some l -> 0 <= p -> p <= limit + 1 ->
  p + 2 * Z.min (Z.of_nat n) ((limit - p + 1) / 2) <= Z.min (zlen data) (zlen orig) ->
  (forall k, 0 <= k < Z.min (Z.of_nat n) ((limit - p + 1) / 2) ->
    zget l (i + k) = Some (word (byte_at data (p + 2 * k)) (byte_at data (p + 2 * k + 1)))) ->
  unpack n (Some a) i p limit (overlay data orig p) s =
    Ok ((p + 2 * Z.min (Z.of_nat n) ((limit - p + 1) / 2),
         overlay data orig (p + 2 * Z.min (Z.of_nat n) ((limit - p + 1) / 2))), s).
Proof.
  intros Hb. induction n as [|n IH]; intros i p s Ha Hp Hpl Hlen Hk.
  { rewrite Z.min_l, Z.mul_0_r, Z.add_0_r by (Z.div_mod_to_equations; lia). done. }
  cbn [unpack]. destruct (Z.ltb_spec p limit) as [Hl|Hl].
  2:{ rewrite Z.min_r, Z.div_small, Z.mul_0_r, Z.add_0_r by (Z.div_mod_to_equations; lia). done. }
  assert (Hm : Z.min (Z.of_nat (S n)) ((limit - p + 1) / 2) = 1 + Z.min (Z.of_nat n) ((limit - (p + 2) + 1) / 2))
    by (Z.div_mod_to_equations; lia).
  assert (0 <= Z.min (Z.of_nat n) ((limit - (p + 2) + 1) / 2)) by (Z.div_mod_to_equations; lia).
  rewrite Hm in Hlen, Hk |- *.
  pose proof (Hk 0 ltac:(lia)) as Hf. rewrite Z.mul_0_r, !Z.add_0_r in Hf.
  st_step (flit_run s a l i _ Ha Hf). rewrite word_high, word_low, !byte_at_u8 by done.
  unfold lift, mbind, ST_bind. rewrite overlay_put by lia. rewrite overlay_put by lia.
  replace (p + 1 + 1) with (p + 2) by lia.
  rewrite IH; [by replace (p + 2 * (1 + Z.min (Z.of_nat n) ((limit - (p + 2) + 1) / 2)))
    with (p + 2 + 2 * Z.min (Z.of_nat n) ((limit - (p + 2) + 1) / 2)) by lia|done|lia|lia|lia|].
  intros k Hkr. specialize (Hk (k + 1) ltac:(lia)).
  replace (i + (k + 1)) with (i + 1 + k) in Hk by lia.
  replace (p + 2 * (k + 1)) with (p + 2 + 2 * k) in Hk by lia. done.
Qed.

(** A core whose current task is [id]: the buffers in its queue and those in
    the pool, with room for [m] in both. *)
Record node (s : noc H fifo) (id m : Z) (waiting pool : list Z) : Prop := {
  nd_self : hf_selfid (kern s) = Ok (id, kern s);
  nd_waiting : exists qp q, zget (pktdrv_tqueue s) id = Some (Some (qp, q)) /\
    queue_rep q (Some <$> waiting) /\ m <= q_capacity q;
  nd_pool : queue_rep (pktdrv_queue s) (Some <$> pool) /\ m <= q_capacity (pktdrv_queue s);
}.
(** Everything but the queues. *)
Definition same (s s' : noc H fifo) : Prop :=
  packets s' = packets s /\ pktdrv_ports s' = pktdrv_ports s /\ ni s' = ni s /\ kern s' = kern s.

Lemma with_kern_back (k1 : kernel H) s : with_kern (kern s) (with_kern k1 s) = s.
Proof. by destruct s. Qed.

Lemma take_head_run s id m p waiting pool : node s id m (p :: waiting) pool ->
  exists s', take_head id s = Ok (Some p, s') /\ node s' id m waiting pool /\ same s s'.
Proof.
  intros [Hs (qp & q & Hq & R & Hc) Hp]. rewrite fmap_cons in R.
  destruct (remhead_cons q _ _ R) as (q' & E & R' & Hz).
  destruct (mask_run s) as (k1 & E1 & E2).
  eexists. split; [|split].
  - unfold take_head. st_step E1. st_step (on_tqueue_run (with_kern k1 s) id qp q _ _ _ Hq E).
    st_step (E2 (with_tqueue (zset (pktdrv_tqueue (with_kern k1 s)) id (Some (qp, q'))) (with_kern k1 s)) eq_refl).
    done.
  - split; [done| |done]. exists qp, q'. cbn. rewrite zget_zset_eq by by eapply zget_Some_range.
    split; [done|]. split; [done|]. unfold q_capacity in *. lia.
  - done.
Qed.

Lemma give_back_run s id m p waiting pool : node s id m waiting pool -> zlen pool < m ->
  exists s', give_back (Some p) s = Ok (tt, s') /\ node s' id m waiting (pool ++ [p]) /\ same s s'.
Proof.
  intros [Hs Hq [R Hc]] Hm. pose proof (addtail_spec _ _ (Some p) R) as A.
  rewrite zlen_fmap in A. destruct (Z.eqb_spec (zlen pool) (q_capacity (pktdrv_queue s))); [lia|].
  destruct A as (q' & E & R' & Hz). destruct (mask_run s) as (k1 & E1 & E2).
  eexists. split; [|split].
  - unfold give_back. st_step E1. st_step (on_pool_run (with_kern k1 s) _ _ _ E).
    exact (E2 (with_pool q' (with_kern k1 s)) eq_refl).
  - split; [done|done|]. cbn. rewrite fmap_app. split; [done|]. unfold q_capacity in *. lia.
  - done.
Qed.

(** The packet that is waited for is already first in the queue. *)
Lemma recv_wait_run (interrupts : ST (noc H fifo) unit) (fuel : nat) (b : bool) s id m p waiting pool l ch seq i :
  node s id m (p :: waiting) pool -> packets s !! p = Some l ->
  zget l PKT_CHANNEL = Some ch -> zget l PKT_SEQ = Some seq ->
  recv_wait interrupts (S fuel) b id ch seq i s = Ok (tt, s).
Proof.
  intros [Hs (qp & q & Hq & R & Hc) Hp] Hl Hch Hseq. cbn [recv_wait].
  st_step (on_tqueue_read s id qp q _ _ Hq (count_spec q _ R)).
  rewrite fmap_cons, zlen_cons. pose proof (zlen_nonneg (Some <$> waiting)).
  assert (E : nz (1 + zlen (Some <$> waiting)) = true) by (apply nz_true; lia). rewrite E.
  st_step (on_tqueue_read s id qp q _ _ Hq (get_spec q _ 0 R ltac:(lia))).
  rewrite fmap_cons, zget_cons_0. change (default None (Some (Some p))) with (Some p). cbv iota.
  rewrite !ST_bind_assoc. st_step (flit_run s p l _ _ Hl Hch). rewrite Z.eqb_refl.
  rewrite !ST_bind_assoc. st_step (flit_run s p l _ _ Hl Hseq). by rewrite Z.eqb_refl.
Qed.

Lemma packet_payload (cpu src_cpu src port : Z) (data : list Z) (size ch j k : Z) : 0 <= k < 56 ->
  112 * (j - 1) + 2 * k < size ->
  zget (packet cpu src_cpu src port data size ch j) (PKT_HEADER_SIZE + k) =
    Some (word (byte_at data (112 * (j - 1) + 2 * k)) (byte_at data (112 * (j - 1) + 2 * k + 1))).
Proof.
  intros Hk Hs. unfold packet, PKT_HEADER_SIZE.
  rewrite zget_app_r by (change (zlen [_; _; _; _; _; _; _; _]) with 8; lia).
  change (zlen [_; _; _; _; _; _; _; _]) with 8. replace (8 + k - 8) with k by lia.
  unfold payload. rewrite zget_tabulate by (change (Z.of_nat PAYLOAD_FLITS) with 56; lia).
  change payload_bytes with 112. cbv zeta. by destruct (Z.ltb_spec (112 * (j - 1) + 2 * k) size); [|lia].
Qed.

Lemma packet_unpack (tcpu cpu src port size ch : Z) (data orig : list Z) (p j limit e : Z) s :
  bytes data -> e <= Z.min (zlen data) (zlen orig) -> 1 <= j -> 112 * (j - 1) <= size ->
  (limit = size /\ size <= 112 * j /\ e = size + size mod 2) \/ (limit = 112 * j /\ 112 * j <= size /\ e = 112 * j) ->
  packets s !! p = Some (packet tcpu cpu src port data size ch j) ->
  unpack PAYLOAD_FLITS (Some p) PKT_HEADER_SIZE (112 * (j - 1)) limit (overlay data orig (112 * (j - 1))) s =
    Ok ((e, overlay data orig e), s).
Proof.
  intros Hb He Hj Hs Hc Hp.
  assert (Em : 112 * (j - 1) + 2 * Z.min (Z.of_nat PAYLOAD_FLITS) ((limit - 112 * (j - 1) + 1) / 2) = e)
    by (change (Z.of_nat PAYLOAD_FLITS) with 56; Z.div_mod_to_equations; lia).
  assert (E := unpack_run data orig _ p limit Hb PAYLOAD_FLITS PKT_HEADER_SIZE (112 * (j - 1)) s Hp).
  rewrite Em in E. apply E; [lia|lia|done|].
  intros k Hk. change (Z.of_nat PAYLOAD_FLITS) with 56 in Hk.
  apply packet_payload; Z.div_mod_to_equations; lia.
Qed.

(** From packet [j] in hand, with the packets that follow it next in the
    queue, the rest of the message is written and the buffers return. *)
Lemma recv_packets_run (interrupts : ST (noc H fifo) unit) (wait : nat) (id m tcpu cpu src port size ch : Z)
    (data orig : list Z) (later : list Z) :
  0 <= size < 65536 -> size + size mod 2 <= Z.min (zlen data) (zlen orig) -> bytes data ->
  forall (n fuel : nat) j p waiting pool s, (n <= fuel)%nat -> 1 <= j -> packets_sent size = j + Z.of_nat n ->
  packets s !! p = Some (packet tcpu cpu src port data size ch j) ->
  Forall2 (fun p l => packets s !! p = Some l) waiting
    (tabulate n (fun i => packet tcpu cpu src port data size ch (j + 1 + i))) ->
  node s id m (waiting ++ later) pool -> zlen pool + 1 + Z.of_nat n <= m ->
  exists s', recv_packets interrupts (S fuel) (S wait) id ch size (j - 1) (packet_count size) j (112 * (j - 1)) ERR_OK
      (Some p) (overlay data orig (112 * (j - 1))) s = Ok ((ERR_OK, overlay data orig (size + size mod 2)), s') /\
    node s' id m later (pool ++ p :: waiting) /\ same s s'.
Proof.
  intros Hs Hd Hb n. rewrite (packet_count_ceil size Hs). unfold packets_sent.
  induction n as [|n IH]; intros fuel j p waiting pool s Hf Hj Hn Hp Hw Hnode Hm;
    [|destruct fuel as [|fuel]; [lia|]; set (fuel' := S fuel)]; cbn [recv_packets];
    rewrite (u16_small (j - 1 + 1)) by (Z.div_mod_to_equations; lia); rewrite Z.sub_add;
    st_step (flit_run s p _ PKT_SEQ j Hp eq_refl); rewrite Z.eqb_refl; cbv zeta.
  - destruct (Z.ltb_spec j ((size + 111) / 112)); [lia|].
    st_step (packet_unpack tcpu cpu src port size ch data orig p j size (size + size mod 2) s Hb Hd Hj
      ltac:(Z.div_mod_to_equations; lia) ltac:(left; Z.div_mod_to_equations; lia) Hp).
    inversion Hw; subst. cbn [app] in Hnode.
    destruct (give_back_run s id m p later pool Hnode ltac:(lia)) as (s' & Eg & Hn' & Hsame).
    st_step Eg. by exists s'.
  - destruct (Z.ltb_spec j ((size + 111) / 112)); [|lia].
    change payload_bytes with 112. replace (112 * (j - 1) + 112) with (112 * j) by lia.
    st_step (packet_unpack tcpu cpu src port size ch data orig p j (112 * j) (112 * j) s Hb
      ltac:(Z.div_mod_to_equations; lia) Hj ltac:(Z.div_mod_to_equations; lia)
      ltac:(right; Z.div_mod_to_equations; lia) Hp).
    destruct (give_back_run s id m p _ pool Hnode ltac:(lia)) as (s1 & Eg & Hn1 & Hsame1).
    st_step Eg. rewrite tabulate_S, Z.add_0_r in Hw.
    apply Forall2_cons_inv_r in Hw as (p2 & w2 & Hp2 & Hw2 & ->). cbn [app] in Hn1.
    assert (Hpk : packets s1 = packets s) by apply Hsame1.
    rewrite <- Hpk in Hp2, Hw2. rewrite (u16_small (j + 1)) by (Z.div_mod_to_equations; lia).
    st_step (recv_wait_run interrupts wait true s1 id m p2 _ _ _ ch (j + 1) 0 Hn1 Hp2 eq_refl eq_refl).
    destruct (take_head_run s1 id m p2 _ _ Hn1) as (s2 & Et & Hn2 & Hsame2). st_step Et.
    assert (Hpk2 : packets s2 = packets s1) by apply Hsame2. rewrite <- Hpk2 in Hp2, Hw2.
    destruct (IH fuel (j + 1) p2 w2 (pool ++ [p]) s2) as (s3 & E3 & Hn3 & Hsame3);
      [lia|lia|lia|done| |done|rewrite zlen_app, zlen_cons, zlen_nil; lia|].
    { erewrite tabulate_ext; [exact Hw2|]. intros i _. cbv beta. by replace (j + 1 + 1 + i) with (j + 1 + (i + 1)) by lia. }
    rewrite Z.add_simpl_r in E3. exists s3. split; [exact E3|]. split; [by app_norm_in Hn3|].
    unfold same in *. intuition congruence.
Qed.

(** ** Delivery by the interrupt handler *)

Definition flits (l : list Z) : Prop := Forall (fun v => 0 <= v < 65536) l.

(** Port [port] belongs to the running task [id]. *)
Record owns (s : noc H fifo) (id port : Z) : Prop := {
  ow_range : 0 <= id < MAX_TASKS;
  ow_port : zget (pktdrv_ports s) id = Some port;
  ow_first : forall j, 0 <= j < id -> zget (pktdrv_ports s) j <> Some port;
  ow_live : exists t, zget (krnl_tcb (kern s)) id = Some t /\ t_ptask t <> 0;
}.

(** The handler reads the packet into a buffer of the pool and turns to the
    queue of the first entry with the port. *)
Lemma isr_lookup s id port p pool v pkt rest old t :
  queue_rep (pktdrv_queue s) (Some <$> (p :: pool)) -> 0 <= id < MAX_TASKS ->
  zget (pktdrv_ports s) id = Some port -> (forall j, 0 <= j < id -> zget (pktdrv_ports s) j <> Some port) ->
  zget (krnl_tcb (kern s)) id = Some t -> t_ptask t <> 0 ->
  packets s !! p = Some old -> zlen old = 64 ->
  rx (ni s) = v :: pkt ++ rest -> flits pkt -> zlen pkt = 64 ->
  zget pkt PKT_PAYLOAD = Some (NOC_PACKET_SIZE - 2) -> zget pkt PKT_TARGET_PORT = Some port ->
  exists pq f, queue_rep pq (Some <$> pool) /\ q_size pq = q_size (pktdrv_queue s) /\ f 0 = mret tt /\
    ni_isr s = mbind f (on_tqueue id (hf_queue_addtail (Some p)))
      (with_packets (<[p := pkt]> (packets s)) (with_ni (Fifo rest (tx (ni s))) (with_pool pq s))).
Proof.
  intros Rp Hid Hport Hfirst Ht Hlive Hold H64 Hrx Hf Hl Hpay Htgt.
  rewrite fmap_cons in Rp. destruct (remhead_cons _ _ _ Rp) as (pq & E & Rp' & Hz). exists pq.
  unfold ni_isr. set (s1 := with_pool pq s).
  set (s2 := with_packets (<[p := pkt]> (packets s1)) (with_ni (Fifo rest (tx (ni s1))) s1)).
  assert (Hp2 : packets s2 !! p = Some pkt) by apply lookup_insert_eq.
  assert (Et : onk (tcb_get id) s2 = Ok (t, s2)).
  { unfold onk, zoom. change (kern s2) with (kern s). by rewrite (tcb_get_Ok _ _ _ Ht). }
  eexists. split; [done|]. split; [done|]. split; cycle 1.
  - st_step (on_pool_run s _ _ _ E). st_step (ni_read_packet_run p s1 pkt rest v old Hrx Hf Hl Hold H64).
    st_step (flit_run s2 p pkt _ _ Hp2 Hpay). rewrite Z.eqb_refl. cbn [negb].
    st_step (flit_run s2 p pkt _ _ Hp2 Htgt).
    unfold gets at 1, mbind at 1, ST_bind at 1. cbv zeta beta.
    change (pktdrv_ports s2) with (pktdrv_ports s). rewrite (find_port_found _ port id 0 Hport Hfirst), Z.add_0_l.
    destruct (Z.ltb_spec id MAX_TASKS); [|lia].
    rewrite !ST_bind_assoc. st_step Et.
    rewrite (proj2 (nz_true _) Hlive), (ST_bind_Ok (mret true) _ s2 true s2 eq_refl). reflexivity.
  - reflexivity.
Qed.

(** ... and the buffer is appended to the queue of the task that owns it. *)
Lemma ni_isr_run s id m port p waiting pool v pkt rest old :
  node s id m waiting (p :: pool) -> zlen waiting < m -> owns s id port ->
  packets s !! p = Some old -> zlen old = 64 ->
  rx (ni s) = v :: pkt ++ rest -> flits pkt -> zlen pkt = 64 ->
  zget pkt PKT_PAYLOAD = Some (NOC_PACKET_SIZE - 2) -> zget pkt PKT_TARGET_PORT = Some port ->
  exists s', ni_isr s = Ok (tt, s') /\ node s' id m (waiting ++ [p]) pool /\
    packets s' = <[p := pkt]> (packets s) /\ pktdrv_ports s' = pktdrv_ports s /\
    ni s' = Fifo rest (tx (ni s)) /\ kern s' = kern s.
Proof.
  intros [Hs (qp & q & Hq & R & Hc) [Rp Hcp]] Hw [Hid Hport Hfirst (t & Ht & Hlive)] Hold H64 Hrx Hf Hl Hpay Htgt.
  destruct (isr_lookup s id port p pool v pkt rest old t Rp Hid Hport Hfirst Ht Hlive Hold H64 Hrx Hf Hl Hpay Htgt)
    as (pq & f & Rp' & Hz & Ef & ->).
  pose proof (addtail_spec _ _ (Some p) R) as A. rewrite zlen_fmap in A.
  destruct (Z.eqb_spec (zlen waiting) (q_capacity q)); [lia|]. destruct A as (q' & Ea & R' & Hz').
  set (s2 := with_packets _ _). st_step (on_tqueue_run s2 id qp q _ _ _ Hq Ea). rewrite Ef.
  eexists. split; [reflexivity|]. split; [split; [done| |]|done].
  - exists qp, q'. cbn. rewrite zget_zset_eq by by eapply zget_Some_range. rewrite fmap_app.
    split; [done|]. split; [done|]. unfold q_capacity in *. lia.
  - cbn. split; [done|]. unfold q_capacity in *. lia.
Qed.

(** One interrupt for each packet. *)
Fixpoint isrs (n : nat) : ST (noc H fifo) unit :=
  match n with O => mret tt | S n => _ ← ni_isr; isrs n end.

Definition holds (s : noc H fifo) (bufs : list Z) (pkts : list (list Z)) : Prop :=
  Forall2 (fun p l => packets s !! p = Some l) bufs pkts.
Definition buffers (s : noc H fifo) (bufs : list Z) : Prop :=
  Forall (fun p => exists old, packets s !! p = Some old /\ zlen old = 64) bufs.
Definition well_formed (port : Z) (pkt : list Z) : Prop :=
  flits pkt /\ zlen pkt = 64 /\ zget pkt PKT_PAYLOAD = Some (NOC_PACKET_SIZE - 2) /\
  zget pkt PKT_TARGET_PORT = Some port.

Lemma owns_frame s s' id port : pktdrv_ports s' = pktdrv_ports s -> kern s' = kern s -> owns s id port -> owns s' id port.
Proof. intros E1 E2 []. split; rewrite ?E1, ?E2; done. Qed.

Lemma isrs_run (id m port v : Z) (pool rest : list Z) : forall pkts bufs s waiting,
  node s id m waiting (bufs ++ pool) -> owns s id port -> zlen waiting + zlen bufs <= m ->
  length bufs = length pkts -> NoDup bufs -> buffers s bufs -> Forall (well_formed port) pkts ->
  rx (ni s) = concat (cons v <$> pkts) ++ rest ->
  exists s', isrs (length pkts) s = Ok (tt, s') /\ node s' id m (waiting ++ bufs) pool /\ holds s' bufs pkts /\
    (forall a, a ∉ bufs -> packets s' !! a = packets s !! a) /\
    pktdrv_ports s' = pktdrv_ports s /\ ni s' = Fifo rest (tx (ni s)) /\ kern s' = kern s.
Proof.
  induction pkts as [|pkt pkts IH]; intros [|p bufs] s waiting Hn Ho Hm Hlen Hnd Hb Hwf Hrx; try done.
  { exists s. split; [done|]. rewrite app_nil_r. split; [done|]. split; [by constructor|].
    cbn in Hrx. rewrite <- Hrx. repeat split. by destruct (ni s). }
  apply list.NoDup_cons in Hnd as [Hp Hnd]. apply Forall_cons_iff in Hb as [(old & Hold & H64) Hb].
  apply Forall_cons_iff in Hwf as [(Hf & Hl & Hpay & Htgt) Hwf].
  pose proof (zlen_nonneg bufs). rewrite zlen_cons in Hm.
  rewrite fmap_cons in Hrx. cbn [concat app] in Hrx. rewrite <- app_assoc in Hrx.
  destruct (ni_isr_run s id m port p waiting _ v pkt _ old Hn ltac:(lia) Ho Hold H64 Hrx Hf Hl Hpay Htgt)
    as (s1 & E1 & Hn1 & Hpk & Hports & Hni & Hk).
  destruct (IH bufs s1 (waiting ++ [p])) as (s2 & E2 & Hn2 & Hh & Hfr & Hports2 & Hni2 & Hk2);
    [done|by eapply owns_frame|rewrite zlen_app, zlen_cons, zlen_nil; lia|by injection Hlen|done| |done|by rewrite Hni|].
  { apply Forall_forall. intros a Ha. apply (proj1 (Forall_forall _ _) Hb) in Ha as Hx. destruct Hx as (o & Hoa & Ho64). exists o.
    rewrite Hpk, lookup_insert_ne; [done|]. intros ->. by apply Hp, list_elem_of_In. }
  exists s2. cbn [length isrs]. split; [by st_step E1|]. split; [by app_norm_in Hn2|]. split.
  { constructor; [|done]. rewrite Hfr by done. rewrite Hpk. apply lookup_insert_eq. }
  split.
  { intros a [Hne Ha]%not_elem_of_cons. by rewrite Hfr, Hpk, lookup_insert_ne. }
  rewrite Hni in Hni2. cbn [tx] in Hni2. repeat split; congruence.
Qed.

Lemma payload_flits (data : list Z) (size j : Z) : flits (payload data size j).
Proof.
  apply Forall_forall. intros x (i & -> & _)%list_elem_of_In%list_elem_of_fmap.
  cbv zeta beta. case_match; [apply u16_range|lia].
Qed.
Lemma message_well_formed (tcpu cpu src port size ch : Z) (data : list Z) :
  0 <= src < 65536 -> 0 <= port < 65536 -> 0 <= ch < 65536 -> 0 <= size < 65536 ->
  Forall (well_formed port) (message tcpu cpu src port data size ch).
Proof.
  intros Hsrc Hport Hch Hs. apply Forall_forall. intros x (i & -> & Hi%elem_of_seq)%list_elem_of_In%list_elem_of_fmap.
  unfold packets_sent in Hi. split; [|done]. unfold packet, flits, NOC_PACKET_SIZE.
  repeat (apply Forall_cons; [first [apply u16_range|lia|Z.div_mod_to_equations; lia]|]).
  apply payload_flits.
Qed.

Lemma hf_recv_run (interrupts : ST (noc H fifo) unit) (fuel : nat) (id m tcpu cpu src port size ch : Z) (out : Z * Z * Z)
    (data orig bufs later pool : list Z) s :
  0 <= size < 65536 -> size + size mod 2 <= Z.min (zlen data) (zlen orig) -> bytes data ->
  node s id m (bufs ++ later) pool -> zlen pool + zlen bufs <= m ->
  holds s bufs (message tcpu cpu src port data size ch) ->
  exists s', hf_recv interrupts (S fuel) out orig ch s =
      Ok ((ERR_OK, (u16 cpu, src, size), overlay data orig (size + size mod 2)), s') /\
    node s' id m later (pool ++ bufs) /\ same s s'.
Proof.
  intros Hs Hd Hb Hn Hm Hh. unfold message in Hh.
  destruct (Z.to_nat (packets_sent size)) as [|n] eqn:En; [unfold packets_sent in En; lia|].
  rewrite tabulate_S in Hh. apply Forall2_cons_inv_r in Hh as (p & w & Hp & Hw & ->).
  pose proof (Forall2_length Hw) as Hlen.
  assert (Hnl : zlen w = Z.of_nat n).
  { pose proof (tabulate_zlen n (fun i => packet tcpu cpu src port data size ch (i + 1 + 1))). unfold zlen in *. lia. }
  rewrite zlen_cons in Hm. pose proof (nd_waiting _ _ _ _ _ Hn) as (qp & q & Hq & _).
  assert (Eself : onk hf_selfid s = Ok (id, s)).
  { unfold onk, zoom. rewrite (nd_self _ _ _ _ _ Hn). by destruct s. }
  unfold hf_recv. st_step Eself.
  assert (Etq : tqueue_at id s = Ok (Some (qp, q), s)).
  { unfold tqueue_at, gets, lift, mbind, ST_bind. by rewrite (aget_Ok _ _ _ Hq). }
  st_step Etq. cbn [app] in Hn.
  st_step (recv_wait_run interrupts fuel false s id m p _ _ _ ch (0 + 1) 0 Hn Hp eq_refl eq_refl).
  destruct (take_head_run s id m p _ _ Hn) as (s1 & Et & Hn1 & Hsame1). st_step Et.
  assert (Hpk : packets s1 = packets s) by apply Hsame1. rewrite <- Hpk in Hp, Hw.
  st_step (flit_run s1 p _ PKT_SOURCE_CPU (u16 cpu) Hp eq_refl).
  st_step (flit_run s1 p _ PKT_SOURCE_PORT src Hp eq_refl).
  st_step (flit_run s1 p _ PKT_MSG_SIZE size Hp eq_refl).
  st_step (flit_run s1 p _ PKT_SEQ (0 + 1) Hp eq_refl).
  destruct (recv_packets_run interrupts fuel id m tcpu cpu src port size ch data orig later Hs Hd Hb
    n (Z.to_nat (packet_count size)) 1 p w pool s1) as (s2 & E2 & Hn2 & Hsame2);
    [rewrite packet_count_ceil by done; unfold packets_sent in En; lia|lia|lia|done| |done|lia|].
  { erewrite tabulate_ext; [exact Hw|]. intros i _. cbv beta. by replace (1 + 1 + i) with (i + 1 + 1) by lia. }
  change (112 * (1 - 1)) with 0 in E2. change (1 - 1) with 0 in E2. cbv zeta.
  change (overlay data orig 0) with orig in E2. st_step E2.
  exists s2. split; [done|]. split; [done|]. unfold same in *. intuition congruence.
Qed.
End facts.

(** ** Messages *)

(** C36: C: a message sent to the port of a task on another core is cut into
    packets, [hf_send] hands all of them to the network interface and returns
    [ERR_OK]; when the target core's interface presents them, each behind the
    flit that [ni_read_packet] skips, one interrupt per packet moves them into
    the task's queue; [hf_recv] on the channel then returns [ERR_OK], the
    source core, its port and the size, writes the bytes sent (an even number
    of them) to the buffer and nothing behind them, and every packet buffer is
    back in the pool. *)
Theorem message_delivered {H : Type} `{Allocator H} (interrupts : ST (noc H fifo) unit) (fuel : nat)
    (cpu tcpu sid src port id m size ch v : Z) tq (data buf bufs pool rest : list Z) out (sender receiver : noc H fifo) :
  hf_selfid (kern sender) = Ok (sid, kern sender) ->
  zget (pktdrv_tqueue sender) sid = Some (Some tq) -> zget (pktdrv_ports sender) sid = Some src ->
  0 <= src < 65536 -> 0 <= port < 65536 -> 0 <= ch < 65536 -> 0 <= size < 65536 ->
  bytes data -> size + size mod 2 <= Z.min (zlen data) (zlen buf) ->
  node receiver id m [] (bufs ++ pool) -> owns receiver id port ->
  NoDup bufs -> buffers receiver bufs -> zlen bufs = packets_sent size -> zlen bufs + zlen pool <= m ->
  rx (ni receiver) = concat (cons v <$> message tcpu cpu src port data size ch) ++ rest ->
  (exists sender', hf_send cpu (mret tt) (S fuel) tcpu port data size ch sender = Ok (ERR_OK, sender') /\
     tx (ni sender') = tx (ni sender) ++ concat (message tcpu cpu src port data size ch)) /\
  exists r1 r2, isrs (Z.to_nat (packets_sent size)) receiver = Ok (tt, r1) /\
    hf_recv interrupts (S fuel) out buf ch r1 =
      Ok ((ERR_OK, (u16 cpu, src, size),
           take (Z.to_nat (size + size mod 2)) data ++ drop (Z.to_nat (size + size mod 2)) buf), r2) /\
    node r2 id m [] (pool ++ bufs) /\ rx (ni r2) = rest.
Proof.
  intros Hself Htq Hport Hsrc Hp Hch Hs Hb Hd Hn Ho Hnd Hbuf Hlen Hm Hrx.
  pose proof (Z.mod_pos_bound size 2 ltac:(lia)). split.
  - assert (E1 : onk hf_selfid sender = Ok (sid, sender)) by (unfold onk, zoom; rewrite Hself; by destruct sender).
    assert (E2 : tqueue_at sid sender = Ok (Some tq, sender)).
    { unfold tqueue_at, gets, lift, mbind, ST_bind. by rewrite (aget_Ok _ _ _ Htq). }
    unfold hf_send. st_step E1. st_step E2.
    pose proof (send_packets_run fuel cpu sid tcpu port size ch src data Hs ltac:(lia)
      (Z.to_nat (packets_sent size) - 1) (Z.to_nat (packet_count size)) 0 sender) as E3.
    rewrite packet_count_ceil in E3 at 1 by done. unfold packets_sent in E3 at 1 2.
    rewrite Z.mul_0_r in E3. specialize (E3 ltac:(lia) ltac:(lia) ltac:(unfold packets_sent; lia) Hport). st_step E3.
    eexists. split; [reflexivity|]. cbn [tx ni emit with_ni]. do 2 f_equal. unfold message.
    replace (S (Z.to_nat (packets_sent size) - 1)) with (Z.to_nat (packets_sent size)) by (unfold packets_sent; lia).
    apply tabulate_ext. intros i _. f_equal. lia.
  - assert (Hl : length bufs = length (message tcpu cpu src port data size ch)).
    { unfold message. rewrite <- (Nat2Z.id (length (tabulate _ _))).
      change (Z.of_nat (length (tabulate ?n ?f))) with (zlen (tabulate n f)). rewrite tabulate_zlen.
      unfold zlen in Hlen. lia. }
    destruct (isrs_run id m port v pool rest _ bufs receiver [] Hn Ho ltac:(pose proof (zlen_nonneg pool); change (zlen []) with 0; lia)
      Hl Hnd Hbuf (message_well_formed tcpu cpu src port size ch data Hsrc Hp Hch Hs) Hrx)
      as (r1 & E1 & Hn1 & Hh & _ & _ & Hni & _).
    rewrite <- (app_nil_r ([] ++ bufs)) in Hn1. cbn [app] in Hn1.
    destruct (hf_recv_run interrupts fuel id m tcpu cpu src port size ch out data buf bufs [] pool r1 Hs Hd Hb Hn1 ltac:(lia) Hh)
      as (r2 & E2 & Hn2 & (_ & _ & Hni2 & _)).
    exists r1, r2. split; [|split; [exact E2|split; [done|by rewrite Hni2, Hni]]].
    rewrite <- E1. f_equal. rewrite <- Hl. unfold zlen in Hlen. lia.
Qed.

(** Two cores, on each a task 1 with port 5; the receiver's pool has two
    buffers. *)
Definition port_kernel := with_krnl_task 1
  (with_krnl_tcb (idle_tcb :: Tcb 1 (replicate 20 0) TASK_RUNNING 100 100 0 0 0 0 0 0 0 0 0 0 (replicate 20 0) 300 4200 16 0
    :: replicate 28 blank_tcb) demo0).
Definition port_core (ni : fifo) := Noc [0; 5]
  [None; Some (0, Queue 65 0 0 0 0 (replicate 65 None))]
  (Queue 65 2 0 2 0 ([Some 8192; Some 8320] ++ replicate 63 None))
  ({[8192 := replicate 64 0]} ∪ {[8320 := replicate 64 0]}) ni true port_kernel.
(** 115 bytes, which take two packets, and the byte [hf_send] reads behind them. *)
Definition port_message : list Z := tabulate 116 (fun i => i).

Lemma port_core_node ni : node (port_core ni) 1 2 [] [8192; 8320].
Proof.
  split; [reflexivity| |].
  - exists 0, (Queue 65 0 0 0 0 (replicate 65 None)). split; [reflexivity|]. split; [|vm_compute; discriminate].
    split; try reflexivity; cbn; try lia; unfold max_queue_size; try (vm_compute; intuition congruence).
    all: change (zlen []) with 0; lia.
  - split; [|vm_compute; discriminate].
    split; try reflexivity; cbn; try lia; unfold max_queue_size; try (vm_compute; intuition congruence).
    change (zlen [Some 8192; Some 8320]) with 2. intros i Hi.
    assert (i = 0 \/ i = 1) as [-> | ->] by lia; reflexivity.
Qed.

Lemma message_delivered_witness :
  (exists sender', hf_send 3 (mret tt) 1 4 5 port_message 115 7 (port_core (Fifo [] [])) = Ok (ERR_OK, sender') /\
     tx (ni sender') = concat (message 4 3 5 5 port_message 115 7)) /\
  exists r1 r2, isrs 2 (port_core (Fifo (concat (cons 9 <$> message 4 3 5 5 port_message 115 7)) [])) = Ok (tt, r1) /\
    hf_recv (mret tt) 1 (0, 0, 0) (replicate 120 255) 7 r1 =
      Ok ((ERR_OK, (3, 5, 115), port_message ++ [255; 255; 255; 255]), r2) /\
    node r2 1 2 [] [8192; 8320] /\ rx (ni r2) = [].
Proof.
  apply (message_delivered (mret tt) 0 3 4 1 5 5 1 2 115 7 9 (0, Queue 65 0 0 0 0 (replicate 65 None)) port_message
    (replicate 120 255) [8192; 8320] [] [] (0, 0, 0) (port_core (Fifo [] []))
    (port_core (Fifo (concat (cons 9 <$> message 4 3 5 5 port_message 115 7)) []))); try reflexivity; try lia.
  - apply Forall_forall. intros x (i & -> & Hi%elem_of_seq)%list_elem_of_In%list_elem_of_fmap. lia.
  - apply port_core_node.
  - split; [unfold MAX_TASKS; lia|reflexivity| |].
    + intros j Hj. assert (j = 0) as -> by lia. discriminate.
    + eexists. split; [reflexivity|discriminate].
  - apply list.NoDup_cons. split; [|apply list.NoDup_singleton]. intros [E|E]%list_elem_of_In; [discriminate|done].
  - repeat constructor; by exists (replicate 64 0).
Defined.

(** C: a packet for port 0, the value of every unused entry of
    [pktdrv_ports], is taken for the idle task's, whose [pktdrv_tqueue] is
    NULL: the handler appends to a queue at NULL. *)
Theorem port_zero_faults {H : Type} `{Allocator H} (s : noc H fifo) id m p waiting pool v pkt rest old t :
  node s id m waiting (p :: pool) -> packets s !! p = Some old -> zlen old = 64 ->
  zget (pktdrv_ports s) 0 = Some 0 -> zget (pktdrv_tqueue s) 0 = Some None ->
  zget (krnl_tcb (kern s)) 0 = Some t -> t_ptask t <> 0 ->
  rx (ni s) = v :: pkt ++ rest -> well_formed 0 pkt -> ni_isr s = Fault.
Proof.
  intros [_ _ [Rp _]] Hold H64 Hport Hnull Ht Hlive Hrx (Hf & Hl & Hpay & Htgt).
  destruct (isr_lookup s 0 0 p pool v pkt rest old t Rp ltac:(unfold MAX_TASKS; lia) Hport ltac:(lia) Ht Hlive Hold H64 Hrx Hf Hl
    Hpay Htgt) as (pq & f & _ & _ & _ & ->).
  unfold mbind, ST_bind, on_tqueue. cbn [pktdrv_tqueue with_packets with_ni with_pool]. by rewrite Hnull.
Qed.

Lemma port_zero_faults_witness :
  ni_isr (port_core (Fifo (9 :: packet 4 3 5 0 port_message 20 7 1) [])) = Fault.
Proof.
  apply (port_zero_faults _ 1 2 8192 [] [8320] 9 (packet 4 3 5 0 port_message 20 7 1) [] (replicate 64 0) idle_tcb);
    try reflexivity; [apply port_core_node|discriminate|].
  apply (proj1 (Forall_forall _ _) (message_well_formed 4 3 5 0 20 7 port_message ltac:(lia) ltac:(lia) ltac:(lia) ltac:(lia))).
  left. reflexivity.
Defined.
