(* ===== verification/Crc.v ===== *)
(** * Checksums

    The three cyclic redundancy checks of [lib/misc/crc.c]. A message is the
    list of its bytes ([int8_t]); reading behind it faults. The register of a
    check is shown to hold the remainder of the message, as a polynomial over
    the field of two elements, by the generator polynomial. *)

From S2P Require Import Prelude Words.

#[local] Open Scope Z_scope.

(** [while(len--)] over the bytes; [byte] is the body. *)
Fixpoint crc_loop (byte : Z -> Z -> Z) (len : nat) (data : list Z) (crc : Z) : outcome Z :=
  match len with
  | O => Ok crc
  | S len => match data with [] => Fault | d :: data => crc_loop byte len data (byte crc d) end
  end.

(** [for(i = 0; i < 8; ++i) crc = crc << 1 ^ (crc & 0x8000 ? 0x1021 : 0x0000);],
    [n] turns of it. *)
Fixpoint crc16_bits (n : nat) (crc : Z) : Z :=
  match n with
  | O => crc
  | S n => crc16_bits n (u16 (Z.lxor (Z.shiftl crc 1) (if nz (Z.land crc 0x8000) then 0x1021 else 0)))
  end.
Definition crc16_byte (crc d : Z) : Z := crc16_bits 8 (u16 (Z.lxor crc (Z.shiftl (u16 d) 8))).
Definition hf_crc16 (data : list Z) (len : Z) : outcome Z := crc_loop crc16_byte (Z.to_nat len) data 0xffff.

Fixpoint crc32_bits (n : nat) (crc : Z) : Z :=
  match n with
  | O => crc
  | S n => crc32_bits n (u32 (Z.lxor (Z.shiftl crc 1) (if nz (Z.land crc 0x80000000) then 0x04c11db7 else 0)))
  end.
Definition crc32_byte (crc d : Z) : Z := crc32_bits 8 (u32 (Z.lxor crc (Z.shiftl (u32 d) 24))).
Definition hf_crc32 (data : list Z) (len : Z) : outcome Z := crc_loop crc32_byte (Z.to_nat len) data (u32 (Z.lnot 0)).

Fixpoint crc64_bits (n : nat) (crc : Z) : Z :=
  match n with
  | O => crc
  | S n =>
      crc64_bits n (u64 (Z.lxor (Z.shiftl crc 1) (if nz (Z.land crc 0x8000000000000000) then 0x42f0e1eba9ea3693 else 0)))
  end.
Definition crc64_byte (crc d : Z) : Z := crc64_bits 8 (u64 (Z.lxor crc (Z.shiftl (u64 d) 56))).
Definition hf_crc64 (data : list Z) (len : Z) : outcome Z := crc_loop crc64_byte (Z.to_nat len) data 0.

(** ** Polynomials over the field of two elements

    A number is the polynomial of its bits; sums are [Z.lxor], and multiplying
    by the [i]-th power of the variable is [Z.shiftl]. *)

(** The multiples of [g]. *)
Inductive multiple (g : Z) : Z -> Prop :=
| multiple_0 : multiple g 0
| multiple_add a i : 0 <= i -> multiple g a -> multiple g (Z.lxor a (Z.shiftl g i)).

(** Equal up to a multiple of [g]. *)
Definition congruent (g a b : Z) : Prop := multiple g (Z.lxor a b).

Section polynomials.
Context {g : Z}.
Implicit Types a b c : Z.

Lemma multiple_lxor a b : multiple g a -> multiple g b -> multiple g (Z.lxor a b).
Proof.
  intros Ha. induction 1 as [|b i Hi _ IH]; [by rewrite Z.lxor_0_r|].
  rewrite <- Z.lxor_assoc. by apply multiple_add.
Qed.
Lemma multiple_shiftl a n : 0 <= n -> multiple g a -> multiple g (Z.shiftl a n).
Proof.
  intros Hn. induction 1 as [|a i Hi _ IH]; [rewrite Z.shiftl_0_l; constructor|].
  rewrite Z.shiftl_lxor, Z.shiftl_shiftl by done. apply multiple_add; [lia|done].
Qed.

#[export] Instance congruent_equivalence : Equivalence (congruent g).
Proof.
  unfold congruent. split.
  - intros a. rewrite Z.lxor_nilpotent. constructor.
  - intros a b. by rewrite Z.lxor_comm.
  - intros a b c Hab Hbc. pose proof (multiple_lxor _ _ Hab Hbc) as H.
    by rewrite Z.lxor_assoc, <- (Z.lxor_assoc b b c), Z.lxor_nilpotent, Z.lxor_0_l in H.
Qed.
#[export] Instance lxor_proper : Proper (congruent g ==> congruent g ==> congruent g) Z.lxor.
Proof.
  intros a a' Ha b b' Hb. pose proof (multiple_lxor _ _ Ha Hb) as H. unfold congruent.
  replace (Z.lxor (Z.lxor a b) (Z.lxor a' b')) with (Z.lxor (Z.lxor a a') (Z.lxor b b')); [done|].
  apply Z.bits_inj'. intros i _. rewrite !Z.lxor_spec.
  by destruct (Z.testbit a i), (Z.testbit b i), (Z.testbit a' i), (Z.testbit b' i).
Qed.
Lemma shiftl_congruent a b n : 0 <= n -> congruent g a b -> congruent g (Z.shiftl a n) (Z.shiftl b n).
Proof. unfold congruent. intros Hn H. rewrite <- Z.shiftl_lxor. by apply multiple_shiftl. Qed.
Lemma generator_congruent : congruent g g 0.
Proof.
  unfold congruent. rewrite Z.lxor_0_r. rewrite <- (Z.lxor_0_l g), <- (Z.shiftl_0_r g).
  apply multiple_add; [lia|constructor].
Qed.
End polynomials.

(** ** The register of a check of any width *)

Section register.
(** The generator is [2 ^ w + poly]. *)
Variables w poly : Z.
Hypothesis w_range : 8 <= w.
Hypothesis poly_range : 0 <= poly < 2 ^ w.
Hypothesis poly_odd : Z.testbit poly 0 = true.
Implicit Types c d : Z.

Definition generator : Z := 2 ^ w + poly.
Definition step c : Z := Z.lxor (Z.shiftl c 1) (if Z.testbit c (w - 1) then poly else 0) mod 2 ^ w.
Fixpoint stepn (n : nat) c : Z := match n with O => c | S n => stepn n (step c) end.
(** A byte enters at the top of the register. *)
Definition feed c (b : Z) : Z := stepn 8 (Z.lxor c (Z.shiftl b (w - 8))).
Definition feeds (bs : list Z) c : Z := foldl feed c bs.

(** Conversion unfolds [feed] before the register's steps. *)
Strategy 1000 [step stepn].

Lemma feed_eq c b : feed c b = stepn 8 (Z.lxor c (Z.shiftl b (w - 8))).
Proof. reflexivity. Qed.
Lemma feeds_cons b bs c : feeds (b :: bs) c = feeds bs (feed c b).
Proof. unfold feeds. cbn [foldl]. reflexivity. Qed.
Lemma feeds_app bs cs c : feeds (bs ++ cs) c = feeds cs (feeds bs c).
Proof. unfold feeds. apply foldl_app. Qed.
Lemma step_range c : 0 <= step c < 2 ^ w.
Proof. apply Z.mod_pos_bound. apply Z.pow_pos_nonneg; lia. Qed.
Lemma stepn_range n : forall c, 0 <= c < 2 ^ w -> 0 <= stepn n c < 2 ^ w.
Proof. induction n as [|n IH]; intros c Hc; [done|]. apply IH, step_range. Qed.

Lemma step_bits c i : 0 <= c < 2 ^ w -> 0 <= i ->
  Z.testbit (step c) i = (i <? w) && xorb ((0 <? i) && Z.testbit c (i - 1)) (Z.testbit c (w - 1) && Z.testbit poly i).
Proof.
  intros Hc Hi. unfold step. rewrite testbit_mod_pow2, Z.lxor_spec, Z.shiftl_spec by lia. f_equal. f_equal.
  - destruct (Z.ltb_spec 0 i); [done|]. by rewrite Z.testbit_neg_r by lia.
  - destruct (Z.testbit c (w - 1)); [done|]. by rewrite Z.bits_0.
Qed.

Lemma generator_lxor : generator = Z.lxor (2 ^ w) poly.
Proof.
  unfold generator. apply Z.add_nocarry_lxor. rewrite Z.land_comm, land_pow2 by lia.
  by rewrite (testbit_high poly w w) by lia.
Qed.

(** A step multiplies by the variable, modulo the generator. *)
Lemma step_congruent c : 0 <= c < 2 ^ w -> congruent generator (step c) (Z.shiftl c 1).
Proof.
  intros Hc.
  assert (E : Z.lxor (step c) (Z.shiftl c 1) = if Z.testbit c (w - 1) then generator else 0).
  { apply Z.bits_inj'. intros i Hi. rewrite Z.lxor_spec, (step_bits c i Hc Hi), Z.shiftl_spec by done.
    rewrite generator_lxor.
    assert (Hi0 : Z.testbit c (i - 1) = (0 <? i) && Z.testbit c (i - 1)).
    { destruct (Z.ltb_spec 0 i); [done|]. by rewrite Z.testbit_neg_r by lia. }
    rewrite Hi0.
    destruct (Z.ltb_spec i w).
    - destruct (Z.testbit c (w - 1)); rewrite ?Z.bits_0, ?Z.lxor_spec, ?Z.pow2_bits_eqb by lia.
      + destruct (Z.eqb_spec w i); [lia|]. by destruct (0 <? i), (Z.testbit c (i - 1)), (Z.testbit poly i).
      + by destruct (0 <? i), (Z.testbit c (i - 1)).
    - destruct (Z.ltb_spec 0 i); [|lia]. cbn [andb]. rewrite xorb_false_l.
      destruct (Z.eq_dec i w) as [->|].
      + destruct (Z.testbit c (w - 1)); [|by rewrite Z.bits_0].
        rewrite Z.lxor_spec, Z.pow2_bits_true, (testbit_high poly w w) by lia. done.
      + rewrite (testbit_high c w (i - 1)) by lia.
        destruct (Z.testbit c (w - 1)); [|by rewrite Z.bits_0].
        rewrite Z.lxor_spec, Z.pow2_bits_false, (testbit_high poly w i) by lia. done. }
  unfold congruent. rewrite E. destruct (Z.testbit c (w - 1)); [|constructor].
  pose proof (@generator_congruent generator) as G. unfold congruent in G. by rewrite Z.lxor_0_r in G.
Qed.
Lemma stepn_congruent n : forall c, 0 <= c < 2 ^ w -> congruent generator (stepn n c) (Z.shiftl c (Z.of_nat n)).
Proof.
  induction n as [|n IH]; intros c Hc; [by rewrite Z.shiftl_0_r|].
  cbn [stepn]. rewrite (IH (step c) (step_range c)).
  replace (Z.of_nat (S n)) with (1 + Z.of_nat n) by lia. rewrite <- Z.shiftl_shiftl by lia.
  apply shiftl_congruent; [lia|]. by apply step_congruent.
Qed.

(** The bytes of a message, the first one the most significant. *)
Definition value (bs : list Z) : Z := foldl (fun a b => Z.lxor (Z.shiftl a 8) b) 0 bs.

Lemma feed_range c b : 0 <= c < 2 ^ w -> 0 <= b < 256 -> 0 <= Z.lxor c (Z.shiftl b (w - 8)) < 2 ^ w.
Proof.
  intros Hc Hb. apply lxor_range; [lia|done|]. rewrite Z.shiftl_mul_pow2 by lia.
  replace (2 ^ w) with (256 * 2 ^ (w - 8)) by (change 256 with (2 ^ 8); rewrite <- Z.pow_add_r by lia; f_equal; lia).
  assert (0 < 2 ^ (w - 8)) by (apply Z.pow_pos_nonneg; lia). nia.
Qed.
Lemma feed_register c b : 0 <= c < 2 ^ w -> 0 <= b < 256 -> 0 <= feed c b < 2 ^ w.
Proof. intros Hc Hb. unfold feed. apply stepn_range. apply feed_range; assumption. Qed.
Lemma feeds_range bs : forall c, 0 <= c < 2 ^ w -> Forall (fun b => 0 <= b < 256) bs -> 0 <= feeds bs c < 2 ^ w.
Proof.
  induction bs as [|b bs IH]; intros c Hc Hb; [done|]. apply Forall_cons_iff in Hb as [Hb Hbs].
  rewrite feeds_cons.
  apply IH; [apply feed_register; assumption|assumption].
Qed.

(** The register holds the message times [x^w] plus the initial register times
    [x] to the number of bits, modulo the generator. *)
Lemma feeds_congruent bs : forall c v, 0 <= c < 2 ^ w -> Forall (fun b => 0 <= b < 256) bs ->
  congruent generator c v ->
  congruent generator (feeds bs c)
    (Z.lxor (Z.shiftl v (8 * zlen bs)) (Z.shiftl (value bs) w)).
Proof.
  unfold value. induction bs as [|b bs IH] using rev_ind; intros c v Hc Hb Hv.
  - cbn. by rewrite Z.shiftl_0_l, Z.lxor_0_r, Z.shiftl_0_r.
  - apply Forall_app in Hb as [Hbs Hb]. apply Forall_cons_iff in Hb as [Hb _].
    rewrite feeds_app, foldl_app, feeds_cons. change (feeds [] ?x) with x. cbn [foldl].
    pose proof (feeds_range bs c Hc Hbs) as Hf. unfold feed at 1.
    rewrite (stepn_congruent 8 _ (feed_range _ _ Hf Hb)).
    rewrite zlen_app, zlen_cons, zlen_nil. replace (8 * (zlen bs + (1 + 0))) with (8 * zlen bs + 8) by lia.
    pose proof (zlen_nonneg bs).
    change (Z.of_nat 8) with 8.
    assert (E : Z.lxor (Z.shiftl v (8 * zlen bs + 8)) (Z.shiftl (Z.lxor (Z.shiftl (value bs) 8) b) w) =
      Z.lxor (Z.shiftl (Z.lxor (Z.shiftl v (8 * zlen bs)) (Z.shiftl (value bs) w)) 8) (Z.shiftl (Z.shiftl b (w - 8)) 8)).
    { rewrite !Z.shiftl_lxor, !Z.shiftl_shiftl by lia. rewrite (Z.add_comm 8 w), Z.sub_add. by rewrite Z.lxor_assoc. }
    unfold value in E. rewrite E, Z.shiftl_lxor.
    apply lxor_proper; [|reflexivity]. apply shiftl_congruent; [lia|]. by apply IH.
Qed.

(** *** Remainders are unique *)

Fixpoint times (g : Z) (n : nat) (q : Z) : Z :=
  match n with
  | O => 0
  | S n => Z.lxor (times g n q) (if Z.testbit q (Z.of_nat n) then Z.shiftl g (Z.of_nat n) else 0)
  end.
Lemma times_lxor g n q r : times g n (Z.lxor q r) = Z.lxor (times g n q) (times g n r).
Proof.
  induction n as [|n IH]; [done|]. cbn [times]. rewrite IH, Z.lxor_spec.
  apply Z.bits_inj'. intros i _. rewrite !Z.lxor_spec.
  destruct (Z.testbit q (Z.of_nat n)), (Z.testbit r (Z.of_nat n)); cbn [xorb]; rewrite ?Z.bits_0;
    by destruct (Z.testbit (times g n q) i), (Z.testbit (times g n r) i), (Z.testbit (Z.shiftl g (Z.of_nat n)) i).
Qed.
Lemma times_pow g (n : nat) i : 0 <= i ->
  times g n (2 ^ i) = if i <? Z.of_nat n then Z.shiftl g i else 0.
Proof.
  intros Hi. induction n as [|n IH]; [by destruct (Z.ltb_spec i (Z.of_nat 0)); [lia|]|].
  cbn [times]. rewrite IH, Z.pow2_bits_eqb by done.
  destruct (Z.eqb_spec i (Z.of_nat n)); destruct (Z.ltb_spec i (Z.of_nat n)); destruct (Z.ltb_spec i (Z.of_nat (S n)));
    try lia; subst; by rewrite ?Z.lxor_0_l, ?Z.lxor_0_r.
Qed.
Lemma times_0 g n : times g n 0 = 0.
Proof. induction n as [|n IH]; [done|]. cbn [times]. by rewrite IH, Z.bits_0. Qed.
Lemma times_more g n m q : (n <= m)%nat -> 0 <= q < 2 ^ Z.of_nat n -> times g m q = times g n q.
Proof.
  intros Hm Hq. induction Hm as [|m Hm IH]; [done|]. cbn [times]. rewrite IH, (testbit_high q (Z.of_nat n)) by lia.
  apply Z.lxor_0_r.
Qed.
Lemma multiple_times g a : multiple g a -> exists n q, 0 <= q < 2 ^ Z.of_nat n /\ a = times g n q.
Proof.
  induction 1 as [|a i Hi _ (n & q & Hq & ->)].
  - by exists O, 0.
  - set (m := (n + S (Z.to_nat i))%nat).
    assert (2 ^ Z.of_nat n <= 2 ^ Z.of_nat m) by (apply Z.pow_le_mono_r; lia).
    assert (2 ^ i < 2 ^ Z.of_nat m) by (apply Z.pow_lt_mono_r; lia).
    exists m, (Z.lxor q (2 ^ i)). split.
    + apply lxor_range; [lia|lia|]. assert (0 < 2 ^ i) by (apply Z.pow_pos_nonneg; lia). lia.
    + rewrite times_lxor, times_pow, (times_more g n m) by (done || lia).
      by destruct (Z.ltb_spec i (Z.of_nat m)); [|lia].
Qed.

Lemma generator_range : 2 ^ w <= generator < 2 ^ (w + 1).
Proof. unfold generator. rewrite Z.pow_add_r by lia. lia. Qed.

(** A multiple of the generator is zero or has its degree. *)
Lemma times_bounds (n : nat) q : 0 <= times generator n q < 2 ^ (w + Z.of_nat n) /\
  (times generator n q = 0 \/ 2 ^ w <= times generator n q).
Proof.
  assert (0 < 2 ^ w) by (apply Z.pow_pos_nonneg; lia). pose proof generator_range as Hg.
  induction n as [|n [IHr IH]]; [cbn; rewrite Z.add_0_r; lia|]. cbn [times].
  assert (Hn : 2 ^ (w + Z.of_nat (S n)) = 2 * 2 ^ (w + Z.of_nat n)).
  { replace (w + Z.of_nat (S n)) with (1 + (w + Z.of_nat n)) by lia. rewrite Z.pow_add_r by lia. lia. }
  destruct (Z.testbit q (Z.of_nat n)); [|rewrite Z.lxor_0_r; lia].
  assert (Hs : 2 ^ (w + Z.of_nat n) <= Z.shiftl generator (Z.of_nat n) < 2 ^ (w + Z.of_nat (S n))).
  { rewrite Z.shiftl_mul_pow2, Hn by lia. rewrite Z.pow_add_r in * by lia.
    assert (0 < 2 ^ Z.of_nat n) by (apply Z.pow_pos_nonneg; lia). nia. }
  assert (Hx : 0 <= Z.lxor (times generator n q) (Z.shiftl generator (Z.of_nat n)) < 2 ^ (w + Z.of_nat (S n))).
  { apply lxor_range; lia. }
  split; [done|]. right.
  assert (Ht : Z.testbit (Z.lxor (times generator n q) (Z.shiftl generator (Z.of_nat n))) (w + Z.of_nat n) = true).
  { rewrite Z.lxor_spec, (testbit_high _ (w + Z.of_nat n) _ IHr), Z.shiftl_spec by lia.
    replace (w + Z.of_nat n - Z.of_nat n) with w by lia.
    rewrite generator_lxor, Z.lxor_spec, Z.pow2_bits_true, (testbit_high poly w w) by lia. done. }
  apply Z.nlt_ge. intros Hlt. rewrite (testbit_high _ w) in Ht by lia. discriminate.
Qed.
Lemma remainder_unique a b : 0 <= a < 2 ^ w -> 0 <= b < 2 ^ w -> congruent generator a b -> a = b.
Proof.
  intros Ha Hb (n & q & Hq & E)%multiple_times.
  pose proof (lxor_range a b w ltac:(lia) Ha Hb). destruct (times_bounds n q) as [_ [H0|H0]]; [|lia].
  apply Z.lxor_eq. by rewrite E.
Qed.

(** *** No two registers or bytes lead to the same register *)

Lemma step_inj c d : 0 <= c < 2 ^ w -> 0 <= d < 2 ^ w -> step c = step d -> c = d.
Proof.
  intros Hc Hd E.
  assert (B : forall i, 0 <= i -> Z.testbit (step c) i = Z.testbit (step d) i) by by rewrite E.
  assert (Ht : Z.testbit c (w - 1) = Z.testbit d (w - 1)).
  { specialize (B 0 ltac:(lia)). rewrite !step_bits, poly_odd in B by (done || lia).
    destruct (Z.ltb_spec 0 w); [|lia]. by destruct (Z.testbit c (w - 1)), (Z.testbit d (w - 1)). }
  apply Z.bits_inj'. intros i Hi. destruct (Z_lt_le_dec i w); [|by rewrite !(testbit_high _ w) by lia].
  destruct (Z.eq_dec i (w - 1)) as [->|]; [done|].
  specialize (B (i + 1) ltac:(lia)). rewrite !step_bits, Ht in B by (done || lia).
  destruct (Z.ltb_spec (i + 1) w); [|lia]. destruct (Z.ltb_spec 0 (i + 1)); [|lia].
  rewrite Z.add_simpl_r in B.
  by destruct (Z.testbit c i), (Z.testbit d i), (Z.testbit d (w - 1)), (Z.testbit poly (i + 1)).
Qed.
Lemma stepn_inj n : forall c d, 0 <= c < 2 ^ w -> 0 <= d < 2 ^ w -> stepn n c = stepn n d -> c = d.
Proof.
  induction n as [|n IH]; intros c d Hc Hd E; [done|].
  apply step_inj; [done..|]. by apply IH; [apply step_range..|].
Qed.
Lemma lxor_inj_r a b c : Z.lxor a c = Z.lxor b c -> a = b.
Proof. intros E. by rewrite <- (Z.lxor_0_r a), <- (Z.lxor_nilpotent c), <- Z.lxor_assoc, E, Z.lxor_assoc, Z.lxor_nilpotent, Z.lxor_0_r. Qed.
Lemma feed_register_inj c d b : 0 <= c < 2 ^ w -> 0 <= d < 2 ^ w -> 0 <= b < 256 -> feed c b = feed d b -> c = d.
Proof.
  intros Hc Hd Hb E. exact (lxor_inj_r _ _ _ (stepn_inj 8 _ _ (feed_range c b Hc Hb) (feed_range d b Hd Hb) E)).
Qed.
Lemma feeds_inj bs : forall c d, 0 <= c < 2 ^ w -> 0 <= d < 2 ^ w -> Forall (fun b => 0 <= b < 256) bs ->
  feeds bs c = feeds bs d -> c = d.
Proof.
  induction bs as [|b bs IH]; intros c d Hc Hd Hb E; [done|]. apply Forall_cons_iff in Hb as [Hb Hbs].
  rewrite !feeds_cons in E. apply IH in E; [|apply feed_register; assumption..|assumption].
  exact (feed_register_inj c d b Hc Hd Hb E).
Qed.
Lemma feed_inj c b b' : 0 <= c < 2 ^ w -> 0 <= b < 256 -> 0 <= b' < 256 -> feed c b = feed c b' -> b = b'.
Proof.
  intros Hc Hb Hb' E. unfold feed in E. apply stepn_inj in E; [|apply feed_range; assumption..].
  rewrite !(Z.lxor_comm c) in E. apply lxor_inj_r in E.
  rewrite !Z.shiftl_mul_pow2 in E by lia. assert (0 < 2 ^ (w - 8)) by (apply Z.pow_pos_nonneg; lia). nia.
Qed.

(** *** A register followed by its own bytes becomes zero *)

Fixpoint be_bytes (n : nat) (c : Z) : list Z :=
  match n with O => [] | S n => (c / 2 ^ (8 * Z.of_nat n)) mod 256 :: be_bytes n c end.

Lemma stepn_small (n : nat) : forall c, 0 <= c < 2 ^ (w - Z.of_nat n) -> Z.of_nat n <= w ->
  stepn n c = Z.shiftl c (Z.of_nat n).
Proof.
  induction n as [|n IH]; intros c Hc Hn; [by rewrite Z.shiftl_0_r|].
  cbn [stepn].
  assert (E : step c = Z.shiftl c 1).
  { unfold step. rewrite (testbit_high c (w - Z.of_nat (S n))), Z.lxor_0_r by lia.
    apply Z.mod_small. rewrite shiftl_mul_1.
    assert (2 * 2 ^ (w - Z.of_nat (S n)) <= 2 ^ w); [|lia].
    rewrite <- Z.pow_succ_r by lia. apply Z.pow_le_mono_r; lia. }
  rewrite E, IH, Z.shiftl_shiftl by lia || (rewrite ?shiftl_mul_1; replace (w - Z.of_nat n) with (1 + (w - Z.of_nat (S n))) by lia; rewrite ?Z.pow_add_r by lia; lia).
  f_equal. lia.
Qed.
Lemma feeds_own (n : nat) c : 8 * Z.of_nat n <= w ->
  feeds (be_bytes n c) (Z.shiftl (c mod 2 ^ (8 * Z.of_nat n)) (w - 8 * Z.of_nat n)) = 0.
Proof.
  induction n as [|n IH]; intros Hn; [cbn; by rewrite Z.mod_1_r, Z.shiftl_0_l|].
  cbn [be_bytes]. rewrite feeds_cons.
  assert (E : feed (Z.shiftl (c mod 2 ^ (8 * Z.of_nat (S n))) (w - 8 * Z.of_nat (S n))) ((c / 2 ^ (8 * Z.of_nat n)) mod 256)
    = Z.shiftl (c mod 2 ^ (8 * Z.of_nat n)) (w - 8 * Z.of_nat n)).
  { unfold feed.
    assert (Ex : Z.lxor (Z.shiftl (c mod 2 ^ (8 * Z.of_nat (S n))) (w - 8 * Z.of_nat (S n)))
        (Z.shiftl ((c / 2 ^ (8 * Z.of_nat n)) mod 256) (w - 8)) =
      Z.shiftl (c mod 2 ^ (8 * Z.of_nat n)) (w - 8 * Z.of_nat (S n))).
    { apply Z.bits_inj'. intros i Hi. change 256 with (2 ^ 8).
      rewrite Z.lxor_spec, !Z.shiftl_spec by done.
      destruct (Z_lt_le_dec (i - (w - 8 * Z.of_nat (S n))) 0); [rewrite !Z.testbit_neg_r by lia; done|].
      rewrite (testbit_mod_pow2 c (8 * Z.of_nat n)), (testbit_mod_pow2 c (8 * Z.of_nat (S n))) by lia.
      destruct (Z_lt_le_dec (i - (w - 8)) 0).
      - rewrite (Z.testbit_neg_r _ (i - (w - 8))), xorb_false_r by lia.
        by destruct (Z.ltb_spec (i - (w - 8 * Z.of_nat (S n))) (8 * Z.of_nat (S n))),
          (Z.ltb_spec (i - (w - 8 * Z.of_nat (S n))) (8 * Z.of_nat n)); try lia.
      - rewrite testbit_mod_pow2, <- Z.shiftr_div_pow2, Z.shiftr_spec by lia.
        replace (i - (w - 8) + 8 * Z.of_nat n) with (i - (w - 8 * Z.of_nat (S n))) by lia.
        destruct (Z.ltb_spec (i - (w - 8 * Z.of_nat (S n))) (8 * Z.of_nat (S n))), (Z.ltb_spec (i - (w - 8)) 8),
          (Z.ltb_spec (i - (w - 8 * Z.of_nat (S n))) (8 * Z.of_nat n)); try lia; cbn [andb];
          by destruct (Z.testbit c (i - (w - 8 * Z.of_nat (S n)))). }
    rewrite Ex, stepn_small, Z.shiftl_shiftl; [f_equal; lia|lia| |lia].
    rewrite Z.shiftl_mul_pow2 by lia. pose proof (Z.mod_pos_bound c (2 ^ (8 * Z.of_nat n)) ltac:(apply Z.pow_pos_nonneg; lia)).
    assert (0 < 2 ^ (w - 8 * Z.of_nat (S n))) by (apply Z.pow_pos_nonneg; lia).
    replace (w - Z.of_nat 8) with (8 * Z.of_nat n + (w - 8 * Z.of_nat (S n))) by lia. rewrite Z.pow_add_r by lia. nia. }
  rewrite E. apply IH. lia.
Qed.
End register.

(** ** The three checks *)

(** The conversion of a byte to the register's type does not matter. *)
Lemma entering_byte (w c d : Z) : 8 <= w -> 0 <= c < 2 ^ w ->
  Z.lxor c (Z.shiftl (d mod 2 ^ w) (w - 8)) mod 2 ^ w = Z.lxor c (Z.shiftl (u8 d) (w - 8)).
Proof.
  intros Hw Hc. apply Z.bits_inj'. intros i Hi.
  rewrite testbit_mod_pow2, !Z.lxor_spec, !Z.shiftl_spec by lia.
  destruct (Z_lt_le_dec i (w - 8)); [rewrite !(Z.testbit_neg_r _ (i - (w - 8))) by lia; destruct (Z.ltb_spec i w); [done|lia]|].
  rewrite u8_testbit, testbit_mod_pow2 by lia. destruct (Z.ltb_spec i w).
  - destruct (Z.ltb_spec (i - (w - 8)) w), (Z.ltb_spec (i - (w - 8)) 8); try lia; done.
  - rewrite (testbit_high c w) by lia. by destruct (Z.ltb_spec (i - (w - 8)) 8); [lia|].
Qed.

(** [r] is the remainder of the message with the initial register in front. *)
Definition remainder (w poly init : Z) (data : list Z) (r : Z) : Prop :=
  congruent (generator w poly) r (Z.lxor (Z.shiftl init (8 * zlen data)) (Z.shiftl (value (u8 <$> data)) w)).

(** What a check [f] of [n] bytes with this generator and initial register
    promises. *)
Record checks (f : list Z -> Z -> outcome Z) (n : nat) (poly init : Z) : Prop := {
  check_remainder : forall data, exists c, f data (zlen data) = Ok c /\ 0 <= c < 2 ^ (8 * Z.of_nat n) /\
    forall r, 0 <= r < 2 ^ (8 * Z.of_nat n) -> remainder (8 * Z.of_nat n) poly init data r <-> r = c;
  check_own : forall data c, f data (zlen data) = Ok c ->
    f (data ++ be_bytes n c) (zlen (data ++ be_bytes n c)) = Ok 0;
  check_change : forall xs b b' ys, u8 b <> u8 b' ->
    f (xs ++ b :: ys) (zlen (xs ++ b :: ys)) <> f (xs ++ b' :: ys) (zlen (xs ++ b' :: ys));
}.

Section loop.
Variables w poly : Z.
Variables (byte : Z -> Z -> Z) (init : Z).
Hypothesis w_range : 8 <= w.
Hypothesis poly_range : 0 <= poly < 2 ^ w.
Hypothesis poly_odd : Z.testbit poly 0 = true.
Hypothesis init_range : 0 <= init < 2 ^ w.
Hypothesis byte_feed : forall c d, 0 <= c < 2 ^ w -> byte c d = feed w poly c (u8 d).

Lemma u8s_range data : Forall (fun b => 0 <= b < 256) (u8 <$> data).
Proof. apply Forall_fmap, Forall_true. intros d. apply u8_range. Qed.

Lemma loop_feeds data : forall c, 0 <= c < 2 ^ w ->
  crc_loop byte (Z.to_nat (zlen data)) data c = Ok (feeds w poly (u8 <$> data) c).
Proof.
  unfold zlen. rewrite Nat2Z.id. induction data as [|d data IH]; intros c Hc; [done|].
  cbn [length crc_loop]. rewrite byte_feed, IH, fmap_cons, feeds_cons by (done || (apply feed_register; done || apply u8_range)). done.
Qed.

Lemma loop_remainder data : exists c, crc_loop byte (Z.to_nat (zlen data)) data init = Ok c /\ 0 <= c < 2 ^ w /\
  forall r, 0 <= r < 2 ^ w -> remainder w poly init data r <-> r = c.
Proof.
  pose proof (feeds_range w poly w_range _ init init_range (u8s_range data)) as Hr.
  pose proof (feeds_congruent w poly w_range poly_range _ init init init_range (u8s_range data) ltac:(reflexivity)) as Hc.
  replace (zlen (u8 <$> data)) with (zlen data) in Hc by (unfold zlen; by rewrite length_fmap).
  eexists. split; [by apply loop_feeds|]. split; [exact Hr|]. intros r Hrr. unfold remainder. split.
  - intros E. apply (remainder_unique w poly w_range poly_range); [done|done|]. by rewrite E, Hc.
  - by intros ->.
Qed.

Lemma loop_own (n : nat) data c : w = 8 * Z.of_nat n -> crc_loop byte (Z.to_nat (zlen data)) data init = Ok c ->
  crc_loop byte (Z.to_nat (zlen (data ++ be_bytes n c))) (data ++ be_bytes n c) init = Ok 0.
Proof.
  intros Hn E. rewrite loop_feeds in E |- * by done. injection E as Ec.
  rewrite fmap_app, feeds_app, Ec. f_equal.
  pose proof (feeds_range w poly w_range _ init init_range (u8s_range data)) as Hr. rewrite Ec in Hr.
  assert (Hb : u8 <$> be_bytes n c = be_bytes n c).
  { clear. induction n as [|n IH]; [done|]. cbn [be_bytes]. rewrite fmap_cons, IH. f_equal.
    apply u8_small, Z.mod_pos_bound. lia. }
  pose proof (feeds_own w poly w_range n c ltac:(lia)) as H0.
  by rewrite <- Hn, Z.sub_diag, Z.shiftl_0_r, Z.mod_small, <- Hb in H0.
Qed.

Lemma loop_change xs b b' ys : u8 b <> u8 b' ->
  crc_loop byte (Z.to_nat (zlen (xs ++ b :: ys))) (xs ++ b :: ys) init <> crc_loop byte (Z.to_nat (zlen (xs ++ b' :: ys))) (xs ++ b' :: ys) init.
Proof.
  intros Hb. rewrite !loop_feeds, !fmap_app, !fmap_cons, !feeds_app, !feeds_cons by done. intros [= E].
  pose proof (feeds_range w poly w_range _ init init_range (u8s_range xs)) as Hr.
  apply (feeds_inj w poly w_range poly_odd) in E;
    [|apply feed_register; [done..|apply u8_range]|apply feed_register; [done..|apply u8_range]|apply u8s_range].
  by apply (feed_inj w poly w_range poly_odd) in E; [|done|apply u8_range..].
Qed.

Lemma loop_checks (n : nat) : w = 8 * Z.of_nat n -> checks (fun data len => crc_loop byte (Z.to_nat len) data init) n poly init.
Proof.
  intros Hn. split.
  - intros data. rewrite <- Hn. apply loop_remainder.
  - intros data c. by apply loop_own.
  - apply loop_change.
Qed.
End loop.

Lemma crc16_bits_stepn n : forall c, crc16_bits n c = stepn 16 0x1021 n c.
Proof.
  induction n as [|n IH]; intros c; [done|]. cbn [crc16_bits stepn].
  by rewrite IH, (top_bit c 15 ltac:(lia) : nz (Z.land c 0x8000) = _).
Qed.
Lemma crc32_bits_stepn n : forall c, crc32_bits n c = stepn 32 0x04c11db7 n c.
Proof.
  induction n as [|n IH]; intros c; [done|]. cbn [crc32_bits stepn].
  by rewrite IH, (top_bit c 31 ltac:(lia) : nz (Z.land c 0x80000000) = _).
Qed.
Lemma crc64_bits_stepn n : forall c, crc64_bits n c = stepn 64 0x42f0e1eba9ea3693 n c.
Proof.
  induction n as [|n IH]; intros c; [done|]. cbn [crc64_bits stepn].
  by rewrite IH, (top_bit c 63 ltac:(lia) : nz (Z.land c 0x8000000000000000) = _).
Qed.

Lemma entering_byte16 c d : 0 <= c < 2 ^ 16 ->
  u16 (Z.lxor c (Z.shiftl (u16 d) 8)) = Z.lxor c (Z.shiftl (u8 d) (16 - 8)).
Proof. intros Hc. rewrite <- entering_byte by (done || lia). reflexivity. Qed.
Lemma crc16_feed c d : 0 <= c < 2 ^ 16 -> crc16_byte c d = feed 16 0x1021 c (u8 d).
Proof.
  intros Hc. unfold crc16_byte. rewrite feed_eq, <- entering_byte16, <- crc16_bits_stepn by done. reflexivity.
Qed.
Lemma entering_byte32 c d : 0 <= c < 2 ^ 32 ->
  u32 (Z.lxor c (Z.shiftl (u32 d) 24)) = Z.lxor c (Z.shiftl (u8 d) (32 - 8)).
Proof. intros Hc. rewrite <- entering_byte by (done || lia). reflexivity. Qed.
Lemma crc32_feed c d : 0 <= c < 2 ^ 32 -> crc32_byte c d = feed 32 0x04c11db7 c (u8 d).
Proof.
  intros Hc. unfold crc32_byte. rewrite feed_eq, <- entering_byte32, <- crc32_bits_stepn by done. reflexivity.
Qed.
Lemma entering_byte64 c d : 0 <= c < 2 ^ 64 ->
  u64 (Z.lxor c (Z.shiftl (u64 d) 56)) = Z.lxor c (Z.shiftl (u8 d) (64 - 8)).
Proof. intros Hc. rewrite <- entering_byte by (done || lia). reflexivity. Qed.
Lemma crc64_feed c d : 0 <= c < 2 ^ 64 -> crc64_byte c d = feed 64 0x42f0e1eba9ea3693 c (u8 d).
Proof.
  intros Hc. unfold crc64_byte. rewrite feed_eq, <- entering_byte64, <- crc64_bits_stepn by done. reflexivity.
Qed.

(** C37: C: each of the three functions returns the one remainder, of the degree of
    its generator polynomial, of the message with the initial register in
    front; a message followed by its own check, most significant byte first,
    has check 0; and changing any one byte of a message changes the check. *)
Theorem crc_checks : checks hf_crc16 2 0x1021 0xffff /\ checks hf_crc32 4 0x04c11db7 0xffffffff /\
  checks hf_crc64 8 0x42f0e1eba9ea3693 0.
Proof.
  split; [|split].
  - apply (loop_checks 16 0x1021 crc16_byte 0xffff); try exact crc16_feed; try reflexivity; pow_norm; lia.
  - apply (loop_checks 32 0x04c11db7 crc32_byte 0xffffffff); try exact crc32_feed; try reflexivity; pow_norm; lia.
  - apply (loop_checks 64 0x42f0e1eba9ea3693 crc64_byte 0); try exact crc64_feed; try reflexivity; pow_norm; lia.
Qed.

(** The check values of the file's comments, for the message "123456789". *)
Definition digits9 : list Z := [49; 50; 51; 52; 53; 54; 55; 56; 57].
Example check_values : hf_crc16 digits9 9 = Ok 0x29b1 /\ hf_crc32 digits9 9 = Ok 0x0376e6e7 /\
  hf_crc64 digits9 9 = Ok 0x6c40df5f0b497347.
Proof. vm_compute. auto. Qed.
