(* ===== verification/Interrupt.v ===== *)
(** * Interrupt dispatch

    [arch/mips/hf-risc/drivers/interrupt.c]: the table of handlers, the mask
    register and the routine the assembly entry calls with the pending and
    unmasked causes. A handler is its address, NULL is 0; what the function at
    an address does is the parameter [call]. A handler that switches to another
    task does not return here. *)

From Stdlib Require Import String.
From S2P Require Import Prelude Words Malloc Alloc Queue Kernel Task Demo.

#[local] Open Scope Z_scope.

Record irqs (H : Type) : Type := Irqs {
  isr : list Z;
  IRQ_MASK : Z;
  irq_kern : kernel H;
}.
Arguments Irqs {H}.
Arguments isr {H}.
Arguments IRQ_MASK {H}.
Arguments irq_kern {H}.

Section dispatch.
Context {H : Type} {HA : Allocator H}.
(** The function at an address, called with the interrupted stack. *)
Variable call : Z -> Z -> @K H exit.
Implicit Types s : irqs H.

Definition irq_table0 : list Z := replicate 32 0.

Definition with_isr (t : list Z) s : irqs H := Irqs t (IRQ_MASK s) (irq_kern s).
Definition with_mask (m : Z) s : irqs H := Irqs (isr s) m (irq_kern s).
Definition with_irq_kern (k : kernel H) s : irqs H := Irqs (isr s) (IRQ_MASK s) k.
Definition onk {A : Type} (m : @K H A) : ST (irqs H) A := fun s =>
  match m (irq_kern s) with
  | Ok (a, k) => Ok (a, with_irq_kern k s)
  | Panic c => Panic c
  | Fault => Fault
  | Timeout => Timeout
  end.

(** [for (i = 0; i < 32; ++i) if (mask & (1 << i)) isr[i] = ptr;] from [i]. *)
Fixpoint register_from (n : nat) (i mask ptr : Z) (t : list Z) : outcome (list Z) :=
  match n with
  | O => Ok t
  | S n =>
      t ← (if nz (Z.land mask (u32 (Z.shiftl 1 i))) then aset t i ptr else Ok t);
      register_from n (i + 1) mask ptr t
  end.
Definition _irq_register (mask ptr : Z) : ST (irqs H) unit :=
  t ← gets isr;
  t ← lift (register_from 32 0 mask ptr t);
  modify (with_isr t).

(** [do ... while(cause)] *)
Fixpoint irq_loop (fuel : nat) (cause i stack : Z) : ST (irqs H) exit :=
  match fuel with
  | O => timeout_st
  | S fuel =>
      e ← (if nz (Z.land cause 0x1) then
             t ← gets isr;
             f ← lift (aget t i);
             if nz f then onk (call f stack) else mret Returned
           else mret Returned);
      match e with
      | Switched j => mret (Switched j)
      | Returned =>
          let cause := Z.shiftr cause 1 in
          if nz cause then irq_loop fuel cause (i + 1) stack else mret Returned
      end
  end.
Definition _irq_handler (cause stack : Z) : ST (irqs H) exit :=
  _ ← onk (modify (fun k => with_krnl_pcb (set_interrupts (u32 (interrupts (krnl_pcb k) + 1)) (krnl_pcb k)) k));
  irq_loop 33 cause 0 stack.

Definition _irq_mask_set (mask : Z) : ST (irqs H) unit :=
  m ← gets IRQ_MASK;
  modify (with_mask (Z.lor m mask)).
Definition _irq_mask_clr (mask : Z) : ST (irqs H) Z :=
  m ← gets IRQ_MASK;
  _ ← modify (with_mask (Z.land m (u32 (Z.lnot mask))));
  mret m.

(** ** What an interrupt does *)

(** The handlers registered for the bits of [cause] from [i] on, in order. *)
Fixpoint pending (t : list Z) (i cause : Z) : list Z :=
  match t with
  | [] => []
  | f :: t => (if Z.testbit cause i && nz f then [f] else []) ++ pending t (i + 1) cause
  end.
(** They run one after the other until one switches to another task. *)
Fixpoint run_handlers (fs : list Z) (stack : Z) : @K H exit :=
  match fs with
  | [] => mret Returned
  | f :: fs => e ← call f stack; match e with Switched j => mret (Switched j) | Returned => run_handlers fs stack end
  end.

Lemma pending_none t : forall i cause, (forall j, i <= j -> Z.testbit cause j = false) -> pending t i cause = [].
Proof.
  induction t as [|f t IH]; intros i cause Hc; [done|]. cbn [pending]. rewrite Hc by lia. apply IH.
  intros j Hj. apply Hc. lia.
Qed.

Lemma low_bit cause i : 0 <= i -> nz (Z.land (Z.shiftr cause i) 0x1) = Z.testbit cause i.
Proof.
  intros Hi. rewrite land_1, <- Z.bit0_mod, Z.shiftr_spec, Z.add_0_l by lia. by destruct (Z.testbit cause i).
Qed.

(** The table may be changed by a handler in principle; here handlers are
    kernel computations, which do not see it. *)
Lemma irq_loop_run stack s : forall (u t : list Z) fuel cause,
  isr s = t ++ u -> (length u < fuel)%nat ->
  0 <= cause < 2 ^ (zlen t + zlen u) ->
  forall k, irq_loop fuel (Z.shiftr cause (zlen t)) (zlen t) stack (with_irq_kern k s) =
    onk (run_handlers (pending u (zlen t) cause) stack) (with_irq_kern k s).
Proof.
  induction u as [|f u IH]; intros t fuel cause Ht Hf Hc k; (destruct fuel as [|fuel]; [cbn in Hf; lia|]); cbn [irq_loop].
  - pose proof (zlen_nonneg t). rewrite low_bit, (testbit_high cause (zlen t + zlen (@nil Z))) by (done || (unfold zlen; cbn; lia)).
    cbn [nz]. st_unfold. rewrite Z.shiftr_shiftr, Z.shiftr_div_pow2 by lia.
    assert (2 ^ (zlen t + zlen (@nil Z)) <= 2 ^ (zlen t + 1)) by (apply Z.pow_le_mono_r; rewrite ?zlen_nil; lia).
    rewrite Z.div_small by lia. done.
  - rewrite zlen_cons in Hc. pose proof (zlen_nonneg t). pose proof (zlen_nonneg u).
    assert (Ha : aget (t ++ f :: u) (zlen t) = Ok f).
    { unfold aget. by rewrite zget_app_r, Z.sub_diag by lia. }
    assert (Hnext : forall k, (let cause' := Z.shiftr (Z.shiftr cause (zlen t)) 1 in
        if nz cause' then irq_loop fuel cause' (zlen t + 1) stack else mret Returned) (with_irq_kern k s) =
      onk (run_handlers (pending u (zlen t + 1) cause) stack) (with_irq_kern k s)).
    { intros k'. cbv zeta. rewrite Z.shiftr_shiftr by lia.
      specialize (IH (t ++ [f]) fuel cause). assert (Hz : zlen (t ++ [f]) = zlen t + 1) by by rewrite zlen_app. rewrite Hz in IH.
      destruct (nz (Z.shiftr cause (zlen t + 1))) eqn:En.
      - apply IH; [by rewrite Ht, <- app_assoc|cbn in Hf; lia|]. by rewrite <- Z.add_assoc.
      - apply nz_false in En. rewrite pending_none; [by destruct s|].
        intros j Hj. replace j with (j - (zlen t + 1) + (zlen t + 1)) by lia.
        by rewrite <- Z.shiftr_spec, En, Z.bits_0 by lia. }
    rewrite low_bit by done. cbn [pending]. destruct (Z.testbit cause (zlen t)); cbn [andb app].
    2:{ rewrite <- Hnext. st_unfold. reflexivity. }
    unfold gets at 1, lift at 1. st_unfold. cbn [isr with_irq_kern]. rewrite Ht, Ha.
    destruct (nz f); cbn [app].
    2:{ rewrite <- Hnext. st_unfold. reflexivity. }
    cbn [run_handlers]. unfold onk at 1 2. st_unfold. cbn [irq_kern with_irq_kern].
    destruct (call f stack k) as [[[|j] k']| | |]; try reflexivity.
    pose proof (Hnext k') as Hn. cbv zeta in Hn. st_unfold. unfold onk in Hn. exact Hn.
Qed.

Lemma register_run mask ptr : 0 <= mask < 2 ^ 32 -> forall n i t, 0 <= i -> i + Z.of_nat n <= 32 -> zlen t = 32 ->
  exists t', register_from n i mask ptr t = Ok t' /\ zlen t' = 32 /\
    forall j, zget t' j = if (i <=? j) && (j <? i + Z.of_nat n) && Z.testbit mask j then Some ptr else zget t j.
Proof.
  intros Hm n. induction n as [|n IH]; intros i t Hi Hn Hl.
  - exists t. split; [done|]. split; [done|]. intros j. destruct (Z.leb_spec i j), (Z.ltb_spec j (i + Z.of_nat 0)); try lia; done.
  - cbn [register_from]. rewrite Z.shiftl_1_l.
    assert (2 ^ i < 2 ^ 32) by (apply Z.pow_lt_mono_r; lia). assert (0 < 2 ^ i) by (apply Z.pow_pos_nonneg; lia).
    rewrite u32_small, top_bit by lia.
    set (t1 := if Z.testbit mask i then zset t i ptr else t).
    assert (E : (if Z.testbit mask i then aset t i ptr else Ok t) = Ok t1).
    { unfold t1. destruct (Z.testbit mask i); [|done]. apply aset_Ok. lia. }
    rewrite E. cbn [mbind outcome_bind].
    destruct (IH (i + 1) t1) as (t' & E' & Hl' & Hg); [lia|lia|unfold t1; destruct (Z.testbit mask i); by rewrite ?zset_zlen|].
    exists t'. split; [done|]. split; [done|]. intros j. rewrite Hg. unfold t1.
    destruct (Z.eq_dec j i) as [->|Hj].
    + destruct (Z.leb_spec (i + 1) i), (Z.leb_spec i i), (Z.ltb_spec i (i + Z.of_nat (S n))); try lia. cbn [andb].
      destruct (Z.testbit mask i); [|done]. apply zget_zset_eq. lia.
    + assert (Hz : zget (if Z.testbit mask i then zset t i ptr else t) j = zget t j).
      { destruct (Z.testbit mask i); [|done]. apply zget_zset_ne. lia. }
      rewrite Hz. destruct (Z.leb_spec (i + 1) j), (Z.leb_spec i j), (Z.ltb_spec j (i + 1 + Z.of_nat n)),
        (Z.ltb_spec j (i + Z.of_nat (S n))); try lia; done.
Qed.
End dispatch.

(** [_irq_register] enters the handler for exactly the lines of its mask;
    an interrupt is counted, and then the handlers registered for the bits of
    its cause run once each, from the lowest line on, until one of them
    switches to another task; nothing outside the table is called. *)
Theorem irq_dispatches {H : Type} `{Allocator H} (call : Z -> Z -> @K H exit) (mask ptr cause stack : Z) (s : irqs H) :
  zlen (isr s) = 32 -> 0 <= mask < 2 ^ 32 -> 0 <= cause < 2 ^ 32 ->
  exists s1, _irq_register mask ptr s = Ok (tt, s1) /\ irq_kern s1 = irq_kern s /\
    (forall i, zget (isr s1) i = if (0 <=? i) && (i <? 32) && Z.testbit mask i then Some ptr else zget (isr s) i) /\
    _irq_handler call cause stack s1 =
      onk (_ ← modify (fun k => with_krnl_pcb (set_interrupts (u32 (interrupts (krnl_pcb k) + 1)) (krnl_pcb k)) k);
           run_handlers call (pending (isr s1) 0 cause) stack) s1.
Proof.
  intros Hl Hm Hc. destruct (register_run mask ptr Hm 32 0 (isr s)) as (t & E & Hlt & Hg); [lia|lia|done|].
  exists (with_isr t s). unfold _irq_register, gets, lift, modify at 1. st_unfold. rewrite E.
  split; [done|]. split; [done|]. split; [exact Hg|].
  pose proof (irq_loop_run call stack (with_isr t s) t [] 33 cause eq_refl ltac:(unfold zlen in Hlt; lia)
    ltac:(rewrite Hlt; exact Hc)) as R.
  change (zlen []) with 0 in R. rewrite Z.shiftr_0_r in R. unfold _irq_handler, onk at 1, modify. st_unfold. rewrite R. reflexivity.
Qed.

(** Two handlers on a system with an empty table; the first one is called
    twice. *)
Definition logging (f stack : Z) : @K heap exit := _ ← kprintf "isr" [KInt f]; mret Returned.
Lemma irq_dispatches_witness :
  exists s1, _irq_register 5 4096 (Irqs (replicate 32 0) 0 demo0) = Ok (tt, s1) /\ irq_kern s1 = demo0 /\
    (forall i, zget (isr s1) i = if (0 <=? i) && (i <? 32) && Z.testbit 5 i then Some 4096 else zget (replicate 32 0) i) /\
    _irq_handler logging 7 64 s1 =
      onk (_ ← modify (fun k => with_krnl_pcb (set_interrupts (u32 (interrupts (krnl_pcb k) + 1)) (krnl_pcb k)) k);
           run_handlers logging (pending (isr s1) 0 7) 64) s1.
Proof.
  apply (irq_dispatches logging 5 4096 7 64 (Irqs (replicate 32 0) 0 demo0)); [reflexivity|lia|lia].
Defined.
Example logged : match (_ ← _irq_register 5 4096; _irq_handler logging 7 64) (Irqs (replicate 32 0) 0 demo0) with
  | Ok (_, s) => klog (irq_kern s) | _ => [] end = [("isr"%string, [KInt 4096]); ("isr"%string, [KInt 4096])].
Proof. vm_compute. reflexivity. Qed.
