(* ===== verification/Ramdisk.v ===== *)
(** * Block devices

    The device switch of [drivers/device/device.c] and the RAM disk behind it,
    [drivers/block/ramdisk.c]. A device is the record of its functions; the
    data argument of [dev_ioctl] is part of the request. The arena is the
    block of bytes at [ramarena]. A wrong access of the RAM disk ends in an
    endless loop ([Timeout]). *)

From Stdlib Require Import String.
From S2P Require Import Prelude Words Malloc Alloc Queue Kernel Task Demo.

#[local] Open Scope Z_scope.

(** [struct blk_info] and the requests of [block.h]. *)
Record blk_info : Type := BlkInfo {
  num_cylinders : Z;
  num_heads : Z;
  sectors_track : Z;
  num_sectors : Z;
  bytes_sector : Z;
  media_desc : Z;
}.
Inductive request : Type :=
| DISK_INIT (n : Z) | DISK_GETINFO | DISK_SEEKSET (n : Z) | DISK_SEEKCUR | DISK_SEEKEND | DISK_FINISH
| UNKNOWN_REQUEST.

(** [struct device]: [dev_read] returns the buffer, [dev_ioctl] the
    information asked for. *)
Record device (S : Type) : Type := Device {
  dev_open : Z -> ST S Z;
  dev_read : list Z -> Z -> ST S (Z * list Z);
  dev_write : list Z -> Z -> ST S Z;
  dev_close : ST S Z;
  dev_ioctl : request -> ST S (Z * option blk_info);
}.
Arguments Device {S}.
Arguments dev_open {S}.
Arguments dev_read {S}.
Arguments dev_write {S}.
Arguments dev_close {S}.
Arguments dev_ioctl {S}.

(** ** The device switch *)
Section switch.
Context {S : Type} (log : string -> ST S unit) (dev : device S).

Definition hf_dev_open (flags : Z) : ST S Z :=
  err ← dev_open dev flags;
  _ ← when (nz err) (log "\nhf_dev_open: error"%string);
  mret err.
Definition hf_dev_read (buf : list Z) (size : Z) : ST S (Z * list Z) :=
  '(err, buf) ← dev_read dev buf size;
  _ ← when (nz err) (log "\nhf_dev_read: error"%string);
  mret (err, buf).
Definition hf_dev_write (buf : list Z) (size : Z) : ST S Z :=
  err ← dev_write dev buf size;
  _ ← when (nz err) (log "\nhf_dev_write: error"%string);
  mret err.
Definition hf_dev_close : ST S Z :=
  err ← dev_close dev;
  _ ← when (nz err) (log "\nhf_dev_close: error"%string);
  mret err.
Definition hf_dev_ioctl (r : request) : ST S (Z * option blk_info) := dev_ioctl dev r.
End switch.

(** ** The RAM disk *)

(** The file's variables, and the kernel they live in. *)
Record ramdisk (H : Type) : Type := Ramdisk {
  ramarena : Z;
  arena : list Z;
  rampos : Z;
  lastpos : Z;
  ramdisk_info : blk_info;
  rd_kern : kernel H;
}.
Arguments Ramdisk {H}.
Arguments ramarena {H}.
Arguments arena {H}.
Arguments rampos {H}.
Arguments lastpos {H}.
Arguments ramdisk_info {H}.
Arguments rd_kern {H}.

Definition ramdisk0 {H : Type} (k : kernel H) : ramdisk H :=
  Ramdisk 0 [] (u32 (-1)) (u32 (-1)) (BlkInfo 0 0 0 0 0 0) k.

Section ramdisk_driver.
Context {H : Type} {HA : Allocator H}.
(** The contents of fresh memory. *)
Variable garbage : Z -> Z.
Implicit Types d : ramdisk H.

Definition with_arena (p : Z) (a : list Z) d : ramdisk H := Ramdisk p a (rampos d) (lastpos d) (ramdisk_info d) (rd_kern d).
Definition with_pos (p : Z) d : ramdisk H := Ramdisk (ramarena d) (arena d) p (lastpos d) (ramdisk_info d) (rd_kern d).
Definition with_last (p : Z) d : ramdisk H := Ramdisk (ramarena d) (arena d) (rampos d) p (ramdisk_info d) (rd_kern d).
Definition with_info (i : blk_info) d : ramdisk H := Ramdisk (ramarena d) (arena d) (rampos d) (lastpos d) i (rd_kern d).
Definition with_rd_kern (k : kernel H) d : ramdisk H := Ramdisk (ramarena d) (arena d) (rampos d) (lastpos d) (ramdisk_info d) k.
Definition rdk {A : Type} (m : @K H A) : ST (ramdisk H) A := fun d =>
  match m (rd_kern d) with
  | Ok (a, k) => Ok (a, with_rd_kern k d)
  | Panic c => Panic c
  | Fault => Fault
  | Timeout => Timeout
  end.

Definition ramdisk_open (flags : Z) : ST (ramdisk H) Z := mret 0.
Definition ramdisk_close : ST (ramdisk H) Z := mret 0.

(** [n] bytes of a block from [i] on, and the block with bytes put there. *)
Definition bytes_at (l : list Z) (i n : Z) : outcome (list Z) :=
  if (0 <=? i) && (i + n <=? zlen l) then Ok (take (Z.to_nat n) (drop (Z.to_nat i) l)) else Fault.
Definition put_bytes (l : list Z) (i : Z) (b : list Z) : outcome (list Z) :=
  if (0 <=? i) && (i + zlen b <=? zlen l)
  then Ok (take (Z.to_nat i) l ++ b ++ drop (Z.to_nat (i + zlen b)) l) else Fault.

(** [memcpy] between the arena at the position and a buffer. The console text
    of [hexdump] is [Conv]'s; the log has the bytes it is given. *)
Definition ramdisk_read (buf : list Z) (size : Z) : ST (ramdisk H) (Z * list Z) := fun d =>
  if (lastpos d <? rampos d) || (size <? 1) then
    (_ ← rdk (kprintf "\nread() error: invalid read" []); timeout_st) d
  else
    (_ ← rdk (kprintf "\nDEBUG: read() block %d" [KInt (rampos d)]);
     b ← lift (bytes_at (arena d) (u32 (rampos d * bytes_sector (ramdisk_info d))) (bytes_sector (ramdisk_info d)));
     buf ← lift (put_bytes buf 0 b);
     _ ← modify (with_pos (u32 (rampos d + 1)));
     mret (0, buf)) d.
Definition ramdisk_write (buf : list Z) (size : Z) : ST (ramdisk H) Z := fun d =>
  if (lastpos d <? rampos d) || (size <? 1) then
    (_ ← rdk (kprintf "\nwrite() error: invalid write" []); timeout_st) d
  else
    (_ ← rdk (kprintf "\nDEBUG: write() block %d" [KInt (rampos d)]);
     b ← lift (bytes_at buf 0 (bytes_sector (ramdisk_info d)));
     a ← lift (put_bytes (arena d) (u32 (rampos d * bytes_sector (ramdisk_info d))) b);
     _ ← modify (with_arena (ramarena d) a);
     _ ← modify (with_pos (u32 (rampos d + 1)));
     mret 0) d.

Definition ramdisk_ioctl (r : request) : ST (ramdisk H) (Z * option blk_info) :=
  match r with
  | DISK_INIT n =>
      _ ← modify (with_info (BlkInfo 0 0 0 (u32 n) 128 0x1000));
      p ← rdk (on_heap (hf_malloc (u32 (n * 128))));
      if p =? 0 then _ ← modify (with_arena 0 []); mret (-1, None) else
      _ ← modify (with_arena p (tabulate (Z.to_nat (u32 (n * 128))) garbage));
      _ ← modify (with_pos 0);
      _ ← modify (with_last (u32 (i32 n * 128 - 1)));
      _ ← rdk (kprintf "\nKERNEL: ramdisk initialized, %d bytes" [KInt (u32 (u32 (i32 n * 128 - 1) + 1))]);
      mret (0, None)
  | DISK_GETINFO => i ← gets ramdisk_info; mret (0, Some i)
  | DISK_SEEKSET n => _ ← modify (with_pos (u32 n)); mret (0, None)
  | DISK_SEEKCUR => p ← gets rampos; mret (i32 p, None)
  | DISK_SEEKEND => p ← gets lastpos; _ ← modify (with_pos p); mret (0, None)
  | DISK_FINISH =>
      p ← gets ramarena;
      _ ← rdk (on_heap (hf_free p));
      _ ← modify (with_arena p []);
      _ ← modify (with_pos (u32 (-1)));
      _ ← modify (with_last (u32 (-1)));
      mret (0, None)
  | UNKNOWN_REQUEST => mret (-1, None)
  end.

Definition ramdisk_device : device (ramdisk H) :=
  Device ramdisk_open ramdisk_read ramdisk_write ramdisk_close ramdisk_ioctl.
Definition rd_log (s : string) : ST (ramdisk H) unit := rdk (kprintf s []).
End ramdisk_driver.

(** ** The kernel a device lives in *)
Class Host (S H : Type) : Type := {
  host_kern : S -> kernel H;
  host_put : kernel H -> S -> S;
}.
#[export] Instance ramdisk_host (H : Type) : Host (ramdisk H) H := {
  host_kern := rd_kern;
  host_put := with_rd_kern;
}.
Definition onhost {S H A : Type} `{Host S H} (m : @K H A) : ST S A := fun s =>
  match m (host_kern s) with
  | Ok (a, k) => Ok (a, host_put k s)
  | Panic c => Panic c
  | Fault => Fault
  | Timeout => Timeout
  end.

(** ** What a block device promises

    An array of blocks and a position; reading and writing move the position
    on. *)
Class BlockDevice {S : Type} (dev : device S) : Type := {
  dev_ok : S -> Prop;
  sectors : S -> list (list Z);
  position : S -> Z;
  sector_size : S -> Z;
}.
(** Same blocks, wherever the position is. *)
Definition same_blocks {S : Type} {dev : device S} `{BlockDevice S dev} (s s' : S) : Prop :=
  dev_ok s' /\ sectors s' = sectors s /\ sector_size s' = sector_size s.
Class BlockDeviceLaws {S H : Type} (dev : device S) `{BlockDevice S dev} `{Host S H} : Prop := {
  sector_length : forall s l, dev_ok s -> l ∈ sectors s -> zlen l = sector_size s;
  seek_law : forall s n, dev_ok s -> 0 <= n < zlen (sectors s) ->
    exists s', dev_ioctl dev (DISK_SEEKSET n) s = Ok ((0, None), s') /\ same_blocks s s' /\
      position s' = n /\ host_kern s' = host_kern s;
  read_law : forall s buf l, dev_ok s -> zget (sectors s) (position s) = Some l -> sector_size s <= zlen buf ->
    exists s', dev_read dev buf 1 s = Ok ((0, l ++ drop (Z.to_nat (sector_size s)) buf), s') /\ same_blocks s s' /\
      position s' = position s + 1 /\ krnl_heap (host_kern s') = krnl_heap (host_kern s);
  write_law : forall s buf, dev_ok s -> 0 <= position s < zlen (sectors s) -> sector_size s <= zlen buf ->
    exists s', dev_write dev buf 1 s = Ok (0, s') /\ dev_ok s' /\
      sectors s' = zset (sectors s) (position s) (take (Z.to_nat (sector_size s)) buf) /\
      sector_size s' = sector_size s /\ position s' = position s + 1 /\
      krnl_heap (host_kern s') = krnl_heap (host_kern s);
  info_law : forall s, dev_ok s -> exists i s', dev_ioctl dev DISK_GETINFO s = Ok ((0, Some i), s') /\
      same_blocks s s' /\ position s' = position s /\ host_kern s' = host_kern s /\
      bytes_sector i = sector_size s /\ num_sectors i = zlen (sectors s);
  (** what else happens in the kernel does not touch the blocks *)
  host_law : forall s k, dev_ok s -> same_blocks s (host_put k s) /\ position (host_put k s) = position s /\
    host_kern (host_put k s) = k;
}.

(** ** The RAM disk is a block device *)

Section laws.
Context {H : Type} {HA : Allocator H} (garbage : Z -> Z).
Implicit Types (d : ramdisk H) (a b : list Z).

Definition sector a (i : Z) : list Z := take 128 (drop (Z.to_nat (128 * i)) a).
Record ramdisk_ok d : Prop := {
  rd_size : bytes_sector (ramdisk_info d) = 128;
  rd_range : 0 < num_sectors (ramdisk_info d) <= 16777216;
  rd_arena : zlen (arena d) = 128 * num_sectors (ramdisk_info d);
  rd_last : lastpos d = 128 * num_sectors (ramdisk_info d) - 1;
  rd_pos : 0 <= rampos d;
}.
#[export] Instance ramdisk_block : BlockDevice (ramdisk_device (H:=H) garbage) := {
  dev_ok := ramdisk_ok;
  sectors d := tabulate (Z.to_nat (num_sectors (ramdisk_info d))) (sector (arena d));
  position := rampos;
  sector_size d := bytes_sector (ramdisk_info d);
}.

Lemma sectors_length d : ramdisk_ok d -> zlen (sectors d) = num_sectors (ramdisk_info d).
Proof. intros Hd. cbn [sectors ramdisk_block]. rewrite tabulate_zlen. pose proof (rd_range _ Hd). lia. Qed.
Lemma sector_zlen a i n : zlen a = 128 * n -> 0 <= i < n -> zlen (sector a i) = 128.
Proof. intros Ha Hi. unfold sector, zlen in *. rewrite length_take, length_drop. lia. Qed.

Lemma bytes_at_run l i n : 0 <= i -> i + n <= zlen l -> bytes_at l i n = Ok (take (Z.to_nat n) (drop (Z.to_nat i) l)).
Proof. intros Hi Hn. unfold bytes_at. destruct (Z.leb_spec 0 i), (Z.leb_spec (i + n) (zlen l)); try lia. done. Qed.
Lemma put_bytes_run l i b : 0 <= i -> i + zlen b <= zlen l ->
  put_bytes l i b = Ok (take (Z.to_nat i) l ++ b ++ drop (Z.to_nat (i + zlen b)) l).
Proof. intros Hi Hn. unfold put_bytes. destruct (Z.leb_spec 0 i), (Z.leb_spec (i + zlen b) (zlen l)); try lia. done. Qed.

(** Writing a sector changes that sector and no other. *)
Lemma sector_put a b p n i : zlen a = 128 * n -> zlen b = 128 -> 0 <= p < n -> 0 <= i < n ->
  sector (take (Z.to_nat (128 * p)) a ++ b ++ drop (Z.to_nat (128 * p + 128)) a) i = if i =? p then b else sector a i.
Proof.
  intros Ha Hb Hp Hi. unfold sector, zlen in *.
  assert (Ht : length (take (Z.to_nat (128 * p)) a) = Z.to_nat (128 * p)) by (rewrite length_take; lia).
  destruct (Z.eqb_spec i p) as [->|Hne].
  - rewrite drop_app_length' by done. rewrite take_app_length' by lia. done.
  - destruct (Z.lt_ge_cases i p).
    + rewrite drop_app_le, take_app_le by (rewrite ?length_drop; lia).
      rewrite skipn_firstn_comm, take_take. f_equal. lia.
    + rewrite drop_app_ge, Ht by lia. rewrite drop_app_ge, drop_drop by lia. do 2 f_equal. lia.
Qed.

Lemma sector_get d i : ramdisk_ok d -> 0 <= i < num_sectors (ramdisk_info d) ->
  zget (sectors d) i = Some (sector (arena d) i).
Proof. intros Hd Hi. cbn [sectors ramdisk_block]. by rewrite zget_tabulate by lia. Qed.

(** The check of [ramdisk_read] and [ramdisk_write] passes inside the disk. *)
Lemma inside d i : ramdisk_ok d -> 0 <= i < num_sectors (ramdisk_info d) ->
  (lastpos d <? i) || (1 <? 1) = false /\ u32 (i * bytes_sector (ramdisk_info d)) = 128 * i.
Proof.
  intros Hd Hi. rewrite (rd_last _ Hd), (rd_size _ Hd). pose proof (rd_range _ Hd).
  split; [destruct (Z.ltb_spec (128 * num_sectors (ramdisk_info d) - 1) i); [lia|done] | rewrite u32_small; lia].
Qed.
Lemma ramdisk_read_run d buf i : ramdisk_ok d -> rampos d = i -> 0 <= i < num_sectors (ramdisk_info d) -> 128 <= zlen buf ->
  ramdisk_read buf 1 d = Ok ((0, sector (arena d) i ++ drop 128 buf),
    with_pos (i + 1) (with_rd_kern (with_klog (klog (rd_kern d) ++ [("\nDEBUG: read() block %d"%string, [KInt i])]) (rd_kern d)) d)).
Proof.
  intros Hd Hp Hi Hb. destruct (inside d i Hd Hi) as [E1 E2]. unfold ramdisk_read. rewrite Hp, E1.
  unfold rdk, kprintf. st_unfold. cbn [rampos arena ramdisk_info with_rd_kern]. rewrite ?Hp, E2, (rd_size _ Hd).
  rewrite bytes_at_run by (rewrite ?(rd_arena _ Hd); lia). cbv beta iota zeta. change (Z.to_nat 128) with 128%nat.
  fold (sector (arena d) i). rewrite put_bytes_run; rewrite ?(sector_zlen _ _ _ (rd_arena _ Hd) Hi); [|lia..].
  pose proof (rd_range _ Hd). rewrite u32_small by lia. done.
Qed.
Lemma ramdisk_write_run d buf i : ramdisk_ok d -> rampos d = i -> 0 <= i < num_sectors (ramdisk_info d) -> 128 <= zlen buf ->
  exists k, ramdisk_write buf 1 d = Ok (0, with_pos (i + 1) (with_arena (ramarena d)
      (take (Z.to_nat (128 * i)) (arena d) ++ take 128 buf ++ drop (Z.to_nat (128 * i + 128)) (arena d)) (with_rd_kern k d))) /\
    krnl_heap k = krnl_heap (rd_kern d).
Proof.
  intros Hd Hp Hi Hb. destruct (inside d i Hd Hi) as [E1 E2]. unfold ramdisk_write. rewrite Hp, E1.
  unfold rdk, kprintf. st_unfold. cbn [rampos arena ramarena rd_kern ramdisk_info with_rd_kern with_arena]. rewrite ?Hp, E2, (rd_size _ Hd).
  rewrite (bytes_at_run buf) by lia. cbv beta iota zeta. cbn [rampos arena ramarena rd_kern ramdisk_info with_rd_kern with_arena].
  assert (Ht : zlen (take 128 buf) = 128) by (unfold zlen in *; rewrite length_take; lia).
  change (take (Z.to_nat 128) (drop (Z.to_nat 0) buf)) with (take 128 buf). rewrite ?E2.
  rewrite put_bytes_run; rewrite ?Ht; rewrite ?(rd_arena _ Hd); [|lia..].
  cbv beta iota zeta. cbn [rampos arena ramarena rd_kern ramdisk_info with_rd_kern with_arena]. pose proof (rd_range _ Hd).
  rewrite ?Hp, u32_small by lia. by eexists.
Qed.
Lemma written_blocks d k b i : ramdisk_ok d -> 0 <= i < num_sectors (ramdisk_info d) -> zlen b = 128 ->
  let d' := with_pos (i + 1) (with_arena (ramarena d)
      (take (Z.to_nat (128 * i)) (arena d) ++ b ++ drop (Z.to_nat (128 * i + 128)) (arena d)) (with_rd_kern k d)) in
  ramdisk_ok d' /\ sectors d' = zset (sectors d) i b.
Proof.
  intros Hd Hi Hb d'. pose proof (rd_range _ Hd). assert (Hd' : ramdisk_ok d').
  { destruct Hd. split; cbn -[Z.mul Z.add]; [done..| |done|lia]. unfold zlen in *.
    rewrite !length_app, length_take, length_drop. lia. }
  split; [done|]. apply list_eq_zget.
  - rewrite zset_zlen, !sectors_length by done. done.
  - intros j Hj. rewrite sectors_length in Hj by done. change (num_sectors (ramdisk_info d')) with (num_sectors (ramdisk_info d)) in Hj.
    rewrite sector_get by done. unfold d'. cbn [arena with_pos with_arena].
    rewrite (sector_put _ _ _ _ _ (rd_arena _ Hd) Hb Hi Hj). destruct (Z.eqb_spec j i) as [->|Hne].
    + rewrite zget_zset_eq by (by rewrite sectors_length). done.
    + rewrite zget_zset_ne by done. by rewrite sector_get.
Qed.

#[export] Instance ramdisk_laws : BlockDeviceLaws (H:=H) (ramdisk_device garbage).
Proof.
  split; cbn [dev_ok position sector_size ramdisk_block host_kern host_put ramdisk_host].
  - intros d l Hd (j & Hj)%list_elem_of_lookup. pose proof (rd_size _ Hd) as ->.
    cbn [sectors ramdisk_block] in Hj. unfold tabulate in Hj. rewrite list_lookup_fmap in Hj.
    apply fmap_Some in Hj as (m & [-> Hm]%lookup_seq & ->).
    apply (sector_zlen _ _ _ (rd_arena _ Hd)). pose proof (rd_range _ Hd). lia.
  - intros d n Hd Hn. rewrite sectors_length in Hn by done. pose proof (rd_range _ Hd).
    exists (with_pos n d). split; [|split; [split|done]; [destruct Hd; by split; cbn; try lia|done]].
    unfold dev_ioctl, ramdisk_device, ramdisk_ioctl. st_unfold. by rewrite u32_small by lia.
  - intros d buf l Hd Hl Hb. pose proof (zget_Some_range _ _ _ Hl) as Hi. rewrite sectors_length in Hi by done.
    rewrite sector_get in Hl by done. injection Hl as <-. rewrite (rd_size _ Hd) in *.
    eexists. split; [by apply ramdisk_read_run|]. split; [|done]. split; [|done]. destruct Hd. split; cbn; try done; lia.
  - intros d buf Hd Hi Hb. rewrite sectors_length in Hi by done. rewrite (rd_size _ Hd) in *.
    destruct (ramdisk_write_run d buf _ Hd eq_refl Hi Hb) as (k & E & Hk).
    assert (Ht : zlen (take 128 buf) = 128) by (unfold zlen in *; rewrite length_take; lia).
    destruct (written_blocks d k _ _ Hd Hi Ht) as [Hd' Hs].
    eexists. split; [exact E|]. split_and!; [done|exact Hs|apply (rd_size _ Hd)|done|done].
  - intros d Hd. exists (ramdisk_info d), d. rewrite sectors_length by done. split_and!; done.
  - intros d k Hd. split_and!; try done. destruct Hd. by split.
Qed.
End laws.

(** ** Storing and fetching a block *)
Section blocks.
Context {S H : Type} (dev : device S) `{BlockDeviceLaws S H dev}.
Implicit Types s : S.

Definition put_block (n : Z) (buf : list Z) : ST S Z := _ ← dev_ioctl dev (DISK_SEEKSET n); dev_write dev buf 1.
Definition get_block (n : Z) (buf : list Z) : ST S (Z * list Z) := _ ← dev_ioctl dev (DISK_SEEKSET n); dev_read dev buf 1.

Lemma put_block_run s n buf : dev_ok s -> 0 <= n < zlen (sectors s) -> sector_size s <= zlen buf ->
  exists s', put_block n buf s = Ok (0, s') /\ dev_ok s' /\ sector_size s' = sector_size s /\
    sectors s' = zset (sectors s) n (take (Z.to_nat (sector_size s)) buf) /\
    krnl_heap (host_kern s') = krnl_heap (host_kern s).
Proof.
  intros Hs Hn Hb. unfold put_block. destruct (seek_law s n Hs Hn) as (s1 & E1 & (O1 & S1 & Z1) & P1 & K1). st_step E1.
  destruct (write_law s1 buf O1) as (s2 & E2 & O2 & S2' & Z2 & _ & K2); [by rewrite P1, S1|by rewrite Z1|].
  exists s2. rewrite P1, S1, Z1 in *. by rewrite K2, K1, E2.
Qed.
Lemma get_block_run s n buf l : dev_ok s -> zget (sectors s) n = Some l -> sector_size s <= zlen buf ->
  exists s', get_block n buf s = Ok ((0, l ++ drop (Z.to_nat (sector_size s)) buf), s') /\ same_blocks s s' /\
    krnl_heap (host_kern s') = krnl_heap (host_kern s).
Proof.
  intros Hs Hl Hb. unfold get_block.
  destruct (seek_law s n Hs (zget_Some_range _ _ _ Hl)) as (s1 & E1 & (O1 & S1 & Z1) & P1 & K1). st_step E1.
  destruct (read_law s1 buf l O1) as (s2 & E2 & (O2 & S2' & Z2) & _ & K2); [by rewrite P1, S1|by rewrite Z1|].
  exists s2. rewrite Z1 in E2. rewrite E2, K2, K1. split_and!; [done|split_and!; [done|by rewrite S2'|by rewrite Z2]|done].
Qed.

(** What is stored in a block is fetched from it, and no other block changes. *)
Lemma block_stored s p buf : dev_ok s -> 0 <= p < zlen (sectors s) -> zlen buf = sector_size s ->
  exists s', put_block p buf s = Ok (0, s') /\ dev_ok s' /\ sectors s' = zset (sectors s) p buf /\
    forall q old into, zget (sectors s) q = Some old -> zlen into = sector_size s ->
    exists s'', get_block q into s' = Ok ((0, if q =? p then buf else old), s'') /\ sectors s'' = sectors s'.
Proof.
  intros Hs Hp Hb. destruct (put_block_run s p buf Hs Hp ltac:(lia)) as (s1 & E1 & O1 & Z1 & S1 & _).
  rewrite take_ge in S1 by (unfold zlen in Hb; lia). exists s1. split_and!; [done..|].
  intros q old into Hq Hi. assert (Hq' : zget (sectors s1) q = Some (if q =? p then buf else old)).
  { rewrite S1. destruct (Z.eqb_spec q p) as [->|]; [by apply zget_zset_eq|by rewrite zget_zset_ne]. }
  destruct (get_block_run s1 q into _ O1 Hq' ltac:(lia)) as (s2 & E2 & (_ & S2' & _) & _).
  exists s2. split; [|done]. rewrite E2. rewrite drop_ge by (unfold zlen in *; lia). by rewrite app_nil_r.
Qed.
End blocks.

(** ** Starting the RAM disk *)
Section ramdisk_init.
Context {H : Type} `{AllocatorLaws H} (garbage : Z -> Z).

Lemma ramdisk_init (k : kernel H) n : heap_ok (krnl_heap k) -> 0 < n <= 16777215 ->
  (exists d, dev_ioctl (ramdisk_device garbage) (DISK_INIT n) (ramdisk0 k) = Ok ((-1, None), d) /\ ramarena d = 0) \/
  exists d, dev_ioctl (ramdisk_device garbage) (DISK_INIT n) (ramdisk0 k) = Ok ((0, None), d) /\
    dev_ok (dev:=ramdisk_device garbage) d /\ zlen (sectors (dev:=ramdisk_device garbage) d) = n /\ lastpos d = 128 * n - 1 /\
    heap_ok (krnl_heap (rd_kern d)) /\ exists m, 128 * n <= m /\ heap_live (krnl_heap (rd_kern d)) !! ramarena d = Some m.
Proof.
  intros Hk Hn. assert (En : u32 n = n) by (apply u32_small; lia). assert (Ei : i32 n = n) by (apply i32_small; lia).
  assert (Es : u32 (n * 128) = n * 128) by (apply u32_small; lia).
  assert (Hsz : 0 <= n * 128 <= max_request) by (unfold max_request; lia).
  destruct (malloc_spec (irq_status k) (krnl_heap k) _ Hk Hsz) as (p & h & E & Hh & Hp).
  unfold dev_ioctl, ramdisk_device, ramdisk_ioctl. st_unfold. unfold rdk, on_heap. cbn [rd_kern with_info ramdisk0]. rewrite En, Ei, Es, E.
  destruct Hp as [[-> Hl]|(Hp & Hf & m & Hm & Hl)].
  - left. cbv beta iota zeta. change (0 =? 0) with true. cbv iota. eexists. split; [reflexivity|done].
  - right. destruct (Z.eqb_spec p 0); [done|]. eexists. split; [reflexivity|].
    assert (Hd : forall k' : kernel H, ramdisk_ok (Ramdisk p (tabulate (Z.to_nat (n * 128)) garbage) 0 (u32 (n * 128 - 1)) (BlkInfo 0 0 0 n 128 4096) k')).
    { intros k'. rewrite u32_small by lia. split; cbn -[Z.mul Z.sub tabulate]; try lia; try done. rewrite tabulate_zlen. lia. }
    split; [apply Hd|]. split; [|split; [|split; [done|]]].
    + etransitivity; [apply (sectors_length garbage); apply Hd|done].
    + cbn. rewrite u32_small by lia. lia.
    + exists m. split; [lia|]. cbn. by rewrite Hl, lookup_insert_eq.
Qed.

(** Positions the check lets through although they are past the disk, and
    positions it catches. *)
Lemma ramdisk_past d p buf : ramdisk_ok d -> num_sectors (ramdisk_info d) <= p < 33554432 -> 128 <= zlen buf ->
  put_block (ramdisk_device garbage) p buf d = if p <=? lastpos d then Fault else Timeout.
Proof.
  intros Hd Hp Hb. pose proof (rd_range _ Hd). pose proof (rd_last _ Hd) as Hl.
  unfold put_block, dev_ioctl, dev_write, ramdisk_device, ramdisk_ioctl, ramdisk_write. st_unfold.
  cbn [lastpos rampos with_pos]. rewrite u32_small by lia. change (1 <? 1) with false. rewrite orb_false_r.
  destruct (Z.ltb_spec (lastpos d) p), (Z.leb_spec p (lastpos d)); try lia; [done|].
  unfold rdk, kprintf. st_unfold. cbn [arena rampos ramdisk_info with_rd_kern with_pos]. rewrite (rd_size _ Hd).
  rewrite (bytes_at_run buf) by lia. cbv beta iota zeta. cbn [arena rampos ramdisk_info with_rd_kern with_pos].
  rewrite ?(rd_size _ Hd), u32_small by lia. unfold put_bytes. rewrite (rd_arena _ Hd).
  assert (Ht : zlen (take (Z.to_nat 128) (drop (Z.to_nat 0) buf)) = 128) by (unfold zlen in *; rewrite length_take, length_drop; lia).
  rewrite Ht. destruct (Z.leb_spec (p * 128 + 128) (128 * num_sectors (ramdisk_info d))); [lia|]. by rewrite andb_false_r.
Qed.

(** starting the RAM disk with [n] sectors either finds no memory and
    returns -1 or leaves a disk of [n] sectors inside a block of the heap.
    On that disk a sector that was written is read back, and reading any other
    sector gives what it held before. A write past the last sector is not
    refused: up to position [128 * n - 1] it goes beyond the arena, from there
    on the driver stops in an endless loop. *)
Theorem ramdisk_stores (k : kernel H) n : heap_ok (krnl_heap k) -> 0 < n <= 16777215 ->
  let dev := ramdisk_device garbage in
  (exists d, dev_ioctl dev (DISK_INIT n) (ramdisk0 k) = Ok ((-1, None), d) /\ ramarena d = 0) \/
  exists d, dev_ioctl dev (DISK_INIT n) (ramdisk0 k) = Ok ((0, None), d) /\
    zlen (sectors (dev:=dev) d) = n /\
    (exists m, 128 * n <= m /\ heap_live (krnl_heap (rd_kern d)) !! ramarena d = Some m) /\
    (forall p buf, 0 <= p < n -> zlen buf = 128 ->
      exists d', put_block dev p buf d = Ok (0, d') /\
        forall q old into, zget (sectors (dev:=dev) d) q = Some old -> zlen into = 128 ->
        exists d'', get_block dev q into d' = Ok ((0, if q =? p then buf else old), d'')) /\
    (forall p buf, n <= p < 33554432 -> 128 <= zlen buf ->
      put_block dev p buf d = if p <=? 128 * n - 1 then Fault else Timeout).
Proof.
  intros Hk Hn dev. destruct (ramdisk_init k n Hk Hn) as [Hno|(d & E & Hd & Hs & Hl & _ & Hm)]; [by left|].
  right. exists d. pose proof (sectors_length garbage d Hd) as Hlen. rewrite Hs in Hlen. split_and!; [done..| |].
  - intros p buf Hp Hb. destruct (block_stored dev d p buf Hd ltac:(rewrite <- Hs in Hp; exact Hp) ltac:(etransitivity; [exact Hb|symmetry; apply (rd_size _ Hd)])) as (d' & E' & _ & _ & Hq).
    exists d'. split; [done|]. intros q old into Hold Hi.
    destruct (Hq q old into Hold) as (d2 & E2 & _); [etransitivity; [exact Hi|symmetry; apply (rd_size _ Hd)]|]. by exists d2.
  - intros p buf Hp Hb. rewrite <- Hl. apply ramdisk_past; [done|by rewrite <- Hlen|done].
Qed.
End ramdisk_init.

Lemma ramdisk_stores_witness : exists d,
  dev_ioctl (ramdisk_device beyond0) (DISK_INIT 1) (ramdisk0 demo0) = Ok ((0, None), d) /\
  zlen (sectors (dev:=ramdisk_device beyond0) d) = 1.
Proof.
  assert (Hk : heap_ok (krnl_heap demo0)) by exact demo_heap_ok.
  destruct (ramdisk_stores beyond0 demo0 1 Hk ltac:(lia)) as [(d & E & _)|(d & E & Hs & _)].
  - assert (A : match dev_ioctl (ramdisk_device beyond0) (DISK_INIT 1) (ramdisk0 demo0) with
                | Ok ((r, _), _) => r | _ => 1 end = 0) by (vm_compute; reflexivity).
    rewrite E in A. discriminate A.
  - exists d. split; [exact E|exact Hs].
Defined.
