(* ===== verification/Uhfs.v ===== *)
(** * The uhfs file system

    [fs/uhfs.c]: volumes, directories and files on a block device. Everything
    on the disk goes through one block buffer, [datablock]; its words are
    big-endian. A path is its bytes without the terminating NUL, a buffer its
    bytes as numbers of [0, 256). The functions that only [return 0]
    ([hf_touch], [hf_fopen] and the other file operations) are left out. *)

From Stdlib Require Import String.
From S2P Require Import Prelude Words Malloc Alloc Queue Kernel Task Demo Ramdisk.

#[local] Open Scope Z_scope.

Definition UHFS_FIXDBLK : Z := 0xfffffffc.
Definition UHFS_EOCHBLK : Z := 0xfffffffe.
Definition UHFS_FREEBLK : Z := 0xffffffff.
Definition UHFS_ATTRDIR : Z := 0x01.
Definition UHFS_ATTREXEC : Z := 0x10.
Definition UHFS_ATTRWRITE : Z := 0x20.
Definition UHFS_ATTRREAD : Z := 0x40.
Definition UHFS_ATTRFREE : Z := 0x80.
Definition UHFS_EOF : Z := 0x4000.
Definition UHFS_OPENFILE : Z := 0x8000.

(** [struct fs_superblock]; dates and times are the words of their bit-fields. *)
Record fs_superblock : Type := Superblock {
  signature : Z;
  oem_id : list Z;
  block_size : Z;
  n_blocks : Z;
  volume_label : list Z;
  vdate : Z;
  vtime : Z;
  first_cmb : Z;
  root_dir_block : Z;
  metadata_block : Z;
}.
(** [struct fs_blkdevice], with the bytes [datablock] points to. *)
Record fs_blkdevice : Type := Blkdevice {
  fsblk_info : blk_info;
  vsize : Z;
  fssblock : fs_superblock;
  datablock : Z;
  data : list Z;
}.
(** [struct file]; there is one device. *)
Record file : Type := File {
  first_block : Z;
  f_mode : Z;
  flags : Z;
  block : Z;
  offset : Z;
}.
(** The device, [dev->ptr] and what it points to, the open directories, the
    static variables of [hf_readdir], and the bytes written past a block of
    the heap. *)
Record uhfs (S : Type) : Type := Uhfs {
  disk : S;
  ptr : Z;
  blk_device : fs_blkdevice;
  files : gmap Z file;
  rd_chain_blk : Z;
  rd_dir_blk : Z;
  rd_dir_blk_next : Z;
  overrun : list (Z * Z);
}.
Arguments Uhfs {S}.
Arguments disk {S}.
Arguments ptr {S}.
Arguments blk_device {S}.
Arguments files {S}.
Arguments rd_chain_blk {S}.
Arguments rd_dir_blk {S}.
Arguments rd_dir_blk_next {S}.
Arguments overrun {S}.

(** ** Data in a block *)

Definition word_at (l : list Z) (o : Z) : outcome Z :=
  b0 ← aget l o; b1 ← aget l (o + 1); b2 ← aget l (o + 2); b3 ← aget l (o + 3);
  mret (16777216 * b0 + 65536 * b1 + 256 * b2 + b3).
Definition word_bytes (v : Z) : list Z := [u8 (Z.shiftr v 24); u8 (Z.shiftr v 16); u8 (Z.shiftr v 8); u8 v].
Definition put_word (l : list Z) (o v : Z) : outcome (list Z) := put_bytes l o (word_bytes v).

(** [strcmp(p, name) == 0] for the string at an offset, and [strncpy]. *)
Fixpoint name_is (l : list Z) (o : Z) (name : list Z) : outcome bool :=
  c ← aget l o;
  match name with
  | [] => mret (c =? 0)
  | x :: name => if c =? x then name_is l (o + 1) name else mret false
  end.
Definition strncpy_bytes (s : list Z) (n : nat) : list Z := take n (s ++ replicate n 0).

(** [struct fs_date] and [struct fs_time], first field in the high bits. *)
Definition date_word (day month year reserved : Z) : Z :=
  Z.shiftl day 27 + Z.shiftl month 23 + Z.shiftl year 8 + reserved.
Definition time_word (millisecond second minute hour reserved : Z) : Z :=
  Z.shiftl millisecond 25 + Z.shiftl second 19 + Z.shiftl minute 13 + Z.shiftl hour 8 + reserved.

Definition superblock_bytes (b : fs_superblock) : list Z :=
  word_bytes (signature b) ++ oem_id b ++ word_bytes (block_size b) ++ word_bytes (n_blocks b) ++
  volume_label b ++ word_bytes (vdate b) ++ word_bytes (vtime b) ++ word_bytes (first_cmb b) ++
  word_bytes (root_dir_block b) ++ word_bytes (metadata_block b).
Definition superblock_of (l : list Z) : outcome fs_superblock :=
  sig ← word_at l 0; oem ← bytes_at l 4 16; bs ← word_at l 20; nb ← word_at l 24;
  label ← bytes_at l 28 16; d ← word_at l 44; t ← word_at l 48; cmb ← word_at l 52;
  root ← word_at l 56; meta ← word_at l 60;
  mret (Superblock sig oem bs nb label d t cmb root meta).

(** The parts of [struct fs_direntry], entry [i] of the block. *)
Definition attr_of (l : list Z) (i : Z) : outcome Z := aget l (64 * i + 39).
Definition set_attr (l : list Z) (i a : Z) : outcome (list Z) := aset l (64 * i + 39) a.
Definition first_block_of (l : list Z) (i : Z) : outcome Z := word_at l (64 * i + 52).
Definition size_of (l : list Z) (i : Z) : outcome Z :=
  h ← word_at l (64 * i + 56); w ← word_at l (64 * i + 60); mret (4294967296 * h + w).

(** The tokens [strtok] finds, one call after the other, with delimiters
    [" /"]. *)
Definition is_delim (c : Z) : bool := (c =? 32) || (c =? 47).
Fixpoint tokens (s : list Z) : list (list Z) :=
  match s with
  | [] => []
  | c :: t =>
      if is_delim c then tokens t else
      match t with
      | [] => [[c]]
      | d :: _ => if is_delim d then [c] :: tokens t else
          match tokens t with tok :: r => (c :: tok) :: r | [] => [[c]] end
      end
  end.

Definition ispowerof2 (x : Z) : bool := nz x && negb (nz (Z.land x (u32 (x - 1)))).

(** The first index from [j] on whose map entry is free, or the end. *)
Fixpoint free_slot (n : nat) (j : Z) (l : list Z) : outcome Z :=
  match n with
  | O => mret j
  | S n => w ← word_at l (4 * j); if w =? UHFS_FREEBLK then mret j else free_slot n (j + 1) l
  end.
(** The first entry in use that is called [name]; the first free entry; the
    first entry called [name]. *)
Fixpoint used_entry (n : nat) (i : Z) (name l : list Z) : outcome (option Z) :=
  match n with
  | O => mret None
  | S n =>
      a ← attr_of l i;
      same ← (if nz (Z.land a UHFS_ATTRFREE) then Ok false else name_is l (64 * i) name);
      if (same : bool) then mret (Some i) else used_entry n (i + 1) name l
  end.
Fixpoint free_entry (n : nat) (i : Z) (l : list Z) : outcome (option Z) :=
  match n with
  | O => mret None
  | S n => a ← attr_of l i; if nz (Z.land a UHFS_ATTRFREE) then mret (Some i) else free_entry n (i + 1) l
  end.
Fixpoint named_entry (n : nat) (i : Z) (name l : list Z) : outcome (option Z) :=
  match n with
  | O => mret None
  | S n => same ← name_is l (64 * i) name; if (same : bool) then mret (Some i) else named_entry n (i + 1) name l
  end.
(** [for (j..) dir_data[j].attributes = UHFS_ATTRFREE;] *)
Fixpoint mark_free (n : nat) (j : Z) (l : list Z) : outcome (list Z) :=
  match n with
  | O => mret l
  | S n => set_attr l j UHFS_ATTRFREE ≫= mark_free n (j + 1)
  end.

(** ** The volume *)
Section volume.
Context {S H : Type} {HA : Allocator H} {HO : Host S H} (dev : device S).
(** The contents of fresh memory. *)
Variable garbage : Z -> Z.
Implicit Types s : uhfs S.

Definition with_disk (d : S) s : uhfs S := Uhfs d (ptr s) (blk_device s) (files s) (rd_chain_blk s) (rd_dir_blk s) (rd_dir_blk_next s) (overrun s).
Definition with_mount (p : Z) (b : fs_blkdevice) s : uhfs S := Uhfs (disk s) p b (files s) (rd_chain_blk s) (rd_dir_blk s) (rd_dir_blk_next s) (overrun s).
Definition with_data (l : list Z) s : uhfs S :=
  with_mount (ptr s) (Blkdevice (fsblk_info (blk_device s)) (vsize (blk_device s)) (fssblock (blk_device s)) (datablock (blk_device s)) l) s.
Definition with_sblock (b : fs_superblock) s : uhfs S :=
  with_mount (ptr s) (Blkdevice (fsblk_info (blk_device s)) (vsize (blk_device s)) b (datablock (blk_device s)) (data (blk_device s))) s.
Definition with_files (f : gmap Z file) s : uhfs S := Uhfs (disk s) (ptr s) (blk_device s) f (rd_chain_blk s) (rd_dir_blk s) (rd_dir_blk_next s) (overrun s).
Definition with_statics (c d n : Z) s : uhfs S := Uhfs (disk s) (ptr s) (blk_device s) (files s) c d n (overrun s).
Definition with_overrun (o : list (Z * Z)) s : uhfs S := Uhfs (disk s) (ptr s) (blk_device s) (files s) (rd_chain_blk s) (rd_dir_blk s) (rd_dir_blk_next s) o.

(** Computations of the device and of the kernel. *)
Definition ondisk {A : Type} (m : ST S A) : ST (uhfs S) A := fun s =>
  match m (disk s) with
  | Ok (a, d) => Ok (a, with_disk d s)
  | Panic c => Panic c
  | Fault => Fault
  | Timeout => Timeout
  end.
Definition onkernel {A : Type} (m : @K H A) : ST (uhfs S) A := ondisk (onhost m).
Definition log (fmt : string) (args : list karg) : ST (uhfs S) unit := onkernel (kprintf fmt args).
Definition malloc (n : Z) : ST (uhfs S) Z := onkernel (on_heap (hf_malloc n)).
Definition free (p : Z) : ST (uhfs S) unit := onkernel (on_heap (hf_free p)).
Definition dlog (m : string) : ST S unit := onhost (kprintf m []).

(** [hf_dev_ioctl(dev, DISK_SEEKSET, n)], and a block read into or written from
    a buffer. *)
Definition seek (n : Z) : ST (uhfs S) unit := _ ← ondisk (hf_dev_ioctl dev (DISK_SEEKSET n)); mret tt.
Definition read_into (b : list Z) : ST (uhfs S) (list Z) := r ← ondisk (hf_dev_read dlog dev b 1); mret (snd r).
Definition write_from (b : list Z) : ST (uhfs S) unit := _ ← ondisk (hf_dev_write dlog dev b 1); mret tt.

(** [blk_device->...]: a NULL access when nothing is mounted. *)
Definition blk : ST (uhfs S) fs_blkdevice := fun s => if ptr s =? 0 then Fault else Ok (blk_device s, s).
Definition sblock : ST (uhfs S) fs_superblock := b ← blk; mret (fssblock b).
Definition get_data : ST (uhfs S) (list Z) := b ← blk; mret (data b).
Definition set_data (l : list Z) : ST (uhfs S) unit := modify (with_data l).
Definition read_data : ST (uhfs S) unit := l ← get_data; l ← read_into l; set_data l.
Definition write_data : ST (uhfs S) unit := l ← get_data; write_from l.
Definition read_block (n : Z) : ST (uhfs S) unit := _ ← seek n; read_data.
Definition write_block (n : Z) : ST (uhfs S) unit := _ ← seek n; write_data.

(** Map entries and directory entries of a block; the map block and the entry
    of a block. *)
Definition map_entries (b : fs_superblock) : Z := block_size b / 4.
Definition dir_entries (b : fs_superblock) : Z := block_size b / 64.
Definition chain_of (b : fs_superblock) (n : Z) : Z :=
  u32 (Z.land (u32 (n - 1)) (u32 (Z.lnot (u32 (map_entries b - 1)))) + 1).
Definition slot_of (b : fs_superblock) (n : Z) : Z := Z.land (u32 (n - 1)) (u32 (map_entries b - 1)).

(** More steps than a chain of distinct blocks of the volume has. *)
Definition fs_fuel (b : fs_superblock) : nat := Z.to_nat (u32 (n_blocks b * block_size b) / 4 + 2).

Fixpoint getfree_loop (fuel : nat) (chain_blk : Z) : ST (uhfs S) (option (Z * Z)) :=
  match fuel with
  | O => timeout_st
  | Datatypes.S fuel =>
      if chain_blk =? UHFS_EOCHBLK then
        _ ← log "\ngetfreeblock: storage device is full" [];
        mret None
      else
        _ ← read_block chain_blk;
        sb ← sblock;
        l ← get_data;
        j ← lift (free_slot (Z.to_nat (map_entries sb - 1)) 1 l);
        if j <? map_entries sb then mret (Some (chain_blk, j)) else
        next ← lift (word_at l 0);
        getfree_loop fuel next
  end.
Definition getfreeblock : ST (uhfs S) Z :=
  sb ← sblock;
  r ← getfree_loop (fs_fuel sb) (first_cmb sb);
  match r with
  | None => mret 0
  | Some (chain_blk, j) =>
      _ ← log "\nfree blk at %d" [KInt (u32 (chain_blk + j))];
      l ← get_data;
      l ← lift (put_word l (4 * j) UHFS_EOCHBLK);
      _ ← set_data l;
      _ ← write_block chain_blk;
      mret (u32 (chain_blk + j))
  end.

(** The map block of the current block is read, and the entry gives the next. *)
Definition next_of (chain_blk dir_blk : Z) : ST (uhfs S) Z :=
  _ ← read_block chain_blk;
  sb ← sblock;
  l ← get_data;
  lift (word_at l (4 * slot_of sb dir_blk)).

(** How the search in one directory ends: the directory [tok] was entered, a
    file is called [tok], or the chain ended. *)
Inductive found_in : Type :=
| Entered (chain_blk dir_blk parent : Z)
| Isfile (parent first : Z)
| Missing (chain_blk dir_blk : Z).
Fixpoint search_chain (fuel : nat) (tok : list Z) (chain_blk dir_blk : Z) : ST (uhfs S) found_in :=
  match fuel with
  | O => timeout_st
  | Datatypes.S fuel =>
      dir_blk_next ← next_of chain_blk dir_blk;
      _ ← log "\nchain %d dir_blk_next: %d" [KInt chain_blk; KInt dir_blk_next];
      _ ← read_block dir_blk;
      sb ← sblock;
      l ← get_data;
      m ← lift (used_entry (Z.to_nat (dir_entries sb)) 0 tok l);
      match m with
      | Some i =>
          a ← lift (attr_of l i);
          first ← lift (first_block_of l i);
          if nz (Z.land a UHFS_ATTRDIR) then mret (Entered chain_blk first dir_blk) else
          _ ← log "\nsearchdirectory: %s is not a directory" [KStr tok];
          mret (Isfile dir_blk first)
      | None =>
          let chain_blk := chain_of sb dir_blk_next in
          let dir_blk := dir_blk_next in
          if u32 (u32 (n_blocks sb * block_size sb) / 4 - 1) <? dir_blk then mret (Missing chain_blk dir_blk)
          else if dir_blk_next =? UHFS_EOCHBLK then mret (Missing chain_blk dir_blk)
          else search_chain fuel tok chain_blk dir_blk
      end
  end.

(** What [searchdirectory] returns: -1; 1 for a file; 0 for a name that is not
    there, with the directory it would be in. [ppath] is not set at the root. *)
Inductive searched : Type :=
| SearchError
| SearchFile (pblock : Z) (ppath : list Z) (lblock : Z)
| SearchNew (pblock : Z) (ppath : option (list Z)) (lblock : Z) (lpath : list Z).
Fixpoint search_path (path : list (list Z)) (chain_blk dir_blk first_dir_blk pblock : Z) (ppath : option (list Z)) : ST (uhfs S) searched :=
  match path with
  | [] => _ ← log "\nsearchdirectory: path not found" []; mret SearchError
  | tok :: path =>
      sb ← sblock;
      r ← search_chain (fs_fuel sb) tok chain_blk dir_blk;
      match r with
      | Isfile parent first => mret (SearchFile parent tok first)
      | Missing _ _ =>
          match path with
          | [] => mret (SearchNew pblock ppath first_dir_blk tok)
          | _ => _ ← log "\nsearchdirectory: path not found" []; mret SearchError
          end
      | Entered chain_blk dir_blk parent =>
          match path with
          | [] => _ ← log "\nsearchdirectory: file/directory already exists" []; mret SearchError
          | _ => search_path path chain_blk dir_blk dir_blk parent (Some tok)
          end
      end
  end.
Definition searchdirectory (path : list Z) : ST (uhfs S) searched :=
  sb ← sblock;
  search_path (tokens path) (first_cmb sb) (root_dir_block sb) (root_dir_block sb) 0 None.

(** ** Volume management *)

Definition new_superblock (info : blk_info) (blk_size : Z) : fs_superblock :=
  Superblock 0x66600666 (strncpy_bytes [117; 104; 102; 115; 95; 117; 104; 102; 115; 95; 117; 104; 102; 115] 16)
    blk_size (u32 (num_sectors info * bytes_sector info) / blk_size)
    (strncpy_bytes [110; 101; 119; 32; 118; 111; 108; 117; 109; 101] 16)
    (date_word 1 1 1980 0) (time_word 0 0 0 0 0) 1 2 0.

(** The entries of the map block of the region at [k], from [i] on. *)
Fixpoint fill_map (n : nat) (i k blk_size vsize : Z) (l : list Z) : outcome (list Z) :=
  match n with
  | O => mret l
  | Datatypes.S n =>
      put_word l (4 * i) (if u32 (u32 (k - 1 + i) * blk_size) <? u64 (vsize - blk_size) then UHFS_FREEBLK else UHFS_FIXDBLK)
        ≫= fill_map n (i + 1) k blk_size vsize
  end.
(** The blocks of the region at [k], from [i] on. *)
Fixpoint write_region (n : nat) (i k blk_size vsize : Z) (l : list Z) : ST (uhfs S) unit :=
  match n with
  | O => mret tt
  | Datatypes.S n =>
      _ ← (if u32 (u32 (k - 1 + i) * blk_size) <? u64 (vsize - blk_size) then write_from l else mret tt);
      write_region n (i + 1) k blk_size vsize l
  end.
Fixpoint mk_regions (fuel : nat) (k n_blocks blk_size vsize : Z) (l : list Z) : ST (uhfs S) (list Z) :=
  match fuel with
  | O => timeout_st
  | Datatypes.S fuel =>
      if n_blocks <=? k then mret l else
      l ← lift (put_word l 0 (if u32 (u32 (k + blk_size / 4) * blk_size) <? vsize then u32 (k + blk_size / 4) else UHFS_EOCHBLK));
      l ← lift (fill_map (Z.to_nat (blk_size / 4 - 1)) 1 k blk_size vsize l);
      _ ← write_from l;
      let l := replicate (Z.to_nat blk_size) 0 in
      _ ← write_region (Z.to_nat (blk_size / 4 - 1)) 1 k blk_size vsize l;
      mk_regions fuel (u32 (k + blk_size / 4)) n_blocks blk_size vsize l
  end.

(** An empty directory entry; the entries of the root directory. *)
Definition no_entry : list Z := replicate 39 0 ++ [UHFS_ATTRFREE] ++ replicate 24 0.
Fixpoint fill_dir (n : nat) (i : Z) (l : list Z) : outcome (list Z) :=
  match n with
  | O => mret l
  | Datatypes.S n => put_bytes l (64 * i) no_entry ≫= fill_dir n (i + 1)
  end.

(** What [hf_mkfs] writes, from the buffer [l] of the size of a block. *)
Definition mkfs_blocks (sb : fs_superblock) (blk_size vsize : Z) (l : list Z) : ST (uhfs S) unit :=
  l ← lift (put_bytes l 0 (superblock_bytes sb));
  l ← lift (put_bytes l 64 (replicate (Z.to_nat (u32 (blk_size - 64))) 0));
  _ ← seek 0;
  _ ← write_from l;
  l ← mk_regions (fs_fuel sb) 1 (n_blocks sb) blk_size vsize l;
  l ← lift (fill_dir (Z.to_nat (blk_size / 64)) 0 l);
  _ ← seek (root_dir_block sb);
  _ ← write_from l;
  _ ← seek (first_cmb sb);
  l ← read_into l;
  l ← lift (put_word l (4 * first_cmb sb) UHFS_EOCHBLK);
  _ ← seek (first_cmb sb);
  write_from l.
Definition hf_mkfs (blk_size : Z) : ST (uhfs S) Z :=
  p ← gets ptr;
  if nz p then _ ← log "\nhf_mkfs: can't do this on a mounted filesystem" []; mret (-1) else
  r ← ondisk (hf_dev_ioctl dev DISK_GETINFO);
  info ← lift (match snd r with Some i => Ok i | None => Fault end);
  if negb (ispowerof2 (bytes_sector info)) then _ ← log "\nhf_mkfs: invalid sector size" []; mret (-1) else
  if negb (ispowerof2 blk_size) || (blk_size <? bytes_sector info) then
    _ ← log "\nhf_mkfs: invalid block size" []; mret (-1)
  else
  _ ← log "\nhf_mkfs: device has %d sectors (%d bytes each), block size: %d"
    [KInt (num_sectors info); KInt (bytes_sector info); KInt blk_size];
  let vsize := u32 (num_sectors info * bytes_sector info) in
  let sb := new_superblock info blk_size in
  p ← malloc blk_size;
  if p =? 0 then mret (-1) else
  _ ← mkfs_blocks sb blk_size vsize (tabulate (Z.to_nat blk_size) garbage);
  _ ← free p;
  mret 0.

(** [sizeof(struct fs_blkdevice)] is 160. *)
Definition hf_mount : ST (uhfs S) Z :=
  p ← gets ptr;
  if nz p then _ ← log "\nhf_mount: filesystem already mounted" []; mret (-1) else
  r ← ondisk (hf_dev_ioctl dev DISK_GETINFO);
  info ← lift (match snd r with Some i => Ok i | None => Fault end);
  if negb (ispowerof2 (bytes_sector info)) then _ ← log "\nhf_mount: invalid sector size" []; mret (-1) else
  b ← malloc 160;
  if b =? 0 then mret (-1) else
  let vsize := u32 (num_sectors info * bytes_sector info) in
  tmp ← malloc (bytes_sector info);
  if tmp =? 0 then mret (-1) else
  _ ← seek 0;
  l ← read_into (tabulate (Z.to_nat (bytes_sector info)) garbage);
  sb ← lift (superblock_of l);
  _ ← free tmp;
  if negb (ispowerof2 (block_size sb)) || (block_size sb <? bytes_sector info) then
    _ ← log "\nhf_mount: invalid block size" []; mret (-1)
  else
  d ← malloc (block_size sb);
  if d =? 0 then mret (-1) else
  _ ← modify (with_mount b (Blkdevice info vsize sb d (tabulate (Z.to_nat (block_size sb)) garbage)));
  _ ← log "\nhf_mount: block device mounted; sector size: %d, sectors %d, block size: %d, blocks: %d"
    [KInt (bytes_sector info); KInt (num_sectors info); KInt (block_size sb); KInt (n_blocks sb)];
  mret 0.

Definition hf_umount : ST (uhfs S) Z :=
  p ← gets ptr;
  if p =? 0 then _ ← log "\nhf_umount: filesystem not mounted" []; mret (-1) else
  b ← blk;
  _ ← free (datablock b);
  _ ← free p;
  _ ← modify (with_mount 0 b);
  _ ← log "\nhf_umount: block device unmounted" [];
  mret 0.

(** The free entries of a map block from [k] on. *)
Fixpoint count_free (n : nat) (k : Z) (l : list Z) (freeblks : Z) : outcome Z :=
  match n with
  | O => mret freeblks
  | Datatypes.S n =>
      w ← word_at l (4 * k);
      count_free n (k + 1) l (if w =? UHFS_FREEBLK then u32 (freeblks + 1) else freeblks)
  end.
Fixpoint count_loop (fuel : nat) (freeblks : Z) : ST (uhfs S) Z :=
  match fuel with
  | O => timeout_st
  | Datatypes.S fuel =>
      _ ← read_data;
      sb ← sblock;
      l ← get_data;
      freeblks ← lift (count_free (Z.to_nat (map_entries sb - 1)) 1 l freeblks);
      next ← lift (word_at l 0);
      if next =? UHFS_EOCHBLK then mret freeblks else
      _ ← seek next;
      count_loop fuel freeblks
  end.
Definition hf_getfree : ST (uhfs S) Z :=
  p ← gets ptr;
  if p =? 0 then mret (-1) else
  sb ← sblock;
  _ ← seek (first_cmb sb);
  freeblks ← count_loop (fs_fuel sb) 0;
  mret (i32 freeblks).

(** The label's 16 bytes are copied up to the first NUL and padded. *)
Fixpoint upto_nul (l : list Z) : list Z :=
  match l with [] => [] | c :: l => if c =? 0 then [] else c :: upto_nul l end.
Definition hf_getlabel : ST (uhfs S) (Z * list Z) :=
  sb ← sblock;
  mret (0, strncpy_bytes (upto_nul (volume_label sb)) 16).
Definition hf_setlabel (label : list Z) : ST (uhfs S) Z :=
  b ← sblock;
  _ ← modify (with_sblock (Superblock (signature b) (oem_id b) (block_size b) (n_blocks b) (strncpy_bytes label 16)
    (vdate b) (vtime b) (first_cmb b) (root_dir_block b) (metadata_block b)));
  mret 0.

(** ** Directories *)

(** [hf_malloc(strlen(path))] and [strcpy]: the NUL goes past the block. *)
Definition path_copy (path : list Z) : ST (uhfs S) Z :=
  p ← malloc (zlen path);
  _ ← when (nz p) (modify (fun s => with_overrun (overrun s ++ [(p + zlen path, 0)]) s));
  mret p.

(** The contents of a new directory block and of a new file block. *)
Definition empty_dir (blk_size : Z) : outcome (list Z) :=
  mark_free (Z.to_nat (blk_size / 64)) 0 (replicate (Z.to_nat blk_size) 0).
Definition empty_file (blk_size : Z) : outcome (list Z) := Ok (replicate (Z.to_nat blk_size) 0).

(** Entry [i] made an entry for [name] with its first block at [k]. *)
Definition new_entry (i k attributes : Z) (name l : list Z) : outcome (list Z) :=
  l ← put_bytes l (64 * i) (name ++ [0]);
  l ← set_attr l i attributes;
  l ← put_word l (64 * i + 48) 0;
  l ← put_word l (64 * i + 52) k;
  put_bytes l (64 * i + 56) (replicate 8 0).

(** What [hf_mkdir] and [hf_create] share: the [do ... while] over a directory
    (its result, or the last map block and block of the directory), and the
    extension of a directory that is full. *)
Fixpoint add_chain (clean : Z -> outcome (list Z)) (attributes : Z) (jumping : string) (dirpath : Z) (lpath : list Z)
    (fuel : nat) (chain_blk dir_blk : Z) : ST (uhfs S) (Z + Z * Z) :=
  match fuel with
  | O => timeout_st
  | Datatypes.S fuel =>
      dir_blk_next ← next_of chain_blk dir_blk;
      _ ← read_block dir_blk;
      _ ← log "\nhf_mkdir: chain: %d blk: %d next %d" [KInt chain_blk; KInt dir_blk; KInt dir_blk_next];
      sb ← sblock;
      l ← get_data;
      m ← lift (free_entry (Z.to_nat (dir_entries sb)) 0 l);
      match m with
      | Some i =>
          k ← getfreeblock;
          if k =? 0 then mret (inl (-1)) else
          _ ← seek k;
          l ← lift (clean (block_size sb));
          _ ← set_data l;
          _ ← write_data;
          _ ← read_block dir_blk;
          l ← get_data;
          l ← lift (new_entry i k attributes lpath l);
          _ ← set_data l;
          _ ← write_block dir_blk;
          _ ← free dirpath;
          mret (inl 0)
      | None =>
          _ ← log jumping [KInt dir_blk_next];
          if dir_blk_next =? UHFS_EOCHBLK then mret (inr (chain_blk, dir_blk)) else
          add_chain clean attributes jumping dirpath lpath fuel (chain_of sb dir_blk_next) dir_blk_next
      end
  end.
Fixpoint add_entry (clean : Z -> outcome (list Z)) (attributes : Z) (jumping full : string) (dirpath : Z) (lpath : list Z)
    (fuel : nat) (chain_blk dir_blk : Z) : ST (uhfs S) Z :=
  match fuel with
  | O => timeout_st
  | Datatypes.S fuel =>
      sb ← sblock;
      r ← add_chain clean attributes jumping dirpath lpath (fs_fuel sb) chain_blk dir_blk;
      match r with
      | inl ret => mret ret
      | inr (chain_blk_last, dir_blk_last) =>
          _ ← log full [];
          k ← getfreeblock;
          if k =? 0 then _ ← free dirpath; mret (-1) else
          _ ← seek k;
          l ← lift (empty_dir (block_size sb));
          _ ← set_data l;
          _ ← write_data;
          _ ← read_block chain_blk_last;
          l ← get_data;
          l ← lift (put_word l (4 * slot_of sb dir_blk_last) k);
          _ ← set_data l;
          _ ← write_block chain_blk_last;
          add_entry clean attributes jumping full dirpath lpath fuel (chain_of sb k) k
      end
  end.
Definition add_path (clean : Z -> outcome (list Z)) (attributes : Z) (not_mounted not_found jumping full : string) (path : list Z) : ST (uhfs S) Z :=
  p ← gets ptr;
  if p =? 0 then _ ← log not_mounted []; mret (-1) else
  dirpath ← path_copy path;
  if dirpath =? 0 then mret (-1) else
  r ← searchdirectory path;
  match r with
  | SearchNew parent _ first_dir_blk lpath =>
      _ ← log "\npath / name is ok, now do it" [];
      sb ← sblock;
      _ ← log "\ndirectory at blk %d (pblock %d)" [KInt first_dir_blk; KInt parent];
      add_entry clean attributes jumping full dirpath lpath (fs_fuel sb) (chain_of sb first_dir_blk) first_dir_blk
  | _ =>
      _ ← log not_found [];
      _ ← free dirpath;
      mret (-1)
  end.
Definition hf_mkdir (path : list Z) : ST (uhfs S) Z :=
  add_path empty_dir (Z.lor (Z.lor (Z.lor UHFS_ATTRDIR UHFS_ATTRREAD) UHFS_ATTRWRITE) UHFS_ATTREXEC)
    "\nhf_mkdir: filesystem not mounted" "\nhf_mkdir: path not found"
    "\nhf_mkdir: jumping to next part of the directory (%d)" "\nhf_mkdir: directory is full. extending it..." path.
Definition hf_create (path : list Z) : ST (uhfs S) Z :=
  add_path empty_file (Z.lor UHFS_ATTRREAD UHFS_ATTRWRITE)
    "\nhf_create: filesystem not mounted" "\nhf_create: path not found"
    "\nhf_create: jumping to next part of the directory (%d)" "\nhf_create: directory is full. extending it..." path.

(** [sizeof(struct file)] is 32. *)
Definition hf_opendir (path : list Z) : ST (uhfs S) Z :=
  p ← gets ptr;
  if p =? 0 then _ ← log "\nhf_opendir: filesystem not mounted" []; mret 0 else
  fptr ← malloc 32;
  if fptr =? 0 then mret 0 else
  dirpath ← path_copy path;
  if dirpath =? 0 then mret 0 else
  r ← searchdirectory path;
  match r with
  | SearchNew _ _ first_dir_blk _ =>
      _ ← modify (fun s => with_files (<[fptr := File first_dir_blk 0 UHFS_OPENFILE first_dir_blk 0]> (files s)) s);
      _ ← free dirpath;
      mret fptr
  | _ =>
      _ ← free fptr;
      _ ← log "\nhf_opendir: path not found" [];
      _ ← free dirpath;
      mret 0
  end.

Definition desc_get (desc : Z) : ST (uhfs S) file := f ← gets files; lift (match f !! desc with Some d => Ok d | None => Fault end).
Definition desc_set (desc : Z) (d : file) : ST (uhfs S) unit := modify (fun s => with_files (<[desc := d]> (files s)) s).
Definition hf_closedir (desc : Z) : ST (uhfs S) Z :=
  d ← desc_get desc;
  if negb (nz (Z.land (flags d) UHFS_OPENFILE)) then _ ← log "\nhf_closedir: not an open directory" []; mret (-1) else
  _ ← modify (fun s => with_files (delete desc (files s)) s);
  _ ← free desc;
  mret 0.

(** The entry is the 64 bytes copied out. *)
Definition hf_readdir (desc : Z) : ST (uhfs S) (Z * option (list Z)) :=
  d ← desc_get desc;
  if negb (nz (Z.land (flags d) UHFS_OPENFILE)) then _ ← log "\nhf_readdir: not an open directory" []; mret (-1, None) else
  if nz (Z.land (flags d) UHFS_EOF) then mret (-1, None) else
  sb ← sblock;
  _ ← (if offset d =? 0 then
         _ ← modify (fun s => with_statics (chain_of sb (block d)) (block d) (rd_dir_blk_next s) s);
         c ← gets rd_chain_blk;
         b ← gets rd_dir_blk;
         n ← next_of c b;
         _ ← modify (with_statics c b n);
         _ ← read_block b;
         _ ← desc_set desc (File (first_block d) (f_mode d) (flags d) n (offset d));
         log "\nhf_readdir: chain: %d blk: %d next %d" [KInt c; KInt b; KInt n]
       else mret tt);
  d ← desc_get desc;
  let fl := if (block d =? UHFS_EOCHBLK) && (offset d =? u32 (dir_entries sb - 1)) then Z.lor (flags d) UHFS_EOF else flags d in
  l ← get_data;
  e ← lift (bytes_at l (64 * offset d) 64);
  let o := offset d + 1 in
  _ ← desc_set desc (File (first_block d) (f_mode d) fl (block d) (if dir_entries sb <=? o then 0 else o));
  mret (0, Some e).

(** The blocks of a chain are released one by one. *)
Fixpoint free_chain (freed : string) (fuel : nat) (chain_blk blk : Z) : ST (uhfs S) unit :=
  match fuel with
  | O => timeout_st
  | Datatypes.S fuel =>
      next ← next_of chain_blk blk;
      sb ← sblock;
      l ← get_data;
      l ← lift (put_word l (4 * slot_of sb blk) UHFS_FREEBLK);
      _ ← set_data l;
      _ ← write_block chain_blk;
      _ ← log freed [KInt blk];
      if next =? UHFS_EOCHBLK then mret tt else free_chain freed fuel (chain_of sb next) next
  end.
(** The first entry of the block called [name] is marked free. *)
Definition free_entry_of (freed : string) (blk : Z) (name : list Z) : ST (uhfs S) unit :=
  _ ← read_block blk;
  sb ← sblock;
  l ← get_data;
  m ← lift (named_entry (Z.to_nat (dir_entries sb)) 0 name l);
  match m with
  | Some i =>
      a ← lift (attr_of l i);
      l ← lift (set_attr l i (Z.lor a UHFS_ATTRFREE));
      _ ← set_data l;
      _ ← write_block blk;
      log freed []
  | None => mret tt
  end.

(** Whether every entry of the directory is free. *)
Fixpoint all_free (n : nat) (i : Z) (l : list Z) : outcome bool :=
  match n with
  | O => mret true
  | Datatypes.S n => a ← attr_of l i; if nz (Z.land a UHFS_ATTRFREE) then all_free n (i + 1) l else mret false
  end.
Fixpoint is_empty (fuel : nat) (chain_blk dir_blk : Z) : ST (uhfs S) bool :=
  match fuel with
  | O => timeout_st
  | Datatypes.S fuel =>
      dir_blk_next ← next_of chain_blk dir_blk;
      _ ← read_block dir_blk;
      _ ← log "\nhf_rmdir: chain: %d blk: %d next %d" [KInt chain_blk; KInt dir_blk; KInt dir_blk_next];
      sb ← sblock;
      l ← get_data;
      e ← lift (all_free (Z.to_nat (dir_entries sb)) 0 l);
      if negb e then _ ← log "\nhf_rmdir: directory not empty" []; mret false else
      _ ← log "\nhf_rmdir: jumping to next part of the directory (%d)" [KInt dir_blk_next];
      if dir_blk_next =? UHFS_EOCHBLK then mret true else is_empty fuel (chain_of sb dir_blk_next) dir_blk_next
  end.
Definition hf_rmdir (path : list Z) : ST (uhfs S) Z :=
  p ← gets ptr;
  if p =? 0 then _ ← log "\nhf_rmdir: filesystem not mounted" []; mret (-1) else
  dirpath ← path_copy path;
  if dirpath =? 0 then mret (-1) else
  r ← searchdirectory path;
  match r with
  | SearchNew parent_dir_blk ppath first_dir_blk _ =>
      _ ← log "\npath / name is ok, now do it" [];
      sb ← sblock;
      _ ← log "\ndirectory at blk %d (pblock %d)" [KInt first_dir_blk; KInt parent_dir_blk];
      e ← is_empty (fs_fuel sb) (chain_of sb first_dir_blk) first_dir_blk;
      if negb e then _ ← free dirpath; mret (-1) else
      name ← lift (match ppath with Some n => Ok n | None => Fault end);
      _ ← log "\nok, directory '%s' is empty. parent is on block %d" [KStr name; KInt parent_dir_blk];
      _ ← free_entry_of "\nhf_rmdir: freed directory entry" parent_dir_blk name;
      _ ← log "\nhf_rmdir: chain %d block %d" [KInt (chain_of sb first_dir_blk); KInt first_dir_blk];
      _ ← free_chain "\nhf_rmdir: freed block %d" (fs_fuel sb) (chain_of sb first_dir_blk) first_dir_blk;
      _ ← free dirpath;
      mret 0
  | _ =>
      _ ← log "\nhf_rmdir: path not found" [];
      _ ← free dirpath;
      mret (-1)
  end.

(** ** Files *)

Definition hf_unlink (path : list Z) : ST (uhfs S) Z :=
  p ← gets ptr;
  if p =? 0 then _ ← log "\nhf_unlink: filesystem not mounted" []; mret (-1) else
  filepath ← path_copy path;
  if filepath =? 0 then mret (-1) else
  r ← searchdirectory path;
  match r with
  | SearchNew _ _ _ _ =>
      _ ← log "\nhf_unlink: %s is a directory" [KStr path];
      _ ← free filepath;
      mret (-1)
  | SearchError =>
      _ ← log "\nhf_unlink: path not found" [];
      _ ← free filepath;
      mret (-1)
  | SearchFile parent_dir_blk ppath first_file_blk =>
      _ ← log "\npath / name is ok, now do it" [];
      sb ← sblock;
      _ ← log "\nfile at blk %d (pblock %d)" [KInt first_file_blk; KInt parent_dir_blk];
      _ ← free_entry_of "\nhf_unlink: freed directory entry" parent_dir_blk ppath;
      _ ← log "\nhf_unlink: chain %d block %d" [KInt (chain_of sb first_file_blk); KInt first_file_blk];
      _ ← free_chain "\nhf_unlink: freed block %d" (fs_fuel sb) (chain_of sb first_file_blk) first_file_blk;
      _ ← free filepath;
      mret 0
  end.

(** What [hf_size], [hf_rename] and [hf_chmod] share: the entry called like the
    file, in the block it was found in; 0 when there is none. *)
Definition on_entry (path : list Z) (found : Z -> Z -> list Z -> ST (uhfs S) Z) : ST (uhfs S) Z :=
  p ← gets ptr;
  if p =? 0 then _ ← log "\nhf_size: filesystem not mounted" []; mret (-1) else
  filepath ← path_copy path;
  if filepath =? 0 then mret (-1) else
  r ← searchdirectory path;
  match r with
  | SearchFile parent_dir_blk ppath _ =>
      _ ← read_block parent_dir_blk;
      sb ← sblock;
      l ← get_data;
      m ← lift (named_entry (Z.to_nat (dir_entries sb)) 0 ppath l);
      ret ← (match m with Some i => found parent_dir_blk i l | None => mret 0 end);
      _ ← free filepath;
      mret ret
  | _ =>
      _ ← log "\nhf_size: path not found" [];
      _ ← free filepath;
      mret (-1)
  end.
Definition hf_size (path : list Z) : ST (uhfs S) Z :=
  on_entry path (fun _ i l => n ← lift (size_of l i); mret (i64 n)).
Definition hf_rename (path newname : list Z) : ST (uhfs S) Z :=
  on_entry path (fun blk i l =>
    l ← lift (put_bytes l (64 * i) (strncpy_bytes newname 39));
    _ ← set_data l;
    _ ← write_block blk;
    mret 0).
(** [mode] is an [int8_t]. *)
Definition hf_chmod (path : list Z) (mode : Z) : ST (uhfs S) Z :=
  on_entry path (fun blk i l =>
    a ← lift (attr_of l i);
    l ← lift (set_attr l i (u8 (Z.lor (Z.land a (Z.lnot 0x7e)) mode)));
    _ ← set_data l;
    _ ← write_block blk;
    mret 0).
End volume.
