(* ===== verification/Volume.v ===== *)
(** * The map of free blocks of a volume

    The map blocks of a uhfs volume ([fs/uhfs.c]) form a chain, and the chain is a free list:
    [hf_getfree] is its length and [getfreeblock] takes its head. Proved on any
    device that keeps the laws of [BlockDevice]. *)

From Stdlib Require Import String.
From S2P Require Import Prelude Words Malloc Alloc Queue Kernel Task Demo Ramdisk Uhfs.

#[local] Open Scope Z_scope.

(** ** Words in a block *)
Section words_in_block.
Implicit Types l b : list Z.

Lemma put_bytes_Ok l o b : 0 <= o -> o + zlen b <= zlen l ->
  exists l', put_bytes l o b = Ok l' /\ zlen l' = zlen l /\
    forall j, zget l' j = if (o <=? j) && (j <? o + zlen b) then zget b (j - o) else zget l j.
Proof.
  intros Ho Hb. rewrite put_bytes_run by done. eexists. split; [done|].
  assert (Ht : zlen (take (Z.to_nat o) l) = o) by (pose proof (zlen_nonneg b); unfold zlen in *; rewrite length_take; lia).
  pose proof (zlen_nonneg b). split.
  { unfold zlen in *. rewrite !length_app, length_take, length_drop. lia. }
  intros j. destruct (Z.leb_spec o j); cbn [andb].
  - rewrite zget_app_r, Ht by lia. destruct (Z.ltb_spec j (o + zlen b)).
    + by rewrite zget_app_l by lia.
    + rewrite zget_app_r by lia. unfold zget. rewrite lookup_drop.
      destruct (Z.ltb_spec (j - o - zlen b) 0), (Z.ltb_spec j 0); try lia. f_equal. lia.
  - destruct (decide (0 <= j)) as [Hj|Hj]; [|rewrite !zget_None by lia; done]. rewrite zget_app_l by lia.
    unfold zget. destruct (j <? 0); [done|]. apply lookup_take_lt. lia.
Qed.

Lemma word_at_Ok l o : 0 <= o -> o + 4 <= zlen l -> exists w, word_at l o = Ok w.
Proof.
  intros Ho Hl. unfold word_at.
  destruct (zget_is_Some l o) as [? E0]; [lia|]. destruct (zget_is_Some l (o + 1)) as [? E1]; [lia|].
  destruct (zget_is_Some l (o + 2)) as [? E2]; [lia|]. destruct (zget_is_Some l (o + 3)) as [? E3]; [lia|].
  rewrite (aget_Ok _ _ _ E0), (aget_Ok _ _ _ E1), (aget_Ok _ _ _ E2), (aget_Ok _ _ _ E3). by eexists.
Qed.
Lemma word_at_ext l l' o : (forall j, o <= j < o + 4 -> zget l' j = zget l j) -> word_at l' o = word_at l o.
Proof. intros Hl. unfold word_at, aget. by rewrite !Hl by lia. Qed.
Lemma word_bytes_value v : 0 <= v < 4294967296 -> word_at (word_bytes v) 0 = Ok v.
Proof.
  intros Hv. assert (E : forall a b c d : Z, word_at [a; b; c; d] 0 = Ok (16777216 * a + 65536 * b + 256 * c + d)) by done.
  unfold word_bytes. rewrite E. f_equal.
  unfold u8. rewrite !Z.shiftr_div_pow2 by lia. change (2 ^ 24) with (256 * 256 * 256). change (2 ^ 16) with (256 * 256). change (2 ^ 8) with 256.
  assert (Hh : 0 <= v / (256 * 256 * 256) < 256) by (split; [apply Z.div_pos; lia|apply Z.div_lt_upper_bound; lia]).
  rewrite (Z.mod_small _ _ Hh), <- !Z.div_div by lia.
  pose proof (Z.div_mod v 256). pose proof (Z.div_mod (v / 256) 256). pose proof (Z.div_mod (v / 256 / 256) 256). lia.
Qed.
Lemma word_in l o b : 0 <= o -> o + zlen b <= zlen l -> forall l', put_bytes l o b = Ok l' -> forall i, 0 <= i -> i + 4 <= zlen b ->
  word_at l' (o + i) = word_at b i.
Proof.
  intros Ho Hb l' E i Hi Hib. destruct (put_bytes_Ok l o b Ho Hb) as (l2 & E2 & _ & Hg). rewrite E in E2. injection E2 as <-.
  assert (Hj : forall k, 0 <= k < 4 -> zget l' (o + i + k) = zget b (i + k)).
  { intros k Hk. rewrite Hg. destruct (Z.leb_spec o (o + i + k)), (Z.ltb_spec (o + i + k) (o + zlen b)); try lia. cbn. f_equal. lia. }
  pose proof (Hj 0 ltac:(lia)) as H0. rewrite !Z.add_0_r in H0. unfold word_at, aget. by rewrite H0, !Hj by lia.
Qed.
Lemma put_word_Ok l o v : 0 <= o -> o + 4 <= zlen l -> 0 <= v < 4294967296 ->
  exists l', put_word l o v = Ok l' /\ zlen l' = zlen l /\ word_at l' o = Ok v /\
    forall o', o' + 4 <= o \/ o + 4 <= o' -> word_at l' o' = word_at l o'.
Proof.
  intros Ho Hl Hv. unfold put_word. destruct (put_bytes_Ok l o (word_bytes v) Ho) as (l' & E & Hz & Hg); [exact Hl|].
  exists l'. split_and!; [done..| |].
  - pose proof (word_in l o (word_bytes v) Ho Hl l' E 0) as W. rewrite Z.add_0_r in W.
    rewrite W; [by apply word_bytes_value|lia|change (zlen (word_bytes v)) with 4; lia].
  - intros o' Ho'. apply word_at_ext. intros j Hj. rewrite Hg. change (zlen (word_bytes v)) with 4.
    destruct (Z.leb_spec o j), (Z.ltb_spec j (o + 4)); try done. lia.
Qed.
End words_in_block.

(** ** The map of free blocks

    A volume of sectors of [4 * m] bytes. The map blocks form a chain through
    their entry 0; entry [j] of the map block [c] stands for block [c + j]. *)
Section free_map.
Implicit Types (l : list Z) (ss : list (list Z)) (cs : list Z).

Definition slot_free l (j : Z) : bool := match word_at l (4 * j) with Ok w => w =? UHFS_FREEBLK | _ => false end.
Definition free_slots (m : Z) l : list Z := filter (fun j => slot_free l j) (seqZ 1 (m - 1)).
Definition free_blocks (m : Z) ss cs : list Z :=
  cs ≫= fun c => (fun j => c + j) <$> free_slots m (default [] (zget ss c)).

Inductive map_chain ss : Z -> list Z -> Prop :=
| chain_end c l : zget ss c = Some l -> word_at l 0 = Ok UHFS_EOCHBLK -> map_chain ss c [c]
| chain_next c l n cs : zget ss c = Some l -> word_at l 0 = Ok n -> n <> UHFS_EOCHBLK ->
    map_chain ss n cs -> map_chain ss c (c :: cs).

Lemma chain_in ss c cs : map_chain ss c cs -> forall x, x ∈ cs -> exists l, zget ss x = Some l.
Proof.
  induction 1 as [c l Hl|c l n cs Hl _ _ _ IH]; intros x Hx.
  - apply list_elem_of_singleton in Hx as ->. by exists l.
  - apply elem_of_cons in Hx as [->|Hx]; [by exists l|by apply IH].
Qed.
Lemma chain_head ss c cs : map_chain ss c cs -> exists r, cs = c :: r.
Proof. destruct 1; by eexists. Qed.

Lemma free_slot_run n : forall j l, 0 <= j -> 4 * (j + Z.of_nat n) <= zlen l ->
  free_slot n j l = Ok (default (j + Z.of_nat n) (head (filter (fun i => slot_free l i) (seqZ j (Z.of_nat n))))).
Proof.
  induction n as [|n IH]; intros j l Hj Hl; cbn [free_slot].
  - cbn. by rewrite Z.add_0_r.
  - destruct (word_at_Ok l (4 * j)) as [w E]; [lia..|]. rewrite seqZ_cons by lia. rewrite filter_cons.
    assert (Ef : slot_free l j = (w =? UHFS_FREEBLK)) by (unfold slot_free; by rewrite E). rewrite Ef, E. cbn [mbind outcome_bind].
    destruct (w =? UHFS_FREEBLK); [by rewrite decide_True by done|].
    rewrite decide_False by (by intros []). rewrite IH by lia.
    replace (Z.pred (Z.of_nat (S n))) with (Z.of_nat n) by lia. replace (j + 1 + Z.of_nat n) with (j + Z.of_nat (S n)) by lia. done.
Qed.
Lemma count_free_run n : forall k l a, 0 <= k -> 4 * (k + Z.of_nat n) <= zlen l ->
  count_free n k l (u32 a) = Ok (u32 (a + zlen (filter (fun i => slot_free l i) (seqZ k (Z.of_nat n))))).
Proof.
  induction n as [|n IH]; intros k l a Hk Hl; cbn [count_free].
  - rewrite seqZ_nil by lia. cbn. by rewrite Z.add_0_r.
  - destruct (word_at_Ok l (4 * k)) as [w E]; [lia..|]. rewrite seqZ_cons by lia. rewrite filter_cons.
    assert (Ef : slot_free l k = (w =? UHFS_FREEBLK)) by (unfold slot_free; by rewrite E). rewrite Ef, E. cbn [mbind outcome_bind].
    replace (Z.pred (Z.of_nat (S n))) with (Z.of_nat n) by lia. destruct (w =? UHFS_FREEBLK).
    + rewrite decide_True by done. rewrite u32_add_l, IH, zlen_cons by lia. do 2 f_equal. change (Z.succ k) with (k + 1). lia.
    + rewrite decide_False by (by intros []). rewrite IH by lia. done.
Qed.
End free_map.

(** ** Changing one entry of the map *)
Section map_entry.
Implicit Types (l : list Z) (ss : list (list Z)) (cs : list Z).

(** [l'] is the block [l] with the entry [j] changed. *)
Definition entry_set (j v : Z) l l' : Prop := zlen l' = zlen l /\ word_at l' (4 * j) = Ok v /\
  forall i, i <> j -> word_at l' (4 * i) = word_at l (4 * i).
Lemma put_entry_Ok l j v : 0 <= j -> 4 * j + 4 <= zlen l -> 0 <= v < 4294967296 ->
  exists l', put_word l (4 * j) v = Ok l' /\ entry_set j v l l'.
Proof.
  intros Hj Hl Hv. destruct (put_word_Ok l (4 * j) v ltac:(lia) Hl Hv) as (l' & E & Hz & W & F).
  exists l'. split; [done|]. split_and!; try done. intros i Hi. apply F. lia.
Qed.

(** A list in which the first element kept by a test is dropped. *)
Lemma filter_drop_first (P Q : Z -> bool) (L : list Z) j r : NoDup L -> filter (fun i => P i) L = j :: r ->
  (forall i, Q i = P i && negb (i =? j)) -> filter (fun i => Q i) L = r.
Proof.
  intros Hn Hf Hq. assert (Hr : j ∉ r).
  { pose proof (list.NoDup_filter (fun i => P i) L Hn) as Hd. rewrite Hf in Hd. by apply list.NoDup_cons in Hd as []. }
  transitivity (without j (filter (fun i => P i) L)).
  - clear Hf Hn. induction L as [|x L IH]; [done|]. rewrite !filter_cons, Hq. destruct (P x); cbn [andb].
    + rewrite (decide_True (P:=Is_true true)) by done. unfold without in *. rewrite filter_cons. destruct (Z.eqb_spec x j) as [->|Hx]; cbn [negb].
      * rewrite !decide_False by (by intros []; done). done.
      * rewrite !decide_True by done. by rewrite IH.
    + rewrite !decide_False by (by intros []). done.
  - rewrite Hf. unfold without. rewrite filter_cons_False by (by intros Hx). by apply without_notin.
Qed.
Lemma slot_free_set j v l l' i : entry_set j v l l' -> v <> UHFS_FREEBLK -> slot_free l' i = slot_free l i && negb (i =? j).
Proof.
  intros (_ & W & F) Hv. unfold slot_free. destruct (Z.eqb_spec i j) as [->|Hi]; cbn [negb].
  - rewrite W. rewrite andb_false_r. by apply Z.eqb_neq.
  - rewrite F, andb_true_r by done. done.
Qed.
Lemma map_chain_set ss c0 cs c l l' j v : map_chain ss c0 cs -> zget ss c = Some l -> entry_set j v l l' -> j <> 0 ->
  map_chain (zset ss c l') c0 cs.
Proof.
  intros Hc Hl (_ & _ & F) Hj. assert (W : word_at l' 0 = word_at l 0) by (apply (F 0); lia).
  pose proof (zget_Some_range _ _ _ Hl) as Hr.
  assert (Hg : forall x lx, zget ss x = Some lx -> exists lx', zget (zset ss c l') x = Some lx' /\ word_at lx' 0 = word_at lx 0).
  { intros x lx Hx. destruct (decide (c = x)) as [<-|Hne].
    - rewrite zget_zset_eq by done. exists l'. split; [done|]. rewrite Hl in Hx. injection Hx as <-. done.
    - rewrite zget_zset_ne by done. by exists lx. }
  induction Hc as [c1 l1 Hl1 Hw|c1 l1 n cs Hl1 Hw Hn Hc IH]; destruct (Hg _ _ Hl1) as (lx & Hx & Wx).
  - apply (chain_end _ _ lx); [done|by rewrite Wx].
  - apply (chain_next _ _ lx n); [done|by rewrite Wx|done|exact IH].
Qed.
Lemma free_blocks_other m ss c l' cs : c ∉ cs -> free_blocks m (zset ss c l') cs = free_blocks m ss cs.
Proof.
  intros Hc. apply Forall_bind_ext, Forall_forall. intros x Hx%list_elem_of_In.
  rewrite zget_zset_ne; [done|]. by intros ->.
Qed.
(** The first free entry of the map. *)
Fixpoint first_free (m : Z) ss cs : option (Z * Z) :=
  match cs with
  | [] => None
  | c :: cs => match free_slots m (default [] (zget ss c)) with j :: _ => Some (c, j) | [] => first_free m ss cs end
  end.
Lemma first_free_head m ss cs : head (free_blocks m ss cs) = (fun r => r.1 + r.2) <$> first_free m ss cs.
Proof.
  induction cs as [|c cs IH]; [done|]. unfold free_blocks in *. cbn [mbind list_bind first_free].
  destruct (free_slots m (default [] (zget ss c))) as [|j r]; [exact IH|done].
Qed.

Lemma free_slots_range m l j : j ∈ free_slots m l -> 1 <= j < m /\ word_at l (4 * j) = Ok UHFS_FREEBLK.
Proof.
  intros [Hf Hj%elem_of_seqZ]%list_elem_of_filter. split; [lia|]. unfold slot_free in Hf.
  destruct (word_at l (4 * j)) as [w| | |]; try done. apply Is_true_eq_true, Z.eqb_eq in Hf. by rewrite Hf.
Qed.

Lemma first_free_in m ss cs c j : first_free m ss cs = Some (c, j) -> c ∈ cs.
Proof.
  induction cs as [|x cs IH]; [done|]. cbn [first_free]. destruct (free_slots _ _) as [|i r].
  - intros Hc%IH. by right.
  - intros [= <- <-]. left.
Qed.
(** Marking the first free block pops the free list. *)
Lemma free_blocks_take m ss cs c j l l' : first_free m ss cs = Some (c, j) -> NoDup cs -> zget ss c = Some l ->
  entry_set j UHFS_EOCHBLK l l' ->
  exists r, free_blocks m ss cs = (c + j) :: r /\ free_blocks m (zset ss c l') cs = r.
Proof.
  intros Hf Hn Hl Hs. induction cs as [|x cs IH]; [done|]. apply list.NoDup_cons in Hn as [Hx Hn].
  cbn [first_free] in Hf. change (free_blocks m ss (x :: cs)) with
    (((fun i => x + i) <$> free_slots m (default [] (zget ss x))) ++ free_blocks m ss cs).
  change (free_blocks m (zset ss c l') (x :: cs)) with
    (((fun i => x + i) <$> free_slots m (default [] (zget (zset ss c l') x))) ++ free_blocks m (zset ss c l') cs).
  destruct (free_slots m (default [] (zget ss x))) as [|i r] eqn:E.
  - destruct (IH Hf Hn) as (r & E1 & E2). exists r. rewrite E1, E2, zget_zset_ne, E; [done|].
    intros ->. apply Hx. by eapply first_free_in.
  - injection Hf as -> ->. rewrite Hl in E. change (default [] (Some l)) with l in E. exists (((fun k => c + k) <$> r) ++ free_blocks m ss cs).
    split; [done|]. rewrite free_blocks_other by done. rewrite zget_zset_eq by by eapply zget_Some_range. f_equal. f_equal.
    apply (filter_drop_first (slot_free l) _ _ j r (NoDup_seqZ _ _) E). intros k. by apply (slot_free_set j UHFS_EOCHBLK).
Qed.
End map_entry.

(** ** The volume against the interface of the device *)
Section mounted_volume.
Context {S H : Type} (dev : device S) `{BlockDeviceLaws S H dev} {HA : Allocator H}.
Implicit Types (s : uhfs S) (d : S) (ss : list (list Z)) (l : list Z).

(** The state has the sectors [ss] and the buffer [l], and is otherwise [s]. *)
Definition moves s s' ss l : Prop := exists d, s' = with_data l (with_disk d s) /\ dev_ok d /\
  sectors d = ss /\ sector_size d = sector_size (disk s) /\ krnl_heap (host_kern d) = krnl_heap (host_kern (disk s)).
Lemma moves_refl s : dev_ok (disk s) -> moves s s (sectors (disk s)) (data (blk_device s)).
Proof. intros Hd. exists (disk s). destruct s as [? ? [] ? ? ? ? ?]. by split_and!. Qed.
Lemma moves_trans s s1 s2 ss ss1 l l1 : moves s s1 ss l -> moves s1 s2 ss1 l1 -> moves s s2 ss1 l1.
Proof.
  intros (d & -> & ? & ? & Hz & Hk) (d1 & -> & ? & ? & Hz1 & Hk1). exists d1. cbn in *. split_and!; try done.
  - by rewrite Hz1. - by rewrite Hk1.
Qed.

Lemma ondisk_run {A : Type} (m : ST S A) s a d : m (disk s) = Ok (a, d) -> ondisk m s = Ok (a, with_disk d s).
Proof. unfold ondisk. by intros ->. Qed.

(** The buffer and the sector have the same size, and the volume is mounted. *)
Definition attached s : Prop := dev_ok (disk s) /\ ptr s <> 0 /\ zlen (data (blk_device s)) = sector_size (disk s).
Lemma moves_attached s s' ss l : attached s -> moves s s' ss l -> zlen l = sector_size (disk s) -> attached s'.
Proof. intros (? & ? & ?) (d & -> & ? & ? & Hz & _) Hl. split_and!; try done. cbn. by rewrite Hz. Qed.

Lemma blk_run s : ptr s <> 0 -> blk s = Ok (blk_device s, s).
Proof. intros Hp. unfold blk. by destruct (Z.eqb_spec (ptr s) 0). Qed.
Lemma sblock_run s : ptr s <> 0 -> sblock s = Ok (fssblock (blk_device s), s).
Proof. intros Hp. unfold sblock. by st_step (blk_run s Hp). Qed.
Lemma get_data_run s : ptr s <> 0 -> get_data s = Ok (data (blk_device s), s).
Proof. intros Hp. unfold get_data. by st_step (blk_run s Hp). Qed.

Lemma log_moves s fmt args : dev_ok (disk s) -> exists s', log fmt args s = Ok (tt, s') /\ moves s s' (sectors (disk s)) (data (blk_device s)).
Proof.
  intros Hd. unfold log, onkernel. eexists. split; [by apply ondisk_run|].
  destruct (host_law (disk s) (with_klog (klog (host_kern (disk s)) ++ [(fmt, args)]) (host_kern (disk s))) Hd) as ((? & ? & ?) & _ & Hk).
  eexists. split; [|split_and!; try done; by rewrite Hk]. by destruct s as [? ? [] ? ? ? ? ?].
Qed.

Lemma set_data_moves s l : dev_ok (disk s) -> exists s', set_data l s = Ok (tt, s') /\ moves s s' (sectors (disk s)) l.
Proof. intros Hd. eexists. split; [done|]. exists (disk s). by destruct s as [? ? [] ? ? ? ? ?]. Qed.
Lemma read_block_moves s n l : attached s -> zget (sectors (disk s)) n = Some l ->
  exists s', read_block dev n s = Ok (tt, s') /\ moves s s' (sectors (disk s)) l.
Proof.
  intros (Hd & Hp & Hb) Hl. destruct (seek_law (disk s) n Hd (zget_Some_range _ _ _ Hl)) as (d1 & E1 & (O1 & S1 & Z1) & P1 & K1).
  destruct (read_law d1 (data (blk_device s)) l O1) as (d2 & E2 & (O2 & S2' & Z2) & _ & K2); [by rewrite P1, S1|by rewrite Z1, Hb|].
  rewrite drop_ge, app_nil_r in E2 by (rewrite Z1, <- Hb; unfold zlen; lia).
  exists (with_data l (with_disk d2 (with_disk d1 s))). split.
  - unfold read_block, seek, hf_dev_ioctl. rewrite ST_bind_assoc. st_step (ondisk_run _ s _ _ E1).
    change ((read_data dev) (with_disk d1 s) = Ok (tt, with_data l (with_disk d2 (with_disk d1 s)))).
    unfold read_data. st_step (get_data_run (with_disk d1 s) Hp). unfold read_into. rewrite ST_bind_assoc.
    assert (E3 : hf_dev_read dlog dev (data (blk_device s)) 1 d1 = Ok ((0, l), d2)) by (unfold hf_dev_read; by st_step E2).
    by st_step (ondisk_run _ (with_disk d1 s) _ _ E3).
  - exists d2. split_and!; try done; [by rewrite S2', S1|by rewrite Z2, Z1|by rewrite K2, K1].
Qed.
Lemma write_block_moves s n : attached s -> 0 <= n < zlen (sectors (disk s)) ->
  exists s', write_block dev n s = Ok (tt, s') /\
    moves s s' (zset (sectors (disk s)) n (data (blk_device s))) (data (blk_device s)).
Proof.
  intros (Hd & Hp & Hb) Hn. destruct (seek_law (disk s) n Hd Hn) as (d1 & E1 & (O1 & S1 & Z1) & P1 & K1).
  destruct (write_law d1 (data (blk_device s)) O1) as (d2 & E2 & O2 & S2' & Z2 & _ & K2); [by rewrite P1, S1|by rewrite Z1, Hb|].
  rewrite take_ge in S2' by (rewrite Z1, <- Hb; unfold zlen; lia).
  exists (with_disk d2 (with_disk d1 s)). split.
  - unfold write_block, seek, hf_dev_ioctl. rewrite ST_bind_assoc. st_step (ondisk_run _ s _ _ E1).
    change ((write_data dev) (with_disk d1 s) = Ok (tt, with_disk d2 (with_disk d1 s))).
    unfold write_data. st_step (get_data_run (with_disk d1 s) Hp). unfold write_from.
    assert (E3 : hf_dev_write dlog dev (data (blk_device s)) 1 d1 = Ok (0, d2)) by (unfold hf_dev_write; by st_step E2).
    by st_step (ondisk_run _ (with_disk d1 s) _ _ E3).
  - exists d2. split; [by destruct s as [? ? [] ? ? ? ? ?]|]. split_and!; try done; [by rewrite S2', S1, P1|by rewrite Z2, Z1|by rewrite K2, K1].
Qed.

(** A mounted volume with [m] entries in a block, whose map blocks are [cs]. *)
Definition geometry (m : Z) s : Prop :=
  block_size (fssblock (blk_device s)) = 4 * m /\ sector_size (disk s) = 4 * m /\
  n_blocks (fssblock (blk_device s)) = zlen (sectors (disk s)) /\ 16 <= m /\
  zlen (sectors (disk s)) * (4 * m) < 4294967296.
Record mounted (m : Z) s cs : Prop := {
  mt_attached : attached s;
  mt_geometry : geometry m s;
  mt_chain : map_chain (sectors (disk s)) (first_cmb (fssblock (blk_device s))) cs;
  mt_nodup : NoDup cs;
}.

Lemma moves_geometry m s s' ss l : geometry m s -> moves s s' ss l -> zlen ss = zlen (sectors (disk s)) -> geometry m s'.
Proof.
  intros (G1 & G2 & G3 & G4 & G5) (d & -> & ? & Hs & Hz & _) Hl. unfold geometry. cbn in *. rewrite Hs, Hz, Hl. by split_and!.
Qed.
Lemma moves_disk s s' ss l : moves s s' ss l -> sectors (disk s') = ss /\ data (blk_device s') = l /\
  fssblock (blk_device s') = fssblock (blk_device s) /\ ptr s' = ptr s.
Proof. by intros (d & -> & ? & ? & ?). Qed.
Lemma map_entries_m m s : geometry m s -> map_entries (fssblock (blk_device s)) = m.
Proof. intros (G1 & _). unfold map_entries. rewrite G1, Z.mul_comm, Z.div_mul; lia. Qed.
Lemma sector_len m s n l : attached s -> geometry m s -> zget (sectors (disk s)) n = Some l -> zlen l = 4 * m.
Proof.
  intros (Hd & _) (_ & G2 & _) Hl. rewrite <- G2. apply (sector_length (dev:=dev)); [done|].
  unfold zget in Hl. destruct (n <? 0); [done|]. by eapply list_elem_of_lookup_2.
Qed.
Lemma sector_range m s n l : geometry m s -> zget (sectors (disk s)) n = Some l -> 0 <= n /\ n + m < 4294967294.
Proof.
  intros (_ & _ & _ & G4 & G5) Hl. apply zget_Some_range in Hl. split; [lia|]. nia.
Qed.

(** One map block is read: its free entries, and the next map block. *)
Lemma map_block_read m s c l : attached s -> geometry m s -> zget (sectors (disk s)) c = Some l ->
  exists s', read_block dev c s = Ok (tt, s') /\ moves s s' (sectors (disk s)) l /\ attached s' /\ geometry m s' /\
    sblock s' = Ok (fssblock (blk_device s'), s') /\ get_data s' = Ok (l, s') /\ zlen l = 4 * m.
Proof.
  intros Ha Hg Hl. destruct (read_block_moves s c l Ha Hl) as (s' & E & M).
  pose proof (sector_len m s c l Ha Hg Hl) as Hlen. destruct (Hg) as (_ & G2 & _).
  assert (Ha' : attached s') by (apply (moves_attached _ _ _ _ Ha M); by rewrite G2).
  destruct (moves_disk _ _ _ _ M) as (_ & D & _ & _).
  exists s'. split_and!; try done.
  - by apply (moves_geometry _ _ _ _ _ Hg M).
  - apply sblock_run. apply Ha'.
  - rewrite get_data_run by apply Ha'. by rewrite D.
Qed.

Lemma getfree_loop_run m ss c cs : map_chain ss c cs -> forall fuel s, (length cs < fuel)%nat -> attached s -> geometry m s ->
  sectors (disk s) = ss -> exists s' l, getfree_loop dev fuel c s = Ok (first_free m ss cs, s') /\ moves s s' ss l /\
    attached s' /\ geometry m s' /\ (forall c j, first_free m ss cs = Some (c, j) -> zget ss c = Some l).
Proof.
  induction 1 as [c l Hl Hw|c l n cs Hl Hw Hn Hc IH]; intros fuel s Hf Ha Hg Hs; (destruct fuel as [|fuel]; [cbn in Hf; lia|]);
    cbn [getfree_loop first_free]; rewrite <- Hs in Hl;
    destruct (sector_range m s c l Hg Hl) as [? ?];
    (destruct (Z.eqb_spec c UHFS_EOCHBLK) as [->|_]; [unfold UHFS_EOCHBLK in *; destruct Hg; lia|]);
    destruct (map_block_read m s c l Ha Hg Hl) as (s1 & E & M & A1 & G1 & E1 & E2 & Hlen); rewrite Hs in M, Hl;
    st_step E; st_step E1; st_step E2; rewrite (map_entries_m m s1 G1);
    pose proof (proj1 (proj2 (proj2 (proj2 Hg)))) as Hm;
    rewrite (free_slot_run (Z.to_nat (m - 1)) 1 l) by lia; rewrite Z2Nat.id by lia; fold (free_slots m l);
    replace (1 + (m - 1)) with m by lia; rewrite Hl; change (default [] (Some l)) with l;
    unfold mbind at 1, ST_bind at 1, lift at 1; cbv beta iota;
    destruct (free_slots m l) as [|j r] eqn:Ef; cbn [head default from_option id];
    try (assert (Hj : 1 <= j < m) by (apply (free_slots_range m l); rewrite Ef; left);
      destruct (Z.ltb_spec j m); [|lia]; exists s1, l; split_and!; try done; by intros c' j' [= <- <-]);
    rewrite Z.ltb_irrefl, Hw; unfold mbind at 1, ST_bind at 1, lift at 1; cbv beta iota.
  - destruct fuel as [|fuel]; [cbn in Hf; lia|]. cbn [getfree_loop]. rewrite Z.eqb_refl.
    destruct (log_moves s1 "\ngetfreeblock: storage device is full" [] (proj1 A1)) as (s2 & E3 & M2). st_step E3.
    destruct (moves_disk _ _ _ _ M) as (S1 & D1 & _). rewrite S1, D1 in M2.
    pose proof (moves_attached _ _ _ _ A1 M2) as A2. exists s2, l. split_and!; try done.
    + by apply (moves_trans s s1 s2 ss ss l l).
    + apply A2. destruct G1 as (_ & G1 & _). by rewrite G1.
    + apply (moves_geometry _ _ _ _ _ G1 M2). by rewrite S1.
  - destruct (moves_disk _ _ _ _ M) as (S1 & D1 & _). cbn in Hf.
    destruct (IH fuel s1 ltac:(lia) A1 G1 S1) as (s2 & l2 & E3 & M2 & A2 & G2 & F2). exists s2, l2. split_and!; try done.
    by apply (moves_trans s s1 s2 ss ss l l2).
Qed.

(** The fuel is enough for a chain of the volume. *)
Lemma chain_fuel m s cs c : geometry m s -> map_chain (sectors (disk s)) c cs -> NoDup cs ->
  (length cs + 1 < fs_fuel (fssblock (blk_device s)))%nat.
Proof.
  intros (G1 & G2 & G3 & G4 & G5) Hc Hn.
  assert (Hl : (length cs <= Z.to_nat (zlen (sectors (disk s))))%nat).
  { rewrite <- (length_seqZ 0 (zlen (sectors (disk s)))). apply submseteq_length, NoDup_submseteq; [done|].
    intros x Hx. destruct (chain_in _ _ _ Hc x Hx) as (l & Hl%zget_Some_range). apply elem_of_seqZ. lia. }
  destruct (chain_head _ _ _ Hc) as (r & Er). assert (0 < length cs)%nat by (rewrite Er; cbn; lia).
  unfold fs_fuel. rewrite G1, G3, u32_small by lia.
  replace (zlen (sectors (disk s)) * (4 * m)) with (zlen (sectors (disk s)) * m * 4) by lia. rewrite Z.div_mul by lia. nia.
Qed.

Lemma count_map_run m ss c cs : map_chain ss c cs -> forall fuel s a, (length cs < fuel)%nat -> attached s -> geometry m s ->
  sectors (disk s) = ss -> exists s' l, (_ ← seek dev c; count_loop dev fuel (u32 a)) s = Ok (u32 (a + zlen (free_blocks m ss cs)), s') /\
    moves s s' ss l /\ attached s' /\ geometry m s'.
Proof.
  assert (Eq : forall fuel c a s, (_ ← seek dev c; count_loop dev (Datatypes.S fuel) a) s =
    (_ ← read_block dev c; sb ← sblock; l ← get_data;
     freeblks ← lift (count_free (Z.to_nat (map_entries sb - 1)) 1 l a); next ← lift (word_at l 0);
     if next =? UHFS_EOCHBLK then mret freeblks else _ ← seek dev next; count_loop dev fuel freeblks) s).
  { intros fuel c0 a s. unfold read_block. by rewrite ST_bind_assoc. }
  induction 1 as [c l Hl Hw|c l n cs Hl Hw Hn Hc IH]; intros fuel s a Hf Ha Hg Hs; (destruct fuel as [|fuel]; [cbn in Hf; lia|]);
    rewrite Eq; rewrite <- Hs in Hl;
    destruct (map_block_read m s c l Ha Hg Hl) as (s1 & E & M & A1 & G1 & E1 & E2 & Hlen); rewrite Hs in M, Hl;
    st_step E; st_step E1; st_step E2; rewrite (map_entries_m m s1 G1);
    pose proof (proj1 (proj2 (proj2 (proj2 Hg)))) as Hm;
    rewrite (count_free_run (Z.to_nat (m - 1)) 1 l) by lia; rewrite Z2Nat.id by lia; fold (free_slots m l);
    unfold mbind at 1, ST_bind at 1, lift at 1; cbv beta iota; rewrite Hw; unfold mbind at 1, ST_bind at 1, lift at 1; cbv beta iota;
    assert (Hz : forall r, zlen (free_blocks m ss (c :: r)) = zlen (free_slots m l) + zlen (free_blocks m ss r))
      by (intros r; unfold free_blocks; cbn [mbind list_bind]; rewrite Hl, zlen_app, zlen_fmap; done); rewrite Hz.
  - rewrite Z.eqb_refl. change (zlen (free_blocks m ss [])) with 0. rewrite Z.add_0_r. by exists s1, l.
  - destruct (Z.eqb_spec n UHFS_EOCHBLK); [done|]. destruct (moves_disk _ _ _ _ M) as (S1 & D1 & _). cbn in Hf.
    destruct (IH fuel s1 (a + zlen (free_slots m l)) ltac:(lia) A1 G1 S1) as (s2 & l2 & E3 & M2 & A2 & G2). exists s2, l2.
    rewrite E3. split_and!; try done; [do 3 f_equal; lia|]. by apply (moves_trans s s1 s2 ss ss l l2).
Qed.

(** [hf_getfree] counts the free list. *)
Lemma hf_getfree_run m s cs : mounted m s cs -> exists s' l,
  hf_getfree dev s = Ok (i32 (zlen (free_blocks m (sectors (disk s)) cs)), s') /\ moves s s' (sectors (disk s)) l /\
  attached s' /\ geometry m s'.
Proof.
  intros [Ha Hg Hc Hn]. pose proof (chain_fuel m s cs _ Hg Hc Hn) as Hf.
  destruct (count_map_run m _ _ _ Hc (fs_fuel (fssblock (blk_device s))) s 0 ltac:(lia) Ha Hg eq_refl) as (s1 & l & E & M & A1 & G1).
  exists s1, l. split_and!; try done. unfold hf_getfree. destruct (Ha) as (_ & Hp & _).
  change (gets ptr s) with (Ok (ptr s, s)). st_step (eq_refl : gets ptr s = Ok (ptr s, s)).
  destruct (Z.eqb_spec (ptr s) 0); [done|]. st_step (sblock_run s Hp). change (u32 0) with 0 in E.
  rewrite <- ST_bind_assoc. st_step E. rewrite Z.add_0_l, i32_u32. done.
Qed.

(** [getfreeblock] takes the head of the free list, 0 when it is empty. *)
Lemma getfreeblock_run m s cs : mounted m s cs -> exists s' ss' l',
  getfreeblock dev s = Ok (default 0 (head (free_blocks m (sectors (disk s)) cs)), s') /\ moves s s' ss' l' /\ mounted m s' cs /\
  free_blocks m ss' cs = tail (free_blocks m (sectors (disk s)) cs) /\
  match first_free m (sectors (disk s)) cs with
  | Some (c, j) => exists l, zget (sectors (disk s)) c = Some l /\ entry_set j UHFS_EOCHBLK l l' /\
      1 <= j < m /\ ss' = zset (sectors (disk s)) c l'
  | None => ss' = sectors (disk s)
  end.
Proof.
  intros [Ha Hg Hc Hn]. destruct (Ha) as (_ & Hp & _). pose proof (chain_fuel m s cs _ Hg Hc Hn) as Hf.
  destruct (getfree_loop_run m _ _ _ Hc (fs_fuel (fssblock (blk_device s))) s ltac:(lia) Ha Hg eq_refl) as (s1 & l & E & M & A1 & G1 & F1).
  destruct (moves_disk _ _ _ _ M) as (S1 & D1 & B1 & P1).
  unfold getfreeblock. st_step (sblock_run s Hp). st_step E. rewrite first_free_head.
  destruct (first_free m (sectors (disk s)) cs) as [[c j]|] eqn:Ef.
  - pose proof (F1 c j eq_refl) as Hl. cbn [fmap option_fmap option_map fst snd default from_option id].
    assert (Hj : 1 <= j < m).
    { clear -Ef Hl. induction cs as [|x cs IH]; [done|]. cbn [first_free] in Ef.
      destruct (free_slots m _) as [|i r] eqn:E; [by apply IH|]. injection Ef as -> ->.
      apply (free_slots_range m (default [] (zget (sectors (disk s)) c))). rewrite E. left. }
    pose proof (sector_len m s c l Ha Hg Hl) as Hlen. destruct (sector_range m s c l Hg Hl) as [? ?].
    rewrite u32_small by lia.
    destruct (log_moves s1 "\nfree blk at %d" [KInt (c + j)] (proj1 A1)) as (s2 & E2 & M2). st_step E2. rewrite S1, D1 in M2.
    destruct (moves_disk _ _ _ _ M2) as (S2' & D2 & B2 & P2). destruct (Hg) as (_ & Z2 & _). destruct (G1) as (_ & Z3 & _).
    pose proof (moves_attached _ _ _ _ A1 M2 ltac:(by rewrite Z3)) as A2.
    st_step (get_data_run s2 (proj1 (proj2 A2))). rewrite D2.
    destruct (put_entry_Ok l j UHFS_EOCHBLK) as (l' & E3 & Hset); [lia|lia|done|]. rewrite E3.
    unfold mbind at 1, ST_bind at 1, lift at 1; cbv beta iota.
    destruct (set_data_moves s2 l' (proj1 A2)) as (s3 & E4 & M3). st_step E4. rewrite S2' in M3.
    destruct (moves_disk _ _ _ _ M3) as (S3 & D3 & B3 & P3). destruct Hset as (Hz & Hset).
    pose proof (moves_geometry _ _ _ _ _ G1 M2 ltac:(by rewrite S1)) as G2.
    pose proof (moves_attached _ _ _ _ A2 M3 ltac:(by rewrite Hz, (proj1 (proj2 G2)))) as A3.
    pose proof (moves_geometry _ _ _ _ _ G2 M3 ltac:(by rewrite S2')) as G3.
    destruct (write_block_moves s3 c A3) as (s4 & E5 & M4); [rewrite S3; by eapply zget_Some_range|]. st_step E5.
    rewrite S3, D3 in M4. destruct (moves_disk _ _ _ _ M4) as (S4 & D4 & B4 & P4).
    assert (M' : moves s s4 (zset (sectors (disk s)) c l') l') by (do 3 (eapply moves_trans; [eassumption|]); exact M4).
    destruct (free_blocks_take m (sectors (disk s)) cs c j l l' Ef Hn Hl (conj Hz Hset)) as (r & R1 & R2).
    exists s4, (zset (sectors (disk s)) c l'), l'. split_and!; [done|done| |by rewrite R1|by exists l].
    assert (Hlen' : zlen (zset (sectors (disk s)) c l') = zlen (sectors (disk s))) by apply zset_zlen.
    split; [|by apply (moves_geometry _ _ _ _ _ Hg M')| |done].
    + by apply (moves_attached _ _ _ _ Ha M'); rewrite Hz, Z2.
    + rewrite S4, B4, B3, B2, B1. apply (map_chain_set _ _ _ _ l l' j UHFS_EOCHBLK); try done. lia.
  - cbn [fmap option_fmap option_map default from_option]. exists s1, (sectors (disk s)), l. split_and!; try done.
    + split; [done|done| |done]. by rewrite S1, B1.
    + pose proof (first_free_head m (sectors (disk s)) cs) as Hh. rewrite Ef in Hh.
      by destruct (free_blocks m (sectors (disk s)) cs).
Qed.

(** C39: the chain of map blocks of a mounted volume is a free list. Walking it
    terminates; [hf_getfree] returns its length; [getfreeblock] returns its
    head, or 0 when it is empty, and takes that block off the list by changing
    its one entry of the map, so that no other entry of the map and no block
    outside the map changes. *)
Theorem free_list_refined m s cs : mounted m s cs ->
  let free := free_blocks m (sectors (disk s)) cs in
  (exists s', hf_getfree dev s = Ok (i32 (zlen free), s') /\ sectors (disk s') = sectors (disk s)) /\
  exists s', getfreeblock dev s = Ok (default 0 (head free), s') /\ mounted m s' cs /\
    free_blocks m (sectors (disk s')) cs = tail free /\
    forall b l, zget (sectors (disk s)) b = Some l -> exists l', zget (sectors (disk s')) b = Some l' /\
      (b ∉ cs -> l' = l) /\
      forall j, 0 <= j < m -> head free <> Some (b + j) -> word_at l' (4 * j) = word_at l (4 * j).
Proof.
  intros Hmt free. split.
  - destruct (hf_getfree_run m s cs Hmt) as (s1 & l & E & M & _). exists s1. split; [exact E|]. apply (moves_disk _ _ _ _ M).
  - destruct (getfreeblock_run m s cs Hmt) as (s1 & ss1 & l1 & E & M & Hmt' & Ht & Hf). exists s1.
    destruct (moves_disk _ _ _ _ M) as (-> & _). split_and!; try done. intros b l Hl. fold free in E, Ht. unfold free. rewrite first_free_head.
    destruct (first_free m (sectors (disk s)) cs) as [[c j0]|] eqn:Ef; [|subst ss1; by exists l].
    destruct Hf as (lc & Hlc & (Hz & W & F) & Hj0 & ->). destruct (decide (b = c)) as [->|Hne].
    + exists l1. rewrite zget_zset_eq by by eapply zget_Some_range. rewrite Hlc in Hl. injection Hl as <-. split_and!; [done| |].
      * intros []. by eapply first_free_in.
      * intros j Hj Hne. apply F. intros ->. by apply Hne.
    + exists l. rewrite zget_zset_ne by done. done.
Qed.
End mounted_volume.
