(* ===== verification/Format.v ===== *)
(** * Formatting and mounting a volume

    [hf_mkfs] and [hf_mount] of [fs/uhfs.c] on any block device: what is on the
    disk after formatting, and that mounting finds it. *)

From Stdlib Require Import String.
From S2P Require Import Prelude Words Malloc Alloc Queue Kernel Task Demo Ramdisk Uhfs Volume.

#[local] Open Scope Z_scope.

(** ** The superblock on the disk *)
Section superblock.
Implicit Types (l x : list Z).

Definition word_ok (w : Z) : Prop := 0 <= w < 4294967296.
Lemma word_skip x l o : 0 <= o - zlen x -> word_at (x ++ l) o = word_at l (o - zlen x).
Proof.
  intros Ho. pose proof (zlen_nonneg x). unfold word_at, aget. rewrite !(zget_app_r x) by lia.
  replace (o + 1 - zlen x) with (o - zlen x + 1) by lia. replace (o + 2 - zlen x) with (o - zlen x + 2) by lia.
  by replace (o + 3 - zlen x) with (o - zlen x + 3) by lia.
Qed.
Lemma at_word L pre v post o : L = pre ++ word_bytes v ++ post -> zlen pre = o -> word_ok v -> word_at L o = Ok v.
Proof.
  intros -> <- Hv. rewrite word_skip by lia. rewrite Z.sub_diag, <- (word_bytes_value v Hv).
  apply word_at_ext. intros j Hj. apply zget_app_l. change (zlen (word_bytes v)) with 4. lia.
Qed.
Lemma at_bytes L pre b post o n : L = pre ++ b ++ post -> zlen pre = o -> zlen b = n -> bytes_at L o n = Ok b.
Proof.
  intros -> <- <-. pose proof (zlen_nonneg pre). pose proof (zlen_nonneg b). pose proof (zlen_nonneg post).
  rewrite bytes_at_run by (rewrite ?zlen_app; lia). unfold zlen. by rewrite !Nat2Z.id, drop_app_length, take_app_length.
Qed.

Record superblock_ok (b : fs_superblock) : Prop := {
  sb_words : Forall word_ok [signature b; block_size b; n_blocks b; vdate b; vtime b; first_cmb b; root_dir_block b; metadata_block b];
  sb_oem : zlen (oem_id b) = 16;
  sb_label : zlen (volume_label b) = 16;
}.

(** Part [i] of a sequence of parts. *)
Lemma part_split (parts : list (list Z)) i b rest : parts !! i = Some b ->
  concat parts ++ rest = concat (take i parts) ++ b ++ concat (drop (S i) parts) ++ rest.
Proof. intros Hi. rewrite <- (take_drop_middle _ _ _ Hi) at 1. rewrite concat_app. cbn [concat]. by rewrite <- !app_assoc. Qed.
Lemma word_part parts i v rest o : parts !! i = Some (word_bytes v) -> zlen (concat (take i parts)) = o -> word_ok v ->
  word_at (concat parts ++ rest) o = Ok v.
Proof. intros Hi Ho Hv. by eapply at_word; [apply part_split|..]. Qed.
Lemma bytes_part parts i b rest o n : parts !! i = Some b -> zlen (concat (take i parts)) = o -> zlen b = n ->
  bytes_at (concat parts ++ rest) o n = Ok b.
Proof. intros Hi Ho Hn. by eapply at_bytes; [apply part_split|..]. Qed.

(** What is written of a superblock is read back. *)
Definition superblock_parts (b : fs_superblock) : list (list Z) :=
  [word_bytes (signature b); oem_id b; word_bytes (block_size b); word_bytes (n_blocks b); volume_label b; word_bytes (vdate b);
   word_bytes (vtime b); word_bytes (first_cmb b); word_bytes (root_dir_block b); word_bytes (metadata_block b)].
#[local] Ltac offset Ho Hl := cbn [take concat superblock_parts]; rewrite ?zlen_app, ?Ho, ?Hl; reflexivity.
Lemma superblock_stored b rest : superblock_ok b -> superblock_of (superblock_bytes b ++ rest) = Ok b.
Proof.
  intros [Hw Ho Hl]. repeat (apply Forall_cons_iff in Hw as [? Hw]).
  assert (E : superblock_bytes b = concat (superblock_parts b)) by (unfold superblock_bytes; cbn [concat superblock_parts]; by rewrite app_nil_r).
  rewrite E. unfold superblock_of.

  rewrite (word_part _ 0 (signature b) _ 0) by (done || offset Ho Hl). rewrite (bytes_part _ 1 (oem_id b) _ 4 16) by (done || offset Ho Hl).
  rewrite (word_part _ 2 (block_size b) _ 20) by (done || offset Ho Hl). rewrite (word_part _ 3 (n_blocks b) _ 24) by (done || offset Ho Hl).
  rewrite (bytes_part _ 4 (volume_label b) _ 28 16) by (done || offset Ho Hl). rewrite (word_part _ 5 (vdate b) _ 44) by (done || offset Ho Hl).
  rewrite (word_part _ 6 (vtime b) _ 48) by (done || offset Ho Hl). rewrite (word_part _ 7 (first_cmb b) _ 52) by (done || offset Ho Hl).
  rewrite (word_part _ 8 (root_dir_block b) _ 56) by (done || offset Ho Hl). rewrite (word_part _ 9 (metadata_block b) _ 60) by (done || offset Ho Hl).
  by destruct b.
Qed.
End superblock.

Lemma filter_all (P : Z -> Prop) `{forall x, Decision (P x)} (l : list Z) : (forall x, x ∈ l -> P x) -> filter P l = l.
Proof.
  induction l as [|x l IH]; [done|]. intros Hl. rewrite filter_cons_True by (apply Hl; left). f_equal. apply IH.
  intros y Hy. apply Hl. by right.
Qed.
Lemma filter_none (P : Z -> Prop) `{forall x, Decision (P x)} (l : list Z) : (forall x, x ∈ l -> ~ P x) -> filter P l = [].
Proof.
  induction l as [|x l IH]; [done|]. intros Hl. rewrite filter_cons_False by (apply Hl; left). apply IH.
  intros y Hy. apply Hl. by right.
Qed.

(** ** Blocks written one after the other *)
Section sequential.
Context {S H : Type} (dev : device S) `{BlockDeviceLaws S H dev}.
Implicit Types (s : uhfs S) (d : S) (l : list Z).

(** The device moved on: same number of sectors, and the same heap. *)
Definition wrote d d' : Prop := dev_ok d' /\ sector_size d' = sector_size d /\ zlen (sectors d') = zlen (sectors d) /\
  krnl_heap (host_kern d') = krnl_heap (host_kern d).
Lemma wrote_trans d d1 d2 : wrote d d1 -> wrote d1 d2 -> wrote d d2.
Proof. intros (? & A & B & C) (? & A' & B' & C'). split_and!; congruence. Qed.

Lemma seek_run s n : dev_ok (disk s) -> 0 <= n < zlen (sectors (disk s)) ->
  exists d, seek dev n s = Ok (tt, with_disk d s) /\ wrote (disk s) d /\ sectors d = sectors (disk s) /\ position d = n.
Proof.
  intros Hd Hn. destruct (seek_law (disk s) n Hd Hn) as (d & E & (O & S1 & Z1) & P1 & K1). exists d.
  unfold seek, hf_dev_ioctl. st_step (ondisk_run _ s _ _ E). split_and!; try done. split_and!; congruence.
Qed.
Lemma write_from_run s l : dev_ok (disk s) -> zlen l = sector_size (disk s) ->
  0 <= position (disk s) < zlen (sectors (disk s)) ->
  exists d, write_from dev l s = Ok (tt, with_disk d s) /\ wrote (disk s) d /\
    sectors d = zset (sectors (disk s)) (position (disk s)) l /\ position d = position (disk s) + 1.
Proof.
  intros Hd Hl Hp. destruct (write_law (disk s) l Hd Hp ltac:(lia)) as (d & E & O & S1 & Z1 & P1 & K1).
  rewrite take_ge in S1 by (rewrite <- Hl; unfold zlen; lia). exists d. unfold write_from.
  assert (E' : hf_dev_write dlog dev l 1 (disk s) = Ok (0, d)) by (unfold hf_dev_write; by st_step E).
  st_step (ondisk_run _ s _ _ E'). split_and!; try done. split_and!; try done. by rewrite S1, zset_zlen.
Qed.
Lemma read_into_run s buf l : dev_ok (disk s) -> zget (sectors (disk s)) (position (disk s)) = Some l ->
  zlen buf = sector_size (disk s) ->
  exists d, read_into dev buf s = Ok (l, with_disk d s) /\ wrote (disk s) d /\ sectors d = sectors (disk s).
Proof.
  intros Hd Hl Hb. destruct (read_law (disk s) buf l Hd Hl ltac:(lia)) as (d & E & (O & S1 & Z1) & P1 & K1).
  rewrite drop_ge, app_nil_r in E by (rewrite <- Hb; unfold zlen; lia). exists d. unfold read_into.
  assert (E' : hf_dev_read dlog dev buf 1 (disk s) = Ok ((0, l), d)) by (unfold hf_dev_read; by st_step E).
  st_step (ondisk_run _ s _ _ E'). split_and!; try done. split_and!; congruence.
Qed.

Lemma bind_ret_tt (p : ST (uhfs S) unit) (q : ST (uhfs S) unit) s : (_ ← p; _ ← q; mret tt) s = (_ ← p; q) s.
Proof. st_unfold. destruct (p s) as [[[] s1]| | |]; [|done..]. by destruct (q s1) as [[[] s2]| | |]. Qed.

(** A seek and the transfer that follows it. *)
Lemma write_at_run s n l : dev_ok (disk s) -> 0 <= n < zlen (sectors (disk s)) -> zlen l = sector_size (disk s) ->
  exists d, (forall A (f : ST (uhfs S) A), (_ ← seek dev n; _ ← write_from dev l; f) s = f (with_disk d s)) /\ wrote (disk s) d /\ sectors d = zset (sectors (disk s)) n l /\
    position d = n + 1.
Proof.
  intros Hd Hn Hl. destruct (seek_run s n Hd Hn) as (d1 & E1 & W1 & S1 & P1). destruct (W1) as (O1 & Z1 & L1 & _).
  destruct (write_from_run (with_disk d1 s) l) as (d2 & E2 & W2 & S2' & P2); cbn [disk with_disk] in *; [done|lia|lia|].
  exists d2. split_and!; [intros A f; st_step E1; by st_step E2|by eapply wrote_trans|by rewrite S2', S1, P1|by rewrite P2, P1].
Qed.
Lemma read_at_run s n buf l : dev_ok (disk s) -> zget (sectors (disk s)) n = Some l ->
  zlen buf = sector_size (disk s) ->
  exists d, (forall A (f : list Z -> ST (uhfs S) A), (_ ← seek dev n; b ← read_into dev buf; f b) s = f l (with_disk d s)) /\ wrote (disk s) d /\ sectors d = sectors (disk s).
Proof.
  intros Hd Hl Hb. destruct (seek_run s n Hd (zget_Some_range _ _ _ Hl)) as (d1 & E1 & W1 & S1 & P1). destruct (W1) as (O1 & Z1 & L1 & _).
  destruct (read_into_run (with_disk d1 s) buf l) as (d2 & E2 & W2 & S2'); cbn [disk with_disk] in *; [done|by rewrite S1, P1|lia|].
  exists d2. split_and!; [intros A f; st_step E1; by st_step E2|by eapply wrote_trans|by rewrite S2', S1].
Qed.

(** A volume of [N] blocks with [m] map entries in a block. *)
Variables m N : Z.
Hypothesis Hm : 16 <= m.
Hypothesis HN : (N + m) * (4 * m) < 4294967296.

Definition map_value (k i : Z) : Z := if k + i <? N then UHFS_FREEBLK else UHFS_FIXDBLK.
Lemma in_volume k i : 1 <= k < N -> 0 <= i < m ->
  (u32 (u32 (k - 1 + i) * (4 * m)) <? u64 (N * (4 * m) - 4 * m)) = (k + i <? N).
Proof.
  intros Hk Hi. rewrite u32_mul_l, u32_small by nia. rewrite u64_small by nia.
  destruct (Z.ltb_spec (k + i) N), (Z.ltb_spec ((k - 1 + i) * (4 * m)) (N * (4 * m) - 4 * m)); nia.
Qed.
Lemma fill_map_run n : forall i k l, 1 <= k < N -> 0 <= i -> i + Z.of_nat n <= m -> zlen l = 4 * m ->
  exists l', fill_map n i k (4 * m) (N * (4 * m)) l = Ok l' /\ zlen l' = 4 * m /\
    forall j, word_at l' (4 * j) = if (i <=? j) && (j <? i + Z.of_nat n) then Ok (map_value k j) else word_at l (4 * j).
Proof.
  induction n as [|n IH]; intros i k l Hk Hi Hn Hl; cbn [fill_map].
  - exists l. split_and!; try done. intros j. destruct (Z.leb_spec i j), (Z.ltb_spec j (i + Z.of_nat 0)); try done. lia.
  - rewrite in_volume by lia. fold (map_value k i).
    assert (Hv : 0 <= map_value k i < 4294967296) by (unfold map_value; by destruct (k + i <? N)).
    destruct (put_entry_Ok l i (map_value k i)) as (l1 & E & Hz & W & F); [lia..|]. rewrite E. cbn [mbind outcome_bind].
    destruct (IH (i + 1) k l1) as (l2 & E2 & Hz2 & F2); [lia..|]. exists l2. split_and!; try done.
    intros j. rewrite F2. destruct (Z.eqb_spec j i) as [->|Hne].
    + rewrite W. destruct (Z.leb_spec (i + 1) i), (Z.leb_spec i i), (Z.ltb_spec i (i + Z.of_nat (Datatypes.S n))); try lia. done.
    + rewrite F by done. destruct (Z.leb_spec (i + 1) j), (Z.leb_spec i j), (Z.ltb_spec j (i + 1 + Z.of_nat n)),
        (Z.ltb_spec j (i + Z.of_nat (Datatypes.S n))); try lia; done.
Qed.
Lemma write_region_run l n : forall i k s, dev_ok (disk s) -> zlen (sectors (disk s)) = N -> sector_size (disk s) = 4 * m ->
  zlen l = 4 * m -> 1 <= k < N -> 0 <= i -> i + Z.of_nat n <= m -> position (disk s) = Z.min (k + i) N ->
  exists d, write_region dev n i k (4 * m) (N * (4 * m)) l s = Ok (tt, with_disk d s) /\ wrote (disk s) d /\
    position d = Z.min (k + i + Z.of_nat n) N /\
    forall b, zget (sectors d) b = if (k + i <=? b) && (b <? Z.min (k + i + Z.of_nat n) N) then Some l else zget (sectors (disk s)) b.
Proof.
  induction n as [|n IH]; intros i k s Hd Hs Hz Hl Hk Hi Hn Hp; cbn [write_region].
  - exists (disk s). split_and!; [by destruct s|by split_and!|rewrite Hp; f_equal; lia|].
    intros b. destruct (Z.leb_spec (k + i) b), (Z.ltb_spec b (Z.min (k + i + Z.of_nat 0) N)); try done. lia.
  - rewrite in_volume by lia. destruct (Z.ltb_spec (k + i) N) as [Hin|Hout].
    + destruct (write_from_run s l Hd ltac:(lia) ltac:(lia)) as (d & E & W & S1 & P1). st_step E.
      destruct (W) as (O1 & Z1 & L1 & _).
      destruct (IH (i + 1) k (with_disk d s)) as (d2 & E2 & W2 & P2 & F2); cbn [disk with_disk]; try done; try lia.
      exists d2. split_and!; [exact E2|by eapply wrote_trans|rewrite P2; f_equal; lia|].
      intros b. rewrite F2. cbn [disk with_disk]. rewrite S1, Hp. replace (Z.min (k + i) N) with (k + i) by lia.
      destruct (Z.eqb_spec b (k + i)) as [->|Hne].
      * rewrite zget_zset_eq by lia. destruct (Z.leb_spec (k + (i + 1)) (k + i)), (Z.leb_spec (k + i) (k + i)),
          (Z.ltb_spec (k + i) (Z.min (k + i + Z.of_nat (Datatypes.S n)) N)); try lia. done.
      * rewrite zget_zset_ne by done. destruct (Z.leb_spec (k + (i + 1)) b), (Z.leb_spec (k + i) b),
          (Z.ltb_spec b (Z.min (k + (i + 1) + Z.of_nat n) N)), (Z.ltb_spec b (Z.min (k + i + Z.of_nat (Datatypes.S n)) N)); try lia; done.
    + rewrite (ST_bind_Ok (mret tt) _ s tt s eq_refl). destruct (IH (i + 1) k s) as (d2 & E2 & W2 & P2 & F2); try done; try lia.
      exists d2. split_and!; [exact E2|done|rewrite P2; lia|]. intros b. rewrite F2.
      destruct (Z.leb_spec (k + (i + 1)) b), (Z.leb_spec (k + i) b),
          (Z.ltb_spec b (Z.min (k + (i + 1) + Z.of_nat n) N)), (Z.ltb_spec b (Z.min (k + i + Z.of_nat (Datatypes.S n)) N)); try lia; done.
Qed.

(** The map block of the region that starts at [k]. *)
Definition is_map (k : Z) l : Prop := zlen l = 4 * m /\ word_at l 0 = Ok (if k + m <? N then k + m else UHFS_EOCHBLK) /\
  forall j, 1 <= j < m -> word_at l (4 * j) = Ok (map_value k j).
Definition zeros : list Z := replicate (Z.to_nat (4 * m)) 0.
Lemma zeros_len : zlen zeros = 4 * m.
Proof. unfold zeros, zlen. rewrite length_replicate. lia. Qed.
Lemma map_block_run k l : 1 <= k < N -> zlen l = 4 * m -> exists l1 l2,
  put_word l 0 (if u32 (u32 (k + 4 * m / 4) * (4 * m)) <? N * (4 * m) then u32 (k + 4 * m / 4) else UHFS_EOCHBLK) = Ok l1 /\
  fill_map (Z.to_nat (4 * m / 4 - 1)) 1 k (4 * m) (N * (4 * m)) l1 = Ok l2 /\ is_map k l2.
Proof.
  intros Hk Hl. replace (4 * m / 4) with m by (rewrite Z.mul_comm, Z.div_mul; lia). rewrite u32_mul_l, !u32_small by nia.
  assert (Hc : ((k + m) * (4 * m) <? N * (4 * m)) = (k + m <? N)).
  { destruct (Z.ltb_spec (k + m) N), (Z.ltb_spec ((k + m) * (4 * m)) (N * (4 * m))); nia. }
  rewrite Hc. assert (Hv : 0 <= (if k + m <? N then k + m else UHFS_EOCHBLK) < 4294967296).
  { destruct (k + m <? N); [nia|done]. }
  destruct (put_entry_Ok l 0 _ ltac:(lia) ltac:(lia) Hv) as (l1 & E & Hz & W & _). change (4 * 0) with 0 in *.
  destruct (fill_map_run (Z.to_nat (m - 1)) 1 k l1 Hk) as (l2 & E2 & Hz2 & F2); [lia..|].
  exists l1, l2. split; [done|]. split; [done|]. split; [done|]. split.
  - specialize (F2 0). change (4 * 0) with 0 in F2. rewrite F2. exact W.
  - intros j Hj. rewrite F2. destruct (Z.leb_spec 1 j), (Z.ltb_spec j (1 + Z.of_nat (Z.to_nat (m - 1)))); try lia. done.
Qed.

Lemma mk_regions_run fuel : forall k s l, (Z.to_nat (N - k) < fuel)%nat -> 1 <= k -> (k - 1) mod m = 0 -> k < N + m -> zlen l = 4 * m ->
  dev_ok (disk s) -> zlen (sectors (disk s)) = N -> sector_size (disk s) = 4 * m -> position (disk s) = Z.min k N ->
  exists d l', mk_regions dev fuel k N (4 * m) (N * (4 * m)) l s = Ok (l', with_disk d s) /\ zlen l' = 4 * m /\ wrote (disk s) d /\
    (forall b, b < k -> zget (sectors d) b = zget (sectors (disk s)) b) /\
    (forall b, k <= b < N -> if (b - 1) mod m =? 0 then exists lb, zget (sectors d) b = Some lb /\ is_map b lb
       else zget (sectors d) b = Some zeros).
Proof.
  induction fuel as [|fuel IH]; intros k s l Hf Hk Hkm Hkn Hl Hd Hs Hz Hp; [lia|]. cbn [mk_regions].
  destruct (Z.leb_spec N k) as [Hout|Hin].
  - exists (disk s), l. split_and!; try done; [by destruct s|]. intros b Hb. lia.
  - destruct (map_block_run k l ltac:(lia) Hl) as (l1 & l2 & E1 & E2 & Hmap). rewrite E1. rewrite (ST_bind_Ok (lift (Ok l1)) _ s l1 s eq_refl).
    rewrite E2. rewrite (ST_bind_Ok (lift (Ok l2)) _ s l2 s eq_refl).
    destruct (write_from_run s l2 Hd) as (d1 & E3 & W1 & S1 & P1); [by rewrite Hz; apply Hmap|lia|]. st_step E3.
    destruct (W1) as (O1 & Z1 & L1 & _). replace (4 * m / 4) with m by (rewrite Z.mul_comm, Z.div_mul; lia). fold zeros. pose proof zeros_len as Hzl.
    destruct (write_region_run zeros (Z.to_nat (m - 1)) 1 k (with_disk d1 s)) as (d2 & E4 & W2 & P2 & F2); cbn [disk with_disk]; try done; try lia.
    st_step E4. destruct (W2) as (O2 & Z2 & L2 & _). rewrite Z2Nat.id in P2, F2 by lia. cbn [disk with_disk] in *. rewrite u32_small by nia.
    destruct (IH (k + m) (with_disk d2 (with_disk d1 s)) zeros) as (d3 & l3 & E5 & Hl3 & W3 & B3 & F3); cbn [disk with_disk]; try done; try lia.
    { replace (k + m - 1) with (k - 1 + 1 * m) by lia. by rewrite Z.mod_add by lia. }
    exists d3, l3. split_and!; [exact E5|done|by do 2 (eapply wrote_trans; [eassumption|])| |].
    + intros b Hb. rewrite B3, F2, S1 by lia. cbn [disk with_disk]. rewrite zget_zset_ne by lia.
      destruct (Z.leb_spec (k + 1) b); [lia|done].
    + intros b Hb. destruct (Z.lt_ge_cases b (k + m)) as [Hbk|Hbk]; [|apply F3; lia].
      rewrite B3, F2, S1 by lia. assert (Hmod : (b - 1) mod m = b - k).
      { replace (b - 1) with (b - k + (k - 1)) by lia. rewrite Z.add_mod, Hkm, Z.add_0_r, Z.mod_mod by lia. apply Z.mod_small. lia. }
      rewrite Hmod. destruct (Z.eqb_spec (b - k) 0) as [E|E].
      * replace b with k by lia. destruct (Z.leb_spec (k + 1) k); [lia|]. exists l2. split; [|done]. cbn [andb].
        replace (position (disk s)) with k by lia. rewrite zget_zset_eq by lia. done.
      * destruct (Z.leb_spec (k + 1) b), (Z.ltb_spec b (Z.min (k + 1 + (m - 1)) N)); try lia. done.
Qed.

Lemma region_slots c l : 1 <= c < N -> is_map c l ->
  (fun j => c + j) <$> free_slots m l = seqZ (c + 1) (Z.min m (N - c) - 1).
Proof.
  intros Hc (Hl & _ & Hj). set (a := Z.min m (N - c) - 1). assert (E : free_slots m l = seqZ 1 a).
  { unfold free_slots. replace (m - 1) with (a + (m - 1 - a)) by lia. rewrite seqZ_app by lia. rewrite list.filter_app.
    rewrite filter_all, filter_none; [by rewrite app_nil_r|..].
    - intros j Hr%elem_of_seqZ. unfold slot_free. rewrite Hj by lia. unfold map_value. destruct (Z.ltb_spec (c + j) N); [lia|]. by intros [].
    - intros j Hr%elem_of_seqZ. unfold slot_free. rewrite Hj by lia. unfold map_value. destruct (Z.ltb_spec (c + j) N); [done|lia]. }
  rewrite E. exact (fmap_add_seqZ c 1 a).
Qed.

(** Once the regions are written the map is a chain in which all other blocks
    are free. *)
Lemma regions_free ss : (forall b, 1 <= b < N -> (b - 1) mod m = 0 -> exists lb, zget ss b = Some lb /\ is_map b lb) ->
  forall n c, Z.to_nat (N - c) = n -> 1 <= c < N -> (c - 1) mod m = 0 -> exists cs, map_chain ss c cs /\ NoDup cs /\
    (forall x, x ∈ cs -> c <= x < N /\ (x - 1) mod m = 0) /\
    free_blocks m ss cs = filter (fun b => (b - 1) mod m <> 0) (seqZ c (N - c)).
Proof.
  intros Hb n. induction (lt_wf n) as [n _ IH]. intros c Hn Hc Hcm. destruct (Hb c Hc Hcm) as (l & Hl & Hmap).
  pose proof (region_slots c l Hc Hmap) as Hs. destruct Hmap as (_ & W0 & _).
  assert (Hall : forall k, 0 <= k <= m - 1 -> filter (fun b => (b - 1) mod m <> 0) (seqZ (c + 1) k) = seqZ (c + 1) k).
  { intros k Hk. apply filter_all. intros b Hr%elem_of_seqZ. replace (b - 1) with (b - c + (c - 1)) by lia.
    rewrite Z.add_mod, Hcm, Z.add_0_r, Z.mod_mod, Z.mod_small by lia. lia. }
  rewrite seqZ_cons by lia. rewrite filter_cons_False by (intros Hx; by apply Hx).
  replace (Z.succ c) with (c + 1) by lia. replace (Z.pred (N - c)) with (N - c - 1) by lia.
  assert (Hone : forall r, free_blocks m ss (c :: r) = seqZ (c + 1) (Z.min m (N - c) - 1) ++ free_blocks m ss r).
  { intros r. unfold free_blocks. cbn [mbind list_bind]. rewrite Hl. change (default [] (Some l)) with l. by rewrite Hs. }
  destruct (Z.ltb_spec (c + m) N) as [Hin|Hout].
  - destruct (IH (Z.to_nat (N - (c + m))) ltac:(lia) (c + m) eq_refl ltac:(lia)) as (cs & C & D & R & F).
    { replace (c + m - 1) with (c - 1 + 1 * m) by lia. by rewrite Z.mod_add by lia. }
    exists (c :: cs). split_and!.
    + apply (chain_next _ _ l (c + m)); try done. unfold UHFS_EOCHBLK. nia.
    + apply list.NoDup_cons. split; [|done]. intros [? _]%R. lia.
    + intros x [->|[? ?]%R]%elem_of_cons; split; try done; lia.
    + rewrite Hone, F. replace (Z.min m (N - c) - 1) with (m - 1) by lia. replace (N - c - 1) with (m - 1 + (N - (c + m))) by lia.
      rewrite seqZ_app by lia. rewrite list.filter_app, Hall by lia. do 3 f_equal. lia.
  - exists [c]. split_and!.
    + by apply (chain_end _ _ l).
    + apply NoDup_singleton.
    + intros x ->%list_elem_of_singleton. split; [lia|done].
    + rewrite Hone. change (free_blocks m ss []) with (@nil Z). rewrite app_nil_r, Hall by lia. f_equal. lia.
Qed.

(** The root directory: every entry is free. *)
Lemma fill_dir_run n : forall i l, 0 <= i -> 64 * (i + Z.of_nat n) <= zlen l ->
  exists l', fill_dir n i l = Ok l' /\ zlen l' = zlen l /\
    forall j, attr_of l' j = (if (i <=? j) && (j <? i + Z.of_nat n) then Ok UHFS_ATTRFREE else attr_of l j) /\
      zget l' (64 * j) = (if (i <=? j) && (j <? i + Z.of_nat n) then Some 0 else zget l (64 * j)).
Proof.
  induction n as [|n IH]; intros i l Hi Hl; cbn [fill_dir].
  - exists l. split_and!; try done. intros j. destruct (Z.leb_spec i j), (Z.ltb_spec j (i + Z.of_nat 0)); try done. lia.
  - destruct (put_bytes_Ok l (64 * i) no_entry ltac:(lia)) as (l1 & E & Hz & F); [change (zlen no_entry) with 64; lia|].
    rewrite E. cbn [mbind outcome_bind]. destruct (IH (i + 1) l1) as (l2 & E2 & Hz2 & F2); [lia..|].
    exists l2. split_and!; [done|lia|]. intros j. destruct (F2 j) as [-> ->]. unfold attr_of, aget. rewrite !F. change (zlen no_entry) with 64.
    destruct (Z.eqb_spec j i) as [->|Hne].
    + destruct (Z.leb_spec (i + 1) i), (Z.leb_spec i i), (Z.ltb_spec i (i + Z.of_nat (Datatypes.S n))),
        (Z.leb_spec (64 * i) (64 * i + 39)), (Z.ltb_spec (64 * i + 39) (64 * i + 64)), (Z.leb_spec (64 * i) (64 * i)), (Z.ltb_spec (64 * i) (64 * i + 64)); try lia.
      cbn [andb]. replace (64 * i + 39 - 64 * i) with 39 by lia. by rewrite Z.sub_diag.
    + destruct (Z.leb_spec (i + 1) j), (Z.leb_spec i j), (Z.ltb_spec j (i + 1 + Z.of_nat n)), (Z.ltb_spec j (i + Z.of_nat (Datatypes.S n))),
        (Z.leb_spec (64 * i) (64 * j + 39)), (Z.ltb_spec (64 * j + 39) (64 * i + 64)), (Z.leb_spec (64 * i) (64 * j)), (Z.ltb_spec (64 * j) (64 * i + 64)); try lia; done.
Qed.

(** What is on the disk after formatting. *)
Definition volume_superblock : fs_superblock :=
  new_superblock (BlkInfo 0 0 0 N (4 * m) 0) (4 * m).
Record formatted (ss : list (list Z)) : Prop := {
  fm_len : zlen ss = N;
  fm_super : exists l, zget ss 0 = Some l /\ superblock_of l = Ok volume_superblock;
  fm_map : exists cs, map_chain ss 1 cs /\ NoDup cs /\ (forall x, x ∈ cs -> (x - 1) mod m = 0) /\
    free_blocks m ss cs = filter (fun b => (b - 1) mod m <> 0) (seqZ 3 (N - 3));
  fm_root : exists l, zget ss 2 = Some l /\ forall i, 0 <= i < m / 16 -> attr_of l i = Ok UHFS_ATTRFREE /\ zget l (64 * i) = Some 0;
  fm_root_map : exists l, zget ss 1 = Some l /\ word_at l 4 = Ok UHFS_EOCHBLK;
}.

Lemma volume_superblock_is : 3 <= N -> block_size volume_superblock = 4 * m /\ n_blocks volume_superblock = N /\
  superblock_ok volume_superblock.
Proof.
  intros H3. assert (Hn : n_blocks volume_superblock = N).
  { unfold volume_superblock, new_superblock. cbn [n_blocks num_sectors bytes_sector]. rewrite u32_small by nia. apply Z.div_mul. lia. }
  split_and!; [done|done|]. split; [|done..]. rewrite Hn. repeat (apply list.Forall_cons; split); try apply Forall_nil; try done;
    cbn [block_size volume_superblock new_superblock]; unfold word_ok; nia.
Qed.
Lemma header_block (B l : list Z) : 3 <= N -> zlen l = 4 * m -> zlen B = 64 -> exists l1 l2,
  put_bytes l 0 B = Ok l1 /\ put_bytes l1 64 (replicate (Z.to_nat (u32 (4 * m - 64))) 0) = Ok l2 /\ zlen l2 = 4 * m /\
  exists rest, l2 = B ++ rest.
Proof.
  intros H3 Hl Hb. assert (Hr : zlen (replicate (Z.to_nat (4 * m - 64)) 0) = 4 * m - 64) by (unfold zlen; rewrite length_replicate; lia).
  assert (Hb' : length B = 64%nat) by (unfold zlen in Hb; lia).
  exists (B ++ drop 64 l), (B ++ replicate (Z.to_nat (4 * m - 64)) 0). split; [by rewrite put_bytes_run, Hb by lia|]. rewrite u32_small by nia.
  rewrite put_bytes_run, Hr; [|lia|rewrite zlen_app; unfold zlen in *; rewrite length_drop; lia].
  split; [|split; [rewrite zlen_app; lia|by eexists]].
  change (Z.to_nat 64) with 64%nat. rewrite take_app_le, take_ge by lia. rewrite drop_ge; [by rewrite app_nil_r|].
  unfold zlen in *. rewrite length_app, length_drop. lia.
Qed.
Lemma superblock_block l : 3 <= N -> zlen l = 4 * m -> exists l1 l2,
  put_bytes l 0 (superblock_bytes volume_superblock) = Ok l1 /\
  put_bytes l1 64 (replicate (Z.to_nat (u32 (4 * m - 64))) 0) = Ok l2 /\ zlen l2 = 4 * m /\
  superblock_of l2 = Ok volume_superblock.
Proof.
  intros H3 Hl. destruct (volume_superblock_is H3) as (_ & _ & Hok).
  destruct (header_block (superblock_bytes volume_superblock) l H3 Hl ltac:(done)) as (l1 & l2 & E1 & E2 & Hz & rest & ->).
  exists l1, (superblock_bytes volume_superblock ++ rest). split_and!; try done. by apply superblock_stored.
Qed.

(** The disk after the regions, the root directory and its map entry. *)
Lemma formatted_after ss l0 root l1 l1' : 3 <= N -> zlen ss = N -> zget ss 0 = Some l0 -> superblock_of l0 = Ok volume_superblock ->
  (forall b, 1 <= b < N -> if (b - 1) mod m =? 0 then exists lb, zget ss b = Some lb /\ is_map b lb else zget ss b = Some zeros) ->
  (forall i, 0 <= i < m / 16 -> attr_of root i = Ok UHFS_ATTRFREE /\ zget root (64 * i) = Some 0) ->
  zget ss 1 = Some l1 -> entry_set 1 UHFS_EOCHBLK l1 l1' -> formatted (zset (zset ss 2 root) 1 l1').
Proof.
  intros H3 Hs H0' Hsup Hb Hroot Hl1 Hset. destruct (Hset) as (_ & W1 & _). change (4 * 1) with 4 in W1. split.
  - by rewrite !zset_zlen.
  - exists l0. by rewrite !zget_zset_ne by lia.
  - assert (Hmaps : forall b, 1 <= b < N -> (b - 1) mod m = 0 -> exists lb, zget (zset ss 2 root) b = Some lb /\ is_map b lb).
    { intros b Hr Hbm. specialize (Hb b Hr). rewrite Hbm in Hb. change (0 =? 0) with true in Hb. rewrite zget_zset_ne; [exact Hb|].
      intros <-. rewrite Z.mod_small in Hbm by lia. lia. }
    destruct (regions_free (zset ss 2 root) Hmaps _ 1 eq_refl) as (cs & C & D & Hcs & F); [lia|done|].
    exists cs. assert (Hl2 : zget (zset ss 2 root) 1 = Some l1) by by rewrite zget_zset_ne by lia.
    assert (Hff : first_free m (zset ss 2 root) cs = Some (1, 1)).
    { destruct (chain_head _ _ _ C) as (r & ->). cbn [first_free]. rewrite Hl2. change (default [] (Some l1)) with l1.
      destruct (Hmaps 1 ltac:(lia) eq_refl) as (lx & E & Hmap). rewrite Hl2 in E. injection E as <-.
      assert (E : free_slots m l1 = 1 :: filter (fun j => slot_free l1 j) (seqZ (Z.succ 1) (Z.pred (m - 1)))).
      { unfold free_slots. rewrite seqZ_cons by lia. rewrite filter_cons_True; [done|]. unfold slot_free. destruct Hmap as (_ & _ & Wj).
        rewrite Wj by lia. unfold map_value. by destruct (Z.ltb_spec (1 + 1) N); [|lia]. }
      by rewrite E. }
    split_and!; [by apply (map_chain_set _ _ _ _ l1 l1' 1 UHFS_EOCHBLK)|done|intros x Hx; by apply Hcs|].
    destruct (free_blocks_take m _ cs 1 1 l1 l1' Hff D Hl2 Hset) as (r & E1 & E2). rewrite E2. rewrite F in E1.
    rewrite seqZ_cons in E1 by lia. rewrite filter_cons_False in E1 by (intros Hx; by apply Hx).
    rewrite seqZ_cons in E1 by lia. rewrite filter_cons_True in E1 by (rewrite Z.mod_small; lia). injection E1 as <-. do 2 f_equal; lia.
  - exists root. rewrite zget_zset_ne, zget_zset_eq by lia. done.
  - exists l1'. rewrite zget_zset_eq by (rewrite zset_zlen; lia). done.
Qed.

Lemma mkfs_blocks_run s l : 3 <= N -> zlen l = 4 * m -> dev_ok (disk s) -> zlen (sectors (disk s)) = N -> sector_size (disk s) = 4 * m ->
  exists d, mkfs_blocks dev volume_superblock (4 * m) (N * (4 * m)) l s = Ok (tt, with_disk d s) /\ wrote (disk s) d /\ formatted (sectors d).
Proof.
  intros H3 Hl Hd Hs Hz. destruct (volume_superblock_is H3) as (B1 & B2 & _).
  destruct (superblock_block l H3 Hl) as (l1 & l2 & E1 & E2 & Hl2 & Hsup).
  unfold mkfs_blocks. rewrite E1, (ST_bind_Ok (lift (Ok l1)) _ s l1 s eq_refl), E2, (ST_bind_Ok (lift (Ok l2)) _ s l2 s eq_refl), B2.
  destruct (write_at_run s 0 l2 Hd ltac:(lia) ltac:(lia))
    as (d2 & E4 & W2 & S2' & P2).
  rewrite E4. clear E4. destruct (W2) as (O2 & Z2 & L2 & _). cbn [disk with_disk] in *.
  destruct (mk_regions_run (fs_fuel volume_superblock) 1 (with_disk d2 s) l2) as (d3 & l3 & E5 & Hl3 & W3 & U3 & F3);
    cbn [disk with_disk]; try done; try lia.
  { unfold fs_fuel. rewrite B1, B2, u32_small by nia. replace (N * (4 * m)) with (N * m * 4) by lia. rewrite Z.div_mul by lia. nia. }
  st_step E5. destruct (W3) as (O3 & Z3 & L3 & _). cbn [disk with_disk] in *.
  assert (Hdir : 4 * m / 64 = m / 16) by (change 64 with (4 * 16); by rewrite Z.div_mul_cancel_l by lia).
  pose proof (Z.div_mod m 16 ltac:(lia)). pose proof (Z.mod_pos_bound m 16 ltac:(lia)).
  destruct (fill_dir_run (Z.to_nat (4 * m / 64)) 0 l3) as (root & E6 & Hroot & A6); [lia|lia|].
  rewrite E6, (ST_bind_Ok (lift (Ok root)) _ _ root _ eq_refl).
  change (root_dir_block volume_superblock) with 2. change (first_cmb volume_superblock) with 1.
  destruct (write_at_run (with_disk d3 (with_disk d2 s)) 2 root) as (d5 & E8 & W5 & S5 & _); cbn [disk with_disk] in *; [done|lia|lia|].
  rewrite E8. clear E8. destruct (W5) as (O5 & Z5 & L5 & _). assert (Hr5 : 0 <= 1 < zlen (sectors d5)) by lia. destruct (zget_is_Some _ _ Hr5) as [b1 Hb1].
  destruct (read_at_run (with_disk d5 (with_disk d3 (with_disk d2 s))) 1 root b1 O5 Hb1) as (d6 & E9 & W6 & S6); cbn [disk with_disk] in *; [lia|].
  rewrite E9. clear E9. destruct (W6) as (O6 & Z6 & L6 & _). cbn [disk with_disk] in *.
  assert (Hb1' : zget (sectors d3) 1 = Some b1) by (by rewrite S5, zget_zset_ne in Hb1 by lia).
  assert (Hb1len : zlen b1 = 4 * m) by (pose proof (F3 1 ltac:(lia)) as F1; change ((1 - 1) mod m =? 0) with true in F1;
    destruct F1 as (lb & Elb & Hmap & _); rewrite Hb1' in Elb; by injection Elb as ->).
  destruct (put_entry_Ok b1 1 UHFS_EOCHBLK ltac:(lia) ltac:(lia) ltac:(done)) as (b2 & E10 & Hset). rewrite E10.
  rewrite (ST_bind_Ok (lift (Ok b2)) _ _ b2 _ eq_refl). destruct (Hset) as (Hb2 & _).
  destruct (write_at_run (with_disk d6 (with_disk d5 (with_disk d3 (with_disk d2 s)))) 1 b2 O6) as (d7 & E11 & W7 & S7 & _);
    cbn [disk with_disk] in *; [lia|lia|].
  exists d7. split_and!.
  - rewrite <- bind_ret_tt. etransitivity; [apply (E11 _ (mret tt))|reflexivity].
  - do 4 (eapply wrote_trans; [eassumption|]). exact W7.
  - rewrite S7, S6, S5. apply (formatted_after (sectors d3) l2 root b1 b2); try done; [lia| |intros i Hi].
    + rewrite U3, S2' by lia. by apply zget_zset_eq; lia.
    + destruct (A6 i) as [-> ->]. rewrite Hdir. destruct (Z.leb_spec 0 i), (Z.ltb_spec i (0 + Z.of_nat (Z.to_nat (m / 16)))); try lia. done.
Qed.
End sequential.

(** ** Formatting and mounting *)
Section format_mount.
Context {S H : Type} (dev : device S) `{BlockDeviceLaws S H dev} {HA : Allocator H} `{!AllocatorLaws H}.
Variable garbage : Z -> Z.
Implicit Types (s : uhfs S) (d : S) (l : list Z).

Definition heap_of d : H := krnl_heap (host_kern d).
(** The device is where it was, with another heap. *)
Definition reheaped d d' : Prop := dev_ok d' /\ sectors d' = sectors d /\ sector_size d' = sector_size d /\
  position d' = position d /\ heap_ok (heap_of d').
Lemma onheap_run {A : Type} (p : ST (Z * H) A) s a h : dev_ok (disk s) -> heap_ok h ->
  p (irq_status (host_kern (disk s)), heap_of (disk s)) = Ok (a, (irq_status (host_kern (disk s)), h)) ->
  exists d, onkernel (on_heap p) s = Ok (a, with_disk d s) /\ reheaped (disk s) d /\ heap_of d = h.
Proof.
  intros Hd Hh E. set (k := with_irq_status (irq_status (host_kern (disk s))) (with_krnl_heap h (host_kern (disk s)))).
  exists (host_put k (disk s)). destruct (host_law (disk s) k Hd) as ((? & ? & ?) & ? & Hk).
  assert (Hheap : heap_of (host_put k (disk s)) = h) by (unfold heap_of; by rewrite Hk).
  split_and!; try done.
  - apply ondisk_run. unfold onhost, on_heap. unfold heap_of in E. by rewrite E.
  - split_and!; try done. by rewrite Hheap.
Qed.
Lemma malloc_run s n : dev_ok (disk s) -> heap_ok (heap_of (disk s)) -> 0 <= n <= max_request ->
  exists p d, malloc n s = Ok (p, with_disk d s) /\ reheaped (disk s) d /\
    ((p = 0 /\ heap_live (heap_of d) = heap_live (heap_of (disk s))) \/
     (p <> 0 /\ heap_live (heap_of (disk s)) !! p = None /\
      exists k, heap_live (heap_of d) = <[p := k]> (heap_live (heap_of (disk s))))).
Proof.
  intros Hd Hh Hn. destruct (malloc_spec (irq_status (host_kern (disk s))) _ n Hh Hn) as (p & h & E & Hh' & Hp).
  destruct (onheap_run _ s p h Hd Hh' E) as (d & E' & R & Ed). exists p, d. rewrite Ed. split_and!; [done..|].
  destruct Hp as [?|(? & ? & k & _ & ?)]; [by left|right; split_and!; [done..|by exists k]].
Qed.
Lemma free_run s p k : dev_ok (disk s) -> heap_ok (heap_of (disk s)) -> heap_live (heap_of (disk s)) !! p = Some k ->
  exists d, free p s = Ok (tt, with_disk d s) /\ reheaped (disk s) d /\
    heap_live (heap_of d) = delete p (heap_live (heap_of (disk s))).
Proof.
  intros Hd Hh Hp. destruct (free_spec (irq_status (host_kern (disk s))) _ p k Hh Hp) as (h & E & Hh' & Hl).
  destruct (onheap_run _ s tt h Hd Hh' E) as (d & E' & R & Ed). exists d. by rewrite Ed.
Qed.
Lemma log_run s fmt args : dev_ok (disk s) -> exists d, log fmt args s = Ok (tt, with_disk d s) /\
  same_blocks (disk s) d /\ position d = position (disk s) /\ heap_of d = heap_of (disk s).
Proof.
  intros Hd. set (k := with_klog (klog (host_kern (disk s)) ++ [(fmt, args)]) (host_kern (disk s))).
  destruct (host_law (disk s) k Hd) as (? & ? & Hk). exists (host_put k (disk s)). split_and!; try done. unfold heap_of. by rewrite Hk.
Qed.

(** A volume of [N] sectors of [4 * m] bytes, with the file system detached. *)
Variables m N : Z.
Hypothesis Hm : 16 <= m.
Hypothesis HN : (N + m) * (4 * m) < 4294967296.
Hypothesis H3 : 3 <= N.
Hypothesis Hpow : ispowerof2 (4 * m) = true.
Hypothesis Hmax : 4 * m <= max_request.
Record detached s : Prop := {
  dt_ptr : ptr s = 0;
  dt_dev : dev_ok (disk s);
  dt_size : sector_size (disk s) = 4 * m;
  dt_len : zlen (sectors (disk s)) = N;
  dt_heap : heap_ok (heap_of (disk s));
}.

Lemma getinfo_run s : detached s -> exists i d, ondisk (hf_dev_ioctl dev DISK_GETINFO) s = Ok ((0, Some i), with_disk d s) /\
  detached (with_disk d s) /\ sectors d = sectors (disk s) /\ heap_of d = heap_of (disk s) /\ bytes_sector i = 4 * m /\ num_sectors i = N.
Proof.
  intros [D1 D2 D3 D4 D5]. destruct (info_law (disk s) D2) as (i & d & E & (O & S1 & Z1) & _ & K & Hb & Hn).
  assert (Eh : heap_of d = heap_of (disk s)) by (unfold heap_of; by rewrite K).
  exists i, d. split_and!; [by apply ondisk_run| |done|done|by rewrite Hb|by rewrite Hn].
  split; cbn [ptr disk with_disk]; [done|done|by rewrite Z1|by rewrite S1|by rewrite Eh].
Qed.

Lemma hf_mkfs_run s : detached s -> exists r d, hf_mkfs dev garbage (4 * m) s = Ok (r, with_disk d s) /\ detached (with_disk d s) /\
  heap_live (heap_of d) = heap_live (heap_of (disk s)) /\
  ((r = -1 /\ sectors d = sectors (disk s)) \/ (r = 0 /\ formatted m N (sectors d))).
Proof.
  intros D. unfold hf_mkfs. rewrite (ST_bind_Ok (gets ptr) _ s (ptr s) s eq_refl), (dt_ptr _ D). change (nz 0) with false. cbv iota.
  destruct (getinfo_run s D) as (i & d1 & E1 & D1 & S1 & K1 & Hb & Hn). st_step E1. cbn [snd].
  rewrite (ST_bind_Ok (lift (Ok i)) _ _ i _ eq_refl), Hb, Hn, Hpow, Z.ltb_irrefl. cbn [negb orb].
  destruct (log_run (with_disk d1 s) "\nhf_mkfs: device has %d sectors (%d bytes each), block size: %d" [KInt N; KInt (4 * m); KInt (4 * m)] (dt_dev _ D1))
    as (d2 & E2 & (O2 & S2' & Z2) & P2 & K2). st_step E2. cbn [disk with_disk] in *.
  rewrite u32_small by nia.
  assert (Hsb : new_superblock i (4 * m) = volume_superblock m N) by (unfold volume_superblock, new_superblock; by rewrite Hb, Hn). rewrite Hsb.
  destruct (malloc_run (with_disk d2 s) (4 * m)) as (p & d3 & E3 & (O3 & S3 & Z3 & P3 & H3') & Hp); cbn [disk with_disk] in *;
    [done|rewrite K2; apply (dt_heap _ D1)|lia|]. st_step E3.
  destruct Hp as [[-> Hlive]|(Hp & Hfresh & k & Hlive)].
  - change (0 =? 0) with true. cbv iota. exists (-1), d3. split_and!; [done| |by rewrite Hlive, K2, K1|].
    + split; cbn [ptr disk with_disk]; [apply (dt_ptr _ D)|done|rewrite Z3, Z2; apply (dt_size _ D1)|rewrite S3, S2'; apply (dt_len _ D1)|done].
    + left. by rewrite S3, S2', S1.
  - destruct (Z.eqb_spec p 0); [done|].
    assert (Hbuf : zlen (tabulate (Z.to_nat (4 * m)) garbage) = 4 * m) by (rewrite tabulate_zlen; lia).
    destruct (mkfs_blocks_run dev m N Hm HN (with_disk d3 (with_disk d2 (with_disk d1 s))) _ H3 Hbuf) as (d4 & E4 & (O4 & Z4 & _ & K4) & F4);
      cbn [disk with_disk] in *; [done|rewrite S3, S2'; apply (dt_len _ D1)|rewrite Z3, Z2; apply (dt_size _ D1)|]. st_step E4.
    change (heap_of d4 = heap_of d3) in K4.
    destruct (free_run (with_disk d4 (with_disk d3 (with_disk d2 (with_disk d1 s)))) p k O4) as (d5 & E5 & (O5 & S5 & Z5 & _ & H5) & Hl5);
      cbn [disk with_disk] in *; [by rewrite K4|by rewrite K4, Hlive, lookup_insert_eq|]. st_step E5.
    exists 0, d5. split_and!; [done| | |right; by rewrite S5].
    + split; cbn [ptr disk with_disk]; [apply (dt_ptr _ D)|done|rewrite Z5, Z4, Z3, Z2; apply (dt_size _ D1)| |done].
      rewrite S5. apply F4.
    + rewrite Hl5, K4, Hlive, delete_insert_id by done. by rewrite K2, K1.
Qed.

(** The state and the disk when [hf_mount] succeeds. *)
Definition fresh_volume s : Prop := exists cs, mounted dev m s cs /\ first_cmb (fssblock (blk_device s)) = 1 /\
  root_dir_block (fssblock (blk_device s)) = 2 /\ formatted m N (sectors (disk s)) /\ (forall x, x ∈ cs -> (x - 1) mod m = 0) /\
  heap_ok (heap_of (disk s)) /\
  free_blocks m (sectors (disk s)) cs = filter (fun b => (b - 1) mod m <> 0) (seqZ 3 (N - 3)).

Lemma mount_read s info vs b : detached s -> formatted m N (sectors (disk s)) -> bytes_sector info = 4 * m -> b <> 0 ->
  exists r s', (tmp ← malloc (bytes_sector info);
    if tmp =? 0 then mret (-1) else
    _ ← seek dev 0;
    l ← read_into dev (tabulate (Z.to_nat (bytes_sector info)) garbage);
    sb ← lift (superblock_of l);
    _ ← free tmp;
    if negb (ispowerof2 (block_size sb)) || (block_size sb <? bytes_sector info) then
      _ ← log "\nhf_mount: invalid block size" []; mret (-1)
    else
    d ← malloc (block_size sb);
    if d =? 0 then mret (-1) else
    _ ← modify (with_mount b (Blkdevice info vs sb d (tabulate (Z.to_nat (block_size sb)) garbage)));
    _ ← log "\nhf_mount: block device mounted; sector size: %d, sectors %d, block size: %d, blocks: %d"
      [KInt (bytes_sector info); KInt (num_sectors info); KInt (block_size sb); KInt (n_blocks sb)];
    mret 0) s = Ok (r, s') /\ ((r = -1 /\ ptr s' = 0) \/ (r = 0 /\ ptr s' = b /\ fresh_volume s')).
Proof.
  intros D F Hb Hb0. rewrite Hb. destruct (volume_superblock_is m N Hm HN H3) as (B1 & B2 & _).
  destruct (malloc_run s (4 * m) (dt_dev _ D) (dt_heap _ D) ltac:(lia)) as (tmp & d1 & E1 & (O1 & S1 & Z1 & _ & Q1) & Hp). st_step E1.
  destruct (Z.eqb_spec tmp 0) as [|Hne]; [exists (-1), (with_disk d1 s); split; [done|left; split; [done|apply (dt_ptr _ D)]]|].
  destruct Hp as [[? _]|(_ & Hfr & k & Hlive)]; [done|]. destruct (fm_super m N _ F) as (l0 & Hl0 & Hsup).
  destruct (read_at_run dev (with_disk d1 s) 0 (tabulate (Z.to_nat (4 * m)) garbage) l0) as (d2 & E2 & (O2 & Z2 & _ & K2) & S2');
    cbn [disk with_disk] in *; [done|by rewrite S1|rewrite tabulate_zlen, Z1, (dt_size _ D); lia|].
  rewrite E2, Hsup. clear E2. rewrite (ST_bind_Ok (lift (Ok (volume_superblock m N))) _ _ _ _ eq_refl). change (heap_of d2 = heap_of d1) in K2.
  destruct (free_run (with_disk d2 (with_disk d1 s)) tmp k O2) as (d3 & E3 & (O3 & S3 & Z3 & _ & Q3) & _);
    cbn [disk with_disk] in *; [by rewrite K2|by rewrite K2, Hlive, lookup_insert_eq|]. st_step E3.
  rewrite B1, Hpow, Z.ltb_irrefl. cbn [negb orb].
  destruct (malloc_run (with_disk d3 (with_disk d2 (with_disk d1 s))) (4 * m) O3 Q3 ltac:(lia)) as (p & d4 & E4 & (O4 & S4 & Z4 & _ & Q4) & Hp). st_step E4.
  destruct (Z.eqb_spec p 0); [eexists (-1), _; split; [done|left; split; [done|apply (dt_ptr _ D)]]|]. cbn [disk with_disk] in *.
  set (s5 := with_mount b (Blkdevice info vs (volume_superblock m N) p (tabulate (Z.to_nat (4 * m)) garbage)) (with_disk d4 s)).
  destruct (log_run s5 "\nhf_mount: block device mounted; sector size: %d, sectors %d, block size: %d, blocks: %d"
    [KInt (4 * m); KInt (num_sectors info); KInt (4 * m); KInt (n_blocks (volume_superblock m N))] O4) as (d5 & E5 & (O5 & S5 & Z5) & _ & K5).
  exists 0, (with_disk d5 s5). rewrite (ST_bind_Ok (modify _) _ _ tt s5 eq_refl). st_step E5. split; [done|]. right. split; [done|]. split; [done|].
  cbn [disk with_disk with_mount s5] in S5, Z5, K5. assert (Ss : sectors d5 = sectors (disk s)) by (by rewrite S5, S4, S3, S2', S1).
  assert (Zs : sector_size d5 = 4 * m) by (rewrite Z5, Z4, Z3, Z2, Z1; apply (dt_size _ D)).
  destruct (fm_map m N _ F) as (cs & C1 & C2 & C3 & C4). exists cs. cbn [disk with_disk s5 with_mount blk_device fssblock]. rewrite Ss.
  split_and!; try done; [|by rewrite K5]. split; cbn [disk with_disk s5 with_mount blk_device fssblock ptr]; [| |by rewrite Ss|done].
  - split_and!; cbn; [done|done|rewrite Zs, tabulate_zlen; lia].
  - split_and!; cbn [disk with_disk s5 with_mount blk_device fssblock]; try done; [by rewrite Ss, (dt_len _ D)|rewrite Ss, (dt_len _ D); nia].
Qed.
Lemma hf_mount_run s : detached s -> formatted m N (sectors (disk s)) -> exists r s', hf_mount dev garbage s = Ok (r, s') /\
  ((r = -1 /\ ptr s' = 0) \/ (r = 0 /\ fresh_volume s')).
Proof.
  intros D F. unfold hf_mount. rewrite (ST_bind_Ok (gets ptr) _ s (ptr s) s eq_refl), (dt_ptr _ D). change (nz 0) with false. cbv iota.
  destruct (getinfo_run s D) as (i & d1 & E1 & D1 & S1 & K1 & Hb & Hn). st_step E1. cbn [snd].
  rewrite (ST_bind_Ok (lift (Ok i)) _ _ i _ eq_refl). assert (Hp : ispowerof2 (bytes_sector i) = true) by by rewrite Hb. rewrite Hp. cbn [negb].
  destruct (malloc_run (with_disk d1 s) 160 (dt_dev _ D1) (dt_heap _ D1) ltac:(unfold max_request; lia)) as (b & d2 & E2 & (O2 & S2' & Z2 & _ & Q2) & _).
  st_step E2. cbn [disk with_disk] in *.
  destruct (Z.eqb_spec b 0) as [|Hb0]; [eexists (-1), _; split; [done|left; split; [done|apply (dt_ptr _ D)]]|].
  destruct (mount_read (with_disk d2 (with_disk d1 s)) i (u32 (num_sectors i * bytes_sector i)) b) as (r & s' & E & R).
  - split; cbn [ptr disk with_disk]; [apply (dt_ptr _ D)|done|rewrite Z2; apply (dt_size _ D1)|rewrite S2'; apply (dt_len _ D1)|done].
  - cbn [disk with_disk]. by rewrite S2', S1.
  - done.
  - done.
  - exists r, s'. split; [exact E|]. destruct R as [?|(? & _ & ?)]; [by left|by right].
Qed.

End format_mount.

(** ** A small disk *)
Definition demo_device : device (ramdisk heap) := ramdisk_device beyond0.
Definition demo_disk : ramdisk heap :=
  match dev_ioctl demo_device (DISK_INIT 4) (ramdisk0 demo0) with Ok (_, d) => d | _ => ramdisk0 demo0 end.
Definition no_volume : fs_blkdevice := Blkdevice (BlkInfo 0 0 0 0 0 0) 0 (Superblock 0 [] 0 0 [] 0 0 0 0 0) 0 [].
Definition demo_uhfs : uhfs (ramdisk heap) := Uhfs demo_disk 0 no_volume ∅ 0 0 0 [].
Definition ran {A : Type} (p : ST (uhfs (ramdisk heap)) A) (s : uhfs (ramdisk heap)) : option A :=
  match p s with Ok (a, _) => Some a | _ => None end.

Lemma demo_detached : detached demo_device 32 4 demo_uhfs.
Proof.
  assert (Hk : heap_ok (krnl_heap demo0)) by exact demo_heap_ok.
  assert (A : match dev_ioctl demo_device (DISK_INIT 4) (ramdisk0 demo0) with Ok ((r, _), _) => r | _ => 1 end = 0) by (vm_compute; reflexivity).
  destruct (ramdisk_init beyond0 demo0 4 Hk ltac:(lia)) as [(d & E & _)|(d & E & Hd & Hs & _ & Hh & _)]; fold demo_device in *; rewrite E in A; [discriminate A|].
  assert (Ed : demo_disk = d) by (unfold demo_disk; by rewrite E).
  split; cbn [ptr disk demo_uhfs]; rewrite ?Ed; [reflexivity|exact Hd|apply (rd_size _ Hd)|exact Hs|exact Hh].
Qed.
Lemma demo_format : ran (r ← hf_mkfs demo_device beyond0 128; q ← hf_mount demo_device beyond0; mret (r, q)) demo_uhfs = Some (0, 0).
Proof. vm_compute. reflexivity. Qed.
Lemma demo_volume : exists s, fresh_volume demo_device 32 4 s.
Proof.
  pose proof demo_format as A.
  destruct (hf_mkfs_run demo_device beyond0 32 4 ltac:(lia) ltac:(lia) ltac:(lia) eq_refl ltac:(done) demo_uhfs demo_detached) as (r & d & E & D1 & _ & R).
  unfold ran, mbind, ST_bind in A. change (4 * 32) with 128 in E. rewrite E in A.
  destruct R as [[-> _]|[-> F]].
  { destruct (hf_mount demo_device beyond0 (with_disk d demo_uhfs)) as [[? ?]| | |]; discriminate A. }
  destruct (hf_mount_run demo_device beyond0 32 4 ltac:(lia) ltac:(lia) ltac:(lia) eq_refl ltac:(done) _ D1 F) as (q & s & E2 & R2).
  rewrite E2 in A. destruct R2 as [[-> _]|[_ R2]]; [discriminate A|]. by exists s.
Qed.

Lemma free_list_refined_witness : exists s s1 s2, hf_getfree demo_device s = Ok (1, s1) /\ getfreeblock demo_device s = Ok (3, s2).
Proof.
  destruct demo_volume as (s & cs & Hm & _ & _ & _ & _ & _ & Hf). change (filter _ _) with [3] in Hf.
  destruct (free_list_refined demo_device 32 s cs Hm) as ((s1 & E1 & _) & s2 & E2 & _). rewrite Hf in E1, E2.
  exists s, s1, s2. split; [exact E1|exact E2].
Defined.
