(* ===== verification/Directory.v ===== *)
(** * Files in the root directory

    Looking up and creating a file in the root directory of a mounted uhfs
    volume ([searchdirectory], [hf_create], [hf_size] of [fs/uhfs.c]), for a root
    directory of one block, on any block device. *)

From Stdlib Require Import String.
From S2P Require Import Prelude Words Malloc Alloc Queue Kernel Task Demo Ramdisk Uhfs Volume Format.

#[local] Open Scope Z_scope.

(** ** Entries of a directory block *)
Section entries.
Implicit Types (l name : list Z) (i j : Z) (n : nat).

(** Two blocks agree on entry [j]. *)
Definition same_entry l l' j : Prop := forall o, 64 * j <= o < 64 * j + 64 -> zget l' o = zget l o.
Lemma attr_same l l' j : same_entry l l' j -> attr_of l' j = attr_of l j.
Proof. intros E. unfold attr_of, aget. by rewrite E by lia. Qed.
Lemma name_same l l' name : forall o, (forall k, o <= k <= o + zlen name -> zget l' k = zget l k) -> name_is l' o name = name_is l o name.
Proof.
  induction name as [|x name IH]; intros o E; cbn [name_is]; unfold aget.
  - by rewrite E by (unfold zlen; cbn; lia).
  - rewrite zlen_cons in E. pose proof (zlen_nonneg name). rewrite E by lia. destruct (zget l o) as [c|]; [|done]. cbn [mbind outcome_bind].
    destruct (c =? x); [|done]. apply IH. intros k Hk. apply E. lia.
Qed.
Lemma name_is_same l l' j name : same_entry l l' j -> zlen name <= 63 -> name_is l' (64 * j) name = name_is l (64 * j) name.
Proof. intros E Hn. apply name_same. intros k Hk. apply E. lia. Qed.

(** A name put at an offset is there. *)
Lemma name_there name : forall l o, Forall (fun c => c <> 0) name ->
  (forall k, 0 <= k <= zlen name -> zget l (o + k) = zget (name ++ [0]) k) -> name_is l o name = Ok true.
Proof.
  induction name as [|x name IH]; intros l o Hn E; cbn [name_is]; unfold aget.
  - specialize (E 0 ltac:(done)). rewrite Z.add_0_r in E. by rewrite E.
  - rewrite zlen_cons in E. pose proof (zlen_nonneg name). pose proof (E 0 ltac:(lia)) as E0. rewrite Z.add_0_r in E0. rewrite E0.
    cbn [app]. rewrite zget_cons_0. cbn [mbind outcome_bind]. rewrite Z.eqb_refl. apply Forall_cons_iff in Hn as [_ Hn]. apply IH; [done|].
    intros k Hk. replace (o + 1 + k) with (o + (k + 1)) by lia. rewrite E by lia. cbn [app]. rewrite zget_cons_S by lia. f_equal. lia.
Qed.

(** A name that no entry has is not found among the entries in use. *)
Lemma unnamed_unused n : forall i name l, named_entry n i name l = Ok None ->
  (forall j, i <= j < i + Z.of_nat n -> exists a, attr_of l j = Ok a) -> used_entry n i name l = Ok None.
Proof.
  induction n as [|n IH]; intros i name l Hn Ha; [done|]. cbn [named_entry used_entry] in *.
  destruct (Ha i ltac:(lia)) as (a & E). rewrite E. cbn [mbind outcome_bind].
  destruct (name_is l (64 * i) name) as [[]| | |]; try done. cbn [mbind outcome_bind] in Hn.
  destruct (nz (Z.land a UHFS_ATTRFREE)); cbn [mbind outcome_bind]; apply IH; try done; intros j Hj; apply Ha; lia.
Qed.

(** After entry [i] got the name, the searches find it. *)
Lemma named_found n : forall k i name l l', k <= i < k + Z.of_nat n -> named_entry n k name l = Ok None -> zlen name <= 63 ->
  (forall j, j <> i -> same_entry l l' j) -> name_is l' (64 * i) name = Ok true -> named_entry n k name l' = Ok (Some i).
Proof.
  induction n as [|n IH]; intros k i name l l' Hi Hno Hn Hs Ht; [lia|]. cbn [named_entry] in *.
  destruct (Z.eqb_spec k i) as [->|Hne]; [by rewrite Ht|]. rewrite (name_is_same l l' k) by (done || by apply Hs).
  destruct (name_is l (64 * k) name) as [[]| | |]; try done. cbn [mbind outcome_bind] in *. apply (IH _ _ _ l); try done. lia.
Qed.
Lemma used_found n : forall k i name l l' a, k <= i < k + Z.of_nat n -> used_entry n k name l = Ok None -> zlen name <= 63 ->
  (forall j, j <> i -> same_entry l l' j) -> name_is l' (64 * i) name = Ok true -> attr_of l' i = Ok a -> Z.land a UHFS_ATTRFREE = 0 ->
  used_entry n k name l' = Ok (Some i).
Proof.
  induction n as [|n IH]; intros k i name l l' a Hi Hno Hn Hs Ht Ha Hf; [lia|]. cbn [used_entry] in *.
  destruct (Z.eqb_spec k i) as [->|Hne].
  - rewrite Ha. cbn [mbind outcome_bind]. rewrite Hf. change (nz 0) with false. cbv iota. by rewrite Ht.
  - rewrite (attr_same l l' k) by by apply Hs. destruct (attr_of l k) as [b| | |]; try done. cbn [mbind outcome_bind] in *.
    destruct (nz (Z.land b UHFS_ATTRFREE)); cbn [mbind outcome_bind] in *.
    + apply (IH _ _ _ l _ a); try done. lia.
    + rewrite (name_is_same l l' k) by (done || by apply Hs).
      destruct (name_is l (64 * k) name) as [[]| | |]; try done. cbn [mbind outcome_bind] in *. apply (IH _ _ _ l _ a); try done. lia.
Qed.
Lemma used_entry_range n : forall k i name l, used_entry n k name l = Ok (Some i) -> k <= i < k + Z.of_nat n.
Proof.
  induction n as [|n IH]; intros k i name l E; [done|]. cbn [used_entry] in E. destruct (attr_of l k) as [a| | |]; try done.
  cbn [mbind outcome_bind] in E. destruct (if nz _ then _ else _) as [[]| | |]; try done; cbn [mbind outcome_bind] in E; [injection E as <-; lia|].
  apply IH in E. lia.
Qed.
Lemma free_entry_range n : forall k i l, free_entry n k l = Ok (Some i) -> k <= i < k + Z.of_nat n.
Proof.
  induction n as [|n IH]; intros k i l E; [done|]. cbn [free_entry] in E. destruct (attr_of l k) as [a| | |]; try done.
  cbn [mbind outcome_bind] in E. destruct (nz _); [injection E as <-; lia|]. apply IH in E. lia.
Qed.

#[local] Ltac in_range := repeat match goal with
  | |- context [?a <=? ?b] => destruct (Z.leb_spec a b); try lia; cbn [andb]
  | |- context [?a <? ?b] => destruct (Z.ltb_spec a b); try lia; cbn [andb]
  | |- context [?a =? ?b] => destruct (Z.eqb_spec a b); try lia
  end.
(** The new entry: its name, its attributes, its first block and its size; the
    other entries are as they were. *)
Lemma new_entry_run l i k attributes name : 0 <= i -> 64 * i + 64 <= zlen l -> zlen name <= 38 -> Forall (fun c => c <> 0) name ->
  0 <= k < 4294967296 -> exists l', new_entry i k attributes name l = Ok l' /\ zlen l' = zlen l /\
    (forall j, j <> i -> same_entry l l' j) /\ name_is l' (64 * i) name = Ok true /\ attr_of l' i = Ok attributes /\
    first_block_of l' i = Ok k /\ size_of l' i = Ok 0.
Proof.
  intros Hi Hl Hn Hnz Hk. unfold new_entry. assert (Hn1 : zlen (name ++ [0]) = zlen name + 1) by by rewrite zlen_app.
  pose proof (zlen_nonneg name). destruct (put_bytes_Ok l (64 * i) (name ++ [0]) ltac:(lia) ltac:(lia)) as (l1 & E1 & Z1 & F1).
  rewrite E1. cbn [mbind outcome_bind]. unfold set_attr. rewrite aset_Ok by lia. cbn [mbind outcome_bind].
  set (l2 := zset l1 (64 * i + 39) attributes). assert (Z2 : zlen l2 = zlen l) by (unfold l2; by rewrite zset_zlen).
  assert (F2 : forall o, zget l2 o = if o =? 64 * i + 39 then Some attributes else zget l1 o).
  { intros o. unfold l2. destruct (Z.eqb_spec o (64 * i + 39)) as [->|]; [by apply zget_zset_eq; lia|by apply zget_zset_ne]. }
  unfold put_word. destruct (put_bytes_Ok l2 (64 * i + 48) (word_bytes 0) ltac:(lia)) as (l3 & E3 & Z3 & F3); [change (zlen (word_bytes 0)) with 4; lia|].
  rewrite E3. cbn [mbind outcome_bind]. destruct (put_bytes_Ok l3 (64 * i + 52) (word_bytes k) ltac:(lia)) as (l4 & E4 & Z4 & F4); [change (zlen (word_bytes k)) with 4; lia|].
  rewrite E4. cbn [mbind outcome_bind]. destruct (put_bytes_Ok l4 (64 * i + 56) (replicate 8 0) ltac:(lia)) as (l5 & E5 & Z5 & F5); [change (zlen (replicate 8 0)) with 8; lia|].
  rewrite E5. exists l5. change (zlen (word_bytes 0)) with 4 in *. change (zlen (word_bytes k)) with 4 in *. change (zlen (replicate 8 0)) with 8 in *.
  split_and!; [done|lia|..].
  - intros j Hj o Ho. rewrite F5, F4, F3, F2, F1, Hn1. by in_range.
  - apply name_there; [done|]. intros o Ho. rewrite F5, F4, F3, F2, F1, Hn1. in_range. f_equal. lia.
  - unfold attr_of, aget. rewrite F5, F4, F3, F2. by in_range.
  - unfold first_block_of. rewrite (word_at_ext l4); [|intros o Ho; rewrite F5; by in_range].
    rewrite <- (Z.add_0_r (64 * i + 52)). rewrite (word_in l3 (64 * i + 52) (word_bytes k)); [by apply word_bytes_value|lia| |done|lia|];
      change (zlen (word_bytes k)) with 4; lia.
  - unfold size_of. pose proof (word_in l4 (64 * i + 56) (replicate 8 0) ltac:(lia) ltac:(change (zlen (replicate 8 0)) with 8; lia) l5 E5) as W.
    change (zlen (replicate 8 0)) with 8 in W. replace (64 * i + 60) with (64 * i + 56 + 4) by lia. rewrite (W 4) by lia.
    rewrite <- (Z.add_0_r (64 * i + 56)) at 1. rewrite (W 0) by lia. done.
Qed.
End entries.

(** ** The root directory *)
Section root.
Context {S H : Type} (dev : device S) `{BlockDeviceLaws S H dev} {HA : Allocator H} `{!AllocatorLaws H}.
Implicit Types (s : uhfs S) (d : S) (l name : list Z) (cs : list Z).

(** A mounted volume whose root directory is the block 2, with contents
    [root]; the free list holds neither it nor a map block. *)
Record root_volume (m : Z) s cs (root : list Z) : Prop := {
  rv_mounted : mounted dev m s cs;
  rv_first : first_cmb (fssblock (blk_device s)) = 1;
  rv_root : root_dir_block (fssblock (blk_device s)) = 2;
  rv_even : m mod 2 = 0;
  rv_dir : zget (sectors (disk s)) 2 = Some root;
  rv_map : exists l, zget (sectors (disk s)) 1 = Some l /\ word_at l 4 = Ok UHFS_EOCHBLK;
  rv_not_map : 2 ∉ cs;
  rv_free : forall k, k ∈ free_blocks m (sectors (disk s)) cs -> 3 <= k < zlen (sectors (disk s)) /\ k ∉ cs;
}.

Lemma root_slot m (b : fs_superblock) : 16 <= m < 4294967296 -> m mod 2 = 0 -> map_entries b = m -> slot_of b 2 = 1 /\ chain_of b 2 = 1.
Proof.
  intros Hm He Hb. unfold slot_of, chain_of. rewrite Hb. change (u32 (2 - 1)) with 1. rewrite (u32_small (m - 1)) by lia.
  assert (L : forall x, Z.land 1 x = x mod 2) by (intros x; rewrite Z.land_comm; exact (Z.land_ones x 1 ltac:(lia))).
  rewrite !L. split; [Z.div_mod_to_equations; lia|]. unfold Z.lnot, u32. Z.div_mod_to_equations. lia.
Qed.

(** The state [t] comes from [s]: its sectors are [ss], its buffer is [l]. *)
Definition holds (m : Z) s t (ss : list (list Z)) l : Prop := moves dev s t ss l /\ attached dev t /\ geometry dev m t.
Definition looks (m : Z) s t l : Prop := holds m s t (sectors (disk s)) l.
Lemma looks_self m s cs root : root_volume m s cs root -> looks m s s (data (blk_device s)).
Proof. intros [[Ha Hg _ _] _ _ _ _ _ _ _]. split_and!; try done. apply moves_refl, Ha. Qed.
Lemma holds_fields m s t ss l : holds m s t ss l -> sblock t = Ok (fssblock (blk_device s), t) /\ get_data t = Ok (l, t) /\
  sectors (disk t) = ss /\ zlen l = 4 * m /\ heap_of (disk t) = heap_of (disk s).
Proof.
  intros (M & A & G). destruct (moves_disk _ _ _ _ _ M) as (S1 & D1 & B1 & P1). pose proof (proj1 (proj2 A)) as Hp.
  split_and!; [by rewrite sblock_run, B1|by rewrite get_data_run, D1|done| |by destruct M as (d & -> & _ & _ & _ & K)].
  rewrite <- D1. rewrite (proj2 (proj2 A)). apply G.
Qed.
Lemma holds_moves m s t t' ss ss' l l' : holds m s t ss l -> moves dev t t' ss' l' -> zlen ss' = zlen ss -> zlen l' = 4 * m -> holds m s t' ss' l'.
Proof.
  intros (M & A & G) M' Hss Hl. destruct (moves_disk _ _ _ _ _ M) as (S1 & _). split_and!.
  - by eapply moves_trans.
  - eapply moves_attached; [exact A|exact M'|]. rewrite Hl. symmetry. apply G.
  - eapply moves_geometry; [exact G|exact M'|by rewrite S1].
Qed.
Lemma holds_log m s t ss l fmt args : holds m s t ss l -> exists t', log fmt args t = Ok (tt, t') /\ holds m s t' ss l.
Proof.
  intros L. destruct (holds_fields _ _ _ _ _ L) as (_ & _ & S1 & Hl & _). pose proof L as (M & A & _).
  destruct (moves_disk _ _ _ _ _ M) as (_ & D1 & _). destruct (log_moves dev t fmt args (proj1 A)) as (t' & E & M').
  rewrite D1, S1 in M'. exists t'. split; [done|]. by eapply holds_moves.
Qed.
Lemma holds_read m s t ss l n b : holds m s t ss l -> zget ss n = Some b ->
  exists t', read_block dev n t = Ok (tt, t') /\ holds m s t' ss b.
Proof.
  intros L Hb. destruct (holds_fields _ _ _ _ _ L) as (_ & _ & S1 & _). pose proof L as (M & A & G). rewrite <- S1 in Hb.
  destruct (read_block_moves dev t n b A Hb) as (t' & E & M'). exists t'. split; [done|]. rewrite S1 in M'. eapply holds_moves; [done..|].
  by eapply sector_len.
Qed.
Lemma holds_set m s t ss l l' : holds m s t ss l -> zlen l' = 4 * m -> exists t', set_data l' t = Ok (tt, t') /\ holds m s t' ss l'.
Proof.
  intros L Hl. destruct (holds_fields _ _ _ _ _ L) as (_ & _ & S1 & _). pose proof L as (M & A & G).
  destruct (set_data_moves dev t l' (proj1 A)) as (t' & E & M'). rewrite S1 in M'. exists t'. split; [done|]. by eapply holds_moves.
Qed.
Lemma holds_write m s t ss l n : holds m s t ss l -> 0 <= n < zlen ss ->
  exists t', write_block dev n t = Ok (tt, t') /\ holds m s t' (zset ss n l) l.
Proof.
  intros L Hn. destruct (holds_fields _ _ _ _ _ L) as (_ & _ & S1 & Hl & _). pose proof L as (M & A & G).
  destruct (moves_disk _ _ _ _ _ M) as (_ & D1 & _). rewrite <- S1 in Hn.
  destruct (write_block_moves dev t n A Hn) as (t' & E & M'). rewrite D1, S1 in M'. exists t'. split; [done|].
  eapply holds_moves; [done..|apply zset_zlen|done].
Qed.
(** Setting the buffer before or after the seek is the same. *)
Lemma seek_set {A : Type} (f : ST (uhfs S) A) n l s :
  (_ ← seek dev n; l' ← lift (Ok l); _ ← set_data l'; _ ← write_data dev; f) s = (_ ← set_data l; _ ← write_block dev n; f) s.
Proof.
  unfold write_block, seek, set_data, ondisk. st_unfold. change (disk (with_data l s)) with (disk s).
  by destruct (hf_dev_ioctl dev (DISK_SEEKSET n) (disk s)) as [[? ?]| | |].
Qed.

Lemma next_root m s cs root t l : root_volume m s cs root -> looks m s t l ->
  exists t' l', next_of dev 1 2 t = Ok (UHFS_EOCHBLK, t') /\ looks m s t' l'.
Proof.
  intros R L. destruct (rv_map _ _ _ _ R) as (b & Hb & Hw). destruct (holds_read m s t _ l 1 b L Hb) as (t' & E & L').
  destruct (holds_fields _ _ _ _ _ L') as (E1 & E2 & _). exists t', b. split; [|done]. unfold next_of. st_step E. st_step E1. st_step E2.
  pose proof (mt_geometry _ _ _ _ (rv_mounted _ _ _ _ R)) as G. pose proof G as (_ & _ & _ & G4 & G5).
  pose proof (zget_Some_range _ _ _ Hb). destruct (root_slot m (fssblock (blk_device s))) as [-> _]; [nia|apply (rv_even _ _ _ _ R)|by eapply map_entries_m|].
  by change (4 * 1) with 4; rewrite Hw.
Qed.

(** Searching one name in the root directory. *)
Lemma dir_entries_m m s : geometry dev m s -> dir_entries (fssblock (blk_device s)) = m / 16.
Proof. intros (G1 & _). unfold dir_entries. rewrite G1. change 64 with (4 * 16). by rewrite Z.div_mul_cancel_l by lia. Qed.
Lemma search_root_run m s cs root t l name u : root_volume m s cs root -> looks m s t l ->
  used_entry (Z.to_nat (m / 16)) 0 name root = Ok u -> exists t' r, search_chain dev (fs_fuel (fssblock (blk_device s))) name 1 2 t = Ok (r, t') /\
    looks m s t' root /\
    match u with
    | None => exists c b, r = Missing c b
    | Some i => forall a k, attr_of root i = Ok a -> first_block_of root i = Ok k ->
        r = if nz (Z.land a UHFS_ATTRDIR) then Entered 1 k 2 else Isfile 2 k
    end.
Proof.
  intros R L Hu. pose proof (rv_mounted _ _ _ _ R) as [Ha Hg Hc Hn]. pose proof (chain_fuel dev m s cs _ Hg Hc Hn) as Hf.
  destruct (fs_fuel (fssblock (blk_device s))) as [|fuel]; [lia|]. cbn [search_chain].
  destruct (next_root m s cs root t l R L) as (t1 & l1 & E1 & L1). st_step E1.
  destruct (holds_log m s t1 _ l1 "\nchain %d dir_blk_next: %d" [KInt 1; KInt UHFS_EOCHBLK] L1) as (t2 & E2 & L2). st_step E2.
  destruct (holds_read m s t2 _ l1 2 root L2 (rv_dir _ _ _ _ R)) as (t3 & E3 & L3). st_step E3.
  destruct (holds_fields _ _ _ _ _ L3) as (E4 & E5 & _ & Hl & _). st_step E4. st_step E5. rewrite (dir_entries_m m s Hg), Hu.
  rewrite (ST_bind_Ok (lift (Ok u)) _ _ u _ eq_refl). destruct u as [i|].
  - assert (Hi : exists a k, attr_of root i = Ok a /\ first_block_of root i = Ok k).
    { apply used_entry_range in Hu. pose proof (Z.div_mod m 16 ltac:(lia)). pose proof (Z.mod_pos_bound m 16 ltac:(lia)).
      pose proof (proj1 (proj2 (proj2 (proj2 Hg)))). destruct (zget_is_Some root (64 * i + 39)) as [a Ea]; [lia|].
      destruct (word_at_Ok root (64 * i + 52)) as [k Ek]; [lia|lia|]. exists a, k. split; [by apply aget_Ok|done]. }
    destruct Hi as (a & k & Ea & Ek). rewrite Ea, (ST_bind_Ok (lift (Ok a)) _ _ a _ eq_refl), Ek, (ST_bind_Ok (lift (Ok k)) _ _ k _ eq_refl).
    destruct (nz (Z.land a UHFS_ATTRDIR)) eqn:Ed.
    + exists t3, (Entered 1 k 2). split_and!; try done. intros a' k' [= <-] [= <-]. by rewrite Ed.
    + destruct (holds_log m s t3 _ root "\nsearchdirectory: %s is not a directory" [KStr name] L3) as (t4 & E6 & L4). st_step E6.
      exists t4, (Isfile 2 k). split_and!; try done. intros a' k' [= <-] [= <-]. by rewrite Ed.
  - destruct Hg as (G1 & _ & G3 & G4 & G5). rewrite G1, G3, (u32_small (_ * _)) by (pose proof (zlen_nonneg (sectors (disk s))); nia).
    pose proof (zget_Some_range _ _ _ (rv_dir _ _ _ _ R)). rewrite u32_small by (Z.div_mod_to_equations; nia).
    destruct (Z.ltb_spec (zlen (sectors (disk s)) * (4 * m) / 4 - 1) UHFS_EOCHBLK); [|unfold UHFS_EOCHBLK in *; Z.div_mod_to_equations; lia].
    eexists t3, _. split_and!; [done|done|by eexists _, _].
Qed.

(** What [searchdirectory] answers for one name. *)
Definition root_answer (root name : list Z) (u : option Z) : searched :=
  match u with
  | None => SearchNew 0 None 2 name
  | Some i =>
      match attr_of root i, first_block_of root i with
      | Ok a, Ok k => if nz (Z.land a UHFS_ATTRDIR) then SearchError else SearchFile 2 name k
      | _, _ => SearchError
      end
  end.
Lemma searchdirectory_run m s cs root path name u : root_volume m s cs root -> tokens path = [name] ->
  used_entry (Z.to_nat (m / 16)) 0 name root = Ok u ->
  exists t, searchdirectory dev path s = Ok (root_answer root name u, t) /\ looks m s t root.
Proof.
  intros R Ht Hu. destruct (holds_fields _ _ _ _ _ (looks_self _ _ _ _ R)) as (E1 & _ & _).
  unfold searchdirectory. st_step E1. rewrite Ht, (rv_first _ _ _ _ R), (rv_root _ _ _ _ R). cbn [search_path]. st_step E1.
  destruct (search_root_run m s cs root s _ name u R (looks_self _ _ _ _ R) Hu) as (t1 & r & E2 & L1 & Hr). st_step E2. unfold root_answer.
  destruct u as [i|]; [|destruct Hr as (c & b & ->); by exists t1].
  pose proof (used_entry_range _ _ _ _ _ Hu) as Hi. destruct (holds_fields _ _ _ _ _ L1) as (_ & _ & _ & Hl & _).
  pose proof (mt_geometry _ _ _ _ (rv_mounted _ _ _ _ R)) as (_ & _ & _ & Hm & _).
  pose proof (Z.div_mod m 16 ltac:(lia)). pose proof (Z.mod_pos_bound m 16 ltac:(lia)).
  destruct (zget_is_Some root (64 * i + 39)) as [a Ea]; [lia|]. apply aget_Ok in Ea. change (attr_of root i = Ok a) in Ea.
  destruct (word_at_Ok root (64 * i + 52)) as [k Ek]; [lia|lia|]. change (first_block_of root i = Ok k) in Ek.
  rewrite (Hr a k Ea Ek), Ea, Ek. destruct (nz (Z.land a UHFS_ATTRDIR)); [|by exists t1].
  destruct (holds_log m s t1 _ root "\nsearchdirectory: file/directory already exists" [] L1) as (t2 & E3 & L2). st_step E3. by exists t2.
Qed.

(** The path's copy. *)
Lemma root_reheaped m s cs root d o : root_volume m s cs root -> reheaped dev (disk s) d ->
  root_volume m (with_overrun o (with_disk d s)) cs root.
Proof.
  intros [[(A1 & A2 & A3) (G1 & G2 & G3 & G4 & G5) Hc Hn] R2 R3 R4 R5 R6 R7 R8] (O1 & S1 & Z1 & _ & _).
  split; cbn [disk with_overrun with_disk blk_device]; rewrite ?S1; try done.
  split; [|unfold geometry; cbn [disk with_overrun with_disk blk_device]; rewrite S1, Z1; by split_and!|cbn [disk with_overrun with_disk blk_device]; by rewrite S1|done].
  split_and!; cbn [disk with_overrun with_disk blk_device ptr]; [done|done|by rewrite Z1].
Qed.
Lemma path_copy_run s path : dev_ok (disk s) -> heap_ok (heap_of (disk s)) -> zlen path <= max_request ->
  exists p d o, path_copy path s = Ok (p, with_overrun o (with_disk d s)) /\ reheaped dev (disk s) d /\
    (p <> 0 -> exists k, heap_live (heap_of d) !! p = Some k).
Proof.
  intros Hd Hh Hn. pose proof (zlen_nonneg path).
  destruct (malloc_run dev s (zlen path) Hd Hh ltac:(lia)) as (p & d & E & R & Hp). exists p, d. unfold path_copy.
  destruct (Z.eqb_spec p 0) as [->|Hne].
  - exists (overrun s). st_step E. change (nz 0) with false. split_and!; [done|done|done].
  - exists (overrun s ++ [(p + zlen path, 0)]). st_step E. unfold nz. destruct (Z.eqb_spec p 0); [done|]. cbn [negb when]. split_and!; [done|done|].
    intros _. destruct Hp as [[? _]|(_ & _ & k & ->)]; [done|]. exists k. apply lookup_insert_eq.
Qed.

(** The volume after a change of blocks that keeps the map. *)
Lemma root_changed m s cs root t ss l root' : root_volume m s cs root -> holds m s t ss l -> map_chain ss 1 cs ->
  zget ss 2 = Some root' -> (exists b, zget ss 1 = Some b /\ word_at b 4 = Ok UHFS_EOCHBLK) -> zlen ss = zlen (sectors (disk s)) ->
  (forall k, k ∈ free_blocks m ss cs -> k ∈ free_blocks m (sectors (disk s)) cs) -> root_volume m t cs root'.
Proof.
  intros [[_ _ _ Hn] R2 R3 R4 R5 R6 R7 R8] (M & A & G) Hc Hd Hmap Hl Hf. destruct (moves_disk _ _ _ _ _ M) as (S1 & _ & B1 & _).
  split; rewrite ?S1, ?B1; try done.
  - split; [done|done|by rewrite S1, B1, R2|done].
  - intros k Hk. rewrite Hl. by apply R8, Hf.
Qed.
Lemma root_same m s cs root t l : root_volume m s cs root -> looks m s t l -> root_volume m t cs root.
Proof.
  intros R L. eapply root_changed; [exact R|exact L| |apply R|apply R|done|done].
  rewrite <- (rv_first _ _ _ _ R). apply (rv_mounted _ _ _ _ R).
Qed.
Lemma map_chain_other ss c cs n b : map_chain ss c cs -> n ∉ cs -> map_chain (zset ss n b) c cs.
Proof.
  induction 1 as [c l Hl Hw|c l k cs Hl Hw Hk Hc IH]; intros Hn; apply not_elem_of_cons in Hn as [? Hn].
  - apply (chain_end _ _ l); [by rewrite zget_zset_ne|done].
  - apply (chain_next _ _ l k); [by rewrite zget_zset_ne|done|done|by apply IH].
Qed.

(** A block is taken from the free list; the root directory stays. *)
Lemma take_block m s cs root t l : root_volume m s cs root -> looks m s t l -> exists t' l',
  getfreeblock dev t = Ok (default 0 (head (free_blocks m (sectors (disk s)) cs)), t') /\ exists ss, holds m s t' ss l' /\
  root_volume m t' cs root /\ zlen ss = zlen (sectors (disk s)) /\ map_chain ss 1 cs /\
  free_blocks m ss cs = tail (free_blocks m (sectors (disk s)) cs) /\ (free_blocks m (sectors (disk s)) cs = [] -> ss = sectors (disk s)).
Proof.
  intros R L. pose proof (root_same _ _ _ _ _ _ R L) as Rt. destruct (holds_fields _ _ _ _ _ L) as (_ & _ & S1 & _).
  destruct (getfreeblock_run dev m t cs (rv_mounted _ _ _ _ Rt)) as (t' & ss & l' & E & M & Hmt & Hfree & Hone). rewrite S1 in *.
  destruct (moves_disk _ _ _ _ _ M) as (S2' & D2 & B2 & _).
  assert (Hz : zlen ss = zlen (sectors (disk s))).
  { destruct (first_free m (sectors (disk s)) cs) as [[c j]|]; [|by rewrite Hone]. destruct Hone as (? & _ & _ & _ & ->). apply zset_zlen. }
  assert (Hlen : zlen l' = 4 * m).
  { destruct Hmt as [A' G' _ _]. rewrite <- D2, (proj2 (proj2 A')). apply G'. }
  pose proof (holds_moves _ _ _ _ _ _ _ _ L M Hz Hlen) as L'.
  assert (Hc : map_chain ss 1 cs).
  { pose proof (mt_chain _ _ _ _ Hmt) as C. rewrite S2', B2, (rv_first _ _ _ _ Rt) in C. done. }
  assert (Hsame : forall b x, b ∉ cs -> zget (sectors (disk s)) b = Some x -> zget ss b = Some x).
  { intros b x Hb Hx. destruct (first_free m (sectors (disk s)) cs) as [[c j]|] eqn:Ef; [|by rewrite Hone].
    destruct Hone as (? & _ & _ & _ & ->). rewrite zget_zset_ne; [done|]. intros <-. apply Hb. by eapply first_free_in. }
  exists t', l'. split; [done|]. exists ss. split_and!; try done.
  - eapply root_changed; [exact R|exact L'|done| | |done|intros k Hk].
    + apply Hsame; [apply (rv_not_map _ _ _ _ R)|apply (rv_dir _ _ _ _ R)].
    + destruct (rv_map _ _ _ _ R) as (b & Hb & Hw). destruct (first_free m (sectors (disk s)) cs) as [[c j]|] eqn:Ef; [|exists b; by rewrite Hone].
      destruct Hone as (lc & Hlc & (_ & _ & F) & Hj & ->). destruct (decide (c = 1)) as [->|Hne]; [|exists b; by rewrite zget_zset_ne].
      exists l'. rewrite zget_zset_eq by by eapply zget_Some_range. split; [done|]. rewrite Hlc in Hb. injection Hb as <-.
      change 4 with (4 * 1). rewrite F; [done|]. intros <-. pose proof (first_free_head m (sectors (disk s)) cs) as Hh. rewrite Ef in Hh.
      assert (Htwo : 2 ∈ free_blocks m (sectors (disk s)) cs) by (destruct (free_blocks m (sectors (disk s)) cs); [done|injection Hh as ->; left]).
      apply (rv_free _ _ _ _ R) in Htwo. lia.
    + rewrite Hfree in Hk. destruct (free_blocks m (sectors (disk s)) cs); [done|by right].
  - intros E0. pose proof (first_free_head m (sectors (disk s)) cs) as Hh. rewrite E0 in Hh.
    by destruct (first_free m (sectors (disk s)) cs).
Qed.

(** Entry [i] of the directory is the new one, the others are as they were. *)
Record entry_made (i k attributes : Z) (name l l' : list Z) : Prop := {
  em_len : zlen l' = zlen l;
  em_others : forall j, j <> i -> same_entry l l' j;
  em_name : name_is l' (64 * i) name = Ok true;
  em_attr : attr_of l' i = Ok attributes;
  em_first : first_block_of l' i = Ok k;
  em_size : size_of l' i = Ok 0;
}.
(** The directory has the new entry, whose block is the head of the free list
    and holds [z]. *)
Definition added (m : Z) s cs root (i attributes : Z) (name z : list Z) t root' (k : Z) : Prop :=
  root_volume m t cs root' /\ free_blocks m (sectors (disk s)) cs = k :: free_blocks m (sectors (disk t)) cs /\
  zget (sectors (disk t)) k = Some z /\ entry_made i k attributes name root root'.

Lemma fill_block m s t ss l cs root k z : holds m s t ss l -> root_volume m t cs root -> zlen ss = zlen (sectors (disk s)) -> zlen z = 4 * m ->
  map_chain ss 1 cs -> 3 <= k < zlen ss -> k ∉ cs -> exists t', (forall A (f : ST (uhfs S) A),
    (_ ← seek dev k; l' ← lift (Ok z); _ ← set_data l'; _ ← write_data dev; f) t = f t') /\ holds m s t' (zset ss k z) z.
Proof.
  intros L R Hz Hlz Hc Hk Hkc. destruct (holds_set _ _ _ _ _ z L Hlz) as (t1 & E1 & L1).
  destruct (holds_write _ _ _ _ _ k L1 ltac:(lia)) as (t2 & E2 & L2). exists t2. split; [|done].
  intros A f. rewrite seek_set. st_step E1. by st_step E2.
Qed.
Lemma put_entry_block m s t ss l root root' i k attributes name : holds m s t ss l -> zget ss 2 = Some root ->
  new_entry i k attributes name root = Ok root' -> zlen root' = zlen root -> exists t', (forall A (f : ST (uhfs S) A),
    (_ ← read_block dev 2; l ← get_data; l ← lift (new_entry i k attributes name l); _ ← set_data l; _ ← write_block dev 2; f) t = f t') /\
    holds m s t' (zset ss 2 root') root'.
Proof.
  intros L Hr En Hz. destruct (holds_read _ _ _ _ _ 2 root L Hr) as (t1 & E1 & L1). destruct (holds_fields _ _ _ _ _ L1) as (_ & E2 & _ & Hl & _).
  destruct (holds_set _ _ _ _ _ root' L1 ltac:(lia)) as (t2 & E3 & L2).
  destruct (holds_write _ _ _ _ _ 2 L2) as (t3 & E4 & L3); [by eapply zget_Some_range|]. exists t3. split; [|done].
  intros A f. st_step E1. st_step E2. rewrite En, (ST_bind_Ok (lift (Ok root')) _ _ root' _ eq_refl). st_step E3. by st_step E4.
Qed.

Lemma add_chain_run m s cs root t l clean attributes jumping dirpath name i z fuel :
  root_volume m s cs root -> looks m s t l -> heap_ok (heap_of (disk s)) -> (exists n, heap_live (heap_of (disk s)) !! dirpath = Some n) ->
  free_entry (Z.to_nat (m / 16)) 0 root = Ok (Some i) -> zlen name <= 38 -> Forall (fun c => c <> 0) name ->
  clean (4 * m) = Ok z -> zlen z = 4 * m ->
  exists r t', add_chain dev clean attributes jumping dirpath name (Datatypes.S fuel) 1 2 t = Ok (inl r, t') /\ heap_ok (heap_of (disk t')) /\
    ((r = -1 /\ free_blocks m (sectors (disk s)) cs = [] /\ root_volume m t' cs root) \/
     (r = 0 /\ exists root' k, added m s cs root i attributes name z t' root' k)).
Proof.
  intros R L Hh [hn Hlive] Hi Hn Hnz Hclean Hlz. cbn [add_chain]. pose proof (rv_mounted _ _ _ _ R) as [_ Hg _ _].
  destruct (next_root m s cs root t l R L) as (t1 & l1 & E1 & L1). st_step E1.
  destruct (holds_read m s t1 _ l1 2 root L1 (rv_dir _ _ _ _ R)) as (t2 & E2 & L2). st_step E2.
  destruct (holds_log m s t2 _ root "\nhf_mkdir: chain: %d blk: %d next %d" [KInt 1; KInt 2; KInt UHFS_EOCHBLK] L2) as (t3 & E3 & L3). st_step E3.
  destruct (holds_fields _ _ _ _ _ L3) as (E4 & E5 & _ & Hroot & _). st_step E4. st_step E5. rewrite (dir_entries_m m s Hg), Hi.
  rewrite (ST_bind_Ok (lift (Ok (Some i))) _ _ _ _ eq_refl).
  destruct (take_block m s cs root t3 root R L3) as (t4 & l4 & E6 & ss & L4 & R4 & Hz & Hc & Hf & Hnone). st_step E6.
  destruct (free_blocks m (sectors (disk s)) cs) as [|k fr] eqn:Efree; cbn [head default from_option id] in *.
  { rewrite Z.eqb_refl. exists (-1), t4. destruct (holds_fields _ _ _ _ _ L4) as (_ & _ & _ & _ & Hheap).
    split_and!; [done|by rewrite Hheap|by left]. }
  assert (Hk : 3 <= k < zlen (sectors (disk s)) /\ k ∉ cs) by (apply (rv_free _ _ _ _ R); rewrite Efree; left). destruct Hk as [Hk Hkc].
  destruct (Z.eqb_spec k 0); [lia|]. rewrite (proj1 Hg), Hclean.
  destruct (fill_block m s t4 ss l4 cs root k z L4 R4 Hz Hlz Hc ltac:(lia) Hkc) as (t5 & E7 & L5). rewrite E7. clear E7.
  pose proof (free_entry_range _ _ _ _ Hi) as Hir. pose proof (Z.div_mod m 16 ltac:(lia)). pose proof (Z.mod_pos_bound m 16 ltac:(lia)).
  destruct Hg as (_ & _ & _ & Hm & Hvol). assert (Hk32 : 0 <= k < 4294967296) by nia.
  destruct (new_entry_run root i k attributes name ltac:(lia) ltac:(lia) Hn Hnz Hk32) as (root' & E8 & Hrz & Hre).
  assert (Hr2 : zget (zset ss k z) 2 = Some root).
  { rewrite zget_zset_ne by lia. pose proof (rv_dir _ _ _ _ R4) as Hd. by rewrite (proj1 (proj2 (proj2 (holds_fields _ _ _ _ _ L4)))) in Hd. }
  destruct (put_entry_block m s t5 _ z root root' i k attributes name L5 Hr2 E8 Hrz) as (t6 & E9 & L6). rewrite E9. clear E9.
  destruct (holds_fields _ _ _ _ _ L6) as (_ & _ & S6 & _ & Hheap).
  destruct (free_run dev t6 dirpath hn (proj1 (proj1 (proj2 L6))) ltac:(by rewrite Hheap) ltac:(by rewrite Hheap)) as (d7 & E10 & Hd7 & _). st_step E10.
  assert (S4 : sectors (disk t4) = ss) by apply (holds_fields _ _ _ _ _ L4).
  assert (Hfree6 : free_blocks m (zset (zset ss k z) 2 root') cs = fr)
    by (rewrite !free_blocks_other by (done || apply (rv_not_map _ _ _ _ R)); exact Hf).
  assert (R6 : root_volume m t6 cs root').
  { eapply root_changed; [exact R|exact L6| | | |by rewrite !zset_zlen|].
    - apply map_chain_other; [by apply map_chain_other|apply (rv_not_map _ _ _ _ R)].
    - apply zget_zset_eq. rewrite zset_zlen. lia.
    - destruct (rv_map _ _ _ _ R4) as (b & Hb & Hw). rewrite S4 in Hb. exists b. split; [|done]. by rewrite !zget_zset_ne by lia.
    - intros x Hx. rewrite Hfree6 in Hx. rewrite Efree. by right. }
  exists 0, (with_disk d7 t6). split; [done|]. split; [apply Hd7|]. right. split; [done|]. exists root', k.
  assert (S7 : sectors d7 = zset (zset ss k z) 2 root') by (by rewrite (proj1 (proj2 Hd7)), S6).
  split_and!; cbn [disk with_disk].
  - exact (root_reheaped m t6 cs root' d7 (overrun t6) R6 Hd7).
  - by rewrite S7, Hfree6.
  - rewrite S7, zget_zset_ne by lia. by apply zget_zset_eq; lia.
  - destruct Hre as (? & ? & ? & ? & ?). by split.
Qed.

(** [hf_create] for a name the root directory has never had. *)
Definition rw : Z := Z.lor UHFS_ATTRREAD UHFS_ATTRWRITE.
Lemma hf_create_run m s cs root path name i : root_volume m s cs root -> heap_ok (heap_of (disk s)) -> zlen path <= max_request ->
  tokens path = [name] -> zlen name <= 38 -> Forall (fun c => c <> 0) name ->
  used_entry (Z.to_nat (m / 16)) 0 name root = Ok None -> free_entry (Z.to_nat (m / 16)) 0 root = Ok (Some i) ->
  exists r t, hf_create dev path s = Ok (r, t) /\ heap_ok (heap_of (disk t)) /\
    ((r = -1 /\ root_volume m t cs root) \/ (r = 0 /\ exists root' k, added m s cs root i rw name (zeros m) t root' k)).
Proof.
  intros R Hh Hp Ht Hn Hnz Hu Hi. pose proof (mt_attached _ _ _ _ (rv_mounted _ _ _ _ R)) as (Hd & Hptr & _).
  unfold hf_create, add_path. rewrite (ST_bind_Ok (gets ptr) _ s (ptr s) s eq_refl). destruct (Z.eqb_spec (ptr s) 0); [done|].
  destruct (path_copy_run s path Hd Hh Hp) as (p & d & o & E1 & Hre & Hlive). st_step E1.
  pose proof (root_reheaped m s cs root d o R Hre) as R1. set (s1 := with_overrun o (with_disk d s)) in *.
  assert (Hh1 : heap_ok (heap_of (disk s1))) by apply Hre. assert (Ss1 : sectors (disk s1) = sectors (disk s)) by apply Hre.
  destruct (Z.eqb_spec p 0) as [->|Hp0]; [exists (-1), s1; split_and!; [done|done|by left]|].
  destruct (searchdirectory_run m s1 cs root path name None R1 Ht Hu) as (t1 & E2 & L1). st_step E2. cbn [root_answer].
  destruct (holds_log _ _ _ _ _ "\npath / name is ok, now do it" [] L1) as (t2 & E3 & L2). st_step E3.
  destruct (holds_fields _ _ _ _ _ L2) as (E4 & _). st_step E4.
  destruct (holds_log _ _ _ _ _ "\ndirectory at blk %d (pblock %d)" [KInt 2; KInt 0] L2) as (t3 & E5 & L3). st_step E5.
  pose proof (rv_mounted _ _ _ _ R1) as [Ha Hg Hc Hnd]. pose proof (chain_fuel dev m s1 cs _ Hg Hc Hnd) as Hf.
  destruct (Hg) as (G1 & _ & _ & Hm & Hvol). pose proof (zget_Some_range _ _ _ (rv_dir _ _ _ _ R1)).
  destruct (root_slot m (fssblock (blk_device s1))) as [_ ->]; [nia|apply (rv_even _ _ _ _ R)|by eapply map_entries_m|].
  destruct (fs_fuel (fssblock (blk_device s1))) as [|fuel] eqn:Efuel; [lia|]. cbn [add_entry].
  destruct (holds_fields _ _ _ _ _ L3) as (E6 & _). st_step E6. rewrite Efuel.
  destruct (add_chain_run m s1 cs root t3 root empty_file rw "\nhf_create: jumping to next part of the directory (%d)" p name i (zeros m) fuel
    R1 L3 Hh1 (Hlive Hp0) Hi Hn Hnz eq_refl (zeros_len m Hm)) as (r & t4 & E7 & Hh4 & Hr). st_step E7.
  exists r, t4. split_and!; [done|done|]. destruct Hr as [(-> & _ & R4)|(-> & root' & k & A1 & A2 & A3 & A4)]; [by left|right].
  split; [done|]. exists root', k. rewrite Ss1 in A2. by split_and!.
Qed.

(** Operations on the file when it is there. *)
Lemma hf_create_again m s cs root path name i a k : root_volume m s cs root -> heap_ok (heap_of (disk s)) -> zlen path <= max_request ->
  tokens path = [name] -> used_entry (Z.to_nat (m / 16)) 0 name root = Ok (Some i) -> attr_of root i = Ok a ->
  first_block_of root i = Ok k -> exists t, hf_create dev path s = Ok (-1, t).
Proof.
  intros R Hh Hp Ht Hu Ha Hk. pose proof (mt_attached _ _ _ _ (rv_mounted _ _ _ _ R)) as (Hd & Hptr & _).
  unfold hf_create, add_path. rewrite (ST_bind_Ok (gets ptr) _ s (ptr s) s eq_refl). destruct (Z.eqb_spec (ptr s) 0); [done|].
  destruct (path_copy_run s path Hd Hh Hp) as (p & d & o & E1 & Hre & Hlive). st_step E1.
  destruct (Z.eqb_spec p 0) as [->|Hp0]; [by eexists|]. destruct (Hlive Hp0) as (n1 & Hn1).
  pose proof (root_reheaped m s cs root d o R Hre) as R1. set (s1 := with_overrun o (with_disk d s)) in *.
  destruct (searchdirectory_run m s1 cs root path name _ R1 Ht Hu) as (t1 & E2 & L1). st_step E2. cbn [root_answer]. rewrite Ha, Hk.
  assert (Hend : forall fmt, exists t, (_ ← log fmt []; _ ← free p; mret (-1)) t1 = Ok (-1, t)).
  { intros fmt. destruct (holds_log _ _ _ _ _ fmt [] L1) as (t2 & E3 & L2). st_step E3.
    destruct (holds_fields _ _ _ _ _ L2) as (_ & _ & _ & _ & Hheap).
    destruct (free_run dev t2 p n1 (proj1 (proj1 (proj2 L2)))) as (d3 & E4 & _); [rewrite Hheap; apply Hre|by rewrite Hheap|].
    st_step E4. by eexists. }
  destruct (nz _); apply Hend.
Qed.
Lemma hf_size_run m s cs root path name i a k n : root_volume m s cs root -> heap_ok (heap_of (disk s)) -> zlen path <= max_request ->
  tokens path = [name] -> used_entry (Z.to_nat (m / 16)) 0 name root = Ok (Some i) -> attr_of root i = Ok a -> Z.land a UHFS_ATTRDIR = 0 ->
  first_block_of root i = Ok k -> named_entry (Z.to_nat (m / 16)) 0 name root = Ok (Some i) -> size_of root i = Ok n ->
  exists q t, hf_size dev path s = Ok (q, t) /\ (q = i64 n \/ q = -1).
Proof.
  intros R Hh Hp Ht Hu Ha Hdir Hk Hno Hsz. pose proof (mt_attached _ _ _ _ (rv_mounted _ _ _ _ R)) as (Hd & Hptr & _).
  unfold hf_size, on_entry. rewrite (ST_bind_Ok (gets ptr) _ s (ptr s) s eq_refl). destruct (Z.eqb_spec (ptr s) 0); [done|].
  destruct (path_copy_run s path Hd Hh Hp) as (p & d & o & E1 & Hre & Hlive). st_step E1.
  destruct (Z.eqb_spec p 0) as [->|Hp0]; [eexists (-1), _; split; [done|by right]|]. destruct (Hlive Hp0) as (n1 & Hn1).
  pose proof (root_reheaped m s cs root d o R Hre) as R1. set (s1 := with_overrun o (with_disk d s)) in *.
  destruct (searchdirectory_run m s1 cs root path name _ R1 Ht Hu) as (t1 & E2 & L1). st_step E2. cbn [root_answer]. rewrite Ha, Hk, Hdir.
  change (nz 0) with false. cbv iota. destruct (holds_read _ _ _ _ _ 2 root L1 (rv_dir _ _ _ _ R1)) as (t2 & E3 & L2). st_step E3.
  destruct (holds_fields _ _ _ _ _ L2) as (E4 & E5 & _ & _ & Hheap). st_step E4. st_step E5.
  rewrite (dir_entries_m m s1 (mt_geometry _ _ _ _ (rv_mounted _ _ _ _ R1))), Hno, (ST_bind_Ok (lift (Ok (Some i))) _ _ _ _ eq_refl), Hsz.
  rewrite ST_bind_assoc, (ST_bind_Ok (lift (Ok n)) _ _ _ _ eq_refl), (ST_bind_Ok (mret (i64 n)) _ _ _ _ eq_refl).
  destruct (free_run dev t2 p n1 (proj1 (proj1 (proj2 L2)))) as (d3 & E6 & _); [rewrite Hheap; apply Hre|by rewrite Hheap|].
  st_step E6. eexists (i64 n), _. split; [done|by left].
Qed.

End root.

(** ** The root directory after formatting *)
Section fresh.
Context {S H : Type} (dev : device S) `{BlockDeviceLaws S H dev} {HA : Allocator H}.

Lemma unnamed_blank n : forall i name l, name <> [] -> Forall (fun c => c <> 0) name ->
  (forall j, i <= j < i + Z.of_nat n -> zget l (64 * j) = Some 0) -> named_entry n i name l = Ok None.
Proof.
  induction n as [|n IH]; intros i name l Hne Hnz Hl; [done|]. cbn [named_entry]. destruct name as [|x name]; [done|].
  cbn [name_is]. unfold aget. rewrite Hl by lia. cbn [mbind outcome_bind]. apply Forall_cons_iff in Hnz as [Hx Hnz].
  destruct (Z.eqb_spec 0 x) as [E|_]; [by rewrite <- E in Hx|]. cbn [mbind outcome_bind mret outcome_ret].
  apply IH; [done|by apply Forall_cons|]. intros j Hj. apply Hl. lia.
Qed.
Lemma fresh_root m N (s : uhfs S) : 3 <= N -> m mod 2 = 0 -> fresh_volume dev m N s -> exists cs root, root_volume dev m s cs root /\
  free_entry (Z.to_nat (m / 16)) 0 root = Ok (Some 0) /\
  forall name, name <> [] -> Forall (fun c => c <> 0) name -> named_entry (Z.to_nat (m / 16)) 0 name root = Ok None.
Proof.
  intros H3 He (cs & Hm & F1 & F2 & [L _ _ (root & Hr & Ha) Hmap] & Hcs & _ & Hfree). exists cs, root.
  destruct (mt_geometry _ _ _ _ Hm) as (_ & _ & _ & Hm16 & _).
  pose proof (Z.div_mod m 16 ltac:(lia)). pose proof (Z.mod_pos_bound m 16 ltac:(lia)).
  split; [split; try done|split].
  - intros H2c%Hcs. rewrite Z.mod_small in H2c by lia. lia.
  - intros k Hk. rewrite Hfree in Hk. apply list_elem_of_filter in Hk as [Hk Hr2%elem_of_seqZ]. split; [lia|]. intros ?%Hcs. lia.
  - destruct (Z.to_nat (m / 16)) as [|n] eqn:En; [lia|]. cbn [free_entry]. by destruct (Ha 0 ltac:(lia)) as [-> _].
  - intros name Hne Hnz. apply unnamed_blank; [done|done|]. intros j Hj. apply Ha. lia.
Qed.
End fresh.

Definition pig : list Z := [112; 105; 103].
