(* ===== verification/UhfsScripts.v ===== *)
(** * Runs of the file system

    The program [app/ramdisk] and some shorter scripts, evaluated on a RAM disk
    of 50 sectors of 128 bytes (two regions of the map). *)

From Stdlib Require Import String Ascii.
From S2P Require Import Prelude Words Malloc Alloc Queue Kernel Task Demo Ramdisk Uhfs.

#[local] Open Scope Z_scope.

Definition large_heap : heap :=
  match heapinit 4096 65536 (0, Heap (words 4096 (Z.to_nat 16384)) 0 0 0 0) with Ok (_, (_, h)) => h | _ => blank_heap end.
Definition ramdisk50 : device (ramdisk heap) := ramdisk_device beyond0.
Definition uhfs50 : uhfs (ramdisk heap) :=
  Uhfs (match dev_ioctl ramdisk50 (DISK_INIT 50) (ramdisk0 (with_krnl_heap large_heap demo0)) with Ok (_, d) => d | _ => ramdisk0 demo0 end)
    0 (Blkdevice (BlkInfo 0 0 0 0 0 0) 0 (Superblock 0 [] 0 0 [] 0 0 0 0 0) 0 []) ∅ 0 0 0 [].
Definition script (A : Type) : Type := ST (uhfs (ramdisk heap)) A.
Definition ends {A : Type} (p : script A) : outcome A :=
  match (_ ← hf_mkfs ramdisk50 beyond0 128; _ ← hf_mount ramdisk50 beyond0; p) uhfs50 with
  | Ok (a, _) => Ok a | Panic c => Panic c | Fault => Fault | Timeout => Timeout
  end.
Definition str (s : string) : list Z := (fun c => Z.of_nat (nat_of_ascii c)) <$> list_ascii_of_string s.
Definition create (p : string) : script Z := hf_create ramdisk50 (str p).
Definition mkdir (p : string) : script Z := hf_mkdir ramdisk50 (str p).
Definition rmdir (p : string) : script Z := hf_rmdir ramdisk50 (str p).
Definition unlink (p : string) : script Z := hf_unlink ramdisk50 (str p).
Definition size (p : string) : script Z := hf_size ramdisk50 (str p).

(** The names of a directory, with the attribute bytes. *)
Fixpoint list_dir (n : nat) (fptr : Z) : script (list (list Z * Z)) :=
  match n with
  | O => mret []
  | S n =>
      r ← hf_readdir ramdisk50 fptr;
      match r with
      | (0, Some e) => l ← list_dir n fptr; mret ((upto_nul (take 39 e), default 0 (e !! 39%nat)) :: l)
      | _ => mret []
      end
  end.
Definition dir (p : string) : script (list (list Z * Z)) :=
  f ← hf_opendir ramdisk50 (str p); l ← list_dir 10 f; _ ← hf_closedir f; mret l.

(** [app/ramdisk/ramdisk_test.c]. *)
Definition ramdisk_app : script (list Z * list (list Z * Z) * list (list Z * Z)) :=
  free0 ← hf_getfree ramdisk50; a ← mkdir "/root"; b ← create "/root/pig"; c ← create "/root/pig2"; d ← create "/root/pig3";
  u ← unlink "/root/pig2"; z ← size "/root/pig"; l1 ← dir "/root/.";
  r ← hf_rename ramdisk50 (str "/root/pig") (str "pig1"); l2 ← dir "/root/."; free1 ← hf_getfree ramdisk50; m ← hf_umount;
  mret ([free0; a; b; c; d; u; z; r; free1; m], l1, l2).
Example ramdisk_app_runs : ends ramdisk_app =
  Ok ([46; 0; 0; 0; 0; 0; 0; 0; 42; 0],
      [(str "pig", 0x60); (str "pig2", 0xe0); (str "pig3", 0x60); ([], 0x80)],
      [(str "pig1", 0x60); (str "pig2", 0xe0); (str "pig3", 0x60); ([], 0x80)]).
Proof. vm_compute. reflexivity. Qed.

(** A directory is removed by a path through it, when it is empty. *)
Example removal : ends (a ← mkdir "/d"; b ← create "/d/f"; c ← rmdir "/d"; d ← rmdir "/d/."; e ← unlink "/d/f"; f ← rmdir "/d/.";
  g ← mkdir "/d"; mret [a; b; c; d; e; f; g]) = Ok [0; 0; -1; -1; 0; 0; 0].
Proof. vm_compute. reflexivity. Qed.

(** Removing a name that is not in the root directory uses the unset parent
    name. *)
Example rmdir_missing : ends (rmdir "/x") = Fault.
Proof. vm_compute. reflexivity. Qed.

(** A file renamed to the name of a freed entry: [hf_unlink] frees the stale
    entry again and the blocks of the file, whose entry stays. *)
Example stale_entry : ends (a ← create "/a"; b ← create "/b"; c ← unlink "/a"; d ← hf_rename ramdisk50 (str "/b") (str "a");
  f0 ← hf_getfree ramdisk50; e ← unlink "/a"; f1 ← hf_getfree ramdisk50; z ← size "/a"; mret [a; b; c; d; f0; e; f1; z]) =
  Ok [0; 0; 0; 0; 45; 0; 46; 0].
Proof. vm_compute. reflexivity. Qed.

(** A path that goes on behind a file names the file. *)
Example file_prefix : ends (a ← create "/a"; z ← size "/a/b/c"; mret [a; z]) = Ok [0; 0].
Proof. vm_compute. reflexivity. Qed.

(** A mode with the bit of directories makes a directory of a file. *)
Example chmod_directory : ends (a ← create "/a"; b ← hf_chmod ramdisk50 (str "/a") 0x21; z ← size "/a"; d ← mkdir "/a/b"; mret [a; b; z; d]) =
  Ok [0; 0; -1; 0].
Proof. vm_compute. reflexivity. Qed.

(** A label is forgotten when the volume is detached. *)
Example label_lost : ends (_ ← hf_setlabel (str "mine"); l ← hf_getlabel; _ ← hf_umount; _ ← hf_mount ramdisk50 beyond0; l' ← hf_getlabel;
  mret (upto_nul (snd l), upto_nul (snd l'))) = Ok (str "mine", str "new volume").
Proof. vm_compute. reflexivity. Qed.

(** A directory whose block is in the second region is searched with the map of
    the first: the file [a3] of the root directory is found in it. *)
Fixpoint creates (l : list string) : script unit :=
  match l with [] => mret tt | p :: l => _ ← create p; creates l end.
Example wrong_region : ends (_ ← creates ["/a1"; "/a2"; "/a3"; "/a4"; "/a5"; "/a6"; "/a7"; "/a8"; "/a9"; "/b0"; "/b1"; "/b2"; "/b3"; "/b4"; "/b5";
    "/b6"; "/b7"; "/b8"; "/b9"; "/c0"]%string;
  d ← mkdir "/z"; l ← dir "/z/."; z ← size "/z/a3"; c ← create "/z/a7"; mret (d, l, z, c)) = Ok (0, [([], 0x80); ([], 0x80)], 0, -1).
Proof. vm_compute. reflexivity. Qed.
