(* ===== verification/Mips.v ===== *)
(** * The MIPS I integer instruction set

    The specification of the MIPS simulators of [usr/sim]: the instructions of
    MIPS I that the HF-RISC processor has, their encoding and what each does
    to the registers, the multiplier's registers, the memory and the flow of
    control with its delay slot. It follows the architecture manual, not the
    simulators: register 0 reads 0, register shifts use the low five bits of
    their amount, and the memory is big-endian. *)

From S2P Require Import Prelude Words SimBase.

#[local] Open Scope Z_scope.

(** ** Instructions *)

Inductive shift : Type := Sll | Srl | Sra.
Inductive alu : Type := Addu | Subu | And | Or | Xor | Nor | Slt | Sltu.
Inductive cond : Type := Eq | Ne | Lez | Gtz | Ltz | Gez.
Inductive width : Type := B | H | W.

Inductive instr : Type :=
| Shift (op : shift) (rd rt sa : Z)
| ShiftV (op : shift) (rd rt rs : Z)
| Op (op : alu) (rd rs rt : Z)
| OpImm (op : alu) (rt rs imm : Z)
| Lui (rt imm : Z)
| Mfhi (rd : Z)
| Mthi (rs : Z)
| Mflo (rd : Z)
| Mtlo (rs : Z)
| Mult (signed : bool) (rs rt : Z)
| Div (signed : bool) (rs rt : Z)
| J (link : bool) (target : Z)
| Jr (rs : Z)
| Jalr (rd rs : Z)
| Branch (c : cond) (rs rt off : Z)
| BranchLink (c : cond) (rs off : Z)
| Load (w : width) (signed : bool) (rt rs imm : Z)
| Store (w : width) (rt rs imm : Z).

(** ** Encoding *)

Definition is_reg (x : Z) : Prop := 0 <= x < 32.
Definition is_simm (x : Z) : Prop := -32768 <= x < 32768.
Definition is_uimm (x : Z) : Prop := 0 <= x < 65536.

(** Two registers are compared, or one with 0. *)
Definition two_regs (c : cond) : bool := match c with Eq | Ne => true | _ => false end.
Definition has_link (c : cond) : bool := match c with Ltz | Gez => true | _ => false end.
Definition is_logic (op : alu) : bool := match op with And | Or | Xor => true | _ => false end.

(** The operands that have an encoding, and those the manual excludes because
    the result is unpredictable: a link register that is also tested or jumped
    to. *)
Definition valid (i : instr) : Prop :=
  match i with
  | Shift _ rd rt sa => is_reg rd /\ is_reg rt /\ is_reg sa
  | ShiftV _ rd rt rs => is_reg rd /\ is_reg rt /\ is_reg rs
  | Op _ rd rs rt => is_reg rd /\ is_reg rs /\ is_reg rt
  | OpImm op rt rs imm =>
      is_reg rt /\ is_reg rs /\ op <> Subu /\ op <> Nor /\ if is_logic op then is_uimm imm else is_simm imm
  | Lui rt imm => is_reg rt /\ is_uimm imm
  | Mfhi r | Mthi r | Mflo r | Mtlo r | Jr r => is_reg r
  | Mult _ rs rt | Div _ rs rt => is_reg rs /\ is_reg rt
  | J _ t => 0 <= t < 67108864
  | Jalr rd rs => is_reg rd /\ is_reg rs /\ rd <> rs
  | Branch c rs rt off => is_reg rs /\ is_reg rt /\ is_simm off /\ (two_regs c = false -> rt = 0)
  | BranchLink c rs off => is_reg rs /\ is_simm off /\ has_link c = true /\ rs <> 31
  | Load w signed rt rs imm => is_reg rt /\ is_reg rs /\ is_simm imm /\ (w = W -> signed = true)
  | Store _ rt rs imm => is_reg rt /\ is_reg rs /\ is_simm imm
  end.

Definition shift_func (op : shift) : Z := match op with Sll => 0 | Srl => 2 | Sra => 3 end.
Definition alu_func (op : alu) : Z :=
  match op with
  | Addu => 0x21 | Subu => 0x23 | And => 0x24 | Or => 0x25 | Xor => 0x26 | Nor => 0x27
  | Slt => 0x2a | Sltu => 0x2b
  end.
Definition imm_op (op : alu) : Z :=
  match op with Slt => 0xa | Sltu => 0xb | And => 0xc | Or => 0xd | Xor => 0xe | _ => 0x9 end.
Definition cond_op (c : cond) : Z := match c with Eq => 4 | Ne => 5 | Lez => 6 | Gtz => 7 | _ => 1 end.
(** The field [rt] of a branch. *)
Definition cond_rt (c : cond) (link : bool) (rt : Z) : Z :=
  match c with Ltz => if link then 16 else 0 | Gez => if link then 17 else 1 | _ => rt end.
Definition width_op (w : width) : Z := match w with B => 0 | H => 1 | W => 3 end.

Definition r_type (op rs rt rd sa func : Z) : Z :=
  op * 67108864 + rs * 2097152 + rt * 65536 + rd * 2048 + sa * 64 + func.
Definition i_type (op rs rt imm : Z) : Z := op * 67108864 + rs * 2097152 + rt * 65536 + imm mod 65536.
Definition j_type (op target : Z) : Z := op * 67108864 + target.

Definition encode (i : instr) : Z :=
  match i with
  | Shift op rd rt sa => r_type 0 0 rt rd sa (shift_func op)
  | ShiftV op rd rt rs => r_type 0 rs rt rd 0 (4 + shift_func op)
  | Op op rd rs rt => r_type 0 rs rt rd 0 (alu_func op)
  | OpImm op rt rs imm => i_type (imm_op op) rs rt imm
  | Lui rt imm => i_type 0xf 0 rt imm
  | Mfhi rd => r_type 0 0 0 rd 0 0x10
  | Mthi rs => r_type 0 rs 0 0 0 0x11
  | Mflo rd => r_type 0 0 0 rd 0 0x12
  | Mtlo rs => r_type 0 rs 0 0 0 0x13
  | Mult signed rs rt => r_type 0 rs rt 0 0 (if signed then 0x18 else 0x19)
  | Div signed rs rt => r_type 0 rs rt 0 0 (if signed then 0x1a else 0x1b)
  | J link t => j_type (if link then 3 else 2) t
  | Jr rs => r_type 0 rs 0 0 0 8
  | Jalr rd rs => r_type 0 rs 0 rd 0 9
  | Branch c rs rt off => i_type (cond_op c) rs (cond_rt c false rt) off
  | BranchLink c rs off => i_type 1 rs (cond_rt c true 0) off
  | Load w signed rt rs imm => i_type (0x20 + width_op w + if signed then 0 else 4) rs rt imm
  | Store w rt rs imm => i_type (0x28 + width_op w) rs rt imm
  end.

(** ** Big-endian memory *)

Fixpoint load_be (n : nat) (m : gmap Z Z) (a : Z) : Z :=
  match n with
  | O => 0
  | S n => byte_at m a * 256 ^ Z.of_nat n + load_be n m (a + 1)
  end.
Fixpoint store_be (n : nat) (m : gmap Z Z) (a v : Z) : gmap Z Z :=
  match n with
  | O => m
  | S n => store_be n (<[a := u8 (v / 256 ^ Z.of_nat n)]> m) (a + 1) v
  end.

(** ** Semantics *)

(** Operands and results are signed 32-bit values. *)
Definition shift_result (op : shift) (a n : Z) : Z :=
  match op with
  | Sll => i32 (a * 2 ^ n)
  | Srl => i32 (u32 a / 2 ^ n)
  | Sra => a / 2 ^ n
  end.
Definition alu_result (op : alu) (a b : Z) : Z :=
  match op with
  | Addu => i32 (a + b)
  | Subu => i32 (a - b)
  | And => Z.land a b
  | Or => Z.lor a b
  | Xor => Z.lxor a b
  | Nor => Z.lnot (Z.lor a b)
  | Slt => cbool (a <? b)
  | Sltu => cbool (u32 a <? u32 b)
  end.
Definition holds (c : cond) (a b : Z) : bool :=
  match c with
  | Eq => a =? b
  | Ne => negb (a =? b)
  | Lez => a <=? 0
  | Gtz => 0 <? a
  | Ltz => a <? 0
  | Gez => 0 <=? a
  end.
Definition product (signed : bool) (a b : Z) : Z := if signed then a * b else u32 a * u32 b.
Definition quotient (signed : bool) (a b : Z) : Z := if signed then cdiv a b else u32 a / u32 b.
Definition remainder (signed : bool) (a b : Z) : Z := if signed then cmod a b else u32 a mod u32 b.

Definition width_bytes (w : width) : nat := match w with B => 1 | H => 2 | W => 4 end.
Definition extend (w : width) (signed : bool) (v : Z) : Z :=
  match w, signed with
  | B, true => i8 v
  | H, true => i16 v
  | W, _ => i32 v
  | _, false => v
  end.

(** What an instruction changes: a register, HI and LO, where control goes
    after the delay slot, bytes of the memory. *)
Record effect : Type := mk_effect {
  e_reg : option (Z * Z);
  e_hi : option Z;
  e_lo : option Z;
  e_next : Z;
  e_mem : option (nat * Z * Z)
}.
Definition falls (npc : Z) (w : option (Z * Z)) : effect := mk_effect w None None (u32 (npc + 4)) None.

(** The effect of [i] when the next instruction is at [npc], for registers
    [x], [hi] and [lo] and a memory that [load] reads. *)
Definition isa (x : Z -> Z) (hi lo : Z) (load : nat -> Z -> Z) (npc : Z) (i : instr) : effect :=
  let next := u32 (npc + 4) in
  let jumps w t := mk_effect w None None t None in
  match i with
  | Shift op rd rt sa => falls npc (Some (rd, shift_result op (x rt) sa))
  | ShiftV op rd rt rs => falls npc (Some (rd, shift_result op (x rt) (x rs mod 32)))
  | Op op rd rs rt => falls npc (Some (rd, alu_result op (x rs) (x rt)))
  | OpImm op rt rs imm => falls npc (Some (rt, alu_result op (x rs) imm))
  | Lui rt imm => falls npc (Some (rt, i32 (imm * 65536)))
  | Mfhi rd => falls npc (Some (rd, hi))
  | Mflo rd => falls npc (Some (rd, lo))
  | Mthi rs => mk_effect None (Some (x rs)) None next None
  | Mtlo rs => mk_effect None None (Some (x rs)) next None
  | Mult signed rs rt =>
      let p := product signed (x rs) (x rt) in
      mk_effect None (Some (i32 (p / 4294967296))) (Some (i32 p)) next None
  | Div signed rs rt =>
      mk_effect None (Some (i32 (remainder signed (x rs) (x rt)))) (Some (i32 (quotient signed (x rs) (x rt)))) next None
  | J link t => jumps (if link then Some (31, i32 next) else None) (npc / 268435456 * 268435456 + t * 4)
  | Jr rs => jumps None (u32 (x rs))
  | Jalr rd rs => jumps (Some (rd, i32 next)) (u32 (x rs))
  | Branch c rs rt off => jumps None (if holds c (x rs) (x rt) then u32 (npc + off * 4) else next)
  | BranchLink c rs off =>
      jumps (Some (31, i32 next)) (if holds c (x rs) 0 then u32 (npc + off * 4) else next)
  | Load w signed rt rs imm =>
      falls npc (Some (rt, extend w signed (load (width_bytes w) (u32 (x rs + imm)))))
  | Store w rt rs imm => mk_effect None None None next (Some (width_bytes w, u32 (x rs + imm), u32 (x rt)))
  end.
