(* ===== verification/SimMips.v ===== *)
(** * The HF-RISC instruction set simulator

    [usr/sim/hf_risc_sim/hf_risc_sim.c]: the machine state, the big-endian
    memory with its memory-mapped registers on a little-endian host, the
    multiplication routines, the execution of each MIPS instruction with the
    delay slot, interrupt entry and the timers. *)

From S2P Require Import Prelude Words SimBase.

#[local] Open Scope Z_scope.

Definition MEM_SIZE : Z := 0x00100000.
Definition SRAM_BASE : Z := 0x40000000.
Definition EXIT_TRAP : Z := 0xe0000000.
Definition IRQ_VECTOR : Z := 0xf0000000.
Definition IRQ_CAUSE : Z := 0xf0000010.
Definition IRQ_MASK : Z := 0xf0000020.
Definition IRQ_STATUS : Z := 0xf0000030.
Definition IRQ_EPC : Z := 0xf0000040.
Definition COUNTER : Z := 0xf0000050.
Definition COMPARE : Z := 0xf0000060.
Definition COMPARE2 : Z := 0xf0000070.
Definition DEBUG_ADDR : Z := 0xf00000d0.
Definition UART_WRITE : Z := 0xf00000e0.
Definition UART_READ : Z := 0xf00000e0.
Definition UART_DIVISOR : Z := 0xf00000f0.

Definition ntohs (A : Z) : Z := Z.lor (Z.shiftr A 8) (Z.shiftl (Z.land A 0xff) 8).
Definition ntohl (A : Z) : Z :=
  Z.lor (Z.lor (Z.lor (Z.shiftr A 24) (Z.shiftr (Z.land A 0xff0000) 8)) (u32 (Z.shiftl (Z.land A 0xff00) 8)))
    (u32 (Z.shiftl A 24)).

(** ** State *)

(** The statistics: one counter for each of [ins], [arith], ... *)
Inductive stat : Type := Ins | Arith | Logic | Shift | Comp | Ls | Bra | Taken_bra | Jmp | Mul | Div | Other.
#[export] Instance stat_eq_dec : EqDecision stat.
Proof. solve_decision. Defined.

(** The interrupt unit and the timers. *)
Record irqs : Type := mk_irqs {
  vector : Z;
  cause : Z;
  mask : Z;
  status : Z;
  status_dly : list Z;
  epc : Z;
  counter : Z;
  compare : Z;
  compare2 : Z
}.
(** The process' streams: [stdout] has the pairs of program counter and word
    that were reported as invalid. *)
Record host : Type := mk_host {
  log_enabled : bool;
  stdin : list Z;
  stdout : list (Z * Z);
  stderr : list Z;
  logfile : list Z
}.
Record state : Type := mk_state {
  r : list Z;
  pc : Z;
  pc_next : Z;
  hi : Z;
  lo : Z;
  mem : gmap Z Z;
  j : Z;
  nox_bds : Z;
  irq : irqs;
  stats : stat -> Z;
  streams : host
}.

Definition set_r (v : list Z) (s : state) : state :=
  mk_state v (pc s) (pc_next s) (hi s) (lo s) (mem s) (j s) (nox_bds s) (irq s) (stats s) (streams s).
Definition set_pcs (v w : Z) (s : state) : state :=
  mk_state (r s) v w (hi s) (lo s) (mem s) (j s) (nox_bds s) (irq s) (stats s) (streams s).
Definition set_hilo (v w : Z) (s : state) : state :=
  mk_state (r s) (pc s) (pc_next s) v w (mem s) (j s) (nox_bds s) (irq s) (stats s) (streams s).
Definition set_mem (v : gmap Z Z) (s : state) : state :=
  mk_state (r s) (pc s) (pc_next s) (hi s) (lo s) v (j s) (nox_bds s) (irq s) (stats s) (streams s).
Definition set_flags (v w : Z) (s : state) : state :=
  mk_state (r s) (pc s) (pc_next s) (hi s) (lo s) (mem s) v w (irq s) (stats s) (streams s).
Definition on_irq (f : irqs -> irqs) (s : state) : state :=
  mk_state (r s) (pc s) (pc_next s) (hi s) (lo s) (mem s) (j s) (nox_bds s) (f (irq s)) (stats s) (streams s).
(** [s->k++]. *)
Definition bump (k : stat) (s : state) : state :=
  mk_state (r s) (pc s) (pc_next s) (hi s) (lo s) (mem s) (j s) (nox_bds s) (irq s)
    (fun k' => if decide (k' = k) then u32 (stats s k + 1) else stats s k') (streams s).
Definition on_host (f : host -> host) (s : state) : state :=
  mk_state (r s) (pc s) (pc_next s) (hi s) (lo s) (mem s) (j s) (nox_bds s) (irq s) (stats s) (f (streams s)).
Definition set_pc_next (v : Z) (s : state) : state := set_pcs (pc s) (i32 v) s.
Definition set_hi (v : Z) (s : state) : state := set_hilo (i32 v) (lo s) s.
Definition set_lo (v : Z) (s : state) : state := set_hilo (hi s) (i32 v) s.
Definition set_j (s : state) : state := set_flags 1 (nox_bds s) s.

Definition set_vector (v : Z) (q : irqs) : irqs :=
  mk_irqs v (cause q) (mask q) (status q) (status_dly q) (epc q) (counter q) (compare q) (compare2 q).
Definition set_cause (v : Z) (q : irqs) : irqs :=
  mk_irqs (vector q) v (mask q) (status q) (status_dly q) (epc q) (counter q) (compare q) (compare2 q).
Definition set_mask (v : Z) (q : irqs) : irqs :=
  mk_irqs (vector q) (cause q) v (status q) (status_dly q) (epc q) (counter q) (compare q) (compare2 q).
Definition set_status (v : Z) (d : list Z) (q : irqs) : irqs :=
  mk_irqs (vector q) (cause q) (mask q) v d (epc q) (counter q) (compare q) (compare2 q).
Definition set_epc (v : Z) (q : irqs) : irqs :=
  mk_irqs (vector q) (cause q) (mask q) (status q) (status_dly q) v (counter q) (compare q) (compare2 q).
Definition set_counter (v : Z) (q : irqs) : irqs :=
  mk_irqs (vector q) (cause q) (mask q) (status q) (status_dly q) (epc q) v (compare q) (compare2 q).
Definition set_compare (v w : Z) (q : irqs) : irqs :=
  mk_irqs (vector q) (cause q) (mask q) (status q) (status_dly q) (epc q) (counter q) v w.

(** ** Memory *)

(** [*ptr] for [n] bytes at [s->mem + (address % MEM_SIZE)]; nothing beyond
    the array. *)
Definition sram_load (n : nat) (address : Z) : SM state Z :=
  m ← sget mem;
  sguard (address mod MEM_SIZE + Z.of_nat n <=? MEM_SIZE) (load_le n m (address mod MEM_SIZE)).
Definition sram_store (n : nat) (address value : Z) : SM state unit :=
  _ ← sguard (address mod MEM_SIZE + Z.of_nat n <=? MEM_SIZE) tt;
  smod (fun s => set_mem (store_le n (mem s) (address mod MEM_SIZE) value) s).

(** The next character of the standard input, [EOF] at its end. *)
Definition getchar : SM state Z := fun s =>
  match stdin (streams s) with
  | [] => Val (-1) s
  | c :: cs =>
      Val c (on_host (fun h => mk_host (log_enabled h) cs (stdout h) (stderr h) (logfile h)) s)
  end.
Definition irq_get (f : irqs -> Z) : SM state Z := sget (fun s => f (irq s)).

Definition mem_read (size address : Z) : SM state Z :=
  if address =? IRQ_VECTOR then irq_get vector else
  if address =? IRQ_CAUSE then v ← irq_get cause; mret (Z.lor (Z.lor v 0x0080) 0x0040) else
  if address =? IRQ_MASK then irq_get mask else
  if address =? IRQ_STATUS then irq_get status else
  if address =? IRQ_EPC then irq_get epc else
  if address =? COUNTER then irq_get counter else
  if address =? COMPARE then irq_get compare else
  if address =? COMPARE2 then irq_get compare2 else
  if address =? UART_READ then getchar else
  if address =? UART_DIVISOR then mret 0 else
  if size =? 4 then
    if nz (Z.land address 3) then sexit 1
    else v ← sram_load 4 address; mret (i32 (ntohl v))
  else if size =? 2 then
    if nz (Z.land address 1) then sexit 1
    else v ← sram_load 2 address; mret (i32 (ntohs (u16 v)))
  else if size =? 1 then sram_load 1 address
  else mret 0.

Definition mem_write (size address value : Z) : SM state unit :=
  if address =? IRQ_VECTOR then smod (on_irq (set_vector (i32 value))) else
  if address =? IRQ_CAUSE then smod (on_irq (set_cause (i32 value))) else
  if address =? IRQ_MASK then smod (on_irq (set_mask (i32 value))) else
  if address =? IRQ_STATUS then
    if value =? 0 then smod (on_irq (set_status 0 [0; 0; 0; 0]))
    else smod (on_irq (fun q => set_status (status q) (zset (status_dly q) 3 (i32 value)) q))
  else
  if address =? IRQ_EPC then smod (on_irq (set_epc (i32 value))) else
  if address =? COUNTER then smod (on_irq (set_counter (i32 value))) else
  if address =? COMPARE then
    smod (on_irq (fun q => set_cause (Z.land (cause q) 0xffef) (set_compare (i32 value) (compare2 q) q))) else
  if address =? COMPARE2 then
    smod (on_irq (fun q => set_cause (Z.land (cause q) 0xffdf) (set_compare (compare q) (i32 value) q))) else
  if address =? EXIT_TRAP then sexit 0 else
  if address =? DEBUG_ADDR then
    smod (on_host (fun h => if log_enabled h
      then mk_host true (stdin h) (stdout h) (stderr h) (logfile h ++ [Z.land value 0xff]) else h)) else
  if address =? UART_WRITE then
    smod (on_host (fun h =>
      mk_host (log_enabled h) (stdin h) (stdout h) (stderr h ++ [Z.land value 0xff]) (logfile h))) else
  if address =? UART_DIVISOR then mret tt else
  if size =? 4 then
    if nz (Z.land address 3) then sexit 1 else sram_store 4 address (ntohl value)
  else if size =? 2 then
    if nz (Z.land address 1) then sexit 1 else sram_store 2 address (u16 (ntohs (u16 value)))
  else if size =? 1 then sram_store 1 address (u8 value)
  else mret tt.

(** ** Multiplication *)

(** The high and the low word. *)
Definition mult_unsigned (a b : Z) : Z * Z :=
  let ahi := Z.shiftr a 16 in
  let alo := Z.land a 0xffff in
  let bhi := Z.shiftr b 16 in
  let blo := Z.land b 0xffff in
  let c0 := u32 (alo * blo) in
  let c1_a := u32 (ahi * blo) in
  let c1_b := u32 (alo * bhi) in
  let c2 := u32 (ahi * bhi) in
  let c2 := u32 (c2 + u32 (Z.shiftr c1_a 16 + Z.shiftr c1_b 16)) in
  let c1 := u32 (u32 (Z.land c1_a 0xffff + Z.land c1_b 0xffff) + Z.shiftr c0 16) in
  let c2 := u32 (c2 + Z.shiftr c1 16) in
  let c0 := u32 (u32 (Z.shiftl c1 16) + Z.land c0 0xffff) in
  (c2, c0).
Definition mult_signed (a b : Z) : Z * Z :=
  let ahi := u32 (Z.shiftr a 16) in
  let alo := Z.land a 0xffff in
  let bhi := u32 (Z.shiftr b 16) in
  let blo := Z.land b 0xffff in
  let c0 := u32 (alo * blo) in
  let c1_a := i32 (ahi * blo) in
  let c1_b := i32 (alo * bhi) in
  let c2 := u32 (ahi * bhi) in
  let c2 := u32 (c2 + u32 (Z.shiftr c1_a 16 + Z.shiftr c1_b 16)) in
  let c1 := u32 (Z.land c1_a 0xffff + Z.land c1_b 0xffff + Z.shiftr c0 16) in
  let c2 := u32 (c2 + Z.shiftr c1 16) in
  let c0 := u32 (u32 (Z.shiftl c1 16) + Z.land c0 0xffff) in
  (c2, c0).

(** ** Decoding *)

Record fields : Type := mk_fields {
  op : Z; rs : Z; rt : Z; rd : Z; re : Z; func : Z; imm : Z; target : Z
}.
Definition decode (opcode : Z) : fields :=
  mk_fields (Z.land (Z.shiftr opcode 26) 0x3f) (Z.land (Z.shiftr opcode 21) 0x1f)
    (Z.land (Z.shiftr opcode 16) 0x1f) (Z.land (Z.shiftr opcode 11) 0x1f)
    (Z.land (Z.shiftr opcode 6) 0x1f) (Z.land opcode 0x3f) (Z.land opcode 0xffff)
    (Z.shiftr (u32 (Z.shiftl opcode 6)) 4).
Definition imm_shift (f : fields) : Z := i32 (i32 (Z.shiftl (i16 (imm f)) 2) - 4).

(** ** Execution *)

(** [r[i]], [u[i]] and [r[i] = v]. *)
Definition rget (i : Z) : SM state Z :=
  l ← sget r; match zget l i with Some x => mret x | None => sundef end.
Definition uget (i : Z) : SM state Z := x ← rget i; mret (u32 x).
Definition rset (i v : Z) : SM state unit :=
  l ← sget r;
  match zget l i with Some _ => smod (set_r (zset l i (i32 v))) | None => sundef end.

Definition count (k : stat) : SM state bool := _ ← smod (bump k); mret false.
Definition link (i : Z) : SM state unit := n ← sget pc_next; rset i n.
(** The end of a branch and of a jump. *)
Definition branch_if (b : bool) : SM state bool := _ ← smod set_j; _ ← smod (bump Bra); mret b.
Definition jump_to (v : Z) : SM state bool := _ ← smod (set_pc_next v); _ ← smod set_j; count Jmp.
(** [printf] of an invalid word; execution goes on. *)
Definition invalid (opcode : Z) : SM state bool :=
  p ← sget pc;
  _ ← smod (on_host (fun h =>
    mk_host (log_enabled h) (stdin h) (stdout h ++ [(i32 (p - 4), opcode)]) (stderr h) (logfile h)));
  mret false.

Definition set_product (p : Z * Z) : SM state bool :=
  _ ← smod (fun s => set_lo (snd p) (set_hi (fst p) s)); count Mul.
Definition exec_addu (f : fields) : SM state bool :=
  a ← rget (rs f); b ← rget (rt f); _ ← rset (rd f) (a + b); count Arith.
(** A division by zero falls through to the next case of the switch. *)
Definition exec_divu (f : fields) : SM state bool :=
  b ← uget (rt f);
  if b =? 0 then _ ← smod (fun s => set_hi 0 (set_lo 0 s)); exec_addu f
  else
    a ← uget (rs f);
    _ ← smod (fun s => set_hi (a mod b) (set_lo (a / b) s));
    count Div.
Definition exec_div (f : fields) : SM state bool :=
  b ← rget (rt f);
  if b =? 0 then _ ← smod (fun s => set_hi 0 (set_lo 0 s)); exec_divu f
  else
    a ← rget (rs f);
    _ ← sguard (negb ((a =? -2147483648) && (b =? -1))) tt;
    _ ← smod (fun s => set_hi (cmod a b) (set_lo (cdiv a b) s));
    count Div.

(** The cases of opcode 0. *)
Definition exec_special (f : fields) (opcode : Z) : SM state bool :=
  match func f with
  | 0x00 => a ← rget (rt f); v ← shift_ok (re f) (Z.shiftl a (re f)); _ ← rset (rd f) v; count Shift
  | 0x02 => a ← uget (rt f); v ← shift_ok (re f) (Z.shiftr a (re f)); _ ← rset (rd f) v; count Shift
  | 0x03 => a ← rget (rt f); v ← shift_ok (re f) (Z.shiftr a (re f)); _ ← rset (rd f) v; count Shift
  | 0x04 => a ← rget (rt f); n ← rget (rs f); v ← shift_ok n (Z.shiftl a n); _ ← rset (rd f) v; count Shift
  | 0x06 => a ← uget (rt f); n ← rget (rs f); v ← shift_ok n (Z.shiftr a n); _ ← rset (rd f) v; count Shift
  | 0x07 => a ← rget (rt f); n ← rget (rs f); v ← shift_ok n (Z.shiftr a n); _ ← rset (rd f) v; count Shift
  | 0x08 => a ← rget (rs f); jump_to a
  | 0x09 => _ ← link (rd f); a ← rget (rs f); jump_to a
  | 0x10 => v ← sget hi; _ ← rset (rd f) v; count Other
  | 0x11 => a ← rget (rs f); _ ← smod (set_hi a); count Other
  | 0x12 => v ← sget lo; _ ← rset (rd f) v; count Other
  | 0x13 => a ← rget (rs f); _ ← smod (set_lo a); count Other
  | 0x18 => a ← rget (rs f); b ← rget (rt f); set_product (mult_signed a b)
  | 0x19 => a ← uget (rs f); b ← uget (rt f); set_product (mult_unsigned a b)
  | 0x1a => exec_div f
  | 0x1b => exec_divu f
  | 0x21 => exec_addu f
  | 0x23 => a ← rget (rs f); b ← rget (rt f); _ ← rset (rd f) (a - b); count Arith
  | 0x24 => a ← rget (rs f); b ← rget (rt f); _ ← rset (rd f) (Z.land a b); count Logic
  | 0x25 => a ← rget (rs f); b ← rget (rt f); _ ← rset (rd f) (Z.lor a b); count Logic
  | 0x26 => a ← rget (rs f); b ← rget (rt f); _ ← rset (rd f) (Z.lxor a b); count Logic
  | 0x27 => a ← rget (rs f); b ← rget (rt f); _ ← rset (rd f) (Z.lnot (Z.lor a b)); count Logic
  | 0x2a => a ← rget (rs f); b ← rget (rt f); _ ← rset (rd f) (cbool (a <? b)); count Comp
  | 0x2b => a ← uget (rs f); b ← uget (rt f); _ ← rset (rd f) (cbool (a <? b)); count Comp
  | _ => invalid opcode
  end.

(** The cases of opcode 1. *)
Definition exec_regimm (f : fields) (opcode : Z) : SM state bool :=
  match rt f with
  | 0x10 => _ ← link 31; a ← rget (rs f); branch_if (a <? 0)
  | 0x00 => a ← rget (rs f); branch_if (a <? 0)
  | 0x11 => _ ← link 31; a ← rget (rs f); branch_if (0 <=? a)
  | 0x01 => a ← rget (rs f); branch_if (0 <=? a)
  | _ => invalid opcode
  end.

Definition exec_j (f : fields) : SM state bool :=
  p ← sget pc; jump_to (Z.lor (Z.land (u32 p) 0xf0000000) (target f)).

(** The switch; the result is [branch]. *)
Definition exec (f : fields) (opcode ptr : Z) : SM state bool :=
  let simm := i16 (imm f) in
  match op f with
  | 0x00 => exec_special f opcode
  | 0x01 => exec_regimm f opcode
  | 0x03 => _ ← link 31; exec_j f
  | 0x02 => exec_j f
  | 0x04 => a ← rget (rs f); b ← rget (rt f); branch_if (a =? b)
  | 0x05 => a ← rget (rs f); b ← rget (rt f); branch_if (negb (a =? b))
  | 0x06 => a ← rget (rs f); branch_if (a <=? 0)
  | 0x07 => a ← rget (rs f); branch_if (0 <? a)
  | 0x09 => a ← uget (rs f); _ ← rset (rt f) (u32 (a + simm)); count Arith
  | 0x0a => a ← rget (rs f); _ ← rset (rt f) (cbool (a <? simm)); count Comp
  | 0x0b => a ← uget (rs f); _ ← rset (rt f) (cbool (a <? u32 simm)); count Comp
  | 0x0c => a ← rget (rs f); _ ← rset (rt f) (Z.land a (imm f)); count Logic
  | 0x0d => a ← rget (rs f); _ ← rset (rt f) (Z.lor a (imm f)); count Logic
  | 0x0e => a ← rget (rs f); _ ← rset (rt f) (Z.lxor a (imm f)); count Logic
  | 0x0f => _ ← rset (rt f) (u32 (Z.shiftl (imm f) 16)); count Other
  | 0x20 => v ← mem_read 1 ptr; _ ← rset (rt f) (i8 v); count Ls
  | 0x21 => v ← mem_read 2 ptr; _ ← rset (rt f) (i16 v); count Ls
  | 0x23 => v ← mem_read 4 ptr; _ ← rset (rt f) v; count Ls
  | 0x24 => v ← mem_read 1 ptr; _ ← rset (rt f) (u8 v); count Ls
  | 0x25 => v ← mem_read 2 ptr; _ ← rset (rt f) (u16 v); count Ls
  | 0x28 => v ← uget (rt f); _ ← mem_write 1 ptr v; count Ls
  | 0x29 => v ← uget (rt f); _ ← mem_write 2 ptr v; count Ls
  | 0x2b => v ← uget (rt f); _ ← mem_write 4 ptr v; count Ls
  | _ => invalid opcode
  end.

(** ** One cycle *)

(** Interrupt entry, and whether there is one. *)
Definition interrupted (s : state) : bool :=
  nz (status (irq s)) && nz (Z.land (cause (irq s)) (mask (irq s))) && (j s =? 0).
Definition interrupt (s : state) : state :=
  set_flags (j s) 1 (set_pcs (pc s) (vector (irq s))
    (on_irq (fun q => set_status 0 [0; 0; 0; 0] (set_epc (i32 (pc s + 4)) q)) s)).

(** The program counters, the delayed interrupt enable and [j]. *)
Definition advance (s : state) : state :=
  let q := irq s in
  let q := match status_dly q with [d0; d1; d2; d3] => set_status d0 [d1; d2; d3; d3] q | _ => q end in
  set_flags 0 (nox_bds s) (set_pcs (pc_next s) (i32 (pc_next s + 4)) (on_irq (fun _ => q) s)).

(** The counter and the interrupt causes it drives. *)
Definition timers (q : irqs) : irqs :=
  let q := set_counter (i32 (counter q + 1)) q in
  let c := counter q in
  let k := cause q in
  let k := if Z.land (compare2 q) 0xffffff =? Z.land c 0xffffff then Z.lor k 0x20 else k in
  let k := if compare q =? c then Z.lor k 0x10 else k in
  let k := if nz (Z.land c 0x10000) then Z.land k 0xfff7 else Z.lor k 0x8 in
  let k := if nz (Z.land c 0x10000) then Z.lor k 0x4 else Z.land k 0xfffb in
  let k := if nz (Z.land c 0x40000) then Z.land k 0xfffd else Z.lor k 0x2 in
  let k := if nz (Z.land c 0x40000) then Z.lor k 0x1 else Z.land k 0xfffe in
  set_cause k q.

(** What follows the switch. *)
Definition finish (f : fields) (branch : bool) (s : state) : state :=
  let s := set_pc_next (pc_next s + if branch then imm_shift f else 0) s in
  let s := set_pc_next (Z.land (pc_next s) (Z.lnot 3)) s in
  let s := bump Ins s in
  let s := if branch then bump Taken_bra s else s in
  on_irq timers s.

Definition cycle : SM state unit :=
  i ← sget interrupted;
  if (i : bool) then smod interrupt
  else
    p ← sget pc;
    opcode ← mem_read 4 (u32 p);
    let opcode := u32 opcode in
    let f := decode opcode in
    a ← rget (rs f);
    let ptr := u32 (i16 (imm f) + a) in
    _ ← rset 0 0;
    _ ← smod advance;
    n ← sget nox_bds;
    if nz n then smod (fun s => set_flags (j s) 0 s)
    else
      b ← exec f opcode ptr;
      smod (finish f b).

(** ** Start and run *)

(** The state [main] enters its loop in; an empty image ends the program. *)
Definition boot (image input : list Z) (logging : bool) : option state :=
  let image := take (Z.to_nat MEM_SIZE) image in
  match image with
  | [] => None
  | _ =>
      let sram := load_image image 0 (store_le 4 ∅ 0 0xffffffff) in
      Some (mk_state (replicate 32 0) SRAM_BASE (SRAM_BASE + 4) 0 0 sram 0 0
        (mk_irqs 0 0 0 0 [0; 0; 0; 0] 0 0 0 0) (fun _ => 0) (mk_host logging input [] [] []))
  end.

(** [for(;;) cycle(s)], for [n] cycles. *)
Fixpoint run (n : nat) : SM state unit :=
  match n with
  | O => mret tt
  | S n => _ ← cycle; run n
  end.

(** ** The types of the state are kept *)

Record irqs_ok (q : irqs) : Prop := mk_irqs_ok {
  qo_vector : is_i32 (vector q);
  qo_cause : is_i32 (cause q);
  qo_mask : is_i32 (mask q);
  qo_status : is_i32 (status q);
  qo_dly_len : length (status_dly q) = 4%nat;
  qo_dly : Forall is_i32 (status_dly q);
  qo_epc : is_i32 (epc q);
  qo_counter : is_i32 (counter q);
  qo_compare : is_i32 (compare q);
  qo_compare2 : is_i32 (compare2 q)
}.
(** Every member holds a value of its C type, the register file has 32 entries
    and [status_dly] has 4. *)
Record wf (s : state) : Prop := mk_wf {
  wf_r_len : length (r s) = 32%nat;
  wf_r : Forall is_i32 (r s);
  wf_pc : is_i32 (pc s);
  wf_pc_next : is_i32 (pc_next s);
  wf_hi : is_i32 (hi s);
  wf_lo : is_i32 (lo s);
  wf_mem : bytes_ok (mem s);
  wf_irq : irqs_ok (irq s);
  wf_stats : forall k, is_u32 (stats s k)
}.

Section types.
Implicit Types (s : state) (q : irqs) (f : fields).

Lemma is_i32_i32 x : is_i32 (i32 x).
Proof. apply i32_range. Qed.
Lemma is_i32_0 : is_i32 0.
Proof. unfold is_i32. lia. Qed.
Hint Resolve is_i32_i32 is_i32_0 : core.

Lemma irqs_mod_wf (g : irqs -> irqs) :
  (forall q, irqs_ok q -> irqs_ok (g q)) -> respects wf (fun _ => True) (smod (on_irq g)).
Proof. intros Hg. apply respects_mod. intros s []. split; try done. by apply Hg. Qed.
Lemma on_host_wf g : respects wf (fun _ => True) (smod (on_host g)).
Proof. apply respects_mod. by intros s []. Qed.
Lemma set_hilo_wf s a b : wf s -> wf (set_hi a (set_lo b s)).
Proof. intros []. split; try done; cbn; auto. Qed.
Lemma bump_wf k s : wf s -> wf (bump k s).
Proof. intros []. split; try done. intros k'. cbn. destruct (decide _); [apply u32_range|done]. Qed.
Lemma set_pc_next_wf v s : wf s -> wf (set_pc_next v s).
Proof. intros []. split; try done; cbn; auto. Qed.

Lemma mips_rset_wf i v : respects wf (fun _ => True) (rset i v).
Proof.
  intros s Hs. unfold rset; sm_unfold. destruct (zget (r s) i); [|done].
  split; [done|]. destruct Hs. split; try done; cbn [r set_r].
  - by rewrite zset_length.
  - by apply zset_Forall.
Qed.
Lemma mips_rget_wf i : respects wf is_i32 (rget i).
Proof.
  intros s Hs. unfold rget; sm_unfold. destruct (zget (r s) i) as [x|] eqn:E; [|done].
  split; [|done]. eapply zget_Forall; [|exact E]. apply Hs.
Qed.
Lemma mips_rget_wf_True i : respects wf (fun _ => True) (rget i).
Proof. eapply respects_weaken, mips_rget_wf. done. Qed.
Lemma mips_uget_wf i : respects wf is_u32 (uget i).
Proof. unfold uget. eapply respects_bind; [apply mips_rget_wf|]. intros a _. apply respects_ret, u32_range. Qed.
Lemma count_wf k : respects wf (fun _ => True) (count k).
Proof. unfold count. respects_step; [apply respects_mod, bump_wf|apply respects_ret]; done. Qed.
Lemma branch_if_wf b : respects wf (fun _ => True) (branch_if b).
Proof.
  unfold branch_if. respects_step; [apply respects_mod; by intros s []|].
  respects_step; [apply respects_mod, bump_wf|by apply respects_ret].
Qed.
Lemma jump_to_wf v : respects wf (fun _ => True) (jump_to v).
Proof.
  unfold jump_to. respects_step; [apply respects_mod, set_pc_next_wf|].
  respects_step; [apply respects_mod; by intros s []|apply count_wf].
Qed.
Lemma invalid_wf opcode : respects wf (fun _ => True) (invalid opcode).
Proof. unfold invalid. repeat first [apply on_host_wf|respects_step]; by apply respects_ret. Qed.
Lemma link_wf i : respects wf (fun _ => True) (link i).
Proof. unfold link. respects_step; [by respects_step|apply mips_rset_wf]. Qed.
Lemma mips_getchar_wf : respects wf (fun _ => True) getchar.
Proof. intros s []. unfold getchar. by destruct (stdin (streams s)). Qed.
Lemma mips_sram_load_wf n a : respects wf (fun _ => True) (sram_load n a).
Proof. unfold sram_load. repeat respects_step. Qed.
Lemma mips_sram_store_wf n a v : respects wf (fun _ => True) (sram_store n a v).
Proof.
  unfold sram_store. repeat respects_step. apply respects_mod.
  intros s []. split; try done; cbn [mem set_mem]. by apply store_le_ok.
Qed.
Lemma mips_mem_read_wf size a : respects wf (fun _ => True) (mem_read size a).
Proof. unfold mem_read, irq_get. repeat first [apply mips_getchar_wf|apply mips_sram_load_wf|respects_step]. Qed.

Lemma cause_land_i32 x m : is_i32 x -> is_i32 m -> is_i32 (Z.land x m).
Proof. apply is_i32_land. Qed.
Lemma small_i32 x : 0 <= x < 65536 -> is_i32 x.
Proof. unfold is_i32. lia. Qed.
Lemma mips_mem_write_wf size a v : respects wf (fun _ => True) (mem_write size a v).
Proof.
  unfold mem_write. repeat first [apply mips_sram_store_wf|apply on_host_wf|respects_step]; apply irqs_mod_wf; intros q [];
    split; try done; cbn -[i32 Z.land]; try (by apply is_i32_i32); try (by rewrite zset_length);
    try (apply is_i32_land; [done|apply small_i32; lia]); [by repeat constructor|by apply zset_Forall; [|apply is_i32_i32]].
Qed.

Lemma exec_addu_wf f : respects wf (fun _ => True) (exec_addu f).
Proof. unfold exec_addu. repeat first [apply count_wf|apply mips_rset_wf|apply mips_rget_wf_True|respects_step]. Qed.
Lemma exec_divu_wf f : respects wf (fun _ => True) (exec_divu f).
Proof.
  unfold exec_divu, uget. repeat first [apply exec_addu_wf|apply count_wf|apply mips_rget_wf_True|respects_step];
    apply respects_mod; intros s Hs; by apply set_hilo_wf.
Qed.
Lemma exec_div_wf f : respects wf (fun _ => True) (exec_div f).
Proof.
  unfold exec_div. repeat first [apply exec_divu_wf|apply count_wf|apply mips_rget_wf_True|respects_step];
    apply respects_mod; intros s Hs; by apply set_hilo_wf.
Qed.
Lemma set_product_wf p : respects wf (fun _ => True) (set_product p).
Proof.
  unfold set_product. respects_step; [|apply count_wf]. apply respects_mod. intros s []. split; try done; cbn; auto.
Qed.
Lemma set_one_wf (b : bool) v : respects wf (fun _ => True) (smod ((if b then set_hi else set_lo) v)).
Proof. apply respects_mod. intros s []. destruct b; split; try done; cbn; auto. Qed.
Ltac exec_step :=
  lazymatch goal with
  | |- respects _ _ (rget _) => apply mips_rget_wf_True
  | |- respects _ _ (rset _ _) => apply mips_rset_wf
  | |- respects _ _ (count _) => apply count_wf
  | |- respects _ _ (invalid _) => apply invalid_wf
  | |- respects _ _ (branch_if _) => apply branch_if_wf
  | |- respects _ _ (jump_to _) => apply jump_to_wf
  | |- respects _ _ (link _) => apply link_wf
  | |- respects _ _ (mem_read _ _) => apply mips_mem_read_wf
  | |- respects _ _ (mem_write _ _ _) => apply mips_mem_write_wf
  | |- respects _ _ (set_product _) => apply set_product_wf
  | |- respects _ _ (exec_addu _) => apply exec_addu_wf
  | |- respects _ _ (exec_divu _) => apply exec_divu_wf
  | |- respects _ _ (exec_div _) => apply exec_div_wf
  | |- respects _ _ (smod (set_hi _)) => apply (set_one_wf true)
  | |- respects _ _ (smod (set_lo _)) => apply (set_one_wf false)
  | |- respects _ _ (uget _) => eapply respects_weaken, mips_uget_wf
  | |- True => exact I
  | |- _ => respects_step
  end.
Lemma exec_special_wf f opcode : respects wf (fun _ => True) (exec_special f opcode).
Proof. unfold exec_special, shift_ok. by repeat exec_step. Qed.
Lemma exec_regimm_wf f opcode : respects wf (fun _ => True) (exec_regimm f opcode).
Proof. unfold exec_regimm. by repeat exec_step. Qed.
Lemma mips_exec_wf f opcode p : respects wf (fun _ => True) (exec f opcode p).
Proof.
  unfold exec, exec_j. repeat first [apply exec_special_wf|apply exec_regimm_wf|exec_step]; done.
Qed.

Lemma mips_timers_wf q : irqs_ok q -> irqs_ok (timers q).
Proof.
  intros []. unfold timers. split; try done; cbn -[Z.land Z.lor i32]; [|apply is_i32_i32].
  repeat match goal with |- context [if ?b then _ else _] => destruct b end;
    repeat first [apply is_i32_land|apply is_i32_lor|done|apply small_i32; lia].
Qed.
Lemma mips_advance_wf s : wf s -> wf (advance s).
Proof.
  intros []. unfold advance. split; try done; cbn -[i32]; [apply is_i32_i32|].
  destruct wf_irq0. destruct (status_dly (irq s)) as [|d0 [|d1 [|d2 [|d3 [|]]]]] eqn:E; try done.
  repeat match goal with H : Forall _ (_ :: _) |- _ => apply list.Forall_cons in H as [? H] end.
  split; try done; cbn. by repeat (apply list.Forall_cons; split; [done|]).
Qed.
Lemma mips_interrupt_wf s : wf s -> wf (interrupt s).
Proof.
  intros []. unfold interrupt. split; try done; cbn -[i32]; [apply wf_irq0|]. destruct wf_irq0. split; try done; cbn -[i32]; auto.
Qed.
Lemma finish_wf f b s : wf s -> wf (finish f b s).
Proof.
  intros Hs. unfold finish. set (t := bump Ins _). assert (Ht : wf t) by (by apply bump_wf, set_pc_next_wf, set_pc_next_wf).
  assert (H : wf (if b then bump Taken_bra t else t)) by (destruct b; [by apply bump_wf|done]).
  destruct H. split; try done. by apply mips_timers_wf.
Qed.
Lemma mips_cycle_wf : respects wf (fun _ => True) cycle.
Proof.
  unfold cycle. respects_step; [by respects_step|]. respects_step; [apply respects_mod, mips_interrupt_wf|].
  repeat first [apply mips_mem_read_wf|apply mips_rget_wf_True|apply mips_rset_wf|apply mips_exec_wf|apply respects_mod, mips_advance_wf
    |apply respects_mod, finish_wf|respects_step]. apply respects_mod. by intros s [].
Qed.
Lemma mips_run_wf n : respects wf (fun _ => True) (run n).
Proof. induction n as [|n IH]; cbn [run]; repeat first [apply mips_cycle_wf|apply IH|respects_step]. Qed.
Lemma mips_boot_wf image input logging s : boot image input logging = Some s -> wf s.
Proof.
  unfold boot. destruct (take _ image) as [|b l]; [done|].
  assert (Hm : bytes_ok (load_image (b :: l) 0 (store_le 4 ∅ 0 0xffffffff))).
  { apply load_image_ok, store_le_ok. intros a x. by rewrite lookup_empty. }
  intros [= <-]. split; cbn [r pc pc_next hi lo mem irq stats]; try done; try (unfold is_i32, SRAM_BASE; lia).
  - by apply (Forall_replicate is_i32 32).
  - split; try done; unfold is_i32; cbn; try lia. by repeat constructor.
Qed.
End types.

(** Every number of cycles from the start keeps each member in its C type; so
    does an exit. *)
Theorem mips_typed (image input : list Z) (logging : bool) (s : state) (n : nat) :
  boot image input logging = Some s ->
  match run n s with
  | Val _ s' => wf s'
  | Exit _ s' => wf s'
  | Undef => True
  end.
Proof. intros Hs%mips_boot_wf. pose proof (mips_run_wf n s Hs) as H. destruct (run n s); [apply H|done|done]. Qed.
