(* ===== verification/SimMipsSpec.v ===== *)
(** * The HF-RISC simulator executes MIPS I

    The multiplication routines of [hf_risc_sim.c] are exact; its decoder
    recovers the operands of every encoded instruction; and a simulator cycle
    has exactly the effect the instruction set specifies, delay slots included,
    outside the cases [sim_ok] singles out. *)

From S2P Require Import Prelude Words SimBase Mips SimMips.

#[local] Open Scope Z_scope.

(** ** Multiplication *)
Section multiplication.
Implicit Types a b : Z.

Lemma land_low16 x : Z.land x 0xffff = x mod 65536.
Proof. by apply (land_ones_eq x 0xffff 16). Qed.
Lemma mips_shiftr_16 x : Z.shiftr x 16 = x / 65536.
Proof. by rewrite Z.shiftr_div_pow2. Qed.
Lemma shiftl_16 x : Z.shiftl x 16 = x * 65536.
Proof. by rewrite Z.shiftl_mul_pow2. Qed.

(** The sum of the partial products, with the carries. *)
Lemma partial_sum p3 p1 p2 p0 x m : x = p3 * 4294967296 + (p1 + p2) * 65536 + p0 ->
  m = p1 mod 65536 + p2 mod 65536 + p0 / 65536 ->
  x / 4294967296 = p3 + (p1 / 65536 + p2 / 65536) + m / 65536 /\
  x mod 4294967296 = m mod 65536 * 65536 + p0 mod 65536.
Proof.
  intros -> ->. pose proof (Z.div_mod p1 65536 ltac:(lia)). pose proof (Z.div_mod p2 65536 ltac:(lia)).
  pose proof (Z.div_mod p0 65536 ltac:(lia)).
  set (m := p1 mod 65536 + p2 mod 65536 + p0 / 65536) in *. pose proof (Z.div_mod m 65536 ltac:(lia)).
  pose proof (Z.mod_pos_bound m 65536 ltac:(lia)). pose proof (Z.mod_pos_bound p0 65536 ltac:(lia)).
  assert (E : p3 * 4294967296 + (p1 + p2) * 65536 + p0 =
    (m mod 65536 * 65536 + p0 mod 65536) + (p3 + (p1 / 65536 + p2 / 65536) + m / 65536) * 4294967296) by lia.
  rewrite E. split; [rewrite Z.div_add, Z.div_small by lia; lia|rewrite Z_mod_plus_full, Z.mod_small by lia; done].
Qed.

Lemma halves x : x = x / 65536 * 65536 + x mod 65536.
Proof. pose proof (Z.div_mod x 65536). lia. Qed.
Lemma product_halves a b : a * b = (a / 65536) * (b / 65536) * 4294967296 +
  ((a / 65536) * (b mod 65536) + (a mod 65536) * (b / 65536)) * 65536 + (a mod 65536) * (b mod 65536).
Proof. rewrite (halves a) at 1. rewrite (halves b) at 1. ring. Qed.

Lemma mult_unsigned_words a b : is_u32 a -> is_u32 b ->
  mult_unsigned a b = ((a * b) / 4294967296, (a * b) mod 4294967296).
Proof.
  unfold is_u32. intros Ha Hb. unfold mult_unsigned. rewrite !land_low16, !mips_shiftr_16, !shiftl_16.
  assert (Ba : 0 <= a / 65536 < 65536) by (Z.div_mod_to_equations; lia).
  assert (Bb : 0 <= b / 65536 < 65536) by (Z.div_mod_to_equations; lia).
  pose proof (Z.mod_pos_bound a 65536 ltac:(lia)) as La. pose proof (Z.mod_pos_bound b 65536 ltac:(lia)) as Lb.
  pose proof (product_halves a b) as P. assert (X : 0 <= a * b < 18446744073709551616) by nia.
  revert Ba Bb La Lb P. generalize (a / 65536) (b / 65536) (a mod 65536) (b mod 65536). intros ah bh al bl Ba Bb La Lb P.
  rewrite (u32_small (al * bl)), (u32_small (ah * bl)), (u32_small (al * bh)), (u32_small (ah * bh)) by nia.
  assert (B0 : 0 <= al * bl < 4294967296) by nia. assert (B1 : 0 <= ah * bl < 4294967296) by nia.
  assert (B2 : 0 <= al * bh < 4294967296) by nia. assert (B3 : 0 <= ah * bh < 4294967296) by nia.
  revert P B0 B1 B2 B3 X. generalize (a * b) (al * bl) (ah * bl) (al * bh) (ah * bh). clear. intros x p0 p1 p2 p3 P B0 B1 B2 B3 X.
  destruct (partial_sum p3 p1 p2 p0 x _ P eq_refl) as [Eh El]. set (m := p1 mod 65536 + p2 mod 65536 + p0 / 65536) in *.
  assert (Bm : 0 <= m < 196608) by (unfold m; Z.div_mod_to_equations; lia).
  rewrite (u32_small (p1 mod 65536 + p2 mod 65536)) by (Z.div_mod_to_equations; lia). rewrite (u32_small (_ + p0 / 65536)) by (fold m; lia).
  fold m. rewrite El, Eh. assert (Bx : 0 <= x / 4294967296 < 4294967296) by (Z.div_mod_to_equations; lia).
  rewrite Eh in Bx. assert (Bq : 0 <= p1 / 65536 < 65536 /\ 0 <= p2 / 65536 < 65536) by (Z.div_mod_to_equations; lia).
  assert (Bmq : 0 <= m / 65536) by (apply Z.div_pos; lia).
  rewrite (u32_small (p1 / 65536 + p2 / 65536)), (u32_small (p3 + _)), (u32_small (p3 + _ + _)) by lia. f_equal.
  rewrite u32_add_l. unfold u32. replace (m * 65536) with (m mod 65536 * 65536 + m / 65536 * 4294967296)
    by (rewrite (halves m) at 3; ring).
  replace (m mod 65536 * 65536 + m / 65536 * 4294967296 + p0 mod 65536)
    with (m mod 65536 * 65536 + p0 mod 65536 + m / 65536 * 4294967296) by ring.
  rewrite Z_mod_plus_full. apply Z.mod_small. Z.div_mod_to_equations; lia.
Qed.

Lemma mult_signed_words a b : is_i32 a -> is_i32 b ->
  mult_signed a b = (u32 ((a * b) / 4294967296), u32 (a * b)).
Proof.
  unfold is_i32. intros Ha Hb. unfold mult_signed. rewrite !land_low16, !mips_shiftr_16, !shiftl_16.
  assert (Ba : -32768 <= a / 65536 < 32768) by (Z.div_mod_to_equations; lia).
  assert (Bb : -32768 <= b / 65536 < 32768) by (Z.div_mod_to_equations; lia).
  pose proof (Z.mod_pos_bound a 65536 ltac:(lia)) as La. pose proof (Z.mod_pos_bound b 65536 ltac:(lia)) as Lb.
  pose proof (product_halves a b) as P.
  revert Ba Bb La Lb P. generalize (a / 65536) (b / 65536) (a mod 65536) (b mod 65536). intros ah bh al bl Ba Bb La Lb P.
  assert (B0 : 0 <= al * bl < 4294967296) by nia. assert (B1 : -2147483648 <= ah * bl < 2147483648) by nia.
  assert (B2 : -2147483648 <= al * bh < 2147483648) by nia.
  replace (i32 (u32 ah * bl)) with (ah * bl) by (by rewrite i32_mul_u32, i32_small).
  replace (i32 (al * u32 bh)) with (al * bh) by (rewrite (Z.mul_comm al (u32 bh)), i32_mul_u32, (Z.mul_comm bh al), i32_small by lia; done).
  rewrite u32_mul_l, u32_mul_r, (u32_small (al * bl)) by done.
  revert P B0 B1 B2. generalize (a * b) (al * bl) (ah * bl) (al * bh) (ah * bh). clear. intros x p0 p1 p2 p3 P B0 B1 B2.
  destruct (partial_sum p3 p1 p2 p0 x _ P eq_refl) as [Eh El]. set (m := p1 mod 65536 + p2 mod 65536 + p0 / 65536) in *.
  assert (Bm : 0 <= m < 196608) by (unfold m; Z.div_mod_to_equations; lia). rewrite (u32_small m) by lia. f_equal.
  - by rewrite Eh, (u32_add_l p3), (u32_add_r p3), u32_add_l.
  - rewrite u32_add_l. unfold u32 at 2. rewrite El. replace (m * 65536) with (m mod 65536 * 65536 + m / 65536 * 4294967296)
      by (rewrite (halves m) at 3; ring).
    replace (m mod 65536 * 65536 + m / 65536 * 4294967296 + p0 mod 65536)
      with (m mod 65536 * 65536 + p0 mod 65536 + m / 65536 * 4294967296) by ring.
    unfold u32. rewrite Z_mod_plus_full. apply Z.mod_small. Z.div_mod_to_equations; lia.
Qed.
End multiplication.

(** ** The decoder *)
Section decoder.
Implicit Types w : Z.

Lemma decode_arith w : 0 <= w < 4294967296 -> decode w =
  mk_fields (w / 67108864) ((w / 2097152) mod 32) ((w / 65536) mod 32) ((w / 2048) mod 32) ((w / 64) mod 32)
    (w mod 64) (w mod 65536) (w mod 67108864 * 4).
Proof.
  intros Hw. unfold decode. rewrite (land_ones_eq _ 0x3f 6), (land_ones_eq w 0x3f 6), (land_ones_eq w 0xffff 16),
    !(land_ones_eq _ 0x1f 5) by done.
  rewrite !Z.shiftr_div_pow2, Z.shiftl_mul_pow2 by lia. pow_norm. f_equal; word_lia.
Qed.

Lemma mips_decode_r o s t d a fn : 0 <= o < 64 -> is_reg s -> is_reg t -> is_reg d -> is_reg a -> 0 <= fn < 64 ->
  0 <= r_type o s t d a fn < 4294967296 /\ exists m tg, decode (r_type o s t d a fn) = mk_fields o s t d a fn m tg.
Proof.
  unfold is_reg. intros. set (w := r_type o s t d a fn). assert (Hw : 0 <= w < 4294967296) by (unfold w, r_type; lia).
  split; [done|]. eexists _, _. rewrite decode_arith by done. f_equal; unfold w, r_type; Z.div_mod_to_equations; lia.
Qed.
Lemma mips_decode_i o s t imm : 0 <= o < 64 -> is_reg s -> is_reg t ->
  0 <= i_type o s t imm < 4294967296 /\
  exists d a fn tg, decode (i_type o s t imm) = mk_fields o s t d a fn (imm mod 65536) tg.
Proof.
  unfold is_reg, i_type. intros. pose proof (Z.mod_pos_bound imm 65536 ltac:(lia)) as Hi. revert Hi. generalize (imm mod 65536). intros m Hi.
  set (w := _ + m). assert (Hw : 0 <= w < 4294967296) by (unfold w; lia).
  split; [done|]. eexists _, _, _, _. rewrite decode_arith by done. f_equal; unfold w; Z.div_mod_to_equations; lia.
Qed.
Lemma mips_decode_j o tg : 0 <= o < 64 -> 0 <= tg < 67108864 ->
  0 <= j_type o tg < 4294967296 /\
  exists s t d a fn m, decode (j_type o tg) = mk_fields o s t d a fn m (tg * 4) /\ is_reg s.
Proof.
  intros. unfold j_type. set (w := _ + tg). assert (Hw : 0 <= w < 4294967296) by (unfold w; lia).
  split; [done|]. rewrite decode_arith by done. do 6 eexists.
  replace (w / 67108864) with o by (unfold w; Z.div_mod_to_equations; lia).
  replace (w mod 67108864) with tg by (unfold w; Z.div_mod_to_equations; lia).
  split; [reflexivity|]. unfold is_reg. Z.div_mod_to_equations; lia.
Qed.
End decoder.

(** ** Big-endian memory on a little-endian host *)
Section endian.
Implicit Types (m : gmap Z Z) (a v : Z).

Lemma ntohl_bytes b0 b1 b2 b3 : 0 <= b0 < 256 -> 0 <= b1 < 256 -> 0 <= b2 < 256 -> 0 <= b3 < 256 ->
  ntohl (b0 + 256 * b1 + 65536 * b2 + 16777216 * b3) = b3 + 256 * b2 + 65536 * b1 + 16777216 * b0.
Proof.
  intros. set (w := _ + 16777216 * b3). unfold ntohl.
  assert (E3 : Z.shiftr w 24 = b3) by (rewrite Z.shiftr_div_pow2 by lia; unfold w; pow_norm; Z.div_mod_to_equations; lia).
  assert (E2 : Z.shiftr (Z.land w 0xff0000) 8 = b2 * 2 ^ 8).
  { rewrite (land_field_shr w 0xff0000 16 8 8) by (done || lia). unfold w. pow_norm. change (16 - 8) with 8. pow_norm. Z.div_mod_to_equations; lia. }
  assert (E1 : u32 (Z.shiftl (Z.land w 0xff00) 8) = b1 * 2 ^ 16).
  { change 0xff00 with (Z.shiftl (Z.ones 8) 8). rewrite land_field, Z.shiftl_mul_pow2 by lia. pow_norm.
    replace (w / 256 mod 256) with b1 by (unfold w; Z.div_mod_to_equations; lia). rewrite u32_small; lia. }
  assert (E0 : u32 (Z.shiftl w 24) = b0 * 2 ^ 24) by (rewrite Z.shiftl_mul_pow2 by lia; unfold w; pow_norm; word_lia).
  rewrite E0, E1, E2, E3. rewrite (lor_above_r b3 b2 8), (lor_above_r _ b1 16), (lor_above_r _ b0 24) by (pow_norm; lia). pow_norm. lia.
Qed.
Lemma ntohs_bytes b0 b1 : 0 <= b0 < 256 -> 0 <= b1 < 256 -> ntohs (b0 + 256 * b1) = b1 + 256 * b0.
Proof.
  intros. unfold ntohs. rewrite (land_ones_eq _ 0xff 8), Z.shiftr_div_pow2, Z.shiftl_mul_pow2 by done. pow_norm.
  replace ((b0 + 256 * b1) / 256) with b1 by (Z.div_mod_to_equations; lia).
  replace ((b0 + 256 * b1) mod 256) with b0 by (Z.div_mod_to_equations; lia).
  change 256 with (2 ^ 8) at 1. rewrite lor_above_r by (pow_norm; lia). pow_norm. lia.
Qed.

Lemma load_swapped m a : bytes_ok m -> ntohl (load_le 4 m a) = load_be 4 m a /\ ntohs (load_le 2 m a) = load_be 2 m a.
Proof.
  intros Hm. pose proof (byte_at_range m a Hm). pose proof (byte_at_range m (a + 1) Hm). pose proof (byte_at_range m (a + 1 + 1) Hm).
  pose proof (byte_at_range m (a + 1 + 1 + 1) Hm). cbn [load_le load_be].
  change (256 ^ Z.of_nat 3) with 16777216. change (256 ^ Z.of_nat 2) with 65536. change (256 ^ Z.of_nat 1) with 256. change (256 ^ Z.of_nat 0) with 1.
  rewrite !Z.mul_0_r, !Z.add_0_r. split.
  - rewrite <- (Z.mul_1_r (byte_at m (a + 1 + 1 + 1))) at 2.
    replace (byte_at m a + 256 * (byte_at m (a + 1) + 256 * (byte_at m (a + 1 + 1) + 256 * byte_at m (a + 1 + 1 + 1)))) with
      (byte_at m a + 256 * byte_at m (a + 1) + 65536 * byte_at m (a + 1 + 1) + 16777216 * byte_at m (a + 1 + 1 + 1)) by ring.
    rewrite ntohl_bytes by done. ring.
  - rewrite ntohs_bytes by done. ring.
Qed.

Lemma be_bytes v : is_u32 v -> v = v mod 256 + 256 * ((v / 256) mod 256) + 65536 * ((v / 65536) mod 256) + 16777216 * (v / 16777216).
Proof. unfold is_u32. intros. Z.div_mod_to_equations; lia. Qed.
Lemma store_le_byte n m a b v : 0 <= b < 256 -> store_le (S n) m a (b + 256 * v) = store_le n (<[a := b]> m) (a + 1) v.
Proof. intros Hb. cbn [store_le]. f_equal; [f_equal|]; word_lia. Qed.
Lemma store_swapped m a v : is_u32 v ->
  store_le 4 m a (ntohl v) = store_be 4 m a v /\ store_le 2 m a (u16 (ntohs (u16 v))) = store_be 2 m a v /\
  store_le 1 m a (u8 v) = store_be 1 m a v.
Proof.
  intros Hv. cbn [store_be]. change (256 ^ Z.of_nat 3) with 16777216. change (256 ^ Z.of_nat 2) with 65536.
  change (256 ^ Z.of_nat 1) with 256. change (256 ^ Z.of_nat 0) with 1. rewrite Z.div_1_r.
  pose proof (be_bytes v Hv) as E. unfold is_u32 in Hv. unfold u8.
  assert (B3 : 0 <= v / 16777216 < 256) by (Z.div_mod_to_equations; lia).
  pose proof (Z.mod_pos_bound v 256 ltac:(lia)) as B0. pose proof (Z.mod_pos_bound (v / 256) 256 ltac:(lia)) as B1.
  pose proof (Z.mod_pos_bound (v / 65536) 256 ltac:(lia)) as B2. rewrite (Z.mod_small (v / 16777216)) by done.
  split; [|split].
  - rewrite E at 1. rewrite ntohl_bytes by done. rewrite <- (Z.mul_1_r (v mod 256)).
    replace (v / 16777216 + 256 * ((v / 65536) mod 256) + 65536 * ((v / 256) mod 256) + 16777216 * (v mod 256 * 1)) with
      (v / 16777216 + 256 * ((v / 65536) mod 256 + 256 * ((v / 256) mod 256 + 256 * (v mod 256 + 256 * 0)))) by ring.
    rewrite !store_le_byte by done. by rewrite Z.mul_1_r.
  - assert (Eu : u16 v = v mod 256 + 256 * ((v / 256) mod 256)) by word_lia. rewrite Eu, ntohs_bytes by done.
    rewrite u16_small by lia. replace ((v / 256) mod 256 + 256 * (v mod 256)) with ((v / 256) mod 256 + 256 * (v mod 256 + 256 * 0)) by ring.
    by rewrite !store_le_byte.
  - cbn [store_le]. unfold u8. by rewrite Z.mod_mod.
Qed.
End endian.

(** ** What a cycle does *)

(** The register file as the instruction set sees it. *)
Definition xview (s : state) (i : Z) : Z := if i =? 0 then 0 else default 0 (zget (r s) i).
Definition ram (s : state) (n : nat) (a : Z) : Z := load_be n (mem s) (a mod MEM_SIZE).

Definition regs_after (w : option (Z * Z)) (l : list Z) : list Z :=
  match w with
  | Some (d, v) => zset (zset l 0 0) d v
  | None => zset l 0 0
  end.
Definition mem_after (w : option (nat * Z * Z)) (m : gmap Z Z) : gmap Z Z :=
  match w with
  | Some (n, a, v) => store_be n m (a mod MEM_SIZE) v
  | None => m
  end.

(** The statistics an instruction counts in, whether it is a branch or a jump,
    and whether it is a branch that is taken. *)
Definition class_of (i : instr) : stat :=
  match i with
  | Mips.Shift _ _ _ _ | ShiftV _ _ _ _ => Shift
  | Op op _ _ _ | OpImm op _ _ _ =>
      match op with Addu | Subu => Arith | And | Or | Xor | Nor => Logic | Slt | Sltu => Comp end
  | Lui _ _ | Mfhi _ | Mthi _ | Mflo _ | Mtlo _ => Other
  | Mult _ _ _ => Mul
  | Mips.Div _ _ _ => Div
  | J _ _ | Jr _ | Jalr _ _ => Jmp
  | Branch _ _ _ _ | BranchLink _ _ _ => Bra
  | Load _ _ _ _ _ | Store _ _ _ _ => Ls
  end.
Definition transfers (i : instr) : bool :=
  match i with J _ _ | Jr _ | Jalr _ _ | Branch _ _ _ _ | BranchLink _ _ _ => true | _ => false end.
Definition taken (x : Z -> Z) (i : instr) : bool :=
  match i with
  | Branch c rs rt _ => holds c (x rs) (x rt)
  | BranchLink c rs _ => holds c (x rs) 0
  | _ => false
  end.

(** The state after the switch: [n] is in [pc_next]. *)
Definition executed (i : instr) (e : effect) (n : Z) (s : state) : state :=
  bump (class_of i) (set_flags (cbool (transfers i)) (nox_bds s) (set_pcs (pc_next s) n
    (set_mem (mem_after (e_mem e) (mem s)) (set_hilo (default (hi s) (e_hi e)) (default (lo s) (e_lo e))
      (set_r (regs_after (e_reg e) (r s)) (advance s)))))).
(** The state after a cycle with effect [e]: registers, memory and program
    counters as the effect says, the interrupt enable delay, [j], the
    statistics and the timers. *)
Definition apply_effect (i : instr) (e : effect) (s : state) : state :=
  let t := bump Ins (executed i e (i32 (e_next e)) s) in
  on_irq timers (if taken (xview s) i then bump Taken_bra t else t).

(** No interrupt is taken, no cycle is skipped, the program counters are
    aligned addresses, and the word at [pc] is [i]. *)
Record ready (s : state) (i : instr) : Prop := mk_ready {
  ready_wf : wf s;
  ready_irq : interrupted s = false;
  ready_nox : nox_bds s = 0;
  ready_aligned : pc s mod 4 = 0;
  ready_next : pc_next s mod 4 = 0;
  ready_below : u32 (pc s) < EXIT_TRAP;
  ready_valid : valid i;
  ready_fetch : ram s 4 (u32 (pc s)) = encode i
}.

(** The cases in which the simulator follows the instruction set. *)
Definition in_ram (n : nat) (a : Z) : Prop := a mod Z.of_nat n = 0 /\ a < EXIT_TRAP.
Definition sim_ok (s : state) (i : instr) : Prop :=
  match i with
  | ShiftV _ _ _ rs => 0 <= xview s rs < 32
  | Jr rs | Jalr _ rs => xview s rs mod 4 = 0
  | Mips.Div signed rs rt =>
      xview s rt <> 0 /\ (signed = true -> ~ (xview s rs = -2147483648 /\ xview s rt = -1))
  | Load w _ _ rs imm | Store w _ rs imm =>
      (rs = 0 -> zget (r s) 0 = Some 0) /\ in_ram (width_bytes w) (u32 (xview s rs + imm))
  | _ => True
  end.

Section machine.
Context (s : state) (Hwf : wf s).

Lemma mips_zget_in_range (k : Z) : is_reg k -> exists v, zget (r s) k = Some v /\ is_i32 v.
Proof.
  intros Hk. destruct (zget_is_Some (r s) k) as [v Hv].
  { unfold zlen. rewrite (wf_r_len s Hwf). exact Hk. }
  exists v. split; [done|]. eapply zget_Forall; [apply Hwf|exact Hv].
Qed.
Lemma mips_xview_range k : is_reg k -> is_i32 (xview s k).
Proof.
  intros Hk. unfold xview. destruct (Z.eqb_spec k 0); [unfold is_i32; lia|].
  destruct (mips_zget_in_range k Hk) as (v & -> & Hv). done.
Qed.

(** The state the switch starts in. *)
Definition cleared : state := advance (set_r (zset (r s) 0 0) s).
Lemma cleared_len : zlen (zset (r s) 0 0) = 32.
Proof. unfold zlen. by rewrite zset_length, (wf_r_len s Hwf). Qed.

Lemma mips_rget_cleared k : is_reg k -> rget k cleared = Val (xview s k) cleared.
Proof.
  intros Hk. unfold rget; sm_unfold. cbn [r cleared advance set_flags set_pcs on_irq set_r]. unfold xview.
  destruct (Z.eqb_spec k 0) as [->|Hne].
  - rewrite zget_zset_eq; [done|]. unfold zlen. rewrite (wf_r_len s Hwf). lia.
  - rewrite zget_zset_ne by lia. destruct (mips_zget_in_range k Hk) as (v & -> & _). done.
Qed.
Lemma mips_uget_cleared k : is_reg k -> uget k cleared = Val (u32 (xview s k)) cleared.
Proof. intros Hk. unfold uget. by rewrite (SM_bind_Val _ _ _ _ _ (mips_rget_cleared k Hk)). Qed.
Lemma mips_rset_cleared k v : is_reg k -> rset k v cleared = Val tt (set_r (regs_after (Some (k, i32 v)) (r s)) cleared).
Proof.
  intros Hk. unfold rset; sm_unfold. cbn [r cleared advance set_flags set_pcs on_irq set_r].
  destruct (zget_is_Some (zset (r s) 0 0) k) as [x ->]; [|done]. rewrite cleared_len. exact Hk.
Qed.

(** *** The switch, case by case *)

Lemma write_counts i f d v k : is_reg d -> class_of i = k -> transfers i = false ->
  (_ ← rset d v; count k) cleared = Val false (executed i (falls f (Some (d, i32 v))) (i32 (pc_next s + 4)) s).
Proof. intros Hd <- Ht. rewrite (SM_bind_Val _ _ _ _ _ (mips_rset_cleared d v Hd)). unfold executed. by rewrite Ht. Qed.
Lemma jump_counts i w v t : t = set_r (regs_after w (r s)) cleared -> class_of i = Jmp -> transfers i = true ->
  jump_to v t = Val false (executed i (mk_effect w None None 0 None) (i32 v) s).
Proof. intros -> Hc Ht. unfold jump_to, executed. by rewrite Hc, Ht. Qed.
Lemma branch_counts i w b t : t = set_r (regs_after w (r s)) cleared -> class_of i = Bra -> transfers i = true ->
  branch_if b t = Val b (executed i (mk_effect w None None 0 None) (i32 (pc_next s + 4)) s).
Proof. intros -> Hc Ht. unfold branch_if, executed. by rewrite Hc, Ht. Qed.
(** *** Where control goes *)
Context (Hal : pc_next s mod 4 = 0).

Lemma land_not3 x : x mod 4 = 0 -> Z.land x (Z.lnot 3) = x.
Proof.
  intros Hx. rewrite <- Z.ldiff_land. change 3 with (Z.ones 2). rewrite Z.ldiff_ones_r by lia.
  rewrite Z.shiftr_div_pow2, Z.shiftl_mul_pow2 by lia. change (2 ^ 2) with 4. Z.div_mod_to_equations; lia.
Qed.
Definition goes_to (n d v : Z) : Prop := i32 (Z.land (i32 (n + d)) (Z.lnot 3)) = i32 v.
Lemma goes_aligned n d v : v mod 4 = 0 -> i32 (n + d) = i32 v -> goes_to n d v.
Proof. intros Hv E. unfold goes_to. rewrite E, land_not3, i32_i32; [done|word_lia]. Qed.
Lemma goes_on : goes_to (i32 (pc_next s + 4)) 0 (u32 (u32 (pc_next s) + 4)).
Proof. apply goes_aligned; word_lia. Qed.
Lemma imm_shift_simm f off : imm f = off mod 65536 -> is_simm off -> imm_shift f = off * 4 - 4 /\ i16 (imm f) = off.
Proof.
  unfold is_simm. intros E Ho. assert (Ei : i16 (imm f) = off) by (rewrite E; word_lia). unfold imm_shift. rewrite Ei.
  rewrite Z.shiftl_mul_pow2 by lia. change (2 ^ 2) with 4. split; [word_lia|done].
Qed.
Lemma goes_branch f off (b : bool) : imm f = off mod 65536 -> is_simm off ->
  goes_to (i32 (pc_next s + 4)) (if b then imm_shift f else 0)
    (if b then u32 (u32 (pc_next s) + off * 4) else u32 (u32 (pc_next s) + 4)).
Proof.
  intros E Ho. destruct b; [|apply goes_on]. rewrite (proj1 (imm_shift_simm f off E Ho)). unfold is_simm in Ho.
  apply goes_aligned; word_lia.
Qed.

(** The switch has effect [e] and [branch] is [b]. *)
Definition does (i : instr) (f : fields) (m : SM state bool) (b : bool) (e : effect) : Prop :=
  exists n, m cleared = Val b (executed i e n s) /\ goes_to n (if b then imm_shift f else 0) (e_next e).
Lemma does_write i f d v v' k m : m = (_ ← rset d v; count k) -> is_reg d -> class_of i = k -> transfers i = false -> i32 v = v' ->
  does i f m false (falls (u32 (pc_next s)) (Some (d, v'))).
Proof.
  intros -> Hd Hc Ht <-. exists (i32 (pc_next s + 4)). split; [by apply write_counts|apply goes_on].
Qed.
Lemma does_read {A : Type} i f (g : SM state A) a k b e : g cleared = Val a cleared -> does i f (k a) b e -> does i f (g ≫= k) b e.
Proof. intros Eg (n & Ek & G). exists n. by rewrite (SM_bind_Val _ _ _ _ _ Eg). Qed.
Ltac reads :=
  repeat first [eapply does_read; [by apply mips_rget_cleared|]|eapply does_read; [by apply mips_uget_cleared|]
    |eapply does_read; [by apply shift_ok_run|]].

Lemma does_shift op d t a m tg w p : is_reg d -> is_reg t -> is_reg a ->
  let f := mk_fields 0 0 t d a (shift_func op) m tg in
  does (Mips.Shift op d t a) f (exec f w p) false (falls (u32 (pc_next s)) (Some (d, shift_result op (xview s t) a))).
Proof.
  intros Hd Ht Ha f. pose proof (mips_xview_range t Ht) as Hx. unfold is_reg in Ha.
  destruct op; subst f; cbn [exec SimMips.op exec_special func shift_func rt re]; reads; eapply does_write; try done; cbn [shift_result];
    rewrite ?Z.shiftl_mul_pow2, ?Z.shiftr_div_pow2 by lia; try done. apply is_i32_small, is_i32_sra; [done|lia].
Qed.
Lemma does_shiftv op d t v m tg w p : is_reg d -> is_reg t -> is_reg v -> 0 <= xview s v < 32 ->
  let f := mk_fields 0 v t d 0 (4 + shift_func op) m tg in
  does (ShiftV op d t v) f (exec f w p) false (falls (u32 (pc_next s)) (Some (d, shift_result op (xview s t) (xview s v mod 32)))).
Proof.
  intros Hd Ht Hv Hn f. pose proof (mips_xview_range t Ht) as Hx. rewrite (Z.mod_small (xview s v)) by done.
  destruct op; subst f; cbn [exec SimMips.op exec_special func shift_func Z.add Pos.add rt rs]; reads; eapply does_write; try done; cbn [shift_result rt rs];
    rewrite ?Z.shiftl_mul_pow2, ?Z.shiftr_div_pow2 by lia; try done. apply is_i32_small, is_i32_sra; [done|lia].
Qed.
Lemma is_i32_lnot a : is_i32 a -> is_i32 (Z.lnot a).
Proof. unfold is_i32, Z.lnot. lia. Qed.
Lemma does_op op d a b m tg w p : is_reg d -> is_reg a -> is_reg b ->
  let f := mk_fields 0 a b d 0 (alu_func op) m tg in
  does (Op op d a b) f (exec f w p) false (falls (u32 (pc_next s)) (Some (d, alu_result op (xview s a) (xview s b)))).
Proof.
  intros Hd Ha Hb f. pose proof (mips_xview_range a Ha) as Hx. pose proof (mips_xview_range b Hb) as Hy.
  destruct op; subst f; cbn [exec SimMips.op exec_special exec_addu func alu_func rt rs]; reads; eapply does_write; try done; cbn [alu_result];
    rewrite ?cbool_i32; try done; apply is_i32_small; auto using is_i32_lxor, is_i32_lor, is_i32_land, is_i32_lnot.
Qed.
Lemma does_op_imm op t a i d re fn tg w p : is_reg t -> is_reg a -> op <> Subu -> op <> Nor -> (if is_logic op then is_uimm i else is_simm i) ->
  let f := mk_fields (imm_op op) a t d re fn (i mod 65536) tg in
  does (OpImm op t a i) f (exec f w p) false (falls (u32 (pc_next s)) (Some (t, alu_result op (xview s a) i))).
Proof.
  intros Ht Ha Hns Hnn Hi f. pose proof (mips_xview_range a Ha) as Hx.
  assert (Es : is_simm i -> i16 (i mod 65536) = i) by (intros H; by apply (imm_shift_simm f i)).
  assert (Eu : is_uimm i -> i mod 65536 = i) by (unfold is_uimm; intros H; apply Z.mod_small; lia).
  destruct op; try done; cbn [is_logic] in Hi; subst f; cbn [exec SimMips.op imm_op rt rs imm]; first [specialize (Es Hi); rewrite Es|specialize (Eu Hi); rewrite Eu];
    reads; eapply does_write; try done; cbn [alu_result]; rewrite ?cbool_i32; try done.
  - by rewrite u32_add_l, i32_u32.
  - apply is_i32_small, is_i32_land; [done|unfold is_i32, is_uimm in *; lia].
  - apply is_i32_small, is_i32_lor; [done|unfold is_i32, is_uimm in *; lia].
  - apply is_i32_small, is_i32_lxor; [done|unfold is_i32, is_uimm in *; lia].
Qed.
Lemma does_lui t i a d re fn tg w p : is_reg t -> is_uimm i ->
  let f := mk_fields 0xf a t d re fn (i mod 65536) tg in
  does (Lui t i) f (exec f w p) false (falls (u32 (pc_next s)) (Some (t, i32 (i * 65536)))).
Proof.
  intros Ht Hi f. unfold is_uimm in Hi. subst f. cbn [exec SimMips.op rt imm]. eapply does_write; try done.
  by rewrite i32_u32, Z.shiftl_mul_pow2, Z.mod_small by lia.
Qed.

(** *** HI and LO *)
Lemma does_from_hilo (high : bool) d m tg w p : is_reg d ->
  let f := mk_fields 0 0 0 d 0 (if high then 0x10 else 0x12) m tg in
  does (if high then Mfhi d else Mflo d) f (exec f w p) false (falls (u32 (pc_next s)) (Some (d, if high then hi s else lo s))).
Proof.
  intros Hd f. subst f. destruct high; cbn [exec SimMips.op exec_special func].
  - eapply (does_read _ _ _ (hi s)); [done|]. eapply does_write; try done. apply is_i32_small, Hwf.
  - eapply (does_read _ _ _ (lo s)); [done|]. eapply does_write; try done. apply is_i32_small, Hwf.
Qed.
(** A switch that leaves the registers and falls through. *)
Lemma does_quietly i f h l k m : class_of i = k -> transfers i = false ->
  m cleared = Val false (bump k (set_hilo (default (hi s) h) (default (lo s) l) cleared)) ->
  does i f m false (mk_effect None h l (u32 (u32 (pc_next s) + 4)) None).
Proof.
  intros <- Ht E. exists (i32 (pc_next s + 4)). split; [|apply goes_on]. rewrite E. unfold executed. by rewrite Ht.
Qed.
Lemma does_to_hilo (high : bool) a m tg w p : is_reg a ->
  let f := mk_fields 0 a 0 0 0 (if high then 0x11 else 0x13) m tg in
  does (if high then Mthi a else Mtlo a) f (exec f w p) false
    (mk_effect None (if high then Some (xview s a) else None) (if high then None else Some (xview s a)) (u32 (u32 (pc_next s) + 4)) None).
Proof.
  intros Ha f. subst f. pose proof (is_i32_small _ (mips_xview_range a Ha)) as E.
  destruct high; cbn [exec SimMips.op exec_special func rs]; reads; apply (does_quietly _ _ _ _ Other); try done; cbn [default];
    rewrite <- E at 2; done.
Qed.
Lemma does_mult (signed : bool) a b m tg w p : is_reg a -> is_reg b ->
  let f := mk_fields 0 a b 0 0 (if signed then 0x18 else 0x19) m tg in
  let x := product signed (xview s a) (xview s b) in
  does (Mult signed a b) f (exec f w p) false
    (mk_effect None (Some (i32 (x / 4294967296))) (Some (i32 x)) (u32 (u32 (pc_next s) + 4)) None).
Proof.
  intros Ha Hb f x. pose proof (mips_xview_range a Ha) as Hx. pose proof (mips_xview_range b Hb) as Hy.
  subst f x. destruct signed; cbn [exec SimMips.op exec_special func rs rt product]; reads.
  - rewrite mult_signed_words by done. apply (does_quietly _ _ _ _ Mul); try done.
    cbn [default]. rewrite <- (i32_u32 (_ / _)), <- (i32_u32 (_ * _)). done.
  - rewrite mult_unsigned_words by apply is_u32_u32. apply (does_quietly _ _ _ _ Mul); try done.
    cbn [default]. rewrite <- (i32_u32 (_ * _)). done.
Qed.
Lemma does_div (signed : bool) a b m tg w p : is_reg a -> is_reg b -> sim_ok s (Mips.Div signed a b) ->
  let f := mk_fields 0 a b 0 0 (if signed then 0x1a else 0x1b) m tg in
  does (Mips.Div signed a b) f (exec f w p) false (mk_effect None (Some (i32 (remainder signed (xview s a) (xview s b))))
    (Some (i32 (quotient signed (xview s a) (xview s b)))) (u32 (u32 (pc_next s) + 4)) None).
Proof.
  intros Ha Hb [Hz Ho] f. pose proof (mips_xview_range b Hb) as Hy. unfold is_i32 in Hy.
  subst f. destruct signed; cbn [exec SimMips.op exec_special func exec_div exec_divu rs rt remainder quotient].
  - unfold exec_div; cbn [rs rt]. reads. destruct (Z.eqb_spec (xview s b) 0); [done|]. reads.
    destruct (Z.eqb_spec (xview s a) (-2147483648)), (Z.eqb_spec (xview s b) (-1)); cbn [andb negb];
      first [by destruct (Ho eq_refl)|eapply (does_read _ _ _ tt); [done|]; by apply (does_quietly _ _ _ _ Div)].
  - unfold exec_divu; cbn [rs rt]. reads. destruct (Z.eqb_spec (u32 (xview s b)) 0) as [E|]; [exfalso; word_lia|]. reads.
    by apply (does_quietly _ _ _ _ Div).
Qed.
(** *** Jumps and branches *)
Lemma link_cleared k : is_reg k -> link k cleared =
  Val tt (set_r (regs_after (Some (k, i32 (u32 (u32 (pc_next s) + 4)))) (r s)) cleared).
Proof.
  intros Hk. unfold link. rewrite (SM_bind_Val _ _ _ (i32 (pc_next s + 4)) cleared) by done. rewrite mips_rset_cleared by done.
  replace (i32 (i32 (pc_next s + 4))) with (i32 (u32 (u32 (pc_next s) + 4))) by word_lia. done.
Qed.
(** Another register after the link register was written. *)
Lemma rget_linked k d v : is_reg k -> is_reg d -> k <> d ->
  rget k (set_r (regs_after (Some (d, v)) (r s)) cleared) = Val (xview s k) (set_r (regs_after (Some (d, v)) (r s)) cleared).
Proof.
  intros Hk Hd Hne. pose proof (mips_rget_cleared k Hk) as Hg. unfold rget in *. revert Hg. sm_unfold. cbn [r set_r cleared advance set_flags set_pcs on_irq regs_after].
  rewrite (zget_zset_ne (zset (r s) 0 0)) by lia. destruct (zget (zset (r s) 0 0) k); [|done]. by intros [= ->].
Qed.
Lemma does_jump i f w v m n : m cleared = jump_to v (set_r (regs_after w (r s)) cleared) -> class_of i = Jmp -> transfers i = true ->
  n mod 4 = 0 -> i32 v = i32 n -> does i f m false (mk_effect w None None n None).
Proof.
  intros E Hc Ht Hn Hv. exists (i32 v). split; [rewrite E; by apply jump_counts|].
  apply goes_aligned; [done|]. cbn [e_next]. rewrite Z.add_0_r, i32_i32. done.
Qed.
Lemma does_branch i f w b off m : m cleared = branch_if b (set_r (regs_after w (r s)) cleared) -> class_of i = Bra -> transfers i = true ->
  imm f = off mod 65536 -> is_simm off ->
  does i f m b (mk_effect w None None (if b then u32 (u32 (pc_next s) + off * 4) else u32 (u32 (pc_next s) + 4)) None).
Proof.
  intros E Hc Ht Hi Ho. exists (i32 (pc_next s + 4)). split; [rewrite E; by apply branch_counts|]. by apply goes_branch.
Qed.
Lemma does_j (lk : bool) t a b d re fn im w p : 0 <= t < 67108864 ->
  let f := mk_fields (if lk then 3 else 2) a b d re fn im (t * 4) in
  does (J lk t) f (exec f w p) false (mk_effect (if lk then Some (31, i32 (u32 (u32 (pc_next s) + 4))) else None) None None
    (u32 (pc_next s) / 268435456 * 268435456 + t * 4) None).
Proof.
  intros Ht f. apply (does_jump _ _ _ (Z.lor (Z.land (u32 (pc_next s)) 0xf0000000) (t * 4))); try done.
  - subst f. destruct lk; cbn [exec SimMips.op]; [|done]. by rewrite (SM_bind_Val _ _ _ _ _ (link_cleared 31 ltac:(done))).
  - Z.div_mod_to_equations; lia.
  - change 0xf0000000 with (Z.shiftl (Z.ones 4) 28). rewrite land_field by lia. rewrite lor_carry by (pow_norm; lia). pow_norm.
    rewrite (Z.mod_small (_ / _)) by word_lia. done.
Qed.
Lemma does_jr a m tg w p : is_reg a -> xview s a mod 4 = 0 ->
  let f := mk_fields 0 a 0 0 0 8 m tg in
  does (Jr a) f (exec f w p) false (mk_effect None None None (u32 (xview s a)) None).
Proof.
  intros Ha Hx f. apply (does_jump _ _ _ (xview s a)); try done; [|word_lia|by rewrite i32_u32].
  subst f. cbn [exec SimMips.op exec_special func rs]. by rewrite (SM_bind_Val _ _ _ _ _ (mips_rget_cleared a Ha)).
Qed.
Lemma does_jalr d a m tg w p : is_reg d -> is_reg a -> d <> a -> xview s a mod 4 = 0 ->
  let f := mk_fields 0 a 0 d 0 9 m tg in
  does (Jalr d a) f (exec f w p) false (mk_effect (Some (d, i32 (u32 (u32 (pc_next s) + 4)))) None None (u32 (xview s a)) None).
Proof.
  intros Hd Ha Hne Hx f. apply (does_jump _ _ _ (xview s a)); try done; [|word_lia|by rewrite i32_u32].
  subst f. cbn [exec SimMips.op exec_special func rs rd]. rewrite (SM_bind_Val _ _ _ _ _ (link_cleared d Hd)).
  by rewrite (SM_bind_Val _ _ _ _ _ (rget_linked a d _ Ha Hd (not_eq_sym Hne))).
Qed.
Lemma does_bcond c a b off d re fn tg w p : is_reg a -> is_reg b -> is_simm off ->
  let f := mk_fields (cond_op c) a (cond_rt c false b) d re fn (off mod 65536) tg in
  does (Branch c a b off) f (exec f w p) (holds c (xview s a) (xview s b)) (mk_effect None None None
    (if holds c (xview s a) (xview s b) then u32 (u32 (pc_next s) + off * 4) else u32 (u32 (pc_next s) + 4)) None).
Proof.
  intros Ha Hb Ho f. apply does_branch; try done. subst f.
  destruct c; cbn [exec SimMips.op cond_op exec_regimm rt rs cond_rt holds]; rewrite (SM_bind_Val _ _ _ _ _ (mips_rget_cleared a Ha));
    try rewrite (SM_bind_Val _ _ _ _ _ (mips_rget_cleared b Hb)); done.
Qed.
Lemma does_bal c a off d re fn tg w p : is_reg a -> is_simm off -> has_link c = true -> a <> 31 ->
  let f := mk_fields 1 a (cond_rt c true 0) d re fn (off mod 65536) tg in
  does (BranchLink c a off) f (exec f w p) (holds c (xview s a) 0) (mk_effect (Some (31, i32 (u32 (u32 (pc_next s) + 4)))) None None
    (if holds c (xview s a) 0 then u32 (u32 (pc_next s) + off * 4) else u32 (u32 (pc_next s) + 4)) None).
Proof.
  intros Ha Ho Hc Hne f. apply does_branch; try done. subst f.
  destruct c; try done; cbn [exec SimMips.op exec_regimm rt rs cond_rt holds]; rewrite (SM_bind_Val _ _ _ _ _ (link_cleared 31 ltac:(done)));
    by rewrite (SM_bind_Val _ _ _ _ _ (rget_linked a 31 _ Ha ltac:(done) Hne)).
Qed.
(** *** Loads and stores *)
Lemma mips_not_mapped a (l : Z) : a < EXIT_TRAP -> EXIT_TRAP <= l -> (a =? l) = false.
Proof. intros. apply Z.eqb_neq. lia. Qed.
Lemma in_sram n a : in_ram n a -> (n = 1 \/ n = 2 \/ n = 4)%nat -> (a mod MEM_SIZE + Z.of_nat n <=? MEM_SIZE) = true.
Proof. intros [Ha _] Hn. apply Z.leb_le. unfold MEM_SIZE. destruct Hn as [-> | [-> | ->]]; Z.div_mod_to_equations; lia. Qed.
Lemma mips_sram_load_run n a t : in_ram n a -> (n = 1 \/ n = 2 \/ n = 4)%nat -> sram_load n a t = Val (load_le n (mem t) (a mod MEM_SIZE)) t.
Proof. intros Ha Hn. unfold sram_load. sm_unfold. by rewrite in_sram. Qed.
Lemma mips_sram_store_run n a v t : in_ram n a -> (n = 1 \/ n = 2 \/ n = 4)%nat ->
  sram_store n a v t = Val tt (set_mem (store_le n (mem t) (a mod MEM_SIZE) v) t).
Proof. intros Ha Hn. unfold sram_store. sm_unfold. by rewrite in_sram. Qed.
Lemma load_le_small n m a : bytes_ok m -> (n <= 2)%nat -> 0 <= load_le n m a < 65536.
Proof. intros Hm Hn. pose proof (load_le_range n m a Hm). destruct n as [|[|[|]]]; cbn in *; lia. Qed.

Lemma mips_mem_read_run w a t : in_ram (width_bytes w) a -> mem t = mem s ->
  mem_read (Z.of_nat (width_bytes w)) a t = Val (i32 (ram s (width_bytes w) a)) t.
Proof.
  intros Ha Hm. pose proof Ha as [Hm4 Hlt]. pose proof (wf_mem s Hwf) as Ho. unfold mem_read, ram. rewrite !(mips_not_mapped a) by (done || by vm_compute).
  destruct (load_swapped (mem s) (a mod MEM_SIZE) Ho) as [E4 E2].
  destruct w; cbn [width_bytes] in *; [change (Z.of_nat 1) with 1 in *|change (Z.of_nat 2) with 2 in *|change (Z.of_nat 4) with 4 in *]; cbn [Z.eqb Pos.eqb].
  - rewrite mips_sram_load_run, Hm by auto. cbn [load_be load_le]. pose proof (byte_at_range (mem s) (a mod MEM_SIZE) Ho).
    change (256 ^ Z.of_nat 0) with 1. rewrite i32_small by lia. do 2 f_equal. lia.
  - rewrite (aligned_land a 1 1) by done. rewrite (SM_bind_Val _ _ _ _ _ (mips_sram_load_run 2 a t Ha ltac:(auto))), Hm.
    rewrite u16_small by (by apply load_le_small; [|lia]). by rewrite E2.
  - rewrite (aligned_land a 3 2) by done. rewrite (SM_bind_Val _ _ _ _ _ (mips_sram_load_run 4 a t Ha ltac:(auto))), Hm. by rewrite E4.
Qed.
Lemma mips_mem_write_run w a v t : in_ram (width_bytes w) a -> is_u32 v ->
  mem_write (Z.of_nat (width_bytes w)) a v t = Val tt (set_mem (store_be (width_bytes w) (mem t) (a mod MEM_SIZE) v) t).
Proof.
  intros Ha Hv. pose proof Ha as [Hm4 Hlt]. unfold mem_write. rewrite !(mips_not_mapped a) by (done || by vm_compute).
  destruct (store_swapped (mem t) (a mod MEM_SIZE) v Hv) as (E4 & E2 & E1).
  destruct w; cbn [width_bytes] in *; [change (Z.of_nat 1) with 1 in *|change (Z.of_nat 2) with 2 in *|change (Z.of_nat 4) with 4 in *]; cbn [Z.eqb Pos.eqb].
  - by rewrite (mips_sram_store_run 1), E1 by auto.
  - rewrite (aligned_land a 1 1) by done. by rewrite (mips_sram_store_run 2), E2 by auto.
  - rewrite (aligned_land a 3 2) by done. by rewrite (mips_sram_store_run 4), E4 by auto.
Qed.
Lemma mips_ram_range n a : (n <= 4)%nat -> 0 <= ram s n a < 256 ^ Z.of_nat n.
Proof.
  intros _. unfold ram. generalize (a mod MEM_SIZE). induction n as [|n IH]; intros b; [cbn; lia|]. cbn [load_be].
  pose proof (byte_at_range (mem s) b (wf_mem s Hwf)). specialize (IH (b + 1)). rewrite Nat2Z.inj_succ, Z.pow_succ_r by lia. nia.
Qed.
Lemma does_load w (sg : bool) t a i d re fn tg op p : is_reg t -> is_reg a -> (w = W -> sg = true) ->
  in_ram (width_bytes w) p -> p = u32 (xview s a + i) ->
  let f := mk_fields (0x20 + width_op w + if sg then 0 else 4) a t d re fn (i mod 65536) tg in
  does (Load w sg t a i) f (exec f op p) false (falls (u32 (pc_next s)) (Some (t, extend w sg (ram s (width_bytes w) (u32 (xview s a + i)))))).
Proof.
  intros Ht Ha Hw Hp <- f. pose proof (mips_mem_read_run w p cleared Hp eq_refl) as Em. pose proof (mips_ram_range (width_bytes w) p ltac:(destruct w; cbn; lia)) as Hr.
  subst f. destruct w, sg; try (discriminate (Hw eq_refl)); cbn [width_bytes width_op extend Z.add Pos.add Pos.succ Pos.add_carry] in *;
    cbn [exec SimMips.op rt]; (eapply does_read; [exact Em|]); (eapply does_write; [reflexivity|try done..]);
    revert Hr; generalize (ram s); intros g Hr; cbn in Hr; word_lia.
Qed.
Lemma does_store w t a i d re fn tg op p : is_reg t -> is_reg a -> in_ram (width_bytes w) p -> p = u32 (xview s a + i) ->
  let f := mk_fields (0x28 + width_op w) a t d re fn (i mod 65536) tg in
  does (Store w t a i) f (exec f op p) false
    (mk_effect None None None (u32 (u32 (pc_next s) + 4)) (Some (width_bytes w, u32 (xview s a + i), u32 (xview s t)))).
Proof.
  intros Ht Ha Hp <- f. pose proof (mips_mem_write_run w p (u32 (xview s t)) cleared Hp (is_u32_u32 _)) as Em.
  assert (Eo : 0x28 + width_op w = match w with B => 0x28 | H => 0x29 | W => 0x2b end) by (by destruct w).
  exists (i32 (pc_next s + 4)). split; [|apply goes_on]. subst f. rewrite Eo.
  destruct w; cbn [exec SimMips.op width_bytes rt] in *;
    rewrite (SM_bind_Val _ _ _ _ _ (mips_uget_cleared t Ht)); by rewrite (SM_bind_Val _ _ _ _ _ Em).
Qed.
End machine.

(** *** The cycle *)
Lemma finish_effect s i f e n : goes_to n (if taken (xview s) i then imm_shift f else 0) (e_next e) ->
  finish f (taken (xview s) i) (executed i e n s) = apply_effect i e s.
Proof. unfold goes_to, apply_effect, finish, set_pc_next. cbn [pc_next executed bump set_flags set_pcs]. intros ->. done. Qed.

Lemma cycle_does s i : ready s i -> 0 <= encode i < 4294967296 -> is_reg (rs (decode (encode i))) ->
  (forall p, (forall a, zget (r s) (rs (decode (encode i))) = Some a -> p = u32 (i16 (imm (decode (encode i))) + a)) ->
    does s i (decode (encode i)) (exec (decode (encode i)) (encode i) p) (taken (xview s) i)
      (isa (xview s) (hi s) (lo s) (ram s) (u32 (pc_next s)) i)) ->
  cycle s = Val tt (apply_effect i (isa (xview s) (hi s) (lo s) (ram s) (u32 (pc_next s)) i) s).
Proof.
  intros [Hwf Hirq Hnox Hal Hn Hb Hv Hf] He Hr X. destruct (mips_zget_in_range s Hwf _ Hr) as (a & Ha & _).
  unfold cycle. rewrite (SM_bind_Val _ _ s false s) by (by unfold sget; rewrite Hirq).
  rewrite (SM_bind_Val _ _ s (pc s) s) by done.
  assert (Ep : in_ram 4 (u32 (pc s))) by (split; [change (Z.of_nat 4) with 4; word_lia|done]).
  rewrite (SM_bind_Val _ _ _ _ _ (mips_mem_read_run s Hwf W (u32 (pc s)) s Ep eq_refl)). cbn [width_bytes]. rewrite Hf, u32_i32, u32_small by done.
  cbv zeta. rewrite (SM_bind_Val _ _ s a s) by (unfold rget; sm_unfold; by rewrite Ha).
  destruct (mips_zget_in_range s Hwf 0 ltac:(done)) as (z & Hz & _).
  rewrite (SM_bind_Val _ _ s tt (set_r (zset (r s) 0 0) s)) by (unfold rset; sm_unfold; by rewrite Hz).
  rewrite (SM_bind_Val _ _ _ tt (cleared s)) by done. rewrite (SM_bind_Val _ _ _ 0 (cleared s)) by (unfold sget; cbn; by rewrite Hnox).
  cbn [nz negb Z.eqb]. destruct (X (u32 (i16 (imm (decode (encode i))) + a))) as (n & Ex & G); [by intros a' [= <-]%(eq_trans (eq_sym Ha))|].
  rewrite (SM_bind_Val _ _ _ _ _ Ex). unfold smod. by rewrite finish_effect.
Qed.

(** The address of a load or store, when register 0 is not stale. *)
Lemma mips_base_address s rs a p i : (rs = 0 -> zget (r s) 0 = Some 0) -> (forall a, zget (r s) rs = Some a -> p = u32 (i16 (i mod 65536) + a)) ->
  wf s -> is_reg rs -> is_simm i -> a = xview s rs -> p = u32 (a + i).
Proof.
  intros H0 Hp Hwf Hr Hi ->. destruct (mips_zget_in_range s Hwf rs Hr) as (a & Ha & _). rewrite (Hp a Ha).
  replace (i16 (i mod 65536)) with i by (unfold is_simm in Hi; word_lia). rewrite Z.add_comm. do 2 f_equal. unfold xview.
  destruct (Z.eqb_spec rs 0) as [->|]; [rewrite (H0 eq_refl) in Ha; congruence|by rewrite Ha].
Qed.

Lemma shift_func_range op : 0 <= shift_func op <= 3.
Proof. destruct op; cbn; lia. Qed.
Lemma alu_func_range op : 0 <= alu_func op < 64.
Proof. destruct op; cbn; lia. Qed.
Lemma imm_op_range op : 0 <= imm_op op < 64.
Proof. destruct op; cbn; lia. Qed.
Lemma cond_range c (l : bool) t : is_reg t -> 0 <= cond_op c < 64 /\ is_reg (cond_rt c l t).
Proof. unfold is_reg. destruct c, l; cbn; lia. Qed.
Lemma width_op_range w (sg : bool) : 0 <= 0x20 + width_op w + (if sg then 0 else 4) < 64 /\ 0 <= 0x28 + width_op w < 64.
Proof. destruct w, sg; cbn; lia. Qed.

Ltac r_format o s t d a fn :=
  destruct (mips_decode_r o s t d a fn) as (He & ? & ? & Hd); [done || lia..|];
  apply cycle_does; [done|exact He|cbn [encode]; rewrite Hd; done|]; cbn [encode]; rewrite Hd; intros p _; cbn [isa taken].
Ltac i_format o s t i :=
  destruct (mips_decode_i o s t i) as (He & ? & ? & ? & ? & Hd); [done || lia..|];
  apply cycle_does; [done|exact He|cbn [encode]; rewrite Hd; done|]; cbn [encode]; rewrite Hd; intros p Hp; cbn [isa taken rs imm] in *.
Lemma reg0 : is_reg 0.
Proof. done. Qed.
Hint Resolve reg0 : core.

Section classes.
Implicit Types (s : state) (i : instr).

Lemma arithmetic_refines s i : ready s i -> sim_ok s i ->
  match i with Mips.Shift _ _ _ _ | ShiftV _ _ _ _ | Op _ _ _ _ | OpImm _ _ _ _ | Lui _ _ => True | _ => False end ->
  cycle s = Val tt (apply_effect i (isa (xview s) (hi s) (lo s) (ram s) (u32 (pc_next s)) i) s).
Proof.
  intros R Hok Hi. pose proof R as [Hwf _ _ _ Hn _ Hv _]. destruct i as [op d t a|op d t v|op d a b|op t a i|t i| | | | | | | | | | | | |]; try done; cbn [valid sim_ok] in *.
  - destruct Hv as (Hrd & Hrt & Ha). pose proof (shift_func_range op). r_format 0 0 t d a (shift_func op). by apply does_shift.
  - destruct Hv as (Hrd & Hrt & Ha). pose proof (shift_func_range op). r_format 0 v t d 0 (4 + shift_func op). by apply does_shiftv.
  - destruct Hv as (Hrd & Hra & Hrb). pose proof (alu_func_range op). r_format 0 a b d 0 (alu_func op). by apply does_op.
  - destruct Hv as (Hrt & Hra & Hns & Hnn & Hi'). pose proof (imm_op_range op). i_format (imm_op op) a t i. by apply does_op_imm.
  - destruct Hv as (Hrt & Hi'). i_format 0xf 0 t i. by apply does_lui.
Qed.
Lemma multiplier_refines s i : ready s i -> sim_ok s i ->
  match i with Mfhi _ | Mthi _ | Mflo _ | Mtlo _ | Mult _ _ _ | Mips.Div _ _ _ => True | _ => False end ->
  cycle s = Val tt (apply_effect i (isa (xview s) (hi s) (lo s) (ram s) (u32 (pc_next s)) i) s).
Proof.
  intros R Hok Hi. pose proof R as [Hwf _ _ _ Hn _ Hv _]. destruct i as [| | | | |d|a|d|a|sg a b|sg a b| | | | | | |]; try done; cbn [valid] in *.
  - r_format 0 0 0 d 0 0x10. by apply (does_from_hilo s Hwf Hn true).
  - r_format 0 a 0 0 0 0x11. by apply (does_to_hilo s Hwf Hn true).
  - r_format 0 0 0 d 0 0x12. by apply (does_from_hilo s Hwf Hn false).
  - r_format 0 a 0 0 0 0x13. by apply (does_to_hilo s Hwf Hn false).
  - destruct Hv as [Ha Hb]. assert (0 <= (if sg then 0x18 else 0x19) < 64) by (destruct sg; lia).
    r_format 0 a b 0 0 (if sg then 0x18 else 0x19). by apply does_mult.
  - destruct Hv as [Ha Hb]. assert (0 <= (if sg then 0x1a else 0x1b) < 64) by (destruct sg; lia).
    r_format 0 a b 0 0 (if sg then 0x1a else 0x1b). by apply does_div.
Qed.
Lemma control_refines s i : ready s i -> sim_ok s i ->
  match i with J _ _ | Jr _ | Jalr _ _ | Branch _ _ _ _ | BranchLink _ _ _ => True | _ => False end ->
  cycle s = Val tt (apply_effect i (isa (xview s) (hi s) (lo s) (ram s) (u32 (pc_next s)) i) s).
Proof.
  intros R Hok Hi. pose proof R as [Hwf _ _ _ Hn _ Hv _]. destruct i as [| | | | | | | | | | |lk t|a|d a|c a b o|c a o| |]; try done; cbn [valid sim_ok] in *.
  - destruct (mips_decode_j (if lk then 3 else 2) t) as (He & ? & ? & ? & ? & ? & ? & Hd & Hr); [destruct lk; lia|done|].
    apply cycle_does; [done|exact He|cbn [encode]; rewrite Hd; done|]. cbn [encode]. rewrite Hd. intros p _. cbn [isa taken]. by apply does_j.
  - r_format 0 a 0 0 0 8. by apply does_jr.
  - destruct Hv as (Hrd & Ha & Hne). r_format 0 a 0 d 0 9. by apply does_jalr.
  - destruct Hv as (Ha & Hb & Ho & _). destruct (cond_range c false b Hb) as [Hc Ht]. i_format (cond_op c) a (cond_rt c false b) o. by apply does_bcond.
  - destruct Hv as (Ha & Ho & Hl & Hne). destruct (cond_range c true 0 reg0) as [Hc Ht]. i_format 1 a (cond_rt c true 0) o. by apply does_bal.
Qed.
Lemma mips_memory_refines s i : ready s i -> sim_ok s i ->
  match i with Load _ _ _ _ _ | Store _ _ _ _ => True | _ => False end ->
  cycle s = Val tt (apply_effect i (isa (xview s) (hi s) (lo s) (ram s) (u32 (pc_next s)) i) s).
Proof.
  intros R Hok Hi. pose proof R as [Hwf _ _ _ Hn _ Hv _]. destruct i as [| | | | | | | | | | | | | | | |w sg t b i|w t b i]; try done; cbn [valid sim_ok] in *.
  - destruct Hv as (Ht & Hb & Hi' & Hw), Hok as [H0 Hp0]. destruct (width_op_range w sg) as [Hc _]. i_format (0x20 + width_op w + if sg then 0 else 4) b t i.
    pose proof (mips_base_address s b _ p i H0 Hp Hwf Hb Hi' eq_refl) as Ep. apply does_load; try done. by rewrite Ep.
  - destruct Hv as (Ht & Hb & Hi'), Hok as [H0 Hp0]. destruct (width_op_range w true) as [_ Hc]. i_format (0x28 + width_op w) b t i.
    pose proof (mips_base_address s b _ p i H0 Hp Hwf Hb Hi' eq_refl) as Ep. apply does_store; try done. by rewrite Ep.
Qed.
End classes.


(** C24: the shift and add multiplications are exact: the two words they leave
    in HI and LO make up the 64-bit product of any unsigned and of any signed
    operands, and no intermediate sum that is used overflows. *)
Theorem multiplications_exact (a b : Z) :
  (is_u32 a -> is_u32 b -> let p := mult_unsigned a b in
    fst p * 4294967296 + snd p = a * b /\ is_u32 (fst p) /\ is_u32 (snd p)) /\
  (is_i32 a -> is_i32 b -> let p := mult_signed a b in
    i32 (fst p) * 4294967296 + snd p = a * b /\ is_u32 (fst p) /\ is_u32 (snd p)).
Proof.
  split; intros Ha Hb.
  - rewrite mult_unsigned_words by done. cbn [fst snd]. unfold is_u32 in *. pose proof (Z.div_mod (a * b) 4294967296).
    pose proof (Z.mod_pos_bound (a * b) 4294967296). split; [lia|]. split; [|lia].
    split; [apply Z.div_pos; nia|apply Z.div_lt_upper_bound; nia].
  - rewrite mult_signed_words by done. cbn [fst snd]. unfold is_i32, is_u32 in *. rewrite i32_u32.
    assert (-2147483648 <= a * b / 4294967296 < 2147483648) by (split; [apply Z.div_le_lower_bound; nia|apply Z.div_lt_upper_bound; nia]).
    rewrite i32_small by done. pose proof (Z.div_mod (a * b) 4294967296). unfold u32 at 1. split; [lia|]. split; apply u32_range.
Qed.

(** ** Interrupts *)

Lemma skip_run t : wf t -> interrupted t = false -> nox_bds t <> 0 -> pc t mod 4 = 0 -> u32 (pc t) < EXIT_TRAP ->
  cycle t = Val tt (set_flags 0 0 (advance (set_r (zset (r t) 0 0) t))).
Proof.
  intros Hwf Hi Hn Ha Hb. unfold cycle. rewrite (SM_bind_Val _ _ t false t) by (by unfold sget; rewrite Hi).
  rewrite (SM_bind_Val _ _ t (pc t) t) by done.
  assert (Ep : in_ram 4 (u32 (pc t))) by (split; [change (Z.of_nat 4) with 4; word_lia|done]).
  rewrite (SM_bind_Val _ _ _ _ _ (mips_mem_read_run t Hwf W (u32 (pc t)) t Ep eq_refl)). cbv zeta.
  set (w := u32 _). assert (Hr : is_reg (rs (decode w))).
  { unfold decode, is_reg. cbn [rs]. rewrite (land_ones_eq _ 0x1f 5) by done. apply Z.mod_pos_bound. lia. }
  destruct (mips_zget_in_range t Hwf _ Hr) as (a & Hza & _). rewrite (SM_bind_Val _ _ t a t) by (unfold rget; sm_unfold; by rewrite Hza).
  destruct (mips_zget_in_range t Hwf 0 ltac:(done)) as (z & Hz & _).
  rewrite (SM_bind_Val _ _ t tt (set_r (zset (r t) 0 0) t)) by (unfold rset; sm_unfold; by rewrite Hz).
  rewrite (SM_bind_Val _ _ _ tt (cleared t)) by done. rewrite (SM_bind_Val _ _ _ (nox_bds t) (cleared t)) by done.
  by rewrite (proj2 (nz_true _) Hn).
Qed.

(** C23: interrupts are precise. Two cycles after an interrupt is pending and
    enabled, and outside a delay slot, control is at the vector; EPC is one
    word past the instruction that was next, which has not been executed:
    registers, HI, LO, memory, statistics and counter are as before. Interrupts
    are masked from the first cycle on, and a non-zero write of IRQ_STATUS
    enables them exactly four cycles later. *)
Theorem interrupt_precise (s : state) (v : Z) :
  wf s -> interrupted s = true -> pc s mod 4 = 0 -> u32 (pc s) < EXIT_TRAP -> is_u32 v -> v <> 0 ->
  exists t u, cycle s = Val tt t /\ interrupted t = false /\ cycle t = Val tt u /\ interrupted u = false /\
    pc u = vector (irq s) /\ pc_next u = i32 (vector (irq s) + 4) /\ epc (irq u) = i32 (pc s + 4) /\
    (forall k, is_reg k -> xview u k = xview s k) /\ hi u = hi s /\ lo u = lo s /\ mem u = mem s /\
    stats u = stats s /\ counter (irq u) = counter (irq s) /\ cause (irq u) = cause (irq s) /\
    exists u', mem_write 4 IRQ_STATUS v u = Val tt u' /\
      (forall n, (n < 4)%nat -> status (irq (Nat.iter n advance u')) = 0) /\ status (irq (Nat.iter 4 advance u')) = i32 v.
Proof.
  intros Hwf Hi Ha Hb Hv Hne. exists (interrupt s), (set_flags 0 0 (advance (set_r (zset (r s) 0 0) (interrupt s)))).
  assert (Hit : interrupted (interrupt s) = false) by done. pose proof (mips_interrupt_wf s Hwf) as Hwt.
  split; [unfold cycle; by rewrite (SM_bind_Val _ _ s true s) by (by unfold sget; rewrite Hi)|]. split; [done|].
  split; [by apply (skip_run (interrupt s))|]. split_and!; try done.
  - intros k Hk. unfold xview. cbn [r set_flags advance set_pcs on_irq set_r]. destruct (Z.eqb_spec k 0); [done|]. by rewrite zget_zset_ne by lia.
  - eexists. split.
    + unfold mem_write. cbn [Z.eqb Pos.eqb IRQ_STATUS IRQ_VECTOR IRQ_CAUSE IRQ_MASK]. rewrite (proj2 (Z.eqb_neq v 0) Hne). reflexivity.
    + split; [|done]. intros n Hn. do 4 (destruct n as [|n]; [done|]). lia.
Qed.

(** ** A concrete machine *)
Definition bytes_of (w : Z) : list Z := [u8 (w / 16777216); u8 (w / 65536); u8 (w / 256); u8 w].
Definition assemble (p : list instr) : list Z := p ≫= (fun i => bytes_of (encode i)).
Definition start (p : list instr) : state :=
  mk_state (replicate 32 0) SRAM_BASE (SRAM_BASE + 4) 0 0 (load_image (assemble p) 0 (store_le 4 ∅ 0 0xffffffff)) 0 0
    (mk_irqs 0 0 0 0 [0; 0; 0; 0] 0 0 0 0) (fun _ => 0) (mk_host false [] [] [] []).
Lemma mips_start_boot p : assemble p <> [] -> zlen (assemble p) <= MEM_SIZE -> boot (assemble p) [] false = Some (start p).
Proof.
  intros Hne Hl. unfold boot. rewrite take_ge by (unfold zlen in Hl; lia). unfold start. by destruct (assemble p).
Qed.
Definition reg_of (x : result state unit) (k : Z) : option Z := match x with Val _ s => zget (r s) k | _ => None end.
Definition pc_of (x : result state unit) : option Z := match x with Val _ s => Some (pc s) | _ => None end.
Lemma mips_start_ready p i : assemble p <> [] -> zlen (assemble p) <= MEM_SIZE -> valid i -> load_be 4 (mem (start p)) 0 = encode i -> ready (start p) i.
Proof. intros Hne Hl Hv Hf. split; try done. by eapply mips_boot_wf, mips_start_boot. Qed.

(** 4 + 3 + 2 + 1 in a loop that counts in the delay slot, and (10 + 3) squared. *)
Definition demo_prog : list instr :=
  [OpImm Addu 5 0 4; Op Addu 6 6 5; Branch Gtz 5 0 (-2); OpImm Addu 5 5 (-1); OpImm Addu 6 6 3; Mult true 6 6; Mflo 7].
Example mips_demo_run : reg_of (run 16 (start demo_prog)) 6 = Some 10 /\ reg_of (run 19 (start demo_prog)) 7 = Some 169.
Proof. split; vm_compute; reflexivity. Qed.

Example multiplications_exact_witness : let p := mult_signed (-70000) 70001 in
  is_i32 (-70000) /\ i32 (fst p) * 4294967296 + snd p = -4900070000.
Proof.
  assert (Ha : is_i32 (-70000)) by (unfold is_i32; lia). split; [exact Ha|].
  exact (proj1 (proj2 (multiplications_exact (-70000) 70001) Ha ltac:(unfold is_i32; lia))).
Defined.
Definition pending : state := on_irq (fun q => mk_irqs 0x40000010 8 8 1 [1; 1; 1; 1] 0 0 0 0) (start demo_prog).
Example interrupt_precise_witness : wf pending /\ exists t u, cycle pending = Val tt t /\ cycle t = Val tt u /\ pc u = 0x40000010.
Proof.
  assert (Hwf : wf pending).
  { assert (H : wf (start demo_prog)) by (eapply mips_boot_wf, mips_start_boot; by vm_compute).
    destruct H. split; try done. split; try done; try (unfold is_i32; cbn; lia). repeat constructor; lia. }
  split; [exact Hwf|]. destruct (interrupt_precise pending 1 Hwf) as (t & u & E1 & _ & E2 & _ & Ep & _); try done.
  by exists t, u.
Defined.

(** A load right after a write to register 0 uses the value written. *)
Example stale_register_0 : reg_of (run 2 (start [OpImm Addu 0 0 8; Load W true 5 0 0; Lui 7 0x1234])) 5 = Some (encode (Lui 7 0x1234)).
Proof. vm_compute. reflexivity. Qed.
(** A division by zero falls through to the addition: with the remaining
    fields 0 it writes register 0, which the next load sees. *)
Example division_falls_through :
  reg_of (run 3 (start [OpImm Addu 5 0 12; Mips.Div true 5 0; Load W true 6 0 0; Lui 7 0x1234])) 6 = Some (encode (Lui 7 0x1234)).
Proof. vm_compute. reflexivity. Qed.
Example register_shift_by_32 : run 2 (start [OpImm Addu 5 0 32; ShiftV Sll 6 5 5]) = Undef.
Proof. vm_compute. reflexivity. Qed.
