(* ===== verification/NocSim.v ===== *)
(** * The network of the MPSoC simulator

    [usr/sim/mpsoc_sim/source/noc.c] (the mesh, not the bus): routers with five
    ports, network interfaces with two, and the processors' ports, joined by a
    request and acknowledge handshake. [NOC_WIDTH], [NOC_HEIGHT],
    [NOC_BUFFER_SIZE] and [OS_PACKET_SIZE] are set by the makefile. A pointer to
    a port is the place of the port. *)

From S2P Require Import Prelude Words.

#[local] Open Scope Z_scope.

Definition ROUTING_ALGORITHM_DELAY : Z := 7.
Definition ARBITRATION_CONSIDERING_POS : Z := 1.
Definition SIMULTANEOUS_SWITCHING : Z := 1.
Definition PLASMA : Z := 0.
Definition NOC : Z := 1.
Definition EAST : Z := 0.
Definition WEST : Z := 1.
Definition NORTH : Z := 2.
Definition SOUTH : Z := 3.
Definition LOCAL : Z := 4.
Definition NONE : Z := 5.
Definition ON : Z := 1.
Definition OFF : Z := 0.
Definition IDLE : Z := 0.
Definition ROUTING_DELAY : Z := 1.
Definition ROUTING_HEADER : Z := 2.
Definition ROUTING_PAYLOAD : Z := 3.
Definition ROUTING_DATA : Z := 4.

Record Port : Type := Port_ {
  in_ : Z;
  in_request : Z;
  in_ack : Z;
  out : Z;
  out_request : Z;
  out_ack : Z;
}.
(** ** Buffers *)

Module Flits.
Record Buffer : Type := Buffer_ {
  buffer : list Z;
  start : Z;
  end_ : Z;
  size : Z;
  max : Z;
}.

(** [create]: the contents of the fresh array are [garbage]. *)
Definition create (garbage : Z -> Z) (m : Z) : Buffer := Buffer_ (tabulate (Z.to_nat m) garbage) 0 0 0 m.
Definition isFull (b : Buffer) : bool := size b =? max b.
Definition isEmpty (b : Buffer) : bool := size b =? 0.
Definition put (value : Z) (b : Buffer) : outcome Buffer :=
  l ← aset (buffer b) (end_ b) value;
  Ok (Buffer_ l (start b) (cmod (i32 (end_ b + 1)) (max b)) (i32 (size b + 1)) (max b)).
Definition read (b : Buffer) : outcome Z := aget (buffer b) (start b).
Definition take (b : Buffer) : outcome (Z * Buffer) :=
  i ← aget (buffer b) (start b);
  Ok (i, Buffer_ (buffer b) (cmod (i32 (start b + 1)) (max b)) (end_ b) (i32 (size b - 1)) (max b)).
End Flits.

(** ** The architecture *)

Record Core : Type := Core_ { port : Port }.
Record NetworkInterface : Type := NetworkInterface_ {
  ni_buffers : list Flits.Buffer;
  ni_ports : list Port;
}.
Record Router : Type := Router_ {
  arbiter : Z;
  status : list Z;
  packets_remaining : list Z;
  redirect_to : list Z;
  routing_delay : list Z;
  buffers : list Flits.Buffer;
  ports : list Port;
}.
Record network : Type := Network {
  routers : list Router;
  network_interfaces : list NetworkInterface;
  cores : list Core;
}.
Inductive port_ptr : Type :=
| RouterPort (n k : Z)
| NIPort (n k : Z)
| CorePort (n : Z).

#[export] Instance port_ptr_eq_dec : EqDecision port_ptr.
Proof. solve_decision. Defined.

(** ** Ports *)

Definition cleanPort : Port := Port_ 0 OFF OFF 0 OFF OFF.
Definition set_in (v q : Z) (p : Port) : Port := Port_ v q (in_ack p) (out p) (out_request p) (out_ack p).
Definition set_in_ack (a : Z) (p : Port) : Port :=
  Port_ (in_ p) (in_request p) a (out p) (out_request p) (out_ack p).
Definition set_out (v q a : Z) (p : Port) : Port := Port_ (in_ p) (in_request p) (in_ack p) v q a.
Definition set_out_ack (a : Z) (p : Port) : Port :=
  Port_ (in_ p) (in_request p) (in_ack p) (out p) (out_request p) a.

(** ** Places *)

Definition with_routers (l : list Router) (s : network) : network := Network l (network_interfaces s) (cores s).
Definition with_interfaces (l : list NetworkInterface) (s : network) : network := Network (routers s) l (cores s).
Definition with_cores (l : list Core) (s : network) : network := Network (routers s) (network_interfaces s) l.
Definition with_ports (l : list Port) (r : Router) : Router :=
  Router_ (arbiter r) (status r) (packets_remaining r) (redirect_to r) (routing_delay r) (buffers r) l.
Definition with_ni_ports (l : list Port) (x : NetworkInterface) : NetworkInterface := NetworkInterface_ (ni_buffers x) l.

Definition getRouter (n : Z) : ST network Router := l ← gets routers; lift (aget l n).
Definition getNetworkInterface (n : Z) : ST network NetworkInterface := l ← gets network_interfaces; lift (aget l n).
Definition getCore (n : Z) : ST network Core := l ← gets cores; lift (aget l n).

(** [m] on [routers[n]], [network_interfaces[n]], [cores[n]]. *)
Definition on_router {A : Type} (n : Z) (m : ST Router A) : ST network A :=
  r ← getRouter n;
  p ← lift (m r);
  _ ← modify (fun s => with_routers (zset (routers s) n (snd p)) s);
  mret (fst p).
Definition on_ni {A : Type} (n : Z) (m : ST NetworkInterface A) : ST network A :=
  x ← getNetworkInterface n;
  p ← lift (m x);
  _ ← modify (fun s => with_interfaces (zset (network_interfaces s) n (snd p)) s);
  mret (fst p).
Definition on_core {A : Type} (n : Z) (m : ST Port A) : ST network A :=
  c ← getCore n;
  p ← lift (m (port c));
  _ ← modify (fun s => with_cores (zset (cores s) n (Core_ (snd p))) s);
  mret (fst p).

(** A port of a router or of an interface, and the change of one. *)
Definition on_port {A : Type} (k : Z) (m : ST Port A) : ST Router A :=
  l ← gets ports;
  x ← lift (aget l k);
  p ← lift (m x);
  _ ← modify (fun r => with_ports (zset (ports r) k (snd p)) r);
  mret (fst p).
Definition on_ni_port {A : Type} (k : Z) (m : ST Port A) : ST NetworkInterface A :=
  l ← gets ni_ports;
  x ← lift (aget l k);
  p ← lift (m x);
  _ ← modify (fun r => with_ni_ports (zset (ni_ports r) k (snd p)) r);
  mret (fst p).
Definition on_ptr {A : Type} (p : port_ptr) (m : ST Port A) : ST network A :=
  match p with
  | RouterPort n k => on_router n (on_port k m)
  | NIPort n k => on_ni n (on_ni_port k m)
  | CorePort n => on_core n m
  end.
Definition load_port (p : port_ptr) : ST network Port := on_ptr p get_st.
Definition store_port (p : port_ptr) (f : Port -> Port) : ST network unit := on_ptr p (modify f).

Section architecture.
Variable NOC_WIDTH NOC_HEIGHT NOC_BUFFER_SIZE OS_PACKET_SIZE : Z.
(** The contents of fresh memory. *)
Variable garbage : Z -> Z.

Definition N_CORES : Z := NOC_WIDTH * NOC_HEIGHT.
Definition NI_BUFFER_LENGTH : Z := OS_PACKET_SIZE.
Definition GET_LINE (n : Z) : Z := cdiv n NOC_WIDTH.
Definition GET_COLUMN (n : Z) : Z := cmod n NOC_WIDTH.
Definition headerToDecimal (x : Z) : Z := u32 (u32 (Z.land x 0x0f * NOC_WIDTH) + Z.shiftr (Z.land x 0xf0) 4).
Definition decimalToHeader (x : Z) : Z := Z.lor (Z.shiftl (GET_COLUMN x) 4) (GET_LINE x).

(** ** Building the architecture *)

Definition load_router : Router :=
  Router_ 0 (replicate 5 IDLE) (replicate 5 0) (replicate 5 NONE) (replicate 5 NONE)
    (replicate 5 (Flits.create garbage NOC_BUFFER_SIZE)) (replicate 5 cleanPort).
Definition load_interface : NetworkInterface :=
  NetworkInterface_ (replicate 2 (Flits.create garbage NI_BUFFER_LENGTH)) (replicate 2 cleanPort).
Definition load_architecture : network :=
  Network (replicate (Z.to_nat N_CORES) load_router) (replicate (Z.to_nat N_CORES) load_interface)
    (replicate (Z.to_nat N_CORES) (Core_ cleanPort)).

(** ** A cycle of a router *)

Definition getBuffer (k : Z) : ST Router Flits.Buffer := l ← gets buffers; lift (aget l k).
Definition setBuffer (k : Z) (b : Flits.Buffer) : ST Router unit :=
  modify (fun r => Router_ (arbiter r) (status r) (packets_remaining r) (redirect_to r) (routing_delay r)
    (zset (buffers r) k b) (ports r)).
Definition put_buffer (k : Z) (v : Z) : ST Router unit :=
  b ← getBuffer k; b ← lift (Flits.put v b); setBuffer k b.
Definition take_buffer (k : Z) : ST Router Z :=
  b ← getBuffer k; p ← lift (Flits.take b); _ ← setBuffer k (snd p); mret (fst p).
Definition set_arbiter (a : Z) : ST Router unit :=
  modify (fun r => Router_ a (status r) (packets_remaining r) (redirect_to r) (routing_delay r) (buffers r) (ports r)).
Definition get_status (k : Z) : ST Router Z := l ← gets status; lift (aget l k).
Definition set_status (k v : Z) : ST Router unit :=
  l ← gets status;
  l ← lift (aset l k v);
  modify (fun r => Router_ (arbiter r) l (packets_remaining r) (redirect_to r) (routing_delay r) (buffers r) (ports r)).
Definition get_remaining (k : Z) : ST Router Z := l ← gets packets_remaining; lift (aget l k).
Definition set_remaining (k v : Z) : ST Router unit :=
  l ← gets packets_remaining;
  l ← lift (aset l k v);
  modify (fun r => Router_ (arbiter r) (status r) l (redirect_to r) (routing_delay r) (buffers r) (ports r)).
Definition get_redirect (k : Z) : ST Router Z := l ← gets redirect_to; lift (aget l k).
Definition set_redirect (k v : Z) : ST Router unit :=
  l ← gets redirect_to;
  l ← lift (aset l k v);
  modify (fun r => Router_ (arbiter r) (status r) (packets_remaining r) l (routing_delay r) (buffers r) (ports r)).
Definition get_delay (k : Z) : ST Router Z := l ← gets routing_delay; lift (aget l k).
Definition set_delay (k v : Z) : ST Router unit :=
  l ← gets routing_delay;
  l ← lift (aset l k v);
  modify (fun r => Router_ (arbiter r) (status r) (packets_remaining r) (redirect_to r) l (buffers r) (ports r)).

Fixpoint for_each {S : Type} (f : Z -> ST S unit) (l : list Z) : ST S unit :=
  match l with [] => mret tt | i :: l => _ ← f i; for_each f l end.

(** The first loop: take in what is requested. *)
Definition accept (i : Z) : ST Router unit :=
  p ← on_port i get_st;
  if in_request p =? ON then
    b ← getBuffer i;
    if negb (Flits.isFull b) then
      _ ← put_buffer i (in_ p);
      on_port i (modify (set_in_ack ON))
    else mret tt
  else mret tt.

(** The direction of a packet at node [n]; [dest] is not set otherwise. *)
Definition route (n header : Z) : option Z :=
  if (GET_LINE n =? GET_LINE header) && (GET_COLUMN n =? GET_COLUMN header) then Some LOCAL
  else if GET_COLUMN n <? GET_COLUMN header then Some EAST
  else if GET_COLUMN header <? GET_COLUMN n then Some WEST
  else if GET_LINE header <? GET_LINE n then Some SOUTH
  else if GET_LINE n <? GET_LINE header then Some NORTH
  else None.

(** Another input than [i] is connected to [dest]. *)
Fixpoint in_use (i dest : Z) (l : list Z) : ST Router bool :=
  match l with
  | [] => mret false
  | j :: l =>
      u ← in_use i dest l;
      if j =? i then mret u
      else
        st ← get_status j;
        rd ← get_redirect j;
        mret (negb (st =? IDLE) && (rd =? dest) || u)
  end.

(** The arbiter connects the input it is at. *)
Definition arbitrate (n : Z) : ST Router unit :=
  a ← gets arbiter;
  st ← get_status a;
  let active := if (SIMULTANEOUS_SWITCHING =? 0) && negb (st =? IDLE) then 6 else 0 in
  if (st =? IDLE) && (active =? 0) then
    b ← getBuffer a;
    if negb (Flits.isEmpty b) then
      flit ← lift (Flits.read b);
      dest ← lift (match route n (headerToDecimal flit) with Some d => Ok d | None => Fault end);
      u ← in_use a dest [0; 1; 2; 3; 4];
      if negb u then
        _ ← set_redirect a dest;
        _ ← set_status a ROUTING_DELAY;
        set_delay a ROUTING_ALGORITHM_DELAY
      else mret tt
    else mret tt
  else mret tt.

(** The third loop: an input that is connected sends a flit. *)
Definition send_flit (i d : Z) : ST Router Z :=
  flit ← take_buffer i;
  _ ← on_port d (modify (set_out flit ON OFF));
  mret flit.
Definition transmit (i : Z) : ST Router unit :=
  st ← get_status i;
  if negb (st =? IDLE) then
    d ← get_redirect i;
    port_dest ← on_port d get_st;
    b ← getBuffer i;
    if st =? ROUTING_DELAY then
      delay ← get_delay i;
      _ ← set_delay i (i32 (delay - 1));
      if (delay <=? 0) && negb (Flits.isEmpty b) then
        _ ← send_flit i d;
        set_status i ROUTING_HEADER
      else mret tt
    else if out_ack port_dest =? ON then
      if (st =? ROUTING_HEADER) && negb (Flits.isEmpty b) then
        flit ← send_flit i d;
        _ ← set_remaining i flit;
        set_status i ROUTING_PAYLOAD
      else if (st =? ROUTING_PAYLOAD) || (st =? ROUTING_DATA) then
        _ ← (if st =? ROUTING_PAYLOAD then set_status i ROUTING_DATA else mret tt);
        rem ← get_remaining i;
        if rem =? 0 then
          _ ← set_status i IDLE;
          _ ← set_remaining i 0;
          _ ← set_redirect i NONE;
          on_port d (modify (set_out 0 OFF OFF))
        else if negb (Flits.isEmpty b) then
          _ ← send_flit i d;
          set_remaining i (i64 (rem - 1))
        else mret tt
      else mret tt
    else mret tt
  else mret tt.

(** The next input for the arbiter; ports at the border are skipped. *)
Definition next_arbiter (n a : Z) : Z :=
  let a := u8 (cmod (u8 (a + 1)) 5) in
  if ARBITRATION_CONSIDERING_POS =? 1 then
    let l := GET_LINE n in
    let c := GET_COLUMN n in
    if (l =? 0) && (c =? 0) then if a =? WEST then NORTH else if a =? SOUTH then LOCAL else a
    else if (l =? 0) && (c =? NOC_WIDTH - 1) then if a =? EAST then WEST else if a =? SOUTH then LOCAL else a
    else if (l =? NOC_HEIGHT - 1) && (c =? 0) then if a =? WEST then SOUTH else if a =? NORTH then LOCAL else a
    else if (l =? NOC_HEIGHT - 1) && (c =? NOC_WIDTH - 1) then
      if a =? EAST then WEST else if a =? NORTH then SOUTH else a
    else if l =? 0 then if a =? SOUTH then LOCAL else a
    else if c =? 0 then if a =? WEST then NORTH else a
    else if l =? NOC_HEIGHT - 1 then if a =? NORTH then SOUTH else a
    else if c =? NOC_WIDTH - 1 then if a =? EAST then WEST else a
    else a
  else a.

Definition router_cycle (n : Z) : ST Router unit :=
  _ ← for_each accept [0; 1; 2; 3; 4];
  _ ← arbitrate n;
  _ ← for_each transmit [0; 1; 2; 3; 4];
  a ← gets arbiter;
  set_arbiter (next_arbiter n a).
Definition cycleRouter (n : Z) : ST network unit := on_router n (router_cycle n).

(** ** A cycle of a network interface *)

Definition ni_buffer (k : Z) : ST NetworkInterface Flits.Buffer := l ← gets ni_buffers; lift (aget l k).
Definition set_ni_buffer (k : Z) (b : Flits.Buffer) : ST NetworkInterface unit :=
  modify (fun x => NetworkInterface_ (zset (ni_buffers x) k b) (ni_ports x)).

(** Take in a flit from port [k]. *)
Definition ni_accept (k : Z) : ST NetworkInterface unit :=
  p ← on_ni_port k get_st;
  if in_request p =? ON then
    b ← ni_buffer k;
    if negb (Flits.isFull b) then
      b ← lift (Flits.put (in_ p) b);
      _ ← set_ni_buffer k b;
      on_ni_port k (modify (set_in_ack ON))
    else mret tt
  else mret tt.
(** Offer the flits of buffer [k] at port [o]. *)
Definition ni_offer (k o : Z) : ST NetworkInterface unit :=
  b ← ni_buffer k;
  if negb (Flits.isEmpty b) then
    p ← on_ni_port o get_st;
    _ ← (if out_ack p =? ON then
      b ← lift (Flits.take b);
      _ ← set_ni_buffer k (snd b);
      on_ni_port o (modify (set_out 0 OFF OFF))
    else mret tt);
    b ← ni_buffer k;
    if negb (Flits.isEmpty b) then
      v ← lift (Flits.read b);
      on_ni_port o (modify (fun p => set_out v ON (out_ack p) p))
    else mret tt
  else mret tt.

Definition ni_cycle : ST NetworkInterface unit :=
  if NI_BUFFER_LENGTH =? 0 then mret tt
  else
    _ ← ni_accept PLASMA;
    _ ← ni_accept NOC;
    _ ← ni_offer PLASMA NOC;
    ni_offer NOC PLASMA.
Definition cycleNetworkInterface (n : Z) : ST network unit := on_ni n ni_cycle.

(** ** The handshake *)

Definition synchronizePorts (p1 p2 : port_ptr) : ST network unit :=
  a ← load_port p1;
  b ← load_port p2;
  if (out_request a =? ON) && (in_ack b =? OFF) && (out_ack a =? OFF) then
    store_port p2 (set_in (out a) ON)
  else if (out_request a =? ON) && (in_ack b =? ON) then
    _ ← store_port p2 (fun p => set_in (in_ p) OFF p);
    _ ← store_port p1 (set_out_ack ON);
    _ ← store_port p2 (set_in_ack OFF);
    store_port p2 (fun p => set_in OFF (in_request p) p)
  else mret tt.

Definition synchronizeRouter (n : Z) : ST network unit :=
  let l := GET_LINE n in
  let c := GET_COLUMN n in
  let east := (c =? 0) || negb (c =? NOC_WIDTH - 1) in
  let west := negb (c =? 0) in
  let north := (l =? 0) || negb (l =? NOC_HEIGHT - 1) in
  let south := negb (l =? 0) in
  _ ← synchronizePorts (RouterPort n LOCAL) (if negb (NI_BUFFER_LENGTH =? 0) then NIPort n NOC else CorePort n);
  _ ← when south (synchronizePorts (RouterPort n SOUTH) (RouterPort (n - NOC_WIDTH) NORTH));
  _ ← when north (synchronizePorts (RouterPort n NORTH) (RouterPort (n + NOC_WIDTH) SOUTH));
  _ ← when east (synchronizePorts (RouterPort n EAST) (RouterPort (n + 1) WEST));
  when west (synchronizePorts (RouterPort n WEST) (RouterPort (n - 1) EAST)).
Definition synchronizeNetworkInterface (n : Z) : ST network unit :=
  _ ← synchronizePorts (NIPort n NOC) (RouterPort n LOCAL);
  synchronizePorts (NIPort n PLASMA) (CorePort n).
Definition synchronizeCore (n : Z) : ST network unit :=
  synchronizePorts (CorePort n) (if negb (NI_BUFFER_LENGTH =? 0) then NIPort n PLASMA else RouterPort n LOCAL).
End architecture.
