(* ===== verification/Mpsoc.v ===== *)
(** * The processors' side of the MPSoC simulator

    The part of [usr/sim/mpsoc_sim/source/mpsoc_sim.c] that joins the processors
    to the network of [NocSim]: the network registers of [mem_read] and
    [mem_write], and the turn of [do_debug] that raises network interrupts,
    synchronizes the ports and runs the routers and interfaces. What a processor
    does in its turn is its access to the network registers, if any. *)

From S2P Require Import Prelude Words NocSim.

#[local] Open Scope Z_scope.

Definition CPU_NETWORK_CLK_RATIO : Z := 10.
Definition IRQ_NOC_READ : Z := 0x100.

(** Lists have an entry for each processor. *)
Record mpsoc : Type := Mpsoc {
  net : network;
  is_sending : list Z;
  flits_remaining : list Z;
  irq_mask : list Z;
  irq_status : list Z;
  irq_counter : list Z;
}.

(** An access of a processor to the registers modelled here. *)
Inductive access : Type := NoAccess | NOC_READ | NOC_WRITE (value : Z) | NOC_STATUS | IRQ_MASK (value : Z).

Definition with_net (v : network) (s : mpsoc) : mpsoc :=
  Mpsoc v (is_sending s) (flits_remaining s) (irq_mask s) (irq_status s) (irq_counter s).
Definition with_sending (v : list Z) (s : mpsoc) : mpsoc :=
  Mpsoc (net s) v (flits_remaining s) (irq_mask s) (irq_status s) (irq_counter s).
Definition with_remaining (v : list Z) (s : mpsoc) : mpsoc :=
  Mpsoc (net s) (is_sending s) v (irq_mask s) (irq_status s) (irq_counter s).
Definition with_irq_status (v : list Z) (s : mpsoc) : mpsoc :=
  Mpsoc (net s) (is_sending s) (flits_remaining s) (irq_mask s) v (irq_counter s).
Definition with_irq_mask (v : list Z) (s : mpsoc) : mpsoc :=
  Mpsoc (net s) (is_sending s) (flits_remaining s) v (irq_status s) (irq_counter s).
Definition with_irq_counter (v : list Z) (s : mpsoc) : mpsoc :=
  Mpsoc (net s) (is_sending s) (flits_remaining s) (irq_mask s) (irq_status s) v.

Definition onnet {A : Type} (m : ST network A) : ST mpsoc A := fun s =>
  match m (net s) with
  | Ok (a, x) => Ok (a, with_net x s)
  | Panic c => Panic c
  | Fault => Fault
  | Timeout => Timeout
  end.
Definition get_at (f : mpsoc -> list Z) (j : Z) : ST mpsoc Z := l ← gets f; lift (aget l j).
Definition set_sending (j v : Z) : ST mpsoc unit :=
  l ← gets is_sending; l ← lift (aset l j v); modify (with_sending l).
Definition set_remaining (j v : Z) : ST mpsoc unit :=
  l ← gets flits_remaining; l ← lift (aset l j v); modify (with_remaining l).
Definition set_irq_status (j v : Z) : ST mpsoc unit :=
  l ← gets irq_status; l ← lift (aset l j v); modify (with_irq_status l).
Definition set_irq_mask (j v : Z) : ST mpsoc unit :=
  l ← gets irq_mask; l ← lift (aset l j v); modify (with_irq_mask l).
Definition set_irq_counter (j v : Z) : ST mpsoc unit :=
  l ← gets irq_counter; l ← lift (aset l j v); modify (with_irq_counter l).

Section rounds.
Variable NOC_WIDTH NOC_HEIGHT NOC_BUFFER_SIZE OS_PACKET_SIZE : Z.
Variable garbage : Z -> Z.

(** ** The network registers *)

Definition noc_read (cpu_n : Z) : ST mpsoc Z :=
  st ← get_at irq_status cpu_n;
  _ ← (if nz (Z.land st IRQ_NOC_READ) then set_irq_status cpu_n (Z.land st (u32 (Z.lnot IRQ_NOC_READ))) else mret tt);
  rem ← get_at flits_remaining cpu_n;
  if rem =? OS_PACKET_SIZE + 1 then
    _ ← set_remaining cpu_n (i32 (rem - 1));
    mret 0
  else
    p ← onnet (on_core cpu_n get_st);
    if in_request p =? ON then
      _ ← onnet (on_core cpu_n (modify (set_in_ack ON)));
      _ ← set_remaining cpu_n (i32 (rem - 1));
      mret (in_ p)
    else mret 0xe0000000.
Definition noc_write (cpu_n value : Z) : ST mpsoc unit :=
  _ ← set_sending cpu_n ON;
  onnet (on_core cpu_n (modify (set_out (u16 value) ON OFF))).
Definition noc_status (cpu_n : Z) : ST mpsoc Z :=
  b ← onnet (on_ni cpu_n (ni_buffer PLASMA));
  mret (cbool (Flits.isEmpty b)).

(** The access [a] of processor [j]; a processor that is sending waits. *)
Definition turn (j : Z) (a : access) : ST mpsoc Z :=
  sending ← get_at is_sending j;
  if sending =? OFF then
    match a with
    | NoAccess => mret 0
    | NOC_READ => noc_read j
    | NOC_WRITE v => _ ← noc_write j v; mret 0
    | NOC_STATUS => noc_status j
    | IRQ_MASK v => _ ← set_irq_mask j (u32 v); mret 0
    end
  else mret 0.

(** ** A turn of [do_debug] *)

(** The network interrupt of processor [j], whose interrupt enable is [status]. *)
Definition noc_interrupt (j status : Z) : ST mpsoc unit :=
  p ← onnet (on_core j get_st);
  b ← onnet (on_ni j (ni_buffer NOC));
  rem ← get_at flits_remaining j;
  if Flits.isFull b && (in_request p =? ON) && (rem =? 0) then
    mask ← get_at irq_mask j;
    if nz (Z.land mask IRQ_NOC_READ) then
      if status =? 1 then
        _ ← set_remaining j (OS_PACKET_SIZE + 1);
        _ ← set_irq_counter j 2;
        st ← get_at irq_status j;
        set_irq_status j (Z.lor st IRQ_NOC_READ)
      else mret tt
    else mret tt
  else mret tt.

(** The processor learns that its flit was taken. *)
Definition clear_sent (j : Z) : ST mpsoc unit :=
  sending ← get_at is_sending j;
  if sending =? ON then
    p ← onnet (on_core j get_st);
    if out_ack p =? ON then
      _ ← onnet (on_core j (modify (set_out 0 OFF OFF)));
      set_sending j OFF
    else mret tt
  else mret tt.

Definition nodes : list Z := Z.of_nat <$> seq 0 (Z.to_nat (N_CORES NOC_WIDTH NOC_HEIGHT)).
Definition synchronize (j : Z) : ST network unit :=
  _ ← synchronizeRouter NOC_WIDTH NOC_HEIGHT OS_PACKET_SIZE j;
  _ ← synchronizeNetworkInterface j;
  synchronizeCore OS_PACKET_SIZE j.
Definition cycle_node (gcycles j : Z) : ST network unit :=
  _ ← when (cmod gcycles CPU_NETWORK_CLK_RATIO =? 0) (cycleRouter NOC_WIDTH NOC_HEIGHT j);
  cycleNetworkInterface OS_PACKET_SIZE j.
Fixpoint turns (j : Z) (l : list access) : ST mpsoc (list Z) :=
  match l with
  | [] => mret []
  | a :: l => v ← turn j a; vs ← turns (j + 1) l; mret (v :: vs)
  end.

(** One turn of the main loop with the processors' interrupt enables and
    accesses; [gcycles] is the new count. What they read is the result. *)
Definition handshakes (status : Z -> Z) : ST mpsoc unit :=
  _ ← for_each (fun j => noc_interrupt j (status j)) nodes;
  _ ← for_each clear_sent nodes;
  onnet (for_each synchronize nodes).
Definition cycles (gcycles : Z) (l : list access) : ST mpsoc (list Z) :=
  _ ← onnet (for_each (cycle_node gcycles) nodes);
  turns 0 l.
Definition round (gcycles : Z) (status : Z -> Z) (l : list access) : ST mpsoc (list Z) :=
  _ ← handshakes status;
  cycles gcycles l.

(** The state the main program starts with. *)
Definition mpsoc_start : mpsoc :=
  let n := Z.to_nat (N_CORES NOC_WIDTH NOC_HEIGHT) in
  Mpsoc (load_architecture NOC_WIDTH NOC_HEIGHT NOC_BUFFER_SIZE OS_PACKET_SIZE garbage)
    (replicate n 0) (replicate n 0) (replicate n 0) (replicate n 0x32) (replicate n 0).
End rounds.
