(* ===== verification/NocRouter.v ===== *)
(** * A router of the MPSoC simulator

    [cycleRouter] of [usr/sim/mpsoc_sim/source/noc.c] as a wormhole switch. What
    went into the inputs and out of the outputs is a sequence of flits; a packet
    is a header, a size and so many flits. The invariant says that every output
    carries whole packets, each taken from one input and routed there, and that
    nothing is lost or reordered. *)

From stdpp Require Import functions.
From S2P Require Import Prelude Words NocSim.

#[local] Open Scope Z_scope.

(** ** Buffers are FIFOs *)
Section flits.
Implicit Types (b : Flits.Buffer) (l q : list Z) (v : Z).

(** The buffer of [cap] places holds [q]. *)
Record flits_in (cap : Z) b q : Prop := {
  fi_max : Flits.max b = cap;
  fi_len : zlen (Flits.buffer b) = cap;
  fi_start : 0 <= Flits.start b < cap;
  fi_size : Flits.size b = zlen q;
  fi_cap : zlen q <= cap;
  fi_end : Flits.end_ b = (Flits.start b + zlen q) mod cap;
  fi_cells : forall i, 0 <= i < zlen q -> zget (Flits.buffer b) ((Flits.start b + i) mod cap) = zget q i;
}.
Definition cap_ok (cap : Z) : Prop := 0 < cap < 2147483647.

Lemma flits_created garbage cap : cap_ok cap -> flits_in cap (Flits.create garbage cap) [].
Proof.
  intros Hc. unfold cap_ok in Hc. split; cbn; try done; try lia.
  - rewrite tabulate_zlen. lia.
  - unfold zlen. cbn. lia.
  - intros i Hi. unfold zlen in Hi. cbn in Hi. lia.
Qed.

Lemma flits_put cap b q v : cap_ok cap -> flits_in cap b q -> Flits.isFull b = false ->
  exists b', Flits.put v b = Ok b' /\ flits_in cap b' (q ++ [v]).
Proof.
  intros Hc [Hm Hl Hs Hz Hq He Hx] F. unfold cap_ok in Hc. unfold Flits.isFull in F. apply Z.eqb_neq in F. rewrite Hz, Hm in F.
  pose proof (zlen_nonneg q). unfold Flits.put. rewrite aset_Ok by (rewrite Hl, He; apply Z.mod_pos_bound; lia).
  cbn [mbind outcome_bind]. eexists. split; [done|]. pose proof (Z.mod_pos_bound (Flits.start b + zlen q) cap ltac:(lia)).
  assert (Hq1 : zlen (q ++ [v]) = zlen q + 1) by (by rewrite zlen_app).
  split; cbn; rewrite ?zset_zlen, ?Hq1, ?Hm, ?Hz; try done; try lia.
  - rewrite i32_small by lia. done.
  - rewrite He, i32_small by lia. rewrite cmod_nonneg by lia. ring_lia.
  - intros i Hi. rewrite He. destruct (decide (i = zlen q)) as [->|Hne].
    + rewrite zget_zset_eq by lia. rewrite zget_app_r, Z.sub_diag by lia. done.
    + rewrite zget_zset_ne by ring_lia. rewrite zget_app_l by lia. apply Hx. lia.
Qed.

Lemma flits_empty cap b q : flits_in cap b q -> Flits.isEmpty b = true <-> q = [].
Proof.
  intros []. unfold Flits.isEmpty. rewrite Z.eqb_eq, fi_size0. unfold zlen. split; [|by intros ->].
  intros ?. apply nil_length_inv. lia.
Qed.
Lemma flits_nonempty cap b q : flits_in cap b q -> Flits.isEmpty b = false -> exists v t, q = v :: t.
Proof. intros F E. destruct q as [|v t]; [|eauto]. by rewrite (proj2 (flits_empty _ _ _ F) eq_refl) in E. Qed.

Lemma flits_read cap b v q : flits_in cap b (v :: q) -> Flits.read b = Ok v.
Proof.
  intros []. unfold Flits.read. apply aget_Ok. pose proof (zlen_nonneg q). rewrite zlen_cons in *.
  specialize (fi_cells0 0 ltac:(lia)). by rewrite Z.add_0_r, Z.mod_small in fi_cells0 by lia.
Qed.
Lemma flits_take cap b v q : cap_ok cap -> flits_in cap b (v :: q) ->
  exists b', Flits.take b = Ok (v, b') /\ flits_in cap b' q.
Proof.
  intros Hc F. pose proof (flits_read _ _ _ _ F) as Hr. destruct F as [Hm Hl Hs Hz Hq He Hx]. unfold cap_ok in Hc.
  unfold Flits.read in Hr. unfold Flits.take. rewrite Hr. cbn [mbind outcome_bind]. eexists. split; [done|].
  pose proof (zlen_nonneg q). rewrite zlen_cons in *.
  assert (Hst : cmod (i32 (Flits.start b + 1)) cap = (Flits.start b + 1) mod cap) by (rewrite i32_small by lia; apply cmod_nonneg; lia).
  split; cbn; rewrite ?Hm, ?Hz, ?Hst; try done; try lia.
  - apply Z.mod_pos_bound. lia.
  - rewrite i32_small by lia. lia.
  - rewrite He, Zplus_mod_idemp_l. f_equal. lia.
  - intros i Hi. rewrite Zplus_mod_idemp_l. replace (Flits.start b + 1 + i) with (Flits.start b + (i + 1)) by lia.
    rewrite Hx by lia. rewrite zget_cons_S by lia. f_equal. lia.
Qed.
End flits.

(** ** The inputs and outputs of a router *)
Section views.
Implicit Types (r : Router) (i j d v : Z) (p : Port).

Definition st r i : Z := default IDLE (zget (status r) i).
Definition rem r i : Z := default 0 (zget (packets_remaining r) i).
Definition rd r i : Z := default NONE (zget (redirect_to r) i).
Definition dly r i : Z := default 0 (zget (routing_delay r) i).
Definition buf r i : Flits.Buffer := default (Flits.Buffer_ [] 0 0 0 0) (zget (buffers r) i).
Definition prt r d : Port := default cleanPort (zget (ports r) d).

Record shape r : Prop := {
  sh_arbiter : 0 <= arbiter r < 5;
  sh_status : zlen (status r) = 5;
  sh_remaining : zlen (packets_remaining r) = 5;
  sh_redirect : zlen (redirect_to r) = 5;
  sh_delay : zlen (routing_delay r) = 5;
  sh_buffers : zlen (buffers r) = 5;
  sh_ports : zlen (ports r) = 5;
}.
Definition place i : Prop := 0 <= i < 5.

Lemma aget_default {A : Type} (l : list A) i (x : A) : 0 <= i < zlen l -> aget l i = Ok (default x (zget l i)).
Proof. intros [y E]%zget_is_Some. by rewrite (aget_Ok _ _ _ E), E. Qed.
Lemma default_zset {A : Type} (l : list A) i j (x y : A) : 0 <= i < zlen l ->
  default x (zget (zset l i y) j) = if decide (j = i) then y else default x (zget l j).
Proof. intros Hi. destruct (decide (j = i)) as [->|Hne]; [by rewrite zget_zset_eq|by rewrite zget_zset_ne by congruence]. Qed.

Lemma get_status_run r i : shape r -> place i -> get_status i r = Ok (st r i, r).
Proof. intros [] Hi. unfold get_status, gets, lift, mbind, ST_bind. by rewrite (aget_default _ i IDLE) by (unfold place in Hi; lia). Qed.
Lemma get_remaining_run r i : shape r -> place i -> get_remaining i r = Ok (rem r i, r).
Proof. intros [] Hi. unfold get_remaining, gets, lift, mbind, ST_bind. by rewrite (aget_default _ i 0) by (unfold place in Hi; lia). Qed.
Lemma get_redirect_run r i : shape r -> place i -> get_redirect i r = Ok (rd r i, r).
Proof. intros [] Hi. unfold get_redirect, gets, lift, mbind, ST_bind. by rewrite (aget_default _ i NONE) by (unfold place in Hi; lia). Qed.
Lemma get_delay_run r i : shape r -> place i -> get_delay i r = Ok (dly r i, r).
Proof. intros [] Hi. unfold get_delay, gets, lift, mbind, ST_bind. by rewrite (aget_default _ i 0) by (unfold place in Hi; lia). Qed.
Lemma getBuffer_run r i : shape r -> place i -> getBuffer i r = Ok (buf r i, r).
Proof.
  intros [] Hi. unfold getBuffer, gets, lift, mbind, ST_bind.
  by rewrite (aget_default _ i (Flits.Buffer_ [] 0 0 0 0)) by (unfold place in Hi; lia).
Qed.
Lemma on_port_run {A : Type} r i (m : ST Port A) a p : shape r -> place i -> m (prt r i) = Ok (a, p) ->
  on_port i m r = Ok (a, with_ports (zset (ports r) i p) r).
Proof.
  intros [] Hi E. unfold on_port. st_unfold. rewrite (aget_default _ i cleanPort) by (unfold place in Hi; lia).
  change (default cleanPort (zget (ports r) i)) with (prt r i). by rewrite E.
Qed.
Lemma on_port_get r i : shape r -> place i -> on_port i get_st r = Ok (prt r i, r).
Proof.
  intros S Hi. rewrite (on_port_run r i get_st _ _ S Hi eq_refl). pose proof (sh_ports _ S). unfold place in Hi.
  destruct (zget_is_Some (ports r) i) as [p E]; [lia|]. unfold prt. rewrite E. cbn. rewrite (zset_same _ _ _ E). by destruct r.
Qed.

(** What a step changes: the fields of input [i] and the port [d]. *)
Record changes r r' (i d : Z) : Prop := {
  ch_shape : shape r';
  ch_arbiter : arbiter r' = arbiter r;
  ch_input : forall j, j <> i -> st r' j = st r j /\ rem r' j = rem r j /\ rd r' j = rd r j /\ buf r' j = buf r j;
  ch_port : forall e, e <> d -> prt r' e = prt r e;
}.
Lemma changes_refl r i d : shape r -> changes r r i d.
Proof. intros S. split; auto. Qed.
Lemma changes_trans r1 r2 r3 i d : changes r1 r2 i d -> changes r2 r3 i d -> changes r1 r3 i d.
Proof.
  intros [S1 A1 I1 P1] [S2 A2 I2 P2]. split; [done|congruence| |].
  - intros j Hj. destruct (I1 j Hj) as (?&?&?&?), (I2 j Hj) as (?&?&?&?). split_and!; congruence.
  - intros e He. by rewrite P2, P1.
Qed.
End views.

(** The fields of the router after an assignment. *)
Ltac fields :=
  unfold st, rem, rd, dly, buf, prt in *; cbn [arbiter status packets_remaining redirect_to routing_delay buffers ports with_ports snd fst] in *;
  rewrite ?default_zset by (unfold place in *; lia).
Ltac shaped := split; cbn [arbiter status packets_remaining redirect_to routing_delay buffers ports with_ports];
  rewrite ?zset_zlen; first [done | unfold place in *; lia | assumption].

Section assignments.
Implicit Types (r : Router) (i j d v s m x : Z) (b : Flits.Buffer) (p : Port).

(** [r] comes from [r0] by changes of input [i] and port [d], which are now these. *)
Record moved r0 r i d s m x b p : Prop := {
  mv_place : place i /\ place d;
  mv_changes : changes r0 r i d;
  mv_st : st r i = s;
  mv_rem : rem r i = m;
  mv_rd : rd r i = x;
  mv_buf : buf r i = b;
  mv_prt : prt r d = p;
}.
Lemma moved_start r i d : shape r -> place i -> place d ->
  moved r r i d (st r i) (rem r i) (rd r i) (buf r i) (prt r d).
Proof. intros S Hi Hd. by split. Qed.
Lemma moved_shape r0 r i d s m x b p : moved r0 r i d s m x b p -> shape r.
Proof. by intros [? [] ? ? ? ? ?]. Qed.

Ltac assigned :=
  intros M; pose proof (moved_shape _ _ _ _ _ _ _ _ _ M) as S; destruct M as [[Hi Hd] C E1 E2 E3 E4 E5]; pose proof S as [];
  eexists; split; [unfold set_status, set_remaining, set_redirect, set_delay, setBuffer, gets, modify, lift, mbind, ST_bind;
    rewrite ?aset_Ok by (unfold place in Hi; lia); first [reflexivity | by apply on_port_run]|];
  subst; split; [done| |fields; rewrite ?decide_True by done; done..];
  apply (changes_trans _ _ _ _ _ C); split;
    [shaped|done|intros j Hj; fields; rewrite ?decide_False by done; done|intros e He; fields; rewrite ?decide_False by done; done].
Lemma set_status_run r0 r i d s m x b p v : moved r0 r i d s m x b p ->
  exists r', set_status i v r = Ok (tt, r') /\ moved r0 r' i d v m x b p.
Proof. assigned. Qed.
Lemma set_remaining_run r0 r i d s m x b p v : moved r0 r i d s m x b p ->
  exists r', set_remaining i v r = Ok (tt, r') /\ moved r0 r' i d s v x b p.
Proof. assigned. Qed.
Lemma set_redirect_run r0 r i d s m x b p v : moved r0 r i d s m x b p ->
  exists r', set_redirect i v r = Ok (tt, r') /\ moved r0 r' i d s m v b p.
Proof. assigned. Qed.
Lemma set_delay_run r0 r i d s m x b p v : moved r0 r i d s m x b p ->
  exists r', set_delay i v r = Ok (tt, r') /\ moved r0 r' i d s m x b p.
Proof. assigned. Qed.
Lemma setBuffer_run r0 r i d s m x b p b' : moved r0 r i d s m x b p ->
  exists r', setBuffer i b' r = Ok (tt, r') /\ moved r0 r' i d s m x b' p.
Proof. assigned. Qed.
Lemma set_port_run r0 r i d s m x b p (f : Port -> Port) : moved r0 r i d s m x b p ->
  exists r', on_port d (modify f) r = Ok (tt, r') /\ moved r0 r' i d s m x b (f p).
Proof. assigned. Qed.

Lemma take_buffer_run cap r0 r i d s m x b p v q : cap_ok cap -> moved r0 r i d s m x b p -> flits_in cap b (v :: q) ->
  exists r' b', take_buffer i r = Ok (v, r') /\ moved r0 r' i d s m x b' p /\ flits_in cap b' q.
Proof.
  intros Hc M F. destruct (flits_take cap b v q Hc F) as (b' & E & F').
  pose proof (moved_shape _ _ _ _ _ _ _ _ _ M) as S. destruct (setBuffer_run _ _ _ _ _ _ _ _ _ b' M) as (r' & E' & M').
  destruct M as [[Hi _] _ _ _ _ Hb _]. exists r', b'. split_and!; [|done..].
  unfold take_buffer. st_step (getBuffer_run r i S Hi). rewrite Hb, E. rewrite (ST_bind_Ok (lift (Ok (v, b'))) _ r (v, b') r eq_refl).
  cbn [fst snd]. by st_step E'.
Qed.
Lemma send_flit_run cap r0 r i d s m x b p v q : cap_ok cap -> moved r0 r i d s m x b p -> flits_in cap b (v :: q) ->
  exists r' b', send_flit i d r = Ok (v, r') /\ moved r0 r' i d s m x b' (set_out v ON OFF p) /\ flits_in cap b' q.
Proof.
  intros Hc M F. destruct (take_buffer_run _ _ _ _ _ _ _ _ _ _ _ _ Hc M F) as (r1 & b' & E & M1 & F').
  destruct (set_port_run _ _ _ _ _ _ _ _ _ (set_out v ON OFF) M1) as (r2 & E2 & M2). exists r2, b'. split_and!; [|done..].
  unfold send_flit. st_step E. by st_step E2.
Qed.
End assignments.

(** ** Sending *)
Section sending.
Implicit Types (r : Router) (i j d v s m x : Z) (q : list Z) (p : Port).

(** How [transmit] changes the status, the flits to come, the output, the
    queue and the port of an input. *)
Inductive transmits : (Z * Z * Z * list Z * Port) -> (Z * Z * Z * list Z * Port) -> Prop :=
| tr_wait s m x q p : transmits (s, m, x, q, p) (s, m, x, q, p)
| tr_header m x v q p : transmits (ROUTING_DELAY, m, x, v :: q, p) (ROUTING_HEADER, m, x, q, set_out v ON OFF p)
| tr_size m x v q p : out_ack p = ON ->
    transmits (ROUTING_HEADER, m, x, v :: q, p) (ROUTING_PAYLOAD, v, x, q, set_out v ON OFF p)
| tr_begin s m x p : s = ROUTING_PAYLOAD \/ s = ROUTING_DATA -> out_ack p = ON -> m <> 0 ->
    transmits (s, m, x, [], p) (ROUTING_DATA, m, x, [], p)
| tr_data s m x v q p : s = ROUTING_PAYLOAD \/ s = ROUTING_DATA -> out_ack p = ON -> m <> 0 ->
    transmits (s, m, x, v :: q, p) (ROUTING_DATA, i64 (m - 1), x, q, set_out v ON OFF p)
| tr_close s m x q p : s = ROUTING_PAYLOAD \/ s = ROUTING_DATA -> out_ack p = ON -> m = 0 ->
    transmits (s, m, x, q, p) (IDLE, 0, NONE, q, set_out 0 OFF OFF p).

(** The result of a step that ends in the named state. *)
Definition transmitted cap r r' i d q : Prop := exists s m x b q' p, moved r r' i d s m x b p /\ flits_in cap b q' /\
  transmits (st r i, rem r i, rd r i, q, prt r d) (s, m, x, q', p).
Lemma transmit_delay_run cap r i q : cap_ok cap -> shape r -> place i -> place (rd r i) -> flits_in cap (buf r i) q ->
  st r i = ROUTING_DELAY ->
  exists r', transmit i r = Ok (tt, r') /\ transmitted cap r r' i (rd r i) q.
Proof.
  intros Hc S Hi Hd F E. pose proof (moved_start r i _ S Hi Hd) as M0. unfold transmitted, transmit. st_step (get_status_run r i S Hi).
  rewrite E in *. change (negb (ROUTING_DELAY =? IDLE)) with true. cbv iota. change (ROUTING_DELAY =? ROUTING_DELAY) with true. cbv iota.
  st_step (get_redirect_run r i S Hi). st_step (on_port_get r (rd r i) S Hd). st_step (getBuffer_run r i S Hi).
  st_step (get_delay_run r i S Hi).
  destruct (set_delay_run _ _ _ _ _ _ _ _ _ (i32 (dly r i - 1)) M0) as (r1 & E1 & M1). st_step E1.
  destruct (Flits.isEmpty (buf r i)) eqn:Em; [rewrite andb_false_r|rewrite andb_true_r; destruct (dly r i <=? 0)]; cbn [negb].
  1,3: exists r1; split; [done|]; do 6 eexists; split_and!; [exact M1|exact F|constructor].
  destruct (flits_nonempty _ _ _ F Em) as (v & t & ->).
  destruct (send_flit_run _ _ _ _ _ _ _ _ _ _ _ _ Hc M1 F) as (r2 & b' & E2 & M2 & F2). st_step E2.
  destruct (set_status_run _ _ _ _ _ _ _ _ _ ROUTING_HEADER M2) as (r3 & E3 & M3). exists r3. split; [exact E3|].
  do 6 eexists. split_and!; [exact M3|exact F2|constructor].
Qed.

Lemma transmit_data_run cap r i q : cap_ok cap -> shape r -> place i -> place (rd r i) -> flits_in cap (buf r i) q ->
  st r i = ROUTING_PAYLOAD \/ st r i = ROUTING_DATA -> out_ack (prt r (rd r i)) = ON ->
  exists r', transmit i r = Ok (tt, r') /\ transmitted cap r r' i (rd r i) q.
Proof.
  intros Hc S Hi Hd F E A. pose proof (moved_start r i _ S Hi Hd) as M0. unfold transmitted, transmit. st_step (get_status_run r i S Hi).
  assert (G : (st r i =? IDLE) = false /\ (st r i =? ROUTING_DELAY) = false /\ (st r i =? ROUTING_HEADER) = false /\
    (st r i =? ROUTING_PAYLOAD) || (st r i =? ROUTING_DATA) = true) by (by destruct E as [-> | ->]).
  destruct G as (-> & -> & -> & ->). cbn [negb andb].
  st_step (get_redirect_run r i S Hi). st_step (on_port_get r (rd r i) S Hd). st_step (getBuffer_run r i S Hi).
  rewrite A. change (ON =? ON) with true. cbv iota.
  assert (B : exists r1, (if st r i =? ROUTING_PAYLOAD then set_status i ROUTING_DATA else mret tt) r = Ok (tt, r1) /\
    moved r r1 i (rd r i) ROUTING_DATA (rem r i) (rd r i) (buf r i) (prt r (rd r i))).
  { destruct E as [E|E]; rewrite E in *; cbn; [apply set_status_run with (1 := M0)|by exists r]. }
  destruct B as (r1 & E1 & M1). st_step E1. st_step (get_remaining_run r1 i (moved_shape _ _ _ _ _ _ _ _ _ M1) Hi).
  rewrite (mv_rem _ _ _ _ _ _ _ _ _ M1). destruct (Z.eqb_spec (rem r i) 0) as [Z0|Z0].
  - destruct (set_status_run _ _ _ _ _ _ _ _ _ IDLE M1) as (r2 & E2 & M2). st_step E2.
    destruct (set_remaining_run _ _ _ _ _ _ _ _ _ 0 M2) as (r3 & E3 & M3). st_step E3.
    destruct (set_redirect_run _ _ _ _ _ _ _ _ _ NONE M3) as (r4 & E4 & M4). st_step E4.
    destruct (set_port_run _ _ _ _ _ _ _ _ _ (set_out 0 OFF OFF) M4) as (r5 & E5 & M5). exists r5. split; [exact E5|].
    do 6 eexists. split_and!; [exact M5|exact F|by constructor].
  - destruct (Flits.isEmpty (buf r i)) eqn:Em; cbn [negb].
    + apply (flits_empty _ _ _ F) in Em as ->. exists r1. split; [done|]. do 6 eexists. split_and!; [exact M1|exact F|by constructor].
    + destruct (flits_nonempty _ _ _ F Em) as (v & t & ->).
      destruct (send_flit_run _ _ _ _ _ _ _ _ _ _ _ _ Hc M1 F) as (r2 & b' & E2 & M2 & F2). st_step E2.
      destruct (set_remaining_run _ _ _ _ _ _ _ _ _ (i64 (rem r i - 1)) M2) as (r3 & E3 & M3). exists r3. split; [exact E3|].
      do 6 eexists. split_and!; [exact M3|exact F2|by constructor].
Qed.

Lemma transmit_run cap r i d q : cap_ok cap -> shape r -> place i -> place d -> flits_in cap (buf r i) q ->
  IDLE <= st r i <= ROUTING_DATA -> (st r i <> IDLE -> rd r i = d) ->
  exists r', transmit i r = Ok (tt, r') /\ transmitted cap r r' i d q.
Proof.
  intros Hc S Hi Hd F Hs Hr. pose proof (moved_start r i d S Hi Hd) as M0.
  destruct (decide (st r i = IDLE)) as [E|E].
  { exists r. split; [|do 6 eexists; split_and!; [exact M0|exact F|constructor]].
    unfold transmit. st_step (get_status_run r i S Hi). by rewrite E. }
  specialize (Hr E). rewrite <- Hr in *. destruct (decide (st r i = ROUTING_DELAY)); [by apply transmit_delay_run|].
  destruct (decide (out_ack (prt r (rd r i)) = ON)) as [A|A].
  - destruct (decide (st r i = ROUTING_HEADER)) as [E2|E2];
      [|apply transmit_data_run; try done; unfold IDLE, ROUTING_DELAY, ROUTING_PAYLOAD, ROUTING_DATA, ROUTING_HEADER in *; lia].
    unfold transmitted, transmit. st_step (get_status_run r i S Hi). rewrite E2 in *. cbn [negb andb orb Z.eqb Pos.eqb ROUTING_HEADER IDLE ROUTING_DELAY].
    st_step (get_redirect_run r i S Hi). st_step (on_port_get r (rd r i) S Hd). st_step (getBuffer_run r i S Hi).
    rewrite A. change (ON =? ON) with true. cbv iota. destruct (Flits.isEmpty (buf r i)) eqn:Em; cbn [negb].
    + exists r. split; [done|]. do 6 eexists. split_and!; [exact M0|exact F|constructor].
    + destruct (flits_nonempty _ _ _ F Em) as (v & t & ->).
      destruct (send_flit_run _ _ _ _ _ _ _ _ _ _ _ _ Hc M0 F) as (r1 & b' & E1 & M1 & F1). st_step E1.
      destruct (set_remaining_run _ _ _ _ _ _ _ _ _ v M1) as (r3 & E3 & M3). st_step E3.
      destruct (set_status_run _ _ _ _ _ _ _ _ _ ROUTING_PAYLOAD M3) as (r4 & E4 & M4). exists r4. split; [exact E4|].
      do 6 eexists. split_and!; [exact M4|exact F1|by constructor].
  - exists r. split; [|do 6 eexists; split_and!; [exact M0|exact F|constructor]].
    unfold transmit. st_step (get_status_run r i S Hi). rewrite (proj2 (Z.eqb_neq _ _) E). cbn [negb].
    st_step (get_redirect_run r i S Hi). st_step (on_port_get r (rd r i) S Hd). st_step (getBuffer_run r i S Hi).
    rewrite (proj2 (Z.eqb_neq (st r i) ROUTING_DELAY)) by done. rewrite (proj2 (Z.eqb_neq _ ON)) by done. done.
Qed.
End sending.

(** ** Packets through a router *)

(** Flits offered at an output, and taken at an input, from one state of its
    port to the next. *)
Definition pending (p : Port) : bool := (out_request p =? ON) && (out_ack p =? OFF).
Definition offers (p p' : Port) : list Z := if pending p' && negb (pending p) then [out p'] else [].
Definition accepts (p p' : Port) : list Z := if (in_ack p =? OFF) && (in_ack p' =? ON) then [in_ p] else [].
Definition outs (p : Port) : Z * Z * Z := (out p, out_request p, out_ack p).
Definition ins (p : Port) : Z * Z * Z := (in_ p, in_request p, in_ack p).

(** What the owner of a port may do to its two sides: offer a flit when none is
    pending, withdraw one that was acknowledged, accept one that is requested. *)
Definition sender_step (p p' : Port) : Prop :=
  outs p' = outs p \/ (pending p = false /\ exists v, outs p' = (v, ON, OFF)) \/ (out_ack p = ON /\ outs p' = (0, OFF, OFF)).
Definition receiver_step (p p' : Port) : Prop :=
  ins p' = ins p \/ (in_request p = ON /\ ins p' = (in_ p, in_request p, ON)).
Definition flit_ok (v : Z) : Prop := 0 <= v < 65536.

Section packets.
Variables (NOC_WIDTH cap n : Z).
Implicit Types (r : Router) (i j d : Z) (p : Port) (got sent part q : Z -> list Z) (log : list (Z * list Z)).

(** The output for a header, and a packet's flits. *)
Definition goes (h : Z) : option Z := route NOC_WIDTH n (headerToDecimal NOC_WIDTH h).
Definition packet_ok (k : list Z) : Prop := exists h z pl, k = h :: z :: pl /\ zlen pl = z.
Definition packet_goes (k : list Z) : option Z := match k with h :: _ => goes h | [] => None end.

(** The packets that went through, with the input each came from: what they
    took from an input and brought to an output. *)
Definition taken_from i log : list Z := concat (snd <$> filter (fun e => fst e = i) log).
Definition brought_to d log : list Z := concat (snd <$> filter (fun e => packet_goes (snd e) = Some d) log).

(** The state of an input whose queue is [q] and whose packet got as far as [part]. *)
Inductive stage : Z -> Z -> Z -> list Z -> list Z -> Prop :=
| stage_idle m x l : stage IDLE m x l []
| stage_delay m x h l : goes h = Some x -> stage ROUTING_DELAY m x (h :: l) []
| stage_header m x h l : goes h = Some x -> stage ROUTING_HEADER m x l [h]
| stage_payload m x h l : goes h = Some x -> flit_ok m -> stage ROUTING_PAYLOAD m x l [h; m]
| stage_data m x h z pl l : goes h = Some x -> flit_ok m -> zlen pl + m = z ->
    stage ROUTING_DATA m x l (h :: z :: pl).

(** The port of a connected input: what went out there is [base], then [part]. *)
Definition link_up (s : Z) p (out base part : list Z) : Prop :=
  if s =? ROUTING_DELAY then out_request p = OFF /\ out_ack p = OFF /\ out = base
  else out_request p = ON /\ out = base ++ part.

Record router_run r got sent log part q : Prop := {
  rr_shape : shape r;
  rr_flits : forall i, place i -> flits_in cap (buf r i) (q i);
  rr_range : forall i, place i -> Forall flit_ok (q i);
  rr_ports : forall d, place d -> flit_ok (in_ (prt r d)) /\ flit_ok (out (prt r d));
  rr_stage : forall i, place i -> stage (st r i) (rem r i) (rd r i) (q i) (part i);
  rr_got : forall i, place i -> got i = taken_from i log ++ part i ++ q i;
  rr_owned : forall i, place i -> st r i <> IDLE ->
    link_up (st r i) (prt r (rd r i)) (sent (rd r i)) (brought_to (rd r i) log) (part i);
  rr_free : forall d, place d -> (forall i, place i -> st r i <> IDLE -> rd r i <> d) ->
    out_request (prt r d) = OFF /\ out_ack (prt r d) = OFF /\ sent d = brought_to d log;
  rr_unique : forall i j, place i -> place j -> st r i <> IDLE -> st r j <> IDLE -> rd r i = rd r j -> i = j;
  rr_log : Forall (fun e => place (fst e) /\ packet_ok (snd e)) log;
}.
(** The invariant: what went in and out is explained by whole packets and the
    ones under way. *)
Definition router_inv r got sent : Prop := exists log part q, router_run r got sent log part q.

Lemma route_total h : exists d, goes h = Some d /\ place d.
Proof.
  unfold goes, route.
  repeat match goal with
  | |- context [?a =? ?b] => destruct (Z.eqb_spec a b)
  | |- context [?a <? ?b] => destruct (Z.ltb_spec a b)
  end; cbn [andb]; first [eexists; split; [reflexivity|done] | lia].
Qed.
Lemma goes_place h d : goes h = Some d -> place d.
Proof. intros E. destruct (route_total h) as (d' & E' & Hd). congruence. Qed.
Lemma stage_range s m x k k' : stage s m x k k' -> IDLE <= s <= ROUTING_DATA.
Proof. by inversion 1. Qed.
Lemma stage_place s m x k k' : stage s m x k k' -> s <> IDLE -> place x.
Proof. inversion 1; subst; intros Hs; [done|by eapply goes_place..]. Qed.

(** ** Every step keeps the invariant *)

Lemma owned_other r got sent log part q i j : router_run r got sent log part q -> place i -> place j -> st r i <> IDLE ->
  j <> i -> st r j <> IDLE -> rd r j <> rd r i.
Proof. intros R Hi Hj Ei Hne Ej E. by apply Hne, (rr_unique _ _ _ _ _ _ R). Qed.

(** Input [i], connected to [d], goes on: the rest of the router is as before. *)
Lemma moved_run r r' got sent log part q i d s m x b p log' (part' q' sent' : list Z) :
  router_run r got sent log part q -> moved r r' i d s m x b p -> st r i <> IDLE -> rd r i = d ->
  flits_in cap b q' -> Forall flit_ok q' -> in_ p = in_ (prt r d) -> flit_ok (out p) ->
  stage s m x q' part' -> (s <> IDLE -> x = d) ->
  got i = taken_from i log' ++ part' ++ q' -> (forall j, j <> i -> taken_from j log' = taken_from j log) ->
  (forall e, e <> d -> brought_to e log' = brought_to e log) -> Forall (fun e => place (fst e) /\ packet_ok (snd e)) log' ->
  (if decide (s = IDLE) then out_request p = OFF /\ out_ack p = OFF /\ sent' = brought_to d log'
   else link_up s p sent' (brought_to d log') part') ->
  router_run r' got (<[d := sent']> sent) log' (<[i := part']> part) (<[i := q']> q).
Proof.
  intros R M Ei Ed F Fq Hin Hout Hs Hx Hg Ht Hb Hl Hu.
  pose proof (moved_shape _ _ _ _ _ _ _ _ _ M) as S'. destruct M as [[Hi Hd] [_ _ Ci Cp] Es Em Ex Eb Ep].
  assert (O : forall j, place j -> j <> i -> st r' j <> IDLE -> st r j <> IDLE /\ rd r' j = rd r j /\ rd r j <> d).
  { intros j Hj Hne E. destruct (Ci j Hne) as (E1 & _ & E2 & _). rewrite E1 in E. split_and!; [done..|].
    rewrite <- Ed. by eapply owned_other. }
  split; [done|..].
  - intros j Hj. destruct (decide (j = i)) as [->|Hne]; [by rewrite fn_lookup_insert, Eb|].
    destruct (Ci j Hne) as (_ & _ & _ & ->). rewrite fn_lookup_insert_ne by done. by apply R.
  - intros j Hj. destruct (decide (j = i)) as [->|Hne]; [by rewrite fn_lookup_insert|].
    rewrite fn_lookup_insert_ne by done. by apply R.
  - intros e He. destruct (decide (e = d)) as [->|Hne]; [|rewrite Cp by done; by apply R].
    rewrite Ep, Hin. split; [by apply R|done].
  - intros j Hj. destruct (decide (j = i)) as [->|Hne]; [by rewrite !fn_lookup_insert, Es, Em, Ex|].
    destruct (Ci j Hne) as (-> & -> & -> & _). rewrite !fn_lookup_insert_ne by done. by apply R.
  - intros j Hj. destruct (decide (j = i)) as [->|Hne]; [by rewrite !fn_lookup_insert|].
    rewrite !fn_lookup_insert_ne, Ht by done. by apply R.
  - intros j Hj E. destruct (decide (j = i)) as [->|Hne].
    + rewrite Es in *. rewrite decide_False in Hu by done. by rewrite Ex, (Hx E), !fn_lookup_insert, Ep.
    + destruct (O j Hj Hne E) as (E' & -> & Hne'). rewrite Cp, !fn_lookup_insert_ne, Hb by done.
      destruct (Ci j Hne) as (-> & _). by apply R.
  - intros e He Hf. destruct (decide (e = d)) as [->|Hne].
    + rewrite fn_lookup_insert, Ep. destruct (decide (s = IDLE)) as [|Hs']; [done|]. exfalso. apply (Hf i Hi); [congruence|].
      rewrite Ex. auto.
    + rewrite fn_lookup_insert_ne, Cp, Hb by done. apply R; [done|]. intros j Hj E. destruct (decide (j = i)) as [->|Hji].
      * congruence.
      * destruct (Ci j Hji) as (E1 & _ & E2 & _). rewrite <- E2. apply Hf; congruence.
  - intros j k Hj Hk Ej Ek E. destruct (decide (j = i)) as [->|Hji], (decide (k = i)) as [->|Hki]; [done|..].
    + destruct (O k Hk Hki Ek) as (_ & Ek' & Hn). rewrite Es in Ej. rewrite Ex, (Hx Ej) in E. congruence.
    + destruct (O j Hj Hji Ej) as (_ & Ek' & Hn). rewrite Es in Ek. rewrite Ex, (Hx Ek) in E. congruence.
    + destruct (O k Hk Hki Ek) as (Ek' & Ek2 & Hn), (O j Hj Hji Ej) as (Ej' & Ej2 & Hn2). apply R; congruence.
  - done.
Qed.

Lemma taken_from_snoc i log j k : taken_from i (log ++ [(j, k)]) = taken_from i log ++ if decide (j = i) then k else [].
Proof.
  unfold taken_from. rewrite list.filter_app, fmap_app, concat_app, list.filter_cons. cbn [fst]. f_equal.
  destruct (decide (j = i)); cbn; by rewrite ?app_nil_r.
Qed.
Lemma brought_to_snoc d log j k : brought_to d (log ++ [(j, k)]) =
  brought_to d log ++ if decide (packet_goes k = Some d) then k else [].
Proof.
  unfold brought_to. rewrite list.filter_app, fmap_app, concat_app, list.filter_cons. cbn [snd]. f_equal.
  destruct (decide (packet_goes k = Some d)); cbn; by rewrite ?app_nil_r.
Qed.

Lemma stage_body s m x l k : s = ROUTING_PAYLOAD \/ s = ROUTING_DATA -> stage s m x l k ->
  exists h z pl, k = h :: z :: pl /\ goes h = Some x /\ flit_ok m /\ zlen pl + m = z.
Proof. intros E K. destruct K; try (by destruct E); [exists h, m, []|exists h, z, pl]; split_and!; done. Qed.

(** What sending at input [i] does to the ports. *)
Record acts r r' sent (sent' : Z -> list Z) i : Prop := {
  ac_port : forall e, place e -> sent' e = sent e ++ offers (prt r e) (prt r' e) /\
    sender_step (prt r e) (prt r' e) /\ ins (prt r' e) = ins (prt r e);
  ac_other : forall e, st r i = IDLE \/ rd r i <> e -> prt r' e = prt r e;
  ac_input : forall j, j <> i -> st r' j = st r j /\ rd r' j = rd r j;
}.
Lemma offers_same p : offers p p = [].
Proof. unfold offers. by rewrite andb_negb_r. Qed.
Lemma moved_acts r r' sent i d s m x b p (sent' : list Z) : moved r r' i d s m x b p -> rd r i = d ->
  sent' = sent d ++ offers (prt r d) p -> sender_step (prt r d) p -> ins p = ins (prt r d) -> st r i <> IDLE ->
  acts r r' sent (<[d := sent']> sent) i.
Proof.
  intros [_ [_ _ Ci Cp] _ _ _ _ Ep] Ed Es Hp Hin Ei. split.
  - intros e He. destruct (decide (e = d)) as [->|Hne]; [by rewrite fn_lookup_insert, Ep|].
    rewrite fn_lookup_insert_ne, Cp, offers_same, app_nil_r by done. split_and!; [done|by left|done].
  - intros e [E|E]; [done|]. apply Cp. congruence.
  - intros j Hj. by destruct (Ci j Hj) as (? & _ & ? & _).
Qed.

(** An input that goes on: [moved] to a state that keeps the invariant. *)
Definition goes_on r r' got sent log part q i d : Prop := exists sent' log' part' q',
  router_run r' got sent' log' part' q' /\ acts r r' sent sent' i.
Lemma link_up_sent s p (out base k : list Z) : (s = ROUTING_DELAY -> k = []) -> link_up s p out base k -> out = base ++ k.
Proof.
  unfold link_up. intros E U. destruct (Z.eqb_spec s ROUTING_DELAY) as [Es|]; [|by destruct U].
  rewrite (E Es), app_nil_r. by destruct U as (_ & _ & ?).
Qed.

Lemma keep_case r r' got sent log part q i s m b : router_run r got sent log part q -> st r i <> IDLE ->
  moved r r' i (rd r i) s m (rd r i) b (prt r (rd r i)) -> flits_in cap b (q i) -> s <> IDLE ->
  (s =? ROUTING_DELAY) = (st r i =? ROUTING_DELAY) -> stage s m (rd r i) (q i) (part i) ->
  goes_on r r' got sent log part q i (rd r i).
Proof.
  intros R E M F Hs Hsd K. destruct (mv_place _ _ _ _ _ _ _ _ _ M) as [Hi Hd]. pose proof (rr_ports _ _ _ _ _ _ R _ Hd) as [_ Ho].
  do 4 eexists. split; [eapply (moved_run r r' got sent log part q i (rd r i) _ _ _ _ _ log (part i) (q i) (sent (rd r i))); eauto|].
  - by apply R.
  - by apply R.
  - by apply R.
  - rewrite decide_False by done. pose proof (rr_owned _ _ _ _ _ _ R i Hi E) as U. unfold link_up in *. by rewrite Hsd.
  - eapply moved_acts; [exact M|done|by rewrite offers_same, app_nil_r|by left|done|done].
Qed.

Lemma send_case r r' got sent log part q i s m b v l : router_run r got sent log part q -> st r i <> IDLE ->
  moved r r' i (rd r i) s m (rd r i) b (set_out v ON OFF (prt r (rd r i))) -> flits_in cap b l -> q i = v :: l ->
  pending (prt r (rd r i)) = false -> (st r i = ROUTING_DELAY -> part i = []) -> s <> IDLE -> s <> ROUTING_DELAY ->
  stage s m (rd r i) l (part i ++ [v]) -> goes_on r r' got sent log part q i (rd r i).
Proof.
  intros R E M F Eq Hp Hsd Hs Hs2 K. destruct (mv_place _ _ _ _ _ _ _ _ _ M) as [Hi Hd].
  pose proof (rr_range _ _ _ _ _ _ R i Hi) as Fq. rewrite Eq in Fq. apply Forall_cons_iff in Fq as [Fv Fl].
  pose proof (link_up_sent _ _ _ _ _ Hsd (rr_owned _ _ _ _ _ _ R i Hi E)) as U.
  do 4 eexists. split; [eapply (moved_run r r' got sent log part q i (rd r i) _ _ _ _ _ log (part i ++ [v]) l (sent (rd r i) ++ [v])); eauto|].
  - rewrite (rr_got _ _ _ _ _ _ R i Hi), Eq. by rewrite <- app_assoc.
  - by apply R.
  - rewrite decide_False by done. unfold link_up. rewrite (proj2 (Z.eqb_neq _ _) Hs2). split; [done|]. by rewrite U, app_assoc.
  - eapply moved_acts; [exact M|done|unfold offers; by rewrite Hp|right; left; eauto|done|done].
Qed.

Lemma close_case r r' got sent log part q i b h z pl : router_run r got sent log part q -> st r i <> IDLE -> st r i <> ROUTING_DELAY ->
  moved r r' i (rd r i) IDLE 0 NONE b (set_out 0 OFF OFF (prt r (rd r i))) -> flits_in cap b (q i) ->
  out_ack (prt r (rd r i)) = ON -> part i = h :: z :: pl -> goes h = Some (rd r i) -> zlen pl = z ->
  goes_on r r' got sent log part q i (rd r i).
Proof.
  intros R E E2 M F A Ep Eh El. destruct (mv_place _ _ _ _ _ _ _ _ _ M) as [Hi Hd].
  pose proof (link_up_sent _ _ _ _ _ (fun X => False_ind _ (E2 X)) (rr_owned _ _ _ _ _ _ R i Hi E)) as U.
  assert (Eg : packet_goes (part i) = Some (rd r i)) by (by rewrite Ep).
  do 4 eexists. split; [eapply (moved_run r r' got sent log part q i (rd r i) _ _ _ _ _ (log ++ [(i, part i)]) [] (q i) (sent (rd r i))); eauto|].
  - by apply R.
  - done.
  - constructor.
  - by intros [].
  - rewrite (rr_got _ _ _ _ _ _ R i Hi), taken_from_snoc, decide_True by done. by rewrite <- app_assoc.
  - intros j Hj. by rewrite taken_from_snoc, decide_False, app_nil_r by congruence.
  - intros e He. by rewrite brought_to_snoc, decide_False, app_nil_r by congruence.
  - apply Forall_app. split; [by apply R|]. constructor; [|done]. split; [done|]. by exists h, z, pl.
  - rewrite decide_True by done. split_and!; [done..|]. by rewrite brought_to_snoc, decide_True, U.
  - eapply moved_acts; [exact M|done|unfold offers; by rewrite app_nil_r|right; right; done|done|done].
Qed.

Lemma transmit_case r r' got sent log part q i s m x b l p : router_run r got sent log part q -> st r i <> IDLE ->
  moved r r' i (rd r i) s m x b p -> flits_in cap b l -> place i ->
  transmits (st r i, rem r i, rd r i, q i, prt r (rd r i)) (s, m, x, l, p) ->
  goes_on r r' got sent log part q i (rd r i).
Proof.
  intros R E M F Hi T. pose proof (rr_stage _ _ _ _ _ _ R i Hi) as K. pose proof (rr_owned _ _ _ _ _ _ R i Hi E) as U.
  pose proof (rr_range _ _ _ _ _ _ R i Hi) as Fq. unfold link_up in U.
  assert (A : out_ack (prt r (rd r i)) = ON -> pending (prt r (rd r i)) = false) by (unfold pending; intros ->; by rewrite andb_false_r).
  remember (st r i, rem r i, rd r i, q i, prt r (rd r i)) as t0 eqn:T0. remember (s, m, x, l, p) as t1 eqn:T1.
  destruct T as [| | |? ? ? ? B Ha Hm|? ? ? ? ? ? B Ha Hm|? ? ? ? ? B Ha Hm]; injection T0 as Es0 Em0 Ex0 El0 Ep0; injection T1 as <- <- <- <- <-;
    try rewrite Ep0 in *; try rewrite Ex0 in *; try rewrite Em0 in *.
  - rewrite El0, Es0 in *. by eapply keep_case.
  - rewrite <- Es0 in *. rewrite <- El0 in K. inversion K as [|? ? ? ? G| | |]; subst. destruct U as (U1 & _).
    eapply send_case; eauto; [by rewrite <- Es0|unfold pending; by rewrite U1|]. 
    match goal with X : [] = part i |- _ => rewrite <- X end. by constructor.
  - rewrite <- Es0 in *. inversion K as [| |? ? h ? G| |]; subst. rewrite <- El0 in Fq. apply Forall_cons_iff in Fq as [Fv _].
    eapply send_case; eauto; try (by rewrite <- Es0). match goal with X : [h] = part i |- _ => rewrite <- X end. by constructor.
  - rewrite Es0 in B. destruct (stage_body _ _ _ _ _ B K) as (h & z & pl & Ek & Eg & Em & El). rewrite El0 in *.
    eapply keep_case; eauto; try (by destruct B as [-> | ->]). rewrite Ek. by constructor.
  - rewrite Es0 in B. destruct (stage_body _ _ _ _ _ B K) as (h & z & pl & Ek & Eg & Em & El). unfold flit_ok in Em.
    rewrite i64_small in * by lia. eapply send_case; eauto; [by destruct B as [-> | ->]|]. rewrite Ek. cbn [app].
    constructor; [done|unfold flit_ok; lia|]. rewrite zlen_app. change (zlen [v]) with 1. lia.
  - rewrite Es0 in B. destruct (stage_body _ _ _ _ _ B K) as (h & z & pl & Ek & Eg & Em & El). rewrite El0 in *.
    eapply close_case; eauto; [by destruct B as [-> | ->]|lia].
Qed.

Lemma transmit_inv r got sent log part q i : cap_ok cap -> router_run r got sent log part q -> place i ->
  exists r', transmit i r = Ok (tt, r') /\ exists sent' log' part' q', router_run r' got sent' log' part' q' /\ acts r r' sent sent' i.
Proof.
  intros Hc R Hi. pose proof (rr_shape _ _ _ _ _ _ R) as S. pose proof (rr_stage _ _ _ _ _ _ R i Hi) as K.
  destruct (decide (st r i = IDLE)) as [E|E].
  { exists r. split; [unfold transmit; st_step (get_status_run r i S Hi); by rewrite E|]. exists sent, log, part, q. split; [done|].
    split; [|done..]. intros e He. rewrite offers_same, app_nil_r. split_and!; [done|by left|done]. }
  pose proof (stage_place _ _ _ _ _ K E) as Hd. pose proof (rr_flits _ _ _ _ _ _ R i Hi) as F.
  pose proof (rr_owned _ _ _ _ _ _ R i Hi E) as U.
  destruct (transmit_run cap r i (rd r i) (q i) Hc S Hi Hd F (stage_range _ _ _ _ _ K) (fun _ => eq_refl))
    as (r' & Et & s & m & x & b & q' & p & M & F' & T).
  exists r'. split; [exact Et|]. change (goes_on r r' got sent log part q i (rd r i)).
  apply (transmit_case r r' got sent log part q i s m x b q' p); done.
Qed.

Definition sends r r' sent (sent' : Z -> list Z) : Prop := forall e, place e ->
  sent' e = sent e ++ offers (prt r e) (prt r' e) /\ sender_step (prt r e) (prt r' e) /\ ins (prt r' e) = ins (prt r e).

Lemma transmit_loop l : cap_ok cap -> NoDup l -> Forall place l -> forall r got sent log part q,
  router_run r got sent log part q -> exists r', for_each transmit l r = Ok (tt, r') /\
    exists sent' log' part' q', router_run r' got sent' log' part' q' /\ sends r r' sent sent' /\
      (forall e, (forall i, i ∈ l -> st r i = IDLE \/ rd r i <> e) -> prt r' e = prt r e).
Proof.
  intros Hc. induction l as [|i l IH]; intros Hn Hl r got sent log part q R.
  { exists r. split; [done|]. exists sent, log, part, q. split_and!; [done| |done].
    intros e He. rewrite offers_same, app_nil_r. split_and!; [done|by left|done]. }
  apply list.NoDup_cons in Hn as [Hi Hn]. apply Forall_cons_iff in Hl as [Pi Hl].
  destruct (transmit_inv r got sent log part q i Hc R Pi) as (r1 & E1 & s1 & g1 & p1 & q1 & R1 & A).
  destruct (IH Hn Hl r1 got s1 g1 p1 q1 R1) as (r2 & E2 & s2 & g2 & p2 & q2 & R2 & S2 & O2).
  exists r2. split; [cbn [for_each]; by st_step E1|]. exists s2, g2, p2, q2. split; [done|]. split.
  - intros e He. destruct (S2 e He) as (Es & Hs & Hin). destruct (ac_port _ _ _ _ _ A e He) as (Es1 & Hs1 & Hin1).
    destruct (decide (st r i = IDLE)) as [E|E]; [rewrite (ac_other _ _ _ _ _ A e (or_introl E)) in *|].
    { rewrite offers_same, app_nil_r in Es1. by rewrite Es, Es1. }
    destruct (decide (rd r i = e)) as [Ee|Ee]; [|rewrite (ac_other _ _ _ _ _ A e (or_intror Ee)) in *;
      rewrite offers_same, app_nil_r in Es1; by rewrite Es, Es1].
    rewrite O2 in *; [by rewrite Es, offers_same, app_nil_r|..].
    all: intros j Hj; assert (Hne : j <> i) by congruence; destruct (ac_input _ _ _ _ _ A j Hne) as [-> ->];
      destruct (decide (st r j = IDLE)) as [Ej|Ej]; [by left|right]; subst e;
      eapply owned_other; [exact R|exact Pi| |exact E|exact Hne|exact Ej]; exact (proj1 (list.Forall_forall _ _) Hl j Hj).
  - intros e He. rewrite O2.
    + apply (ac_other _ _ _ _ _ A). apply He. by apply list.elem_of_cons; left.
    + intros j Hj. assert (Hne : j <> i) by congruence. destruct (ac_input _ _ _ _ _ A j Hne) as [-> ->].
      apply He. by apply list.elem_of_cons; right.
Qed.

(** *** Accepting *)

Lemma stage_more s m x l k l' : stage s m x l k -> stage s m x (l ++ l') k.
Proof. destruct 1; by constructor. Qed.
Lemma link_up_outs s p p' (out base k : list Z) : outs p' = outs p -> link_up s p out base k -> link_up s p' out base k.
Proof. unfold link_up, outs. intros [= _ -> ->]. done. Qed.

Lemma accept_case r r' got sent log part q i s m x b p k : router_run r got sent log part q ->
  moved r r' i i s m x b p -> s = st r i -> m = rem r i -> x = rd r i -> flits_in cap b (q i ++ k) -> Forall flit_ok k ->
  outs p = outs (prt r i) -> in_ p = in_ (prt r i) ->
  router_run r' (<[i := got i ++ k]> got) sent log part (<[i := q i ++ k]> q).
Proof.
  intros R M Es Em Ex F Fk Ho Hin. pose proof (moved_shape _ _ _ _ _ _ _ _ _ M) as S'.
  destruct M as [[Hi _] [_ _ Ci Cp] Ms Mm Mx Mb Mp].
  assert (C : forall j, st r' j = st r j /\ rem r' j = rem r j /\ rd r' j = rd r j).
  { intros j. destruct (decide (j = i)) as [->|Hne]; [by rewrite Ms, Mm, Mx|]. by destruct (Ci j Hne) as (-> & -> & -> & _). }
  assert (P : forall e, outs (prt r' e) = outs (prt r e) /\ in_ (prt r' e) = in_ (prt r e)).
  { intros e. destruct (decide (e = i)) as [->|Hne]; [by rewrite Mp|by rewrite Cp]. }
  split; [done|..].
  - intros j Hj. destruct (decide (j = i)) as [->|Hne]; [by rewrite fn_lookup_insert, Mb|].
    destruct (Ci j Hne) as (_ & _ & _ & ->). rewrite fn_lookup_insert_ne by done. by apply R.
  - intros j Hj. destruct (decide (j = i)) as [->|Hne]; [rewrite fn_lookup_insert; apply Forall_app; split; [by apply R|done]|].
    rewrite fn_lookup_insert_ne by done. by apply R.
  - intros e He. destruct (P e) as [Eo ->]. injection Eo as -> _ _. by apply R.
  - intros j Hj. destruct (C j) as (-> & -> & ->). destruct (decide (j = i)) as [->|Hne].
    + rewrite fn_lookup_insert. by apply stage_more, R.
    + rewrite fn_lookup_insert_ne by done. by apply R.
  - intros j Hj. destruct (decide (j = i)) as [->|Hne]; [|rewrite !fn_lookup_insert_ne by done; by apply R].
    rewrite !fn_lookup_insert, (rr_got _ _ _ _ _ _ R i Hi). by rewrite <- !app_assoc.
  - intros j Hj E. destruct (C j) as (Ej & _ & ->). rewrite Ej in *. eapply link_up_outs; [apply P|]. by apply R.
  - intros e He Hf. destruct (P e) as [[= _ -> ->] _]. apply R; [done|]. intros j Hj Ej. destruct (C j) as (E1 & _ & E2).
    rewrite <- E2. apply Hf; congruence.
  - intros j j' Hj Hj'. destruct (C j) as (-> & _ & ->), (C j') as (-> & _ & ->). by apply R.
  - by apply R.
Qed.

Lemma accepts_same p : accepts p p = [].
Proof. unfold accepts. destruct (Z.eqb_spec (in_ack p) OFF) as [->|]; done. Qed.

Lemma accept_inv r got sent log part q i : cap_ok cap -> router_run r got sent log part q -> place i -> in_ack (prt r i) = OFF ->
  exists r', accept i r = Ok (tt, r') /\ exists k q',
    router_run r' (<[i := got i ++ k]> got) sent log part q' /\ k = accepts (prt r i) (prt r' i) /\
    receiver_step (prt r i) (prt r' i) /\ outs (prt r' i) = outs (prt r i) /\ (forall e, e <> i -> prt r' e = prt r e).
Proof.
  intros Hc R Hi A. pose proof (rr_shape _ _ _ _ _ _ R) as S. pose proof (rr_flits _ _ _ _ _ _ R i Hi) as F.
  unfold accept. st_step (on_port_get r i S Hi). pose proof (moved_start r i i S Hi Hi) as M0.
  assert (N : exists k q', router_run r (<[i := got i ++ k]> got) sent log part q' /\ k = accepts (prt r i) (prt r i) /\
    receiver_step (prt r i) (prt r i) /\ outs (prt r i) = outs (prt r i) /\ (forall e, e <> i -> prt r e = prt r e)).
  { exists [], (<[i := q i ++ []]> q). rewrite accepts_same. split_and!; [|done|by left|done|done].
    eapply accept_case; eauto. by rewrite app_nil_r. }
  destruct (Z.eqb_spec (in_request (prt r i)) ON) as [Q|_]; [|by exists r]. st_step (getBuffer_run r i S Hi).
  destruct (Flits.isFull (buf r i)) eqn:Ef; cbn [negb]; [by exists r|].
  destruct (flits_put cap (buf r i) (q i) (in_ (prt r i)) Hc F Ef) as (b' & Eb & F').
  destruct (setBuffer_run _ _ _ _ _ _ _ _ _ b' M0) as (r1 & E1 & M1).
  assert (E2 : put_buffer i (in_ (prt r i)) r = Ok (tt, r1)).
  { unfold put_buffer. st_step (getBuffer_run r i S Hi). rewrite Eb. by rewrite (ST_bind_Ok (lift (Ok b')) _ r b' r eq_refl). }
  st_step E2. destruct (set_port_run _ _ _ _ _ _ _ _ _ (set_in_ack ON) M1) as (r2 & E3 & M2). exists r2. split; [exact E3|].
  exists [in_ (prt r i)], (<[i := q i ++ [in_ (prt r i)]]> q). rewrite (mv_prt _ _ _ _ _ _ _ _ _ M2). split_and!.
  - eapply accept_case; eauto. constructor; [|done]. by apply R.
  - unfold accepts. rewrite A. done.
  - by right.
  - done.
  - apply M2.
Qed.

Definition receives r r' got (got' : Z -> list Z) : Prop := forall e, place e ->
  got' e = got e ++ accepts (prt r e) (prt r' e) /\ receiver_step (prt r e) (prt r' e) /\ outs (prt r' e) = outs (prt r e).

Lemma accept_loop l : cap_ok cap -> NoDup l -> Forall place l -> forall r got sent log part q,
  router_run r got sent log part q -> (forall i, place i -> i ∈ l -> in_ack (prt r i) = OFF) ->
  exists r', for_each accept l r = Ok (tt, r') /\ exists got' q', router_run r' got' sent log part q' /\
    receives r r' got got' /\ (forall e, e ∉ l -> prt r' e = prt r e).
Proof.
  intros Hc. induction l as [|i l IH]; intros Hn Hl r got sent log part q R A.
  { exists r. split; [done|]. exists got, q. split_and!; [done| |done].
    intros e He. rewrite accepts_same, app_nil_r. split_and!; [done|by left|done]. }
  apply list.NoDup_cons in Hn as [Hi Hn]. apply Forall_cons_iff in Hl as [Pi Hl].
  destruct (accept_inv r got sent log part q i Hc R Pi) as (r1 & E1 & k & q1 & R1 & Ek & Hr & Ho & Hp); [apply A; [done|by apply list.elem_of_cons; left]|].
  destruct (IH Hn Hl r1 _ sent log part q1 R1) as (r2 & E2 & g2 & q2 & R2 & S2 & O2).
  { intros j Pj Hj. rewrite Hp by congruence. apply A; [done|by apply list.elem_of_cons; right]. }
  exists r2. split; [cbn [for_each]; by st_step E1|]. exists g2, q2. split; [done|]. split.
  - intros e He. destruct (S2 e He) as (Eg & Hs & Hout). destruct (decide (e = i)) as [->|Hne].
    + rewrite (O2 i Hi) in *. by rewrite Eg, fn_lookup_insert, accepts_same, app_nil_r, Ek.
    + rewrite Hp in * by done. by rewrite Eg, fn_lookup_insert_ne by done.
  - intros e He. rewrite list.not_elem_of_cons in He. destruct He as [H1 H2]. by rewrite O2, Hp.
Qed.

(** *** Arbitration *)

Lemma in_use_run r i d l : shape r -> Forall place l -> exists u, in_use i d l r = Ok (u, r) /\
  (u = false -> forall j, j ∈ l -> j <> i -> st r j <> IDLE -> rd r j <> d).
Proof.
  intros S. induction l as [|j l IH]; intros Hl.
  { exists false. split; [done|]. intros _ j Hj. by apply list.elem_of_nil in Hj. }
  apply Forall_cons_iff in Hl as [Pj Hl]. destruct (IH Hl) as (u & E & Hu). cbn [in_use].
  st_step E. destruct (Z.eqb_spec j i) as [->|Hne].
  - exists u. split; [done|]. intros Hf k Hk Hne. apply list.elem_of_cons in Hk as [->|Hk]; [done|by apply Hu].
  - st_step (get_status_run r j S Pj). st_step (get_redirect_run r j S Pj). eexists. split; [done|].
    intros [Hf Hf2]%orb_false_iff k Hk Hki. apply list.elem_of_cons in Hk as [->|Hk]; [|by apply Hu].
    intros Ek E2. rewrite E2, Z.eqb_refl, andb_true_r in Hf. by apply negb_false_iff, Z.eqb_eq in Hf.
Qed.

Lemma connect_case r r' got sent log part q i m b p h l d : router_run r got sent log part q ->
  moved r r' i i ROUTING_DELAY m d b p -> b = buf r i -> p = prt r i -> st r i = IDLE -> q i = h :: l -> goes h = Some d ->
  (forall j, place j -> j <> i -> st r j <> IDLE -> rd r j <> d) -> router_run r' got sent log part q.
Proof.
  intros R M Eb Ep Ei Eq Eg U. pose proof (moved_shape _ _ _ _ _ _ _ _ _ M) as S'. pose proof (goes_place _ _ Eg) as Hd.
  destruct M as [[Hi _] [_ _ Ci Cp] Ms Mm Mx Mb Mp]. pose proof (rr_stage _ _ _ _ _ _ R i Hi) as K. rewrite Ei in K.
  assert (Kp : part i = []) by (by inversion K). clear K.
  assert (P : forall e, prt r' e = prt r e) by (intros e; destruct (decide (e = i)) as [->|Hne]; [by rewrite Mp|by apply Cp]).
  split; [done|..|apply R]; intros j.
  - intros Hj. destruct (decide (j = i)) as [->|Hne]; [rewrite Mb, Eb; by apply R|]. destruct (Ci j Hne) as (_ & _ & _ & ->). by apply R.
  - apply R.
  - rewrite P. apply R.
  - intros Hj. destruct (decide (j = i)) as [->|Hne]; [rewrite Ms, Mx, Eq, Kp; by constructor|].
    destruct (Ci j Hne) as (-> & -> & -> & _). by apply R.
  - apply R.
  - intros Hj E. rewrite P. destruct (decide (j = i)) as [->|Hne].
    + rewrite Ms, Mx, Kp. unfold link_up. cbn. apply (rr_free _ _ _ _ _ _ R d Hd). intros k Hk Ek. destruct (decide (k = i)); [congruence|auto].
    + destruct (Ci j Hne) as (Ej & _ & -> & _). rewrite Ej in *. by apply R.
  - intros Hj Hf. rewrite P. apply R; [done|]. intros k Hk Ek. destruct (decide (k = i)) as [->|Hne]; [congruence|].
    destruct (Ci k Hne) as (E1 & _ & E2 & _). rewrite <- E2. apply Hf; congruence.
  - intros k Hj Hk Ej Ek. destruct (decide (j = i)) as [->|Hji], (decide (k = i)) as [->|Hki]; [done|..].
    + destruct (Ci k Hki) as (E1 & _ & E2 & _). rewrite Mx, E2. rewrite E1 in Ek. intros E. by destruct (U k Hk Hki Ek).
    + destruct (Ci j Hji) as (E1 & _ & E2 & _). rewrite Mx, E2. rewrite E1 in Ej. intros E. by destruct (U j Hj Hji Ej).
    + destruct (Ci j Hji) as (E1 & _ & -> & _), (Ci k Hki) as (E3 & _ & -> & _). rewrite E1 in Ej. rewrite E3 in Ek. by apply R.
Qed.

Lemma arbitrate_inv r got sent log part q : cap_ok cap -> router_run r got sent log part q ->
  exists r', arbitrate NOC_WIDTH n r = Ok (tt, r') /\ router_run r' got sent log part q /\ (forall e, prt r' e = prt r e).
Proof.
  intros Hc R. pose proof (rr_shape _ _ _ _ _ _ R) as S. pose proof (sh_arbiter _ S) as Ha. set (a := arbiter r) in *.
  pose proof (rr_flits _ _ _ _ _ _ R a Ha) as F. unfold arbitrate. rewrite (ST_bind_Ok (gets arbiter) _ r a r eq_refl).
  st_step (get_status_run r a S Ha). change (SIMULTANEOUS_SWITCHING =? 0) with false. cbn [andb].
  rewrite andb_true_r. destruct (Z.eqb_spec (st r a) IDLE) as [E|E]; [|by exists r]. st_step (getBuffer_run r a S Ha).
  destruct (Flits.isEmpty (buf r a)) eqn:Em; [by exists r|]. cbn [negb].
  destruct (flits_nonempty _ _ _ F Em) as (h & l & Eq). rewrite Eq in F. rewrite (flits_read _ _ _ _ F).
  rewrite (ST_bind_Ok (lift (Ok h)) _ r h r eq_refl). destruct (route_total h) as (d & Eg & Hd).
  change (route NOC_WIDTH n (headerToDecimal NOC_WIDTH h)) with (goes h). rewrite Eg. rewrite (ST_bind_Ok (lift (Ok d)) _ r d r eq_refl).
  destruct (in_use_run r a d [0; 1; 2; 3; 4] S) as (u & Eu & Hu); [by repeat constructor|]. st_step Eu.
  destruct u; cbn [negb]; [by exists r|].
  destruct (set_redirect_run _ _ _ _ _ _ _ _ _ d (moved_start r a a S Ha Ha)) as (r1 & E1 & M1). st_step E1.
  destruct (set_status_run _ _ _ _ _ _ _ _ _ ROUTING_DELAY M1) as (r2 & E2 & M2). st_step E2.
  destruct (set_delay_run _ _ _ _ _ _ _ _ _ ROUTING_ALGORITHM_DELAY M2) as (r3 & E3 & M3). exists r3. split; [exact E3|]. split.
  - eapply (connect_case r r3 got sent log part q a); eauto. intros j Hj Hne Ej. apply Hu; [done| |done|done].
    unfold place in Hj. rewrite !list.elem_of_cons. lia.
  - intros e. destruct (decide (e = a)) as [->|Hne]; [by rewrite (mv_prt _ _ _ _ _ _ _ _ _ M3)|]. by apply M3.
Qed.

Lemma next_arbiter_place h a : place a -> place (next_arbiter NOC_WIDTH h n a).
Proof.
  intros Ha. unfold next_arbiter. change (ARBITRATION_CONSIDERING_POS =? 1) with true. cbv iota.
  assert (P : place (u8 (cmod (u8 (a + 1)) 5))).
  { unfold place in *. rewrite (u8_small (a + 1)) by lia. rewrite cmod_nonneg by lia. pose proof (Z.mod_pos_bound (a + 1) 5 ltac:(lia)).
    by rewrite u8_small by lia. }
  repeat match goal with |- place (if ?b then _ else _) => destruct b end; done.
Qed.

Lemma router_inv_ext r got sent got' sent' : (forall i, place i -> got' i = got i) -> (forall d, place d -> sent' d = sent d) ->
  router_inv r got sent -> router_inv r got' sent'.
Proof.
  intros Eg Es (log & part & q & R). exists log, part, q. split; try apply R.
  - intros i Hi. rewrite Eg by done. by apply R.
  - intros i Hi Ei. rewrite Es by exact (stage_place _ _ _ _ _ (rr_stage _ _ _ _ _ _ R i Hi) Ei). by apply R.
  - intros d Hd Hf. rewrite Es by done. by apply R.
Qed.

(** What a cycle does to the two sides of a port. *)
Definition port_cycle (p p' : Port) : Prop := sender_step p p' /\ receiver_step p p'.
Lemma sender_step_outs p p1 p' : outs p1 = outs p -> sender_step p1 p' -> sender_step p p'.
Proof. unfold sender_step, pending, outs. intros [= E1 E2 E3]. by rewrite E1, E2, E3. Qed.
Lemma offers_outs p p1 p' : outs p1 = outs p -> offers p1 p' = offers p p'.
Proof. unfold offers, pending, outs. intros [= E1 E2 E3]. by rewrite E2, E3. Qed.
Lemma accepts_ins p p1 p' : ins p' = ins p1 -> accepts p p' = accepts p p1.
Proof. unfold accepts, ins. intros [= E1 E2 E3]. by rewrite E3. Qed.

Lemma port_cycled p p1 p' : receiver_step p p1 -> outs p1 = outs p -> sender_step p1 p' -> ins p' = ins p1 ->
  port_cycle p p' /\ accepts p p1 = accepts p p' /\ offers p1 p' = offers p p'.
Proof.
  intros Hr Ho Hs Hi. split; [split; [by eapply sender_step_outs|unfold receiver_step in *; by rewrite Hi]|].
  by rewrite (accepts_ins _ _ _ Hi), (offers_outs _ _ _ Ho).
Qed.

Lemma router_cycle_inv h r got sent : cap_ok cap -> router_inv r got sent -> (forall e, place e -> in_ack (prt r e) = OFF) ->
  exists r', router_cycle NOC_WIDTH h n r = Ok (tt, r') /\
    router_inv r' (fun e => got e ++ accepts (prt r e) (prt r' e)) (fun e => sent e ++ offers (prt r e) (prt r' e)) /\
    (forall e, place e -> port_cycle (prt r e) (prt r' e)).
Proof.
  intros Hc (log & part & q & R) A. assert (N : NoDup [0; 1; 2; 3; 4]) by (apply (bool_decide_unpack _); exact I).
  assert (P : Forall place [0; 1; 2; 3; 4]) by by repeat constructor.
  destruct (accept_loop _ Hc N P r got sent log part q R) as (r1 & E1 & got1 & q1 & R1 & G1 & _); [intros; by apply A|].
  destruct (arbitrate_inv r1 got1 sent log part q1 Hc R1) as (r2 & E2 & R2 & P2).
  destruct (transmit_loop _ Hc N P r2 got1 sent log part q1 R2) as (r3 & E3 & sent3 & log3 & part3 & q3 & R3 & S3 & _).
  set (r4 := Router_ (next_arbiter NOC_WIDTH h n (arbiter r3)) (status r3) (packets_remaining r3) (redirect_to r3) (routing_delay r3)
    (buffers r3) (ports r3)).
  assert (R4 : router_run r4 got1 sent3 log3 part3 q3).
  { destruct R3 as [S ? ? ? ? ? ? ? ? ?]. split; try done. destruct S. split; try done. by apply next_arbiter_place. }
  exists r4. split; [unfold router_cycle; st_step E1; st_step E2; by st_step E3|]. change (prt r4) with (prt r3).
  assert (C : forall e, place e -> got1 e = got e ++ accepts (prt r e) (prt r3 e) /\ sent3 e = sent e ++ offers (prt r e) (prt r3 e) /\
    port_cycle (prt r e) (prt r3 e)).
  { intros e He. destruct (G1 e He) as (-> & Hr & Ho), (S3 e He) as (-> & Hs & Hi). rewrite P2 in *.
    by destruct (port_cycled _ _ _ Hr Ho Hs Hi) as (? & -> & ->). }
  split; [|intros e He; by destruct (C e He) as (_ & _ & ?)].
  apply (router_inv_ext r4 got1 sent3); [..|by exists log3, part3, q3]; intros e He; destruct (C e He) as (E5 & E6 & _); by rewrite ?E5, ?E6.
Qed.

(** The network may change what is asked of a router, and acknowledge what it
    asks. *)
Definition env_step (p p' : Port) : Prop := out p' = out p /\ out_request p' = out_request p /\
  (out_ack p' = out_ack p \/ out_request p = ON /\ out_ack p' = ON) /\ flit_ok (in_ p').
Lemma router_env r r' got sent : shape r' -> (forall i, st r' i = st r i /\ rem r' i = rem r i /\ rd r' i = rd r i /\ buf r' i = buf r i) ->
  (forall e, place e -> env_step (prt r e) (prt r' e)) -> router_inv r got sent -> router_inv r' got sent.
Proof.
  intros S' C P (log & part & q & R). exists log, part, q. split; [done|..|apply R]; intros i.
  - destruct (C i) as (_ & _ & _ & ->). apply R.
  - apply R.
  - intros Hi. destruct (P i Hi) as (-> & _ & _ & ?). split; [done|]. by apply R.
  - destruct (C i) as (-> & -> & -> & _). apply R.
  - apply R.
  - intros Hi E. destruct (C i) as (Ei & _ & -> & _). rewrite Ei in *.
    pose proof (rr_owned _ _ _ _ _ _ R i Hi E) as U. pose proof (stage_place _ _ _ _ _ (rr_stage _ _ _ _ _ _ R i Hi) E) as Hd.
    destruct (P _ Hd) as (_ & Eq & Ea & _). unfold link_up in *. rewrite Eq. destruct (st r i =? ROUTING_DELAY); [|done].
    destruct U as (U1 & U2 & U3). destruct Ea as [-> |[Ea _]]; [done|]. by rewrite Ea in U1.
  - intros Hi Hf. destruct (rr_free _ _ _ _ _ _ R i Hi) as (U1 & U2 & U3).
    { intros j Hj Ej. destruct (C j) as (E1 & _ & <- & _). apply Hf; congruence. }
    destruct (P i Hi) as (_ & -> & [-> |[Ea _]] & _); [done|]. by rewrite Ea in U1.
  - intros j. destruct (C i) as (-> & _ & -> & _), (C j) as (-> & _ & -> & _). apply R.
Qed.

Lemma router_loaded garbage : cap_ok cap -> router_inv (load_router cap garbage) (fun _ => []) (fun _ => []).
Proof.
  intros Hc. exists [], (fun _ => []), (fun _ => []).
  assert (V : forall i, place i -> st (load_router cap garbage) i = IDLE /\ buf (load_router cap garbage) i = Flits.create garbage cap /\
    prt (load_router cap garbage) i = cleanPort).
  { intros i Hi. assert (i = 0 \/ i = 1 \/ i = 2 \/ i = 3 \/ i = 4) as Hi5 by (unfold place in Hi; lia).
    by repeat destruct Hi5 as [->|Hi5]; [..|subst i]. }
  split; [by split|..|intros i j Hi _ E; by destruct (V i Hi) as (? & _)|done]; intros i Hi; destruct (V i Hi) as (Ei & Eb & Ep);
    rewrite ?Ei, ?Eb, ?Ep; try done; [by apply flits_created|constructor].
Qed.
End packets.
