(* ===== verification/NocInterface.v ===== *)
(** * A network interface of the MPSoC simulator

    [cycleNetworkInterface] of [usr/sim/mpsoc_sim/source/noc.c]: between the
    processor and the router an interface is a FIFO in each direction. A flit
    stays in the buffer while it is offered and leaves it when it is
    acknowledged. *)

From stdpp Require Import functions.
From S2P Require Import Prelude Words NocSim NocRouter.

#[local] Open Scope Z_scope.

Section interface.
Variable cap : Z.
Implicit Types (x : NetworkInterface) (k o : Z) (p : Port).

Definition nbuf x k : Flits.Buffer := default (Flits.Buffer_ [] 0 0 0 0) (zget (ni_buffers x) k).
Definition nprt x k : Port := default cleanPort (zget (ni_ports x) k).
Definition side k : Prop := 0 <= k < 2.
Record ni_shape x : Prop := { nh_buffers : zlen (ni_buffers x) = 2; nh_ports : zlen (ni_ports x) = 2 }.

Lemma ni_buffer_run x k : ni_shape x -> side k -> ni_buffer k x = Ok (nbuf x k, x).
Proof.
  intros [] Hk. unfold ni_buffer, gets, lift, mbind, ST_bind.
  by rewrite (aget_default _ k (Flits.Buffer_ [] 0 0 0 0)) by (unfold side in Hk; lia).
Qed.
Lemma on_ni_port_run {A : Type} x k (m : ST Port A) a p : ni_shape x -> side k -> m (nprt x k) = Ok (a, p) ->
  on_ni_port k m x = Ok (a, with_ni_ports (zset (ni_ports x) k p) x).
Proof.
  intros [] Hk E. unfold on_ni_port. st_unfold. rewrite (aget_default _ k cleanPort) by (unfold side in Hk; lia).
  change (default cleanPort (zget (ni_ports x) k)) with (nprt x k). by rewrite E.
Qed.
Lemma on_ni_port_get x k : ni_shape x -> side k -> on_ni_port k get_st x = Ok (nprt x k, x).
Proof.
  intros S Hk. rewrite (on_ni_port_run x k get_st _ _ S Hk eq_refl). pose proof (nh_ports _ S). unfold side in Hk.
  destruct (zget_is_Some (ni_ports x) k) as [p E]; [lia|]. unfold nprt. rewrite E. cbn. rewrite (zset_same _ _ _ E). by destruct x.
Qed.
Lemma set_ni_buffer_run x k b : ni_shape x -> side k -> exists x', set_ni_buffer k b x = Ok (tt, x') /\ ni_shape x' /\
  (forall j, nbuf x' j = if decide (j = k) then b else nbuf x j) /\ (forall j, nprt x' j = nprt x j).
Proof.
  intros [] Hk. eexists. split; [reflexivity|]. split; [by split; cbn; rewrite ?zset_zlen|]. split; [|done].
  intros j. unfold nbuf; cbn. apply default_zset. unfold side in Hk. lia.
Qed.
Lemma set_ni_port_run x k f : ni_shape x -> side k -> exists x', on_ni_port k (modify f) x = Ok (tt, x') /\ ni_shape x' /\
  (forall j, nprt x' j = if decide (j = k) then f (nprt x k) else nprt x j) /\ (forall j, nbuf x' j = nbuf x j).
Proof.
  intros S Hk. pose proof S as []. eexists. split; [by apply on_ni_port_run|]. split; [by split; cbn; rewrite ?zset_zlen|]. split; [|done].
  intros j. unfold nprt; cbn. apply default_zset. unfold side in Hk. lia.
Qed.

(** The way from port [k] to port [other k]: [done] went out and was
    acknowledged, [q] is in the buffer, and its head is offered when a request
    is out. *)
Definition other k : Z := 1 - k.
Definition outgoing (p : Port) (sent dn q : list Z) : Prop :=
  (out_request p = ON /\ (out_ack p = ON \/ out_ack p = OFF) /\ exists h t, q = h :: t /\ out p = h /\ sent = dn ++ [h]) \/
  (out_request p = OFF /\ out_ack p = OFF /\ sent = dn).
Record ni_run x (got sent dn q : Z -> list Z) : Prop := {
  nr_shape : ni_shape x;
  nr_flits : forall k, side k -> flits_in cap (nbuf x k) (q k);
  nr_range : forall k, side k -> Forall flit_ok (q k);
  nr_ports : forall k, side k -> flit_ok (in_ (nprt x k)) /\ flit_ok (out (nprt x k));
  nr_got : forall k, side k -> got k = dn k ++ q k;
  nr_out : forall k, side k -> outgoing (nprt x (other k)) (sent (other k)) (dn k) (q k);
}.
Definition ni_inv x (got sent : Z -> list Z) : Prop := exists dn q, ni_run x got sent dn q.
Lemma other_side k : side k -> side (other k) /\ other (other k) = k /\ other k <> k.
Proof. unfold side, other. lia. Qed.

Lemma ni_accept_inv x got sent dn q k : cap_ok cap -> ni_run x got sent dn q -> side k -> in_ack (nprt x k) = OFF ->
  exists x', ni_accept k x = Ok (tt, x') /\ exists v q', ni_run x' (<[k := got k ++ v]> got) sent dn q' /\
    v = accepts (nprt x k) (nprt x' k) /\ receiver_step (nprt x k) (nprt x' k) /\ outs (nprt x' k) = outs (nprt x k) /\
    (forall j, j <> k -> nprt x' j = nprt x j).
Proof.
  intros Hc R Hk A. pose proof (nr_shape _ _ _ _ _ R) as S. unfold ni_accept. st_step (on_ni_port_get x k S Hk).
  assert (N : exists v q', ni_run x (<[k := got k ++ v]> got) sent dn q' /\ v = accepts (nprt x k) (nprt x k) /\
    receiver_step (nprt x k) (nprt x k) /\ outs (nprt x k) = outs (nprt x k) /\ (forall j, j <> k -> nprt x j = nprt x j)).
  { exists [], q. rewrite accepts_same. split_and!; [|done|by left|done|done]. split; try apply R. intros j Hj.
    destruct (decide (j = k)) as [->|Hne]; [rewrite fn_lookup_insert, app_nil_r|rewrite fn_lookup_insert_ne by done]; by apply R. }
  destruct (Z.eqb_spec (in_request (nprt x k)) ON) as [Q|_]; [|by exists x]. st_step (ni_buffer_run x k S Hk).
  destruct (Flits.isFull (nbuf x k)) eqn:Ef; cbn [negb]; [by exists x|].
  set (v := in_ (nprt x k)). destruct (flits_put cap (nbuf x k) (q k) v Hc (nr_flits _ _ _ _ _ R k Hk) Ef) as (b' & Eb & F').
  rewrite Eb. rewrite (ST_bind_Ok (lift (Ok b')) _ x b' x eq_refl). destruct (set_ni_buffer_run x k b' S Hk) as (x1 & E1 & S1 & B1 & P1).
  st_step E1. destruct (set_ni_port_run x1 k (set_in_ack ON) S1 Hk) as (x2 & E2 & S2 & P2 & B2). exists x2. split; [exact E2|].
  assert (P : forall j, outs (nprt x2 j) = outs (nprt x j) /\ in_ (nprt x2 j) = in_ (nprt x j)).
  { intros j. rewrite P2, !P1. by destruct (decide (j = k)) as [->|]. }
  exists [v], (<[k := q k ++ [v]]> q). rewrite P2, decide_True, P1 by done. split_and!; [|unfold accepts; by rewrite A|by right|done|].
  2: { intros j Hj. by rewrite P2, decide_False, P1. }
  split; [done|..]; intros j Hj; try (destruct (P j) as [Eo ->]; injection Eo as -> _ _; by apply R).
  - rewrite B2, B1. destruct (decide (j = k)) as [->|Hne]; [by rewrite fn_lookup_insert|]. rewrite fn_lookup_insert_ne by done. by apply R.
  - destruct (decide (j = k)) as [->|Hne]; [rewrite fn_lookup_insert|rewrite fn_lookup_insert_ne by done; by apply R].
    apply Forall_app. split; [by apply R|]. constructor; [by apply R|done].
  - destruct (decide (j = k)) as [->|Hne]; [|rewrite !fn_lookup_insert_ne by done; by apply R].
    rewrite !fn_lookup_insert, (nr_got _ _ _ _ _ R k Hk). by rewrite <- app_assoc.
  - pose proof (nr_out _ _ _ _ _ R j Hj) as U. destruct (P (other j)) as [[= E3 E4 E5] _]. unfold outgoing in *. rewrite E3, E4, E5.
    destruct (decide (j = k)) as [->|Hne]; [rewrite fn_lookup_insert|by rewrite fn_lookup_insert_ne by done].
    destruct U as [(? & ? & h & t & -> & ? & ?)|?]; [left|by right]. split_and!; [done..|]. exists h, (t ++ [v]). done.
Qed.

(** The interface after its buffer [k] and its port [other k] have changed. *)
Lemma outgoing_case x x' got sent dn q k p (sent' dn' q' : list Z) : ni_run x got sent dn q -> side k -> ni_shape x' ->
  flits_in cap (nbuf x' k) q' -> Forall flit_ok q' -> nprt x' (other k) = p -> in_ p = in_ (nprt x (other k)) -> flit_ok (out p) ->
  got k = dn' ++ q' -> outgoing p sent' dn' q' ->
  (forall j, j <> k -> nbuf x' j = nbuf x j) -> (forall j, j <> other k -> nprt x' j = nprt x j) ->
  ni_run x' got (<[other k := sent']> sent) (<[k := dn']> dn) (<[k := q']> q).
Proof.
  intros R Hk S' F Fq Ep Ei Fo Eg U B P. split; [done|..]; intros j Hj.
  - destruct (decide (j = k)) as [->|Hne]; [by rewrite fn_lookup_insert|]. rewrite fn_lookup_insert_ne, B by done. by apply R.
  - destruct (decide (j = k)) as [->|Hne]; [by rewrite fn_lookup_insert|]. rewrite fn_lookup_insert_ne by done. by apply R.
  - destruct (decide (j = other k)) as [->|Hne]; [|rewrite P by done; by apply R]. rewrite Ep, Ei. split; [by apply R|done].
  - destruct (decide (j = k)) as [->|Hne]; [by rewrite !fn_lookup_insert|]. rewrite !fn_lookup_insert_ne by done. by apply R.
  - destruct (decide (j = k)) as [->|Hne]; [by rewrite !fn_lookup_insert, Ep|].
    assert (Ho : other j <> other k) by (unfold other; lia). rewrite !fn_lookup_insert_ne, P by done. by apply R.
Qed.

Lemma set_out_same p v : outs p = (v, ON, OFF) -> set_out v ON (out_ack p) p = p.
Proof. destruct p. unfold outs. cbn. by intros [= -> -> ->]. Qed.

(** The second half of [ni_offer]: the head of the buffer, if any, is offered. *)
Definition offer_head k o : ST NetworkInterface unit :=
  b ← ni_buffer k;
  if negb (Flits.isEmpty b) then v ← lift (Flits.read b); on_ni_port o (modify (fun p => set_out v ON (out_ack p) p)) else mret tt.
Definition offered x x' got sent (k : Z) : Prop := let o := other k in exists v dn' q',
  ni_run x' got (<[o := sent o ++ v]> sent) dn' q' /\ v = offers (nprt x o) (nprt x' o) /\
  sender_step (nprt x o) (nprt x' o) /\ ins (nprt x' o) = ins (nprt x o) /\ (forall j, j <> o -> nprt x' j = nprt x j).

Lemma offer_head_run x got sent dn q k : ni_run x got sent dn q -> side k -> out_ack (nprt x (other k)) = OFF ->
  exists x', offer_head k (other k) x = Ok (tt, x') /\ offered x x' got sent k.
Proof.
  intros R Hk A. pose proof (nr_shape _ _ _ _ _ R) as S. destruct (other_side k Hk) as (Ho & _). pose proof (nr_flits _ _ _ _ _ R k Hk) as F.
  pose proof (nr_out _ _ _ _ _ R k Hk) as U. unfold offer_head. st_step (ni_buffer_run x k S Hk).
  assert (N : offered x x got sent k).
  { exists [], (<[k := dn k]> dn), (<[k := q k]> q). rewrite offers_same, app_nil_r. split_and!; [|done|by left|done..].
    eapply outgoing_case; eauto; by apply R. }
  destruct (Flits.isEmpty (nbuf x k)) eqn:Em; cbn [negb]; [by exists x|].
  destruct (flits_nonempty _ _ _ F Em) as (v & t & Eq). rewrite Eq in F. rewrite (flits_read _ _ _ _ F).
  rewrite (ST_bind_Ok (lift (Ok v)) _ x v x eq_refl).
  destruct (set_ni_port_run x (other k) (fun p => set_out v ON (out_ack p) p) S Ho) as (x1 & E1 & S1 & P1 & B1). exists x1. split; [exact E1|].
  destruct U as [(Q & _ & h & t' & Eq' & Eh & Es)|(Q & _ & Es)].
  - assert (Ev : v = h) by congruence. subst v. assert (P : forall j, nprt x1 j = nprt x j).
    { intros j. rewrite P1. destruct (decide (j = other k)) as [->|]; [|done]. apply set_out_same. unfold outs. by rewrite Eh, Q, A. }
    unfold offered. rewrite P. exists [], (<[k := dn k]> dn), (<[k := q k]> q). rewrite offers_same, app_nil_r. split_and!; [|done|by left|done|auto].
    apply (outgoing_case x x1 _ _ _ _ _ (nprt x (other k))); try done; try (by apply R);  by rewrite B1, Eq.
  - unfold offered. rewrite P1, decide_True by done. exists [v], (<[k := dn k]> dn), (<[k := q k]> q). split_and!.
    + apply (outgoing_case x x1 _ _ _ _ _ (set_out v ON (out_ack (nprt x (other k))) (nprt x (other k)))); try done; try (by apply R).
      * by rewrite B1, Eq.
      * by rewrite P1, decide_True.
      * pose proof (nr_range _ _ _ _ _ R k Hk) as Fr. rewrite Eq in Fr. by apply Forall_cons_iff in Fr as [Fv _].
      * left. cbn. rewrite A. split_and!; [done|by right|]. exists v, t. by rewrite Es.
      * intros j Hj. by rewrite P1, decide_False.
    + unfold offers, pending. cbn. by rewrite A, Q.
    + right. left. unfold pending, outs. cbn. rewrite A, Q. split; [done|]. by exists v.
    + done.
    + intros j Hj. by rewrite P1, decide_False.
Qed.

Lemma ni_run_ext x got sent got' sent' dn q : (forall k, side k -> got' k = got k) -> (forall k, side k -> sent' k = sent k) ->
  ni_run x got sent dn q -> ni_run x got' sent' dn q.
Proof.
  intros Eg Es R. split; try apply R; intros k Hk.
  - rewrite Eg by done. by apply R.
  - rewrite Es by apply (other_side k Hk). by apply R.
Qed.

(** An acknowledged flit leaves the buffer. *)
Lemma withdraw_run x got sent dn q k h t : cap_ok cap -> ni_run x got sent dn q -> side k -> q k = h :: t -> sent (other k) = dn k ++ [h] ->
  exists b x1 x2, Flits.take (nbuf x k) = Ok (h, b) /\ set_ni_buffer k b x = Ok (tt, x1) /\
    on_ni_port (other k) (modify (set_out 0 OFF OFF)) x1 = Ok (tt, x2) /\
    (exists dn' q', ni_run x2 got sent dn' q') /\ outs (nprt x2 (other k)) = (0, OFF, OFF) /\ ins (nprt x2 (other k)) = ins (nprt x (other k)) /\
    (forall j, j <> other k -> nprt x2 j = nprt x j).
Proof.
  intros Hc R Hk Eq Es. pose proof (nr_shape _ _ _ _ _ R) as S. destruct (other_side k Hk) as (Ho & _). pose proof (nr_flits _ _ _ _ _ R k Hk) as F.
  rewrite Eq in F. destruct (flits_take cap _ _ _ Hc F) as (b & Eb & F').
  destruct (set_ni_buffer_run x k b S Hk) as (x1 & E1 & S1 & B1 & P1).
  destruct (set_ni_port_run x1 (other k) (set_out 0 OFF OFF) S1 Ho) as (x2 & E2 & S2 & P2 & B2). exists b, x1, x2.
  assert (P : nprt x2 (other k) = set_out 0 OFF OFF (nprt x (other k))) by (by rewrite P2, decide_True, P1).
  split_and!; [done..| |by rewrite P|by rewrite P|by intros j Hj; rewrite P2, decide_False, P1].
  exists (<[k := dn k ++ [h]]> dn), (<[k := t]> q). eapply (ni_run_ext x2 got (<[other k := sent (other k)]> sent)); [done| |].
  { intros j Hj. destruct (decide (j = other k)) as [->|Hne]; [by rewrite fn_lookup_insert|by rewrite fn_lookup_insert_ne]. }
  apply (outgoing_case x x2 _ _ _ _ _ (set_out 0 OFF OFF (nprt x (other k)))); try done.
  - by rewrite B2, B1, decide_True.
  - pose proof (nr_range _ _ _ _ _ R k Hk) as Fr. rewrite Eq in Fr. by apply Forall_cons_iff in Fr as [_ ?].
  - rewrite (nr_got _ _ _ _ _ R k Hk), Eq. by rewrite <- app_assoc.
  - by right.
  - intros j Hj. by rewrite B2, B1, decide_False.
  - intros j Hj. by rewrite P2, decide_False, P1.
Qed.

Lemma ni_offer_inv x got sent dn q k : cap_ok cap -> ni_run x got sent dn q -> side k ->
  exists x', ni_offer k (other k) x = Ok (tt, x') /\ offered x x' got sent k.
Proof.
  intros Hc R Hk. pose proof (nr_shape _ _ _ _ _ R) as S. destruct (other_side k Hk) as (Ho & _). pose proof (nr_flits _ _ _ _ _ R k Hk) as F.
  pose proof (nr_out _ _ _ _ _ R k Hk) as U. unfold ni_offer. st_step (ni_buffer_run x k S Hk).
  destruct (Flits.isEmpty (nbuf x k)) eqn:Em; cbn [negb].
  { exists x. split; [done|]. exists [], dn, q. rewrite offers_same, app_nil_r. split_and!; [|done|by left|done..].
    eapply ni_run_ext; [done| |exact R]. intros j Hj. destruct (decide (j = other k)) as [->|Hne]; [by rewrite fn_lookup_insert|by rewrite fn_lookup_insert_ne]. }
  st_step (on_ni_port_get x (other k) S Ho). destruct (Z.eqb_spec (out_ack (nprt x (other k))) ON) as [A|A].
  - destruct U as [(Q & _ & h & t & Eq & Eh & Es)|(_ & A' & _)]; [|by rewrite A in A'].
    destruct (withdraw_run _ _ _ _ _ _ _ _ Hc R Hk Eq Es) as (b & x1 & x2 & Eb & E1 & E2 & (dn' & q' & R2) & O2 & I2 & P2).
    rewrite Eb. erewrite (ST_bind_Ok (_ ← _; _)); [|rewrite (ST_bind_Ok (lift (Ok (h, b))) _ x (h, b) x eq_refl); cbn [snd]; st_step E1; exact E2].
    pose proof O2 as O2'. injection O2 as O2a O2b O2c. destruct (offer_head_run x2 got sent dn' q' k R2 Hk O2c) as (x3 & E3 & v & dn3 & q3 & R3 & Ev & Hs & Hi & P3).
    exists x3. split; [exact E3|]. exists v, dn3, q3. split; [done|]. split; [|split; [|split]].
    + rewrite Ev. unfold offers, pending. by rewrite O2b, O2c, A, andb_false_r.
    + destruct Hs as [Hs|[(_ & Hs)|(Hs & _)]]; [right; right; by rewrite Hs, O2'|right; left|by rewrite O2c in Hs].
      split; [unfold pending; by rewrite A, andb_false_r|done].
    + congruence.
    + intros j Hj. by rewrite P3, P2.
  - assert (A' : out_ack (nprt x (other k)) = OFF) by (destruct U as [(_ & [?|?] & _)|(_ & ? & _)]; done).
    rewrite (ST_bind_Ok (mret tt) _ x tt x eq_refl). by eapply offer_head_run.
Qed.

(** A whole cycle, on both sides. *)
Lemma ni_cycle_inv x got sent : cap_ok cap -> ni_inv x got sent -> (forall k, side k -> in_ack (nprt x k) = OFF) ->
  exists x', ni_cycle cap x = Ok (tt, x') /\
    ni_inv x' (fun k => got k ++ accepts (nprt x k) (nprt x' k)) (fun k => sent k ++ offers (nprt x k) (nprt x' k)) /\
    (forall k, side k -> port_cycle (nprt x k) (nprt x' k)).
Proof.
  intros Hc (dn & q & R) A. assert (P0 : side PLASMA) by done. assert (P1 : side NOC) by done.
  destruct (ni_accept_inv x got sent dn q PLASMA Hc R P0 (A _ P0)) as (x1 & E1 & v1 & q1 & R1 & V1 & H1 & O1 & N1).
  assert (A1 : in_ack (nprt x1 NOC) = OFF) by (rewrite N1 by done; by apply A).
  destruct (ni_accept_inv x1 _ sent dn q1 NOC Hc R1 P1 A1) as (x2 & E2 & v2 & q2 & R2 & V2 & H2 & O2 & N2).
  destruct (ni_offer_inv x2 _ sent dn q2 PLASMA Hc R2 P0) as (x3 & E3 & v3 & dn3 & q3 & R3 & V3 & H3 & O3 & N3).
  destruct (ni_offer_inv x3 _ _ dn3 q3 NOC Hc R3 P1) as (x4 & E4 & v4 & dn4 & q4 & R4 & V4 & H4 & O4 & N4).
  change (other PLASMA) with NOC in *. change (other NOC) with PLASMA in *.
  exists x4. split.
  { unfold ni_cycle, NI_BUFFER_LENGTH. unfold cap_ok in Hc. destruct (Z.eqb_spec cap 0); [lia|]. st_step E1. st_step E2. by st_step E3. }
  assert (C : forall k, side k -> port_cycle (nprt x k) (nprt x4 k) /\
    (if decide (k = PLASMA) then v1 else v2) = accepts (nprt x k) (nprt x4 k) /\
    (if decide (k = PLASMA) then v4 else v3) = offers (nprt x k) (nprt x4 k)).
  { intros k Hk. rewrite V1, V2, V3, V4. assert (k = PLASMA \/ k = NOC) as [-> | ->] by (unfold side, PLASMA, NOC in *; lia); cbn [decide].
    - rewrite !(decide_True (P := PLASMA = PLASMA)) by done. rewrite N3, N2 in * by done. by apply port_cycled.
    - rewrite !(decide_False (P := NOC = PLASMA)) by done. rewrite N4, N1 in * by done. by apply port_cycled. }
  split; [|intros k Hk; by destruct (C k Hk)]. exists dn4, q4. eapply ni_run_ext; [| |exact R4]; intros k Hk;
    destruct (C k Hk) as (_ & E5 & E6); rewrite <- ?E5, <- ?E6; assert (k = PLASMA \/ k = NOC) as [-> | ->] by (unfold side, PLASMA, NOC in *; lia); done.
Qed.

Lemma ni_env x x' got sent : ni_shape x' -> (forall k, nbuf x' k = nbuf x k) ->
  (forall k, side k -> env_step (nprt x k) (nprt x' k)) -> ni_inv x got sent -> ni_inv x' got sent.
Proof.
  intros S' B P (dn & q & R). exists dn, q. split; [done|..]; intros k Hk.
  - rewrite B. by apply R.
  - by apply R.
  - destruct (P k Hk) as (-> & _ & _ & ?). split; [done|]. by apply R.
  - by apply R.
  - destruct (other_side k Hk) as (Ho & _). destruct (P _ Ho) as (E1 & E2 & E3 & _). pose proof (nr_out _ _ _ _ _ R k Hk) as U.
    unfold outgoing in *. rewrite E1, E2. destruct U as [(Q & [A|A] & U)|(Q & A & U)], E3 as [-> |[E3 E4]]; rewrite ?E4; auto.
    by rewrite E3 in Q.
Qed.

Lemma ni_loaded garbage : cap_ok cap -> ni_inv (load_interface cap garbage) (fun _ => []) (fun _ => []).
Proof.
  intros Hc. exists (fun _ => []), (fun _ => []).
  assert (V : forall k, side k -> nbuf (load_interface cap garbage) k = Flits.create garbage cap /\ nprt (load_interface cap garbage) k = cleanPort).
  { intros k Hk. assert (k = 0 \/ k = 1) as [-> | ->] by (unfold side in Hk; lia); done. }
  split; [by split|..]; intros k Hk; destruct (V k Hk) as (Eb & Ep), (V (other k)) as (_ & Eo); [by apply other_side| |by apply other_side| |
    by apply other_side| |by apply other_side| |by apply other_side|]; rewrite ?Eb, ?Ep, ?Eo; [by apply flits_created|done..|by right].
Qed.
End interface.
