(* ===== verification/NocLinks.v ===== *)
(** * The links of the MPSoC simulator's network

    The ports of a network by their places, [synchronizePorts] on two of them,
    and the links: which port faces which. A turn of [synchronizeRouter],
    [synchronizeNetworkInterface] and [synchronizeCore] over all nodes acts on
    every link once. *)

From S2P Require Import Prelude Words NocSim Mpsoc NocRouter NocInterface.

#[local] Open Scope Z_scope.

(** ** Ports by their places *)
Section places.
Variable N : Z.
Implicit Types (s : network) (p q : port_ptr) (n k : Z).

Definition rt s n : Router := default (Router_ 0 [] [] [] [] [] []) (zget (routers s) n).
Definition nif s n : NetworkInterface := default (NetworkInterface_ [] []) (zget (network_interfaces s) n).
Definition crt s n : Core := default (Core_ cleanPort) (zget (cores s) n).
Definition port_at s p : Port :=
  match p with
  | RouterPort n k => prt (rt s n) k
  | NIPort n k => nprt (nif s n) k
  | CorePort n => port (crt s n)
  end.
Definition node n : Prop := 0 <= n < N.
Definition valid p : Prop :=
  match p with RouterPort n k => node n /\ place k | NIPort n k => node n /\ side k | CorePort n => node n end.
Record net_shape s : Prop := {
  ns_routers : zlen (routers s) = N;
  ns_interfaces : zlen (network_interfaces s) = N;
  ns_cores : zlen (cores s) = N;
  ns_router : forall n, node n -> shape (rt s n);
  ns_interface : forall n, node n -> ni_shape (nif s n);
}.
(** Apart from their ports, the nodes are as before. *)
Record same_fields s s' : Prop := {
  sf_router : forall n i, st (rt s' n) i = st (rt s n) i /\ rem (rt s' n) i = rem (rt s n) i /\ rd (rt s' n) i = rd (rt s n) i /\
    buf (rt s' n) i = buf (rt s n) i;
  sf_interface : forall n k, nbuf (nif s' n) k = nbuf (nif s n) k;
}.
Lemma same_fields_refl s : same_fields s s.
Proof. by split. Qed.
Lemma same_fields_trans s1 s2 s3 : same_fields s1 s2 -> same_fields s2 s3 -> same_fields s1 s3.
Proof.
  intros [A1 B1] [A2 B2]. split; [|congruence]. intros n i. destruct (A1 n i) as (?&?&?&?), (A2 n i) as (?&?&?&?). split_and!; congruence.
Qed.

(** Running on a part of the network. *)
Lemma on_router_run {A : Type} s n (m : ST Router A) a r : net_shape s -> node n -> m (rt s n) = Ok (a, r) ->
  on_router n m s = Ok (a, with_routers (zset (routers s) n r) s).
Proof.
  intros [] Hn E. unfold on_router, getRouter. st_unfold. unfold node in Hn.
  rewrite (aget_default _ n (Router_ 0 [] [] [] [] [] [])) by lia.
  change (default (Router_ 0 [] [] [] [] [] []) (zget (routers s) n)) with (rt s n). by rewrite E.
Qed.
Lemma on_ni_run {A : Type} s n (m : ST NetworkInterface A) a x : net_shape s -> node n -> m (nif s n) = Ok (a, x) ->
  on_ni n m s = Ok (a, with_interfaces (zset (network_interfaces s) n x) s).
Proof.
  intros [] Hn E. unfold on_ni, getNetworkInterface. st_unfold. unfold node in Hn. rewrite (aget_default _ n (NetworkInterface_ [] [])) by lia.
  change (default (NetworkInterface_ [] []) (zget (network_interfaces s) n)) with (nif s n). by rewrite E.
Qed.
Lemma on_core_run {A : Type} s n (m : ST Port A) a (x : Port) : net_shape s -> node n -> m (port_at s (CorePort n)) = Ok (a, x) ->
  on_core n m s = Ok (a, with_cores (zset (cores s) n (Core_ x)) s).
Proof.
  intros [] Hn E. unfold on_core, getCore. st_unfold. unfold node in Hn. rewrite (aget_default _ n (Core_ cleanPort)) by lia.
  change (default (Core_ cleanPort) (zget (cores s) n)) with (crt s n). cbn [port_at] in E. by rewrite E.
Qed.

Lemma rt_set s n r j : net_shape s -> node n -> rt (with_routers (zset (routers s) n r) s) j = if decide (j = n) then r else rt s j.
Proof. intros [] Hn. unfold rt; cbn. apply default_zset. unfold node in Hn. lia. Qed.
Lemma nif_set s n x j : net_shape s -> node n -> nif (with_interfaces (zset (network_interfaces s) n x) s) j = if decide (j = n) then x else nif s j.
Proof. intros [] Hn. unfold nif; cbn. apply default_zset. unfold node in Hn. lia. Qed.
Lemma crt_set s n c j : net_shape s -> node n -> crt (with_cores (zset (cores s) n c) s) j = if decide (j = n) then c else crt s j.
Proof. intros [] Hn. unfold crt; cbn. apply default_zset. unfold node in Hn. lia. Qed.
Lemma net_shape_router s n r : net_shape s -> node n -> shape r -> net_shape (with_routers (zset (routers s) n r) s).
Proof.
  intros S Hn Sr. pose proof S as []. split; cbn; rewrite ?zset_zlen; try done. intros j Hj. rewrite rt_set by done.
  destruct (decide (j = n)); auto.
Qed.
Lemma net_shape_interface s n x : net_shape s -> node n -> ni_shape x -> net_shape (with_interfaces (zset (network_interfaces s) n x) s).
Proof.
  intros S Hn Sx. pose proof S as []. split; cbn; rewrite ?zset_zlen; try done. intros j Hj. rewrite nif_set by done.
  destruct (decide (j = n)); auto.
Qed.
Lemma net_shape_core s n c : net_shape s -> node n -> net_shape (with_cores (zset (cores s) n c) s).
Proof. intros S Hn. pose proof S as []. split; cbn; rewrite ?zset_zlen; done. Qed.

Lemma shape_ports r l : shape r -> zlen l = 5 -> shape (with_ports l r).
Proof. intros [] Hl. by split. Qed.
Lemma ni_shape_ports x l : ni_shape x -> zlen l = 2 -> ni_shape (with_ni_ports l x).
Proof. intros [] Hl. by split. Qed.
Lemma prt_set r k (p : Port) j : shape r -> place k -> prt (with_ports (zset (ports r) k p) r) j = if decide (j = k) then p else prt r j.
Proof. intros [] Hk. unfold prt; cbn. apply default_zset. unfold place in Hk. lia. Qed.
Lemma nprt_set x k (p : Port) j : ni_shape x -> side k -> nprt (with_ni_ports (zset (ni_ports x) k p) x) j = if decide (j = k) then p else nprt x j.
Proof. intros [] Hk. unfold nprt; cbn. apply default_zset. unfold side in Hk. lia. Qed.

(** Running on a port. *)
Definition port_set s s' p v : Prop := net_shape s' /\ same_fields s s' /\ forall q, port_at s' q = if decide (q = p) then v else port_at s q.
Lemma on_ptr_run {A : Type} s p (m : ST Port A) a v : net_shape s -> valid p -> m (port_at s p) = Ok (a, v) ->
  exists s', on_ptr p m s = Ok (a, s') /\ port_set s s' p v.
Proof.
  intros S Hp E. destruct p as [n k|n k|n]; cbn [on_ptr valid] in *.
  - destruct Hp as [Hn Hk]. pose proof (ns_router _ S n Hn) as Sr. eexists. split.
    { apply on_router_run; [done..|]. by apply on_port_run. }
    split; [apply net_shape_router; [done..|]; apply shape_ports; [done|rewrite zset_zlen; apply Sr]|]. split; [split; [|done]|].
    + intros j i. rewrite rt_set by done. by destruct (decide (j = n)) as [->|].
    + intros [j i|j i|j]; cbn [port_at]; [|by rewrite decide_False..]. rewrite rt_set by done.
      destruct (decide (j = n)) as [->|Hne]; [|by rewrite decide_False by congruence]. rewrite prt_set by done.
      destruct (decide (i = k)) as [->|]; [by rewrite decide_True|by rewrite decide_False by congruence].
  - destruct Hp as [Hn Hk]. pose proof (ns_interface _ S n Hn) as Sx. eexists. split.
    { apply on_ni_run; [done..|]. by apply on_ni_port_run. }
    split; [apply net_shape_interface; [done..|]; apply ni_shape_ports; [done|rewrite zset_zlen; apply Sx]|]. split; [split; [done|]|].
    + intros j i. rewrite nif_set by done. by destruct (decide (j = n)) as [->|].
    + intros [j i|j i|j]; cbn [port_at]; [by rewrite decide_False| |by rewrite decide_False]. rewrite nif_set by done.
      destruct (decide (j = n)) as [->|Hne]; [|by rewrite decide_False by congruence]. rewrite nprt_set by done.
      destruct (decide (i = k)) as [->|]; [by rewrite decide_True|by rewrite decide_False by congruence].
  - eexists. split; [by apply on_core_run|]. split; [by apply net_shape_core|]. split; [done|].
    intros [j i|j i|j]; cbn [port_at]; [by rewrite decide_False..|]. rewrite crt_set by done.
    destruct (decide (j = n)) as [->|Hne]; [by rewrite decide_True|by rewrite decide_False by congruence].
Qed.
Lemma store_port_run s p f : net_shape s -> valid p -> exists s', store_port p f s = Ok (tt, s') /\ port_set s s' p (f (port_at s p)).
Proof. intros S Hp. by apply on_ptr_run. Qed.
Lemma rt_same s n : net_shape s -> node n -> with_routers (zset (routers s) n (rt s n)) s = s.
Proof.
  intros [] Hn. destruct (zget_is_Some (routers s) n) as [x E]; [unfold node in Hn; lia|]. unfold rt. rewrite E. cbn. rewrite (zset_same _ _ _ E).
  by destruct s.
Qed.
Lemma nif_same s n : net_shape s -> node n -> with_interfaces (zset (network_interfaces s) n (nif s n)) s = s.
Proof.
  intros [] Hn. destruct (zget_is_Some (network_interfaces s) n) as [x E]; [unfold node in Hn; lia|]. unfold nif. rewrite E. cbn.
  rewrite (zset_same _ _ _ E). by destruct s.
Qed.
Lemma crt_same s n : net_shape s -> node n -> with_cores (zset (cores s) n (Core_ (port (crt s n)))) s = s.
Proof.
  intros [] Hn. destruct (zget_is_Some (cores s) n) as [[x] E]; [unfold node in Hn; lia|]. unfold crt. rewrite E. cbn. rewrite (zset_same _ _ _ E).
  by destruct s.
Qed.
Lemma load_port_run s p : net_shape s -> valid p -> load_port p s = Ok (port_at s p, s).
Proof.
  intros S Hp. unfold load_port. destruct p as [n k|n k|n]; cbn [on_ptr valid port_at] in *.
  - destruct Hp as [Hn Hk]. rewrite (on_router_run s n _ _ _ S Hn (on_port_get _ k (ns_router _ S n Hn) Hk)). by rewrite rt_same.
  - destruct Hp as [Hn Hk]. rewrite (on_ni_run s n _ _ _ S Hn (on_ni_port_get _ k (ns_interface _ S n Hn) Hk)). by rewrite nif_same.
  - rewrite (on_core_run s n get_st _ _ S Hp eq_refl). by rewrite crt_same.
Qed.
Lemma port_set_fields s s' p : port_set s s' p (port_at s p) -> forall q, port_at s' q = port_at s q.
Proof. intros (_ & _ & P) q. rewrite P. by destruct (decide (q = p)) as [->|]. Qed.

(** ** One handshake *)

(** What [synchronizePorts] makes of the sending side [a] and the receiving
    side [b]. *)
Definition asks (a b : Port) : bool := (out_request a =? ON) && (in_ack b =? OFF) && (out_ack a =? OFF).
Definition acknowledged (a b : Port) : bool := (out_request a =? ON) && (in_ack b =? ON).
Definition sync_out (a b : Port) : Port := if asks a b then a else if acknowledged a b then set_out_ack ON a else a.
Definition sync_in (a b : Port) : Port :=
  if asks a b then set_in (out a) ON b else if acknowledged a b then set_in OFF OFF (set_in_ack OFF b) else b.
Lemma sync_out_ins a b : ins (sync_out a b) = ins a.
Proof. unfold sync_out. by destruct (asks a b), (acknowledged a b). Qed.
Lemma sync_in_outs a b : outs (sync_in a b) = outs b.
Proof. unfold sync_in. by destruct (asks a b), (acknowledged a b). Qed.
Lemma sync_out_ext a a' b b' : outs a' = outs a -> ins b' = ins b -> outs (sync_out a' b') = outs (sync_out a b).
Proof.
  unfold outs, ins. intros [= E1 E2 E3] [= E4 E5 E6]. unfold sync_out, asks, acknowledged. rewrite E2, E3, E6.
  repeat destruct (_ && _); cbn; congruence.
Qed.
Lemma sync_in_ext a a' b b' : outs a' = outs a -> ins b' = ins b -> ins (sync_in a' b') = ins (sync_in a b).
Proof.
  unfold outs, ins. intros [= E1 E2 E3] [= E4 E5 E6]. unfold sync_in, asks, acknowledged. rewrite E1, E2, E3, E6.
  repeat destruct (_ && _); cbn; congruence.
Qed.

Lemma synchronizePorts_run s p q : net_shape s -> valid p -> valid q -> p <> q ->
  exists s', synchronizePorts p q s = Ok (tt, s') /\ net_shape s' /\ same_fields s s' /\
    forall r, port_at s' r = if decide (r = p) then sync_out (port_at s p) (port_at s q)
      else if decide (r = q) then sync_in (port_at s p) (port_at s q) else port_at s r.
Proof.
  intros S Hp Hq Hne. unfold synchronizePorts. st_step (load_port_run s p S Hp). st_step (load_port_run s q S Hq).
  unfold sync_out, sync_in. fold (asks (port_at s p) (port_at s q)). fold (acknowledged (port_at s p) (port_at s q)).
  destruct (asks _ _).
  { destruct (store_port_run s q (set_in (out (port_at s p)) ON) S Hq) as (s1 & E1 & S1 & F1 & P1). exists s1. split_and!; [done..|].
    intros r. rewrite P1. destruct (decide (r = q)), (decide (r = p)); congruence. }
  destruct (acknowledged _ _).
  2: { exists s. split_and!; [done..|]. intros r. destruct (decide (r = p)), (decide (r = q)); congruence. }
  destruct (store_port_run s q (fun v : Port => set_in (in_ v) OFF v) S Hq) as (s1 & E1 & S1 & F1 & P1). st_step E1.
  destruct (store_port_run s1 p (set_out_ack ON) S1 Hp) as (s2 & E2 & S2 & F2 & P2). st_step E2.
  destruct (store_port_run s2 q (set_in_ack OFF) S2 Hq) as (s3 & E3 & S3 & F3 & P3). st_step E3.
  destruct (store_port_run s3 q (fun v : Port => set_in OFF (in_request v) v) S3 Hq) as (s4 & E4 & S4 & F4 & P4). exists s4. split_and!; [done..| |].
  { eauto using same_fields_trans. }
  intros r. rewrite P4, !P3, !P2, !P1. repeat (destruct (decide _); try congruence). all: subst; reflexivity.
Qed.

(** ** All links *)
Fixpoint sync_links (l : list (port_ptr * port_ptr)) : ST network unit :=
  match l with [] => mret tt | (p, q) :: l => _ ← synchronizePorts p q; sync_links l end.
Lemma sync_links_app l l' s : sync_links (l ++ l') s = (_ ← sync_links l; sync_links l') s.
Proof.
  revert s. induction l as [|[p q] l IH]; intros s; [done|]. cbn [app sync_links]. rewrite ST_bind_assoc.
  unfold mbind, ST_bind. destruct (synchronizePorts p q s) as [[[] s']| | |]; [|done..]. apply IH.
Qed.

(** Links with different ends act independently. *)
Lemma sync_links_run l : forall s, net_shape s -> NoDup (fst <$> l) -> NoDup (snd <$> l) ->
  Forall (fun e => valid (fst e) /\ valid (snd e) /\ fst e <> snd e) l ->
  exists s', sync_links l s = Ok (tt, s') /\ net_shape s' /\ same_fields s s' /\
    (forall p q, (p, q) ∈ l -> outs (port_at s' p) = outs (sync_out (port_at s p) (port_at s q)) /\
      ins (port_at s' q) = ins (sync_in (port_at s p) (port_at s q))) /\
    (forall r, r ∉ fst <$> l -> outs (port_at s' r) = outs (port_at s r)) /\
    (forall r, r ∉ snd <$> l -> ins (port_at s' r) = ins (port_at s r)).
Proof.
  induction l as [|[p q] l IH]; intros s S N1 N2 Hl.
  { exists s. split_and!; [done..| |done|done]. intros p q He. by apply list.elem_of_nil in He. }
  rewrite !fmap_cons in *. cbn [fst snd] in *. apply list.NoDup_cons in N1 as [H1 N1]. apply list.NoDup_cons in N2 as [H2 N2].
  apply list.Forall_cons in Hl as [(Hp & Hq & Hne) Hl]. cbn [fst snd] in *.
  destruct (synchronizePorts_run s p q S Hp Hq Hne) as (s1 & E1 & S1 & F1 & P1).
  destruct (IH s1 S1 N1 N2 Hl) as (s2 & E2 & S2 & F2 & L2 & O2 & I2).
  assert (O1 : forall r, r <> p -> outs (port_at s1 r) = outs (port_at s r)).
  { intros r Hr. rewrite P1, decide_False by done. destruct (decide (r = q)) as [->|]; [|done]. apply sync_in_outs. }
  assert (I1 : forall r, r <> q -> ins (port_at s1 r) = ins (port_at s r)).
  { intros r Hr. rewrite P1. destruct (decide (r = p)) as [->|]; [apply sync_out_ins|by rewrite decide_False]. }
  exists s2. split_and!; [cbn [sync_links]; by st_step E1|done|by eapply same_fields_trans| | |].
  - intros p' q' He. apply list.elem_of_cons in He as [[= -> ->]|He].
    + rewrite O2, I2, !P1, decide_True, decide_False, decide_True by done. done.
    + assert (p' ∈ fst <$> l /\ q' ∈ snd <$> l) as [Ep Eq] by (split; apply list_elem_of_fmap; by exists (p', q')).
      destruct (L2 p' q' He) as [-> ->]. split; [apply sync_out_ext|apply sync_in_ext]; (apply O1 || apply I1); congruence.
  - intros r Hr. apply list.not_elem_of_cons in Hr as [Hr1 Hr2]. by rewrite O2, O1.
  - intros r Hr. apply list.not_elem_of_cons in Hr as [Hr1 Hr2]. by rewrite I2, I1.
Qed.
End places.

(** ** The mesh *)
Section mesh.
Variables (NOC_WIDTH NOC_HEIGHT OS_PACKET_SIZE : Z).
Hypothesis width : 2 <= NOC_WIDTH.
Hypothesis height : 2 <= NOC_HEIGHT.
Hypothesis packets : 0 < OS_PACKET_SIZE.
Implicit Types (p q : port_ptr) (n k : Z).
#[local] Abbreviation N := (N_CORES NOC_WIDTH NOC_HEIGHT).
#[local] Abbreviation line := (GET_LINE NOC_WIDTH).
#[local] Abbreviation column := (GET_COLUMN NOC_WIDTH).

Lemma coordinates n : node N n -> n = NOC_WIDTH * line n + column n /\ 0 <= line n < NOC_HEIGHT /\ 0 <= column n < NOC_WIDTH.
Proof.
  unfold node, N_CORES, GET_LINE, GET_COLUMN. intros Hn. rewrite cdiv_nonneg, cmod_nonneg by lia.
  pose proof (Z.div_mod n NOC_WIDTH ltac:(lia)). pose proof (Z.mod_pos_bound n NOC_WIDTH ltac:(lia)).
  split_and!; try lia; [apply Z.div_pos; lia|apply Z.div_lt_upper_bound; lia].
Qed.
Lemma at_coordinates l c : 0 <= l < NOC_HEIGHT -> 0 <= c < NOC_WIDTH ->
  node N (NOC_WIDTH * l + c) /\ line (NOC_WIDTH * l + c) = l /\ column (NOC_WIDTH * l + c) = c.
Proof.
  intros Hl Hc. assert (0 <= NOC_WIDTH * l + c) by nia. unfold node, N_CORES, GET_LINE, GET_COLUMN.
  rewrite cdiv_nonneg, cmod_nonneg by lia. split_and!; [lia|nia| |].
  - symmetry. apply (Z.div_unique _ _ _ c); lia.
  - symmetry. apply (Z.mod_unique _ _ l c); lia.
Qed.
(** A node by its coordinates. *)
Lemma node_at n l c : n = NOC_WIDTH * l + c -> 0 <= l < NOC_HEIGHT -> 0 <= c < NOC_WIDTH -> node N n /\ line n = l /\ column n = c.
Proof. intros ->. apply at_coordinates. Qed.

(** The port that faces a port; at the border there is none. *)
Definition peer p : option port_ptr :=
  match p with
  | RouterPort n k =>
      if k =? LOCAL then Some (NIPort n NOC)
      else if k =? SOUTH then if line n =? 0 then None else Some (RouterPort (n - NOC_WIDTH) NORTH)
      else if k =? NORTH then if line n =? NOC_HEIGHT - 1 then None else Some (RouterPort (n + NOC_WIDTH) SOUTH)
      else if k =? EAST then if column n =? NOC_WIDTH - 1 then None else Some (RouterPort (n + 1) WEST)
      else if column n =? 0 then None else Some (RouterPort (n - 1) EAST)
  | NIPort n k => Some (if k =? NOC then RouterPort n LOCAL else CorePort n)
  | CorePort n => Some (NIPort n PLASMA)
  end.

Lemma peer_facing p q : valid N p -> peer p = Some q -> valid N q /\ peer q = Some p /\ p <> q.
Proof.
  destruct p as [n k|n k|n]; cbn [valid peer]; unfold place, side, LOCAL, SOUTH, NORTH, EAST, WEST, NOC, PLASMA.
  - intros [Hn Hk]. destruct (coordinates n Hn) as (En & Hl & Hc).
    assert (k = 0 \/ k = 1 \/ k = 2 \/ k = 3 \/ k = 4) as Hk5 by lia. repeat destruct Hk5 as [->|Hk5]; [..|subst k]; cbn [Z.eqb Pos.eqb].
    + destruct (Z.eqb_spec (column n) (NOC_WIDTH - 1)); [done|]. intros [= <-]. cbn [valid peer Z.eqb Pos.eqb].
      destruct (node_at (n + 1) (line n) (column n + 1)) as (Hn' & El & Ec); [lia..|]. rewrite Ec.
      unfold place, LOCAL, SOUTH, NORTH, EAST. cbn. destruct (Z.eqb_spec (column n + 1) 0); [lia|].
      split_and!; [done|lia|lia|do 2 f_equal; lia|congruence].
    + destruct (Z.eqb_spec (column n) 0); [done|]. intros [= <-]. cbn [valid peer Z.eqb Pos.eqb].
      destruct (node_at (n - 1) (line n) (column n - 1)) as (Hn' & El & Ec); [lia..|]. rewrite Ec.
      unfold place, LOCAL, SOUTH, NORTH, EAST. cbn. destruct (Z.eqb_spec (column n - 1) (NOC_WIDTH - 1)); [lia|].
      split_and!; [done|lia|lia|do 2 f_equal; lia|congruence].
    + destruct (Z.eqb_spec (line n) (NOC_HEIGHT - 1)); [done|]. intros [= <-]. cbn [valid peer Z.eqb Pos.eqb].
      destruct (node_at (n + NOC_WIDTH) (line n + 1) (column n)) as (Hn' & El & Ec); [lia..|]. rewrite El.
      unfold place, LOCAL, SOUTH. cbn. destruct (Z.eqb_spec (line n + 1) 0); [lia|].
      split_and!; [done|lia|lia|do 2 f_equal; lia|congruence].
    + destruct (Z.eqb_spec (line n) 0); [done|]. intros [= <-]. cbn [valid peer Z.eqb Pos.eqb].
      destruct (node_at (n - NOC_WIDTH) (line n - 1) (column n)) as (Hn' & El & Ec); [lia..|]. rewrite El.
      unfold place, LOCAL, SOUTH, NORTH. cbn. destruct (Z.eqb_spec (line n - 1) (NOC_HEIGHT - 1)); [lia|].
      split_and!; [done|lia|lia|do 2 f_equal; lia|congruence].
    + intros [= <-]. done.
  - intros [Hn Hk]. assert (k = 0 \/ k = 1) as [-> | ->] by lia; intros [= <-]; cbn; split_and!; done.
  - intros Hn [= <-]. done.
Qed.

(** The links from a node, in the order they are synchronized. *)
Definition node_links n : list (port_ptr * port_ptr) :=
  [(RouterPort n LOCAL, NIPort n NOC)] ++
  (if line n =? 0 then [] else [(RouterPort n SOUTH, RouterPort (n - NOC_WIDTH) NORTH)]) ++
  (if line n =? NOC_HEIGHT - 1 then [] else [(RouterPort n NORTH, RouterPort (n + NOC_WIDTH) SOUTH)]) ++
  (if column n =? NOC_WIDTH - 1 then [] else [(RouterPort n EAST, RouterPort (n + 1) WEST)]) ++
  (if column n =? 0 then [] else [(RouterPort n WEST, RouterPort (n - 1) EAST)]) ++
  [(NIPort n NOC, RouterPort n LOCAL); (NIPort n PLASMA, CorePort n); (CorePort n, NIPort n PLASMA)].
Definition links (l : list Z) : list (port_ptr * port_ptr) := concat (node_links <$> l).

Lemma synchronize_links n s : node N n -> synchronize NOC_WIDTH NOC_HEIGHT OS_PACKET_SIZE n s = sync_links (node_links n) s.
Proof.
  intros Hn. destruct (coordinates n Hn) as (_ & Hl & Hc).
  unfold synchronize, synchronizeRouter, synchronizeNetworkInterface, synchronizeCore, node_links, NI_BUFFER_LENGTH.
  destruct (Z.eqb_spec OS_PACKET_SIZE 0); [lia|]. cbn [negb].
  destruct (Z.eqb_spec (line n) 0), (Z.eqb_spec (line n) (NOC_HEIGHT - 1)), (Z.eqb_spec (column n) 0),
    (Z.eqb_spec (column n) (NOC_WIDTH - 1)); try lia; cbn [negb orb app sync_links when];
    unfold mbind, mret, ST_bind, ST_ret;
    repeat match goal with |- context [synchronizePorts ?p ?q ?t] => destruct (synchronizePorts p q t) as [[[] ?]| | |]; [|done..] end; done.
Qed.
Lemma synchronize_all l s : Forall (node N) l -> for_each (synchronize NOC_WIDTH NOC_HEIGHT OS_PACKET_SIZE) l s = sync_links (links l) s.
Proof.
  revert s. induction l as [|n l IH]; intros s Hl; [done|]. apply Forall_cons_iff in Hl as [Hn Hl].
  unfold links. rewrite fmap_cons. cbn [concat for_each]. rewrite sync_links_app. unfold mbind, ST_bind.
  rewrite synchronize_links by done. destruct (sync_links (node_links n) s) as [[[] s']| | |]; [|done..]. by apply IH.
Qed.

(** The node a port belongs to. *)
Definition owner p : Z := match p with RouterPort n _ | NIPort n _ | CorePort n => n end.
Lemma node_links_spec n p q : node N n -> (p, q) ∈ node_links n <-> owner p = n /\ valid N p /\ peer p = Some q.
Proof.
  intros Hn. unfold node_links. split.
  - rewrite !list.elem_of_app, !list.elem_of_cons, list.elem_of_nil.
    destruct (line n =? 0) eqn:E1, (line n =? NOC_HEIGHT - 1) eqn:E2, (column n =? NOC_WIDTH - 1) eqn:E3, (column n =? 0) eqn:E4;
    rewrite ?list.elem_of_cons, ?list.elem_of_nil; intros Hin; repeat destruct Hin as [Hin|Hin]; try done; injection Hin as -> ->;
    cbn [owner valid peer]; (split; [done|]); (split; [done|]); cbn; rewrite ?E1, ?E2, ?E3, ?E4; done.
  - intros (Eo & Hp & Eq). rewrite !list.elem_of_app, !list.elem_of_cons, list.elem_of_nil.
    destruct p as [m k|m k|m]; cbn [owner valid] in *; subst m; [|destruct Hp as [_ Hk]; assert (k = 0 \/ k = 1) as [-> | ->] by (unfold side in Hk; lia);
      injection Eq as <-; cbn; tauto|injection Eq as <-; tauto].
    destruct Hp as [_ Hk]. unfold place in Hk. assert (k = 0 \/ k = 1 \/ k = 2 \/ k = 3 \/ k = 4) as Hk5 by lia.
    repeat destruct Hk5 as [->|Hk5]; [..|subst k]; cbn in Eq.
    + destruct (column n =? NOC_WIDTH - 1); [done|]. injection Eq as <-. rewrite !list.elem_of_cons. tauto.
    + destruct (column n =? 0); [done|]. injection Eq as <-. rewrite !list.elem_of_cons. tauto.
    + destruct (line n =? NOC_HEIGHT - 1); [done|]. injection Eq as <-. rewrite !list.elem_of_cons. tauto.
    + destruct (line n =? 0); [done|]. injection Eq as <-. rewrite !list.elem_of_cons. tauto.
    + injection Eq as <-. tauto.
Qed.
Lemma links_spec l p q : Forall (node N) l -> (p, q) ∈ links l <-> owner p ∈ l /\ valid N p /\ peer p = Some q.
Proof.
  induction l as [|n l IH]; intros Hl.
  { cbn. split; [by intros ?%list.elem_of_nil|by intros [?%list.elem_of_nil _]]. }
  apply Forall_cons_iff in Hl as [Hn Hl]. unfold links. rewrite fmap_cons. cbn [concat].
  rewrite list.elem_of_app, list.elem_of_cons, node_links_spec by done. fold (links l). rewrite (IH Hl). tauto.
Qed.
Lemma node_links_NoDup n : NoDup (fst <$> node_links n).
Proof.
  unfold node_links, LOCAL, SOUTH, NORTH, EAST, WEST, NOC, PLASMA.
  destruct (line n =? 0), (line n =? NOC_HEIGHT - 1), (column n =? NOC_WIDTH - 1), (column n =? 0); cbn;
    repeat (apply list.NoDup_cons; split; [rewrite ?list.elem_of_cons, ?list.elem_of_nil; intuition congruence|]); apply base.NoDup_nil_2.
Qed.
Lemma links_NoDup l : Forall (node N) l -> NoDup l -> NoDup (fst <$> links l).
Proof.
  induction l as [|n l IH]; intros Hl Hd; [apply base.NoDup_nil_2|]. apply list.NoDup_cons in Hd as [Hni Hd].
  apply Forall_cons_iff in Hl as [Hn Hl]. unfold links. rewrite fmap_cons. cbn [concat]. rewrite fmap_app. apply list.NoDup_app. fold (links l).
  split_and!; [apply node_links_NoDup| |auto].
  intros p [[p1 q1] [-> H1]]%list_elem_of_fmap_1 [[p2 q2] [E2 H2]]%list_elem_of_fmap_1. cbn [fst] in E2. subst p2.
  apply (node_links_spec n p1 q1 Hn) in H1 as (E1 & _). apply (links_spec l p1 q2 Hl) in H2 as (E2 & _). congruence.
Qed.
(** A port faces one port, so the receiving ends differ too. *)
Lemma links_NoDup_snd l : Forall (node N) l -> NoDup l -> NoDup (snd <$> links l).
Proof.
  intros Hl Hd. pose proof (links_NoDup l Hl Hd) as N1. assert (P : forall e, e ∈ links l -> valid N (fst e) /\ peer (fst e) = Some (snd e)).
  { intros [p q] He. by apply (links_spec l p q Hl) in He as (_ & ? & ?). }
  revert N1 P. generalize (links l). clear l Hl Hd. induction l as [|[p q] l IH]; intros N1 P; [apply base.NoDup_nil_2|].
  rewrite fmap_cons in *. cbn [fst snd] in *. apply list.NoDup_cons in N1 as [H1 N1]. apply list.NoDup_cons. split.
  - intros [[p2 q2] [E2 H2]]%list_elem_of_fmap_1. cbn [snd] in E2. subst q2. apply H1. apply list_elem_of_fmap. exists (p2, q). split; [|done]. cbn.
    destruct (P (p, q)) as [V1 E1]; [by apply list.elem_of_cons; left|]. destruct (P (p2, q)) as [V2 E2]; [by apply list.elem_of_cons; right|].
    destruct (peer_facing _ _ V1 E1) as (_ & F1 & _), (peer_facing _ _ V2 E2) as (_ & F2 & _). cbn [fst snd] in *. congruence.
  - apply IH; [done|]. intros e He. apply P. by apply list.elem_of_cons; right.
Qed.
End mesh.
