(* ===== verification/NocNet.v ===== *)
(** * The MPSoC simulator's network at work

    The turns of [do_debug] in [usr/sim/mpsoc_sim/source/mpsoc_sim.c] on any
    mesh and any accesses of the processors: no turn fails, every link hands over
    in order what was sent on it, and what a processor reads are whole packets
    addressed to it. *)

From stdpp Require Import functions.
From S2P Require Import Prelude Words NocSim Mpsoc NocRouter NocInterface NocLinks.

#[local] Open Scope Z_scope.

(** ** The phases of a link *)

(** The states of the handshake from [p] to [q], with the flit under way. *)
Inductive phase (p q : Port) : list Z -> Prop :=
| ph_idle : out_request p = OFF -> out_ack p = OFF -> in_request q = OFF -> in_ack q = OFF -> phase p q []
| ph_offered : out_request p = ON -> out_ack p = OFF -> in_request q = OFF -> in_ack q = OFF -> phase p q [out p]
| ph_requested : out_request p = ON -> out_ack p = OFF -> in_request q = ON -> in_ack q = OFF -> in_ q = out p -> phase p q [out p]
| ph_taken : out_request p = ON -> out_ack p = OFF -> in_request q = ON -> in_ack q = ON -> phase p q []
| ph_acked : out_request p = ON -> out_ack p = ON -> in_request q = OFF -> in_ack q = OFF -> phase p q [].
(** Between the handshakes and the cycles. *)
Definition synced (p q : Port) : Prop := in_ack q = OFF /\ (pending p = true -> in_request q = ON).

Lemma phase_ext p p' q q' l : outs p' = outs p -> ins q' = ins q -> phase p q l -> phase p' q' l.
Proof.
  unfold outs, ins. intros [= E1 E2 E3] [= E4 E5 E6] P.
  destruct P; rewrite <- ?E1; [apply ph_idle|apply ph_offered|apply ph_requested|apply ph_taken|apply ph_acked]; congruence.
Qed.

(** A handshake moves the flit, and leaves the link synced. *)
Lemma phase_sync p q l : phase p q l -> phase (sync_out p q) (sync_in p q) l /\ synced (sync_out p q) (sync_in p q).
Proof.
  intros P. unfold synced, pending, sync_out, sync_in, asks, acknowledged. destruct P as [A B C D|A B C D|A B C D E|A B C D|A B C D];
    rewrite ?A, ?B, ?C, ?D; cbn; rewrite ?A, ?B, ?C, ?D; cbn; (split; [|split; [done|by intros]]).
  - by apply ph_idle.
  - by apply ph_requested.
  - by apply ph_requested.
  - by apply ph_acked.
  - by apply ph_acked.
Qed.

(** Then each side makes a step of its own: what is sent is received or under way. *)
Lemma phase_cycle p q p' q' l : phase p q l -> synced p q -> sender_step p p' -> receiver_step q q' ->
  exists l', phase p' q' l' /\ l ++ offers p p' = accepts q q' ++ l'.
Proof.
  intros P [Sa Sb] Hs Hr. unfold sender_step, receiver_step, offers, accepts, pending, outs, ins in *.
  destruct P as [A B C D|A B C D|A B C D E|A B C D|A B C D]; rewrite ?A, ?B, ?C, ?D in *; cbn in *; try done.
  - destruct Hr as [[= R1 R2 R3]|[? _]]; [|done]. rewrite R3. destruct Hs as [[= S1 S2 S3]|[(_ & v & [= S1 S2 S3])|[? _]]]; [| |done];
      rewrite S2, ?S3; cbn; eexists; (split; [|reflexivity]); [by apply ph_idle|].
    by apply ph_offered.
  - by specialize (Sb eq_refl).
  - destruct Hs as [[= S1 S2 S3]|[[? _]|[? _]]]; [|done..]. rewrite S2, S3. cbn. destruct Hr as [[= R1 R2 R3]|(_ & [= R1 R2 R3])]; rewrite R3; cbn.
    + exists [out p]. split; [|done]. rewrite <- S1. apply ph_requested; congruence.
    + exists []. split; [|by rewrite E]. by apply ph_taken.
  - destruct Hr as [[= R1 R2 R3]|[? _]]; [|done]. rewrite R3. destruct Hs as [[= S1 S2 S3]|[(_ & v & [= S1 S2 S3])|(_ & [= S1 S2 S3])]];
      rewrite S2, ?S3; cbn; eexists; (split; [|reflexivity]); [by apply ph_acked|by apply ph_offered|by apply ph_idle].
Qed.

(** ** The turns of the network *)
Section net.
Variables (NOC_WIDTH NOC_HEIGHT NOC_BUFFER_SIZE OS_PACKET_SIZE : Z).
Hypothesis width : 2 <= NOC_WIDTH.
Hypothesis height : 2 <= NOC_HEIGHT.
Hypothesis router_buffers : cap_ok NOC_BUFFER_SIZE.
Hypothesis interface_buffers : cap_ok OS_PACKET_SIZE.
Implicit Types (s : network) (p q : port_ptr) (n : Z) (got sent : port_ptr -> list Z).
#[local] Abbreviation N := (N_CORES NOC_WIDTH NOC_HEIGHT).
#[local] Abbreviation facing := (peer NOC_WIDTH NOC_HEIGHT).
#[local] Abbreviation all_nodes := (nodes NOC_WIDTH NOC_HEIGHT).

Lemma packet_size : 0 < OS_PACKET_SIZE.
Proof. unfold cap_ok in *. lia. Qed.
Lemma all_nodes_in : Forall (node N) all_nodes.
Proof.
  apply list.Forall_forall. intros n [i [-> Hi]]%list_elem_of_fmap_1. apply elem_of_seq in Hi. unfold node, N_CORES in *. nia.
Qed.
Lemma all_nodes_all n : node N n -> n ∈ all_nodes.
Proof. intros Hn. apply list_elem_of_fmap. exists (Z.to_nat n). unfold node in Hn. split; [lia|]. apply elem_of_seq. lia. Qed.
Lemma all_nodes_NoDup : NoDup all_nodes.
Proof. apply list.NoDup_fmap; [apply _|apply list.NoDup_seq]. Qed.

(** The invariant of the network: [got] and [sent] are what its ports have
    taken and offered so far. *)
Record net_inv s got sent : Prop := {
  nv_shape : net_shape N s;
  nv_router : forall n, node N n ->
    router_inv NOC_WIDTH NOC_BUFFER_SIZE n (rt s n) (fun k => got (RouterPort n k)) (fun k => sent (RouterPort n k));
  nv_interface : forall n, node N n -> ni_inv OS_PACKET_SIZE (nif s n) (fun k => got (NIPort n k)) (fun k => sent (NIPort n k));
  nv_core : forall n, node N n -> flit_ok (in_ (port (crt s n))) /\ flit_ok (out (port (crt s n)));
  nv_link : forall p q, valid N p -> facing p = Some q -> exists l, phase (port_at s p) (port_at s q) l /\ sent p = got q ++ l;
  nv_border : forall p, valid N p -> facing p = None -> (in_request (port_at s p) = OFF /\ in_ack (port_at s p) = OFF) /\ got p = [];
}.
Definition net_synced s : Prop := forall p q, valid N p -> facing p = Some q -> synced (port_at s p) (port_at s q).

Lemma port_flits s got sent p : net_inv s got sent -> valid N p -> flit_ok (in_ (port_at s p)) /\ flit_ok (out (port_at s p)).
Proof.
  intros I Hp. destruct p as [n k|n k|n]; cbn [valid port_at] in *.
  - destruct Hp as [Hn Hk]. destruct (nv_router _ _ _ I n Hn) as (l & a & b & R). by apply R.
  - destruct Hp as [Hn Hk]. destruct (nv_interface _ _ _ I n Hn) as (a & b & R). by apply R.
  - by apply I.
Qed.

(** What a change of the ports, as the handshakes make it, keeps. *)
Lemma net_env s s' got sent : net_inv s got sent -> net_shape N s' -> same_fields s s' ->
  (forall p, valid N p -> env_step (port_at s p) (port_at s' p)) ->
  (forall p q, valid N p -> facing p = Some q -> exists l, phase (port_at s' p) (port_at s' q) l /\ sent p = got q ++ l) ->
  (forall p, valid N p -> facing p = None -> in_request (port_at s' p) = OFF /\ in_ack (port_at s' p) = OFF) -> net_inv s' got sent.
Proof.
  intros I S F P L B. split; [done|..|exact L|].
  - intros n Hn. apply (router_env _ _ _ (rt s n)); [by apply S|apply F| |by apply I]. intros k Hk. by apply (P (RouterPort n k)).
  - intros n Hn. apply (ni_env _ (nif s n)); [by apply S|apply F| |by apply I]. intros k Hk. by apply (P (NIPort n k)).
  - intros n Hn. destruct (P (CorePort n) Hn) as (E & _ & _ & Hi). cbn [port_at] in *. split; [done|]. rewrite E. by apply I.
  - intros p Hp Hf. split; [by apply B|by apply I].
Qed.

(** *** The handshakes of all links *)
Lemma synchronize_inv s got sent : net_inv s got sent ->
  exists s', for_each (synchronize NOC_WIDTH NOC_HEIGHT OS_PACKET_SIZE) all_nodes s = Ok (tt, s') /\ net_inv s' got sent /\
    net_synced s' /\ (forall p, valid N p -> out_request (port_at s' p) = out_request (port_at s p)).
Proof.
  intros I. pose proof all_nodes_in as An. pose proof all_nodes_NoDup as Ad.
  pose proof (links_spec NOC_WIDTH NOC_HEIGHT all_nodes) as Ls.
  destruct (sync_links_run N (links NOC_WIDTH NOC_HEIGHT all_nodes) s) as (s' & E & S' & F & L & O & Iv).
  { apply I. } { by apply links_NoDup. } { by apply links_NoDup_snd. }
  { apply list.Forall_forall. intros [p q] (_ & Hp & Hq)%(Ls p q An). destruct (peer_facing _ _ width height p q Hp Hq) as (? & _ & ?). done. }
  assert (L1 : forall p q, valid N p -> facing p = Some q -> outs (port_at s' p) = outs (sync_out (port_at s p) (port_at s q)) /\
    ins (port_at s' q) = ins (sync_in (port_at s p) (port_at s q))).
  { intros p q Hp Hq. apply L, (Ls p q An). split_and!; [|done..]. apply all_nodes_all. by destruct p as [? ?|? ?|?]; destruct Hp. }
  assert (Lo : forall p, valid N p -> facing p = None -> outs (port_at s' p) = outs (port_at s p) /\ ins (port_at s' p) = ins (port_at s p)).
  { intros p Hp Hf. split; [apply O|apply Iv]; intros [[p1 q1] [-> (_ & Hp1 & Hq1)%(Ls _ _ An)]]%list_elem_of_fmap_1; cbn in *; [congruence|].
    destruct (peer_facing _ _ width height _ _ Hp1 Hq1) as (_ & ? & _). congruence. }
  assert (Ph : forall p q, valid N p -> facing p = Some q -> exists l, phase (port_at s' p) (port_at s' q) l /\ sent p = got q ++ l /\
    synced (port_at s' p) (port_at s' q)).
  { intros p q Hp Hq. destruct (nv_link _ _ _ I p q Hp Hq) as (l & P & El). destruct (phase_sync _ _ _ P) as [P' Sy].
    destruct (L1 p q Hp Hq) as [E1 E2]. exists l. split; [by eapply phase_ext|]. split; [done|]. unfold synced, pending, outs, ins in *.
    injection E1 as E1a E1b E1c. injection E2 as E2a E2b E2c. by rewrite E1b, E1c, E2b, E2c. }
  exists s'. split; [by rewrite (synchronize_all _ _ _ width height packet_size _ s An)|]. split; [|split].
  - apply (net_env s); [done..| | |].
    + intros p Hp. destruct (port_flits s got sent p I Hp) as [Fi Fo]. assert (Ei : flit_ok (in_ (port_at s' p))).
      { destruct (facing p) as [q|] eqn:Hf; [|by destruct (Lo p Hp Hf) as [_ [= -> _ _]]].
        destruct (peer_facing _ _ width height p q Hp Hf) as (Hq & Hf' & _). destruct (L1 q p Hq Hf') as [_ [= -> _ _]].
        unfold sync_in. destruct (asks _ _); [by eapply port_flits|]. by destruct (acknowledged _ _). }
      destruct (facing p) as [q|] eqn:Hf.
      * destruct (L1 p q Hp Hf) as [Eo _]. unfold sync_out, acknowledged in Eo. unfold outs in Eo. injection Eo as E1 E2 E3.
        unfold env_step. rewrite E1, E2, E3. destruct (asks _ _); [by split_and!; try left|].
        destruct (Z.eqb_spec (out_request (port_at s p)) ON); cbn; [|by split_and!; try left]. destruct (_ =? _); by split_and!; auto.
      * destruct (Lo p Hp Hf) as [[= E1 E2 E3] _]. unfold env_step. rewrite E1, E2, E3. by split_and!; try left.
    + intros p q Hp Hf. destruct (Ph p q Hp Hf) as (l & ? & ? & _). by exists l.
    + intros p Hp Hf. destruct (Lo p Hp Hf) as [_ [= _ -> ->]]. by apply I.
  - intros p q Hp Hf. by destruct (Ph p q Hp Hf) as (l & _ & _ & ?).
  - intros p Hp. destruct (facing p) as [q|] eqn:Hf; [|by destruct (Lo p Hp Hf) as [[= _ -> _] _]].
    destruct (L1 p q Hp Hf) as [[= _ -> _] _]. unfold sync_out. destruct (asks _ _); [done|]. by destruct (acknowledged _ _).
Qed.

(** *** The cycles of all nodes *)
Definition slow (gcycles : Z) : bool := cmod gcycles CPU_NETWORK_CLK_RATIO =? 0.
Definition node_cycled g s s' n : Prop :=
  (if slow g then router_cycle NOC_WIDTH NOC_HEIGHT n (rt s n) = Ok (tt, rt s' n) else rt s' n = rt s n) /\
  ni_cycle OS_PACKET_SIZE (nif s n) = Ok (tt, nif s' n).
Definition node_ready s n : Prop :=
  (exists r', router_cycle NOC_WIDTH NOC_HEIGHT n (rt s n) = Ok (tt, r') /\ shape r') /\
  (exists x', ni_cycle OS_PACKET_SIZE (nif s n) = Ok (tt, x') /\ ni_shape x').
Definition others_kept (l : list Z) s s' : Prop := forall n, (n ∉ l -> rt s' n = rt s n /\ nif s' n = nif s n) /\ crt s' n = crt s n.

Lemma cycle_node_run g s n : net_shape N s -> node N n -> node_ready s n ->
  exists s', cycle_node NOC_WIDTH NOC_HEIGHT OS_PACKET_SIZE g n s = Ok (tt, s') /\ net_shape N s' /\ node_cycled g s s' n /\
    others_kept [n] s s'.
Proof.
  intros S Hn [(r' & Er & Sr) (x' & Ex & Sx)]. unfold cycle_node, cycleRouter, cycleNetworkInterface, node_cycled. fold (slow g).
  set (s1 := if slow g then with_routers (zset (routers s) n r') s else s).
  assert (E1 : when (slow g) (on_router n (router_cycle NOC_WIDTH NOC_HEIGHT n)) s = Ok (tt, s1)).
  { unfold when, s1. destruct (slow g); [by apply (on_router_run N)|done]. }
  assert (S1 : net_shape N s1) by (unfold s1; destruct (slow g); [by apply net_shape_router|done]).
  assert (N1 : forall j, nif s1 j = nif s j /\ crt s1 j = crt s j) by (unfold s1; by destruct (slow g)).
  st_step E1. rewrite <- (proj1 (N1 n)) in Ex. exists (with_interfaces (zset (network_interfaces s1) n x') s1).
  split; [by apply (on_ni_run N)|]. split; [by apply net_shape_interface|]. split.
  - rewrite (nif_set N), decide_True, <- (proj1 (N1 n)) by done. split; [|done]. unfold s1. destruct (slow g); [|done].
    change (router_cycle NOC_WIDTH NOC_HEIGHT n (rt s n) = Ok (tt, rt (with_routers (zset (routers s) n r') s) n)).
    by rewrite (rt_set N), decide_True.
  - intros j. split; [|apply N1]. intros Hj%list.not_elem_of_cons. destruct Hj as [Hj _]. rewrite (nif_set N), decide_False by done. split; [|apply N1].
    unfold s1. destruct (slow g); [|done]. change (rt (with_routers (zset (routers s) n r') s) j = rt s j). by rewrite (rt_set N), decide_False.
Qed.

Lemma cycles_run g l : forall s, NoDup l -> Forall (node N) l -> net_shape N s -> (forall n, n ∈ l -> node_ready s n) ->
  exists s', for_each (cycle_node NOC_WIDTH NOC_HEIGHT OS_PACKET_SIZE g) l s = Ok (tt, s') /\ net_shape N s' /\
    (forall n, n ∈ l -> node_cycled g s s' n) /\ others_kept l s s'.
Proof.
  induction l as [|n l IH]; intros s Hd Hl S R.
  { exists s. split_and!; [done..| |by intros]. intros n Hn. by apply list.elem_of_nil in Hn. }
  apply list.NoDup_cons in Hd as [Hni Hd]. apply Forall_cons_iff in Hl as [Hn Hl].
  destruct (cycle_node_run g s n S Hn) as (s1 & E1 & S1 & C1 & O1); [apply R; by apply list.elem_of_cons; left|].
  assert (K1 : forall j, j <> n -> rt s1 j = rt s j /\ nif s1 j = nif s j).
  { intros j Hj. apply O1. by intros [?|?%list.elem_of_nil]%list.elem_of_cons. }
  destruct (IH s1 Hd Hl S1) as (s2 & E2 & S2 & C2 & O2).
  { intros j Hj. unfold node_ready. destruct (K1 j) as [-> ->]; [congruence|]. apply R. by apply list.elem_of_cons; right. }
  exists s2. split; [cbn [for_each]; by st_step E1|]. split; [done|]. split.
  - intros j Hj. apply list.elem_of_cons in Hj as [->|Hj].
    + unfold node_cycled in *. by destruct (proj1 (O2 n) Hni) as [-> ->].
    + specialize (C2 j Hj). unfold node_cycled in *. by destruct (K1 j) as [<- <-]; [congruence|].
  - intros j. split; [|by rewrite (proj2 (O2 j)); apply O1]. intros Hj. apply list.not_elem_of_cons in Hj as [Hj1 Hj2].
    destruct (proj1 (O2 j) Hj2) as [-> ->]. by apply K1.
Qed.

(** The histories, extended by what the ports took and offered. *)
Definition grown_got s s' got : port_ptr -> list Z := fun p => got p ++ accepts (port_at s p) (port_at s' p).
Definition grown_sent s s' sent : port_ptr -> list Z := fun p => sent p ++ offers (port_at s p) (port_at s' p).

Lemma synced_in_ack s got sent p : net_inv s got sent -> net_synced s -> valid N p -> in_ack (port_at s p) = OFF.
Proof.
  intros I Sy Hp. destruct (facing p) as [q|] eqn:Hf; [|by apply I].
  destruct (peer_facing _ _ width height p q Hp Hf) as (Hq & Hf' & _). by apply (Sy q p).
Qed.
Lemma port_cycle_refl (v : Port) : port_cycle v v.
Proof. by split; left. Qed.

(** Every node keeps its invariant. *)
Lemma cycles_inv g s got sent : net_inv s got sent -> net_synced s ->
  exists s', for_each (cycle_node NOC_WIDTH NOC_HEIGHT OS_PACKET_SIZE g) all_nodes s = Ok (tt, s') /\ net_shape N s' /\
    (forall n, node N n -> router_inv NOC_WIDTH NOC_BUFFER_SIZE n (rt s' n) (fun k => grown_got s s' got (RouterPort n k))
      (fun k => grown_sent s s' sent (RouterPort n k))) /\
    (forall n, node N n -> ni_inv OS_PACKET_SIZE (nif s' n) (fun k => grown_got s s' got (NIPort n k)) (fun k => grown_sent s s' sent (NIPort n k))) /\
    (forall n, crt s' n = crt s n) /\ (forall p, valid N p -> port_cycle (port_at s p) (port_at s' p)).
Proof.
  intros I Sy. pose proof (synced_in_ack s got sent) as A.
  assert (Rr : forall n, node N n -> exists r', router_cycle NOC_WIDTH NOC_HEIGHT n (rt s n) = Ok (tt, r') /\
    router_inv NOC_WIDTH NOC_BUFFER_SIZE n r' (fun k => got (RouterPort n k) ++ accepts (prt (rt s n) k) (prt r' k))
      (fun k => sent (RouterPort n k) ++ offers (prt (rt s n) k) (prt r' k)) /\ (forall k, place k -> port_cycle (prt (rt s n) k) (prt r' k))).
  { intros n Hn. apply router_cycle_inv; [done|by apply I|]. intros k Hk. by apply (A (RouterPort n k) I Sy). }
  assert (Rx : forall n, node N n -> exists x', ni_cycle OS_PACKET_SIZE (nif s n) = Ok (tt, x') /\
    ni_inv OS_PACKET_SIZE x' (fun k => got (NIPort n k) ++ accepts (nprt (nif s n) k) (nprt x' k))
      (fun k => sent (NIPort n k) ++ offers (nprt (nif s n) k) (nprt x' k)) /\ (forall k, side k -> port_cycle (nprt (nif s n) k) (nprt x' k))).
  { intros n Hn. apply ni_cycle_inv; [done|by apply I|]. intros k Hk. by apply (A (NIPort n k) I Sy). }
  destruct (cycles_run g all_nodes s all_nodes_NoDup all_nodes_in (nv_shape _ _ _ I)) as (s' & E & S' & C & O).
  { intros n Hn. pose proof (proj1 (list.Forall_forall _ _) all_nodes_in n Hn) as Hn'. split.
    - destruct (Rr n Hn') as (r' & E & (l & a & b & R) & _). exists r'. split; [done|apply R].
    - destruct (Rx n Hn') as (x' & E & (a & b & R) & _). exists x'. split; [done|apply R]. }
  exists s'. split; [done|]. split; [done|].
  assert (Kr : forall n, node N n -> router_inv NOC_WIDTH NOC_BUFFER_SIZE n (rt s' n) (fun k => grown_got s s' got (RouterPort n k))
      (fun k => grown_sent s s' sent (RouterPort n k)) /\ (forall k, place k -> port_cycle (prt (rt s n) k) (prt (rt s' n) k))).
  { intros n Hn. destruct (C n (all_nodes_all n Hn)) as [Cr _]. unfold grown_got, grown_sent. cbn [port_at]. destruct (slow g).
    - destruct (Rr n Hn) as (r' & Er & Ri & Rp). assert (r' = rt s' n) as -> by congruence. done.
    - rewrite Cr. split; [|intros; apply port_cycle_refl]. eapply router_inv_ext; [..|by apply I]; intros k Hk; cbn.
      + by rewrite accepts_same, app_nil_r.
      + by rewrite offers_same, app_nil_r. }
  assert (Kx : forall n, node N n -> ni_inv OS_PACKET_SIZE (nif s' n) (fun k => grown_got s s' got (NIPort n k)) (fun k => grown_sent s s' sent (NIPort n k)) /\
    (forall k, side k -> port_cycle (nprt (nif s n) k) (nprt (nif s' n) k))).
  { intros n Hn. destruct (C n (all_nodes_all n Hn)) as [_ Cx]. destruct (Rx n Hn) as (x' & Ex & Ri & Rp).
    assert (x' = nif s' n) as -> by congruence. done. }
  split_and!; [intros n Hn; by apply Kr|intros n Hn; by apply Kx|intros n; by apply O|].
  intros [n k|n k|n]; cbn [valid port_at]; [intros [Hn Hk]; by apply Kr|intros [Hn Hk]; by apply Kx|].
  intros Hn. rewrite (proj2 (O n)). apply port_cycle_refl.
Qed.

(** The links after the cycles and the processors' turns. *)
Lemma net_grown s s' got sent : net_inv s got sent -> net_synced s -> net_shape N s' ->
  (forall n, node N n -> router_inv NOC_WIDTH NOC_BUFFER_SIZE n (rt s' n) (fun k => grown_got s s' got (RouterPort n k))
      (fun k => grown_sent s s' sent (RouterPort n k))) ->
  (forall n, node N n -> ni_inv OS_PACKET_SIZE (nif s' n) (fun k => grown_got s s' got (NIPort n k)) (fun k => grown_sent s s' sent (NIPort n k))) ->
  (forall n, node N n -> flit_ok (in_ (port (crt s' n))) /\ flit_ok (out (port (crt s' n)))) ->
  (forall p, valid N p -> port_cycle (port_at s p) (port_at s' p)) -> net_inv s' (grown_got s s' got) (grown_sent s s' sent).
Proof.
  intros I Sy S' Kr Kx Kc P. split; try done; intros p.
  - intros q Hp Hf. destruct (nv_link _ _ _ I p q Hp Hf) as (l & Ph & El). destruct (peer_facing _ _ width height p q Hp Hf) as (Hq & _ & _).
    destruct (phase_cycle _ _ _ _ _ Ph (Sy p q Hp Hf) (proj1 (P p Hp)) (proj2 (P q Hq))) as (l' & Ph' & El'). exists l'. split; [done|].
    unfold grown_sent, grown_got. by rewrite El, <- !app_assoc, El'.
  - intros Hp Hf. destruct (nv_border _ _ _ I p Hp Hf) as [[B1 B2] B3]. destruct (P p Hp) as [_ [[= E1 E2 E3]|[E _]]]; [|by rewrite B1 in E].
    split; [split; congruence|]. unfold grown_got, accepts. by rewrite B3, E3, B2.
Qed.

(** ** The processors *)

(** A processor that waits has its flit on its port. *)
Definition sending_ok (m : mpsoc) n : Prop :=
  (zget (is_sending m) n = Some ON /\ out_request (port_at (net m) (CorePort n)) = ON) \/
  (zget (is_sending m) n = Some OFF /\ out_request (port_at (net m) (CorePort n)) = OFF).
Record mp_shape (m : mpsoc) : Prop := {
  mh_net : net_shape N (net m);
  mh_sending : zlen (is_sending m) = N;
  mh_remaining : zlen (flits_remaining m) = N;
  mh_mask : zlen (irq_mask m) = N;
  mh_status : zlen (irq_status m) = N;
  mh_counter : zlen (irq_counter m) = N;
}.
Lemma get_at_run (f : mpsoc -> list Z) m n : zlen (f m) = N -> node N n -> get_at f n m = Ok (default 0 (zget (f m) n), m).
Proof. intros Hl Hn. unfold get_at, gets, lift, mbind, ST_bind. by rewrite (aget_default _ n 0) by (unfold node in Hn; lia). Qed.

(** Steps that leave the network and [is_sending] alone. *)
Definition registers_only (m m' : mpsoc) : Prop := mp_shape m' /\ net m' = net m /\ is_sending m' = is_sending m.
Lemma registers_only_refl m : mp_shape m -> registers_only m m.
Proof. by split. Qed.
Lemma registers_only_trans m1 m2 m3 : registers_only m1 m2 -> registers_only m2 m3 -> registers_only m1 m3.
Proof. unfold registers_only. intros (? & -> & ->) (? & ? & ?). done. Qed.
Ltac register := intros S Hn; pose proof S as []; eexists; split;
  [unfold Mpsoc.set_remaining, set_irq_status, set_irq_mask, set_irq_counter, gets, modify, lift, mbind, ST_bind;
   rewrite aset_Ok by (unfold node in Hn; lia); reflexivity|split; [split; cbn; rewrite ?zset_zlen; done|done]].
Lemma set_remaining_reg m n v : mp_shape m -> node N n -> exists m', Mpsoc.set_remaining n v m = Ok (tt, m') /\ registers_only m m'.
Proof. register. Qed.
Lemma set_irq_status_reg m n v : mp_shape m -> node N n -> exists m', set_irq_status n v m = Ok (tt, m') /\ registers_only m m'.
Proof. register. Qed.
Lemma set_irq_mask_reg m n v : mp_shape m -> node N n -> exists m', set_irq_mask n v m = Ok (tt, m') /\ registers_only m m'.
Proof. register. Qed.
Lemma set_irq_counter_reg m n v : mp_shape m -> node N n -> exists m', set_irq_counter n v m = Ok (tt, m') /\ registers_only m m'.
Proof. register. Qed.

Lemma onnet_run {A : Type} m (f : ST network A) a s : f (net m) = Ok (a, s) -> onnet f m = Ok (a, with_net s m).
Proof. intros E. unfold onnet. by rewrite E. Qed.
Lemma with_net_same m : with_net (net m) m = m.
Proof. by destruct m. Qed.
Lemma core_get m n : mp_shape m -> node N n -> onnet (on_core n get_st) m = Ok (port_at (net m) (CorePort n), m).
Proof.
  intros S Hn. pose proof (load_port_run N (net m) (CorePort n) (mh_net _ S) Hn) as E. unfold load_port in E. cbn [on_ptr] in E.
  by rewrite (onnet_run m _ _ _ E), with_net_same.
Qed.
Lemma interface_get m n k : mp_shape m -> node N n -> side k -> onnet (on_ni n (ni_buffer k)) m = Ok (nbuf (nif (net m) n) k, m).
Proof.
  intros S Hn Hk. rewrite (onnet_run m _ (nbuf (nif (net m) n) k) (net m)); [by rewrite with_net_same|].
  rewrite (on_ni_run N _ n _ _ _ (mh_net _ S) Hn (ni_buffer_run _ k (ns_interface _ _ (mh_net _ S) n Hn) Hk)).
  by rewrite (nif_same N) by (done || apply S).
Qed.

Lemma noc_interrupt_run m n status : mp_shape m -> node N n ->
  exists m', noc_interrupt OS_PACKET_SIZE n status m = Ok (tt, m') /\ registers_only m m'.
Proof.
  intros S Hn. pose proof (registers_only_refl m S) as R0. unfold noc_interrupt. st_step (core_get m n S Hn).
  st_step (interface_get m n NOC S Hn ltac:(done)). st_step (get_at_run flits_remaining m n (mh_remaining _ S) Hn).
  destruct (_ && _); [|by exists m]. st_step (get_at_run irq_mask m n (mh_mask _ S) Hn). destruct (nz _); [|by exists m].
  destruct (status =? 1); [|by exists m]. destruct (set_remaining_reg m n (OS_PACKET_SIZE + 1) S Hn) as (m1 & E1 & R1). st_step E1.
  destruct (set_irq_counter_reg m1 n 2 (proj1 R1) Hn) as (m2 & E2 & R2). st_step E2.
  st_step (get_at_run irq_status m2 n (mh_status _ (proj1 R2)) Hn).
  destruct (set_irq_status_reg m2 n (Z.lor (default 0 (zget (irq_status m2) n)) IRQ_NOC_READ) (proj1 R2) Hn) as (m3 & E3 & R3).
  exists m3. split; [done|]. eauto using registers_only_trans.
Qed.
Lemma noc_interrupts_run status l : forall m, mp_shape m -> Forall (node N) l ->
  exists m', for_each (fun j => noc_interrupt OS_PACKET_SIZE j (status j)) l m = Ok (tt, m') /\ registers_only m m'.
Proof.
  induction l as [|n l IH]; intros m S Hl; [exists m; split; [done|by apply registers_only_refl]|].
  apply Forall_cons_iff in Hl as [Hn Hl]. destruct (noc_interrupt_run m n (status n) S Hn) as (m1 & E1 & R1).
  destruct (IH m1 (proj1 R1) Hl) as (m2 & E2 & R2). exists m2. split; [cbn [for_each]; by st_step E1|]. by eapply registers_only_trans.
Qed.

(** A step that changes the port of processor [n] from [v] to [v']. *)
Record core_step (m m' : mpsoc) n (v v' : Port) : Prop := {
  co_shape : mp_shape m';
  co_routers : routers (net m') = routers (net m);
  co_interfaces : network_interfaces (net m') = network_interfaces (net m);
  co_old : port_at (net m) (CorePort n) = v;
  co_new : port_at (net m') (CorePort n) = v';
  co_cores : forall j, j <> n -> crt (net m') j = crt (net m) j;
  co_sending : forall j, j <> n -> zget (is_sending m') j = zget (is_sending m) j;
}.
Lemma registers_core m m' n : registers_only m m' -> core_step m m' n (port_at (net m) (CorePort n)) (port_at (net m) (CorePort n)).
Proof. intros (S & E1 & E2). split; rewrite ?E1, ?E2; done. Qed.
Lemma core_step_trans m1 m2 m3 n v1 v2 v3 : core_step m1 m2 n v1 v2 -> core_step m2 m3 n v2 v3 -> core_step m1 m3 n v1 v3.
Proof.
  intros [S1 R1 I1 O1 N1 C1 D1] [S2 R2 I2 O2 N2 C2 D2]. split; try congruence; intros j Hj; [rewrite C2, C1|rewrite D2, D1]; done.
Qed.
Lemma core_port m m' n v v' : core_step m m' n v v' -> forall p, p <> CorePort n -> port_at (net m') p = port_at (net m) p.
Proof.
  intros [S R I _ _ C _] [j k|j k|j] Hp; cbn [port_at]; unfold rt, nif; [by rewrite R|by rewrite I|]. rewrite C; congruence.
Qed.
Lemma core_set m n (f : Port -> Port) : mp_shape m -> node N n -> exists m', onnet (on_core n (modify f)) m = Ok (tt, m') /\
  core_step m m' n (port_at (net m) (CorePort n)) (f (port_at (net m) (CorePort n))) /\ is_sending m' = is_sending m.
Proof.
  intros S Hn. pose proof (on_core_run N (net m) n (modify f) _ _ (mh_net _ S) Hn eq_refl) as E. eexists. split; [by apply onnet_run|].
  split; [|done]. pose proof S as []. split; cbn [net with_net with_cores routers network_interfaces is_sending]; try done.
  - split; cbn; try done. by apply net_shape_core.
  - cbn [port_at]. by rewrite (crt_set N), decide_True.
  - intros j Hj. by rewrite (crt_set N), decide_False.
Qed.
Lemma sending_set m n v : mp_shape m -> node N n -> exists m', set_sending n v m = Ok (tt, m') /\
  core_step m m' n (port_at (net m) (CorePort n)) (port_at (net m) (CorePort n)) /\ zget (is_sending m') n = Some v /\ net m' = net m.
Proof.
  intros S Hn. pose proof S as []. unfold set_sending, gets, modify, lift, mbind, ST_bind. rewrite aset_Ok by (unfold node in Hn; lia).
  eexists. split; [done|]. cbn [net with_sending is_sending]. split; [|split; [|done]].
  - split; cbn; try done; [split; cbn; rewrite ?zset_zlen; done|]. intros j Hj. by rewrite zget_zset_ne.
  - rewrite zget_zset_eq; [done|unfold node in Hn; lia].
Qed.

Definition mp_inv (m : mpsoc) got sent : Prop := mp_shape m /\ net_inv (net m) got sent /\ forall n, node N n -> sending_ok m n.

Lemma sending_other m m' n v v' j : core_step m m' n v v' -> j <> n -> sending_ok m j -> sending_ok m' j.
Proof.
  intros C Hj. unfold sending_ok. rewrite (co_sending _ _ _ _ _ C j Hj), (core_port _ _ _ _ _ C) by congruence. done.
Qed.

(** A processor's outgoing side may change as long as its link agrees. *)
Lemma net_core m m' n v v' got sent : core_step m m' n v v' -> node N n -> net_inv (net m) got sent -> ins v' = ins v -> flit_ok (out v') ->
  (forall (x : Port) l, phase v x l -> phase v' x l) -> net_inv (net m') got sent.
Proof.
  intros C Hn I Ei Fo Ph. pose proof (co_old _ _ _ _ _ C) as Eo. pose proof (co_new _ _ _ _ _ C) as En.
  assert (P : forall p, outs (port_at (net m') p) = outs (port_at (net m) p) \/ p = CorePort n).
  { intros p. destruct (decide (p = CorePort n)) as [|Hp]; [by right|left]. by rewrite (core_port _ _ _ _ _ C p Hp). }
  assert (Q : forall p, ins (port_at (net m') p) = ins (port_at (net m) p)).
  { intros p. destruct (decide (p = CorePort n)) as [->|Hp]; [by rewrite En, Eo|]. by rewrite (core_port _ _ _ _ _ C p Hp). }
  split; [apply C|..].
  - intros j Hj. unfold rt. rewrite (co_routers _ _ _ _ _ C). by apply I.
  - intros j Hj. unfold nif. rewrite (co_interfaces _ _ _ _ _ C). by apply I.
  - intros j Hj. destruct (decide (j = n)) as [->|Hne]; [|rewrite (co_cores _ _ _ _ _ C) by done; by apply I]. cbn [port_at] in *.
    rewrite En. split; [|done]. injection Ei as -> _ _. rewrite <- Eo. by apply I.
  - intros p q Hp Hf. destruct (nv_link _ _ _ I p q Hp Hf) as (l & Pl & El). exists l. split; [|done].
    destruct (P p) as [Op| ->]; [by apply (phase_ext _ _ _ _ _ Op (Q q))|]. rewrite En. rewrite Eo in Pl.
    apply (phase_ext v' _ (port_at (net m) q)); [done|apply Q|by apply Ph].
  - intros p Hp Hf. destruct (nv_border _ _ _ I p Hp Hf) as [B ?]. split; [|done]. specialize (Q p). unfold ins in Q. injection Q as _ -> ->. done.
Qed.

Lemma clear_sent_inv m n got sent : mp_inv m got sent -> node N n -> exists m', clear_sent n m = Ok (tt, m') /\ mp_inv m' got sent.
Proof.
  intros (S & I & D) Hn. unfold clear_sent. st_step (get_at_run is_sending m n (mh_sending _ S) Hn).
  destruct (D n Hn) as [[E Q]|[E Q]]; rewrite E; cbn [default from_option id]; [|by exists m]. change (ON =? ON) with true. cbv iota.
  st_step (core_get m n S Hn). set (v := port_at (net m) (CorePort n)) in *. destruct (Z.eqb_spec (out_ack v) ON) as [A|_]; [|by exists m].
  destruct (core_set m n (set_out 0 OFF OFF) S Hn) as (m1 & E1 & C1 & D1). st_step E1. fold v in C1.
  destruct (sending_set m1 n OFF (co_shape _ _ _ _ _ C1) Hn) as (m2 & E2 & C2 & D2 & N2). exists m2. split; [exact E2|].
  rewrite (co_new _ _ _ _ _ C1) in C2. pose proof (core_step_trans _ _ _ _ _ _ _ C1 C2) as C.
  split; [apply C|]. split.
  - apply (net_core m m2 n v _ got sent C Hn I); [done..|]. intros q l P.
    destruct P; try (by match goal with X : out_ack v = OFF |- _ => rewrite X in A end). by apply ph_idle.
  - intros j Hj. destruct (decide (j = n)) as [->|Hne]; [|eapply sending_other; eauto]. right. split; [done|]. by rewrite (co_new _ _ _ _ _ C).
Qed.
Lemma clear_all_inv l got sent : forall m, mp_inv m got sent -> Forall (node N) l ->
  exists m', for_each clear_sent l m = Ok (tt, m') /\ mp_inv m' got sent.
Proof.
  induction l as [|n l IH]; intros m I Hl; [by exists m|]. apply Forall_cons_iff in Hl as [Hn Hl].
  destruct (clear_sent_inv m n got sent I Hn) as (m1 & E1 & I1). destruct (IH m1 I1 Hl) as (m2 & E2 & I2).
  exists m2. split; [cbn [for_each]; by st_step E1|done].
Qed.

(** *** The turn of a processor *)
Definition core_turn (m m' : mpsoc) n : Prop := exists v v', core_step m m' n v v' /\ port_cycle v v' /\ in_ v' = in_ v /\
  (flit_ok (out v) -> flit_ok (out v')) /\ sending_ok m' n.
Lemma registers_turn m m' n : registers_only m m' -> sending_ok m n -> core_turn m m' n.
Proof.
  intros R D. exists (port_at (net m) (CorePort n)), (port_at (net m) (CorePort n)). split; [by apply registers_core|].
  split; [apply port_cycle_refl|]. split_and!; [done..|]. destruct R as (_ & E1 & E2). unfold sending_ok. by rewrite E1, E2.
Qed.
Lemma sending_kept m m' n v v' : core_step m m' n v v' -> is_sending m' = is_sending m -> out_request v' = out_request v ->
  sending_ok m n -> sending_ok m' n.
Proof. unfold sending_ok. intros C -> E. by rewrite (co_new _ _ _ _ _ C), (co_old _ _ _ _ _ C), E. Qed.

Lemma noc_read_run m n : mp_shape m -> node N n -> sending_ok m n ->
  exists v m', noc_read OS_PACKET_SIZE n m = Ok (v, m') /\ core_turn m m' n.
Proof.
  intros S Hn D. unfold noc_read. st_step (get_at_run irq_status m n (mh_status _ S) Hn).
  assert (E0 : exists m1, (if nz (Z.land (default 0 (zget (irq_status m) n)) IRQ_NOC_READ)
      then set_irq_status n (Z.land (default 0 (zget (irq_status m) n)) (u32 (Z.lnot IRQ_NOC_READ))) else mret tt) m = Ok (tt, m1) /\
      registers_only m m1).
  { destruct (nz _); [by apply set_irq_status_reg|]. exists m. split; [done|by apply registers_only_refl]. }
  destruct E0 as (m1 & E1 & R1). st_step E1. pose proof (proj1 R1) as S1. pose proof R1 as (_ & En1 & Es1).
  st_step (get_at_run flits_remaining m1 n (mh_remaining _ S1) Hn). set (k := default 0 (zget (flits_remaining m1) n)).
  destruct (k =? OS_PACKET_SIZE + 1).
  { destruct (set_remaining_reg m1 n (i32 (k - 1)) S1 Hn) as (m2 & E2 & R2). st_step E2. exists 0, m2. split; [done|].
    apply registers_turn; [by eapply registers_only_trans|done]. }
  st_step (core_get m1 n S1 Hn). rewrite En1. destruct (Z.eqb_spec (in_request (port_at (net m) (CorePort n))) ON) as [Q|_].
  2: { eexists _, m1. split; [done|]. by apply registers_turn. }
  destruct (core_set m1 n (set_in_ack ON) S1 Hn) as (m2 & E2 & C2 & D2). st_step E2.
  destruct (set_remaining_reg m2 n (i32 (k - 1)) (co_shape _ _ _ _ _ C2) Hn) as (m3 & E3 & R3). st_step E3.
  eexists _, m3. split; [done|]. rewrite En1 in C2. set (v := port_at (net m) (CorePort n)) in *. exists v, (set_in_ack ON v).
  pose proof (registers_core _ _ n R3) as C3. rewrite (co_new _ _ _ _ _ C2) in C3.
  pose proof (core_step_trans _ _ _ _ _ _ _ (registers_core _ _ n R1) (core_step_trans _ _ _ _ _ _ _ C2 C3)) as C.
  split; [exact C|]. split; [split; [by left|by right]|]. split_and!; [done..|].
  eapply sending_kept; [exact C| |done|done]. destruct R3 as (_ & _ & ->). by rewrite D2.
Qed.

Lemma noc_write_run m n v : mp_shape m -> node N n -> out_request (port_at (net m) (CorePort n)) = OFF ->
  exists m', noc_write n v m = Ok (tt, m') /\ core_turn m m' n.
Proof.
  intros S Hn Q. unfold noc_write. destruct (sending_set m n ON S Hn) as (m1 & E1 & C1 & D1 & N1). st_step E1.
  destruct (core_set m1 n (set_out (u16 v) ON OFF) (co_shape _ _ _ _ _ C1) Hn) as (m2 & E2 & C2 & D2). exists m2. split; [exact E2|].
  rewrite N1 in C2. set (x := port_at (net m) (CorePort n)) in *. exists x, (set_out (u16 v) ON OFF x).
  pose proof (core_step_trans _ _ _ _ _ _ _ C1 C2) as C. split; [exact C|]. split; [split; [|by left]|].
  - right. left. unfold pending. rewrite Q. split; [done|]. by eexists.
  - split; [done|]. split; [intros _; apply u16_range|]. left. by rewrite D2, (co_new _ _ _ _ _ C).
Qed.

Lemma turn_run m n a : mp_shape m -> node N n -> sending_ok m n -> exists v m', turn OS_PACKET_SIZE n a m = Ok (v, m') /\ core_turn m m' n.
Proof.
  intros S Hn D. unfold turn. st_step (get_at_run is_sending m n (mh_sending _ S) Hn).
  assert (T : core_turn m m n) by (by apply registers_turn; [apply registers_only_refl|]).
  destruct D as [[E Q]|[E Q]] eqn:Ed; rewrite E; cbn [default from_option id]; [by eexists _, m|]. change (OFF =? OFF) with true. cbv iota.
  destruct a as [| |v| |v].
  - by eexists _, m.
  - apply noc_read_run; [done..|by right].
  - destruct (noc_write_run m n v S Hn Q) as (m' & E' & T'). eexists _, m'. split; [by st_step E'|done].
  - unfold noc_status. st_step (interface_get m n PLASMA S Hn ltac:(done)). by eexists _, m.
  - destruct (set_irq_mask_reg m n (u32 v) S Hn) as (m' & E' & R'). eexists _, m'. split; [by st_step E'|]. apply registers_turn; [done|by right].
Qed.

(** All processors, from number [j] on. *)
Lemma turns_run l : forall j m, 0 <= j -> j + zlen l <= N -> mp_shape m -> (forall n, node N n -> sending_ok m n) ->
  (forall n, node N n -> flit_ok (in_ (port (crt (net m) n))) /\ flit_ok (out (port (crt (net m) n)))) ->
  exists vs m', turns OS_PACKET_SIZE j l m = Ok (vs, m') /\ mp_shape m' /\ routers (net m') = routers (net m) /\
    network_interfaces (net m') = network_interfaces (net m) /\ (forall n, node N n -> sending_ok m' n) /\
    (forall n, node N n -> flit_ok (in_ (port (crt (net m') n))) /\ flit_ok (out (port (crt (net m') n)))) /\
    (forall n, node N n -> port_cycle (port (crt (net m) n)) (port (crt (net m') n))) /\
    (forall n, n < j -> crt (net m') n = crt (net m) n).
Proof.
  induction l as [|a l IH]; intros j m Hj Hl S D F.
  { exists [], m. split_and!; try done. intros. apply port_cycle_refl. }
  rewrite zlen_cons in Hl. pose proof (zlen_nonneg l). assert (Hn : node N j) by (unfold node; lia).
  destruct (turn_run m j a S Hn (D j Hn)) as (v & m1 & E1 & x & x' & C & P & Ei & Eo & D1).
  pose proof (co_old _ _ _ _ _ C) as Co. pose proof (co_new _ _ _ _ _ C) as Cn. cbn [port_at] in Co, Cn.
  destruct (IH (j + 1) m1) as (vs & m2 & E2 & S2 & R2 & I2 & D2 & F2 & P2 & K2); [lia|lia|apply C| | |].
  { intros n Hn'. destruct (decide (n = j)) as [->|Hne]; [done|]. eapply sending_other; eauto. }
  { intros n Hn'. destruct (decide (n = j)) as [->|Hne]; [|rewrite (co_cores _ _ _ _ _ C) by done; by apply F].
    rewrite Cn, Ei. subst x. split; [by apply F|apply Eo; by apply F]. }
  exists (v :: vs), m2. split; [cbn [turns]; st_step E1; by st_step E2|]. split_and!; [done| | |done|done| |].
  - by rewrite R2, (co_routers _ _ _ _ _ C).
  - by rewrite I2, (co_interfaces _ _ _ _ _ C).
  - intros n Hn'. destruct (decide (n = j)) as [->|Hne]; [rewrite (K2 j) by lia; by rewrite Cn, Co|].
    rewrite <- (co_cores _ _ _ _ _ C n Hne). by apply P2.
  - intros n Hn'. rewrite K2 by lia. apply (co_cores _ _ _ _ _ C). lia.
Qed.

(** ** Turns of the main loop *)
Lemma handshakes_inv m got sent status : mp_inv m got sent ->
  exists m', handshakes NOC_WIDTH NOC_HEIGHT OS_PACKET_SIZE status m = Ok (tt, m') /\ mp_inv m' got sent /\ net_synced (net m').
Proof.
  intros (S & I & D). destruct (noc_interrupts_run status all_nodes m S all_nodes_in) as (m1 & E1 & S1 & N1 & D1).
  assert (I1 : mp_inv m1 got sent).
  { split; [done|]. rewrite N1. split; [done|]. intros n Hn. unfold sending_ok. rewrite N1, D1. by apply D. }
  destruct (clear_all_inv all_nodes got sent m1 I1 all_nodes_in) as (m2 & E2 & S2 & I2 & D2).
  destruct (synchronize_inv (net m2) got sent I2) as (s & E3 & I3 & Sy & Q). exists (with_net s m2). split; [|split; [|done]].
  - unfold handshakes. st_step E1. st_step E2. by apply onnet_run.
  - split; [destruct S2; split; cbn; try done; apply I3|]. split; [done|]. intros n Hn. unfold sending_ok. cbn [net with_net is_sending].
    rewrite Q by done. by apply D2.
Qed.

Lemma round_inv m got sent g status l : mp_inv m got sent -> zlen l <= N ->
  exists m1 vs m2, handshakes NOC_WIDTH NOC_HEIGHT OS_PACKET_SIZE status m = Ok (tt, m1) /\
    cycles NOC_WIDTH NOC_HEIGHT OS_PACKET_SIZE g l m1 = Ok (vs, m2) /\
    mp_inv m2 (grown_got (net m1) (net m2) got) (grown_sent (net m1) (net m2) sent).
Proof.
  intros I Hl. destruct (handshakes_inv m got sent status I) as (m1 & E1 & (S1 & I1 & D1) & Sy).
  destruct (cycles_inv g (net m1) got sent I1 Sy) as (s & E2 & Ss & Kr & Kx & Kc & Kp).
  set (m2 := with_net s m1). assert (S2 : mp_shape m2) by (destruct S1; by split).
  assert (D2 : forall n, node N n -> sending_ok m2 n).
  { intros n Hn. specialize (D1 n Hn). unfold sending_ok in *. cbn [net with_net is_sending m2 port_at] in *. by rewrite Kc. }
  destruct (turns_run l 0 m2) as (vs & m3 & E3 & S3 & R3 & X3 & D3 & F3 & P3 & _); [lia|lia|done|done| |].
  { intros n Hn. unfold m2. cbn [net with_net]. rewrite Kc. by apply I1. }
  exists m1, vs, m3. split; [done|]. split.
  { unfold cycles. rewrite (ST_bind_Ok _ _ _ tt m2 (onnet_run m1 _ _ _ E2)). exact E3. }
  assert (Er : forall n, rt (net m3) n = rt s n) by (intros n; unfold rt; by rewrite R3).
  assert (Ex : forall n, nif (net m3) n = nif s n) by (intros n; unfold nif; by rewrite X3).
  split; [done|]. split; [|done]. apply net_grown; [done..|apply S3| | |done|].
  - intros n Hn. unfold grown_got, grown_sent. cbn [port_at]. rewrite !Er. by apply Kr.
  - intros n Hn. unfold grown_got, grown_sent. cbn [port_at]. rewrite !Ex. by apply Kx.
  - intros [n k|n k|n] Hp; cbn [port_at]; [rewrite Er; by apply (Kp (RouterPort n k))|rewrite Ex; by apply (Kp (NIPort n k))|].
    specialize (P3 n Hp). unfold m2 in P3. cbn [net with_net] in P3. by rewrite Kc in P3.
Qed.

Lemma start_at {A : Type} (n : nat) (x d : A) i : 0 <= i < Z.of_nat n -> default d (zget (replicate n x) i) = x.
Proof. intros Hi. unfold zget. destruct (Z.ltb_spec i 0); [lia|]. by rewrite lookup_replicate_2 by lia. Qed.

Lemma start_inv garbage : mp_inv (mpsoc_start NOC_WIDTH NOC_HEIGHT NOC_BUFFER_SIZE OS_PACKET_SIZE garbage) (fun _ => []) (fun _ => []).
Proof.
  set (m := mpsoc_start _ _ _ _ _). assert (Np : 0 < N) by (unfold N_CORES; nia).
  assert (L : forall (A : Type) (x : A), zlen (replicate (Z.to_nat N) x) = N) by (intros; unfold zlen; rewrite length_replicate; lia).
  assert (Er : forall n, node N n -> rt (net m) n = load_router NOC_BUFFER_SIZE garbage) by (intros n Hn; apply start_at; unfold node in Hn; lia).
  assert (Ex : forall n, node N n -> nif (net m) n = load_interface OS_PACKET_SIZE garbage) by (intros n Hn; apply start_at; unfold node in Hn; lia).
  assert (Ec : forall n, node N n -> crt (net m) n = Core_ cleanPort) by (intros n Hn; apply start_at; unfold node in Hn; lia).
  assert (Sh : net_shape N (net m)).
  { split; try apply L; intros n Hn; [rewrite Er by done; by split|rewrite Ex by done; by split]. }
  assert (P : forall p, valid N p -> port_at (net m) p = cleanPort).
  { intros [n k|n k|n]; cbn [valid port_at].
    - intros [Hn Hk]. rewrite Er by done. unfold prt. by apply (start_at 5).
    - intros [Hn Hk]. rewrite Ex by done. unfold nprt. by apply (start_at 2).
    - intros Hn. by rewrite Ec. }
  split; [split; try apply L; done|]. split; [split; [done|..]|].
  - intros n Hn. rewrite Er by done. by apply router_loaded.
  - intros n Hn. rewrite Ex by done. by apply ni_loaded.
  - intros n Hn. by rewrite Ec.
  - intros p q Hp Hf. destruct (peer_facing _ _ width height p q Hp Hf) as (Hq & _). exists []. split; [|done]. rewrite !P by done. by constructor.
  - intros p Hp _. by rewrite P.
  - intros n Hn. right. rewrite P by done. split; [|done]. cbn. unfold zget, node in *. destruct (Z.ltb_spec n 0); [lia|].
    by rewrite lookup_replicate_2 by lia.
Qed.
End net.

(** The states the main loop reaches, with what every port took and offered. *)
Inductive mpsoc_run (w h b o : Z) (garbage : Z -> Z) : mpsoc -> (port_ptr -> list Z) -> (port_ptr -> list Z) -> Prop :=
| run_start : mpsoc_run w h b o garbage (mpsoc_start w h b o garbage) (fun _ => []) (fun _ => [])
| run_round m got sent g status l m1 vs m2 : mpsoc_run w h b o garbage m got sent -> zlen l <= N_CORES w h ->
    handshakes w h o status m = Ok (tt, m1) -> cycles w h o g l m1 = Ok (vs, m2) ->
    mpsoc_run w h b o garbage m2 (grown_got (net m1) (net m2) got) (grown_sent (net m1) (net m2) sent).

Lemma run_inv w h b o garbage m got sent : 2 <= w -> 2 <= h -> cap_ok b -> cap_ok o -> mpsoc_run w h b o garbage m got sent ->
  mp_inv w h b o m got sent.
Proof.
  intros Hw Hh Hb Ho R. induction R as [|m got sent g status l m1 vs m2 R IH Hl E1 E2]; [by apply start_inv|].
  destruct (round_inv w h b o Hw Hh Hb Ho m got sent g status l IH Hl) as (m1' & vs' & m2' & E1' & E2' & I). congruence.
Qed.
