(* ===== verification/NocDelivery.v ===== *)
(** * Delivery in the MPSoC simulator's network

    What the invariant of [NocNet] means for packets: the routers lead a packet
    along its row and then its column to the node its header names, and every
    packet a processor reads was written, flit for flit, by a processor. *)

From S2P Require Import Prelude Words NocSim Mpsoc NocRouter NocInterface NocLinks NocNet.

#[local] Open Scope Z_scope.

(** ** Packets in a sequence of flits *)
Section packets_in.
Implicit Types (k s part : list Z) (ks : list (list Z)).

(** The complete packets at the head of a sequence. *)
Fixpoint packets_in (fuel : nat) s : list (list Z) :=
  match fuel, s with
  | S fuel, h :: z :: l =>
      if (0 <=? z) && (z <=? zlen l) then (h :: z :: take (Z.to_nat z) l) :: packets_in fuel (drop (Z.to_nat z) l) else []
  | _, _ => []
  end.
Definition packets_of s : list (list Z) := packets_in (length s) s.

Lemma packets_in_S f h z l : packets_in (S f) (h :: z :: l) =
  if (0 <=? z) && (z <=? zlen l) then (h :: z :: take (Z.to_nat z) l) :: packets_in f (drop (Z.to_nat z) l) else [].
Proof. done. Qed.
Lemma packets_in_fuel f1 f2 s : (length s <= f1)%nat -> (length s <= f2)%nat -> packets_in f1 s = packets_in f2 s.
Proof.
  revert f2 s. induction f1 as [|f1 IH]; intros [|f2] [|h [|z l]]; try done; cbn [length]; try lia.
  intros H1 H2. rewrite !packets_in_S. destruct (_ && _); [|done]. f_equal. apply IH; rewrite length_drop; lia.
Qed.
Lemma packets_of_cons h z l : 0 <= z <= zlen l -> packets_of (h :: z :: l) = (h :: z :: take (Z.to_nat z) l) :: packets_of (drop (Z.to_nat z) l).
Proof.
  intros Hz. unfold packets_of. cbn [length]. rewrite packets_in_S. destruct (Z.leb_spec 0 z), (Z.leb_spec z (zlen l)); try lia. cbn [andb]. f_equal.
  apply packets_in_fuel; rewrite length_drop; lia.
Qed.
Lemma packets_of_packet k s : packet_ok k -> packets_of (k ++ s) = k :: packets_of s.
Proof.
  intros (h & z & pl & -> & <-). cbn [app]. pose proof (zlen_nonneg s). rewrite packets_of_cons by (rewrite zlen_app; unfold zlen; lia).
  unfold zlen. by rewrite !Nat2Z.id, take_app_length, drop_app_length.
Qed.
Lemma packets_of_concat ks s : Forall packet_ok ks -> packets_of (concat ks ++ s) = ks ++ packets_of s.
Proof.
  induction 1 as [|k ks Hk _ IH]; [done|]. cbn [concat]. by rewrite <- app_assoc, packets_of_packet, IH.
Qed.
(** More flits, more packets. *)
Lemma packets_of_more s s' k : k ∈ packets_of s -> k ∈ packets_of (s ++ s').
Proof.
  remember (length s) as n eqn:En. revert s En. induction (lt_wf n) as [n _ IH]. intros [|h [|z l]] En; try (by intros ?%list.elem_of_nil).
  unfold packets_of at 1. cbn [length]. rewrite packets_in_S. destruct (Z.leb_spec 0 z), (Z.leb_spec z (zlen l)); cbn [andb]; try (by intros ?%list.elem_of_nil).
  cbn [app]. rewrite (packets_of_cons h z (l ++ s')) by (rewrite zlen_app; pose proof (zlen_nonneg s'); lia).
  unfold zlen in *. rewrite take_app_le, drop_app_le by lia. intros [->|Hk]%list.elem_of_cons; [by apply list.elem_of_cons; left|].
  apply list.elem_of_cons; right. apply (IH (length (drop (Z.to_nat z) l))); [rewrite length_drop; cbn in En; lia|done|].
  unfold packets_of. erewrite packets_in_fuel; [exact Hk|lia|rewrite length_drop; lia].
Qed.
Lemma packets_of_prefix s s' k : s `prefix_of` s' -> k ∈ packets_of s -> k ∈ packets_of s'.
Proof. intros [l ->]. apply packets_of_more. Qed.
Lemma packets_of_ok s k : k ∈ packets_of s -> packet_ok k.
Proof.
  remember (length s) as n eqn:En. revert s En. induction (lt_wf n) as [n _ IH]. intros [|h [|z l]] En; try (by intros ?%list.elem_of_nil).
  unfold packets_of. cbn [length]. rewrite packets_in_S. destruct (Z.leb_spec 0 z), (Z.leb_spec z (zlen l)); cbn [andb]; try (by intros ?%list.elem_of_nil).
  intros [->|Hk]%list.elem_of_cons.
  - exists h, z, (take (Z.to_nat z) l). split; [done|]. unfold zlen in *. rewrite length_take. lia.
  - apply (IH (length (drop (Z.to_nat z) l)) ltac:(rewrite length_drop; cbn in En; lia) _ eq_refl).
    unfold packets_of. erewrite packets_in_fuel; [exact Hk|lia|rewrite length_drop; lia].
Qed.
End packets_in.

(** ** The way of a packet *)
Section ways.
Variables (NOC_WIDTH NOC_HEIGHT : Z).
Hypothesis width : 2 <= NOC_WIDTH.
Hypothesis height : 2 <= NOC_HEIGHT.
Implicit Types (n m d h x : Z).
#[local] Abbreviation N := (N_CORES NOC_WIDTH NOC_HEIGHT).
#[local] Abbreviation line := (GET_LINE NOC_WIDTH).
#[local] Abbreviation column := (GET_COLUMN NOC_WIDTH).
#[local] Abbreviation facing := (peer NOC_WIDTH NOC_HEIGHT).

Definition distance n x : Z := Z.abs (line n - line x) + Z.abs (column n - column x).
Lemma header_node h : 0 <= headerToDecimal NOC_WIDTH h.
Proof. unfold headerToDecimal. apply u32_range. Qed.
Lemma place_of x : 0 <= x -> x = NOC_WIDTH * line x + column x.
Proof. intros Hx. unfold GET_LINE, GET_COLUMN. rewrite cdiv_nonneg, cmod_nonneg by lia. apply Z.div_mod. lia. Qed.

(** A packet stays where its header leads. *)
Lemma goes_local n h : node N n -> goes NOC_WIDTH n h = Some LOCAL <-> headerToDecimal NOC_WIDTH h = n.
Proof.
  intros Hn. pose proof (place_of _ (header_node h)) as Ex. pose proof (place_of n ltac:(unfold node in Hn; lia)) as En.
  unfold goes, route. set (x := headerToDecimal NOC_WIDTH h) in *. split.
  - destruct (Z.eqb_spec (line n) (line x)) as [El|], (Z.eqb_spec (column n) (column x)) as [Ec|]; cbn [andb]; [by rewrite Ex, En, El, Ec|..];
      repeat match goal with |- (if ?b then _ else _) = _ -> _ => destruct b end; done.
  - intros ->. by rewrite !Z.eqb_refl.
Qed.

(** The next node for a header. *)
Definition hop h n : Z :=
  match goes NOC_WIDTH n h with
  | Some d => match facing (RouterPort n d) with Some (RouterPort m _) => m | _ => n end
  | None => n
  end.
(** The step towards [x]: along the row, then along the column. *)
Definition step_to x n : Z :=
  if column n <? column x then n + 1 else if column x <? column n then n - 1
  else if line x <? line n then n - NOC_WIDTH else if line n <? line x then n + NOC_WIDTH else n.
Lemma hop_step h n : node N n -> line (headerToDecimal NOC_WIDTH h) < NOC_HEIGHT -> hop h n = step_to (headerToDecimal NOC_WIDTH h) n.
Proof.
  intros Hn Hh. destruct (coordinates _ _ width n Hn) as (_ & Hl & Hc). unfold hop, goes, route, step_to. pose proof (header_node h) as Hx0.
  set (x := headerToDecimal NOC_WIDTH h) in *. assert (Hx : 0 <= line x /\ 0 <= column x < NOC_WIDTH).
  { unfold GET_LINE, GET_COLUMN. rewrite cdiv_nonneg, cmod_nonneg by lia. split; [apply Z.div_pos; lia|apply Z.mod_pos_bound; lia]. }
  destruct (Z.ltb_spec (column n) (column x)), (Z.ltb_spec (column x) (column n)), (Z.ltb_spec (line x) (line n)), (Z.ltb_spec (line n) (line x)),
    (Z.eqb_spec (line n) (line x)), (Z.eqb_spec (column n) (column x)); try lia; cbn [andb peer Z.eqb Pos.eqb EAST WEST NORTH SOUTH LOCAL];
    try done;
    first [destruct (Z.eqb_spec (column n) (NOC_WIDTH - 1)); [lia|done] | destruct (Z.eqb_spec (column n) 0); [lia|done]
      | destruct (Z.eqb_spec (line n) 0); [lia|done] | destruct (Z.eqb_spec (line n) (NOC_HEIGHT - 1)); [lia|done]].
Qed.

Lemma header_of t : NOC_WIDTH <= 16 -> NOC_HEIGHT <= 16 -> node N t -> headerToDecimal NOC_WIDTH (decimalToHeader NOC_WIDTH t) = t.
Proof.
  intros Hw Hh Ht. destruct (coordinates _ _ width t Ht) as (Et & Hl & Hc). unfold headerToDecimal, decimalToHeader.
  rewrite lor_shiftl_add by (pow_norm; lia). change (2 ^ 4) with 16. rewrite (land_ones_eq _ 0x0f 4) by done. change 0xf0 with (Z.shiftl (Z.ones 4) 4).
  rewrite land_field by lia. rewrite Z.shiftr_div_pow2 by lia. change (2 ^ 4) with 16. rewrite Z.div_mul by lia.
  replace ((column t * 16 + line t) mod 16) with (line t) by (Z.div_mod_to_equations; lia).
  replace ((column t * 16 + line t) / 16) with (column t) by (Z.div_mod_to_equations; lia).
  rewrite (Z.mod_small (column t)) by lia. rewrite (u32_small (line t * NOC_WIDTH)) by nia. rewrite u32_small by nia. lia.
Qed.

Lemma step_to_position x n : node N n -> node N x -> node N (step_to x n) /\
  if decide (column n = column x) then column (step_to x n) = column n /\ Z.abs (line (step_to x n) - line x) = Z.max 0 (Z.abs (line n - line x) - 1)
  else line (step_to x n) = line n /\ Z.abs (column (step_to x n) - column x) = Z.abs (column n - column x) - 1.
Proof.
  intros Hn Hx. destruct (coordinates _ _ width n Hn) as (En & Hl & Hc), (coordinates _ _ width x Hx) as (Ex & Hlx & Hcx). unfold step_to.
  pose proof (node_at NOC_WIDTH NOC_HEIGHT width height) as At.
  destruct (decide _) as [E|E]; destruct (Z.ltb_spec (column n) (column x)), (Z.ltb_spec (column x) (column n)); try lia.
  - destruct (Z.ltb_spec (line x) (line n)); [|destruct (Z.ltb_spec (line n) (line x)); [|split; [done|split; lia]]].
    + destruct (At (n - NOC_WIDTH) (line n - 1) (column n)) as (? & -> & ->); [lia..|]. split; [done|split; lia].
    + destruct (At (n + NOC_WIDTH) (line n + 1) (column n)) as (? & -> & ->); [lia..|]. split; [done|split; lia].
  - destruct (At (n + 1) (line n) (column n + 1)) as (? & -> & ->); [lia..|]. split; [done|split; lia].
  - destruct (At (n - 1) (line n) (column n - 1)) as (? & -> & ->); [lia..|]. split; [done|split; lia].
Qed.

(** Where a packet is after [k] hops: first it moves along its row. *)
Definition on_way (a t : Z) (k : nat) n : Prop := let dx := Z.abs (column a - column t) in
  if Z.of_nat k <=? dx then line n = line a /\ Z.abs (column n - column t) = dx - Z.of_nat k
  else column n = column t /\ Z.abs (line n - line t) = distance a t - Z.of_nat k.

Lemma hops_way h t a : headerToDecimal NOC_WIDTH h = t -> node N t -> node N a -> forall k, Z.of_nat k <= distance a t ->
  node N (Nat.iter k (hop h) a) /\ on_way a t k (Nat.iter k (hop h) a).
Proof.
  intros Eh Ht Ha. destruct (coordinates _ _ width t Ht) as (_ & Hl & _). induction k as [|k IH]; intros Hk.
  { cbn. split; [done|]. unfold on_way. destruct (Z.leb_spec (Z.of_nat 0) (Z.abs (column a - column t))); [split; [done|]|]; lia. }
  destruct IH as [Hn W]; [lia|]. change (Nat.iter (S k) (hop h) a) with (hop h (Nat.iter k (hop h) a)). set (n := Nat.iter k (hop h) a) in *.
  rewrite hop_step by (rewrite ?Eh; done || lia). rewrite Eh. destruct (step_to_position t n Hn Ht) as [Hn' P]. split; [done|].
  unfold on_way, distance in *. destruct (Z.leb_spec (Z.of_nat k) (Z.abs (column a - column t))),
    (Z.leb_spec (Z.of_nat (S k)) (Z.abs (column a - column t))), (decide (column n = column t)) as [E|E]; try lia; destruct W as [W1 W2], P as [P1 P2];
    rewrite ?P1, ?P2, ?W1, ?W2; split; try lia.
Qed.

(** On the way to the node the header names, each hop comes nearer. *)
Lemma nearer n h d m i : node N n -> goes NOC_WIDTH n h = Some d -> facing (RouterPort n d) = Some (RouterPort m i) ->
  distance m (headerToDecimal NOC_WIDTH h) = distance n (headerToDecimal NOC_WIDTH h) - 1.
Proof.
  intros Hn. destruct (coordinates _ _ width n Hn) as (En & Hl & Hc). pose proof (place_of _ (header_node h)) as Ex. pose proof (header_node h) as Hx0.
  pose proof (node_at NOC_WIDTH NOC_HEIGHT width height) as At.
  unfold goes, route, distance. set (x := headerToDecimal NOC_WIDTH h) in *.
  assert (Hx : 0 <= line x /\ 0 <= column x < NOC_WIDTH).
  { unfold GET_LINE, GET_COLUMN. rewrite cdiv_nonneg, cmod_nonneg by lia. split; [apply Z.div_pos; lia|apply Z.mod_pos_bound; lia]. }
  destruct (_ && _); [by intros [= <-]|]. destruct (Z.ltb_spec (column n) (column x)); [|destruct (Z.ltb_spec (column x) (column n));
    [|destruct (Z.ltb_spec (line x) (line n)); [|destruct (Z.ltb_spec (line n) (line x)); [|done]]]]; intros [= <-];
    cbn [peer Z.eqb Pos.eqb LOCAL SOUTH NORTH EAST WEST].
  - destruct (Z.eqb_spec (column n) (NOC_WIDTH - 1)); [done|]. intros [= <- _].
    destruct (At (n + 1) (line n) (column n + 1)) as (_ & -> & ->); lia.
  - destruct (Z.eqb_spec (column n) 0); [done|]. intros [= <- _]. destruct (At (n - 1) (line n) (column n - 1)) as (_ & -> & ->); lia.
  - destruct (Z.eqb_spec (line n) 0); [done|]. intros [= <- _]. destruct (At (n - NOC_WIDTH) (line n - 1) (column n)) as (_ & -> & ->); lia.
  - destruct (Z.eqb_spec (line n) (NOC_HEIGHT - 1)); [done|]. intros [= <- _].
    destruct (At (n + NOC_WIDTH) (line n + 1) (column n)) as (_ & -> & ->); lia.
Qed.
Lemma distance_bound n x : node N n -> 0 <= x -> 0 <= distance n x <= NOC_WIDTH + NOC_HEIGHT + line x + column x.
Proof.
  intros Hn Hx. destruct (coordinates _ _ width n Hn) as (_ & Hl & Hc). unfold distance.
  assert (0 <= line x /\ 0 <= column x).
  { unfold GET_LINE, GET_COLUMN. rewrite cdiv_nonneg, cmod_nonneg by lia. split; [apply Z.div_pos; lia|apply Z.mod_pos_bound; lia]. }
  lia.
Qed.

(** ** Where packets come from *)

Lemma body_packet h m z pl k : 0 <= m -> zlen pl + m = z -> k ∈ packets_of (h :: z :: pl) -> k = h :: z :: pl.
Proof.
  intros F Ez Hk. pose proof (zlen_nonneg pl). destruct (decide (m = 0)) as [->|Hm].
  - rewrite packets_of_cons in Hk by lia. replace (Z.to_nat z) with (length pl) in Hk by (unfold zlen in *; lia).
    rewrite firstn_all, drop_all in Hk. by apply list.elem_of_cons in Hk as [->|?%list.elem_of_nil].
  - unfold packets_of in Hk. cbn [length] in Hk. rewrite packets_in_S in Hk.
    destruct (Z.leb_spec 0 z), (Z.leb_spec z (zlen pl)); try lia; cbn [andb] in Hk; by apply list.elem_of_nil in Hk.
Qed.
Lemma stage_packet n s m x l part k : stage NOC_WIDTH n s m x l part -> k ∈ packets_of part -> k = part /\ packet_goes NOC_WIDTH n k = Some x.
Proof.
  destruct 1 as [| |m x h l E|m x h l E F|m x h z pl l E F Ez]; try (by intros ?%list.elem_of_nil); intros Hk;
    unfold flit_ok in F; (apply (body_packet _ m) in Hk as ->; [done|lia|done]).
Qed.

Lemma packets_in_log (P : Z * list Z -> Prop) `{forall e, Decision (P e)} (log : list (Z * list Z)) s k :
  Forall (fun e => place (fst e) /\ packet_ok (snd e)) log ->
  k ∈ packets_of (concat (snd <$> filter P log) ++ s) <-> (exists i, (i, k) ∈ log /\ P (i, k)) \/ k ∈ packets_of s.
Proof.
  intros L. rewrite packets_of_concat.
  - rewrite list.elem_of_app. apply or_iff_compat_r. split.
    + intros [[i k'] [-> [Hp Hl]%list_elem_of_filter]]%list_elem_of_fmap_1. by exists i.
    + intros (i & Hl & Hp). apply list_elem_of_fmap. exists (i, k). split; [done|]. by apply list_elem_of_filter.
  - apply list.Forall_forall. intros k' [[i k2] [-> [Hp Hl]%list_elem_of_filter]]%list_elem_of_fmap_1.
    by apply (proj1 (list.Forall_forall _ _) L (i, k2) Hl).
Qed.

(** A packet that a router sends out at [d] goes there, and came in. *)
Lemma router_passes cap n r got sent d k : router_inv NOC_WIDTH cap n r got sent -> place d -> k ∈ packets_of (sent d) ->
  packet_goes NOC_WIDTH n k = Some d /\ exists i, place i /\ k ∈ packets_of (got i).
Proof.
  intros (log & part & q & R) Hd Hk. pose proof (rr_log _ _ _ _ _ _ _ _ _ R) as L.
  assert (Fl : forall i, (i, k) ∈ log -> packet_goes NOC_WIDTH n k = Some d -> packet_goes NOC_WIDTH n k = Some d /\ exists i, place i /\ k ∈ packets_of (got i)).
  { intros i Hl Hg. split; [done|]. assert (Hi : place i) by exact (proj1 (proj1 (list.Forall_forall _ _) L (i, k) Hl)). exists i. split; [done|].
    rewrite (rr_got _ _ _ _ _ _ _ _ _ R i Hi). apply packets_in_log; [done|]. left. by exists i. }
  destruct (decide (Exists (fun i => st r i <> IDLE /\ rd r i = d) [0; 1; 2; 3; 4])) as [(i & Hi & E & Er)%list.Exists_exists|Hn].
  - assert (Pi : place i) by (rewrite !list.elem_of_cons, list.elem_of_nil in Hi; unfold place; lia).
    pose proof (rr_stage _ _ _ _ _ _ _ _ _ R i Pi) as K. pose proof (rr_owned _ _ _ _ _ _ _ _ _ R i Pi E) as U. rewrite Er in *.
    assert (Kd : st r i = ROUTING_DELAY -> part i = []) by (intros Es; rewrite Es in K; by inversion K).
    rewrite (link_up_sent _ _ _ _ _ Kd U) in Hk.
    apply (packets_in_log _ _ _ _ L) in Hk as [(i' & Hl & Hg)|Hk]; [by eapply Fl|]. destruct (stage_packet _ _ _ _ _ _ _ K Hk) as [-> Hg]. split; [done|].
    exists i. split; [done|]. rewrite (rr_got _ _ _ _ _ _ _ _ _ R i Pi). apply packets_in_log; [done|]. right. by apply packets_of_more.
  - destruct (rr_free _ _ _ _ _ _ _ _ _ R d Hd) as (_ & _ & Es).
    { intros i Pi E Er. apply Hn, list.Exists_exists. exists i. split; [|done]. rewrite !list.elem_of_cons. unfold place in Pi. lia. }
    rewrite Es, <- (app_nil_r (brought_to _ _ _ _)) in Hk. apply (packets_in_log _ _ _ _ L) in Hk as [(i & Hl & Hg)|Hk]; [by eapply Fl|].
    by apply list.elem_of_nil in Hk.
Qed.
Lemma interface_passes cap (x : NetworkInterface) got sent k : ni_inv cap x got sent -> side k -> sent (other k) `prefix_of` got k.
Proof.
  intros (dn & q & R) Hk. rewrite (nr_got _ _ _ _ _ _ R k Hk). destruct (nr_out _ _ _ _ _ _ R k Hk) as [(_ & _ & h & t & -> & _ & ->)|(_ & _ & ->)].
  - exists t. by rewrite <- app_assoc.
  - by exists (q k).
Qed.

(** Every packet in a router's output was written by a processor. *)
Lemma packet_source b o s got sent : net_inv NOC_WIDTH NOC_HEIGHT b o s got sent -> forall f n d k, node N n -> place d ->
  NOC_WIDTH + NOC_HEIGHT + line (headerToDecimal NOC_WIDTH (default 0 (head k))) + column (headerToDecimal NOC_WIDTH (default 0 (head k))) -
    distance n (headerToDecimal NOC_WIDTH (default 0 (head k))) < Z.of_nat f ->
  k ∈ packets_of (sent (RouterPort n d)) -> exists a, node N a /\ k ∈ packets_of (sent (CorePort a)).
Proof.
  intros I. induction f as [|f IH]; intros n d k Hn Hd Hf Hk.
  { pose proof (distance_bound n _ Hn (header_node (default 0 (head k)))). lia. }
  destruct (router_passes _ _ _ _ _ _ _ (nv_router _ _ _ _ _ _ _ I n Hn) Hd Hk) as (_ & i & Pi & Hi).
  destruct (facing (RouterPort n i)) as [q|] eqn:Hq; [|].
  2: { pose proof (proj2 (nv_border _ _ _ _ _ _ _ I (RouterPort n i) (conj Hn Pi) Hq)) as Eg. cbv beta in Hi. rewrite Eg in Hi. by apply list.elem_of_nil in Hi. }
  destruct (peer_facing _ _ width height (RouterPort n i) q (conj Hn Pi) Hq) as (Vq & Eq & _).
  destruct (nv_link _ _ _ _ _ _ _ I q _ Vq Eq) as (l & _ & El). assert (Hs : k ∈ packets_of (sent q)) by (rewrite El; by apply packets_of_more).
  destruct (decide (i = LOCAL)) as [->|Hne].
  - injection Hq as <-. destruct Vq as [_ _]. exists n. split; [done|].
    pose proof (interface_passes _ _ _ _ PLASMA (nv_interface _ _ _ _ _ _ _ I n Hn) ltac:(done)) as Pr. change (other PLASMA) with NOC in Pr. cbn beta in Pr.
    apply (packets_of_prefix _ _ _ Pr) in Hs. destruct (nv_link _ _ _ _ _ _ _ I (CorePort n) (NIPort n PLASMA) Hn eq_refl) as (l' & _ & ->).
    by apply packets_of_more.
  - assert (exists m j, q = RouterPort m j) as (m & j & ->).
    { cbn [peer] in Hq. rewrite (proj2 (Z.eqb_neq _ _) Hne) in Hq. repeat destruct (_ =? _) in Hq; try done; injection Hq as <-; eauto. }
    destruct Vq as [Hm Hj]. destruct (router_passes _ _ _ _ _ _ _ (nv_router _ _ _ _ _ _ _ I m Hm) Hj Hs) as (Hg & _).
    destruct k as [|h k]; [done|]. cbn [packet_goes head default] in *. pose proof (nearer m h j n i Hm Hg Eq) as Dn.
    apply (IH m j (h :: k) Hm Hj); [cbn in *; lia|done].
Qed.
End ways.

(** ** A run of two processors
    In a mesh of 2 by 2 processor 0 writes flits, one whenever the last was
    taken, and processor 3 polls for them. *)
Fixpoint relay (fuel : nat) (g : Z) (flits : list Z) (m : mpsoc) (got sent : port_ptr -> list Z) : option (mpsoc * (port_ptr -> list Z) * (port_ptr -> list Z)) :=
  match fuel with
  | O => Some (m, got, sent)
  | S fuel =>
      let a := match flits with f :: _ => if default 0 (zget (is_sending m) 0) =? OFF then NOC_WRITE f else NoAccess | [] => NoAccess end in
      match handshakes 2 2 4 (fun _ => 0) m with
      | Ok (_, m1) =>
          match cycles 2 2 4 g [a; NoAccess; NoAccess; NOC_READ] m1 with
          | Ok (_, m2) => relay fuel (g + 1) (match a with NoAccess => flits | _ => drop 1 flits end) m2
                            (grown_got (net m1) (net m2) got) (grown_sent (net m1) (net m2) sent)
          | _ => None
          end
      | _ => None
      end
  end.
Definition relay_start : mpsoc := mpsoc_start 2 2 4 4 (fun _ => 0).
Definition relayed (fuel : nat) (k : list Z) : option (mpsoc * (port_ptr -> list Z) * (port_ptr -> list Z)) :=
  relay fuel 1 k relay_start (fun _ => []) (fun _ => []).
Definition receives (r : option (mpsoc * (port_ptr -> list Z) * (port_ptr -> list Z))) (n : Z) (k : list Z) : bool :=
  match r with Some (_, got, _) => bool_decide (k ∈ packets_of (got (CorePort n))) | None => false end.

Lemma relay_run fuel : forall g flits m got sent m' got' sent', mpsoc_run 2 2 4 4 (fun _ => 0) m got sent ->
  relay fuel g flits m got sent = Some (m', got', sent') -> mpsoc_run 2 2 4 4 (fun _ => 0) m' got' sent'.
Proof.
  induction fuel as [|fuel IH]; intros g flits m got sent m' got' sent' R; cbn [relay]; [by intros [= <- <- <-]|].
  destruct (handshakes _ _ _ _ m) as [[[] m1]| | |] eqn:E1; try done. destruct (cycles _ _ _ _ _ m1) as [[vs m2]| | |] eqn:E2; try done.
  apply IH. eapply run_round; [exact R| |exact E1|exact E2]. done.
Qed.
Lemma receives_run fuel k n k' : receives (relayed fuel k) n k' = true ->
  exists m got sent, mpsoc_run 2 2 4 4 (fun _ => 0) m got sent /\ k' ∈ packets_of (got (CorePort n)).
Proof.
  unfold receives. destruct (relayed fuel k) as [[[m got] sent]|] eqn:E; [|done]. intros H%bool_decide_eq_true_1. exists m, got, sent.
  split; [|done]. eapply relay_run; [apply run_start|exact E].
Qed.

(** C20: XY routing: a packet with the header [decimalToHeader t], put into the
    network at node [a], first moves along the row of [a] to the column of [t]
    and then along that column; it is handed to the processor after as many
    hops as the nodes are apart, and not before, and that is at [t]. *)
Theorem xy_route (w h : Z) (a t : Z) : 2 <= w <= 16 -> 2 <= h <= 16 -> node (N_CORES w h) a -> node (N_CORES w h) t ->
  let way (k : nat) := Nat.iter k (hop w h (decimalToHeader w t)) a in
  (forall k : nat, Z.of_nat k <= distance w a t -> node (N_CORES w h) (way k) /\ on_way w a t k (way k) /\
    (goes w (way k) (decimalToHeader w t) = Some LOCAL <-> Z.of_nat k = distance w a t)) /\
  way (Z.to_nat (distance w a t)) = t.
Proof.
  intros Hw Hh Ha Ht. pose proof (header_of w h (proj1 Hw) t (proj2 Hw) (proj2 Hh) Ht) as Eh.
  pose proof (hops_way w h (proj1 Hw) (proj1 Hh) _ t a Eh Ht Ha) as W.
  assert (D : forall k n, node (N_CORES w h) n -> on_way w a t k n -> distance w n t = distance w a t - Z.of_nat k).
  { intros k n _. unfold on_way, distance. destruct (Z.leb_spec (Z.of_nat k) (Z.abs (GET_COLUMN w a - GET_COLUMN w t))); intros [E1 E2]; rewrite ?E1, ?E2; lia. }
  assert (Z0 : forall n, node (N_CORES w h) n -> distance w n t = 0 -> n = t).
  { intros n Hn. destruct (coordinates w h (proj1 Hw) n Hn) as (En & _), (coordinates w h (proj1 Hw) t Ht) as (Et & _). unfold distance. nia. }
  pose proof (distance_bound w h (proj1 Hw) (proj1 Hh) a t Ha ltac:(unfold node in Ht; lia)) as B. split.
  - intros k Hk. destruct (W k Hk) as [Hn Hway]. split; [done|]. split; [done|]. rewrite (goes_local w h), Eh by (done || lia).
    specialize (D k _ Hn Hway). split; intros E.
    + rewrite <- E in D at 1. unfold distance in D at 1. lia.
    + symmetry. apply Z0; [done|lia].
  - destruct (W (Z.to_nat (distance w a t))) as [Hn Hway]; [lia|]. apply Z0; [done|]. rewrite (D _ _ Hn Hway). lia.
Qed.

(** C18: The simulated network loses and invents nothing, in any run of the
    main loop and for any accesses of the processors: the next turn does not
    fail; on every link the flits taken are those offered, in order, but for at
    most one under way; in every router what the inputs took and the outputs
    offered is whole packets, each routed by its header, and those in progress;
    an interface offers the flits it took, in order. *)
Theorem network_lossless (w h b o : Z) (garbage : Z -> Z) (m : mpsoc) (got sent : port_ptr -> list Z) :
  2 <= w -> 2 <= h -> cap_ok b -> cap_ok o -> mpsoc_run w h b o garbage m got sent ->
  (forall g status l, zlen l <= N_CORES w h -> exists vs m', round w h o g status l m = Ok (vs, m')) /\
  (forall p q, valid (N_CORES w h) p -> peer w h p = Some q -> exists l, (length l <= 1)%nat /\ sent p = got q ++ l) /\
  (forall n, node (N_CORES w h) n ->
    router_inv w b n (rt (net m) n) (fun k => got (RouterPort n k)) (fun k => sent (RouterPort n k)) /\
    (forall k, side k -> sent (NIPort n (other k)) `prefix_of` got (NIPort n k))).
Proof.
  intros Hw Hh Hb Ho R. pose proof (run_inv _ _ _ _ _ _ _ _ Hw Hh Hb Ho R) as M. pose proof M as (_ & I & _). split; [|split].
  - intros g status l Hl. destruct (round_inv w h b o Hw Hh Hb Ho m got sent g status l M Hl) as (m1 & vs & m2 & E1 & E2 & _).
    exists vs, m2. unfold round. by st_step E1.
  - intros p q Hp Hq. destruct (nv_link _ _ _ _ _ _ _ I p q Hp Hq) as (l & P & E). exists l. split; [|done]. destruct P; cbn; lia.
  - intros n Hn. split; [by apply I|]. intros k Hk. by apply (interface_passes _ _ _ _ k (nv_interface _ _ _ _ _ _ _ I n Hn)).
Qed.

(** C17: Delivery: every packet that a processor has read in whole is addressed
    to its node, and some processor wrote it, flit for flit. *)
Theorem packets_delivered (w h b o : Z) (garbage : Z -> Z) (m : mpsoc) (got sent : port_ptr -> list Z) (t : Z) (k : list Z) :
  2 <= w -> 2 <= h -> cap_ok b -> cap_ok o -> mpsoc_run w h b o garbage m got sent ->
  node (N_CORES w h) t -> k ∈ packets_of (got (CorePort t)) ->
  (exists x l, k = x :: l /\ headerToDecimal w x = t) /\ exists a, node (N_CORES w h) a /\ k ∈ packets_of (sent (CorePort a)).
Proof.
  intros Hw Hh Hb Ho R Ht Hk. destruct (run_inv _ _ _ _ _ _ _ _ Hw Hh Hb Ho R) as (_ & I & _).
  assert (Vp : valid (N_CORES w h) (NIPort t PLASMA)) by (split; done).
  assert (Vl : valid (N_CORES w h) (RouterPort t LOCAL)) by (split; done).
  destruct (nv_link _ _ _ _ _ _ _ I (NIPort t PLASMA) (CorePort t) Vp eq_refl) as (l1 & _ & E1).
  pose proof (packets_of_more _ l1 _ Hk) as K1. rewrite <- E1 in K1.
  pose proof (interface_passes _ _ _ _ NOC (nv_interface _ _ _ _ _ _ _ I t Ht) ltac:(done)) as Pr. change (other NOC) with PLASMA in Pr. cbn beta in Pr.
  apply (packets_of_prefix _ _ _ Pr) in K1.
  destruct (nv_link _ _ _ _ _ _ _ I (RouterPort t LOCAL) (NIPort t NOC) Vl eq_refl) as (l2 & _ & E2).
  pose proof (packets_of_more _ l2 _ K1) as K2. rewrite <- E2 in K2. split.
  - destruct (router_passes _ _ _ _ _ _ LOCAL k (nv_router _ _ _ _ _ _ _ I t Ht) (proj2 Vl) K2) as (Hg & _).
    destruct k as [|x l]; [done|]. exists x, l. split; [done|]. by apply (goes_local w h).
  - eapply (packet_source w h Hw Hh b o (net m) got sent I (Z.to_nat (_ + 1)) t LOCAL k Ht); [done| |exact K2]. rewrite Z2Nat.id; [apply Z.lt_succ_diag_r|].
    pose proof (distance_bound w h Hw Hh t _ Ht (header_node w (default 0 (head k)))). lia.
Qed.

(** The indices of a buffer of [cap] places, its count, and that the next [put]
    or [take] the code makes stays inside. *)
Definition buffer_bounded (cap : Z) (b : Flits.Buffer) : Prop :=
  zlen (Flits.buffer b) = cap /\ 0 <= Flits.start b < cap /\ 0 <= Flits.end_ b < cap /\ 0 <= Flits.size b <= cap /\
  (forall v, Flits.isFull b = false -> exists b', Flits.put v b = Ok b' /\ Flits.size b' = Flits.size b + 1 /\ Flits.size b' <= cap) /\
  (Flits.isEmpty b = false -> exists v b', Flits.take b = Ok (v, b') /\ Flits.size b' = Flits.size b - 1 /\ 0 <= Flits.size b').
Lemma flits_bounded cap b q : cap_ok cap -> flits_in cap b q -> buffer_bounded cap b.
Proof.
  intros Hc F. pose proof F as [_ Hl Hs Hz Hq He _]. pose proof (zlen_nonneg q). unfold cap_ok in Hc. unfold buffer_bounded.
  split; [done|]. split; [done|]. split; [rewrite He; apply Z.mod_pos_bound; lia|]. split; [lia|]. split.
  - intros v E. destruct (flits_put cap b q v Hc F E) as (b' & E' & F'). exists b'. pose proof (fi_cap _ _ _ F'). split; [done|].
    rewrite (fi_size _ _ _ F'), zlen_app in *. split; [by rewrite Hz|done].
  - intros E. destruct (flits_nonempty cap b q F E) as (v & t & ->). destruct (flits_take cap b v t Hc F) as (b' & E' & F').
    exists v, b'. split; [done|]. rewrite (fi_size _ _ _ F'), Hz, zlen_cons. pose proof (zlen_nonneg t). lia.
Qed.

Lemma stage_remaining w n s m x k k' : stage w n s m x k k' -> s = ROUTING_PAYLOAD \/ s = ROUTING_DATA -> flit_ok m.
Proof. destruct 1; intros [E|E]; done. Qed.

(** C19: Bounds in any run: no buffer of a router or an interface is filled past
    its size or read when it is empty, and its indices stay inside the array;
    the arbiter, the states and the flits on the ports stay in their ranges; an
    input that is connected names one of the five ports and has at most 65535
    flits to go, and no two inputs are connected to the same port. *)
Theorem network_bounded (w h b o : Z) (garbage : Z -> Z) (m : mpsoc) (got sent : port_ptr -> list Z) (n : Z) :
  2 <= w -> 2 <= h -> cap_ok b -> cap_ok o -> mpsoc_run w h b o garbage m got sent -> node (N_CORES w h) n ->
  let r := rt (net m) n in
  0 <= arbiter r < 5 /\
  (forall i, place i -> buffer_bounded b (buf r i) /\ IDLE <= st r i <= ROUTING_DATA /\
    0 <= in_ (prt r i) < 65536 /\ 0 <= out (prt r i) < 65536 /\ (st r i <> IDLE -> EAST <= rd r i <= LOCAL) /\
    (st r i = ROUTING_PAYLOAD \/ st r i = ROUTING_DATA -> 0 <= rem r i < 65536)) /\
  (forall i j, place i -> place j -> st r i <> IDLE -> st r j <> IDLE -> rd r i = rd r j -> i = j) /\
  (forall k, side k -> buffer_bounded o (nbuf (nif (net m) n) k)).
Proof.
  intros Hw Hh Hb Ho R Hn. destruct (run_inv _ _ _ _ _ _ _ _ Hw Hh Hb Ho R) as (_ & I & _).
  destruct (nv_router _ _ _ _ _ _ _ I n Hn) as (log & part & q & K). destruct (nv_interface _ _ _ _ _ _ _ I n Hn) as (dn & qi & X).
  split; [apply K|]. split; [|split; [apply K|]].
  - intros i Hi. pose proof (rr_stage _ _ _ _ _ _ _ _ _ K i Hi) as G. pose proof (rr_ports _ _ _ _ _ _ _ _ _ K i Hi) as [Fi Fo].
    split; [by eapply flits_bounded, K|]. split; [by eapply stage_range|]. split; [done|]. split; [done|]. split.
    + intros Hs. pose proof (stage_place _ _ _ _ _ _ _ G Hs) as P. unfold place, EAST, LOCAL in *. lia.
    + intros Hs. by eapply stage_remaining.
  - intros k Hk. by eapply flits_bounded, X.
Qed.

(** ** Witnesses *)
Lemma xy_route_witness : (2 <= 3 <= 16) /\ distance 3 2 6 = 4 /\
  node (N_CORES 3 3) (Nat.iter 3 (hop 3 3 (decimalToHeader 3 6)) 2) /\ Nat.iter 4 (hop 3 3 (decimalToHeader 3 6)) 2 = 6.
Proof.
  split; [lia|]. split; [reflexivity|].
  destruct (xy_route 3 3 2 6 ltac:(lia) ltac:(lia) ltac:(done) ltac:(done)) as [W E].
  split; [exact (proj1 (W 3%nat ltac:(done)))|exact E].
Defined.

Lemma network_lossless_witness : exists m got sent,
  mpsoc_run 2 2 4 4 (fun _ => 0) m got sent /\ [17; 2; 7; 9] ∈ packets_of (got (CorePort 3)) /\
  (exists l, (length l <= 1)%nat /\ sent (RouterPort 0 EAST) = got (RouterPort 1 WEST) ++ l).
Proof.
  destruct (receives_run 350 [17; 2; 7; 9] 3 [17; 2; 7; 9] ltac:(by vm_compute)) as (m & got & sent & R & K).
  exists m, got, sent. split; [exact R|]. split; [exact K|].
  exact (proj1 (proj2 (network_lossless 2 2 4 4 _ m got sent ltac:(lia) ltac:(lia) ltac:(by split) ltac:(by split) R))
    (RouterPort 0 EAST) (RouterPort 1 WEST) ltac:(by split) eq_refl).
Defined.

Lemma packets_delivered_witness : exists m got sent,
  mpsoc_run 2 2 4 4 (fun _ => 0) m got sent /\ [17; 2; 7; 9] ∈ packets_of (got (CorePort 3)) /\
  exists a, node 4 a /\ [17; 2; 7; 9] ∈ packets_of (sent (CorePort a)).
Proof.
  destruct (receives_run 350 [17; 2; 7; 9] 3 [17; 2; 7; 9] ltac:(by vm_compute)) as (m & got & sent & R & K).
  exists m, got, sent. split; [exact R|]. split; [exact K|].
  exact (proj2 (packets_delivered 2 2 4 4 _ m got sent 3 [17; 2; 7; 9] ltac:(lia) ltac:(lia) ltac:(by split) ltac:(by split) R ltac:(by split) K)).
Defined.

Lemma network_bounded_witness : exists m got sent,
  mpsoc_run 2 2 4 4 (fun _ => 0) m got sent /\ [17; 2; 7; 9] ∈ packets_of (got (CorePort 3)) /\
  buffer_bounded 4 (buf (rt (net m) 2) SOUTH).
Proof.
  destruct (receives_run 350 [17; 2; 7; 9] 3 [17; 2; 7; 9] ltac:(by vm_compute)) as (m & got & sent & R & K).
  exists m, got, sent. split; [exact R|]. split; [exact K|].
  exact (proj1 (proj1 (proj2 (network_bounded 2 2 4 4 _ m got sent 2 ltac:(lia) ltac:(lia) ltac:(by split) ltac:(by split) R ltac:(by split)))
    SOUTH ltac:(by split))).
Defined.
