(* ===== verification/Arp.v ===== *)
(** * Address resolution between two hosts

    [net/ustack/arp.c] with [netif_send] and [netif_recv] of [eth_netif.c]: a
    packet for an address that is not in the cache is replaced by a request;
    the host with the address answers, and the answer is learned. *)

From S2P Require Import Prelude Words Ustack.

(** An ARP frame: its Ethernet addresses, its operation and what it says of
    the sender and the target. *)
Record arp_packet (F to from : list Z) (op : Z) (spa tpa : list Z) : Prop := {
  ar_to : slice F 0 6 = Ok to;
  ar_from : slice F 6 6 = Ok from;
  ar_type : be16 F 12 = Ok FRAME_ARP;
  ar_hardw : be16 F 14 = Ok HARDW_ETH10;
  ar_prot : be16 F 16 = Ok FRAME_IP;
  ar_sizes : be16 F 18 = Ok IP_HLEN_PLEN;
  ar_op : be16 F 20 = Ok op;
  ar_sha : slice F 22 6 = Ok from;
  ar_spa : slice F 28 4 = Ok spa;
  ar_tpa : slice F 38 4 = Ok tpa;
}.

(** Six bytes of a frame. *)
Ltac six_bytes :=
  let i := fresh "i" in
  intros i ?; assert (i = 0 \/ i = 1 \/ i = 2 \/ i = 3 \/ i = 4 \/ i = 5) as [->|[->|[->|[->|[->| ->]]]]] by lia.

Section arp.
Context {L U : Type} {LL : LinkLayer L}.
Implicit Types (s r : net L U) (F R : list Z).

Lemma arp_packet_ext F R to from op spa tpa : arp_packet F to from op spa tpa -> 42 <= zlen R ->
  (forall i, i < 42 -> zget R i = zget F i) -> arp_packet R to from op spa tpa.
Proof.
  intros [] HL H. constructor;
    first [eapply slice_ext; [eassumption|lia|intros i Hi; apply H; lia]
          |erewrite be16_ext; [eassumption|apply H; lia..]].
Qed.

(** The address a packet for [dst] is sent to next. *)
Definition next_hop s (dst : list Z) : list Z :=
  if ip_addr_maskcmp dst (myip s) (mynm s) then dst else mygw s.

Definition unresolved s (dst : list Z) : Prop :=
  ip_addr_isany dst = false /\ ip_addr_isbroadcast dst (mynm s) = false
  /\ ip_addr_ismulticast dst = false
  /\ zlen (arp_cache s) = 16 /\ arp_lookup (arp_cache s) (next_hop s dst) = None.

(** Without a hardware address a request goes out, broadcast, in the place of
    the packet; only the headers of the packet are overwritten. *)
Lemma netif_send_asks s dst len : slice (frame s) 30 4 = Ok dst -> unresolved s dst ->
  zlen (myip s) = 4 -> zlen (mymac s) = 6 -> zlen (next_hop s dst) = 4 ->
  bytes (myip s) -> bytes (mymac s) -> bytes (next_hop s dst) -> bytes (frame s) -> 42 <= zlen (frame s) ->
  exists F, netif_send len s = Ok (0, with_link (en_ll_output F 56 (link s)) (with_frame F s))
    /\ arp_packet F (replicate 6 255) (mymac s) OP_ARP_REQUEST (myip s) (next_hop s dst)
    /\ zlen F = zlen (frame s) /\ bytes F /\ forall i, 42 <= i -> zget F i = zget (frame s) i.
Proof.
  intros Hdst (R1 & R2 & R3 & R5 & R4) Hi4 Hm6 Hn4 Hib Hmb Hnb HF HL. unfold netif_send.
  st_step (reading_run (fun F => slice F 30 4) s dst Hdst).
  st_step (gets_run mynm s _ eq_refl). rewrite R1, R2, R3. cbn [orb].
  rewrite ST_bind_assoc. st_step (gets_run myip s _ eq_refl).
  rewrite ST_bind_assoc. st_step (gets_run mygw s _ eq_refl).
  rewrite ST_bind_assoc. fold (next_hop s dst). st_step (arp_check_run (next_hop s dst) s R5). rewrite R4.
  match goal with |- context [mret (?a, ?b)] =>
    assert (Em : (mret (a, b) : ST (net L U) _) s = Ok ((a, b), s)) by done end.
  st_step Em. clear Em.
  destruct (len4 _ Hi4) as (p0 & p1 & p2 & p3 & Ei). destruct (len6 _ Hm6) as (m0 & m1 & m2 & m3 & m4 & m5 & Em).
  destruct (len4 _ Hn4) as (n0 & n1 & n2 & n3 & En). rewrite Ei, Em, En in *.
  unfold arp_request. rewrite ST_bind_assoc. st_step (gets_run mymac s _ Em).
  rewrite ST_bind_assoc. st_step (gets_run myip s _ Ei). rewrite ST_bind_assoc. ofs.
  change (replicate 6 255) with [255; 255; 255; 255; 255; 255].
  change (replicate 6 0) with [0; 0; 0; 0; 0; 0].
  edestruct (write_run s) as (F1 & E1 & L1 & G1 & B1); [|st_step E1; clear E1]; [fits_tac|].
  assert (HB1 : bytes F1) by (apply B1; [done|]; bytes_tac).
  rewrite (ST_bind_Ok _ _ _ 42 (with_frame F1 s)) by done.
  edestruct (write_run (with_frame F1 s) [(38, [n0; n1; n2; n3])]) as (F2 & E2 & L2 & G2 & B2);
    [cbn [frame with_frame]; fits_tac|st_step E2; clear E2]. cbn [frame with_frame] in L2, G2, B2.
  exists F2. split; [done|].
  assert (G2' : forall i, i < 38 \/ 42 <= i -> zget F2 i = zget F1 i).
  { intros i Hi. rewrite G2, last_store_None; [done|]. stores_far. }
  split_and!; [|lia|by apply B2; [|bytes_tac]|intros i Hi; rewrite G2' by lia; rewrite G1, last_store_None; [done|]; stores_far].
  assert (Hb : forall o a b, o + 1 < 38 -> zget F1 o = Some a -> zget F1 (o + 1) = Some b -> 0 <= b < 256 ->
    be16 F2 o = Ok (256 * a + b)) by (intros o a b Ho Ha Hbb Hr; apply be16_run; rewrite ?G2' by lia; done).
  constructor.
  - apply slice_Ok; [done|done|lia|]. six_bytes; rewrite G2' by lia;
      match goal with |- zget F1 ?j = _ => by stores_at (G1 j) end.
  - apply slice_Ok; [done|done|lia|]. six_bytes; rewrite G2' by lia;
      match goal with |- zget F1 ?j = _ => by stores_at (G1 j) end.
  - apply (Hb 12 8 6); [done|by stores_at (G1 12)|by stores_at (G1 (12 + 1))|lia].
  - apply (Hb 14 0 1); [done|by stores_at (G1 14)|by stores_at (G1 (14 + 1))|lia].
  - apply (Hb 16 8 0); [done|by stores_at (G1 16)|by stores_at (G1 (16 + 1))|lia].
  - apply (Hb 18 6 4); [done|by stores_at (G1 18)|by stores_at (G1 (18 + 1))|lia].
  - apply (Hb 20 0 1); [done|by stores_at (G1 20)|by stores_at (G1 (20 + 1))|lia].
  - apply slice_Ok; [done|done|lia|]. six_bytes; rewrite G2' by lia;
      match goal with |- zget F1 ?j = _ => by stores_at (G1 j) end.
  - apply slice_Ok; [done|done|lia|]. four_bytes; rewrite G2' by lia;
      match goal with |- zget F1 ?j = _ => by stores_at (G1 j) end.
  - apply slice_Ok; [done|done|lia|]. four_bytes; match goal with |- zget F2 ?j = _ => by stores_at (G2 j) end.
Qed.

(** An ARP frame for this host, or for all, is looked at. *)
Lemma netif_recv_arp r R to from op spa tpa n l : en_ll_input (frame r) (link r) = (n, R, l) -> 0 < n ->
  arp_packet R to from op spa tpa -> to = mymac r \/ to = replicate 6 255 ->
  netif_recv r = (_ ← arp_frame; mret 0) (with_link l (with_frame R r)).
Proof.
  intros E Hn Ha Hto. unfold netif_recv.
  assert (Eg : get_st r = Ok (r, r)) by done. st_step Eg. rewrite E. clear Eg.
  set (r' := with_link l (with_frame R r)).
  assert (Em : modify (fun s => with_link l (with_frame R s)) r = Ok (tt, r')) by done. st_step Em. clear Em.
  destruct (Z.ltb_spec 0 n); [|lia].
  assert (Ed : forall mac, dest_mac_is mac r' = Ok (memeq to mac, r')).
  { intros mac. unfold dest_mac_is. st_step (reading_run (fun F => slice F 0 6) r' to (ar_to _ _ _ _ _ _ Ha)). done. }
  assert (E1 : is_local_mac r' = Ok (memeq to (mymac r), r')).
  { unfold is_local_mac. st_step (gets_run mymac r' _ eq_refl). apply Ed. }
  st_step E1.
  assert (E2 : (if memeq to (mymac r) then mret true else is_broadcast_mac) r' = Ok (true, r')).
  { unfold memeq at 1. case_bool_decide as Hd; [done|]. destruct Hto as [|Hb]; [done|].
    unfold is_broadcast_mac. rewrite Ed. unfold memeq. by rewrite bool_decide_true. }
  st_step E2. rewrite (ST_bind_Ok _ _ r' true r') by done.
  by st_step (reading_run (fun F => be16 F 12) r' _ (ar_type _ _ _ _ _ _ Ha)).
Qed.

(** The checks of an ARP frame pass. *)
Lemma arp_frame_checks s to from op spa tpa : arp_packet (frame s) to from op spa tpa ->
  arp_frame s = (answered ← (if op =? OP_ARP_REQUEST then
      if memeq tpa (myip s) then len ← arp_reply; _ ← output (u16 len); mret true else mret false
      else mret false);
    if answered : bool then mret true else
    op ← reading (fun F => be16 F ARP_OPCODE_OFS);
    _ ← (if op =? OP_ARP_ANSWER then
      ip ← reading (fun F => slice F ARP_SENDER_IP_OFS 4);
      mac ← reading (fun F => slice F ARP_SENDER_HA_OFS 6);
      _ ← arp_update ip mac; mret tt else mret tt);
    mret false) s.
Proof.
  intros Ha. unfold arp_frame.
  st_step (reading_run (fun F => be16 F 14) s _ (ar_hardw _ _ _ _ _ _ Ha)). rewrite Z.eqb_refl. cbn [negb].
  st_step (reading_run (fun F => be16 F 16) s _ (ar_prot _ _ _ _ _ _ Ha)). rewrite Z.eqb_refl. cbn [negb].
  st_step (reading_run (fun F => be16 F 18) s _ (ar_sizes _ _ _ _ _ _ Ha)). rewrite Z.eqb_refl. cbn [negb].
  st_step (reading_run (fun F => be16 F 20) s _ (ar_op _ _ _ _ _ _ Ha)).
  destruct (op =? OP_ARP_REQUEST) eqn:Eop; [|done]. rewrite !ST_bind_assoc.
  st_step (reading_run (fun F => slice F 38 4) s _ (ar_tpa _ _ _ _ _ _ Ha)).
  rewrite ST_bind_assoc. by st_step (gets_run myip s _ eq_refl).
Qed.

(** A request for this host's address is answered to the one who asks. *)
Lemma arp_answers r to from spa : arp_packet (frame r) to from OP_ARP_REQUEST spa (myip r) ->
  zlen (myip r) = 4 -> zlen (mymac r) = 6 -> bytes (myip r) -> bytes (mymac r) -> bytes (frame r) ->
  42 <= zlen (frame r) ->
  exists F, arp_frame r = Ok (true, with_link (en_ll_output F 42 (link r)) (with_frame F r))
    /\ arp_packet F from (mymac r) OP_ARP_ANSWER (myip r) spa /\ zlen F = zlen (frame r) /\ bytes F.
Proof.
  intros Ha Hi4 Hm6 Hib Hmb HF HL. rewrite (arp_frame_checks r to from OP_ARP_REQUEST spa (myip r) Ha).
  rewrite Z.eqb_refl. unfold memeq. rewrite bool_decide_true by done. cbv iota.
  unfold arp_reply. rewrite !ST_bind_assoc.
  destruct (slice_len _ _ _ _ (ar_from _ _ _ _ _ _ Ha)) as (_ & Hf6 & _).
  destruct (slice_len _ _ _ _ (ar_spa _ _ _ _ _ _ Ha)) as (_ & Hs4 & _).
  assert (Hfb : bytes from).
  { pose proof (ar_from _ _ _ _ _ _ Ha) as Hsl. unfold slice in Hsl. case_match; [|done]. injection Hsl as <-.
    by apply list.Forall_take, list.Forall_drop. }
  assert (Hsb : bytes spa).
  { pose proof (ar_spa _ _ _ _ _ _ Ha) as Hsl. unfold slice in Hsl. case_match; [|done]. injection Hsl as <-.
    by apply list.Forall_take, list.Forall_drop. }
  destruct (len4 _ Hi4) as (p0 & p1 & p2 & p3 & Ei). destruct (len6 _ Hm6) as (m0 & m1 & m2 & m3 & m4 & m5 & Em).
  destruct (len6 _ Hf6) as (f0 & f1 & f2 & f3 & f4 & f5 & ->). destruct (len4 _ Hs4) as (s0 & s1 & s2 & s3 & ->).
  st_step (reading_run (fun F => slice F 6 6) r _ (ar_from _ _ _ _ _ _ Ha)).
  rewrite Ei, Em in *. rewrite ST_bind_assoc. st_step (gets_run mymac r _ Em).
  rewrite ST_bind_assoc. st_step (gets_run myip r _ Ei). rewrite ST_bind_assoc. ofs.
  edestruct (write_run r) as (F1 & E1 & L1 & G1 & B1); [|st_step E1; clear E1]; [fits_tac|].
  assert (HB1 : bytes F1) by (apply B1; [done|]; bytes_tac).
  assert (Hspa : slice F1 28 4 = Ok [s0; s1; s2; s3]).
  { eapply slice_ext; [exact (ar_spa _ _ _ _ _ _ Ha)|lia|]. intros i Hi. rewrite G1, last_store_None; [done|].
    stores_far. }
  rewrite ST_bind_assoc. st_step (reading_run (fun F => slice F 28 4) (with_frame F1 r) _ Hspa).
  rewrite ST_bind_assoc.
  edestruct (write_run (with_frame F1 r)) as (F2 & E2 & L2 & G2 & B2);
    [|st_step E2; clear E2]; [cbn [frame with_frame]; fits_tac|]. cbn [frame with_frame] in L2, G2, B2.
  assert (HB2 : bytes F2) by (apply B2; [done|]; bytes_tac).
  exists F2. split; [done|]. split_and!; [|lia|done].
  assert (G2' : forall i, i < 14 -> zget F2 i = zget F1 i).
  { intros i Hi. rewrite G2, last_store_None; [done|]. stores_far. }
  constructor.
  - apply slice_Ok; [done|done|lia|]. six_bytes; rewrite G2' by lia;
      match goal with |- zget F1 ?j = _ => by stores_at (G1 j) end.
  - apply slice_Ok; [done|done|lia|]. six_bytes; rewrite G2' by lia;
      match goal with |- zget F1 ?j = _ => by stores_at (G1 j) end.
  - apply (be16_run F2 12 8 6); [| |lia]; rewrite G2' by lia; [by stores_at (G1 12)|by stores_at (G1 (12 + 1))].
  - apply (be16_run F2 14 0 1); [by stores_at (G2 14)|by stores_at (G2 (14 + 1))|lia].
  - apply (be16_run F2 16 8 0); [by stores_at (G2 16)|by stores_at (G2 (16 + 1))|lia].
  - apply (be16_run F2 18 6 4); [by stores_at (G2 18)|by stores_at (G2 (18 + 1))|lia].
  - apply (be16_run F2 20 0 2); [by stores_at (G2 20)|by stores_at (G2 (20 + 1))|lia].
  - apply slice_Ok; [done|done|lia|]. six_bytes; match goal with |- zget F2 ?j = _ => by stores_at (G2 j) end.
  - apply slice_Ok; [done|done|lia|]. four_bytes; match goal with |- zget F2 ?j = _ => by stores_at (G2 j) end.
  - apply slice_Ok; [done|done|lia|]. four_bytes; match goal with |- zget F2 ?j = _ => by stores_at (G2 j) end.
Qed.

(** An answer is learned. *)
Lemma arp_learns s to from spa tpa : arp_packet (frame s) to from OP_ARP_ANSWER spa tpa ->
  zlen (arp_cache s) = 16 -> 0 <= arp_index s < 16 ->
  exists c n, arp_frame s = Ok (false, with_arp c n s) /\ zlen c = 16 /\ 0 <= n < 16
    /\ arp_lookup c spa = Some from.
Proof.
  intros Ha Hc Hn. rewrite (arp_frame_checks s to from OP_ARP_ANSWER spa tpa Ha).
  change (OP_ARP_ANSWER =? OP_ARP_REQUEST) with false. cbv iota.
  rewrite (ST_bind_Ok _ _ s false s) by done.
  st_step (reading_run (fun F => be16 F 20) s _ (ar_op _ _ _ _ _ _ Ha)). rewrite Z.eqb_refl, ST_bind_assoc.
  st_step (reading_run (fun F => slice F 28 4) s _ (ar_spa _ _ _ _ _ _ Ha)). rewrite ST_bind_assoc.
  st_step (reading_run (fun F => slice F 22 6) s _ (ar_sha _ _ _ _ _ _ Ha)). rewrite ST_bind_assoc.
  destruct (arp_cache_learns s spa from Hc Hn) as (v & c & n & E & Hc' & Hn' & Hch & _). st_step E.
  rewrite arp_check_run in Hch by done. injection Hch as Hch. by exists c, n.
Qed.
End arp.

(** ** The exchange over a wire *)

Section exchange.
Context {U V : Type}.
Implicit Types (s : net (list (list Z)) V) (r : net (list (list Z)) U) (F buf : list Z).

(** A turn of the service of [r] with what [s] sent, and one of the service of
    [s], with its input buffer [buf], on what comes back. *)
Definition exchange r buf : ST (net (list (list Z)) V) unit := fun s =>
  '(_, r1) ← service_turn (with_link (link s) r);
  '(_, s1) ← service_turn (with_frame buf (with_link (link r1) s));
  Ok (tt, with_frame (frame s) s1).

(** A turn of the service that ends with the answer to a request. *)
Lemma answer_turn r F from spa : arp_packet F (replicate 6 255) from OP_ARP_REQUEST spa (myip r) ->
  host_ok r -> link r = [] -> 56 <= zlen F -> bytes F -> 56 <= zlen (frame r) ->
  exists R G, service_turn (with_link [take 56 F] r) = Ok (tt, with_link [take 42 G] (with_frame G (with_frame R r)))
    /\ arp_packet G from (mymac r) OP_ARP_ANSWER (myip r) spa /\ zlen G = zlen (frame r) /\ bytes G.
Proof.
  intros Ha Hr Lr HF HbF Hfr.
  destruct (overlay_run F (frame r) 56) as (Hl & LR & BR & GR); [lia|lia|done|apply Hr|]. cbv zeta in *.
  change (Z.to_nat 56) with 56%nat in *. set (f := take 56 F) in *. set (R := f ++ drop (length f) (frame r)) in *.
  assert (HaR : arp_packet R (replicate 6 255) from OP_ARP_REQUEST spa (myip r)).
  { apply (arp_packet_ext F); [done|lia|]. intros i Hi. apply GR. lia. }
  unfold service_turn.
  pose proof (netif_recv_arp (with_link [f] r) R _ _ _ _ _ (zlen f) [] eq_refl ltac:(lia) HaR (or_intror eq_refl)) as En.
  set (r1 := with_link [] (with_frame R (with_link [f] r))) in *.
  destruct (arp_answers r1 _ _ _ HaR) as (G & EG & HG & LG & BG); try apply Hr; try done; [cbn; lia|].
  rewrite (ST_bind_Ok _ _ r1 _ _ EG) in En. st_step En. exists R, G.
  split; [done|]. cbn [frame r1 with_frame with_link] in LG. split; [done|]. split; [lia|done].
Qed.

(** A turn that learns the answer. *)
Lemma learn_turn s G mac spa tpa : arp_packet G (mymac s) mac OP_ARP_ANSWER spa tpa ->
  42 <= zlen G -> bytes G -> bytes (frame s) -> 42 <= zlen (frame s) ->
  zlen (arp_cache s) = 16 -> 0 <= arp_index s < 16 ->
  exists c n R, service_turn (with_link [take 42 G] s) = Ok (tt, with_arp c n (with_link [] (with_frame R s)))
    /\ zlen c = 16 /\ 0 <= n < 16 /\ arp_lookup c spa = Some mac.
Proof.
  intros Ha HG HbG Hb HL Hc Hn.
  destruct (overlay_run G (frame s) 42) as (Hl & LR & BR & GR); [lia|lia|done|done|]. cbv zeta in *.
  change (Z.to_nat 42) with 42%nat in *. set (f := take 42 G) in *. set (R := f ++ drop (length f) (frame s)) in *.
  assert (HaR : arp_packet R (mymac s) mac OP_ARP_ANSWER spa tpa).
  { apply (arp_packet_ext G); [done|lia|]. intros i Hi. apply GR. lia. }
  unfold service_turn.
  pose proof (netif_recv_arp (with_link [f] s) R _ _ _ _ _ (zlen f) [] eq_refl ltac:(lia) HaR (or_introl eq_refl)) as En.
  set (s1 := with_link [] (with_frame R (with_link [f] s))) in *.
  destruct (arp_learns s1 _ _ _ _ HaR Hc Hn) as (c & n & EG & Hc' & Hn' & Hlk).
  rewrite (ST_bind_Ok _ _ s1 _ _ EG) in En. st_step En. by exists c, n, R.
Qed.

(** The request of [netif_send_asks] is answered and the address learned. *)
Lemma exchange_resolves s r F buf : link s = [take 56 F] ->
  arp_packet F (replicate 6 255) (mymac s) OP_ARP_REQUEST (myip s) (myip r) -> 56 <= zlen F -> bytes F ->
  host_ok r -> link r = [] -> 56 <= zlen (frame r) -> bytes buf -> 42 <= zlen buf ->
  unresolved s (myip r) -> next_hop s (myip r) = myip r -> 0 <= arp_index s < 16 ->
  exists c n R G, exchange r buf s = Ok (tt, with_link [] (with_arp c n s))
    /\ service_turn (with_link [take 56 F] r) = Ok (tt, with_link [take 42 G] (with_frame G (with_frame R r)))
    /\ zlen G = zlen (frame r) /\ bytes G /\ resolves (with_link [] (with_arp c n s)) (myip r) (mymac r).
Proof.
  intros Ls Ha HF HbF Hr Lr Hfr Hb HL (U1 & U2 & U3 & U5 & _) Hnh Hn.
  destruct (answer_turn r F _ _ Ha Hr Lr HF HbF Hfr) as (R & G & E1 & HG & LG & BG).
  set (s1 := with_frame buf (with_link [take 42 G] s)).
  destruct (learn_turn s1 G (mymac r) (myip r) (myip s)) as (c & n & R' & E2 & Hc & Hn' & Hlk); try done; [lia|].
  exists c, n, R, G. unfold exchange. rewrite Ls, E1. cbn [mbind outcome_bind link with_link].
  fold s1. change (with_link [take 42 G] s1) with s1 in E2. rewrite E2. split_and!; try done.
  unfold resolves. split_and!; [done|done|done|].
  rewrite arp_check_run by done. fold (next_hop s (myip r)) in *.
  cbn [arp_cache with_link with_arp myip mynm mygw]. unfold next_hop in Hnh. by rewrite Hnh, Hlk.
Qed.
End exchange.
