(* ===== verification/Uudp.v ===== *)
(** * UDP ports

    [net/uudp/uudp.c]: the interface the applications use. A port is an object
    [struct uudp] of an application, registered in a linked list, with two
    queues of packet buffers: free ones and received ones. The network service
    moves a buffer from the first to the second in the callback of the stack
    ([Ustack]); [hf_uudp_recv] moves it back. The objects live where the code
    has them: the nodes of the list are words of the heap ([LinkedList]); the
    queues ([Queue]) and the buffers are heap blocks whose contents are kept by
    address. *)

From S2P Require Import Prelude Words Ustack Alloc Mutex Queue LinkedList.

Definition UUDP_RETRIES : nat := 5.
Definition UUDP_DELAY_ON_RETRY : Z := 200.
Definition ERR_OK : Z := 0.
Definition ERR_ERROR : Z := -1.
Definition ERR_OUT_OF_MEMORY : Z := -104.

(** [struct uudp]; the queues are pointers. *)
Record uudp : Type := Uudp { listen_port : Z; free_buffers : Z; pkt_queue : Z }.

(** What the functions work on: the heap with the interrupt status, the
    [struct uudp] objects, the queues and the packet buffers by address, the
    list, the lock and the seed of [random]. *)
Record ports {H : Type} : Type := Ports {
  heap : Z * H;
  comms : gmap Z uudp;
  queues : gmap Z (queue Z);
  buffers : gmap Z (list Z);
  comm_list : Z;
  uudplock : mtx;
  rand1 : Z;
}.
Arguments ports : clear implicits.
Arguments Ports {H}.

Section uudp.
Context {H L : Type} {HA : Allocator H} {LL : LinkLayer L}.
Implicit Types w : ports H.

(** What fresh memory contains, the number of list nodes a walk may visit, and
    what the other tasks and the network service do during a [delay_ms]. *)
Variables (garbage : Z -> option Z) (stale : Z -> Z) (fuel : nat).
Variable delay_ms : Z -> ST (net L (ports H)) unit.

Definition with_heap (h : Z * H) w : ports H :=
  Ports h (comms w) (queues w) (buffers w) (comm_list w) (uudplock w) (rand1 w).
Definition with_comms (m : gmap Z uudp) w : ports H :=
  Ports (heap w) m (queues w) (buffers w) (comm_list w) (uudplock w) (rand1 w).
Definition with_queues (m : gmap Z (queue Z)) w : ports H :=
  Ports (heap w) (comms w) m (buffers w) (comm_list w) (uudplock w) (rand1 w).
Definition with_buffers (m : gmap Z (list Z)) w : ports H :=
  Ports (heap w) (comms w) (queues w) m (comm_list w) (uudplock w) (rand1 w).
Definition with_list (l : Z) w : ports H :=
  Ports (heap w) (comms w) (queues w) (buffers w) l (uudplock w) (rand1 w).
Definition with_lock (l : mtx) w : ports H :=
  Ports (heap w) (comms w) (queues w) (buffers w) (comm_list w) l (rand1 w).
Definition with_seed (x : Z) w : ports H :=
  Ports (heap w) (comms w) (queues w) (buffers w) (comm_list w) (uudplock w) x.

(** Calls of the components below. *)
Definition on_heap {A : Type} (m : ST (Z * H) A) : ST (ports H) A := fun w =>
  '(a, h) ← m (heap w); Ok (a, with_heap h w).
Definition on_lock {A : Type} (m : ST (Z * mtx) A) : ST (ports H) A := fun w =>
  '(a, (irq, l)) ← m ((heap w).1, uudplock w);
  Ok (a, with_lock l (with_heap (irq, (heap w).2) w)).
Definition on_queue {A : Type} (q : Z) (m : ST (queue Z) A) : ST (ports H) A := fun w =>
  match queues w !! q with
  | Some x => '(a, x) ← m x; Ok (a, with_queues (<[q := x]> (queues w)) w)
  | None => Fault
  end.

(** [comm->...], and an assignment to its fields. *)
Definition comm_at (c : Z) : ST (ports H) uudp := fun w =>
  match comms w !! c with Some x => Ok (x, w) | None => Fault end.
Definition set_comm (c : Z) (f : uudp -> uudp) : ST (ports H) unit :=
  x ← comm_at c; modify (fun w => with_comms (<[c := f x]> (comms w)) w).

(** [memcpy] to and from a packet buffer. *)
Definition buffer_write (b : Z) (bs : list Z) : ST (ports H) unit := fun w =>
  match buffers w !! b with
  | Some B => B ← splice B 0 bs; Ok (tt, with_buffers (<[b := B]> (buffers w)) w)
  | None => Fault
  end.
Definition buffer_read {A : Type} (b : Z) (f : list Z -> outcome A) : ST (ports H) A := fun w =>
  match buffers w !! b with Some B => lift (f B) w | None => Fault end.

(** [for (i = 0; i < k; i++) { comm_node = hf_list_get(comm_list, i); if
    (comm_node->listen_port == port) break; }]: [i] and [comm_node] after it,
    [n] turns being left. *)
Fixpoint find_port (n : nat) (i port comm_node : Z) : ST (ports H) (Z * Z) :=
  match n with
  | O => mret (i, comm_node)
  | S n =>
      lst ← gets comm_list;
      c ← on_heap (hf_list_get fuel lst i);
      x ← comm_at c;
      if listen_port x =? port then mret (i, c) else find_port n (i + 1) port c
  end.

Definition list_count : ST (ports H) Z :=
  lst ← gets comm_list; on_heap (hf_list_count fuel lst).

(** *** Reception *)

Definition udp_callback (packet : list Z) : ST (ports H) unit :=
  port ← lift (be16 packet UDP_HDR_DESTPORT1);
  k ← list_count;
  '(i, comm_node) ← find_port (Z.to_nat k) 0 port 0;
  if i <? k then
    x ← comm_at comm_node;
    buff ← on_queue (free_buffers x) hf_queue_remhead;
    match buff with
    | Some buff =>
        len ← lift (be16 packet IP_HDR_LEN1);
        bs ← lift (slice packet 0 len);
        _ ← buffer_write buff bs;
        _ ← on_queue (pkt_queue x) (hf_queue_addtail (Some buff));
        mret tt
    | None => mret tt
    end
  else mret tt.

(** The same as the function the stack calls. *)
Definition callback_fn (packet : list Z) (w : ports H) : outcome (ports H) :=
  '(_, w) ← udp_callback packet w; Ok w.

(** What [hf_uudp_recv] stores: source address, source port and data. *)
Definition received : Type := list Z * Z * list Z.

Definition hf_uudp_recv (comm : Z) : ST (ports H) (Z * option received) :=
  x ← comm_at comm;
  n ← on_queue (pkt_queue x) hf_queue_count;
  if n =? 0 then mret (0, None) else
  p ← on_queue (pkt_queue x) hf_queue_remhead;
  let ptr := default 0 p in
  len ← buffer_read ptr (fun B => be16 B UDP_HDR_LEN1);
  if PACKET_SIZE - ETH_HEADER_SIZE - UDP_HEADER_SIZE <? len then mret (ERR_ERROR, None) else
  src_ip ← buffer_read ptr (fun B => slice B IP_HDR_SRCADDR1 4);
  src_port ← buffer_read ptr (fun B => be16 B UDP_HDR_SRCPORT1);
  buf ← buffer_read ptr (fun B => slice B UDP_DATA_OFS (len - UDP_HEADER_SIZE));
  _ ← on_queue (free_buffers x) (hf_queue_addtail (Some ptr));
  mret (len - UDP_HEADER_SIZE, Some (src_ip, src_port, buf)).

(** *** Opening and closing *)

Definition random : ST (ports H) Z := fun w =>
  let s := u32 (rand1 w * 1103515245 + 12345) in
  Ok (Z.land (Z.shiftr s 16) 32767, with_seed s w).

(** [hf_queue_create] and [hf_queue_destroy] with the queue's own block. *)
Definition queue_create (size : Z) : ST (ports H) Z :=
  r ← on_heap (hf_queue_create garbage size);
  match r with
  | Some (qp, q) => _ ← modify (fun w => with_queues (<[qp := q]> (queues w)) w); mret qp
  | None => mret 0
  end.
Definition queue_destroy (qp : Z) : ST (ports H) unit := fun w =>
  match queues w !! qp with
  | Some q =>
      (r ← on_heap (hf_queue_destroy qp q);
       when (r =? 0) (modify (fun w => with_queues (delete qp (queues w)) w))) w
  | None => Fault
  end.

(** [hf_malloc(PACKET_SIZE)] and the release of a buffer. *)
Definition buffer_malloc : ST (ports H) Z :=
  p ← on_heap (hf_malloc PACKET_SIZE);
  _ ← when (nz p)
    (modify (fun w => with_buffers (<[p := tabulate (Z.to_nat PACKET_SIZE) stale]> (buffers w)) w));
  mret p.
Definition buffer_free (p : Z) : ST (ports H) unit :=
  _ ← on_heap (hf_free p); modify (fun w => with_buffers (delete p (buffers w)) w).

(** [while (hf_queue_count(q)) hf_free(hf_queue_remhead(q));] *)
Fixpoint drain (n : nat) (q : Z) : ST (ports H) unit :=
  match n with
  | O => timeout_st
  | S n =>
      k ← on_queue q hf_queue_count;
      if nz k then
        p ← on_queue q hf_queue_remhead;
        _ ← buffer_free (default 0 p);
        drain n q
      else mret tt
  end.

(** The release of both queues with their buffers. *)
Definition release_queues (n : nat) (x : uudp) : ST (ports H) unit :=
  _ ← drain n (free_buffers x);
  _ ← queue_destroy (free_buffers x);
  _ ← drain n (pkt_queue x);
  queue_destroy (pkt_queue x).

(** [for (i = 0; i < qsize; i++) { ptr = hf_malloc(PACKET_SIZE); ... }]: whether
    all the buffers were found. *)
Fixpoint fill (n : nat) (q : Z) : ST (ports H) bool :=
  match n with
  | O => mret true
  | S n =>
      ptr ← buffer_malloc;
      if ptr =? 0 then mret false
      else _ ← on_queue q (hf_queue_addtail (Some ptr)); fill n q
  end.

(** [hf_uudp_create] from the buffers on, from the registration on, and from
    the choice of the port number on. *)
Definition open_buffers (comm fq qsize : Z) : ST (ports H) Z :=
  filled ← fill (Z.to_nat qsize) fq;
  if filled : bool then mret ERR_OK else
  x ← comm_at comm;
  _ ← release_queues (S (Z.to_nat qsize)) x;
  k ← list_count;
  lst ← gets comm_list;
  _ ← on_heap (hf_list_remove fuel lst (k - 1));
  mret ERR_OUT_OF_MEMORY.

Definition open_queues (comm qsize : Z) : ST (ports H) Z :=
  lst ← gets comm_list;
  r ← on_heap (hf_list_append fuel lst comm);
  if nz r then mret ERR_OUT_OF_MEMORY else
  fq ← queue_create (i32 qsize);
  _ ← set_comm comm (fun x => Uudp (listen_port x) fq (pkt_queue x));
  if fq =? 0 then mret ERR_OUT_OF_MEMORY else
  pq ← queue_create (i32 qsize);
  _ ← set_comm comm (fun x => Uudp (listen_port x) (free_buffers x) pq);
  if pq =? 0 then mret ERR_OUT_OF_MEMORY else
  open_buffers comm fq qsize.

Definition open_port (comm port qsize : Z) : ST (ports H) Z :=
  port ← (if port =? 0 then
    r ← random; mret (u16 (u32 r mod 16383 + 49152)) else mret port);
  _ ← set_comm comm (fun x => Uudp port (free_buffers x) (pkt_queue x));
  k ← list_count;
  '(i, _) ← find_port (Z.to_nat k) 0 port 0;
  if i <? k then mret ERR_ERROR else open_queues comm qsize.

Definition hf_uudp_destroy (comm : Z) : ST (ports H) Z :=
  lst ← gets comm_list;
  if lst =? 0 then mret ERR_ERROR else
  k ← list_count;
  c ← comm_at comm;
  '(i, comm_node) ← find_port (Z.to_nat k) 0 (listen_port c) 0;
  if comm_node =? 0 then mret ERR_ERROR else
  x ← comm_at comm_node;
  if negb (listen_port x =? listen_port c) then mret ERR_ERROR else
  nf ← on_queue (free_buffers c) hf_queue_count;
  np ← on_queue (pkt_queue c) hf_queue_count;
  _ ← release_queues (S (Z.to_nat (Z.max nf np))) c;
  _ ← on_heap (hf_list_remove fuel lst i);
  mret ERR_OK.

(** *** On the network stack *)

Definition on_user {A : Type} (m : ST (ports H) A) : ST (net L (ports H)) A := fun s =>
  '(a, w) ← m (user s); Ok (a, with_user w s).

Definition hf_uudp_create (comm listen_port qsize : Z) : ST (net L (ports H)) Z :=
  cb ← udp_get_callback;
  ready ← (match cb with
    | Some _ => mret true
    | None =>
        lst ← on_user (on_heap hf_list_init);
        _ ← on_user (modify (with_list lst));
        if lst =? 0 then mret false else
        _ ← udp_set_callback (Some callback_fn);
        _ ← on_user (on_lock hf_mtxinit);
        mret true
    end);
  if ready : bool then on_user (open_port comm listen_port qsize) else mret ERR_OUT_OF_MEMORY.

(** [do { val = udp_out(...); ... } while (val == 0 && tries++ < UUDP_RETRIES);],
    [n] more turns being allowed. *)
Fixpoint send_loop (n : nat) (comm : Z) (dst_ip : list Z) (dst_port len : Z) : ST (net L (ports H)) Z :=
  x ← on_user (comm_at comm);
  val ← udp_out dst_ip (listen_port x) dst_port (len + UDP_HEADER_SIZE);
  if val =? 0 then
    _ ← delay_ms UUDP_DELAY_ON_RETRY;
    match n with
    | O => mret val
    | S n => send_loop n comm dst_ip dst_port len
    end
  else mret val.

Definition hf_uudp_send (comm : Z) (dst_ip : list Z) (dst_port : Z) (buf : list Z) (len : Z) :
    ST (net L (ports H)) Z :=
  if PACKET_SIZE - ETH_HEADER_SIZE - UDP_HEADER_SIZE <? len then mret ERR_ERROR else
  _ ← on_user (on_lock (hf_mtxlock fuel));
  bs ← lift (slice buf 0 len);
  _ ← write [(ETH_HEADER_SIZE + IP_HEADER_SIZE + UDP_HEADER_SIZE, bs)];
  val ← send_loop UUDP_RETRIES comm dst_ip dst_port len;
  _ ← on_user (on_lock hf_mtxunlock);
  mret val.
End uudp.

(** ** The ports as bounded queues of datagrams *)

(** The state of one port: its addresses, the capacity of its queues, its free
    buffers, and its received ones with the datagrams in them. *)
Record pstate : Type := PState {
  ps_comm : Z; ps_port : Z;
  ps_fq : Z; ps_fbuf : Z; ps_pq : Z; ps_pbuf : Z;
  ps_cap : Z;
  ps_free : list Z;
  ps_pkts : list (Z * list Z);
}.

(** The 16-bit field at [o] of a datagram, and a datagram that can be read: its
    length as UDP counts it covers the header and, where it is not refused,
    lies in what was stored. *)
Definition word_at (d : list Z) (o : Z) : Z := match be16 d o with Ok x => x | _ => 0 end.
Definition max_udp : Z := PACKET_SIZE - ETH_HEADER_SIZE - UDP_HEADER_SIZE.
Definition dgram_ok (d : list Z) : bool :=
  (28 <=? zlen d) && (8 <=? word_at d UDP_HDR_LEN1)
  && ((max_udp <? word_at d UDP_HDR_LEN1) || (20 + word_at d UDP_HDR_LEN1 <=? zlen d)).

(** The heap blocks it owns. *)
Definition ps_blocks (p : pstate) : list Z :=
  ps_fq p :: ps_fbuf p :: ps_pq p :: ps_pbuf p :: ps_free p ++ (ps_pkts p).*1.

Section invariant.
Context {H : Type} {HA : Allocator H} {HL : AllocatorLaws H}.
Implicit Types (w : ports H) (p : pstate) (ns : list Z).

(** The queue of pointers at [qp]. *)
Definition queue_at w (qp buf cap : Z) (l : list Z) : Prop :=
  exists q, queues w !! qp = Some q /\ queue_rep q (Some <$> l) /\ q_capacity q = cap /\ q_buf q = buf.

(** A packet buffer that begins with [d]. *)
Definition buffer_at w (b : Z) (d : list Z) : Prop :=
  exists rest, buffers w !! b = Some (d ++ rest) /\ zlen d + zlen rest = PACKET_SIZE.

Record port_rep w p : Prop := {
  pr_comm : comms w !! ps_comm p = Some (Uudp (ps_port p) (ps_fq p) (ps_pq p));
  pr_free : queue_at w (ps_fq p) (ps_fbuf p) (ps_cap p) (ps_free p);
  pr_pkts : queue_at w (ps_pq p) (ps_pbuf p) (ps_cap p) (ps_pkts p).*1;
  pr_room : zlen (ps_free p) + zlen (ps_pkts p) <= ps_cap p;
  pr_empty : Forall (fun b => buffer_at w b []) (ps_free p);
  pr_full : Forall (fun x => buffer_at w x.1 x.2) (ps_pkts p);
  pr_dgrams : Forall (fun x => dgram_ok x.2 = true) (ps_pkts p);
}.

(** All the ports: registered in the list, each port number once, and no two
    of the heap blocks in use the same. *)
Record ports_rep w ns (ps : list pstate) : Prop := {
  po_list : list_rep (heap w).2 (comm_list w) ns (ps_comm <$> ps);
  po_ports : Forall (port_rep w) ps;
  po_comms : NoDup (ps_comm <$> ps);
  po_numbers : NoDup (ps_port <$> ps);
  po_apart : NoDup ((comm_list w :: ns) ++ (ps ≫= ps_blocks));
  po_live : Forall (fun b => is_Some (heap_live (heap w).2 !! b)) (ps ≫= ps_blocks);
}.
End invariant.

(** ** Single calls *)

Section calls.
Context {H : Type} {HA : Allocator H} {HL : AllocatorLaws H}.
Implicit Types (w : ports H) (p : pstate) (ns : list Z).

Lemma lift_run {S A : Type} (o : outcome A) (s : S) a : o = Ok a -> lift o s = Ok (a, s).
Proof. intros ->. done. Qed.

Lemma with_heap_same w : with_heap (heap w) w = w.
Proof. by destruct w. Qed.

Lemma on_heap_read {A : Type} (m : ST (Z * H) A) w a :
  m (heap w) = Ok (a, heap w) -> on_heap m w = Ok (a, w).
Proof. intros E. unfold on_heap. rewrite E. cbn. by rewrite with_heap_same. Qed.

Lemma on_queue_run {A : Type} q (m : ST (queue Z) A) w x a x' :
  queues w !! q = Some x -> m x = Ok (a, x') ->
  on_queue q m w = Ok (a, with_queues (<[q := x']> (queues w)) w).
Proof. intros Hq E. unfold on_queue. by rewrite Hq, E. Qed.

Lemma count_run w qp buf cap l : queue_at w qp buf cap l ->
  on_queue qp hf_queue_count w = Ok (zlen l, w).
Proof.
  intros (q & Hq & R & _). rewrite (on_queue_run qp _ w q (zlen l) q Hq).
  - rewrite insert_id by done. by destruct w.
  - rewrite (count_spec q _ R). by rewrite zlen_fmap.
Qed.

(** What a call on one queue leaves, and the others. *)
Lemma queue_at_insert w qp q l buf cap :
  queue_rep q (Some <$> l) -> q_capacity q = cap -> q_buf q = buf ->
  queue_at (with_queues (<[qp := q]> (queues w)) w) qp buf cap l.
Proof. intros R Hc Hb. exists q. split_and!; try done. cbn. apply lookup_insert_eq. Qed.

Lemma push_run w qp buf cap l b : queue_at w qp buf cap l -> zlen l < cap ->
  exists q, on_queue qp (hf_queue_addtail (Some b)) w = Ok (0, with_queues (<[qp := q]> (queues w)) w)
    /\ queue_at (with_queues (<[qp := q]> (queues w)) w) qp buf cap (l ++ [b]).
Proof.
  intros (q & Hq & R & Hc & Hb) Hroom. pose proof (addtail_spec q _ (Some b) R) as S.
  rewrite zlen_fmap in S. destruct (Z.eqb_spec (zlen l) (q_capacity q)) as [|_]; [lia|].
  destruct S as (q' & E & R' & Hs). exists q'. split; [by apply (on_queue_run qp _ w q)|].
  apply queue_at_insert.
  - by rewrite fmap_app.
  - unfold q_capacity in *. lia.
  - unfold hf_queue_addtail in E. repeat case_match; try done.
    destruct (aset _ _ _); [|done..]. by injection E as <-.
Qed.

Lemma pop_run w qp buf cap b l : queue_at w qp buf cap (b :: l) ->
  exists q, on_queue qp hf_queue_remhead w = Ok (Some b, with_queues (<[qp := q]> (queues w)) w)
    /\ queue_at (with_queues (<[qp := q]> (queues w)) w) qp buf cap l.
Proof.
  intros (q & Hq & R & Hc & Hb). destruct (remhead_cons q _ _ R) as (q' & E & R' & Hs).
  exists q'. split; [by apply (on_queue_run qp _ w q)|]. apply queue_at_insert; [done| |].
  - unfold q_capacity in *. lia.
  - unfold hf_queue_remhead in E. repeat case_match; try done.
    destruct (aget _ _); [|done..]. by injection E as _ <-.
Qed.

Lemma pop_empty_run w qp buf cap : queue_at w qp buf cap [] ->
  on_queue qp hf_queue_remhead w = Ok (None, w).
Proof.
  intros (q & Hq & R & _). rewrite (on_queue_run qp _ w q None q Hq (remhead_nil q R)).
  rewrite insert_id by done. by destruct w.
Qed.

(** Overwriting the beginning of a buffer. *)
Lemma buffer_write_run w b d bs : buffer_at w b d -> zlen bs <= PACKET_SIZE ->
  exists B, buffer_write b bs w = Ok (tt, with_buffers (<[b := B]> (buffers w)) w)
    /\ buffer_at (with_buffers (<[b := B]> (buffers w)) w) b bs.
Proof.
  intros (rest & Hb & Hl) Hbs. unfold buffer_write. rewrite Hb. unfold splice.
  rewrite zlen_app, Hl. pose proof (zlen_nonneg bs).
  destruct (Z.leb_spec 0 0); [|lia]. destruct (Z.leb_spec (0 + zlen bs) PACKET_SIZE); [|lia].
  change (Z.to_nat 0) with 0%nat. cbn [andb take app mbind outcome_bind]. eexists. split; [done|].
  eexists. cbn [buffers with_buffers]. split; [by rewrite lookup_insert_eq|].
  unfold zlen in *. rewrite length_drop, length_app. lia.
Qed.

(** Reading inside the datagram of a buffer. *)
Lemma slice_app d rest o n : 0 <= o -> 0 <= n -> o + n <= zlen d -> slice (d ++ rest) o n = slice d o n.
Proof.
  intros Ho Hn Hd. unfold slice. rewrite zlen_app. pose proof (zlen_nonneg rest).
  destruct (Z.leb_spec 0 o); [|lia]. destruct (Z.leb_spec 0 n); [|lia].
  destruct (Z.leb_spec (o + n) (zlen d + zlen rest)); [|lia].
  destruct (Z.leb_spec (o + n) (zlen d)); [|lia]. cbn [andb]. f_equal.
  unfold zlen in *. rewrite drop_app_le, take_app_le; [done|rewrite length_drop|]; lia.
Qed.

Lemma be16_app d rest o : 0 <= o -> o + 2 <= zlen d -> be16 (d ++ rest) o = be16 d o.
Proof. intros Ho Hd. apply be16_ext; by rewrite zget_app_l by lia. Qed.

Lemma buffer_read_run {A : Type} w b d (f : list Z -> outcome A) a :
  buffer_at w b d -> (forall rest, f (d ++ rest) = Ok a) -> buffer_read b f w = Ok (a, w).
Proof. intros (rest & Hb & _) Hf. unfold buffer_read. rewrite Hb. unfold lift. by rewrite Hf. Qed.

Lemma block_fq p : ps_fq p ∈ ps_blocks p.
Proof. apply list_elem_of_here. Qed.

Lemma block_pq p : ps_pq p ∈ ps_blocks p.
Proof. unfold ps_blocks. rewrite !elem_of_cons. auto. Qed.

Lemma block_free p b : b ∈ ps_free p -> b ∈ ps_blocks p.
Proof. unfold ps_blocks. rewrite !elem_of_cons, elem_of_app. auto 7. Qed.

Lemma block_full p b d : (b, d) ∈ ps_pkts p -> b ∈ ps_blocks p.
Proof.
  intros Hin. unfold ps_blocks. rewrite !elem_of_cons, elem_of_app. do 5 right.
  apply list_elem_of_fmap. by exists (b, d).
Qed.

(** A port depends on its object, its queues and its buffers only. *)
Lemma port_rep_ext w w' p : port_rep w p -> comms w' !! ps_comm p = comms w !! ps_comm p ->
  (forall b, b ∈ ps_blocks p -> queues w' !! b = queues w !! b /\ buffers w' !! b = buffers w !! b) ->
  port_rep w' p.
Proof.
  intros [Hc Hf Hp Hr He Hfl Hd] Hcc Hb. constructor; [by rewrite Hcc| | |done| | |done].
  - destruct Hf as (q & Hq & R). exists q. rewrite (proj1 (Hb _ (block_fq p))). done.
  - destruct Hp as (q & Hq & R). exists q. rewrite (proj1 (Hb _ (block_pq p))). done.
  - rewrite list.Forall_forall in He |- *. intros b Hin. destruct (He b Hin) as (rest & Hr1 & Hr2).
    exists rest. rewrite (proj2 (Hb b (block_free p b Hin))). done.
  - rewrite list.Forall_forall in Hfl |- *. intros [b d] Hin. destruct (Hfl _ Hin) as (rest & Hr1 & Hr2).
    exists rest. cbn in Hr1 |- *. rewrite (proj2 (Hb b (block_full p b d Hin))). done.
Qed.
End calls.

(** ** The abstract machine *)

(** A port as the applications see it: its object, its number, how many more
    datagrams it can take, and those waiting. *)
Record aport : Type := APort { ap_comm : Z; ap_port : Z; ap_free : Z; ap_dgrams : list (list Z) }.

Definition abstract_port (p : pstate) : aport :=
  APort (ps_comm p) (ps_port p) (zlen (ps_free p)) (ps_pkts p).*2.

(** A datagram arrives: the port with its number keeps it or drops it. *)
Fixpoint a_arrive (port : Z) (d : list Z) (l : list aport) : list aport :=
  match l with
  | [] => []
  | a :: l =>
      if ap_port a =? port then
        (if 0 <? ap_free a then APort (ap_comm a) port (ap_free a - 1) (ap_dgrams a ++ [d]) else a) :: l
      else a :: a_arrive port d l
  end.

(** The oldest datagram is received; one whose length is refused takes its
    place in the queue with it. *)
Definition a_take (a : aport) : (Z * option received) * aport :=
  match ap_dgrams a with
  | [] => ((0, None), a)
  | d :: ds =>
      let len := word_at d UDP_HDR_LEN1 in
      if max_udp <? len then ((ERR_ERROR, None), APort (ap_comm a) (ap_port a) (ap_free a) ds)
      else ((len - UDP_HEADER_SIZE,
             Some (take 4 (drop 12 d), word_at d UDP_HDR_SRCPORT1, take (Z.to_nat (len - 8)) (drop 28 d))),
            APort (ap_comm a) (ap_port a) (ap_free a + 1) ds)
  end.

Fixpoint a_recv (c : Z) (l : list aport) : (Z * option received) * list aport :=
  match l with
  | [] => ((0, None), [])
  | a :: l =>
      if ap_comm a =? c then let '(r, a) := a_take a in (r, a :: l)
      else let '(r, l) := a_recv c l in (r, a :: l)
  end.

(** Calls of the callback by the stack and of [hf_uudp_recv] by applications. *)
Inductive uop : Type := Arrive (packet : list Z) | Receive (comm : Z).

Definition u_call {H : Type} {HA : Allocator H} (fuel : nat) (o : uop) : ST (ports H) (Z * option received) :=
  match o with
  | Arrive packet => _ ← udp_callback fuel packet; mret (0, None)
  | Receive comm => hf_uudp_recv comm
  end.

Fixpoint u_calls {H : Type} {HA : Allocator H} (fuel : nat) (os : list uop) :
    ST (ports H) (list (Z * option received)) :=
  match os with
  | [] => mret []
  | o :: os => r ← u_call fuel o; rs ← u_calls fuel os; mret (r :: rs)
  end.

Definition a_call (o : uop) (l : list aport) : (Z * option received) * list aport :=
  match o with
  | Arrive packet =>
      ((0, None), a_arrive (word_at packet UDP_HDR_DESTPORT1)
        (take (Z.to_nat (word_at packet IP_HDR_LEN1)) packet) l)
  | Receive comm => a_recv comm l
  end.

Fixpoint a_calls (os : list uop) (l : list aport) : list (Z * option received) * list aport :=
  match os with
  | [] => ([], l)
  | o :: os => let '(r, l) := a_call o l in let '(rs, l) := a_calls os l in (r :: rs, l)
  end.

(** A packet the stack may hand up: its IP length lies in the buffer and its
    UDP length in the packet. *)
Definition packet_ok (packet : list Z) : bool :=
  let len := word_at packet IP_HDR_LEN1 in
  (len <=? PACKET_SIZE) && (len <=? zlen packet) && dgram_ok (take (Z.to_nat len) packet).

(** The calls are made with such packets and on ports that are open. *)
Definition uop_ok (cs : list Z) (o : uop) : bool :=
  match o with Arrive packet => packet_ok packet | Receive comm => bool_decide (comm ∈ cs) end.

Section refinement.
Context {H : Type} {HA : Allocator H} {HL : AllocatorLaws H}.
Implicit Types (w : ports H) (p : pstate) (ns : list Z) (ps pre post : list pstate).

Lemma blocks_split pre p post :
  (pre ++ p :: post) ≫= ps_blocks ≡ₚ ps_blocks p ++ ((pre ++ post) ≫= ps_blocks).
Proof. rewrite !bind_app, bind_cons. solve_Permutation. Qed.

(** A step on the blocks of one port that keeps to them, or gives some up. *)
Lemma ports_update w w' ns pre p p' post :
  ports_rep w ns (pre ++ p :: post) -> port_rep w' p' ->
  ps_comm p' = ps_comm p -> ps_port p' = ps_port p -> ps_blocks p' ⊆+ ps_blocks p ->
  heap w' = heap w -> comm_list w' = comm_list w -> comms w' = comms w ->
  (forall b, b ∉ ps_blocks p -> queues w' !! b = queues w !! b /\ buffers w' !! b = buffers w !! b) ->
  ports_rep w' ns (pre ++ p' :: post).
Proof.
  intros [Hl Hp Hc Hn Ha Hv] Hp' Ec Ep Hb Eh El Ecs Hsame.
  assert (Hfm : forall f : pstate -> Z, f p' = f p -> f <$> (pre ++ p' :: post) = f <$> (pre ++ p :: post))
    by (intros f E; rewrite !fmap_app, !fmap_cons, E; done).
  rewrite blocks_split in Ha, Hv.
  assert (Hsub : ps_blocks p' ++ ((pre ++ post) ≫= ps_blocks) ⊆+ ps_blocks p ++ ((pre ++ post) ≫= ps_blocks))
    by by apply submseteq_skips_r.
  assert (Hother : forall x, x ∈ pre ++ post -> port_rep w' x).
  { intros x Hx. rewrite list.Forall_forall in Hp.
    apply (port_rep_ext w); [apply Hp|by rewrite Ecs|];
      [apply elem_of_app in Hx; rewrite elem_of_app, elem_of_cons; tauto|]. intros b Hb'. apply Hsame. intros Hin.
    apply list.NoDup_app in Ha as (_ & _ & (_ & Hd & _)%list.NoDup_app).
    apply (Hd b Hin), list_elem_of_bind. by exists x. }
  constructor; rewrite ?Eh, ?El, ?(Hfm _ Ec), ?(Hfm _ Ep), ?blocks_split; try done.
  - apply list.Forall_forall. intros x [Hx|[->|Hx]%elem_of_cons]%elem_of_app; [|done|];
      apply Hother, elem_of_app; auto.
  - apply submseteq_Permutation in Hsub as [k Hk]. rewrite Hk, app_assoc in Ha.
    by apply list.NoDup_app in Ha as (? & _ & _).
  - apply submseteq_Permutation in Hsub as [k Hk]. rewrite Hk in Hv. by apply list.Forall_app in Hv as [? _].
Qed.

Lemma list_count_run w ns ps fuel : ports_rep w ns ps -> (length ns < fuel)%nat ->
  list_count fuel w = Ok (zlen ps, w).
Proof.
  intros [Hl _ _ _ _ _] Hf. unfold list_count.
  assert (E : gets comm_list w = Ok (comm_list w, w)) by done. st_step E. apply on_heap_read.
  destruct (heap w) as [irq h]. pose proof Hl as [Hok [x0 Hc] _ Hs]. unfold hf_list_count.
  rewrite (count_loop_run irq h fuel ns _ x0 _ 0 Hok Hc Hf); [|done|rewrite (rep_zlen _ _ _ _ Hl); lia].
  by rewrite (rep_zlen _ _ _ _ Hl), zlen_fmap, Z.add_0_l.
Qed.

(** The search stops at the port with the number, or after the last one. *)
Lemma find_port_run w ns fuel port : forall suf done c, ports_rep w ns (done ++ suf) ->
  (length ns < fuel)%nat ->
  exists i c', find_port fuel (length suf) (zlen done) port c w = Ok ((i, c'), w) /\
    ((i = zlen (done ++ suf) /\ port ∉ ps_port <$> suf) \/
     (exists pre p post, suf = pre ++ p :: post /\ (port ∉ ps_port <$> pre) /\ ps_port p = port
       /\ i = zlen (done ++ pre) /\ c' = ps_comm p)).
Proof.
  induction suf as [|p suf IH]; intros dn c Hw Hf.
  { exists (zlen dn), c. split; [done|]. left. rewrite app_nil_r. split; [done|apply not_elem_of_nil]. }
  cbn [length find_port]. assert (E : gets comm_list w = Ok (comm_list w, w)) by done. st_step E. clear E.
  pose proof Hw as [Hl Hp _ _ _ _].
  assert (E : on_heap (hf_list_get fuel (comm_list w) (zlen dn)) w = Ok (ps_comm p, w)).
  { apply on_heap_read. destruct (heap w) as [irq h]. rewrite (list_get_run irq h _ ns _ _ fuel Hl Hf).
    rewrite fmap_app, fmap_cons, zget_app_r; rewrite zlen_fmap; [|lia]. by rewrite Z.sub_diag, zget_cons_0. }
  st_step E. clear E. apply list.Forall_app in Hp as [_ [Hp _]%list.Forall_cons].
  assert (E : comm_at (ps_comm p) w = Ok (Uudp (ps_port p) (ps_fq p) (ps_pq p), w))
    by (unfold comm_at; by rewrite (pr_comm _ _ Hp)).
  st_step E. clear E. cbn [listen_port]. destruct (Z.eqb_spec (ps_port p) port) as [Heq|Hne].
  - exists (zlen dn), (ps_comm p). split; [done|]. right. exists [], p, suf.
    split_and!; [done|apply not_elem_of_nil|done|by rewrite app_nil_r|done].
  - destruct (IH (dn ++ [p]) (ps_comm p)) as (i & c' & E & Hcase); [by rewrite <- app_assoc|done|].
    rewrite zlen_app in E. change (zlen [p]) with 1 in E. exists i, c'. split; [done|].
    destruct Hcase as [[-> Hn]|(pre & x & post & -> & Hn & Hx & -> & ->)].
    + left. rewrite <- app_assoc. split; [done|]. rewrite fmap_cons, not_elem_of_cons. auto.
    + right. exists (p :: pre), x, post. rewrite <- app_assoc.
      split_and!; [done| |done|done|done]. rewrite fmap_cons, not_elem_of_cons. auto.
Qed.

Lemma queue_at_ext w w' qp buf cap l : queue_at w qp buf cap l -> queues w' !! qp = queues w !! qp ->
  queue_at w' qp buf cap l.
Proof. intros (q & Hq & R) E. exists q. by rewrite E. Qed.

Lemma buffer_at_ext w w' b d : buffer_at w b d -> buffers w' !! b = buffers w !! b -> buffer_at w' b d.
Proof. intros (rest & Hr & Hl) E. exists rest. by rewrite E. Qed.

Lemma buffers_at_ext w w' (l : list (Z * list Z)) b : Forall (fun x => buffer_at w x.1 x.2) l ->
  b ∉ l.*1 -> (forall c, c <> b -> buffers w' !! c = buffers w !! c) ->
  Forall (fun x => buffer_at w' x.1 x.2) l.
Proof.
  intros Hl Hb E. rewrite list.Forall_forall in Hl |- *. intros x Hx. apply (buffer_at_ext w); [by apply Hl|].
  apply E. intros <-. apply Hb, list_elem_of_fmap. by exists x.
Qed.

(** The fields of a datagram that is long enough. *)
Lemma word_at_run d o : 0 <= o -> o + 2 <= zlen d -> be16 d o = Ok (word_at d o).
Proof.
  intros Ho Hd. unfold word_at. destruct (zget_is_Some d o ltac:(lia)) as [x Hx].
  destruct (zget_is_Some d (o + 1) ltac:(lia)) as [y Hy]. unfold be16.
  by rewrite (aget_Ok _ _ _ Hx), (aget_Ok _ _ _ Hy).
Qed.

(** The port that answers to a number. *)
Lemma a_arrive_skip port d l1 l2 : port ∉ ap_port <$> l1 ->
  a_arrive port d (l1 ++ l2) = l1 ++ a_arrive port d l2.
Proof.
  induction l1 as [|a l1 IH]; intros Hn; [done|]. rewrite fmap_cons, not_elem_of_cons in Hn.
  cbn [app a_arrive]. destruct (Z.eqb_spec (ap_port a) port) as [E|_]; [by destruct Hn as [[] _]|].
  by rewrite IH by tauto.
Qed.

Lemma a_recv_skip c l1 l2 : c ∉ ap_comm <$> l1 ->
  a_recv c (l1 ++ l2) = ((a_recv c l2).1, l1 ++ (a_recv c l2).2).
Proof.
  induction l1 as [|a l1 IH]; intros Hn; [cbn [app]; by destruct (a_recv c l2)|].
  rewrite fmap_cons, not_elem_of_cons in Hn. cbn [app a_recv].
  destruct (Z.eqb_spec (ap_comm a) c) as [E|_]; [by destruct Hn as [[] _]|].
  by rewrite IH by tauto.
Qed.

Lemma ports_blocks_nodup w ns pre p post : ports_rep w ns (pre ++ p :: post) -> NoDup (ps_blocks p).
Proof.
  intros [_ _ _ _ Ha _]. rewrite blocks_split in Ha. by apply list.NoDup_app in Ha as (_ & _ & (? & _ & _)%list.NoDup_app).
Qed.

Lemma dgram_ok_spec d : dgram_ok d = true ->
  28 <= zlen d /\ 8 <= word_at d 24 /\ (word_at d 24 <= max_udp -> 20 + word_at d 24 <= zlen d).
Proof.
  unfold dgram_ok, UDP_HDR_LEN1. intros [[H1 H2]%andb_prop [H3|H3]%orb_prop]%andb_prop; lia.
Qed.

Lemma packet_ok_spec pkt : packet_ok pkt = true ->
  let n := word_at pkt 2 in let d := take (Z.to_nat n) pkt in
  28 <= n <= PACKET_SIZE /\ n <= zlen pkt /\ zlen d = n /\ dgram_ok d = true /\ slice pkt 0 n = Ok d.
Proof.
  intros Hp n d. change ((n <=? PACKET_SIZE) && (n <=? zlen pkt) && dgram_ok d = true) in Hp.
  apply andb_prop in Hp as [[H1 H2]%andb_prop H3].
  destruct (dgram_ok_spec d H3) as (H28 & _). assert (Hd : zlen d = n).
  { unfold d, zlen in *. rewrite length_take in *. lia. }
  split_and!; try done; [lia|lia|lia|]. unfold slice. change (Z.to_nat 0) with 0%nat.
  destruct (Z.leb_spec 0 n); [|lia]. destruct (Z.leb_spec (0 + n) (zlen pkt)); [done|lia].
Qed.

(** The port [p] with its first free buffer [b] taken for [d]. *)
Definition ps_store (p : pstate) (b : Z) (fr : list Z) (d : list Z) : pstate :=
  PState (ps_comm p) (ps_port p) (ps_fq p) (ps_fbuf p) (ps_pq p) (ps_pbuf p) (ps_cap p) fr
    (ps_pkts p ++ [(b, d)]).

Lemma ps_store_blocks p b fr d : ps_free p = b :: fr -> ps_blocks (ps_store p b fr d) ≡ₚ ps_blocks p.
Proof. intros E. unfold ps_blocks. cbn. rewrite E, fmap_app. cbn. solve_Permutation. Qed.

Lemma blocks_apart p : NoDup (ps_blocks p) ->
  ps_fq p <> ps_pq p /\ NoDup (ps_free p ++ (ps_pkts p).*1).
Proof.
  unfold ps_blocks. rewrite !list.NoDup_cons, !not_elem_of_cons. tauto.
Qed.

(** What the callback does with the port it found. *)
Lemma keep_run w p b fr d : port_rep w p -> NoDup (ps_blocks p) -> ps_free p = b :: fr ->
  dgram_ok d = true -> zlen d <= PACKET_SIZE ->
  exists q1 B q2, let w1 := with_queues (<[ps_fq p := q1]> (queues w)) w in
    let w2 := with_buffers (<[b := B]> (buffers w1)) w1 in
    let w3 := with_queues (<[ps_pq p := q2]> (queues w2)) w2 in
    on_queue (ps_fq p) hf_queue_remhead w = Ok (Some b, w1) /\ buffer_write b d w1 = Ok (tt, w2)
    /\ on_queue (ps_pq p) (hf_queue_addtail (Some b)) w2 = Ok (0, w3) /\ port_rep w3 (ps_store p b fr d).
Proof.
  intros [Hc Hf Hp Hr He Hfl Hdg] Hnd Efr Hd Hsz. rewrite Efr in *.
  destruct (pop_run w _ _ _ b fr Hf) as (q1 & E1 & Hf1).
  destruct (blocks_apart p Hnd) as [Hne Hnf]. rewrite Efr in Hnf. apply list.NoDup_cons in Hnf as [Hb _].
  rewrite elem_of_app in Hb.
  set (w1 := with_queues (<[ps_fq p := q1]> (queues w)) w) in *.
  apply list.Forall_cons in He as [Hb0 He].
  destruct (buffer_write_run w1 b [] d) as (B & E2 & Hb2); [by apply (buffer_at_ext w)|done|].
  set (w2 := with_buffers (<[b := B]> (buffers w1)) w1) in *.
  destruct (push_run w2 (ps_pq p) (ps_pbuf p) (ps_cap p) (ps_pkts p).*1 b) as (q2 & E3 & Hp3).
  { apply (queue_at_ext w); [done|]. cbn. by apply lookup_insert_ne. }
  { rewrite zlen_fmap. rewrite zlen_cons in Hr. pose proof (zlen_nonneg fr). lia. }
  exists q1, B, q2. split_and!; [done|done|done|].
  set (w3 := with_queues (<[ps_pq p := q2]> (queues w2)) w2) in *.
  assert (Ebuf : forall c, c <> b -> buffers w3 !! c = buffers w !! c)
    by (intros c Hcb; cbn; by apply lookup_insert_ne).
  constructor; cbn [ps_store ps_comm ps_port ps_fq ps_fbuf ps_pq ps_pbuf ps_cap ps_free ps_pkts].
  - done.
  - apply (queue_at_ext w1); [done|]. cbn. by rewrite lookup_insert_ne.
  - by rewrite fmap_app.
  - rewrite zlen_app. rewrite zlen_cons in Hr. change (zlen [(b, d)]) with 1. lia.
  - rewrite list.Forall_forall in He |- *. intros c Hin. apply (buffer_at_ext w); [by apply He|].
    apply Ebuf. intros ->. tauto.
  - apply list.Forall_app. split; [apply (buffers_at_ext w w3 _ b); tauto|].
    apply list.Forall_singleton. by apply (buffer_at_ext w2).
  - apply list.Forall_app. split; [done|by apply list.Forall_singleton].
Qed.

Lemma callback_run w ns ps fuel pkt : ports_rep w ns ps -> (length ns < fuel)%nat -> packet_ok pkt = true ->
  exists w' ps', udp_callback fuel pkt w = Ok (tt, w') /\ ports_rep w' ns ps'
    /\ abstract_port <$> ps' = a_arrive (word_at pkt UDP_HDR_DESTPORT1)
         (take (Z.to_nat (word_at pkt IP_HDR_LEN1)) pkt) (abstract_port <$> ps)
    /\ heap w' = heap w /\ comms w' = comms w.
Proof.
  intros Hw Hf Hpk. destruct (packet_ok_spec pkt Hpk) as (Hn & Hnp & Hd & Hdg & Hsl).
  unfold udp_callback. change UDP_HDR_DESTPORT1 with 22. change IP_HDR_LEN1 with 2. cbv zeta in *.
  set (port := word_at pkt 22). set (d := take (Z.to_nat (word_at pkt 2)) pkt) in *.
  st_step (lift_run _ w port (word_at_run pkt 22 ltac:(lia) ltac:(lia))). st_step (list_count_run w ns ps fuel Hw Hf).
  destruct (find_port_run w ns fuel port ps [] 0 Hw Hf) as (i & c & E & Hcase).
  change (zlen []) with 0 in E. assert (El : Z.to_nat (zlen ps) = length ps) by (unfold zlen; lia).
  rewrite El. st_step E. clear E El.
  destruct Hcase as [[-> Hno]|(pre & p & post & -> & Hno & Hp & -> & ->)]; cbn [app].
  { rewrite Z.ltb_irrefl. exists w, ps. split_and!; [done|done| |done|done].
    rewrite <- (app_nil_r (abstract_port <$> ps)), a_arrive_skip; [done|].
    by rewrite <- list_fmap_compose. }
  rewrite zlen_app, zlen_cons. pose proof (zlen_nonneg post).
  destruct (Z.ltb_spec (zlen pre) (zlen pre + (1 + zlen post))); [|lia].
  pose proof Hw as [_ Hps _ _ _ _]. apply list.Forall_app in Hps as [_ [Hrep _]%list.Forall_cons].
  assert (E : comm_at (ps_comm p) w = Ok (Uudp (ps_port p) (ps_fq p) (ps_pq p), w))
    by (unfold comm_at; by rewrite (pr_comm _ _ Hrep)).
  st_step E. clear E. cbn [free_buffers pkt_queue].
  rewrite !fmap_app, fmap_cons, a_arrive_skip by (by rewrite <- list_fmap_compose). cbn [a_arrive].
  assert (Eq : (ap_port (abstract_port p) =? port) = true) by by apply Z.eqb_eq. rewrite Eq.
  destruct (ps_free p) as [|b fr] eqn:Efr.
  { pose proof (pr_free _ _ Hrep) as Hq. rewrite Efr in Hq. st_step (pop_empty_run w _ _ _ Hq).
    exists w, (pre ++ p :: post). split_and!; [done|done| |done|done].
    assert (Ez : ap_free (abstract_port p) = 0) by (cbn; by rewrite Efr). rewrite Ez.
    by rewrite fmap_app, fmap_cons. }
  destruct (keep_run w p b fr d Hrep (ports_blocks_nodup _ _ _ _ _ Hw) Efr Hdg ltac:(lia))
    as (q1 & B & q2 & E1 & E2 & E3 & Hrep'). st_step E1.
  st_step (lift_run (be16 pkt 2) (with_queues (<[ps_fq p := q1]> (queues w)) w) _
    (word_at_run pkt 2 ltac:(lia) ltac:(lia))).
  st_step (lift_run _ (with_queues (<[ps_fq p := q1]> (queues w)) w) _ Hsl).
  st_step E2. st_step E3. eexists _, (pre ++ ps_store p b fr d :: post). split_and!; [done| | |done|done].
  - apply (ports_update w _ ns pre p); try done; [by rewrite (ps_store_blocks p b fr d Efr)|].
    intros c Hc. assert (Hb : b ∈ ps_blocks p) by (apply block_free; rewrite Efr; apply list_elem_of_here).
    pose proof (block_fq p). pose proof (block_pq p). cbn. by rewrite !lookup_insert_ne by congruence.
  - assert (Ez : ap_free (abstract_port p) = 1 + zlen fr) by (cbn; by rewrite Efr, zlen_cons).
    rewrite Ez. pose proof (zlen_nonneg fr). destruct (Z.ltb_spec 0 (1 + zlen fr)); [|lia].
    rewrite fmap_app, fmap_cons. do 2 f_equal. unfold abstract_port.
    cbn [ps_store ps_comm ps_port ps_free ps_pkts ap_comm ap_dgrams]. rewrite fmap_app, Hp. f_equal. lia.
Qed.

(** The port with its first datagram received, the buffer being kept or not. *)
Definition ps_shift (p : pstate) (fr : list Z) (pk : list (Z * list Z)) : pstate :=
  PState (ps_comm p) (ps_port p) (ps_fq p) (ps_fbuf p) (ps_pq p) (ps_pbuf p) (ps_cap p) fr pk.

Lemma take_rep w p b d pk : port_rep w p -> NoDup (ps_blocks p) -> ps_pkts p = (b, d) :: pk ->
  exists q, let w1 := with_queues (<[ps_pq p := q]> (queues w)) w in
    on_queue (ps_pq p) hf_queue_remhead w = Ok (Some b, w1) /\ buffer_at w1 b d
    /\ dgram_ok d = true /\ port_rep w1 (ps_shift p (ps_free p) pk).
Proof.
  intros [Hc Hf Hp Hr He Hfl Hdg] Hnd Epk. destruct (blocks_apart p Hnd) as [Hne _]. rewrite Epk in *.
  destruct (pop_run w _ _ _ b pk.*1 Hp) as (q & E & Hp1). apply list.Forall_cons in Hfl as [Hb Hfl].
  apply list.Forall_cons in Hdg as [Hd Hdg]. exists q.
  split_and!; [done|by apply (buffer_at_ext w)|done|].
  constructor; cbn [ps_shift ps_comm ps_port ps_fq ps_fbuf ps_pq ps_pbuf ps_cap ps_free ps_pkts]; try done.
  - apply (queue_at_ext w); [done|]. cbn. by apply lookup_insert_ne.
  - rewrite zlen_cons in Hr. lia.
Qed.

Lemma give_back w p b d pk : port_rep w (ps_shift p (ps_free p) pk) -> NoDup (ps_blocks p) ->
  ps_pkts p = (b, d) :: pk -> zlen (ps_free p) + zlen (ps_pkts p) <= ps_cap p -> buffer_at w b d ->
  exists q, let w1 := with_queues (<[ps_fq p := q]> (queues w)) w in
    on_queue (ps_fq p) (hf_queue_addtail (Some b)) w = Ok (0, w1)
    /\ port_rep w1 (ps_shift p (ps_free p ++ [b]) pk).
Proof.
  intros [Hc Hf Hp Hr He Hfl Hdg] Hnd Epk Hroom Hb. destruct (blocks_apart p Hnd) as [Hne _].
  cbn [ps_shift ps_comm ps_port ps_fq ps_fbuf ps_pq ps_pbuf ps_cap ps_free ps_pkts] in *.
  rewrite Epk, zlen_cons in Hroom. pose proof (zlen_nonneg pk).
  destruct (push_run w _ _ _ (ps_free p) b Hf ltac:(lia)) as (q & E & Hf1). exists q. split; [done|].
  constructor; cbn [ps_shift ps_comm ps_port ps_fq ps_fbuf ps_pq ps_pbuf ps_cap ps_free ps_pkts]; try done.
  - apply (queue_at_ext w); [done|]. cbn. by apply lookup_insert_ne.
  - rewrite zlen_app. change (zlen [b]) with 1. lia.
  - apply list.Forall_app. split; [done|]. apply list.Forall_singleton.
    destruct Hb as (rest & Hb & Hl). exists (d ++ rest). split; [done|]. rewrite zlen_app. cbn [snd]. change (zlen (@nil Z)) with 0. lia.
Qed.

(** The fields of the head datagram, read from its buffer. *)
Lemma read_fields w b d : buffer_at w b d -> dgram_ok d = true ->
  buffer_read b (fun B => be16 B UDP_HDR_LEN1) w = Ok (word_at d 24, w)
  /\ (word_at d 24 <= max_udp ->
      buffer_read b (fun B => slice B IP_HDR_SRCADDR1 4) w = Ok (take 4 (drop 12 d), w)
      /\ buffer_read b (fun B => be16 B UDP_HDR_SRCPORT1) w = Ok (word_at d 20, w)
      /\ buffer_read b (fun B => slice B UDP_DATA_OFS (word_at d 24 - UDP_HEADER_SIZE)) w
         = Ok (take (Z.to_nat (word_at d 24 - 8)) (drop 28 d), w)).
Proof.
  intros Hb Hd. destruct (dgram_ok_spec d Hd) as (H28 & H8 & Hlen).
  assert (Hsl : forall o n, 0 <= o -> 0 <= n -> o + n <= zlen d -> forall rest,
    slice (d ++ rest) o n = Ok (take (Z.to_nat n) (drop (Z.to_nat o) d))).
  { intros o n Ho Hn Hs rest. rewrite slice_app by done. unfold slice.
    destruct (Z.leb_spec 0 o), (Z.leb_spec 0 n), (Z.leb_spec (o + n) (zlen d)); done || lia. }
  split.
  - apply (buffer_read_run _ _ d); [done|]. intros rest. unfold UDP_HDR_LEN1.
    rewrite be16_app by lia. by apply word_at_run; lia.
  - intros Hm. specialize (Hlen Hm). unfold UDP_HEADER_SIZE, UDP_DATA_OFS, UDP_HDR_SRCPORT1, IP_HDR_SRCADDR1.
    split_and!; apply (buffer_read_run _ _ d); try done; intros rest.
    + by apply (Hsl 12 4); lia.
    + rewrite be16_app by lia. by apply word_at_run; lia.
    + by apply (Hsl 28 (word_at d 24 - 8)); lia.
Qed.

Lemma recv_run w ns pre p post : ports_rep w ns (pre ++ p :: post) ->
  exists w' p', hf_uudp_recv (ps_comm p) w = Ok ((a_take (abstract_port p)).1, w')
    /\ ports_rep w' ns (pre ++ p' :: post) /\ abstract_port p' = (a_take (abstract_port p)).2
    /\ heap w' = heap w /\ comms w' = comms w.
Proof.
  intros Hw. pose proof (ports_blocks_nodup _ _ _ _ _ Hw) as Hnd.
  pose proof Hw as [_ Hps _ _ _ _]. apply list.Forall_app in Hps as [_ [Hrep _]%list.Forall_cons].
  unfold hf_uudp_recv.
  assert (E : comm_at (ps_comm p) w = Ok (Uudp (ps_port p) (ps_fq p) (ps_pq p), w))
    by (unfold comm_at; by rewrite (pr_comm _ _ Hrep)).
  st_step E. clear E. cbn [free_buffers pkt_queue].
  st_step (count_run w _ _ _ _ (pr_pkts _ _ Hrep)). rewrite zlen_fmap.
  unfold a_take. cbn [ap_dgrams abstract_port]. destruct (ps_pkts p) as [|[b d] pk] eqn:Epk.
  { exists w, p. by split_and!. }
  rewrite zlen_cons. pose proof (zlen_nonneg pk). destruct (Z.eqb_spec (1 + zlen pk) 0); [lia|].
  destruct (take_rep w p b d pk Hrep Hnd Epk) as (q & E & Hb & Hd & Hrep1). st_step E. clear E.
  set (w1 := with_queues (<[ps_pq p := q]> (queues w)) w) in *. cbn [default from_option fmap list_fmap snd].
  destruct (read_fields w1 b d Hb Hd) as (E1 & E2). st_step E1. change UDP_HDR_LEN1 with 24.
  change (PACKET_SIZE - ETH_HEADER_SIZE - UDP_HEADER_SIZE) with max_udp.
  assert (Hq1 : forall c, c ∉ ps_blocks p -> queues w1 !! c = queues w !! c).
  { intros c Hc. pose proof (block_pq p). cbn. by rewrite lookup_insert_ne by congruence. }
  destruct (Z.ltb_spec max_udp (word_at d 24)) as [Hbig|Hsm].
  - exists w1, (ps_shift p (ps_free p) pk). split_and!; try done.
    apply (ports_update w w1 ns pre p); try done.
    + unfold ps_blocks. cbn. rewrite Epk. do 4 apply submseteq_skip. apply submseteq_skips_l.
      by apply submseteq_cons.
    + intros c Hc. split; [by apply Hq1|done].
  - destruct (E2 Hsm) as (E3 & E4 & E5). st_step E3. st_step E4. st_step E5.
    destruct (give_back w1 p b d pk Hrep1 Hnd Epk (pr_room _ _ Hrep) Hb) as (q2 & E6 & Hrep2). st_step E6.
    set (w2 := with_queues (<[ps_fq p := q2]> (queues w1)) w1) in *.
    exists w2, (ps_shift p (ps_free p ++ [b]) pk). split_and!; try done.
    + apply (ports_update w w2 ns pre p); try done.
      * unfold ps_blocks. cbn. rewrite Epk. cbn. apply Permutation_submseteq. solve_Permutation.
      * intros c Hc. split; [|done]. pose proof (block_fq p). cbn.
        rewrite lookup_insert_ne by congruence. by apply Hq1.
    + unfold abstract_port. cbn. rewrite zlen_app. done.
Qed.

(** The objects stay the same. *)
Lemma a_take_comm a : ap_comm (a_take a).2 = ap_comm a.
Proof. unfold a_take. repeat case_match; done. Qed.

Lemma a_call_comms o l : ap_comm <$> (a_call o l).2 = ap_comm <$> l.
Proof.
  destruct o as [pkt|c]; cbn [a_call snd].
  - induction l as [|a l IH]; [done|]. cbn [a_arrive]. repeat case_match; rewrite ?fmap_cons, ?IH; done.
  - induction l as [|a l IH]; [done|]. cbn [a_recv]. destruct (ap_comm a =? c).
    + pose proof (a_take_comm a). destruct (a_take a). cbn in *. congruence.
    + destruct (a_recv c l). cbn in *. congruence.
Qed.

Lemma abstract_comms ps : ap_comm <$> (abstract_port <$> ps) = ps_comm <$> ps.
Proof. by rewrite <- list_fmap_compose. Qed.

Lemma u_call_run w ns ps fuel o : ports_rep w ns ps -> (length ns < fuel)%nat ->
  uop_ok (ps_comm <$> ps) o = true ->
  exists w' ps', u_call fuel o w = Ok ((a_call o (abstract_port <$> ps)).1, w') /\ ports_rep w' ns ps'
    /\ abstract_port <$> ps' = (a_call o (abstract_port <$> ps)).2.
Proof.
  intros Hw Hf Hok. destruct o as [pkt|c]; cbn [u_call a_call uop_ok] in *.
  - destruct (callback_run w ns ps fuel pkt Hw Hf Hok) as (w' & ps' & E & Hw' & Ha & _).
    exists w', ps'. st_step E. by split_and!.
  - apply bool_decide_eq_true in Hok. apply list_elem_of_fmap in Hok as (p & -> & Hin).
    apply list_elem_of_split in Hin as (pre & post & ->).
    destruct (recv_run w ns pre p post Hw) as (w' & p' & E & Hw' & Ha & _).
    exists w', (pre ++ p' :: post). rewrite E, !fmap_app, !fmap_cons, a_recv_skip.
    + cbn [a_recv]. assert (Ec : (ap_comm (abstract_port p) =? ps_comm p) = true) by by apply Z.eqb_eq.
      rewrite Ec, Ha. by destruct (a_take (abstract_port p)).
    + rewrite abstract_comms. pose proof (po_comms _ _ _ Hw) as Hnd.
      rewrite fmap_app, fmap_cons in Hnd. apply list.NoDup_app in Hnd as (_ & Hd & _). intros Hin.
      apply (Hd _ Hin), list_elem_of_here.
Qed.
End refinement.

