(* ===== verification/UudpPorts.v ===== *)
(** * Opening and closing UDP ports

    [hf_uudp_create] and [hf_uudp_destroy] of [net/uudp/uudp.c] on the
    invariant of [Uudp]: what they allocate, what they release, and what is
    left when memory runs out. *)

From S2P Require Import Prelude Words Ustack Alloc Mutex Queue LinkedList Uudp.

(** ** Heap blocks beside the ports *)

Section blocks.
Context {H : Type} {HA : Allocator H} {HL : AllocatorLaws H}.
Implicit Types (w : ports H) (p : pstate) (ns cs ex : list Z) (ps : list pstate).

(** The ports [ps], a list of objects [cs], and blocks [ex] in use besides. *)
Record ports_in w ns cs ps ex : Prop := {
  pi_list : list_rep (heap w).2 (comm_list w) ns cs;
  pi_ports : Forall (port_rep w) ps;
  pi_comms : NoDup (ps_comm <$> ps);
  pi_numbers : NoDup (ps_port <$> ps);
  pi_apart : NoDup ((comm_list w :: ns) ++ (ps ≫= ps_blocks) ++ ex);
  pi_live : Forall (fun b => is_Some (heap_live (heap w).2 !! b)) ((ps ≫= ps_blocks) ++ ex);
}.

#[export] Instance ports_in_proper w ns cs ps : Proper (Permutation ==> iff) (ports_in w ns cs ps).
Proof.
  assert (Hp : forall ex ex', ex ≡ₚ ex' -> ports_in w ns cs ps ex -> ports_in w ns cs ps ex').
  { intros ex ex' E [H1 H2 H3 H4 H5 H6]. constructor; try done.
    - by rewrite <- E.
    - by rewrite <- E. }
  intros ex ex' E. split; by apply Hp.
Qed.

Lemma ports_in_close w ns ps : ports_rep w ns ps <-> ports_in w ns (ps_comm <$> ps) ps [].
Proof.
  split; intros [H1 H2 H3 H4 H5 H6]; constructor; rewrite ?app_nil_r in *; done.
Qed.

(** One port set apart, and put back. *)
Lemma ports_in_split w ns pre p post : ports_rep w ns (pre ++ p :: post) ->
  ports_in w ns (ps_comm <$> pre ++ p :: post) (pre ++ post) (ps_blocks p) /\ port_rep w p.
Proof.
  intros [H1 H2 H3 H4 H5 H6]. rewrite blocks_split, (Permutation_app_comm (ps_blocks p)) in H5, H6.
  rewrite <- Permutation_middle in H2, H3, H4. rewrite fmap_cons in H3, H4.
  apply list.NoDup_cons in H3 as [_ H3]. apply list.NoDup_cons in H4 as [_ H4].
  apply list.Forall_cons in H2 as [Hp H2]. split; [|done]. by constructor.
Qed.

Lemma ports_in_join w ns ps p : ports_in w ns ((ps_comm <$> ps) ++ [ps_comm p]) ps (ps_blocks p) ->
  port_rep w p -> ps_comm p ∉ ps_comm <$> ps -> ps_port p ∉ ps_port <$> ps -> ports_rep w ns (ps ++ [p]).
Proof.
  intros [H1 H2 H3 H4 H5 H6] Hp Hc Hn. constructor; rewrite ?fmap_app.
  - done.
  - apply list.Forall_app. split; [done|by apply list.Forall_singleton].
  - apply list.NoDup_app. split; [done|]. split; [|apply NoDup_singleton].
    by intros x Hx ->%list_elem_of_singleton.
  - apply list.NoDup_app. split; [done|]. split; [|apply NoDup_singleton].
    by intros x Hx ->%list_elem_of_singleton.
  - rewrite bind_app. cbn. by rewrite app_nil_r.
  - rewrite bind_app. cbn. by rewrite app_nil_r.
Qed.

(** Queues and buffers at other addresses, and objects of no port. *)
Lemma ports_in_maps w w' ns cs ps ex : ports_in w ns cs ps ex ->
  heap w' = heap w -> comm_list w' = comm_list w ->
  (forall c, c ∈ ps_comm <$> ps -> comms w' !! c = comms w !! c) ->
  (forall b, b ∈ ps ≫= ps_blocks -> queues w' !! b = queues w !! b /\ buffers w' !! b = buffers w !! b) ->
  ports_in w' ns cs ps ex.
Proof.
  intros [H1 H2 H3 H4 H5 H6] Eh El Ec Eb. constructor; rewrite ?Eh, ?El; try done.
  rewrite list.Forall_forall in H2 |- *. intros p Hp. apply (port_rep_ext w); [by apply H2| |].
  - apply Ec, list_elem_of_fmap. by exists p.
  - intros b Hb. apply Eb, list_elem_of_bind. by exists p.
Qed.

(** *** The heap under them *)

Lemma list_rep_untouched h h' lst ns cs us : list_rep h lst ns cs -> heap_ok h' -> untouched h h' us ->
  (forall t, t ∈ lst :: ns -> t ∉ us) -> list_rep h' lst ns cs.
Proof.
  intros [Hok [x0 Hc] Hnd Hsm] Hok' HU Hd. constructor; [done| |done|done]. exists x0.
  eapply chain_ext; [|exact Hc]. by apply (untouched_keeps h h' us).
Qed.

Lemma list_nodes_live h lst ns cs t : list_rep h lst ns cs -> t ∈ lst :: ns -> is_Some (heap_live h !! t).
Proof.
  intros [Hok [x0 Hc] _ _] Ht. destruct (chain_node h _ _ _ _ t Hc Ht) as (x & q & (n & Hn & _) & _).
  by exists n.
Qed.

Lemma malloc_untouched irq h size q h' : heap_ok h -> 0 <= size <= max_request ->
  hf_malloc size (irq, h) = Ok (q, (irq, h')) -> untouched h h' [].
Proof.
  intros Hok Hs E b n Hb _. split.
  - destruct (malloc_spec irq h size Hok Hs) as (q' & h2 & E' & _ & Hc). rewrite E in E'.
    injection E' as <- <-. destruct Hc as [[_ ->]|(_ & Hf & m & _ & ->)]; [done|].
    rewrite lookup_insert_ne; [done|congruence].
  - intros a Ha. by apply (malloc_frame irq h size q h' b n a Hok Hs E Hb).
Qed.

Lemma free_untouched irq h q m h' : heap_ok h -> heap_live h !! q = Some m ->
  hf_free q (irq, h) = Ok (tt, (irq, h')) -> untouched h h' [q].
Proof.
  intros Hok Hq E b n Hb Hne. split.
  - destruct (free_spec irq h q m Hok Hq) as (h2 & E' & _ & Hl). rewrite E in E'. injection E' as <-.
    rewrite Hl, lookup_delete_ne; [done|]. intros ->. apply Hne, list_elem_of_here.
  - intros a Ha. by apply (free_frame irq h q m h' b n a Hok Hq E Hb).
Qed.

Lemma apart_cons (l1 l2 ex : list Z) q :
  NoDup (l1 ++ l2 ++ q :: ex) <-> (q ∉ l1) /\ (q ∉ l2 ++ ex) /\ NoDup (l1 ++ l2 ++ ex).
Proof.
  rewrite (app_assoc l1 l2 (q :: ex)), <- Permutation_middle, list.NoDup_cons, <- app_assoc, elem_of_app. tauto.
Qed.

Lemma in_malloc w ns cs ps ex size : ports_in w ns cs ps ex -> 0 <= size <= max_request ->
  exists q h, let w' := with_heap ((heap w).1, h) w in on_heap (hf_malloc size) w = Ok (q, w')
    /\ ((q = 0 /\ ports_in w' ns cs ps ex) \/ (q <> 0 /\ ports_in w' ns cs ps (q :: ex))).
Proof.
  intros [H1 H2 H3 H4 H5 H6] Hs. unfold on_heap. destruct (heap w) as [irq h0]. cbn [fst snd] in *.
  destruct (malloc_spec irq h0 size (lr_ok _ _ _ _ H1) Hs) as (q & h & E & Hok & Hc).
  pose proof (malloc_untouched irq h0 size q h (lr_ok _ _ _ _ H1) Hs E) as HU.
  assert (H1' : list_rep h (comm_list w) ns cs)
    by (apply (list_rep_untouched h0 h _ _ _ []); try done; intros t _; apply not_elem_of_nil).
  assert (H6' : Forall (fun b => is_Some (heap_live h !! b)) ((ps ≫= ps_blocks) ++ ex)).
  { eapply list.Forall_impl; [exact H6|]. intros b [n Hb]. exists n.
    by apply (HU b n Hb), not_elem_of_nil. }
  assert (H2' : Forall (port_rep (with_heap (irq, h) w)) ps).
  { eapply list.Forall_impl; [exact H2|]. intros p Hp. by apply (port_rep_ext w). }
  exists q, h. rewrite E. split; [done|]. destruct Hc as [[-> _]|(Hq & Hf & n & _ & Hl)].
  - left. split; [done|]. by constructor.
  - right. split; [done|]. constructor; try done.
    + apply apart_cons. split; [|split; [|done]]; intros Hin.
      * destruct (list_nodes_live h0 _ _ _ q H1 Hin). congruence.
      * rewrite list.Forall_forall in H6. destruct (H6 q Hin). congruence.
    + cbn [heap with_heap snd]. rewrite <- Permutation_middle. apply list.Forall_cons. split; [|done].
      exists n. rewrite Hl. apply lookup_insert_eq.
Qed.

Lemma in_free w ns cs ps ex q : ports_in w ns cs ps (q :: ex) ->
  exists h, let w' := with_heap ((heap w).1, h) w in on_heap (hf_free q) w = Ok (tt, w')
    /\ ports_in w' ns cs ps ex.
Proof.
  intros [H1 H2 H3 H4 H5 H6]. unfold on_heap. destruct (heap w) as [irq h0]. cbn [fst snd] in *.
  apply apart_cons in H5 as (Hn1 & Hn2 & H5). rewrite <- Permutation_middle in H6.
  apply list.Forall_cons in H6 as [[n Hq] H6].
  destruct (free_spec irq h0 q n (lr_ok _ _ _ _ H1) Hq) as (h & E & Hok & Hl).
  pose proof (free_untouched irq h0 q n h (lr_ok _ _ _ _ H1) Hq E) as HU.
  exists h. rewrite E. split; [done|]. constructor; try done.
  - apply (list_rep_untouched h0 h _ _ _ [q]); try done. by intros t Ht ->%list_elem_of_singleton.
  - eapply list.Forall_impl; [exact H2|]. intros p Hp. by apply (port_rep_ext w).
  - rewrite list.Forall_forall in H6 |- *. intros b Hb. destruct (H6 b Hb) as [m Hm]. exists m.
    apply (HU b m Hm). by intros ->%list_elem_of_singleton.
Qed.

Lemma on_heap_bind {A B : Type} (m : ST (Z * H) A) (f : A -> ST (Z * H) B) w :
  on_heap (mbind f m) w = mbind (fun a => on_heap (f a)) (on_heap m) w.
Proof.
  unfold on_heap, mbind, ST_bind, outcome_bind. by destruct (m (heap w)) as [[a h]| | |].
Qed.

(** *** Queues *)

(** Steps that leave the objects, the list and all queues but [q] alone. *)
Record other_queues w w' (q : Z) : Prop := {
  oq_comms : comms w' = comms w;
  oq_list : comm_list w' = comm_list w;
  oq_queues : forall b, b <> q -> queues w' !! b = queues w !! b;
}.

Lemma other_queues_trans w1 w2 w3 q : other_queues w1 w2 q -> other_queues w2 w3 q -> other_queues w1 w3 q.
Proof. intros [C1 L1 Q1] [C2 L2 Q2]. constructor; [congruence|congruence|]. intros b Hb. by rewrite Q2, Q1. Qed.

Lemma in_not_block w ns cs ps ex q : ports_in w ns cs ps (q :: ex) -> q ∉ ps ≫= ps_blocks.
Proof. intros [_ _ _ _ H5 _] Hin. apply apart_cons in H5 as (_ & Hn & _). apply Hn, elem_of_app. by left. Qed.

(** A change of the queue or of the buffer at a block that is no port's. *)
Lemma in_queue_set w ns cs ps ex q m : ports_in w ns cs ps (q :: ex) ->
  (forall b, b <> q -> m !! b = queues w !! b) -> ports_in (with_queues m w) ns cs ps (q :: ex).
Proof.
  intros Hw Hm. apply (ports_in_maps w); try done. intros b Hb. split; [|done].
  apply Hm. intros ->. by apply (in_not_block _ _ _ _ _ _ Hw).
Qed.

Lemma in_buffer_set w ns cs ps ex q m : ports_in w ns cs ps (q :: ex) ->
  (forall b, b <> q -> m !! b = buffers w !! b) -> ports_in (with_buffers m w) ns cs ps (q :: ex).
Proof.
  intros Hw Hm. apply (ports_in_maps w); try done. intros b Hb. split; [done|].
  apply Hm. intros ->. by apply (in_not_block _ _ _ _ _ _ Hw).
Qed.

Lemma queue_alloc_run (garbage : Z -> option Z) w ns cs ps ex size : ports_in w ns cs ps ex -> 0 <= size <= max_create_size ->
  exists r h, let w1 := with_heap ((heap w).1, h) w in
    on_heap (hf_queue_create garbage size) w = Ok (r, w1) /\
    match r with
    | None => ports_in w1 ns cs ps ex
    | Some (qp, q) => qp <> 0 /\ ports_in w1 ns cs ps (qp :: q_buf q :: ex) /\ queue_rep q []
        /\ q_capacity q = size
    end.
Proof.
  intros Hw Hs. unfold max_create_size in Hs. unfold hf_queue_create. rewrite on_heap_bind.
  destruct (in_malloc w ns cs ps ex sizeof_queue Hw) as (q & h & E & Hc);
    [unfold sizeof_queue, max_request; lia|]. st_step E. clear E.
  destruct Hc as [[-> Hw1]|[Hq Hw1]]; [by exists None, h|].
  destruct (Z.eqb_spec q 0); [done|]. rewrite on_heap_bind, i32_small by lia.
  unfold sizeof_ptr. rewrite u32_small by lia.
  destruct (in_malloc _ ns cs ps (q :: ex) ((size + 1) * 4) Hw1) as (d & h2 & E & Hc);
    [unfold max_request; lia|]. st_step E. clear E. cbn [heap with_heap fst snd] in *.
  destruct Hc as [[-> Hw2]|[Hd Hw2]].
  - change (0 =? 0) with true. cbv iota. rewrite on_heap_bind.
    destruct (in_free _ ns cs ps ex q Hw2) as (h3 & E & Hw3). st_step E. by exists None, h3.
  - destruct (Z.eqb_spec d 0); [done|]. eexists (Some (q, _)), h2. split; [done|].
    split_and!; [done|cbn [q_buf]; by rewrite (Permutation_swap q d) in Hw2| |].
    + apply rep_new. unfold max_queue_size. lia.
    + unfold q_capacity. cbn. lia.
Qed.

Lemma queue_create_run (garbage : Z -> option Z) w ns cs ps ex size : ports_in w ns cs ps ex -> 0 <= size <= max_create_size ->
  exists q w', queue_create garbage size w = Ok (q, w') /\ other_queues w w' q /\ buffers w' = buffers w
    /\ ((q = 0 /\ ports_in w' ns cs ps ex) \/
        (q <> 0 /\ exists buf, ports_in w' ns cs ps (q :: buf :: ex) /\ queue_at w' q buf size [])).
Proof.
  intros Hw Hs. destruct (queue_alloc_run garbage w ns cs ps ex size Hw Hs) as (r & h & E & Hr).
  unfold queue_create. st_step E. destruct r as [[q x]|].
  - destruct Hr as (Hq & Hw1 & R & Hcap). eexists q, _. split; [done|].
    split; [constructor; [done|done|]; intros b Hb; by apply lookup_insert_ne|]. split; [done|].
    right. split; [done|]. exists (q_buf x). split; [|by apply queue_at_insert].
    apply (in_queue_set _ _ _ _ _ _ _ Hw1). intros b Hb. by apply lookup_insert_ne.
  - eexists 0, _. split; [done|]. split; [done|]. split; [done|]. by left.
Qed.

(** An empty queue is released with its array. *)
Lemma queue_destroy_run w ns cs ps ex q buf cap : ports_in w ns cs ps (q :: buf :: ex) ->
  queue_at w q buf cap [] ->
  exists w', queue_destroy q w = Ok (tt, w') /\ other_queues w w' q /\ ports_in w' ns cs ps ex.
Proof.
  intros Hw (x & Hx & R & Hcap & Hb). unfold queue_destroy. rewrite Hx.
  rewrite (Permutation_swap buf q) in Hw.
  destruct (in_free w ns cs ps (q :: ex) buf Hw) as (h1 & E1 & Hw1).
  destruct (in_free _ ns cs ps ex q Hw1) as (h2 & E2 & Hw2).
  assert (E : on_heap (hf_queue_destroy q x) w = Ok (0, with_heap ((heap w).1, h2) w)).
  { unfold hf_queue_destroy. rewrite (rep_empty x _ R). change (zlen (Some <$> []) =? 0) with true. cbv iota.
    rewrite on_heap_bind, Hb. st_step E1. rewrite on_heap_bind. st_step E2. done. }
  st_step E. change (0 =? 0) with true. eexists. split; [done|].
  split; [constructor; [done|done|]; intros b Hbq; by apply lookup_delete_ne|].
  apply (ports_in_maps _ _ ns cs ps ex Hw2); try done. intros b Hin. split; [|done].
  cbn. apply lookup_delete_ne. intros <-. by apply (in_not_block _ _ _ _ _ _ Hw1).
Qed.

Lemma count_other w w' q q2 buf cap l : other_queues w w' q -> q2 <> q -> queue_at w q2 buf cap l ->
  queue_at w' q2 buf cap l.
Proof. intros O Hq Hw. apply (queue_at_ext w); [done|]. by apply (oq_queues _ _ _ O). Qed.

(** Releasing the buffers a queue points to. *)
Lemma drain_run n : forall w ns cs ps ex q buf cap l, ports_in w ns cs ps (q :: l ++ ex) ->
  queue_at w q buf cap l -> (length l < n)%nat ->
  exists w', drain n q w = Ok (tt, w') /\ other_queues w w' q /\ ports_in w' ns cs ps (q :: ex)
    /\ queue_at w' q buf cap [].
Proof.
  induction n as [|n IH]; intros w ns cs ps ex q buf cap l Hw Hq Hn; [lia|]. cbn [drain].
  st_step (count_run w q buf cap l Hq). destruct l as [|b l].
  { change (zlen []) with 0. change (nz 0) with false. cbv iota. by exists w. }
  assert (Hnz : nz (zlen (b :: l)) = true) by (apply nz_true; rewrite zlen_cons; pose proof (zlen_nonneg l); lia).
  rewrite Hnz. destruct (pop_run w q buf cap b l Hq) as (x & E & Hq1). st_step E. clear E.
  set (w1 := with_queues (<[q := x]> (queues w)) w) in *. cbn [default from_option app] in *.
  assert (Hw1 : ports_in w1 ns cs ps (q :: b :: l ++ ex))
    by (apply in_queue_set; [done|]; intros c Hc; by apply lookup_insert_ne).
  rewrite (Permutation_swap b q) in Hw1. unfold buffer_free. rewrite ST_bind_assoc.
  pose proof (in_not_block _ _ _ _ _ _ Hw1) as Hnb.
  destruct (in_free w1 ns cs ps (q :: l ++ ex) b Hw1) as (h & E & Hw2). st_step E. clear E.
  set (w2 := with_heap ((heap w1).1, h) w1) in *.
  set (w3 := with_buffers (delete b (buffers w2)) w2).
  assert (Hw3 : ports_in w3 ns cs ps (q :: l ++ ex)).
  { apply (ports_in_maps w2); try done. intros c Hc. split; [done|]. apply lookup_delete_ne. by intros ->. }
  assert (E : modify (fun w : ports H => with_buffers (delete b (buffers w)) w) w2 = Ok (tt, w3)) by done.
  st_step E. clear E.
  destruct (IH w3 ns cs ps ex q buf cap l Hw3) as (w' & E & O & Hw' & Hq'); [by apply (queue_at_ext w1)|cbn in Hn; lia|].
  exists w'. split; [done|]. split; [|done]. apply (other_queues_trans w w3 w'); [|done].
  constructor; [done|done|]. intros c Hc. by apply lookup_insert_ne.
Qed.

(** Both queues of a port with their buffers. *)
Lemma release_run w ns cs ps p n : ports_in w ns cs ps (ps_blocks p) -> port_rep w p ->
  (length (ps_free p) < n)%nat -> (length (ps_pkts p) < n)%nat ->
  exists w', release_queues n (Uudp (ps_port p) (ps_fq p) (ps_pq p)) w = Ok (tt, w')
    /\ comms w' = comms w /\ comm_list w' = comm_list w /\ ports_in w' ns cs ps [].
Proof.
  intros Hw Hp Hn1 Hn2. pose proof Hw as [_ _ _ _ Ha _].
  rewrite app_assoc in Ha. apply list.NoDup_app in Ha as (_ & _ & Hnd). destruct (blocks_apart p Hnd) as [Hne _].
  unfold ps_blocks in Hw. unfold release_queues. cbn [free_buffers pkt_queue].
  assert (E1 : ps_fq p :: ps_fbuf p :: ps_pq p :: ps_pbuf p :: ps_free p ++ (ps_pkts p).*1
    ≡ₚ ps_fq p :: ps_free p ++ ps_fbuf p :: ps_pq p :: (ps_pkts p).*1 ++ [ps_pbuf p]) by solve_Permutation.
  rewrite E1 in Hw. clear E1.
  destruct (drain_run n w ns cs ps _ _ _ _ _ Hw (pr_free _ _ Hp) Hn1) as (w1 & E & O1 & Hw1 & Hq1).
  st_step E. clear E.
  destruct (queue_destroy_run w1 ns cs ps _ _ _ _ Hw1 Hq1) as (w2 & E & O2 & Hw2). st_step E. clear E.
  pose proof (count_other w w1 _ _ _ _ _ O1 (not_eq_sym Hne) (pr_pkts _ _ Hp)) as Hq.
  pose proof (count_other w1 w2 _ _ _ _ _ O2 (not_eq_sym Hne) Hq) as Hq2.
  destruct (drain_run n w2 ns cs ps _ _ _ _ _ Hw2 Hq2) as (w3 & E & O3 & Hw3 & Hq3);
    [by rewrite length_fmap|]. st_step E. clear E.
  destruct (queue_destroy_run w3 ns cs ps _ _ _ _ Hw3 Hq3) as (w4 & E & O4 & Hw4).
  exists w4. destruct O1, O2, O3, O4. split_and!; [done|congruence|congruence|done].
Qed.

(** Filling a new queue with buffers, as far as memory goes. *)
Lemma fill_run (stale : Z -> Z) n ns cs ps : forall w p, ports_in w ns cs ps (ps_blocks p) -> port_rep w p ->
  ps_pkts p = [] -> zlen (ps_free p) + Z.of_nat n <= ps_cap p ->
  exists b w' fr, fill stale n (ps_fq p) w = Ok (b, w') /\ comms w' = comms w /\ comm_list w' = comm_list w
    /\ ports_in w' ns cs ps (ps_blocks (ps_shift p fr [])) /\ port_rep w' (ps_shift p fr [])
    /\ zlen fr <= zlen (ps_free p) + Z.of_nat n
    /\ (b = true -> zlen fr = zlen (ps_free p) + Z.of_nat n).
Proof.
  induction n as [|n IH]; intros w p Hw Hp Hpk Hcap.
  { assert (Ep : ps_shift p (ps_free p) [] = p) by (destruct p; cbn in *; by subst).
    exists true, w, (ps_free p). rewrite Ep. split_and!; try done; lia. }
  cbn [fill]. unfold buffer_malloc. rewrite ST_bind_assoc.
  destruct (in_malloc w ns cs ps (ps_blocks p) PACKET_SIZE Hw) as (q & h & E & Hc);
    [unfold PACKET_SIZE, max_request; lia|]. st_step E. clear E.
  set (w1 := with_heap ((heap w).1, h) w) in *. destruct Hc as [[-> Hw1]|[Hq Hw1]].
  { exists false, w1, (ps_free p).
    assert (Ep : ps_shift p (ps_free p) [] = p) by (destruct p; cbn in *; by subst).
    rewrite Ep. split_and!; try done; [by apply (port_rep_ext w)|lia]. }
  assert (Hnz : nz q = true) by by apply nz_true. rewrite Hnz. unfold when. rewrite ST_bind_assoc.
  set (w2 := with_buffers (<[q := tabulate (Z.to_nat PACKET_SIZE) stale]> (buffers w1)) w1).
  match goal with |- context [modify ?f] => assert (E : modify f w1 = Ok (tt, w2)) by done end.
  st_step E. clear E. rewrite (ST_bind_Ok _ _ w2 q w2) by done. destruct (Z.eqb_spec q 0); [done|].
  assert (Hw2 : ports_in w2 ns cs ps (q :: ps_blocks p))
    by (apply in_buffer_set; [done|]; intros b Hb; by apply lookup_insert_ne).
  set (p0 := ps_shift p (ps_free p) [(q, [])]).
  assert (Eb : q :: ps_blocks p ≡ₚ ps_blocks p0) by (unfold ps_blocks; cbn; rewrite Hpk; cbn; solve_Permutation).
  rewrite Eb in Hw2. pose proof Hw2 as [_ _ _ _ Ha _].
  rewrite app_assoc in Ha. apply list.NoDup_app in Ha as (_ & _ & Hnd).
  assert (Hp2 : port_rep w2 (ps_shift p0 (ps_free p0) [])).
  { assert (Ep : ps_shift p0 (ps_free p0) [] = p) by (destruct p; cbn in *; by subst).
    rewrite Ep. apply (port_rep_ext w); try done. intros b Hb. split; [done|]. apply lookup_insert_ne.
    rewrite <- Eb in Hnd. apply list.NoDup_cons in Hnd as [Hnq _]. by intros ->. }
  assert (Hbuf : buffer_at w2 q []).
  { exists (tabulate (Z.to_nat PACKET_SIZE) stale). split; [apply lookup_insert_eq|].
    rewrite tabulate_zlen. done. }
  destruct (give_back w2 p0 q [] [] Hp2 Hnd eq_refl) as (x & E & Hp3); [cbn; change (zlen [_]) with 1; lia|done|].
  change (ps_fq p0) with (ps_fq p) in E. st_step E. clear E.
  set (w3 := with_queues (<[ps_fq p := x]> (queues w2)) w2) in *.
  set (p1 := ps_shift p0 (ps_free p0 ++ [q]) []) in *.
  assert (Hw3 : ports_in w3 ns cs ps (ps_blocks p1)).
  { assert (E : ps_blocks p1 ≡ₚ ps_blocks p0) by (unfold ps_blocks; cbn; solve_Permutation). rewrite E.
    unfold ps_blocks. apply in_queue_set; [done|]. intros b Hb. by apply lookup_insert_ne. }
  destruct (IH w3 p1 Hw3 Hp3 eq_refl) as (b & w' & fr & E & C & Lk & Hw' & Hp' & Hz & Ht).
  { cbn. rewrite zlen_app. change (zlen [q]) with 1. lia. }
  exists b, w', fr. cbn [p1 p0 ps_shift ps_free] in Hz, Ht. rewrite zlen_app in Hz, Ht.
  change (zlen [q]) with 1 in Hz, Ht. split_and!; try done; [lia|]. intros Hb. rewrite (Ht Hb). lia.
Qed.

(** *** The list of ports *)

(** A call on the list beside the blocks of the ports. *)
Lemma in_list_call w ns cs cs' ps ex m r : ports_in w ns cs ps ex ->
  call_result (heap w).1 (heap w).2 (comm_list w) ns cs m r cs' ->
  exists ns' h, let w' := with_heap ((heap w).1, h) w in
    on_heap m w = Ok (r, w') /\ ports_in w' ns' cs' ps ex /\ length ns' = length cs'.
Proof.
  intros [H1 H2 H3 H4 H5 H6] (h & ns' & E & Hnew & Hl & HU).
  assert (Hd : forall b, b ∈ (ps ≫= ps_blocks) ++ ex -> b ∉ comm_list w :: ns).
  { apply list.NoDup_app in H5 as (_ & Hd & _). intros b Hb Hin. by apply (Hd b Hin). }
  assert (Hlive : forall b, b ∈ (ps ≫= ps_blocks) ++ ex -> is_Some (heap_live (heap w).2 !! b)).
  { by apply list.Forall_forall. }
  exists ns', h. unfold on_heap. destruct (heap w) as [irq h0] eqn:Eh. cbn [fst snd] in *. rewrite E.
  split; [done|]. split; [|pose proof (rep_zlen _ _ _ _ Hl); unfold zlen in *; lia].
  constructor; try done.
  - eapply list.Forall_impl; [exact H2|]. intros p Hp. by apply (port_rep_ext w).
  - apply list.NoDup_app. apply list.NoDup_app in H5 as (_ & _ & Hnd). split; [apply Hl|]. split; [|done].
    intros b Hb Hin. destruct (Hlive b Hin) as [n Hn]. specialize (Hd b Hin).
    apply not_elem_of_cons in Hd as [Hb1 Hb2]. apply elem_of_cons in Hb as [->|Hb]; [done|].
    destruct (Hnew b Hb); congruence.
  - apply list.Forall_forall. intros b Hb. destruct (Hlive b Hb) as [n Hn]. exists n.
    by apply (HU b n Hn), Hd.
Qed.

Lemma in_append w ns cs ps ex fuel c : ports_in w ns cs ps ex -> (length ns < fuel)%nat ->
  zlen cs + 1 < 2147483647 ->
  exists ns' h r, let w' := with_heap ((heap w).1, h) w in
    on_heap (hf_list_append fuel (comm_list w) c) w = Ok (r, w')
    /\ ((r = 0 /\ ports_in w' ns' (cs ++ [c]) ps ex /\ length ns' = length (cs ++ [c]))
       \/ (r = -1 /\ ports_in w' ns' cs ps ex)).
Proof.
  intros Hw Hf Hs. destruct (append_run (heap w).1 (heap w).2 _ ns cs c fuel (pi_list _ _ _ _ _ Hw) Hf Hs) as [R|R].
  - destruct (in_list_call _ _ _ _ _ _ _ _ Hw R) as (ns' & h & E & Hw' & Hn).
    exists ns', h, 0. split; [done|]. by left.
  - destruct (in_list_call _ _ _ _ _ _ _ _ Hw R) as (ns' & h & E & Hw' & _).
    exists ns', h, (-1). split; [done|]. by right.
Qed.

Lemma in_remove w ns cs1 c cs2 ps ex fuel : ports_in w ns (cs1 ++ c :: cs2) ps ex -> (length ns < fuel)%nat ->
  exists ns' h, let w' := with_heap ((heap w).1, h) w in
    on_heap (hf_list_remove fuel (comm_list w) (zlen cs1)) w = Ok (0, w') /\ ports_in w' ns' (cs1 ++ cs2) ps ex.
Proof.
  intros Hw Hf. pose proof (remove_run (heap w).1 (heap w).2 _ ns _ (zlen cs1) fuel (pi_list _ _ _ _ _ Hw) Hf) as R.
  cbn [list_spec] in R. rewrite zlen_app, zlen_cons in R.
  pose proof (zlen_nonneg cs1). pose proof (zlen_nonneg cs2).
  destruct (Z.leb_spec 0 (zlen cs1)); [|lia].
  destruct (Z.ltb_spec (zlen cs1) (zlen cs1 + (1 + zlen cs2))); [|lia]. cbn [andb fst snd] in R.
  assert (Hk : Z.to_nat (zlen cs1) = length cs1) by (unfold zlen; lia). rewrite Hk in R.
  rewrite take_app_length, cons_middle, app_assoc in R.
  replace (S (length cs1)) with (length (cs1 ++ [c])) in R by (rewrite length_app; cbn; lia).
  rewrite drop_app_length in R.
  rewrite <- app_assoc in R. destruct (in_list_call _ _ _ _ _ _ _ _ Hw R) as (ns' & h & E & Hw' & _).
  by exists ns', h.
Qed.

Lemma in_count w ns cs ps ex fuel : ports_in w ns cs ps ex -> (length ns < fuel)%nat ->
  list_count fuel w = Ok (zlen cs, w).
Proof.
  intros Hw Hf. pose proof (pi_list _ _ _ _ _ Hw) as Hl. unfold list_count.
  assert (E : gets comm_list w = Ok (comm_list w, w)) by done. st_step E. apply on_heap_read.
  destruct (heap w) as [irq h]. pose proof Hl as [Hok [x0 Hc] _ Hs]. unfold hf_list_count.
  rewrite (count_loop_run irq h fuel ns _ x0 _ 0 Hok Hc Hf); [|done|rewrite (rep_zlen _ _ _ _ Hl); lia].
  by rewrite (rep_zlen _ _ _ _ Hl), Z.add_0_l.
Qed.

Lemma set_comm_run c f w x : comms w !! c = Some x ->
  set_comm c f w = Ok (tt, with_comms (<[c := f x]> (comms w)) w).
Proof.
  intros Hx. unfold set_comm. assert (E : comm_at c w = Ok (x, w)) by (unfold comm_at; by rewrite Hx).
  st_step E. done.
Qed.

Lemma in_comm w ns cs ps ex c x : ports_in w ns cs ps ex -> c ∉ ps_comm <$> ps ->
  ports_in (with_comms (<[c := x]> (comms w)) w) ns cs ps ex.
Proof.
  intros Hw Hc. apply (ports_in_maps w); try done. intros b Hb. apply lookup_insert_ne. by intros ->.
Qed.
End blocks.

(** ** Opening *)

Section opening.
Context {H : Type} {HA : Allocator H} {HL : AllocatorLaws H}.
Variables (garbage : Z -> option Z) (stale : Z -> Z).
Implicit Types (w : ports H) (p : pstate) (ns cs ex : list Z) (ps : list pstate).

(** What [open_port] for [comm] may lead to: the port is open with all its
    buffers free; its number is taken; there is no memory, and everything is as
    before; or there is none for a queue, and the object stays in the list
    without it. *)
Inductive opened ps (comm n qsize : Z) w : Z -> Prop :=
| opened_ok ns p : ports_rep w ns (ps ++ [p]) -> abstract_port p = APort comm n qsize [] ->
    opened ps comm n qsize w ERR_OK
| opened_in_use ns : n ∈ ps_port <$> ps -> ports_rep w ns ps -> opened ps comm n qsize w ERR_ERROR
| opened_no_memory ns : ports_rep w ns ps -> opened ps comm n qsize w ERR_OUT_OF_MEMORY
| opened_broken ns ex x : ports_in w ns ((ps_comm <$> ps) ++ [comm]) ps ex -> comms w !! comm = Some x ->
    free_buffers x = 0 \/ pkt_queue x = 0 -> opened ps comm n qsize w ERR_OUT_OF_MEMORY.

(** From the queues on. *)
Lemma open_buffers_run w ns ps fuel comm n fq pq fbuf pbuf qsize :
  ports_in w ns ((ps_comm <$> ps) ++ [comm]) ps [fq; fbuf; pq; pbuf] -> (length ns < fuel)%nat ->
  comm ∉ ps_comm <$> ps -> n ∉ ps_port <$> ps -> comms w !! comm = Some (Uudp n fq pq) ->
  queue_at w fq fbuf qsize [] -> queue_at w pq pbuf qsize [] -> 0 <= qsize ->
  exists r w', open_buffers stale fuel comm fq qsize w = Ok (r, w') /\ opened ps comm n qsize w' r.
Proof.
  intros Hw Hf Hc Hn Hx Hfq Hpq Hq. unfold open_buffers. set (p := PState comm n fq fbuf pq pbuf qsize [] []).
  assert (Hp : port_rep w p) by (constructor; cbn; try done; change (zlen (@nil Z)) with 0;
    change (zlen (@nil (Z * list Z))) with 0; lia).
  destruct (fill_run stale (Z.to_nat qsize) ns _ ps w p Hw Hp eq_refl)
    as (b & w1 & fr & E & C1 & L1 & Hw1 & Hp1 & Hz & Ht); [cbn; change (zlen (@nil Z)) with 0; lia|].
  change (ps_fq p) with fq in E. st_step E. clear E. cbn [p ps_free] in Hz, Ht. change (zlen (@nil Z)) with 0 in Hz, Ht.
  destruct b.
  - exists ERR_OK, w1. split; [done|]. apply (opened_ok _ _ _ _ _ ns (ps_shift p fr [])).
    + by apply ports_in_join.
    + unfold abstract_port. cbn. f_equal. rewrite Ht by done. lia.
  - assert (E : comm_at comm w1 = Ok (Uudp n fq pq, w1)) by (unfold comm_at; by rewrite C1, Hx).
    st_step E. clear E.
    destruct (release_run w1 ns _ ps (ps_shift p fr []) (S (Z.to_nat qsize)) Hw1 Hp1)
      as (w2 & E & C2 & L2 & Hw2); [cbn; unfold zlen in Hz; lia|cbn; lia|].
    cbn [ps_shift ps_port ps_fq ps_pq p] in E. st_step E. clear E.
    st_step (in_count w2 ns _ ps [] fuel Hw2 Hf). rewrite zlen_app. change (zlen [comm]) with 1.
    replace (zlen (ps_comm <$> ps) + 1 - 1) with (zlen (ps_comm <$> ps)) by lia.
    destruct (in_remove w2 ns _ comm [] ps [] fuel Hw2 Hf) as (ns' & h & E & Hw3).
    assert (Eg : gets comm_list w2 = Ok (comm_list w2, w2)) by done. st_step Eg. st_step E.
    eexists _, _. split; [done|]. apply (opened_no_memory _ _ _ _ _ ns').
    apply ports_in_close. by rewrite app_nil_r in Hw3.
Qed.

(** The port number. *)
Lemma choose_port_run w port : 0 <= port < 65536 ->
  exists n x, (if port =? 0 then r ← random; mret (u16 (u32 r mod 16383 + 49152)) else mret port) w
      = Ok (n, with_seed x w)
    /\ (if port =? 0 then 49152 <= n < 65535 else n = port).
Proof.
  intros Hp. destruct (Z.eqb_spec port 0).
  - unfold random. eexists _, _. split; [done|].
    assert (Hr : forall y, 0 <= y mod 16383 < 16383) by (intros y; by apply Z.mod_pos_bound).
    rewrite u16_small; match goal with |- context [?y mod 16383] => pose proof (Hr y); lia end.
  - exists port, (rand1 w). split; [|done]. by destruct w.
Qed.

Lemma open_queues_run w ns ps fuel comm n x0 qsize : ports_rep w ns ps -> (S (length ns) < fuel)%nat ->
  zlen ps + 1 < 2147483647 -> 0 <= qsize <= max_create_size ->
  comms w !! comm = Some (Uudp n (free_buffers x0) (pkt_queue x0)) ->
  comm ∉ ps_comm <$> ps -> n ∉ ps_port <$> ps ->
  exists r w', open_queues garbage stale fuel comm qsize w = Ok (r, w') /\ opened ps comm n qsize w' r.
Proof.
  intros Hw Hf Hsz Hq Hx Hc Hn. unfold open_queues. pose proof Hq as Hq'. unfold max_create_size in Hq'. rewrite !i32_small by lia.
  assert (E : gets comm_list w = Ok (comm_list w, w)) by done. st_step E. clear E.
  apply ports_in_close in Hw. pose proof (rep_zlen _ _ _ _ (pi_list _ _ _ _ _ Hw)) as Hlen.
  rewrite zlen_fmap in Hlen.
  destruct (in_append w ns _ ps [] fuel comm Hw) as (ns1 & h1 & r & E & Hcase);
    [lia|rewrite zlen_fmap; lia|]. st_step E. clear E.
  set (w1 := with_heap ((heap w).1, h1) w) in *. destruct Hcase as [(-> & Hw1 & Hl1)|[-> Hw1]].
  2: { eexists _, _. split; [done|]. apply (opened_no_memory _ _ _ _ _ ns1). by apply ports_in_close. }
  change (nz 0) with false. cbv iota.
  destruct (queue_create_run garbage w1 ns1 _ ps [] qsize Hw1 Hq) as (fq & w2 & E & O2 & _ & Hcase).
  st_step E. clear E.
  assert (Hx2 : comms w2 !! comm = Some (Uudp n (free_buffers x0) (pkt_queue x0))) by by rewrite (oq_comms _ _ _ O2).
  st_step (set_comm_run comm (fun x => Uudp (listen_port x) fq (pkt_queue x)) w2 _ Hx2). cbn [listen_port pkt_queue].
  set (w3 := with_comms (<[comm := Uudp n fq (pkt_queue x0)]> (comms w2)) w2).
  assert (Hx3 : comms w3 !! comm = Some (Uudp n fq (pkt_queue x0))) by apply lookup_insert_eq.
  destruct Hcase as [[-> Hw2]|(Hfq & fbuf & Hw2 & Hfq2)].
  { eexists _, _. split; [done|].
    apply (opened_broken _ _ _ _ _ ns1 [] (Uudp n 0 (pkt_queue x0))); [by apply in_comm|done|by left]. }
  destruct (Z.eqb_spec fq 0); [done|].
  assert (Hw3 : ports_in w3 ns1 ((ps_comm <$> ps) ++ [comm]) ps [fq; fbuf]) by by apply in_comm.
  destruct (queue_create_run garbage w3 ns1 _ ps _ qsize Hw3 Hq) as (pq & w4 & E & O4 & _ & Hcase).
  st_step E. clear E.
  assert (Hx4 : comms w4 !! comm = Some (Uudp n fq (pkt_queue x0))) by by rewrite (oq_comms _ _ _ O4).
  st_step (set_comm_run comm (fun x => Uudp (listen_port x) (free_buffers x) pq) w4 _ Hx4).
  cbn [listen_port free_buffers]. set (w5 := with_comms (<[comm := Uudp n fq pq]> (comms w4)) w4).
  assert (Hx5 : comms w5 !! comm = Some (Uudp n fq pq)) by apply lookup_insert_eq.
  destruct Hcase as [[-> Hw4]|(Hpq & pbuf & Hw4 & Hpq4)].
  { eexists _, _. split; [done|].
    apply (opened_broken _ _ _ _ _ ns1 [fq; fbuf] (Uudp n fq 0)); [by apply in_comm|done|by right]. }
  destruct (Z.eqb_spec pq 0); [done|].
  assert (Hne : fq <> pq).
  { pose proof Hw4 as [_ _ _ _ Ha _]. apply apart_cons in Ha as (_ & Hnin & _). intros ->. apply Hnin.
    apply elem_of_app. right. apply list_elem_of_further, list_elem_of_here. }
  apply (open_buffers_run w5 ns1 ps fuel comm n fq pq fbuf pbuf); try done.
  - assert (Ep : [fq; fbuf; pq; pbuf] ≡ₚ [pq; pbuf; fq; fbuf]) by solve_Permutation.
    rewrite Ep. by apply in_comm.
  - rewrite Hl1, length_app, length_fmap. cbn. unfold zlen in Hlen. lia.
  - apply (queue_at_ext w4); [|done]. apply (count_other w3 w4 _ _ _ _ _ O4 Hne). by apply (queue_at_ext w2).
  - lia.
Qed.

Lemma open_port_run w ns ps fuel comm port x0 qsize : ports_rep w ns ps -> (S (length ns) < fuel)%nat ->
  zlen ps + 1 < 2147483647 -> 0 <= qsize <= max_create_size -> 0 <= port < 65536 ->
  comms w !! comm = Some x0 -> comm ∉ ps_comm <$> ps ->
  exists n r w', open_port garbage stale fuel comm port qsize w = Ok (r, w') /\ opened ps comm n qsize w' r
    /\ (if port =? 0 then 49152 <= n < 65535 else n = port).
Proof.
  intros Hw Hf Hsz Hq Hp Hx Hc. unfold open_port.
  destruct (choose_port_run w port Hp) as (n & sd & E & Hn). st_step E. clear E.
  set (w1 := with_seed sd w).
  st_step (set_comm_run comm (fun x => Uudp n (free_buffers x) (pkt_queue x)) w1 x0 Hx).
  set (w2 := with_comms (<[comm := Uudp n (free_buffers x0) (pkt_queue x0)]> (comms w1)) w1).
  assert (Hw2 : ports_rep w2 ns ps).
  { apply ports_in_close, in_comm; [|done]. apply ports_in_close in Hw. by apply (ports_in_maps w). }
  st_step (list_count_run w2 ns ps fuel Hw2 ltac:(lia)).
  destruct (find_port_run w2 ns fuel n ps [] 0 Hw2 ltac:(lia)) as (i & c & E & Hcase).
  change (zlen []) with 0 in E. assert (El : Z.to_nat (zlen ps) = length ps) by (unfold zlen; lia).
  rewrite El. st_step E. clear E El. destruct Hcase as [[-> Hno]|(pre & p & post & Eps & _ & Hpn & -> & ->)]; cbn [app].
  - rewrite Z.ltb_irrefl.
    destruct (open_queues_run w2 ns ps fuel comm n x0 qsize) as (r & w' & E & Ho); try done; [apply lookup_insert_eq|].
    by exists n, r, w'.
  - rewrite Eps, zlen_app, zlen_cons. pose proof (zlen_nonneg post).
    destruct (Z.ltb_spec (zlen pre) (zlen pre + (1 + zlen post))); [|lia].
    eexists n, _, _. split; [done|]. split; [|done]. rewrite Eps in Hw2.
    apply (opened_in_use _ _ _ _ _ ns); [|done]. rewrite fmap_app, fmap_cons, Hpn.
    apply elem_of_app. right. apply list_elem_of_here.
Qed.
End opening.

(** ** Closing *)

Section closing.
Context {H : Type} {HA : Allocator H} {HL : AllocatorLaws H}.
Implicit Types (w : ports H) (p : pstate) (ns : list Z) (ps pre post : list pstate).

(** The search for a port that is there ends at it. *)
Lemma find_this_run w ns pre p post fuel c : ports_rep w ns (pre ++ p :: post) -> (length ns < fuel)%nat ->
  find_port fuel (length (pre ++ p :: post)) 0 (ps_port p) c w = Ok ((zlen pre, ps_comm p), w).
Proof.
  intros Hw Hf. destruct (find_port_run w ns fuel (ps_port p) (pre ++ p :: post) [] c Hw Hf) as (i & c' & E & Hcase).
  change (zlen []) with 0 in E. rewrite E. pose proof (po_numbers _ _ _ Hw) as Hnd.
  rewrite fmap_app, fmap_cons in Hnd. apply list.NoDup_app in Hnd as (_ & Hd & _).
  assert (Hnp : ps_port p ∉ ps_port <$> pre) by (intros Hin; apply (Hd _ Hin), list_elem_of_here).
  destruct Hcase as [[_ Hno]|(pre' & p' & post' & Eps & Hn' & Hp & -> & ->)].
  - destruct Hno. rewrite fmap_app, fmap_cons, elem_of_app. right. apply list_elem_of_here.
  - apply app_eq_inv in Eps as [(k & -> & Ek)|(k & -> & Ek)]; destruct k as [|x k]; cbn in Ek.
    + rewrite app_nil_r. by injection Ek as -> _.
    + injection Ek as -> _. destruct Hnp. rewrite fmap_app, fmap_cons, elem_of_app. rewrite Hp. right. apply list_elem_of_here.
    + rewrite app_nil_r. by injection Ek as -> _.
    + injection Ek as <- _. destruct Hn'. rewrite fmap_app, fmap_cons, elem_of_app. right. apply list_elem_of_here.
Qed.

(** Closing a port releases its queues and its buffers, received datagrams
    included, and takes it off the list; the others stay as they are. *)
Lemma hf_uudp_destroy_run w ns pre p post fuel : ports_rep w ns (pre ++ p :: post) -> (length ns < fuel)%nat ->
  ps_comm p <> 0 ->
  exists w' ns', hf_uudp_destroy fuel (ps_comm p) w = Ok (ERR_OK, w') /\ ports_rep w' ns' (pre ++ post).
Proof.
  intros Hw Hf Hnz. unfold hf_uudp_destroy.
  assert (E : gets comm_list w = Ok (comm_list w, w)) by done. st_step E. clear E.
  assert (Hl0 : comm_list w <> 0).
  { pose proof (po_list _ _ _ Hw) as Hl. destruct (list_nodes_live _ _ _ _ (comm_list w) Hl (list_elem_of_here _ _)) as [n Hn].
    pose proof (live_range _ _ _ (lr_ok _ _ _ _ Hl) Hn). lia. }
  destruct (Z.eqb_spec (comm_list w) 0); [done|].
  st_step (list_count_run w ns _ fuel Hw Hf).
  destruct (ports_in_split w ns pre p post Hw) as [Hin Hp].
  assert (E : comm_at (ps_comm p) w = Ok (Uudp (ps_port p) (ps_fq p) (ps_pq p), w))
    by (unfold comm_at; by rewrite (pr_comm _ _ Hp)).
  st_step E. cbn [listen_port free_buffers pkt_queue].
  assert (El : Z.to_nat (zlen (pre ++ p :: post)) = length (pre ++ p :: post)) by (unfold zlen; lia).
  rewrite El. st_step (find_this_run w ns pre p post fuel 0 Hw Hf).
  destruct (Z.eqb_spec (ps_comm p) 0); [done|]. st_step E. cbn [listen_port]. rewrite Z.eqb_refl. cbn [negb].
  st_step (count_run w _ _ _ _ (pr_free _ _ Hp)). st_step (count_run w _ _ _ _ (pr_pkts _ _ Hp)).
  rewrite zlen_fmap.
  destruct (release_run w ns _ (pre ++ post) p (S (Z.to_nat (Z.max (zlen (ps_free p)) (zlen (ps_pkts p))))) Hin Hp)
    as (w1 & E1 & C1 & L1 & Hw1); [unfold zlen; lia|unfold zlen; lia|]. st_step E1.
  rewrite fmap_app, fmap_cons in Hw1.
  destruct (in_remove w1 ns _ (ps_comm p) _ _ [] fuel Hw1 Hf) as (ns' & h & E2 & Hw2).
  rewrite zlen_fmap, L1 in E2. st_step E2. eexists _, ns'. split; [done|].
  apply ports_in_close. by rewrite fmap_app.
Qed.
End closing.

(** ** On the stack *)

Section create.
Context {H L : Type} {HA : Allocator H} {HL : AllocatorLaws H} {LL : LinkLayer L}.
Variables (garbage : Z -> option Z) (stale : Z -> Z) (fuel : nat).
Implicit Types (s : net L (ports H)) (ns : list Z) (ps : list pstate).

(** The stack calls the ports, or no port was ever opened. *)
Definition ready s ns ps : Prop :=
  match callback s with
  | Some f => f = callback_fn fuel /\ ports_rep (user s) ns ps
  | None => heap_ok (heap (user s)).2 /\ ns = [] /\ ps = []
  end.

Lemma on_user_run {A : Type} (m : ST (ports H) A) s a w : m (user s) = Ok (a, w) ->
  on_user m s = Ok (a, with_user w s).
Proof. intros E. unfold on_user. by rewrite E. Qed.

(** The first call makes the empty list and registers the callback. *)
Lemma first_list_run w : heap_ok (heap w).2 ->
  exists lst h, on_heap hf_list_init w = Ok (lst, with_heap ((heap w).1, h) w) /\ heap_ok h /\
    (lst = 0 \/ (lst <> 0 /\ ports_rep (with_list lst (with_heap ((heap w).1, h) w)) [] [])).
Proof.
  intros Hok. unfold on_heap. destruct (heap w) as [irq h0]. cbn [fst snd] in *.
  destruct (init_run irq h0 Hok) as (lst & h & E & Hok' & _ & Hc). exists lst, h. rewrite E.
  split; [done|]. split; [done|]. destruct Hc as [-> |Hl]; [by left|right]. split.
  - destruct (list_nodes_live _ _ _ _ lst Hl (list_elem_of_here _ _)) as [n Hn].
    pose proof (live_range _ _ _ Hok' Hn). lia.
  - constructor; [done|constructor|constructor|constructor|apply Hl|constructor].
Qed.

Lemma hf_uudp_create_run s ns ps comm port x0 qsize : ready s ns ps -> (S (length ns) < fuel)%nat ->
  zlen ps + 1 < 2147483647 -> 0 <= qsize <= max_create_size -> 0 <= port < 65536 ->
  comms (user s) !! comm = Some x0 -> comm ∉ ps_comm <$> ps ->
  exists r s', hf_uudp_create garbage stale fuel comm port qsize s = Ok (r, s') /\
    ((callback s' = Some (callback_fn fuel) /\ exists n, opened ps comm n qsize (user s') r
        /\ if port =? 0 then 49152 <= n < 65535 else n = port)
     \/ (r = ERR_OUT_OF_MEMORY /\ ready s' ns ps)).
Proof.
  intros Hr Hf Hsz Hq Hp Hx Hc. unfold hf_uudp_create, ready in *.
  assert (E : udp_get_callback s = Ok (callback s, s)) by done. st_step E. clear E.
  destruct (callback s) as [f|] eqn:Ecb.
  - destruct Hr as [-> Hw]. rewrite (ST_bind_Ok _ _ s true s) by done.
    destruct (open_port_run garbage stale (user s) ns ps fuel comm port x0 qsize Hw Hf Hsz Hq Hp Hx Hc)
      as (n & r & w & E & Ho & Hn).
    eexists r, _. split; [by apply on_user_run|]. left. split; [done|]. by exists n.
  - destruct Hr as (Hok & -> & ->). rewrite ST_bind_assoc.
    destruct (first_list_run (user s) Hok) as (lst & h & E & Hok' & Hcase).
    st_step (on_user_run _ s _ _ E). clear E. rewrite ST_bind_assoc.
    set (w1 := with_heap ((heap (user s)).1, h) (user s)) in *.
    assert (E : on_user (modify (with_list lst)) (with_user w1 s) = Ok (tt, with_user (with_list lst w1) s)) by done.
    st_step E. clear E. destruct Hcase as [-> |[Hnz Hw]].
    { rewrite (ST_bind_Ok _ _ _ false (with_user (with_list 0 w1) s)) by done.
      eexists _, _. split; [done|]. right. split; [done|]. cbn. by rewrite Ecb. }
    destruct (Z.eqb_spec lst 0) as [|_]; [done|].
    set (w2 := with_lock 0 (with_heap ((heap w1).1, (heap w1).2) (with_list lst w1))).
    set (s2 := with_user w2 (with_callback (Some (callback_fn fuel)) (with_user (with_list lst w1) s))).
    rewrite (ST_bind_Ok _ _ _ true s2) by done.
    assert (Hw2 : ports_rep w2 [] []) by (constructor; try apply Hw; done).
    destruct (open_port_run garbage stale w2 [] [] fuel comm port x0 qsize Hw2 Hf Hsz Hq Hp Hx Hc)
      as (n & r & w & E & Ho & Hn).
    eexists r, _. split; [by apply (on_user_run _ s2)|]. left. split; [done|]. by exists n.
Qed.
End create.

(** C34: opening a port either gives it an empty queue and [qsize] free buffers
    under a number nobody else has, and then closing it leaves the ports there
    were; or reports the number as taken or the memory as exhausted, with the
    ports as before; or, when the memory ends with the queues, leaves the
    object in the list without them. *)
Theorem uudp_create_destroy {H L : Type} {HA : Allocator H} {HL : AllocatorLaws H} {LL : LinkLayer L}
    (garbage : Z -> option Z) (stale : Z -> Z) (fuel : nat) (s : net L (ports H)) (ns : list Z)
    (ps : list pstate) (comm port qsize : Z) (x0 : uudp) :
  ready fuel s ns ps -> (S (length ns) < fuel)%nat -> zlen ps + 1 < 2147483647 ->
  0 <= qsize <= max_create_size -> 0 <= port < 65536 ->
  comms (user s) !! comm = Some x0 -> comm ∉ ps_comm <$> ps -> comm <> 0 ->
  exists r s', hf_uudp_create garbage stale fuel comm port qsize s = Ok (r, s') /\
    ((r = ERR_OUT_OF_MEMORY /\ ready fuel s' ns ps)
     \/ (callback s' = Some (callback_fn fuel) /\ exists n, (if port =? 0 then 49152 <= n < 65535 else n = port)
        /\ opened ps comm n qsize (user s') r
        /\ (r = ERR_OK -> exists w ns', hf_uudp_destroy fuel comm (user s') = Ok (ERR_OK, w) /\ ports_rep w ns' ps))).
Proof.
  intros Hr Hf Hsz Hq Hp Hx Hc Hnz.
  destruct (hf_uudp_create_run garbage stale fuel s ns ps comm port x0 qsize Hr Hf Hsz Hq Hp Hx Hc)
    as (r & s' & E & [(Hcb & n & Ho & Hn)|Hno]); exists r, s'; (split; [done|]); [right|by left].
  split; [done|]. exists n. split; [done|]. split; [done|]. intros ->. inversion Ho as [ns' p Hw Ha| | |]; subst.
  assert (Ecomm : ps_comm p = comm) by (by injection Ha). rewrite <- Ecomm in *.
  assert (Hl : zlen ns' = zlen (ps ++ [p])) by (rewrite (rep_zlen _ _ _ _ (po_list _ _ _ Hw)); by rewrite zlen_fmap).
  assert (Hl0 : zlen ps = zlen ns).
  { unfold ready in Hr. destruct (callback s) as [f|].
    - destruct Hr as [_ Hw0]. rewrite (rep_zlen _ _ _ _ (po_list _ _ _ Hw0)). by rewrite zlen_fmap.
    - by destruct Hr as (_ & -> & ->). }
  rewrite zlen_app in Hl. change (zlen [p]) with 1 in Hl.
  destruct (hf_uudp_destroy_run (user s') ns' ps p [] fuel Hw) as (w & ns2 & Ed & Hw2); [unfold zlen in *; lia|done|].
  exists w, ns2. by rewrite app_nil_r in Hw2.
Qed.
