(* ===== verification/UudpDelivery.v ===== *)
(** * Datagrams between applications

    The whole way of a datagram: [hf_uudp_send] on one host, the stack and the
    wire, the network service and the callback on the other, [hf_uudp_recv]
    there; with the resolution of the address on the way. *)

From S2P Require Import Prelude Words Alloc Mutex Malloc Queue LinkedList Demo Ustack Arp Uudp UudpPorts.

(** ** Reception through the stack *)

Section reception.
Context {H : Type} {HA : Allocator H} {HL : AllocatorLaws H} {U : Type}.
Implicit Types (s : net (list (list Z)) U) (r : net (list (list Z)) (ports H)) (p : pstate) (ns : list Z).

(** The network service with the ports above it, and room in the buffer. *)
Record receiver r ns (pre : list pstate) p (post : list pstate) (fuel : nat) : Prop := {
  rc_host : host_ok r;
  rc_configured : configured (myip r) = true;
  rc_frame : PACKET_SIZE <= zlen (frame r);
  rc_callback : callback r = Some (callback_fn fuel);
  rc_ports : ports_rep (user r) ns (pre ++ p :: post);
  rc_fuel : (length ns < fuel)%nat;
  rc_number : 0 <= ps_port p < 65536;
  rc_reserved : ps_port p <> PORT_ECHO /\ ps_port p <> PORT_DISCARD;
  rc_free : ps_free p <> [];
  rc_empty : ps_pkts p = [];
}.

(** The packet of a datagram that fits passes the tests of [packet_ok]. *)
Lemma word_at_eq d o x : be16 d o = Ok x -> word_at d o = x.
Proof. intros E. unfold word_at. by rewrite E. Qed.

Lemma be16_take d n o : 0 <= o -> o + 2 <= n -> n <= zlen d -> be16 (take (Z.to_nat n) d) o = be16 d o.
Proof.
  intros Ho Hn Hd. apply be16_ext; unfold zget;
    match goal with |- context [?i <? 0] => destruct (Z.ltb_spec i 0); [lia|] end; apply lookup_take_lt; lia.
Qed.

Lemma slice_val d o n l : slice d o n = Ok l -> take (Z.to_nat n) (drop (Z.to_nat o) d) = l.
Proof. unfold slice. intros E. case_match; [|done]. by injection E. Qed.

Lemma slice_take d n o k : 0 <= o -> 0 <= k -> o + k <= n -> n <= zlen d ->
  slice (take (Z.to_nat n) d) o k = slice d o k.
Proof.
  intros Ho Hk Hn Hd. assert (Hl : zlen (take (Z.to_nat n) d) = n) by (unfold zlen in *; rewrite length_take; lia).
  assert (Ed : d = take (Z.to_nat n) d ++ drop (Z.to_nat n) d) by by rewrite take_drop.
  rewrite Ed at 2. rewrite slice_app; [done|done|done|lia].
Qed.

(** What is received from a port with one datagram waiting. *)
Lemma recv_one p' (w : ports H) ns pre post d : ports_rep w ns (pre ++ p' :: post) -> ap_dgrams (abstract_port p') = [d] ->
  exists w', hf_uudp_recv (ps_comm p') w = Ok ((a_take (APort 0 0 0 [d])).1, w').
Proof.
  intros Hw Hd. destruct (recv_run w ns pre p' post Hw) as (w' & p2 & E & _). exists w'. rewrite E.
  unfold a_take. rewrite Hd. cbn. by destruct (max_udp <? word_at d UDP_HDR_LEN1).
Qed.

(** A datagram on its way down to a port that is open and free. *)
Lemma datagram_to_port s r data sp ns pre p post fuel : receiver r ns pre p post fuel -> link r = [] ->
  host_ok s -> link s = [] -> resolves s (myip r) (mymac r) ->
  slice (frame s) 42 (zlen data) = Ok data -> 42 + zlen data <= PACKET_SIZE -> 42 + zlen data <= zlen (frame s) ->
  0 <= sp < 65536 ->
  exists s' fr r' w', udp_out (myip r) sp (ps_port p) (zlen data + 8) s = Ok (zlen data + 42, s') /\ link s' = [fr]
    /\ service_turn (with_link [fr] r) = Ok (tt, r')
    /\ hf_uudp_recv (ps_comm p) (user r') = Ok ((zlen data, Some (myip s, sp, data)), w').
Proof.
  intros [Hr Hcf Hfr Hcb Hw Hf Hnum [H7 H9] Hfree Hnil] Lr Hs Ls Hres Hdata Hmax HLs Hsp.
  pose proof (zlen_nonneg data) as Hd0. unfold PACKET_SIZE in *.
  destruct (datagram_delivered s r data sp (ps_port p) (callback_fn fuel) Hs Hr Ls Lr Hres Hcf Hdata)
    as (s' & fr & pkt & r' & E & Lk & Psrc & _ & Psp & Pdp & Plen & Pdata & Pip & Pz & Eturn); try done; try lia.
  set (n := zlen data + 8 + 20) in *. set (d := take (Z.to_nat n) pkt).
  assert (Hd : zlen d = n) by (unfold d, zlen in *; rewrite length_take; lia).
  assert (Wlen : word_at d 24 = zlen data + 8)
    by (apply word_at_eq; unfold d; rewrite be16_take by lia; exact Plen).
  assert (Hok : packet_ok pkt = true).
  { unfold packet_ok. change IP_HDR_LEN1 with 2 in *. rewrite (word_at_eq _ _ _ Pip). unfold dgram_ok.
    change UDP_HDR_LEN1 with 24. fold n. fold d. rewrite Hd, Wlen. unfold PACKET_SIZE.
    repeat (apply andb_true_intro; split); try lia. }
  destruct (callback_run (user r) ns _ fuel pkt Hw Hf Hok) as (w' & ps' & Ec & Hw' & Ha & _).
  unfold callback_fn in Eturn. rewrite Ec in Eturn. cbn [mbind outcome_bind] in Eturn.
  change UDP_HDR_DESTPORT1 with 22 in *. change IP_HDR_LEN1 with 2 in *.
  rewrite (word_at_eq _ _ _ Pip), (word_at_eq _ _ _ Pdp) in Ha. fold n in Ha. fold d in Ha.
  pose proof (po_numbers _ _ _ Hw) as Hnd. rewrite fmap_app, fmap_cons in Hnd.
  apply list.NoDup_app in Hnd as (_ & Hnd & _).
  rewrite fmap_app, fmap_cons, a_arrive_skip in Ha.
  2: { rewrite <- list_fmap_compose. intros Hin. apply (Hnd _ Hin), list_elem_of_here. }
  cbn [a_arrive] in Ha. assert (Ep : (ap_port (abstract_port p) =? ps_port p) = true) by by apply Z.eqb_eq.
  rewrite Ep in Ha. assert (Ez : (0 <? ap_free (abstract_port p)) = true).
  { apply Z.ltb_lt. cbn. destruct (ps_free p) as [|b fr0]; [done|]. rewrite zlen_cons. pose proof (zlen_nonneg fr0). lia. }
  rewrite Ez in Ha. cbn [abstract_port ap_comm ap_port ap_free ap_dgrams] in Ha. rewrite Hnil in Ha.
  apply fmap_app_inv in Ha as (pre' & rest & _ & Ha & ->). symmetry in Ha.
  apply fmap_cons_inv in Ha as (p' & post' & Ep' & _ & ->).
  assert (Ecomm : ps_comm p' = ps_comm p) by by injection Ep'.
  destruct (recv_one p' w' ns pre' post' d Hw') as (w2 & Er); [by rewrite <- Ep'|].
  exists s', fr, (with_user w' r'), w2. split; [rewrite E; do 2 f_equal; lia|]. split; [done|]. split; [done|].
  cbn [user with_user]. rewrite <- Ecomm, Er. unfold a_take. cbn [ap_dgrams].
  change UDP_HDR_LEN1 with 24. rewrite Wlen. destruct (Z.ltb_spec max_udp (zlen data + 8)) as [Hbig|_];
    [unfold max_udp, PACKET_SIZE, ETH_HEADER_SIZE, UDP_HEADER_SIZE in Hbig; lia|].
  unfold UDP_HEADER_SIZE. cbn [fst]. replace (zlen data + 8 - 8) with (zlen data) by lia.
  assert (F1 : take 4 (drop 12 d) = myip s)
    by (apply (slice_val d 12 4); unfold d; rewrite slice_take by lia; exact Psrc).
  assert (F2 : word_at d 20 = sp) by (apply word_at_eq; unfold d; rewrite be16_take by lia; exact Psp).
  assert (F3 : take (Z.to_nat (zlen data)) (drop 28 d) = data)
    by (apply (slice_val d 28 (zlen data)); unfold d; rewrite slice_take by lia; exact Pdata).
  change UDP_HDR_SRCPORT1 with 20. by rewrite F1, F2, F3.
Qed.
End reception.

(** ** The way down *)

Section sending.
Context {H : Type} {HA : Allocator H} {L : Type} {LL : LinkLayer L}.
Implicit Types (s : net L (ports H)).

(** The lock taken and given back. *)
Definition locked (l : mtx) s : net L (ports H) :=
  with_user (with_lock l (with_heap (heap (user s)) (user s))) s.

Lemma lock_run fuel s : uudplock (user s) = 0 -> on_user (on_lock (hf_mtxlock (S fuel))) s = Ok (tt, locked 1 s).
Proof.
  intros E. apply on_user_run. unfold on_lock. rewrite E, hf_mtxlock_free. cbn. unfold locked.
  by destruct (heap (user s)).
Qed.

Lemma unlock_run s : on_user (on_lock hf_mtxunlock) s = Ok (tt, locked 0 s).
Proof. apply on_user_run. unfold on_lock, locked. by destruct (user s) as [[irq h]]. Qed.

(** The last attempt, the one that sends. *)
Lemma send_loop_sent delay_ms n comm dst dp len s x v s' : comms (user s) !! comm = Some x ->
  udp_out dst (listen_port x) dp (len + 8) s = Ok (v, s') -> v <> 0 ->
  send_loop delay_ms n comm dst dp len s = Ok (v, s').
Proof.
  intros Hx E Hv. destruct n; cbn [send_loop];
    (rewrite (ST_bind_Ok _ _ _ x s) by (unfold on_user, comm_at; rewrite Hx; by destruct s));
    unfold UDP_HEADER_SIZE; st_step E; by destruct (Z.eqb_spec v 0).
Qed.

Lemma send_loop_again delay_ms n comm dst dp len s x s1 s2 : comms (user s) !! comm = Some x ->
  udp_out dst (listen_port x) dp (len + 8) s = Ok (0, s1) -> delay_ms UUDP_DELAY_ON_RETRY s1 = Ok (tt, s2) ->
  send_loop delay_ms (S n) comm dst dp len s = send_loop delay_ms n comm dst dp len s2.
Proof.
  intros Hx E1 E2. cbn [send_loop].
  rewrite (ST_bind_Ok _ _ _ x s) by (unfold on_user, comm_at; rewrite Hx; by destruct s).
  unfold UDP_HEADER_SIZE. st_step E1. change (0 =? 0) with true. cbv iota. by st_step E2.
Qed.

(** [hf_uudp_send] puts the data into the frame and runs the attempts. *)
Lemma hf_uudp_send_run delay_ms fuel comm dst dp data s : uudplock (user s) = 0 ->
  zlen data <= max_udp -> 42 + zlen data <= zlen (frame s) ->
  exists F, zlen F = zlen (frame s) /\ (bytes (frame s) -> bytes data -> bytes F)
    /\ slice F 42 (zlen data) = Ok data
    /\ forall v s', send_loop delay_ms UUDP_RETRIES comm dst dp (zlen data) (with_frame F (locked 1 s)) = Ok (v, s') ->
       hf_uudp_send (S fuel) delay_ms comm dst dp data (zlen data) s = Ok (v, locked 0 s').
Proof.
  intros Hl Hmax HL. pose proof (zlen_nonneg data).
  edestruct (write_run (locked 1 s) [(42, data)]) as (F & E & LF & G & B).
  { unfold fits. apply Forall_cons; [cbn [fst snd frame locked with_user]; lia|apply Forall_nil]. }
  cbn [frame locked with_user] in LF, G, B. exists F. split; [done|].
  split; [intros Hf Hd; apply B; [done|]; apply Forall_cons; [done|apply Forall_nil]|]. split.
  { apply slice_Ok; [lia|done|lia|]. intros i Hi. rewrite G. cbn [flat fmap list_fmap concat].
    rewrite app_nil_r, last_store_stores. destruct (Z.ltb_spec (42 + i) 42); [lia|].
    replace (42 + i - 42) with i by lia. by destruct (zget_is_Some data i Hi) as [b ->]. }
  intros v s' Es. unfold hf_uudp_send. change (PACKET_SIZE - ETH_HEADER_SIZE - UDP_HEADER_SIZE) with max_udp.
  destruct (Z.ltb_spec max_udp (zlen data)); [lia|]. st_step (lock_run fuel s Hl).
  assert (Esl : slice data 0 (zlen data) = Ok data)
    by (apply slice_Ok; [lia|done|lia|]; intros i _; by rewrite Z.add_0_l).
  st_step (lift_run _ (locked 1 s) _ Esl). ofs. st_step E. st_step Es. st_step (unlock_run s'). done.
Qed.
End sending.

(** ** From one application to the other *)

Section delivery.
Context {H1 H2 : Type} {HA1 : Allocator H1} {HA2 : Allocator H2} {HL2 : AllocatorLaws H2}.
Implicit Types (s : net (list (list Z)) (ports H1)) (r : net (list (list Z)) (ports H2)) (p : pstate).

(** The sender: an object with a port number, the lock free, room in the
    buffer for the largest frame, and an address cache without the receiver,
    which is on the same network. *)
Record sender s (comm : Z) (x : uudp) (dst : list Z) : Prop := {
  sd_host : host_ok s;
  sd_link : link s = [];
  sd_lock : uudplock (user s) = 0;
  sd_comm : comms (user s) !! comm = Some x;
  sd_number : 0 <= listen_port x < 65536;
  sd_unknown : unresolved s dst;
  sd_near : next_hop s dst = dst;
  sd_index : 0 <= arp_index s < 16;
  sd_frame : PACKET_SIZE <= zlen (frame s);
}.

(** Answering a request leaves a receiver ready. *)
Lemma receiver_answered r ns pre p post fuel R G l : receiver r ns pre p post fuel -> zlen G = zlen (frame r) ->
  bytes G -> receiver (with_link l (with_frame G (with_frame R r))) ns pre p post fuel.
Proof.
  intros [[] Hcf Hfr Hcb Hw Hf Hnum Hres Hfree Hnil] LG BG. constructor; try done; cbn; lia.
Qed.

(** C32: an application sends data to a port of a host whose address it has never
    seen. The first attempt asks for the address instead; while the sender
    waits, the receiver answers and the answer is learned; the second attempt
    sends the datagram, its data having survived the request in the frame
    buffer; and the receiver's network service queues it, so that the
    application at the port receives the data with the sender's address and
    port. The lock is free again. *)
Theorem datagram_received s r ns pre p post (fuel1 fuel2 : nat) comm x data buf :
  receiver r ns pre p post fuel2 -> link r = [] -> sender s comm x (myip r) ->
  bytes data -> 42 + zlen data <= PACKET_SIZE -> bytes buf -> 42 <= zlen buf ->
  exists F s0 req s' r1 fr r2 w',
    udp_out (myip r) (listen_port x) (ps_port p) (zlen data + 8) (with_frame F (locked 1 s)) = Ok (0, s0)
    /\ link s0 = [req] /\ service_turn (with_link [req] r) = Ok (tt, r1)
    /\ hf_uudp_send (S fuel1) (fun _ => exchange r buf) comm (myip r) (ps_port p) data (zlen data) s
       = Ok (zlen data + 42, s')
    /\ link s' = [fr] /\ uudplock (user s') = 0
    /\ service_turn (with_link [fr] (with_link [] r1)) = Ok (tt, r2)
    /\ hf_uudp_recv (ps_comm p) (user r2) = Ok ((zlen data, Some (myip s, listen_port x, data)), w').
Proof.
  intros Hrc Lr [Hs Ls Hlk Hx Hsp Hun Hnear Hidx HLs] Hdb Hdata Hbb Hbl.
  pose proof (zlen_nonneg data) as Hd0. pose proof (rc_host _ _ _ _ _ _ Hrc) as Hr.
  pose proof (rc_frame _ _ _ _ _ _ Hrc) as Hfr. pose proof (rc_number _ _ _ _ _ _ Hrc) as Hdp.
  unfold PACKET_SIZE in *.
  destruct (hf_uudp_send_run (fun _ => exchange r buf) fuel1 comm (myip r) (ps_port p) data s Hlk)
    as (F & LF & BF & Fd & Hsend); [unfold max_udp, PACKET_SIZE, ETH_HEADER_SIZE, UDP_HEADER_SIZE; lia|lia|].
  specialize (BF (ho_frame _ Hs) Hdb). set (s1 := with_frame F (locked 1 s)) in *.
  destruct (udp_out_run (myip r) (listen_port x) (ps_port p) (zlen data + 8) s1)
    as (F1 & E1 & Hu1 & L1 & B1 & G1); try apply Hs; try apply Hr; try done; [lia|cbn; lia|].
  cbn [frame s1 with_frame] in L1, G1.
  destruct (netif_send_asks (with_frame F1 s1) (myip r) (zlen data + 8 + 20))
    as (F2 & E2 & Ha2 & L2 & B2 & G2); try apply Hs; try done.
  { apply Hu1. }
  { change (next_hop (with_frame F1 s1) (myip r)) with (next_hop s (myip r)). rewrite Hnear. apply Hr. }
  { change (next_hop (with_frame F1 s1) (myip r)) with (next_hop s (myip r)). rewrite Hnear. apply Hr. }
  { cbn. lia. }
  change (next_hop (with_frame F1 s1) (myip r)) with (next_hop s (myip r)) in Ha2. rewrite Hnear in Ha2.
  cbn [frame with_frame] in L2, G2. rewrite E2 in E1.
  set (s2 := with_link (en_ll_output F2 56 (link (with_frame F1 s1))) (with_frame F2 (with_frame F1 s1))) in *.
  assert (Lk2 : link s2 = [take 56 F2]) by (cbn; by rewrite Ls).
  destruct (exchange_resolves s2 r F2 buf Lk2 Ha2) as (c & n & R & G & E3 & E4 & LG & BG & Hres);
    try done; try lia.
  set (s3 := with_link [] (with_arp c n s2)) in *.
  set (r1 := with_link [take 42 G] (with_frame G (with_frame R r))) in *.
  assert (Hs3 : host_ok s3) by (destruct Hs; constructor; done).
  assert (Fd3 : slice (frame s3) 42 (zlen data) = Ok data).
  { cbn [frame s3 s2 with_link with_arp with_frame]. eapply slice_ext; [exact Fd|lia|]. intros i Hi.
    rewrite G2, G1 by lia. done. }
  destruct (datagram_to_port s3 (with_link [] r1) data (listen_port x) ns pre p post fuel2)
    as (s4 & fr & r2 & w' & E5 & Lk5 & E6 & E7); try done.
  { by apply receiver_answered. }
  { cbn [frame s3 s2 with_link with_arp with_frame]. lia. }
  exists F, s2, (take 56 F2), (locked 0 s4), r1, fr, r2, w'. split_and!; try done.
  apply Hsend. change UUDP_RETRIES with (S 4).
  rewrite (send_loop_again _ _ _ _ _ _ s1 x s2 s3 Hx E1 E3).
  apply (send_loop_sent _ _ _ _ _ _ s3 x); [done|exact E5|lia].
Qed.
End delivery.
