(* ===== verification/UudpDemo.v ===== *)
(** * UDP ports on two small hosts

    Two hosts with a heap of 8 kB and one port each, on which the theorems
    about UDP ports are tried, and runs of the code on packets it does not
    expect. *)

From S2P Require Import Prelude Words Alloc Mutex Malloc Queue LinkedList Ustack Arp Uudp UudpPorts UudpDelivery.

(** ** The hosts *)

Definition heap_of (base len : Z) : Malloc.heap :=
  match heapinit base len (0, Heap (words base (Z.to_nat (len / 4))) 0 0 0 0) with
  | Ok (_, (_, h)) => h
  | _ => blank_heap
  end.

Definition blank_frame : list Z := replicate 1518 0.

(** A host with one object, at address [c], that was never opened. *)
Definition closed_host (ip mac : list Z) (c len : Z) : net (list (list Z)) (ports Malloc.heap) :=
  Net ip [255; 255; 255; 0] [192; 168; 5; 254] mac (replicate 16 (ArpEntry [0; 0; 0; 0] (replicate 6 0))) 0 None
    (Ports (1, heap_of 4096 len) {[c := Uudp 0 0 0]} ∅ ∅ 0 0 0) blank_frame [].

Definition open_on (s : net (list (list Z)) (ports Malloc.heap)) (c port qsize : Z) :
    outcome (Z * net (list (list Z)) (ports Malloc.heap)) :=
  hf_uudp_create (fun _ => None) (fun _ => 0) 9 c port qsize s.
Lemma open_on_eq s c port qsize :
  open_on s c port qsize = hf_uudp_create (fun _ => None) (fun _ => 0) 9 c port qsize s.
Proof. reflexivity. Qed.

Definition opened_host (ip mac : list Z) (c port qsize : Z) : net (list (list Z)) (ports Malloc.heap) :=
  match open_on (closed_host ip mac c 8192) c port qsize with
  | Ok (_, s) => s
  | _ => closed_host ip mac c 8192
  end.

Definition udp_a : net (list (list Z)) (ports Malloc.heap) := opened_host ip_a mac_a 100 4000 1.
Definition udp_b : net (list (list Z)) (ports Malloc.heap) := opened_host ip_b mac_b 200 5000 2.

Lemma closed_heap_ok : heap_ok (heap_of 4096 8192).
Proof.
  destruct (heapinit_wf 0 (Heap (words 4096 2048) 0 0 0 0) 4096 8192) as (h & E & W);
    [lia|reflexivity|lia|reflexivity|lia|by apply (words_mapped 4096 2048)|].
  unfold heap_of. change (Z.to_nat (8192 / 4)) with 2048%nat. rewrite E. by eexists _, _, _.
Qed.

Lemma closed_ready ip mac c : ready 9 (closed_host ip mac c 8192) [] [].
Proof. split; [exact closed_heap_ok|done]. Qed.

(** The number of the error, or of none. *)
Definition open_status {A : Type} (o : outcome (Z * A)) : Z := match o with Ok (r, _) => r | _ => 1 end.

(** A host that opened its port waits at it. *)
Lemma opened_host_ports ip mac c port qsize :
  open_status (open_on (closed_host ip mac c 8192) c port qsize) = 0 -> 0 < port < 65536 -> 0 <= qsize <= 9 ->
  exists ns p, ports_rep (user (opened_host ip mac c port qsize)) ns ([] ++ p :: []) /\ (length ns < 9)%nat
    /\ abstract_port p = APort c port qsize [] /\ callback (opened_host ip mac c port qsize) = Some (callback_fn 9).
Proof.
  intros Hst Hp Hq. unfold opened_host.
  destruct (hf_uudp_create_run (fun _ => None) (fun _ => 0) 9 (closed_host ip mac c 8192) [] [] c port
    (Uudp 0 0 0) qsize (closed_ready ip mac c)) as (r & s & E & Hc);
    [cbn; lia|reflexivity|unfold max_create_size; lia|lia|apply lookup_insert_eq|apply not_elem_of_nil|].
  rewrite <- open_on_eq in E. rewrite E in *. clear E.
  cbn [open_status] in Hst. subst r. destruct Hc as [(Hcb & n & Ho & Hn)|[Hbad _]]; [|discriminate Hbad].
  destruct (Z.eqb_spec port 0); [lia|]. subst n. inversion Ho as [ns p Hw Ha Hr| | |].
  exists ns, p. split; [exact Hw|]. split; [|by split].
  pose proof (rep_zlen _ _ _ _ (po_list _ _ _ Hw)) as Hl. unfold zlen in Hl. cbn in Hl. lia.
Qed.

Lemma udp_b_ports : exists ns p, ports_rep (user udp_b) ns ([] ++ p :: []) /\ (length ns < 9)%nat
  /\ abstract_port p = APort 200 5000 2 [] /\ callback udp_b = Some (callback_fn 9).
Proof. apply opened_host_ports; [vm_compute; reflexivity|lia|lia]. Qed.

Lemma udp_b_receiver : exists ns p, receiver udp_b ns [] p [] 9 /\ ps_comm p = 200 /\ ps_port p = 5000.
Proof.
  destruct udp_b_ports as (ns & p & Hw & Hn & Ha & Hcb). exists ns, p.
  injection Ha as Hc Hp Hf Hk. split; [|split; assumption]. constructor.
  - constructor; [vm_compute; reflexivity|vm_compute; reflexivity|by apply bytesb_spec; vm_compute
      |by apply bytesb_spec; vm_compute|by apply bytesb_spec; vm_compute].
  - vm_compute. reflexivity.
  - vm_compute. discriminate.
  - exact Hcb.
  - exact Hw.
  - exact Hn.
  - lia.
  - rewrite Hp. split; discriminate.
  - intros E. rewrite E in Hf. discriminate Hf.
  - destruct (ps_pkts p); [reflexivity|discriminate Hk].
Qed.

Lemma udp_a_sender : sender udp_a 100 (Uudp 4000 4136 4180) ip_b.
Proof.
  constructor.
  - constructor; [vm_compute; reflexivity|vm_compute; reflexivity|by apply bytesb_spec; vm_compute
      |by apply bytesb_spec; vm_compute|by apply bytesb_spec; vm_compute].
  - vm_compute. reflexivity.
  - vm_compute. reflexivity.
  - vm_compute. reflexivity.
  - cbn. lia.
  - unfold unresolved. split_and!; vm_compute; reflexivity.
  - vm_compute. reflexivity.
  - vm_compute. split; [discriminate|reflexivity].
  - vm_compute. discriminate.
Qed.

(** ** The theorems at work *)

Example datagram_received_witness :
  exists F s0 req s' r1 fr r2 w',
    udp_out ip_b 4000 5000 13 (with_frame F (locked 1 udp_a)) = Ok (0, s0)
    /\ link s0 = [req] /\ service_turn (with_link [req] udp_b) = Ok (tt, r1)
    /\ hf_uudp_send 9 (fun _ => exchange udp_b blank_frame) 100 ip_b 5000 demo_data 5 udp_a = Ok (47, s')
    /\ link s' = [fr] /\ uudplock (user s') = 0
    /\ service_turn (with_link [fr] (with_link [] r1)) = Ok (tt, r2)
    /\ hf_uudp_recv 200 (user r2) = Ok ((5, Some (myip udp_a, 4000, demo_data)), w').
Proof.
  destruct udp_b_receiver as (ns & p & Hrc & Ec & Ep).
  assert (Ei : myip udp_b = ip_b) by (vm_compute; reflexivity).
  destruct (datagram_received udp_a udp_b ns [] p [] 8 9 100 (Uudp 4000 4136 4180) demo_data blank_frame Hrc)
    as (F & s0 & req & s' & r1 & fr & r2 & w' & E).
  - vm_compute. reflexivity.
  - rewrite Ei. exact udp_a_sender.
  - apply bytesb_spec. vm_compute. reflexivity.
  - vm_compute. discriminate.
  - apply bytesb_spec. vm_compute. reflexivity.
  - vm_compute. discriminate.
  - rewrite Ei, Ec, Ep in E. exists F, s0, req, s', r1, fr, r2, w'. exact E.
Defined.

(** A packet for the port, with its IP and UDP headers, and two bytes. *)
Definition demo_packet (port x : Z) : list Z :=
  [69; 0; 0; 30; 0; 0; 0; 0; 64; 17; 0; 0] ++ ip_a ++ ip_b ++ [15; 160; hi8 port; lo8 port; 0; 10; 0; 0; x; x]
    ++ replicate 30 0.

(** Three packets for two buffers: the third is dropped, as is one for a port
    nobody opened; the two are received in order. *)
Definition demo_ops : list uop :=
  [Arrive (demo_packet 5000 7); Arrive (demo_packet 6000 6); Arrive (demo_packet 5000 8);
   Arrive (demo_packet 5000 9); Receive 200; Receive 200; Receive 200].


Example uudp_create_destroy_witness : exists r s',
  hf_uudp_create (fun _ => None) (fun _ => 0) 9 200 5000 2 (closed_host ip_b mac_b 200 8192) = Ok (r, s') /\
    ((r = ERR_OUT_OF_MEMORY /\ ready 9 s' [] [])
     \/ (callback s' = Some (callback_fn 9) /\ exists n, (if 5000 =? 0 then 49152 <= n < 65535 else n = 5000)
        /\ opened [] 200 n 2 (user s') r
        /\ (r = ERR_OK -> exists w ns', hf_uudp_destroy 9 200 (user s') = Ok (ERR_OK, w) /\ ports_rep w ns' []))).
Proof.
  apply (uudp_create_destroy (fun _ => None) (fun _ => 0) 9 (closed_host ip_b mac_b 200 8192) [] [] 200 5000 2
    (Uudp 0 0 0)).
  - exact (closed_ready ip_b mac_b 200).
  - cbn. lia.
  - reflexivity.
  - unfold max_create_size. lia.
  - lia.
  - reflexivity.
  - apply not_elem_of_nil.
  - discriminate.
Defined.

(** ** What the code does not expect *)

(** The IP length of a packet is not compared with the size of the buffer it
    is copied to. *)
Example long_packet_overruns :
  udp_callback 9 ([69; 0; 5; 240] ++ drop 4 (demo_packet 5000 7) ++ replicate 1600 0) (user udp_b) = Fault.
Proof. vm_compute. reflexivity. Qed.

(** A datagram whose UDP length is refused takes its buffer with it: after two
    of them the port receives nothing any more. *)
Definition oversized (port : Z) : list Z :=
  take 24 (demo_packet port 7) ++ [6; 0] ++ drop 26 (demo_packet port 7).
Example refused_datagrams_leak :
  match u_calls 9 [Arrive (oversized 5000); Receive 200; Arrive (oversized 5000); Receive 200;
                   Arrive (demo_packet 5000 7); Receive 200] (user udp_b) with
  | Ok (rs, _) => fst <$> rs
  | _ => []
  end = [0; -1; 0; -1; 0; 0].
Proof. vm_compute. reflexivity. Qed.

(** A UDP length below that of its header is not refused: the length left to
    copy is negative. *)
Example short_datagram_faults :
  match udp_callback 9 (take 25 (demo_packet 5000 7) ++ [4] ++ drop 26 (demo_packet 5000 7)) (user udp_b) with
  | Ok (_, w) => match hf_uudp_recv 200 w with Fault => true | _ => false end
  | _ => false
  end = true.
Proof. vm_compute. reflexivity. Qed.

(** The largest length that [hf_uudp_send] accepts does not fit the frame: the
    IP header is not counted. *)
Example long_send_overruns :
  max_udp = 1496
  /\ hf_uudp_send 9 (fun _ => exchange udp_b blank_frame) 100 ip_b 5000 (replicate 1496 0) 1496 udp_a = Fault.
Proof. split; vm_compute; reflexivity. Qed.

(** When memory ends with the queues the port stays registered without them,
    and a packet for it goes through a NULL pointer. *)
Example broken_port_faults :
  match open_on (closed_host ip_b mac_b 200 96) 200 5000 40 with
  | Ok (r, s) =>
      (r, free_buffers <$> (comms (user s) !! 200),
       match udp_callback 9 (demo_packet 5000 7) (user s) with Fault => true | _ => false end)
  | _ => (0, None, false)
  end = (ERR_OUT_OF_MEMORY, Some 0, true).
Proof. vm_compute. reflexivity. Qed.

(** Opening an object that is open already changes its port number, and then
    finds the number taken, by itself. *)
Example reopened_port_moves :
  match open_on udp_b 200 7000 2 with
  | Ok (r, s) => (r, listen_port <$> (comms (user s) !! 200))
  | _ => (0, None)
  end = (ERR_ERROR, Some 7000).
Proof. vm_compute. reflexivity. Qed.
